(* ===== verification/_CoqProject ===== *)
-Q . S2P
Prelude.v
JsNumber.v
Effects.v
RepositoryLaws.v
NumberLaws.v
JsData.v
Json.v
ThirdParty.v
Currencies.v
Entities.v
World.v
CoreCalls.v
WithTransaction.v
Lifecycle.v
Wallets.v
PostingRules.v
Accounts.v
QueryBuilder.v
Fees.v
Limits.v
Transactions.v
Disputes.v
Support.v
TransactionLaws.v
TransactionTheorems.v
Fx.v
Referrals.v
Auth.v
AuthTheorems.v
Guards.v
Network.v
Webhooks.v
Otp.v
PasswordReset.v
RefreshTokens.v
Idempotency.v
RateLimits.v
Kyc.v
Access.v
RateAlerts.v
Closure.v
Rates.v
Aml.v
FeeRules.v
Spending.v
Ledger.v
Bulk.v
Jobs.v
ModuleAuth.v
Admin.v
Exports.v
Encryption.v
ActivityFeed.v
Config.v
Configuration.v
Statements.v
Notifications.v
Mail.v
Directory.v
Reports.v
KycTiers.v
Subscriptions.v
Schema.v
Migrations.v
Seed.v
Dto.v
Routes.v
Metrics.v
BalanceCache.v
Streams.v
Payments.v
Edge.v
Api.v
Handlers.v
