(* ===== verification/Prelude.v ===== *)
(** * NexaFx, a currency-exchange backend, in Rocq

    NexaFx is a NestJS server: wallets in several currencies, transfers,
    deposits, withdrawals, swaps and FX trades between them, and around these
    the accounts, limits, referrals, tokens, guards and webhooks of such a
    platform.  This library models the services of src/src/ that decide and
    that move money, method by method, and proves what they guarantee; where
    a service does not do what it means to, a theorem states what it does.

    ** How the program is put together, and how the model follows it

    A controller calls a service; a service reads and writes TypeORM
    repositories, calls other services, and emits events.  Every service
    method is a definition with the method's name, in a [Module] with the
    class's name; its guards are the code's conditions in the code's order.

    - [M S A] ([Effects]) is an [async] method: a function from the state to a
      value or a thrown exception, together with the state.  What was written
      before a [throw] stays written.  [try_catch], [try_finally], [throw_if]
      and [for_each] are the statements of the language.
    - [Env] ([Effects]) is what a run does not control: the clock, identifiers,
      random draws, and for each call that leaves the process (database, mail,
      network) whether it fails and with which exception.  These are functions
      of the number of calls made so far, so a theorem about all environments
      covers every interleaving of failures.  Emitted events and sent mails
      are appended to its [outbox].
    - A [Table] ([Effects]) is the list of rows of an entity ([Row]: its primary
      key, generated columns, soft-delete column, unique indexes).  [save],
      [findOne], [find_desc], [update_rows], [delete_rows] are the repository
      calls, [rollback_table] and [transaction_local] what a rollback undoes.
    - [World] ([World]) holds the tables of the core services, the in-memory
      maps the services keep between requests (cache of rates, daily and
      monthly totals, used refresh tokens, ...), and [World.background]: calls
      started without [await].  A component with tables nobody else uses has a
      store of its own ([WebhookStore], [KycStore], [DisputeStore], ...); one
      that also calls the core services holds a [World] in it and calls them
      through [CoreCalls].
    - Services move money through one interface, the class [WalletsApi]
      ([Wallets]): [adjustBalance] posts exactly one delta or leaves the
      balances alone.  [wallets.service.ts] is proved to be an instance, and
      transactions, trades and referrals are proved against the class.
    - Rows that only change along a state machine (KYC documents, disputes,
      tickets, closures, approvals, bulk payments) share one theory of life cycles
      ([Lifecycle]): a step relation, the handlers that keep to it, and what
      holds of every run.
    - A request comes in through [Routes]: the route it is dispatched to, the
      guards it passes, the pipes its values go through ([Dto]: the class of its
      body), and what the handler does, a call of a service, statements run by
      [execute], or a body of its own ([Handlers]).  [Api] joins this to
      [Wallets] and [Transactions]: a request is followed from its JSON to the
      tables.

    ** Files

    Foundations:
    - [Prelude]: tactics, field assignment [r <| f := v |>], strings.
    - [JsNumber]: JavaScript numbers as binary64 values with every rounding,
      [toFixed], [Number(string)], printing; [NumberLaws]: their laws.
    - [JsData]: strings, dates, Maps; [Json]: JSON.stringify and objects.
    - [Lifecycle]: state machines of rows; [CoreCalls]: calls of the core services
      from a component with tables of its own.
    - [Effects]: exceptions, JSON, environment, monad, repositories, weakest
      preconditions [wp] and two-state frames [keeps]; [RepositoryLaws]: the
      proof rules of all of these, with the hints that automate them.
    - [ThirdParty]: the packages the code calls, as classes.
    - [QueryBuilder]: filtered, ordered, paged queries.
    - [WithTransaction]: common/helpers/with-transaction.helper.ts.

    Data and state:
    - [Currencies]: currencies/ (codes, issuers).
    - [Entities]: the entities of users/, terms/, wallet/, transactions/,
      fees/, audit/, referral/, fx/ and modules/user-deactivation/, fee-audit/.
    - [World]: the shared state.

    Money:
    - [Wallets]: wallet/wallets.service.ts; [PostingRules]: rules for clients.
    - [Fees], [FeeRules]: fees/, modules/fee-audit/, fee-tiers/, modules/fee/.
    - [Limits]: exchange-rate.service.ts, transaction-limit.service.ts,
      large-withdrawal.guard.ts; [Rates]: exchange-rates/.
    - [Transactions], [TransactionLaws], [TransactionTheorems]:
      transactions/transactions.service.ts.
    - [Fx]: fx/; [Referrals]: referral/; [Spending]: spending/.
    - [Bulk]: bulk-payments/ and the roll back of modules/transactions/.
    - [Ledger]: ledger/, reconciliation/; [Statements]: statements/.
    - [Payments]: payments/ and the decisions of stellar/stellar.service.ts.
    - [Directory]: modules/stellar-federation/, beneficiaries/.

    Accounts and who may act:
    - [Accounts]: users.service.ts, terms-acceptance.service.ts,
      user-deactivation.service.ts, audit.service.ts; [BalanceCache]: the cache
      of balances of users.service.ts under concurrent calls.
    - [Auth], [AuthTheorems]: auth/auth.service.ts; [ModuleAuth]: modules/auth/.
    - [Otp], [PasswordReset], [RefreshTokens]: the secrets sent to a user.
    - [Guards], [Network], [Access]: guards, password policy, addresses, frozen
      accounts, API keys, plans, backup codes.
    - [Kyc], [KycTiers]: kyc/, modules/kyc-tiers/; [Aml]: aml/.
    - [Closure]: account closure and purge; [Admin]: admin/.
    - [Encryption]: sealed texts and the rotation of their keys.

    Requests, messages and jobs:
    - [Dto]: the classes of all bodies and queries with their decorators, and
      the validation pipe of main.ts.
    - [Routes]: every controller, app.module.ts, main.ts; [Handlers]: handlers
      with bodies of their own, exports; [Api]: the money routes end to end.
    - [Edge]: the exception filter, blocked countries, flags, the chain behind its
      circuit breaker.
    - [Idempotency], [RateLimits]: idempotency/, modules/rate-limit/,
      modules/endpoint-rate-limit/.
    - [Webhooks], [Subscriptions]: webhooks/, modules/webhooks/.
    - [Disputes], [Support]: disputes and tickets; [RateAlerts]: rate-alerts/.
    - [ActivityFeed], [Notifications], [Streams]: the feed, preferences, push,
      alerts to administrators, queue workers, sockets.
    - [Mail]: the templates of mail/ and the mails made of them.
    - [Jobs]: scheduled-jobs/, archival/; [Exports], [Reports], [Metrics].

    Database and configuration:
    - [Schema]: what statements of the migrations do to a database, and the
      runner; [Migrations]: database/migrations/; [Seed]: database/seeds/.
    - [Config]: config/env.validation.ts; [Configuration]:
      config/configuration.ts, what the services get.

    ** What the theorems show

    - Money.  [Wallets]: [adjustBalance] refines an abstract ledger in whole
      cents, posts exactly its delta, and every interleaving of wallet
      requests keeps the table well formed.  [TransactionTheorems]: a settled
      transfer conserves money; every ending of a transfer, withdrawal, swap,
      cancellation and reversal, failures included, is one of a stated list; a
      transaction is reversed at most once; a refund restores the balance in
      whole cents.  [Fx] and [Referrals]: the same for trades and rewards.
    - Limits.  Over any sequence of checks and resets each daily and monthly
      total is the sum of the checks that passed under it and stays within its
      limit ([Limits]).
    - Secrets.  What a login has checked, what a rotation accepts
      ([AuthTheorems]); codes verify once and guesses are bounded ([Otp],
      [PasswordReset]); refresh tokens rotate once ([RefreshTokens]).
    - Network.  The 32-bit arithmetic of the allow-list is a comparison of
      address prefixes, and the webhook address check is a statement about
      octets ([Network]); which endpoints can be created and how a delivery
      can end ([Webhooks]).
    - Requests.  What a request that is answered has passed, which routes can
      be reached, which act for anybody ([Routes]); a validated body has the
      declared types but for listed properties ([Dto]); an adjustment over HTTP
      posts exactly its validated delta, whatever requests with arguments of the
      declared types come the wallets stay well formed, and neither does a
      balance change nor a call reach the money services without a session
      ([Api]); a request with an
      idempotency key runs once ([Idempotency]); windows bound the traffic
      ([RateLimits]); what an error tells ([Edge]).
    - Life cycles.  Documents follow their review, tiers only climb, stale
      disputes close unless they were escalated, approvals take two
      administrators where these are known - over HTTP they are not ([Kyc],
      [KycTiers], [Disputes], [Admin]).
    - Messages.  An event reaches every subscriber, every completed transfer
      the feed, a client that reconnects what it missed since the last millisecond
      it heard of; alerts are bounded
      ([Subscriptions], [ActivityFeed], [Streams], [Notifications]); no mail
      made of templates carries markup of a user's ([Mail]).
    - Concurrency.  One fetch of balances at a time for a user, whatever
      interleaves ([BalanceCache]); requests under one key ([Idempotency]).
    - Accounting.  Statements chain, exports are complete unless rows of one
      instant fall across their pages, archiving moves old rows only, bulk payments account
      for every item, metrics and reports summarise what was recorded
      ([Statements], [Exports], [Jobs], [Bulk], [Metrics], [Reports]); the comparison of
      balances reports what is off ([Ledger]).
    - Database.  The migrations apply, every history of runs and reversals can
      be completed, which reversals restore and which one cannot succeed
      ([Migrations]); seeding twice is seeding once ([Seed]).
    - Round trips.  Sealed texts survive the rotation of keys ([Encryption]), an
      exported table reads back ([Exports]), reversed migrations restore.
    - Configuration.  A validated environment has the types the code reads
      ([Config]), and the settings the services get agree with it
      ([Configuration]).
    - Handlers.  A new beneficiary waits a day from the first request for it,
      exported tables read back, and what has no effect: addresses that are never
      refused, contracts that are never called ([Handlers]).
    - Behaviour the code did not mean, each a concrete run or a statement of
      every run: deposits never succeed, a negative withdrawal credits the
      caller, no account is ever locked, a transfer can lose its debit, a swap
      can credit repeatedly, a failed reversal moves money, an unfunded trade
      creates money, a reward can be paid twice, an exhausted delivery stays
      due, a NaN amount switches the limits off, a refund can create a cent,
      anyone adjusts anyone's balance, the first migration cannot be reverted,
      administrators act anonymously, invalidated balances come back.

    ** Bounds and fuel

    Recursion is structural wherever the code loops over data.
    [TransactionsService.swap_loop] takes the number of rounds of the code's
    [for] loop, always [MAX_RETRIES] = 3, so its fuel is the loop's own bound.
    Printing a number uses fuels that cover binary64: 400 decimal digits or
    zeros (the range is 10^-324 to 10^308), and 17 significant digits, which
    suffice for every double.  Bit operations of the code are those on signed
    32-bit integers, written with their wrap-around.

    The batches of an export and of the archival ([Exports], [Jobs]) take a fuel;
    a theorem of each says that enough for the rows there are ends.  Repeated runs of
    a job or of a reversal ([runs], [reverts]) take the number of times.

    ** Assumptions

    - Strings are ASCII; dates are read in UTC; money, rate and counter columns
      are of the declared type, [number]: binary64 values that the database
      returns as it was given them.
    - A request runs without interleaving with another one, except the calls
      it does not await: those in [World.background] run later, in any order.
      The unawaited write of the fee audit is attempted where it is started.
    - TypeORM: an undefined field of an update is left alone, an empty array of
      conditions selects every row; whether a deletion by an undefined
      condition selects everything is a parameter ([drops_undefined]).
    - Two entities that declare one table have a table each (support_tickets,
      transactions) but for disputes, where the rows of both are one table with
      the columns of both.  The services assume the tables their
      entities declare; [Migrations] states which columns no migration creates.
    - PostgreSQL's statements and TypeORM's runner of migrations behave as
      documented; casts of data are not modelled.  The groups of a query come in
      the order of their first occurrence.  Redis and the cache manager are maps
      whose entries expire.
    - Dates given as text are those [parse_iso] reads; the date of a statement's
      line is its instant.  Routing ignores case.
    - A body whose type is an interface is not checked at all.  The definitions of
      the services take values of the types they declare; [Api] says which calls
      have them, and [Kyc] and [Admin] also model what is let through: columns a
      body does not declare, administrators without an id.
    - The order of rows that a query does not order is the table's, except where
      pages are cut by it: in [Exports] it is any order, another one each time.
    - The checks of class-validator are a parameter with the documented laws
      ([ClassValidator]), and so is what the pipe makes of a body that is not an
      object; two files of DTOs that import decorators from class-transformer are
      read as they are meant.
    - processAutoSweep has one closing brace too many in the source, and
      configuration.ts one too few, after scheduledJobs; both are read as their
      indentation shows.
    - Parameters, each a class, with an instance where a worked example needs one
      and laws, where proofs use them, in a class of their own: packages and the
      platform ([BigJs], [BigDecimal], [ConfigService], [Crypto], [Digests],
      [ClassValidator], [Handlebars], [Aes256Gcm], [JwtService], [Zod],
      [Radix36], [UrlParser], [TierOverrides], [DownloadTokens], [ProcessEnv],
      [OtpPlatform]), services on the network ([RateProviders], [Horizon],
      [HorizonProbe], [Internet], [Rpc], [Fcm], [Friendbot], [StatementsQueue],
      [ExportsQueue]), files the repository does not have ([FeeRule],
      [AuthUser], [AuthServices], [TierUser], [WebhookPlatform], [AppGuards],
      [ExportSources]), and constants read from the process environment
      ([LimitConstants], [WebhookConstants]).  [fresh_ids] ([RefreshTokens]) and
      [future_ids] ([RepositoryLaws]) say that generated identifiers are none of
      those already in the table.

    ** What is not modelled

    - How an answer is rendered, and the framework's own logging.
    - The modules that app.module.ts imports and the repository does not have.
    - modules/transactions/services/transactions.service.ts beyond the freeze it
      asks for: its search is PostgreSQL's full text, its enrichment and aliases
      are services the repository does not have.
    - Handlers that stream or read queues (status streams, queue monitor, PDF
      downloads): their routes and guards are in [Routes], their bodies are input
      and output.
    - PDF documents, logs, tracing, GraphQL, transaction XDR, and placeholders
      that return constants (claimable balances, hardware wallets).
    - The unconditional [checkDailyLimit], an empty method. *)
From Stdlib Require Export ZArith Lia Strings.Ascii Strings.String.
From stdpp Require Export base tactics list gmap strings.

(** Boolean tests of the source as case splits. *)
Ltac split_if :=
  match goal with
  | |- context [if ?b then _ else _] =>
      lazymatch type of b with
      | bool => destruct b eqn:?
      end
  end.

Ltac split_if_in H :=
  match type of H with
  | context [if ?b then _ else _] =>
      lazymatch type of b with
      | bool => destruct b eqn:?
      end
  end.

(** From a run [E : m s = (r, s')] on a concrete input, what it returned: the
    final state is not evaluated. *)
Ltac eval_result E :=
  let E1 := fresh "E" in
  pose proof (f_equal fst E) as E1; vm_compute in E1;
  first [discriminate E1 | injection E1 as E1 | idtac].

(** ** Assignment to a field of a record

    [r <| f := v |>] is [r] with its field [f] replaced, as the source's
    [r.f = v] on an entity it loaded.  A record takes part by an instance of
    [Settable] that rebuilds it from its projections. *)
Class Settable (R : Type) : Type := rebuild : R -> R.
Class Setter {R T : Type} (f : R -> T) : Type := assign : (T -> T) -> R -> R.
Arguments assign {R T} f {_} _ _ /.

Ltac solve_setter :=
  lazymatch goal with
  | |- @Setter ?R ?T ?f =>
      let i := constr:(_ : Settable R) in
      let body := eval hnf in i in
      lazymatch eval pattern f in body with
      | ?g _ => let res := eval cbv beta in (fun (u : T -> T) (r : R) => g (fun r' => u (f r')) r)
                in exact res
      end
  end.
#[export] Hint Extern 0 (Setter _) => solve_setter : typeclass_instances.

Declare Scope record_scope.
Notation "r <| f := v |>" := (assign f (fun _ => v) r)
  (at level 1, left associativity, format "r  <| f  :=  v |>") : record_scope.
Open Scope record_scope.

(** ** Strings *)

Lemma string_app_empty s : s +:+ "" = s.
Proof. induction s as [|a s IH]; [reflexivity|]. exact (f_equal (String a) IH). Qed.

Lemma string_app_assoc s t u : (s +:+ t) +:+ u = s +:+ (t +:+ u).
Proof. induction s as [|a s IH]; [reflexivity|]. exact (f_equal (String a) IH). Qed.

(** ** Lists *)

Lemma in_firstn {A} (x : A) n l : In x (firstn n l) -> In x l.
Proof. intros Hin. rewrite <- (firstn_skipn n l). apply in_or_app. auto. Qed.

Lemma NoDup_map_filter {A B} (f : A -> B) p l : NoDup (map f l) -> NoDup (map f (List.filter p l)).
Proof.
  induction l as [|x l IH]; simpl; [auto|]. intros Hnd. apply NoDup_cons in Hnd as [Hx Hl].
  destruct (p x); simpl; [|auto]. apply NoDup_cons. split; [|auto].
  intros Hin. apply Hx. apply list_elem_of_In, in_map_iff in Hin as (y & Hy & Hin).
  apply filter_In in Hin as [Hin _]. apply list_elem_of_In, in_map_iff. eauto.
Qed.
