(* ===== verification/JsNumber.v ===== *)
(** JavaScript numbers: IEEE-754 binary64 values with the operations the
    services use.  A number is a value of the Standard Library's [SpecFloat]
    (the executable specification of binary64 arithmetic), so [+], [-], [*],
    [/] round exactly where the code rounds.  On top of it: the comparisons
    ([NaN] included), [Number.prototype.toFixed], [Number(string)] on decimal
    strings, [Number.prototype.toString] (shortest round-trip digits),
    [Math.min], [Math.max], [Math.round], [Math.ceil]. *)
From S2P Require Import Prelude.
From Stdlib Require Import Floats.SpecFloat Numbers.DecimalString.
Local Open Scope Z_scope.

Declare Scope js_num_scope.
Delimit Scope js_num_scope with num.

(** ** The type and its arithmetic *)

Definition num : Type := spec_float.
Bind Scope js_num_scope with num.

Definition prec64 : Z := 53.
Definition emax64 : Z := 1024.

Definition num_add (x y : num) : num := SFadd prec64 emax64 x y.
Definition num_sub (x y : num) : num := SFsub prec64 emax64 x y.
Definition num_mul (x y : num) : num := SFmul prec64 emax64 x y.
Definition num_div (x y : num) : num := SFdiv prec64 emax64 x y.
Definition num_opp (x : num) : num := SFopp x.
Definition num_abs (x : num) : num := SFabs x.

Definition num_nan : num := S754_nan.
Definition num_infinity : num := S754_infinity false.

(** An integer literal (exact up to 2^53, rounded beyond). *)
Definition num_of_Z (z : Z) : num := binary_normalize prec64 emax64 z 0 false.

(** The double nearest to [n / d] (ties to even): what a decimal literal and
    [Number(string)] denote. *)
Definition num_of_ratio (n : Z) (d : positive) : num :=
  match n with
  | Z0 => S754_zero false
  | Zpos p =>
      let '(m, e, l) := SFdiv_core_binary prec64 emax64 (Zpos p) 0 (Zpos d) 0 in
      binary_round_aux prec64 emax64 false m e l
  | Zneg p =>
      let '(m, e, l) := SFdiv_core_binary prec64 emax64 (Zpos p) 0 (Zpos d) 0 in
      binary_round_aux prec64 emax64 true m e l
  end.

(** ** Comparisons: every one of them is false on [NaN] *)

Definition num_eqb (x y : num) : bool := SFeqb x y.
Definition num_ltb (x y : num) : bool := SFltb x y.
Definition num_leb (x y : num) : bool := SFleb x y.

Infix "+" := num_add : js_num_scope.
Infix "-" := num_sub : js_num_scope.
Infix "*" := num_mul : js_num_scope.
Infix "/" := num_div : js_num_scope.
Notation "- x" := (num_opp x) : js_num_scope.
Infix "=?" := num_eqb : js_num_scope.
Infix "<?" := num_ltb : js_num_scope.
Infix "<=?" := num_leb : js_num_scope.
Notation "x >? y" := (num_ltb y x) (only parsing) : js_num_scope.
Notation "x >=? y" := (num_leb y x) (only parsing) : js_num_scope.

Definition is_nan (x : num) : bool :=
  match x with S754_nan => true | _ => false end.

Definition is_finite (x : num) : bool :=
  match x with S754_zero _ | S754_finite _ _ _ => true | _ => false end.

(** Falsy numbers: [0], [-0] and [NaN]. *)
Definition num_truthy (x : num) : bool := negb (is_nan x || num_eqb x (S754_zero false)).

(** [Math.min] and [Math.max] of two arguments: [NaN] is contagious. *)
Definition math_min (x y : num) : num :=
  if is_nan x || is_nan y then num_nan else if num_ltb y x then y else x.
Definition math_max (x y : num) : num :=
  if is_nan x || is_nan y then num_nan else if num_ltb x y then y else x.

(** ** The exact value of a finite number, as a fraction *)

Definition num_fraction (x : num) : option (Z * positive) :=
  match x with
  | S754_zero _ => Some (0, 1%positive)
  | S754_finite s m e =>
      let sg := if s then Zneg m else Zpos m in
      match e with
      | Z0 => Some (sg, 1%positive)
      | Zpos p => Some (sg * 2 ^ Zpos p, 1%positive)
      | Zneg p => Some (sg, (2 ^ p)%positive)
      end
  | _ => None
  end.

(** Round half up on a non-negative fraction; the integer part rounding of
    [toFixed] ("if there are two such n, pick the larger n"). *)
Definition round_half_up (n d : Z) : Z := (2 * n + d) / (2 * d).

(** Half up on the magnitude, sign restored: [toFixed] negates a negative
    argument first. *)
Definition round_half_away (n d : Z) : Z :=
  if n <? 0 then - round_half_up (- n) d else round_half_up n d.

(** [x.toFixed(f)] as the scaled integer [n] of [n / 10^f]; [None] for a
    value that is not finite. *)
Definition to_fixed_scaled (f : nat) (x : num) : option Z :=
  match num_fraction x with
  | Some (n, d) => Some (round_half_away (n * 10 ^ Z.of_nat f) (Zpos d))
  | None => None
  end.

(** ** Decimal strings *)

Definition string_of_N (n : N) : string := NilZero.string_of_uint (N.to_uint n).

Definition string_of_Z (z : Z) : string :=
  if z <? 0 then "-" +:+ string_of_N (Z.to_N (- z)) else string_of_N (Z.to_N z).

Fixpoint string_repeat (s : string) (n : nat) : string :=
  match n with O => "" | S k => s +:+ string_repeat s k end.

(** [s.padStart(n, '0')]. *)
Definition pad_start_zero (n : nat) (s : string) : string :=
  string_repeat "0" (n - String.length s) +:+ s.

(** The decimal [n / 10^f] written with [f] decimals. *)
Definition fixed_string (f : nat) (n : Z) : string :=
  let a := Z.abs n in
  let ip := a / 10 ^ Z.of_nat f in
  let fp := a mod 10 ^ Z.of_nat f in
  (if n <? 0 then "-" else "") +:+ string_of_Z ip +:+
  match f with
  | O => ""
  | _ => "." +:+ pad_start_zero f (string_of_Z fp)
  end.

(** ** Shortest round-trip digits (Number::toString of ECMA-262) *)

(** The number of decimal digits before the point of [a / b] when it is at
    least one, or minus the number of zeros after the point otherwise: the
    [n] of ECMA-262 with 10^(n-1) <= a/b < 10^n. *)
Fixpoint digit_count (fuel : nat) (z : Z) : Z :=
  match fuel with
  | O => 0
  | S k => if z =? 0 then 0 else 1 + digit_count k (z / 10)
  end.

Fixpoint leading_zeros (fuel : nat) (a b : Z) : Z :=
  match fuel with
  | O => 0
  | S k => if b <=? a then 0 else 1 + leading_zeros k (a * 10) b
  end.

Definition decimal_exponent (a b : Z) : Z :=
  if b <=? a then digit_count 400 (a / b) else 1 - leading_zeros 400 a b.

(** [s * 10^e] as a number. *)
Definition num_of_decimal (s e : Z) : num :=
  if 0 <=? e then num_of_ratio (s * 10 ^ e) 1
  else num_of_ratio s (Z.to_pos (10 ^ (- e))).

Fixpoint strip_zeros (fuel : nat) (s : Z) : Z :=
  match fuel with
  | O => s
  | S k => if (s mod 10 =? 0) && negb (s =? 0) then strip_zeros k (s / 10) else s
  end.

(** The first digit count [k] (from [17 - fuel + 1]) whose nearest [k]-digit
    decimal reads back as [x]. *)
Fixpoint shortest_from (fuel : nat) (k : Z) (x : num) (a b n : Z) : Z * Z :=
  let sc := k - n in
  let '(p, q) := if 0 <=? sc then (a * 10 ^ sc, b) else (a, b * 10 ^ (- sc)) in
  let s := round_half_up p q in
  match fuel with
  | O => (s, - sc)
  | S fuel' =>
      if num_eqb (num_of_decimal s (- sc)) x then (s, - sc)
      else shortest_from fuel' (k + 1) x a b n
  end.

(** Digits [s] (no trailing zero) and exponent [e]: [x] prints as the decimal
    [s * 10^e]. Positive finite [x]. *)
Definition shortest_decimal (x : num) : Z * Z :=
  match num_fraction x with
  | Some (a, d) =>
      if a =? 0 then (0, 0)
      else
        let '(s, e) := shortest_from 16 1 (num_abs x) (Z.abs a) (Zpos d)
                         (decimal_exponent (Z.abs a) (Zpos d)) in
        let s' := strip_zeros 20 s in
        (if a <? 0 then - s' else s',
         e + (digit_count 400 s - digit_count 400 s'))
  | None => (0, 0)
  end.

(** The decimal a number prints as, as a fraction: what [new Big(x)] reads. *)
Definition decimal_value (x : num) : Z * Z :=
  let '(s, e) := shortest_decimal x in
  if 0 <=? e then (s * 10 ^ e, 1) else (s, 10 ^ (- e)).

Definition num_to_string (x : num) : string :=
  match x with
  | S754_nan => "NaN"
  | S754_infinity s => if s then "-Infinity" else "Infinity"
  | S754_zero _ => "0"
  | S754_finite sg _ _ =>
      let '(s0, e) := shortest_decimal x in
      let s := Z.abs s0 in
      let digits := string_of_Z s in
      let k := Z.of_nat (String.length digits) in
      let n := k + e in
      (if sg then "-" else "") +:+
      (if (k <=? n) && (n <=? 21) then
         digits +:+ string_repeat "0" (Z.to_nat (n - k))
       else if (0 <? n) && (n <=? 21) then
         String.substring 0 (Z.to_nat n) digits +:+ "." +:+
         String.substring (Z.to_nat n) (Z.to_nat (k - n)) digits
       else if (-6 <? n) && (n <=? 0) then
         "0." +:+ string_repeat "0" (Z.to_nat (- n)) +:+ digits
       else
         (if k =? 1 then digits
          else String.substring 0 1 digits +:+ "." +:+
               String.substring 1 (Z.to_nat (k - 1)) digits) +:+
         "e" +:+ (if 0 <=? n - 1 then "+" else "-") +:+ string_of_Z (Z.abs (n - 1)))
  end.

(** [x.toFixed(f)]: values of magnitude 10^21 and above print with
    [toString]. *)
Definition to_fixed (f : nat) (x : num) : string :=
  if is_finite x && num_ltb (num_abs x) (num_of_Z (10 ^ 21)) then
    match to_fixed_scaled f x with
    | Some n =>
        (* "-0.00" for a negative value that rounds to zero *)
        if num_ltb x (S754_zero false) && (n =? 0)
        then "-" +:+ fixed_string f n
        else fixed_string f n
    | None => num_to_string x
    end
  else num_to_string x.

(** ** [Number(string)] on decimal strings *)

Fixpoint split_at_char (c : Ascii.ascii) (s : string) : string * option string :=
  match s with
  | EmptyString => ("", None)
  | String a s' =>
      if Ascii.eqb a c then ("", Some s')
      else let '(l, r) := split_at_char c s' in (String a l, r)
  end.

Definition parse_digits (s : string) : option Z :=
  match NilEmpty.uint_of_string s with
  | Some u => Some (Z.of_N (N.of_uint u))
  | None => None
  end.

(** An unsigned decimal [digits], [digits.digits]; no exponent form (the code
    parses only what [toFixed] printed). *)
Definition parse_unsigned (s : string) : num :=
  match split_at_char "."%char s with
  | (ip, None) =>
      match ip, parse_digits ip with
      | EmptyString, _ => num_nan
      | _, Some a => num_of_ratio a 1
      | _, None => num_nan
      end
  | (ip, Some fp) =>
      match parse_digits ip, parse_digits fp with
      | Some a, Some b =>
          num_of_ratio (a * 10 ^ Z.of_nat (String.length fp) + b)
                       (Z.to_pos (10 ^ Z.of_nat (String.length fp)))
      | _, _ => num_nan
      end
  end.

Definition number_of_string (s : string) : num :=
  match s with
  | String "-" s' => num_opp (parse_unsigned s')
  | _ => parse_unsigned s
  end.

(** [Number(x.toFixed(f))], also [parseFloat(x.toFixed(f))]. *)
Definition fixed_num (f : nat) (x : num) : num :=
  if is_finite x && num_ltb (num_abs x) (num_of_Z (10 ^ 21))
  then number_of_string (to_fixed f x)
  else x.

(** [Math.round]: the nearest integer, halves towards positive infinity. *)
Definition math_round (x : num) : num :=
  match num_fraction x with
  | Some (n, d) =>
      match x with
      | S754_finite _ _ _ =>
          let r := (2 * n + Zpos d) / (2 * Zpos d) in
          if r =? 0 then S754_zero (n <? 0) else num_of_Z r
      | _ => x
      end
  | None => x
  end.

(** [Math.floor] and [Math.ceil] of a quotient of integers. *)
Definition ceil_div (n d : Z) : Z := - ((- n) / d).

(** ** Laws of the comparisons *)

Lemma num_cmp_sym x y : SFcompare y x = option_map CompOpp (SFcompare x y).
Proof.
  destruct x as [[]|[]| |[] m e], y as [[]|[]| |[] m' e']; try reflexivity; simpl;
    rewrite (Z.compare_antisym e e'); destruct (e ?= e'); try reflexivity;
    simpl; change (Pos.compare_cont Eq) with Pos.compare;
    rewrite (Pos.compare_antisym m m'); destruct (m ?= m')%positive; reflexivity.
Qed.

Lemma num_ltb_irrefl x : num_ltb x x = false.
Proof.
  unfold num_ltb, SFltb. destruct x as [[]|[]| |[] m e]; try reflexivity; simpl;
  rewrite Z.compare_refl; change (Pos.compare_cont Eq) with Pos.compare;
  rewrite Pos.compare_refl; reflexivity.
Qed.

Lemma num_leb_refl x : is_nan x = false -> num_leb x x = true.
Proof.
  unfold num_leb, SFleb. destruct x as [[]|[]| |[] m e]; try reflexivity; simpl;
    try discriminate; rewrite Z.compare_refl;
    change (Pos.compare_cont Eq) with Pos.compare;
    rewrite Pos.compare_refl; reflexivity.
Qed.

Lemma num_cmp_nan x y :
  is_nan x = false -> is_nan y = false -> SFcompare x y <> None.
Proof. destruct x as [[]|[]| |[] m e], y as [[]|[]| |[] m' e']; simpl; congruence. Qed.

(** On values that are numbers the order is total. *)
Lemma num_ltb_false_leb x y :
  is_nan x = false -> is_nan y = false -> num_ltb x y = false -> num_leb y x = true.
Proof.
  intros Hx Hy. unfold num_ltb, SFltb, num_leb, SFleb.
  rewrite (num_cmp_sym x y). pose proof (num_cmp_nan x y Hx Hy).
  destruct (SFcompare x y) as [[]|]; simpl; congruence.
Qed.

Lemma num_ltb_leb x y : num_ltb x y = true -> num_leb x y = true.
Proof. unfold num_ltb, SFltb, num_leb, SFleb. destruct (SFcompare x y) as [[]|]; congruence. Qed.

Lemma num_leb_ltb_false x y : num_leb x y = true -> num_ltb y x = false.
Proof.
  unfold num_ltb, SFltb, num_leb, SFleb. rewrite (num_cmp_sym x y).
  destruct (SFcompare x y) as [[]|]; simpl; congruence.
Qed.

Lemma num_leb_not_nan x y :
  num_leb x y = true -> is_nan x = false /\ is_nan y = false.
Proof. unfold num_leb, SFleb. destruct x as [[]|[]| |[] m e], y as [[]|[]| |[] m' e']; simpl; intuition congruence. Qed.

Lemma num_ltb_not_nan x y :
  num_ltb x y = true -> is_nan x = false /\ is_nan y = false.
Proof. intros H. eapply num_leb_not_nan, num_ltb_leb, H. Qed.

Local Ltac cmp_cases :=
  repeat match goal with
  | |- context [?a ?= ?b] => destruct (Z.compare_spec a b); subst
  | H : context [?a ?= ?b] |- _ => destruct (Z.compare_spec a b); subst
  | |- context [Pos.compare_cont Eq ?a ?b] =>
      change (Pos.compare_cont Eq a b) with (Pos.compare a b)
  | H : context [Pos.compare_cont Eq ?a ?b] |- _ =>
      change (Pos.compare_cont Eq a b) with (Pos.compare a b) in H
  | |- context [(?a ?= ?b)%positive] => destruct (Pos.compare_spec a b); subst
  | H : context [(?a ?= ?b)%positive] |- _ => destruct (Pos.compare_spec a b); subst
  end; simpl in *; try congruence; try lia.

Lemma num_leb_trans x y z :
  num_leb x y = true -> num_leb y z = true -> num_leb x z = true.
Proof.
  unfold num_leb, SFleb.
  destruct x as [[]|[]| |[] m e], y as [[]|[]| |[] m' e'], z as [[]|[]| |[] m'' e''];
    simpl; try congruence; intros; cmp_cases.
Qed.

(** The clamp [Math.min(Math.max(x, lo), hi)] lands in [lo, hi]. *)
Lemma math_clamp_bounds x lo hi :
  is_nan x = false -> num_leb lo hi = true ->
  num_leb lo (math_min (math_max x lo) hi) = true /\
  num_leb (math_min (math_max x lo) hi) hi = true.
Proof.
  intros Hx Hlh. destruct (num_leb_not_nan _ _ Hlh) as [Hlo Hhi].
  unfold math_min, math_max. rewrite Hx, Hlo. simpl.
  destruct (num_ltb x lo) eqn:E1; rewrite ?Hlo, ?Hx, Hhi; simpl.
  - destruct (num_ltb hi lo) eqn:E2; split; auto using num_leb_refl.
  - apply num_ltb_false_leb in E1; [|auto..].
    destruct (num_ltb hi x) eqn:E2; split; auto using num_leb_refl.
    apply num_ltb_false_leb; auto.
Qed.

(** [l.reduce((sum, x) => sum + x, 0)]. *)
Definition sum_nums (l : list num) : num := fold_left num_add l (num_of_Z 0).
Lemma sum_nums_snoc l x : sum_nums (l ++ [x]) = num_add (sum_nums l) x.
Proof. unfold sum_nums. rewrite fold_left_app. reflexivity. Qed.
