(* ===== verification/Effects.v ===== *)
(** Effects of the services: exceptions, JSON payloads, the environment (clock,
    id supply, random source, failures of external calls, emitted events), the
    state-and-exception monad in which every handler is written, and TypeORM's
    repository operations on tables.

    An [async] method is a function from the state to a result (a value or a
    thrown exception) and a state: what was written before a throw stays
    written, as in the code.  Every database call first asks the environment's
    failure oracle, so each theorem quantifies over all the ways the calls of a
    handler can fail. *)
From S2P Require Import Prelude JsNumber.
Local Open Scope Z_scope.

Declare Scope js_scope.
Delimit Scope js_scope with js.

(** ** JSON values (jsonb columns, event payloads) *)

#[warnings="-register-all"]
Inductive json : Type :=
  | JUndefined
  | JNull
  | JBool (b : bool)
  | JNum (n : num)
  | JStr (s : string)
  | JArr (l : list json)
  | JObj (o : list (string * json)).

Definition jopt (o : option string) : json :=
  match o with Some s => JStr s | None => JUndefined end.

(** [{ ...o, k: v }]: a later key replaces an earlier one in place. *)
Fixpoint obj_set (k : string) (v : json) (o : list (string * json)) : list (string * json) :=
  match o with
  | [] => [(k, v)]
  | (k', v') :: o' => if String.eqb k k' then (k, v) :: o' else (k', v') :: obj_set k v o'
  end.

Fixpoint obj_get (k : string) (o : list (string * json)) : option json :=
  match o with
  | [] => None
  | (k', v') :: o' => if String.eqb k k' then Some v' else obj_get k o'
  end.

Definition obj_spread (o : list (string * json)) (more : list (string * json)) :
    list (string * json) :=
  fold_left (fun acc kv => obj_set kv.1 kv.2 acc) more o.

(** ** Exceptions *)

(** [Http] are the exceptions of @nestjs/common, by status; [JsError] the
    errors of the language and plain [new Error(...)]; [QueryFailed] what the
    database driver raises. *)
Inductive exn : Type :=
  | Http (status : Z) (message : string)
  | JsError (name message : string)
  | QueryFailed (code message : string).

Definition BadRequestException (m : string) : exn := Http 400 m.
Definition UnauthorizedException (m : string) : exn := Http 401 m.
Definition ForbiddenException (m : string) : exn := Http 403 m.
Definition NotFoundException (m : string) : exn := Http 404 m.
Definition ConflictException (m : string) : exn := Http 409 m.
Definition UnprocessableEntityException (m : string) : exn := Http 422 m.
Definition TooManyRequests (m : string) : exn := Http 429 m.
Definition ServiceUnavailableException (m : string) : exn := Http 503 m.
Definition ReferenceError (m : string) : exn := JsError "ReferenceError" m.
Definition PlainError (m : string) : exn := JsError "Error" m.

(** Postgres' code for a violated unique constraint. *)
Definition POSTGRES_UNIQUE_VIOLATION : string := "23505".
Definition unique_violation : exn :=
  QueryFailed POSTGRES_UNIQUE_VIOLATION "duplicate key value violates unique constraint".

Definition message_of (e : exn) : string :=
  match e with Http _ m | JsError _ m | QueryFailed _ m => m end.

(** ** The environment *)

Record Env : Type := mkEnv {
  clock : nat -> Z;              (* the n-th reading of [Date.now()], in ms *)
  tick : nat;
  fault : nat -> option exn;     (* the failure of the n-th external call *)
  calls : nat;
  uuid : nat -> ascii * string;  (* the n-th generated identifier, a non-empty string *)
  uuids : nat;
  rnd : nat -> num;              (* the n-th [Math.random()] *)
  rnds : nat;
  outbox : list (string * json)  (* events emitted and mails sent, in order *)
}.

Definition uuid_string (e : Env) (n : nat) : string :=
  let '(c, r) := uuid e n in String c r.

Definition next_tick (e : Env) : Env :=
  mkEnv (clock e) (S (tick e)) (fault e) (calls e) (uuid e) (uuids e) (rnd e) (rnds e) (outbox e).
Definition next_call (e : Env) : Env :=
  mkEnv (clock e) (tick e) (fault e) (S (calls e)) (uuid e) (uuids e) (rnd e) (rnds e) (outbox e).
Definition next_uuid (e : Env) : Env :=
  mkEnv (clock e) (tick e) (fault e) (calls e) (uuid e) (S (uuids e)) (rnd e) (rnds e) (outbox e).
Definition next_rnd (e : Env) : Env :=
  mkEnv (clock e) (tick e) (fault e) (calls e) (uuid e) (uuids e) (rnd e) (S (rnds e)) (outbox e).
Definition add_event (ev : string * json) (e : Env) : Env :=
  mkEnv (clock e) (tick e) (fault e) (calls e) (uuid e) (uuids e) (rnd e) (rnds e) (outbox e ++ [ev]).

(** Time does not run backwards. *)
Definition clock_monotone (e : Env) : Prop :=
  forall n m, (n <= m)%nat -> clock e n <= clock e m.

(** No external call fails from here on. *)
Definition reliable (e : Env) : Prop := forall n, (calls e <= n)%nat -> fault e n = None.

(** [x] is how some external call still to come fails. *)
Definition env_fault (e : Env) (x : exn) : Prop := exists n, (calls e <= n)%nat /\ fault e n = Some x.

(** One environment continues another without emitting: same oracles, the
    counters moved on. *)
Record env_step (e e' : Env) : Prop := {
  es_clock : clock e' = clock e;
  es_tick : (tick e <= tick e')%nat;
  es_calls : (calls e <= calls e')%nat;
  es_fault : fault e' = fault e;
  es_uuid : uuid e' = uuid e;
  es_uuids : (uuids e <= uuids e')%nat;
  es_rnd : rnd e' = rnd e;
  es_outbox : outbox e' = outbox e
}.

#[export] Instance env_step_preorder : PreOrder env_step.
Proof.
  split.
  - intros e; split; auto.
  - intros e1 e2 e3 [] []; split; try congruence; lia.
Qed.

Lemma es_trans e1 e2 e3 : env_step e1 e2 -> env_step e2 e3 -> env_step e1 e3.
Proof. intros H1 H2. etransitivity; eassumption. Qed.

(** Chain the steps in the context, from the last environment back. *)
Ltac env_chain := solve [repeat first [assumption | eapply es_trans; [|eassumption]]].

Lemma env_step_reliable e e' : env_step e e' -> reliable e -> reliable e'.
Proof. intros [] H n Hn. rewrite es_fault0. apply H. lia. Qed.

Lemma reliable_no_fault e x : reliable e -> ~ env_fault e x.
Proof. intros H (n & Hn & Hx). rewrite H in Hx by exact Hn. discriminate. Qed.

Lemma env_step_fault e e' x : env_step e e' -> env_fault e' x -> env_fault e x.
Proof. intros [] (n & Hn & H). exists n. split; [lia | congruence]. Qed.

Lemma next_tick_step e : env_step e (next_tick e).
Proof. split; simpl; auto. Qed.
Lemma next_call_step e : env_step e (next_call e).
Proof. split; simpl; auto. Qed.
Lemma next_uuid_step e : env_step e (next_uuid e).
Proof. split; simpl; auto. Qed.
Lemma next_rnd_step e : env_step e (next_rnd e).
Proof. split; simpl; auto. Qed.

Create HintDb env.
#[export] Hint Resolve next_tick_step next_call_step next_uuid_step next_rnd_step
  env_step_reliable env_step_fault : env.
#[export] Hint Extern 5 (env_step _ _) => etransitivity; [eassumption|] : env.
#[export] Hint Extern 1 (env_step ?e ?e) => reflexivity : env.

Class HasEnv (S : Type) : Type := {
  env_of : S -> Env;
  set_env : Env -> S -> S;
  env_of_set_env : forall e s, env_of (set_env e s) = e;
  set_env_env_of : forall s, set_env (env_of s) s = s;
  set_env_set_env : forall e e' s, set_env e (set_env e' s) = set_env e s
}.

(** ** The monad *)

Definition M (S A : Type) : Type := S -> (exn + A) * S.

Section Monad.
Context {S : Type}.

Definition ret {A} (a : A) : M S A := fun s => (inr a, s).

Definition throw {A} (x : exn) : M S A := fun s => (inl x, s).

Definition bind {A B} (m : M S A) (k : A -> M S B) : M S B :=
  fun s => match m s with
           | (inr a, s') => k a s'
           | (inl x, s') => (inl x, s')
           end.

(** [try { m } catch (err) { h err }]. *)
Definition try_catch {A} (m : M S A) (h : exn -> M S A) : M S A :=
  fun s => match m s with
           | (inr a, s') => (inr a, s')
           | (inl x, s') => h x s'
           end.

(** [try { m } finally { f }]. *)
Definition try_finally {A} (m : M S A) (f : M S unit) : M S A :=
  fun s => match m s with
           | (r, s') => match f s' with
                        | (inr _, s'') => (r, s'')
                        | (inl x, s'') => (inl x, s'')
                        end
           end.

(** The outcome of [m] as a value: a catch clause that goes on. *)
Definition attempt {A} (m : M S A) : M S (exn + A) :=
  fun s => match m s with (r, s') => (inr r, s') end.

Definition gets {A} (f : S -> A) : M S A := fun s => (inr (f s), s).

Definition modify (f : S -> S) : M S unit := fun s => (inr tt, f s).

(** [for (const x of l) { f x }]. *)
Fixpoint for_each {A} (l : list A) (f : A -> M S unit) : M S unit :=
  match l with
  | [] => ret tt
  | a :: l' => bind (f a) (fun _ => for_each l' f)
  end.

(** The same loop with a local accumulator. *)
Fixpoint fold_each {A B} (l : list A) (acc : B) (f : B -> A -> M S B) : M S B :=
  match l with
  | [] => ret acc
  | a :: l' => bind (f acc a) (fun acc' => fold_each l' acc' f)
  end.
End Monad.

Notation "'let*' x ':=' m 'in' k" := (bind m (fun x => k))
  (at level 10, x name, m at level 100, k at level 200) : js_scope.
Notation "'let*' ' p ':=' m 'in' k" := (bind m (fun x => match x with p => k end))
  (at level 10, p pattern, m at level 100, k at level 200) : js_scope.
Notation "m ;;; k" := (bind m (fun _ => k))
  (at level 100, k at level 200, right associativity) : js_scope.
(** [if (b) throw x;] *)
Definition throw_if {S} (b : bool) (x : exn) : M S unit :=
  if b then throw x else ret tt.

Open Scope js_scope.

(** ** Reading the environment *)

Section Environment.
Context {S : Type} `{HasEnv S}.

(** An awaited call to a database or a service: it may fail. *)
Definition db_call : M S unit := fun s =>
  let e := env_of s in
  let s' := set_env (next_call e) s in
  match fault e (calls e) with
  | Some x => (inl x, s')
  | None => (inr tt, s')
  end.

(** [Date.now()] and [new Date()]: milliseconds since the epoch. *)
Definition date_now : M S Z := fun s =>
  let e := env_of s in (inr (clock e (tick e)), set_env (next_tick e) s).

Definition random_uuid : M S string := fun s =>
  let e := env_of s in (inr (uuid_string e (uuids e)), set_env (next_uuid e) s).

Definition math_random : M S num := fun s =>
  let e := env_of s in (inr (rnd e (rnds e)), set_env (next_rnd e) s).

(** [eventEmitter.emit(name, payload)]; mails sent by MailService are recorded
    the same way. *)
Definition emit (name : string) (payload : json) : M S unit := fun s =>
  (inr tt, set_env (add_event (name, payload) (env_of s)) s).
End Environment.

(** ** Tables *)

(** What TypeORM knows of an entity: its primary key, its generated columns
    ([CreateDateColumn], [UpdateDateColumn]), its soft-delete column and its
    unique indexes ([clash a b]: both cannot be in the table). *)
Class Row (E : Type) : Type := {
  row_id : E -> string;
  set_row_id : string -> E -> E;
  created : Z -> E -> E;
  touched : Z -> E -> E;
  live : E -> bool;
  clash : E -> E -> bool;
  row_id_set : forall i e, row_id (set_row_id i e) = i;
  row_id_created : forall t e, row_id (created t e) = row_id e;
  row_id_touched : forall t e, row_id (touched t e) = row_id e
}.

Class Table (S E : Type) `{HasEnv S} `{Row E} : Type := {
  rows : S -> list E;
  set_rows : list E -> S -> S;
  rows_set_rows : forall t s, rows (set_rows t s) = t;
  set_rows_rows : forall s, set_rows (rows s) s = s;
  set_rows_set_rows : forall t t' s, set_rows t (set_rows t' s) = set_rows t s;
  rows_set_env : forall e s, rows (set_env e s) = rows s;
  env_of_set_rows : forall t s, env_of (set_rows t s) = env_of s;
  set_rows_set_env : forall t e s, set_rows t (set_env e s) = set_env e (set_rows t s)
}.

(** The laws of a concrete row or table hold by computation. *)
#[export] Obligation Tactic :=
  try (intros; first [reflexivity | match goal with x : _ |- _ => destruct x; reflexivity end]).

Section Rows.
Context {E : Type} `{Row E}.

Definition same_row (a b : E) : bool := String.eqb (row_id a) (row_id b).

(** Replace the row with the same key, or append. *)
Definition upsert (e : E) (t : list E) : list E :=
  if existsb (same_row e) t
  then map (fun r => if same_row e r then e else r) t
  else t ++ [e].

(** The write of [e] violates a unique index of another row. *)
Definition violates (e : E) (t : list E) : bool :=
  existsb (fun r => negb (same_row e r) && clash e r) t.

(** Stable insertion sort, ascending in [k]. *)
Fixpoint insert_by (k : E -> Z) (e : E) (t : list E) : list E :=
  match t with
  | [] => [e]
  | r :: t' => if k e <=? k r then e :: t else r :: insert_by k e t'
  end.

Definition order_asc (k : E -> Z) (t : list E) : list E :=
  fold_right (insert_by k) [] t.
Definition order_desc (k : E -> Z) (t : list E) : list E :=
  order_asc (fun e => - k e) t.
End Rows.

Section Repository.
Context {S E : Type} `{Table S E}.

(** [repo.findOne({ where })]: the first live row that matches. *)
Definition findOne (p : E -> bool) : M S (option E) :=
  db_call ;;; gets (fun s => List.find (fun e => live e && p e) (rows s)).

(** [repo.find({ where })]. *)
Definition find_all (p : E -> bool) : M S (list E) :=
  db_call ;;; gets (fun s => List.filter (fun e => live e && p e) (rows s)).

(** [repo.find({ where, order: { k: 'DESC' } })] and its first element. *)
Definition find_desc (p : E -> bool) (k : E -> Z) : M S (list E) :=
  let* l := find_all p in ret (order_desc k l).
Definition find_asc (p : E -> bool) (k : E -> Z) : M S (list E) :=
  let* l := find_all p in ret (order_asc k l).
Definition findOne_desc (p : E -> bool) (k : E -> Z) : M S (option E) :=
  let* l := find_desc p k in ret (hd_error l).

Definition count_rows (p : E -> bool) : M S Z :=
  let* l := find_all p in ret (Z.of_nat (length l)).

(** [repo.save(e)]: update the row with [e]'s key or insert it, with a
    generated key when it has none; unique indexes are enforced. *)
Definition save (e : E) : M S E :=
  db_call ;;;
  let* now := date_now in
  let* t := gets rows in
  if existsb (same_row e) t then
    let e' := touched now e in
    if violates e' t then throw unique_violation
    else modify (set_rows (upsert e' t)) ;;; ret e'
  else
    let* i := (if String.eqb (row_id e) "" then random_uuid else ret (row_id e)) in
    let e' := created now (set_row_id i e) in
    if existsb (same_row e') t || violates e' t then throw unique_violation
    else modify (set_rows (upsert e' t)) ;;; ret e'.

(** [repo.update(where, fields)]. *)
Definition update_rows (p : E -> bool) (f : E -> E) : M S unit :=
  db_call ;;;
  let* now := date_now in
  modify (fun s => set_rows (map (fun e => if p e then touched now (f e) else e) (rows s)) s).

(** [repo.delete(where)]: how many rows went. *)
Definition delete_rows (p : E -> bool) : M S Z :=
  db_call ;;;
  let* t := gets rows in
  modify (set_rows (List.filter (fun e => negb (p e)) t)) ;;;
  ret (Z.of_nat (length (List.filter p t))).

(** Undo, in [s], what a transaction begun in [s0] wrote to this table. *)
Definition rollback_table (s0 s : S) : S := set_rows (rows s0) s.
End Repository.

(** [dataSource.transaction(cb)] (TypeORM): begin, run, commit; an exception
    rolls back what [cb] wrote {e through its manager} ([rb]) and goes on. *)
Definition dataSource_transaction {S A} `{HasEnv S} (rb : S -> S -> S) (cb : M S A) : M S A :=
  fun s0 =>
    (db_call ;;;
     try_catch (let* r := cb in db_call ;;; ret r)
               (fun err => modify (rb s0) ;;; throw err)) s0.

(** What [save e] stores: [e] with its update stamp, or [e] with its key and
    creation stamp. *)
Inductive saved_as {E} `{Row E} (e : E) : E -> Prop :=
  | saved_update t : saved_as e (touched t e)
  | saved_insert t i :
      i <> "" -> (row_id e <> "" -> i = row_id e) -> saved_as e (created t (set_row_id i e)).

(** Primary keys and unique indexes hold in a table. *)
Definition table_unique {E} `{Row E} (t : list E) : Prop :=
  NoDup (map row_id t) /\
  forall a b, In a t -> In b t -> row_id a <> row_id b -> clash a b = false.

(** ** Weakest preconditions *)

(** [m] run in [s] ends well in [Q] or throws in [X]. *)
Definition wp {S A} (m : M S A) (Q : A -> S -> Prop) (X : exn -> S -> Prop) (s : S) : Prop :=
  match m s with
  | (inr a, s') => Q a s'
  | (inl x, s') => X x s'
  end.

(** However [m] ends, it moves the state along [R]. *)
Definition keeps {S A} (R : S -> S -> Prop) (m : M S A) : Prop := forall s, R s (m s).2.

(** The two relations used with [keeps]: an observation of the state is left
    as it was; an invariant is preserved. *)
Definition same {S B} (f : S -> B) (s s' : S) : Prop := f s' = f s.
Definition invariant {S} (I : S -> Prop) (s s' : S) : Prop := I s -> I s'.

#[export] Instance same_preorder {S B} (f : S -> B) : PreOrder (same f).
Proof. split; [intros s; reflexivity | intros s1 s2 s3; unfold same; congruence]. Qed.

#[export] Instance invariant_preorder {S} (I : S -> Prop) : PreOrder (invariant I).
Proof. split; [intros s; exact id | intros s1 s2 s3 H1 H2 H; auto]. Qed.

(** A relation that allows the environment to move on, an event to be emitted,
    or a table to be rewritten. *)
Class EnvStable {S} `{HasEnv S} (R : S -> S -> Prop) : Prop :=
  env_stable : forall s e, env_step (env_of s) e -> R s (set_env e s).
Class EmitStable {S} `{HasEnv S} (R : S -> S -> Prop) : Prop :=
  emit_stable : forall s ev, R s (set_env (add_event ev (env_of s)) s).
Class TableStable (E : Type) {S} `{Table S E} (R : S -> S -> Prop) : Prop :=
  table_stable : forall s t, R s (set_rows t s).

Section WpMonad.
Context {S : Type}.

Lemma wp_ret {A} (a : A) Q X (s : S) : Q a s -> wp (ret a) Q X s.
Proof. exact id. Qed.

Lemma wp_throw {A} x (Q : A -> S -> Prop) X s : X x s -> wp (throw x) Q X s.
Proof. exact id. Qed.

Lemma wp_bind {A B} (m : M S A) (k : A -> M S B) Q X s :
  wp m (fun a => wp (k a) Q X) X s -> wp (bind m k) Q X s.
Proof. unfold wp, bind. destruct (m s) as [[x|a] s']; auto. Qed.

Lemma wp_try_catch {A} (m : M S A) h Q X s :
  wp m Q (fun x => wp (h x) Q X) s -> wp (try_catch m h) Q X s.
Proof. unfold wp, try_catch. destruct (m s) as [[x|a] s']; auto. Qed.

Lemma wp_attempt {A} (m : M S A) Q X s :
  wp m (fun a => Q (inr a)) (fun x => Q (inl x)) s -> wp (attempt m) Q X s.
Proof. unfold wp, attempt. destruct (m s) as [[x|a] s']; auto. Qed.

Lemma wp_gets {A} (f : S -> A) Q X s : Q (f s) s -> wp (gets f) Q X s.
Proof. exact id. Qed.

Lemma wp_modify f Q X (s : S) : Q tt (f s) -> wp (modify f) Q X s.
Proof. exact id. Qed.

Lemma wp_throw_if b x Q X (s : S) :
  (b = true -> X x s) -> (b = false -> Q tt s) -> wp (throw_if b x) Q X s.
Proof. unfold throw_if. destruct b; intros H1 H2; [apply H1 | apply H2]; reflexivity. Qed.

Lemma wp_mono {A} (m : M S A) (Q Q' : A -> S -> Prop) (X X' : exn -> S -> Prop) s :
  wp m Q X s ->
  (forall a s', Q a s' -> Q' a s') -> (forall x s', X x s' -> X' x s') ->
  wp m Q' X' s.
Proof. unfold wp. destruct (m s) as [[x|a] s']; auto. Qed.

Lemma wp_and {A} (m : M S A) (Q Q' : A -> S -> Prop) (X X' : exn -> S -> Prop) s :
  wp m Q X s -> wp m Q' X' s ->
  wp m (fun a s' => Q a s' /\ Q' a s') (fun x s' => X x s' /\ X' x s') s.
Proof. unfold wp. destruct (m s) as [[x|a] s']; auto. Qed.

Lemma wp_run_ok {A} (m : M S A) Q X s a s' :
  wp m Q X s -> m s = (inr a, s') -> Q a s'.
Proof. unfold wp. intros H E. rewrite E in H. exact H. Qed.

Lemma wp_run_exn {A} (m : M S A) Q X s x s' :
  wp m Q X s -> m s = (inl x, s') -> X x s'.
Proof. unfold wp. intros H E. rewrite E in H. exact H. Qed.

Lemma wp_keeps {A} R (m : M S A) (Q : A -> S -> Prop) (X : exn -> S -> Prop) s :
  keeps R m ->
  (forall a s', R s s' -> Q a s') -> (forall x s', R s s' -> X x s') -> wp m Q X s.
Proof. unfold wp, keeps. intros H. specialize (H s). destruct (m s) as [[x|a] s']; auto. Qed.

Lemma keeps_wp {A} R (m : M S A) :
  (forall s, wp m (fun _ s' => R s s') (fun _ s' => R s s') s) -> keeps R m.
Proof. intros H s. specialize (H s). unfold wp in H. destruct (m s) as [[x|a] s']; auto. Qed.

(** The same for one run: [m s] written as what it returns and leaves. *)
Lemma wp_elim {A} (m : M S A) (P : (exn + A) * S -> Prop) s :
  wp m (fun a s' => P (inr a, s')) (fun x s' => P (inl x, s')) s -> P (m s).
Proof. unfold wp. destruct (m s) as [[x|a] s']; auto. Qed.
End WpMonad.

Section KeepsMonad.
Context {S : Type} (R : S -> S -> Prop) `{!PreOrder R}.

Lemma keeps_ret {A} (a : A) : keeps R (ret a).
Proof. intros s. reflexivity. Qed.

Lemma keeps_throw {A} x : keeps R (throw (A:=A) x).
Proof. intros s. reflexivity. Qed.

Lemma keeps_throw_if b x : keeps R (throw_if b x).
Proof. intros s. destruct b; reflexivity. Qed.

Lemma keeps_gets {A} (f : S -> A) : keeps R (gets f).
Proof. intros s. reflexivity. Qed.

Lemma keeps_bind {A B} (m : M S A) (k : A -> M S B) :
  keeps R m -> (forall a, keeps R (k a)) -> keeps R (bind m k).
Proof.
  intros Hm Hk s. unfold bind. specialize (Hm s).
  destruct (m s) as [[x|a] s']; [exact Hm|]. etransitivity; [exact Hm | apply Hk].
Qed.

Lemma keeps_try_catch {A} (m : M S A) h :
  keeps R m -> (forall x, keeps R (h x)) -> keeps R (try_catch m h).
Proof.
  intros Hm Hk s. unfold try_catch. specialize (Hm s).
  destruct (m s) as [[x|a] s']; [|exact Hm]. etransitivity; [exact Hm | apply Hk].
Qed.

Lemma keeps_try_finally {A} (m : M S A) f :
  keeps R m -> keeps R f -> keeps R (try_finally m f).
Proof.
  intros Hm Hf s. unfold try_finally. specialize (Hm s). destruct (m s) as [r s'].
  specialize (Hf s'). destruct (f s') as [[x|[]] s'']; simpl in *; etransitivity; eauto.
Qed.

Lemma keeps_attempt {A} (m : M S A) : keeps R m -> keeps R (attempt m).
Proof. intros Hm s. unfold attempt. specialize (Hm s). destruct (m s); exact Hm. Qed.

Lemma keeps_for_each {A} (l : list A) (f : A -> M S unit) :
  (forall a, In a l -> keeps R (f a)) -> keeps R (for_each l f).
Proof.
  induction l as [|a l IH]; intros Hf; simpl; [apply keeps_ret|].
  apply keeps_bind; [apply Hf; left; reflexivity | intros _; apply IH].
  intros b Hb. apply Hf. right. exact Hb.
Qed.

Lemma keeps_fold_each {A B} (l : list A) (f : B -> A -> M S B) :
  (forall acc a, In a l -> keeps R (f acc a)) -> forall acc, keeps R (fold_each l acc f).
Proof.
  induction l as [|a l IH]; intros Hf acc; simpl; [apply keeps_ret|].
  apply keeps_bind; [apply Hf; left; reflexivity | intros acc'; apply IH].
  intros acc'' b Hb. apply Hf. right. exact Hb.
Qed.

Lemma keeps_modify f : (forall s, R s (f s)) -> keeps R (modify f).
Proof. intros Hf s. apply Hf. Qed.

Lemma keeps_transaction {A} `{HasEnv S} `{!EnvStable R} rb (cb : M S A) :
  keeps R cb -> (forall s0 s, R s (rb s0 s)) ->
  keeps R (dataSource_transaction rb cb).
Proof.
  intros Hcb Hrb s. unfold dataSource_transaction.
  assert (Hcall : keeps R (@db_call S _)).
  { intros s1. unfold db_call. destruct (fault _ _); apply env_stable, next_call_step. }
  refine (keeps_bind _ _ Hcall _ s). intros _. apply keeps_try_catch.
  - apply keeps_bind; [exact Hcb|]. intros r. apply keeps_bind; [exact Hcall|].
    intros _. apply keeps_ret.
  - intros x. apply keeps_bind; [apply keeps_modify, Hrb | intros _; apply keeps_throw].
Qed.
End KeepsMonad.

(** ** Transactions whose callback assigns variables of its caller

    [l0] is the variables' value before; the callback returns their value with
    its outcome, so that what it assigned before throwing is not lost. *)
Definition transaction_local {S L A} `{HasEnv S} (rb : S -> S -> S) (l0 : L)
    (cb : L -> M S (L * (exn + A))) : M S (L * (exn + A)) :=
  fun s0 =>
    (let* started := attempt db_call in
     match started with
     | inl x => ret (l0, inl x)
     | inr _ =>
         let* ' (l, r) := cb l0 in
         match r with
         | inl x => modify (rb s0) ;;; ret (l, inl x)
         | inr a =>
             let* committed := attempt db_call in
             match committed with
             | inl x => modify (rb s0) ;;; ret (l, inl x)
             | inr _ => ret (l, inr a)
             end
         end
     end) s0.
