(* ===== verification/RepositoryLaws.v ===== *)
(** Proof rules for the environment and the repository operations of
    [Effects]: what each leaves unchanged, weakest-precondition rules that
    cover success and failure of the call, and the facts on tables (keys,
    unique indexes, lookup after [save]) that the services' theorems use. *)
From S2P Require Import Prelude JsNumber Effects.
Local Open Scope Z_scope.

Create Rewrite HintDb env_norm.
#[export] Hint Rewrite @env_of_set_env @set_env_set_env @rows_set_rows @rows_set_env
  @env_of_set_rows @set_rows_set_rows : env_norm.

Ltac env_norm := autorewrite with env_norm in *.

(** ** Tables as lists *)

Section Lists.
Context {E : Type} `{Row E}.

Lemma same_row_refl (a : E) : same_row a a = true.
Proof. apply String.eqb_refl. Qed.

Lemma same_row_true (a b : E) : same_row a b = true <-> row_id a = row_id b.
Proof. apply String.eqb_eq. Qed.

Lemma same_row_false (a b : E) : same_row a b = false <-> row_id a <> row_id b.
Proof. apply String.eqb_neq. Qed.

Lemma row_id_saved_as (e r : E) : saved_as e r -> row_id e <> "" -> row_id r = row_id e.
Proof.
  intros [t | t i _ Hi] Hne; [apply row_id_touched|].
  rewrite row_id_created, row_id_set. auto.
Qed.

Lemma in_upsert (e x : E) t :
  In x (upsert e t) -> x = e \/ (In x t /\ row_id x <> row_id e).
Proof.
  unfold upsert. destruct (existsb (same_row e) t) eqn:Hex.
  - intros Hin. apply in_map_iff in Hin as (r & Hr & Hin).
    destruct (same_row e r) eqn:Hs; [left; congruence|].
    right. subst x. split; [exact Hin|].
    apply same_row_false in Hs. congruence.
  - intros Hin. apply in_app_or in Hin as [Hin|[->|[]]]; [|left; reflexivity].
    right. split; [exact Hin|]. intros Heq.
    assert (existsb (same_row e) t = true); [|congruence].
    apply existsb_exists. exists x. split; [exact Hin|]. apply same_row_true. congruence.
Qed.

Lemma in_upsert_self (e : E) t : In e (upsert e t).
Proof.
  unfold upsert. destruct (existsb (same_row e) t) eqn:Hex.
  - apply existsb_exists in Hex as (r & Hin & Hs). apply in_map_iff.
    exists r. rewrite Hs. auto.
  - apply in_or_app. right. left. reflexivity.
Qed.

Lemma in_upsert_other (e x : E) t :
  In x t -> row_id x <> row_id e -> In x (upsert e t).
Proof.
  intros Hin Hne. unfold upsert. destruct (existsb (same_row e) t).
  - apply in_map_iff. exists x. split; [|exact Hin].
    destruct (same_row e x) eqn:Hs; [|reflexivity].
    apply same_row_true in Hs. congruence.
  - apply in_or_app. left. exact Hin.
Qed.

Lemma Forall_upsert (P : E -> Prop) e t : Forall P t -> P e -> Forall P (upsert e t).
Proof.
  rewrite !List.Forall_forall. intros Ht He x Hx.
  apply in_upsert in Hx as [->|[Hx _]]; auto.
Qed.

Lemma map_row_id_upsert (e : E) t :
  map row_id (upsert e t) =
  if existsb (same_row e) t then map row_id t else map row_id t ++ [row_id e].
Proof.
  unfold upsert. destruct (existsb (same_row e) t); [|apply map_app].
  rewrite map_map. apply map_ext. intros r.
  destruct (same_row e r) eqn:Hs; [|reflexivity]. apply same_row_true in Hs. exact Hs.
Qed.

Lemma NoDup_upsert (e : E) t : NoDup (map row_id t) -> NoDup (map row_id (upsert e t)).
Proof.
  intros Hnd. rewrite map_row_id_upsert. destruct (existsb (same_row e) t) eqn:Hex; [exact Hnd|].
  apply NoDup_app. split; [exact Hnd|]. split; [|apply NoDup_singleton].
  intros i Hi Hi'. apply list_elem_of_singleton in Hi'. subst i.
  apply list_elem_of_In, in_map_iff in Hi as (r & Hr & Hin).
  assert (existsb (same_row e) t = true); [|congruence].
  apply existsb_exists. exists r. split; [exact Hin|]. apply same_row_true. congruence.
Qed.

Lemma violates_false (e x : E) t :
  violates e t = false -> In x t -> row_id x <> row_id e -> clash e x = false.
Proof.
  intros Hv Hin Hne. destruct (clash e x) eqn:Hc; [|reflexivity].
  assert (violates e t = true); [|congruence].
  apply existsb_exists. exists x. split; [exact Hin|]. rewrite Hc, andb_true_r.
  apply negb_true_iff, same_row_false. congruence.
Qed.

(** [save] keeps keys and unique indexes. *)
Lemma table_unique_upsert (e : E) t :
  (forall a b : E, clash a b = clash b a) ->
  table_unique t -> violates e t = false -> table_unique (upsert e t).
Proof.
  intros Hsym [Hnd Hcl] Hv. split; [apply NoDup_upsert, Hnd|].
  intros a b Ha Hb Hne.
  apply in_upsert in Ha as [->|[Ha Hae]], Hb as [->|[Hb Hbe]].
  - congruence.
  - apply (violates_false _ _ _ Hv Hb). exact Hbe.
  - rewrite Hsym. apply (violates_false _ _ _ Hv Ha). exact Hae.
  - apply Hcl; auto.
Qed.

Lemma NoDup_row_id_inj (t : list E) x y :
  NoDup (map row_id t) -> In x t -> In y t -> row_id x = row_id y -> x = y.
Proof.
  induction t as [|z t IH]; intros Hnd Hx Hy Heq; [destruct Hx|].
  simpl in Hnd. apply NoDup_cons in Hnd as [Hz Hnd].
  destruct Hx as [->|Hx], Hy as [->|Hy]; auto.
  - exfalso. apply Hz. rewrite Heq. apply list_elem_of_In, in_map, Hy.
  - exfalso. apply Hz. rewrite <- Heq. apply list_elem_of_In, in_map, Hx.
Qed.

Lemma NoDup_filter_ids (p : E -> bool) t : NoDup (map row_id t) -> NoDup (map row_id (List.filter p t)).
Proof. apply NoDup_map_filter. Qed.

(** In a table with unique keys, a key finds its row. *)
Lemma find_by_id (t : list E) e (p : E -> bool) :
  NoDup (map row_id t) -> In e t -> p e = true ->
  (forall x, In x t -> p x = true -> row_id x = row_id e) ->
  List.find p t = Some e.
Proof.
  intros Hnd Hin Hp Hu. destruct (List.find p t) as [x|] eqn:Hf.
  - apply List.find_some in Hf as [Hx Hpx].
    f_equal. apply (NoDup_row_id_inj t); auto.
  - exfalso. pose proof (List.find_none _ _ Hf e Hin). congruence.
Qed.

Lemma find_upsert_id (e : E) t (p : E -> bool) :
  NoDup (map row_id t) -> p e = true ->
  (forall x, In x t -> p x = true -> row_id x = row_id e) ->
  List.find p (upsert e t) = Some e.
Proof.
  intros Hnd Hp Hu. apply find_by_id; auto using NoDup_upsert, in_upsert_self.
  intros x Hx Hpx. apply in_upsert in Hx as [->|[Hx _]]; auto.
Qed.

Lemma find_ext_in (p q : E -> bool) t :
  (forall x, In x t -> p x = q x) -> List.find p t = List.find q t.
Proof.
  induction t as [|x t IH]; intros Hpq; [reflexivity|]. simpl.
  rewrite (Hpq x) by (left; reflexivity). destruct (q x); [reflexivity|].
  apply IH. intros y Hy. apply Hpq. right. exact Hy.
Qed.

(** A row the query does not see may be saved without changing its answer. *)
Lemma find_upsert_other (e : E) t (p : E -> bool) :
  p e = false -> (forall x, In x t -> row_id x = row_id e -> p x = false) ->
  List.find p (upsert e t) = List.find p t.
Proof.
  intros He Hx. unfold upsert. destruct (existsb (same_row e) t) eqn:Hex.
  - clear Hex. induction t as [|y t IH]; [reflexivity|]. simpl.
    destruct (same_row e y) eqn:Hs.
    + rewrite He, (Hx y); [|left; reflexivity|symmetry; apply same_row_true, Hs].
      apply IH. intros x Hin. apply Hx. right. exact Hin.
    + destruct (p y); [reflexivity|]. apply IH. intros x Hin. apply Hx. right. exact Hin.
  - clear Hex Hx. induction t as [|y t IH]; simpl; [rewrite He; reflexivity|].
    destruct (p y); [reflexivity | exact IH].
Qed.

Lemma find_live_some (t : list E) p e :
  List.find (fun e => live e && p e) t = Some e -> In e t /\ live e = true /\ p e = true.
Proof. intros Hf. apply List.find_some in Hf as [Hin Hp]. apply andb_prop in Hp. tauto. Qed.

(** A row the query found is in the table, whatever was assigned to it since. *)
Lemma found_row_exists (t : list E) p e e' :
  List.find (fun e => live e && p e) t = Some e -> row_id e' = row_id e ->
  existsb (same_row e') t = true.
Proof.
  intros Hf Hid. apply find_live_some in Hf as (Hin & _).
  apply existsb_exists. exists e. split; [exact Hin | apply same_row_true, Hid].
Qed.

(** After the save of a row under the key it is looked up by, the query finds
    what was saved. *)
Lemma find_live_upsert (e : E) t (p : E -> bool) :
  NoDup (map row_id t) -> live e = true -> p e = true ->
  (forall x, p x = true -> row_id x = row_id e) ->
  List.find (fun e => live e && p e) (upsert e t) = Some e.
Proof.
  intros Hnd Hl Hp Hu. apply find_upsert_id; [exact Hnd | rewrite Hl, Hp; reflexivity|].
  intros x _ Hx. apply Hu. apply andb_prop in Hx. tauto.
Qed.

Lemma upsert_row_exists (e e' : E) t : row_id e' = row_id e -> existsb (same_row e') (upsert e t) = true.
Proof.
  intros Hid. apply existsb_exists. exists e. split; [apply in_upsert_self | apply same_row_true, Hid].
Qed.

(** A row no query found before is found once it is saved. *)
Lemma find_upsert_none (e : E) t (p : E -> bool) :
  List.find p t = None -> p e = true -> List.find p (upsert e t) = Some e.
Proof.
  intros Hn He. unfold upsert. destruct (existsb (same_row e) t) eqn:Hex.
  - revert Hex. induction t as [|x t IH]; simpl in *; [discriminate|].
    destruct (p x) eqn:Hx; [discriminate|]. destruct (same_row e x); simpl; [rewrite He; reflexivity|].
    rewrite Hx. auto.
  - clear Hex. induction t as [|x t IH]; simpl in *; [rewrite He; reflexivity|].
    destruct (p x); [discriminate | auto].
Qed.

Lemma in_insert_by (k : E -> Z) e x t : In x (insert_by k e t) <-> x = e \/ In x t.
Proof.
  induction t as [|y t IH]; simpl; [intuition congruence|].
  destruct (k e <=? k y); simpl; [intuition congruence | rewrite IH; intuition congruence].
Qed.

Lemma in_order_asc (k : E -> Z) x t : In x (order_asc k t) <-> In x t.
Proof.
  induction t as [|y t IH]; simpl; [reflexivity|].
  change (foldr (insert_by k) [] t) with (order_asc k t).
  rewrite in_insert_by, IH. intuition congruence.
Qed.

Lemma in_order_desc (k : E -> Z) x t : In x (order_desc k t) <-> In x t.
Proof. apply in_order_asc. Qed.

Lemma length_insert_by (k : E -> Z) e t : length (insert_by k e t) = S (length t).
Proof. induction t as [|y t IH]; simpl; [reflexivity|]. destruct (_ <=? _); simpl; congruence. Qed.

Lemma insert_by_perm (k : E -> Z) x t : Permutation (insert_by k x t) (x :: t).
Proof.
  induction t as [|y t IH]; simpl; [reflexivity|]. destruct (k x <=? k y); [reflexivity|].
  rewrite IH. apply perm_swap.
Qed.

Lemma order_asc_perm (k : E -> Z) t : Permutation (order_asc k t) t.
Proof. induction t as [|x t IH]; simpl; [reflexivity|]. rewrite insert_by_perm. apply perm_skip, IH. Qed.

Lemma length_order_asc (k : E -> Z) t : length (order_asc k t) = length t.
Proof. induction t as [|y t IH]; simpl; [reflexivity|]. rewrite length_insert_by. f_equal. exact IH. Qed.

(** Replacing rows by rows of the same key and the same order commutes with
    queries. *)
Lemma filter_map_in {F} (p : F -> bool) (f : F -> F) t :
  (forall x, In x t -> p (f x) = p x) -> List.filter p (map f t) = map f (List.filter p t).
Proof.
  induction t as [|x t IH]; intros Hp; simpl; [reflexivity|].
  rewrite Hp by (left; reflexivity). rewrite IH by (intros; apply Hp; right; assumption).
  destruct (p x); reflexivity.
Qed.

Lemma find_map_in {F} (p : F -> bool) (f : F -> F) t e :
  (forall x, In x t -> p (f x) = p x) -> List.find p t = Some e -> List.find p (map f t) = Some (f e).
Proof.
  induction t as [|x t IH]; intros Hp; simpl; [discriminate|].
  rewrite Hp by (left; reflexivity). destruct (p x); [intros [= ->]; reflexivity|].
  apply IH. intros y Hy. apply Hp. right. exact Hy.
Qed.

Lemma find_app_some {F} (p : F -> bool) t t' e : List.find p t = Some e -> List.find p (t ++ t') = Some e.
Proof. induction t as [|x t IH]; simpl; [discriminate|]. destruct (p x); auto. Qed.

Lemma insert_by_map (k : E -> Z) f e t :
  k (f e) = k e -> (forall x, In x t -> k (f x) = k x) ->
  insert_by k (f e) (map f t) = map f (insert_by k e t).
Proof.
  intros He. induction t as [|y t IH]; intros Hk; simpl; [reflexivity|].
  rewrite He, (Hk y) by (left; reflexivity). destruct (k e <=? k y); simpl; [reflexivity|].
  rewrite IH by (intros; apply Hk; right; assumption). reflexivity.
Qed.

Lemma order_asc_map (k : E -> Z) f t :
  (forall x, In x t -> k (f x) = k x) -> order_asc k (map f t) = map f (order_asc k t).
Proof.
  induction t as [|y t IH]; intros Hk; simpl; [reflexivity|].
  change (foldr (insert_by k) [] ?l) with (order_asc k l).
  rewrite IH by (intros; apply Hk; right; assumption).
  apply insert_by_map; [apply Hk; left; reflexivity|].
  intros x Hx. apply Hk. right. exact (proj1 (in_order_asc k x t) Hx).
Qed.

(** The row a query found, after it was saved with another content. *)
Lemma find_upsert_found (p : E -> bool) t e e' :
  NoDup (map row_id t) -> List.find p t = Some e -> row_id e' = row_id e -> p e' = true ->
  List.find p (upsert e' t) = Some e'.
Proof.
  intros Hnd Hf Hid Hp. pose proof (List.find_some _ _ Hf) as [Hin Hpe].
  unfold upsert. rewrite (proj2 (existsb_exists (same_row e') t)) by
    (exists e; split; [exact Hin | apply same_row_true, Hid]).
  assert (Hfe : (if same_row e' e then e' else e) = e') by (rewrite (proj2 (same_row_true e' e) Hid); reflexivity).
  transitivity (Some (if same_row e' e then e' else e)); [|congruence].
  apply (find_map_in p (fun r => if same_row e' r then e' else r)); [|exact Hf].
  intros x Hx. destruct (same_row e' x) eqn:Hs; [|reflexivity].
  apply same_row_true in Hs. rewrite (NoDup_row_id_inj t x e Hnd Hx Hin) by congruence. congruence.
Qed.

(** The latest row of a query, and the same query after that row was saved
    with another content. *)
Lemma hd_order_desc_upsert (k : E -> Z) (p : E -> bool) t e e' :
  NoDup (map row_id t) -> hd_error (order_desc k (List.filter p t)) = Some e ->
  row_id e' = row_id e -> k e' = k e -> p e' = true ->
  hd_error (order_desc k (List.filter p (upsert e' t))) = Some e'.
Proof.
  intros Hnd Hhd Hid Hk Hp.
  assert (Hin : In e (List.filter p t)).
  { apply (in_order_desc k). destruct (order_desc _ _); [discriminate|].
    injection Hhd as ->. left. reflexivity. }
  apply filter_In in Hin as [Hin Hpe].
  assert (Hsame : forall x, In x t -> same_row e' x = true -> x = e).
  { intros x Hx Hs. apply same_row_true in Hs. apply (NoDup_row_id_inj t); congruence. }
  unfold upsert. rewrite (proj2 (existsb_exists (same_row e') t)) by
    (exists e; split; [exact Hin | apply same_row_true, Hid]).
  set (f := fun r => if same_row e' r then e' else r).
  rewrite (filter_map_in p f).
  2: { intros x Hx. unfold f. destruct (same_row e' x) eqn:Hs; [|reflexivity].
       rewrite (Hsame x Hx Hs), Hpe, Hp. reflexivity. }
  unfold order_desc. rewrite order_asc_map.
  2: { intros x Hx. apply filter_In in Hx as [Hx _]. unfold f. destruct (same_row e' x) eqn:Hs; [|reflexivity].
       rewrite (Hsame x Hx Hs), Hk. reflexivity. }
  unfold order_desc in Hhd. destruct (order_asc _ _) as [|y l]; [discriminate|].
  injection Hhd as ->. simpl. unfold f. rewrite (proj2 (same_row_true e' e) Hid). reflexivity.
Qed.

(** The order really is one: no later element precedes an earlier one. *)
Inductive sorted_by (k : E -> Z) : list E -> Prop :=
  | sorted_nil : sorted_by k []
  | sorted_cons e t : Forall (fun r => k e <= k r) t -> sorted_by k t -> sorted_by k (e :: t).

Lemma sorted_insert_by (k : E -> Z) e t : sorted_by k t -> sorted_by k (insert_by k e t).
Proof.
  induction 1 as [|y t Hy Ht IH]; simpl; [repeat constructor|].
  destruct (Z.leb_spec (k e) (k y)).
  - constructor; [|constructor; auto]. constructor; [exact H0|].
    eapply List.Forall_impl; [|exact Hy]. simpl. lia.
  - constructor; [|exact IH]. apply List.Forall_forall. intros x Hx.
    apply in_insert_by in Hx as [->|Hx]; [lia|].
    rewrite List.Forall_forall in Hy. auto.
Qed.

Lemma sorted_order_asc (k : E -> Z) t : sorted_by k (order_asc k t).
Proof. induction t as [|y t IH]; simpl; [constructor | apply sorted_insert_by, IH]. Qed.
End Lists.

(** ** The environment *)

Section EnvRules.
Context {S : Type} `{HasEnv S}.

Lemma wp_db_call Q X (s : S) :
  (forall e' x, env_step (env_of s) e' -> env_fault (env_of s) x -> X x (set_env e' s)) ->
  (forall e', env_step (env_of s) e' -> Q tt (set_env e' s)) ->
  wp db_call Q X s.
Proof.
  intros HX HQ. unfold wp, db_call. destruct (fault _ _) eqn:Hf.
  - apply HX; [apply next_call_step | eexists; split; [apply le_n | exact Hf]].
  - apply HQ, next_call_step.
Qed.

Lemma wp_date_now Q X (s : S) :
  (forall n e', env_step (env_of s) e' -> (tick (env_of s) <= n < tick e')%nat ->
     Q (clock (env_of s) n) (set_env e' s)) ->
  wp date_now Q X s.
Proof. intros HQ. unfold wp, date_now. apply HQ; [apply next_tick_step | simpl; lia]. Qed.

(** The next reading itself. *)
Lemma wp_date_now_exact Q X (s : S) :
  Q (clock (env_of s) (tick (env_of s))) (set_env (next_tick (env_of s)) s) -> wp date_now Q X s.
Proof. exact id. Qed.

Lemma wp_random_uuid Q X (s : S) :
  (forall n e', env_step (env_of s) e' -> Q (uuid_string (env_of s) n) (set_env e' s)) ->
  wp random_uuid Q X s.
Proof. intros HQ. unfold wp, random_uuid. apply HQ, next_uuid_step. Qed.

(** The next identifier itself. *)
Lemma wp_random_uuid_exact Q X (s : S) :
  Q (uuid_string (env_of s) (uuids (env_of s))) (set_env (next_uuid (env_of s)) s) -> wp random_uuid Q X s.
Proof. exact id. Qed.

Lemma wp_math_random Q X (s : S) :
  (forall n e', env_step (env_of s) e' -> Q (rnd (env_of s) n) (set_env e' s)) ->
  wp math_random Q X s.
Proof. intros HQ. unfold wp, math_random. apply HQ, next_rnd_step. Qed.

Lemma wp_emit name payload Q X (s : S) :
  Q tt (set_env (add_event (name, payload) (env_of s)) s) -> wp (emit name payload) Q X s.
Proof. exact id. Qed.

Context (R : S -> S -> Prop) `{!PreOrder R} `{!EnvStable R}.

Lemma keeps_db_call : keeps R db_call.
Proof. intros s. unfold db_call. destruct (fault _ _); apply env_stable, next_call_step. Qed.
Lemma keeps_date_now : keeps R date_now.
Proof. intros s. apply env_stable, next_tick_step. Qed.
Lemma keeps_random_uuid : keeps R random_uuid.
Proof. intros s. apply env_stable, next_uuid_step. Qed.
Lemma keeps_math_random : keeps R math_random.
Proof. intros s. apply env_stable, next_rnd_step. Qed.
Lemma keeps_emit `{!EmitStable R} name payload : keeps R (emit name payload).
Proof. intros s. apply emit_stable. Qed.
End EnvRules.

Section TransactionRules.
Context {S : Type} `{HasEnv S}.

(** A transaction whose callback reports how it ended: its exceptions are
    values, what it wrote through its manager is undone when it failed. *)
Lemma wp_transaction_local {L A} rb (l0 : L) (cb : L -> M S (L * (exn + A))) Q X s :
  (forall e x, env_step (env_of s) e -> env_fault (env_of s) x -> Q (l0, inl x) (set_env e s)) ->
  (forall e0, env_step (env_of s) e0 ->
     wp (cb l0)
        (fun '(l, r) s' =>
           match r with
           | inl x => Q (l, inl x) (rb s s')
           | inr a =>
               (forall e, env_step (env_of s') e -> Q (l, inr a) (set_env e s')) /\
               (forall e x, env_step (env_of s') e -> env_fault (env_of s') x ->
                  Q (l, inl x) (rb s (set_env e s')))
           end) X (set_env e0 s)) ->
  wp (transaction_local rb l0 cb) Q X s.
Proof.
  intros HX Hcb. unfold transaction_local. apply wp_bind, wp_attempt, wp_db_call.
  - intros e x He Hf. apply wp_ret. apply HX; assumption.
  - intros e He. apply wp_bind. eapply wp_mono; [apply Hcb, He | | auto].
    intros [l [x|a]] s' Hs.
    + apply wp_bind, wp_modify, wp_ret, Hs.
    + destruct Hs as [HQ HXc]. apply wp_bind, wp_attempt, wp_db_call.
      * intros e' x He' Hf. apply wp_bind, wp_modify, wp_ret, HXc; assumption.
      * intros e' He'. apply wp_ret, HQ, He'.
Qed.

(** [dataSource.transaction]: an exception undoes the manager's writes and
    goes on. *)
Lemma wp_dataSource_transaction {A} rb (cb : M S A) Q X s :
  (forall e x, env_step (env_of s) e -> env_fault (env_of s) x -> X x (set_env e s)) ->
  (forall e0, env_step (env_of s) e0 ->
     wp cb (fun a s' =>
              (forall e, env_step (env_of s') e -> Q a (set_env e s')) /\
              (forall e x, env_step (env_of s') e -> env_fault (env_of s') x ->
                 X x (rb s (set_env e s'))))
           (fun x s' => X x (rb s s')) (set_env e0 s)) ->
  wp (dataSource_transaction rb cb) Q X s.
Proof.
  intros HX Hcb. unfold dataSource_transaction. apply wp_bind, wp_db_call; [exact HX|].
  intros e He. apply wp_try_catch, wp_bind. eapply wp_mono; [apply Hcb, He | |].
  - intros a s' [HQ HXc]. apply wp_bind, wp_db_call.
    + intros e' x He' Hf. apply wp_bind, wp_modify, wp_throw, HXc; assumption.
    + intros e' He'. apply wp_ret, HQ, He'.
  - intros x s' Hx. apply wp_bind, wp_modify, wp_throw, Hx.
Qed.
End TransactionRules.

#[export] Instance same_rows_env_stable {S E} `{Table S E} :
  EnvStable (same (rows (E:=E) (S:=S))).
Proof. intros s e _. unfold same. apply rows_set_env. Qed.

#[export] Instance same_rows_emit_stable {S E} `{Table S E} :
  EmitStable (same (rows (E:=E) (S:=S))).
Proof. intros s e. unfold same. apply rows_set_env. Qed.

#[export] Instance invariant_rows_env_stable {S E} `{Table S E} (P : list E -> Prop) :
  EnvStable (invariant (fun s : S => P (rows s))).
Proof. intros s e _. unfold invariant. rewrite rows_set_env. exact id. Qed.

#[export] Instance invariant_rows_emit_stable {S E} `{Table S E} (P : list E -> Prop) :
  EmitStable (invariant (fun s : S => P (rows s))).
Proof. intros s e. unfold invariant. rewrite rows_set_env. exact id. Qed.

(** ** The repository *)

Section RepoRules.
Context {S E : Type} `{Table S E}.

Lemma wp_findOne (p : E -> bool) Q X (s : S) :
  (forall e' x, env_step (env_of s) e' -> env_fault (env_of s) x -> X x (set_env e' s)) ->
  (forall e', env_step (env_of s) e' ->
     Q (List.find (fun e => live e && p e) (rows s)) (set_env e' s)) ->
  wp (findOne p) Q X s.
Proof.
  intros HX HQ. apply wp_bind, wp_db_call; [exact HX|].
  intros e' He. apply wp_gets. rewrite rows_set_env. apply HQ, He.
Qed.

Lemma wp_find_all (p : E -> bool) Q X (s : S) :
  (forall e' x, env_step (env_of s) e' -> env_fault (env_of s) x -> X x (set_env e' s)) ->
  (forall e', env_step (env_of s) e' ->
     Q (List.filter (fun e => live e && p e) (rows s)) (set_env e' s)) ->
  wp (find_all p) Q X s.
Proof.
  intros HX HQ. apply wp_bind, wp_db_call; [exact HX|].
  intros e' He. apply wp_gets. rewrite rows_set_env. apply HQ, He.
Qed.

Lemma wp_findOne_desc (p : E -> bool) k Q X (s : S) :
  (forall e' x, env_step (env_of s) e' -> env_fault (env_of s) x -> X x (set_env e' s)) ->
  (forall e', env_step (env_of s) e' ->
     Q (hd_error (order_desc k (List.filter (fun e => live e && p e) (rows s)))) (set_env e' s)) ->
  wp (findOne_desc p k) Q X s.
Proof.
  intros HX HQ. apply wp_bind, wp_bind, wp_find_all; [exact HX|].
  intros e' He. apply wp_ret, wp_ret, HQ, He.
Qed.

(** Why [save] can throw. *)
Definition save_failure (e : E) (s : S) (x : exn) : Prop :=
  env_fault (env_of s) x \/
  (x = unique_violation /\
   exists r, saved_as e r /\
   if existsb (same_row e) (rows s)
   then row_id r = row_id e /\ violates r (rows s) = true
   else existsb (same_row r) (rows s) = true \/ violates r (rows s) = true).

Lemma wp_save (e : E) Q X (s : S) :
  (forall e' x, env_step (env_of s) e' -> save_failure e s x -> X x (set_env e' s)) ->
  (forall e' r, env_step (env_of s) e' -> saved_as e r -> violates r (rows s) = false ->
     (existsb (same_row e) (rows s) = true -> exists t, r = touched t e) ->
     (existsb (same_row e) (rows s) = false ->
      row_id r <> "" /\ existsb (same_row r) (rows s) = false) ->
     Q r (set_rows (upsert r (rows s)) (set_env e' s))) ->
  wp (save e) Q X s.
Proof.
  intros HX HQ. unfold save. apply wp_bind, wp_db_call.
  { intros e' x He Hf. apply HX; [exact He | left; exact Hf]. }
  intros e1 He1. apply wp_bind, wp_date_now. intros n e2 He2 _.
  rewrite env_of_set_env in *. apply wp_bind, wp_gets. rewrite !set_env_set_env, rows_set_env.
  assert (He : env_step (env_of s) e2) by (etransitivity; eassumption).
  destruct (existsb (same_row e) (rows s)) eqn:Hex.
  - destruct (violates (touched (clock e1 n) e) (rows s)) eqn:Hv.
    + apply wp_throw, HX; [exact He|]. right. split; [reflexivity|].
      exists (touched (clock e1 n) e). rewrite Hex.
      split; [apply saved_update | split; [apply row_id_touched | exact Hv]].
    + apply wp_bind, wp_modify, wp_ret, HQ; [exact He | apply saved_update | exact Hv | |].
      * intros _. eexists. reflexivity.
      * discriminate.
  - apply wp_bind.
    assert (Hi : wp (if String.eqb (row_id e) "" then random_uuid else ret (row_id e))
      (fun i s' => exists e3, s' = set_env e3 s /\ env_step (env_of s) e3 /\
                              i <> "" /\ (row_id e <> "" -> i = row_id e)) X (set_env e2 s)).
    { destruct (String.eqb_spec (row_id e) "").
      - apply wp_random_uuid. intros m e3 He3. rewrite env_of_set_env, set_env_set_env in *.
        exists e3. split; [reflexivity|]. split; [etransitivity; eassumption|].
        unfold uuid_string. destruct (uuid e2 m). split; [discriminate | congruence].
      - apply wp_ret. exists e2. auto. }
    eapply wp_mono; [exact Hi | | auto].
    intros i s' (e3 & -> & He3 & Hne & Hid). cbv zeta.
    set (r := created (clock e1 n) (set_row_id i e)).
    assert (Hr : saved_as e r) by (apply saved_insert; assumption).
    destruct (existsb (same_row r) (rows s)) eqn:Hd; simpl.
    + apply wp_throw, HX; [exact He3|]. right. rewrite Hex. eauto.
    + destruct (violates r (rows s)) eqn:Hv.
      * apply wp_throw, HX; [exact He3|]. right. rewrite Hex. eauto.
      * apply wp_bind, wp_modify, wp_ret, HQ; [exact He3 | exact Hr | exact Hv | discriminate |].
        intros _. split; [|exact Hd]. unfold r. rewrite row_id_created, row_id_set. exact Hne.
Qed.

(** Saving a row that is in the table, of an entity without unique indexes. *)
Lemma wp_save_existing (e : E) Q X (s : S) :
  existsb (same_row e) (rows s) = true ->
  (forall a b : E, clash a b = false) ->
  (forall e' x, env_step (env_of s) e' -> env_fault (env_of s) x -> X x (set_env e' s)) ->
  (forall e' t, env_step (env_of s) e' ->
     Q (touched t e) (set_rows (upsert (touched t e) (rows s)) (set_env e' s))) ->
  wp (save e) Q X s.
Proof.
  intros Hex Hcl HX HQ. apply wp_save.
  - intros e' x He [Hf|(_ & r & _ & Hv)]; [auto|]. exfalso. rewrite Hex in Hv. destruct Hv as [_ Hv].
    apply existsb_exists in Hv as (y & _ & Hy). rewrite Hcl, andb_false_r in Hy. discriminate.
  - intros e' r He _ _ Ht _. destruct (Ht Hex) as [t ->]. auto.
Qed.

Lemma wp_update_rows (p : E -> bool) f Q X (s : S) :
  (forall e' x, env_step (env_of s) e' -> env_fault (env_of s) x -> X x (set_env e' s)) ->
  (forall e' t, env_step (env_of s) e' ->
     Q tt (set_rows (map (fun e => if p e then touched t (f e) else e) (rows s)) (set_env e' s))) ->
  wp (update_rows p f) Q X s.
Proof.
  intros HX HQ. apply wp_bind, wp_db_call; [exact HX|]. intros e1 He1.
  apply wp_bind, wp_date_now. intros n e2 He2 _. rewrite env_of_set_env, !set_env_set_env in *.
  apply wp_modify. rewrite rows_set_env. apply HQ. etransitivity; eassumption.
Qed.

Lemma wp_delete_rows (p : E -> bool) Q X (s : S) :
  (forall e' x, env_step (env_of s) e' -> env_fault (env_of s) x -> X x (set_env e' s)) ->
  (forall e', env_step (env_of s) e' ->
     Q (Z.of_nat (length (List.filter p (rows s))))
       (set_rows (List.filter (fun e => negb (p e)) (rows s)) (set_env e' s))) ->
  wp (delete_rows p) Q X s.
Proof.
  intros HX HQ. apply wp_bind, wp_db_call; [exact HX|]. intros e1 He1.
  apply wp_bind, wp_gets, wp_bind, wp_modify, wp_ret. rewrite rows_set_env. apply HQ, He1.
Qed.

(** *** What the operations keep *)

Section Keeps.
Context (R : S -> S -> Prop) `{!PreOrder R} `{!EnvStable R}.

Lemma keeps_findOne (p : E -> bool) : keeps R (findOne p).
Proof. apply keeps_bind; [assumption | apply keeps_db_call; assumption | intros; apply keeps_gets; assumption]. Qed.

Lemma keeps_find_all (p : E -> bool) : keeps R (find_all p).
Proof. apply keeps_bind; [assumption | apply keeps_db_call; assumption | intros; apply keeps_gets; assumption]. Qed.

Lemma keeps_find_desc (p : E -> bool) k : keeps R (find_desc p k).
Proof. apply keeps_bind; [assumption | apply keeps_find_all | intros; apply keeps_ret; assumption]. Qed.

Lemma keeps_find_asc (p : E -> bool) k : keeps R (find_asc p k).
Proof. apply keeps_bind; [assumption | apply keeps_find_all | intros; apply keeps_ret; assumption]. Qed.

Lemma keeps_findOne_desc (p : E -> bool) k : keeps R (findOne_desc p k).
Proof. apply keeps_bind; [assumption | apply keeps_find_desc | intros; apply keeps_ret; assumption]. Qed.

Lemma keeps_count_rows (p : E -> bool) : keeps R (count_rows p).
Proof. apply keeps_bind; [assumption | apply keeps_find_all | intros; apply keeps_ret; assumption]. Qed.

(** [save] under a relation the new table satisfies. *)
Lemma keeps_save_rel (e : E) :
  (forall s r, saved_as e r -> violates r (rows s) = false ->
     R s (set_rows (upsert r (rows s)) s)) ->
  keeps R (save e).
Proof.
  intros HR. apply keeps_wp. intros s. apply wp_save.
  - intros e' x He _. apply env_stable, He.
  - intros e' r He Hr Hv _ _. rewrite set_rows_set_env. etransitivity; [apply HR; eassumption|].
    apply env_stable. rewrite env_of_set_rows. exact He.
Qed.

Lemma keeps_update_rel (p : E -> bool) f :
  (forall s t, R s (set_rows (map (fun e => if p e then touched t (f e) else e) (rows s)) s)) ->
  keeps R (update_rows p f).
Proof.
  intros HR. apply keeps_wp. intros s. apply wp_update_rows.
  - intros. apply env_stable. assumption.
  - intros e' t He. rewrite set_rows_set_env. etransitivity; [apply HR | apply env_stable].
    rewrite env_of_set_rows. exact He.
Qed.

Lemma keeps_delete_rel (p : E -> bool) :
  (forall s, R s (set_rows (List.filter (fun e => negb (p e)) (rows s)) s)) ->
  keeps R (delete_rows p).
Proof.
  intros HR. apply keeps_wp. intros s. apply wp_delete_rows.
  - intros. apply env_stable. assumption.
  - intros e' He. rewrite set_rows_set_env. etransitivity; [apply HR | apply env_stable].
    rewrite env_of_set_rows. exact He.
Qed.

Context `{!TableStable E R}.

Lemma keeps_save (e : E) : keeps R (save e).
Proof. apply keeps_save_rel. intros. apply (table_stable (E:=E)). Qed.

Lemma keeps_update_rows (p : E -> bool) f : keeps R (update_rows p f).
Proof. apply keeps_update_rel. intros. apply (table_stable (E:=E)). Qed.

Lemma keeps_delete_rows (p : E -> bool) : keeps R (delete_rows p).
Proof. apply keeps_delete_rel. intros. apply (table_stable (E:=E)). Qed.

Lemma keeps_rollback_table : forall s0 s, R s (rollback_table (E:=E) s0 s).
Proof. intros. apply (table_stable (E:=E)). Qed.
End Keeps.

(** An invariant on the rows survives [save] when what is saved satisfies it. *)
Lemma keeps_save_Forall (P : E -> Prop) (e : E) :
  (forall r, saved_as e r -> P r) ->
  keeps (invariant (fun s : S => Forall P (rows s))) (save e).
Proof.
  intros Hr. apply keeps_save_rel; [typeclasses eauto.. |].
  intros s r Hs _ HP. rewrite rows_set_rows. apply Forall_upsert; auto.
Qed.

(** Keys and unique indexes survive [save]. *)
Lemma keeps_save_unique (e : E) :
  (forall a b : E, clash a b = clash b a) ->
  keeps (invariant (fun s : S => table_unique (rows s : list E))) (save e).
Proof.
  intros Hsym. apply keeps_save_rel; [typeclasses eauto.. |].
  intros s r Hs Hv HU. rewrite rows_set_rows. apply table_unique_upsert; auto.
Qed.
End RepoRules.

(** ** Generated keys *)

Section Fresh.
Context {S E : Type} `{Table S E}.

(** No row of the table has the empty key, or a key still to be generated. *)
Definition free_ids (s : S) : Prop :=
  Forall (fun r : E => row_id r <> "" /\ forall n, row_id r <> uuid_string (env_of s) n) (rows s).

Lemma free_ids_none (s : S) (e : E) :
  free_ids s -> row_id e = "" \/ (exists n, row_id e = uuid_string (env_of s) n) -> existsb (same_row e) (rows s) = false.
Proof.
  intros Hf He. apply not_true_iff_false. intros (r & Hin & Hr)%existsb_exists.
  apply String.eqb_eq in Hr. unfold free_ids in Hf. rewrite List.Forall_forall in Hf. destruct (Hf r Hin) as [Hne Hg].
  destruct He as [He|[n He]]; [congruence | apply (Hg n); congruence].
Qed.

(** A new row whose key is generated is appended. *)
Lemma wp_save_generated (e : E) Q (s : S) :
  row_id e = "" -> (forall a b : E, clash a b = false) -> reliable (env_of s) -> free_ids s ->
  (forall e' i t, env_step (env_of s) e' ->
     Q (created t (set_row_id i e)) (set_rows (rows s ++ [created t (set_row_id i e)]) (set_env e' s))) ->
  wp (save e) Q (fun _ _ => False) s.
Proof.
  intros He Hcl Hr Hf HQ. unfold save. apply wp_bind, wp_db_call; [intros e' x _ Hx; exact (reliable_no_fault _ _ Hr Hx)|].
  intros e1 He1. apply wp_bind, wp_date_now. intros n e2 He2 _. rewrite env_of_set_env in *.
  apply wp_bind, wp_gets. rewrite !set_env_set_env, rows_set_env, (free_ids_none s e Hf (or_introl He)), He.
  apply wp_bind, wp_random_uuid. intros m e3 He3. rewrite env_of_set_env, set_env_set_env in *. cbv zeta.
  assert (Hm : uuid_string e2 m = uuid_string (env_of s) m).
  { unfold uuid_string. rewrite (es_uuid _ _ He2), (es_uuid _ _ He1). reflexivity. }
  rewrite (free_ids_none s); [|exact Hf | right; exists m; rewrite row_id_created, row_id_set; exact Hm].
  assert (Hv : forall r, violates r (rows s) = false).
  { intros r. apply not_true_iff_false. intros (y & _ & Hy)%existsb_exists. rewrite Hcl, andb_false_r in Hy. discriminate. }
  rewrite Hv.
  apply wp_bind, wp_modify, wp_ret.
  match goal with |- Q ?r (set_rows (upsert _ _) _) => replace (upsert r (rows s)) with (rows s ++ [r]) end.
  - apply HQ. env_chain.
  - unfold upsert. rewrite (free_ids_none s); [reflexivity | exact Hf | right; exists m; rewrite row_id_created, row_id_set; exact Hm].
Qed.

(** Generated keys are distinct, and those still to come are in no row: enough
    for any number of insertions. *)
Definition future_ids (s : S) : Prop :=
  (forall n m, uuid_string (env_of s) n = uuid_string (env_of s) m -> n = m) /\
  Forall (fun r : E => row_id r <> "" /\
            forall n, (uuids (env_of s) <= n)%nat -> row_id r <> uuid_string (env_of s) n) (rows s).

Lemma future_ids_set_env s e :
  uuid e = uuid (env_of s) -> (uuids (env_of s) <= uuids e)%nat -> future_ids s -> future_ids (set_env e s).
Proof.
  intros Hu Hn [Hinj Hf]. unfold future_ids, uuid_string in *. rewrite env_of_set_env, rows_set_env, Hu.
  split; [exact Hinj|]. eapply List.Forall_impl; [|exact Hf]. intros r [Hne Hr]. split; [exact Hne|].
  intros n Hle. apply Hr. lia.
Qed.

Lemma future_ids_env s e : env_step (env_of s) e -> future_ids s -> future_ids (set_env e s).
Proof. intros He. apply future_ids_set_env; [apply (es_uuid _ _ He) | apply (es_uuids _ _ He)]. Qed.

Lemma future_ids_rows s (t : list E) :
  future_ids s -> map row_id t = map row_id (rows s) -> future_ids (set_rows t s).
Proof.
  intros [Hinj Hf] Ht. unfold future_ids. rewrite env_of_set_rows, rows_set_rows. split; [exact Hinj|].
  rewrite List.Forall_forall in Hf |- *. intros r Hr. apply (in_map row_id) in Hr. rewrite Ht in Hr.
  apply in_map_iff in Hr as (r0 & <- & Hr0). exact (Hf r0 Hr0).
Qed.

(** An update of the row just appended touches no other row. *)
Lemma update_appended (p : E -> bool) (f : E -> E) (t : list E) r :
  p r = true -> (forall x, p x = true -> row_id x = row_id r) -> ~ In (row_id r) (map row_id t) ->
  map (fun e => if p e then f e else e) (t ++ [r]) = t ++ [f r].
Proof.
  intros Hp Hu Hn. rewrite map_app. cbn [map]. rewrite Hp. f_equal.
  rewrite <- (map_id t) at 2. apply map_ext_in. intros x Hx. destruct (p x) eqn:Hpx; [|reflexivity].
  exfalso. apply Hn. rewrite <- (Hu x Hpx). apply in_map, Hx.
Qed.

Lemma wp_save_future (e : E) Q (s : S) :
  row_id e = "" -> (forall a b : E, clash a b = false) -> reliable (env_of s) -> future_ids s ->
  (forall e' i t, env_step (env_of s) e' ->
     let r := created t (set_row_id i e) in let s' := set_rows (rows s ++ [r]) (set_env e' s) in
     ~ In (row_id r) (map row_id (rows s)) -> future_ids s' -> Q r s') ->
  wp (save e) Q (fun _ _ => False) s.
Proof.
  intros He Hcl Hr Hf HQ. unfold save. apply wp_bind, wp_db_call; [intros e' x _ Hx; exact (reliable_no_fault _ _ Hr Hx)|].
  intros e1 He1. apply wp_bind, wp_date_now. intros n e2 He2 _. rewrite env_of_set_env in *.
  apply wp_bind, wp_gets. rewrite !set_env_set_env, rows_set_env.
  assert (Hf2 : future_ids (set_env e2 s)) by (apply future_ids_env; [env_chain | exact Hf]).
  destruct Hf2 as [Hinj Hf2]. rewrite env_of_set_env in Hinj, Hf2. rewrite rows_set_env, List.Forall_forall in Hf2.
  assert (Hne : forall r : E, row_id r = "" \/ row_id r = uuid_string e2 (uuids e2) -> existsb (same_row r) (rows s) = false).
  { intros r Hi. apply not_true_iff_false. intros (y & Hy & Hs%same_row_true)%existsb_exists.
    destruct (Hf2 y Hy) as [Hy1 Hy2]. destruct Hi as [Hi|Hi]; [congruence | apply (Hy2 (uuids e2)); [lia | congruence]]. }
  rewrite (Hne e (or_introl He)), He.
  apply wp_bind, wp_random_uuid_exact. rewrite env_of_set_env, set_env_set_env. cbv zeta.
  set (r := created _ _).
  assert (Hid : row_id r = uuid_string e2 (uuids e2)) by (unfold r; rewrite row_id_created, row_id_set; reflexivity).
  rewrite (Hne r (or_intror Hid)).
  assert (Hv : violates r (rows s) = false).
  { apply not_true_iff_false. intros (y & _ & Hy)%existsb_exists. rewrite Hcl, andb_false_r in Hy. discriminate. }
  rewrite Hv. apply wp_bind, wp_modify, wp_ret.
  replace (upsert r (rows s)) with (rows s ++ [r]) by (unfold upsert; rewrite (Hne r (or_intror Hid)); reflexivity).
  apply HQ.
  - etransitivity; [env_chain | apply next_uuid_step].
  - intros (y & Hy & Hin)%in_map_iff. destruct (Hf2 y Hin) as [_ Hy2]. apply (Hy2 (uuids e2)); [lia | exact (eq_trans Hy Hid)].
  - unfold future_ids. rewrite env_of_set_rows, env_of_set_env, rows_set_rows. split; [exact Hinj|].
    apply Forall_app. split; [|constructor; [|constructor]].
    + rewrite List.Forall_forall. intros y Hy. destruct (Hf2 y Hy) as [Hy1 Hy2]. split; [exact Hy1|].
      intros k Hk. apply Hy2. simpl in Hk. lia.
    + match goal with |- ?i <> _ /\ _ => replace i with (uuid_string e2 (uuids e2)) by exact (eq_sym Hid) end.
      split; [unfold uuid_string; destruct (uuid e2 _); discriminate|].
      intros k Hk E0. apply Hinj in E0. simpl in Hk. lia.
Qed.
End Fresh.

(** ** Frames *)

(** [s'] is [s] after steps that only moved the environment on, without
    emitting, and rewrote the table of [E]. *)
Definition touches_only (E : Type) {S} `{Table S E} (s s' : S) : Prop :=
  exists e t, env_step (env_of s) e /\ s' = set_rows (E:=E) t (set_env e s).

(** [s'] is [s] with the environment moved on. *)
Definition env_only {S} `{HasEnv S} (s s' : S) : Prop :=
  exists e, env_step (env_of s) e /\ s' = set_env e s.

Section Frames.
Context {S E : Type} `{Table S E}.

Lemma touches_only_env_only s s' : env_only s s' -> touches_only E s s'.
Proof.
  intros (e & He & ->). exists e, (rows s). split; [exact He|].
  rewrite <- (rows_set_env e s) at 1. rewrite set_rows_rows. reflexivity.
Qed.

#[export] Instance touches_only_preorder : PreOrder (touches_only E (S:=S)).
Proof.
  split.
  - intros s. apply touches_only_env_only. exists (env_of s).
    split; [reflexivity | symmetry; apply set_env_env_of].
  - intros s1 s2 s3 (e & t & He & ->) (e' & t' & He' & ->). exists e', t'.
    rewrite env_of_set_rows, env_of_set_env in He'. split; [etransitivity; eassumption|].
    rewrite <- set_rows_set_env, set_rows_set_rows, set_env_set_env. reflexivity.
Qed.

#[export] Instance env_only_preorder : PreOrder (env_only (S:=S)).
Proof.
  split.
  - intros s. exists (env_of s). split; [reflexivity | symmetry; apply set_env_env_of].
  - intros s1 s2 s3 (e & He & ->) (e' & He' & ->). exists e'.
    rewrite env_of_set_env in He'. split; [etransitivity; eassumption|].
    apply set_env_set_env.
Qed.

Lemma rollback_nothing (s0 s : S) e :
  rows s0 = (rows s : list E) -> rollback_table (E:=E) s0 (set_env e s) = set_env e s.
Proof. intros Hr. unfold rollback_table. rewrite Hr, <- (rows_set_env e s). apply set_rows_rows. Qed.

Lemma rollback_write (s0 s : S) e (t : list E) :
  rows s0 = (rows s : list E) -> rollback_table (E:=E) s0 (set_rows t (set_env e s)) = set_env e s.
Proof.
  intros Hr. unfold rollback_table. rewrite set_rows_set_rows. apply rollback_nothing, Hr.
Qed.

#[export] Instance env_only_env_stable : EnvStable (env_only (S:=S)).
Proof. intros s e He. exists e. auto. Qed.

#[export] Instance touches_only_env_stable : EnvStable (touches_only E (S:=S)).
Proof. intros s e He. apply touches_only_env_only, env_stable, He. Qed.

#[export] Instance touches_only_table_stable : TableStable E (touches_only E (S:=S)).
Proof.
  intros s t. exists (env_of s), t. rewrite set_env_env_of. split; reflexivity.
Qed.

Lemma env_only_set s e : env_step (env_of s) e -> env_only s (set_env e s).
Proof. exists e. auto. Qed.
End Frames.
#[export] Hint Resolve env_only_set : env.

(** ** Automation *)

Create HintDb keeps.
#[global] Arguments free_ids {S} E {_ _ _} s.
#[global] Arguments future_ids {S} E {_ _ _} s.

#[export] Hint Resolve keeps_ret keeps_throw keeps_throw_if keeps_gets keeps_attempt
  keeps_db_call keeps_date_now keeps_random_uuid keeps_math_random keeps_emit
  keeps_findOne keeps_find_all keeps_find_desc keeps_find_asc keeps_findOne_desc
  keeps_count_rows keeps_save keeps_update_rows keeps_delete_rows : keeps.

(** Walk through a handler: binds, catches, tests and matches; leaves are
    solved from the database [keeps]. *)
Ltac keeps_step :=
  lazymatch goal with
  | |- keeps _ (bind _ _) => apply keeps_bind; [try typeclasses eauto | | intros ?]
  | |- keeps _ (try_catch _ _) => apply keeps_try_catch; [try typeclasses eauto | | intros ?]
  | |- keeps _ (try_finally _ _) => apply keeps_try_finally; [try typeclasses eauto | |]
  | |- keeps _ (for_each _ _) => apply keeps_for_each; [try typeclasses eauto | intros ? ?]
  | |- keeps _ (fold_each _ _ _) => apply keeps_fold_each; [try typeclasses eauto | intros ? ? ?]
  | |- keeps _ (modify _) => apply keeps_modify; intros ?
  | |- keeps _ (if ?b then _ else _) => destruct b eqn:?
  | |- keeps _ (match ?x with _ => _ end) => destruct x eqn:?
  | |- keeps _ (let _ := _ in _) => cbv zeta
  end.

Ltac keeps_auto :=
  repeat first
    [ keeps_step
    | solve [eauto with keeps typeclass_instances]
    | apply keeps_transaction; [typeclasses eauto .. | |] ].

(** One step of symbolic execution of a handler under [wp]. *)
Ltac wp_step :=
  lazymatch goal with
  | |- wp (bind _ _) _ _ _ => apply wp_bind
  | |- wp (ret _) _ _ _ => apply wp_ret
  | |- wp (throw _) _ _ _ => apply wp_throw
  | |- wp (throw_if _ _) _ _ _ => apply wp_throw_if; intros ?
  | |- wp (try_catch _ _) _ _ _ => apply wp_try_catch
  | |- wp (attempt _) _ _ _ => apply wp_attempt
  | |- wp (gets _) _ _ _ => apply wp_gets
  | |- wp (modify _) _ _ _ => apply wp_modify
  | |- wp (emit _ _) _ _ _ => apply wp_emit
  | |- wp db_call _ _ _ => apply wp_db_call; [intros ? ? ? ? | intros ? ?]
  | |- wp date_now _ _ _ => apply wp_date_now; intros ? ? ? ?
  | |- wp random_uuid _ _ _ => apply wp_random_uuid; intros ? ? ?
  | |- wp math_random _ _ _ => apply wp_math_random; intros ? ? ?
  | |- wp (findOne _) _ _ _ => apply wp_findOne; [intros ? ? ? ? | intros ? ?]
  | |- wp (find_all _) _ _ _ => apply wp_find_all; [intros ? ? ? ? | intros ? ?]
  | |- wp (findOne_desc _ _) _ _ _ => apply wp_findOne_desc; [intros ? ? ? ? | intros ? ?]
  | |- wp (save _) _ _ _ => apply wp_save; [intros ? ? ? ? | intros ? ? ? ? ? ? ?]
  | |- wp (update_rows _ _) _ _ _ => apply wp_update_rows; [intros ? ? ? ? | intros ? ? ?]
  | |- wp (delete_rows _) _ _ _ => apply wp_delete_rows; [intros ? ? ? ? | intros ? ?]
  | |- wp (if ?b then _ else _) _ _ _ => destruct b eqn:?
  | |- wp (match ?x with _ => _ end) _ _ _ => destruct x eqn:?
  | |- wp (let _ := _ in _) _ _ _ => cbv zeta
  end; cbv beta; env_norm.

(** ** Frames of concrete states

    An observation of the state that a step does not reach is kept by
    computation: another table, an in-memory map, the outbox. *)
#[export] Hint Extern 5 (EnvStable (same _)) =>
  (let He := fresh in intros ? ? He; first [reflexivity | exact (es_outbox _ _ He)]) : typeclass_instances.
#[export] Hint Extern 5 (EmitStable (same _)) => (intros ? ?; reflexivity) : typeclass_instances.
#[export] Hint Extern 5 (TableStable _ (same _)) => (intros ? ?; reflexivity) : typeclass_instances.
#[export] Hint Extern 5 (EnvStable (invariant _)) => exact (fun _ _ _ H => H) : typeclass_instances.
#[export] Hint Extern 5 (EmitStable (invariant _)) => exact (fun _ _ H => H) : typeclass_instances.
#[export] Hint Extern 5 (TableStable _ (invariant _)) => exact (fun _ _ H => H) : typeclass_instances.

(** Close what [keeps_auto] leaves of in-memory updates. *)
Ltac keeps_state := keeps_auto; try (unfold same; reflexivity); try (split; reflexivity).
