(* ===== verification/NumberLaws.v ===== *)
(** Laws of the number-to-string conversions: [Number(s)] reads back what
    [toFixed] printed, as the double nearest to the printed decimal, so it is
    never NaN and carries the sign that was printed. *)
From S2P Require Import Prelude JsNumber.
From Stdlib Require Import Floats.SpecFloat Numbers.DecimalString DecimalN DecimalPos DecimalFacts.
Local Open Scope Z_scope.

(** ** Digits *)

Lemma parse_digits_string_of_N n : parse_digits (string_of_N n) = Some (Z.of_N n).
Proof.
  unfold parse_digits, string_of_N.
  assert (Hne : N.to_uint n <> Decimal.Nil)
    by (destruct n; [discriminate | apply DecimalPos.Unsigned.to_uint_nonnil]).
  assert (H : NilEmpty.uint_of_string (NilZero.string_of_uint (N.to_uint n)) =
              Some (N.to_uint n)).
  { unfold NilZero.string_of_uint. destruct (N.to_uint n); [congruence | apply NilEmpty.usu..]. }
  rewrite H. rewrite DecimalN.Unsigned.of_to. reflexivity.
Qed.

Lemma parse_digits_pad k s z :
  parse_digits s = Some z -> parse_digits (string_repeat "0" k +:+ s) = Some z.
Proof.
  intros Hs. induction k as [|k IH]; [exact Hs|].
  change (string_repeat "0" (S k) +:+ s) with (String "0" (string_repeat "0" k +:+ s)).
  unfold parse_digits in *. cbn [NilEmpty.uint_of_string].
  destruct (NilEmpty.uint_of_string (string_repeat "0" k +:+ s)) as [u|]; [exact IH | discriminate].
Qed.

(** No decimal point among the digits. *)
Fixpoint no_char (c : ascii) (s : string) : bool :=
  match s with
  | EmptyString => true
  | String a s' => negb (Ascii.eqb a c) && no_char c s'
  end.

Lemma no_char_app c s t : no_char c (s +:+ t) = no_char c s && no_char c t.
Proof.
  induction s as [|a s IH]; simpl; [reflexivity|].
  change (String.append s t) with (s +:+ t). rewrite IH. apply andb_assoc.
Qed.

Lemma no_char_uint u : no_char "." (NilEmpty.string_of_uint u) = true.
Proof. induction u; simpl; auto. Qed.

Lemma no_char_string_of_N n : no_char "." (string_of_N n) = true.
Proof. unfold string_of_N. destruct (N.to_uint n); [reflexivity | apply no_char_uint..]. Qed.

Lemma split_at_char_app c s t :
  no_char c s = true -> split_at_char c (s +:+ String c t) = (s, Some t).
Proof.
  induction s as [|a s IH]; simpl; intros H.
  - rewrite Ascii.eqb_refl. reflexivity.
  - apply andb_prop in H as [Ha Hs]. apply negb_true_iff in Ha. rewrite Ha.
    change (String.append s (String c t)) with (s +:+ String c t).
    rewrite (IH Hs). reflexivity.
Qed.

Lemma split_at_char_none c s : no_char c s = true -> split_at_char c s = (s, None).
Proof.
  induction s as [|a s IH]; simpl; intros H; [reflexivity|].
  apply andb_prop in H as [Ha Hs]. apply negb_true_iff in Ha. rewrite Ha, (IH Hs). reflexivity.
Qed.

Lemma string_of_N_head n : exists a s, string_of_N n = String a s /\ a <> "-"%char.
Proof.
  unfold string_of_N. destruct (N.to_uint n) eqn:E; simpl; eexists _, _;
    (split; [reflexivity | discriminate]).
Qed.

(** ** Signs

    [signed sx x]: [x] is not NaN and its sign bit is [sx].  Rounding keeps the
    sign and never makes a NaN. *)
Definition signed (sx : bool) (x : num) : Prop :=
  match x with
  | S754_zero s | S754_infinity s | S754_finite s _ _ => s = sx
  | S754_nan => False
  end.

Lemma shr_1_nonneg r : 0 <= shr_m r -> 0 <= shr_m (shr_1 r).
Proof. destruct r as [[|[]|p] ? ?]; simpl; lia. Qed.

Lemma iter_shr_nonneg p : forall r, 0 <= shr_m r -> 0 <= shr_m (iter_pos shr_1 p r).
Proof. induction p; simpl; auto using shr_1_nonneg. Qed.

Lemma shr_fexp_nonneg m e l :
  0 <= m -> 0 <= shr_m (fst (shr_fexp prec64 emax64 m e l)).
Proof.
  intros Hm. unfold shr_fexp, shr.
  assert (H : 0 <= shr_m (shr_record_of_loc m l)) by (destruct l as [|[]]; exact Hm).
  destruct (fexp _ _ _ - e); simpl; auto using iter_shr_nonneg.
Qed.

Lemma round_nearest_even_nonneg m l : 0 <= m -> 0 <= round_nearest_even m l.
Proof. destruct l as [|[]]; simpl; try destruct (Z.even m); lia. Qed.

Lemma binary_round_aux_signed sx m e l :
  0 <= m -> signed sx (binary_round_aux prec64 emax64 sx m e l).
Proof.
  intros Hm. unfold binary_round_aux.
  pose proof (shr_fexp_nonneg m e l Hm) as H1. destruct (shr_fexp _ _ m e l) as [r1 e1].
  pose proof (shr_fexp_nonneg (round_nearest_even (shr_m r1) (loc_of_shr_record r1)) e1 loc_Exact
                (round_nearest_even_nonneg _ _ H1)) as H2.
  destruct (shr_fexp _ _ _ e1 loc_Exact) as [r2 e2]. simpl in H2.
  destruct (shr_m r2); simpl; try lia; [reflexivity|].
  destruct (e2 <=? _); reflexivity.
Qed.

Lemma div_core_nonneg p d : 0 <= fst (fst (SFdiv_core_binary prec64 emax64 (Zpos p) 0 (Zpos d) 0)).
Proof.
  unfold SFdiv_core_binary.
  set (s := 0 - 0 - _). set (m' := match s with Z0 => _ | _ => _ end).
  assert (Hm : 0 <= m').
  { unfold m'. destruct s; try lia. apply Z.shiftl_nonneg. lia. }
  pose proof (Z_div_mod m' (Zpos d) ltac:(reflexivity)) as Hd.
  destruct (Z.div_eucl m' (Zpos d)) as [q r]. simpl. destruct Hd as [Hd Hr]. nia.
Qed.

Lemma num_of_ratio_signed n d : n <> 0 -> signed (n <? 0) (num_of_ratio n d).
Proof.
  intros Hn. unfold num_of_ratio. destruct n as [|p|p]; [congruence|..];
    pose proof (div_core_nonneg p d) as H; destruct (SFdiv_core_binary _ _ _ _ _ _) as [[m e] l];
    apply binary_round_aux_signed; exact H.
Qed.

Lemma num_of_ratio_nonneg n d : 0 <= n -> signed false (num_of_ratio n d).
Proof.
  intros Hn. destruct (Z.eq_dec n 0) as [->|Hne]; [reflexivity|].
  pose proof (num_of_ratio_signed n d Hne) as H.
  destruct (Z.ltb_spec n 0); [lia | exact H].
Qed.

Lemma binary_normalize_signed m e z :
  signed (if m =? 0 then z else m <? 0) (binary_normalize prec64 emax64 m e z).
Proof.
  unfold binary_normalize, binary_round. destruct m as [|p|p]; [reflexivity|..];
    simpl; destruct (shl_align _ _ _) as [q f]; apply binary_round_aux_signed; lia.
Qed.

Lemma signed_not_nan sx x : signed sx x -> is_nan x = false.
Proof. destruct x; simpl; [reflexivity..|tauto|reflexivity]. Qed.

Lemma signed_opp sx x : signed sx x -> signed (negb sx) (num_opp x).
Proof. destruct x; simpl; intros; subst; auto. Qed.

Lemma signed_nonneg x : signed false x -> num_leb (num_of_Z 0) x = true.
Proof. destruct x as [[]|[]| |[] m e]; simpl; intros; try congruence; try reflexivity; contradiction. Qed.

Lemma signed_neg_zero sx x : num_ltb x (num_of_Z 0) = true -> signed sx x -> sx = true.
Proof. destruct x as [[]|[]| |[] m e], sx; simpl; intros H1 H2; try reflexivity; try discriminate; contradiction. Qed.

(** Sums and products of non-negative numbers are non-negative. *)
Lemma num_add_nonneg x y : signed false x -> signed false y -> signed false (num_add x y).
Proof.
  intros Hx Hy. destruct x as [[]|[]| |[] m e], y as [[]|[]| |[] m' e'];
    try contradiction; try discriminate; try reflexivity.
  unfold num_add, SFadd.
  match goal with |- signed false (binary_normalize _ _ ?m ?e ?z) =>
    pose proof (binary_normalize_signed m e z) as H end.
  exact H.
Qed.

(** A finite number added to a number gives a number. *)
Lemma num_add_number x y : is_nan x = false -> is_finite y = true -> is_nan (num_add x y) = false.
Proof.
  intros Hx Hy. destruct x as [sx|sx| |sx m e], y as [sy|sy| |sy m' e']; try discriminate; try reflexivity.
  - destruct sx, sy; reflexivity.
  - unfold num_add, SFadd. eapply signed_not_nan, binary_normalize_signed.
Qed.

Lemma num_mul_nonneg x y :
  signed false x -> signed false y -> is_finite x = true -> is_finite y = true ->
  signed false (num_mul x y).
Proof.
  intros Hx Hy Fx Fy. destruct x as [[]|[]| |[] m e], y as [[]|[]| |[] m' e'];
    try contradiction; try discriminate; try reflexivity.
  unfold num_mul, SFmul. apply binary_round_aux_signed. lia.
Qed.

(** ** Reading back what [toFixed] prints *)

Lemma parse_digits_string_of_Z z : 0 <= z -> parse_digits (string_of_Z z) = Some z.
Proof.
  intros Hz. unfold string_of_Z. destruct (Z.ltb_spec z 0); [lia|].
  rewrite parse_digits_string_of_N, Z2N.id; auto.
Qed.

Lemma string_of_Z_nonneg z : 0 <= z -> string_of_Z z = string_of_N (Z.to_N z).
Proof. intros Hz. unfold string_of_Z. destruct (Z.ltb_spec z 0); [lia | reflexivity]. Qed.

(** The printed magnitude reads as a non-negative number. *)
Lemma parse_unsigned_fixed f z :
  exists a d, 0 <= a /\
    parse_unsigned (string_of_Z (Z.abs z / 10 ^ Z.of_nat f) +:+
      match f with O => "" | _ => "." +:+ pad_start_zero f (string_of_Z (Z.abs z mod 10 ^ Z.of_nat f)) end)
    = num_of_ratio a d.
Proof.
  assert (Hp : 0 < 10 ^ Z.of_nat f) by (apply Z.pow_pos_nonneg; lia).
  assert (Hi : 0 <= Z.abs z / 10 ^ Z.of_nat f) by (apply Z.div_pos; lia).
  assert (Hm : 0 <= Z.abs z mod 10 ^ Z.of_nat f) by (apply Z.mod_pos_bound; lia).
  set (ip := Z.abs z / _) in *. set (fp := Z.abs z mod _) in *.
  assert (Hnc : no_char "." (string_of_Z ip) = true)
    by (rewrite string_of_Z_nonneg by exact Hi; apply no_char_string_of_N).
  destruct (string_of_N_head (Z.to_N ip)) as (c & r & Hc & _).
  unfold parse_unsigned. destruct f as [|f].
  - exists ip, 1%positive. split; [exact Hi|].
    rewrite split_at_char_none by (rewrite no_char_app, Hnc; reflexivity).
    rewrite string_app_empty. pose proof (parse_digits_string_of_Z ip Hi) as Hd.
    rewrite (string_of_Z_nonneg ip Hi), Hc in *. cbv iota beta. rewrite Hd. reflexivity.
  - change ("." +:+ ?s) with (String "." s).
    rewrite (split_at_char_app "." _ _ Hnc), (parse_digits_string_of_Z ip Hi).
    unfold pad_start_zero. rewrite (parse_digits_pad _ _ fp) by (apply parse_digits_string_of_Z; exact Hm).
    eexists _, _. split; [|reflexivity].
    apply Z.add_nonneg_nonneg; [apply Z.mul_nonneg_nonneg; [exact Hi|]|exact Hm].
    apply Z.pow_nonneg. lia.
Qed.

(** [Number(s)] on a printed decimal is a number of the printed sign. *)
Lemma number_of_fixed_signed f z : signed (z <? 0) (number_of_string (fixed_string f z)).
Proof.
  destruct (parse_unsigned_fixed f z) as (a & d & Ha & Hparse).
  unfold fixed_string. destruct (z <? 0).
  - change ("-" +:+ ?s) with (String "-" s). simpl. rewrite Hparse.
    apply (signed_opp false), num_of_ratio_nonneg, Ha.
  - change ("" +:+ ?s) with s.
    destruct (string_of_N_head (Z.to_N (Z.abs z / 10 ^ Z.of_nat f))) as (c & r & Hc & Hne).
    assert (Hi : 0 <= Z.abs z / 10 ^ Z.of_nat f)
      by (apply Z.div_pos; [lia | apply Z.pow_pos_nonneg; lia]).
    rewrite (string_of_Z_nonneg _ Hi) in *. rewrite Hc in *.
    change (String c r +:+ ?s) with (String c (r +:+ s)) in *. unfold number_of_string.
    assert (Hs : forall s, (match String c s with
                            | String "-" s' => num_opp (parse_unsigned s')
                            | _ => parse_unsigned (String c s) end) = parse_unsigned (String c s)).
    { intros s. destruct c as [[] [] [] [] [] [] [] []]; try reflexivity. exfalso; apply Hne; reflexivity. }
    rewrite Hs, Hparse. apply num_of_ratio_nonneg, Ha.
Qed.

Lemma number_of_fixed_not_nan f z : is_nan (number_of_string (fixed_string f z)) = false.
Proof. eapply signed_not_nan, number_of_fixed_signed. Qed.
