(* ===== verification/JsData.v ===== *)
(** JavaScript strings and dates as the services use them: ASCII case
    conversion, [trim], [startsWith], [includes], [slice]; a [Date] is its
    number of milliseconds since the epoch, its calendar fields are those of
    UTC (the time zone the service runs in). *)
From S2P Require Import Prelude JsNumber NumberLaws.
Local Open Scope Z_scope.

(** ** Strings *)

Definition upper_ascii (c : ascii) : ascii :=
  let n := nat_of_ascii c in
  if (97 <=? n)%nat && (n <=? 122)%nat then ascii_of_nat (n - 32) else c.

Definition lower_ascii (c : ascii) : ascii :=
  let n := nat_of_ascii c in
  if (65 <=? n)%nat && (n <=? 90)%nat then ascii_of_nat (n + 32) else c.

Fixpoint map_string (f : ascii -> ascii) (s : string) : string :=
  match s with EmptyString => "" | String c s' => String (f c) (map_string f s') end.

Definition toUpperCase (s : string) : string := map_string upper_ascii s.
Definition toLowerCase (s : string) : string := map_string lower_ascii s.

Definition is_space (c : ascii) : bool :=
  let n := nat_of_ascii c in
  ((9 <=? n)%nat && (n <=? 13)%nat) || (n =? 32)%nat || (n =? 160)%nat.

Fixpoint trim_start (s : string) : string :=
  match s with
  | String c s' => if is_space c then trim_start s' else s
  | EmptyString => ""
  end.

Fixpoint rev_string (s acc : string) : string :=
  match s with EmptyString => acc | String c s' => rev_string s' (String c acc) end.

Definition trim (s : string) : string :=
  rev_string (trim_start (rev_string (trim_start s) "")) "".

Definition starts_with (p s : string) : bool := String.prefix p s.
Definition ends_with (p s : string) : bool :=
  String.prefix (rev_string p "") (rev_string s "").
Definition includes (sub s : string) : bool :=
  match String.index 0 sub s with Some _ => true | None => false end.

(** [s.slice(a, b)] for [0 <= a <= b], and [s.slice(-n)]. *)
Definition slice (a b : nat) (s : string) : string := String.substring a (b - a) s.
Definition slice_last (n : nat) (s : string) : string :=
  String.substring (String.length s - n) n s.

(** A string is falsy when empty. *)
Definition str_truthy (s : string) : bool := negb (String.eqb s "").
Definition opt_truthy (s : option string) : bool :=
  match s with Some s => str_truthy s | None => false end.

(** [s.split(sep)] at a character. *)
Fixpoint split_on (c : ascii) (s : string) : list string :=
  match s with
  | EmptyString => [""]
  | String a s' =>
      if Ascii.eqb a c then "" :: split_on c s'
      else match split_on c s' with
           | [] => [String a ""]
           | w :: ws => String a w :: ws
           end
  end.

Fixpoint join (sep : string) (l : list string) : string :=
  match l with
  | [] => ""
  | [s] => s
  | s :: l' => s +:+ sep +:+ join sep l'
  end.

(** ** Splitting and joining *)

Lemma split_on_app c s t : no_char c s = true -> split_on c (s +:+ String c t) = s :: split_on c t.
Proof.
  induction s as [|x s IH]; simpl; intros H; [rewrite Ascii.eqb_refl; reflexivity|].
  apply andb_prop in H as [Hx Hs]. apply negb_true_iff in Hx. rewrite Hx.
  change (String.append s (String c t)) with (s +:+ String c t). rewrite (IH Hs). reflexivity.
Qed.

Lemma split_on_none c s : no_char c s = true -> split_on c s = [s].
Proof.
  induction s as [|x s IH]; simpl; intros H; [reflexivity|].
  apply andb_prop in H as [Hx Hs]. apply negb_true_iff in Hx. rewrite Hx, (IH Hs). reflexivity.
Qed.

(** Pieces without the separator come back. *)
Lemma split_join c l :
  l <> [] -> Forall (fun s => no_char c s = true) l -> split_on c (join (String c "") l) = l.
Proof.
  intros Hne Hl. induction Hl as [|s l Hs Hl IH]; [congruence|]. destruct l as [|t l].
  - apply split_on_none, Hs.
  - change (join (String c "") (s :: t :: l)) with (s +:+ String c (join (String c "") (t :: l))).
    rewrite (split_on_app _ _ _ Hs), IH by discriminate. reflexivity.
Qed.

Lemma join_app sep l l' : l <> [] -> l' <> [] -> join sep (l ++ l') = join sep l +:+ sep +:+ join sep l'.
Proof.
  intros Hl Hl'. induction l as [|s l IH]; [congruence|]. destruct l as [|t l].
  - destruct l' as [|t l']; [congruence|]. reflexivity.
  - change (s +:+ sep +:+ join sep ((t :: l) ++ l') = (s +:+ sep +:+ join sep (t :: l)) +:+ sep +:+ join sep l').
    rewrite IH by discriminate. rewrite !string_app_assoc. reflexivity.
Qed.

Lemma prefix_app p s : String.prefix p (p +:+ s) = true.
Proof. induction p as [|c p IH]; [destruct s; reflexivity|]. simpl. destruct (ascii_dec c c); [exact IH | congruence]. Qed.

Lemma string_length_app s t : String.length (s +:+ t) = (String.length s + String.length t)%nat.
Proof. induction s as [|c s IH]; [reflexivity|]. change (S (String.length (s +:+ t)) = S (String.length s) + String.length t)%nat. lia. Qed.

Lemma prefix_length p s : String.prefix p s = true -> (String.length p <= String.length s)%nat.
Proof.
  revert s. induction p as [|c p IH]; intros [|d s]; simpl; intros H; try discriminate; [lia..|].
  destruct (ascii_dec c d); [|discriminate]. specialize (IH s H). lia.
Qed.

Lemma includes_char c s : includes (String c "") s = negb (no_char c s).
Proof.
  unfold includes. induction s as [|x s IH]; [reflexivity|]. cbn [String.index no_char].
  destruct (Ascii.eqb_spec x c) as [->|Hx].
  - simpl. destruct (ascii_dec c c); [destruct s; reflexivity | congruence].
  - replace (String.prefix (String c "") (String x s)) with false
      by (simpl; destruct (ascii_dec c x); [congruence | reflexivity]).
    cbn [negb andb]. rewrite <- IH. destruct (String.index 0 (String c "") s); reflexivity.
Qed.

Lemma includes_cons sub c s : includes sub (String c s) = String.prefix sub (String c s) || includes sub s.
Proof.
  unfold includes. cbn [String.index]. destruct (String.prefix sub (String c s)); [destruct sub; reflexivity|].
  destruct (String.index 0 sub s); reflexivity.
Qed.

Lemma includes_prefix sub s : String.prefix sub s = true -> includes sub s = true.
Proof. destruct s as [|c s]; [destruct sub; [reflexivity | discriminate]|]. intros H. rewrite includes_cons, H. reflexivity. Qed.

Lemma includes_after sub a s : includes sub s = true -> includes sub (a +:+ s) = true.
Proof.
  intros H. induction a as [|c a IH]; [exact H|]. change (includes sub (String c (a +:+ s)) = true).
  rewrite includes_cons, IH. apply orb_true_r.
Qed.

(** Sub-strings are those with text before and after. *)
Lemma includes_iff sub s : includes sub s = true <-> exists a b, s = a +:+ sub +:+ b.
Proof.
  split; [|intros (a & b & ->); apply includes_after, includes_prefix, prefix_app].
  assert (Hp : forall p t, String.prefix p t = true -> exists b, t = p +:+ b).
  { intros p. induction p as [|c p IH]; intros t H; [eauto|]. destruct t as [|d t]; [discriminate|]. simpl in H.
    destruct (ascii_dec c d) as [->|]; [|discriminate]. destruct (IH t H) as [b ->]. eauto. }
  induction s as [|c s IH]; intros H.
  - exists "", "". destruct sub; [reflexivity | discriminate].
  - rewrite includes_cons in H. apply orb_prop in H as [H|H].
    + destruct (Hp _ _ H) as [b ->]. exists "", b. reflexivity.
    + destruct (IH H) as (a & b & ->). exists (String c a), b. reflexivity.
Qed.

Lemma includes_app a sub b : includes sub (a +:+ sub +:+ b) = true.
Proof. apply includes_iff. eauto. Qed.

Lemma includes_trans a b c : includes a b = true -> includes b c = true -> includes a c = true.
Proof.
  rewrite !includes_iff. intros (x & y & ->) (u & v & ->). exists (u +:+ x), (y +:+ v). rewrite !string_app_assoc. reflexivity.
Qed.

Lemma includes_join sep s l : In s l -> includes s (join sep l) = true.
Proof.
  induction l as [|t l IH]; intros Hin; [destruct Hin|].
  assert (Ht : forall r, includes t (t +:+ r) = true) by (intros r; exact (includes_app "" t r)).
  destruct l as [|u l]; [destruct Hin as [->|[]]; cbn [join]; rewrite <- (string_app_empty s) at 2; apply (includes_app "")|].
  destruct Hin as [->|Hin]; [exact (includes_app "" s _)|]. do 2 apply includes_after. auto.
Qed.

Lemma upper_ascii_idem c : upper_ascii (upper_ascii c) = upper_ascii c.
Proof. destruct c as [[] [] [] [] [] [] [] []]; vm_compute; reflexivity. Qed.

Lemma toUpperCase_idem s : toUpperCase (toUpperCase s) = toUpperCase s.
Proof.
  unfold toUpperCase. induction s as [|c s IH]; simpl; [reflexivity|].
  rewrite upper_ascii_idem, IH. reflexivity.
Qed.

(** *** [trim] *)

Lemma rev_string_acc s : forall acc, rev_string s acc = rev_string s "" +:+ acc.
Proof.
  induction s as [|c s IH]; intros acc; [reflexivity|]. cbn [rev_string].
  rewrite (IH (String c acc)), (IH (String c "")), string_app_assoc. reflexivity.
Qed.

Lemma rev_string_app s t : rev_string (s +:+ t) "" = rev_string t "" +:+ rev_string s "".
Proof.
  induction s as [|c s IH].
  - symmetry. apply string_app_empty.
  - change (String c s +:+ t) with (String c (s +:+ t)). cbn [rev_string].
    rewrite rev_string_acc, IH, (rev_string_acc s (String c "")), string_app_assoc.
    reflexivity.
Qed.

Lemma rev_string_involutive s : rev_string (rev_string s "") "" = s.
Proof.
  induction s as [|c s IH]; [reflexivity|]. cbn [rev_string].
  rewrite (rev_string_acc s (String c "")), rev_string_app, IH. reflexivity.
Qed.

(** No space at the head. *)
Definition no_lead (s : string) : bool :=
  match s with EmptyString => true | String c _ => negb (is_space c) end.

Lemma no_lead_trim_start s : no_lead (trim_start s) = true.
Proof.
  induction s as [|c s IH]; simpl; [reflexivity|].
  destruct (is_space c) eqn:Hc; [exact IH|]. simpl. rewrite Hc. reflexivity.
Qed.

Lemma trim_start_fixed s : no_lead s = true -> trim_start s = s.
Proof. destruct s as [|c s]; simpl; [reflexivity|]. destruct (is_space c); [discriminate | reflexivity]. Qed.

(** [trim_start] drops a prefix. *)
Lemma trim_start_suffix s : exists p, s = p +:+ trim_start s.
Proof.
  induction s as [|c s [p IH]]; [exists ""; reflexivity|]. simpl.
  destruct (is_space c); [|exists ""; reflexivity].
  exists (String c p). exact (f_equal (String c) IH).
Qed.

Lemma no_lead_trim_end s : no_lead s = true ->
  no_lead (rev_string (trim_start (rev_string s "")) "") = true.
Proof.
  intros Hs. destruct (trim_start_suffix (rev_string s "")) as [p Hp].
  set (u := trim_start (rev_string s "")) in *.
  apply (f_equal (fun x => rev_string x "")) in Hp.
  rewrite rev_string_involutive, rev_string_app in Hp.
  destruct (rev_string u "") as [|c r]; [reflexivity|]. subst s. exact Hs.
Qed.

Lemma trim_idem s : trim (trim s) = trim s.
Proof.
  unfold trim at 1. rewrite (trim_start_fixed (trim s)).
  - unfold trim. rewrite rev_string_involutive, (trim_start_fixed (trim_start _)); [reflexivity|].
    apply no_lead_trim_start.
  - apply no_lead_trim_end, no_lead_trim_start.
Qed.

Lemma is_space_upper c : is_space (upper_ascii c) = is_space c.
Proof. destruct c as [[] [] [] [] [] [] [] []]; vm_compute; reflexivity. Qed.

Lemma toUpperCase_rev s : forall acc,
  toUpperCase (rev_string s acc) = rev_string (toUpperCase s) (toUpperCase acc).
Proof. induction s as [|c s IH]; intros acc; [reflexivity|]. cbn. apply IH. Qed.

Lemma toUpperCase_trim_start s : toUpperCase (trim_start s) = trim_start (toUpperCase s).
Proof.
  induction s as [|c s IH]; [reflexivity|]. cbn. rewrite is_space_upper.
  destruct (is_space c); [exact IH | reflexivity].
Qed.

Lemma toUpperCase_trim s : toUpperCase (trim s) = trim (toUpperCase s).
Proof.
  unfold trim. rewrite toUpperCase_rev, toUpperCase_trim_start, toUpperCase_rev,
    toUpperCase_trim_start. reflexivity.
Qed.

(** ** Dates *)

Definition MS_PER_DAY : Z := 86400000.

(** Days since 1970-01-01 of a proleptic Gregorian date, and back. *)
Definition days_from_civil (y m d : Z) : Z :=
  let y' := if m <=? 2 then y - 1 else y in
  let era := y' / 400 in
  let yoe := y' - era * 400 in
  let doy := (153 * (m + (if 2 <? m then -3 else 9)) + 2) / 5 + d - 1 in
  let doe := yoe * 365 + yoe / 4 - yoe / 100 + doy in
  era * 146097 + doe - 719468.

Definition civil_from_days (z0 : Z) : Z * Z * Z :=
  let z := z0 + 719468 in
  let era := z / 146097 in
  let doe := z - era * 146097 in
  let yoe := (doe - doe / 1460 + doe / 36524 - doe / 146096) / 365 in
  let doy := doe - (365 * yoe + yoe / 4 - yoe / 100) in
  let mp := (5 * doy + 2) / 153 in
  let d := doy - (153 * mp + 2) / 5 + 1 in
  let m := mp + (if mp <? 10 then 3 else -9) in
  (yoe + era * 400 + (if m <=? 2 then 1 else 0), m, d).

Definition date_fields (ms : Z) : Z * Z * Z := civil_from_days (ms / MS_PER_DAY).

Definition getFullYear (ms : Z) : Z := let '(y, _, _) := date_fields ms in y.

(** [new Date().toISOString().slice(0, 10)] and [.slice(0, 7)]. *)
Definition iso_month (ms : Z) : string :=
  let '(y, m, _) := date_fields ms in
  pad_start_zero 4 (string_of_Z y) +:+ "-" +:+ pad_start_zero 2 (string_of_Z m).
Definition iso_day (ms : Z) : string :=
  let '(_, _, d) := date_fields ms in
  iso_month ms +:+ "-" +:+ pad_start_zero 2 (string_of_Z d).

(** [toISOString()]. *)
Definition toISOString (ms : Z) : string :=
  let t := ms mod MS_PER_DAY in
  iso_day ms +:+ "T" +:+ pad_start_zero 2 (string_of_Z (t / 3600000)) +:+ ":" +:+
  pad_start_zero 2 (string_of_Z (t / 60000 mod 60)) +:+ ":" +:+
  pad_start_zero 2 (string_of_Z (t / 1000 mod 60)) +:+ "." +:+
  pad_start_zero 3 (string_of_Z (t mod 1000)) +:+ "Z".

(** [setFullYear(y)], [setMonth(m)], [setDate(d)] in place: fields out of
    range carry over (29 February of a common year is 1 March). *)
Definition make_date (y m d : Z) (ms : Z) : Z :=
  let y' := y + (m - 1) / 12 in
  let m' := (m - 1) mod 12 + 1 in
  (days_from_civil y' m' 1 + (d - 1)) * MS_PER_DAY + ms mod MS_PER_DAY.

Definition add_years (k : Z) (ms : Z) : Z :=
  let '(y, m, d) := date_fields ms in make_date (y + k) m d ms.
Definition add_months (k : Z) (ms : Z) : Z :=
  let '(y, m, d) := date_fields ms in make_date y (m + k) d ms.
Definition add_days (k : Z) (ms : Z) : Z := ms + k * MS_PER_DAY.
Definition add_hours (k : Z) (ms : Z) : Z := ms + k * 3600000.
Definition add_minutes (k : Z) (ms : Z) : Z := ms + k * 60000.

(** ** Months *)

Lemma year_of_era doe : 0 <= doe < 146097 ->
  let yoe := (doe - doe / 1460 + doe / 36524 - doe / 146096) / 365 in
  0 <= yoe < 400 /\ 0 <= doe - (365 * yoe + yoe / 4 - yoe / 100) < 366.
Proof. intros Hdoe yoe. unfold yoe. repeat split; Z.to_euclidean_division_equations; lia. Qed.

(** The fields of a day are of that day. *)
Lemma civil_from_days_back z : let '(y, m, d) := civil_from_days z in 1 <= m <= 12 /\ days_from_civil y m d = z.
Proof.
  unfold civil_from_days, days_from_civil. set (era := (z + 719468) / 146097). set (doe := z + 719468 - era * 146097).
  assert (Hdoe : 0 <= doe < 146097) by (unfold doe, era; Z.to_euclidean_division_equations; lia).
  assert (Hz : z = era * 146097 + doe - 719468) by (unfold doe; lia). clearbody doe era. subst z.
  destruct (year_of_era doe Hdoe) as [Hyoe Hdoy]. set (yoe := (doe - doe / 1460 + doe / 36524 - doe / 146096) / 365) in *.
  set (doy := doe - (365 * yoe + yoe / 4 - yoe / 100)) in *.
  assert (Hmp : 0 <= (5 * doy + 2) / 153 < 12) by (clearbody doy; Z.to_euclidean_division_equations; lia).
  set (mp := (5 * doy + 2) / 153) in *. clearbody mp.
  assert (Hera : (yoe + era * 400) / 400 = era) by (rewrite Z.div_add by lia; rewrite Z.div_small; lia).
  split; [destruct (Z.ltb_spec mp 10); lia|].
  destruct (Z.ltb_spec mp 10).
  - destruct (Z.leb_spec (mp + 3) 2); [lia|]. destruct (Z.ltb_spec 2 (mp + 3)); [|lia].
    rewrite Z.add_0_r, Hera. replace (mp + 3 + -3) with mp by lia. replace (yoe + era * 400 - era * 400) with yoe by lia.
    unfold doy. lia.
  - destruct (Z.leb_spec (mp + -9) 2); [|lia]. destruct (Z.ltb_spec 2 (mp + -9)); [lia|].
    replace (yoe + era * 400 + 1 - 1) with (yoe + era * 400) by lia. rewrite Hera.
    replace (mp + -9 + 9) with mp by lia. replace (yoe + era * 400 - era * 400) with yoe by lia. unfold doy. lia.
Qed.

(** The first day of the [i]-th month, counted from the year zero. *)
Definition month_start (i : Z) : Z := days_from_civil (i / 12) (i mod 12 + 1) 1.

Ltac closed_tests :=
  repeat match goal with
  | |- context [?a <=? ?b] => let c := eval vm_compute in (a <=? b) in change (a <=? b) with c
  | |- context [?a <? ?b] => let c := eval vm_compute in (a <? b) in change (a <? b) with c
  end; cbv iota.

Lemma month_length i : 28 <= month_start (i + 1) - month_start i <= 31.
Proof.
  unfold month_start. set (y := i / 12). set (m := i mod 12).
  assert (Hi : i = y * 12 + m) by (unfold y, m; Z.to_euclidean_division_equations; lia).
  assert (Hm : 0 <= m < 12) by (unfold m; apply Z.mod_pos_bound; lia). clearbody y m. subst i.
  assert (Hcase : m = 11 \/ m < 11) by lia. destruct Hcase as [->|Hlt].
  - replace ((y * 12 + 11 + 1) / 12) with (y + 1) by (Z.to_euclidean_division_equations; lia).
    replace ((y * 12 + 11 + 1) mod 12) with 0 by (Z.to_euclidean_division_equations; lia).
    unfold days_from_civil. closed_tests. Z.to_euclidean_division_equations; lia.
  - replace ((y * 12 + m + 1) / 12) with y by (Z.to_euclidean_division_equations; lia).
    replace ((y * 12 + m + 1) mod 12) with (m + 1) by (Z.to_euclidean_division_equations; lia).
    assert (Hms : m = 0 \/ m = 1 \/ m = 2 \/ m = 3 \/ m = 4 \/ m = 5 \/ m = 6 \/ m = 7 \/ m = 8 \/ m = 9 \/ m = 10) by lia.
    unfold days_from_civil. repeat (destruct Hms as [->|Hms]); try subst m;
      closed_tests; Z.to_euclidean_division_equations; lia.
Qed.

Lemma months_length k : 0 <= k -> forall i, 28 * k <= month_start (i + k) - month_start i <= 31 * k.
Proof.
  intros Hk. pattern k. apply natlike_ind; [| |exact Hk]; [intros i; rewrite Z.add_0_r; lia|].
  intros n Hn IH i. specialize (IH i). pose proof (month_length (i + n)). replace (i + Z.succ n) with (i + n + 1) by lia. lia.
Qed.

(** So many months earlier is as many times 28 to 31 days earlier. *)
Lemma add_months_back k now : 0 <= k ->
  now - 31 * k * MS_PER_DAY <= add_months (- k) now <= now - 28 * k * MS_PER_DAY.
Proof.
  intros Hk. unfold add_months, date_fields. pose proof (civil_from_days_back (now / MS_PER_DAY)) as Hb.
  destruct (civil_from_days (now / MS_PER_DAY)) as [[y m] d]. destruct Hb as [Hm Hb]. unfold make_date.
  assert (Hd : forall y m d, days_from_civil y m d = days_from_civil y m 1 + (d - 1)) by (intros; unfold days_from_civil; lia).
  assert (H1 : days_from_civil y m 1 = month_start (y * 12 + (m - 1))).
  { unfold month_start. f_equal; Z.to_euclidean_division_equations; lia. }
  assert (H2 : days_from_civil (y + (m + - k - 1) / 12) ((m + - k - 1) mod 12 + 1) 1 = month_start (y * 12 + (m - 1) - k)).
  { unfold month_start. f_equal; Z.to_euclidean_division_equations; lia. }
  rewrite H2. pose proof (months_length k Hk (y * 12 + (m - 1) - k)) as Hl.
  replace (y * 12 + (m - 1) - k + k) with (y * 12 + (m - 1)) in Hl by lia. rewrite <- H1 in Hl.
  rewrite Hd in Hb. set (s := month_start _) in *. set (f := days_from_civil y m 1) in *. clearbody s f.
  assert (Hnow : now = (f + (d - 1)) * MS_PER_DAY + now mod MS_PER_DAY).
  { rewrite Hb. pose proof (Z.div_mod now MS_PER_DAY ltac:(discriminate)). lia. }
  unfold MS_PER_DAY in *. lia.
Qed.

(** [new Date(s)] of the date-time format of ECMA-262, without an offset other
    than [Z]: [YYYY-MM-DD], [YYYY-MM-DDTHH:mm], with seconds, with
    milliseconds.  A day past the end of its month carries over.  [None] is an
    invalid date; other formats are left to implementations by the standard and
    are read as invalid. *)
Definition fixed_digits (i n : nat) (s : string) : option Z :=
  let d := String.substring i n s in
  if Nat.eqb (String.length d) n then parse_digits d else None.
Definition char_at (i : nat) (c : string) (s : string) : bool := String.eqb (String.substring i 1 s) c.

Definition parse_iso_time (t0 : string) : option Z :=
  let t := if ends_with "Z" t0 then slice 0 (String.length t0 - 1) t0 else t0 in
  let field i n sep := if char_at (i - 1) sep t then fixed_digits i n t else None in
  match fixed_digits 0 2 t, field 3%nat 2%nat ":" with
  | Some h, Some m =>
      let sec := if Nat.leb 8 (String.length t) then field 6%nat 2%nat ":" else Some 0 in
      let ms := if Nat.leb 12 (String.length t) then field 9%nat 3%nat "." else Some 0 in
      match sec, ms with
      | Some sec, Some ms =>
          if (h <=? 23) && (m <=? 59) && (sec <=? 59) &&
             existsb (Nat.eqb (String.length t)) [5%nat; 8%nat; 12%nat]
          then Some (((h * 60 + m) * 60 + sec) * 1000 + ms) else None
      | _, _ => None
      end
  | _, _ => None
  end.

Definition parse_iso (s : string) : option Z :=
  match fixed_digits 0 4 s, fixed_digits 5 2 s, fixed_digits 8 2 s with
  | Some y, Some m, Some d =>
      if char_at 4 "-" s && char_at 7 "-" s && (1 <=? m) && (m <=? 12) && (1 <=? d) && (d <=? 31) then
        let day := (days_from_civil y m 1 + (d - 1)) * MS_PER_DAY in
        if Nat.eqb (String.length s) 10 then Some day
        else if char_at 10 "T" s then option_map (Z.add day) (parse_iso_time (slice 11 (String.length s) s))
        else None
      else None
  | _, _, _ => None
  end.

Example parse_iso_run :
  parse_iso "2023-11-14T22:13:20.000Z" = Some 1700000000000 /\ parse_iso "2024-02-30" = parse_iso "2024-03-01" /\
  parse_iso "tomorrow" = None /\ option_map toISOString (parse_iso "1969-12-31T23:59:59Z") = Some "1969-12-31T23:59:59.000Z".
Proof. vm_compute. repeat split. Qed.

(** [new Set(l)] after [seen]: each once, where it first occurs. *)
Fixpoint distinct (seen l : list string) : list string :=
  match l with
  | [] => []
  | x :: l => if existsb (String.eqb x) seen then distinct seen l else x :: distinct (x :: seen) l
  end.

Lemma distinct_once l : forall seen,
  List.NoDup (distinct seen l) /\ (forall x, In x (distinct seen l) <-> In x l /\ ~ In x seen).
Proof.
  induction l as [|y l IH]; intros seen; cbn [distinct].
  - split; [constructor | intros x; cbn [In]; tauto].
  - destruct (existsb (String.eqb y) seen) eqn:Hs.
    + destruct (IH seen) as [H1 H2]. split; [exact H1|]. intros x. rewrite H2. cbn [In].
      apply existsb_exists in Hs as (z & Hz & <-%String.eqb_eq). intuition congruence.
    + destruct (IH (y :: seen)) as [H1 H2]. assert (Hy : ~ In y seen).
      { intros Hin. apply not_true_iff_false in Hs. apply Hs, existsb_exists. exists y. rewrite String.eqb_refl. auto. }
      split; [constructor; [rewrite H2; cbn [In]; tauto | exact H1]|].
      intros x. cbn [In]. rewrite H2. cbn [In]. destruct (string_dec y x) as [->|]; intuition congruence.
Qed.

(** ** Strings whose characters are all of a kind *)

Fixpoint all_chars (p : ascii -> bool) (s : string) : bool :=
  match s with EmptyString => true | String c s => p c && all_chars p s end.

Lemma all_chars_rev p s : forall acc, all_chars p s = true -> all_chars p acc = true -> all_chars p (rev_string s acc) = true.
Proof.
  induction s as [|c s IH]; intros acc Hs Ha; [exact Ha|]. cbn [all_chars rev_string] in *. apply andb_true_iff in Hs as [Hc Hs].
  apply IH; [exact Hs|]. cbn [all_chars]. now rewrite Hc.
Qed.

Lemma all_chars_app p s t : all_chars p (s +:+ t) = all_chars p s && all_chars p t.
Proof.
  induction s as [|c s IH]; [reflexivity|]. change (String c s +:+ t) with (String c (s +:+ t)). cbn [all_chars].
  now rewrite IH, andb_assoc.
Qed.

Lemma all_chars_impl (p q : ascii -> bool) s : (forall c, p c = true -> q c = true) -> all_chars p s = true -> all_chars q s = true.
Proof.
  intros Hpq. induction s as [|c s IH]; [reflexivity|]. cbn. intros [Hc Hs]%andb_true_iff. now rewrite (Hpq _ Hc), IH.
Qed.

(** ** A Map, in insertion order *)

Fixpoint map_get {V} (k : string) (l : list (string * V)) : option V :=
  match l with
  | [] => None
  | (k', v) :: l' => if String.eqb k' k then Some v else map_get k l'
  end.

(** [set]: a key that is there keeps its place. *)
Fixpoint map_set {V} (k : string) (v : V) (l : list (string * V)) : list (string * V) :=
  match l with
  | [] => [(k, v)]
  | (k', v') :: l' => if String.eqb k k' then (k', v) :: l' else (k', v') :: map_set k v l'
  end.

Lemma map_get_set {V} k (v : V) l : map_get k (map_set k v l) = Some v.
Proof.
  induction l as [|[k' v'] l IH]; cbn; [now rewrite String.eqb_refl|].
  destruct (String.eqb_spec k k') as [<-|Hne]; cbn; [now rewrite String.eqb_refl|].
  destruct (String.eqb_spec k' k); [congruence|exact IH].
Qed.

Lemma map_get_set_ne {V} k j (v : V) l : k <> j -> map_get j (map_set k v l) = map_get j l.
Proof.
  intros Hne. induction l as [|[k' v'] l IH]; cbn; [destruct (String.eqb_spec k j); congruence|].
  destruct (String.eqb_spec k k') as [<-|Hne']; cbn; [destruct (String.eqb_spec k j); congruence|].
  destruct (String.eqb_spec k' j); [reflexivity|exact IH].
Qed.

Lemma map_get_found {V} k (v : V) l : map_get k l = Some v -> In (k, v) l.
Proof.
  induction l as [|[k' v'] l IH]; cbn; [discriminate|].
  destruct (String.eqb_spec k' k) as [->|]; [now intros [= ->]; left|intros H; right; exact (IH H)].
Qed.
