(* ===== verification/Json.v ===== *)
(** [JSON.stringify] on the values the services serialise: what is signed,
    hashed or sent. *)
From S2P Require Import Prelude JsNumber Effects JsData.
Local Open Scope Z_scope.

Definition quote : string := String (ascii_of_nat 34) "".
Definition backslash : string := String (ascii_of_nat 92) "".

(** What [??] passes over. *)
Definition nullish (j : json) : bool := match j with JUndefined | JNull => true | _ => false end.

Definition hex_digit (n : nat) : ascii :=
  ascii_of_nat (if (n <? 10)%nat then 48 + n else 87 + n).

Definition json_char (c : ascii) : string :=
  let n := nat_of_ascii c in
  match n with
  | 34%nat => backslash +:+ quote
  | 92%nat => backslash +:+ backslash
  | 8%nat => backslash +:+ "b"
  | 9%nat => backslash +:+ "t"
  | 10%nat => backslash +:+ "n"
  | 12%nat => backslash +:+ "f"
  | 13%nat => backslash +:+ "r"
  | _ => if (n <? 32)%nat
         then backslash +:+ "u00" +:+ String (hex_digit (n / 16)) (String (hex_digit (n mod 16)) "")
         else String c ""
  end.

Fixpoint json_chars (s : string) : string :=
  match s with EmptyString => "" | String c s' => json_char c +:+ json_chars s' end.
Definition json_quoted (s : string) : string := quote +:+ json_chars s +:+ quote.

(** [undefined] is left out of objects and is [null] in arrays. *)
Fixpoint stringify (j : json) : string :=
  match j with
  | JUndefined | JNull => "null"
  | JBool b => if b then "true" else "false"
  | JNum n => if is_finite n then num_to_string n else "null"
  | JStr s => json_quoted s
  | JArr l => "[" +:+ join "," (map stringify l) +:+ "]"
  | JObj o =>
      "{" +:+ join "," (flat_map (fun '(k, v) =>
        match v with JUndefined => [] | _ => [json_quoted k +:+ ":" +:+ stringify v] end) o) +:+ "}"
  end.

(** A value in a condition. *)
Definition json_truthy (j : json) : bool :=
  match j with
  | JUndefined | JNull => false
  | JBool b => b
  | JNum n => num_truthy n
  | JStr s => str_truthy s
  | JArr _ | JObj _ => true
  end.

(** ** The properties of an object *)

Lemma obj_get_set k v (o : list (string * json)) : obj_get k (obj_set k v o) = Some v.
Proof.
  induction o as [|[k' v'] o IH]; cbn [obj_set obj_get]; [rewrite String.eqb_refl; reflexivity|].
  destruct (String.eqb k k') eqn:E; cbn [obj_get]; rewrite ?E, ?String.eqb_refl; auto.
Qed.

Lemma obj_get_set_ne k j v (o : list (string * json)) : k <> j -> obj_get j (obj_set k v o) = obj_get j o.
Proof.
  intros Hne. induction o as [|[k' v'] o IH]; cbn [obj_set obj_get].
  - destruct (String.eqb_spec j k); congruence.
  - destruct (String.eqb_spec k k') as [<-|]; cbn [obj_get]; [destruct (String.eqb_spec j k); congruence|].
    destruct (String.eqb j k'); [reflexivity|exact IH].
Qed.

(** A property the spread object does not have is kept. *)
Lemma obj_get_spread_old k more : forall o, obj_get k more = None -> obj_get k (obj_spread o more) = obj_get k o.
Proof.
  induction more as [|[k' v'] more IH]; intros o Hn; [reflexivity|]. cbn [obj_get] in Hn.
  destruct (String.eqb_spec k k') as [|Hne]; [discriminate|]. change (obj_get k (obj_spread (obj_set k' v' o) more) = obj_get k o).
  rewrite IH by assumption. apply obj_get_set_ne. congruence.
Qed.
