(* ===== verification/ThirdParty.v ===== *)
(** The packages and services the code calls and does not contain, as class
    parameters: Big.js, the configuration service, the password hash and the
    JWT service, the exchange-rate providers.  [BigJsLaws] states what the
    documentation of big.js promises (exact addition, half-up [toFixed]);
    [decimal_big] is an instance that satisfies it. *)
From Stdlib Require Import QArith.
From S2P Require Import Prelude JsNumber Effects RepositoryLaws.
Local Open Scope Z_scope.

(** ** big.js *)

(** [new Big(n)] throws on NaN and the infinities. *)
Class BigJs : Type := {
  Big : Type;
  new_Big : num -> exn + Big;
  big_plus : Big -> Big -> Big;
  big_neg : Big -> Big;
  big_lt : Big -> Big -> bool;
  big_toFixed : nat -> Big -> string
}.

(** The decimal [n] prints as: [new Big(n)] reads [String(n)]. *)
Definition decimal_q (n : num) : Q :=
  let '(p, d) := decimal_value n in Qmake p (Z.to_pos d).

(** [q] rounded to [f] decimals (half away from zero), scaled by [10^f]. *)
Definition round_q (f : nat) (q : Q) : Z :=
  round_half_away (Qnum q * 10 ^ Z.of_nat f) (QDen q).

Class BigJsLaws (B : BigJs) : Type := {
  big_q : Big -> Q;
  new_Big_finite : forall n, is_finite n = true ->
    exists b, new_Big n = inr b /\ (big_q b == decimal_q n)%Q;
  new_Big_invalid : forall n, is_finite n = false ->
    new_Big n = inl (PlainError "[big.js] Invalid number");
  big_plus_exact : forall a b, (big_q (big_plus a b) == big_q a + big_q b)%Q;
  big_neg_exact : forall a, (big_q (big_neg a) == - big_q a)%Q;
  big_lt_exact : forall a b, big_lt a b = negb (Qle_bool (big_q b) (big_q a));
  big_toFixed_rounds : forall f b,
    big_toFixed f b = fixed_string f (round_q f (big_q b)) \/
    (round_q f (big_q b) = 0 /\ big_toFixed f b = "-" +:+ fixed_string f 0)
}.

(** A result that is a value or an exception, as an effect. *)
Definition lift {S A} (r : exn + A) : M S A :=
  match r with inr a => ret a | inl x => throw x end.

(** Exact decimals: the instance of the laws. *)
Definition decimal_big : BigJs := {|
  Big := Q;
  new_Big n := if is_finite n then inr (decimal_q n)
               else inl (PlainError "[big.js] Invalid number");
  big_plus := Qplus;
  big_neg := Qopp;
  big_lt a b := negb (Qle_bool b a);
  big_toFixed f q := fixed_string f (round_q f q)
|}.

(** ** Configuration, hashing, tokens *)

(** [ConfigService.get<T>(key)]: [undefined] when the key is absent. *)
Class ConfigService : Type := {
  config_number : string -> option num;
  config_string : string -> option string;
  config_bool : string -> option bool;
  config_list : string -> option (list string)
}.

(** [createHash('sha256').update(s).digest('hex')], [randomBytes(n)
    .toString('hex')] of the n-th draw. *)
Class Crypto : Type := {
  sha256_hex : string -> string;
  hmac_sha256_hex : string -> string -> string;
  random_hex : Z -> string -> string
}.

(** The claims of a token; signing and verifying look at the clock ([iat],
    expiry). *)
Record JwtPayload : Type := mkJwt {
  jwt_sub : string;
  jwt_email : string;
  jwt_role : string;
  jwt_type : option string;
  jwt_expiresIn : option string
}.

Class JwtService : Type := {
  jwt_verify : Z -> string -> exn + JwtPayload;
  jwt_sign : Z -> JwtPayload -> string
}.

(** ** Exchange-rate providers *)

(** The answers of the two HTTP services to the n-th request: a table of rates,
    or of quotes (absent when the payload has none). *)
Class RateProviders : Type := {
  openexchangerates_rates : nat -> string -> gmap string num;
  exchangeratehost_quotes : nat -> string -> option (gmap string num)
}.

(** ** The instance satisfies the laws *)

#[export] Instance decimal_big_laws : BigJsLaws decimal_big.
Proof.
  refine {| big_q := fun b : @Big decimal_big => b |}; simpl.
  - intros n Hn. rewrite Hn. eexists. split; [reflexivity|]. reflexivity.
  - intros n Hn. rewrite Hn. reflexivity.
  - reflexivity.
  - reflexivity.
  - reflexivity.
  - intros f b. left. reflexivity.
Defined.

(** ** Facts on exact decimals *)

Lemma round_q_exact f z q :
  (q == inject_Z z / inject_Z (10 ^ Z.of_nat f))%Q -> round_q f q = z.
Proof.
  set (p := 10 ^ Z.of_nat f). assert (Hp : 0 < p) by (apply Z.pow_pos_nonneg; lia).
  intros Hq. assert (H : Qnum q * p = z * QDen q).
  { destruct p as [|p'|p']; try lia. unfold Qeq, Qdiv, Qmult, Qinv, inject_Z in Hq.
    simpl in Hq. lia. }
  unfold round_q. fold p. rewrite H. unfold round_half_away, round_half_up.
  assert (Hd : 0 < QDen q) by reflexivity.
  assert (Hr : forall a, (2 * (a * QDen q) + QDen q) / (2 * QDen q) = a).
  { intros a. symmetry. apply (Z.div_unique_pos _ _ _ (QDen q)); lia. }
  destruct (Z.ltb_spec (z * QDen q) 0); [|apply Hr].
  replace (- (z * QDen q)) with (- z * QDen q) by ring. rewrite Hr. lia.
Qed.

Section LiftRules.
Context {S : Type}.

Lemma wp_lift {A} (r : exn + A) (Q : A -> S -> Prop) X s :
  (forall x, r = inl x -> X x s) -> (forall a, r = inr a -> Q a s) -> wp (lift r) Q X s.
Proof. destruct r; intros HX HQ; [apply HX | apply HQ]; reflexivity. Qed.

Lemma keeps_lift {A} (R : S -> S -> Prop) `{!PreOrder R} (r : exn + A) : keeps R (lift r).
Proof. intros s. destruct r; reflexivity. Qed.
End LiftRules.

#[export] Hint Resolve keeps_lift : keeps.

(** ** Stellar, radix 36 *)

(** What the cache holds for a key at the n-th call, and whether Horizon's
    answer to the n-th request is a success (axios throws on any other). *)
Class Horizon : Type := {
  horizon_cache : nat -> string -> option bool;
  horizon_ok : nat -> string -> bool
}.

(** [n.toString(36)] of a fraction: implementation-approximated digits. *)
Class Radix36 : Type := { toString36 : num -> string }.
