(* ===== verification/Currencies.v ===== *)
(** currencies/supported-currencies.ts, currencies/currencies.service.ts and
    currencies/stellar-issuers.ts: the currency codes the platform accepts. *)
From S2P Require Import Prelude JsNumber Effects RepositoryLaws JsData ThirdParty.
Local Open Scope Z_scope.

Definition SUPPORTED_CURRENCY_CODES : list string := ["USD"; "EUR"; "GBP"; "NGN"].

Definition normalizeCurrencyCode (currency : string) : string := toUpperCase (trim currency).

Definition isSupportedCurrency (currency : string) : bool :=
  existsb (String.eqb (normalizeCurrencyCode currency)) SUPPORTED_CURRENCY_CODES.

(** ** CurrenciesService *)

Record SupportedCurrency : Type := mkSupportedCurrency {
  code : string;
  name : string;
  symbol : string;
  displayName : string;
  decimalPlaces : Z;
  flagEmoji : string;
  currencyType : string
}.

Definition CURRENCY_METADATA : list SupportedCurrency := [
  mkSupportedCurrency "USD" "US Dollar" "$" "US Dollar" 2 "🇺🇸" "fiat";
  mkSupportedCurrency "EUR" "Euro" "€" "Euro" 2 "🇪🇺" "fiat";
  mkSupportedCurrency "GBP" "British Pound" "£" "British Pound Sterling" 2 "🇬🇧" "fiat";
  mkSupportedCurrency "NGN" "Nigerian Naira" "₦" "Nigerian Naira" 2 "🇳🇬" "fiat"
].

Definition metadata_of (normalizedCode : string) : option SupportedCurrency :=
  List.find (fun c => String.eqb (code c) normalizedCode) CURRENCY_METADATA.

Module CurrenciesService.
Section Service.
Context {S : Type} `{ConfigService}.

Definition validateCurrencyActive (c : string) : M S unit :=
  let normalized := normalizeCurrencyCode c in
  throw_if (negb (isSupportedCurrency normalized))
    (BadRequestException ("Currency " +:+ c +:+ " is not supported")).

Definition listSupportedCurrencies : list SupportedCurrency :=
  let supported :=
    match config_list "currencies.supported" with
    | Some l => l
    | None => SUPPORTED_CURRENCY_CODES
    end in
  map (fun c =>
    let normalizedCode := normalizeCurrencyCode c in
    match metadata_of normalizedCode with
    | Some m => m
    | None => mkSupportedCurrency normalizedCode normalizedCode normalizedCode normalizedCode
                2 "" "fiat"
    end) supported.
End Service.

Record IssuerConversion : Type := mkIssuerConversion {
  convertedAmount : num;
  rate : num;
  fee : num
}.

(** Same issuer: the amount itself, without a fee. *)
Definition convertAssetIssuer (fromIssuer toIssuer : string) (amount : num) : IssuerConversion :=
  if String.eqb fromIssuer toIssuer then mkIssuerConversion amount (num_of_Z 1) (num_of_Z 0)
  else mkIssuerConversion
         (fixed_num 4 (amount * num_of_ratio 999 1000)%num)
         (num_of_Z 1)
         (fixed_num 4 (amount * num_of_ratio 1 1000)%num).
End CurrenciesService.

(** ** Stellar issuers *)

(** [pair.trim().split(':')] destructured into its first two parts. *)
Definition parse_pair (pair : string) : option (string * string) :=
  match split_on ":" (trim pair) with
  | c :: issuer :: _ => if str_truthy c && str_truthy issuer then Some (c, issuer) else None
  | _ => None
  end.

Definition parseStellarIssuers (raw : string) : gmap string string :=
  if negb (str_truthy raw) then ∅
  else fold_left (fun m pair =>
         match parse_pair pair with
         | Some (c, issuer) => <[toUpperCase c := trim issuer]> m
         | None => m
         end) (split_on "," raw) ∅.

(** [issuers] is the map built from STELLAR_ASSET_ISSUERS at load time. *)
Definition getStellarIssuer {S} (issuers : gmap string string) (currencyCode : string) : M S string :=
  match issuers !! toUpperCase currencyCode with
  | Some issuer =>
      if str_truthy issuer then ret issuer
      else throw (PlainError ("No Stellar issuer address configured for " +:+ currencyCode +:+
             ". Set STELLAR_ASSET_ISSUERS=CODE:GADDRESS,..."))
  | None => throw (PlainError ("No Stellar issuer address configured for " +:+ currencyCode +:+
             ". Set STELLAR_ASSET_ISSUERS=CODE:GADDRESS,..."))
  end.

(** ** Facts *)

Lemma normalizeCurrencyCode_idem c :
  normalizeCurrencyCode (normalizeCurrencyCode c) = normalizeCurrencyCode c.
Proof.
  unfold normalizeCurrencyCode. rewrite <- !toUpperCase_trim, trim_idem. apply toUpperCase_idem.
Qed.

Lemma isSupported_normalized c :
  isSupportedCurrency (normalizeCurrencyCode c) = true ->
  In (normalizeCurrencyCode c) SUPPORTED_CURRENCY_CODES.
Proof.
  unfold isSupportedCurrency. rewrite normalizeCurrencyCode_idem. intros Hc.
  apply existsb_exists in Hc as (x & Hx & Heq). apply String.eqb_eq in Heq. congruence.
Qed.

Lemma supported_is_normal c :
  In c SUPPORTED_CURRENCY_CODES -> normalizeCurrencyCode c = c /\ isSupportedCurrency c = true.
Proof. simpl. intros [<-|[<-|[<-|[<-|[]]]]]; split; reflexivity. Qed.
