(* ===== verification/Entities.v ===== *)
(** Entities of the core services: one record per TypeORM entity (columns in the
    order of the class), its generated columns, soft-delete column and unique
    indexes as an instance of [Row].  A [Date] is its milliseconds, a nullable
    column an [option], a money or rate column a binary64 number. *)
From S2P Require Import Prelude JsNumber Effects.
Local Open Scope Z_scope.

Definition opt_eqb {A} (eqb : A -> A -> bool) (a b : option A) : bool :=
  match a, b with
  | Some x, Some y => eqb x y
  | None, None => true
  | _, _ => false
  end.

(** A unique index over nullable columns: two nulls do not clash. *)
Definition clash_opt (a b : option string) : bool :=
  match a, b with Some x, Some y => String.eqb x y | _, _ => false end.

Module UserRole.
Inductive UserRole : Type := ADMIN | USER | COMPLIANCE.
Definition eqb (a b : UserRole) : bool :=
  match a, b with
  | ADMIN, ADMIN | USER, USER | COMPLIANCE, COMPLIANCE => true
  | _, _ => false
  end.
Definition show (a : UserRole) : string :=
  match a with
  | ADMIN => "admin"
  | USER => "user"
  | COMPLIANCE => "compliance"
  end.
Lemma UserRole_eqb_eq a b : eqb a b = true <-> a = b.
Proof. destruct a, b; simpl; split; congruence. Qed.
End UserRole.

Module KycStatus.
Inductive KycStatus : Type := PENDING | APPROVED | REJECTED.
Definition eqb (a b : KycStatus) : bool :=
  match a, b with
  | PENDING, PENDING | APPROVED, APPROVED | REJECTED, REJECTED => true
  | _, _ => false
  end.
Definition show (a : KycStatus) : string :=
  match a with
  | PENDING => "pending"
  | APPROVED => "approved"
  | REJECTED => "rejected"
  end.
Lemma KycStatus_eqb_eq a b : eqb a b = true <-> a = b.
Proof. destruct a, b; simpl; split; congruence. Qed.
End KycStatus.

(** users/user.entity.ts *)
Module User.
Record User : Type := mk {
  id : string;
  email : string;
  passwordHash : string;
  firstName : string;
  lastName : string;
  role : UserRole.UserRole;
  isEmailVerified : bool;
  kycStatus : KycStatus.KycStatus;
  isActive : bool;
  preferredLanguage : string;
  passwordChangedAt : option Z;
  require2fa : bool;
  failedLoginAttempts : Z;
  lockedUntil : option Z;
  createdAt : Z;
  updatedAt : Z
}.
#[global] Instance settable : Settable User := fun r =>
  mk r.(id) r.(email) r.(passwordHash) r.(firstName) r.(lastName) r.(role)
     r.(isEmailVerified) r.(kycStatus) r.(isActive) r.(preferredLanguage)
     r.(passwordChangedAt) r.(require2fa) r.(failedLoginAttempts) r.(lockedUntil)
     r.(createdAt) r.(updatedAt).
End User.

#[global] Program Instance User_row : Row User.User := {|
  row_id := User.id;
  set_row_id i e := e <| User.id := i |>;
  created t e := e <| User.createdAt := t |> <| User.updatedAt := t |>;
  touched t e := e <| User.updatedAt := t |>;
  live e := true;
  clash a b := String.eqb a.(User.email) b.(User.email)
|}.

(** terms/terms-acceptance.entity.ts *)
Module TermsAcceptance.
Record TermsAcceptance : Type := mk {
  id : string;
  userId : string;
  version : string;
  acceptedAt : Z;
  ipAddress : option string;
  userAgent : option string
}.
#[global] Instance settable : Settable TermsAcceptance := fun r =>
  mk r.(id) r.(userId) r.(version) r.(acceptedAt) r.(ipAddress) r.(userAgent).
End TermsAcceptance.

#[global] Program Instance TermsAcceptance_row : Row TermsAcceptance.TermsAcceptance := {|
  row_id := TermsAcceptance.id;
  set_row_id i e := e <| TermsAcceptance.id := i |>;
  created t e := e <| TermsAcceptance.acceptedAt := t |>;
  touched t e := e;
  live e := true;
  clash a b := String.eqb a.(TermsAcceptance.userId) b.(TermsAcceptance.userId) &&
               String.eqb a.(TermsAcceptance.version) b.(TermsAcceptance.version)
|}.

(** modules/user-deactivation/entities/user-deactivation.entity.ts *)
Module UserDeactivationEntity.
Record UserDeactivationEntity : Type := mk {
  id : string;
  userId : string;
  reason : option string;
  deactivatedBy : option string;
  reactivatedBy : option string;
  deactivatedAt : Z;
  reactivatedAt : option Z;
  isActive : bool;
  createdAt : Z
}.
#[global] Instance settable : Settable UserDeactivationEntity := fun r =>
  mk r.(id) r.(userId) r.(reason) r.(deactivatedBy) r.(reactivatedBy) r.(deactivatedAt)
     r.(reactivatedAt) r.(isActive) r.(createdAt).
End UserDeactivationEntity.

#[global] Program Instance UserDeactivationEntity_row : Row UserDeactivationEntity.UserDeactivationEntity := {|
  row_id := UserDeactivationEntity.id;
  set_row_id i e := e <| UserDeactivationEntity.id := i |>;
  created t e := e <| UserDeactivationEntity.createdAt := t |>;
  touched t e := e;
  live e := true;
  clash a b := false
|}.

(** wallet/wallet-balance.entity.ts: one balance per account and currency *)
Module WalletBalanceEntity.
Record WalletBalanceEntity : Type := mk {
  id : string;
  accountId : string;
  currency : string;
  balance : num;
  isPrimary : bool;
  label : option string;
  color : option string;
  keyVersion : Z;
  createdAt : Z;
  updatedAt : Z;
  version : Z
}.
#[global] Instance settable : Settable WalletBalanceEntity := fun r =>
  mk r.(id) r.(accountId) r.(currency) r.(balance) r.(isPrimary) r.(label) r.(color)
     r.(keyVersion) r.(createdAt) r.(updatedAt) r.(version).
End WalletBalanceEntity.

#[global] Program Instance WalletBalanceEntity_row : Row WalletBalanceEntity.WalletBalanceEntity := {|
  row_id := WalletBalanceEntity.id;
  set_row_id i e := e <| WalletBalanceEntity.id := i |>;
  created t e := e <| WalletBalanceEntity.createdAt := t |> <| WalletBalanceEntity.updatedAt := t |> <| WalletBalanceEntity.version := 1 |>;
  touched t e := e <| WalletBalanceEntity.updatedAt := t |> <| WalletBalanceEntity.version := e.(WalletBalanceEntity.version) + 1 |>;
  live e := true;
  clash a b := String.eqb a.(WalletBalanceEntity.accountId) b.(WalletBalanceEntity.accountId) &&
               String.eqb a.(WalletBalanceEntity.currency) b.(WalletBalanceEntity.currency)
|}.

Module TransactionStatus.
Inductive TransactionStatus : Type := PENDING | COMPLETED | FAILED | REVERSED | CANCELLED.
Definition eqb (a b : TransactionStatus) : bool :=
  match a, b with
  | PENDING, PENDING | COMPLETED, COMPLETED | FAILED, FAILED | REVERSED, REVERSED | CANCELLED, CANCELLED => true
  | _, _ => false
  end.
Definition show (a : TransactionStatus) : string :=
  match a with
  | PENDING => "pending"
  | COMPLETED => "completed"
  | FAILED => "failed"
  | REVERSED => "reversed"
  | CANCELLED => "cancelled"
  end.
Lemma TransactionStatus_eqb_eq a b : eqb a b = true <-> a = b.
Proof. destruct a, b; simpl; split; congruence. Qed.
End TransactionStatus.

(** transactions/transaction.entity.ts (the [sender] and [receiver] relations are their ids) *)
Module Transaction.
Record Transaction : Type := mk {
  id : string;
  senderId : string;
  receiverId : string;
  amount : num;
  currency : string;
  fee : num;
  status : TransactionStatus.TransactionStatus;
  reference : string;
  receiptNumber : option string;
  metadata : list (string * json);
  createdAt : Z;
  completedAt : option Z;
  reversedAt : option Z;
  pendingTimeoutAt : option Z;
  reversedBy : option string;
  reversalReason : option string;
  reversalTransactionId : option string;
  retryCount : Z;
  txHash : option string;
  retryHashes : list string;
  tag : option string;
  tags : option (list string);
  deletedAt : option Z
}.
#[global] Instance settable : Settable Transaction := fun r =>
  mk r.(id) r.(senderId) r.(receiverId) r.(amount) r.(currency) r.(fee) r.(status)
     r.(reference) r.(receiptNumber) r.(metadata) r.(createdAt) r.(completedAt)
     r.(reversedAt) r.(pendingTimeoutAt) r.(reversedBy) r.(reversalReason)
     r.(reversalTransactionId) r.(retryCount) r.(txHash) r.(retryHashes) r.(tag) r.(tags)
     r.(deletedAt).
End Transaction.

#[global] Program Instance Transaction_row : Row Transaction.Transaction := {|
  row_id := Transaction.id;
  set_row_id i e := e <| Transaction.id := i |>;
  created t e := e <| Transaction.createdAt := t |>;
  touched t e := e;
  live e := match e.(Transaction.deletedAt) with None => true | Some _ => false end;
  clash a b := String.eqb a.(Transaction.reference) b.(Transaction.reference) ||
               clash_opt a.(Transaction.receiptNumber) b.(Transaction.receiptNumber)
|}.

(** fees/fee-record.entity.ts *)
Module FeeRecord.
Record FeeRecord : Type := mk {
  id : string;
  transactionId : string;
  userId : string;
  transactionType : string;
  amount : num;
  feeAmount : num;
  currency : string;
  reason : option string;
  createdAt : Z
}.
#[global] Instance settable : Settable FeeRecord := fun r =>
  mk r.(id) r.(transactionId) r.(userId) r.(transactionType) r.(amount) r.(feeAmount)
     r.(currency) r.(reason) r.(createdAt).
End FeeRecord.

#[global] Program Instance FeeRecord_row : Row FeeRecord.FeeRecord := {|
  row_id := FeeRecord.id;
  set_row_id i e := e <| FeeRecord.id := i |>;
  created t e := e <| FeeRecord.createdAt := t |>;
  touched t e := e;
  live e := true;
  clash a b := false
|}.

(** modules/fee-audit/entities/fee-audit-log.entity.ts; [feeCurrency] is NOT NULL in the table,
    an option here because the program can hand over [undefined] *)
Module FeeAuditLogEntity.
Record FeeAuditLogEntity : Type := mk {
  id : string;
  transactionId : option string;
  userId : option string;
  feeAmount : num;
  feeCurrency : option string;
  feeType : string;
  calculatedAmount : option num;
  appliedTier : option string;
  createdAt : Z
}.
#[global] Instance settable : Settable FeeAuditLogEntity := fun r =>
  mk r.(id) r.(transactionId) r.(userId) r.(feeAmount) r.(feeCurrency) r.(feeType)
     r.(calculatedAmount) r.(appliedTier) r.(createdAt).
End FeeAuditLogEntity.

#[global] Program Instance FeeAuditLogEntity_row : Row FeeAuditLogEntity.FeeAuditLogEntity := {|
  row_id := FeeAuditLogEntity.id;
  set_row_id i e := e <| FeeAuditLogEntity.id := i |>;
  created t e := e <| FeeAuditLogEntity.createdAt := t |>;
  touched t e := e;
  live e := true;
  clash a b := false
|}.

(** audit/audit-log.entity.ts *)
Module AuditLog.
Record AuditLog : Type := mk {
  id : string;
  userId : option string;
  action : string;
  entityType : string;
  entityId : option string;
  before : option (list (string * json));
  after : option (list (string * json));
  reason : option string;
  ipAddress : option string;
  userAgent : option string;
  createdAt : Z
}.
#[global] Instance settable : Settable AuditLog := fun r =>
  mk r.(id) r.(userId) r.(action) r.(entityType) r.(entityId) r.(before) r.(after)
     r.(reason) r.(ipAddress) r.(userAgent) r.(createdAt).
End AuditLog.

#[global] Program Instance AuditLog_row : Row AuditLog.AuditLog := {|
  row_id := AuditLog.id;
  set_row_id i e := e <| AuditLog.id := i |>;
  created t e := e <| AuditLog.createdAt := t |>;
  touched t e := e;
  live e := true;
  clash a b := false
|}.

Module ReferralStatus.
Inductive ReferralStatus : Type := PENDING | QUALIFIED | REWARDED.
Definition eqb (a b : ReferralStatus) : bool :=
  match a, b with
  | PENDING, PENDING | QUALIFIED, QUALIFIED | REWARDED, REWARDED => true
  | _, _ => false
  end.
Definition show (a : ReferralStatus) : string :=
  match a with
  | PENDING => "pending"
  | QUALIFIED => "qualified"
  | REWARDED => "rewarded"
  end.
Lemma ReferralStatus_eqb_eq a b : eqb a b = true <-> a = b.
Proof. destruct a, b; simpl; split; congruence. Qed.
End ReferralStatus.

(** referral/referral.entity.ts *)
Module Referral.
Record Referral : Type := mk {
  id : string;
  referrerId : string;
  referredId : string;
  referralCode : string;
  status : ReferralStatus.ReferralStatus;
  createdAt : Z;
  qualifiedAt : option Z;
  rewardedAt : option Z;
  deletedAt : option Z
}.
#[global] Instance settable : Settable Referral := fun r =>
  mk r.(id) r.(referrerId) r.(referredId) r.(referralCode) r.(status) r.(createdAt)
     r.(qualifiedAt) r.(rewardedAt) r.(deletedAt).
End Referral.

#[global] Program Instance Referral_row : Row Referral.Referral := {|
  row_id := Referral.id;
  set_row_id i e := e <| Referral.id := i |>;
  created t e := e <| Referral.createdAt := t |>;
  touched t e := e;
  live e := match e.(Referral.deletedAt) with None => true | Some _ => false end;
  clash a b := String.eqb a.(Referral.referredId) b.(Referral.referredId) ||
               String.eqb a.(Referral.referralCode) b.(Referral.referralCode)
|}.

Module RewardType.
Inductive RewardType : Type := CREDIT | DISCOUNT.
Definition eqb (a b : RewardType) : bool :=
  match a, b with
  | CREDIT, CREDIT | DISCOUNT, DISCOUNT => true
  | _, _ => false
  end.
Definition show (a : RewardType) : string :=
  match a with
  | CREDIT => "credit"
  | DISCOUNT => "discount"
  end.
Lemma RewardType_eqb_eq a b : eqb a b = true <-> a = b.
Proof. destruct a, b; simpl; split; congruence. Qed.
End RewardType.

Module RewardStatus.
Inductive RewardStatus : Type := PENDING | PAID.
Definition eqb (a b : RewardStatus) : bool :=
  match a, b with
  | PENDING, PENDING | PAID, PAID => true
  | _, _ => false
  end.
Definition show (a : RewardStatus) : string :=
  match a with
  | PENDING => "pending"
  | PAID => "paid"
  end.
Lemma RewardStatus_eqb_eq a b : eqb a b = true <-> a = b.
Proof. destruct a, b; simpl; split; congruence. Qed.
End RewardStatus.

(** referral/referral-reward.entity.ts *)
Module ReferralReward.
Record ReferralReward : Type := mk {
  id : string;
  referralId : string;
  rewardType : RewardType.RewardType;
  amount : num;
  currency : string;
  status : RewardStatus.RewardStatus;
  createdAt : Z;
  paidAt : option Z
}.
#[global] Instance settable : Settable ReferralReward := fun r =>
  mk r.(id) r.(referralId) r.(rewardType) r.(amount) r.(currency) r.(status) r.(createdAt)
     r.(paidAt).
End ReferralReward.

#[global] Program Instance ReferralReward_row : Row ReferralReward.ReferralReward := {|
  row_id := ReferralReward.id;
  set_row_id i e := e <| ReferralReward.id := i |>;
  created t e := e <| ReferralReward.createdAt := t |>;
  touched t e := e;
  live e := true;
  clash a b := false
|}.

(** fx/fx-trade.entity.ts *)
Module FxTrade.
Record FxTrade : Type := mk {
  id : string;
  userId : string;
  fromCurrency : string;
  toCurrency : string;
  fromAmount : num;
  toAmount : num;
  rate : num;
  executedAt : Z;
  reversedAt : option Z;
  deletedAt : option Z
}.
#[global] Instance settable : Settable FxTrade := fun r =>
  mk r.(id) r.(userId) r.(fromCurrency) r.(toCurrency) r.(fromAmount) r.(toAmount)
     r.(rate) r.(executedAt) r.(reversedAt) r.(deletedAt).
End FxTrade.

#[global] Program Instance FxTrade_row : Row FxTrade.FxTrade := {|
  row_id := FxTrade.id;
  set_row_id i e := e <| FxTrade.id := i |>;
  created t e := e <| FxTrade.executedAt := t |>;
  touched t e := e;
  live e := match e.(FxTrade.deletedAt) with None => true | Some _ => false end;
  clash a b := false
|}.

(** ** In-memory records *)

(** the values of [autoSweepConfigs] (wallet/wallets.service.ts) *)
Module AutoSweepConfig.
Record AutoSweepConfig : Type := mk {
  threshold : num;
  coldStorageAddress : string
}.
#[global] Instance settable : Settable AutoSweepConfig := fun r =>
  mk r.(threshold) r.(coldStorageAddress).
End AutoSweepConfig.

(** the comments of [transactionComments] (transactions/transactions.service.ts) *)
Module Comment.
Record Comment : Type := mk {
  id : string;
  authorId : string;
  text : string;
  createdAt : Z
}.
#[global] Instance settable : Settable Comment := fun r =>
  mk r.(id) r.(authorId) r.(text) r.(createdAt).
End Comment.

(** the rate cache's entries (fx/exchange-rate.service.ts) *)
Module CacheEntry.
Record CacheEntry : Type := mk {
  rate : num;
  provider : string;
  fetchedAt : Z
}.
#[global] Instance settable : Settable CacheEntry := fun r =>
  mk r.(rate) r.(provider) r.(fetchedAt).
End CacheEntry.
