(* ===== verification/World.v ===== *)
(** The state the core services share: the database tables they read and
    write, the in-memory maps of each service, and the calls that were started
    without [await].  One [Table] instance per entity. *)
From S2P Require Import Prelude JsNumber Effects RepositoryLaws Entities.
Local Open Scope Z_scope.

Module World.
Record World : Type := mk {
  env : Env;
  users : list User.User;
  terms_acceptances : list TermsAcceptance.TermsAcceptance;
  user_deactivations : list UserDeactivationEntity.UserDeactivationEntity;
  wallet_balances : list WalletBalanceEntity.WalletBalanceEntity;
  transactions : list Transaction.Transaction;
  fee_records : list FeeRecord.FeeRecord;
  fee_audit_logs : list FeeAuditLogEntity.FeeAuditLogEntity;
  audit_logs : list AuditLog.AuditLog;
  referrals : list Referral.Referral;
  referral_rewards : list ReferralReward.ReferralReward;
  fx_trades : list FxTrade.FxTrade;
  receipt_seq : Z;
  walletBalanceCache : gmap string (list (string * num));
  autoSweepConfigs : gmap string AutoSweepConfig.AutoSweepConfig;
  transactionComments : gmap string (list Comment.Comment);
  dailyTotals : gmap string num;
  monthlyTotals : gmap string num;
  rateCache : gmap string CacheEntry.CacheEntry;
  volumeTracker : gmap string num;
  usedRefreshTokens : gmap string unit;
  background : list (string * (string * num))
}.
#[global] Instance settable : Settable World := fun r =>
  mk r.(env) r.(users) r.(terms_acceptances) r.(user_deactivations) r.(wallet_balances)
     r.(transactions) r.(fee_records) r.(fee_audit_logs) r.(audit_logs) r.(referrals)
     r.(referral_rewards) r.(fx_trades) r.(receipt_seq) r.(walletBalanceCache)
     r.(autoSweepConfigs) r.(transactionComments) r.(dailyTotals) r.(monthlyTotals)
     r.(rateCache) r.(volumeTracker) r.(usedRefreshTokens) r.(background).
End World.
Notation World := World.World.

#[global] Program Instance World_env : HasEnv World := {|
  env_of := World.env;
  set_env e w := w <| World.env := e |>
|}.

#[global] Program Instance users_table : Table World User.User := {|
  rows := World.users;
  set_rows t w := w <| World.users := t |>
|}.

#[global] Program Instance terms_acceptances_table : Table World TermsAcceptance.TermsAcceptance := {|
  rows := World.terms_acceptances;
  set_rows t w := w <| World.terms_acceptances := t |>
|}.

#[global] Program Instance user_deactivations_table : Table World UserDeactivationEntity.UserDeactivationEntity := {|
  rows := World.user_deactivations;
  set_rows t w := w <| World.user_deactivations := t |>
|}.

#[global] Program Instance wallet_balances_table : Table World WalletBalanceEntity.WalletBalanceEntity := {|
  rows := World.wallet_balances;
  set_rows t w := w <| World.wallet_balances := t |>
|}.

#[global] Program Instance transactions_table : Table World Transaction.Transaction := {|
  rows := World.transactions;
  set_rows t w := w <| World.transactions := t |>
|}.

#[global] Program Instance fee_records_table : Table World FeeRecord.FeeRecord := {|
  rows := World.fee_records;
  set_rows t w := w <| World.fee_records := t |>
|}.

#[global] Program Instance fee_audit_logs_table : Table World FeeAuditLogEntity.FeeAuditLogEntity := {|
  rows := World.fee_audit_logs;
  set_rows t w := w <| World.fee_audit_logs := t |>
|}.

#[global] Program Instance audit_logs_table : Table World AuditLog.AuditLog := {|
  rows := World.audit_logs;
  set_rows t w := w <| World.audit_logs := t |>
|}.

#[global] Program Instance referrals_table : Table World Referral.Referral := {|
  rows := World.referrals;
  set_rows t w := w <| World.referrals := t |>
|}.

#[global] Program Instance referral_rewards_table : Table World ReferralReward.ReferralReward := {|
  rows := World.referral_rewards;
  set_rows t w := w <| World.referral_rewards := t |>
|}.

#[global] Program Instance fx_trades_table : Table World FxTrade.FxTrade := {|
  rows := World.fx_trades;
  set_rows t w := w <| World.fx_trades := t |>
|}.

(** An empty database under an environment. *)
Definition empty_world (e : Env) : World :=
  World.mk e [] [] [] [] [] [] [] [] [] [] [] 1 ∅ ∅ ∅ ∅ ∅ ∅ ∅ ∅ [].

(** ** Frames *)

(** Events emitted so far. *)
Definition events (w : World) : list (string * json) := outbox (World.env w).

(** The steps in the context emitted nothing. *)
Ltac same_events :=
  lazymatch goal with
  | |- events _ = events ?s => refine (es_outbox (World.env s) _ _); env_chain
  end.

(** No balance moved and nothing was emitted. *)
Definition quiet (s s' : World) : Prop :=
  s'.(World.wallet_balances) = s.(World.wallet_balances) /\ events s' = events s.

#[export] Instance quiet_preorder : PreOrder quiet.
Proof.
  split; [intros s; split; reflexivity|].
  intros s1 s2 s3 [H1 H2] [H3 H4]. split; congruence.
Qed.
#[export] Instance quiet_env_stable : EnvStable quiet.
Proof. intros s e He. split; [reflexivity | exact (es_outbox _ _ He)]. Qed.
#[export] Hint Extern 5 (TableStable _ quiet) => (intros ? ?; split; reflexivity) : typeclass_instances.

(** A concrete environment for worked examples: time moves by a millisecond,
    identifiers are numbered, no call fails. *)
Definition demo_env : Env :=
  mkEnv (fun n => 1700000000000 + Z.of_nat n) 0 (fun _ => None) 0
        (fun n => ("u"%char, string_of_N (N.of_nat n))) 0 (fun _ => num_of_ratio 1 2) 0 [].
Definition demo_world : World := empty_world demo_env.

(** The same, with the external calls of the given numbers (from 0) failing. *)
Definition failing_env (ks : list nat) : Env :=
  mkEnv (clock demo_env) 0
        (fun n => if existsb (Nat.eqb n) ks then Some (PlainError "connection lost") else None) 0
        (uuid demo_env) 0 (rnd demo_env) 0 [].

Definition demo_wallet (id accountId currency : string) (balance : num) :
    WalletBalanceEntity.WalletBalanceEntity :=
  WalletBalanceEntity.mk id accountId currency balance false None None 1 0 0 1.
