(* ===== verification/CoreCalls.v ===== *)
(** Components with tables of their own that also call the core services: their
    state holds a [World], whose environment is theirs, and a call of a core
    service runs on it. *)
From S2P Require Import Prelude JsNumber Effects RepositoryLaws Entities World.
Local Open Scope Z_scope.

Class HasWorld (S : Type) : Type := {
  world_of : S -> World;
  set_world : World -> S -> S;
  world_of_set_world : forall w s, world_of (set_world w s) = w;
  set_world_world_of : forall s, set_world (world_of s) s = s;
  set_world_set_world : forall w w' s, set_world w (set_world w' s) = set_world w s
}.

(** The environment of such a state is its world's. *)
#[export] Instance HasWorld_env {S} `{HasWorld S} : HasEnv S.
Proof.
  refine {| env_of s := World.env (world_of s);
            set_env e s := set_world (set_env e (world_of s)) s |}.
  - intros e s. rewrite world_of_set_world. reflexivity.
  - intros s. change (set_world (set_env (env_of (world_of s)) (world_of s)) s = s).
    rewrite set_env_env_of. apply set_world_world_of.
  - intros e e' s. rewrite world_of_set_world, set_world_set_world, set_env_set_env. reflexivity.
Defined.

Section Calls.
Context {S : Type} `{HasWorld S}.

(** [await this.coreService.m(...)]. *)
Definition core {A} (m : M World A) : M S A :=
  fun s => let '(r, w) := m (world_of s) in (r, set_world w s).

Lemma wp_core {A} (m : M World A) Q X (s : S) :
  wp m (fun a w => Q a (set_world w s)) (fun x w => X x (set_world w s)) (world_of s) ->
  wp (core m) Q X s.
Proof. unfold wp, core. destruct (m (world_of s)) as [[x|a] w]; exact id. Qed.

(** A relation that does not look at the world. *)
Class WorldStable (R : S -> S -> Prop) : Prop :=
  world_stable : forall w s, R s (set_world w s).

Lemma keeps_core {A} (R : S -> S -> Prop) `{!WorldStable R} (m : M World A) : keeps R (core m).
Proof. intros s. unfold core. destruct (m (world_of s)) as [r w]. apply world_stable. Qed.

(** What a call keeps of the world it keeps of the state. *)
Lemma keeps_core_world {A} (R : World -> World -> Prop) (m : M World A) :
  keeps R m -> keeps (fun s s' => R (world_of s) (world_of s')) (core m).
Proof.
  intros Hm s. unfold core. specialize (Hm (world_of s)). destruct (m (world_of s)) as [r w].
  simpl in *. rewrite world_of_set_world. exact Hm.
Qed.
End Calls.
#[export] Hint Resolve keeps_core : keeps.
#[export] Hint Extern 5 (WorldStable (same _)) => (intros ? ?; reflexivity) : typeclass_instances.
#[export] Hint Extern 5 (WorldStable (invariant _)) => exact (fun _ _ H => H) : typeclass_instances.
