(* ===== verification/WithTransaction.v ===== *)
(** common/helpers/with-transaction.helper.ts: a query runner's transaction
    around a callback, and its proof rule: what the callback wrote to the
    table of its manager is either committed or undone. *)
From S2P Require Import Prelude JsNumber Effects RepositoryLaws.

Section WithTransaction.
Context {S : Type} `{HasEnv S}.

(** [queryRunner.release()] hands the connection back to the pool: no query. *)
Definition release : M S unit := ret tt.

(** [rb s0 s]: the state [s] with the tables of [queryRunner.manager] as they
    were in [s0]; a rollback undoes them whether or not its own call fails. *)
Definition withTransaction {T} (rb : S -> S -> S) (fn : M S T) : M S T :=
  db_call ;;;                      (* queryRunner.connect() *)
  db_call ;;;                      (* queryRunner.startTransaction() *)
  let* s0 := gets (fun s => s) in
  try_finally
    (try_catch
       (let* result := fn in
        db_call ;;;                (* commitTransaction() *)
        ret result)
       (fun error =>
          modify (rb s0) ;;;
          db_call ;;;              (* rollbackTransaction() *)
          throw error))
    release.

(** The callback runs in a state that is the first one with the environment
    moved on; its writes are kept when the commit goes through, undone when it
    throws or the commit fails. *)
Lemma wp_withTransaction {T} rb (fn : M S T) Q X s :
  (forall e x, env_step (env_of s) e -> env_fault (env_of s) x -> X x (set_env e s)) ->
  (forall e0, env_step (env_of s) e0 ->
     wp fn
       (fun a s' =>
          (forall e, env_step (env_of s') e -> Q a (set_env e s')) /\
          (forall e e' x, env_step (env_of s') e ->
             env_fault (env_of s') x \/ env_fault (env_of (rb (set_env e0 s) (set_env e s'))) x ->
             env_step (env_of (rb (set_env e0 s) (set_env e s'))) e' ->
             X x (set_env e' (rb (set_env e0 s) (set_env e s')))))
       (fun x s' =>
          forall e' x', x' = x \/ env_fault (env_of (rb (set_env e0 s) s')) x' ->
             env_step (env_of (rb (set_env e0 s) s')) e' ->
             X x' (set_env e' (rb (set_env e0 s) s')))
       (set_env e0 s)) ->
  wp (withTransaction rb fn) Q X s.
Proof.
  intros HX Hfn. unfold withTransaction.
  wp_step. wp_step; [eauto|]. wp_step.
  wp_step; [apply HX; [etransitivity; eassumption | eauto with env]|].
  wp_step. apply wp_gets. rename e'0 into e0.
  assert (He0 : env_step (env_of s) e0) by (etransitivity; eassumption).
  unfold wp, try_finally, try_catch, bind at 1, release, ret.
  specialize (Hfn e0 He0). unfold wp in Hfn.
  destruct (fn (set_env e0 s)) as [[x|a] s'].
  - unfold bind, modify, throw, db_call.
    destruct (fault _ _) eqn:Hf; apply Hfn; try apply next_call_step; auto.
    right. eexists. split; [apply le_n | exact Hf].
  - destruct Hfn as [HQ HXc]. unfold bind, db_call at 1.
    destruct (fault (env_of s') _) eqn:Hf.
    + unfold modify, throw, db_call. destruct (fault (env_of (rb _ _)) _) eqn:Hf';
        apply HXc; try apply next_call_step; [right | left]; eexists; (split; [apply le_n | eassumption]).
    + apply HQ, next_call_step.
Qed.

Lemma keeps_withTransaction {T} (R : S -> S -> Prop) `{!PreOrder R} `{!EnvStable R}
    rb (fn : M S T) :
  keeps R fn -> (forall s0 s, R s (rb s0 s)) -> keeps R (withTransaction rb fn).
Proof.
  intros Hfn Hrb. unfold withTransaction, release.
  keeps_auto; auto.
Qed.
End WithTransaction.
