(* ===== verification/Lifecycle.v ===== *)
(** Life cycles of rows: for a table whose rows only change along a step
    relation of their entity, how a handler may move the table.  The state
    machines of the services (KYC documents, disputes, tickets, closure
    requests, schedules, ...) are each one relation [step] and one predicate
    [initial]; this file carries what holds of all of them. *)
From S2P Require Import Prelude JsNumber Effects RepositoryLaws CoreCalls WithTransaction.
From stdpp Require Import relations.

Section Lifecycle.
Context {S E : Type} `{Table S E} (initial : E -> Prop) (step : E -> E -> Prop).

(** Keys are distinct and not empty. *)
Definition keys_ok (t : list E) : Prop :=
  NoDup (map row_id t) /\ Forall (fun e => row_id e <> "") t.

(** A row that began [initial] and only made [step]s. *)
Definition reached (e : E) : Prop := exists e0, initial e0 /\ rtc step e0 e.

Record evolves_to (t t' : list E) : Prop := {
  ev_keys : keys_ok t';
  ev_kept : forall e, In e t -> exists e', In e' t' /\ row_id e' = row_id e /\ rtc step e e';
  ev_new : forall e', In e' t' ->
    (exists e, In e t /\ row_id e' = row_id e /\ rtc step e e') \/ reached e'
}.

Definition evolves (s s' : S) : Prop := keys_ok (rows s) -> evolves_to (rows s) (rows s').

Lemma evolves_to_refl t : keys_ok t -> evolves_to t t.
Proof. intros Hk. split; [exact Hk | intros e He; exists e | intros e He; left; exists e]; repeat split; auto using rtc_refl. Qed.

Lemma evolves_to_trans t1 t2 t3 : evolves_to t1 t2 -> evolves_to t2 t3 -> evolves_to t1 t3.
Proof.
  intros [_ A2 A3] [B1 B2 B3]. split; [exact B1 | |].
  - intros e He. destruct (A2 e He) as (e2 & H2 & I2 & R2). destruct (B2 e2 H2) as (e3 & H3 & I3 & R3).
    exists e3. repeat split; [exact H3 | congruence | etransitivity; eassumption].
  - intros e3 H3. destruct (B3 e3 H3) as [(e2 & H2 & I2 & R2)|Hr]; [|right; exact Hr].
    destruct (A3 e2 H2) as [(e1 & Hin1 & I1 & R1)|(e0 & Hin0 & R0)].
    + left. exists e1. repeat split; [exact Hin1 | congruence | etransitivity; eassumption].
    + right. exists e0. split; [exact Hin0 | etransitivity; eassumption].
Qed.

#[export] Instance evolves_preorder : PreOrder evolves.
Proof.
  split.
  - intros s. exact (evolves_to_refl _).
  - intros s1 s2 s3 H12 H23 Hk. pose proof (H12 Hk) as H12'.
    eapply evolves_to_trans; [exact H12' | apply H23, (ev_keys _ _ H12')].
Qed.

Lemma evolves_same_rows s s' : rows s' = (rows s : list E) -> evolves s s'.
Proof. intros Hr Hk. rewrite Hr. apply evolves_to_refl, Hk. Qed.

#[export] Instance evolves_env_stable : EnvStable evolves.
Proof. intros s e _. apply evolves_same_rows, rows_set_env. Qed.
#[export] Instance evolves_emit_stable : EmitStable evolves.
Proof. intros s ev. apply evolves_same_rows, rows_set_env. Qed.

Lemma evolves_rollback s0 s : evolves s0 (rollback_table (E:=E) s0 s).
Proof. apply evolves_same_rows, rows_set_rows. Qed.

(** ** What the writes do *)

(** A row of the table is replaced by its next state. *)
Lemma evolves_to_replace t e r :
  keys_ok t -> In e t -> row_id r = row_id e -> step e r -> evolves_to t (upsert r t).
Proof.
  intros [Hnd Hne] He Hid Hst. rewrite List.Forall_forall in Hne. split.
  - split; [apply NoDup_upsert, Hnd|]. apply List.Forall_forall. intros x Hx.
    apply in_upsert in Hx as [->|[Hx _]]; [rewrite Hid|]; auto.
  - intros x Hx. destruct (decide (row_id x = row_id e)) as [Hxe|Hxe].
    + assert (x = e) as -> by (apply (NoDup_row_id_inj t); assumption).
      exists r. repeat split; [apply in_upsert_self | exact Hid | apply rtc_once, Hst].
    + exists x. repeat split; [apply in_upsert_other; congruence | apply rtc_refl].
  - intros x Hx. left. apply in_upsert in Hx as [->|[Hx _]]; [exists e | exists x];
      repeat split; auto using rtc_once, rtc_refl.
Qed.

(** A new row is appended. *)
Lemma evolves_to_insert t r :
  keys_ok t -> row_id r <> "" -> existsb (same_row r) t = false -> reached r -> evolves_to t (upsert r t).
Proof.
  intros [Hnd Hne] Hr Hfresh Hin. split.
  - split; [apply NoDup_upsert, Hnd | apply Forall_upsert; assumption].
  - intros x Hx. exists x. repeat split; [|apply rtc_refl].
    apply in_upsert_other; [exact Hx|]. intros Heq.
    assert (existsb (same_row r) t = true); [|congruence].
    apply existsb_exists. exists x. split; [exact Hx | apply same_row_true; congruence].
  - intros x Hx. apply in_upsert in Hx as [->|[Hx _]]; [right; exact Hin|].
    left. exists x. repeat split; [exact Hx | apply rtc_refl].
Qed.

(** [save] of a row that was loaded and assigned to. *)
Lemma wp_save_step e e' Q X s :
  In e (rows s) -> row_id e' = row_id e -> (forall u, step e (touched u e')) ->
  (forall e1 x, env_step (env_of s) e1 -> save_failure e' s x -> X x (set_env e1 s)) ->
  (forall u s', evolves s s' -> rows s' = upsert (touched u e') (rows s) ->
     env_step (env_of s) (env_of s') -> Q (touched u e') s') ->
  wp (save e') Q X s.
Proof.
  intros Hin Hid Hst HX HQ. apply wp_save; [intros; apply HX; assumption|].
  intros e1 r He _ _ Ht _. destruct Ht as [u ->].
  { apply existsb_exists. exists e. split; [exact Hin | apply same_row_true, Hid]. }
  apply HQ.
  - intros Hk. rewrite rows_set_rows. apply (evolves_to_replace _ e); auto.
    rewrite row_id_touched. exact Hid.
  - apply rows_set_rows.
  - rewrite env_of_set_rows, env_of_set_env. exact He.
Qed.

(** A row without a key is not in the table. *)
Lemma keyless_not_in t e : keys_ok t -> row_id e = "" -> existsb (same_row e) t = false.
Proof.
  intros [_ Hne] Hid. apply not_true_is_false. intros Hex. apply existsb_exists in Hex as (x & Hx & Hs).
  apply same_row_true in Hs. rewrite List.Forall_forall in Hne. apply (Hne x Hx). congruence.
Qed.

Lemma keys_ok_upsert t r : keys_ok t -> row_id r <> "" -> keys_ok (upsert r t).
Proof. intros [Hnd Hne] Hr. split; [apply NoDup_upsert, Hnd | apply Forall_upsert; assumption]. Qed.

(** [save] of a row that was just created. *)
Lemma keeps_save_new e :
  row_id e = "" -> (forall i u, i <> "" -> reached (created u (set_row_id i e))) -> keeps evolves (save e).
Proof.
  intros Hid Hinit. apply keeps_wp. intros s. apply wp_save; [intros; apply env_stable; assumption|].
  intros e1 r He Hr _ _ Hn Hk. rewrite rows_set_rows. pose proof (keyless_not_in _ e Hk Hid) as Hex.
  destruct (Hn Hex) as [Hrid Hfresh]. apply evolves_to_insert; [exact Hk | exact Hrid | exact Hfresh|].
  destruct Hr as [u|u i Hi _]; [|apply Hinit, Hi]. rewrite row_id_touched in Hrid. congruence.
Qed.

Lemma evolves_to_map t f :
  (forall e, In e t -> row_id (f e) = row_id e /\ rtc step e (f e)) -> keys_ok t -> evolves_to t (map f t).
Proof.
  intros Hf [Hnd Hne].
  assert (Hids : map row_id (map f t) = map row_id t).
  { rewrite map_map. apply map_ext_in. intros e He. apply (Hf e He). }
  split.
  - split; [rewrite Hids; exact Hnd|]. apply List.Forall_forall. intros x Hx.
    apply in_map_iff in Hx as (e & <- & He). rewrite (proj1 (Hf e He)).
    rewrite List.Forall_forall in Hne. auto.
  - intros e He. exists (f e). split; [apply in_map, He | apply (Hf e He)].
  - intros x Hx. apply in_map_iff in Hx as (e & <- & He). left. exists e. split; [exact He | apply (Hf e He)].
Qed.

(** [update({ where }, fields)]. *)
Lemma keeps_update_step (p : E -> bool) f :
  (forall e u, p e = true -> row_id (f e) = row_id e /\ step e (touched u (f e))) ->
  keeps evolves (update_rows p f).
Proof.
  intros Hf. apply keeps_update_rel; [typeclasses eauto..|]. intros s u Hk. rewrite rows_set_rows.
  apply evolves_to_map; [|exact Hk]. intros e _. destruct (p e) eqn:Hp; [|split; [reflexivity | apply rtc_refl]].
  destruct (Hf e u Hp) as [Hi Hst]. split; [rewrite row_id_touched; exact Hi | apply rtc_once, Hst].
Qed.

(** ** What follows for a row *)

(** A row no step leaves is never changed. *)
Lemma evolves_final s s' e :
  evolves s s' -> keys_ok (rows s) -> In e (rows s) -> (forall e', ~ step e e') -> In e (rows s').
Proof.
  intros Hev Hk He Hfin. destruct (ev_kept _ _ (Hev Hk) e He) as (e' & He' & _ & Hst).
  inversion Hst; subst; [exact He'|]. exfalso. eapply Hfin. eassumption.
Qed.

(** Every row got where it is by steps from an initial one. *)
Lemma evolves_reached s s' :
  evolves s s' -> keys_ok (rows s) -> Forall reached (rows s) -> Forall reached (rows s').
Proof.
  rewrite !List.Forall_forall. intros Hev Hk Hall e' He'.
  destruct (ev_new _ _ (Hev Hk) e' He') as [(e & He & _ & Hst)|Hr]; [|exact Hr].
  destruct (Hall e He) as (e0 & Hin0 & R0). exists e0. split; [exact Hin0 | etransitivity; eassumption].
Qed.
End Lifecycle.

(** An invariant of the steps is one of the rows. *)
Lemma rtc_invariant {A} (R : A -> A -> Prop) (P : A -> Prop) :
  (forall x y, R x y -> P x -> P y) -> forall x y, rtc R x y -> P x -> P y.
Proof. intros HR x y Hst. induction Hst as [|x y z Hxy _ IH]; intros Hx; [exact Hx | apply IH, (HR x y Hxy Hx)]. Qed.

(** ** Transactions that undo their own writes *)

Section Transactions.
Context {S : Type} `{HasEnv S} (R : S -> S -> Prop) `{!PreOrder R} `{!EnvStable R}.

Lemma keeps_withTransaction_back {T} rb (fn : M S T) :
  keeps R fn -> (forall s0 s, R s0 (rb s0 s)) -> keeps R (withTransaction rb fn).
Proof.
  intros Hfn Hrb. apply keeps_wp. intros s. apply wp_withTransaction.
  - intros e x He _. apply env_stable, He.
  - intros e0 He0. assert (Hback : forall s' e', env_step (env_of (rb (set_env e0 s) s')) e' ->
        R s (set_env e' (rb (set_env e0 s) s'))).
    { intros s' e' He'. etransitivity; [apply env_stable, He0|]. etransitivity; [apply Hrb | apply env_stable, He']. }
    eapply wp_keeps; [exact Hfn | |].
    + intros a s' Hs'. split; [|intros; apply Hback; assumption].
      intros e He. etransitivity; [apply env_stable, He0|]. etransitivity; [exact Hs' | apply env_stable, He].
    + intros x s' Hs' e' x' _ He'. apply Hback, He'.
Qed.

Lemma keeps_transaction_back {T} rb (cb : M S T) :
  keeps R cb -> (forall s0 s, R s0 (rb s0 s)) -> keeps R (dataSource_transaction rb cb).
Proof.
  intros Hcb Hrb. apply keeps_wp. intros s. apply wp_dataSource_transaction.
  - intros e x He _. apply env_stable, He.
  - intros e0 He0. eapply wp_keeps; [exact Hcb | |].
    + intros a s' Hs'. split; [|intros; apply Hrb].
      intros e He. etransitivity; [apply env_stable, He0|]. etransitivity; [exact Hs' | apply env_stable, He].
    + intros x s' _. apply Hrb.
Qed.
End Transactions.

(** ** Jobs that run again and again

    What a run leaves of the environment: its oracles, with the counters moved
    on; it may have emitted. *)
Definition later {S} `{HasEnv S} (s s' : S) : Prop :=
  clock (env_of s') = clock (env_of s) /\ fault (env_of s') = fault (env_of s) /\
  (tick (env_of s) <= tick (env_of s'))%nat /\ (calls (env_of s) <= calls (env_of s'))%nat.

Section Jobs.
Context {S : Type} `{HasEnv S}.

#[export] Instance later_preorder : PreOrder (later (S:=S)).
Proof.
  split; [intros s; repeat split; lia|]. intros s1 s2 s3 (A & B & C & D) (A' & B' & C' & D').
  repeat split; congruence || lia.
Qed.
Lemma later_step s s' : env_step (env_of s) (env_of s') -> later s s'.
Proof. intros []. repeat split; assumption. Qed.
#[export] Instance later_env_stable : EnvStable (later (S:=S)).
Proof. intros s e He. apply later_step. rewrite env_of_set_env. exact He. Qed.
#[export] Instance later_emit_stable : EmitStable (later (S:=S)).
Proof. intros s ev. unfold later. rewrite env_of_set_env. simpl. auto. Qed.
#[export] Instance later_table_stable {E} `{Row E} `{!Table S E} : TableStable E (later (S:=S)).
Proof. intros s t. unfold later. rewrite env_of_set_rows. auto. Qed.

Lemma later_fault s s' x : later s s' -> env_fault (env_of s') x -> env_fault (env_of s) x.
Proof. intros (_ & Hf & _ & Hc) (n & Hn & Hx). exists n. split; [lia | congruence]. Qed.

Lemma later_reliable s s' : later s s' -> reliable (env_of s) -> reliable (env_of s').
Proof. intros (_ & Hf & _ & Hc) Hr n Hn. rewrite Hf. apply Hr. lia. Qed.

(** Every failure of the oracle is before call [N]: from there on none. *)
Definition settles (N : nat) (e : Env) : Prop := forall n, (N <= n)%nat -> fault e n = None.

Lemma settles_reliable N s s' :
  settles N (env_of s) -> later s s' -> (N <= calls (env_of s'))%nat -> reliable (env_of s').
Proof. intros HN (_ & Hf & _ & _) Hc n Hn. rewrite Hf. apply HN. lia. Qed.

(** [n] runs of a scheduled job; the scheduler catches what a run throws. *)
Fixpoint runs (n : nat) (job : M S unit) : M S unit :=
  match n with O => ret tt | Datatypes.S k => attempt job ;;; runs k job end.

Lemma keeps_runs (R : S -> S -> Prop) `{!PreOrder R} n job : keeps R job -> keeps R (runs n job).
Proof. intros Hj. induction n as [|n IH]; simpl; keeps_auto; auto using keeps_attempt. Qed.

(** A job that starts with a call makes one in every run. *)
Lemma runs_calls job n :
  keeps later job -> (forall s, (calls (env_of s) < calls (env_of (job s).2))%nat) ->
  forall s, (calls (env_of s) + n <= calls (env_of (runs n job s).2))%nat.
Proof.
  intros Hk Hc. induction n as [|n IH]; intros s; simpl; [lia|].
  unfold bind at 1, attempt. specialize (Hc s). destruct (job s) as [r s1]. simpl in *.
  specialize (IH s1). lia.
Qed.

Lemma runs_first n job s : runs (Datatypes.S n) job s = runs n job (job s).2.
Proof. simpl. unfold bind, attempt. destruct (job s); reflexivity. Qed.

Lemma runs_last n job s : (runs (Datatypes.S n) job s).2 = (job (runs n job s).2).2.
Proof.
  revert s. induction n as [|n IH]; intros s; [rewrite runs_first; reflexivity|].
  rewrite runs_first, IH, runs_first. reflexivity.
Qed.

Lemma db_call_counts s : calls (env_of (db_call s).2) = Datatypes.S (calls (env_of s)).
Proof. unfold db_call. destruct (fault _ _); simpl; rewrite env_of_set_env; reflexivity. Qed.

(** A handler that always makes a call. *)
Definition makes_call {A} (m : M S A) : Prop :=
  forall s, (calls (env_of s) < calls (env_of (m s).2))%nat.

Lemma makes_call_bind {A B} (m : M S A) (k : A -> M S B) :
  makes_call m -> (forall a, keeps later (k a)) -> makes_call (bind m k).
Proof.
  intros Hm Hk s. specialize (Hm s). unfold bind. destruct (m s) as [[x|a] s1]; simpl in *; [exact Hm|].
  destruct (Hk a s1) as (_ & _ & _ & Hle). lia.
Qed.

Lemma makes_call_date_now {B} (k : Z -> M S B) : (forall n, makes_call (k n)) -> makes_call (bind date_now k).
Proof.
  intros Hk s. unfold bind, date_now. specialize (Hk (clock (env_of s) (tick (env_of s))) (set_env (next_tick (env_of s)) s)).
  rewrite env_of_set_env in Hk. exact Hk.
Qed.

Lemma makes_call_db_call : makes_call db_call.
Proof. intros s. rewrite db_call_counts. lia. Qed.

Lemma makes_call_find_all {E} `{Row E} `{!Table S E} (p : E -> bool) : makes_call (find_all p).
Proof. apply makes_call_bind; [apply makes_call_db_call | intros; apply keeps_gets; typeclasses eauto]. Qed.
End Jobs.

(** ** One write per row of a list

    A loop over distinct rows of the table, each round of which leaves a row
    [done] under the key it was given and touches no other row. *)
Definition both {S} (R R' : S -> S -> Prop) (s s' : S) : Prop := R s s' /\ R' s s'.
#[export] Instance both_preorder {S} (R R' : S -> S -> Prop) `{!PreOrder R} `{!PreOrder R'} : PreOrder (both R R').
Proof.
  split; [intros s; split; reflexivity|]. intros s1 s2 s3 [] []. split; etransitivity; eassumption.
Qed.
#[export] Instance both_env_stable {S} `{HasEnv S} (R R' : S -> S -> Prop) `{!EnvStable R} `{!EnvStable R'} :
  EnvStable (both R R').
Proof. intros s e He. split; apply env_stable, He. Qed.

Section ForEachRow.
Context {S E : Type} `{Table S E} (R : S -> S -> Prop) `{!PreOrder R}.
Context (f : E -> M S unit) (eligible done : E -> Prop) (Err : exn -> S -> Prop).

Definition done_row (id : string) (s : S) : Prop :=
  exists e, In e (rows s) /\ row_id e = id /\ done e.
Definition others_kept (e : E) (s s' : S) : Prop :=
  forall e', row_id e' <> row_id e -> In e' (rows s) -> In e' (rows s').

Hypothesis Hround : forall e s, In e (rows s) -> eligible e ->
  wp (f e) (fun _ s' => R s s' /\ done_row (row_id e) s' /\ others_kept e s s')
           (fun x s' => R s s' /\ Err x s) s.
Hypothesis Herr : forall x s s', R s s' -> Err x s' -> Err x s.

Lemma wp_for_each_rows l : forall s,
  NoDup (map row_id l) -> (forall e, In e l -> In e (rows s) /\ eligible e) ->
  wp (for_each l f)
    (fun _ s' => R s s' /\ (forall e, In e l -> done_row (row_id e) s') /\
       forall e, In e (rows s) -> ~ In (row_id e) (map row_id l) -> In e (rows s'))
    (fun x s' => R s s' /\ Err x s) s.
Proof.
  induction l as [|e l IH]; intros s Hnd Hl; cbn [for_each].
  - apply wp_ret. split; [reflexivity|]. split; [intros _ [] | auto].
  - apply NoDup_cons in Hnd as [Hni Hnd]. rewrite list_elem_of_In in Hni.
    destruct (Hl e (or_introl eq_refl)) as [Hin Hel]. apply wp_bind.
    eapply wp_mono; [apply (Hround e s Hin Hel) | | auto]. intros [] s1 (HR & Hd & Hother).
    eapply wp_mono; [apply (IH s1 Hnd) | |].
    + intros e' He'. destruct (Hl e' (or_intror He')) as [Hin' Hel']. split; [|exact Hel'].
      apply Hother; [|exact Hin']. intros Heq. apply Hni. rewrite <- Heq. apply in_map, He'.
    + intros [] s2 (HR2 & Hall & Hkeep). split; [etransitivity; eassumption|]. split.
      * intros e' [<-|He']; [|apply Hall, He']. destruct Hd as (d & Hd & Hid & Hdone).
        exists d. repeat split; [|exact Hid | exact Hdone]. apply Hkeep; [exact Hd | rewrite Hid; exact Hni].
      * intros e' He' Hn. apply Hkeep; [|intros Hi; apply Hn; right; exact Hi].
        apply Hother; [|exact He']. intros Heq. apply Hn. left. congruence.
    + intros x s2 [HR2 Hx]. split; [etransitivity; eassumption | eapply Herr; eassumption].
Qed.
End ForEachRow.

(** Saving a row of the table, of an entity without unique indexes, fails only
    with its call. *)
Lemma save_failure_fault {S E} `{Table S E} (e : E) (s : S) x :
  existsb (same_row e) (rows s) = true -> (forall a b : E, clash a b = false) ->
  save_failure e s x -> env_fault (env_of s) x.
Proof.
  intros Hex Hcl [Hf|(_ & r & _ & Hv)]; [exact Hf|]. exfalso. rewrite Hex in Hv. destruct Hv as [_ Hv].
  apply existsb_exists in Hv as (y & _ & Hy). rewrite Hcl, andb_false_r in Hy. discriminate.
Qed.

(** Saving a row of the table, its indexed columns unchanged, fails only with
    its call. *)
Lemma save_failure_same_index {S E} `{Table S E} (k e : E) (s : S) x :
  table_unique (rows s) -> In k (rows s) -> row_id e = row_id k ->
  (forall r y, saved_as e r -> clash r y = clash k y) ->
  save_failure e s x -> env_fault (env_of s) x.
Proof.
  intros [_ Hcl] Hin Hid Hix [Hf|(_ & r & Hr & Hv)]; [exact Hf|]. exfalso.
  assert (Hex : existsb (same_row e) (rows s) = true)
    by (apply existsb_exists; exists k; split; [exact Hin | apply same_row_true, Hid]).
  rewrite Hex in Hv. destruct Hv as [Hrid Hv]. apply existsb_exists in Hv as (y & Hy & Hc).
  apply andb_prop in Hc as [Hne Hc]. apply negb_true_iff, same_row_false in Hne.
  rewrite (Hix r y Hr), (Hcl k y Hin Hy) in Hc by congruence. discriminate.
Qed.

(** The rows of an entity do not move with the world or with another table. *)
#[export] Hint Extern 5 (WorldStable (evolves _ _)) =>
  (intros ? ?; apply evolves_same_rows; reflexivity) : typeclass_instances.
#[export] Hint Extern 5 (TableStable _ (evolves _ _)) =>
  (intros ? ?; apply evolves_same_rows; reflexivity) : typeclass_instances.

(** A leaf of a handler that left the rows alone, or that saved once. *)
Ltac evolves_leaf :=
  first [ assumption
        | apply env_stable; solve [assumption | env_chain]
        | apply evolves_same_rows; env_norm; reflexivity
        | unfold evolves in *; env_norm; solve [assumption | apply evolves_to_refl] ].
