(* ===== verification/Wallets.v ===== *)
(** wallet/wallets.service.ts: the balances of the accounts.  [adjustBalance]
    is the one operation through which every other service moves money; this
    file states what it promises ([WalletsApi]) and proves that the service
    keeps the promise. *)
From Stdlib Require Import QArith Floats.SpecFloat.
From S2P Require Import Prelude JsNumber NumberLaws Effects RepositoryLaws JsData ThirdParty Currencies Entities World WithTransaction.
Local Open Scope Z_scope.

(** wallet/wallets.types.ts; an absent row has no id and no dates. *)
Module WalletBalance.
Record WalletBalance : Type := mk {
  id : option string;
  accountId : string;
  currency : string;
  balance : num;
  label : option string;
  color : option string;
  createdAt : option Z;
  updatedAt : option Z
}.
End WalletBalance.

(** What [processAutoSweep] answers. *)
Inductive SweepResult : Type :=
  | NotSwept (reason : string)
  | Swept (sweepAmount : num) (coldStorageAddress : string) (remainingBalance : num).

Module WalletsService.
Section Service.
Context `{BigJs}.
Notation Wallet := WalletBalanceEntity.WalletBalanceEntity.

Definition owned_by (accountId currency : string) (w : Wallet) : bool :=
  String.eqb w.(WalletBalanceEntity.accountId) accountId &&
  String.eqb w.(WalletBalanceEntity.currency) currency.

(** The object literal every method returns. *)
Definition toWalletBalance (w : Wallet) : WalletBalance.WalletBalance :=
  WalletBalance.mk (Some w.(WalletBalanceEntity.id)) w.(WalletBalanceEntity.accountId)
    w.(WalletBalanceEntity.currency) w.(WalletBalanceEntity.balance)
    w.(WalletBalanceEntity.label) w.(WalletBalanceEntity.color)
    (Some w.(WalletBalanceEntity.createdAt)) (Some w.(WalletBalanceEntity.updatedAt)).

(** [manager.create(WalletBalanceEntity, { accountId, currency, balance: 0 })]
    with the column defaults. *)
Definition new_wallet (accountId currency : string) : Wallet :=
  WalletBalanceEntity.mk "" accountId currency (num_of_Z 0) false None None 1 0 0 0.

Definition validateCurrency (currency : string) : M World string :=
  let normalizedCurrency := normalizeCurrencyCode currency in
  throw_if (negb (isSupportedCurrency normalizedCurrency))
    (BadRequestException ("Unsupported currency: " +:+ currency)) ;;;
  ret normalizedCurrency.

Definition getBalance (accountId currency : string) : M World WalletBalance.WalletBalance :=
  let* normalizedCurrency := validateCurrency currency in
  let* wallet := findOne (owned_by accountId normalizedCurrency) in
  match wallet with
  | None => ret (WalletBalance.mk None accountId normalizedCurrency (num_of_Z 0) None None None None)
  | Some w => ret (toWalletBalance w)
  end.

(** [Number(new Big(balance).plus(new Big(delta)).toFixed(2))]. *)
Definition newBalance (balance delta : num) : exn + num :=
  match new_Big balance with
  | inl x => inl x
  | inr b =>
      match new_Big delta with
      | inl x => inl x
      | inr d => inr (number_of_string (big_toFixed 2 (big_plus b d)))
      end
  end.

Definition adjustBalance (accountId currency : string) (delta : num) :
    M World WalletBalance.WalletBalance :=
  let* normalizedCurrency := validateCurrency currency in
  if (delta =? num_of_Z 0)%num then getBalance accountId normalizedCurrency
  else
    withTransaction (rollback_table (E:=Wallet))
      (let* found := findOne (owned_by accountId normalizedCurrency) in
       let wallet := default (new_wallet accountId normalizedCurrency) found in
       let* newBal := lift (newBalance wallet.(WalletBalanceEntity.balance) delta) in
       throw_if (newBal <? num_of_Z 0)%num (BadRequestException "Insufficient balance") ;;;
       let* saved := save (wallet <| WalletBalanceEntity.balance := newBal |>) in
       ret (toWalletBalance saved)).

Definition getBalancesForAccount (accountId : string) : M World (list WalletBalance.WalletBalance) :=
  let* wallets := find_all (fun w => String.eqb w.(WalletBalanceEntity.accountId) accountId) in
  ret (map toWalletBalance wallets).

Definition setAutoSweepConfig (userId : string) (threshold : num) (coldStorageAddress : string) :
    M World AutoSweepConfig.AutoSweepConfig :=
  let config := AutoSweepConfig.mk threshold coldStorageAddress in
  modify (fun w => w <| World.autoSweepConfigs := <[userId := config]> w.(World.autoSweepConfigs) |>) ;;;
  ret config.

Definition getAutoSweepConfig (userId : string) : M World (option AutoSweepConfig.AutoSweepConfig) :=
  gets (fun w => w.(World.autoSweepConfigs) !! userId).

(** Read without the stray brace after the [if] block. *)
Definition processAutoSweep (userId currency : string) : M World SweepResult :=
  let* config := getAutoSweepConfig userId in
  match config with
  | None => ret (NotSwept "No auto-sweep config set")
  | Some config =>
      let* wallet := getBalance userId currency in
      if (wallet.(WalletBalance.balance) >? config.(AutoSweepConfig.threshold))%num then
        let sweepAmount :=
          (wallet.(WalletBalance.balance) - config.(AutoSweepConfig.threshold))%num in
        adjustBalance userId currency (- sweepAmount)%num ;;;
        ret (Swept sweepAmount config.(AutoSweepConfig.coldStorageAddress)
               config.(AutoSweepConfig.threshold))
      else ret (NotSwept "Balance below threshold")
  end.

Definition updateCustomization (accountId currency : string) (label color : option string) :
    M World WalletBalance.WalletBalance :=
  let* normalizedCurrency := validateCurrency currency in
  let* wallet := findOne (owned_by accountId normalizedCurrency) in
  match wallet with
  | None => throw (BadRequestException "Wallet not found")
  | Some w =>
      let w := match label with
               | Some l => w <| WalletBalanceEntity.label := Some l |>
               | None => w end in
      let w := match color with
               | Some c => w <| WalletBalanceEntity.color := Some c |>
               | None => w end in
      let* saved := save w in
      ret (toWalletBalance saved)
  end.
End Service.
End WalletsService.

(** ** What the service promises its callers *)

Notation wallets_of := (fun w : World => w.(World.wallet_balances)).

(** The balance a table records for an account in a (normalized) currency. *)
Definition balance_in (t : list WalletBalanceEntity.WalletBalanceEntity)
    (accountId currency : string) : num :=
  match List.find (WalletsService.owned_by accountId currency) t with
  | Some w => w.(WalletBalanceEntity.balance)
  | None => num_of_Z 0
  end.

(** Keys and the unique (account, currency) index hold, currencies are
    supported codes, and no balance is negative (nor NaN). *)
Definition wallet_ok (w : WalletBalanceEntity.WalletBalanceEntity) : Prop :=
  w.(WalletBalanceEntity.id) <> "" /\
  In w.(WalletBalanceEntity.currency) SUPPORTED_CURRENCY_CODES /\
  num_leb (num_of_Z 0) w.(WalletBalanceEntity.balance) = true.

Definition wallets_ok (t : list WalletBalanceEntity.WalletBalanceEntity) : Prop :=
  table_unique t /\ Forall wallet_ok t.

(** The posting of [delta] to one balance: the table with the new balance
    recorded, every other balance as it was. *)
Record posted `{BigJs} (accountId currency : string) (delta : num)
    (t t' : list WalletBalanceEntity.WalletBalanceEntity) : Prop := {
  posted_balance : WalletsService.newBalance (balance_in t accountId currency) delta =
                   inr (balance_in t' accountId currency);
  posted_nonneg : num_ltb (balance_in t' accountId currency) (num_of_Z 0) = false;
  posted_others : forall a c, (a, c) <> (accountId, currency) ->
                  balance_in t' a c = balance_in t a c;
  posted_ok : wallets_ok t'
}.

(** The contract between WalletsService and the services that move money:
    from a well-formed table, [adjustBalance] posts exactly one delta or
    leaves the table alone, and touches nothing else. *)
Class WalletsApi `{BigJs} : Type := {
  adjustBalance : string -> string -> num -> M World WalletBalance.WalletBalance;
  getBalance : string -> string -> M World WalletBalance.WalletBalance;
  adjust_frame : forall a c d,
    keeps (touches_only WalletBalanceEntity.WalletBalanceEntity) (adjustBalance a c d);
  adjust_keeps_ok : forall a c d,
    keeps (invariant (fun w => wallets_ok w.(World.wallet_balances))) (adjustBalance a c d);
  adjust_throws : forall a c d s x s',
    adjustBalance a c d s = (inl x, s') -> env_only s s';
  adjust_posts : forall a c d s b s',
    wallets_ok s.(World.wallet_balances) ->
    adjustBalance a c d s = (inr b, s') ->
    isSupportedCurrency c = true /\
    b.(WalletBalance.balance) =
      balance_in s'.(World.wallet_balances) a (normalizeCurrencyCode c) /\
    (if (d =? num_of_Z 0)%num then env_only s s'
     else posted a (normalizeCurrencyCode c) d s.(World.wallet_balances) s'.(World.wallet_balances));
  getBalance_reads : forall a c s b s',
    getBalance a c s = (inr b, s') ->
    env_only s s' /\ isSupportedCurrency c = true /\
    b.(WalletBalance.balance) =
      balance_in s.(World.wallet_balances) a (normalizeCurrencyCode c);
  getBalance_frame : forall a c, keeps env_only (getBalance a c)
}.

(** ** The tables of wallets *)

Lemma wallet_clash_sym (a b : WalletBalanceEntity.WalletBalanceEntity) : clash a b = clash b a.
Proof. simpl. rewrite (String.eqb_sym (_ a)), (String.eqb_sym (WalletBalanceEntity.currency a)). reflexivity. Qed.

Lemma owned_by_true a c w :
  WalletsService.owned_by a c w = true <->
  w.(WalletBalanceEntity.accountId) = a /\ w.(WalletBalanceEntity.currency) = c.
Proof. unfold WalletsService.owned_by. rewrite andb_true_iff, !String.eqb_eq. reflexivity. Qed.

Lemma owned_by_clash a c w w' :
  WalletsService.owned_by a c w = true -> clash w w' = WalletsService.owned_by a c w'.
Proof.
  rewrite owned_by_true. intros [<- <-]. simpl. unfold WalletsService.owned_by.
  rewrite (String.eqb_sym (WalletBalanceEntity.accountId w')), (String.eqb_sym (WalletBalanceEntity.currency w')).
  reflexivity.
Qed.

(** The find of the queries: wallets are never soft-deleted. *)
Lemma find_wallet p t :
  List.find (fun w : WalletBalanceEntity.WalletBalanceEntity => live w && p w) t = List.find p t.
Proof. apply find_ext_in. reflexivity. Qed.

(** What [save] stores for a wallet whose balance was set. *)
Record same_wallet (w r : WalletBalanceEntity.WalletBalanceEntity) : Prop := {
  sw_account : r.(WalletBalanceEntity.accountId) = w.(WalletBalanceEntity.accountId);
  sw_currency : r.(WalletBalanceEntity.currency) = w.(WalletBalanceEntity.currency);
  sw_balance : r.(WalletBalanceEntity.balance) = w.(WalletBalanceEntity.balance)
}.

Lemma saved_same_wallet w r : saved_as w r -> same_wallet w r.
Proof. intros []; split; reflexivity. Qed.

Lemma wallets_ok_upsert t r :
  wallets_ok t -> violates r t = false -> wallet_ok r -> wallets_ok (upsert r t).
Proof.
  intros [Hu Hf] Hv Hr. split.
  - apply table_unique_upsert; auto using wallet_clash_sym.
  - apply Forall_upsert; auto.
Qed.

(** Saving the row of one (account, currency) pair changes that balance and
    no other. *)
Lemma balance_in_upsert t r a c :
  wallets_ok t -> violates r t = false ->
  (forall x, In x t -> row_id x = row_id r -> same_wallet x (r <| WalletBalanceEntity.balance := x.(WalletBalanceEntity.balance) |>)) ->
  balance_in (upsert r t) a c =
  if WalletsService.owned_by a c r then r.(WalletBalanceEntity.balance) else balance_in t a c.
Proof.
  intros [[Hnd Hcl] _] Hv Hid. unfold balance_in.
  destruct (WalletsService.owned_by a c r) eqn:Ho.
  - rewrite (find_upsert_id r); auto. intros x Hx Hox.
    destruct (String.eqb_spec (row_id x) (row_id r)) as [|Hne]; [assumption|].
    pose proof (violates_false _ _ _ Hv Hx Hne) as Hc.
    rewrite (owned_by_clash a c r x Ho) in Hc. congruence.
  - rewrite find_upsert_other; auto. intros x Hx Hxr.
    destruct (Hid x Hx Hxr) as [Ha Hcu _]. simpl in Ha, Hcu.
    unfold WalletsService.owned_by in *. congruence.
Qed.

Section Contract.
Context `{BL : BigJsLaws}.

Lemma wp_validateCurrency c Q X (s : World) :
  (isSupportedCurrency c = false -> X (BadRequestException ("Unsupported currency: " +:+ c)) s) ->
  (isSupportedCurrency c = true -> Q (normalizeCurrencyCode c) s) ->
  wp (WalletsService.validateCurrency c) Q X s.
Proof.
  intros HX HQ. unfold WalletsService.validateCurrency.
  assert (Hn : isSupportedCurrency (normalizeCurrencyCode c) = isSupportedCurrency c)
    by (unfold isSupportedCurrency; rewrite normalizeCurrencyCode_idem; reflexivity).
  rewrite Hn. wp_step. wp_step.
  - apply HX. destruct (isSupportedCurrency c); [discriminate | reflexivity].
  - wp_step. apply HQ. destruct (isSupportedCurrency c); [reflexivity | discriminate].
Qed.

Lemma supported_normalized c :
  isSupportedCurrency c = true -> In (normalizeCurrencyCode c) SUPPORTED_CURRENCY_CODES.
Proof.
  intros Hc. apply isSupported_normalized. unfold isSupportedCurrency in *.
  rewrite normalizeCurrencyCode_idem. exact Hc.
Qed.

(** [getBalance] reads, and fails only by the environment or the currency. *)
Lemma getBalance_spec a c (s : World) :
  wp (WalletsService.getBalance a c)
     (fun b s' => env_only s s' /\ isSupportedCurrency c = true /\
        b.(WalletBalance.balance) = balance_in s.(World.wallet_balances) a (normalizeCurrencyCode c))
     (fun x s' => env_only s s' /\ (env_fault (env_of s) x \/ isSupportedCurrency c = false)) s.
Proof.
  unfold WalletsService.getBalance.
  apply wp_bind, wp_validateCurrency; [intros Hc; split; [reflexivity | auto]|].
  intros Hc. wp_step. wp_step; [auto with env|]. rewrite find_wallet.
  unfold balance_in. simpl rows.
  destruct (List.find _ _); wp_step;
    (split; [auto with env | split; [exact Hc | reflexivity]]).
Qed.

(** The new balance is a number that is not NaN. *)
Lemma newBalance_not_nan b d nb : WalletsService.newBalance b d = inr nb -> is_nan nb = false.
Proof.
  unfold WalletsService.newBalance. destruct (new_Big b); [discriminate|].
  destruct (new_Big d); [discriminate|]. intros [= <-].
  destruct (big_toFixed_rounds 2 (big_plus b0 b1)) as [->|[_ ->]];
    [apply number_of_fixed_not_nan | reflexivity].
Qed.

(** What a run of [adjustBalance] that returns has done, and that one that
    throws has done nothing. *)
Definition adjusted (a c : string) (d : num) (s : World) (b : WalletBalance.WalletBalance) (s' : World) : Prop :=
  isSupportedCurrency c = true /\
  exists e, env_step (env_of s) e /\
  if (d =? num_of_Z 0)%num
  then s' = set_env e s /\
       b.(WalletBalance.balance) = balance_in s.(World.wallet_balances) a (normalizeCurrencyCode c)
  else exists nb r,
    let w := default (WalletsService.new_wallet a (normalizeCurrencyCode c))
               (List.find (WalletsService.owned_by a (normalizeCurrencyCode c)) s.(World.wallet_balances)) in
    WalletsService.newBalance w.(WalletBalanceEntity.balance) d = inr nb /\
    num_ltb nb (num_of_Z 0) = false /\
    saved_as (w <| WalletBalanceEntity.balance := nb |>) r /\
    violates r s.(World.wallet_balances) = false /\
    (existsb (same_row w) s.(World.wallet_balances) = true -> row_id r = row_id w) /\
    (existsb (same_row w) s.(World.wallet_balances) = false ->
     row_id r <> "" /\ existsb (same_row r) s.(World.wallet_balances) = false) /\
    b = WalletsService.toWalletBalance r /\
    s' = set_rows (upsert r s.(World.wallet_balances)) (set_env e s).

(** Why it can throw. *)
Inductive adjust_failure (a c : string) (d : num) (s : World) : exn -> Prop :=
  | af_fault x : env_fault (env_of s) x -> adjust_failure a c d s x
  | af_currency :
      isSupportedCurrency c = false ->
      adjust_failure a c d s (BadRequestException ("Unsupported currency: " +:+ c))
  | af_invalid x :
      WalletsService.newBalance (balance_in s.(World.wallet_balances) a (normalizeCurrencyCode c)) d = inl x ->
      adjust_failure a c d s x
  | af_insufficient nb :
      WalletsService.newBalance (balance_in s.(World.wallet_balances) a (normalizeCurrencyCode c)) d = inr nb ->
      num_ltb nb (num_of_Z 0) = true ->
      adjust_failure a c d s (BadRequestException "Insufficient balance")
  | af_save nb x :
      isSupportedCurrency c = true ->
      save_failure ((default (WalletsService.new_wallet a (normalizeCurrencyCode c))
        (List.find (WalletsService.owned_by a (normalizeCurrencyCode c)) s.(World.wallet_balances)))
        <| WalletBalanceEntity.balance := nb |>) s x ->
      adjust_failure a c d s x.

Lemma start_balance t a c :
  (default (WalletsService.new_wallet a c) (List.find (WalletsService.owned_by a c) t)).(WalletBalanceEntity.balance)
  = balance_in t a c.
Proof. unfold balance_in. destruct (List.find _ t); reflexivity. Qed.

Lemma adjustBalance_spec a c d (s : World) :
  wp (WalletsService.adjustBalance a c d) (adjusted a c d s)
     (fun x s' => env_only s s' /\ adjust_failure a c d s x) s.
Proof.
  unfold WalletsService.adjustBalance.
  apply wp_bind, wp_validateCurrency; [split; [reflexivity | apply af_currency; assumption]|].
  intros Hc. unfold adjusted. destruct (d =? num_of_Z 0)%num.
  { eapply wp_mono; [apply getBalance_spec | |].
    - intros b s' ((e & He & ->) & _ & Hb). rewrite normalizeCurrencyCode_idem in Hb.
      split; [exact Hc|]. exists e. auto.
    - intros x s' [He [Hf|Hn]]; (split; [exact He|]); [apply af_fault, Hf|].
      unfold isSupportedCurrency in Hn, Hc. rewrite normalizeCurrencyCode_idem in Hn. congruence. }
  apply wp_withTransaction; [intros; split; auto using af_fault with env|].
  intros e0 He0.
  pose proof (fun e t => rollback_write (E:=WalletBalanceEntity.WalletBalanceEntity) (set_env e0 s) s e t eq_refl) as Hrb.
  pose proof (fun e => rollback_nothing (E:=WalletBalanceEntity.WalletBalanceEntity) (set_env e0 s) s e eq_refl) as Hrb'.
  (* every exception leaves [s] with a later environment *)
  assert (Hend : forall e e' x x', env_step (env_of s) e -> env_step e e' ->
            adjust_failure a c d s x -> x' = x \/ env_fault e x' ->
            env_only s (set_env e' s) /\ adjust_failure a c d s x').
  { intros e e' x x' He He' Hx [->|Hf].
    - split; [exists e'; split; [etransitivity; eassumption | reflexivity] | exact Hx].
    - split; [exists e'; split; [etransitivity; eassumption | reflexivity]|].
      apply af_fault. eauto with env. }
  assert (Hs0 : forall e, env_step e0 e -> env_step (env_of s) e) by (intros; etransitivity; eassumption).
  wp_step. apply wp_findOne; env_norm.
  { intros e1 x He1 Hf e2 x' Hor He2. env_norm. rewrite Hrb' in *. env_norm.
    apply (Hend e1 e2 x x'); auto. apply af_fault. eauto with env. }
  intros e1 He1. rewrite find_wallet. simpl rows. pose proof (start_balance s.(World.wallet_balances) a (normalizeCurrencyCode c)) as Hbal.
  set (w := default _ _) in *. env_norm.
  wp_step. apply wp_lift.
  { intros x Hx e2 x' Hor He2. rewrite Hrb' in *. env_norm.
    apply (Hend e1 e2 x x'); auto. apply af_invalid. rewrite <- Hbal. exact Hx. }
  intros nb Hnb. wp_step. wp_step.
  { intros e2 x' Hor He2. rewrite Hrb' in *. env_norm.
    eapply (Hend e1 e2 _ x'); [auto | exact He2 | | exact Hor].
    eapply af_insufficient; [rewrite <- Hbal; exact Hnb | assumption]. }
  wp_step. apply wp_save; env_norm.
  { intros e2 x He2 Hsf e3 x' Hor He3. env_norm. rewrite Hrb' in *. env_norm.
    apply (Hend e2 e3 x x'); auto; [apply Hs0; etransitivity; eassumption|].
    apply (af_save _ _ _ _ nb); [exact Hc|]. destruct Hsf as [Hf|Hu]; [left; env_norm; eauto with env | right; exact Hu]. }
  intros e2 r He2 Hr Hv Htouch Hnew. wp_step. cbn [rows wallet_balances_table] in *.
  assert (Hsame : existsb (same_row w) (World.wallet_balances s) = true -> row_id r = row_id w)
    by (intros Hex; destruct (Htouch Hex) as [u ->]; reflexivity).
  assert (He : env_step (env_of s) e2) by (apply Hs0; etransitivity; eassumption).
  split.
  - intros e3 He3. env_norm. split; [exact Hc|]. exists e3.
    split; [etransitivity; eassumption|].
    exists nb, r. cbv zeta. fold w. auto 10.
  - intros e3 e4 x He3 Hor He4. env_norm. rewrite <- set_rows_set_env in *. env_norm.
    rewrite Hrb in *. env_norm.
    apply (Hend e3 e4 x x); auto; [etransitivity; eassumption|].
    apply af_fault. destruct Hor; eauto with env.
Qed.

(** The row [adjustBalance] starts from: the account's, or a new one. *)
Lemma start_row t a c :
  wallets_ok t -> In c SUPPORTED_CURRENCY_CODES ->
  let w := default (WalletsService.new_wallet a c) (List.find (WalletsService.owned_by a c) t) in
  WalletsService.owned_by a c w = true /\
  w.(WalletBalanceEntity.balance) = balance_in t a c /\
  (if existsb (same_row w) t then In w t /\ row_id w <> "" else row_id w = "").
Proof.
  intros [_ Hok] Hc w. unfold balance_in. subst w.
  rewrite List.Forall_forall in Hok.
  destruct (List.find _ t) as [w|] eqn:Hf; simpl.
  - apply List.find_some in Hf as [Hin Ho]. destruct (Hok w Hin) as (Hid & _ & _).
    rewrite (proj2 (existsb_exists (same_row w) t)); [auto|]. exists w. auto using same_row_refl.
  - split; [apply owned_by_true; split; reflexivity|]. split; [reflexivity|].
    destruct (existsb _ t) eqn:Hex; [|reflexivity].
    apply existsb_exists in Hex as (x & Hx & Hs). apply same_row_true in Hs. simpl in Hs.
    destruct (Hok x Hx) as (Hid & _ & _). congruence.
Qed.

Lemma adjusted_posted a c d s b s' :
  wallets_ok s.(World.wallet_balances) -> (d =? num_of_Z 0)%num = false -> adjusted a c d s b s' ->
  b.(WalletBalance.balance) = balance_in s'.(World.wallet_balances) a (normalizeCurrencyCode c) /\
  posted a (normalizeCurrencyCode c) d s.(World.wallet_balances) s'.(World.wallet_balances).
Proof.
  intros Hok Hd (Hc & e & _ & Hadj). rewrite Hd in Hadj.
  set (nc := normalizeCurrencyCode c) in *. assert (Hnc : In nc SUPPORTED_CURRENCY_CODES)
    by (apply supported_normalized, Hc).
  destruct Hadj as (nb & r & Hnb & Hneg & Hr & Hv & Hsame & Hnew & -> & ->).
  pose proof (start_row _ a nc Hok Hnc) as Hstart. cbv zeta in Hstart.
  set (w := default _ _) in *. destruct Hstart as (Ho & Hbal & Hrow).
  destruct (saved_same_wallet _ _ Hr) as [Ha Hcur Hrb]. simpl in Ha, Hcur, Hrb.
  apply owned_by_true in Ho as [Hwa Hwc].
  assert (Hor : WalletsService.owned_by a nc r = true) by (apply owned_by_true; split; congruence).
  assert (Hid : row_id r <> "" /\ forall x, In x s.(World.wallet_balances) -> row_id x = row_id r ->
                  WalletsService.owned_by a nc x = true).
  { destruct (existsb (same_row w) _) eqn:Hex.
    - destruct Hrow as [Hin Hne]. rewrite (Hsame eq_refl). split; [exact Hne|].
      intros x Hx Hxw. destruct Hok as [[Hnd _] _].
      rewrite (NoDup_row_id_inj _ x w Hnd Hx Hin Hxw). apply owned_by_true. auto.
    - destruct (Hnew eq_refl) as [Hne Hnone]. split; [exact Hne|].
      intros x Hx Hxr. exfalso. rewrite <- not_true_iff_false in Hnone. apply Hnone.
      apply existsb_exists. exists x. split; [exact Hx | apply same_row_true; auto]. }
  destruct Hid as [Hne Hid].
  assert (Hokr : wallet_ok r).
  { split; [exact Hne|]. split; [congruence|]. rewrite Hrb.
    apply num_ltb_false_leb; [eapply newBalance_not_nan; exact Hnb | reflexivity | exact Hneg]. }
  assert (Hbi : forall a' c', balance_in (upsert r s.(World.wallet_balances)) a' c' =
      if WalletsService.owned_by a' c' r then nb else balance_in s.(World.wallet_balances) a' c').
  { intros a' c'. rewrite balance_in_upsert; auto; [rewrite Hrb; reflexivity|].
    intros x Hx Hxr. apply Hid, owned_by_true in Hx as [? ?]; [|exact Hxr].
    split; simpl; congruence. }
  change (World.wallet_balances (set_rows ?t (set_env e s))) with t.
  rewrite (Hbi a nc), Hor. split; [simpl; exact Hrb|]. split.
  - rewrite (Hbi a nc), Hor, <- Hbal. exact Hnb.
  - rewrite (Hbi a nc), Hor. exact Hneg.
  - intros a' c' Hac. rewrite Hbi. destruct (WalletsService.owned_by a' c' r) eqn:Ho; [|reflexivity].
    apply owned_by_true in Ho as [? ?]. exfalso. apply Hac. congruence.
  - apply wallets_ok_upsert; auto.
Qed.


(** ** The service keeps its contract *)

Definition wallets_inv (w : World) : Prop := wallets_ok w.(World.wallet_balances).

Lemma env_only_keeps_wallets s s' :
  env_only s s' -> s'.(World.wallet_balances) = s.(World.wallet_balances).
Proof. intros (e & _ & ->). reflexivity. Qed.

Lemma adjustBalance_cases a c d s :
  match WalletsService.adjustBalance a c d s with
  | (inr b, s') => adjusted a c d s b s'
  | (inl x, s') => env_only s s' /\ adjust_failure a c d s x
  end.
Proof.
  pose proof (adjustBalance_spec a c d s) as H. unfold wp in H.
  destruct (WalletsService.adjustBalance a c d s) as [[]]; exact H.
Qed.

Lemma adjusted_touches a c d s b s' :
  adjusted a c d s b s' -> touches_only WalletBalanceEntity.WalletBalanceEntity s s'.
Proof.
  intros (_ & e & He & H). destruct (d =? num_of_Z 0)%num.
  - destruct H as [-> _]. apply touches_only_env_only. exists e. auto.
  - destruct H as (nb & r & _ & _ & _ & _ & _ & _ & _ & ->). eexists _, _. split; [exact He | reflexivity].
Qed.

#[export] Program Instance WalletsService_api : WalletsApi := {|
  adjustBalance := WalletsService.adjustBalance;
  getBalance := WalletsService.getBalance
|}.
Next Obligation.
  intros a c d s. pose proof (adjustBalance_cases a c d s) as H.
  destruct (WalletsService.adjustBalance a c d s) as [[x|b] s']; simpl.
  - apply touches_only_env_only, (proj1 H).
  - eapply adjusted_touches, H.
Qed.
Next Obligation.
  intros a c d s Hok. pose proof (adjustBalance_cases a c d s) as H.
  destruct (WalletsService.adjustBalance a c d s) as [[x|b] s']; simpl.
  - rewrite (env_only_keeps_wallets _ _ (proj1 H)). exact Hok.
  - destruct (d =? num_of_Z 0)%num eqn:Hd.
    + destruct H as (_ & e & _ & H). rewrite Hd in H. destruct H as [-> _]. exact Hok.
    + apply (posted_ok _ _ _ _ _ (proj2 (adjusted_posted _ _ _ _ _ _ Hok Hd H))).
Qed.
Next Obligation.
  intros a c d s x s' H. pose proof (adjustBalance_cases a c d s) as Hc. rewrite H in Hc. exact (proj1 Hc).
Qed.
Next Obligation.
  intros a c d s b s' Hok H. pose proof (adjustBalance_cases a c d s) as Hc. rewrite H in Hc.
  split; [exact (proj1 Hc)|]. destruct (d =? num_of_Z 0)%num eqn:Hd.
  - destruct Hc as (_ & e & He & Hc). rewrite Hd in Hc. destruct Hc as [-> Hb].
    split; [exact Hb | exists e; auto].
  - apply adjusted_posted; auto.
Qed.
Next Obligation.
  intros a c s b s' H. exact (wp_run_ok _ _ _ _ _ _ (getBalance_spec a c s) H).
Qed.
Next Obligation.
  intros a c. apply keeps_wp. intros s.
  eapply wp_mono; [apply getBalance_spec | simpl; tauto | simpl; tauto].
Qed.

Lemma updateCustomization_keeps_ok a c l k :
  keeps (invariant wallets_inv) (WalletsService.updateCustomization a c l k).
Proof.
  apply keeps_wp. intros s. unfold invariant, wallets_inv, WalletsService.updateCustomization.
  apply wp_bind, wp_validateCurrency; [auto|]. intros Hc. wp_step. wp_step; [auto|].
  rewrite find_wallet. simpl rows. destruct (List.find _ _) as [w|] eqn:Hf; [|wp_step; auto].
  apply List.find_some in Hf as [Hin _]. cbv zeta.
  set (w' := match k with Some _ => _ | None => _ end).
  assert (Hw : same_wallet w w' /\ row_id w' = row_id w)
    by (subst w'; destruct l, k; repeat split).
  clearbody w'. destruct Hw as [[Ha Hcur Hbal] Hid]. wp_step. apply wp_save; [auto|].
  intros e r _ Hr Hv Hsame _. wp_step. intros Hok.
  change (World.wallet_balances (set_rows ?t (set_env e (set_env e' s)))) with t.
  apply wallets_ok_upsert; [exact Hok | exact Hv |].
  destruct Hok as [_ Hf]. rewrite List.Forall_forall in Hf. destruct (Hf w Hin) as (H1 & H2 & H3).
  destruct (saved_same_wallet _ _ Hr) as [? ? Hb]. split; [|split; congruence].
  change (row_id r <> ""). destruct Hsame as [u ->]; [|rewrite row_id_touched, Hid; exact H1].
  apply existsb_exists. exists w. split; [exact Hin|]. apply same_row_true. exact Hid.
Qed.

Lemma processAutoSweep_keeps_ok u c :
  keeps (invariant wallets_inv) (WalletsService.processAutoSweep u c).
Proof.
  unfold WalletsService.processAutoSweep. keeps_auto.
  - apply keeps_wp. intros s0. eapply wp_mono; [apply getBalance_spec | |];
      [intros ? s1 [H _] | intros ? s1 [H _]]; unfold invariant, wallets_inv;
      rewrite (env_only_keeps_wallets _ _ H); auto.
  - apply (adjust_keeps_ok (WalletsApi:=WalletsService_api)).
Qed.
End Contract.

(** ** Interleavings

    Any number of requests, each ending well or badly, in any order (the row
    lock of [adjustBalance] makes its transaction one step), together with
    steps of other services that leave the wallet table alone. *)
Inductive wallet_step `{BigJs} : World -> World -> Prop :=
  | step_adjust a c d s : wallet_step s (WalletsService.adjustBalance a c d s).2
  | step_sweep u c s : wallet_step s (WalletsService.processAutoSweep u c s).2
  | step_customize a c l k s : wallet_step s (WalletsService.updateCustomization a c l k s).2
  | step_other s s' : s'.(World.wallet_balances) = s.(World.wallet_balances) -> wallet_step s s'.

(** ** The abstract ledger *)

(** Whole cents per account and currency; a posting that would go below zero
    is refused. *)
Notation Ledger := (gmap (string * string) Z).

Definition ledger_balance (L : Ledger) (a c : string) : Z := default 0 (L !! (a, c)).

Definition ledger_post (L : Ledger) (a c : string) (d : Z) : option Ledger :=
  if ledger_balance L a c + d <? 0 then None
  else Some (<[(a, c) := ledger_balance L a c + d]> L).

(** [n] is a number that prints as [z / 100]. *)
Definition cents (n : num) (z : Z) : Prop :=
  is_finite n = true /\ (decimal_q n == z # 100)%Q.

(** [z] cents survive printing and reading as a double (all amounts of up to
    15 significant digits do). *)
Definition representable (z : Z) : Prop := cents (number_of_string (fixed_string 2 z)) z.

Definition represents (t : list WalletBalanceEntity.WalletBalanceEntity) (L : Ledger) : Prop :=
  forall a c, cents (balance_in t a c) (ledger_balance L a c).

(** *** Facts on the ledger and on cents *)

Lemma ledger_post_balance L a c d L' a' c' :
  ledger_post L a c d = Some L' ->
  ledger_balance L' a' c' = ledger_balance L a' c' + if decide ((a', c') = (a, c)) then d else 0.
Proof.
  unfold ledger_post. destruct (_ <? 0); [discriminate|]. intros [= <-]. unfold ledger_balance at 1.
  destruct (decide _) as [[= -> ->]|Hne].
  - rewrite lookup_insert_eq. reflexivity.
  - rewrite lookup_insert_ne by congruence. unfold ledger_balance. lia.
Qed.

Lemma represents_ext t L L' :
  (forall a c, ledger_balance L' a c = ledger_balance L a c) -> represents t L -> represents t L'.
Proof. intros Heq Hrep a c. rewrite Heq. apply Hrep. Qed.

Lemma decimal_q_zero b : (decimal_q (S754_zero b) == 0)%Q.
Proof. reflexivity. Qed.

Lemma cents_zero : cents (num_of_Z 0) 0.
Proof. split; reflexivity. Qed.

Lemma shortest_decimal_opp x :
  shortest_decimal (num_opp x) = let '(s, e) := shortest_decimal x in (- s, e).
Proof.
  unfold shortest_decimal. destruct x as [[]|[]| |b m e]; try reflexivity.
  assert (Hf : exists a d, num_fraction (S754_finite b m e) = Some (a, d) /\
            num_fraction (num_opp (S754_finite b m e)) = Some (- a, d) /\ a <> 0).
  { destruct b, e as [|p|p]; simpl; eexists _, _; (split; [reflexivity|]); (split; [f_equal; f_equal; lia|]); try lia;
      apply Z.neq_mul_0; split; try lia; apply Z.pow_nonzero; lia. }
  destruct Hf as (a & d & -> & -> & Ha). rewrite Z.abs_opp.
  change (num_abs (num_opp (S754_finite b m e))) with (num_abs (S754_finite b m e)).
  destruct (shortest_from _ _ _ _ _ _) as [s k].
  destruct (Z.eqb_spec (- a) 0), (Z.eqb_spec a 0); try lia.
  destruct (Z.ltb_spec (- a) 0), (Z.ltb_spec a 0); try lia; f_equal; lia.
Qed.

Lemma cents_opp n z : cents n z -> cents (num_opp n) (- z).
Proof.
  intros [Hf Hq]. split; [destruct n; auto|]. unfold decimal_q, decimal_value in *.
  rewrite shortest_decimal_opp. destruct (shortest_decimal n) as [s e].
  destruct (0 <=? e); unfold Qeq in *; simpl in *; lia.
Qed.

(** The printed sign of a representable amount is its sign. *)
Lemma representable_sign z :
  representable z -> num_ltb (number_of_string (fixed_string 2 z)) (num_of_Z 0) = (z <? 0).
Proof.
  intros [Hfin Hq]. pose proof (number_of_fixed_signed 2 z) as Hs.
  destruct (number_of_string (fixed_string 2 z)) as [b|b| |b m e]; simpl in *; try discriminate.
  - rewrite decimal_q_zero in Hq. unfold Qeq in Hq. simpl in Hq.
    destruct (Z.ltb_spec z 0); [lia | reflexivity].
  - subst b. destruct (z <? 0); reflexivity.
Qed.

Section Refinement.
Context `{BL : BigJsLaws}.

Lemma newBalance_cents b d zb zd :
  cents b zb -> cents d zd -> representable (zb + zd) ->
  exists nb, WalletsService.newBalance b d = inr nb /\ cents nb (zb + zd) /\
             num_ltb nb (num_of_Z 0) = (zb + zd <? 0).
Proof.
  intros [Hb Hqb] [Hd Hqd] Hr. unfold WalletsService.newBalance.
  destruct (new_Big_finite b Hb) as (B1 & -> & H1), (new_Big_finite d Hd) as (B2 & -> & H2).
  assert (Hround : round_q 2 (big_q (big_plus B1 B2)) = zb + zd).
  { apply round_q_exact. rewrite big_plus_exact, H1, H2, Hqb, Hqd. unfold Qeq. simpl. lia. }
  eexists. split; [reflexivity|].
  destruct (big_toFixed_rounds 2 (big_plus B1 B2)) as [->|[Hz ->]]; rewrite Hround in *.
  - split; [exact Hr | apply representable_sign, Hr].
  - rewrite Hz in *. split; [split; reflexivity | reflexivity].
Qed.

Lemma represents_post t t' L a c d z :
  represents t L -> cents d z -> representable (ledger_balance L a c + z) ->
  posted a c d t t' ->
  exists L', ledger_post L a c z = Some L' /\ represents t' L'.
Proof.
  intros Hrep Hd Hr [Hbal Hneg Hoth _].
  destruct (newBalance_cents _ _ _ _ (Hrep a c) Hd Hr) as (nb & Hnb & Hc & Hs).
  rewrite Hbal in Hnb. injection Hnb as Hnb. rewrite <- Hnb in *. rewrite Hs in Hneg.
  unfold ledger_post. rewrite Hneg. eexists. split; [reflexivity|].
  intros a' c'. erewrite ledger_post_balance by (unfold ledger_post; rewrite Hneg; reflexivity).
  destruct (decide ((a', c') = (a, c))) as [[= -> ->]|Hne]; [exact Hc|].
  rewrite Z.add_0_r, Hoth by exact Hne. apply Hrep.
Qed.
End Refinement.

(** ** Theorems *)

Section Theorems.
Context `{BL : BigJsLaws}.

(** In a well-formed table the only unique violation is a generated key that
    is taken already. *)
Lemma save_failure_ok t a c nb s x :
  wallets_ok s.(World.wallet_balances) -> t = s.(World.wallet_balances) ->
  In c SUPPORTED_CURRENCY_CODES ->
  save_failure ((default (WalletsService.new_wallet a c) (List.find (WalletsService.owned_by a c) t))
                <| WalletBalanceEntity.balance := nb |>) s x ->
  env_fault (env_of s) x \/
  (x = unique_violation /\ List.find (WalletsService.owned_by a c) t = None).
Proof.
  intros Hok -> Hc [Hf|[-> (r & Hr & Hcase)]]; [left; exact Hf|]. right. split; [reflexivity|].
  pose proof (start_row _ a c Hok Hc) as Hstart. cbv zeta in Hstart.
  destruct (List.find _ _) as [w|] eqn:Hfind; [|reflexivity]. exfalso. simpl in *.
  destruct Hstart as (Ho & _ & Hrow).
  destruct (existsb (same_row w) _) eqn:Hex.
  - assert (Hex' : existsb (same_row (w <| WalletBalanceEntity.balance := nb |>)) (World.wallet_balances s) = true)
      by exact Hex.
    simpl in Hex'. rewrite Hex' in Hcase. destruct Hcase as [Hid Hv].
    apply existsb_exists in Hv as (x & Hx & Hcl). apply andb_prop in Hcl as [Hne Hcl].
    destruct Hrow as [Hin Hidw]. destruct (saved_same_wallet _ _ Hr) as [Ha Hcu _]. simpl in Ha, Hcu.
    apply negb_true_iff, same_row_false in Hne. destruct Hok as [[_ Huniq] _].
    assert (Hwx : clash w x = false) by (apply Huniq; auto; simpl in *; congruence).
    change (clash r x) with (String.eqb (WalletBalanceEntity.accountId r) (WalletBalanceEntity.accountId x) &&
      String.eqb (WalletBalanceEntity.currency r) (WalletBalanceEntity.currency x)) in Hcl.
    rewrite Ha, Hcu in Hcl. simpl in Hwx. congruence.
  - apply List.find_some in Hfind as [Hin _]. rewrite <- not_true_iff_false in Hex. apply Hex.
    apply existsb_exists. exists w. auto using same_row_refl.
Qed.

(** C6 Whatever requests reach WalletsService, in whatever order and however
    each of them ends, its table stays well-formed: one row per key and per
    (account, currency), supported currencies only, and no negative balance. *)
Theorem wallets_stay_well_formed s s' :
  rtc wallet_step s s' -> wallets_ok s.(World.wallet_balances) -> wallets_ok s'.(World.wallet_balances).
Proof.
  induction 1 as [s|s1 s2 s3 Hstep _ IH]; [auto|]. intros Hok. apply IH. clear IH.
  destruct Hstep as [a c d s | u c s | a c l k s | s s' Heq].
  - exact (adjust_keeps_ok a c d s Hok).
  - exact (processAutoSweep_keeps_ok u c s Hok).
  - exact (updateCustomization_keeps_ok a c l k s Hok).
  - rewrite Heq. exact Hok.
Qed.

(** An [adjustBalance] that throws has changed nothing but the environment,
    and throws for one of the reasons the code has: a failed call, an
    unsupported currency, a delta or balance Big.js rejects, an insufficient
    balance, or, when the account has no row yet, a key that is taken. *)
Theorem adjustBalance_error a c d s x s' :
  wallets_ok s.(World.wallet_balances) ->
  WalletsService.adjustBalance a c d s = (inl x, s') ->
  env_only s s' /\
  (env_fault (World.env s) x \/
   (isSupportedCurrency c = false /\ x = BadRequestException ("Unsupported currency: " +:+ c)) \/
   WalletsService.newBalance (balance_in s.(World.wallet_balances) a (normalizeCurrencyCode c)) d = inl x \/
   (exists nb, WalletsService.newBalance (balance_in s.(World.wallet_balances) a (normalizeCurrencyCode c)) d = inr nb /\
      num_ltb nb (num_of_Z 0) = true /\ x = BadRequestException "Insufficient balance") \/
   (x = unique_violation /\
    List.find (WalletsService.owned_by a (normalizeCurrencyCode c)) s.(World.wallet_balances) = None)).
Proof.
  intros Hok Hrun. pose proof (adjustBalance_cases a c d s) as H. rewrite Hrun in H.
  destruct H as [He Hf]. split; [exact He|].
  destruct Hf as [x Hf | Hc | x Hnb | nb Hnb Hlt | nb x Hc Hsf]; [auto | auto | auto | eauto 10 |].
  destruct (save_failure_ok _ _ _ _ _ _ Hok eq_refl (supported_normalized c Hc) Hsf) as [|[]]; auto 10.
Qed.

(** An [adjustBalance] that returns has posted its delta: the balance it
    returns is the one the table now holds for the account and the normalized
    currency, it is the old balance plus the delta rounded to two decimals, it
    is not negative, every other balance is what it was, and nothing outside
    the wallet table changed. *)
Theorem adjustBalance_posts a c d s b s' :
  wallets_ok s.(World.wallet_balances) -> (d =? num_of_Z 0)%num = false ->
  WalletsService.adjustBalance a c d s = (inr b, s') ->
  isSupportedCurrency c = true /\
  b.(WalletBalance.balance) = balance_in s'.(World.wallet_balances) a (normalizeCurrencyCode c) /\
  posted a (normalizeCurrencyCode c) d s.(World.wallet_balances) s'.(World.wallet_balances) /\
  touches_only WalletBalanceEntity.WalletBalanceEntity s s'.
Proof.
  intros Hok Hd Hrun. pose proof (adjustBalance_cases a c d s) as H. rewrite Hrun in H.
  destruct (adjusted_posted _ _ _ _ _ _ Hok Hd H). split; [exact (proj1 H)|].
  eauto using adjusted_touches.
Qed.

(** C4 In whole cents WalletsService is the abstract ledger: a call that
    returns makes the ledger's posting; a call that throws leaves the ledger as
    it was, because the ledger refuses the posting, because a call to the
    database failed, or because the key generated for the account's first row
    is taken. *)
Theorem adjustBalance_refines_ledger a c d z s L :
  wallets_ok s.(World.wallet_balances) -> represents s.(World.wallet_balances) L ->
  isSupportedCurrency c = true -> (d =? num_of_Z 0)%num = false -> cents d z ->
  representable (ledger_balance L a (normalizeCurrencyCode c) + z) ->
  match WalletsService.adjustBalance a c d s with
  | (inr _, s') =>
      exists L', ledger_post L a (normalizeCurrencyCode c) z = Some L' /\
                 represents s'.(World.wallet_balances) L'
  | (inl x, s') =>
      represents s'.(World.wallet_balances) L /\
      (ledger_post L a (normalizeCurrencyCode c) z = None \/ env_fault (World.env s) x \/
       (x = unique_violation /\
        List.find (WalletsService.owned_by a (normalizeCurrencyCode c)) s.(World.wallet_balances) = None))
  end.
Proof.
  intros Hok Hrep Hc Hd Hz Hr. pose proof (adjustBalance_cases a c d s) as H.
  destruct (WalletsService.adjustBalance a c d s) as [[x|b] s'].
  - destruct H as [He Hf]. rewrite (env_only_keeps_wallets _ _ He). split; [exact Hrep|].
    destruct (newBalance_cents _ _ _ _ (Hrep a (normalizeCurrencyCode c)) Hz Hr) as (nb' & Hnb' & _ & Hs).
    destruct Hf as [x Hf | Hc' | x Hnb | nb Hnb Hlt | nb x _ Hsf]; [auto | congruence | congruence | |].
    + left. unfold ledger_post. rewrite Hnb in Hnb'. injection Hnb' as ->. rewrite <- Hs, Hlt. reflexivity.
    + destruct (save_failure_ok _ _ _ _ _ _ Hok eq_refl (supported_normalized c Hc) Hsf) as [|[]]; auto.
  - destruct (adjusted_posted _ _ _ _ _ _ Hok Hd H) as [_ Hp].
    eapply represents_post; eassumption.
Qed.

(** What was posted is what is read back, whatever the spelling of the
    currency: after [adjustBalance] returned, [getBalance] with any code that
    normalizes to the same one answers the balance [adjustBalance] returned. *)
Theorem getBalance_after_adjustBalance a c c' d s b s1 b' s2 :
  wallets_ok s.(World.wallet_balances) -> normalizeCurrencyCode c' = normalizeCurrencyCode c ->
  WalletsService.adjustBalance a c d s = (inr b, s1) ->
  WalletsService.getBalance a c' s1 = (inr b', s2) ->
  b'.(WalletBalance.balance) = b.(WalletBalance.balance).
Proof.
  intros Hok Hn Hadj Hget.
  destruct (adjust_posts (WalletsApi:=WalletsService_api) _ _ _ _ _ _ Hok Hadj) as (_ & -> & _).
  destruct (getBalance_reads (WalletsApi:=WalletsService_api) _ _ _ _ _ Hget) as (_ & _ & ->). rewrite Hn. reflexivity.
Qed.
End Theorems.

(** ** Worked examples *)

(** Two accounts: 100.00 USD and 20.50 EUR. *)
Definition two_wallets : World :=
  demo_world <| World.wallet_balances :=
    [demo_wallet "w1" "alice" "USD" (num_of_Z 100); demo_wallet "w2" "bob" "EUR" (num_of_ratio 205 10)] |>.

Lemma two_wallets_ok : wallets_ok two_wallets.(World.wallet_balances).
Proof.
  split; [split|].
  - apply (bool_decide_unpack _). reflexivity.
  - simpl. intros a b [<-|[<-|[]]] [<-|[<-|[]]] H; try reflexivity; exfalso; apply H; reflexivity.
  - repeat (constructor; [split; [discriminate | split; [simpl; tauto | reflexivity]]|]). constructor.
Defined.

Definition two_ledger : Ledger := {[ ("alice", "USD") := 10000; ("bob", "EUR") := 2050 ]}.

Lemma two_represents : represents two_wallets.(World.wallet_balances) two_ledger.
Proof.
  intros a c. destruct (decide ((a, c) = ("alice", "USD"))) as [[= -> ->]|H1]; [split; vm_compute; reflexivity|].
  destruct (decide ((a, c) = ("bob", "EUR"))) as [[= -> ->]|H2]; [split; vm_compute; reflexivity|].
  assert (Hno : forall i x y n, (a, c) <> (x, y) -> WalletsService.owned_by a c (demo_wallet i x y n) = false).
  { intros i x y n Hne. apply not_true_iff_false. intros Ho. apply owned_by_true in Ho as [<- <-].
    apply Hne. reflexivity. }
  unfold balance_in, two_wallets. cbn [World.wallet_balances assign List.find].
  rewrite (Hno "w1" "alice" "USD"), (Hno "w2" "bob" "EUR") by assumption.
  unfold ledger_balance, two_ledger. rewrite lookup_insert_ne, lookup_singleton_ne by congruence.
  apply cents_zero.
Defined.

Lemma wallets_stay_well_formed_witness :
  let s1 := (WalletsService.adjustBalance (H:=decimal_big) "alice" " usd" (num_of_Z (-30)) two_wallets).2 in
  let s2 := (WalletsService.adjustBalance (H:=decimal_big) "carol" "NGN" (num_of_ratio 1 2) s1).2 in
  wallets_ok s2.(World.wallet_balances).
Proof.
  intros s1 s2. apply (wallets_stay_well_formed (B:=decimal_big) two_wallets s2); [|exact two_wallets_ok].
  eapply rtc_l; [apply (step_adjust (H:=decimal_big) "alice" " usd" (num_of_Z (-30)))|].
  eapply rtc_l; [apply (step_adjust (H:=decimal_big) "carol" "NGN" (num_of_ratio 1 2))|].
  apply rtc_refl.
Defined.

Lemma adjustBalance_error_witness :
  let r := WalletsService.adjustBalance (H:=decimal_big) "alice" "USD" (num_of_Z (-101)) two_wallets in
  r.1 = inl (BadRequestException "Insufficient balance") /\ env_only two_wallets r.2.
Proof.
  intros r. assert (Hr : r.1 = inl (BadRequestException "Insufficient balance")) by (vm_compute; reflexivity).
  split; [exact Hr|].
  apply (proj1 (adjustBalance_error (B:=decimal_big) "alice" "USD" (num_of_Z (-101)) two_wallets
           (BadRequestException "Insufficient balance") r.2 two_wallets_ok
           ltac:(rewrite <- Hr; apply surjective_pairing))).
Defined.

Lemma adjustBalance_posts_witness :
  exists b s',
    WalletsService.adjustBalance (H:=decimal_big) "alice" "usd" (num_of_ratio (-301) 10) two_wallets = (inr b, s') /\
    num_to_string b.(WalletBalance.balance) = "69.9" /\
    posted (H:=decimal_big) "alice" "USD" (num_of_ratio (-301) 10)
      two_wallets.(World.wallet_balances) s'.(World.wallet_balances).
Proof.
  destruct (WalletsService.adjustBalance (H:=decimal_big) "alice" "usd" (num_of_ratio (-301) 10) two_wallets)
    as [[x|b] s'] eqn:E; [eval_result E|].
  exists b, s'. split; [reflexivity|]. split.
  - eval_result E. rewrite <- E0. vm_compute. reflexivity.
  - assert (Hd : (num_of_ratio (-301) 10 =? num_of_Z 0)%num = false) by (vm_compute; reflexivity).
    exact (proj1 (proj2 (proj2 (adjustBalance_posts (B:=decimal_big) "alice" "usd" (num_of_ratio (-301) 10)
             two_wallets b s' two_wallets_ok Hd E)))).
Defined.

Lemma adjustBalance_refines_ledger_witness :
  exists b s' L',
    WalletsService.adjustBalance (H:=decimal_big) "alice" "USD" (num_of_ratio 1 10) two_wallets = (inr b, s') /\
    ledger_post two_ledger "alice" "USD" 10 = Some L' /\
    represents s'.(World.wallet_balances) L'.
Proof.
  assert (Hd : (num_of_ratio 1 10 =? num_of_Z 0)%num = false) by (vm_compute; reflexivity).
  assert (Hz : cents (num_of_ratio 1 10) 10) by (split; vm_compute; reflexivity).
  assert (Hr : representable (ledger_balance two_ledger "alice" (normalizeCurrencyCode "USD") + 10))
    by (split; vm_compute; reflexivity).
  pose proof (adjustBalance_refines_ledger (B:=decimal_big) "alice" "USD" (num_of_ratio 1 10) 10
    two_wallets two_ledger two_wallets_ok two_represents eq_refl Hd Hz Hr) as H.
  destruct (WalletsService.adjustBalance (H:=decimal_big) "alice" "USD" (num_of_ratio 1 10) two_wallets)
    as [[x|b] s'] eqn:E; [eval_result E|].
  destruct H as (L' & HL & Hrep). exists b, s', L'. auto.
Defined.

Lemma getBalance_after_adjustBalance_witness :
  let r := WalletsService.adjustBalance (H:=decimal_big) "bob" "EUR" (num_of_Z 5) two_wallets in
  match r, WalletsService.getBalance "bob" " eur " r.2 with
  | (inr b, _), (inr b', _) => b'.(WalletBalance.balance) = b.(WalletBalance.balance)
  | _, _ => False
  end.
Proof.
  intros r. destruct r as [[x|b] s1] eqn:E; [eval_result E|].
  destruct (WalletsService.getBalance "bob" " eur " s1) as [[x|b'] s2] eqn:E2.
  - assert (Hr : (WalletsService.getBalance "bob" " eur " (snd r)).1 = inl x)
      by (subst r; rewrite E; cbn [snd]; rewrite E2; reflexivity).
    subst r. vm_compute in Hr. discriminate.
  - cbn [snd]. rewrite E2. subst r.
    assert (Hn : normalizeCurrencyCode " eur " = normalizeCurrencyCode "EUR") by (vm_compute; reflexivity).
    exact (getBalance_after_adjustBalance (B:=decimal_big) "bob" "EUR" " eur " (num_of_Z 5) two_wallets
             b s1 b' s2 two_wallets_ok Hn E E2).
Defined.
