(* ===== verification/PostingRules.v ===== *)
(** Rules for the clients of the wallets' contract [WalletsApi]: what a call
    that returned, or a sequence of them, did to the balances, and
    weakest-precondition rules for [adjustBalance] and [getBalance]. *)
From S2P Require Import Prelude JsNumber NumberLaws Effects RepositoryLaws JsData ThirdParty Currencies Entities World Wallets.
Local Open Scope Z_scope.

(** What a call of [adjustBalance] that returned did to the balances: nothing
    for a zero delta, a posting otherwise. *)
Definition moved `{BigJs} (a c : string) (d : num)
    (t t' : list WalletBalanceEntity.WalletBalanceEntity) : Prop :=
  if (d =? num_of_Z 0)%num then t' = t else posted a (normalizeCurrencyCode c) d t t'.

(** The wallet postings of a request, in order. *)
Inductive postings `{BigJs} : list (string * string * num) ->
    list WalletBalanceEntity.WalletBalanceEntity -> list WalletBalanceEntity.WalletBalanceEntity -> Prop :=
  | no_posting t : postings [] t t
  | one_posting a c d l t t1 t2 : moved a c d t t1 -> postings l t1 t2 -> postings ((a, c, d) :: l) t t2.

Lemma postings_app `{BigJs} l l' t t1 t2 : postings l t t1 -> postings l' t1 t2 -> postings (l ++ l') t t2.
Proof. induction 1; simpl; [auto|]. intros Hl. econstructor; eauto. Qed.

Lemma postings_snoc `{BigJs} l a c d t t1 t2 :
  postings l t t1 -> moved a c d t1 t2 -> postings (l ++ [(a, c, d)]) t t2.
Proof. intros Hl Hm. eapply postings_app; [exact Hl|]. econstructor; [exact Hm | constructor]. Qed.

Section Rules.
Context `{W : WalletsApi}.

Lemma keeps_weaken {A} (R R' : World -> World -> Prop) (m : M World A) :
  (forall s s', R s s' -> R' s s') -> keeps R m -> keeps R' m.
Proof. intros Hr Hm s. apply Hr, Hm. Qed.

Lemma wp_quiet {A} (m : M World A) Q X s :
  keeps quiet m -> (forall a s', quiet s s' -> Q a s') -> (forall x s', quiet s s' -> X x s') ->
  wp m Q X s.
Proof. apply wp_keeps. Qed.

Lemma wp_env_only {A} (m : M World A) Q X s :
  keeps env_only m -> (forall a e, env_step (World.env s) e -> Q a (set_env e s)) ->
  (forall x e, env_step (World.env s) e -> X x (set_env e s)) -> wp m Q X s.
Proof. intros Hm HQ HX. apply (wp_keeps env_only); [exact Hm | |]; intros ? ? (e & He & ->); auto. Qed.

Lemma env_only_quiet s s' : env_only s s' -> quiet s s'.
Proof. intros (e & He & ->). apply quiet_env_stable, He. Qed.

Lemma touches_events s s' :
  touches_only WalletBalanceEntity.WalletBalanceEntity s s' -> events s' = events s.
Proof. intros (e & t & He & ->). exact (es_outbox _ _ He). Qed.

Lemma wp_adjustBalance_eqn a c d Q X s :
  wallets_ok s.(World.wallet_balances) ->
  (forall x e, env_step (World.env s) e -> adjustBalance a c d s = (inl x, set_env e s) ->
     X x (set_env e s)) ->
  (forall b e t, env_step (World.env s) e ->
     adjustBalance a c d s = (inr b, set_env e s <| World.wallet_balances := t |>) ->
     moved a c d s.(World.wallet_balances) t -> wallets_ok t -> Q b (set_env e s <| World.wallet_balances := t |>)) ->
  wp (adjustBalance a c d) Q X s.
Proof.
  intros Hok HX HQ. unfold wp.
  pose proof (adjust_frame a c d s) as Hf. pose proof (adjust_keeps_ok a c d s Hok) as Hk.
  destruct (adjustBalance a c d s) as [[x|b] s'] eqn:E.
  all: simpl in Hf, Hk.
  - destruct (adjust_throws _ _ _ _ _ _ E) as (e & He & ->). apply HX; [exact He | reflexivity].
  - destruct Hf as (e & t & He & Hs). subst s'. apply HQ; [exact He | reflexivity | | exact Hk].
    destruct (adjust_posts _ _ _ _ _ _ Hok E) as (_ & _ & Hp). unfold moved.
    destruct (d =? num_of_Z 0)%num; [|exact Hp].
    destruct Hp as (e' & _ & Hp). exact (f_equal World.wallet_balances Hp).
Qed.

Lemma wp_adjustBalance a c d Q X s :
  wallets_ok s.(World.wallet_balances) ->
  (forall x e, env_step (World.env s) e -> adjustBalance a c d s = (inl x, set_env e s) ->
     X x (set_env e s)) ->
  (forall b e t, env_step (World.env s) e ->
     moved a c d s.(World.wallet_balances) t -> wallets_ok t -> Q b (set_env e s <| World.wallet_balances := t |>)) ->
  wp (adjustBalance a c d) Q X s.
Proof. intros Hok HX HQ. apply wp_adjustBalance_eqn; auto. Qed.

Lemma wp_getBalance a c Q X s :
  (forall x e, env_step (World.env s) e -> X x (set_env e s)) ->
  (forall b e, env_step (World.env s) e -> isSupportedCurrency c = true ->
     b.(WalletBalance.balance) = balance_in s.(World.wallet_balances) a (normalizeCurrencyCode c) ->
     Q b (set_env e s)) ->
  wp (getBalance a c) Q X s.
Proof.
  intros HX HQ. unfold wp. pose proof (getBalance_frame a c s) as (e & He & Hs).
  destruct (getBalance a c s) as [[x|b] s'] eqn:E; simpl in Hs; subst s'; [apply HX, He|].
  destruct (getBalance_reads _ _ _ _ _ E) as (_ & Hc & Hb). apply HQ; assumption.
Qed.
End Rules.
