(* ===== verification/Accounts.v ===== *)
(** The services that say who may act: users/users.service.ts,
    terms/terms-acceptance.service.ts,
    modules/user-deactivation/services/user-deactivation.service.ts and
    audit/audit.service.ts. *)
From S2P Require Import Prelude JsNumber Effects RepositoryLaws JsData ThirdParty Entities World.
Local Open Scope Z_scope.

(** ** AuditService *)

Module AuditService.
Record AuditEvent : Type := mkEvent {
  userId : option string;
  action : string;
  entityType : string;
  entityId : option string;
  before : option (list (string * json));
  after : option (list (string * json));
  reason : option string;
  ipAddress : option string;
  userAgent : option string
}.

(** An event with the fields most callers give. *)
Definition event (user action entityType entity : string) (after : list (string * json)) : AuditEvent :=
  mkEvent (Some user) action entityType (Some entity) None (Some after) None None None.

Definition log (ev : AuditEvent) : M World AuditLog.AuditLog :=
  save (AuditLog.mk "" (userId ev) (action ev) (entityType ev) (entityId ev) (before ev) (after ev)
          (reason ev) (ipAddress ev) (userAgent ev) 0).
End AuditService.

(** ** UsersService *)

Module UsersService.
Record CreateUserDto : Type := mkCreate {
  email : string;
  passwordHash : string;
  firstName : string;
  lastName : string;
  role : option UserRole.UserRole
}.

(** A field that is given is [Some]. *)
Record UpdateUserDto : Type := mkUpdate {
  u_firstName : option string;
  u_lastName : option string;
  u_isEmailVerified : option bool;
  u_kycStatus : option KycStatus.KycStatus;
  u_isActive : option bool;
  u_require2fa : option bool;
  u_failedLoginAttempts : option Z;
  u_lockedUntil : option (option Z)
}.
#[global] Instance settable_update : Settable UpdateUserDto := fun r =>
  mkUpdate r.(u_firstName) r.(u_lastName) r.(u_isEmailVerified) r.(u_kycStatus) r.(u_isActive)
    r.(u_require2fa) r.(u_failedLoginAttempts) r.(u_lockedUntil).
Definition no_update : UpdateUserDto := mkUpdate None None None None None None None None.

Definition assign_field {T} (v : option T) (old : T) : T := default old v.

(** [Object.assign(user, dto)]. *)
Definition object_assign (user : User.User) (dto : UpdateUserDto) : User.User :=
  user <| User.firstName := assign_field (u_firstName dto) user.(User.firstName) |>
       <| User.lastName := assign_field (u_lastName dto) user.(User.lastName) |>
       <| User.isEmailVerified := assign_field (u_isEmailVerified dto) user.(User.isEmailVerified) |>
       <| User.kycStatus := assign_field (u_kycStatus dto) user.(User.kycStatus) |>
       <| User.isActive := assign_field (u_isActive dto) user.(User.isActive) |>
       <| User.require2fa := assign_field (u_require2fa dto) user.(User.require2fa) |>
       <| User.failedLoginAttempts :=
            assign_field (u_failedLoginAttempts dto) user.(User.failedLoginAttempts) |>
       <| User.lockedUntil := assign_field (u_lockedUntil dto) user.(User.lockedUntil) |>.

Definition by_email (email : string) (u : User.User) : bool := String.eqb u.(User.email) email.
Definition by_id (id : string) (u : User.User) : bool := String.eqb u.(User.id) id.

Definition getCacheKey (userId : string) : string := "wallet-balances:" +:+ userId.

Definition invalidateWalletBalanceCache (userId : string) : M World unit :=
  db_call ;;;
  modify (fun w => w <| World.walletBalanceCache := delete (getCacheKey userId) w.(World.walletBalanceCache) |>).

Definition create (dto : CreateUserDto) : M World User.User :=
  let* existing := findOne (by_email (email dto)) in
  match existing with
  | Some _ => throw (ConflictException "Email already in use")
  | None =>
      save (User.mk "" (email dto) (passwordHash dto) (firstName dto) (lastName dto)
              (default UserRole.USER (role dto)) false KycStatus.PENDING true "en" None false 0 None 0 0)
  end.

Definition findById (id : string) : M World User.User :=
  let* user := findOne (by_id id) in
  match user with
  | None => throw (NotFoundException ("User " +:+ id +:+ " not found"))
  | Some user => ret user
  end.

Definition findByEmail (email : string) : M World (option User.User) := findOne (by_email email).

Definition update (id : string) (dto : UpdateUserDto) : M World User.User :=
  let* user := findById id in
  save (object_assign user dto).

Definition updatePassword (id newPasswordHash : string) : M World unit :=
  let* user := findById id in
  let* now := date_now in
  save (user <| User.passwordHash := newPasswordHash |> <| User.passwordChangedAt := Some now |>) ;;;
  ret tt.

(** The user without [passwordHash]. *)
Record SafeUser : Type := mkSafe {
  safe_id : string; safe_email : string; safe_firstName : string; safe_lastName : string;
  safe_role : UserRole.UserRole; safe_isEmailVerified : bool; safe_kycStatus : KycStatus.KycStatus;
  safe_isActive : bool; safe_preferredLanguage : string; safe_passwordChangedAt : option Z;
  safe_require2fa : bool; safe_failedLoginAttempts : Z; safe_lockedUntil : option Z;
  safe_createdAt : Z; safe_updatedAt : Z
}.
Definition sanitize (u : User.User) : SafeUser :=
  mkSafe u.(User.id) u.(User.email) u.(User.firstName) u.(User.lastName) u.(User.role)
    u.(User.isEmailVerified) u.(User.kycStatus) u.(User.isActive) u.(User.preferredLanguage)
    u.(User.passwordChangedAt) u.(User.require2fa) u.(User.failedLoginAttempts)
    u.(User.lockedUntil) u.(User.createdAt) u.(User.updatedAt).

(** [repository.softDelete] of an entity without a [DeleteDateColumn], as
    [User] is: TypeORM refuses the query. *)
Definition softDelete_user (id : string) : M World unit :=
  throw (JsError "MissingDeleteDateColumnError"
           "Entity User does not have delete date columns.").

Definition deleteUser (id : string) : M World unit :=
  let* user := findById id in
  let* uuid := random_uuid in
  save (user <| User.email := "deleted_" +:+ uuid +:+ "@deleted.invalid" |>
             <| User.firstName := "[deleted]" |> <| User.lastName := "[deleted]" |>) ;;;
  softDelete_user id.

Record UserExport : Type := mkExport {
  exportId : string;
  requestedAt : string;
  expiresAt : string;
  profile : SafeUser;
  exportedSections : list string
}.

Definition exportUserData (userId : string) : M World UserExport :=
  let* user := findById userId in
  let* t1 := date_now in
  let* t2 := date_now in
  let* t3 := date_now in
  ret (mkExport ("exp_" +:+ string_of_Z t1 +:+ "_" +:+ slice 0 6 userId)
         (toISOString t2) (toISOString (t3 + 48 * 3600000)) (sanitize user)
         ["profile"; "wallets"; "transactions"; "notification_preferences"; "audit_logs"]).
End UsersService.

(** ** TermsAcceptanceService *)

Module TermsAcceptanceService.
Section Service.
Context `{ConfigService}.

Record AcceptTermsInput : Type := mkAccept {
  userId : string;
  ipAddress : option string;
  userAgent : option string;
  version : option string
}.

Definition currentVersion : string := default "1.0" (config_string "terms.currentVersion").

Definition accept (input : AcceptTermsInput) : M World TermsAcceptance.TermsAcceptance :=
  save (TermsAcceptance.mk "" (userId input) (default currentVersion (version input)) 0
          (ipAddress input) (userAgent input)).

Definition accepted_by (user version : string) (r : TermsAcceptance.TermsAcceptance) : bool :=
  String.eqb r.(TermsAcceptance.userId) user && String.eqb r.(TermsAcceptance.version) version.

Definition ensureAccepted (user : string) : M World unit :=
  let* accepted := findOne_desc (accepted_by user currentVersion) TermsAcceptance.acceptedAt in
  match accepted with
  | None => throw (ForbiddenException ("accept_terms " +:+ currentVersion))
  | Some _ => ret tt
  end.
End Service.
End TermsAcceptanceService.

(** ** UserDeactivationService *)

Module UserDeactivationService.
Definition active_for (user : string) (r : UserDeactivationEntity.UserDeactivationEntity) : bool :=
  String.eqb r.(UserDeactivationEntity.userId) user && r.(UserDeactivationEntity.isActive).

Definition deactivate (userId : string) (reason : option string) (adminId : string) :
    M World UserDeactivationEntity.UserDeactivationEntity :=
  let* existing := findOne (active_for userId) in
  match existing with
  | Some _ => throw (ConflictException ("User " +:+ userId +:+ " is already deactivated"))
  | None =>
      let* now := date_now in
      save (UserDeactivationEntity.mk "" userId reason (Some adminId) None now None true 0)
  end.

Definition reactivate (userId adminId : string) : M World UserDeactivationEntity.UserDeactivationEntity :=
  let* record := findOne (active_for userId) in
  match record with
  | None => throw (NotFoundException ("No active deactivation found for user " +:+ userId))
  | Some record =>
      let* now := date_now in
      save (record <| UserDeactivationEntity.isActive := false |>
                   <| UserDeactivationEntity.reactivatedBy := Some adminId |>
                   <| UserDeactivationEntity.reactivatedAt := Some now |>)
  end.

Definition isUserDeactivated (userId : string) : M World bool :=
  let* record := findOne (active_for userId) in
  ret (match record with Some _ => true | None => false end).

Definition getHistory (userId : string) : M World (list UserDeactivationEntity.UserDeactivationEntity) :=
  find_desc (fun r => String.eqb r.(UserDeactivationEntity.userId) userId)
            UserDeactivationEntity.deactivatedAt.
End UserDeactivationService.
