(* ===== verification/QueryBuilder.v ===== *)
(** TypeORM's query builder as the services use it: conditions, an order, a
    page and the total count ([getManyAndCount]), with what every caller needs
    to know of the answer. *)
From S2P Require Import Prelude JsNumber Effects RepositoryLaws.
Local Open Scope Z_scope.

(** [qb.andWhere(...)] under [if (x)]: no condition when the filter is absent
    or an empty string. *)
Definition and_where {A} (x : option A) (truthy : A -> bool) (p : A -> bool) : bool :=
  match x with
  | Some a => if truthy a then p a else true
  | None => true
  end.

(** [skip] and [take] on an ordered list; a [take] of zero is no LIMIT. *)
Definition page_of {A} (skip take : Z) (l : list A) : list A :=
  let rest := skipn (Z.to_nat skip) l in
  if take =? 0 then rest else firstn (Z.to_nat take) rest.

Section Query.
Context {S E : Type} `{Table S E}.

(** Postgres refuses a negative OFFSET or LIMIT. *)
Definition getManyAndCount (p : E -> bool) (k : E -> Z) (skip take : Z) : M S (list E * Z) :=
  let* l := find_desc p k in
  if (skip <? 0) || (take <? 0) then throw (QueryFailed "2201X" "OFFSET must not be negative")
  else ret (page_of skip take l, Z.of_nat (length l)).

(** [query.limit(n).getMany()]. *)
Definition getMany_limit (p : E -> bool) (k : E -> Z) (n : Z) : M S (list E) :=
  let* l := find_desc p k in ret (page_of 0 n l).

Lemma in_page_of {A} skip take (l : list A) x : In x (page_of skip take l) -> In x l.
Proof.
  unfold page_of. cbv zeta. intros Hx.
  assert (Hx' : In x (skipn (Z.to_nat skip) l)) by (destruct (take =? 0); [exact Hx | apply in_firstn in Hx; exact Hx]).
  rewrite <- (firstn_skipn (Z.to_nat skip) l). apply in_or_app. auto.
Qed.

Lemma length_page_of {A} skip take (l : list A) :
  0 < take -> Z.of_nat (length (page_of skip take l)) <= take.
Proof.
  intros Ht. unfold page_of. cbv zeta. rewrite (proj2 (Z.eqb_neq take 0)) by lia. pose proof (List.firstn_le_length (Z.to_nat take) (skipn (Z.to_nat skip) l)). lia.
Qed.

Lemma sorted_firstn (k : E -> Z) n t : sorted_by k t -> sorted_by k (firstn n t).
Proof.
  intros Hs. revert n. induction Hs as [|e t He Ht IH]; intros [|n]; simpl; constructor; auto.
  apply List.Forall_forall. intros x Hx. rewrite List.Forall_forall in He. apply He.
  rewrite <- (firstn_skipn n t). apply in_or_app. auto.
Qed.

Lemma sorted_skipn (k : E -> Z) n t : sorted_by k t -> sorted_by k (skipn n t).
Proof.
  intros Hs. revert n. induction Hs as [|e t He Ht IH]; intros [|n]; simpl; auto; constructor; auto.
Qed.

Lemma in_find_desc p (k : E -> Z) x (s : S) :
  In x (order_desc k (List.filter (fun e => live e && p e) (rows s))) <->
  In x (rows s) /\ live x = true /\ p x = true.
Proof. rewrite in_order_desc, filter_In, andb_true_iff. reflexivity. Qed.

(** What [getManyAndCount] answers: rows that satisfy the conditions, newest
    first, at most [take] of them when it is a limit, and how many there are in all; the state is
    as it was but for the environment. *)
Lemma getManyAndCount_spec p (k : E -> Z) skip take (s : S) :
  wp (getManyAndCount p k skip take)
     (fun '(items, total) s' =>
        env_only s s' /\ 0 <= skip /\ 0 <= take /\
        (forall x, In x items -> In x (rows s) /\ live x = true /\ p x = true) /\
        sorted_by (fun x => - k x) items /\
        items = page_of skip take (order_desc k (List.filter (fun e => live e && p e) (rows s))) /\
        (0 < take -> Z.of_nat (length items) <= take) /\
        total = Z.of_nat (length (List.filter (fun e => live e && p e) (rows s))))
     (fun _ s' => env_only s s') s.
Proof.
  unfold getManyAndCount, find_desc. do 2 apply wp_bind. wp_step; [auto with env|].
  wp_step. cbv beta. destruct ((skip <? 0) || (take <? 0)) eqn:Hb.
  { wp_step. auto with env. }
  apply orb_false_iff in Hb as [Hs%Z.ltb_ge Ht%Z.ltb_ge]. wp_step.
  repeat match goal with |- _ /\ _ => split end; auto with env.
  - intros x Hx. apply in_page_of, in_find_desc in Hx. exact Hx.
  - unfold page_of. cbv zeta.
    destruct (take =? 0); [|apply sorted_firstn]; apply sorted_skipn, sorted_order_asc.
  - apply length_page_of.
  - unfold order_desc. rewrite length_order_asc. reflexivity.
Qed.

Lemma keeps_getManyAndCount (R : S -> S -> Prop) `{!PreOrder R} `{!EnvStable R} p k skip take :
  keeps R (getManyAndCount p k skip take).
Proof. unfold getManyAndCount. keeps_auto. Qed.
End Query.
#[export] Hint Resolve keeps_getManyAndCount : keeps.
