(* ===== verification/Fees.v ===== *)
(** fees/fees.service.ts and modules/fee-audit/services/fee-audit.service.ts:
    the flat fee of a transaction, its record, and the audit trail of fee
    calculations. *)
From S2P Require Import Prelude JsNumber NumberLaws Effects RepositoryLaws JsData Entities World QueryBuilder.
Local Open Scope Z_scope.

(** ** FeeAuditService *)

Module FeeAuditService.
Record FeeCalculation : Type := mkCalculation {
  transactionId : option string;
  userId : option string;
  feeAmount : num;
  feeCurrency : option string;
  feeType : string;
  calculatedAmount : option num;
  appliedTier : option string
}.

(** The insert; [feeCurrency] is a NOT NULL column. *)
Definition recordFeeCalculation (params : FeeCalculation) : M World FeeAuditLogEntity.FeeAuditLogEntity :=
  match feeCurrency params with
  | None => db_call ;;; throw (QueryFailed "23502" "null value in column feeCurrency")
  | Some _ =>
      save (FeeAuditLogEntity.mk "" (transactionId params) (userId params) (feeAmount params)
              (feeCurrency params) (feeType params) (calculatedAmount params) (appliedTier params) 0)
  end.

Record AuditTrailFilters : Type := mkFilters {
  f_userId : option string;
  f_transactionId : option string;
  f_feeType : option string;
  f_page : option Z;
  f_limit : option Z
}.

Record AuditTrailPage : Type := mkPage {
  data : list FeeAuditLogEntity.FeeAuditLogEntity;
  page : Z;
  limit : Z;
  total : Z;
  totalPages : num
}.

(** [Math.ceil(total / limit)], a division of numbers. *)
Definition ceil_pages (total limit : Z) : num :=
  if limit =? 0 then (if total =? 0 then num_nan else num_infinity)
  else num_of_Z (ceil_div total limit).

Definition matches (filters : AuditTrailFilters) (log : FeeAuditLogEntity.FeeAuditLogEntity) : bool :=
  and_where (f_userId filters) str_truthy
    (fun u => opt_eqb String.eqb log.(FeeAuditLogEntity.userId) (Some u)) &&
  and_where (f_transactionId filters) str_truthy
    (fun t => opt_eqb String.eqb log.(FeeAuditLogEntity.transactionId) (Some t)) &&
  and_where (f_feeType filters) str_truthy
    (fun t => String.eqb log.(FeeAuditLogEntity.feeType) t).

Definition queryAuditTrail (filters : AuditTrailFilters) : M World AuditTrailPage :=
  let page := default 1 (f_page filters) in
  let limit := default 20 (f_limit filters) in
  let offset := (page - 1) * limit in
  let* ' (items, total) :=
    getManyAndCount (matches filters) FeeAuditLogEntity.createdAt offset limit in
  ret (mkPage items page limit total (ceil_pages total limit)).
End FeeAuditService.

(** ** FeesService *)

Module FeesService.
Record FeeResult : Type := mkFee { feeAmount : num; reason : option string }.

Record RecordFeeDto : Type := mkRecordFee {
  r_transactionId : string;
  r_userId : string;
  r_transactionType : string;
  r_amount : num;
  r_feeAmount : num;
  r_currency : string;
  r_reason : option string
}.

Definition FEE_RATE : num := num_of_ratio 1 1000.

(** [Number((amount * FEE_RATE).toFixed(8))]. *)
Definition fee_of (amount : num) : num := fixed_num 8 (amount * FEE_RATE)%num.

(** The audit record is written by a promise nobody awaits, whose rejection is
    logged: its outcome does not reach the caller.  The literal gives [currency]
    where the parameter object wants [feeCurrency]. *)
Definition calculateFee (amount : num) : M World FeeResult :=
  let feeAmount := fee_of amount in
  attempt (FeeAuditService.recordFeeCalculation
    (FeeAuditService.mkCalculation None None feeAmount None "percentage" (Some amount) (Some "flat"))) ;;;
  ret (mkFee feeAmount None).

Record FeePreview : Type := mkPreview {
  transactionType : string;
  amount : num;
  p_feeAmount : num;
  netAmount : num;
  currency : string;
  feePercentage : num
}.

Definition previewFee (transactionType : string) (amount : num) (currency : string) : FeePreview :=
  let feeRate := if String.eqb transactionType "withdrawal" then num_of_ratio 5 1000
                 else num_of_ratio 1 1000 in
  let feeAmount := fixed_num 8 (amount * feeRate)%num in
  let netAmount := fixed_num 8 (amount - feeAmount)%num in
  mkPreview transactionType amount feeAmount netAmount currency (feeRate * num_of_Z 100)%num.

Definition recordFee (dto : RecordFeeDto) : M World FeeRecord.FeeRecord :=
  save (FeeRecord.mk "" (r_transactionId dto) (r_userId dto) (r_transactionType dto) (r_amount dto)
          (r_feeAmount dto) (r_currency dto)
          (if (r_feeAmount dto =? num_of_Z 0)%num then Some (default "no_fee_config" (r_reason dto))
           else r_reason dto) 0).
End FeesService.

(** ** Facts *)

Lemma calculateFee_spec amount (s : World) Q X :
  (forall e, env_step (World.env s) e ->
     Q (FeesService.mkFee (FeesService.fee_of amount) None) (set_env e s)) ->
  wp (FeesService.calculateFee amount) Q X s.
Proof.
  intros HQ. unfold FeesService.calculateFee, FeeAuditService.recordFeeCalculation. cbv zeta.
  cbn [FeeAuditService.feeCurrency]. wp_step. wp_step. wp_step.
  wp_step; intros; wp_step; apply HQ; assumption.
Qed.
