(* ===== verification/Limits.v ===== *)
(** fx/exchange-rate.service.ts (the cached rate with its two providers),
    transactions/transaction-limit.service.ts (single, daily and monthly limits
    in dollars) and transactions/large-withdrawal.guard.ts. *)
From S2P Require Import Prelude JsNumber NumberLaws Effects RepositoryLaws JsData ThirdParty Entities World.
Local Open Scope Z_scope.

(** ** ExchangeRateService *)

Record RateResult : Type := mkRate {
  base : string;
  target : string;
  rate : num;
  provider : string;
  fetchedAt : Z;
  ageMs : Z
}.

Module ExchangeRateService.
Section Service.
Context `{ConfigService} `{RateProviders}.

(** [(config.get('cache.exchangeRateTtlSeconds') ?? 60) * 1000]. *)
Definition ttlMs : num :=
  (default (num_of_Z 60) (config_number "cache.exchangeRateTtlSeconds") * num_of_Z 1000)%num.

(** [if (!rate) throw]: absent, zero or NaN. *)
Definition usable_rate (target provider : string) (rate : option num) : M World CacheEntry.CacheEntry :=
  match rate with
  | Some r =>
      if num_truthy r then
        let* now := date_now in ret (CacheEntry.mk r provider now)
      else throw (PlainError ("Rate not found for " +:+ target))
  | None => throw (PlainError ("Rate not found for " +:+ target))
  end.

Definition request_number : M World nat := gets (fun w => calls (World.env w)).

Definition fetchFromOpenExchangeRates (base target : string) : M World CacheEntry.CacheEntry :=
  let apiKey := default "undefined" (config_string "fx.openExchangeRatesApiKey") in
  let url := "https://openexchangerates.org/api/latest.json?app_id=" +:+ apiKey +:+ "&base=" +:+
             base +:+ "&symbols=" +:+ target in
  let* n := request_number in
  db_call ;;;
  usable_rate target "openexchangerates" (openexchangerates_rates n url !! toUpperCase target).

Definition fetchFromExchangeRateHost (base target : string) : M World CacheEntry.CacheEntry :=
  let apiKey := default "undefined" (config_string "fx.exchangeRateHostApiKey") in
  let url := "https://api.exchangerate.host/live?access_key=" +:+ apiKey +:+ "&source=" +:+
             base +:+ "&currencies=" +:+ target in
  let* n := request_number in
  db_call ;;;
  let rateKey := toUpperCase base +:+ toUpperCase target in
  usable_rate target "exchangeratehost"
    (match exchangeratehost_quotes n url with Some quotes => quotes !! rateKey | None => None end).

Definition fetchWithFallback (base target : string) : M World CacheEntry.CacheEntry :=
  try_catch (fetchFromOpenExchangeRates base target) (fun _ =>
  try_catch (fetchFromExchangeRateHost base target) (fun _ =>
  throw (ServiceUnavailableException "Exchange rate providers are currently unavailable"))).

Definition cache_key (base target : string) : string := toUpperCase base +:+ ":" +:+ toUpperCase target.

Definition fetch_and_cache (base target : string) : M World RateResult :=
  let* result := fetchWithFallback base target in
  modify (fun w => w <| World.rateCache := <[cache_key base target := result]> w.(World.rateCache) |>) ;;;
  ret (mkRate base target result.(CacheEntry.rate) result.(CacheEntry.provider)
         result.(CacheEntry.fetchedAt) 0).

Definition getRate (base target : string) : M World RateResult :=
  let* cached := gets (fun w => w.(World.rateCache) !! cache_key base target) in
  match cached with
  | Some cached =>
      let* now := date_now in
      if (num_of_Z (now - cached.(CacheEntry.fetchedAt)) <? ttlMs)%num then
        let* now' := date_now in
        ret (mkRate base target cached.(CacheEntry.rate) cached.(CacheEntry.provider)
               cached.(CacheEntry.fetchedAt) (now' - cached.(CacheEntry.fetchedAt)))
      else fetch_and_cache base target
  | None => fetch_and_cache base target
  end.
End Service.
End ExchangeRateService.

(** ** TransactionLimitService *)

(** The three constants read from the process environment at load time, with
    the code's defaults. *)
Class LimitConstants : Type := {
  DAILY_LIMIT_USD : num;
  MONTHLY_LIMIT_USD : num;
  SINGLE_TX_LIMIT_USD : num
}.
Definition default_limits : LimitConstants := {|
  DAILY_LIMIT_USD := num_of_Z 50000;
  MONTHLY_LIMIT_USD := num_of_Z 500000;
  SINGLE_TX_LIMIT_USD := num_of_Z 25000
|}.

Module TransactionLimitService.
Section Service.
Context `{ConfigService} `{RateProviders} `{LimitConstants}.

Definition toUsd (amount : num) (currency : string) : M World num :=
  if String.eqb (toUpperCase currency) "USD" then ret amount
  else let* r := ExchangeRateService.getRate currency "USD" in
       ret (amount * rate r)%num.

Definition dateKey : M World string := let* now := date_now in ret (iso_day now).
Definition monthKey : M World string := let* now := date_now in ret (iso_month now).

Definition check (userId : string) (amount : num) (currency : string) : M World unit :=
  let* amountUsd := toUsd amount currency in
  throw_if (amountUsd >? SINGLE_TX_LIMIT_USD)%num
    (BadRequestException ("Transaction exceeds single-transaction USD-equivalent limit of $" +:+
       num_to_string SINGLE_TX_LIMIT_USD)) ;;;
  let* today := dateKey in
  let* month := monthKey in
  let dayKey := userId +:+ ":" +:+ today in
  let monKey := userId +:+ ":" +:+ month in
  let* ' (day0, mon0) := gets (fun w =>
    (default (num_of_Z 0) (w.(World.dailyTotals) !! dayKey),
     default (num_of_Z 0) (w.(World.monthlyTotals) !! monKey))) in
  let dayTotal := (day0 + amountUsd)%num in
  let monTotal := (mon0 + amountUsd)%num in
  throw_if (dayTotal >? DAILY_LIMIT_USD)%num
    (BadRequestException ("Transaction would exceed daily USD-equivalent limit of $" +:+
       num_to_string DAILY_LIMIT_USD)) ;;;
  throw_if (monTotal >? MONTHLY_LIMIT_USD)%num
    (BadRequestException ("Transaction would exceed monthly USD-equivalent limit of $" +:+
       num_to_string MONTHLY_LIMIT_USD)) ;;;
  (* commit the accumulators only after both checks pass *)
  modify (fun w => w <| World.dailyTotals := <[dayKey := dayTotal]> w.(World.dailyTotals) |>
                     <| World.monthlyTotals := <[monKey := monTotal]> w.(World.monthlyTotals) |>).

Definition resetAccumulators : M World unit :=
  modify (fun w => w <| World.dailyTotals := ∅ |> <| World.monthlyTotals := ∅ |>).
End Service.
End TransactionLimitService.

(** ** LargeWithdrawalGuard *)

Module LargeWithdrawalGuard.
(** [Number(env) || 10000]. *)
Definition threshold_of (env : option num) : num :=
  match env with
  | Some n => if num_truthy n then n else num_of_Z 10000
  | None => num_of_Z 10000
  end.

(** [amount] of the body, [otp] the header x-verification-code: only its
    presence is tested. *)
Definition canActivate {S} (threshold : num) (amount : option num) (otp : option string) : M S bool :=
  let amount := match amount with Some a => if num_truthy a then a else num_of_Z 0 | None => num_of_Z 0 end in
  (if (amount >=? threshold)%num
   then throw_if (negb (opt_truthy otp)) (Http 403 "Large withdrawal requires verification code")
   else ret tt) ;;;
  ret true.
End LargeWithdrawalGuard.

(** ** Facts *)

(** What fetching a rate may change: the rate cache and the environment. *)
Definition rate_frame (s s' : World) : Prop :=
  exists e c, env_step (World.env s) e /\
    s' = s <| World.env := e |> <| World.rateCache := c |>.

#[export] Instance rate_frame_preorder : PreOrder rate_frame.
Proof.
  split.
  - intros s. exists (World.env s), (World.rateCache s). split; [reflexivity | destruct s; reflexivity].
  - intros s1 s2 s3 (e & c & He & ->) (e' & c' & He' & ->). exists e', c'. simpl in He'.
    split; [etransitivity; eassumption | reflexivity].
Qed.

#[export] Instance rate_frame_env_stable : EnvStable rate_frame.
Proof. intros s e He. exists e, (World.rateCache s). split; [exact He | destruct s; reflexivity]. Qed.

Lemma rate_frame_cache f : keeps rate_frame (modify (fun w => w <| World.rateCache := f w |>)).
Proof. intros s. exists (World.env s), (f s). split; [reflexivity | destruct s; reflexivity]. Qed.

Lemma getRate_frame `{ConfigService} `{RateProviders} b t :
  keeps rate_frame (ExchangeRateService.getRate b t).
Proof.
  unfold ExchangeRateService.getRate, ExchangeRateService.fetch_and_cache,
    ExchangeRateService.fetchWithFallback, ExchangeRateService.fetchFromOpenExchangeRates,
    ExchangeRateService.fetchFromExchangeRateHost, ExchangeRateService.usable_rate,
    ExchangeRateService.request_number.
  repeat first [apply rate_frame_cache | keeps_step | solve [eauto with keeps typeclass_instances]].
Qed.

Lemma toUsd_frame `{ConfigService} `{RateProviders} a c :
  keeps rate_frame (TransactionLimitService.toUsd a c).
Proof.
  unfold TransactionLimitService.toUsd. keeps_auto. apply getRate_frame.
Qed.

(** ** The accumulators *)

Definition day_key (userId : string) (ms : Z) : string := userId +:+ ":" +:+ iso_day ms.
Definition month_key (userId : string) (ms : Z) : string := userId +:+ ":" +:+ iso_month ms.

Definition total_of (totals : gmap string num) (key : string) (usd : num) : num :=
  num_add (default (num_of_Z 0) (totals !! key)) usd.

(** What an accepted check does: both totals of the user's current day and
    month grow by the dollar amount, within the limits, and no other total
    changes. *)
Inductive charged `{ConfigService} `{RateProviders} `{LimitConstants}
    (userId : string) (amount : num) (currency : string) (s : World) : World -> Prop :=
  | charged_intro usd s0 d m e :
      TransactionLimitService.toUsd amount currency s = (inr usd, s0) ->
      num_ltb SINGLE_TX_LIMIT_USD usd = false ->
      num_ltb DAILY_LIMIT_USD (total_of s.(World.dailyTotals) (day_key userId d) usd) = false ->
      num_ltb MONTHLY_LIMIT_USD (total_of s.(World.monthlyTotals) (month_key userId m) usd) = false ->
      env_step (World.env s) e ->
      charged userId amount currency s
        (s0 <| World.env := e |>
            <| World.dailyTotals := <[day_key userId d := total_of s.(World.dailyTotals) (day_key userId d) usd]> s.(World.dailyTotals) |>
            <| World.monthlyTotals := <[month_key userId m := total_of s.(World.monthlyTotals) (month_key userId m) usd]> s.(World.monthlyTotals) |>).

Section Limits.
Context `{CS : ConfigService} `{RP : RateProviders} `{LC : LimitConstants}.

Lemma wp_toUsd amount currency Q X s :
  (forall x s', rate_frame s s' -> X x s') ->
  (forall usd s', TransactionLimitService.toUsd amount currency s = (inr usd, s') ->
     rate_frame s s' -> Q usd s') ->
  wp (TransactionLimitService.toUsd amount currency) Q X s.
Proof.
  intros HX HQ. unfold wp. pose proof (toUsd_frame amount currency s) as Hf.
  destruct (TransactionLimitService.toUsd amount currency s) as [[x|usd] s'] eqn:E; auto.
Qed.

Lemma check_spec u amount c s :
  wp (TransactionLimitService.check u amount c)
     (fun _ s' => charged u amount c s s') (fun _ s' => rate_frame s s') s.
Proof.
  unfold TransactionLimitService.check. apply wp_bind, wp_toUsd; [auto|].
  intros usd s0 Hconv Hframe. destruct Hframe as (e & ca & He & ->).
  assert (Hrej : forall e', env_step e e' ->
    rate_frame s (set_env e' (s <| World.env := e |> <| World.rateCache := ca |>))).
  { intros e' He'. exists e', ca. split; [etransitivity; eassumption | reflexivity]. }
  wp_step. wp_step; [exact (Hrej e (reflexivity e))|].
  unfold TransactionLimitService.dateKey, TransactionLimitService.monthKey.
  do 8 wp_step. simpl env_of in *.
  assert (Hlast : env_step e e'0) by (etransitivity; eassumption).
  specialize (Hrej e'0 Hlast).
  set (s1 := set_env e'0 _) in *.
  apply wp_bind, wp_gets. cbv beta iota.
  change (World.dailyTotals s1) with (World.dailyTotals s).
  change (World.monthlyTotals s1) with (World.monthlyTotals s).
  apply wp_bind, wp_throw_if; intros Hday; [exact Hrej|].
  apply wp_bind, wp_throw_if; intros Hmon; [exact Hrej|]. apply wp_modify.
  exact (charged_intro u amount c s usd _ (clock e n) (clock e' n0) e'0 Hconv H Hday Hmon
           (transitivity He Hlast)).
Qed.

End Limits.

(** ** Theorems *)

(** A check that passed: the keys it was made under, and its dollars. *)
Record passed_check : Type := mkPassed { p_dayKey : string; p_monKey : string; p_usd : num }.

(** What a check of [s] is about: the dollars, then the day and the month as the
    clock is read for them. *)
Definition about_to_charge `{ConfigService} `{RateProviders} (u : string) (a : num) (c : string) (s : World) :
    option passed_check :=
  match TransactionLimitService.toUsd a c s with
  | (inr usd, s0) =>
      match TransactionLimitService.dateKey s0 with
      | (inr today, s1) =>
          match TransactionLimitService.monthKey s1 with
          | (inr month, _) => Some (mkPassed (u +:+ ":" +:+ today) (u +:+ ":" +:+ month) usd)
          | _ => None
          end
      | _ => None
      end
  | _ => None
  end.

(** Limit checks of any users in any order, among steps that leave the totals
    alone, and resets; with the checks that passed since the last reset. *)
Inductive limit_step `{ConfigService} `{RateProviders} `{LimitConstants} :
    World * list passed_check -> World * list passed_check -> Prop :=
  | step_passed u a c s s' p h :
      TransactionLimitService.check u a c s = (inr tt, s') -> about_to_charge u a c s = Some p ->
      limit_step (s, h) (s', h ++ [p])
  | step_refused u a c s x s' h :
      TransactionLimitService.check u a c s = (inl x, s') -> limit_step (s, h) (s', h)
  | step_reset s h : limit_step (s, h) ((TransactionLimitService.resetAccumulators s).2, [])
  | step_elsewhere s s' h :
      s'.(World.dailyTotals) = s.(World.dailyTotals) ->
      s'.(World.monthlyTotals) = s.(World.monthlyTotals) -> limit_step (s, h) (s', h).

(** The sum of the checks that [key] names [k], if there is one. *)
Definition sum_under (key : passed_check -> string) (h : list passed_check) (k : string) : option num :=
  match List.filter (fun p => String.eqb (key p) k) h with
  | [] => None
  | l => Some (sum_nums (map p_usd l))
  end.

Lemma sum_under_snoc key h p k :
  sum_under key (h ++ [p]) k =
    if String.eqb (key p) k then Some (num_add (default (num_of_Z 0) (sum_under key h k)) (p_usd p)) else sum_under key h k.
Proof.
  unfold sum_under. rewrite List.filter_app. cbn [List.filter]. destruct (String.eqb (key p) k); [|now rewrite app_nil_r].
  destruct (List.filter _ h) as [|q l]; [reflexivity|]. cbn [app]. f_equal.
  change (q :: l ++ [p]) with ((q :: l) ++ [p]). rewrite map_app. apply (sum_nums_snoc (map p_usd (q :: l))).
Qed.

Lemma sum_nums_number l : Forall (fun x => is_finite x = true) l -> is_nan (sum_nums l) = false.
Proof.
  induction l as [|x l IH] using rev_ind; [reflexivity|]. intros Hall. apply Forall_app in Hall as [Hl Hx].
  inversion Hx as [|? ? Hf _]; subst. rewrite sum_nums_snoc. apply num_add_number; auto.
Qed.

Lemma sum_under_number key h k v :
  Forall (fun p => is_finite (p_usd p) = true) h -> sum_under key h k = Some v -> is_nan v = false.
Proof.
  intros Hall. unfold sum_under. destruct (List.filter _ h) as [|q l] eqn:E; [discriminate|]. intros [= <-].
  apply sum_nums_number. rewrite List.Forall_forall in *. intros x Hx. apply (in_map_iff p_usd (q :: l)) in Hx as (p & <- & Hp). apply Hall.
  rewrite <- E in Hp. now apply filter_In in Hp.
Qed.

Section Theorems.
Context `{CS : ConfigService} `{RP : RateProviders} `{LC : LimitConstants}.

(** A limit check that returns found the dollar amount within the
    single-transaction limit and added it to the user's totals of the day and
    of the month, both still within their limits, and changed no other total;
    one that throws changed no total. *)
Theorem check_outcomes u a c s :
  match TransactionLimitService.check u a c s with
  | (inr _, s') => charged u a c s s'
  | (inl _, s') => s'.(World.dailyTotals) = s.(World.dailyTotals) /\
                   s'.(World.monthlyTotals) = s.(World.monthlyTotals)
  end.
Proof.
  pose proof (check_spec u a c s) as Hspec. unfold wp in Hspec.
  destruct (TransactionLimitService.check u a c s) as [[x|[]] s']; [|exact Hspec].
  destruct Hspec as (e & ca & _ & ->). split; reflexivity.
Qed.

(** What a check that returns did: it compared, and inserted both totals. *)
Lemma check_passed u a c s s' p :
  TransactionLimitService.check u a c s = (inr tt, s') -> about_to_charge u a c s = Some p ->
  let day := num_add (default (num_of_Z 0) (s.(World.dailyTotals) !! p_dayKey p)) (p_usd p) in
  let mon := num_add (default (num_of_Z 0) (s.(World.monthlyTotals) !! p_monKey p)) (p_usd p) in
  num_ltb SINGLE_TX_LIMIT_USD (p_usd p) = false /\
  num_ltb DAILY_LIMIT_USD day = false /\ num_ltb MONTHLY_LIMIT_USD mon = false /\
  s'.(World.dailyTotals) = <[p_dayKey p := day]> s.(World.dailyTotals) /\
  s'.(World.monthlyTotals) = <[p_monKey p := mon]> s.(World.monthlyTotals).
Proof.
  unfold TransactionLimitService.check, about_to_charge, bind. pose proof (toUsd_frame a c s) as Hf.
  destruct (TransactionLimitService.toUsd a c s) as [[x|usd] s0]; [discriminate|].
  cbn [snd] in Hf. destruct Hf as (e & ca & _ & ->). unfold throw_if. destruct (num_ltb SINGLE_TX_LIMIT_USD usd) eqn:Es; [discriminate|].
  unfold TransactionLimitService.dateKey, TransactionLimitService.monthKey, bind, date_now, ret, gets.
  intros Hc [= <-]. revert Hc. cbn [p_dayKey p_monKey p_usd].
  set (day := num_add _ usd). set (mon := num_add _ usd). cbn -[num_ltb num_add].
  fold day mon. destruct (num_ltb DAILY_LIMIT_USD day); [discriminate|].
  destruct (num_ltb MONTHLY_LIMIT_USD mon); [discriminate|]. intros [= <-]. split; [exact Es|]. repeat split.
Qed.

(** What the totals are after the checks [h]. *)
Definition totals_of (s : World) (h : list passed_check) : Prop :=
  (forall k, s.(World.dailyTotals) !! k = sum_under p_dayKey h k) /\
  (forall k, s.(World.monthlyTotals) !! k = sum_under p_monKey h k).
Definition not_above (s : World) : Prop :=
  (forall k v, s.(World.dailyTotals) !! k = Some v -> num_ltb DAILY_LIMIT_USD v = false) /\
  (forall k v, s.(World.monthlyTotals) !! k = Some v -> num_ltb MONTHLY_LIMIT_USD v = false).

Lemma insert_lookup_eqb (m : gmap string num) k0 v k :
  <[k0 := v]> m !! k = if String.eqb k0 k then Some v else m !! k.
Proof.
  destruct (String.eqb_spec k0 k) as [->|Hne]; [apply lookup_insert_eq | now apply lookup_insert_ne].
Qed.

Lemma limit_step_keeps x y : limit_step x y -> totals_of x.1 x.2 /\ not_above x.1 -> totals_of y.1 y.2 /\ not_above y.1.
Proof.
  intros Hst [[Hd Hm] [Ad Am]]. destruct Hst as [u a c s s' p h Hc Hp|u a c s e s' h Hc|s h|s s' h E1 E2]; cbn [fst snd] in *.
  - destruct (check_passed _ _ _ _ _ _ Hc Hp) as (_ & Ld & Lm & Ed & Em). unfold totals_of, not_above. rewrite Ed, Em.
    split; split; intros k; rewrite insert_lookup_eqb.
    + rewrite sum_under_snoc, <- !Hd. now destruct (String.eqb_spec (p_dayKey p) k) as [->|].
    + rewrite sum_under_snoc, <- !Hm. now destruct (String.eqb_spec (p_monKey p) k) as [->|].
    + intros v. destruct (String.eqb _ _); [intros [= <-]; exact Ld | apply Ad].
    + intros v. destruct (String.eqb _ _); [intros [= <-]; exact Lm | apply Am].
  - pose proof (check_outcomes u a c s) as Ho. rewrite Hc in Ho. destruct Ho as [E1 E2].
    unfold totals_of, not_above. rewrite E1, E2. auto.
  - repeat split; intros k; cbn; [now rewrite lookup_empty..| |]; intros v Hv; now rewrite lookup_empty in Hv.
  - unfold totals_of, not_above. rewrite E1, E2. auto.
Qed.

Lemma limit_run_keeps x y : rtc limit_step x y -> totals_of x.1 x.2 /\ not_above x.1 -> totals_of y.1 y.2 /\ not_above y.1.
Proof. induction 1 as [x|x1 x2 x3 Hst _ IH]; [auto|]. intros Hx. apply IH, (limit_step_keeps _ _ Hst Hx). Qed.

(** C23 Whatever checks are made and pass, by whom, in whatever order, among
    whatever refusals and resets: every daily and every monthly total is the sum
    of the dollars of the checks that passed under it since the last reset, and
    is not above its limit as the code compares.  When the dollars of each of
    them are finite and the limits are numbers, it is at most its limit. *)
Theorem totals_stay_within_limits s s' h :
  s.(World.dailyTotals) = ∅ -> s.(World.monthlyTotals) = ∅ -> rtc limit_step (s, []) (s', h) ->
  (forall k, s'.(World.dailyTotals) !! k = sum_under p_dayKey h k) /\
  (forall k, s'.(World.monthlyTotals) !! k = sum_under p_monKey h k) /\
  (forall k v, s'.(World.dailyTotals) !! k = Some v -> num_ltb DAILY_LIMIT_USD v = false) /\
  (forall k v, s'.(World.monthlyTotals) !! k = Some v -> num_ltb MONTHLY_LIMIT_USD v = false) /\
  (Forall (fun p => is_finite (p_usd p) = true) h -> is_nan DAILY_LIMIT_USD = false -> is_nan MONTHLY_LIMIT_USD = false ->
    (forall k v, s'.(World.dailyTotals) !! k = Some v -> num_leb v DAILY_LIMIT_USD = true) /\
    (forall k v, s'.(World.monthlyTotals) !! k = Some v -> num_leb v MONTHLY_LIMIT_USD = true)).
Proof.
  intros E1 E2 Hrun.
  assert (Hinv : totals_of (s', h).1 (s', h).2 /\ not_above (s', h).1).
  { apply (limit_run_keeps _ _ Hrun). unfold totals_of, not_above. cbn [fst snd]. rewrite E1, E2.
    repeat split; intros k; [now rewrite lookup_empty..| |]; intros v Hv; now rewrite lookup_empty in Hv. }
  destruct Hinv as [[Hd Hm] [Ad Am]]. cbn [fst snd] in *. do 4 (split; [assumption|]). intros Hf Hnd Hnm.
  split; intros k v Hv; apply num_ltb_false_leb; try assumption; [|eapply Ad, Hv| |eapply Am, Hv].
  - rewrite Hd in Hv. eapply sum_under_number; eassumption.
  - rewrite Hm in Hv. eapply sum_under_number; eassumption.
Qed.
End Theorems.

Definition quiet_config : ConfigService := {|
  config_number _ := None; config_string _ := None; config_bool _ := None; config_list _ := None
|}.
Definition silent_providers : RateProviders := {|
  openexchangerates_rates _ _ := ∅; exchangeratehost_quotes _ _ := None
|}.
#[local] Existing Instances quiet_config silent_providers default_limits.

(** The results of a sequence of checks of one user, in dollars. *)
Fixpoint run_checks (u : string) (amounts : list num) (s : World) : list bool :=
  match amounts with
  | [] => []
  | a :: l =>
      match TransactionLimitService.check u a "USD" s with
      | (r, s') => (match r with inr _ => true | inl _ => false end) :: run_checks u l s'
      end
  end.

(** One amount that is not a number switches the limits off: 25,000
    dollars pass twice a day and not a third time, but after an unparsable
    amount (which passes) every one of them does. *)
Theorem nan_switches_limits_off :
  let a := num_of_Z 25000 in
  run_checks "alice" [a; a; a] demo_world = [true; true; false] /\
  run_checks "alice" [num_nan; a; a; a; a] demo_world = [true; true; true; true; true].
Proof. vm_compute. split; reflexivity. Qed.

Lemma totals_stay_within_limits_witness :
  let s' := (TransactionLimitService.check "alice" (num_of_Z 20000) "USD" demo_world).2 in
  option_map num_to_string (s'.(World.dailyTotals) !! day_key "alice" (clock demo_env 0)) = Some "20000" /\
  forall k v, s'.(World.dailyTotals) !! k = Some v -> num_leb v (num_of_Z 50000) = true.
Proof.
  set (s' := (TransactionLimitService.check _ _ _ _).2). split; [vm_compute; reflexivity|].
  pose (p := mkPassed (day_key "alice" (clock demo_env 0)) (month_key "alice" (clock demo_env 1)) (num_of_Z 20000)).
  refine (proj1 (proj2 (proj2 (proj2 (proj2 (totals_stay_within_limits demo_world s' [p] eq_refl eq_refl _)))) _ _ _)).
  - apply rtc_once. refine (step_passed "alice" (num_of_Z 20000) "USD" demo_world s' p [] _ _); [|vm_compute; reflexivity].
    unfold s'. destruct (TransactionLimitService.check _ _ _ _) as [[x|[]] s2] eqn:E; [exfalso | reflexivity].
    apply (f_equal (fun r => match r.1 with inl _ => false | _ => true end)) in E. vm_compute in E. discriminate.
  - repeat constructor.
  - reflexivity.
  - reflexivity.
Defined.
