(* ===== verification/Transactions.v ===== *)
(** transactions/transactions.service.ts: transfers, deposits, withdrawals and
    swaps, their history, cancellation and reversal.  The service moves money
    only through the wallet service it is given ([WalletsApi]). *)
From S2P Require Import Prelude JsNumber Effects RepositoryLaws JsData ThirdParty Entities World Wallets Accounts QueryBuilder Fees Limits.
Local Open Scope Z_scope.

Record TransferDto : Type := mkTransfer {
  senderId : string;
  receiverId : string;
  t_amount : num;
  t_currency : string;
  t_reference : string;
  t_metadata : list (string * json)
}.

(** The dates are what Postgres parses the strings to. *)
Record TransactionFilters : Type := mkFilters {
  f_userId : option string;
  f_status : option TransactionStatus.TransactionStatus;
  f_currency : option string;
  f_receiptNumber : option string;
  f_startDate : option Z;
  f_endDate : option Z;
  f_type : option string;
  f_page : option Z;
  f_limit : option Z
}.
Definition no_filters : TransactionFilters := mkFilters None None None None None None None None None.

Record SwapPreviewDto : Type := mkSwapPreview {
  sp_userId : string;
  sp_fromAmount : num;
  sp_fromCurrency : string;
  sp_toCurrency : string
}.

Record SwapPreviewResponse : Type := mkSwapPreviewResponse {
  spr_fromCurrency : string;
  spr_toCurrency : string;
  spr_fromAmount : num;
  spr_toAmount : num;
  spr_rate : num
}.

Record ReverseTransactionInput : Type := mkReverse { reversedBy : string; reason : string }.

Record DepositDto : Type := mkDeposit {
  d_userId : string;
  d_amount : num;
  d_currency : string;
  d_reference : string;
  d_metadata : list (string * json)
}.

Record WithdrawalDto : Type := mkWithdrawal {
  w_userId : string;
  w_amount : num;
  w_currency : string;
  w_reference : string;
  w_destinationAddress : string;
  w_metadata : list (string * json)
}.

Record SwapDto : Type := mkSwap {
  s_userId : string;
  s_fromAmount : num;
  s_fromCurrency : string;
  s_toAmount : num;
  s_toCurrency : string;
  s_reference : string;
  s_metadata : list (string * json)
}.

(** What [findHistory] answers. *)
Record History : Type := mkHistory {
  items : list Transaction.Transaction;
  total : Z;
  page : Z;
  limit : Z
}.

Record SimulateDto : Type := mkSimulate {
  sim_type : string;
  sim_amount : num;
  sim_fromCurrency : string;
  sim_toCurrency : option string
}.

Record Simulation : Type := mkSimulation {
  simulationId : string;
  simulationType : string;
  inputAmount : num;
  estimatedOutput : num;
  simulatedFee : num;
  estimatedSlippagePct : num;
  route : list string;
  simulationStatus : string
}.

Definition MAX_RETRIES : nat := 3.

(** A double quote, for CSV cells. *)
Definition dquote : string := String (ascii_of_nat 34) "".
Definition quoted (s : string) : string := dquote +:+ s +:+ dquote.
Definition newline : string := String (ascii_of_nat 10) "".

(** [metadata->>'key'] of Postgres on the values the code stores. *)
Definition json_text (j : json) : option string :=
  match j with
  | JStr s => Some s
  | JBool b => Some (if b then "true" else "false")
  | JNum n => Some (num_to_string n)
  | _ => None
  end.

Module TransactionsService.
Section Service.
Context `{W : WalletsApi} `{CS : ConfigService} `{RP : RateProviders} `{LC : LimitConstants}
  `{SS : Horizon} `{RX : Radix36}.
Notation Tx := Transaction.Transaction.

Definition onModuleInit : M World unit :=
  if opt_truthy (config_string "STELLAR_HOT_WALLET_SECRET") then ret tt
  else throw (PlainError ("[STARTUP BLOCKED] STELLAR_HOT_WALLET_SECRET is not configured. " +:+
                "Set it in your environment variables before starting the server.")).

Definition getStellarSecretKey : M World string :=
  match config_string "STELLAR_HOT_WALLET_SECRET" with
  | Some secret =>
      if str_truthy secret then ret secret
      else throw (BadRequestException "Stellar secret key is not configured")
  | None => throw (BadRequestException "Stellar secret key is not configured")
  end.

(** [txRepo.create({...})]: the given fields, the columns' defaults. *)
Definition create_tx (sender receiver : string) (amount : num) (currency : string) (fee : num)
    (reference : string) (metadata : list (string * json)) : Tx :=
  Transaction.mk "" sender receiver amount currency fee TransactionStatus.PENDING reference None
    metadata 0 None None None None None None 0 None [] None None None.

(** The next value of transaction_receipt_seq. *)
Definition nextval : M World Z :=
  db_call ;;;
  let* seq := gets World.receipt_seq in
  modify (fun w => w <| World.receipt_seq := seq + 1 |>) ;;;
  ret seq.

Definition receipt_number (year : Z) (digits : string) : string :=
  "NXF-" +:+ string_of_Z year +:+ "-" +:+ digits.

Definition generateReceiptNumber (tx : Tx) : M World Tx :=
  let* number :=
    try_catch
      (let* seq := nextval in
       let* now := date_now in
       ret (receipt_number (getFullYear now) (pad_start_zero 6 (string_of_Z seq))))
      (fun _ =>
       let* now := date_now in
       let* now' := date_now in
       ret (receipt_number (getFullYear now) (slice_last 6 (string_of_Z now')))) in
  save (tx <| Transaction.receiptNumber := Some number |>).

(** The two postings and the completion of a transfer, in one callback; [tx]
    is the caller's variable, assigned before [manager.save]. *)
Definition transfer_callback (dto : TransferDto) (tx : Tx) : M World (Tx * (exn + unit)) :=
  let* moved := attempt
    (adjustBalance (senderId dto) (t_currency dto) (- t_amount dto)%num ;;;
     adjustBalance (receiverId dto) (t_currency dto) (t_amount dto) ;;;
     date_now) in
  match moved with
  | inl err => ret (tx, inl err)
  | inr now =>
      let tx := tx <| Transaction.status := TransactionStatus.COMPLETED |>
                   <| Transaction.completedAt := Some now |> in
      let* saved := attempt (save tx) in
      ret match saved with
          | inl err => (tx, inl err)
          | inr tx => (tx, inr tt)
          end
  end.

(** Phase 2: the transaction, whose failure is logged and leaves the record
    PENDING. *)
Definition transfer_settle (dto : TransferDto) (tx : Tx) : M World Tx :=
  let* ' (tx, outcome) :=
    transaction_local (rollback_table (E:=Tx)) tx (transfer_callback dto) in
  match outcome with
  | inl _ => ret tx
  | inr _ =>
      emit "transactions.completed"
        (JObj [("transactionId", JStr tx.(Transaction.id)); ("senderId", JStr tx.(Transaction.senderId));
               ("receiverId", JStr tx.(Transaction.receiverId)); ("amount", JNum tx.(Transaction.amount));
               ("currency", JStr tx.(Transaction.currency)); ("reference", JStr tx.(Transaction.reference))]) ;;;
      ret tx
  end.

Definition transfer (dto : TransferDto) : M World Tx :=
  TermsAcceptanceService.ensureAccepted (senderId dto) ;;;
  let* isDeactivated := UserDeactivationService.isUserDeactivated (senderId dto) in
  throw_if isDeactivated
    (ForbiddenException "Account has been deactivated. Cannot perform transactions.") ;;;
  throw_if (t_amount dto <=? num_of_Z 0)%num (BadRequestException "Transfer amount must be positive") ;;;
  throw_if (String.eqb (senderId dto) (receiverId dto))
    (BadRequestException "Sender and receiver must differ") ;;;
  let* senderBalance := getBalance (senderId dto) (t_currency dto) in
  throw_if (senderBalance.(WalletBalance.balance) <? t_amount dto)%num
    (BadRequestException "Insufficient balance") ;;;
  (* phase 1: a PENDING record before any balance changes *)
  let* tx := save (create_tx (senderId dto) (receiverId dto) (t_amount dto) (t_currency dto)
                     (num_of_Z 0) (t_reference dto) (t_metadata dto)) in
  let* tx := generateReceiptNumber tx in
  transfer_settle dto tx.

Definition DEFAULT_LIMIT : Z := 20.
Definition MAX_LIMIT : Z := 100.

Definition effective_limit (limit : option Z) : Z :=
  Z.min (Z.max (default DEFAULT_LIMIT limit) 1) MAX_LIMIT.

Definition history_matches (filters : TransactionFilters) (tx : Tx) : bool :=
  and_where (f_userId filters) str_truthy
    (fun uid => String.eqb tx.(Transaction.senderId) uid || String.eqb tx.(Transaction.receiverId) uid) &&
  and_where (f_status filters) (fun _ => true)
    (fun status => TransactionStatus.eqb tx.(Transaction.status) status) &&
  and_where (f_currency filters) str_truthy (fun c => String.eqb tx.(Transaction.currency) c) &&
  and_where (f_receiptNumber filters) str_truthy
    (fun r => opt_eqb String.eqb tx.(Transaction.receiptNumber) (Some r)) &&
  and_where (f_startDate filters) (fun _ => true) (fun d => d <=? tx.(Transaction.createdAt)) &&
  and_where (f_endDate filters) (fun _ => true) (fun d => tx.(Transaction.createdAt) <=? d) &&
  and_where (f_type filters) str_truthy
    (fun ty => match obj_get "type" tx.(Transaction.metadata) with
               | Some j => opt_eqb String.eqb (json_text j) (Some ty)
               | None => false
               end).

Definition findHistory (filters : TransactionFilters) : M World History :=
  let page := default 1 (f_page filters) in
  let effectiveLimit := effective_limit (f_limit filters) in
  let* ' (found, total) :=
    getManyAndCount (history_matches filters) Transaction.createdAt
      ((page - 1) * effectiveLimit) effectiveLimit in
  ret (mkHistory found total page effectiveLimit).

Definition findById (id : string) : M World Tx :=
  let* tx := findOne (fun tx => String.eqb tx.(Transaction.id) id) in
  match tx with
  | None => throw (NotFoundException ("Transaction " +:+ id +:+ " not found"))
  | Some tx => ret tx
  end.

Definition updateTags (id userId : string) (tag : option string) (tags : option (list string)) :
    M World Tx :=
  let* tx := findById id in
  throw_if (negb (String.eqb tx.(Transaction.senderId) userId))
    (BadRequestException "Only the sender can tag a transaction") ;;;
  let tx := match tag with Some t => tx <| Transaction.tag := Some t |> | None => tx end in
  let tx := match tags with Some l => tx <| Transaction.tags := Some l |> | None => tx end in
  save tx.

Definition set_all (o : list (string * json)) (more : list (string * json)) : list (string * json) :=
  obj_spread o more.

(** [tx.id] in the initializer of [const tx]: the temporal dead zone. *)
Definition tx_id_before_initialization : M World string :=
  throw (ReferenceError "Cannot access 'tx' before initialization").

Definition createDeposit (dto : DepositDto) : M World Tx :=
  TermsAcceptanceService.ensureAccepted (d_userId dto) ;;;
  let* fee := FeesService.calculateFee (d_amount dto) in
  let totalChecked := (d_amount dto + FeesService.feeAmount fee)%num in
  TransactionLimitService.check (d_userId dto) totalChecked (d_currency dto) ;;;
  let* fullTransactionId := tx_id_before_initialization in
  let* tx := save (create_tx (d_userId dto) (d_userId dto) (d_amount dto) (d_currency dto)
      (FeesService.feeAmount fee) (d_reference dto)
      (set_all (d_metadata dto)
         [("type", JStr "deposit"); ("fullTransactionId", JStr fullTransactionId)])) in
  let* tx := generateReceiptNumber tx in
  let* credited := attempt (adjustBalance (d_userId dto) (d_currency dto) (d_amount dto)) in
  let fail (tx : Tx) (err : exn) :=
    save (tx <| Transaction.status := TransactionStatus.FAILED |>) ;;;
    AuditService.log (AuditService.event (d_userId dto) "transaction.deposit.failed" "transaction"
      tx.(Transaction.id) [("error", JStr (message_of err))]) ;;;
    throw err in
  match credited with
  | inl err => fail tx err
  | inr _ =>
      let* now := date_now in
      let tx := tx <| Transaction.status := TransactionStatus.COMPLETED |>
                   <| Transaction.completedAt := Some now |> in
      try_catch
        (save tx ;;;
         UsersService.invalidateWalletBalanceCache (d_userId dto) ;;;
         emit "transactions.deposit.completed"
           (JObj [("transactionId", JStr tx.(Transaction.id)); ("userId", JStr (d_userId dto))]) ;;;
         ret tx)
        (fail tx)
  end.

(** StellarService.accountExists: an unfunded account and a failed request
    are the same answer, kept for a minute. *)
Definition accountExists (address : string) : M World bool :=
  let* n := gets (fun w => calls (World.env w)) in
  db_call ;;;
  match horizon_cache n ("stellar:account-exists:" +:+ address) with
  | Some cached => ret cached
  | None =>
      try_catch
        (let* n := gets (fun w => calls (World.env w)) in
         db_call ;;;
         throw_if (negb (horizon_ok n ("/accounts/" +:+ address)))
           (PlainError "Request failed with status code 404") ;;;
         db_call ;;;
         ret true)
        (fun _ => db_call ;;; ret false)
  end.

(** The [catch] block: restore the deducted balance, mark the row FAILED,
    leave an audit entry, rethrow. *)
Definition withdrawal_refund (dto : WithdrawalDto) (totalChecked : num) (tx : Tx) (err : exn) : M World Tx :=
  adjustBalance (w_userId dto) (w_currency dto) totalChecked ;;;
  save (tx <| Transaction.status := TransactionStatus.FAILED |>) ;;;
  AuditService.log (AuditService.event (w_userId dto) "transaction.withdrawal.failed_refunded"
    "transaction" tx.(Transaction.id)
    [("refundedAmount", JNum totalChecked); ("error", JStr (message_of err))]) ;;;
  throw err.

(** The [try] statement after the balance was deducted. *)
Definition withdrawal_submit (dto : WithdrawalDto) (totalChecked : num) (tx : Tx) : M World Tx :=
  let* now := date_now in
  let tx := tx <| Transaction.status := TransactionStatus.COMPLETED |>
               <| Transaction.completedAt := Some now |> in
  try_catch
    (save tx ;;;
     UsersService.invalidateWalletBalanceCache (w_userId dto) ;;;
     emit "transactions.withdrawal.completed"
       (JObj [("transactionId", JStr tx.(Transaction.id)); ("userId", JStr (w_userId dto))]) ;;;
     ret tx)
    (withdrawal_refund dto totalChecked tx).

Definition createWithdrawal (dto : WithdrawalDto) : M World Tx :=
  let* fee := FeesService.calculateFee (w_amount dto) in
  TermsAcceptanceService.ensureAccepted (w_userId dto) ;;;
  let* destinationExists := accountExists (w_destinationAddress dto) in
  throw_if (negb destinationExists)
    (BadRequestException ("Destination Stellar account (" +:+ w_destinationAddress dto +:+
       ") is not funded. The recipient account must have a minimum balance of 1 XLM.")) ;;;
  let totalChecked := (w_amount dto + FeesService.feeAmount fee)%num in
  TransactionLimitService.check (w_userId dto) totalChecked (w_currency dto) ;;;
  let* balance := getBalance (w_userId dto) (w_currency dto) in
  throw_if (balance.(WalletBalance.balance) <? totalChecked)%num
    (BadRequestException "Insufficient balance including fee") ;;;
  let* tx := save (create_tx (w_userId dto) (w_userId dto) (w_amount dto) (w_currency dto)
      (FeesService.feeAmount fee) (w_reference dto)
      (set_all (w_metadata dto)
         [("type", JStr "withdrawal"); ("destinationAddress", JStr (w_destinationAddress dto))])) in
  let* tx := generateReceiptNumber tx in
  adjustBalance (w_userId dto) (w_currency dto) (- totalChecked)%num ;;;
  withdrawal_submit dto totalChecked tx.

(** One round of the loop: the transaction variable as the round leaves it and
    how the [try] block ended. *)
Definition swap_attempt (dto : SwapDto) (fee : FeesService.FeeResult) (tx : Tx) (attemptNo : Z) :
    M World (Tx * (exn + unit)) :=
  let* credited := attempt
    (adjustBalance (s_userId dto) (s_toCurrency dto) (s_toAmount dto) ;;; date_now) in
  match credited with
  | inl err => ret (tx, inl err)
  | inr now =>
      let tx := tx <| Transaction.status := TransactionStatus.COMPLETED |>
                   <| Transaction.completedAt := Some now |>
                   <| Transaction.retryCount := attemptNo |> in
      let* r := attempt
        (save tx ;;;
         FeesService.recordFee (FeesService.mkRecordFee tx.(Transaction.id) (s_userId dto) "swap"
           (s_fromAmount dto) (FeesService.feeAmount fee) (s_fromCurrency dto) (FeesService.reason fee)) ;;;
         emit "transactions.swap.completed"
           (JObj [("transactionId", JStr tx.(Transaction.id)); ("userId", JStr (s_userId dto))])) in
      ret (tx, r)
  end.

(** [for (let attempt = 0; attempt < MAX_RETRIES; attempt++)]: the completed
    transaction, or the variable and the last error after all rounds. *)
Fixpoint swap_loop (dto : SwapDto) (fee : FeesService.FeeResult) (rounds : nat) (attemptNo : Z)
    (tx : Tx) (lastError : option exn) : M World (Tx + (Tx * option exn)) :=
  match rounds with
  | O => ret (inr (tx, lastError))
  | S rounds' =>
      let* ' (tx, r) := swap_attempt dto fee tx attemptNo in
      match r with
      | inr _ => ret (inl tx)
      | inl err =>
          let tx := tx <| Transaction.retryCount := attemptNo + 1 |> in
          (* persists the whole row, whatever its status is now *)
          save tx ;;;
          swap_loop dto fee rounds' (attemptNo + 1) tx (Some err)
      end
  end.

(** After the loop. *)
Definition swap_finish (dto : SwapDto) (totalChecked : num) (done : Tx + (Tx * option exn)) : M World Tx :=
  match done with
  | inl tx => ret tx
  | inr (tx, lastError) =>
      (* all retries exhausted: restore the balance, then write FAILED *)
      adjustBalance (s_userId dto) (s_fromCurrency dto) totalChecked ;;;
      let tx := tx <| Transaction.status := TransactionStatus.FAILED |> in
      save tx ;;;
      AuditService.log (AuditService.event (s_userId dto) "transaction.swap.failed_refunded"
        "transaction" tx.(Transaction.id)
        [("retryCount", JNum (num_of_Z tx.(Transaction.retryCount))); ("refundedAmount", JNum totalChecked);
         ("error", jopt (option_map message_of lastError))]) ;;;
      emit "transactions.swap.failed"
        (JObj [("transactionId", JStr tx.(Transaction.id)); ("userId", JStr (s_userId dto))]) ;;;
      throw (default (PlainError "undefined") lastError)
  end.

(** Up to the debit of the source: the row, the fee and what was taken. *)
Definition swap_debit (dto : SwapDto) : M World (Tx * FeesService.FeeResult * num) :=
  TermsAcceptanceService.ensureAccepted (s_userId dto) ;;;
  let* fee := FeesService.calculateFee (s_fromAmount dto) in
  let totalChecked := (s_fromAmount dto + FeesService.feeAmount fee)%num in
  TransactionLimitService.check (s_userId dto) totalChecked (s_fromCurrency dto) ;;;
  let* balance := getBalance (s_userId dto) (s_fromCurrency dto) in
  let* have := lift (new_Big balance.(WalletBalance.balance)) in
  let* need := lift (new_Big totalChecked) in
  throw_if (big_lt have need) (BadRequestException "Insufficient balance including fee") ;;;
  let* tx := save (create_tx (s_userId dto) (s_userId dto) (s_fromAmount dto) (s_fromCurrency dto)
      (FeesService.feeAmount fee) (s_reference dto)
      (set_all (s_metadata dto)
         [("type", JStr "swap"); ("toAmount", JNum (s_toAmount dto)); ("toCurrency", JStr (s_toCurrency dto))])) in
  adjustBalance (s_userId dto) (s_fromCurrency dto) (- totalChecked)%num ;;;
  ret (tx, fee, totalChecked).

Definition createSwap (dto : SwapDto) : M World Tx :=
  let* ' (tx, fee, totalChecked) := swap_debit dto in
  let* done := swap_loop dto fee MAX_RETRIES 0 tx None in
  swap_finish dto totalChecked done.

Definition getSwapPreview (dto : SwapPreviewDto) : M World SwapPreviewResponse :=
  throw_if (sp_fromAmount dto <=? num_of_Z 0)%num (BadRequestException "Swap amount must be positive") ;;;
  throw_if (String.eqb (sp_fromCurrency dto) (sp_toCurrency dto))
    (BadRequestException "Source and target currencies must differ") ;;;
  let* fee := FeesService.calculateFee (sp_fromAmount dto) in
  let feeAdjustedAmount := (sp_fromAmount dto - FeesService.feeAmount fee)%num in
  let* random := math_random in
  let rate := fixed_num 6 (num_of_ratio 85 100 + random * num_of_ratio 3 10)%num in
  let toAmount := fixed_num 8 (feeAdjustedAmount * rate)%num in
  ret (mkSwapPreviewResponse (sp_fromCurrency dto) (sp_toCurrency dto) (sp_fromAmount dto) toAmount rate).

Definition csv_header : string :=
  "id,reference,senderId,receiverId,amount,currency,status,createdAt" +:+ newline.

Definition csv_row (tx : Tx) : string :=
  join "," [quoted tx.(Transaction.id); quoted tx.(Transaction.reference);
            quoted tx.(Transaction.senderId); quoted tx.(Transaction.receiverId);
            num_to_string tx.(Transaction.amount); quoted tx.(Transaction.currency);
            quoted (TransactionStatus.show tx.(Transaction.status));
            quoted (toISOString tx.(Transaction.createdAt))].

Definition exportTransactionsCsv (userId : string) : M World string :=
  let* h := findHistory (mkFilters (Some userId) None None None None None None None (Some 1000)) in
  ret (csv_header +:+ join newline (map csv_row (items h))).

Definition createInternalTransfer (sender recipientEmail : string) (amount : num) (currency : string) :
    M World Tx :=
  let* recipient := UsersService.findByEmail recipientEmail in
  match recipient with
  | None => throw (NotFoundException ("Recipient with email " +:+ recipientEmail +:+ " not found"))
  | Some recipient =>
      let* now := date_now in
      transfer (mkTransfer sender recipient.(User.id) amount currency ("int_" +:+ string_of_Z now)
                  [("isInternalTransfer", JBool true); ("recipientEmail", JStr recipientEmail)])
  end.

Definition simulateTransaction (dto : SimulateDto) : M World Simulation :=
  let* fee := FeesService.calculateFee (sim_amount dto) in
  let estimatedOutput :=
    if opt_truthy (sim_toCurrency dto) then fixed_num 4 (sim_amount dto * num_of_ratio 985 1000)%num
    else sim_amount dto in
  let* now := date_now in
  ret (mkSimulation ("sim_" +:+ string_of_Z now) (sim_type dto) (sim_amount dto) estimatedOutput
         (FeesService.feeAmount fee) (num_of_ratio 15 100)
         (match sim_toCurrency dto with
          | Some c => if str_truthy c then [sim_fromCurrency dto; c] else [sim_fromCurrency dto]
          | None => [sim_fromCurrency dto]
          end) "SIMULATION_SUCCESS").

Definition cancelTransaction (id : string) : M World Tx :=
  let* tx := findById id in
  throw_if (negb (TransactionStatus.eqb tx.(Transaction.status) TransactionStatus.PENDING))
    (UnprocessableEntityException ("Transaction " +:+ id +:+ " cannot be cancelled (current status: " +:+
       TransactionStatus.show tx.(Transaction.status) +:+ ")")) ;;;
  let tx := tx <| Transaction.status := TransactionStatus.CANCELLED |> in
  save tx ;;;
  emit "transactions.cancelled" (JObj [("transactionId", JStr tx.(Transaction.id))]) ;;;
  ret tx.

(** [Number(new Big(amount).toFixed(8))] and the same of [.neg()]. *)
Definition amount_number (amount : num) : exn + num :=
  match new_Big amount with
  | inl x => inl x
  | inr b => inr (number_of_string (big_toFixed 8 b))
  end.
Definition negated_amount_number (amount : num) : exn + num :=
  match new_Big amount with
  | inl x => inl x
  | inr b => inr (number_of_string (big_toFixed 8 (big_neg b)))
  end.

(** MailService.sendTransactionReversalNotice, not awaited. *)
Definition sendTransactionReversalNotice (to transactionId : string) (input : ReverseTransactionInput) :
    M World unit :=
  emit "mail.transaction-reversal"
    (JObj [("to", JStr to); ("transactionId", JStr transactionId);
           ("reversedBy", JStr (reversedBy input)); ("reason", JStr (reason input))]).

Definition reverse_callback (transaction : Tx) (input : ReverseTransactionInput) : M World Tx :=
  let* back := lift (amount_number transaction.(Transaction.amount)) in
  adjustBalance transaction.(Transaction.senderId) transaction.(Transaction.currency) back ;;;
  let* taken := lift (negated_amount_number transaction.(Transaction.amount)) in
  adjustBalance transaction.(Transaction.receiverId) transaction.(Transaction.currency) taken ;;;
  let* now := date_now in
  let reversal :=
    (create_tx transaction.(Transaction.receiverId) transaction.(Transaction.senderId)
      transaction.(Transaction.amount) transaction.(Transaction.currency) (num_of_Z 0)
      (transaction.(Transaction.reference) +:+ "-reversal")
      [("reversalOf", JStr transaction.(Transaction.id)); ("reason", JStr (reason input))])
    <| Transaction.status := TransactionStatus.REVERSED |>
    <| Transaction.completedAt := Some now |> in
  let* savedReversal := save reversal in
  let* now' := date_now in
  let transaction :=
    transaction <| Transaction.status := TransactionStatus.REVERSED |>
                <| Transaction.reversedAt := Some now' |>
                <| Transaction.reversedBy := Some (reversedBy input) |>
                <| Transaction.reversalReason := Some (reason input) |>
                <| Transaction.reversalTransactionId := Some savedReversal.(Transaction.id) |> in
  save transaction ;;;
  let* sender := UsersService.findById transaction.(Transaction.senderId) in
  let* receiver := UsersService.findById transaction.(Transaction.receiverId) in
  sendTransactionReversalNotice sender.(User.email) transaction.(Transaction.id) input ;;;
  sendTransactionReversalNotice receiver.(User.email) transaction.(Transaction.id) input ;;;
  AuditService.log (AuditService.event (reversedBy input) "transaction.reversed" "transaction"
    transaction.(Transaction.id)
    [("reversalTransactionId", JStr savedReversal.(Transaction.id)); ("reason", JStr (reason input))]) ;;;
  emit "transactions.reversed"
    (JObj [("transactionId", JStr transaction.(Transaction.id));
           ("reversalTransactionId", JStr savedReversal.(Transaction.id));
           ("reversedBy", JStr (reversedBy input)); ("reason", JStr (reason input))]) ;;;
  ret transaction.

Definition reverseTransaction (id : string) (input : ReverseTransactionInput) : M World Tx :=
  let* transaction := findById id in
  throw_if (match transaction.(Transaction.reversedAt) with Some _ => true | None => false end)
    (UnprocessableEntityException "Transaction has already been reversed") ;;;
  dataSource_transaction (rollback_table (E:=Tx)) (reverse_callback transaction input).

Definition addComment (transactionId authorId text : string) : M World Comment.Comment :=
  findById transactionId ;;;
  let* now := date_now in
  let* random := math_random in
  let* now' := date_now in
  let comment := Comment.mk ("cmt_" +:+ string_of_Z now +:+ "_" +:+ slice 2 7 (toString36 random))
                   authorId text now' in
  modify (fun w => w <| World.transactionComments :=
    <[transactionId := default [] (w.(World.transactionComments) !! transactionId) ++ [comment]]>
      w.(World.transactionComments) |>) ;;;
  ret comment.

Definition getComments (transactionId : string) : M World (list Comment.Comment) :=
  findById transactionId ;;;
  gets (fun w => default [] (w.(World.transactionComments) !! transactionId)).
End Service.
End TransactionsService.
