(* ===== verification/Disputes.v ===== *)
(** disputes/disputes.service.ts: the disputes users file, escalate and discuss
    (DisputeEntity with its messages) and the disputes on completed transactions
    that an administrator decides or that close by themselves (Dispute).  Both
    entities declare the table "disputes": one table with the columns of both
    holds the rows of either, and what one writes the other reads.  The column of
    the status is text, as entities/dispute.entity.ts has it; dispute.entity.ts
    declares an enum without the value 'escalated'. *)
From S2P Require Import Prelude JsNumber Effects RepositoryLaws JsData Entities World QueryBuilder CoreCalls WithTransaction Lifecycle Transactions.
Local Open Scope Z_scope.

(** The type [DisputeStatus] of entities/dispute.entity.ts. *)
Module FiledStatus.
Inductive FiledStatus : Type := open | under_review | escalated | resolved | rejected.
Definition eqb (a b : FiledStatus) : bool :=
  match a, b with
  | open, open | under_review, under_review | escalated, escalated | resolved, resolved | rejected, rejected => true
  | _, _ => false
  end.
Definition show (a : FiledStatus) : string :=
  match a with
  | open => "open"
  | under_review => "under_review"
  | escalated => "escalated"
  | resolved => "resolved"
  | rejected => "rejected"
  end.
Lemma FiledStatus_eqb_eq a b : eqb a b = true <-> a = b.
Proof. destruct a, b; simpl; split; congruence. Qed.
End FiledStatus.

(** The enum [DisputeStatus] of dispute.entity.ts. *)
Module DisputeStatus.
Inductive DisputeStatus : Type := OPEN | UNDER_REVIEW | RESOLVED | REJECTED.
Definition eqb (a b : DisputeStatus) : bool :=
  match a, b with
  | OPEN, OPEN | UNDER_REVIEW, UNDER_REVIEW | RESOLVED, RESOLVED | REJECTED, REJECTED => true
  | _, _ => false
  end.
Definition show (a : DisputeStatus) : string :=
  match a with
  | OPEN => "open"
  | UNDER_REVIEW => "under_review"
  | RESOLVED => "resolved"
  | REJECTED => "rejected"
  end.
Lemma DisputeStatus_eqb_eq a b : eqb a b = true <-> a = b.
Proof. destruct a, b; simpl; split; congruence. Qed.
End DisputeStatus.

(** disputes/entities/dispute.entity.ts and, for [resolution], dispute.entity.ts. *)
Module DisputeEntity.
Record DisputeEntity : Type := mk {
  id : string;
  userId : string;
  transactionId : string;
  reason : string;
  description : option string;
  status : FiledStatus.FiledStatus;
  assignedTo : option string;
  escalationLevel : Z;
  resolution : option string;
  createdAt : Z;
  updatedAt : Z;
  resolvedAt : option Z
}.
#[global] Instance settable : Settable DisputeEntity := fun r =>
  mk r.(id) r.(userId) r.(transactionId) r.(reason) r.(description) r.(status)
     r.(assignedTo) r.(escalationLevel) r.(resolution) r.(createdAt) r.(updatedAt) r.(resolvedAt).
End DisputeEntity.

#[global] Program Instance DisputeEntity_row : Row DisputeEntity.DisputeEntity := {|
  row_id := DisputeEntity.id;
  set_row_id i e := e <| DisputeEntity.id := i |>;
  created t e := e <| DisputeEntity.createdAt := t |> <| DisputeEntity.updatedAt := t |>;
  touched t e := e <| DisputeEntity.updatedAt := t |>;
  live e := true;
  clash a b := false
|}.

(** disputes/entities/dispute-message.entity.ts *)
Module DisputeMessageEntity.
Record DisputeMessageEntity : Type := mk {
  id : string;
  disputeId : string;
  senderId : string;
  senderRole : string;
  message : string;
  createdAt : Z
}.
#[global] Instance settable : Settable DisputeMessageEntity := fun r =>
  mk r.(id) r.(disputeId) r.(senderId) r.(senderRole) r.(message) r.(createdAt).
End DisputeMessageEntity.

#[global] Program Instance DisputeMessageEntity_row : Row DisputeMessageEntity.DisputeMessageEntity := {|
  row_id := DisputeMessageEntity.id;
  set_row_id i e := e <| DisputeMessageEntity.id := i |>;
  created t e := e <| DisputeMessageEntity.createdAt := t |>;
  touched t e := e;
  live e := true;
  clash a b := false
|}.

(** What the enum's values are in the table. *)
Definition column (a : DisputeStatus.DisputeStatus) : FiledStatus.FiledStatus :=
  match a with
  | DisputeStatus.OPEN => FiledStatus.open
  | DisputeStatus.UNDER_REVIEW => FiledStatus.under_review
  | DisputeStatus.RESOLVED => FiledStatus.resolved
  | DisputeStatus.REJECTED => FiledStatus.rejected
  end.

Notation Disp := DisputeEntity.DisputeEntity.
Notation Message := DisputeMessageEntity.DisputeMessageEntity.

Module DisputeStore.
Record DisputeStore : Type := mk {
  core_world : World;
  disputes : list DisputeEntity.DisputeEntity;
  messages : list DisputeMessageEntity.DisputeMessageEntity
}.
#[global] Instance settable : Settable DisputeStore := fun r =>
  mk r.(core_world) r.(disputes) r.(messages).
End DisputeStore.

#[global] Program Instance DisputeStore_world : HasWorld DisputeStore.DisputeStore := {|
  world_of := DisputeStore.core_world;
  set_world w s := s <| DisputeStore.core_world := w |>
|}.

#[global] Program Instance DisputeStore_messages : Table DisputeStore.DisputeStore DisputeMessageEntity.DisputeMessageEntity := {|
  rows := DisputeStore.messages;
  set_rows t w := w <| DisputeStore.messages := t |>
|}.

#[global] Program Instance DisputeStore_disputes : Table DisputeStore.DisputeStore DisputeEntity.DisputeEntity := {|
  rows := DisputeStore.disputes;
  set_rows t w := w <| DisputeStore.disputes := t |>
|}.

Notation Store := DisputeStore.DisputeStore.

Record FileDisputeDto : Type := mkFile { f_transactionId : string; f_reason : string; f_description : option string }.
Record EscalateDisputeDto : Type := mkEscalate { assignTo : option string }.
Record OpenDisputeDto : Type := mkOpen { o_transactionId : string; o_userId : string; o_reason : string }.
Inductive Verdict : Type := Resolved | Rejected.
Definition status_of (v : Verdict) : DisputeStatus.DisputeStatus :=
  match v with Resolved => DisputeStatus.RESOLVED | Rejected => DisputeStatus.REJECTED end.
Record ResolveDisputeDto : Type := mkResolve { r_status : Verdict; r_resolution : string }.

(** The answers' [data]; [meta] of a list. *)
Record Meta : Type := mkMeta { m_page : Z; m_limit : Z; m_total : Z; m_totalPages : num }.

(** [Math.ceil(total / limit)]. *)
Definition pages (total limit : Z) : num :=
  if limit =? 0 then (if total =? 0 then num_nan else num_infinity) else num_of_Z (ceil_div total limit).

Module DisputesService.
Definition by_id (id : string) (d : Disp) : bool := String.eqb d.(DisputeEntity.id) id.
Definition of_user (id userId : string) (d : Disp) : bool :=
  by_id id d && String.eqb d.(DisputeEntity.userId) userId.
Definition not_found : exn := NotFoundException "Dispute not found".

Definition fileDispute (userId : string) (dto : FileDisputeDto) : M Store Disp :=
  let* saved := save (DisputeEntity.mk "" userId (f_transactionId dto) (f_reason dto) (f_description dto)
                        FiledStatus.open None 1 None 0 0 None) in
  let text := match f_description dto with
              | Some d => if str_truthy d then d else f_reason dto
              | None => f_reason dto
              end in
  save (DisputeMessageEntity.mk "" saved.(DisputeEntity.id) userId "user" text 0) ;;;
  emit "dispute.filed" (JObj [("disputeId", JStr saved.(DisputeEntity.id)); ("userId", JStr userId);
                              ("transactionId", JStr (f_transactionId dto))]) ;;;
  ret saved.

Definition findAllByUser (userId : string) (page limit : option Z) : M Store (list Disp * Meta) :=
  let page := default 1 page in
  let limit := default 20 limit in
  let offset := (page - 1) * limit in
  let* ' (items, total) := getManyAndCount (fun d : Disp => String.eqb d.(DisputeEntity.userId) userId)
                             DisputeEntity.createdAt offset limit in
  ret (items, mkMeta page limit total (pages total limit)).

Definition findOne (id userId : string) : M Store (Disp * list Message) :=
  let* dispute := Effects.findOne (of_user id userId) in
  match dispute with
  | None => throw not_found
  | Some dispute =>
      let* messages := find_asc (fun m => String.eqb m.(DisputeMessageEntity.disputeId) id)
                         DisputeMessageEntity.createdAt in
      ret (dispute, messages)
  end.

Definition escalate (id userId : string) (dto : EscalateDisputeDto) : M Store Disp :=
  let* found := Effects.findOne (of_user id userId) in
  match found with
  | None => throw not_found
  | Some dispute =>
      throw_if (FiledStatus.eqb dispute.(DisputeEntity.status) FiledStatus.resolved ||
                FiledStatus.eqb dispute.(DisputeEntity.status) FiledStatus.rejected)
        (PlainError "Cannot escalate a resolved or rejected dispute") ;;;
      let dispute1 := dispute <| DisputeEntity.escalationLevel := dispute.(DisputeEntity.escalationLevel) + 1 |>
                              <| DisputeEntity.status := FiledStatus.escalated |> in
      let* updated := save (if opt_truthy (assignTo dto)
                            then dispute1 <| DisputeEntity.assignedTo := assignTo dto |> else dispute1) in
      save (DisputeMessageEntity.mk "" id userId "user"
              ("Dispute escalated to level " +:+ string_of_Z updated.(DisputeEntity.escalationLevel)) 0) ;;;
      emit "dispute.escalated" (JObj [("disputeId", JStr id);
        ("escalationLevel", JNum (num_of_Z updated.(DisputeEntity.escalationLevel)));
        ("assignedTo", jopt (assignTo dto))]) ;;;
      ret updated
  end.

Definition addMessage (disputeId userId senderRole message : string) : M Store Message :=
  let* dispute := Effects.findOne (by_id disputeId) in
  match dispute with
  | None => throw not_found
  | Some _ => save (DisputeMessageEntity.mk "" disputeId userId senderRole message 0)
  end.

(** [resolve] and [reject] differ in the status and the event; both take a
    [userId] they do not use. *)
Definition resolve (id userId : string) : M Store Disp :=
  let* found := Effects.findOne (by_id id) in
  match found with
  | None => throw not_found
  | Some dispute =>
      let* now := date_now in
      let* updated := save (dispute <| DisputeEntity.status := FiledStatus.resolved |>
                                    <| DisputeEntity.resolvedAt := Some now |>) in
      emit "dispute.resolved" (JObj [("disputeId", JStr id)]) ;;;
      ret updated
  end.

Definition reject (id userId : string) : M Store Disp :=
  let* found := Effects.findOne (by_id id) in
  match found with
  | None => throw not_found
  | Some dispute =>
      let* now := date_now in
      let* updated := save (dispute <| DisputeEntity.status := FiledStatus.rejected |>
                                    <| DisputeEntity.resolvedAt := Some now |>) in
      emit "dispute.rejected" (JObj [("disputeId", JStr id)]) ;;;
      ret updated
  end.

Definition openDispute (dto : OpenDisputeDto) : M Store Disp :=
  let* tx := core (TransactionsService.findById (o_transactionId dto)) in
  throw_if (negb (TransactionStatus.eqb tx.(Transaction.status) TransactionStatus.COMPLETED))
    (BadRequestException "Disputes can only be opened on completed transactions") ;;;
  let* saved := save (DisputeEntity.mk "" (o_userId dto) (o_transactionId dto) (o_reason dto) None
                        (column DisputeStatus.OPEN) None 1 None 0 0 None) in
  emit "dispute.opened" (JObj [("disputeId", JStr saved.(DisputeEntity.id)); ("userId", JStr (o_userId dto))]) ;;;
  ret saved.

Definition findDisputeById (id : string) : M Store Disp :=
  let* dispute := Effects.findOne (fun d : Disp => String.eqb d.(DisputeEntity.id) id) in
  match dispute with
  | None => throw (NotFoundException ("Dispute " +:+ id +:+ " not found"))
  | Some dispute => ret dispute
  end.

Definition status_is (a : DisputeStatus.DisputeStatus) (d : Disp) : bool := FiledStatus.eqb d.(DisputeEntity.status) (column a).
Definition closed (d : Disp) : bool := status_is DisputeStatus.RESOLVED d || status_is DisputeStatus.REJECTED d.

Definition resolveDispute (id : string) (dto : ResolveDisputeDto) : M Store Disp :=
  let* dispute := findDisputeById id in
  throw_if (closed dispute) (BadRequestException "Dispute is already closed") ;;;
  let* now := date_now in
  let* saved := save (dispute <| DisputeEntity.status := column (status_of (r_status dto)) |>
                              <| DisputeEntity.resolution := Some (r_resolution dto) |>
                              <| DisputeEntity.resolvedAt := Some now |>) in
  emit "dispute.updated" (JObj [("disputeId", JStr saved.(DisputeEntity.id));
                                ("status", JStr (FiledStatus.show saved.(DisputeEntity.status)))]) ;;;
  ret saved.

Definition stale_after : Z := 30 * 24 * 60 * 60 * 1000.

Definition stale (cutoff : Z) (d : Disp) : bool :=
  (status_is DisputeStatus.OPEN d && (d.(DisputeEntity.createdAt) <? cutoff)) ||
  (status_is DisputeStatus.UNDER_REVIEW d && (d.(DisputeEntity.createdAt) <? cutoff)).

Definition auto_closed_row (now : Z) (dispute : Disp) : Disp :=
  dispute <| DisputeEntity.status := column DisputeStatus.RESOLVED |>
          <| DisputeEntity.resolution := Some "Auto-closed after 30 days" |>
          <| DisputeEntity.resolvedAt := Some now |>.

Definition auto_close (dispute : Disp) : M Store unit :=
  let* now := date_now in
  save (auto_closed_row now dispute) ;;;
  emit "dispute.auto_closed" (JObj [("disputeId", JStr dispute.(DisputeEntity.id)); ("userId", JStr dispute.(DisputeEntity.userId))]).

Definition autoCloseStaleDisputes : M Store unit :=
  let* now := date_now in
  let* l := find_all (stale (now - stale_after)) in
  for_each l auto_close.
End DisputesService.

(** ** The nightly job *)

(** What the job does to a row: it was open or under review. *)
Inductive night_step (d : Disp) : Disp -> Prop :=
  | step_night at_ u : DisputesService.status_is DisputeStatus.OPEN d || DisputesService.status_is DisputeStatus.UNDER_REVIEW d = true ->
      night_step d (touched u (DisputesService.auto_closed_row at_ d)).

(** No row begins here. *)
Notation evolves := (evolves (S:=Store) (fun _ => False) night_step).

Lemma left_alone d d' : DisputesService.status_is DisputeStatus.OPEN d || DisputesService.status_is DisputeStatus.UNDER_REVIEW d = false -> ~ night_step d d'.
Proof. intros Hd Hst. inversion Hst; subst. congruence. Qed.

Lemma findDisputeById_spec id Q X (s : Store) :
  (forall e x, env_step (env_of s) e -> X x (set_env e s)) ->
  (forall e d, env_step (env_of s) e -> In d (rows s) -> d.(DisputeEntity.id) = id -> Q d (set_env e s)) ->
  wp (DisputesService.findDisputeById id) Q X s.
Proof.
  intros HX HQ. unfold DisputesService.findDisputeById. wp_step. wp_step; [apply HX; assumption|].
  destruct (List.find _ _) as [d|] eqn:Hf; wp_step; [|apply HX; assumption].
  destruct (find_live_some _ _ _ Hf) as (Hin & _ & Hid). apply HQ; [assumption | exact Hin | apply String.eqb_eq, Hid].
Qed.

Definition auto_closed (d : Disp) : Prop :=
  d.(DisputeEntity.status) = FiledStatus.resolved /\ d.(DisputeEntity.resolution) = Some "Auto-closed after 30 days".

Definition failed_call (x : exn) (s : Store) : Prop := env_fault (env_of s) x.

(** One dispute of the list: what it leaves, and how it can fail. *)
Lemma auto_close_spec d (s : Store) :
  In d (rows s) -> DisputesService.status_is DisputeStatus.OPEN d || DisputesService.status_is DisputeStatus.UNDER_REVIEW d = true ->
  wp (DisputesService.auto_close d)
    (fun _ s' => both evolves later s s' /\ done_row auto_closed (row_id d) s' /\ others_kept d s s')
    (fun x s' => both evolves later s s' /\ failed_call x s) s.
Proof.
  intros Hin Hopen. unfold DisputesService.auto_close, failed_call. wp_step. wp_step. wp_step.
  apply (wp_save_step (fun _ => False) night_step d); env_norm; [exact Hin | reflexivity | | |].
  - intros u. apply step_night. exact Hopen.
  - intros e1 x He1 Hfail. split; [split; [evolves_leaf | apply later_step; env_norm; env_chain]|].
    eapply env_step_fault; [eassumption|].
    apply save_failure_fault in Hfail; [rewrite env_of_set_env in Hfail; exact Hfail | | reflexivity].
    apply existsb_exists. exists d. env_norm. split; [exact Hin | apply same_row_true; reflexivity].
  - intros u s' Hev Hrows Hstep. wp_step. split; [split; [evolves_leaf|]|split].
    + etransitivity; [apply later_step | apply emit_stable]. env_chain.
    + eexists. env_norm. rewrite Hrows. split; [apply in_upsert_self|]. repeat split.
    + intros d' Hne Hd'. env_norm. rewrite Hrows. apply in_upsert_other; [exact Hd' | exact Hne].
Qed.

Lemma stale_open cutoff d :
  DisputesService.stale cutoff d = true <->
  DisputesService.status_is DisputeStatus.OPEN d || DisputesService.status_is DisputeStatus.UNDER_REVIEW d = true /\
  d.(DisputeEntity.createdAt) < cutoff.
Proof.
  unfold DisputesService.stale, DisputesService.status_is.
  destruct (Z.ltb_spec d.(DisputeEntity.createdAt) cutoff), d.(DisputeEntity.status); simpl; intuition (discriminate || lia).
Qed.

(** A run of the job at the [n]-th reading of the clock. *)
Lemma autoClose_spec (s : Store) :
  keys_ok (rows s : list Disp) ->
  wp DisputesService.autoCloseStaleDisputes
    (fun _ s' => both evolves later s s' /\ exists n, (tick (env_of s) <= n)%nat /\
       forall d, In d (rows s : list Disp) -> DisputesService.status_is DisputeStatus.OPEN d || DisputesService.status_is DisputeStatus.UNDER_REVIEW d = true ->
         d.(DisputeEntity.createdAt) < clock (env_of s) n - DisputesService.stale_after -> done_row auto_closed (row_id d) s')
    (fun x s' => both evolves later s s' /\ failed_call x s) s.
Proof.
  intros Hk. unfold DisputesService.autoCloseStaleDisputes. wp_step. wp_step. wp_step.
  wp_step; [split; [apply env_stable; env_chain | unfold failed_call; eauto with env]|].
  match goal with Hn : (tick _ <= ?k < _)%nat |- _ => set (now := clock _ k); rename k into m; rename Hn into Hm end.
  match goal with |- wp (for_each ?l _) _ _ ?st => set (l0 := l); set (s1 := st) end.
  assert (Hs1 : both evolves later s s1) by (apply env_stable; env_chain).
  assert (Hl : forall d, In d l0 <-> In d (rows s) /\ DisputesService.status_is DisputeStatus.OPEN d || DisputesService.status_is DisputeStatus.UNDER_REVIEW d = true /\
                         d.(DisputeEntity.createdAt) < now - DisputesService.stale_after).
  { intros d. unfold l0. rewrite filter_In, andb_true_iff, stale_open. simpl. tauto. }
  assert (Herr : forall x s2 s3, both evolves later s2 s3 -> failed_call x s3 -> failed_call x s2)
    by (intros x s2 s3 [_ H3]; apply later_fault, H3).
  eapply wp_mono; [apply (wp_for_each_rows (both evolves later) _ _ _ _ auto_close_spec Herr l0 s1) | |].
  - unfold l0. apply NoDup_filter_ids, Hk.
  - intros d Hd. apply Hl in Hd as (Hin & Ho & _). unfold s1. env_norm. auto.
  - intros [] s2 (HR & Hall & _). split; [etransitivity; eassumption|].
    exists m. split; [lia|]. intros d Hin Ho Hold. apply Hall, Hl. auto.
  - intros x s2 [HR Hx]. split; [etransitivity; eassumption | exact (Herr x s s1 Hs1 Hx)].
Qed.

Lemma autoClose_evolves : keeps evolves DisputesService.autoCloseStaleDisputes.
Proof.
  intros s Hk. pose proof (autoClose_spec s Hk) as H. unfold wp in H.
  destruct (DisputesService.autoCloseStaleDisputes s) as [[x|u] s']; destruct H as [[Hev _] _]; exact (Hev Hk).
Qed.

Lemma autoClose_later : keeps later DisputesService.autoCloseStaleDisputes.
Proof. unfold DisputesService.autoCloseStaleDisputes, DisputesService.auto_close. keeps_auto. Qed.

Lemma autoClose_makes_call : makes_call DisputesService.autoCloseStaleDisputes.
Proof.
  apply makes_call_date_now. intros n. apply makes_call_bind; [apply makes_call_find_all|].
  intros l. unfold DisputesService.auto_close. keeps_auto.
Qed.

Lemma night_once d d' : rtc night_step d d' -> d' = d \/ auto_closed d'.
Proof.
  intros Hst. destruct Hst as [d|d d1 d2 H1 H2]; [left; reflexivity | right].
  destruct H2 as [d1|d1 d2 d3 H2 _]; destruct H1 as [at_ u H1]; [split; reflexivity|].
  exfalso. refine (left_alone _ _ _ H2). reflexivity.
Qed.

Lemma auto_closed_final d d' : auto_closed d -> ~ night_step d d'.
Proof. intros [Hst _]. apply left_alone. unfold DisputesService.status_is. rewrite Hst. reflexivity. Qed.

(** C35 Once the database stops failing, the nightly job closes every dispute of
    the table that is open or under review and older than thirty days, whatever
    failed before: a run that was cut short is made good by a later one, and what
    it closed stays closed.  It leaves every other row as it is: a dispute that
    was escalated is never closed by it, however old. *)
Theorem stale_disputes_eventually_close N (s : Store) d n :
  keys_ok (s.(DisputeStore.disputes)) -> clock_monotone (env_of s) -> settles N (env_of s) ->
  In d s.(DisputeStore.disputes) -> (N <= calls (env_of s) + n)%nat ->
  let after := (runs (S n) DisputesService.autoCloseStaleDisputes s).2.(DisputeStore.disputes) in
  let awaits := DisputesService.status_is DisputeStatus.OPEN d || DisputesService.status_is DisputeStatus.UNDER_REVIEW d in
  (awaits = true -> d.(DisputeEntity.createdAt) + DisputesService.stale_after < clock (env_of s) (tick (env_of s)) ->
    exists d', In d' after /\ d'.(DisputeEntity.id) = d.(DisputeEntity.id) /\ auto_closed d') /\
  (awaits = false -> In d after).
Proof.
  intros Hk Hmono HN Hin Hn after awaits. split; intros Hopen.
  2: { pose proof (keeps_runs evolves (S n) _ autoClose_evolves s) as Hev.
       apply (evolves_final _ _ _ _ _ Hev Hk Hin). intros d'. apply left_alone, Hopen. }
  intros Hold. subst after. rewrite runs_last.
  set (s1 := (runs n DisputesService.autoCloseStaleDisputes s).2).
  pose proof (keeps_runs evolves n _ autoClose_evolves s) as Hev.
  pose proof (keeps_runs later n _ autoClose_later s) as Hlater.
  pose proof (runs_calls _ n autoClose_later autoClose_makes_call s) as Hcalls. fold s1 in Hev, Hlater, Hcalls.
  assert (Hrel : reliable (env_of s1)) by (eapply settles_reliable; [exact HN | exact Hlater | lia]).
  destruct (ev_kept _ _ _ _ (Hev Hk) d Hin) as (d1 & Hd1 & Hid & Hst).
  pose proof (ev_keys _ _ _ _ (Hev Hk)) as Hk1. pose proof (autoClose_spec s1 Hk1) as Hrun. unfold wp in Hrun.
  destruct (DisputesService.autoCloseStaleDisputes s1) as [[x|u] s2] eqn:E; destruct Hrun as [[Hev2 _] Hrun];
    [exfalso; eapply reliable_no_fault; eassumption|]. simpl.
  destruct (night_once _ _ Hst) as [->|Hc].
  - destruct Hrun as (m & Hm & Hall). destruct (Hall d Hd1 Hopen) as (d2 & Hd2 & Hid2 & Hac).
    + destruct Hlater as (Hclk & _ & Htick & _). rewrite Hclk.
      pose proof (Hmono (tick (env_of s)) m) as Hle. specialize (Hle ltac:(lia)). lia.
    + exists d2. split; [exact Hd2|]. split; [exact Hid2 | exact Hac].
  - exists d1. split; [|split; [exact Hid | exact Hc]].
    apply (evolves_final _ _ _ _ _ Hev2 Hk1 Hd1). intros d2. apply auto_closed_final, Hc.
Qed.

(** ** The requests together *)

Inductive DisputeRequest : Type :=
  | RFile (userId : string) (dto : FileDisputeDto)
  | REscalate (id userId : string) (dto : EscalateDisputeDto)
  | RMessage (id userId role text : string)
  | RClose (id userId : string) (how : Verdict)
  | ROpen (dto : OpenDisputeDto)
  | RDecide (id : string) (dto : ResolveDisputeDto)
  | RNight.

Definition dispute_request (r : DisputeRequest) : M Store unit :=
  match r with
  | RFile u dto => DisputesService.fileDispute u dto ;;; ret tt
  | REscalate id u dto => DisputesService.escalate id u dto ;;; ret tt
  | RMessage id u role text => DisputesService.addMessage id u role text ;;; ret tt
  | RClose id u Resolved => DisputesService.resolve id u ;;; ret tt
  | RClose id u Rejected => DisputesService.reject id u ;;; ret tt
  | ROpen dto => DisputesService.openDispute dto ;;; ret tt
  | RDecide id dto => DisputesService.resolveDispute id dto ;;; ret tt
  | RNight => DisputesService.autoCloseStaleDisputes
  end.

Definition dispute_requests (l : list DisputeRequest) : M Store unit :=
  for_each l (fun r => attempt (dispute_request r) ;;; ret tt).

Definition opened (d : Disp) : Prop :=
  d.(DisputeEntity.status) = FiledStatus.open /\ d.(DisputeEntity.resolution) = None /\ d.(DisputeEntity.escalationLevel) = 1.

(** What a request does to a dispute: one that is not closed is escalated or gets
    its decision, and any is closed once more by [resolve] and [reject]. *)
Inductive dispute_step (d : Disp) : Disp -> Prop :=
  | step_escalate who u :
      DisputesService.closed d = false ->
      dispute_step d (touched u (d <| DisputeEntity.escalationLevel := d.(DisputeEntity.escalationLevel) + 1 |>
                                   <| DisputeEntity.status := FiledStatus.escalated |> <| DisputeEntity.assignedTo := who |>))
  | step_decide v why at_ u :
      DisputesService.closed d = false ->
      dispute_step d (touched u (d <| DisputeEntity.status := column (status_of v) |> <| DisputeEntity.resolution := Some why |>
                                   <| DisputeEntity.resolvedAt := Some at_ |>))
  | step_close v at_ u :
      dispute_step d (touched u (d <| DisputeEntity.status := column (status_of v) |> <| DisputeEntity.resolvedAt := Some at_ |>)).
Notation lives := (Lifecycle.evolves (S:=Store) opened dispute_step).

Lemma closed_step d d' : dispute_step d d' -> DisputesService.closed d = true -> DisputesService.closed d' = true.
Proof. intros [who u Hc|v why at_ u Hc|v at_ u] Hd; [congruence..|]. destruct v; reflexivity. Qed.

Lemma night_is_dispute_step d d' : night_step d d' -> dispute_step d d'.
Proof.
  intros [at_ u Ho]. apply (step_decide d Resolved). unfold DisputesService.status_is in Ho.
  unfold DisputesService.closed, DisputesService.status_is. now destruct d.(DisputeEntity.status).
Qed.

Lemma night_lives s s' : evolves s s' -> lives s s'.
Proof.
  intros Hev Hk. destruct (Hev Hk) as [Hk' Hkept Hnew]. split; [exact Hk' | |].
  - intros d Hd. destruct (Hkept d Hd) as (d' & Hd' & Hid & Hst). exists d'. split; [exact Hd'|]. split; [exact Hid|].
    exact (rtc_subrel _ _ _ _ night_is_dispute_step Hst).
  - intros d' Hd'. destruct (Hnew d' Hd') as [(d & Hd & Hid & Hst)|(d & [] & _)]. left. exists d. split; [exact Hd|].
    split; [exact Hid|]. exact (rtc_subrel _ _ _ _ night_is_dispute_step Hst).
Qed.

Lemma escalate_lives id userId dto : keeps lives (DisputesService.escalate id userId dto).
Proof.
  apply keeps_wp. intros s. unfold DisputesService.escalate. wp_step. wp_step; [evolves_leaf|].
  destruct (List.find _ _) as [d|] eqn:Hf; [|wp_step; evolves_leaf].
  destruct (find_live_some _ _ _ Hf) as (Hin & _). wp_step. wp_step; [evolves_leaf|]. wp_step.
  apply (wp_save_step opened dispute_step d); env_norm; [exact Hin | destruct (opt_truthy _); reflexivity | | intros; evolves_leaf|].
  - intros u. assert (Hc : DisputesService.closed d = false) by assumption.
    destruct (opt_truthy _); [apply step_escalate, Hc|]. exact (step_escalate d d.(DisputeEntity.assignedTo) u Hc).
  - intros u s' Hev _ _. wp_step. eapply wp_keeps; [apply (keeps_save_rel lives); intros; apply (table_stable (E:=Message)) | |].
    + intros m s2 H2. wp_step. wp_step. wp_step. etransitivity; [exact Hev|]. etransitivity; [exact H2 | apply emit_stable].
    + intros x s2 H2. etransitivity; eassumption.
Qed.

Lemma decide_lives id dto : keeps lives (DisputesService.resolveDispute id dto).
Proof.
  apply keeps_wp. intros s. unfold DisputesService.resolveDispute. wp_step.
  apply findDisputeById_spec; [intros; evolves_leaf|]. intros e d He Hin _.
  wp_step. wp_step; [evolves_leaf|]. wp_step. wp_step. wp_step.
  apply (wp_save_step opened dispute_step d); env_norm; [exact Hin | reflexivity | | intros; evolves_leaf|].
  - intros u. apply step_decide. assumption.
  - intros u s' Hev _ _. wp_step. wp_step. wp_step. evolves_leaf.
Qed.

(** What [resolve] and [reject] do. *)
Lemma close_lives id userId how :
  keeps lives (match how with Resolved => DisputesService.resolve id userId | Rejected => DisputesService.reject id userId end).
Proof.
  apply keeps_wp. intros s. destruct how; unfold DisputesService.resolve, DisputesService.reject;
    (wp_step; wp_step; [evolves_leaf|]; destruct (List.find _ _) as [d|] eqn:Hf; [|wp_step; evolves_leaf];
     destruct (find_live_some _ _ _ Hf) as (Hin & _); wp_step; wp_step; wp_step;
     apply (wp_save_step opened dispute_step d); env_norm; [exact Hin | reflexivity | | intros; evolves_leaf|]).
  1,3: intros u; first [apply (step_close d Resolved) | apply (step_close d Rejected)].
  all: intros u s' Hev _ _; wp_step; wp_step; wp_step; evolves_leaf.
Qed.

Lemma new_dispute_lives (d : Disp) : d.(DisputeEntity.id) = "" -> opened d -> keeps lives (save d).
Proof.
  intros Hid Ho. apply keeps_save_new; [exact Hid|]. intros i u _. eexists. split; [|apply rtc_refl]. exact Ho.
Qed.

Lemma request_lives r : keeps lives (dispute_request r).
Proof.
  destruct r as [u dto|id u dto|id u role text|id u how|dto|id dto|]; cbn [dispute_request].
  - unfold DisputesService.fileDispute. keeps_auto. apply new_dispute_lives; repeat split.
  - apply keeps_bind; [typeclasses eauto | apply escalate_lives | intros; apply keeps_ret; typeclasses eauto].
  - unfold DisputesService.addMessage. keeps_auto.
  - pose proof (close_lives id u how) as Hc. destruct how; keeps_auto; exact Hc.
  - unfold DisputesService.openDispute. keeps_auto. apply new_dispute_lives; repeat split.
  - apply keeps_bind; [typeclasses eauto | apply decide_lives | intros; apply keeps_ret; typeclasses eauto].
  - intros s. apply night_lives, autoClose_evolves.
Qed.

Lemma dispute_requests_live l : keeps lives (dispute_requests l).
Proof. unfold dispute_requests. keeps_auto. apply keeps_attempt, request_lives. Qed.

(** Over any sequence of requests and nightly runs, however their calls fail, no
    dispute is lost, one that is closed stays closed, and each is one that was
    there or was opened, with escalations and decisions since. *)
Theorem closed_disputes_stay_closed l (s : Store) :
  keys_ok s.(DisputeStore.disputes) ->
  let s' := (dispute_requests l s).2 in
  (forall d, In d s.(DisputeStore.disputes) ->
     exists d', In d' s'.(DisputeStore.disputes) /\ d'.(DisputeEntity.id) = d.(DisputeEntity.id) /\ rtc dispute_step d d' /\
       (DisputesService.closed d = true -> DisputesService.closed d' = true)) /\
  (forall d', In d' s'.(DisputeStore.disputes) ->
     exists d, (In d s.(DisputeStore.disputes) \/ opened d) /\ rtc dispute_step d d').
Proof.
  intros Hk s'. destruct (dispute_requests_live l s Hk) as [_ Hkept Hnew]. fold s' in Hkept, Hnew. split.
  - intros d Hd. destruct (Hkept d Hd) as (d' & Hd' & Hid & Hst). exists d'. do 3 (split; [assumption|]). intros Hc.
    apply (rtc_invariant dispute_step (fun x => DisputesService.closed x = true)) with (x := d); [|exact Hst | exact Hc].
    intros x y Hxy. now apply closed_step.
  - intros d' Hd'. destruct (Hnew d' Hd') as [(d & Hd & _ & Hst)|(d & Hd & Hst)]; eauto.
Qed.

(** An opening looks at its transaction: it is stored, and completed. *)
Lemma openDispute_completed dto (s : Store) d s' :
  DisputesService.openDispute dto s = (inr d, s') ->
  exists tx, In tx s.(DisputeStore.core_world).(World.transactions) /\
    tx.(Transaction.id) = o_transactionId dto /\ tx.(Transaction.status) = TransactionStatus.COMPLETED.
Proof.
  intros Hrun. refine (wp_run_ok _ (fun _ _ => _) (fun _ _ => True) _ _ _ _ Hrun).
  unfold DisputesService.openDispute, TransactionsService.findById. wp_step. apply wp_core. wp_step.
  wp_step; [exact I|]. simpl rows. destruct (List.find _ _) as [tx|] eqn:Hf; wp_step; [|exact I].
  destruct (find_live_some _ _ _ Hf) as (Hin & _ & Hid). apply String.eqb_eq in Hid.
  wp_step. wp_step; [exact I|].
  match goal with Hc : negb _ = false |- _ => apply negb_false_iff, TransactionStatus.TransactionStatus_eqb_eq in Hc end.
  assert (exists tx0, In tx0 s.(DisputeStore.core_world).(World.transactions) /\
      tx0.(Transaction.id) = o_transactionId dto /\ tx0.(Transaction.status) = TransactionStatus.COMPLETED) by eauto.
  wp_step. wp_step; [exact I|]. wp_step. wp_step. wp_step. assumption.
Qed.

(** ** Worked examples *)

Definition a_dispute (id : string) (status : FiledStatus.FiledStatus) : Disp :=
  DisputeEntity.mk id "ada" "tx1" "never arrived" None status None 1 None 1600000000000 0 None.
Definition old_dispute : Disp := a_dispute "d1" FiledStatus.open.
Definition escalated_dispute : Disp := a_dispute "d2" FiledStatus.escalated.
(** The first two calls fail: the first two nights find nothing. *)
Definition dispute_start : Store :=
  DisputeStore.mk (empty_world (failing_env [0%nat; 1%nat])) [old_dispute; escalated_dispute] [].

Lemma dispute_start_keys : keys_ok dispute_start.(DisputeStore.disputes).
Proof. split; [apply (bool_decide_unpack _); reflexivity | repeat constructor; discriminate]. Qed.

Lemma stale_disputes_eventually_close_witness :
  let after := (runs 3 DisputesService.autoCloseStaleDisputes dispute_start).2.(DisputeStore.disputes) in
  (exists d', In d' after /\ d'.(DisputeEntity.id) = "d1" /\ auto_closed d') /\ In escalated_dispute after.
Proof.
  intros after.
  assert (Hm : clock_monotone (env_of dispute_start)) by (intros n m Hnm; simpl; lia).
  assert (Hs : settles 2 (env_of dispute_start)) by (intros [|[|n]] Hn; [lia | lia | reflexivity]).
  assert (Hn : (2 <= calls (env_of dispute_start) + 2)%nat) by (simpl; lia). split.
  - refine (proj1 (stale_disputes_eventually_close 2 dispute_start old_dispute 2 dispute_start_keys Hm Hs (or_introl eq_refl) Hn)
      eq_refl _). vm_compute. reflexivity.
  - exact (proj2 (stale_disputes_eventually_close 2 dispute_start escalated_dispute 2 dispute_start_keys Hm Hs
      (or_intror (or_introl eq_refl)) Hn) eq_refl).
Defined.

Lemma closed_disputes_stay_closed_witness :
  exists d', In d' (dispute_requests [RNight; RDecide "d1" (mkResolve Rejected "no"); REscalate "d1" "ada" (mkEscalate None)]
                      dispute_start).2.(DisputeStore.disputes) /\
             d'.(DisputeEntity.id) = "d1" /\ rtc dispute_step old_dispute d' /\
             (DisputesService.closed old_dispute = true -> DisputesService.closed d' = true).
Proof.
  exact (proj1 (closed_disputes_stay_closed _ dispute_start dispute_start_keys) old_dispute (or_introl eq_refl)).
Defined.

(** [resolve] looks neither at the status of the dispute nor at who asks, and
    its route asks for no role: a rejected dispute is resolved by its loser, or
    by anybody. *)
Example anyone_resolves_a_rejected_dispute :
  match DisputesService.resolve "f1" "mallory" (DisputeStore.mk demo_world [a_dispute "f1" FiledStatus.rejected] []) with
  | (inr d, _) => d.(DisputeEntity.status) = FiledStatus.resolved
  | _ => False
  end.
Proof. vm_compute. reflexivity. Qed.

(** A filed dispute is one of those an administrator decides. *)
Example filed_dispute_is_decided :
  let run := let* d := DisputesService.fileDispute "ada" (mkFile "tx1" "never arrived" None) in
             DisputesService.resolveDispute d.(DisputeEntity.id) (mkResolve Rejected "it did") in
  map (fun d => (d.(DisputeEntity.status), d.(DisputeEntity.resolution)))
    (run (DisputeStore.mk demo_world [] [])).2.(DisputeStore.disputes) = [(FiledStatus.rejected, Some "it did")].
Proof. vm_compute. reflexivity. Qed.
