(* ===== verification/Support.v ===== *)
(** Support tickets, of which the repository has two services:
    support/support-tickets.service.ts (tickets about an account, answered by
    mail) and modules/support-tickets/services/support-tickets.service.ts
    (tickets with priorities, agents and messages).  Both entities declare the
    table "support_tickets", with columns that do not agree; each has a table of
    its own here. *)
From S2P Require Import Prelude JsNumber Effects RepositoryLaws JsData Entities World QueryBuilder CoreCalls Lifecycle Accounts.
Local Open Scope Z_scope.

Module SupportTicketCategory.
Inductive SupportTicketCategory : Type := TRANSACTION | KYC | ACCOUNT | OTHER.
Definition eqb (a b : SupportTicketCategory) : bool :=
  match a, b with
  | TRANSACTION, TRANSACTION | KYC, KYC | ACCOUNT, ACCOUNT | OTHER, OTHER => true
  | _, _ => false
  end.
Definition show (a : SupportTicketCategory) : string :=
  match a with
  | TRANSACTION => "transaction"
  | KYC => "kyc"
  | ACCOUNT => "account"
  | OTHER => "other"
  end.
Lemma SupportTicketCategory_eqb_eq a b : eqb a b = true <-> a = b.
Proof. destruct a, b; simpl; split; congruence. Qed.
End SupportTicketCategory.

Module SupportTicketStatus.
Inductive SupportTicketStatus : Type := OPEN | IN_PROGRESS | RESOLVED | CLOSED.
Definition eqb (a b : SupportTicketStatus) : bool :=
  match a, b with
  | OPEN, OPEN | IN_PROGRESS, IN_PROGRESS | RESOLVED, RESOLVED | CLOSED, CLOSED => true
  | _, _ => false
  end.
Definition show (a : SupportTicketStatus) : string :=
  match a with
  | OPEN => "open"
  | IN_PROGRESS => "in-progress"
  | RESOLVED => "resolved"
  | CLOSED => "closed"
  end.
Lemma SupportTicketStatus_eqb_eq a b : eqb a b = true <-> a = b.
Proof. destruct a, b; simpl; split; congruence. Qed.
End SupportTicketStatus.

(** The type [TicketStatus] of the second service. *)
Module TicketStatus.
Inductive TicketStatus : Type := open | in_progress | waiting_customer | resolved | closed.
Definition eqb (a b : TicketStatus) : bool :=
  match a, b with
  | open, open | in_progress, in_progress | waiting_customer, waiting_customer | resolved, resolved | closed, closed => true
  | _, _ => false
  end.
Definition show (a : TicketStatus) : string :=
  match a with
  | open => "open"
  | in_progress => "in_progress"
  | waiting_customer => "waiting_customer"
  | resolved => "resolved"
  | closed => "closed"
  end.
Lemma TicketStatus_eqb_eq a b : eqb a b = true <-> a = b.
Proof. destruct a, b; simpl; split; congruence. Qed.
End TicketStatus.

Module TicketPriority.
Inductive TicketPriority : Type := low | medium | high | urgent.
Definition eqb (a b : TicketPriority) : bool :=
  match a, b with
  | low, low | medium, medium | high, high | urgent, urgent => true
  | _, _ => false
  end.
Definition show (a : TicketPriority) : string :=
  match a with
  | low => "low"
  | medium => "medium"
  | high => "high"
  | urgent => "urgent"
  end.
Lemma TicketPriority_eqb_eq a b : eqb a b = true <-> a = b.
Proof. destruct a, b; simpl; split; congruence. Qed.
End TicketPriority.

(** support/support-ticket.entity.ts *)
Module SupportTicket.
Record SupportTicket : Type := mk {
  id : string;
  userId : string;
  subject : string;
  description : string;
  category : SupportTicketCategory.SupportTicketCategory;
  status : SupportTicketStatus.SupportTicketStatus;
  relatedEntityType : option string;
  relatedEntityId : option string;
  updatedBy : option string;
  resolvedAt : option Z;
  createdAt : Z;
  updatedAt : Z
}.
#[global] Instance settable : Settable SupportTicket := fun r =>
  mk r.(id) r.(userId) r.(subject) r.(description) r.(category) r.(status)
     r.(relatedEntityType) r.(relatedEntityId) r.(updatedBy) r.(resolvedAt) r.(createdAt)
     r.(updatedAt).
End SupportTicket.

#[global] Program Instance SupportTicket_row : Row SupportTicket.SupportTicket := {|
  row_id := SupportTicket.id;
  set_row_id i e := e <| SupportTicket.id := i |>;
  created t e := e <| SupportTicket.createdAt := t |> <| SupportTicket.updatedAt := t |>;
  touched t e := e <| SupportTicket.updatedAt := t |>;
  live e := true;
  clash a b := false
|}.

(** modules/support-tickets/entities/support-ticket.entity.ts *)
Module SupportTicketEntity.
Record SupportTicketEntity : Type := mk {
  id : string;
  userId : string;
  subject : string;
  description : string;
  status : TicketStatus.TicketStatus;
  priority : TicketPriority.TicketPriority;
  assignedTo : option string;
  resolvedAt : option Z;
  createdAt : Z;
  updatedAt : Z
}.
#[global] Instance settable : Settable SupportTicketEntity := fun r =>
  mk r.(id) r.(userId) r.(subject) r.(description) r.(status) r.(priority) r.(assignedTo)
     r.(resolvedAt) r.(createdAt) r.(updatedAt).
End SupportTicketEntity.

#[global] Program Instance SupportTicketEntity_row : Row SupportTicketEntity.SupportTicketEntity := {|
  row_id := SupportTicketEntity.id;
  set_row_id i e := e <| SupportTicketEntity.id := i |>;
  created t e := e <| SupportTicketEntity.createdAt := t |> <| SupportTicketEntity.updatedAt := t |>;
  touched t e := e <| SupportTicketEntity.updatedAt := t |>;
  live e := true;
  clash a b := false
|}.

(** modules/support-tickets/entities/ticket-message.entity.ts *)
Module TicketMessageEntity.
Record TicketMessageEntity : Type := mk {
  id : string;
  ticketId : string;
  senderId : string;
  message : string;
  createdAt : Z
}.
#[global] Instance settable : Settable TicketMessageEntity := fun r =>
  mk r.(id) r.(ticketId) r.(senderId) r.(message) r.(createdAt).
End TicketMessageEntity.

#[global] Program Instance TicketMessageEntity_row : Row TicketMessageEntity.TicketMessageEntity := {|
  row_id := TicketMessageEntity.id;
  set_row_id i e := e <| TicketMessageEntity.id := i |>;
  created t e := e <| TicketMessageEntity.createdAt := t |>;
  touched t e := e;
  live e := true;
  clash a b := false
|}.

Module SupportStore.
Record SupportStore : Type := mk {
  core_world : World;
  tickets : list SupportTicket.SupportTicket;
  agent_tickets : list SupportTicketEntity.SupportTicketEntity;
  messages : list TicketMessageEntity.TicketMessageEntity
}.
#[global] Instance settable : Settable SupportStore := fun r =>
  mk r.(core_world) r.(tickets) r.(agent_tickets) r.(messages).
End SupportStore.

#[global] Program Instance SupportStore_world : HasWorld SupportStore.SupportStore := {|
  world_of := SupportStore.core_world;
  set_world w s := s <| SupportStore.core_world := w |>
|}.

#[global] Program Instance SupportStore_tickets : Table SupportStore.SupportStore SupportTicket.SupportTicket := {|
  rows := SupportStore.tickets;
  set_rows t w := w <| SupportStore.tickets := t |>
|}.

#[global] Program Instance SupportStore_agent_tickets : Table SupportStore.SupportStore SupportTicketEntity.SupportTicketEntity := {|
  rows := SupportStore.agent_tickets;
  set_rows t w := w <| SupportStore.agent_tickets := t |>
|}.

#[global] Program Instance SupportStore_messages : Table SupportStore.SupportStore TicketMessageEntity.TicketMessageEntity := {|
  rows := SupportStore.messages;
  set_rows t w := w <| SupportStore.messages := t |>
|}.

Notation Store := SupportStore.SupportStore.
Notation Ticket := SupportTicket.SupportTicket.
Notation AgentTicket := SupportTicketEntity.SupportTicketEntity.
Notation Message := TicketMessageEntity.TicketMessageEntity.

(** ** support/support-tickets.service.ts *)

Record CreateSupportTicketDto : Type := mkCreate {
  c_userId : string;
  c_subject : string;
  c_description : string;
  c_category : SupportTicketCategory.SupportTicketCategory;
  c_relatedEntityType : option string;
  c_relatedEntityId : option string
}.
Record UpdateSupportTicketDto : Type := mkUpdate {
  u_status : SupportTicketStatus.SupportTicketStatus;
  u_adminId : string
}.

Module SupportTicketsService.
Definition ticket_json (t : Ticket) : json :=
  JObj [("id", JStr t.(SupportTicket.id)); ("userId", JStr t.(SupportTicket.userId));
        ("subject", JStr t.(SupportTicket.subject)); ("description", JStr t.(SupportTicket.description));
        ("category", JStr (SupportTicketCategory.show t.(SupportTicket.category)));
        ("status", JStr (SupportTicketStatus.show t.(SupportTicket.status)));
        ("updatedBy", jopt t.(SupportTicket.updatedBy));
        ("resolvedAt", jopt (option_map toISOString t.(SupportTicket.resolvedAt)))].

Definition full_name (user : User.User) : string :=
  user.(User.firstName) +:+ " " +:+ user.(User.lastName).

(** The ticket is stored before its owner is looked up. *)
Definition createTicket (dto : CreateSupportTicketDto) : M Store Ticket :=
  let* saved := save (SupportTicket.mk "" (c_userId dto) (c_subject dto) (c_description dto) (c_category dto)
                        SupportTicketStatus.OPEN (c_relatedEntityType dto) (c_relatedEntityId dto) None None 0 0) in
  let* user := core (UsersService.findById (c_userId dto)) in
  emit "support.ticket.created" (ticket_json saved) ;;;
  emit "mail:support-ticket-created"
    (JObj [("to", JStr user.(User.email)); ("fullName", JStr (full_name user));
           ("ticketId", JStr saved.(SupportTicket.id)); ("subject", JStr saved.(SupportTicket.subject));
           ("category", JStr (SupportTicketCategory.show saved.(SupportTicket.category)))]) ;;;
  ret saved.

Definition listTickets (userId : string) (isAdmin : bool) : M Store (list Ticket) :=
  if isAdmin then find_desc (fun _ => true) SupportTicket.createdAt
  else find_desc (fun t => String.eqb t.(SupportTicket.userId) userId) SupportTicket.createdAt.

Definition ended (st : SupportTicketStatus.SupportTicketStatus) : bool :=
  SupportTicketStatus.eqb st SupportTicketStatus.RESOLVED || SupportTicketStatus.eqb st SupportTicketStatus.CLOSED.

Definition updateTicket (id : string) (dto : UpdateSupportTicketDto) : M Store Ticket :=
  let* found := findOne (fun t => String.eqb t.(SupportTicket.id) id) in
  match found with
  | None => throw (NotFoundException ("Support ticket " +:+ id +:+ " not found"))
  | Some ticket =>
      let* resolvedAt := (if ended (u_status dto) then let* now := date_now in ret (Some now)
                          else ret ticket.(SupportTicket.resolvedAt)) in
      let* saved := save (ticket <| SupportTicket.status := u_status dto |>
                                 <| SupportTicket.updatedBy := Some (u_adminId dto) |>
                                 <| SupportTicket.resolvedAt := resolvedAt |>) in
      let* user := core (UsersService.findById ticket.(SupportTicket.userId)) in
      emit "support.ticket.updated" (ticket_json saved) ;;;
      emit "mail:support-ticket-status"
        (JObj [("to", JStr user.(User.email)); ("fullName", JStr (full_name user));
               ("ticketId", JStr saved.(SupportTicket.id));
               ("status", JStr (SupportTicketStatus.show saved.(SupportTicket.status)))]) ;;;
      ret saved
  end.
End SupportTicketsService.

(** ** modules/support-tickets/services/support-tickets.service.ts *)

Record CreateAgentTicketDto : Type := mkAgentCreate {
  a_subject : string;
  a_description : string;
  a_priority : option TicketPriority.TicketPriority
}.
Record ListSupportTicketsDto : Type := mkList {
  l_page : option Z;
  l_limit : option Z;
  l_status : option string;
  l_assignedTo : option string
}.

Module AgentTicketsService.
Definition not_found : exn := NotFoundException "Support ticket not found".
Definition by_id (id : string) (t : AgentTicket) : bool := String.eqb t.(SupportTicketEntity.id) id.

Definition create (userId : string) (dto : CreateAgentTicketDto) : M Store AgentTicket :=
  save (SupportTicketEntity.mk "" userId (a_subject dto) (a_description dto) TicketStatus.open
          (default TicketPriority.medium (a_priority dto)) None None 0 0).

Definition listed (userId : string) (dto : ListSupportTicketsDto) (t : AgentTicket) : bool :=
  String.eqb t.(SupportTicketEntity.userId) userId &&
  and_where (l_status dto) str_truthy (String.eqb (TicketStatus.show t.(SupportTicketEntity.status))) &&
  and_where (l_assignedTo dto) str_truthy
    (fun a => match t.(SupportTicketEntity.assignedTo) with Some b => String.eqb b a | None => false end).

Definition findAll (userId : string) (dto : ListSupportTicketsDto) : M Store (list AgentTicket * Z * Z * Z) :=
  let page := default 1 (l_page dto) in
  let limit := default 20 (l_limit dto) in
  let* ' (data, total) := getManyAndCount (listed userId dto) SupportTicketEntity.createdAt
                            ((page - 1) * limit) limit in
  ret (data, total, page, limit).

Definition findOne (id userId : string) : M Store AgentTicket :=
  let* found := Effects.findOne (by_id id) in
  match found with
  | None => throw not_found
  | Some ticket =>
      throw_if (negb (String.eqb ticket.(SupportTicketEntity.userId) userId))
        (ForbiddenException "Access denied") ;;;
      ret ticket
  end.

Definition assign (id assignedTo : string) (status : option TicketStatus.TicketStatus) : M Store AgentTicket :=
  let* found := Effects.findOne (by_id id) in
  match found with
  | None => throw not_found
  | Some ticket =>
      let ticket1 := ticket <| SupportTicketEntity.assignedTo := Some assignedTo |> in
      save match status with
           | Some st => ticket1 <| SupportTicketEntity.status := st |>
           | None =>
               if TicketStatus.eqb ticket.(SupportTicketEntity.status) TicketStatus.open
               then ticket1 <| SupportTicketEntity.status := TicketStatus.in_progress |> else ticket1
           end
  end.

Definition addMessage (ticketId senderId message : string) : M Store Message :=
  let* found := Effects.findOne (by_id ticketId) in
  match found with
  | None => throw not_found
  | Some _ => save (TicketMessageEntity.mk "" ticketId senderId message 0)
  end.

Definition getMessages (ticketId : string) : M Store (list Message) :=
  find_asc (fun m => String.eqb m.(TicketMessageEntity.ticketId) ticketId) TicketMessageEntity.createdAt.
End AgentTicketsService.

(** ** What the tickets keep *)

(** A ticket that is resolved or closed says since when. *)
Definition dated (t : Ticket) : Prop :=
  SupportTicketsService.ended t.(SupportTicket.status) = true -> t.(SupportTicket.resolvedAt) <> None.

Notation all_dated := (invariant (fun s : Store => Forall dated s.(SupportStore.tickets))).

Lemma saved_dated t r : dated t -> saved_as t r -> dated r.
Proof. intros Ht [u|u i _ _]; exact Ht. Qed.

Lemma createTicket_dated dto : keeps all_dated (SupportTicketsService.createTicket dto).
Proof.
  unfold SupportTicketsService.createTicket. keeps_auto. refine (keeps_save_Forall (S:=Store) dated _ _).
  intros r. apply saved_dated. discriminate.
Qed.

Lemma updateTicket_dated id dto : keeps all_dated (SupportTicketsService.updateTicket id dto).
Proof.
  apply keeps_wp. intros s. unfold SupportTicketsService.updateTicket, invariant.
  wp_step. wp_step; [intros Hs; exact Hs|]. simpl rows.
  destruct (List.find _ _) as [t|] eqn:Hf; [|wp_step; intros Hs; exact Hs].
  destruct (find_live_some _ _ _ Hf) as (Hin & _). wp_step.
  assert (Hdate : forall st : Store,
    wp (if SupportTicketsService.ended (u_status dto) then let* now := date_now in ret (Some now)
        else ret t.(SupportTicket.resolvedAt))
      (fun d s' => (SupportTicketsService.ended (u_status dto) = true -> d <> None) /\
                   s'.(SupportStore.tickets) = st.(SupportStore.tickets)) (fun _ _ => False) st).
  { intros st. destruct (SupportTicketsService.ended _); repeat wp_step; split; discriminate || reflexivity. }
  eapply wp_mono; [apply Hdate | | intros ? ? []]. intros d s1 [Hd Hs1].
  wp_step. wp_step; [intros Hs; simpl; rewrite Hs1; exact Hs|].
  assert (Hr : dated r) by (eapply saved_dated; [|eassumption]; exact Hd).
  wp_step. apply wp_core. eapply wp_mono with (Q := fun _ _ => True) (X := fun _ _ => True);
    [unfold wp; destruct (UsersService.findById _ _) as [[x|u] w]; exact I | |].
  - intros u w _. repeat wp_step. simpl. intros Hs. apply Forall_upsert; [rewrite Hs1; exact Hs | exact Hr].
  - intros x w _. simpl. intros Hs. apply Forall_upsert; [rewrite Hs1; exact Hs | exact Hr].
Qed.

(** In any sequence of creations and updates, however their calls fail, every
    ticket that is resolved or closed says since when. *)
Theorem ended_tickets_are_dated (l : list (CreateSupportTicketDto + string * UpdateSupportTicketDto)) s :
  Forall dated s.(SupportStore.tickets) ->
  Forall dated (for_each l (fun r => attempt (match r with
                                              | inl dto => SupportTicketsService.createTicket dto
                                              | inr (id, dto) => SupportTicketsService.updateTicket id dto
                                              end) ;;; ret tt) s).2.(SupportStore.tickets).
Proof.
  apply (keeps_for_each all_dated). intros [dto|[id dto]] _; keeps_auto; apply keeps_attempt;
    auto using createTicket_dated, updateTicket_dated.
Qed.

(** What the two services show a user who is no administrator is the user's
    own: the list of one, the pages of the other, and a ticket asked for by its
    key. *)
Theorem tickets_are_private userId s :
  (forall l s', SupportTicketsService.listTickets userId false s = (inr l, s') ->
     forall t, In t l -> t.(SupportTicket.userId) = userId) /\
  (forall dto l n p q s', AgentTicketsService.findAll userId dto s = (inr (l, n, p, q), s') ->
     forall t, In t l -> t.(SupportTicketEntity.userId) = userId) /\
  (forall id t s', AgentTicketsService.findOne id userId s = (inr t, s') ->
     t.(SupportTicketEntity.id) = id /\ t.(SupportTicketEntity.userId) = userId).
Proof.
  split; [|split].
  - intros l s' Hrun t. refine (wp_run_ok _ (fun l _ => In t l -> _) (fun _ _ => True) _ _ _ _ Hrun).
    unfold SupportTicketsService.listTickets, find_desc. wp_step. wp_step; [exact I|]. wp_step.
    rewrite (in_find_desc _ SupportTicket.createdAt). intros (_ & _ & Hu). apply String.eqb_eq, Hu.
  - intros dto l n p q s' Hrun t.
    refine (wp_run_ok _ (fun r _ => In t r.1.1.1 -> _) (fun _ _ => True) _ _ _ _ Hrun).
    unfold AgentTicketsService.findAll. cbv zeta. wp_step. eapply wp_mono; [apply getManyAndCount_spec | | auto].
    intros [items total] s1 (_ & _ & _ & Hsound & _). wp_step. intros Ht.
    destruct (Hsound t Ht) as (_ & _ & Hp). unfold AgentTicketsService.listed in Hp.
    apply andb_prop in Hp as [Hp _]. apply andb_prop in Hp as [Hp _]. apply String.eqb_eq, Hp.
  - intros id t s' Hrun. refine (wp_run_ok _ (fun t _ => _) (fun _ _ => True) _ _ _ _ Hrun).
    unfold AgentTicketsService.findOne. wp_step. wp_step; [exact I|].
    destruct (List.find _ _) as [t1|] eqn:Hf; wp_step; [|exact I].
    destruct (find_live_some _ _ _ Hf) as (_ & _ & Hid). apply String.eqb_eq in Hid.
    wp_step; [exact I|]. wp_step. split; [exact Hid|]. apply String.eqb_eq, negb_false_iff. assumption.
Qed.

(** A ticket for a user who does not exist is stored, and then the request fails. *)
Example ticket_without_owner_is_stored :
  let '(r, s') := SupportTicketsService.createTicket
      (mkCreate "nobody" "help" "it broke" SupportTicketCategory.OTHER None None)
      (SupportStore.mk demo_world [] [] []) in
  r = inl (NotFoundException "User nobody not found") /\ length s'.(SupportStore.tickets) = 1%nat.
Proof. vm_compute. split; reflexivity. Qed.

Definition a_ticket : Ticket :=
  SupportTicket.mk "t1" "ada" "help" "it broke" SupportTicketCategory.OTHER SupportTicketStatus.OPEN
    None None None None 0 0.

Lemma ended_tickets_are_dated_witness :
  Forall dated (for_each [inr ("t1", mkUpdate SupportTicketStatus.CLOSED "root")]
    (fun r => attempt (match r with
                       | inl dto => SupportTicketsService.createTicket dto
                       | inr (id, dto) => SupportTicketsService.updateTicket id dto
                       end) ;;; ret tt) (SupportStore.mk demo_world [a_ticket] [] [])).2.(SupportStore.tickets).
Proof. apply ended_tickets_are_dated. repeat constructor. discriminate. Defined.

Lemma tickets_are_private_witness :
  exists l s', SupportTicketsService.listTickets "ada" false (SupportStore.mk demo_world [a_ticket] [] []) = (inr l, s') /\
    forall t, In t l -> t.(SupportTicket.userId) = "ada".
Proof.
  destruct (SupportTicketsService.listTickets "ada" false (SupportStore.mk demo_world [a_ticket] [] [])) as [[x|l] s'] eqn:E;
    [eval_result E|].
  exists l, s'. split; [reflexivity|]. exact (proj1 (tickets_are_private "ada" _) l s' E).
Defined.
