(* ===== verification/TransactionLaws.v ===== *)
(** What the operations of [TransactionsService] guarantee. *)
From S2P Require Import Prelude JsNumber NumberLaws Effects RepositoryLaws JsData ThirdParty Currencies Entities World Wallets PostingRules Accounts QueryBuilder Fees Limits Transactions.
Local Open Scope Z_scope.

(** ** Rules for the services called *)

Section Rules.
Context `{W : WalletsApi} `{CS : ConfigService} `{RP : RateProviders} `{LC : LimitConstants}
  `{SS : Horizon} `{RX : Radix36}.

(** *** Frames of the steps around the postings *)

Lemma ensureAccepted_frame u : keeps env_only (TermsAcceptanceService.ensureAccepted u).
Proof. unfold TermsAcceptanceService.ensureAccepted. keeps_auto. Qed.

Lemma isUserDeactivated_frame u : keeps env_only (UserDeactivationService.isUserDeactivated u).
Proof. unfold UserDeactivationService.isUserDeactivated. keeps_auto. Qed.

Lemma findById_frame id : keeps env_only (TransactionsService.findById id).
Proof. unfold TransactionsService.findById. keeps_auto. Qed.

(** Saving a transaction: the row is in the table and keeps its status. *)
Lemma wp_save_tx (tx : Transaction.Transaction) Q X (s : World) :
  (forall x e, env_step (World.env s) e -> X x (set_env e s)) ->
  (forall r e t, env_step (World.env s) e -> saved_as tx r -> In r t ->
     (forall y, In y t -> y = r \/ (In y s.(World.transactions) /\ row_id y <> row_id r)) ->
     (forall y, In y s.(World.transactions) -> y.(Transaction.id) = tx.(Transaction.id) -> r = tx) ->
     Q r (set_env e s <| World.transactions := t |>)) ->
  wp (save tx) Q X s.
Proof.
  intros HX HQ. apply wp_save.
  - intros e x He _. apply HX, He.
  - intros e r He Hr _ Hsame _.
    apply (HQ r e (upsert r s.(World.transactions)) He Hr); auto using in_upsert_self.
    + intros y Hy. apply in_upsert, Hy.
    + intros y Hy Heq. destruct Hsame as [u ->]; [|reflexivity]. apply existsb_exists.
      exists y. split; [exact Hy | apply same_row_true; symmetry; exact Heq].
Qed.

Lemma saved_tx_status tx r : saved_as tx r -> r.(Transaction.status) = tx.(Transaction.status).
Proof. intros []; reflexivity. Qed.

Lemma generateReceiptNumber_spec tx Q X s :
  (forall x s', quiet s s' -> X x s') ->
  (forall r s', quiet s s' -> In r s'.(World.transactions) ->
     r.(Transaction.status) = tx.(Transaction.status) -> Q r s') ->
  wp (TransactionsService.generateReceiptNumber tx) Q X s.
Proof.
  intros HX HQ. unfold TransactionsService.generateReceiptNumber. apply wp_bind, wp_quiet.
  - unfold TransactionsService.nextval. keeps_state.
  - intros number s1 H1. apply wp_save_tx.
    + intros x e He. apply HX. etransitivity; [exact H1 | apply quiet_env_stable, He].
    + intros r e t He Hr Hin _ _. apply HQ; [|exact Hin | exact (saved_tx_status _ _ Hr)].
      etransitivity; [exact H1|]. split; [reflexivity | same_events].
  - intros x s' Hq. apply HX, Hq.
Qed.
End Rules.

(** ** Transfers *)

Definition transfer_legs (dto : TransferDto) : list (string * string * num) :=
  [(senderId dto, t_currency dto, (- t_amount dto)%num); (receiverId dto, t_currency dto, t_amount dto)].

Lemma num_opp_zero d : num_eqb (num_opp d) (num_of_Z 0) = num_eqb d (num_of_Z 0).
Proof. destruct d as [[]|[]| |[] m e]; reflexivity. Qed.

Lemma num_leb_false_not_zero d : num_leb d (num_of_Z 0) = false -> num_eqb d (num_of_Z 0) = false.
Proof. destruct d as [[]|[]| |[] m e]; simpl; auto; discriminate. Qed.

Section Transfer.
Context `{W : WalletsApi} `{CS : ConfigService}.

Lemma transfer_callback_spec dto tx s :
  wallets_ok s.(World.wallet_balances) -> In tx s.(World.transactions) ->
  wp (TransactionsService.transfer_callback dto tx)
     (fun '(tx', r) s' =>
        events s' = events s /\ wallets_ok s'.(World.wallet_balances) /\
        tx'.(Transaction.id) = tx.(Transaction.id) /\
        match r with
        | inl _ => exists l, l `prefix_of` transfer_legs dto /\
                             postings l s.(World.wallet_balances) s'.(World.wallet_balances)
        | inr _ => tx'.(Transaction.status) = TransactionStatus.COMPLETED /\
                   In tx' s'.(World.transactions) /\
                   postings (transfer_legs dto) s.(World.wallet_balances) s'.(World.wallet_balances)
        end)
     (fun _ _ => False) s.
Proof.
  intros Hok Hin.
  unfold TransactionsService.transfer_callback, transfer_legs. wp_step. wp_step. wp_step.
  apply wp_adjustBalance; [exact Hok | |].
  { intros x e He _. wp_step. split; [same_events|]. split; [exact Hok|]. split; [reflexivity|].
    exists []. split; [apply prefix_nil | constructor]. }
  intros b1 e1 t1 He1 Hp1 Hok1.
  wp_step. apply wp_adjustBalance; [exact Hok1 | |]; simpl.
  { intros x e He _. wp_step. split; [same_events|].
    split; [exact Hok1|]. split; [reflexivity|].
    eexists [_]. split; [apply prefix_cons, prefix_nil|]. econstructor; [exact Hp1 | constructor]. }
  intros b2 e2 t2 He2 Hp2 Hok2. simpl in Hp2.
  assert (He12 : env_step (World.env s) e2) by (etransitivity; eassumption).
  wp_step. cbv iota beta. wp_step. wp_step.
  assert (Hboth : postings [(senderId dto, t_currency dto, (- t_amount dto)%num); (receiverId dto, t_currency dto, t_amount dto)]
                    s.(World.wallet_balances) t2).
  { econstructor; [exact Hp1|]. econstructor; [exact Hp2 | constructor]. }
  apply wp_save_tx.
  - intros x e He. wp_step. split; [same_events|].
    split; [exact Hok2|]. split; [reflexivity|].
    eexists. split; [reflexivity | exact Hboth].
  - intros r e t He Hr Hinr _ Hid. wp_step.
    split; [same_events|].
    split; [exact Hok2|]. split; [rewrite (Hid tx Hin eq_refl); reflexivity|].
    split; [exact (saved_tx_status _ _ Hr) | auto].
Qed.

Definition completed_event (tx : Transaction.Transaction) : string * json :=
  ("transactions.completed",
   JObj [("transactionId", JStr tx.(Transaction.id)); ("senderId", JStr tx.(Transaction.senderId));
         ("receiverId", JStr tx.(Transaction.receiverId)); ("amount", JNum tx.(Transaction.amount));
         ("currency", JStr tx.(Transaction.currency)); ("reference", JStr tx.(Transaction.reference))]).

(** A transfer that went through. *)
Definition settled (dto : TransferDto) (s : World) (tx : Transaction.Transaction) (s' : World) : Prop :=
  tx.(Transaction.status) = TransactionStatus.COMPLETED /\
  In tx s'.(World.transactions) /\
  postings (transfer_legs dto) s.(World.wallet_balances) s'.(World.wallet_balances) /\
  events s' = events s ++ [completed_event tx].

(** A transfer that returned without settling: its row is PENDING, no event was
    emitted, and the postings made are none, the debit, or the debit and the
    credit. *)
Definition unsettled (dto : TransferDto) (s : World) (tx : Transaction.Transaction) (s' : World) : Prop :=
  events s' = events s /\
  (exists row, In row s'.(World.transactions) /\ row.(Transaction.id) = tx.(Transaction.id) /\
               row.(Transaction.status) = TransactionStatus.PENDING) /\
  exists l, l `prefix_of` transfer_legs dto /\
            postings l s.(World.wallet_balances) s'.(World.wallet_balances).

Lemma transfer_settle_spec dto row s :
  wallets_ok s.(World.wallet_balances) -> In row s.(World.transactions) -> row.(Transaction.status) = TransactionStatus.PENDING ->
  wp (TransactionsService.transfer_settle dto row)
     (fun tx s' => wallets_ok s'.(World.wallet_balances) /\ (settled dto s tx s' \/ unsettled dto s tx s'))
     (fun _ _ => False) s.
Proof.
  intros Hok Hin Hpend. unfold TransactionsService.transfer_settle.
  assert (Hfail : forall tx' s', World.transactions s' = World.transactions s ->
            events s' = events s -> tx'.(Transaction.id) = row.(Transaction.id) ->
            (exists l, l `prefix_of` transfer_legs dto /\ postings l s.(World.wallet_balances) s'.(World.wallet_balances)) ->
            unsettled dto s tx' s').
  { intros tx' s' Ht He Hid Hl. split; [exact He|]. split; [|exact Hl]. exists row. rewrite Ht. auto. }
  apply wp_bind, wp_transaction_local.
  { intros e x He _. cbv iota beta. apply wp_ret. split; [exact Hok|].
    right. apply Hfail; [reflexivity | same_events | reflexivity |].
    exists []. split; [apply prefix_nil | constructor]. }
  intros e0 He0. eapply wp_mono; [apply transfer_callback_spec; assumption | | intros ? ? []].
  intros [tx' r] s6 (Hev6 & Hok6 & Hid & Hr). change (events (set_env e0 s)) with (outbox e0) in Hev6.
  rewrite (es_outbox _ _ He0) in Hev6.
  destruct r as [err|[]]; [|destruct Hr as (Hst' & Hin' & Hp); split].
  - apply wp_ret. split; [exact Hok6|]. right. apply Hfail; auto.
  - intros e He. apply wp_bind, wp_emit, wp_ret. split; [exact Hok6|]. left.
    split; [exact Hst'|]. split; [exact Hin'|]. split; [exact Hp|].
    change (outbox e ++ [completed_event tx'] = events s ++ [completed_event tx']). f_equal.
    rewrite (es_outbox _ _ He). exact Hev6.
  - intros e x He _. apply wp_ret. split; [exact Hok6|]. right.
    apply Hfail; [reflexivity | | exact Hid | exists (transfer_legs dto); split; [reflexivity | exact Hp]].
    change (outbox e = events s). rewrite (es_outbox _ _ He). exact Hev6.
Qed.

Lemma transfer_spec dto s :
  wallets_ok s.(World.wallet_balances) ->
  wp (TransactionsService.transfer dto)
     (fun tx s' =>
        wallets_ok s'.(World.wallet_balances) /\
        num_leb (t_amount dto) (num_of_Z 0) = false /\ senderId dto <> receiverId dto /\
        (settled dto s tx s' \/ unsettled dto s tx s'))
     (fun _ s' => quiet s s') s.
Proof.
  intros Hok. unfold TransactionsService.transfer.
  assert (Hq : forall s' e, quiet s s' -> env_step (World.env s') e -> quiet s (set_env e s'))
    by (intros; etransitivity; [eassumption | apply quiet_env_stable; assumption]).
  assert (H0 : quiet s s) by reflexivity.
  apply wp_bind, wp_env_only; [apply ensureAccepted_frame | | auto].
  intros [] e1 He1. specialize (Hq _ _ H0 He1) as H1. set (s1 := set_env e1 s) in *.
  apply wp_bind, wp_env_only; [apply isUserDeactivated_frame | | auto].
  intros deact e2 He2. specialize (Hq _ _ H1 He2) as H2. set (s2 := set_env e2 s1) in *.
  apply wp_bind, wp_throw_if; intros _; [exact H2|].
  apply wp_bind, wp_throw_if; intros Hpos; [exact H2|].
  apply wp_bind, wp_throw_if; intros Hdiff; [exact H2|].
  apply wp_bind, wp_getBalance; [auto|].
  intros b e3 He3 _ _. specialize (Hq _ _ H2 He3) as H3. set (s3 := set_env e3 s2) in *.
  apply wp_bind, wp_throw_if; intros _; [exact H3|].
  apply wp_bind, wp_save_tx; [auto|].
  intros tx e4 t He4 Hsaved _ _ _. set (s4 := set_env e4 s3 <| World.transactions := t |>).
  assert (Hq4 : quiet s s4) by (etransitivity; [exact H3|]; split; [reflexivity | unfold s4; same_events]).
  clearbody s4. apply wp_bind, generateReceiptNumber_spec.
  { intros x s' Hq'. etransitivity; eassumption. }
  intros row s5 Hq5 Hin Hst. assert (Hq05 : quiet s s5) by (etransitivity; eassumption).
  destruct Hq05 as [Hw Hev].
  eapply wp_mono; [apply transfer_settle_spec | | intros ? ? []].
  - rewrite Hw. exact Hok.
  - exact Hin.
  - rewrite Hst, (saved_tx_status _ _ Hsaved). reflexivity.
  - intros tx' s' [Hok' Hcase]. split; [exact Hok'|]. split; [exact Hpos|].
    split; [apply String.eqb_neq; exact Hdiff|]. unfold settled, unsettled in *.
    rewrite Hw, Hev in Hcase. exact Hcase.
Qed.
End Transfer.

(** ** Reading and cancelling *)

Section Reading.
Context `{W : WalletsApi}.

Lemma wp_findById id Q X s :
  (forall x e, env_step (World.env s) e ->
     env_fault (World.env s) x \/ x = NotFoundException ("Transaction " +:+ id +:+ " not found") ->
     X x (set_env e s)) ->
  (forall tx e, env_step (World.env s) e ->
     List.find (fun tx => live tx && String.eqb tx.(Transaction.id) id) s.(World.transactions) = Some tx ->
     In tx s.(World.transactions) -> live tx = true -> tx.(Transaction.id) = id -> Q tx (set_env e s)) ->
  wp (TransactionsService.findById id) Q X s.
Proof.
  intros HX HQ. unfold TransactionsService.findById. apply wp_bind, wp_findOne; [auto|].
  intros e He. destruct (List.find _ _) as [tx|] eqn:Hf; [|apply wp_throw; auto].
  apply wp_ret. pose proof (find_live_some _ _ _ Hf) as (Hin & Hl & Hid).
  apply String.eqb_eq in Hid. auto.
Qed.

Definition cancelled_event (tx : Transaction.Transaction) : string * json :=
  ("transactions.cancelled", JObj [("transactionId", JStr tx.(Transaction.id))]).

Lemma cancelTransaction_spec id s :
  wp (TransactionsService.cancelTransaction id)
     (fun tx s' => exists old,
        In old s.(World.transactions) /\ old.(Transaction.id) = id /\
        old.(Transaction.status) = TransactionStatus.PENDING /\
        tx = old <| Transaction.status := TransactionStatus.CANCELLED |> /\
        s'.(World.transactions) = upsert tx s.(World.transactions) /\
        s'.(World.wallet_balances) = s.(World.wallet_balances) /\
        events s' = events s ++ [cancelled_event tx])
     (fun _ s' => env_only s s') s.
Proof.
  unfold TransactionsService.cancelTransaction. apply wp_bind, wp_findById; [auto with env|].
  intros old e He _ Hin _ Hid. apply wp_bind, wp_throw_if; intros Hst; [exists e; auto|].
  apply negb_false_iff, TransactionStatus.TransactionStatus_eqb_eq in Hst. cbv zeta.
  set (tx := old <| Transaction.status := TransactionStatus.CANCELLED |>).
  apply wp_bind, wp_save.
  { intros e2 x He2 _. exists e2. split; [env_chain | apply set_env_set_env]. }
  intros e2 r He2 _ _ Hsame _. destruct Hsame as [u ->].
  { apply existsb_exists. exists old. split; [exact Hin | apply same_row_true; reflexivity]. }
  apply wp_bind, wp_emit, wp_ret. exists old.
  do 5 (split; [auto|]). split; [reflexivity|].
  change (outbox e2 ++ [cancelled_event tx] = events s ++ [cancelled_event tx]). f_equal.
  apply (es_outbox (World.env s)). env_chain.
Qed.

Lemma effective_limit_bounds l : 1 <= TransactionsService.effective_limit l <= 100.
Proof. unfold TransactionsService.effective_limit, TransactionsService.DEFAULT_LIMIT, TransactionsService.MAX_LIMIT. lia. Qed.

Lemma findHistory_spec filters s :
  let lim := TransactionsService.effective_limit (f_limit filters) in
  wp (TransactionsService.findHistory filters)
     (fun h s' =>
        env_only s s' /\ limit h = lim /\ page h = default 1 (f_page filters) /\
        (forall tx, In tx (items h) -> In tx s.(World.transactions) /\ live tx = true /\
           TransactionsService.history_matches filters tx = true) /\
        sorted_by (fun tx => - tx.(Transaction.createdAt)) (items h) /\
        Z.of_nat (length (items h)) <= lim /\
        total h = Z.of_nat (length (List.filter
          (fun tx => live tx && TransactionsService.history_matches filters tx) s.(World.transactions))) /\
        items h = page_of ((page h - 1) * lim) lim
          (order_desc Transaction.createdAt (List.filter
             (fun tx => live tx && TransactionsService.history_matches filters tx) s.(World.transactions))))
     (fun _ s' => env_only s s') s.
Proof.
  intros lim. unfold TransactionsService.findHistory. cbv zeta. fold lim. apply wp_bind.
  eapply wp_mono; [apply getManyAndCount_spec | | auto].
  intros [its tot] s' (He & _ & _ & Hin & Hsort & Hpage & Hlen & Htot). apply wp_ret. simpl.
  pose proof (effective_limit_bounds (f_limit filters)).
  do 7 (split; [solve [auto with lia]|]). exact Hpage.
Qed.
End Reading.

(** ** Withdrawals *)

Section Withdrawal.
Context `{W : WalletsApi} `{CS : ConfigService} `{RP : RateProviders} `{LC : LimitConstants}
  `{SS : Horizon}.

Lemma rate_frame_quiet s s' : rate_frame s s' -> quiet s s'.
Proof. intros (e & c & He & ->). split; [reflexivity | same_events]. Qed.

Lemma charged_quiet u a c s s' : charged u a c s s' -> quiet s s'.
Proof.
  intros [usd s0 d m e Hconv _ _ _ He]. pose proof (toUsd_frame a c s) as Hf. rewrite Hconv in Hf. change (rate_frame s s0) in Hf.
  destruct Hf as (e0 & ca & _ & ->). split; [reflexivity | same_events].
Qed.

Lemma wp_check u a c Q X s :
  (forall x s', quiet s s' -> X x s') ->
  (forall s', charged u a c s s' -> quiet s s' -> Q tt s') ->
  wp (TransactionLimitService.check u a c) Q X s.
Proof.
  intros HX HQ. eapply wp_mono; [apply check_spec | |].
  - intros [] s' Hc. apply HQ; [exact Hc | exact (charged_quiet _ _ _ _ _ Hc)].
  - intros x s' Hr. apply HX, rate_frame_quiet, Hr.
Qed.

(** What a withdrawal charges: the amount and its fee. *)
Definition withdrawal_total (dto : WithdrawalDto) : num :=
  num_add (w_amount dto) (FeesService.fee_of (w_amount dto)).

(** The refund of the [catch] block goes through, or it is the refund itself
    that threw. *)
Definition refunded (dto : WithdrawalDto) (t1 : list WalletBalanceEntity.WalletBalanceEntity)
    (x : exn) (s' : World) : Prop :=
  moved (w_userId dto) (w_currency dto) (withdrawal_total dto) t1 s'.(World.wallet_balances) \/
  exists s_r, s_r.(World.wallet_balances) = t1 /\
    adjustBalance (w_userId dto) (w_currency dto) (withdrawal_total dto) s_r = (inl x, s') /\
    s'.(World.wallet_balances) = t1.

Lemma withdrawal_refund_spec dto tx err s :
  wallets_ok s.(World.wallet_balances) ->
  wp (TransactionsService.withdrawal_refund dto (withdrawal_total dto) tx err)
     (fun _ _ => False) (refunded dto s.(World.wallet_balances)) s.
Proof.
  intros Hok. unfold TransactionsService.withdrawal_refund. apply wp_bind, wp_adjustBalance; [exact Hok | |].
  { intros x e He Hrun. right. exists s. auto. }
  intros b e t He Hm _. set (s1 := set_env e s <| World.wallet_balances := t |>).
  assert (Hdone : forall x s', quiet s1 s' -> refunded dto (World.wallet_balances s) x s')
    by (intros x s' [Hw _]; left; rewrite Hw; exact Hm).
  apply wp_bind, wp_quiet; [keeps_state | | exact Hdone]. intros _ s2 H2.
  apply wp_bind, wp_quiet; [unfold AuditService.log; keeps_state | |].
  - intros _ s3 H3. apply wp_throw, Hdone. etransitivity; eassumption.
  - intros x s3 H3. apply Hdone. etransitivity; eassumption.
Qed.

Lemma withdrawal_submit_spec dto tx s :
  wallets_ok s.(World.wallet_balances) -> In tx s.(World.transactions) ->
  wp (TransactionsService.withdrawal_submit dto (withdrawal_total dto) tx)
     (fun tx' s' => s'.(World.wallet_balances) = s.(World.wallet_balances) /\
        tx'.(Transaction.status) = TransactionStatus.COMPLETED /\ tx'.(Transaction.id) = tx.(Transaction.id) /\
        In tx' s'.(World.transactions))
     (refunded dto s.(World.wallet_balances)) s.
Proof.
  intros Hok Hin. unfold TransactionsService.withdrawal_submit. wp_step. wp_step. cbv zeta.
  set (tx1 := tx <| Transaction.status := _ |> <| Transaction.completedAt := _ |>).
  assert (Hcatch : forall x s', World.wallet_balances s' = World.wallet_balances s ->
    wp (TransactionsService.withdrawal_refund dto (withdrawal_total dto) tx1 x)
       (fun tx' s' => s'.(World.wallet_balances) = s.(World.wallet_balances) /\
          tx'.(Transaction.status) = TransactionStatus.COMPLETED /\
          tx'.(Transaction.id) = tx.(Transaction.id) /\ In tx' s'.(World.transactions))
       (refunded dto s.(World.wallet_balances)) s').
  { intros x s' Hw. rewrite <- Hw. rewrite <- Hw in Hok.
    eapply wp_mono; [apply withdrawal_refund_spec, Hok | intros ? ? [] | auto]. }
  apply wp_try_catch, wp_bind, wp_save_tx; [intros; apply Hcatch; reflexivity|].
  intros r e2 t He2 _ Hinr _ Hid.
  rewrite (Hid tx Hin eq_refl) in Hinr.
  apply wp_bind. unfold UsersService.invalidateWalletBalanceCache. apply wp_bind.
  wp_step; [apply Hcatch; reflexivity|]. apply wp_modify, wp_bind, wp_emit, wp_ret.
  do 3 (split; [reflexivity|]). exact Hinr.
Qed.

Lemma createWithdrawal_spec dto s :
  wallets_ok s.(World.wallet_balances) ->
  wp (TransactionsService.createWithdrawal dto)
     (fun tx s' =>
        moved (w_userId dto) (w_currency dto) (- withdrawal_total dto)%num
          s.(World.wallet_balances) s'.(World.wallet_balances) /\
        tx.(Transaction.status) = TransactionStatus.COMPLETED /\ In tx s'.(World.transactions) /\
        num_ltb (balance_in s.(World.wallet_balances) (w_userId dto) (normalizeCurrencyCode (w_currency dto)))
                (withdrawal_total dto) = false /\
        exists s1 s2, quiet s s1 /\ charged (w_userId dto) (withdrawal_total dto) (w_currency dto) s1 s2)
     (fun x s' =>
        s'.(World.wallet_balances) = s.(World.wallet_balances) \/
        exists t1, moved (w_userId dto) (w_currency dto) (- withdrawal_total dto)%num
                     s.(World.wallet_balances) t1 /\ refunded dto t1 x s') s.
Proof.
  intros Hok. unfold TransactionsService.createWithdrawal. apply wp_bind, calculateFee_spec.
  intros e1 He1. cbn [FeesService.feeAmount]. fold (withdrawal_total dto).
  assert (Hstop : forall x s', quiet s s' ->
     s'.(World.wallet_balances) = s.(World.wallet_balances) \/
        exists t1, moved (w_userId dto) (w_currency dto) (- withdrawal_total dto)%num
                     s.(World.wallet_balances) t1 /\ refunded dto t1 x s') by (intros x s' [Hw _]; auto).
  assert (H1 : quiet s (set_env e1 s)) by (apply quiet_env_stable, He1). set (s1 := set_env e1 s) in *.
  clearbody s1. apply wp_bind, wp_quiet;
    [apply (keeps_weaken env_only), ensureAccepted_frame; apply env_only_quiet | |
     intros; apply Hstop; etransitivity; eassumption].
  intros [] s2 H2. apply wp_bind, wp_quiet;
    [unfold TransactionsService.accountExists; keeps_state | |
     intros; apply Hstop; do 2 (etransitivity; [eassumption|]); assumption].
  intros exists_ s3 H3. assert (H03 : quiet s s3) by (do 2 (etransitivity; [eassumption|]); assumption).
  clear H1 H2 H3. apply wp_bind, wp_throw_if; intros _; [apply Hstop, H03|].
  apply wp_bind, wp_check; [intros; apply Hstop; etransitivity; eassumption|].
  intros s4 Hch H4. assert (H04 : quiet s s4) by (etransitivity; eassumption).
  apply wp_bind, wp_getBalance.
  { intros x e He. apply Hstop. etransitivity; [exact H04 | apply quiet_env_stable, He]. }
  intros b e5 He5 _ Hbal. assert (H05 : quiet s (set_env e5 s4))
    by (etransitivity; [exact H04 | apply quiet_env_stable, He5]). set (s5 := set_env e5 s4) in *.
  apply wp_bind, wp_throw_if; intros Hltb; [apply Hstop, H05|]. rewrite Hbal, (proj1 H04) in Hltb.
  clearbody s5. apply wp_bind, wp_save_tx.
  { intros x e He. apply Hstop. etransitivity; [exact H05 | apply quiet_env_stable, He]. }
  intros tx0 e6 t6 He6 _ _ _ _. apply wp_bind, generateReceiptNumber_spec.
  { intros x s' Hq. apply Hstop. etransitivity; [exact H05|]. split; [exact (proj1 Hq)|].
    rewrite (proj2 Hq). same_events. }
  intros tx s7 H7 Hin _. assert (Hw7 : World.wallet_balances s7 = World.wallet_balances s)
    by (rewrite (proj1 H7); exact (proj1 H05)).
  apply wp_bind, wp_adjustBalance; [rewrite Hw7; exact Hok | intros; left; exact Hw7 |].
  intros b8 e8 t8 He8 Hm Hok8. rewrite Hw7 in Hm. eapply wp_mono; [apply withdrawal_submit_spec; assumption | |].
  - intros tx' s' (Hw & Hst & _ & Hin'). split; [rewrite Hw; exact Hm|]. eauto 10.
  - intros x s' Hr. right. exists t8. auto.
Qed.
End Withdrawal.

(** ** Deposits *)

Section Deposit.
Context `{W : WalletsApi} `{CS : ConfigService} `{RP : RateProviders} `{LC : LimitConstants}.

(** The limits are charged when the initializer of [tx] throws. *)
Lemma createDeposit_spec dto s :
  wp (TransactionsService.createDeposit dto) (fun _ _ => False)
     (fun x s' => quiet s s' /\
        (s'.(World.dailyTotals) = s.(World.dailyTotals) \/
         x = ReferenceError "Cannot access 'tx' before initialization" /\
         exists s1 s2, s1.(World.dailyTotals) = s.(World.dailyTotals) /\
           charged (d_userId dto) (num_add (d_amount dto) (FeesService.fee_of (d_amount dto)))
             (d_currency dto) s1 s2 /\ s' = s2)) s.
Proof.
  unfold TransactionsService.createDeposit.
  apply wp_bind, wp_env_only; [apply ensureAccepted_frame | |
    intros x e He; split; [apply quiet_env_stable, He | left; reflexivity]].
  intros [] e1 He1. apply wp_bind, calculateFee_spec. intros e2 He2. cbn [FeesService.feeAmount].
  set (s2 := set_env e2 (set_env e1 s)).
  assert (H2 : quiet s s2) by (split; [reflexivity | unfold s2; same_events]).
  assert (Hd : World.dailyTotals s2 = World.dailyTotals s) by reflexivity. clearbody s2.
  apply wp_bind. eapply wp_mono; [apply check_spec | |].
  - intros [] s3 Hch. apply wp_bind, wp_throw.
    split; [etransitivity; [exact H2 | exact (charged_quiet _ _ _ _ _ Hch)]|].
    right. split; [reflexivity|]. exists s2, s3. auto.
  - intros x s3 Hr. split; [etransitivity; [exact H2 | exact (rate_frame_quiet _ _ Hr)]|].
    left. destruct Hr as (e & ca & _ & ->). exact Hd.
Qed.
End Deposit.

(** ** Swaps *)

Section Swap.
Context `{W : WalletsApi} `{CS : ConfigService} `{RP : RateProviders} `{LC : LimitConstants}.

Definition swap_credit (dto : SwapDto) : string * string * num :=
  (s_userId dto, s_toCurrency dto, s_toAmount dto).

Definition swap_total (dto : SwapDto) : num :=
  num_add (s_fromAmount dto) (FeesService.fee_of (s_fromAmount dto)).

Definition swap_refund (dto : SwapDto) : string * string * num :=
  (s_userId dto, s_fromCurrency dto, swap_total dto).

Definition swap_ids (dto : SwapDto) (tx : Transaction.Transaction) : json :=
  JObj [("transactionId", JStr tx.(Transaction.id)); ("userId", JStr (s_userId dto))].
Definition swap_completed_event (dto : SwapDto) (tx : Transaction.Transaction) : string * json :=
  ("transactions.swap.completed", swap_ids dto tx).
Definition swap_failed_event (dto : SwapDto) (tx : Transaction.Transaction) : string * json :=
  ("transactions.swap.failed", swap_ids dto tx).

(** The wallet takes the credit of an attempt that starts in [s]. *)
Definition reaches_wallet (dto : SwapDto) (s : World) : bool :=
  match adjustBalance (s_userId dto) (s_toCurrency dto) (s_toAmount dto) s with (inr _, _) => true | (inl _, _) => false end.

(** The attempts a loop makes from a state, in order: whether each reached the
    wallet. *)
Fixpoint swap_attempts (dto : SwapDto) (fee : FeesService.FeeResult) (rounds : nat) (n : Z)
    (tx : Transaction.Transaction) (s : World) : list bool :=
  match rounds with
  | O => []
  | S rounds =>
      reaches_wallet dto s ::
      match TransactionsService.swap_attempt dto fee tx n s with
      | (inr (tx', inl _), s1) =>
          let tx' := tx' <| Transaction.retryCount := n + 1 |> in
          match save tx' s1 with
          | (inr _, s2) => swap_attempts dto fee rounds (n + 1) tx' s2
          | (inl _, _) => []
          end
      | _ => []
      end
  end.

(** One credit for each attempt that reached the wallet. *)
Definition swap_credits (dto : SwapDto) (l : list bool) : list (string * string * num) :=
  flat_map (fun reached : bool => if reached then [swap_credit dto] else []) l.

(** What is written beside balances, transactions and events. *)
Definition aside (s s' : World) : Prop :=
  World.wallet_balances s' = World.wallet_balances s /\ World.transactions s' = World.transactions s /\ events s' = events s.
#[local] Instance aside_preorder : PreOrder aside.
Proof. split; [repeat split | intros ? ? ? (? & ? & ?) (? & ? & ?); repeat split; congruence]. Qed.
Lemma aside_env s e : env_step (World.env s) e -> aside s (set_env e s).
Proof. intros He. split; [reflexivity|]. split; [reflexivity|]. exact (es_outbox _ _ He). Qed.
Lemma recordFee_aside dto : keeps aside (FeesService.recordFee dto).
Proof. apply keeps_save; [apply aside_preorder | exact aside_env | repeat split]. Qed.
Lemma log_aside ev : keeps aside (AuditService.log ev).
Proof. apply keeps_save; [apply aside_preorder | exact aside_env | repeat split]. Qed.

Lemma swap_attempt_spec dto fee tx n s :
  wallets_ok s.(World.wallet_balances) -> In tx s.(World.transactions) ->
  wp (TransactionsService.swap_attempt dto fee tx n)
     (fun '(tx', r) s' =>
        wallets_ok s'.(World.wallet_balances) /\ tx'.(Transaction.id) = tx.(Transaction.id) /\
        (exists y, In y s'.(World.transactions) /\ y.(Transaction.id) = tx.(Transaction.id)) /\
        postings (swap_credits dto [reaches_wallet dto s]) s.(World.wallet_balances) s'.(World.wallet_balances) /\
        match r with
        | inl _ => events s' = events s
        | inr _ => reaches_wallet dto s = true /\ tx'.(Transaction.status) = TransactionStatus.COMPLETED /\
            tx'.(Transaction.retryCount) = n /\ In tx' s'.(World.transactions) /\
            events s' = events s ++ [swap_completed_event dto tx']
        end) (fun _ _ => False) s.
Proof.
  intros Hok Hin. unfold TransactionsService.swap_attempt. wp_step. wp_step. wp_step.
  apply wp_adjustBalance_eqn; [exact Hok | |].
  { intros x e He E. wp_step. do 2 (split; [auto|]). split; [exists tx; auto|].
    unfold reaches_wallet. rewrite E. split; [constructor | same_events]. }
  intros b e1 t1 He1 E Hm Hok1. unfold reaches_wallet. rewrite E. clear E.
  assert (Hp : postings [swap_credit dto] s.(World.wallet_balances) t1)
    by (econstructor; [exact Hm | constructor]).
  wp_step. cbv iota beta zeta. apply wp_bind, wp_attempt, wp_bind, wp_save_tx.
  { intros x e2 He2. wp_step. do 2 (split; [auto|]). split; [exists tx; auto|]. split; [exact Hp | same_events]. }
  intros r e2 t2 He2 _ Hinr _ Hid. rewrite (Hid tx Hin eq_refl) in Hinr. apply wp_bind.
  set (tx1 := tx <| Transaction.status := _ |> <| Transaction.completedAt := _ |> <| Transaction.retryCount := _ |>) in *.
  set (s2 := set_env e2 _ <| World.transactions := t2 |>).
  assert (Hev : events s2 = events s) by (unfold s2; same_events).
  apply (wp_keeps aside); [apply recordFee_aside| |].
  - intros _ s3 (Hw & Ht & He3). apply wp_emit, wp_ret. simpl. rewrite Hw, Ht. split; [exact Hok1|].
    split; [reflexivity|]. split; [exists tx1; split; [exact Hinr | reflexivity]|]. split; [exact Hp|].
    repeat (split; [first [reflexivity | exact Hinr]|]).
    change (outbox (env_of s3) ++ [swap_completed_event dto tx1] = events s ++ [swap_completed_event dto tx1]).
    f_equal. rewrite <- Hev. exact He3.
  - intros x s3 (Hw & Ht & He3). wp_step. rewrite Hw, Ht. split; [exact Hok1|].
    split; [reflexivity|]. split; [exists tx1; split; [exact Hinr | reflexivity]|].
    split; [exact Hp | congruence].
Qed.

(** The loop makes at most [rounds] attempts: the last of them completed the
    transaction, or all of them failed, or the count of retries could not be
    saved. *)
Lemma swap_loop_spec dto fee rounds : forall n tx err s,
  wallets_ok s.(World.wallet_balances) -> In tx s.(World.transactions) ->
  let l := swap_attempts dto fee rounds n tx s in
  (length l <= rounds)%nat /\
  wp (TransactionsService.swap_loop dto fee rounds n tx err)
     (fun r s' => wallets_ok s'.(World.wallet_balances) /\
        postings (swap_credits dto l) s.(World.wallet_balances) s'.(World.wallet_balances) /\
        match r with
        | inl tx' => last l = Some true /\ tx'.(Transaction.status) = TransactionStatus.COMPLETED /\
            tx'.(Transaction.id) = tx.(Transaction.id) /\
            tx'.(Transaction.retryCount) = n + Z.of_nat (length l) - 1 /\ In tx' s'.(World.transactions) /\
            events s' = events s ++ [swap_completed_event dto tx']
        | inr (tx', err') => length l = rounds /\ In tx' s'.(World.transactions) /\ events s' = events s /\
            tx'.(Transaction.id) = tx.(Transaction.id) /\
            (rounds = 0%nat -> tx' = tx /\ err' = err) /\
            (rounds <> 0%nat -> tx'.(Transaction.retryCount) = n + Z.of_nat rounds /\ err' <> None)
        end)
     (fun _ s' => l <> [] /\ events s' = events s /\
        postings (swap_credits dto l) s.(World.wallet_balances) s'.(World.wallet_balances)) s.
Proof.
  induction rounds as [|rounds IH]; intros n tx err s Hok Hin; cbn [swap_attempts TransactionsService.swap_loop]; cbv zeta.
  { split; [simpl; lia|]. apply wp_ret. split; [exact Hok|]. split; [constructor|]. do 5 (split; [auto|]). congruence. }
  pose proof (swap_attempt_spec dto fee tx n s Hok Hin) as Ha. unfold wp in Ha. unfold wp at 1, bind at 1.
  destruct (TransactionsService.swap_attempt dto fee tx n s) as [[x|[tx1 [e|[]]]] s1]; [contradiction| |].
  2:{ destruct Ha as (Hok1 & Hid & _ & Hp & Hr & Hst & Hc & Hin1 & Hev). split; [simpl; lia|]. unfold ret. split; [exact Hok1|].
      split; [exact Hp|]. rewrite Hr. repeat (split; [first [reflexivity | assumption]|]).
      split; [rewrite Hc; cbn; lia|]. auto. }
  destruct Ha as (Hok1 & Hid & (y & Hy & Hyid) & Hp & Hev).
  set (tx1' := tx1 <| Transaction.retryCount := n + 1 |>).
  assert (Hsv : wp (save tx1')
    (fun _ s2 => wallets_ok (World.wallet_balances s2) /\ In tx1' (World.transactions s2) /\ events s2 = events s1 /\
                 World.wallet_balances s2 = World.wallet_balances s1)
    (fun _ s2 => events s2 = events s1 /\ World.wallet_balances s2 = World.wallet_balances s1) s1).
  { apply wp_save_tx; [intros x e2 He2; split; [same_events | reflexivity]|].
    intros r2 e2 t2 He2 _ Hin2 _ Hsame. rewrite (Hsame y Hy) in Hin2 by (simpl; congruence).
    split; [exact Hok1|]. split; [exact Hin2|]. split; [same_events | reflexivity]. }
  unfold wp in Hsv. unfold bind at 1. destruct (save tx1' s1) as [[x|u] s2].
  { destruct Hsv as [He2 Hw]. split; [simpl; lia|]. split; [discriminate|]. split; [congruence|]. rewrite Hw. exact Hp. }
  destruct Hsv as (Hok2 & Hin2 & He2 & Hw). specialize (IH (n + 1) tx1' (Some e) s2 Hok2 Hin2) as [Hl Hloop]. cbv zeta in Hloop.
  set (l := swap_attempts dto fee rounds (n + 1) tx1' s2) in *. split; [simpl; lia|].
  assert (Happ : forall t, postings (swap_credits dto l) s2.(World.wallet_balances) t ->
            postings (swap_credits dto (reaches_wallet dto s :: l)) s.(World.wallet_balances) t).
  { intros t Ht. change (swap_credits dto (reaches_wallet dto s :: l)) with
      ((if reaches_wallet dto s then [swap_credit dto] else []) ++ swap_credits dto l).
    rewrite Hw in Ht. eapply postings_app; [|exact Ht]. unfold swap_credits in Hp. cbn [flat_map] in Hp. rewrite app_nil_r in Hp. exact Hp. }
  unfold wp in Hloop. destruct (TransactionsService.swap_loop dto fee rounds (n + 1) tx1' (Some e) s2) as [[x|[tx3|[tx3 err3]]] s3].
  - destruct Hloop as (_ & He3 & Hp3). split; [discriminate|]. split; [congruence | exact (Happ _ Hp3)].
  - destruct Hloop as (Hok3 & Hp3 & Hlast & Hst & Hid3 & Hc & Hin3 & He3). split; [exact Hok3|]. split; [exact (Happ _ Hp3)|].
    split; [destruct l; [discriminate Hlast | exact Hlast]|]. split; [exact Hst|]. split; [rewrite Hid3; exact Hid|].
    split; [rewrite Hc; cbn [length]; lia|]. split; [exact Hin3|]. congruence.
  - destruct Hloop as (Hok3 & Hp3 & Hlen & Hin3 & He3 & Hid3 & H0 & H1). split; [exact Hok3|]. split; [exact (Happ _ Hp3)|].
    split; [cbn [length]; lia|]. split; [exact Hin3|]. split; [congruence|]. split; [rewrite Hid3; exact Hid|].
    split; [discriminate|]. intros _. destruct rounds as [|rounds].
    + destruct (H0 eq_refl) as [-> ->]. split; [cbn; lia | discriminate].
    + destruct (H1 ltac:(discriminate)) as [-> Hne]. split; [lia | exact Hne].
Qed.

(** The postings of a swap: the debit of the source, then the credits. *)
Definition swap_postings (dto : SwapDto) (l : list bool) : list (string * string * num) :=
  (s_userId dto, s_fromCurrency dto, (- swap_total dto)%num) :: swap_credits dto l.

(** How a swap whose source was debited ends: completed by its last attempt; or
    with an exception, either not refunded, when the count of retries was not
    saved or the wallet refused the refund, or refunded after three failed
    attempts, and then marked as failed and announced unless a call fails. *)
Definition swap_completed dto (l : list bool) tx s tx' s' : Prop :=
  last l = Some true /\ tx'.(Transaction.status) = TransactionStatus.COMPLETED /\
  tx'.(Transaction.id) = tx.(Transaction.id) /\
  tx'.(Transaction.retryCount) = Z.of_nat (length l) - 1 /\ In tx' s'.(World.transactions) /\
  postings (swap_postings dto l) s.(World.wallet_balances) s'.(World.wallet_balances) /\
  events s' = events s ++ [swap_completed_event dto tx'].

Definition swap_unrefunded dto (l : list bool) s s' : Prop :=
  postings (swap_postings dto l) s.(World.wallet_balances) s'.(World.wallet_balances) /\ events s' = events s.

Definition swap_refunded dto (l : list bool) tx s s' : Prop :=
  length l = 3%nat /\
  postings (swap_postings dto l ++ [swap_refund dto]) s.(World.wallet_balances) s'.(World.wallet_balances) /\
  (events s' = events s \/
   events s' = events s ++ [swap_failed_event dto tx] /\
   exists row, In row s'.(World.transactions) /\ row.(Transaction.id) = tx.(Transaction.id) /\
     row.(Transaction.status) = TransactionStatus.FAILED /\ row.(Transaction.retryCount) = 3).

Lemma swap_finish_spec dto l tx tx1 err s0 s :
  wallets_ok s.(World.wallet_balances) -> length l = 3%nat -> In tx1 s.(World.transactions) ->
  tx1.(Transaction.id) = tx.(Transaction.id) -> tx1.(Transaction.retryCount) = 3 -> swap_unrefunded dto l s0 s ->
  wp (TransactionsService.swap_finish dto (swap_total dto) (inr (tx1, err))) (fun _ _ => False)
     (fun _ s' => swap_unrefunded dto l s0 s' \/ swap_refunded dto l tx s0 s') s.
Proof.
  intros Hok Hl Hin Hid Hc [Hp Hev]. cbn [TransactionsService.swap_finish]. apply wp_bind, wp_adjustBalance; [exact Hok | |].
  { intros x e He _. left. split; [exact Hp|]. rewrite <- Hev. same_events. }
  intros b e2 t2 He2 Hm _. set (s2 := set_env e2 s <| World.wallet_balances := t2 |>).
  assert (Hev2 : events s2 = events s0) by (rewrite <- Hev; unfold s2; same_events).
  assert (Hp2 : postings (swap_postings dto l ++ [swap_refund dto]) s0.(World.wallet_balances) s2.(World.wallet_balances))
    by (eapply postings_snoc; eassumption).
  assert (Hin2 : In tx1 s2.(World.transactions)) by exact Hin. clearbody s2. cbv zeta.
  assert (Hstop : forall s', World.wallet_balances s' = World.wallet_balances s2 -> events s' = events s2 ->
            swap_unrefunded dto l s0 s' \/ swap_refunded dto l tx s0 s').
  { intros s' Hw He. right. split; [exact Hl|]. rewrite Hw. split; [exact Hp2|]. left. congruence. }
  apply wp_bind, wp_save_tx; [intros x e He; apply Hstop; [reflexivity | same_events]|].
  intros r e3 t3 He3 _ Hin3 _ Hsame. rewrite (Hsame tx1 Hin2 eq_refl) in Hin3. clear Hsame r.
  set (failed := tx1 <| Transaction.status := TransactionStatus.FAILED |>) in *. set (s3 := set_env e3 s2 <| World.transactions := t3 |>) in *.
  assert (Hev3 : events s3 = events s2) by (unfold s3; same_events).
  assert (Hw3 : World.wallet_balances s3 = World.wallet_balances s2) by reflexivity. change t3 with (World.transactions s3) in Hin3. clearbody s3.
  apply wp_bind, (wp_keeps aside); [apply log_aside | |].
  - intros _ s4 (Hw4 & Ht4 & He4). apply wp_bind, wp_emit, wp_throw. right. split; [exact Hl|]. split.
    + change (postings (swap_postings dto l ++ [swap_refund dto]) (World.wallet_balances s0) (World.wallet_balances s4)). congruence.
    + right. split.
      * unfold swap_failed_event, swap_ids. rewrite <- Hid.
        change (outbox (env_of s4) ++ [swap_failed_event dto tx1] = events s0 ++ [swap_failed_event dto tx1]). f_equal.
        rewrite <- Hev2, <- Hev3. exact He4.
      * exists failed. split; [change (In failed (World.transactions s4)); congruence|]. auto.
  - intros x s4 (Hw4 & _ & He4). apply Hstop; congruence.
Qed.

Lemma swap_rest_spec dto fee tx s0 s :
  wallets_ok s.(World.wallet_balances) -> In tx s.(World.transactions) ->
  moved (s_userId dto) (s_fromCurrency dto) (- swap_total dto)%num s0.(World.wallet_balances) s.(World.wallet_balances) ->
  events s = events s0 ->
  let l := swap_attempts dto fee MAX_RETRIES 0 tx s in
  (1 <= length l <= 3)%nat /\
  wp (let* done := TransactionsService.swap_loop dto fee MAX_RETRIES 0 tx None in
      TransactionsService.swap_finish dto (swap_total dto) done)
     (fun tx' s' => swap_completed dto l tx s0 tx' s')
     (fun _ s' => swap_unrefunded dto l s0 s' \/ swap_refunded dto l tx s0 s') s.
Proof.
  intros Hok Hin Hdebit Hev. cbv zeta. destruct (swap_loop_spec dto fee MAX_RETRIES 0 tx None s Hok Hin) as [Hlen Hloop].
  cbv zeta in *. set (l := swap_attempts dto fee MAX_RETRIES 0 tx s) in *. change MAX_RETRIES with 3%nat in Hlen.
  assert (Hp0 : forall s1, postings (swap_credits dto l) s.(World.wallet_balances) s1.(World.wallet_balances) ->
            postings (swap_postings dto l) s0.(World.wallet_balances) s1.(World.wallet_balances))
    by (intros; econstructor; eassumption).
  split; [split; [unfold l; simpl; lia | exact Hlen]|]. apply wp_bind. eapply wp_mono; [exact Hloop | |].
  - intros [tx1|[tx1 err1]] s1 (Hok1 & Hp & Hr).
    + destruct Hr as (Hlast & Hst & Hid & Hc & Hin1 & He1). apply wp_ret. unfold swap_completed.
      split; [exact Hlast|]. split; [exact Hst|]. split; [exact Hid|]. split; [rewrite Hc; lia|]. split; [exact Hin1|].
      split; [exact (Hp0 _ Hp) | congruence].
    + destruct Hr as (Hl & Hin1 & He1 & Hid & _ & H1). destruct (H1 ltac:(discriminate)) as [Hc _].
      eapply wp_mono; [apply (swap_finish_spec dto l tx tx1 err1 s0 s1); auto | intros ? ? [] | auto].
      split; [exact (Hp0 _ Hp) | congruence].
  - intros x s1 (_ & He1 & Hp). left. split; [exact (Hp0 _ Hp) | congruence].
Qed.

(** Before the debit nothing moves. *)
Lemma swap_debit_spec dto s :
  wallets_ok s.(World.wallet_balances) ->
  wp (TransactionsService.swap_debit dto)
     (fun '(tx, fee, total) s' => wallets_ok s'.(World.wallet_balances) /\ In tx s'.(World.transactions) /\ total = swap_total dto /\
        moved (s_userId dto) (s_fromCurrency dto) (- swap_total dto)%num s.(World.wallet_balances) s'.(World.wallet_balances) /\
        events s' = events s)
     (fun _ s' => quiet s s') s.
Proof.
  intros Hok. unfold TransactionsService.swap_debit.
  assert (Hstop' : forall s' e, quiet s s' -> env_step (World.env s') e -> quiet s (set_env e s'))
    by (intros s' e Hq He; etransitivity; [exact Hq | apply quiet_env_stable, He]).
  apply wp_bind, wp_env_only; [apply ensureAccepted_frame | |
    intros x e He; apply (Hstop' s e); [reflexivity | exact He]].
  intros [] e1 He1. apply wp_bind, calculateFee_spec. intros e2 He2. cbn [FeesService.feeAmount].
  fold (swap_total dto).
  set (s2 := set_env e2 (set_env e1 s)).
  assert (H2 : quiet s s2) by (split; [reflexivity | unfold s2; same_events]). clearbody s2.
  apply wp_bind, wp_check; [intros x s' Hq; etransitivity; eassumption|].
  intros s3 _ H3. assert (H03 : quiet s s3) by (etransitivity; eassumption).
  apply wp_bind, wp_getBalance; [intros; apply Hstop'; assumption|].
  intros b e4 He4 _ _. pose proof (Hstop' _ _ H03 He4) as H04. set (s4 := set_env e4 s3) in *. clearbody s4.
  apply wp_bind, wp_lift; [intros; exact H04|]. intros have _.
  apply wp_bind, wp_lift; [intros; exact H04|]. intros need _.
  apply wp_bind, wp_throw_if; intros _; [exact H04|].
  apply wp_bind, wp_save_tx; [intros; apply Hstop'; assumption|].
  intros tx e5 t5 He5 _ Hin _ _.
  assert (H05 : quiet s (set_env e5 s4 <| World.transactions := t5 |>)) by exact (Hstop' _ _ H04 He5).
  apply wp_bind, wp_adjustBalance; [rewrite (proj1 H05); exact Hok | |].
  { intros x e He _. exact (Hstop' _ _ H05 He). }
  intros b6 e6 t6 He6 Hm Hok6. rewrite (proj1 H05) in Hm. apply wp_ret.
  split; [exact Hok6|]. split; [exact Hin|]. split; [reflexivity|]. split; [exact Hm|].
  exact (proj2 (Hstop' _ _ H05 He6)).
Qed.
End Swap.

(** ** Reversals *)

Section Reversal.
Context `{W : WalletsApi}.

(** The two legs of a reversal, when Big.js accepts the amount. *)
Definition reversal_legs (tx : Transaction.Transaction) (back taken : num) : list (string * string * num) :=
  [(tx.(Transaction.senderId), tx.(Transaction.currency), back);
   (tx.(Transaction.receiverId), tx.(Transaction.currency), taken)].

Lemma findUser_frame id : keeps env_only (UsersService.findById id).
Proof. unfold UsersService.findById. keeps_auto. Qed.

Lemma env_only_txs s s' : env_only s s' -> s'.(World.transactions) = s.(World.transactions).
Proof. intros (e & _ & ->). reflexivity. Qed.

(** After the row is marked: users, mails, audit log, event. *)
Lemma same_money_txs {A} (m : M World A) Q X s :
  keeps (same World.wallet_balances) m -> keeps (same World.transactions) m ->
  (forall a s', s'.(World.wallet_balances) = s.(World.wallet_balances) ->
     s'.(World.transactions) = s.(World.transactions) -> Q a s') ->
  (forall x s', s'.(World.wallet_balances) = s.(World.wallet_balances) -> X x s') -> wp m Q X s.
Proof.
  intros Hw Ht HQ HX. specialize (Hw s). specialize (Ht s). unfold wp.
  destruct (m s) as [[x|a] s']; auto.
Qed.

Lemma reverse_callback_spec old input s :
  wallets_ok s.(World.wallet_balances) -> In old s.(World.transactions) ->
  wp (TransactionsService.reverse_callback old input)
     (fun tx s' =>
        exists back taken,
          TransactionsService.amount_number old.(Transaction.amount) = inr back /\
          TransactionsService.negated_amount_number old.(Transaction.amount) = inr taken /\
          postings (reversal_legs old back taken) s.(World.wallet_balances) s'.(World.wallet_balances) /\
          tx.(Transaction.id) = old.(Transaction.id) /\
          tx.(Transaction.status) = TransactionStatus.REVERSED /\
          tx.(Transaction.reversedAt) <> None /\ tx.(Transaction.deletedAt) = old.(Transaction.deletedAt) /\
          In tx s'.(World.transactions) /\
          (forall y, In y s'.(World.transactions) -> y.(Transaction.id) = old.(Transaction.id) -> y = tx))
     (fun _ s' => exists back taken l, l `prefix_of` reversal_legs old back taken /\
        postings l s.(World.wallet_balances) s'.(World.wallet_balances)) s.
Proof.
  intros Hok Hin. unfold TransactionsService.reverse_callback.
  assert (Hnone : forall s', World.wallet_balances s' = World.wallet_balances s ->
    exists back taken l, l `prefix_of` reversal_legs old back taken /\
        postings l s.(World.wallet_balances) s'.(World.wallet_balances)).
  { intros s' ->. exists (num_of_Z 0), (num_of_Z 0), []. split; [apply prefix_nil | constructor]. }
  apply wp_bind, wp_lift; [intros; apply Hnone; reflexivity|]. intros back Hback.
  apply wp_bind, wp_adjustBalance; [exact Hok | intros; apply Hnone; reflexivity|].
  intros b1 e1 t1 He1 Hm1 Hok1. apply wp_bind, wp_lift.
  { intros x _. exists back, (num_of_Z 0). eexists [_]. split; [apply prefix_cons, prefix_nil|].
    econstructor; [exact Hm1 | constructor]. }
  intros taken Htaken. apply wp_bind, wp_adjustBalance; [exact Hok1 | |].
  { intros x e _ _. exists back, taken. eexists [_]. split; [apply prefix_cons, prefix_nil|].
    econstructor; [exact Hm1 | constructor]. }
  intros b2 e2 t2 He2 Hm2 Hok2. cbn [World.wallet_balances assign] in Hm2.
  assert (Hp : postings (reversal_legs old back taken) s.(World.wallet_balances) t2).
  { econstructor; [exact Hm1|]. econstructor; [exact Hm2 | constructor]. }
  set (s2 := set_env e2 _ <| World.wallet_balances := t2 |>).
  assert (Hx : forall s', World.wallet_balances s' = World.wallet_balances s2 ->
    exists back taken l, l `prefix_of` reversal_legs old back taken /\
        postings l s.(World.wallet_balances) s'.(World.wallet_balances)).
  { intros s' ->. exists back, taken. eexists. split; [reflexivity | exact Hp]. }
  assert (Hin2 : In old (World.transactions s2)) by exact Hin.
  assert (Hw2 : World.wallet_balances s2 = t2) by reflexivity. clearbody s2.
  apply wp_bind, wp_date_now. intros n3 e3 _ _. cbv zeta.
  apply wp_bind, wp_save; [intros; apply Hx; reflexivity|].
  intros e4 rev _ _ _ Htouch Hnew. apply wp_bind, wp_date_now. intros n5 e5 _ _.
  set (tx := old <| Transaction.status := _ |> <| Transaction.reversedAt := _ |> <| Transaction.reversedBy := _ |>
               <| Transaction.reversalReason := _ |> <| Transaction.reversalTransactionId := _ |>).
  set (s5 := set_env e5 _).
  assert (Hw5 : World.wallet_balances s5 = World.wallet_balances s2) by reflexivity.
  assert (Hex : exists y, In y (World.transactions s5) /\ row_id y = row_id old).
  { destruct (String.eqb_spec (row_id old) (row_id rev)) as [Heq|Hne].
    - exists rev. split; [apply in_upsert_self | congruence].
    - exists old. split; [apply in_upsert_other; [exact Hin2 | exact Hne] | reflexivity]. }
  clearbody s5. apply wp_bind, wp_save_tx; [intros; apply Hx; exact Hw5|].
  intros r e6 t6 _ _ Hinr Hall Hsame. destruct Hex as (y & Hy & Hyid).
  specialize (Hsame y Hy Hyid). subst r.
  set (s6 := set_env e6 s5 <| World.transactions := t6 |>).
  assert (Hw6 : World.wallet_balances s6 = World.wallet_balances s2) by exact Hw5.
  assert (Ht6 : World.transactions s6 = t6) by reflexivity. clearbody s6.
  assert (Hend : forall s', World.wallet_balances s' = World.wallet_balances s6 ->
    exists back taken l, l `prefix_of` reversal_legs old back taken /\
        postings l s.(World.wallet_balances) s'.(World.wallet_balances))
    by (intros s' Hw; apply Hx; congruence).
  apply wp_bind, same_money_txs; [unfold UsersService.findById; keeps_state.. | | auto].
  intros sender s7 Hw7 Ht7. apply wp_bind, same_money_txs;
    [unfold UsersService.findById; keeps_state.. | | intros; apply Hend; congruence].
  intros receiver s8 Hw8 Ht8. unfold TransactionsService.sendTransactionReversalNotice.
  apply wp_bind, wp_emit, wp_bind, wp_emit, wp_bind.
  match goal with |- wp _ _ _ ?s => set (s9 := s) end.
  assert (Hw9 : World.wallet_balances s9 = World.wallet_balances s2) by (change (World.wallet_balances s8 = World.wallet_balances s2); congruence).
  assert (Ht9 : World.transactions s9 = t6) by (change (World.transactions s8 = t6); congruence).
  clearbody s9. apply same_money_txs;
    [unfold AuditService.log; keeps_state.. | | intros; apply Hx; congruence].
  intros log s10 Hw10 Ht10. apply wp_bind, wp_emit, wp_ret. exists back, taken.
  do 2 (split; [assumption|]).
  split; [change (postings (reversal_legs old back taken) (World.wallet_balances s) (World.wallet_balances s10));
          replace (World.wallet_balances s10) with t2 by congruence; exact Hp|].
  do 2 (split; [reflexivity|]). split; [discriminate|]. split; [reflexivity|].
  change (In tx (World.transactions s10) /\ forall z, In z (World.transactions s10) -> Transaction.id z = Transaction.id old -> z = tx).
  rewrite Ht10, Ht9. split; [exact Hinr|]. intros z Hz Hzid.
  destruct (Hall z Hz) as [|[_ Hne]]; [assumption|]. exfalso. apply Hne. exact Hzid.
Qed.

Lemma reverseTransaction_spec id input s :
  wallets_ok s.(World.wallet_balances) ->
  wp (TransactionsService.reverseTransaction id input)
     (fun tx s' => exists old back taken,
        In old s.(World.transactions) /\ live old = true /\ old.(Transaction.id) = id /\ old.(Transaction.reversedAt) = None /\
        postings (reversal_legs old back taken) s.(World.wallet_balances) s'.(World.wallet_balances) /\
        tx.(Transaction.id) = id /\ tx.(Transaction.status) = TransactionStatus.REVERSED /\
        tx.(Transaction.reversedAt) <> None /\ live tx = true /\
        In tx s'.(World.transactions) /\
        (forall y, In y s'.(World.transactions) -> y.(Transaction.id) = id -> y = tx))
     (fun x s' => s'.(World.transactions) = s.(World.transactions)) s.
Proof.
  intros Hok. unfold TransactionsService.reverseTransaction. apply wp_bind, wp_findById; [reflexivity|].
  intros old e He _ Hin Hlive Hid. apply wp_bind, wp_throw_if; intros Hrev; [reflexivity|].
  assert (Hnone : old.(Transaction.reversedAt) = None) by (destruct (Transaction.reversedAt old); congruence).
  apply wp_dataSource_transaction; [reflexivity|].
  intros e0 He0. eapply wp_mono; [apply reverse_callback_spec; assumption | |].
  - intros tx s' (back & taken & _ & _ & Hp & Htid & Hst & Hra & Hdel & Hin' & Hall). split.
    + intros e1 _. exists old, back, taken.
      do 4 (split; [assumption|]). split; [exact Hp|]. split; [congruence|].
      do 2 (split; [assumption|]).
      split; [simpl in *; rewrite Hdel; exact Hlive|]. split; [exact Hin'|].
      intros y Hy Hyid. apply Hall; [exact Hy | congruence].
    + intros e1 x _ _. reflexivity.
  - intros x s' _. reflexivity.
Qed.

(** A transaction that is marked reversed is not reversed again. *)
Lemma reverse_reversed id input s tx :
  tx.(Transaction.reversedAt) <> None -> live tx = true -> In tx s.(World.transactions) ->
  tx.(Transaction.id) = id ->
  (forall y, In y s.(World.transactions) -> y.(Transaction.id) = id -> y = tx) ->
  wp (TransactionsService.reverseTransaction id input)
     (fun _ _ => False)
     (fun x s' => env_only s s' /\ (env_fault (World.env s) x \/
        x = UnprocessableEntityException "Transaction has already been reversed")) s.
Proof.
  intros Hra Hlive Hin Hid Hall. unfold TransactionsService.reverseTransaction.
  assert (Hfind : List.find (fun t => live t && String.eqb t.(Transaction.id) id) s.(World.transactions) = Some tx).
  { destruct (List.find _ _) as [y|] eqn:Hf.
    - apply find_live_some in Hf as (Hy & _ & Hyid). apply String.eqb_eq in Hyid. f_equal. auto.
    - pose proof (List.find_none _ _ Hf tx Hin) as Hn. simpl in Hn, Hlive.
      rewrite Hlive, Hid, String.eqb_refl in Hn. discriminate. }
  unfold TransactionsService.findById. apply wp_bind, wp_bind, wp_findOne.
  { intros e x He Hf. split; [exists e; auto | auto]. }
  intros e He. change (rows (E:=Transaction.Transaction) s) with (World.transactions s). rewrite Hfind.
  apply wp_ret, wp_bind, wp_throw_if.
  - intros _. split; [exists e; auto | auto].
  - intros Hn. destruct (Transaction.reversedAt tx); congruence.
Qed.
End Reversal.
