(* ===== verification/TransactionTheorems.v ===== *)
(** The properties of [TransactionsService], with worked examples: the ones
    that hold of every run, and the concrete runs in which money is created,
    lost or moved twice. *)
From S2P Require Import Prelude JsNumber NumberLaws Effects RepositoryLaws JsData ThirdParty Currencies Entities World Wallets PostingRules Accounts QueryBuilder Fees Limits Transactions TransactionLaws.
Local Open Scope Z_scope.

(** ** Worked examples: the parameters *)

Definition demo_config : ConfigService := {|
  config_number _ := None; config_string _ := None; config_bool _ := None; config_list _ := None
|}.
Definition no_rates : RateProviders := {|
  openexchangerates_rates _ _ := ∅; exchangeratehost_quotes _ _ := None
|}.
Definition all_funded : Horizon := {| horizon_cache _ _ := Some true; horizon_ok _ _ := true |}.

#[local] Existing Instances decimal_big demo_config no_rates default_limits all_funded.

Definition demo_user (id : string) : User.User :=
  User.mk id (id +:+ "@nexafx.example") "hash" "First" "Last" UserRole.USER true KycStatus.APPROVED
    true "en" None false 0 None 0 0.

(** alice has 100.00 USD and accepted the terms; bob has 20.50 EUR. *)
Definition trading_world (e : Env) : World :=
  two_wallets <| World.env := e |>
    <| World.users := [demo_user "alice"; demo_user "bob"] |>
    <| World.terms_acceptances := [TermsAcceptance.mk "t1" "alice" "1.0" 5 None None] |>.

Definition pay_bob (amount : num) : TransferDto := mkTransfer "alice" "bob" amount "USD" "ref-1" [].
Definition withdraw (amount : num) : WithdrawalDto := mkWithdrawal "alice" amount "USD" "ref-2" "GDEST" [].
Definition swap_to_eur : SwapDto := mkSwap "alice" (num_of_Z 10) "USD" (num_of_Z 9) "EUR" "ref-3" [].

(** What a run shows: its exception or ["ok"], and balances as strings. *)
Definition result_of {A} (r : (exn + A) * World) : string :=
  match r.1 with inl x => message_of x | inr _ => "ok" end.
Definition printed_balance (s : World) (a c : string) : string :=
  num_to_string (balance_in s.(World.wallet_balances) a c).
Definition statuses (s : World) : list string :=
  map (fun tx => TransactionStatus.show tx.(Transaction.status)) s.(World.transactions).

(** A completed transfer of 10 USD from alice to carol, who has 50 USD but no
    user row any more. *)
Definition completed_transfer : Transaction.Transaction :=
  Transaction.mk "tx1" "alice" "carol" (num_of_Z 10) "USD" (num_of_Z 0) TransactionStatus.COMPLETED
    "ref-0" None [] 0 (Some 1) None None None None None 0 None [] None None None.
Definition orphaned_world : World :=
  (trading_world demo_env)
    <| World.transactions := [completed_transfer] |>
    <| World.wallet_balances :=
         [demo_wallet "w1" "alice" "USD" (num_of_Z 100); demo_wallet "w3" "carol" "USD" (num_of_Z 50)] |>.

(** ** Theorems *)

Section Theorems.
Context `{W : WalletsApi} `{CS : ConfigService} `{RP : RateProviders} `{LC : LimitConstants}
  `{SS : Horizon} `{RX : Radix36}.

(** C2 A transfer that throws moved no money and emitted nothing. One that
    returns had a positive amount and two parties, and either settled (both
    postings made, the stored row COMPLETED, the event emitted once) or did not:
    its stored row is PENDING, no event is emitted, and the postings made are
    none, the debit, or the debit and the credit. *)
Theorem transfer_outcomes dto s :
  wallets_ok s.(World.wallet_balances) ->
  match TransactionsService.transfer dto s with
  | (inl _, s') => quiet s s'
  | (inr tx, s') =>
      wallets_ok s'.(World.wallet_balances) /\
      num_leb (t_amount dto) (num_of_Z 0) = false /\ senderId dto <> receiverId dto /\
      (settled dto s tx s' \/ unsettled dto s tx s')
  end.
Proof.
  intros Hok. pose proof (transfer_spec dto s Hok) as Hspec. unfold wp in Hspec.
  destruct (TransactionsService.transfer dto s) as [[x|tx] s']; exact Hspec.
Qed.

(** C1 A transfer that emitted its completion event conserves money: in whole
    cents it is the ledger's debit of the sender followed by its credit of the
    receiver, and the sum of the two balances is what it was. *)
Theorem transfer_conserves_money `{!BigJsLaws _} dto s tx s' z L :
  wallets_ok s.(World.wallet_balances) -> represents s.(World.wallet_balances) L ->
  let c := normalizeCurrencyCode (t_currency dto) in
  cents (t_amount dto) z ->
  representable (ledger_balance L (senderId dto) c - z) ->
  representable (ledger_balance L (receiverId dto) c + z) ->
  TransactionsService.transfer dto s = (inr tx, s') -> events s' <> events s ->
  exists L1 L', ledger_post L (senderId dto) c (- z) = Some L1 /\
    ledger_post L1 (receiverId dto) c z = Some L' /\ represents s'.(World.wallet_balances) L' /\
    ledger_balance L' (senderId dto) c + ledger_balance L' (receiverId dto) c =
    ledger_balance L (senderId dto) c + ledger_balance L (receiverId dto) c.
Proof.
  intros Hok Hrep c Hz Hr1 Hr2 Hrun Hev.
  destruct (wp_run_ok _ _ _ _ _ _ (transfer_spec dto s Hok) Hrun)
    as (_ & Hpos & Hne & [(_ & _ & Hp & _) | [Hev' _]]); [|contradiction].
  pose proof (num_leb_false_not_zero _ Hpos) as Hnz. unfold transfer_legs in Hp.
  inversion Hp as [|? ? ? ? ? t1 ? Hm1 Hp1]; subst. inversion Hp1 as [|? ? ? ? ? t2 ? Hm2 Hp2]; subst.
  inversion Hp2; subst. clear Hp Hp1 Hp2. unfold moved in Hm1, Hm2.
  rewrite num_opp_zero, Hnz in Hm1. rewrite Hnz in Hm2. fold c in Hm1, Hm2.
  destruct (represents_post _ _ _ _ _ _ _ Hrep (cents_opp _ _ Hz) Hr1 Hm1) as (L1 & HL1 & Hrep1).
  assert (Hb1 : ledger_balance L1 (receiverId dto) c = ledger_balance L (receiverId dto) c).
  { rewrite (ledger_post_balance _ _ _ _ _ _ _ HL1), decide_False by congruence. lia. }
  rewrite <- Hb1 in Hr2.
  destruct (represents_post _ _ _ _ _ _ _ Hrep1 Hz Hr2 Hm2) as (L' & HL' & Hrep').
  exists L1, L'. do 3 (split; [assumption|]).
  rewrite !(ledger_post_balance _ _ _ _ _ _ _ HL'), !(ledger_post_balance _ _ _ _ _ _ _ HL1).
  repeat case_decide; try congruence; lia.
Qed.

(** C7 A withdrawal that returns debited the amount plus its fee exactly once,
    from a balance that covered it, after the limit check charged it, and its
    stored row is COMPLETED. One that throws left the balances as they were,
    or refunded its debit, or it is the refund itself that threw. *)
Theorem withdrawal_outcomes dto s :
  wallets_ok s.(World.wallet_balances) ->
  match TransactionsService.createWithdrawal dto s with
  | (inr tx, s') =>
      moved (w_userId dto) (w_currency dto) (- withdrawal_total dto)%num
        s.(World.wallet_balances) s'.(World.wallet_balances) /\
      tx.(Transaction.status) = TransactionStatus.COMPLETED /\ In tx s'.(World.transactions) /\
      num_ltb (balance_in s.(World.wallet_balances) (w_userId dto) (normalizeCurrencyCode (w_currency dto)))
              (withdrawal_total dto) = false /\
      exists s1 s2, quiet s s1 /\ charged (w_userId dto) (withdrawal_total dto) (w_currency dto) s1 s2
  | (inl x, s') =>
      s'.(World.wallet_balances) = s.(World.wallet_balances) \/
      exists t1, moved (w_userId dto) (w_currency dto) (- withdrawal_total dto)%num
                   s.(World.wallet_balances) t1 /\ refunded dto t1 x s'
  end.
Proof.
  intros Hok. pose proof (createWithdrawal_spec dto s Hok) as Hspec. unfold wp in Hspec.
  destruct (TransactionsService.createWithdrawal dto s) as [[x|tx] s']; exact Hspec.
Qed.

(** In whole cents the refund of a failed withdrawal is exact: a withdrawal
    that throws leaves the ledger where it was, unless it is the refund itself
    that threw. *)
Theorem withdrawal_refund_exact `{!BigJsLaws _} dto s x s' z L :
  wallets_ok s.(World.wallet_balances) -> represents s.(World.wallet_balances) L ->
  let a := w_userId dto in let c := normalizeCurrencyCode (w_currency dto) in
  cents (withdrawal_total dto) z -> num_eqb (withdrawal_total dto) (num_of_Z 0) = false ->
  representable (ledger_balance L a c - z) -> representable (ledger_balance L a c) ->
  TransactionsService.createWithdrawal dto s = (inl x, s') ->
  represents s'.(World.wallet_balances) L \/
  exists s_r, adjustBalance (w_userId dto) (w_currency dto) (withdrawal_total dto) s_r = (inl x, s').
Proof.
  intros Hok Hrep a c Hz Hnz Hr1 Hr2 Hrun.
  destruct (wp_run_exn _ _ _ _ _ _ (createWithdrawal_spec dto s Hok) Hrun)
    as [->|(t1 & Hm1 & [Hm2|(s_r & _ & Hr & _)])]; [left; exact Hrep | left | right; eauto].
  unfold moved in Hm1, Hm2. rewrite num_opp_zero, Hnz in Hm1. rewrite Hnz in Hm2. fold a c in Hm1, Hm2.
  destruct (represents_post _ _ _ _ _ _ _ Hrep (cents_opp _ _ Hz) Hr1 Hm1) as (L1 & HL1 & Hrep1).
  assert (Hb : ledger_balance L1 a c + z = ledger_balance L a c).
  { rewrite (ledger_post_balance _ _ _ _ _ _ _ HL1), decide_True by reflexivity. lia. }
  rewrite <- Hb in Hr2.
  destruct (represents_post _ _ _ _ _ _ _ Hrep1 Hz Hr2 Hm2) as (L2 & HL2 & Hrep2).
  refine (represents_ext _ _ _ _ Hrep2). intros a' c'.
  rewrite (ledger_post_balance _ _ _ _ _ _ _ HL2), (ledger_post_balance _ _ _ _ _ _ _ HL1).
  destruct (decide _); lia.
Qed.

(** No deposit ever succeeds: [createDeposit] throws on every input and in
    every state, moves no money and emits nothing; when the limit check lets it
    through it throws a ReferenceError after the user's daily and monthly
    totals were charged. *)
Theorem deposits_never_succeed dto s :
  exists x s', TransactionsService.createDeposit dto s = (inl x, s') /\ quiet s s' /\
    (s'.(World.dailyTotals) = s.(World.dailyTotals) \/
     x = ReferenceError "Cannot access 'tx' before initialization" /\
     exists s1, s1.(World.dailyTotals) = s.(World.dailyTotals) /\
       charged (d_userId dto) (num_add (d_amount dto) (FeesService.fee_of (d_amount dto)))
         (d_currency dto) s1 s').
Proof.
  pose proof (createDeposit_spec dto s) as Hspec. unfold wp in Hspec.
  destruct (TransactionsService.createDeposit dto s) as [[x|tx] s']; [|contradiction].
  exists x, s'. split; [reflexivity|]. destruct Hspec as [Hq [Hd|(Hx & s1 & s2 & Hd & Hc & ->)]]; eauto 10.
Qed.

(** C8 How a swap ends.  Until the source is debited an exception leaves every
    balance and event as they were.  From then on it makes one to three attempts,
    and the balances are the debit followed by one credit for each attempt that
    reached the wallet, whether it counted as a success or not.  It returns when
    its last attempt reached the wallet and was recorded: the stored row is
    COMPLETED with the number of attempts before it, and the completion is
    announced once.  It throws, announcing no completion, either with the debit
    and those credits kept, or after three attempts with the debit given back
    after them; an announced failure comes with a stored row that is FAILED and
    counts three retries. *)
Theorem swap_outcomes dto s :
  wallets_ok s.(World.wallet_balances) ->
  match TransactionsService.swap_debit dto s with
  | (inl x, s1) => TransactionsService.createSwap dto s = (inl x, s1) /\ quiet s s1
  | (inr (tx, fee, _), s1) =>
      moved (s_userId dto) (s_fromCurrency dto) (- swap_total dto)%num s.(World.wallet_balances) s1.(World.wallet_balances) /\
      let l := swap_attempts dto fee MAX_RETRIES 0 tx s1 in
      (1 <= length l <= 3)%nat /\
      match TransactionsService.createSwap dto s with
      | (inr tx', s') => swap_completed dto l tx s tx' s'
      | (inl _, s') => swap_unrefunded dto l s s' \/ swap_refunded dto l tx s s'
      end
  end.
Proof.
  intros Hok. pose proof (swap_debit_spec dto s Hok) as Hd. unfold wp in Hd.
  assert (Hrun : TransactionsService.createSwap dto s =
    match TransactionsService.swap_debit dto s with
    | (inl x, s1) => (inl x, s1)
    | (inr (tx, fee, total), s1) =>
        (let* done := TransactionsService.swap_loop dto fee MAX_RETRIES 0 tx None in TransactionsService.swap_finish dto total done) s1
    end) by (unfold TransactionsService.createSwap, bind; now destruct (TransactionsService.swap_debit dto s) as [[x|[[tx fee] total]] s1]).
  rewrite Hrun. clear Hrun.
  destruct (TransactionsService.swap_debit dto s) as [[x|[[tx fee] total]] s1]; [now split|].
  destruct Hd as (Hok1 & Hin & -> & Hm & Hev). split; [exact Hm|].
  destruct (swap_rest_spec dto fee tx s s1 Hok1 Hin Hm Hev) as [Hl Hrest]. cbv zeta in *. split; [exact Hl|].
  unfold wp in Hrest. destruct ((let* done := _ in _) s1) as [[x|tx'] s']; exact Hrest.
Qed.

(** Only a PENDING transaction can be cancelled: a cancellation that
    returns found a PENDING row, rewrote nothing of it but the status, touched
    no other row and no balance, and emitted one event; one that throws changed
    nothing. *)
Theorem cancel_outcomes id s :
  match TransactionsService.cancelTransaction id s with
  | (inr tx, s') => exists old,
      In old s.(World.transactions) /\ old.(Transaction.id) = id /\
      old.(Transaction.status) = TransactionStatus.PENDING /\
      tx = old <| Transaction.status := TransactionStatus.CANCELLED |> /\
      s'.(World.transactions) = upsert tx s.(World.transactions) /\
      s'.(World.wallet_balances) = s.(World.wallet_balances) /\
      events s' = events s ++ [cancelled_event tx]
  | (inl _, s') => env_only s s'
  end.
Proof.
  pose proof (cancelTransaction_spec id s) as Hspec. unfold wp in Hspec.
  destruct (TransactionsService.cancelTransaction id s) as [[x|tx] s']; exact Hspec.
Qed.

(** C9 A transaction is reversed at most once: after a reversal that
    returned, whatever the clocks and failures, every further reversal of the
    same transaction is refused and changes nothing. *)
Theorem reversed_at_most_once id input input' s tx s1 :
  wallets_ok s.(World.wallet_balances) ->
  TransactionsService.reverseTransaction id input s = (inr tx, s1) ->
  exists x s2, TransactionsService.reverseTransaction id input' s1 = (inl x, s2) /\ env_only s1 s2 /\
    (env_fault (World.env s1) x \/
     x = UnprocessableEntityException "Transaction has already been reversed").
Proof.
  intros Hok Hrun.
  destruct (wp_run_ok _ _ _ _ _ _ (reverseTransaction_spec id input s Hok) Hrun)
    as (old & back & taken & _ & _ & _ & _ & _ & Hid & _ & Hra & Hlive & Hin & Hall).
  pose proof (reverse_reversed id input' s1 tx Hra Hlive Hin Hid Hall) as Hspec. unfold wp in Hspec.
  destruct (TransactionsService.reverseTransaction id input' s1) as [[x|tx'] s2]; [|contradiction].
  exists x, s2. destruct Hspec. auto.
Qed.

(** The history answers what was asked: rows that satisfy every filter
    given, newest first, at most the clamped limit (between 1 and 100) of them,
    with the total over all pages; and it changes nothing. *)
Theorem history_sound filters s :
  match TransactionsService.findHistory filters s with
  | (inr h, s') =>
      env_only s s' /\ 1 <= limit h <= 100 /\
      (forall tx, In tx (items h) -> In tx s.(World.transactions) /\ live tx = true /\
         TransactionsService.history_matches filters tx = true) /\
      sorted_by (fun tx => - tx.(Transaction.createdAt)) (items h) /\
      Z.of_nat (length (items h)) <= limit h /\
      total h = Z.of_nat (length (List.filter
        (fun tx => live tx && TransactionsService.history_matches filters tx) s.(World.transactions))) /\
      items h = page_of ((page h - 1) * limit h) (limit h)
        (order_desc Transaction.createdAt (List.filter
           (fun tx => live tx && TransactionsService.history_matches filters tx) s.(World.transactions)))
  | (inl _, s') => env_only s s'
  end.
Proof.
  pose proof (findHistory_spec filters s) as Hspec. cbv zeta in Hspec. unfold wp in Hspec.
  destruct (TransactionsService.findHistory filters s) as [[x|h] s']; [exact Hspec|].
  destruct Hspec as (He & Hl & _ & Hin & Hs & Hlen & Ht & Hp). rewrite Hl.
  split; [exact He|]. split; [apply effective_limit_bounds|]. auto.
Qed.
End Theorems.

(** ** Runs in which money is created, lost or moved twice *)

(** A transfer is not atomic: when the connection fails between the two
    postings the sender's debit stays, the receiver gets nothing, the row is
    PENDING and the caller is given the transaction as if nothing had happened;
    cancelling that transaction then succeeds and does not give the money back. *)
Theorem transfer_can_lose_the_debit :
  let r := TransactionsService.transfer (pay_bob (num_of_Z 30)) (trading_world (failing_env [12%nat])) in
  let c := TransactionsService.cancelTransaction "u0" r.2 in
  result_of r = "ok" /\ statuses r.2 = ["pending"] /\ events r.2 = [] /\
  printed_balance r.2 "alice" "USD" = "70" /\ printed_balance r.2 "bob" "USD" = "0" /\
  map Transaction.id r.2.(World.transactions) = ["u0"] /\
  result_of c = "ok" /\ statuses c.2 = ["cancelled"] /\ printed_balance c.2 "alice" "USD" = "70".
Proof. vm_compute. repeat split. Qed.

(** A withdrawal of a negative amount is accepted and credits the wallet. *)
Theorem negative_withdrawal_credits :
  let r := TransactionsService.createWithdrawal (withdraw (num_of_Z (-30))) (trading_world demo_env) in
  result_of r = "ok" /\ statuses r.2 = ["completed"] /\
  printed_balance (trading_world demo_env) "alice" "USD" = "100" /\
  printed_balance r.2 "alice" "USD" = "130.03".
Proof. vm_compute. repeat split. Qed.

(** With a fee below one cent the refund of a failed withdrawal is not
    exact: a withdrawal of 5.00 (total 5.005) that fails after the debit leaves
    100.01 where there was 100.00. *)
Theorem refund_can_create_a_cent :
  let r := TransactionsService.createWithdrawal (withdraw (num_of_Z 5)) (trading_world (failing_env [12%nat])) in
  result_of r = "connection lost" /\ statuses r.2 = ["failed"] /\
  printed_balance (trading_world demo_env) "alice" "USD" = "100" /\
  printed_balance r.2 "alice" "USD" = "100.01".
Proof. vm_compute. repeat split. Qed.

(** A round of a swap that fails after its credit is retried with the
    credit kept: one failed write credits the target twice, and three failed
    writes credit it three times and then refund the source as well. *)
Theorem swap_can_credit_repeatedly :
  let r2 := TransactionsService.createSwap swap_to_eur (trading_world (failing_env [14%nat])) in
  let r3 := TransactionsService.createSwap swap_to_eur
              (trading_world (failing_env [14%nat; 21%nat; 28%nat])) in
  result_of r2 = "ok" /\ printed_balance r2.2 "alice" "EUR" = "18" /\
  result_of r3 = "connection lost" /\ statuses r3.2 = ["failed"] /\
  printed_balance r3.2 "alice" "EUR" = "27" /\ printed_balance r3.2 "alice" "USD" = "100".
Proof. vm_compute. repeat split. Qed.

(** A reversal that fails late keeps the money it moved: its row is rolled
    back to not reversed, the balances are not, so the same transaction can be
    reversed, and the money moved, again and again. *)
Theorem failed_reversal_moves_money :
  let input := mkReverse "admin" "dispute" in
  let r1 := TransactionsService.reverseTransaction "tx1" input orphaned_world in
  let r2 := TransactionsService.reverseTransaction "tx1" input r1.2 in
  result_of r1 = "User carol not found" /\ r1.2.(World.transactions) = [completed_transfer] /\
  printed_balance r1.2 "alice" "USD" = "110" /\ printed_balance r1.2 "carol" "USD" = "40" /\
  printed_balance r2.2 "alice" "USD" = "120" /\ printed_balance r2.2 "carol" "USD" = "30".
Proof. vm_compute. repeat split. Qed.

(** ** Witnesses *)

Lemma trading_ok e : wallets_ok (trading_world e).(World.wallet_balances).
Proof. exact two_wallets_ok. Defined.

Lemma transfer_outcomes_witness :
  wallets_ok (TransactionsService.transfer (pay_bob (num_of_Z 30)) (trading_world demo_env)).2.(World.wallet_balances).
Proof.
  pose proof (transfer_outcomes (pay_bob (num_of_Z 30)) (trading_world demo_env) (trading_ok _)) as Hspec.
  destruct (TransactionsService.transfer (pay_bob (num_of_Z 30)) (trading_world demo_env)) as [[x|tx] s'] eqn:E.
  - eval_result E.
  - exact (proj1 Hspec).
Defined.

Lemma transfer_conserves_money_witness :
  exists s' L1 L',
    (TransactionsService.transfer (pay_bob (num_of_Z 30)) (trading_world demo_env)).2 = s' /\
    ledger_post two_ledger "alice" "USD" (- 3000) = Some L1 /\
    ledger_post L1 "bob" "USD" 3000 = Some L' /\ represents s'.(World.wallet_balances) L'.
Proof.
  destruct (TransactionsService.transfer (pay_bob (num_of_Z 30)) (trading_world demo_env)) as [[x|tx] s'] eqn:E.
  - eval_result E.
  - assert (Hz : cents (t_amount (pay_bob (num_of_Z 30))) 3000) by (split; vm_compute; reflexivity).
    assert (Hr1 : representable (ledger_balance two_ledger "alice" "USD" - 3000)) by (split; vm_compute; reflexivity).
    assert (Hr2 : representable (ledger_balance two_ledger "bob" "USD" + 3000)) by (split; vm_compute; reflexivity).
    assert (Hev : events s' <> events (trading_world demo_env)).
    { pose proof (f_equal (fun r => length (events r.2)) E) as El. cbn [snd] in El. intros Heq.
      rewrite Heq in El. vm_compute in El. discriminate. }
    destruct (transfer_conserves_money (pay_bob (num_of_Z 30)) (trading_world demo_env) tx s' 3000 two_ledger
                (trading_ok _) two_represents Hz Hr1 Hr2 E Hev) as (L1 & L' & H1 & H2 & H3 & _).
    exists s', L1, L'. auto.
Defined.

Lemma withdrawal_outcomes_witness :
  match TransactionsService.createWithdrawal (withdraw (num_of_Z 30)) (trading_world demo_env) with
  | (inr tx, s') => tx.(Transaction.status) = TransactionStatus.COMPLETED /\ In tx s'.(World.transactions)
  | (inl _, _) => False
  end.
Proof.
  pose proof (withdrawal_outcomes (withdraw (num_of_Z 30)) (trading_world demo_env) (trading_ok _)) as Hspec.
  destruct (TransactionsService.createWithdrawal _ _) as [[x|tx] s'] eqn:E; [eval_result E|].
  destruct Hspec as (_ & H1 & H2 & _). auto.
Defined.

Lemma withdrawal_refund_exact_witness :
  exists x s',
    TransactionsService.createWithdrawal (withdraw (num_of_Z 10)) (trading_world (failing_env [12%nat])) = (inl x, s') /\
    (represents s'.(World.wallet_balances) two_ledger \/
     exists s_r, adjustBalance "alice" "USD" (withdrawal_total (withdraw (num_of_Z 10))) s_r = (inl x, s')).
Proof.
  destruct (TransactionsService.createWithdrawal (withdraw (num_of_Z 10)) (trading_world (failing_env [12%nat])))
    as [[x|tx] s'] eqn:E; [|eval_result E].
  exists x, s'. split; [reflexivity|].
  assert (Hz : cents (withdrawal_total (withdraw (num_of_Z 10))) 1001) by (split; vm_compute; reflexivity).
  assert (Hnz : num_eqb (withdrawal_total (withdraw (num_of_Z 10))) (num_of_Z 0) = false) by (vm_compute; reflexivity).
  assert (Hr1 : representable (ledger_balance two_ledger "alice" "USD" - 1001)) by (split; vm_compute; reflexivity).
  assert (Hr2 : representable (ledger_balance two_ledger "alice" "USD")) by (split; vm_compute; reflexivity).
  exact (withdrawal_refund_exact (withdraw (num_of_Z 10)) (trading_world (failing_env [12%nat])) x s' 1001 two_ledger
           (trading_ok _) two_represents Hz Hnz Hr1 Hr2 E).
Defined.

Lemma swap_outcomes_witness :
  match TransactionsService.createSwap swap_to_eur (trading_world demo_env) with
  | (inr tx, s') => tx.(Transaction.status) = TransactionStatus.COMPLETED /\ In tx s'.(World.transactions) /\
      0 <= tx.(Transaction.retryCount) <= 2
  | (inl _, _) => False
  end.
Proof.
  pose proof (swap_outcomes swap_to_eur (trading_world demo_env) (trading_ok _)) as Hspec.
  destruct (TransactionsService.swap_debit _ _) as [[x|[[tx fee] total]] s1] eqn:Ed; [eval_result Ed|].
  destruct Hspec as (_ & Hl & Hend). cbv zeta in Hl, Hend.
  destruct (TransactionsService.createSwap _ _) as [[x|tx'] s'] eqn:E; [eval_result E|].
  destruct Hend as (_ & Hst & _ & Hc & Hin & _). repeat (split; [assumption|]). lia.
Defined.

(** alice and bob both known, and a completed transfer between them. *)
Definition reversible_world : World :=
  (trading_world demo_env) <| World.transactions := [completed_transfer <| Transaction.receiverId := "bob" |>] |>
    <| World.wallet_balances :=
         [demo_wallet "w1" "alice" "USD" (num_of_Z 100); demo_wallet "w2" "bob" "USD" (num_of_Z 50)] |>.

Lemma reversible_ok : wallets_ok reversible_world.(World.wallet_balances).
Proof.
  split; [split|].
  - apply (bool_decide_unpack _). reflexivity.
  - simpl. intros a b [<-|[<-|[]]] [<-|[<-|[]]] H; try reflexivity; exfalso; apply H; reflexivity.
  - repeat (constructor; [split; [discriminate | split; [simpl; tauto | reflexivity]]|]). constructor.
Defined.

Lemma reversed_at_most_once_witness :
  let input := mkReverse "admin" "dispute" in
  exists x s2,
    TransactionsService.reverseTransaction "tx1" input
      (TransactionsService.reverseTransaction "tx1" input reversible_world).2 = (inl x, s2).
Proof.
  intros input. destruct (TransactionsService.reverseTransaction "tx1" input reversible_world) as [[x|tx] s1] eqn:E;
    [eval_result E|].
  destruct (reversed_at_most_once "tx1" input input reversible_world tx s1 reversible_ok E) as (x & s2 & H & _).
  exists x, s2. exact H.
Defined.
