(* ===== verification/Fx.v ===== *)
(** fx/fx.service.ts and fx/currency-pair.service.ts.  [executeTrade] and
    [reverseTrade] call [wallets.adjustBalance] without [await]: the model
    appends the call to [World.background], and [run_background] lets any
    pending call run at any later time.  Nothing catches a rejection (Node
    reports it, by default by ending the process): the model says what the
    call left in the database. *)
From S2P Require Import Prelude JsNumber NumberLaws Effects RepositoryLaws JsData ThirdParty Currencies Entities World WithTransaction Wallets Limits.
Local Open Scope Z_scope.

(** fx/entities/currency-pair.entity.ts *)
Module CurrencyPair.
Record CurrencyPair : Type := mk {
  id : string;
  fromCurrency : string;
  toCurrency : string;
  spreadPercent : num;
  isActive : bool;
  createdAt : Z;
  updatedAt : Z
}.
#[global] Instance settable : Settable CurrencyPair := fun r =>
  mk r.(id) r.(fromCurrency) r.(toCurrency) r.(spreadPercent) r.(isActive) r.(createdAt)
     r.(updatedAt).
End CurrencyPair.

#[global] Program Instance CurrencyPair_row : Row CurrencyPair.CurrencyPair := {|
  row_id := CurrencyPair.id;
  set_row_id i e := e <| CurrencyPair.id := i |>;
  created t e := e <| CurrencyPair.createdAt := t |> <| CurrencyPair.updatedAt := t |>;
  touched t e := e <| CurrencyPair.updatedAt := t |>;
  live e := true;
  clash a b := false
|}.

(** ** CurrencyPairService *)

Record UpsertCurrencyPairDto : Type := mkPairDto {
  p_fromCurrency : string;
  p_toCurrency : string;
  p_spreadPercent : num;
  p_isActive : option bool
}.

Module CurrencyPairService.
Section Service.
Context {S : Type} `{HasEnv S} `{!Table S CurrencyPair.CurrencyPair}.

Definition is_pair (fromCurrency toCurrency : string) (p : CurrencyPair.CurrencyPair) : bool :=
  String.eqb p.(CurrencyPair.fromCurrency) fromCurrency &&
  String.eqb p.(CurrencyPair.toCurrency) toCurrency.

Definition validatePair (fromCurrency toCurrency : string) : M S CurrencyPair.CurrencyPair :=
  CurrenciesService.validateCurrencyActive fromCurrency ;;;
  CurrenciesService.validateCurrencyActive toCurrency ;;;
  let* found := findOne (fun p => is_pair fromCurrency toCurrency p && p.(CurrencyPair.isActive)) in
  match found with
  | None => throw (BadRequestException
      ("Currency pair " +:+ fromCurrency +:+ "/" +:+ toCurrency +:+ " not found or inactive"))
  | Some p => ret p
  end.

Definition upsert (dto : UpsertCurrencyPairDto) : M S CurrencyPair.CurrencyPair :=
  throw_if (p_spreadPercent dto >? num_of_Z 5)%num (BadRequestException "Spread cannot exceed 5%") ;;;
  let* found := findOne (is_pair (p_fromCurrency dto) (p_toCurrency dto)) in
  save match found with
       | Some p =>
           p <| CurrencyPair.fromCurrency := p_fromCurrency dto |>
                <| CurrencyPair.toCurrency := p_toCurrency dto |>
                <| CurrencyPair.spreadPercent := p_spreadPercent dto |>
                <| CurrencyPair.isActive := default p.(CurrencyPair.isActive) (p_isActive dto) |>
       | None =>
           CurrencyPair.mk "" (p_fromCurrency dto) (p_toCurrency dto) (p_spreadPercent dto)
             (default true (p_isActive dto)) 0 0
       end.

Definition findAll : M S (list CurrencyPair.CurrencyPair) := find_all (fun _ => true).
End Service.
End CurrencyPairService.

(** ** FxService *)

Record ExecuteTradeDto : Type := mkTrade {
  e_userId : string;
  e_fromCurrency : string;
  e_toCurrency : string;
  e_fromAmount : num
}.

(** The two shapes of the answer of [getVolume]. *)
Inductive Volumes : Type :=
  | PairVolume (pair : string) (volume : num)
  | AllVolumes (volumes : gmap string num).

Record SwapRoute : Type := mkRoute {
  bestRoute : list string;
  route_rate : num;
  estimatedOutput : num;
  savingsPct : num;
  routingType : string
}.

Module FxService.
Section Service.
Context `{ConfigService} `{RateProviders}.

(** [this.wallets.adjustBalance(a, c, d);] *)
Definition start_adjustBalance (a c : string) (d : num) : M World unit :=
  modify (fun w => w <| World.background := w.(World.background) ++ [(a, (c, d))] |>).

Definition pair_key (base target : string) : string := toUpperCase base +:+ "/" +:+ toUpperCase target.

(** [map.get(key) || 0]. *)
Definition volume_of (pair : string) (w : World) : num :=
  match w.(World.volumeTracker) !! pair with
  | Some v => if num_truthy v then v else num_of_Z 0
  | None => num_of_Z 0
  end.

Definition executeTrade (dto : ExecuteTradeDto) : M World FxTrade.FxTrade :=
  let* r := ExchangeRateService.getRate (e_fromCurrency dto) (e_toCurrency dto) in
  let toAmount := fixed_num 8 (e_fromAmount dto * rate r)%num in
  dataSource_transaction (rollback_table (E:=FxTrade.FxTrade))
    (start_adjustBalance (e_userId dto) (e_fromCurrency dto) (- e_fromAmount dto)%num ;;;
     start_adjustBalance (e_userId dto) (e_toCurrency dto) toAmount ;;;
     let pairKey := pair_key (e_fromCurrency dto) (e_toCurrency dto) in
     modify (fun w => w <| World.volumeTracker :=
       <[pairKey := (volume_of pairKey w + e_fromAmount dto)%num]> w.(World.volumeTracker) |>) ;;;
     save (FxTrade.mk "" (e_userId dto) (e_fromCurrency dto) (e_toCurrency dto) (e_fromAmount dto)
             toAmount (rate r) 0 None None)).

Definition windowMinutes : num := default (num_of_Z 5) (config_number "fx.reversalWindowMinutes").

Definition reverseTrade (id : string) : M World FxTrade.FxTrade :=
  let* trade := findOne (fun t => String.eqb t.(FxTrade.id) id) in
  match trade with
  | None => throw (NotFoundException ("FX trade " +:+ id +:+ " not found"))
  | Some trade =>
      throw_if (match trade.(FxTrade.reversedAt) with Some _ => true | None => false end)
        (UnprocessableEntityException "Trade has already been reversed") ;;;
      let* now := date_now in
      let elapsed := (num_of_Z (now - trade.(FxTrade.executedAt)) / num_of_Z 60000)%num in
      throw_if (elapsed >? windowMinutes)%num
        (UnprocessableEntityException
           ("Reversal window of " +:+ num_to_string windowMinutes +:+ " minutes has expired")) ;;;
      dataSource_transaction (rollback_table (E:=FxTrade.FxTrade))
        (start_adjustBalance trade.(FxTrade.userId) trade.(FxTrade.fromCurrency) trade.(FxTrade.fromAmount) ;;;
         start_adjustBalance trade.(FxTrade.userId) trade.(FxTrade.toCurrency) (- trade.(FxTrade.toAmount))%num ;;;
         let* now := date_now in
         save (trade <| FxTrade.reversedAt := Some now |>))
  end.

Definition getVolume (base target : option string) : M World Volumes :=
  match base, target with
  | Some b, Some t =>
      if str_truthy b && str_truthy t
      then let* v := gets (volume_of (pair_key b t)) in ret (PairVolume (pair_key b t) v)
      else let* m := gets World.volumeTracker in ret (AllVolumes m)
  | _, _ => let* m := gets World.volumeTracker in ret (AllVolumes m)
  end.

Definition getRates (base target : string) : M World RateResult := ExchangeRateService.getRate base target.

Definition getSmartSwapRoute (fromCurrency toCurrency : string) (amount : num) : M World SwapRoute :=
  let* r := ExchangeRateService.getRate fromCurrency toCurrency in
  let directOutput := fixed_num 4 (amount * rate r)%num in
  ret (mkRoute [fromCurrency; toCurrency] (rate r) directOutput (num_of_ratio 1 4) "SMART_DEX_ROUTING").
End Service.

(** The i-th pending call runs; nobody looks at how it ended. *)
Definition run_background `{WalletsApi} (i : nat) : M World unit :=
  let* pending := gets World.background in
  match pending !! i with
  | None => ret tt
  | Some (a, (c, d)) =>
      modify (fun w => w <| World.background := delete i pending |>) ;;;
      attempt (adjustBalance a c d) ;;;
      ret tt
  end.
End FxService.

(** ** What a trade does *)

Section FxLaws.
Context `{CS : ConfigService} `{RP : RateProviders}.

(** The two calls a trade starts, and those its reversal starts. *)
Definition trade_legs (user fromCurrency toCurrency : string) (out inc : num) :
    list (string * (string * num)) :=
  [(user, (fromCurrency, (- out)%num)); (user, (toCurrency, inc))].

Lemma wp_getRate b t Q X s :
  (forall x s', rate_frame s s' -> X x s') -> (forall r s', rate_frame s s' -> Q r s') ->
  wp (ExchangeRateService.getRate b t) Q X s.
Proof. intros HX HQ. eapply wp_keeps; [apply getRate_frame | auto | auto]. Qed.

(** [tables_kept s s']: no balance moved, no trade row changed. *)
Definition tables_kept (s s' : World) : Prop :=
  s'.(World.wallet_balances) = s.(World.wallet_balances) /\ s'.(World.fx_trades) = s.(World.fx_trades).

(** A recorded trade: the converted amount at the rate used, to eight decimals. *)
Record trade_of (dto : ExecuteTradeDto) (t : FxTrade.FxTrade) : Prop := {
  to_user : t.(FxTrade.userId) = e_userId dto;
  to_from : t.(FxTrade.fromCurrency) = e_fromCurrency dto;
  to_to : t.(FxTrade.toCurrency) = e_toCurrency dto;
  to_out : t.(FxTrade.fromAmount) = e_fromAmount dto;
  to_in : t.(FxTrade.toAmount) = fixed_num 8 (e_fromAmount dto * t.(FxTrade.rate))%num;
  to_open : t.(FxTrade.reversedAt) = None
}.

Lemma executeTrade_spec dto s :
  wp (FxService.executeTrade dto)
    (fun t s' => trade_of dto t /\
       s'.(World.wallet_balances) = s.(World.wallet_balances) /\
       s'.(World.fx_trades) = upsert t s.(World.fx_trades) /\
       s'.(World.background) = s.(World.background) ++
         trade_legs (e_userId dto) (e_fromCurrency dto) (e_toCurrency dto) (e_fromAmount dto) t.(FxTrade.toAmount))
    (fun _ s' => tables_kept s s' /\
       (s'.(World.background) = s.(World.background) \/
        exists r, s'.(World.background) = s.(World.background) ++
          trade_legs (e_userId dto) (e_fromCurrency dto) (e_toCurrency dto) (e_fromAmount dto)
            (fixed_num 8 (e_fromAmount dto * r)%num))) s.
Proof.
  unfold FxService.executeTrade. apply wp_bind, wp_getRate.
  { intros x s' (e & c & _ & ->). split; [split; reflexivity | left; reflexivity]. }
  intros r s0 (e & c & _ & ->). cbv zeta.
  apply wp_dataSource_transaction.
  { intros e1 x _ _. split; [split; reflexivity | left; reflexivity]. }
  intros e1 _. unfold FxService.start_adjustBalance.
  do 6 (wp_step; []). wp_step.
  - split; [split; reflexivity | right; exists (rate r)].
    simpl. rewrite <- app_assoc. reflexivity.
  - match goal with Hs : saved_as _ ?t |- _ => rename t into tr; rename Hs into Hsaved end.
    assert (Ht : trade_of dto tr /\ tr.(FxTrade.toAmount) = fixed_num 8 (e_fromAmount dto * rate r)%num)
      by (destruct Hsaved; (split; [split; reflexivity | reflexivity])).
    destruct Ht as [Ht Hto]. split.
    + intros e3 _. split; [exact Ht|]. split; [reflexivity|]. split; [reflexivity|].
      simpl. rewrite <- app_assoc, Hto. reflexivity.
    + intros e3 x _ _. split; [split; reflexivity|]. right. exists (rate r).
      simpl. rewrite <- app_assoc. reflexivity.
Qed.

(** What a reversal found in the row it reversed. *)
Record reversible (id : string) (trade : FxTrade.FxTrade) (now : Z) (s : World) : Prop := {
  rv_row : List.find (fun t => live t && String.eqb t.(FxTrade.id) id) s.(World.fx_trades) = Some trade;
  rv_open : trade.(FxTrade.reversedAt) = None;
  rv_window : num_ltb FxService.windowMinutes
    (num_of_Z (now - trade.(FxTrade.executedAt)) / num_of_Z 60000)%num = false
}.

Lemma reverseTrade_spec id s :
  wp (FxService.reverseTrade id)
    (fun t s' => exists trade now at_, reversible id trade now s /\
       t = trade <| FxTrade.reversedAt := Some at_ |> /\
       s'.(World.wallet_balances) = s.(World.wallet_balances) /\
       s'.(World.fx_trades) = upsert t s.(World.fx_trades) /\
       s'.(World.background) = s.(World.background) ++
         trade_legs trade.(FxTrade.userId) trade.(FxTrade.fromCurrency) trade.(FxTrade.toCurrency)
           (- trade.(FxTrade.fromAmount))%num (- trade.(FxTrade.toAmount))%num)
    (fun _ s' => tables_kept s s' /\
       (s'.(World.background) = s.(World.background) \/
        exists trade now, reversible id trade now s /\
        s'.(World.background) = s.(World.background) ++
          trade_legs trade.(FxTrade.userId) trade.(FxTrade.fromCurrency) trade.(FxTrade.toCurrency)
            (- trade.(FxTrade.fromAmount))%num (- trade.(FxTrade.toAmount))%num)) s.
Proof.
  assert (Hopp : forall x, num_opp (num_opp x) = x) by (intros []; simpl; rewrite ?negb_involutive; reflexivity).
  assert (Hdone : forall e, tables_kept s (set_env e s) /\
    (World.background (set_env e s) = World.background s \/
     exists trade now, reversible id trade now s /\
        World.background (set_env e s) = s.(World.background) ++
          trade_legs trade.(FxTrade.userId) trade.(FxTrade.fromCurrency) trade.(FxTrade.toCurrency)
            (- trade.(FxTrade.fromAmount))%num (- trade.(FxTrade.toAmount))%num))
    by (intros e; split; [split; reflexivity | left; reflexivity]).
  unfold FxService.reverseTrade. wp_step. wp_step; [apply Hdone|].
  destruct (List.find _ _) as [trade|] eqn:Hf; [|wp_step; apply Hdone].
  wp_step. wp_step; [apply Hdone|]. wp_step. wp_step. cbv zeta. wp_step. wp_step; [apply Hdone|].
  match goal with _ : context [clock ?e ?n] |- _ => set (now := clock e n) in * end.
  assert (Hr : reversible id trade now s).
  { split; [exact Hf | destruct (FxTrade.reversedAt trade); [discriminate | reflexivity] | assumption]. }
  apply wp_dataSource_transaction; [intros; env_norm; apply Hdone|].
  intros e1 _. unfold FxService.start_adjustBalance. do 6 (wp_step; []). wp_step.
  - split; [split; reflexivity | right; exists trade, now; split; [exact Hr|]].
    simpl. rewrite <- app_assoc. unfold trade_legs. rewrite Hopp. reflexivity.
  - match goal with Hu : existsb _ _ = true -> exists _, ?t = _ |- _ =>
      rename t into tr; rename Hu into Htouch end.
    destruct (Htouch (found_row_exists _ _ _ _ Hf eq_refl)) as [u ->].
    split.
    + intros e3 _. eexists trade, now, _. split; [exact Hr|]. split; [reflexivity|].
      split; [reflexivity|]. split; [reflexivity|].
      simpl. rewrite <- app_assoc. unfold trade_legs. rewrite Hopp. reflexivity.
    + intros e3 x _ _. split; [split; reflexivity|]. right. exists trade, now. split; [exact Hr|].
      simpl. rewrite <- app_assoc. unfold trade_legs. rewrite Hopp. reflexivity.
Qed.
End FxLaws.

(** ** Theorems *)

Section FxTheorems.
Context `{CS : ConfigService} `{RP : RateProviders}.

(** A trade that returns recorded itself at the rate used (eight
    decimals) and started the two wallet calls, having looked at no balance; a
    trade that throws recorded nothing, moved no balance, and may still have
    started the two calls. *)
Theorem executeTrade_outcomes dto s :
  match FxService.executeTrade dto s with
  | (inr t, s') =>
      trade_of dto t /\
      s'.(World.wallet_balances) = s.(World.wallet_balances) /\
      s'.(World.fx_trades) = upsert t s.(World.fx_trades) /\
      s'.(World.background) = s.(World.background) ++
        trade_legs (e_userId dto) (e_fromCurrency dto) (e_toCurrency dto) (e_fromAmount dto) t.(FxTrade.toAmount)
  | (inl _, s') =>
      tables_kept s s' /\
      (s'.(World.background) = s.(World.background) \/
       exists r, s'.(World.background) = s.(World.background) ++
         trade_legs (e_userId dto) (e_fromCurrency dto) (e_toCurrency dto) (e_fromAmount dto)
           (fixed_num 8 (e_fromAmount dto * r)%num))
  end.
Proof.
  pose proof (executeTrade_spec dto s) as Hspec. unfold wp in Hspec.
  destruct (FxService.executeTrade dto s) as [[x|t] s']; exact Hspec.
Qed.

(** A trade is reversed only once and only inside its window: a reversal
    that returns found an open row younger than the window, and after it every
    reversal of the same trade throws and starts no wallet call. *)
Theorem trade_reversed_at_most_once id s t s1 :
  NoDup (map row_id s.(World.fx_trades)) ->
  FxService.reverseTrade id s = (inr t, s1) ->
  (exists trade now, reversible id trade now s) /\
  exists x s2, FxService.reverseTrade id s1 = (inl x, s2) /\
    s2.(World.background) = s1.(World.background) /\ tables_kept s1 s2.
Proof.
  intros Hnd Hrun.
  destruct (wp_run_ok _ _ _ _ _ _ (reverseTrade_spec id s) Hrun)
    as (trade & now & at_ & Hr & -> & _ & Hrows & _).
  split; [eauto|].
  destruct (find_live_some _ _ _ (rv_row _ _ _ _ Hr)) as (_ & Hlive & Hid).
  apply String.eqb_eq in Hid.
  assert (Hfind : List.find (fun t => live t && String.eqb t.(FxTrade.id) id) s1.(World.fx_trades)
                  = Some (trade <| FxTrade.reversedAt := Some at_ |>)).
  { rewrite Hrows. apply find_live_upsert; [exact Hnd | exact Hlive | apply String.eqb_eq, Hid |].
    intros x Hx. apply String.eqb_eq in Hx. simpl. congruence. }
  assert (Hno : forall t' n, ~ reversible id t' n s1).
  { intros t' n [Hf Ho _]. rewrite Hfind in Hf. injection Hf as <-. discriminate Ho. }
  pose proof (reverseTrade_spec id s1) as Hspec. unfold wp in Hspec.
  destruct (FxService.reverseTrade id s1) as [[x|t'] s2].
  - exists x, s2. destruct Hspec as [Hk [Hb|(t' & n & Hr' & _)]]; [auto | destruct (Hno _ _ Hr')].
  - destruct Hspec as (t0 & n & _ & Hr' & _). destruct (Hno _ _ Hr').
Qed.
End FxTheorems.

(** ** Worked examples *)

(** One provider answers, at half a EUR for a USD. *)
Definition half_euro : RateProviders := {|
  openexchangerates_rates _ _ := {[ "EUR" := num_of_ratio 1 2 ]};
  exchangeratehost_quotes _ _ := None
|}.
#[local] Existing Instances decimal_big quiet_config half_euro.

Definition trade_shown (r : exn + FxTrade.FxTrade) : string :=
  match r with inr trade => num_to_string trade.(FxTrade.toAmount) | inl x => message_of x end.
Definition buy_euros (user : string) : ExecuteTradeDto := mkTrade user "USD" "EUR" (num_of_Z 100).

(** alice opened a trade a moment ago. *)
Definition open_trade : FxTrade.FxTrade :=
  FxTrade.mk "fx1" "alice" "USD" "EUR" (num_of_Z 100) (num_of_Z 50) (num_of_ratio 1 2) 1699999999000 None None.
Definition trade_world : World := demo_world <| World.fx_trades := [open_trade] |>.

Lemma trade_reversed_at_most_once_witness :
  exists x s2, FxService.reverseTrade "fx1" (FxService.reverseTrade "fx1" trade_world).2 = (inl x, s2).
Proof.
  destruct (FxService.reverseTrade "fx1" trade_world) as [[x|t] s1] eqn:E; [eval_result E|].
  assert (Hnd : NoDup (map row_id trade_world.(World.fx_trades)))
    by (apply (bool_decide_unpack _); reflexivity).
  destruct (trade_reversed_at_most_once "fx1" trade_world t s1 Hnd E) as (_ & x & s2 & H & _).
  exists x, s2. exact H.
Defined.

(** The trade does not wait for its debit: somebody without a cent trades
    100 USD, the debit is refused when it runs, the credit is not, and 50 EUR
    have appeared with the trade on record. *)
Theorem unfunded_trade_creates_money :
  let t := FxService.executeTrade (buy_euros "mallory") two_wallets in
  let settled := (FxService.run_background 0 (FxService.run_background 0 t.2).2).2 in
  let balance s c := num_to_string (balance_in (World.wallet_balances s) "mallory" c) in
  trade_shown t.1 = "50" /\
  length t.2.(World.fx_trades) = 1%nat /\ length t.2.(World.background) = 2%nat /\
  settled.(World.background) = [] /\
  balance two_wallets "USD" = "0" /\ balance two_wallets "EUR" = "0" /\
  balance settled "USD" = "0" /\ balance settled "EUR" = "50".
Proof. vm_compute. repeat split. Qed.
