(* ===== verification/Referrals.v ===== *)
(** referral/referral.service.ts: codes, their application, qualification and
    the reward, whose wallet posting runs in a transaction of its own inside
    the reward's transaction. *)
From S2P Require Import Prelude JsNumber NumberLaws Effects RepositoryLaws JsData ThirdParty Currencies Entities World WithTransaction Wallets PostingRules Accounts.
Local Open Scope Z_scope.

Record ReferralStats : Type := mkStats {
  totalReferrals : Z;
  pending : Z;
  qualified : Z;
  rewarded : Z;
  totalRewardsPaid : num
}.

Module ReferralService.
Section Service.
Context `{W : WalletsApi} `{CS : ConfigService} `{RX : Radix36}.

Definition by_id (id : string) (r : Referral.Referral) : bool := String.eqb r.(Referral.id) id.
Definition in_status (st : ReferralStatus.ReferralStatus) (r : Referral.Referral) : bool :=
  ReferralStatus.eqb r.(Referral.status) st.

Definition generateCode (referrerId : string) : M World Referral.Referral :=
  UsersService.findById referrerId ;;;
  let* now := date_now in
  let code := "REF-" +:+ toUpperCase (slice 0 8 referrerId) +:+ "-" +:+
              toUpperCase (toString36 (num_of_Z now)) in
  save (Referral.mk "" referrerId referrerId code ReferralStatus.PENDING 0 None None None).

Definition applyCode (code refereeId : string) : M World Referral.Referral :=
  throw_if (negb (default false (config_bool "referral.programActive")))
    (BadRequestException "Referral program is not active") ;;;
  UsersService.findById refereeId ;;;
  let* existing := findOne (fun r => String.eqb r.(Referral.referredId) refereeId) in
  throw_if (match existing with Some _ => true | None => false end)
    (BadRequestException "User has already been referred") ;;;
  let* referral := findOne (fun r => String.eqb r.(Referral.referralCode) code) in
  match referral with
  | None => throw (NotFoundException "Referral code not found")
  | Some referral =>
      let maxReferrals := default (num_of_Z 100) (config_number "referral.maxReferrals") in
      let* referrerCount := count_rows (fun r => String.eqb r.(Referral.referrerId) referral.(Referral.referrerId)) in
      throw_if (num_of_Z referrerCount >=? maxReferrals)%num
        (BadRequestException "Referrer has reached the maximum referral limit") ;;;
      save (referral <| Referral.referredId := refereeId |> <| Referral.status := ReferralStatus.PENDING |>)
  end.

(** [find({ where: conditions })] with an array: any of them; TypeORM adds no
    WHERE clause for an empty array. *)
Definition any_of (ids : list string) (r : ReferralReward.ReferralReward) : bool :=
  match ids with [] => true | _ => existsb (String.eqb r.(ReferralReward.referralId)) ids end.

Definition getStats (referrerId : string) : M World ReferralStats :=
  let* all := find_all (fun r => String.eqb r.(Referral.referrerId) referrerId) in
  let with_status st := List.filter (in_status st) all in
  let* rewards := find_all (any_of (map Referral.id (with_status ReferralStatus.REWARDED))) in
  let paid := List.filter (fun r => RewardStatus.eqb r.(ReferralReward.status) RewardStatus.PAID) rewards in
  ret (mkStats (Z.of_nat (length all))
         (Z.of_nat (length (with_status ReferralStatus.PENDING)))
         (Z.of_nat (length (with_status ReferralStatus.QUALIFIED)))
         (Z.of_nat (length (with_status ReferralStatus.REWARDED)))
         (fold_left (fun sum r => (sum + r.(ReferralReward.amount))%num) paid (num_of_Z 0))).

Definition findByReferrer (referrerId : string) : M World (list Referral.Referral) :=
  find_desc (fun r => String.eqb r.(Referral.referrerId) referrerId) Referral.createdAt.

Definition qualifyReferral (referralId : string) : M World Referral.Referral :=
  let* referral := findOne (by_id referralId) in
  match referral with
  | None => throw (NotFoundException ("Referral " +:+ referralId +:+ " not found"))
  | Some referral =>
      throw_if (negb (in_status ReferralStatus.PENDING referral))
        (BadRequestException "Referral is not in pending status") ;;;
      let* now := date_now in
      save (referral <| Referral.status := ReferralStatus.QUALIFIED |> <| Referral.qualifiedAt := Some now |>)
  end.

Definition rewardAmount : num := default (num_of_Z 10) (config_number "referral.rewardAmount").

Definition rollback (s0 s : World) : World :=
  rollback_table (E:=Referral.Referral) s0 (rollback_table (E:=ReferralReward.ReferralReward) s0 s).

Definition reward_callback (referral : Referral.Referral) :
    M World (Referral.Referral * ReferralReward.ReferralReward) :=
  adjustBalance referral.(Referral.referrerId) "USD" rewardAmount ;;;
  let* paidAt := date_now in
  let* reward := save (ReferralReward.mk "" referral.(Referral.id) RewardType.CREDIT rewardAmount "USD"
                         RewardStatus.PAID 0 (Some paidAt)) in
  let* rewardedAt := date_now in
  let* referral := save (referral <| Referral.status := ReferralStatus.REWARDED |>
                                  <| Referral.rewardedAt := Some rewardedAt |>) in
  ret (referral, reward).

Definition rewardReferral (referralId : string) :
    M World (Referral.Referral * ReferralReward.ReferralReward) :=
  let* referral := findOne (by_id referralId) in
  match referral with
  | None => throw (NotFoundException ("Referral " +:+ referralId +:+ " not found"))
  | Some referral =>
      throw_if (negb (in_status ReferralStatus.QUALIFIED referral))
        (BadRequestException "Referral must be qualified before rewarding") ;;;
      dataSource_transaction rollback (reward_callback referral)
  end.
End Service.
End ReferralService.

(** ** What a reward does *)

Section ReferralLaws.
Context `{W : WalletsApi} `{CS : ConfigService} `{RX : Radix36}.

(** The posting of a reward. *)
Definition reward_posted (referral : Referral.Referral) (s s' : World) : Prop :=
  moved referral.(Referral.referrerId) "USD" ReferralService.rewardAmount
    s.(World.wallet_balances) s'.(World.wallet_balances).

(** The row a reward was asked for. *)
Definition found (id : string) (referral : Referral.Referral) (s : World) : Prop :=
  List.find (fun r => live r && ReferralService.by_id id r) s.(World.referrals) = Some referral.

(** A reward that went through: one posting, one PAID reward row, and the
    referral REWARDED, in the order the code writes them. *)
Record reward_paid (id : string) (s : World) (referral : Referral.Referral)
    (reward : ReferralReward.ReferralReward) (s' : World) : Prop := {
  rp_from : exists old at_, found id old s /\ old.(Referral.status) = ReferralStatus.QUALIFIED /\
    referral = old <| Referral.status := ReferralStatus.REWARDED |> <| Referral.rewardedAt := Some at_ |>;
  rp_posted : reward_posted referral s s';
  rp_referrals : s'.(World.referrals) = upsert referral s.(World.referrals);
  rp_rewards : s'.(World.referral_rewards) = upsert reward s.(World.referral_rewards);
  rp_reward : reward.(ReferralReward.referralId) = referral.(Referral.id) /\
    reward.(ReferralReward.amount) = ReferralService.rewardAmount /\
    reward.(ReferralReward.status) = RewardStatus.PAID
}.

(** A reward that threw: neither table changed; the posting may have stayed. *)
Definition reward_failed (id : string) (s s' : World) : Prop :=
  s'.(World.referrals) = s.(World.referrals) /\
  s'.(World.referral_rewards) = s.(World.referral_rewards) /\
  (s'.(World.wallet_balances) = s.(World.wallet_balances) \/
   exists old, found id old s /\ old.(Referral.status) = ReferralStatus.QUALIFIED /\ reward_posted old s s').

Lemma in_status_true st r : ReferralService.in_status st r = true -> r.(Referral.status) = st.
Proof. apply ReferralStatus.ReferralStatus_eqb_eq. Qed.

(** What the callback's failures leave: the wallet write, the tables undone. *)
Lemma reward_undone id s e old t (s1 : World) :
  found id old s -> old.(Referral.status) = ReferralStatus.QUALIFIED ->
  moved old.(Referral.referrerId) "USD" ReferralService.rewardAmount s.(World.wallet_balances) t ->
  s1.(World.wallet_balances) = t ->
  reward_failed id s (ReferralService.rollback s (set_env e s1)).
Proof.
  intros Hf Hq Hm <-. split; [reflexivity|]. split; [reflexivity|]. right. exists old. auto.
Qed.

Lemma rewardReferral_spec id s :
  wallets_ok s.(World.wallet_balances) ->
  wp (ReferralService.rewardReferral id)
    (fun '(referral, reward) s' => reward_paid id s referral reward s')
    (fun _ s' => reward_failed id s s') s.
Proof.
  intros Hok. unfold ReferralService.rewardReferral.
  assert (Hnone : forall e, reward_failed id s (set_env e s)) by (intros; split; [|split]; auto).
  wp_step. wp_step; [apply Hnone|].
  destruct (List.find _ _) as [old|] eqn:Hf; [|wp_step; apply Hnone].
  wp_step. wp_step; [apply Hnone|].
  match goal with Hb : negb _ = false |- _ => apply negb_false_iff, in_status_true in Hb; rename Hb into Hq end.
  apply wp_dataSource_transaction; [intros; env_norm; apply Hnone|].
  intros e0 He0. unfold ReferralService.reward_callback. env_norm. apply wp_bind, wp_adjustBalance; [exact Hok | |].
  { intros. env_norm. apply Hnone. }
  intros b e1 t He1 Hm _. env_norm.
  pose proof (fun e s1 => reward_undone id s e old t s1 Hf Hq Hm) as Hundo.
  do 3 (wp_step; []). wp_step; [apply Hundo; reflexivity|].
  match goal with Hs : saved_as (ReferralReward.mk _ _ _ _ _ _ _ _) ?r |- _ => rename r into reward; rename Hs into Hreward end.
  do 3 (wp_step; []). wp_step; [apply Hundo; reflexivity|].
  match goal with Hu : existsb (same_row _) (rows (E:=Referral.Referral) _) = true -> exists _, ?r = _ |- _ =>
    rename Hu into Htouch; rename r into referral end.
  assert (Href : exists at_, referral = old <| Referral.status := ReferralStatus.REWARDED |>
                                          <| Referral.rewardedAt := Some at_ |>).
  { destruct (Htouch (found_row_exists _ _ _ _ Hf eq_refl)) as [u ->]. eexists. reflexivity. }
  destruct Href as [at_ ->]. wp_step. split.
  - intros e _. split; simpl; try reflexivity.
    + exists old, at_. auto.
    + exact Hm.
    + destruct Hreward; repeat split.
  - intros e x _ _. apply Hundo. reflexivity.
Qed.
End ReferralLaws.

(** ** Theorems *)

Section ReferralTheorems.
Context `{W : WalletsApi} `{CS : ConfigService} `{RX : Radix36}.

(** Every way [rewardReferral] can end: the referral went from QUALIFIED
    to REWARDED with exactly one posting of the configured amount and one PAID
    reward row, or an exception left both tables as they were, with the
    posting (of a QUALIFIED referral) possibly kept. *)
Theorem rewardReferral_outcomes id s :
  wallets_ok s.(World.wallet_balances) ->
  match ReferralService.rewardReferral id s with
  | (inr (referral, reward), s') => reward_paid id s referral reward s'
  | (inl _, s') => reward_failed id s s'
  end.
Proof.
  intros Hok. pose proof (rewardReferral_spec id s Hok) as Hspec. unfold wp in Hspec.
  destruct (ReferralService.rewardReferral id s) as [[x|[referral reward]] s']; exact Hspec.
Qed.
End ReferralTheorems.

(** ** Worked examples *)

Definition reward_config : ConfigService := {|
  config_number _ := None; config_string _ := None; config_bool _ := Some true; config_list _ := None
|}.
#[local] Existing Instances decimal_big reward_config.

Definition referral_row (id referrer : string) (st : ReferralStatus.ReferralStatus) : Referral.Referral :=
  Referral.mk id referrer ("by " +:+ id) ("REF-" +:+ id) st 0 None None None.
Definition paid_reward (id referralId : string) : ReferralReward.ReferralReward :=
  ReferralReward.mk id referralId RewardType.CREDIT (num_of_Z 10) "USD" RewardStatus.PAID 0 (Some 1).

(** alice has a qualified referral and 100 USD; two rewards of others were paid. *)
Definition referral_world (e : Env) : World :=
  two_wallets <| World.env := e |>
    <| World.referrals := [referral_row "r1" "alice" ReferralStatus.QUALIFIED;
                           referral_row "r2" "bob" ReferralStatus.REWARDED] |>
    <| World.referral_rewards := [paid_reward "p1" "r2"; paid_reward "p2" "r3"] |>.

Lemma rewardReferral_outcomes_witness :
  exists referral reward s',
    ReferralService.rewardReferral "r1" (referral_world demo_env) = (inr (referral, reward), s') /\
    reward_paid "r1" (referral_world demo_env) referral reward s'.
Proof.
  pose proof (rewardReferral_outcomes "r1" (referral_world demo_env) two_wallets_ok) as H.
  destruct (ReferralService.rewardReferral "r1" (referral_world demo_env)) as [[x|[a b]] s'] eqn:E; [eval_result E|].
  exists a, b, s'. split; [reflexivity | exact H].
Defined.

Definition outcome {A} (r : (exn + A) * World) : string :=
  match r.1 with inl x => message_of x | inr _ => "ok" end.
Definition usd_of (user : string) (s : World) : string :=
  num_to_string (balance_in s.(World.wallet_balances) user "USD").

(** A reward is paid twice: the connection fails while the reward row is
    written, the tables are undone, the wallet is not, and the retry pays
    again. *)
Theorem reward_can_be_paid_twice :
  let s := referral_world (failing_env [7%nat]) in
  let first := ReferralService.rewardReferral "r1" s in
  let retry := ReferralService.rewardReferral "r1" first.2 in
  outcome first = "connection lost" /\ usd_of "alice" first.2 = "110" /\
  length first.2.(World.referral_rewards) = 2%nat /\
  outcome retry = "ok" /\ usd_of "alice" retry.2 = "120" /\
  length retry.2.(World.referral_rewards) = 3%nat.
Proof. vm_compute. repeat split. Qed.

(** A referrer none of whose referrals was rewarded is shown the rewards
    of everybody: the list of conditions is empty, and so is the query's
    WHERE clause. *)
Theorem stats_show_rewards_of_others :
  match (ReferralService.getStats "alice" (referral_world demo_env)).1 with
  | inr st => rewarded st = 0 /\ num_to_string (totalRewardsPaid st) = "20"
  | inl _ => False
  end.
Proof. vm_compute. split; reflexivity. Qed.
