(* ===== verification/Auth.v ===== *)
(** auth/auth.service.ts: registration, login with its lockout branch, and the
    in-memory rotation of refresh tokens. *)
From S2P Require Import Prelude JsNumber Effects RepositoryLaws JsData ThirdParty Entities World Accounts.
Local Open Scope Z_scope.

Record Context_ : Type := mkContext { ip : option string; ctx_userAgent : option string }.

Record RegisterDto : Type := mkRegister {
  r_email : string;
  r_password : string;
  r_firstName : string;
  r_lastName : string
}.

Record LoginDto : Type := mkLogin {
  l_email : string;
  l_password : string;
  totpCode : option string
}.

Record RotatedTokens : Type := mkTokens { accessToken : string; refreshToken : string }.

Definition MAX_FAILED_ATTEMPTS : Z := 5.
Definition LOCKOUT_MINUTES : Z := 30.

(** ** AuthService *)

Module AuthService.
Section Service.
Context `{ConfigService} `{Crypto} `{JwtService}.

Definition hashPassword (password : string) : string := sha256_hex password.

Definition issueToken (userId email role : string) : M World string :=
  let* now := date_now in ret (jwt_sign now (mkJwt userId email role None None)).

Definition register (dto : RegisterDto) (context : Context_) : M World string :=
  let* user := UsersService.create
    (UsersService.mkCreate (r_email dto) (hashPassword (r_password dto)) (r_firstName dto) (r_lastName dto) None) in
  TermsAcceptanceService.accept
    (TermsAcceptanceService.mkAccept user.(User.id) (ip context) (ctx_userAgent context) None) ;;;
  AuditService.log (AuditService.mkEvent (Some user.(User.id)) "auth.register" "user" (Some user.(User.id))
    None (Some [("email", JStr user.(User.email))]) None (ip context) (ctx_userAgent context)) ;;;
  issueToken user.(User.id) user.(User.email) (UserRole.show user.(User.role)).

(** The shorthand [lockedUntil] in the argument of [update]: no variable of
    that name is in scope (the local one is [lockoutUntil]). *)
Definition lockedUntil_undeclared : M World (option Z) :=
  throw (ReferenceError "lockedUntil is not defined").

Definition sendAdminAlert (to subject body : string) : M World unit :=
  db_call ;;; emit "mail.admin-alert" (JObj [("to", JStr to); ("subject", JStr subject); ("body", JStr body)]).

(** The branch of a wrong password; it always throws. *)
Definition failed_attempt (user : User.User) : M World string :=
  let attempts := user.(User.failedLoginAttempts) + 1 in
  (if MAX_FAILED_ATTEMPTS <=? attempts then
     let* now := date_now in
     let lockoutUntil := add_minutes LOCKOUT_MINUTES now in
     let* lockedUntil := lockedUntil_undeclared in
     UsersService.update user.(User.id)
       (UsersService.no_update <| UsersService.u_failedLoginAttempts := Some attempts |>
                               <| UsersService.u_lockedUntil := Some lockedUntil |>) ;;;
     try_catch
       (sendAdminAlert user.(User.email) "Account Locked — Too Many Failed Login Attempts"
          ("Your account has been locked for " +:+ string_of_Z LOCKOUT_MINUTES +:+ " minutes due to " +:+
           string_of_Z MAX_FAILED_ATTEMPTS +:+ " consecutive failed login attempts." +:+
           " If this was not you, please reset your password immediately."))
       (fun _ => ret tt) ;;;
     emit "admin.alert.account-lockout"
       (JObj [("type", JStr "account-lockout"); ("severity", JStr "high"); ("title", JStr "Account Locked");
              ("message", JStr ("Account " +:+ user.(User.email) +:+ " locked after " +:+
                                string_of_Z MAX_FAILED_ATTEMPTS +:+ " failed attempts"));
              ("metadata", JObj [("userId", JStr user.(User.id)); ("email", JStr user.(User.email))])])
   else
     UsersService.update user.(User.id)
       (UsersService.no_update <| UsersService.u_failedLoginAttempts := Some attempts |>) ;;;
     ret tt) ;;;
  throw (UnauthorizedException "Invalid credentials").

(** [user.lockedUntil && user.lockedUntil > new Date()]. *)
Definition locked (user : User.User) : M World bool :=
  match user.(User.lockedUntil) with
  | Some t => let* now := date_now in ret (now <? t)
  | None => ret false
  end.

Definition admin_without_code (user : User.User) (code : option string) : bool :=
  UserRole.eqb user.(User.role) UserRole.ADMIN && user.(User.require2fa) && negb (opt_truthy code).

(** From the checked password on. *)
Definition admit_login (user : User.User) (context : Context_) : M World string :=
  (if (0 <? user.(User.failedLoginAttempts)) || match user.(User.lockedUntil) with Some _ => true | None => false end
   then UsersService.update user.(User.id)
          (UsersService.no_update <| UsersService.u_failedLoginAttempts := Some 0 |>
                                  <| UsersService.u_lockedUntil := Some None |>) ;;; ret tt
   else ret tt) ;;;
  TermsAcceptanceService.ensureAccepted user.(User.id) ;;;
  let* isDeactivated := UserDeactivationService.isUserDeactivated user.(User.id) in
  throw_if isDeactivated (UnauthorizedException "Account has been deactivated by an administrator") ;;;
  AuditService.log (AuditService.mkEvent (Some user.(User.id)) "auth.login" "user" (Some user.(User.id))
    None None None (ip context) (ctx_userAgent context)) ;;;
  issueToken user.(User.id) user.(User.email) (UserRole.show user.(User.role)).

Definition login (dto : LoginDto) (context : Context_) : M World string :=
  let* found := UsersService.findByEmail (l_email dto) in
  match found with
  | None => throw (UnauthorizedException "Invalid credentials")
  | Some user =>
      throw_if (admin_without_code user (totpCode dto))
        (ForbiddenException "2FA code required for admin accounts") ;;;
      let* isLocked := locked user in
      throw_if isLocked
        (ForbiddenException ("Account is locked until " +:+
           match user.(User.lockedUntil) with Some t => toISOString t | None => "" end +:+
           ". Try again later.")) ;;;
      if negb (String.eqb user.(User.passwordHash) (hashPassword (l_password dto)))
      then failed_attempt user
      else admit_login user context
  end.

Definition rotateRefreshToken (token : string) : M World RotatedTokens :=
  throw_if (negb (str_truthy token)) (UnauthorizedException "Refresh token required") ;;;
  let* used := gets World.usedRefreshTokens in
  throw_if (match used !! token with Some _ => true | None => false end)
    (ForbiddenException "Refresh token has already been used (token rotation policy)") ;;;
  try_catch
    (let* now := date_now in
     let* payload := lift (jwt_verify now token) in
     modify (fun w => w <| World.usedRefreshTokens := <[token := tt]> w.(World.usedRefreshTokens) |>) ;;;
     let* now1 := date_now in
     let newAccessToken := jwt_sign now1 (mkJwt (jwt_sub payload) (jwt_email payload) (jwt_role payload) None None) in
     let* now2 := date_now in
     let newRefreshToken := jwt_sign now2
       (mkJwt (jwt_sub payload) (jwt_email payload) (jwt_role payload) (Some "refresh") (Some "7d")) in
     ret (mkTokens newAccessToken newRefreshToken))
    (fun err => match err with
                | Http 403 _ => throw err
                | _ => throw (UnauthorizedException "Invalid or expired refresh token")
                end).
End Service.
End AuthService.
