(* ===== verification/AuthTheorems.v ===== *)
(** The properties of [AuthService]: what a login checked, what a rotation
    accepts, and that the lockout of auth.service.ts is never recorded. *)
From S2P Require Import Prelude JsNumber Effects RepositoryLaws JsData ThirdParty Currencies Entities World Accounts Auth.
Local Open Scope Z_scope.

(** ** Rules for the services called *)

Section AuthLaws.
Context `{CS : ConfigService} `{CR : Crypto} `{JW : JwtService}.

Notation users_of := World.users.

Lemma wp_update id dto Q X (s : World) :
  (forall x e, env_step (World.env s) e -> X x (set_env e s)) ->
  (forall u r e, env_step (World.env s) e ->
     List.find (fun u => live u && UsersService.by_id id u) (users_of s) = Some u ->
     saved_as (UsersService.object_assign u dto) r ->
     Q r (set_env e s <| World.users := upsert r (users_of s) |>)) ->
  wp (UsersService.update id dto) Q X s.
Proof.
  intros HX HQ. unfold UsersService.update, UsersService.findById.
  wp_step. wp_step. wp_step; [apply HX; assumption|].
  destruct (List.find _ _) as [u|] eqn:Hf; wp_step; [|apply HX; assumption].
  apply wp_save; env_norm.
  - intros e2 x He2 _. env_norm. apply HX. etransitivity; eassumption.
  - intros e2 r He2 Hr _ _ _. env_norm. apply (HQ u); [etransitivity; eassumption | reflexivity | exact Hr].
Qed.

(** Reading terms, deactivations; writing the audit log. *)
Definition users_kept (s s' : World) : Prop := users_of s' = users_of s.
#[local] Instance users_kept_preorder : PreOrder users_kept.
Proof. split; [intros s; reflexivity | intros s1 s2 s3; unfold users_kept; congruence]. Qed.
#[local] Instance users_kept_env : EnvStable users_kept.
Proof. intros s e _. reflexivity. Qed.

Lemma ensureAccepted_spec user (s : World) :
  wp (TermsAcceptanceService.ensureAccepted user)
    (fun _ s' => env_only s s' /\ exists r, In r s.(World.terms_acceptances) /\
       TermsAcceptanceService.accepted_by user TermsAcceptanceService.currentVersion r = true)
    (fun _ s' => env_only s s') s.
Proof.
  unfold TermsAcceptanceService.ensureAccepted. wp_step. wp_step; [auto with env|].
  destruct (hd_error _) as [r|] eqn:Hr; wp_step; [|auto with env].
  split; [auto with env|]. exists r.
  destruct (order_desc _ _) as [|r' l] eqn:Ho; [discriminate|]. injection Hr as ->.
  assert (Hin : In r (r :: l)) by (left; reflexivity). rewrite <- Ho in Hin.
  apply in_order_desc, filter_In in Hin as [Hin Hp]. apply andb_prop in Hp. tauto.
Qed.

Definition deactivated (user : string) (s : World) : bool :=
  existsb (UserDeactivationService.active_for user) s.(World.user_deactivations).

Lemma find_none_existsb {E} (p q : E -> bool) t :
  (forall x, p x = q x) -> List.find p t = None <-> existsb q t = false.
Proof.
  intros Hpq. induction t as [|x t IH]; simpl; [tauto|]. rewrite Hpq.
  destruct (q x); simpl; [split; discriminate | exact IH].
Qed.

Lemma isUserDeactivated_spec user (s : World) :
  wp (UserDeactivationService.isUserDeactivated user)
    (fun b s' => env_only s s' /\ b = deactivated user s) (fun _ s' => env_only s s') s.
Proof.
  unfold UserDeactivationService.isUserDeactivated. wp_step. wp_step; [auto with env|].
  wp_step. split; [auto with env|]. unfold deactivated. simpl rows.
  pose proof (find_none_existsb (fun e => live e && UserDeactivationService.active_for user e)
    (UserDeactivationService.active_for user) s.(World.user_deactivations)) as Hn.
  destruct (List.find _ _).
  - destruct (existsb _ _); [reflexivity|]. destruct Hn as [_ Hn]; [reflexivity|]. discriminate Hn; reflexivity.
  - destruct Hn as [-> _]; [reflexivity | reflexivity | reflexivity].
Qed.

(** ** A login that is admitted *)

(** Everything the code looked at before it issued a token. *)
Record admitted (dto : LoginDto) (s : World) (user : User.User) : Prop := {
  ad_user : List.find (fun u => live u && UsersService.by_email (l_email dto) u) (users_of s) = Some user;
  ad_password : user.(User.passwordHash) = sha256_hex (l_password dto);
  ad_code : user.(User.role) = UserRole.ADMIN -> user.(User.require2fa) = true -> opt_truthy (totpCode dto) = true;
  ad_unlocked : forall t, user.(User.lockedUntil) = Some t -> exists n, t <= clock (World.env s) n;
  ad_terms : exists r, In r s.(World.terms_acceptances) /\
    TermsAcceptanceService.accepted_by user.(User.id) TermsAcceptanceService.currentVersion r = true;
  ad_active : deactivated user.(User.id) s = false
}.

(** The token names the user. *)
Definition token_for (user : User.User) (e : Env) (token : string) : Prop :=
  exists n, token = jwt_sign (clock e n)
    (mkJwt user.(User.id) user.(User.email) (UserRole.show user.(User.role)) None None).

(** The state between the checks: other tables and the oracles as they were. *)
Definition login_frame (s s' : World) : Prop :=
  clock (World.env s') = clock (World.env s) /\
  s'.(World.terms_acceptances) = s.(World.terms_acceptances) /\
  s'.(World.user_deactivations) = s.(World.user_deactivations).

Lemma env_only_login s s' : env_only s s' -> login_frame s s'.
Proof. intros (e & He & ->). split; [exact (es_clock _ _ He) | split; reflexivity]. Qed.

Lemma login_frame_trans s1 s2 s3 : login_frame s1 s2 -> login_frame s2 s3 -> login_frame s1 s3.
Proof. intros (H1 & H2 & H3) (H4 & H5 & H6). split; [|split]; congruence. Qed.

Lemma admit_login_spec user ctx (s : World) :
  wp (AuthService.admit_login user ctx)
    (fun token s' =>
       (exists r, In r s.(World.terms_acceptances) /\
          TermsAcceptanceService.accepted_by user.(User.id) TermsAcceptanceService.currentVersion r = true) /\
       deactivated user.(User.id) s = false /\ token_for user (World.env s) token)
    (fun _ _ => True) s.
Proof.
  unfold AuthService.admit_login. apply wp_bind.
  apply (wp_mono _ (fun _ s' => login_frame s s') _ (fun _ _ => True)); [| | auto].
  { destruct (_ || _); [|apply wp_ret; split; [|split]; reflexivity].
    apply wp_bind, wp_update; [auto|]. intros u r e He _ _. wp_step.
    split; [exact (es_clock _ _ He) | split; reflexivity]. }
  intros _ s1 H1. wp_step. eapply wp_mono; [apply ensureAccepted_spec | | auto].
  intros _ s2 (H2%env_only_login & r & Hr). wp_step.
  eapply wp_mono; [apply isUserDeactivated_spec | | auto].
  intros b s3 (H3%env_only_login & ->). wp_step. wp_step; [exact I|]. wp_step. unfold AuditService.log.
  wp_step; [exact I|]. unfold AuthService.issueToken. wp_step. wp_step. wp_step.
  destruct (login_frame_trans _ _ _ H1 H2) as (Hc & Ht & Hd).
  destruct H3 as (Hc3 & _ & _). split; [exists r; rewrite <- (proj1 (proj2 H1)); exact Hr|]. split.
  - unfold deactivated in *. rewrite <- Hd. assumption.
  - eexists. rewrite <- Hc, <- Hc3. change (env_of s3) with (World.env s3) in *.
    match goal with He : env_step (World.env s3) ?e |- context [clock ?e _] => rewrite (es_clock _ _ He) end.
    reflexivity.
Qed.

Lemma login_spec dto ctx (s : World) :
  wp (AuthService.login dto ctx)
    (fun token s' => exists user, admitted dto s user /\ token_for user (World.env s) token)
    (fun _ _ => True) s.
Proof.
  unfold AuthService.login, UsersService.findByEmail. wp_step. wp_step; [exact I|].
  destruct (List.find _ _) as [user|] eqn:Hf; [|wp_step; exact I].
  wp_step. wp_step; [exact I|]. wp_step.
  apply (wp_mono _ (fun b s' => env_only s s' /\
    (b = false -> forall t, user.(User.lockedUntil) = Some t -> exists n, t <= clock (World.env s) n))
    _ (fun _ _ => True)); [| | auto].
  { unfold AuthService.locked. destruct (User.lockedUntil user) as [t|].
    - wp_step. wp_step. wp_step. split; [eexists; split; [|reflexivity]; etransitivity; eassumption|].
      intros Hlt t' [= ->]. exists n. apply Z.ltb_ge in Hlt.
      match goal with He : env_step (env_of s) _ |- _ => rewrite (es_clock _ _ He) in Hlt end. exact Hlt.
    - wp_step. split; [auto with env | discriminate]. }
  intros b s1 (Hs1 & Hunlocked). wp_step. wp_step; [exact I|]. subst b.
  destruct (negb (String.eqb _ _)) eqn:Hpw.
  - apply negb_true_iff in Hpw. unfold AuthService.failed_attempt.
    wp_step. apply (wp_mono _ (fun _ _ => True) _ (fun _ _ => True)); [unfold wp; destruct (_ s1) as [[] ?]; exact I | | auto].
    intros _ s2 _. wp_step. exact I.
  - apply negb_false_iff, String.eqb_eq in Hpw.
    eapply wp_mono; [apply admit_login_spec | | auto]. intros token s2 (Ht & Hd & Htok).
    destruct Hs1 as (e & He & ->).
    exists user. split.
    + split; [exact Hf | exact Hpw | | auto | exact Ht | exact Hd].
      intros Ha H2. match goal with Hb : AuthService.admin_without_code _ _ = false |- _ =>
        unfold AuthService.admin_without_code in Hb; rewrite Ha, H2 in Hb; apply negb_false_iff in Hb; exact Hb end.
    + destruct Htok as [n ->]. exists n. simpl. rewrite (es_clock _ _ He). reflexivity.
Qed.
End AuthLaws.

(** ** No account is ever locked *)

(** The attempts counted never reach the threshold, and no lockout is set. *)
Definition unlocked (u : User.User) : Prop :=
  u.(User.lockedUntil) = None /\ u.(User.failedLoginAttempts) < MAX_FAILED_ATTEMPTS.
Definition never_locked (s : World) : Prop := Forall unlocked s.(World.users).

Section Lockout.
Context `{CS : ConfigService} `{CR : Crypto} `{JW : JwtService}.

Lemma saved_unlocked u r : saved_as u r -> unlocked u -> unlocked r.
Proof. intros [] Hu; exact Hu. Qed.

Lemma update_keeps_unlocked id dto :
  (forall u, unlocked u -> unlocked (UsersService.object_assign u dto)) ->
  keeps (invariant never_locked) (UsersService.update id dto).
Proof.
  intros Hdto. apply keeps_wp. intros s. apply wp_update; [intros x e _ H; exact H|].
  intros u r e _ Hf Hr H. apply Forall_upsert; [exact H|].
  apply (saved_unlocked _ _ Hr), Hdto. apply find_live_some in Hf as (Hin & _).
  unfold never_locked in H. rewrite List.Forall_forall in H. auto.
Qed.

Lemma failed_attempt_keeps_unlocked user :
  keeps (invariant never_locked) (AuthService.failed_attempt user).
Proof.
  unfold AuthService.failed_attempt, AuthService.lockedUntil_undeclared.
  apply keeps_bind; [typeclasses eauto | | intros; apply keeps_throw; typeclasses eauto].
  destruct (Z.leb_spec MAX_FAILED_ATTEMPTS (User.failedLoginAttempts user + 1)).
  - apply keeps_bind; [typeclasses eauto | exact (keeps_date_now _) | intros now].
    intros s. unfold bind, throw. intros Hs. exact Hs.
  - apply keeps_bind; [typeclasses eauto | | intros; apply keeps_ret; typeclasses eauto].
    apply update_keeps_unlocked. intros u [Hl _]. split; [exact Hl | assumption].
Qed.

Lemma admit_login_keeps_unlocked user ctx : keeps (invariant never_locked) (AuthService.admit_login user ctx).
Proof.
  unfold AuthService.admit_login, TermsAcceptanceService.ensureAccepted,
    UserDeactivationService.isUserDeactivated, AuditService.log, AuthService.issueToken.
  keeps_auto. apply update_keeps_unlocked. intros u _. split; reflexivity.
Qed.

Lemma login_keeps_unlocked dto ctx : keeps (invariant never_locked) (AuthService.login dto ctx).
Proof.
  unfold AuthService.login, UsersService.findByEmail, AuthService.locked.
  keeps_auto; auto using failed_attempt_keeps_unlocked, admit_login_keeps_unlocked.
Qed.

Lemma register_keeps_unlocked dto ctx : keeps (invariant never_locked) (AuthService.register dto ctx).
Proof.
  unfold AuthService.register, UsersService.create, TermsAcceptanceService.accept, AuditService.log,
    AuthService.issueToken.
  keeps_auto.
  intros s H. revert s H.
  refine (keeps_save_Forall unlocked _ _). intros r Hr. apply (saved_unlocked _ _ Hr). split; reflexivity.
Qed.
End Lockout.

(** ** Registration, then login *)

Section Registration.
Context `{CS : ConfigService} `{CR : Crypto} `{JW : JwtService}.

(** What a registration leaves for the login that follows it. *)
Record registered (dto : RegisterDto) (s : World) (u : User.User) (s1 : World) : Prop := {
  rg_find : List.find (fun x => live x && UsersService.by_email (r_email dto) x) s1.(World.users) = Some u;
  rg_password : u.(User.passwordHash) = sha256_hex (r_password dto);
  rg_fresh : u.(User.lockedUntil) = None /\ u.(User.failedLoginAttempts) = 0 /\ u.(User.require2fa) = false;
  rg_terms : exists r, In r s1.(World.terms_acceptances) /\
    TermsAcceptanceService.accepted_by u.(User.id) TermsAcceptanceService.currentVersion r = true;
  rg_env : env_step (World.env s) (World.env s1)
}.

Lemma register_spec dto ctx (s : World) :
  wp (AuthService.register dto ctx) (fun _ s1 => exists u, registered dto s u s1) (fun _ _ => True) s.
Proof.
  unfold AuthService.register, UsersService.create. wp_step. wp_step. wp_step; [exact I|].
  destruct (List.find _ _) eqn:Hf; [wp_step; exact I|].
  wp_step; [exact I|]. simpl in Hf.
  match goal with Hs : saved_as (User.mk _ _ _ _ _ _ _ _ _ _ _ _ _ _ _ _) ?r |- _ => rename r into u; rename Hs into Hsaved end.
  assert (Hu : u.(User.email) = r_email dto /\ u.(User.passwordHash) = sha256_hex (r_password dto) /\
               u.(User.lockedUntil) = None /\ u.(User.failedLoginAttempts) = 0 /\ u.(User.require2fa) = false)
    by (destruct Hsaved; repeat split).
  destruct Hu as (He & Hp & Hfresh).
  unfold TermsAcceptanceService.accept, AuditService.log, AuthService.issueToken.
  wp_step. wp_step; [exact I|].
  match goal with Hs : saved_as (TermsAcceptance.mk _ _ _ _ _ _) ?r |- _ => rename r into terms; rename Hs into Hterms end.
  wp_step. wp_step; [exact I|]. wp_step. wp_step. wp_step. exists u. split.
  - apply find_upsert_none; [exact Hf|]. unfold UsersService.by_email. rewrite He, String.eqb_refl. reflexivity.
  - exact Hp.
  - exact Hfresh.
  - exists terms. split; [apply in_upsert_self|].
    unfold TermsAcceptanceService.accepted_by. destruct Hterms; simpl; rewrite !String.eqb_refl; reflexivity.
  - simpl in *. env_chain.
Qed.

(** With no failing call, the login of a registered user can only fail where
    the audit entry is written. *)
Lemma login_registered dto u ctx (s : World) :
  List.find (fun x => live x && UsersService.by_email (r_email dto) x) s.(World.users) = Some u ->
  u.(User.passwordHash) = sha256_hex (r_password dto) ->
  u.(User.lockedUntil) = None /\ u.(User.failedLoginAttempts) = 0 /\ u.(User.require2fa) = false ->
  (exists r, In r s.(World.terms_acceptances) /\
     TermsAcceptanceService.accepted_by u.(User.id) TermsAcceptanceService.currentVersion r = true) ->
  deactivated u.(User.id) s = false -> reliable (World.env s) ->
  wp (AuthService.login (mkLogin (r_email dto) (r_password dto) None) ctx)
    (fun token _ => token_for u (World.env s) token) (fun x _ => x = unique_violation) s.
Proof.
  intros Hf Hp (Hl & Ha & H2) (r & Hr & Hacc) Hd Hrel.
  assert (Hno : forall x, ~ env_fault (World.env s) x) by (intros x; apply reliable_no_fault, Hrel).
  unfold AuthService.login, UsersService.findByEmail, AuthService.locked, AuthService.admin_without_code.
  wp_step. wp_step; [destruct (Hno x); assumption|]. simpl rows. cbn [l_email]. rewrite Hf, Hl, H2, andb_false_r. cbn [andb].
  wp_step. wp_step; [discriminate|]. wp_step. wp_step. wp_step. wp_step; [discriminate|].
  unfold AuthService.hashPassword. cbn [l_password]. rewrite Hp, String.eqb_refl. cbn [negb].
  unfold AuthService.admit_login. rewrite Ha, Hl. cbn [Z.ltb Z.compare orb]. wp_step. wp_step.
  unfold TermsAcceptanceService.ensureAccepted, UserDeactivationService.isUserDeactivated.
  wp_step. wp_step. wp_step; [edestruct Hno; eauto with env|]. simpl rows.
  destruct (hd_error _) as [r'|] eqn:Hh.
  2: { exfalso. match type of Hh with hd_error ?l = None => assert (Hin : In r l) end.
       - apply in_order_desc, filter_In. split; [exact Hr | exact Hacc].
       - destruct (order_desc _ _); [destruct Hin | discriminate]. }
  wp_step. wp_step. wp_step. wp_step; [edestruct Hno; eauto with env|]. simpl rows. wp_step.
  pose proof (find_none_existsb (fun e => live e && UserDeactivationService.active_for (User.id u) e)
    (UserDeactivationService.active_for (User.id u)) s.(World.user_deactivations) (fun _ => eq_refl)) as [_ Hn].
  rewrite (Hn Hd). wp_step. wp_step; [discriminate|]. wp_step. unfold AuditService.log, AuthService.issueToken.
  wp_step.
  - match goal with Hs : save_failure _ _ _ |- _ => destruct Hs as [Hs|[Hs _]] end;
      [edestruct Hno; eauto with env | assumption].
  - wp_step. wp_step. wp_step. eexists. simpl env_of in *.
    match goal with |- jwt_sign (clock ?e ?n) _ = _ => replace (clock e) with (clock (World.env s)); [reflexivity|] end.
    symmetry. apply es_clock. env_chain.
Qed.
End Registration.

(** Requests to the authentication service, in any order. *)
Inductive auth_step `{ConfigService} `{Crypto} `{JwtService} : World -> World -> Prop :=
  | step_login dto ctx s : auth_step s (AuthService.login dto ctx s).2
  | step_register dto ctx s : auth_step s (AuthService.register dto ctx s).2
  | step_rotate token s : auth_step s (AuthService.rotateRefreshToken token s).2.

(** ** Theorems *)

Section AuthProperties.
Context `{CS : ConfigService} `{CR : Crypto} `{JW : JwtService}.

(** C10 A login that returns a token checked the password hash of the user
    with that e-mail, found the account not locked at some moment of the
    request, the current terms accepted and no active deactivation, had a code
    from an administrator who needs one, and the token names that user. *)
Theorem login_sound dto ctx s token s' :
  AuthService.login dto ctx s = (inr token, s') ->
  exists user, admitted dto s user /\ token_for user (World.env s) token.
Proof. intros E. exact (wp_run_ok _ _ _ _ _ _ (login_spec dto ctx s) E). Qed.

(** The lockout is never recorded: whatever logins, registrations and
    rotations are made, however they fail, no user row ever gets a lockout
    time, nor a count of failures that reaches the maximum. *)
Theorem no_account_is_ever_locked s s' : rtc auth_step s s' -> never_locked s -> never_locked s'.
Proof.
  induction 1 as [s|s1 s2 s3 Hstep _ IH]; [auto|]. intros Hok. apply IH. clear IH.
  destruct Hstep as [dto ctx s | dto ctx s | token s].
  - exact (login_keeps_unlocked dto ctx s Hok).
  - exact (register_keeps_unlocked dto ctx s Hok).
  - assert (Hk : keeps (invariant never_locked) (AuthService.rotateRefreshToken token)).
    { unfold AuthService.rotateRefreshToken. keeps_auto; try (intros H; exact H). }
    exact (Hk s Hok).
Qed.

(** A rotation accepts exactly the tokens that are not empty, were not
    rotated before and verify now (of whatever type), and a token it accepted
    is refused from then on. *)
Theorem rotation_accepts_once token s :
  ((exists t, (AuthService.rotateRefreshToken token s).1 = inr t) <->
   token <> "" /\ s.(World.usedRefreshTokens) !! token = None /\
   exists payload, jwt_verify (clock (World.env s) (tick (World.env s))) token = inr payload) /\
  (forall t s1 s2, AuthService.rotateRefreshToken token s = (inr t, s1) ->
     s1.(World.usedRefreshTokens) ⊆ s2.(World.usedRefreshTokens) ->
     (AuthService.rotateRefreshToken token s2).1 =
       inl (ForbiddenException "Refresh token has already been used (token rotation policy)")).
Proof.
  unfold AuthService.rotateRefreshToken, throw_if, bind, try_catch, gets, date_now, lift, throw, ret, str_truthy.
  destruct (String.eqb_spec token "") as [->|Hne]; simpl.
  { split; [split; [intros [t Ht]; discriminate | tauto]|]. intros t s1 s2 Ht. discriminate. }
  split.
  - destruct (_ !! token); simpl; [split; [intros [t Ht]; discriminate | intros (_ & H & _); discriminate]|].
    destruct (jwt_verify _ _) as [x|p] eqn:Hv; simpl.
    + split; [intros [t Ht]; destruct x as [st m|nm m|cd m]; simpl in Ht;
        repeat match type of Ht with context [match ?p with _ => _ end] => destruct p end; discriminate Ht
        | intros (_ & _ & p & Hp); discriminate].
    + split; [intros _; split; [exact Hne | split; [reflexivity | exists p; reflexivity]] | intros _; eexists; reflexivity].
  - intros t s1 s2. destruct (_ !! token); simpl; [discriminate|].
    destruct (jwt_verify _ _) as [x|p] eqn:Hv; simpl.
    + intros Ht. exfalso. destruct x as [st m|nm m|cd m]; simpl in Ht;
        repeat match type of Ht with context [match ?p with _ => _ end] => destruct p end; discriminate Ht.
    + intros [= _ <-] Hsub. simpl in Hsub.
      assert (Hin : s2.(World.usedRefreshTokens) !! token = Some tt).
      { eapply lookup_weaken; [|exact Hsub]. apply lookup_insert_eq. }
      rewrite Hin. reflexivity.
Qed.
(** A registered user can log in: after a registration that returned,
    with no call failing and the account not deactivated, the same e-mail and
    password get a token for the user registered; nothing else can happen but
    a clash of the audit entry's generated key. *)
Theorem register_then_login dto ctx ctx' s token s1 :
  AuthService.register dto ctx s = (inr token, s1) ->
  reliable (World.env s) ->
  (forall u, In u s1.(World.users) -> deactivated u.(User.id) s1 = false) ->
  match AuthService.login (mkLogin (r_email dto) (r_password dto) None) ctx' s1 with
  | (inr token', _) => exists u, In u s1.(World.users) /\ u.(User.email) = r_email dto /\
                       token_for u (World.env s1) token'
  | (inl x, _) => x = unique_violation
  end.
Proof.
  intros Hrun Hrel Hact.
  destruct (wp_run_ok _ _ _ _ _ _ (register_spec dto ctx s) Hrun) as (u & [Hf Hp Hfr Ht He]).
  destruct (find_live_some _ _ _ Hf) as (Hin & _ & Hem). apply String.eqb_eq in Hem.
  pose proof (login_registered dto u ctx' s1 Hf Hp Hfr Ht (Hact u Hin) (env_step_reliable _ _ He Hrel)) as Hspec.
  unfold wp in Hspec. destruct (AuthService.login _ ctx' s1) as [[x|token'] s2]; [exact Hspec|]. eauto.
Qed.
End AuthProperties.

(** ** Worked examples *)

Definition plain_crypto : Crypto := {|
  sha256_hex p := "sha256:" +:+ p;
  hmac_sha256_hex key s := key +:+ ":" +:+ s;
  random_hex n s := s
|}.
Definition plain_jwt : JwtService := {|
  jwt_verify now token := if String.eqb token "expired" then inl (PlainError "jwt expired")
                          else inr (mkJwt token (token +:+ "@nexafx.example") "user" None None);
  jwt_sign now p := "token of " +:+ jwt_sub p
|}.
Definition auth_config : ConfigService := {|
  config_number _ := None; config_string _ := None; config_bool _ := None; config_list _ := None
|}.
#[local] Existing Instances plain_crypto plain_jwt auth_config.

Definition ada : RegisterDto := mkRegister "ada@nexafx.example" "correcthorse" "Ada" "Lovelace".
Definition from_home : Context_ := mkContext (Some "10.0.0.1") None.
Definition as_ada (password : string) : LoginDto := mkLogin "ada@nexafx.example" password None.
Definition ada_registered : World := (AuthService.register ada from_home demo_world).2.

Lemma login_sound_witness :
  exists token s' user, AuthService.login (as_ada "correcthorse") from_home ada_registered = (inr token, s') /\
    admitted (as_ada "correcthorse") ada_registered user.
Proof.
  destruct (AuthService.login (as_ada "correcthorse") from_home ada_registered) as [[x|token] s'] eqn:E;
    [eval_result E|].
  destruct (login_sound (as_ada "correcthorse") from_home ada_registered token s' E) as (user & Had & _).
  exists token, s', user. split; [reflexivity | exact Had].
Defined.

(** Seven wrong passwords in a row, then the right one. *)
Fixpoint attempts (passwords : list string) (s : World) : list string :=
  match passwords with
  | [] => []
  | p :: l => match AuthService.login (as_ada p) from_home s with
              | (inl x, s') => message_of x :: attempts l s'
              | (inr token, s') => token :: attempts l s'
              end
  end.

Lemma no_account_is_ever_locked_witness :
  attempts ["a"; "b"; "c"; "d"; "e"; "f"; "correcthorse"] ada_registered =
    ["Invalid credentials"; "Invalid credentials"; "Invalid credentials"; "Invalid credentials";
     "lockedUntil is not defined"; "lockedUntil is not defined"; "token of u0"] /\
  never_locked (AuthService.login (as_ada "wrong") from_home ada_registered).2.
Proof.
  split; [vm_compute; reflexivity|].
  apply (no_account_is_ever_locked demo_world); [|constructor].
  apply (rtc_l auth_step demo_world ada_registered); [exact (step_register ada from_home demo_world)|].
  exact (rtc_once _ _ (step_login (as_ada "wrong") from_home ada_registered)).
Defined.

Lemma register_then_login_witness :
  exists token s', AuthService.login (as_ada "correcthorse") from_home ada_registered = (inr token, s') /\
    exists u, In u ada_registered.(World.users) /\ u.(User.email) = "ada@nexafx.example".
Proof.
  destruct (AuthService.register ada from_home demo_world) as [[x|t] s1] eqn:E; [eval_result E|].
  assert (Hrel : reliable (World.env demo_world)) by (intros n _; reflexivity).
  assert (Hs1 : s1 = ada_registered) by (unfold ada_registered; rewrite E; reflexivity).
  assert (Hact : forall u, In u s1.(World.users) -> deactivated u.(User.id) s1 = false)
    by (intros u _; rewrite Hs1; reflexivity).
  pose proof (register_then_login ada from_home from_home demo_world t s1 E Hrel Hact) as H.
  rewrite Hs1 in H. change (mkLogin (r_email ada) (r_password ada) None) with (as_ada "correcthorse") in H.
  destruct (AuthService.login (as_ada "correcthorse") from_home ada_registered) as [[x|token] s'] eqn:E2;
    [eval_result E2|].
  exists token, s'. split; [reflexivity|]. destruct H as (u & Hin & Hem & _). exists u. auto.
Defined.
