(* ===== verification/Guards.v ===== *)
(** The guards that decide on a request: auth/jwt-auth.guard.ts,
    auth/strategies/jwt.strategy.ts, auth/guards/ (roles, verified e-mail,
    onboarding), common/guards/admin-role.guard.ts, and the password
    policy of auth/password-policy.service.ts. *)
From S2P Require Import Prelude JsNumber Effects RepositoryLaws JsData ThirdParty Entities World Accounts.
Local Open Scope Z_scope.

(** ** JwtAuthGuard *)

(** A header: absent, one value, or several. *)
Inductive Header : Type := NoHeader | OneHeader (value : string) | ManyHeaders (values : list string).

Module JwtAuthGuard.
Section Guard.
Context {S : Type} `{HasEnv S} `{JwtService}.

Definition bearerToken (authorization : Header) : option string :=
  match authorization with
  | NoHeader => None
  | OneHeader v => Some v
  | ManyHeaders l => hd_error l
  end.

Definition token_of (authorization : Header) : option string :=
  match bearerToken authorization with
  | Some b => if starts_with "Bearer " b then Some (slice 7 (String.length b) b) else None
  | None => None
  end.

(** The user the guard puts on the request; [None] on a public route. *)
Definition canActivate (isPublic : bool) (authorization : Header) : M S (option JwtPayload) :=
  if isPublic then ret None
  else match token_of authorization with
       | Some token =>
           if str_truthy token then
             let* now := date_now in
             match jwt_verify now token with
             | inr payload => ret (Some payload)
             | inl _ => throw (UnauthorizedException "Invalid authentication token")
             end
           else throw (UnauthorizedException "Missing bearer token")
       | None => throw (UnauthorizedException "Missing bearer token")
       end.
End Guard.
End JwtAuthGuard.

(** ** JwtStrategy *)

Record StrategyPayload : Type := mkStrategy {
  sub : string;
  s_email : string;
  s_role : string;
  s_isEmailVerified : option bool;
  iat : Z
}.

Record RequestUser : Type := mkRequestUser {
  ru_id : string;
  ru_email : string;
  ru_role : string;
  ru_isEmailVerified : option bool
}.

Module JwtStrategy.
Definition validate (payload : StrategyPayload) : M World RequestUser :=
  let* user := UsersService.findById (sub payload) in
  throw_if (match user.(User.passwordChangedAt) with
            | Some t => iat payload <? t / 1000
            | None => false
            end) (UnauthorizedException "Token invalidated by password change") ;;;
  ret (mkRequestUser (sub payload) (s_email payload) (s_role payload) (s_isEmailVerified payload)).
End JwtStrategy.

(** ** Roles, verified e-mail, onboarding, administrators *)

Module RolesGuard.
Definition canActivate {S} (requiredRoles : option (list string)) (role : option string) : M S bool :=
  match requiredRoles with
  | None | Some [] => ret true
  | Some roles =>
      throw_if (negb (match role with Some r => existsb (String.eqb r) roles | None => false end))
        (ForbiddenException "Insufficient permissions") ;;;
      ret true
  end.
End RolesGuard.

Module EmailVerifiedGuard.
Definition canActivate {S} (user : option RequestUser) : M S bool :=
  throw_if (negb (match user with Some u => default false (ru_isEmailVerified u) | None => false end))
    (ForbiddenException "Email verification required to access this resource") ;;;
  ret true.
End EmailVerifiedGuard.

Module OnboardingGuard.
Definition canActivate {S} (requiresOnboarding : option bool) (user : option RequestUser) : M S bool :=
  match user with
  | None => ret false
  | Some u =>
      match requiresOnboarding with
      | Some false => ret true
      | _ =>
          throw_if (negb (default false (ru_isEmailVerified u)))
            (ForbiddenException "Email verification required") ;;;
          ret true
      end
  end.
End OnboardingGuard.

Module AdminRoleGuard.
Definition canActivate {S} (role : option string) : M S bool :=
  throw_if (negb (match role with Some r => String.eqb r "admin" | None => false end))
    (ForbiddenException "Admin access required") ;;;
  ret true.
End AdminRoleGuard.

(** ** PasswordPolicyService *)

Record PasswordPolicy : Type := mkPolicy {
  minLength : Z;
  maxLength : Z;
  requireUppercase : bool;
  requireLowercase : bool;
  requireNumbers : bool;
  requireSpecialChars : bool;
  preventCommonPasswords : bool
}.
Definition DEFAULT_PASSWORD_POLICY : PasswordPolicy := mkPolicy 12 128 true true true true true.

(** [Partial<PasswordPolicy>]: what the configuration overrides. *)
Record PartialPolicy : Type := mkPartial {
  p_minLength : option Z;
  p_maxLength : option Z;
  p_requireUppercase : option bool;
  p_requireLowercase : option bool;
  p_requireNumbers : option bool;
  p_requireSpecialChars : option bool;
  p_preventCommonPasswords : option bool
}.

Definition COMMON : list string :=
  ["password"; "password1"; "123456"; "12345678"; "qwerty"; "abc123"; "letmein"; "admin"].

Definition uncommon (pw : string) : bool := negb (existsb (String.eqb (toLowerCase pw)) COMMON).

(** [/[class]/.test(pw)]: some character is in the class. *)
Fixpoint some_char (p : ascii -> bool) (s : string) : bool :=
  match s with
  | EmptyString => false
  | String c s' => p c || some_char p s'
  end.
Definition between (lo hi c : ascii) : bool :=
  Nat.leb (nat_of_ascii lo) (nat_of_ascii c) && Nat.leb (nat_of_ascii c) (nat_of_ascii hi).
Definition is_upper : ascii -> bool := between "A" "Z".
Definition is_lower : ascii -> bool := between "a" "z".
Definition is_digit : ascii -> bool := between "0" "9".
Definition is_symbol (c : ascii) : bool := negb (is_upper c || is_lower c || is_digit c).

Definition RULES : list ((PasswordPolicy -> bool) * (string -> bool) * string) :=
  [(requireUppercase, some_char is_upper, "an uppercase letter");
   (requireLowercase, some_char is_lower, "a lowercase letter");
   (requireNumbers, some_char is_digit, "a number");
   (requireSpecialChars, some_char is_symbol, "a symbol");
   (preventCommonPasswords, uncommon, "a less predictable phrase")].

Module PasswordPolicyService.
Definition getPolicy (set : option PartialPolicy) : PasswordPolicy :=
  let d := DEFAULT_PASSWORD_POLICY in
  match set with
  | None => d
  | Some p =>
      mkPolicy (default (minLength d) (p_minLength p)) (default (maxLength d) (p_maxLength p))
        (default (requireUppercase d) (p_requireUppercase p))
        (default (requireLowercase d) (p_requireLowercase p))
        (default (requireNumbers d) (p_requireNumbers p))
        (default (requireSpecialChars d) (p_requireSpecialChars p))
        (default (preventCommonPasswords d) (p_preventCommonPasswords p))
  end.

Definition length_error (lo hi : Z) : string :=
  "Password must be " +:+ string_of_Z lo +:+ "-" +:+ string_of_Z hi +:+ " characters.".
Definition rule_error (description : string) : string := "Password must include " +:+ description +:+ ".".

(** Every unmet requirement, in order. *)
Definition check (set : option PartialPolicy) (password : string) : list string :=
  let policy := getPolicy set in
  let lo := minLength policy in
  let hi := maxLength policy in
  let len := Z.of_nat (String.length password) in
  let errors := if (len <? lo) || (hi <? len) then [length_error lo hi] else [] in
  fold_left (fun errors '(flag, satisfied, description) =>
               if flag policy && negb (satisfied password)
               then errors ++ [rule_error description] else errors) RULES errors.

(** The exception carries the list of errors; here, joined. *)
Definition validate {S} (set : option PartialPolicy) (password : string) : M S unit :=
  let errors := check set password in
  throw_if (0 <? Z.of_nat (length errors)) (BadRequestException (join ", " errors)).
End PasswordPolicyService.

(** ** The password policy is complete *)

(** What the policy asks of a password. *)
Record acceptable (policy : PasswordPolicy) (password : string) : Prop := {
  ac_length : minLength policy <= Z.of_nat (String.length password) <= maxLength policy;
  ac_upper : requireUppercase policy = true -> some_char is_upper password = true;
  ac_lower : requireLowercase policy = true -> some_char is_lower password = true;
  ac_digit : requireNumbers policy = true -> some_char is_digit password = true;
  ac_symbol : requireSpecialChars policy = true -> some_char is_symbol password = true;
  ac_uncommon : preventCommonPasswords policy = true -> ~ In (toLowerCase password) COMMON
}.

Lemma uncommon_spec pw : uncommon pw = true <-> ~ In (toLowerCase pw) COMMON.
Proof.
  unfold uncommon. rewrite negb_true_iff, <- not_true_iff_false, existsb_exists.
  split; intros H Hin; apply H.
  - exists (toLowerCase pw). rewrite String.eqb_refl. auto.
  - destruct Hin as (x & Hx & Heq). apply String.eqb_eq in Heq. congruence.
Qed.

Lemma rules_nil policy pw (rules : list ((PasswordPolicy -> bool) * (string -> bool) * string)) :
  forall errors,
  fold_left (fun errors '(flag, satisfied, description) =>
               if flag policy && negb (satisfied pw)
               then errors ++ [PasswordPolicyService.rule_error description] else errors) rules errors = [] <->
  errors = [] /\ Forall (fun '(flag, satisfied, _) => flag policy = true -> satisfied pw = true) rules.
Proof.
  induction rules as [|[[flag sat] d] rules IH]; intros errors; simpl.
  - split; [intros ->; auto | tauto].
  - rewrite IH, Forall_cons. destruct (flag policy), (sat pw); simpl; intuition try congruence.
    all: destruct errors; discriminate.
Qed.

(** [validate] accepts exactly the passwords that meet the effective
    policy: the defaults overridden by the configuration, bound by bound and
    rule by rule. *)
Theorem validate_iff_acceptable (S : Type) set password (s : S) :
  (PasswordPolicyService.validate set password s).1 = inr tt <->
  acceptable (PasswordPolicyService.getPolicy set) password.
Proof.
  unfold PasswordPolicyService.validate.
  assert (Hnil : (throw_if (0 <? Z.of_nat (length (PasswordPolicyService.check set password)))
            (BadRequestException (join ", " (PasswordPolicyService.check set password))) s).1 = inr tt
          <-> PasswordPolicyService.check set password = []).
  { destruct (PasswordPolicyService.check set password); simpl; split; congruence. }
  rewrite Hnil. unfold PasswordPolicyService.check. cbv zeta. rewrite rules_nil.
  set (policy := PasswordPolicyService.getPolicy set). unfold RULES.
  rewrite !Forall_cons, List.Forall_nil_iff.
  destruct (Z.ltb_spec (Z.of_nat (String.length password)) (minLength policy)),
           (Z.ltb_spec (maxLength policy) (Z.of_nat (String.length password))); simpl;
    rewrite uncommon_spec.
  all: split; [intros (He & H1 & H2 & H3 & H4 & H5 & _); try discriminate He; split; auto; lia |].
  all: intros []; try lia. tauto.
Qed.
