(* ===== verification/Network.v ===== *)
(** Internet addresses as the code reads them: 32-bit integer arithmetic,
    [Number(string)], common/guards/ip-allowlist.guard.ts, and the address
    functions of webhooks/webhooks.service.ts, each with the arithmetic
    description of what it computes. *)
From S2P Require Import Prelude JsNumber NumberLaws Effects JsData.
Local Open Scope Z_scope.

(** ** 32-bit integers *)

Definition to_uint32 (z : Z) : Z := z mod 2 ^ 32.
Definition to_int32 (z : Z) : Z :=
  let u := to_uint32 z in if u <? 2 ^ 31 then u else u - 2 ^ 32.
(** [a << n] and [a & b]. *)
Definition shl32 (a n : Z) : Z := to_int32 (to_int32 a * 2 ^ (n mod 32)).
Definition and32 (a b : Z) : Z := Z.land (to_int32 a) (to_int32 b).

(** ** [Number(string)] *)

Definition is_decimal (c : ascii) : bool :=
  Nat.leb 48 (nat_of_ascii c) && Nat.leb (nat_of_ascii c) 57.

Fixpoint span (p : ascii -> bool) (s : string) : string * string :=
  match s with
  | EmptyString => ("", "")
  | String c s' => if p c then let '(l, r) := span p s' in (String c l, r) else ("", s)
  end.

(** The value of a digit, of any base up to 16. *)
Definition digit_value (c : ascii) : Z :=
  let n := Z.of_nat (nat_of_ascii (lower_ascii c)) in
  if (48 <=? n) && (n <=? 57) then n - 48
  else if (97 <=? n) && (n <=? 102) then n - 87 else 99.

Fixpoint digits_value (base : Z) (acc : Z) (s : string) : option Z :=
  match s with
  | EmptyString => Some acc
  | String c s' => if digit_value c <? base then digits_value base (base * acc + digit_value c) s' else None
  end.

Definition based_literal (base : Z) (s : string) : num :=
  match s, digits_value base 0 s with
  | EmptyString, _ | _, None => num_nan
  | _, Some v => num_of_Z v
  end.

Definition exponent_part (s : string) : option Z :=
  match s with
  | EmptyString => Some 0
  | String c r =>
      if Ascii.eqb (lower_ascii c) "e" then
        let '(sg, r) := match r with String "-" r' => (-1, r') | String "+" r' => (1, r') | _ => (1, r) end in
        match r, digits_value 10 0 r with
        | EmptyString, _ | _, None => None
        | _, Some v => Some (sg * v)
        end
      else None
  end.

Definition unsigned_literal (s : string) : num :=
  if String.eqb s "Infinity" then num_infinity
  else
    let '(ip, r) := span is_decimal s in
    let '(fp, r) := match r with String "." r' => span is_decimal r' | _ => ("", r) end in
    match ip +:+ fp, digits_value 10 0 (ip +:+ fp), exponent_part r with
    | EmptyString, _, _ | _, None, _ | _, _, None => num_nan
    | _, Some v, Some e => num_of_decimal v (e - Z.of_nat (String.length fp))
    end.

Definition js_number (s : string) : num :=
  let t := trim s in
  match t with
  | EmptyString => num_of_Z 0
  | String "-" t' => num_opp (unsigned_literal t')
  | String "+" t' => unsigned_literal t'
  | String "0" (String c t') =>
      if Ascii.eqb (lower_ascii c) "x" then based_literal 16 t'
      else if Ascii.eqb (lower_ascii c) "o" then based_literal 8 t'
      else if Ascii.eqb (lower_ascii c) "b" then based_literal 2 t'
      else unsigned_literal t
  | _ => unsigned_literal t
  end.

(** ** parseInt and parseFloat *)

Definition signed (s : string) : (num -> num) * string :=
  match s with String "-" t => (num_opp, t) | String "+" t => (fun n => n, t) | _ => (fun n => n, s) end.

(** [parseInt(s, 10)]. *)
Definition parseInt (s : string) : num :=
  let '(sg, t) := signed (trim_start s) in
  let ds := (span is_decimal t).1 in
  match ds, digits_value 10 0 ds with
  | EmptyString, _ | _, None => num_nan
  | _, Some v => sg (num_of_decimal v 0)
  end.

(** The exponent that follows the digits, if one does. *)
Definition leading_exponent (s : string) : Z :=
  match s with
  | String c r =>
      if Ascii.eqb (lower_ascii c) "e" then
        let '(sg, r) := match r with String "-" r' => (-1, r') | String "+" r' => (1, r') | _ => (1, r) end in
        sg * default 0 (digits_value 10 0 (span is_decimal r).1)
      else 0
  | EmptyString => 0
  end.

(** [parseFloat(s)]: the longest prefix that is a decimal literal. *)
Definition parseFloat (s : string) : num :=
  let '(sg, t) := signed (trim_start s) in
  if starts_with "Infinity" t then sg num_infinity
  else
    let '(ip, r) := span is_decimal t in
    let '(fp, r) := match r with String "." r' => span is_decimal r' | _ => ("", r) end in
    match ip +:+ fp, digits_value 10 0 (ip +:+ fp) with
    | EmptyString, _ | _, None => num_nan
    | _, Some v => sg (num_of_decimal v (leading_exponent r - Z.of_nat (String.length fp)))
    end.

(** [Number.isInteger(x)], with the integer. *)
Definition integer_of (x : num) : option Z :=
  match num_fraction x with
  | Some (n, d) => if n mod Zpos d =? 0 then Some (n / Zpos d) else None
  | None => None
  end.

(** ** The allow-list of the administration *)

Module IpAllowlistGuard.
Definition normalizeIp (address : string) : string :=
  if starts_with "::ffff:" address then slice 7 (String.length address) address else address.

Definition byte (part : string) : option Z :=
  match integer_of (js_number part) with
  | Some v => if (0 <=? v) && (v <=? 255) then Some v else None
  | None => None
  end.

Definition ipv4ToNumber (address : string) : option Z :=
  match split_on "." address with
  | [a; b; c; d] =>
      match byte a, byte b, byte c, byte d with
      | Some a, Some b, Some c, Some d => Some (to_uint32 (shl32 a 24 + shl32 b 16 + shl32 c 8 + d))
      | _, _, _, _ => None
      end
  | _ => None
  end.

Definition mask_of (maskLength : Z) : Z :=
  if maskLength =? 0 then 0 else to_uint32 (shl32 (2 ^ 32 - 1) (32 - maskLength)).

Definition cidrContainsIp (ip cidr : string) : bool :=
  let parts := split_on "/" cidr in
  let network := hd "" parts in
  let maskLengthRaw := hd "" (tl parts) in
  if negb (str_truthy maskLengthRaw) then String.eqb (normalizeIp ip) (normalizeIp network)
  else
    match ipv4ToNumber (normalizeIp network), ipv4ToNumber (normalizeIp ip),
          integer_of (js_number maskLengthRaw) with
    | Some networkNumber, Some ipNumber, Some maskLength =>
        if (maskLength <? 0) || (32 <? maskLength) then false
        else and32 networkNumber (mask_of maskLength) =? and32 ipNumber (mask_of maskLength)
    | _, _, _ => false
    end.

(** [adminAllowedIps] and [request.ip], each possibly undefined. *)
Definition canActivate {S} (adminAllowedIps : option (list string)) (ip : option string) : M S bool :=
  let allowedIps := List.filter str_truthy (map trim (default [] adminAllowedIps)) in
  match allowedIps with
  | [] => ret true
  | _ =>
      let ipAddress := match ip with Some a => if str_truthy a then normalizeIp a else "" | None => "" end in
      throw_if (negb (str_truthy ipAddress) || negb (existsb (cidrContainsIp ipAddress) allowedIps))
        (ForbiddenException "IP address is not allowlisted for admin access") ;;;
      ret true
  end.
End IpAllowlistGuard.

(** ** Private ranges *)

Module WebhookAddress.
(** [net.isIPv4]: four decimal octets without leading zeros. *)
Definition octet_text (s : string) : bool :=
  match digits_value 10 0 s with
  | Some v => (v <=? 255) && String.eqb s (string_of_Z v)
  | None => false
  end.
Definition isIPv4 (s : string) : bool :=
  match split_on "." s with
  | [a; b; c; d] => octet_text a && octet_text b && octet_text c && octet_text d
  | _ => false
  end.

(** [parseInt(s, 10)]: the longest prefix of digits; [None] for NaN. *)
Definition parseInt10 (s : string) : option Z :=
  let t := trim_start s in
  let '(sg, t) := match t with String "-" t' => (-1, t') | String "+" t' => (1, t') | _ => (1, t) end in
  match (span is_decimal t).1 with
  | EmptyString => None
  | ds => match digits_value 10 0 ds with Some v => Some (sg * v) | None => None end
  end.

(** One step of the reduction; NaN, as [None], shifts to 0 and absorbs sums. *)
Definition ip_step (acc : option Z) (octet : string) : option Z :=
  match parseInt10 octet with
  | Some o => Some (shl32 (default 0 acc) 8 + o)
  | None => None
  end.

Definition ip2int (ip : string) : Z := to_uint32 (default 0 (fold_left ip_step (split_on "." ip) (Some 0))).

Definition PRIVATE_CIDR_RANGES : list (Z * Z) :=
  [(ip2int "10.0.0.0", ip2int "10.255.255.255");
   (ip2int "172.16.0.0", ip2int "172.31.255.255");
   (ip2int "192.168.0.0", ip2int "192.168.255.255");
   (ip2int "127.0.0.0", ip2int "127.255.255.255");
   (ip2int "169.254.0.0", ip2int "169.254.255.255");
   (ip2int "100.64.0.0", ip2int "100.127.255.255")].

Definition isPrivateIp (ip : string) : bool :=
  if negb (isIPv4 ip) then true
  else let n := ip2int ip in existsb (fun '(start, end_) => (start <=? n) && (n <=? end_)) PRIVATE_CIDR_RANGES.
End WebhookAddress.

(** ** Dotted addresses *)

Definition octet (z : Z) : Prop := 0 <= z <= 255.
Definition dotted (a b c d : Z) : string :=
  string_of_Z a +:+ "." +:+ string_of_Z b +:+ "." +:+ string_of_Z c +:+ "." +:+ string_of_Z d.
(** The address as a 32-bit number. *)
Definition address (a b c d : Z) : Z := ((a * 256 + b) * 256 + c) * 256 + d.

Fixpoint upto (n : nat) : list Z :=
  match n with O => [] | S n' => upto n' ++ [Z.of_nat n'] end.

Lemma in_upto n z : 0 <= z < Z.of_nat n -> In z (upto n).
Proof.
  induction n as [|n IH]; intros Hz; [lia|]. simpl. apply in_or_app.
  destruct (Z.eq_dec z (Z.of_nat n)) as [->|]; [right; left; reflexivity | left; apply IH; lia].
Qed.

(** A decidable fact on octets holds when it holds of each. *)
Lemma for_octets (p : Z -> bool) : forallb p (upto 256) = true -> forall z, octet z -> p z = true.
Proof. intros Hp z Hz. rewrite forallb_forall in Hp. apply Hp, in_upto. unfold octet in Hz. lia. Qed.

Lemma octet_no_dot z : octet z -> no_char "." (string_of_Z z) = true.
Proof. revert z. apply for_octets. vm_compute. reflexivity. Qed.
Lemma octet_no_slash z : octet z -> no_char "/" (string_of_Z z) = true.
Proof. revert z. apply for_octets. vm_compute. reflexivity. Qed.

Lemma split_dotted a b c d : octet a -> octet b -> octet c -> octet d ->
  split_on "." (dotted a b c d) = [string_of_Z a; string_of_Z b; string_of_Z c; string_of_Z d].
Proof.
  intros Ha Hb Hc Hd. unfold dotted.
  assert (Hstep : forall z t, octet z ->
    split_on "." (string_of_Z z +:+ "." +:+ t) = string_of_Z z :: split_on "." t)
    by (intros z t Hz; apply split_on_app, octet_no_dot, Hz).
  rewrite !Hstep by assumption. rewrite split_on_none by auto using octet_no_dot. reflexivity.
Qed.

(** ** What the address functions compute *)

Lemma to_int32_mod z : to_int32 z mod 2 ^ 32 = z mod 2 ^ 32.
Proof.
  unfold to_int32, to_uint32. destruct (z mod 2 ^ 32 <? 2 ^ 31); [apply Z.mod_mod; lia|].
  rewrite <- (Z.mod_add (z mod 2 ^ 32 - 2 ^ 32) 1) by lia.
  replace (z mod 2 ^ 32 - 2 ^ 32 + 1 * 2 ^ 32) with (z mod 2 ^ 32) by lia. apply Z.mod_mod. lia.
Qed.

Lemma to_int32_small z : 0 <= z < 2 ^ 31 -> to_int32 z = z.
Proof.
  intros Hz. unfold to_int32, to_uint32. rewrite Z.mod_small by lia.
  destruct (Z.ltb_spec z (2 ^ 31)); lia.
Qed.

(** A shift of a number below [2^24] is a product, up to [2^32]. *)
Lemma shl32_mod x n : 0 <= x < 2 ^ 31 -> 0 <= n < 32 -> shl32 x n mod 2 ^ 32 = (x * 2 ^ n) mod 2 ^ 32.
Proof.
  intros Hx Hn. unfold shl32. rewrite to_int32_mod, to_int32_small, (Z.mod_small n 32) by lia. reflexivity.
Qed.

Lemma mod_add_congr x x' y y' n : n <> 0 ->
  x mod n = x' mod n -> y mod n = y' mod n -> (x + y) mod n = (x' + y') mod n.
Proof. intros Hn Hx Hy. rewrite (Z.add_mod x y), (Z.add_mod x' y'), Hx, Hy by exact Hn. reflexivity. Qed.

Lemma address_range a b c d : octet a -> octet b -> octet c -> octet d -> 0 <= address a b c d < 2 ^ 32.
Proof. unfold octet, address. lia. Qed.

Lemma byte_octet z : octet z -> IpAllowlistGuard.byte (string_of_Z z) = Some z.
Proof.
  intros Hz.
  assert (H : match IpAllowlistGuard.byte (string_of_Z z) with Some v => v =? z | None => false end = true)
    by (revert z Hz; apply for_octets; vm_compute; reflexivity).
  destruct (IpAllowlistGuard.byte _); [|discriminate]. apply Z.eqb_eq in H. congruence.
Qed.

Lemma parseInt10_octet z : octet z -> WebhookAddress.parseInt10 (string_of_Z z) = Some z.
Proof.
  intros Hz.
  assert (H : match WebhookAddress.parseInt10 (string_of_Z z) with Some v => v =? z | None => false end = true)
    by (revert z Hz; apply for_octets; vm_compute; reflexivity).
  destruct (WebhookAddress.parseInt10 _); [|discriminate]. apply Z.eqb_eq in H. congruence.
Qed.

Lemma octet_text_octet z : octet z -> WebhookAddress.octet_text (string_of_Z z) = true.
Proof. revert z. apply for_octets. vm_compute. reflexivity. Qed.

Lemma ipv4ToNumber_dotted a b c d : octet a -> octet b -> octet c -> octet d ->
  IpAllowlistGuard.ipv4ToNumber (dotted a b c d) = Some (address a b c d).
Proof.
  intros Ha Hb Hc Hd. unfold IpAllowlistGuard.ipv4ToNumber.
  rewrite split_dotted, !byte_octet by assumption. f_equal. unfold to_uint32.
  unfold octet, address in *.
  transitivity ((a * 2 ^ 24 + b * 2 ^ 16 + c * 2 ^ 8 + d) mod 2 ^ 32).
  - repeat (apply mod_add_congr; [lia | | try reflexivity]); try apply shl32_mod; lia.
  - rewrite Z.mod_small; lia.
Qed.

Lemma ip2int_dotted a b c d : octet a -> octet b -> octet c -> octet d ->
  WebhookAddress.ip2int (dotted a b c d) = address a b c d.
Proof.
  intros Ha Hb Hc Hd. unfold WebhookAddress.ip2int. rewrite split_dotted by assumption.
  cbn [fold_left]. unfold WebhookAddress.ip_step. rewrite !parseInt10_octet by assumption. cbn [default].
  assert (Hsmall : forall x, 0 <= x < 2 ^ 23 -> shl32 x 8 = x * 256).
  { intros x Hx. unfold shl32. rewrite (to_int32_small x), (Z.mod_small 8 32) by lia. apply to_int32_small. lia. }
  unfold octet, address, to_uint32 in *. cbn [default from_option id]. change (shl32 0 8) with 0.
  rewrite (Hsmall (0 + a)), (Hsmall ((0 + a) * 256 + b)) by lia.
  transitivity (((((0 + a) * 256 + b) * 256 + c) * 2 ^ 8 + d) mod 2 ^ 32); [|rewrite Z.mod_small; lia].
  apply mod_add_congr; [lia | apply shl32_mod; lia | reflexivity].
Qed.

(** The mask of [m] bits keeps the network part of an address. *)
Lemma and32_mask k x y : 0 <= k <= 31 -> 0 <= x < 2 ^ 32 -> 0 <= y < 2 ^ 32 ->
  (and32 x (2 ^ 32 - 2 ^ k) =? and32 y (2 ^ 32 - 2 ^ k)) = (x / 2 ^ k =? y / 2 ^ k).
Proof.
  intros Hk Hx Hy. assert (Hp : 0 < 2 ^ k) by (apply Z.pow_pos_nonneg; lia).
  assert (Hle : 2 ^ k <= 2 ^ 31) by (apply Z.pow_le_mono_r; lia).
  assert (Hmask : to_int32 (2 ^ 32 - 2 ^ k) = Z.lnot (Z.ones k)).
  { unfold to_int32, to_uint32. rewrite Z.mod_small by lia.
    destruct (Z.ltb_spec (2 ^ 32 - 2 ^ k) (2 ^ 31)); [lia|].
    rewrite Z.ones_equiv. unfold Z.lnot. lia. }
  assert (Hand : forall z, and32 z (2 ^ 32 - 2 ^ k) = to_int32 z / 2 ^ k * 2 ^ k).
  { intros z. unfold and32. rewrite Hmask, <- Z.ldiff_land, Z.ldiff_ones_r by lia.
    rewrite Z.shiftl_mul_pow2, Z.shiftr_div_pow2 by lia. reflexivity. }
  rewrite !Hand.
  assert (Hq : 2 ^ 32 = 2 ^ (32 - k) * 2 ^ k) by (rewrite <- Z.pow_add_r by lia; f_equal; lia).
  assert (Hh : 2 ^ 31 = 2 ^ (31 - k) * 2 ^ k) by (rewrite <- Z.pow_add_r by lia; f_equal; lia).
  assert (Hint : forall z, 0 <= z < 2 ^ 32 -> to_int32 z / 2 ^ k =
            if z / 2 ^ k <? 2 ^ (31 - k) then z / 2 ^ k else z / 2 ^ k - 2 ^ (32 - k)).
  { intros z Hz. unfold to_int32, to_uint32. rewrite Z.mod_small by lia.
    destruct (Z.ltb_spec z (2 ^ 31)), (Z.ltb_spec (z / 2 ^ k) (2 ^ (31 - k))); [reflexivity | | |].
    - assert (2 ^ (31 - k) * 2 ^ k <= z / 2 ^ k * 2 ^ k) by (apply Z.mul_le_mono_nonneg_r; lia).
      pose proof (Z.mul_div_le z (2 ^ k) Hp). lia.
    - assert (2 ^ 31 / 2 ^ k <= z / 2 ^ k) by (apply Z.div_le_mono; lia).
      rewrite Hh, Z.div_mul in H1 by lia. lia.
    - rewrite Hq. replace (z - 2 ^ (32 - k) * 2 ^ k) with (z + - 2 ^ (32 - k) * 2 ^ k) by ring.
      rewrite Z.div_add by lia. lia. }
  rewrite (Hint x Hx), (Hint y Hy).
  assert (Hr : forall z, 0 <= z < 2 ^ 32 -> 0 <= z / 2 ^ k < 2 ^ (32 - k)).
  { intros z Hz. split; [apply Z.div_pos; lia | apply Z.div_lt_upper_bound; lia]. }
  pose proof (Hr x Hx). pose proof (Hr y Hy).
  assert (Hd : 2 ^ (32 - k) = 2 * 2 ^ (31 - k)) by (rewrite <- Z.pow_succ_r by lia; f_equal; lia).
  apply eq_true_iff_eq. rewrite !Z.eqb_eq.
  destruct (Z.ltb_spec (x / 2 ^ k) (2 ^ (31 - k))), (Z.ltb_spec (y / 2 ^ k) (2 ^ (31 - k))); nia.
Qed.

Lemma mask_of_length m : 1 <= m <= 32 -> IpAllowlistGuard.mask_of m = 2 ^ 32 - 2 ^ (32 - m).
Proof.
  intros Hm. assert (H : forallb (fun k => IpAllowlistGuard.mask_of (k + 1) =? 2 ^ 32 - 2 ^ (31 - k)) (upto 32) = true)
    by (vm_compute; reflexivity).
  rewrite forallb_forall in H. specialize (H (m - 1) (in_upto 32 (m - 1) ltac:(lia))).
  apply Z.eqb_eq in H. replace (m - 1 + 1) with m in H by lia. rewrite H. f_equal. f_equal. lia.
Qed.

Lemma mask_text m : 0 <= m <= 32 ->
  integer_of (js_number (string_of_Z m)) = Some m /\ no_char "/" (string_of_Z m) = true /\
  str_truthy (string_of_Z m) = true.
Proof.
  intros Hm.
  assert (H : forallb (fun m => match integer_of (js_number (string_of_Z m)) with Some v => v =? m | None => false end &&
      no_char "/" (string_of_Z m) && str_truthy (string_of_Z m)) (upto 33) = true) by (vm_compute; reflexivity).
  rewrite forallb_forall in H. specialize (H m (in_upto 33 m ltac:(lia))).
  apply andb_prop in H as [H H3]. apply andb_prop in H as [H H2].
  destruct (integer_of _); [apply Z.eqb_eq in H; subst; auto | discriminate].
Qed.

Lemma dotted_no_slash a b c d : octet a -> octet b -> octet c -> octet d ->
  no_char "/" (dotted a b c d) = true.
Proof. intros. unfold dotted. rewrite !no_char_app, !octet_no_slash by assumption. reflexivity. Qed.

Lemma normalize_dotted a b c d : octet a -> octet b -> octet c -> octet d ->
  IpAllowlistGuard.normalizeIp (dotted a b c d) = dotted a b c d.
Proof.
  intros Ha _ _ _. unfold IpAllowlistGuard.normalizeIp, dotted.
  assert (Hs : forall t, starts_with "::ffff:" (string_of_Z a +:+ t) = false).
  { intros t. assert (H : (match string_of_Z a with String ":" _ | EmptyString => false | _ => true end) = true)
      by (revert a Ha; apply for_octets; vm_compute; reflexivity).
    destruct (string_of_Z a) as [|x s]; [discriminate|]. change (String x s +:+ t) with (String x (s +:+ t)).
    destruct x as [[] [] [] [] [] [] [] []]; try reflexivity. discriminate H. }
  rewrite Hs. reflexivity.
Qed.

(** An entry of the administrators' allow-list in CIDR form admits exactly
    the addresses that agree with it on the leading bits the mask names: the
    signed 32-bit arithmetic of the code is that comparison, for every mask
    length from 0 to 32. *)
Theorem allowlist_is_a_prefix_match a b c d a' b' c' d' m :
  octet a -> octet b -> octet c -> octet d -> octet a' -> octet b' -> octet c' -> octet d' -> 0 <= m <= 32 ->
  IpAllowlistGuard.cidrContainsIp (dotted a b c d) (dotted a' b' c' d' +:+ "/" +:+ string_of_Z m) =
  (address a b c d / 2 ^ (32 - m) =? address a' b' c' d' / 2 ^ (32 - m)).
Proof.
  intros Ha Hb Hc Hd Ha' Hb' Hc' Hd' Hm. unfold IpAllowlistGuard.cidrContainsIp.
  destruct (mask_text m Hm) as (Hnum & Hns & Htr).
  change ("/" +:+ string_of_Z m) with (String "/" (string_of_Z m)).
  rewrite (split_on_app "/" (dotted a' b' c' d')) by (apply dotted_no_slash; assumption).
  rewrite (split_on_none "/" (string_of_Z m) Hns). cbn [hd tl]. rewrite Htr. cbn [negb].
  rewrite !normalize_dotted, !ipv4ToNumber_dotted, Hnum by assumption.
  destruct (Z.ltb_spec m 0), (Z.ltb_spec 32 m); try lia. cbn [orb].
  pose proof (address_range a b c d Ha Hb Hc Hd). pose proof (address_range a' b' c' d' Ha' Hb' Hc' Hd').
  destruct (Z.eq_dec m 0) as [->|Hm0].
  - unfold IpAllowlistGuard.mask_of, and32. simpl (if 0 =? 0 then _ else _).
    change (to_int32 0) with 0. rewrite !Z.land_0_r, !Z.div_small by lia. reflexivity.
  - rewrite mask_of_length by lia. rewrite Z.eqb_sym. apply and32_mask; lia.
Qed.

(** The ranges of RFC 1918, loopback, link-local and carrier-grade NAT. *)
Definition private_octets (a b : Z) : bool :=
  (a =? 10) || ((a =? 172) && (16 <=? b) && (b <=? 31)) || ((a =? 192) && (b =? 168)) ||
  (a =? 127) || ((a =? 169) && (b =? 254)) || ((a =? 100) && (64 <=? b) && (b <=? 127)).

Lemma private_ranges :
  WebhookAddress.PRIVATE_CIDR_RANGES =
  [(167772160, 184549375); (2886729728, 2887778303); (3232235520, 3232301055);
   (2130706432, 2147483647); (2851995648, 2852061183); (1681915904, 1686110207)].
Proof. vm_compute. reflexivity. Qed.

(** The webhook check calls an IPv4 address private exactly when its
    octets are in one of the six listed ranges, although it compares 32-bit
    numbers built with signed shifts. *)
Theorem private_ip_by_octets a b c d :
  octet a -> octet b -> octet c -> octet d ->
  WebhookAddress.isPrivateIp (dotted a b c d) = private_octets a b.
Proof.
  intros Ha Hb Hc Hd. unfold WebhookAddress.isPrivateIp, WebhookAddress.isIPv4.
  rewrite split_dotted, !octet_text_octet by assumption. cbn [andb negb].
  rewrite ip2int_dotted, private_ranges by assumption. cbn [existsb]. cbv beta iota.
  unfold private_octets, octet, address in *. apply eq_true_iff_eq.
  repeat rewrite ?orb_true_iff, ?andb_true_iff, ?Z.eqb_eq, ?Z.leb_le. split; intros; [|lia]. lia.
Qed.

Lemma allowlist_is_a_prefix_match_witness :
  IpAllowlistGuard.cidrContainsIp (dotted 192 168 7 9) (dotted 192 168 0 0 +:+ "/" +:+ string_of_Z 21) = true.
Proof.
  rewrite (allowlist_is_a_prefix_match 192 168 7 9 192 168 0 0 21); [reflexivity | unfold octet; lia ..].
Defined.

Lemma private_ip_by_octets_witness :
  WebhookAddress.isPrivateIp (dotted 172 31 255 1) = true /\ WebhookAddress.isPrivateIp (dotted 172 32 0 1) = false.
Proof.
  split; [rewrite (private_ip_by_octets 172 31 255 1) | rewrite (private_ip_by_octets 172 32 0 1)];
    first [reflexivity | unfold octet; lia].
Defined.
