(* ===== verification/Webhooks.v ===== *)
(** webhooks/: endpoints and their validation (webhooks.service.ts), the
    deliveries queued for an event (webhooks.listener.ts), the queue's worker
    (webhooks.processor.ts) and the retry job (webhook-retry.job.ts). *)
From S2P Require Import Prelude JsNumber Effects RepositoryLaws JsData Json ThirdParty Network.
Local Open Scope Z_scope.

Module WebhookDeliveryStatus.
Inductive WebhookDeliveryStatus : Type := PENDING | DELIVERED | FAILED | EXPIRED.
Definition eqb (a b : WebhookDeliveryStatus) : bool :=
  match a, b with
  | PENDING, PENDING | DELIVERED, DELIVERED | FAILED, FAILED | EXPIRED, EXPIRED => true
  | _, _ => false
  end.
Definition show (a : WebhookDeliveryStatus) : string :=
  match a with
  | PENDING => "pending"
  | DELIVERED => "delivered"
  | FAILED => "failed"
  | EXPIRED => "expired"
  end.
Lemma WebhookDeliveryStatus_eqb_eq a b : eqb a b = true <-> a = b.
Proof. destruct a, b; simpl; split; congruence. Qed.
End WebhookDeliveryStatus.

(** webhooks/webhook-endpoint.entity.ts *)
Module WebhookEndpoint.
Record WebhookEndpoint : Type := mk {
  id : string;
  ownerId : string;
  url : string;
  secret : string;
  events : list string;
  isActive : bool;
  createdAt : Z;
  updatedAt : Z
}.
#[global] Instance settable : Settable WebhookEndpoint := fun r =>
  mk r.(id) r.(ownerId) r.(url) r.(secret) r.(events) r.(isActive) r.(createdAt)
     r.(updatedAt).
End WebhookEndpoint.

#[global] Program Instance WebhookEndpoint_row : Row WebhookEndpoint.WebhookEndpoint := {|
  row_id := WebhookEndpoint.id;
  set_row_id i e := e <| WebhookEndpoint.id := i |>;
  created t e := e <| WebhookEndpoint.createdAt := t |> <| WebhookEndpoint.updatedAt := t |>;
  touched t e := e <| WebhookEndpoint.updatedAt := t |>;
  live e := true;
  clash a b := false
|}.

(** webhooks/webhook-delivery.entity.ts *)
Module WebhookDelivery.
Record WebhookDelivery : Type := mk {
  id : string;
  endpointId : string;
  eventName : string;
  requestBody : list (string * json);
  attemptCount : Z;
  responseCode : option Z;
  retryCount : Z;
  maxRetries : Z;
  errorMessage : option string;
  status : WebhookDeliveryStatus.WebhookDeliveryStatus;
  deliveredAt : option Z;
  lastAttemptAt : option Z;
  nextRetryAt : option Z;
  attempts : Z;
  createdAt : Z;
  updatedAt : Z
}.
#[global] Instance settable : Settable WebhookDelivery := fun r =>
  mk r.(id) r.(endpointId) r.(eventName) r.(requestBody) r.(attemptCount) r.(responseCode)
     r.(retryCount) r.(maxRetries) r.(errorMessage) r.(status) r.(deliveredAt)
     r.(lastAttemptAt) r.(nextRetryAt) r.(attempts) r.(createdAt) r.(updatedAt).
End WebhookDelivery.

#[global] Program Instance WebhookDelivery_row : Row WebhookDelivery.WebhookDelivery := {|
  row_id := WebhookDelivery.id;
  set_row_id i e := e <| WebhookDelivery.id := i |>;
  created t e := e <| WebhookDelivery.createdAt := t |> <| WebhookDelivery.updatedAt := t |>;
  touched t e := e <| WebhookDelivery.updatedAt := t |>;
  live e := true;
  clash a b := false
|}.

(** A queued job: its data, its enqueuing time, the attempts allowed and made. *)
Module Job.
Record Job : Type := mk {
  deliveryId : string;
  timestamp : Z;
  attempts : option Z;
  attemptsMade : Z
}.
End Job.

Module WebhookStore.
Record WebhookStore : Type := mk {
  env : Env;
  endpoints : list WebhookEndpoint.WebhookEndpoint;
  deliveries : list WebhookDelivery.WebhookDelivery;
  queue : list Job.Job
}.
#[global] Instance settable : Settable WebhookStore := fun r =>
  mk r.(env) r.(endpoints) r.(deliveries) r.(queue).
End WebhookStore.

#[global] Program Instance WebhookStore_env : HasEnv WebhookStore.WebhookStore := {|
  env_of := WebhookStore.env;
  set_env e w := w <| WebhookStore.env := e |>
|}.

#[global] Program Instance WebhookStore_endpoints : Table WebhookStore.WebhookStore WebhookEndpoint.WebhookEndpoint := {|
  rows := WebhookStore.endpoints;
  set_rows t w := w <| WebhookStore.endpoints := t |>
|}.

#[global] Program Instance WebhookStore_deliveries : Table WebhookStore.WebhookStore WebhookDelivery.WebhookDelivery := {|
  rows := WebhookStore.deliveries;
  set_rows t w := w <| WebhookStore.deliveries := t |>
|}.


(** ** What the service calls *)

(** [new URL(s).hostname] ([None]: not a URL), [net.isIPv6], the answer of
    [dns.resolve4] to the n-th request, and of the n-th POST: a failure with
    its response status and message, or the status. *)
Class Internet : Type := {
  url_hostname : string -> option string;
  net_isIPv6 : string -> bool;
  dns_resolve4 : nat -> string -> exn + list string;
  http_post : nat -> string -> string -> string -> (option Z * string) + Z
}.

(** The constants read from the process environment. *)
Class WebhookConstants : Type := {
  MAX_ENDPOINTS_PER_USER : Z;
  WEBHOOK_MAX_ATTEMPTS : Z;
  WEBHOOK_REPLAY_WINDOW_HOURS : Z
}.
Definition default_webhook_constants : WebhookConstants := {|
  MAX_ENDPOINTS_PER_USER := 10; WEBHOOK_MAX_ATTEMPTS := 5; WEBHOOK_REPLAY_WINDOW_HOURS := 24
|}.

Notation Store := WebhookStore.WebhookStore.

Record CreateWebhookEndpointDto : Type := mkEndpointDto {
  dto_ownerId : string;
  dto_url : string;
  dto_secret : string;
  dto_events : list string
}.

(** ** WebhooksService *)

Module WebhooksService.
Section Service.
Context `{Internet} `{WebhookConstants}.

Definition resolve4 (hostname : string) : M Store (list string) :=
  let* n := gets (fun s => calls (WebhookStore.env s)) in
  db_call ;;; lift (dns_resolve4 n hostname).

Definition resolveAndRejectPrivate (hostname : string) : M Store unit :=
  let* addresses := resolve4 hostname in
  for_each addresses (fun addr =>
    throw_if (WebhookAddress.isPrivateIp addr)
      (BadRequestException ("Webhook URL resolves to a private/internal IP address (" +:+ addr +:+
                            ") — SSRF not permitted"))).

Definition isIP (hostname : string) : bool := WebhookAddress.isIPv4 hostname || net_isIPv6 hostname.

Definition validateWebhookUrl (rawUrl : string) : M Store unit :=
  match url_hostname rawUrl with
  | None => throw (BadRequestException "Webhook URL is not a valid URL")
  | Some hostname =>
      throw_if (String.eqb hostname "localhost" || String.eqb hostname "0.0.0.0" || ends_with ".local" hostname)
        (BadRequestException "Webhook URL must not target localhost or link-local addresses") ;;;
      if isIP hostname
      then throw_if (WebhookAddress.isPrivateIp hostname)
             (BadRequestException "Webhook URL must not target private or internal IP ranges")
      else resolveAndRejectPrivate hostname
  end.

Definition active_of (ownerId : string) (e : WebhookEndpoint.WebhookEndpoint) : bool :=
  String.eqb e.(WebhookEndpoint.ownerId) ownerId && e.(WebhookEndpoint.isActive).
Definition owned_by (ownerId : string) (e : WebhookEndpoint.WebhookEndpoint) : bool :=
  String.eqb e.(WebhookEndpoint.ownerId) ownerId.

Definition createEndpoint (dto : CreateWebhookEndpointDto) : M Store WebhookEndpoint.WebhookEndpoint :=
  let* activeCount := count_rows (active_of (dto_ownerId dto)) in
  throw_if (MAX_ENDPOINTS_PER_USER <=? activeCount)
    (ConflictException ("Maximum of " +:+ string_of_Z MAX_ENDPOINTS_PER_USER +:+
                        " active webhook endpoints per user reached")) ;;;
  validateWebhookUrl (dto_url dto) ;;;
  save (WebhookEndpoint.mk "" (dto_ownerId dto) (dto_url dto) (dto_secret dto) (dto_events dto) true 0 0).

Definition listEndpoints (ownerId : string) : M Store (list WebhookEndpoint.WebhookEndpoint) :=
  find_desc (owned_by ownerId) WebhookEndpoint.createdAt.

Definition countActiveEndpoints (ownerId : string) : M Store Z := count_rows (active_of ownerId).

Definition listDeliveries (ownerId : string) (endpointId : option string) :
    M Store (list WebhookDelivery.WebhookDelivery) :=
  let* endpoints := find_all (owned_by ownerId) in
  let allowedIds := map WebhookEndpoint.id endpoints in
  let* deliveries := find_desc (fun _ => true) WebhookDelivery.createdAt in
  ret (List.filter (fun d : WebhookDelivery.WebhookDelivery =>
         existsb (String.eqb d.(WebhookDelivery.endpointId)) allowedIds &&
         match endpointId with
         | Some e => if str_truthy e then String.eqb d.(WebhookDelivery.endpointId) e else true
         | None => true
         end) deliveries).

(** [webhooksQueue.add('deliver', ...)]. *)
Definition queue_add (deliveryId : string) : M Store unit :=
  db_call ;;;
  let* now := date_now in
  modify (fun s => s <| WebhookStore.queue := s.(WebhookStore.queue) ++
                          [Job.mk deliveryId now (Some WEBHOOK_MAX_ATTEMPTS) 0] |>).

Definition new_delivery (id endpointId eventName : string) (payload : list (string * json)) :
    WebhookDelivery.WebhookDelivery :=
  WebhookDelivery.mk id endpointId eventName payload 0 None 0 3 None WebhookDeliveryStatus.PENDING
    None None None 0 0 0.

Definition subscribed (eventName : string) (e : WebhookEndpoint.WebhookEndpoint) : bool :=
  existsb (String.eqb eventName) e.(WebhookEndpoint.events).

Definition dispatchEvent (eventName : string) (payload : list (string * json)) : M Store unit :=
  let* endpoints := find_all WebhookEndpoint.isActive in
  for_each (List.filter (subscribed eventName) endpoints) (fun endpoint =>
    let* id := random_uuid in
    let* delivery := save (new_delivery id endpoint.(WebhookEndpoint.id) eventName payload) in
    queue_add delivery.(WebhookDelivery.id)).

Definition findEndpointForOwner (endpointId ownerId : string) : M Store WebhookEndpoint.WebhookEndpoint :=
  let* endpoint := findOne (fun e => String.eqb e.(WebhookEndpoint.id) endpointId && owned_by ownerId e) in
  match endpoint with
  | None => throw (NotFoundException ("Webhook endpoint " +:+ endpointId +:+ " not found"))
  | Some e => ret e
  end.

(** The inner join with the owner's endpoints, in one query. *)
Definition findDeliveryForOwner (deliveryId ownerId : string) : M Store WebhookDelivery.WebhookDelivery :=
  let* endpoints := gets (fun s => s.(WebhookStore.endpoints)) in
  let* delivery := findOne (fun d =>
    String.eqb d.(WebhookDelivery.id) deliveryId &&
    existsb (fun e => String.eqb e.(WebhookEndpoint.id) d.(WebhookDelivery.endpointId) && owned_by ownerId e) endpoints) in
  match delivery with
  | None => throw (NotFoundException ("Webhook delivery " +:+ deliveryId +:+ " not found"))
  | Some d => ret d
  end.
End Service.
End WebhooksService.

(** ** WebhooksListener *)

Module WebhooksListener.
(** The events that have a handler, and what each handler does. *)
Definition handled : list string :=
  ["transactions.completed"; "transactions.reversed"; "kyc.reviewed"; "aml.alert.created"].
Definition on `{Internet} `{WebhookConstants} (event : string) (payload : list (string * json)) : M Store unit :=
  if existsb (String.eqb event) handled then WebhooksService.dispatchEvent event payload else ret tt.
End WebhooksListener.

(** ** WebhooksProcessor *)

(** The signed POST: [attempt]ed, so that the catch clause sees the response's
    status. *)
Definition post_delivery `{Internet} `{Crypto} (endpoint : WebhookEndpoint.WebhookEndpoint)
    (delivery : WebhookDelivery.WebhookDelivery) : M Store ((option Z * string) + Z) :=
  let* now := date_now in
  let payload := stringify (JObj [("event", JStr delivery.(WebhookDelivery.eventName));
                                  ("deliveredAt", JStr (toISOString now));
                                  ("data", JObj delivery.(WebhookDelivery.requestBody))]) in
  let signature := hmac_sha256_hex endpoint.(WebhookEndpoint.secret) payload in
  let* n := gets (fun s => calls (WebhookStore.env s)) in
  let* reached := attempt db_call in
  ret match reached with
      | inl x => inl (None, message_of x)
      | inr _ => http_post n endpoint.(WebhookEndpoint.url) payload signature
      end.

Module WebhooksProcessor.
Section Processor.
Context `{Internet} `{WebhookConstants} `{Crypto}.

(** The catch clause: throw again while attempts remain. *)
Definition deliver_failed (job : Job.Job) (delivery : WebhookDelivery.WebhookDelivery)
    (responseCode : option Z) (error : exn) : M Store unit :=
  let attempts := default 5 job.(Job.attempts) in
  let currentAttempt := job.(Job.attemptsMade) + 1 in
  let delivery := delivery <| WebhookDelivery.responseCode := responseCode |>
                           <| WebhookDelivery.errorMessage := Some (message_of error) |> in
  if attempts <=? currentAttempt then
    save (delivery <| WebhookDelivery.status := WebhookDeliveryStatus.FAILED |>) ;;; ret tt
  else
    save delivery ;;; throw error.

Definition expired (job : Job.Job) (now : Z) : bool :=
  job.(Job.timestamp) + WEBHOOK_REPLAY_WINDOW_HOURS * 3600000 <? now.

Definition deliver (job : Job.Job) : M Store unit :=
  let* delivery := findOne (fun d => String.eqb d.(WebhookDelivery.id) job.(Job.deliveryId)) in
  match delivery with
  | None => ret tt
  | Some delivery =>
      let* endpoint := findOne (fun e => String.eqb e.(WebhookEndpoint.id) delivery.(WebhookDelivery.endpointId)) in
      match endpoint with
      | None =>
          save (delivery <| WebhookDelivery.status := WebhookDeliveryStatus.FAILED |>
                         <| WebhookDelivery.errorMessage := Some "Webhook endpoint not found" |>) ;;; ret tt
      | Some endpoint =>
          let* now := date_now in
          if expired job now then
            let* now := date_now in
            save (delivery <| WebhookDelivery.status := WebhookDeliveryStatus.EXPIRED |>
                           <| WebhookDelivery.errorMessage := Some "Delivery window expired" |>
                           <| WebhookDelivery.lastAttemptAt := Some now |>
                           <| WebhookDelivery.attemptCount := delivery.(WebhookDelivery.attemptCount) + 1 |>) ;;;
            ret tt
          else
            let* now := date_now in
            let* delivery := save (delivery
              <| WebhookDelivery.attemptCount := delivery.(WebhookDelivery.attemptCount) + 1 |>
              <| WebhookDelivery.lastAttemptAt := Some now |>) in
            let* response := post_delivery endpoint delivery in
            match response with
            | inl (status, message) => deliver_failed job delivery status (JsError "AxiosError" message)
            | inr status =>
                let* now := date_now in
                let done := delivery
                  <| WebhookDelivery.status := WebhookDeliveryStatus.DELIVERED |>
                  <| WebhookDelivery.responseCode := Some status |>
                  <| WebhookDelivery.deliveredAt := Some now |>
                  <| WebhookDelivery.errorMessage := None |> in
                let* saved := attempt (save done) in
                match saved with
                | inl x => deliver_failed job done None x
                | inr _ => ret tt
                end
            end
      end
  end.
End Processor.
End WebhooksProcessor.

(** ** WebhookRetryJob *)

Definition EXPONENTIAL_BACKOFF_MS : list Z := [60000; 300000; 1800000].

Module WebhookRetryJob.
Section Job.
Context `{Internet} `{Crypto}.

Definition due (now : Z) (d : WebhookDelivery.WebhookDelivery) : bool :=
  WebhookDeliveryStatus.eqb d.(WebhookDelivery.status) WebhookDeliveryStatus.FAILED &&
  match d.(WebhookDelivery.nextRetryAt) with Some t => t <=? now | None => false end.

Definition is_delivery (id : string) (d : WebhookDelivery.WebhookDelivery) : bool :=
  String.eqb d.(WebhookDelivery.id) id.

Definition backoffMs (retryCount : Z) : Z :=
  nth (Z.to_nat (Z.min retryCount (Z.of_nat (length EXPONENTIAL_BACKOFF_MS) - 1))) EXPONENTIAL_BACKOFF_MS 0.

(** [nextRetryAt: undefined] in an update: TypeORM leaves the column alone. *)
Definition retry_failed (delivery : WebhookDelivery.WebhookDelivery) (status : option Z) (message : string) :
    M Store unit :=
  let retryCount := delivery.(WebhookDelivery.retryCount) + 1 in
  let* nextRetryAt :=
    (if retryCount <? delivery.(WebhookDelivery.maxRetries)
     then let* now := date_now in ret (Some (now + backoffMs retryCount)) else ret None) in
  update_rows (is_delivery delivery.(WebhookDelivery.id)) (fun d =>
    d <| WebhookDelivery.status := WebhookDeliveryStatus.FAILED |>
      <| WebhookDelivery.attempts := delivery.(WebhookDelivery.attempts) + 1 |>
      <| WebhookDelivery.retryCount := retryCount |>
      <| WebhookDelivery.responseCode := status |>
      <| WebhookDelivery.errorMessage := Some message |>
      <| WebhookDelivery.nextRetryAt :=
           match nextRetryAt with Some t => Some t | None => d.(WebhookDelivery.nextRetryAt) end |>).

Definition retry_one (delivery : WebhookDelivery.WebhookDelivery) : M Store unit :=
  if delivery.(WebhookDelivery.maxRetries) <=? delivery.(WebhookDelivery.retryCount) then
    update_rows (is_delivery delivery.(WebhookDelivery.id))
      (fun d => d <| WebhookDelivery.status := WebhookDeliveryStatus.FAILED |>)
  else
    let* endpoint := findOne (fun e => String.eqb e.(WebhookEndpoint.id) delivery.(WebhookDelivery.endpointId)) in
    match endpoint with
    | None => ret tt
    | Some endpoint =>
        if negb endpoint.(WebhookEndpoint.isActive) then ret tt
        else
          let* response := post_delivery endpoint delivery in
          match response with
          | inl (status, message) => retry_failed delivery status message
          | inr status =>
              try_catch
                (let* now := date_now in
                 update_rows (is_delivery delivery.(WebhookDelivery.id)) (fun d =>
                   d <| WebhookDelivery.status := WebhookDeliveryStatus.DELIVERED |>
                     <| WebhookDelivery.attempts := delivery.(WebhookDelivery.attempts) + 1 |>
                     <| WebhookDelivery.retryCount := delivery.(WebhookDelivery.retryCount) + 1 |>
                     <| WebhookDelivery.responseCode := Some status |>
                     <| WebhookDelivery.deliveredAt := Some now |>))
                (fun x => retry_failed delivery None (message_of x))
          end
    end.

Definition retryFailedDeliveries : M Store unit :=
  let* now := date_now in
  let* found := find_asc (due now) WebhookDelivery.updatedAt in
  for_each (firstn 50 found) retry_one.

Definition manualRetry (deliveryId : string) : M Store (string * string) :=
  let* delivery := findOne (is_delivery deliveryId) in
  match delivery with
  | None => throw (PlainError ("Delivery " +:+ deliveryId +:+ " not found"))
  | Some delivery =>
      let* now := date_now in
      update_rows (is_delivery delivery.(WebhookDelivery.id)) (fun d =>
        if delivery.(WebhookDelivery.maxRetries) <=? delivery.(WebhookDelivery.retryCount)
        then d <| WebhookDelivery.retryCount := 0 |> <| WebhookDelivery.nextRetryAt := Some now |>
        else d <| WebhookDelivery.nextRetryAt := Some now |>) ;;;
      ret (deliveryId, "queued")
  end.
End Job.
End WebhookRetryJob.

(** ** Theorems *)

Section WebhookTheorems.
Context `{IN : Internet} `{WC : WebhookConstants} `{CR : Crypto}.

(** A host the validation let through. *)
Definition host_allowed (url host : string) : Prop :=
  url_hostname url = Some host /\ host <> "localhost" /\ host <> "0.0.0.0" /\ ends_with ".local" host = false /\
  if WebhooksService.isIP host then WebhookAddress.isPrivateIp host = false
  else exists n addresses, dns_resolve4 n host = inr addresses /\
       Forall (fun a => WebhookAddress.isPrivateIp a = false) addresses.

Lemma for_each_throw_if {A} (l : list A) (p : A -> bool) x (s : Store) :
  wp (for_each l (fun a => throw_if (p a) (x a))) (fun _ s' => s' = s /\ Forall (fun a => p a = false) l)
     (fun _ _ => True) s.
Proof.
  induction l as [|a l IH]; simpl; [split; [reflexivity | constructor]|].
  wp_step. wp_step; [exact I|]. eapply wp_mono; [exact IH | | auto].
  intros _ s' [-> Hl]. split; [reflexivity | constructor; assumption].
Qed.

Lemma validateWebhookUrl_spec url s :
  wp (WebhooksService.validateWebhookUrl url)
    (fun _ s' => (exists host, host_allowed url host) /\ s'.(WebhookStore.endpoints) = s.(WebhookStore.endpoints))
    (fun _ _ => True) s.
Proof.
  unfold WebhooksService.validateWebhookUrl, host_allowed.
  destruct (url_hostname url) as [host|]; [|exact I]. wp_step.
  apply wp_throw_if; [intros _; exact I | intros Hl].
  apply orb_false_iff in Hl as [Hl Hlocal]. apply orb_false_iff in Hl as [Hl Hz].
  apply String.eqb_neq in Hl, Hz.
  destruct (WebhooksService.isIP host) eqn:Hip.
  - wp_step; [exact I|]. split; [|reflexivity]. exists host. rewrite Hip. auto.
  - unfold WebhooksService.resolveAndRejectPrivate, WebhooksService.resolve4.
    wp_step. wp_step. wp_step. wp_step. wp_step; [exact I|]. apply wp_lift; [auto|]. intros addresses Hdns.
    eapply wp_mono; [apply for_each_throw_if | | auto]. intros _ s' [-> Hall].
    split; [|reflexivity]. exists host. rewrite Hip. eauto 10.
Qed.

(** An endpoint is created only below the owner's limit and for a host
    that is neither a local name, nor a private address, nor a name that
    resolved to one. *)
Theorem createEndpoint_safe dto s e s' :
  WebhooksService.createEndpoint dto s = (inr e, s') ->
  Z.of_nat (length (List.filter (WebhooksService.active_of (dto_ownerId dto)) s.(WebhookStore.endpoints)))
    < MAX_ENDPOINTS_PER_USER /\
  (exists host, host_allowed (dto_url dto) host) /\
  s'.(WebhookStore.endpoints) = upsert e s.(WebhookStore.endpoints) /\
  WebhooksService.active_of (dto_ownerId dto) e = true /\ e.(WebhookEndpoint.url) = dto_url dto.
Proof.
  revert e s'. enough (H : wp (WebhooksService.createEndpoint dto) (fun e s' =>
    Z.of_nat (length (List.filter (WebhooksService.active_of (dto_ownerId dto)) s.(WebhookStore.endpoints)))
      < MAX_ENDPOINTS_PER_USER /\
    (exists host, host_allowed (dto_url dto) host) /\
    s'.(WebhookStore.endpoints) = upsert e s.(WebhookStore.endpoints) /\
    WebhooksService.active_of (dto_ownerId dto) e = true /\ e.(WebhookEndpoint.url) = dto_url dto)
    (fun _ _ => True) s) by (intros e s'; exact (wp_run_ok _ _ _ _ _ _ H)).
  unfold WebhooksService.createEndpoint, count_rows. wp_step. wp_step. wp_step; [exact I|]. wp_step. wp_step.
  wp_step; [exact I|]. wp_step. eapply wp_mono; [apply validateWebhookUrl_spec | | auto].
  intros _ s1 [Hhost Hep]. wp_step; [exact I|]. simpl in *. rewrite Hep in *.
  match goal with Hs : saved_as _ ?r |- _ => rename r into row; rename Hs into Hsaved end.
  split; [|split; [exact Hhost | split; [reflexivity|]]].
  - apply Z.leb_gt. assumption.
  - unfold WebhooksService.active_of. destruct Hsaved; simpl; rewrite String.eqb_refl; auto.
Qed.

(** *** The queue's worker *)

Notation find_delivery id s := (List.find (fun d => live d && String.eqb d.(WebhookDelivery.id) id) s.(WebhookStore.deliveries)).
Notation find_endpoint id s := (List.find (fun e => live e && String.eqb e.(WebhookEndpoint.id) id) s.(WebhookStore.endpoints)).

(** What a job that ended left in its delivery's row. *)
Inductive concluded (job : Job.Job) (d : WebhookDelivery.WebhookDelivery) (s : Store) :
    WebhookDelivery.WebhookDelivery -> Prop :=
  | concluded_delivered d' endpoint n payload code :
      find_endpoint d.(WebhookDelivery.endpointId) s = Some endpoint ->
      http_post n endpoint.(WebhookEndpoint.url) payload (hmac_sha256_hex endpoint.(WebhookEndpoint.secret) payload) = inr code ->
      d'.(WebhookDelivery.status) = WebhookDeliveryStatus.DELIVERED ->
      d'.(WebhookDelivery.responseCode) = Some code ->
      d'.(WebhookDelivery.attemptCount) = d.(WebhookDelivery.attemptCount) + 1 -> concluded job d s d'
  | concluded_expired d' : d'.(WebhookDelivery.status) = WebhookDeliveryStatus.EXPIRED -> concluded job d s d'
  | concluded_orphan d' :
      find_endpoint d.(WebhookDelivery.endpointId) s = None ->
      d'.(WebhookDelivery.status) = WebhookDeliveryStatus.FAILED -> concluded job d s d'
  | concluded_failed d' :
      default 5 job.(Job.attempts) <= job.(Job.attemptsMade) + 1 ->
      d'.(WebhookDelivery.status) = WebhookDeliveryStatus.FAILED -> concluded job d s d'.

(** The worker throws, so that the queue tries again, when a call failed or
    attempts remain. *)
Definition retryable (job : Job.Job) (s : Store) (x : exn) : Prop :=
  env_fault (WebhookStore.env s) x \/ job.(Job.attemptsMade) + 1 < default 5 job.(Job.attempts).

Lemma deliver_failed_spec job s0 s d d0 code x :
  env_step (WebhookStore.env s0) (WebhookStore.env s) ->
  existsb (same_row d) s.(WebhookStore.deliveries) = true -> d.(WebhookDelivery.id) = d0.(WebhookDelivery.id) ->
  wp (WebhooksProcessor.deliver_failed job d code x)
    (fun _ s' => exists d', concluded job d0 s0 d' /\ d'.(WebhookDelivery.id) = d0.(WebhookDelivery.id) /\
                            In d' s'.(WebhookStore.deliveries))
    (fun y _ => retryable job s0 y) s.
Proof.
  intros He Hex Hid. unfold WebhooksProcessor.deliver_failed. cbv zeta.
  destruct (Z.leb_spec (default 5 (Job.attempts job)) (Job.attemptsMade job + 1)) as [Hle|Hlt].
  - wp_step. apply wp_save_existing; [exact Hex | reflexivity | |].
    + intros e x' _ Hf. left. eauto with env.
    + intros e t _. wp_step. eexists. split; [|split; [|apply in_upsert_self]]; [|exact Hid].
      apply concluded_failed; [exact Hle | reflexivity].
  - wp_step. apply wp_save_existing; [exact Hex | reflexivity | |].
    + intros e x' _ Hf. left. eauto with env.
    + intros e t _. wp_step. right. exact Hlt.
Qed.

(** The row of the job's delivery after a job that ended. *)
Definition worker_done (job : Job.Job) (s s' : Store) : Prop :=
  match find_delivery job.(Job.deliveryId) s with
  | None => s'.(WebhookStore.deliveries) = s.(WebhookStore.deliveries)
  | Some d => exists d', concluded job d s d' /\ d'.(WebhookDelivery.id) = d.(WebhookDelivery.id) /\
                         In d' s'.(WebhookStore.deliveries)
  end.

Lemma post_delivery_spec endpoint d Q X (s : Store) :
  (forall e r, env_step (WebhookStore.env s) e ->
     (forall code, r = inr code -> exists n payload,
        http_post n endpoint.(WebhookEndpoint.url) payload (hmac_sha256_hex endpoint.(WebhookEndpoint.secret) payload) = inr code) ->
     Q r (set_env e s)) ->
  wp (post_delivery endpoint d) Q X s.
Proof.
  intros HQ. unfold post_delivery. wp_step. wp_step. cbv zeta. wp_step. wp_step. wp_step. wp_step.
  wp_step; wp_step; env_norm; apply HQ; try (etransitivity; eassumption); intros code Hc;
    [discriminate | eauto].
Qed.

Lemma deliver_spec job s :
  wp (WebhooksProcessor.deliver job) (fun _ s' => worker_done job s s') (fun x _ => retryable job s x) s.
Proof.
  unfold WebhooksProcessor.deliver, worker_done. wp_step. wp_step; [left; assumption|]. simpl rows.
  destruct (find_delivery (Job.deliveryId job) s) as [d|] eqn:Hd; [|wp_step; reflexivity].
  pose proof (fun d' => found_row_exists _ _ d d' Hd) as Hex.
  wp_step. wp_step; [left; eauto with env|]. simpl rows.
  destruct (find_endpoint (WebhookDelivery.endpointId d) s) as [endpoint|] eqn:Hep.
  2: { wp_step. apply wp_save_existing; [apply Hex; reflexivity | reflexivity | |]; env_norm.
       - intros e x _ Hf. left. eauto with env.
       - intros e t _. wp_step. eexists. split; [|split; [|apply in_upsert_self]]; [|reflexivity].
         apply concluded_orphan; [exact Hep | reflexivity]. }
  wp_step. wp_step. destruct (WebhooksProcessor.expired _ _).
  { wp_step. wp_step. wp_step. apply wp_save_existing; [apply Hex; reflexivity | reflexivity | |]; env_norm.
    - intros e x _ Hf. left. eauto with env.
    - intros e t _. wp_step. eexists. split; [|split; [|apply in_upsert_self]]; [|reflexivity].
      apply concluded_expired. reflexivity. }
  wp_step. wp_step. wp_step. apply wp_save_existing; [apply Hex; reflexivity | reflexivity | |]; env_norm.
  { intros e x _ Hf. left. eauto with env. }
  intros e3 t He3. wp_step. apply post_delivery_spec. intros e4 r He4 Hpost.
  assert (He : env_step (WebhookStore.env s) e4) by (simpl in *; env_chain).
  destruct r as [[code message]|code].
  { apply (deliver_failed_spec job s); [exact He | apply upsert_row_exists; reflexivity | reflexivity]. }
  destruct (Hpost code eq_refl) as (n' & payload & Hok).
  wp_step. wp_step. wp_step. wp_step. apply wp_save_existing; [apply upsert_row_exists; reflexivity | reflexivity | |]; env_norm.
  - intros e5 x He5 Hf.
    apply (deliver_failed_spec job s); [simpl in *; env_chain | apply upsert_row_exists; reflexivity | reflexivity].
  - intros e5 t5 He5. wp_step. eexists. split; [|split; [|apply in_upsert_self]]; [|reflexivity].
    eapply concluded_delivered; [exact Hep | exact Hok | reflexivity ..].
Qed.

(** How the queue's worker treats a job: an unknown delivery is left
    alone; otherwise a job that ends leaves the delivery DELIVERED (only after
    a signed POST to its endpoint was answered), EXPIRED, or FAILED (only
    without an endpoint or on the last attempt); and it throws, for the queue
    to retry, only when a call failed or attempts remain. *)
Theorem deliver_outcomes job s :
  match WebhooksProcessor.deliver job s with
  | (inr _, s') =>
      match find_delivery job.(Job.deliveryId) s with
      | None => s'.(WebhookStore.deliveries) = s.(WebhookStore.deliveries)
      | Some d => exists d', concluded job d s d' /\ d'.(WebhookDelivery.id) = d.(WebhookDelivery.id) /\
                             In d' s'.(WebhookStore.deliveries)
      end
  | (inl x, _) => retryable job s x
  end.
Proof.
  pose proof (deliver_spec job s) as Hspec. unfold wp, worker_done in Hspec.
  destruct (WebhooksProcessor.deliver job s) as [[x|u] s']; exact Hspec.
Qed.

(** *** The retry job *)

(** A delivery that used up its retries and is due. *)
Definition exhausted (d : WebhookDelivery.WebhookDelivery) : Prop :=
  d.(WebhookDelivery.maxRetries) <= d.(WebhookDelivery.retryCount).
Definition stuck (id : string) (now : Z) (s : Store) : Prop :=
  exists d, In d s.(WebhookStore.deliveries) /\ d.(WebhookDelivery.id) = id /\
            exhausted d /\ WebhookRetryJob.due now d = true.

Lemma stuck_update id now id' f :
  (forall d, d.(WebhookDelivery.id) = id -> id' = id -> exhausted d -> WebhookRetryJob.due now d = true ->
     (f d).(WebhookDelivery.id) = id /\ exhausted (f d) /\ WebhookRetryJob.due now (f d) = true) ->
  keeps (invariant (stuck id now)) (update_rows (WebhookRetryJob.is_delivery id') f).
Proof.
  intros Hf. apply keeps_update_rel; [typeclasses eauto.. |]. intros s t (d & Hin & Hid & Hex & Hdue).
  destruct (WebhookRetryJob.is_delivery id' d) eqn:Hd.
  - pose proof Hd as Hd'. apply String.eqb_eq in Hd'. destruct (Hf d Hid) as (H1 & H2 & H3); [congruence | exact Hex | exact Hdue |].
    exists (touched t (f d)). split; [|auto]. apply in_map_iff. exists d. rewrite Hd. auto.
  - exists d. split; [|auto]. apply in_map_iff. exists d. rewrite Hd. auto.
Qed.

Lemma retry_failed_keeps_stuck id now d status message :
  d.(WebhookDelivery.id) <> id -> keeps (invariant (stuck id now)) (WebhookRetryJob.retry_failed d status message).
Proof.
  intros Hne. unfold WebhookRetryJob.retry_failed. keeps_auto; apply stuck_update; intros; contradiction.
Qed.

Lemma retry_one_keeps_stuck id now d :
  (d.(WebhookDelivery.id) = id -> exhausted d) ->
  keeps (invariant (stuck id now)) (WebhookRetryJob.retry_one d).
Proof.
  intros Hd. unfold WebhookRetryJob.retry_one.
  destruct (Z.leb_spec (WebhookDelivery.maxRetries d) (WebhookDelivery.retryCount d)).
  - apply stuck_update. intros d' Hid _ Hex Hdue. split; [exact Hid|]. split; [exact Hex|].
    unfold WebhookRetryJob.due in *. apply andb_prop in Hdue as [_ Hdue]. exact Hdue.
  - assert (Hne : d.(WebhookDelivery.id) <> id) by (intros He; specialize (Hd He); unfold exhausted in Hd; lia).
    unfold post_delivery. keeps_auto; try (apply retry_failed_keeps_stuck; exact Hne);
      apply stuck_update; intros; contradiction.
Qed.

(** A delivery that used up its retries is never done: the job means to
    clear its retry time but leaves the column alone, so it is due again at
    every run, for ever. *)
Theorem exhausted_delivery_stays_due id now s :
  NoDup (map row_id s.(WebhookStore.deliveries)) -> stuck id now s ->
  stuck id now (WebhookRetryJob.retryFailedDeliveries s).2.
Proof.
  intros Hnd Hstuck. apply (wp_elim _ (fun r => stuck id now r.2)).
  unfold WebhookRetryJob.retryFailedDeliveries. wp_step. wp_step. wp_step. unfold find_asc. wp_step.
  wp_step; [exact Hstuck|]. wp_step. simpl rows.
  eapply (wp_keeps (invariant (stuck id now))); [| intros ? ? H'; apply H'; exact Hstuck ..].
  apply keeps_for_each; [typeclasses eauto|]. intros d Hd. apply retry_one_keeps_stuck. intros Hid.
  assert (Hin : In d s.(WebhookStore.deliveries)).
  { apply in_firstn, in_order_asc, filter_In in Hd. apply Hd. }
  destruct Hstuck as (d0 & Hin0 & Hid0 & Hex & _).
  rewrite (NoDup_row_id_inj _ d d0 Hnd Hin Hin0) by (simpl; congruence). exact Hex.
Qed.
End WebhookTheorems.

(** ** Worked examples *)

(** hooks.example resolves to a public address, zero.example to 0.0.0.0; every
    POST is answered 500. *)
Definition demo_internet : Internet := {|
  url_hostname u := if starts_with "https://" u then Some (slice 8 (String.length u) u) else None;
  net_isIPv6 _ := false;
  dns_resolve4 _ h := if String.eqb h "zero.example" then inr ["0.0.0.0"] else inr ["93.184.216.34"];
  http_post _ _ _ _ := inl (Some 500, "Request failed with status code 500")
|}.
Definition toy_crypto : Crypto := {|
  sha256_hex p := p; hmac_sha256_hex key s := key +:+ s; random_hex n s := s
|}.
#[local] Existing Instances demo_internet default_webhook_constants toy_crypto.

Definition demo_env0 : Env :=
  mkEnv (fun n => 1700000000000 + Z.of_nat n) 0 (fun _ => None) 0
        (fun n => ("u"%char, string_of_N (N.of_nat n))) 0 (fun _ => num_of_Z 0) 0 [].
Definition hook (url : string) : CreateWebhookEndpointDto := mkEndpointDto "alice" url "secret" ["kyc.reviewed"].
Definition empty_store : Store := WebhookStore.mk demo_env0 [] [] [].

Lemma createEndpoint_safe_witness :
  exists e s', WebhooksService.createEndpoint (hook "https://hooks.example") empty_store = (inr e, s') /\
    exists host, host_allowed "https://hooks.example" host.
Proof.
  destruct (WebhooksService.createEndpoint (hook "https://hooks.example") empty_store) as [[x|e] s'] eqn:E;
    [eval_result E|].
  destruct (createEndpoint_safe (hook "https://hooks.example") empty_store e s' E) as (_ & Hhost & _).
  exists e, s'. split; [reflexivity | exact Hhost].
Defined.

(** A name that resolves to 0.0.0.0 (the machine itself) is accepted: only the
    literal host is refused, and 0.0.0.0/8 is not among the ranges. *)
Lemma name_of_zero_is_accepted :
  (WebhooksService.createEndpoint (hook "https://0.0.0.0") empty_store).1 =
    inl (BadRequestException "Webhook URL must not target localhost or link-local addresses") /\
  (match (WebhooksService.createEndpoint (hook "https://zero.example") empty_store).1 with
   | inr e => e.(WebhookEndpoint.isActive) | inl _ => false end) = true.
Proof. vm_compute. split; reflexivity. Qed.

(** A delivery out of retries, due since yesterday. *)
Definition spent : WebhookDelivery.WebhookDelivery :=
  WebhookDelivery.mk "d1" "e1" "kyc.reviewed" [] 5 (Some 500) 3 3 None WebhookDeliveryStatus.FAILED
    None None (Some 1699900000000) 3 0 0.
Definition spent_store : Store := WebhookStore.mk demo_env0 [] [spent] [].

Lemma exhausted_delivery_stays_due_witness :
  stuck "d1" 1700000000000
    (WebhookRetryJob.retryFailedDeliveries (WebhookRetryJob.retryFailedDeliveries spent_store).2).2.
Proof.
  assert (Hnd : NoDup (map row_id spent_store.(WebhookStore.deliveries)))
    by (apply (bool_decide_unpack _); reflexivity).
  assert (Hstuck : stuck "d1" 1700000000000 spent_store).
  { exists spent. split; [left; reflexivity|]. split; [reflexivity|]. split; [unfold exhausted; simpl; lia | reflexivity]. }
  pose proof (exhausted_delivery_stays_due "d1" 1700000000000 spent_store Hnd Hstuck) as H1.
  apply exhausted_delivery_stays_due; [|exact H1].
  apply (bool_decide_unpack _). reflexivity.
Defined.

(** The first retry waits five minutes: the schedule's one-minute entry is
    never used. *)
Lemma first_backoff : map WebhookRetryJob.backoffMs [1; 2; 3; 4] = [300000; 1800000; 1800000; 1800000].
Proof. reflexivity. Qed.
