(* ===== verification/Otp.v ===== *)
(** otp/: one-time codes (otp.service.ts) and the throttle in front of them
    (otp-throttle.guard.ts). *)
From S2P Require Import Prelude JsNumber Effects RepositoryLaws JsData ThirdParty.
Local Open Scope Z_scope.

Module OtpPurpose.
Inductive OtpPurpose : Type := EMAIL_VERIFY | TWO_FA | PASSWORD_RESET.
Definition eqb (a b : OtpPurpose) : bool :=
  match a, b with
  | EMAIL_VERIFY, EMAIL_VERIFY | TWO_FA, TWO_FA | PASSWORD_RESET, PASSWORD_RESET => true
  | _, _ => false
  end.
Definition show (a : OtpPurpose) : string :=
  match a with
  | EMAIL_VERIFY => "email-verify"
  | TWO_FA => "2fa"
  | PASSWORD_RESET => "password-reset"
  end.
Lemma OtpPurpose_eqb_eq a b : eqb a b = true <-> a = b.
Proof. destruct a, b; simpl; split; congruence. Qed.
End OtpPurpose.

(** otp/otp.entity.ts *)
Module Otp.
Record Otp : Type := mk {
  id : string;
  userId : string;
  codeHash : string;
  purpose : OtpPurpose.OtpPurpose;
  attempts : Z;
  expiresAt : Z;
  usedAt : option Z;
  createdAt : Z
}.
#[global] Instance settable : Settable Otp := fun r =>
  mk r.(id) r.(userId) r.(codeHash) r.(purpose) r.(attempts) r.(expiresAt) r.(usedAt)
     r.(createdAt).
End Otp.

#[global] Program Instance Otp_row : Row Otp.Otp := {|
  row_id := Otp.id;
  set_row_id i e := e <| Otp.id := i |>;
  created t e := e <| Otp.createdAt := t |>;
  touched t e := e;
  live e := true;
  clash a b := false
|}.

Module OtpStore.
Record OtpStore : Type := mk {
  env : Env;
  otps : list Otp.Otp
}.
#[global] Instance settable : Settable OtpStore := fun r =>
  mk r.(env) r.(otps).
End OtpStore.

#[global] Program Instance OtpStore_env : HasEnv OtpStore.OtpStore := {|
  env_of := OtpStore.env;
  set_env e w := w <| OtpStore.env := e |>
|}.

#[global] Program Instance OtpStore_otps : Table OtpStore.OtpStore Otp.Otp := {|
  rows := OtpStore.otps;
  set_rows t w := w <| OtpStore.otps := t |>
|}.


Notation Store := OtpStore.OtpStore.

(** [crypto.randomInt(lo, hi)], from a random draw; what TypeORM makes of an
    [undefined] in the conditions of a delete: the condition is dropped, or it
    compares with NULL and nothing matches. *)
Class OtpPlatform : Type := {
  random_int : Z -> Z -> string -> Z;
  drops_undefined : bool
}.

Definition MAX_ATTEMPTS : Z := 5.

Definition OTP_SUBJECTS (language : string) : option string :=
  if String.eqb language "en" then Some "Your NexaFx verification code"
  else if String.eqb language "fr" then Some "Votre code de vérification NexaFx"
  else None.

(** ** OtpService *)

Module OtpService.
Section Service.
Context `{ConfigService} `{Crypto} `{OtpPlatform}.

Definition secret : string := default "" (config_string "otp.secret").
Definition hmac (value secret : string) : string := hmac_sha256_hex secret value.

Definition randomSixDigit : M Store string :=
  let* draw := random_uuid in ret (string_of_Z (random_int 100000 999999 draw)).

Definition of_user (userId : string) (purpose : OtpPurpose.OtpPurpose) (o : Otp.Otp) : bool :=
  String.eqb o.(Otp.userId) userId && OtpPurpose.eqb o.(Otp.purpose) purpose.

(** [Math.round(expiry / 60)]. *)
Definition expiresMinutes (expiry : num) : num := math_round (expiry / num_of_Z 60)%num.

(** A date from a number of milliseconds: the fraction is dropped. *)
Definition time_clip (x : num) : Z :=
  match num_fraction x with Some (n, d) => Z.quot n (Zpos d) | None => 0 end.

Definition generate (userId : string) (purpose : OtpPurpose.OtpPurpose) (email fullName preferredLanguage : string) :
    M Store unit :=
  let* code := randomSixDigit in
  let codeHash := hmac code secret in
  let expiry := default (num_of_Z 300) (config_number "otp.expiry") in
  let* now := date_now in
  let expiresAt := time_clip (num_of_Z now + expiry * num_of_Z 1000)%num in
  delete_rows (fun o => of_user userId purpose o && drops_undefined) ;;;
  save (Otp.mk "" userId codeHash purpose 0 expiresAt None 0) ;;;
  db_call ;;;
  emit "mail.sendMail"
    (JObj [("from", jopt (config_string "mail.from")); ("to", JStr email);
           ("subject", jopt (match OTP_SUBJECTS preferredLanguage with
                             | Some s => Some s | None => OTP_SUBJECTS "en" end));
           ("fullName", JStr fullName); ("verificationCode", JStr code);
           ("expiresMinutes", JNum (expiresMinutes expiry)); ("language", JStr preferredLanguage)]).

Definition verify (userId code : string) (purpose : OtpPurpose.OtpPurpose) : M Store bool :=
  let* found := findOne_desc (of_user userId purpose) Otp.createdAt in
  match found with
  | None => throw (UnauthorizedException "No OTP found")
  | Some otp =>
      throw_if (match otp.(Otp.usedAt) with Some _ => true | None => false end)
        (UnauthorizedException "OTP already used") ;;;
      let* now := date_now in
      throw_if (otp.(Otp.expiresAt) <? now) (UnauthorizedException "OTP expired") ;;;
      throw_if (MAX_ATTEMPTS <=? otp.(Otp.attempts)) (UnauthorizedException "Max OTP attempts exceeded") ;;;
      let isValid := String.eqb (hmac code secret) otp.(Otp.codeHash) in
      if negb isValid then
        save (otp <| Otp.attempts := otp.(Otp.attempts) + 1 |>) ;;;
        ret false
      else
        let* now := date_now in
        save (otp <| Otp.usedAt := Some now |>) ;;;
        ret true
  end.

Definition invalidate (id : string) : M Store unit :=
  let* now := date_now in
  update_rows (fun o => String.eqb o.(Otp.id) id) (fun o => o <| Otp.usedAt := Some now |>).
End Service.
End OtpService.

(** ** OtpThrottleGuard *)

Record ThrottleEntry : Type := mkThrottle { count : Z; resetAt : Z }.

Module OtpThrottleGuard.
Definition limit_of (key : string) : Z := if starts_with "ip:" key then 5 else 3.
Definition window_of (key : string) : Z := if starts_with "ip:" key then 900000 else 3600000.

(** One key at one time: the entry to store, or none when it is refused. *)
Definition hit (key : string) (now : Z) (entry : option ThrottleEntry) : option ThrottleEntry :=
  match entry with
  | Some e =>
      if now <? resetAt e then
        if limit_of key <=? count e then None else Some (mkThrottle (count e + 1) (resetAt e))
      else Some (mkThrottle 1 (now + window_of key))
  | None => Some (mkThrottle 1 (now + window_of key))
  end.

Fixpoint check_keys (keys : list string) (now : Z) (store : gmap string ThrottleEntry) :
    (exn + bool) * gmap string ThrottleEntry :=
  match keys with
  | [] => (inr true, store)
  | key :: keys' =>
      match hit key now (store !! key) with
      | None => (inl (TooManyRequests "Too many requests"), store)
      | Some e => check_keys keys' now (<[key := e]> store)
      end
  end.

(** [email || 'unknown'] of the body. *)
Definition canActivate (ip email : option string) (now : Z) (store : gmap string ThrottleEntry) :
    (exn + bool) * gmap string ThrottleEntry :=
  let email := match email with Some e => if str_truthy e then e else "unknown" | None => "unknown" end in
  check_keys ["ip:" +:+ default "undefined" ip; "email:" +:+ email] now store.
End OtpThrottleGuard.

(** ** What a verification did *)

Section OtpLaws.
Context `{CS : ConfigService} `{CR : Crypto} `{OP : OtpPlatform}.

(** The code a verification looks at. *)
Definition latest (userId : string) (purpose : OtpPurpose.OtpPurpose) (s : Store) : option Otp.Otp :=
  hd_error (order_desc Otp.createdAt
    (List.filter (fun o => live o && OtpService.of_user userId purpose o) s.(OtpStore.otps))).

Lemma latest_in userId purpose s o : latest userId purpose s = Some o ->
  In o s.(OtpStore.otps) /\ OtpService.of_user userId purpose o = true.
Proof.
  unfold latest. intros Hl.
  assert (Hin : In o (order_desc Otp.createdAt
    (List.filter (fun o => live o && OtpService.of_user userId purpose o) s.(OtpStore.otps)))).
  { destruct (order_desc _ _); [discriminate|]. injection Hl as ->. left. reflexivity. }
  apply in_order_desc, filter_In in Hin as [Hin Hp]. auto.
Qed.

(** The conditions a code was checked under. *)
Record checked (userId code : string) (purpose : OtpPurpose.OtpPurpose) (s : Store) (o : Otp.Otp) (valid : bool) : Prop := {
  ck_latest : latest userId purpose s = Some o;
  ck_unused : o.(Otp.usedAt) = None;
  ck_unexpired : exists n, clock (OtpStore.env s) n <= o.(Otp.expiresAt);
  ck_attempts : o.(Otp.attempts) < MAX_ATTEMPTS;
  ck_valid : valid = String.eqb (hmac_sha256_hex OtpService.secret code) o.(Otp.codeHash)
}.

(** The code as it is left: used, or with one more attempt. *)
Definition checked_row (o : Otp.Otp) (valid : bool) (t : Z) : Otp.Otp :=
  if valid then o <| Otp.usedAt := Some t |> else o <| Otp.attempts := o.(Otp.attempts) + 1 |>.

Lemma verify_spec userId code purpose s :
  wp (OtpService.verify userId code purpose)
    (fun valid s' => exists o t, checked userId code purpose s o valid /\
       s'.(OtpStore.otps) = upsert (checked_row o valid t) s.(OtpStore.otps))
    (fun _ s' => s'.(OtpStore.otps) = s.(OtpStore.otps)) s.
Proof.
  unfold OtpService.verify. wp_step. wp_step; [reflexivity|]. simpl rows.
  fold (latest userId purpose s). destruct (latest userId purpose s) as [o|] eqn:Hl; [|wp_step; reflexivity].
  destruct (latest_in _ _ _ _ Hl) as [Hin _].
  assert (Hex : forall o' : Otp.Otp, row_id o' = row_id o -> existsb (same_row o') s.(OtpStore.otps) = true).
  { intros o' Hid. apply existsb_exists. exists o. split; [exact Hin | apply same_row_true, Hid]. }
  wp_step. wp_step; [reflexivity|]. wp_step. wp_step. wp_step. wp_step; [reflexivity|].
  wp_step. wp_step; [reflexivity|]. cbv zeta.
  assert (Hck : forall valid, valid = String.eqb (OtpService.hmac code OtpService.secret) o.(Otp.codeHash) ->
            checked userId code purpose s o valid).
  { intros valid Hv. split; [exact Hl | destruct (Otp.usedAt o); [discriminate | reflexivity] | | | exact Hv].
    - exists n. apply Z.ltb_ge. change (OtpStore.env s) with (env_of s). rewrite <- (es_clock _ _ H). assumption.
    - apply Z.leb_gt. assumption. }
  destruct (String.eqb _ _) eqn:Hv; cbn [negb].
  - wp_step. wp_step. wp_step. apply wp_save_existing; [apply Hex; reflexivity | reflexivity | |]; env_norm.
    + intros. reflexivity.
    + intros e t _. wp_step. exists o. eexists. split; [apply Hck; reflexivity | reflexivity].
  - wp_step. apply wp_save_existing; [apply Hex; reflexivity | reflexivity | |]; env_norm.
    + intros. reflexivity.
    + intros e t _. wp_step. exists o, 0. split; [apply Hck; reflexivity | reflexivity].
Qed.

Lemma latest_after userId purpose s s' o valid t :
  NoDup (map row_id s.(OtpStore.otps)) -> latest userId purpose s = Some o ->
  s'.(OtpStore.otps) = upsert (checked_row o valid t) s.(OtpStore.otps) ->
  latest userId purpose s' = Some (checked_row o valid t).
Proof.
  intros Hnd Hl Hs'. unfold latest. rewrite Hs'. destruct (latest_in _ _ _ _ Hl) as [_ Ho].
  apply (hd_order_desc_upsert _ _ _ o); [exact Hnd | exact Hl | destruct valid; reflexivity.. |].
  simpl. unfold OtpService.of_user in *. destruct valid; exact Ho.
Qed.

(** The answers to a list of guesses. *)
Fixpoint guesses (userId : string) (purpose : OtpPurpose.OtpPurpose) (codes : list string) (s : Store) :
    list (exn + bool) :=
  match codes with
  | [] => []
  | c :: l => match OtpService.verify userId c purpose s with (r, s') => r :: guesses userId purpose l s' end
  end.
Definition wrong (r : exn + bool) : bool := match r with inr false => true | _ => false end.

(** The guesses left. *)
Definition left_ (userId : string) (purpose : OtpPurpose.OtpPurpose) (s : Store) : Z :=
  match latest userId purpose s with Some o => Z.max 0 (MAX_ATTEMPTS - o.(Otp.attempts)) | None => 0 end.

(** C22 A code can be guessed at few times: however many verifications are
    tried, at most as many are told "wrong" as attempts were left, five for a
    fresh code. *)
Theorem otp_guesses_bounded userId purpose codes s :
  NoDup (map row_id s.(OtpStore.otps)) ->
  Z.of_nat (length (List.filter wrong (guesses userId purpose codes s))) <= left_ userId purpose s.
Proof.
  assert (Hleft : forall s, 0 <= left_ userId purpose s) by (intros s0; unfold left_; destruct (latest _ _ _); lia).
  revert s. induction codes as [|c codes IH]; intros s Hnd; simpl; [apply Hleft|].
  pose proof (verify_spec userId c purpose s) as Hspec. unfold wp in Hspec.
  destruct (OtpService.verify userId c purpose s) as [[x|valid] s'].
  - simpl. specialize (IH s'). unfold left_, latest in *. rewrite Hspec in IH. auto.
  - destruct Hspec as (o & t & Hck & Hs').
    assert (Hnd' : NoDup (map row_id s'.(OtpStore.otps))) by (rewrite Hs'; apply NoDup_upsert, Hnd).
    specialize (IH s' Hnd'). pose proof (latest_after _ _ _ _ _ _ _ Hnd (ck_latest _ _ _ _ _ _ Hck) Hs') as Hl'.
    pose proof (ck_attempts _ _ _ _ _ _ Hck) as Ha.
    unfold left_ in *. rewrite (ck_latest _ _ _ _ _ _ Hck). rewrite Hl' in IH. destruct valid; simpl in *; lia.
Qed.

(** C20 A code verifies once: a verification that answers yes compared the
    keyed hash with the latest code of that user and purpose, unused, not
    expired and with attempts left; after it, every verification for the same
    user and purpose is refused. *)
Theorem otp_verifies_once userId code code' purpose s s1 :
  NoDup (map row_id s.(OtpStore.otps)) ->
  OtpService.verify userId code purpose s = (inr true, s1) ->
  (exists o, checked userId code purpose s o true) /\
  exists x s2, OtpService.verify userId code' purpose s1 = (inl x, s2) /\ s2.(OtpStore.otps) = s1.(OtpStore.otps).
Proof.
  intros Hnd Hrun.
  destruct (wp_run_ok _ _ _ _ _ _ (verify_spec userId code purpose s) Hrun) as (o & t & Hck & Hs1).
  split; [eauto|].
  pose proof (latest_after _ _ _ _ _ _ _ Hnd (ck_latest _ _ _ _ _ _ Hck) Hs1) as Hl1.
  pose proof (verify_spec userId code' purpose s1) as Hspec. unfold wp in Hspec.
  destruct (OtpService.verify userId code' purpose s1) as [[x|valid] s2].
  - exists x, s2. auto.
  - destruct Hspec as (o' & t' & [Hl Hu _ _ _] & _). rewrite Hl1 in Hl. injection Hl as <-. discriminate Hu.
Qed.
End OtpLaws.

(** ** Worked examples *)

Definition otp_platform : OtpPlatform := {| random_int lo hi draw := lo + 23456; drops_undefined := true |}.
Definition otp_crypto : Crypto := {|
  sha256_hex p := p; hmac_sha256_hex key s := key +:+ "|" +:+ s; random_hex n s := s
|}.
Definition otp_config : ConfigService := {|
  config_number _ := None; config_string k := if String.eqb k "otp.secret" then Some "k" else None;
  config_bool _ := None; config_list _ := None
|}.
#[local] Existing Instances otp_platform otp_crypto otp_config.

Definition otp_env : Env :=
  mkEnv (fun n => 1700000000000 + Z.of_nat n) 0 (fun _ => None) 0
        (fun n => ("u"%char, string_of_N (N.of_nat n))) 0 (fun _ => num_of_Z 0) 0 [].
Definition otp_sent : Store :=
  (OtpService.generate "ada" OtpPurpose.TWO_FA "ada@nexafx.example" "Ada" "en" (OtpStore.mk otp_env [])).2.

Lemma otp_sent_unique : NoDup (map row_id otp_sent.(OtpStore.otps)).
Proof. apply (bool_decide_unpack _). vm_compute. reflexivity. Defined.

Lemma otp_guesses_bounded_witness :
  guesses "ada" OtpPurpose.TWO_FA ["1"; "2"; "3"; "4"; "5"; "6"; "123456"] otp_sent =
    [inr false; inr false; inr false; inr false; inr false;
     inl (UnauthorizedException "Max OTP attempts exceeded"); inl (UnauthorizedException "Max OTP attempts exceeded")] /\
  Z.of_nat (length (List.filter wrong (guesses "ada" OtpPurpose.TWO_FA ["1"; "2"] otp_sent))) <=
    left_ "ada" OtpPurpose.TWO_FA otp_sent.
Proof.
  split; [vm_compute; reflexivity|].
  exact (otp_guesses_bounded "ada" OtpPurpose.TWO_FA ["1"; "2"] otp_sent otp_sent_unique).
Defined.

Lemma otp_verifies_once_witness :
  exists x s2, OtpService.verify "ada" "123456" OtpPurpose.TWO_FA
    (OtpService.verify "ada" "123456" OtpPurpose.TWO_FA otp_sent).2 = (inl x, s2).
Proof.
  destruct (OtpService.verify "ada" "123456" OtpPurpose.TWO_FA otp_sent) as [[x|[]] s1] eqn:E; [eval_result E | | eval_result E].
  destruct (otp_verifies_once "ada" "123456" "123456" OtpPurpose.TWO_FA otp_sent s1 otp_sent_unique E)
    as (_ & x & s2 & H & _).
  exists x, s2. exact H.
Defined.
