(* ===== verification/PasswordReset.v ===== *)
(** auth/password-reset.service.ts: reset tokens, kept by their SHA-256. *)
From S2P Require Import Prelude JsNumber Effects RepositoryLaws JsData ThirdParty.
Local Open Scope Z_scope.

(** auth/password-reset.entity.ts *)
Module PasswordResetToken.
Record PasswordResetToken : Type := mk {
  id : string;
  userId : string;
  tokenHash : string;
  attempts : Z;
  expiresAt : Z;
  used : bool;
  createdAt : Z
}.
#[global] Instance settable : Settable PasswordResetToken := fun r =>
  mk r.(id) r.(userId) r.(tokenHash) r.(attempts) r.(expiresAt) r.(used) r.(createdAt).
End PasswordResetToken.

#[global] Program Instance PasswordResetToken_row : Row PasswordResetToken.PasswordResetToken := {|
  row_id := PasswordResetToken.id;
  set_row_id i e := e <| PasswordResetToken.id := i |>;
  created t e := e <| PasswordResetToken.createdAt := t |>;
  touched t e := e;
  live e := true;
  clash a b := false
|}.

Module ResetStore.
Record ResetStore : Type := mk {
  env : Env;
  tokens : list PasswordResetToken.PasswordResetToken
}.
#[global] Instance settable : Settable ResetStore := fun r =>
  mk r.(env) r.(tokens).
End ResetStore.

#[global] Program Instance ResetStore_env : HasEnv ResetStore.ResetStore := {|
  env_of := ResetStore.env;
  set_env e w := w <| ResetStore.env := e |>
|}.

#[global] Program Instance ResetStore_tokens : Table ResetStore.ResetStore PasswordResetToken.PasswordResetToken := {|
  rows := ResetStore.tokens;
  set_rows t w := w <| ResetStore.tokens := t |>
|}.


Notation Store := ResetStore.ResetStore.
Notation Token := PasswordResetToken.PasswordResetToken.

Definition MAX_ATTEMPTS : Z := 3.
Definition TOKEN_TTL_MS : Z := 15 * 60 * 1000.

Module PasswordResetService.
Section Service.
Context `{Crypto}.

Definition with_hash (tokenHash : string) (t : Token) : bool := String.eqb t.(PasswordResetToken.tokenHash) tokenHash.
Definition with_id (id : string) (t : Token) : bool := String.eqb t.(PasswordResetToken.id) id.

Definition createResetToken (userId : string) : M Store string :=
  delete_rows (fun t : Token => String.eqb t.(PasswordResetToken.userId) userId &&
                                negb t.(PasswordResetToken.used)) ;;;
  let* draw := random_uuid in
  let rawToken := random_hex 32 draw in
  let tokenHash := sha256_hex rawToken in
  let* now := date_now in
  save (PasswordResetToken.mk "" userId tokenHash 0 (now + TOKEN_TTL_MS) false 0) ;;;
  ret rawToken.

Definition validateToken (rawToken : string) : M Store string :=
  let* found := findOne (with_hash (sha256_hex rawToken)) in
  match found with
  | None => throw (NotFoundException "Invalid or expired reset token")
  | Some record =>
      throw_if record.(PasswordResetToken.used) (BadRequestException "Token has already been used") ;;;
      let* now := date_now in
      if record.(PasswordResetToken.expiresAt) <? now then
        delete_rows (with_id record.(PasswordResetToken.id)) ;;;
        throw (BadRequestException "Reset token has expired")
      else if MAX_ATTEMPTS <=? record.(PasswordResetToken.attempts) then
        delete_rows (with_id record.(PasswordResetToken.id)) ;;;
        throw (BadRequestException "Too many attempts. Please request a new reset link.")
      else
        update_rows (with_id record.(PasswordResetToken.id)) (fun t =>
          t <| PasswordResetToken.attempts := record.(PasswordResetToken.attempts) + 1 |>) ;;;
        ret record.(PasswordResetToken.userId)
  end.

Definition consumeToken (rawToken : string) : M Store unit :=
  update_rows (with_hash (sha256_hex rawToken)) (fun t => t <| PasswordResetToken.used := true |>).

Definition purgeExpiredTokens : M Store unit :=
  let* now := date_now in
  delete_rows (fun t : Token => t.(PasswordResetToken.expiresAt) <? now) ;;; ret tt.
End Service.
End PasswordResetService.

(** ** What the operations did *)

Section ResetLaws.
Context `{CR : Crypto}.

(** Only one token of a user is outstanding: what a request leaves. *)
Lemma createResetToken_spec userId s :
  wp (PasswordResetService.createResetToken userId)
    (fun raw s' => exists t, In t s'.(ResetStore.tokens) /\
       t.(PasswordResetToken.userId) = userId /\ t.(PasswordResetToken.tokenHash) = sha256_hex raw /\
       t.(PasswordResetToken.attempts) = 0 /\ t.(PasswordResetToken.used) = false /\
       (exists n, t.(PasswordResetToken.expiresAt) = clock (ResetStore.env s) n + TOKEN_TTL_MS) /\
       (forall t', In t' s'.(ResetStore.tokens) -> t'.(PasswordResetToken.userId) = userId ->
          t'.(PasswordResetToken.used) = false -> t' = t))
    (fun _ _ => True) s.
Proof.
  unfold PasswordResetService.createResetToken. wp_step. wp_step; [exact I|]. wp_step. wp_step. cbv zeta.
  wp_step. wp_step. wp_step. wp_step; [exact I|]. wp_step. simpl rows in *.
  match goal with Hs : saved_as _ ?r |- _ => rename r into t; rename Hs into Hsaved end.
  exists t. split; [apply in_upsert_self|].
  split; [destruct Hsaved; reflexivity|]. split; [destruct Hsaved; reflexivity|].
  split; [destruct Hsaved; reflexivity|]. split; [destruct Hsaved; reflexivity|]. split.
  - exists n0. destruct Hsaved; simpl in *; f_equal; match goal with |- clock ?e _ = _ =>
      replace (clock e) with (clock (ResetStore.env s)); [reflexivity | symmetry; apply es_clock; env_chain] end.
  - intros t' Hin Hu Hused. apply in_upsert in Hin as [->|[Hin _]]; [reflexivity|].
    apply filter_In in Hin as [_ Hp]. rewrite Hu, String.eqb_refl, Hused in Hp. discriminate.
Qed.

(** The row a raw token stands for. *)
Definition record_of (rawToken : string) (s : Store) : option Token :=
  List.find (fun t => live t && PasswordResetService.with_hash (sha256_hex rawToken) t) s.(ResetStore.tokens).

(** A row that was validated, and what it becomes. *)
Record valid_token (rawToken : string) (s : Store) (t : Token) : Prop := {
  vt_found : record_of rawToken s = Some t;
  vt_unused : t.(PasswordResetToken.used) = false;
  vt_unexpired : exists n, clock (ResetStore.env s) n <= t.(PasswordResetToken.expiresAt);
  vt_attempts : t.(PasswordResetToken.attempts) < MAX_ATTEMPTS
}.
Definition counted (t : Token) : Token := t <| PasswordResetToken.attempts := t.(PasswordResetToken.attempts) + 1 |>.

Lemma validateToken_spec rawToken s :
  wp (PasswordResetService.validateToken rawToken)
    (fun userId s' => exists t, valid_token rawToken s t /\ userId = t.(PasswordResetToken.userId) /\
       s'.(ResetStore.tokens) = map (fun r => if PasswordResetService.with_id t.(PasswordResetToken.id) r
         then r <| PasswordResetToken.attempts := t.(PasswordResetToken.attempts) + 1 |> else r) s.(ResetStore.tokens))
    (fun _ s' => s'.(ResetStore.tokens) = s.(ResetStore.tokens) \/
       exists t, record_of rawToken s = Some t /\ s'.(ResetStore.tokens) =
         List.filter (fun r => negb (PasswordResetService.with_id t.(PasswordResetToken.id) r)) s.(ResetStore.tokens)) s.
Proof.
  unfold PasswordResetService.validateToken. wp_step. wp_step; [left; reflexivity|]. simpl rows.
  fold (record_of rawToken s). destruct (record_of rawToken s) as [t|] eqn:Hf; [|wp_step; left; reflexivity].
  wp_step. wp_step; [left; reflexivity|]. wp_step. wp_step. wp_step.
  { wp_step. wp_step; [left; reflexivity|]. wp_step. right. exists t. split; reflexivity. }
  wp_step.
  { wp_step. wp_step; [left; reflexivity|]. wp_step. right. exists t. split; reflexivity. }
  wp_step. wp_step; [left; reflexivity|]. wp_step. exists t. split; [|split; reflexivity].
  split; [exact Hf | assumption | | apply Z.leb_gt; assumption].
  exists n. apply Z.ltb_ge. change (ResetStore.env s) with (env_of s). rewrite <- (es_clock _ _ H). assumption.
Qed.

(** The answers to a list of validations of one token. *)
Fixpoint validations (rawToken : string) (n : nat) (s : Store) : list (exn + string) :=
  match n with
  | O => []
  | S n' => match PasswordResetService.validateToken rawToken s with (r, s') => r :: validations rawToken n' s' end
  end.
Definition accepted (r : exn + string) : bool := match r with inr _ => true | inl _ => false end.
Definition tries_left (rawToken : string) (s : Store) : Z :=
  match record_of rawToken s with Some t => Z.max 0 (MAX_ATTEMPTS - t.(PasswordResetToken.attempts)) | None => 0 end.

(** No two rows share an id or a hash. *)
Definition tokens_ok (s : Store) : Prop :=
  NoDup (map row_id s.(ResetStore.tokens)) /\ NoDup (map PasswordResetToken.tokenHash s.(ResetStore.tokens)).

Lemma map_counted (g : Token -> Token) l (f : Token -> string) :
  (forall r, f (g r) = f r) -> map f (map g l) = map f l.
Proof. intros Hg. rewrite map_map. apply map_ext, Hg. Qed.

Lemma find_hash_map (g : Token -> Token) h l t :
  (forall r, (g r).(PasswordResetToken.tokenHash) = r.(PasswordResetToken.tokenHash)) ->
  List.find (fun t => live t && PasswordResetService.with_hash h t) l = Some t ->
  List.find (fun t => live t && PasswordResetService.with_hash h t) (map g l) = Some (g t).
Proof.
  intros Hg. apply find_map_in. intros x _. unfold PasswordResetService.with_hash. simpl. rewrite Hg. reflexivity.
Qed.

Lemma find_hash_filter p h l :
  (forall r, In r l -> PasswordResetService.with_hash h r = true -> p r = false) ->
  List.find (fun t => live t && PasswordResetService.with_hash h t) (List.filter p l) = None.
Proof.
  intros Hp. destruct (List.find _ _) as [r|] eqn:Hf; [|reflexivity].
  apply find_live_some in Hf as (Hin & _ & Hh). apply filter_In in Hin as [Hin Hpr].
  rewrite (Hp r Hin Hh) in Hpr. discriminate.
Qed.

Lemma hash_unique s r t h : tokens_ok s -> In r s.(ResetStore.tokens) -> In t s.(ResetStore.tokens) ->
  PasswordResetService.with_hash h r = true -> PasswordResetService.with_hash h t = true -> r = t.
Proof.
  intros [_ Hnd] Hr Ht Hhr Hht. apply String.eqb_eq in Hhr, Hht. rewrite <- Hht in Hhr. clear Hht.
  induction s.(ResetStore.tokens) as [|x l IH]; [destruct Hr|].
  simpl in Hnd. apply NoDup_cons in Hnd as [Hx Hl].
  destruct Hr as [->|Hr], Ht as [->|Ht]; auto; exfalso; apply Hx.
  - rewrite Hhr. apply list_elem_of_In, in_map, Ht.
  - rewrite <- Hhr. apply list_elem_of_In, in_map, Hr.
Qed.

(** A reset token is validated at most as often as attempts are left,
    three times for a fresh one: however often it is presented, no more
    validations than that return a user. *)
Theorem reset_token_tries_bounded rawToken n s :
  tokens_ok s ->
  Z.of_nat (length (List.filter accepted (validations rawToken n s))) <= tries_left rawToken s.
Proof.
  assert (Hleft : forall s, 0 <= tries_left rawToken s) by (intros s0; unfold tries_left; destruct (record_of _ _); lia).
  revert s. induction n as [|n IH]; intros s Hok; simpl; [apply Hleft|].
  pose proof (validateToken_spec rawToken s) as Hspec. unfold wp in Hspec.
  destruct (PasswordResetService.validateToken rawToken s) as [[x|u] s']; simpl.
  - destruct Hspec as [Hs'|(t & Hf & Hs')].
    + assert (Hok' : tokens_ok s') by (unfold tokens_ok; rewrite Hs'; exact Hok).
      specialize (IH s' Hok'). unfold tries_left, record_of in *. rewrite Hs' in IH. exact IH.
    + assert (Hok' : tokens_ok s').
      { destruct Hok. unfold tokens_ok. rewrite Hs'. split; apply NoDup_map_filter; assumption. }
      specialize (IH s' Hok'). destruct (find_live_some _ _ _ Hf) as (Hin & _ & Hh).
      assert (Hnone : record_of rawToken s' = None).
      { unfold record_of. rewrite Hs'. apply find_hash_filter. intros r Hr Hhr.
        rewrite (hash_unique s r t _ Hok Hr Hin Hhr Hh). unfold PasswordResetService.with_id.
        rewrite String.eqb_refl. reflexivity. }
      unfold tries_left in IH at 1. rewrite Hnone in IH. pose proof (Hleft s). lia.
  - destruct Hspec as (t & [Hf _ _ Ha] & _ & Hs').
    set (g := fun r : Token => if PasswordResetService.with_id t.(PasswordResetToken.id) r then _ else r) in Hs'.
    assert (Hok' : tokens_ok s').
    { destruct Hok as [H1 H2]. unfold tokens_ok. rewrite Hs'.
      split; rewrite map_counted; auto; intros r; unfold g; destruct (PasswordResetService.with_id _ r); reflexivity. }
    specialize (IH s' Hok').
    assert (Hf' : record_of rawToken s' = Some (g t)).
    { unfold record_of. rewrite Hs'. apply find_hash_map; [|exact Hf].
      intros r. unfold g. destruct (PasswordResetService.with_id _ r); reflexivity. }
    assert (Hgt : (g t).(PasswordResetToken.attempts) = t.(PasswordResetToken.attempts) + 1).
    { unfold g, PasswordResetService.with_id. rewrite String.eqb_refl. reflexivity. }
    unfold tries_left in *. rewrite Hf. rewrite Hf' in IH. rewrite Hgt in IH. lia.
Qed.
End ResetLaws.

(** ** Worked examples *)

Definition reset_crypto : Crypto := {|
  sha256_hex p := "h" +:+ p; hmac_sha256_hex key s := key +:+ s; random_hex n s := "raw" +:+ s
|}.
#[local] Existing Instance reset_crypto.
Definition reset_env : Env :=
  mkEnv (fun n => 1700000000000 + Z.of_nat n) 0 (fun _ => None) 0
        (fun n => ("u"%char, string_of_N (N.of_nat n))) 0 (fun _ => num_of_Z 0) 0 [].
Definition reset_requested : Store :=
  (PasswordResetService.createResetToken "ada" (ResetStore.mk reset_env [])).2.

Lemma reset_token_tries_bounded_witness :
  map accepted (validations "rawu0" 5 reset_requested) = [true; true; true; false; false] /\
  Z.of_nat (length (List.filter accepted (validations "rawu0" 5 reset_requested))) <= tries_left "rawu0" reset_requested.
Proof.
  split; [vm_compute; reflexivity|].
  apply (reset_token_tries_bounded "rawu0" 5 reset_requested).
  split; apply (bool_decide_unpack _); vm_compute; reflexivity.
Defined.
