(* ===== verification/RefreshTokens.v ===== *)
(** tokens/refresh-tokens.service.ts: refresh tokens kept by their keyed hash,
    rotated within a family. *)
From S2P Require Import Prelude JsNumber Effects RepositoryLaws JsData ThirdParty.
Local Open Scope Z_scope.

(** auth/refresh-token.entity.ts *)
Module RefreshToken.
Record RefreshToken : Type := mk {
  id : string;
  userId : string;
  familyId : string;
  tokenHash : string;
  parentTokenId : option string;
  replacedByTokenId : option string;
  expiresAt : Z;
  revokedAt : option Z;
  createdAt : Z;
  lastUsedAt : option Z
}.
#[global] Instance settable : Settable RefreshToken := fun r =>
  mk r.(id) r.(userId) r.(familyId) r.(tokenHash) r.(parentTokenId) r.(replacedByTokenId)
     r.(expiresAt) r.(revokedAt) r.(createdAt) r.(lastUsedAt).
End RefreshToken.

#[global] Program Instance RefreshToken_row : Row RefreshToken.RefreshToken := {|
  row_id := RefreshToken.id;
  set_row_id i e := e <| RefreshToken.id := i |>;
  created t e := e <| RefreshToken.createdAt := t |>;
  touched t e := e;
  live e := true;
  clash a b := String.eqb a.(RefreshToken.tokenHash) b.(RefreshToken.tokenHash)
|}.

Module RefreshStore.
Record RefreshStore : Type := mk {
  env : Env;
  tokens : list RefreshToken.RefreshToken
}.
#[global] Instance settable : Settable RefreshStore := fun r =>
  mk r.(env) r.(tokens).
End RefreshStore.

#[global] Program Instance RefreshStore_env : HasEnv RefreshStore.RefreshStore := {|
  env_of := RefreshStore.env;
  set_env e w := w <| RefreshStore.env := e |>
|}.

#[global] Program Instance RefreshStore_tokens : Table RefreshStore.RefreshStore RefreshToken.RefreshToken := {|
  rows := RefreshStore.tokens;
  set_rows t w := w <| RefreshStore.tokens := t |>
|}.


Notation Store := RefreshStore.RefreshStore.
Notation Token := RefreshToken.RefreshToken.

Record NewToken : Type := mkNew { token : string; expiresAt : Z }.

Module RefreshTokensService.
Section Service.
Context `{ConfigService} `{Crypto}.

Definition getRefreshTokenSecret : M Store string :=
  match config_string "refreshToken.secret" with
  | Some secret =>
      throw_if (negb (str_truthy secret) || (Z.of_nat (String.length secret) <? 16))
        (PlainError "REFRESH_TOKEN_SECRET must be at least 16 characters") ;;;
      ret secret
  | None => throw (PlainError "REFRESH_TOKEN_SECRET must be at least 16 characters")
  end.

Definition hashToken (token : string) : M Store string :=
  let* secret := getRefreshTokenSecret in ret (hmac_sha256_hex secret token).

(** [new Date(Date.now() + expirySeconds * 1000)]. *)
Definition expiry_date : M Store Z :=
  let expirySeconds := default (num_of_Z 604800) (config_number "refreshToken.expiry") in
  let* now := date_now in
  ret (match num_fraction (num_of_Z now + expirySeconds * num_of_Z 1000)%num with
       | Some (n, d) => Z.quot n (Zpos d) | None => 0 end).

Definition createToken (userId : string) : M Store NewToken :=
  let* token := random_uuid in
  let* familyId := random_uuid in
  let* expiresAt := expiry_date in
  let* id := random_uuid in
  let* tokenHash := hashToken token in
  save (RefreshToken.mk id userId familyId tokenHash None None expiresAt None 0 None) ;;;
  ret (mkNew token expiresAt).

Definition with_hash (h : string) (t : Token) : bool := String.eqb t.(RefreshToken.tokenHash) h.

(** [repo.save([a, b])]: both rows, in one transaction. *)
Definition save_both (a b : Token) : M Store unit :=
  dataSource_transaction (rollback_table (E:=Token)) (save a ;;; save b ;;; ret tt).

Definition rotateToken (oldToken : string) : M Store NewToken :=
  let* oldHash := hashToken oldToken in
  let* found := findOne (with_hash oldHash) in
  match found with
  | None => throw (UnauthorizedException "Invalid or revoked refresh token")
  | Some existing =>
      throw_if (match existing.(RefreshToken.revokedAt) with Some _ => true | None => false end)
        (UnauthorizedException "Invalid or revoked refresh token") ;;;
      let* now := date_now in
      throw_if (existing.(RefreshToken.expiresAt) <? now) (UnauthorizedException "Refresh token expired") ;;;
      let* newToken := random_uuid in
      let* expiresAt := expiry_date in
      let* id := random_uuid in
      let* newHash := hashToken newToken in
      let newEntity := RefreshToken.mk id existing.(RefreshToken.userId) existing.(RefreshToken.familyId) newHash
                         (Some existing.(RefreshToken.id)) None expiresAt None 0 None in
      let existing := existing <| RefreshToken.replacedByTokenId := Some id |>
                               <| RefreshToken.revokedAt := Some now |> in
      save_both existing newEntity ;;;
      ret (mkNew newToken expiresAt)
  end.

Definition revokeUserTokens (userId : string) : M Store unit :=
  let* now := date_now in
  update_rows (fun t : Token => String.eqb t.(RefreshToken.userId) userId)
    (fun t => t <| RefreshToken.revokedAt := Some now |>).
End Service.
End RefreshTokensService.

(** ** What a rotation did *)

Section RotationLaws.
Context `{CS : ConfigService} `{CR : Crypto}.

Lemma wp_hashToken t Q X (s : Store) :
  (forall x, X x s) ->
  (forall h, (forall s', RefreshTokensService.hashToken t s' = (inr h, s')) -> Q h s) ->
  wp (RefreshTokensService.hashToken t) Q X s.
Proof.
  intros HX HQ. unfold RefreshTokensService.hashToken, RefreshTokensService.getRefreshTokenSecret in *.
  destruct (config_string _) as [secret|]; [|exact (HX _)].
  destruct (negb (str_truthy secret) || _) eqn:Hb; [exact (HX _)|].
  apply HQ. intros s'. reflexivity.
Qed.

(** No generated identifier is already a key: what randomUUID is relied on for. *)
Definition fresh_ids (s : Store) : Prop :=
  forall n t, In t s.(RefreshStore.tokens) -> uuid_string (RefreshStore.env s) n <> t.(RefreshToken.id).

(** The successor of a token: same user, same family, its parent named. *)
Record successor (old : Token) (t : Token) : Prop := {
  su_user : t.(RefreshToken.userId) = old.(RefreshToken.userId);
  su_family : t.(RefreshToken.familyId) = old.(RefreshToken.familyId);
  su_parent : t.(RefreshToken.parentTokenId) = Some old.(RefreshToken.id);
  su_open : t.(RefreshToken.revokedAt) = None /\ t.(RefreshToken.replacedByTokenId) = None
}.

(** A rotation: the row found under the old hash, open and not expired, is
    revoked in favour of its successor, and both are stored. *)
Record rotated (h : string) (s : Store) (old new : Token) (at_ : Z) (s' : Store) : Prop := {
  ro_found : List.find (fun t => live t && RefreshTokensService.with_hash h t) s.(RefreshStore.tokens) = Some old;
  ro_open : old.(RefreshToken.revokedAt) = None;
  ro_unexpired : at_ <= old.(RefreshToken.expiresAt);
  ro_new : successor old new;
  ro_rows : s'.(RefreshStore.tokens) =
    upsert new (upsert (old <| RefreshToken.replacedByTokenId := Some new.(RefreshToken.id) |>
                            <| RefreshToken.revokedAt := Some at_ |>) s.(RefreshStore.tokens));
  ro_distinct : new.(RefreshToken.id) <> old.(RefreshToken.id) /\ new.(RefreshToken.tokenHash) <> h;
  ro_absent : forall t, In t s.(RefreshStore.tokens) -> t.(RefreshToken.id) <> new.(RefreshToken.id)
}.

Lemma wp_expiry_date Q X (s : Store) :
  (forall d e, env_step (RefreshStore.env s) e -> Q d (set_env e s)) -> wp RefreshTokensService.expiry_date Q X s.
Proof. intros HQ. unfold RefreshTokensService.expiry_date. cbv zeta. wp_step. wp_step. wp_step. apply HQ. assumption. Qed.

Lemma rotateToken_spec oldToken s :
  fresh_ids s ->
  wp (RefreshTokensService.rotateToken oldToken)
    (fun _ s' => exists h old new at_,
       (forall s0, RefreshTokensService.hashToken oldToken s0 = (inr h, s0)) /\ rotated h s old new at_ s')
    (fun _ s' => s'.(RefreshStore.tokens) = s.(RefreshStore.tokens)) s.
Proof.
  intros Hfresh. unfold RefreshTokensService.rotateToken. apply wp_bind, wp_hashToken; [reflexivity|].
  intros h Hh. wp_step. wp_step; [reflexivity|]. simpl rows.
  destruct (List.find _ _) as [old|] eqn:Hf; [|wp_step; reflexivity].
  wp_step. wp_step; [reflexivity|]. wp_step. wp_step. wp_step. wp_step; [reflexivity|].
  match goal with Hx : (_ <? _) = false |- _ => apply Z.ltb_ge in Hx; rename Hx into Hunexp end.
  set (at_ := clock _ _) in *.
  wp_step. wp_step. wp_step. apply wp_expiry_date. intros d e3 He3. env_norm. wp_step. wp_step.
  apply wp_bind, wp_hashToken; [reflexivity|]. intros nh _. cbv zeta.
  set (id := uuid_string _ _) in *.
  assert (Hid : exists n, id = uuid_string (RefreshStore.env s) n).
  { subst id. match goal with |- exists n, uuid_string ?e ?k = _ => exists k; unfold uuid_string;
      replace (uuid e) with (uuid (RefreshStore.env s)); [reflexivity|] end.
    symmetry. simpl in *. apply es_uuid. env_chain. }
  assert (Hne : id <> "") by (destruct Hid as [k ->]; unfold uuid_string; destruct (uuid _ k); discriminate).
  assert (Hnew : forall t, In t s.(RefreshStore.tokens) -> t.(RefreshToken.id) <> id)
    by (intros t Ht; destruct Hid as [k ->]; intros Heq; exact (Hfresh k t Ht (eq_sym Heq))).
  destruct (find_live_some _ _ _ Hf) as (Hin & _ & Hhash).
  set (old' := old <| RefreshToken.replacedByTokenId := _ |> <| RefreshToken.revokedAt := _ |>).
  wp_step. unfold RefreshTokensService.save_both. apply wp_dataSource_transaction; [reflexivity|].
  intros e5 _. wp_step. wp_step; [reflexivity|].
  match goal with Ht : existsb (same_row old') _ = true -> exists _, ?r = _ |- _ =>
    destruct (Ht (found_row_exists _ _ _ _ Hf eq_refl)) as [u Hu]; subst r end.
  wp_step. wp_step; [reflexivity|]. simpl rows in *.
  match goal with Hs : saved_as (RefreshToken.mk id _ _ _ _ _ _ _ _ _) ?r |- _ => rename r into new; rename Hs into Hsaved end.
  wp_step.
  assert (Hnid : new.(RefreshToken.id) = id) by (apply (row_id_saved_as _ _ Hsaved); exact Hne).
  assert (Hrot : rotated h s old new at_ (set_rows (upsert new (upsert old' s.(RefreshStore.tokens))) s)).
  { split.
    - exact Hf.
    - destruct (RefreshToken.revokedAt old); [discriminate | reflexivity].
    - exact Hunexp.
    - destruct Hsaved; split; try split; reflexivity.
    - unfold old'. rewrite <- Hnid. reflexivity.
    - assert (Hd : id <> old.(RefreshToken.id)) by (intros Heq; exact (Hnew old Hin (eq_sym Heq))).
      rewrite Hnid. split; [exact Hd|].
      match goal with Hv : violates new _ = false |- _ =>
        pose proof (violates_false new old' _ Hv (in_upsert_self _ _)) as Hc end.
      simpl in Hc. rewrite Hnid in Hc. specialize (Hc (not_eq_sym Hd)).
      apply String.eqb_neq in Hc. apply String.eqb_eq in Hhash. congruence.
    - rewrite Hnid. exact Hnew. }
  split.
  - intros e _. wp_step. exists h, old, new, at_. split; [exact Hh|]. destruct Hrot. split; assumption.
  - intros e x _ _. reflexivity.
Qed.

(** C12 A refresh token is rotated once: a rotation revokes the row it found,
    stores a successor of the same user and family, and from then on the old
    token is refused; one that throws leaves the table as it was. *)
Theorem refresh_token_rotates_once oldToken s :
  NoDup (map row_id s.(RefreshStore.tokens)) -> fresh_ids s ->
  match RefreshTokensService.rotateToken oldToken s with
  | (inl _, s1) => s1.(RefreshStore.tokens) = s.(RefreshStore.tokens)
  | (inr _, s1) =>
      (exists h old new at_, rotated h s old new at_ s1) /\
      exists x s2, RefreshTokensService.rotateToken oldToken s1 = (inl x, s2) /\
                   s2.(RefreshStore.tokens) = s1.(RefreshStore.tokens)
  end.
Proof.
  intros Hnd Hfresh. pose proof (rotateToken_spec oldToken s Hfresh) as Hspec. unfold wp in Hspec.
  destruct (RefreshTokensService.rotateToken oldToken s) as [[x|r] s1]; [exact Hspec|].
  destruct Hspec as (h & old & new & at_ & Hh & Hrot). split; [eauto|].
  destruct Hrot as [Hf _ _ _ Hrows [Hd Hnh] Habs].
  destruct (find_live_some _ _ _ Hf) as (Hin & _ & Hhash).
  set (old' := old <| RefreshToken.replacedByTokenId := _ |> <| RefreshToken.revokedAt := _ |>) in *.
  assert (Hfind : List.find (fun t => live t && RefreshTokensService.with_hash h t) s1.(RefreshStore.tokens) = Some old').
  { rewrite Hrows. unfold upsert at 1.
    destruct (existsb (same_row new) (upsert old' s.(RefreshStore.tokens))) eqn:Hex.
    - exfalso. apply existsb_exists in Hex as (y & Hy & Hs). apply same_row_true in Hs.
      apply in_upsert in Hy as [->|[Hy _]]; [exact (Hd Hs) | exact (Habs y Hy (eq_sym Hs))].
    - apply find_app_some, (find_upsert_found _ _ old); [exact Hnd | exact Hf | reflexivity | exact Hhash]. }
  apply (wp_elim _ (fun r => exists x s2, r = (inl x, s2) /\ s2.(RefreshStore.tokens) = s1.(RefreshStore.tokens))).
  unfold RefreshTokensService.rotateToken. apply wp_bind, wp_hashToken; [intros x; eauto|].
  intros h' Hh'. specialize (Hh s1). specialize (Hh' s1). assert (h' = h) as -> by congruence.
  wp_step. wp_step; [eauto|]. simpl rows. rewrite Hfind. wp_step. wp_step; [eauto | discriminate].
Qed.
End RotationLaws.

(** ** Worked examples *)

Definition refresh_crypto : Crypto := {|
  sha256_hex p := p; hmac_sha256_hex key s := "#" +:+ s; random_hex n s := s
|}.
Definition refresh_config : ConfigService := {|
  config_number _ := None; config_string _ := Some "a secret of twenty.."; config_bool _ := None; config_list _ := None
|}.
#[local] Existing Instances refresh_crypto refresh_config.
(** Identifiers that are no key of the example's table. *)
Definition refresh_env : Env :=
  mkEnv (fun n => 1700000000000 + Z.of_nat n) 0 (fun _ => None) 0
        (fun n => ("u"%char, string_of_N (N.of_nat n))) 0 (fun _ => num_of_Z 0) 0 [].
Definition issued : Token :=
  RefreshToken.mk "t1" "ada" "family" "#secret-token" None None 1800000000000 None 0 None.
Definition issued_store : Store := RefreshStore.mk refresh_env [issued].

Lemma refresh_token_rotates_once_witness :
  exists x s2, RefreshTokensService.rotateToken "secret-token"
    (RefreshTokensService.rotateToken "secret-token" issued_store).2 = (inl x, s2).
Proof.
  assert (Hnd : NoDup (map row_id issued_store.(RefreshStore.tokens)))
    by (apply (bool_decide_unpack _); reflexivity).
  assert (Hfresh : fresh_ids issued_store) by (intros n t [<-|[]]; discriminate).
  pose proof (refresh_token_rotates_once "secret-token" issued_store Hnd Hfresh) as H.
  destruct (RefreshTokensService.rotateToken "secret-token" issued_store) as [[x|r] s1] eqn:E; [eval_result E|].
  destruct H as (_ & x & s2 & H & _). exists x, s2. exact H.
Defined.
