(* ===== verification/Idempotency.v ===== *)
(** idempotency/: the stored answer of a request that may be sent again
    (idempotency.service.ts), the guard that looks it up, the interceptor that
    replays or records it, and the nightly cleanup.  The handler they wrap is
    any computation on a state that contains the table of keys. *)
From S2P Require Import Prelude JsNumber Effects RepositoryLaws JsData Json ThirdParty.
Local Open Scope Z_scope.

Definition MIN_KEY_LENGTH : Z := 16.
Definition MAX_KEY_LENGTH : Z := 255.

(** idempotency/idempotency.entity.ts *)
Module IdempotencyKey.
Record IdempotencyKey : Type := mk {
  key : string;
  requestHash : string;
  response : json;
  statusCode : Z;
  createdAt : Z;
  expiresAt : option Z
}.
#[global] Instance settable : Settable IdempotencyKey := fun r =>
  mk r.(key) r.(requestHash) r.(response) r.(statusCode) r.(createdAt) r.(expiresAt).
End IdempotencyKey.

#[global] Program Instance IdempotencyKey_row : Row IdempotencyKey.IdempotencyKey := {|
  row_id := IdempotencyKey.key;
  set_row_id i e := e <| IdempotencyKey.key := i |>;
  created t e := e <| IdempotencyKey.createdAt := t |>;
  touched t e := e;
  live e := true;
  clash a b := false
|}.

Notation Key := IdempotencyKey.IdempotencyKey.

(** The parts of a request the guard reads: method, URL, body, and the header
    idempotency-key. *)
Record Request : Type := mkRequest {
  method : string;
  url : string;
  body : json;
  header_key : option string
}.

(** What the guard leaves on the request. *)
Record Prepared : Type := mkPrepared {
  idempotencyKey : option string;
  requestHash : option string;
  idempotencyResponse : option (Z * json)
}.

(** ** IdempotencyService *)

Module IdempotencyService.
Section Service.
Context {S : Type} `{HasEnv S} `{!Table S Key} `{ConfigService} `{Crypto}.

Definition hashRequest (method url : string) (body : json) : string :=
  sha256_hex (stringify (JObj [("method", JStr method); ("url", JStr url); ("body", body)])).

Definition with_key (key : string) (k : Key) : bool := String.eqb k.(IdempotencyKey.key) key.

Definition findByKey (key : string) : M S (option Key) := findOne (with_key key).

(** [d.setHours(d.getHours() + hours)]: the sum is truncated to an integer. *)
Definition set_hours (hours : num) (ms : Z) : Z :=
  let h := ms / 3600000 mod 24 in
  match num_fraction (num_of_Z h + hours)%num with
  | Some (n, d) => add_hours (Z.quot n (Zpos d) - h) ms
  | None => 0
  end.

(** What [save] writes to the NOT NULL column [response], given the row that is
    there: null is refused, and so is an absent value in a new row. *)
Definition written (response : json) (stored : option Key) : option json :=
  match response with
  | JNull => None
  | JUndefined => option_map IdempotencyKey.response stored
  | r => Some r
  end.

Definition store (key requestHash : string) (response : json) (statusCode : Z) (ttlHours : option num) : M S unit :=
  let hours := match ttlHours with
               | Some h => h
               | None => default (num_of_Z 24) (config_number "idempotency.ttlHours")
               end in
  let* now := date_now in
  let expiresAt := set_hours hours now in
  let* stored := gets (fun s => List.find (with_key key) (rows s)) in
  match written response stored with
  | Some r =>
      let createdAt := match stored with Some k => k.(IdempotencyKey.createdAt) | None => 0 end in
      save (IdempotencyKey.mk key requestHash r statusCode createdAt (Some expiresAt)) ;;; ret tt
  | None => db_call ;;; throw (QueryFailed "23502" "null value in column response")
  end.

Definition cleanup : M S Z :=
  let* now := date_now in
  delete_rows (fun k : Key => match k.(IdempotencyKey.expiresAt) with Some t => t <? now | None => false end).
End Service.
End IdempotencyService.

(** ** IdempotencyGuard *)

Module IdempotencyGuard.
Section Guard.
Context {S : Type} `{HasEnv S} `{!Table S Key} `{ConfigService} `{Crypto}.

Definition unprepared : Prepared := mkPrepared None None None.

Definition too_short (key : string) : bool := Z.of_nat (String.length key) <? MIN_KEY_LENGTH.
Definition too_long (key : string) : bool := MAX_KEY_LENGTH <? Z.of_nat (String.length key).

(** [isIdempotent] is the route's metadata. *)
Definition canActivate (isIdempotent : bool) (request : Request) : M S Prepared :=
  if negb isIdempotent then ret unprepared
  else
    let idempotencyKey := default "" (header_key request) in
    throw_if (negb (str_truthy idempotencyKey)) (BadRequestException "Idempotency-Key header is required") ;;;
    throw_if (too_short idempotencyKey)
      (BadRequestException ("Idempotency-Key must be at least " +:+ string_of_Z MIN_KEY_LENGTH +:+ " characters")) ;;;
    throw_if (too_long idempotencyKey)
      (BadRequestException ("Idempotency-Key must not exceed " +:+ string_of_Z MAX_KEY_LENGTH +:+ " characters")) ;;;
    let requestHash := IdempotencyService.hashRequest (method request) (url request) (body request) in
    let* existing := IdempotencyService.findByKey idempotencyKey in
    match existing with
    | Some e =>
        throw_if (negb (String.eqb e.(IdempotencyKey.requestHash) requestHash))
          (UnprocessableEntityException "Idempotency-Key already used with different request parameters") ;;;
        ret (mkPrepared (Some idempotencyKey) (Some requestHash)
               (Some (e.(IdempotencyKey.statusCode), e.(IdempotencyKey.response))))
    | None => ret (mkPrepared (Some idempotencyKey) (Some requestHash) None)
    end.
End Guard.
End IdempotencyGuard.

(** ** IdempotencyInterceptor *)

Module IdempotencyInterceptor.
Section Interceptor.
Context {S : Type} `{HasEnv S} `{!Table S Key} `{ConfigService}.

(** The answer is a status and a body; a failure to store it is logged. *)
Definition intercept (request : Prepared) (handle : M S (Z * json)) : M S (Z * json) :=
  match idempotencyResponse request with
  | Some cached => ret cached
  | None =>
      let* answer := handle in
      match idempotencyKey request, requestHash request with
      | Some key, Some hash =>
          if str_truthy key && str_truthy hash then
            attempt (IdempotencyService.store key hash answer.2 answer.1 None) ;;; ret answer
          else ret answer
      | _, _ => ret answer
      end
  end.
End Interceptor.
End IdempotencyInterceptor.

(** A request to a route that is marked idempotent: guard, then interceptor. *)
Definition serve {S} `{HasEnv S} `{!Table S Key} `{ConfigService} `{Crypto} (request : Request)
    (handle : M S (Z * json)) : M S (Z * json) :=
  let* prepared := IdempotencyGuard.canActivate true request in
  IdempotencyInterceptor.intercept prepared handle.

(** ** IdempotencyCleanupJob *)

Module IdempotencyCleanupJob.
Definition cleanupExpiredKeys {S} `{HasEnv S} `{!Table S Key} : M S unit :=
  IdempotencyService.cleanup ;;; ret tt.
End IdempotencyCleanupJob.

(** ** What serving a request does *)

Section IdempotencyLaws.
Context {S : Type} `{HasEnv S} `{!Table S Key} `{ConfigService} `{Crypto}.

Definition stored_under (key : string) (s : S) : option Key :=
  List.find (fun k => live k && IdempotencyService.with_key key k) (rows s).

Definition request_hash (r : Request) : string := IdempotencyService.hashRequest (method r) (url r) (body r).

(** The header is present and of an accepted length. *)
Definition key_accepted (r : Request) (key : string) : Prop :=
  header_key r = Some key /\ key <> "" /\
  MIN_KEY_LENGTH <= Z.of_nat (String.length key) <= MAX_KEY_LENGTH.

(** Why the guard refuses. *)
Definition refused (r : Request) (s : S) (x : exn) : Prop :=
  env_fault (env_of s) x \/
  ((forall key, ~ key_accepted r key) /\ exists m, x = BadRequestException m) \/
  (exists key k, header_key r = Some key /\ stored_under key s = Some k /\
     k.(IdempotencyKey.requestHash) <> request_hash r /\
     x = UnprocessableEntityException "Idempotency-Key already used with different request parameters").

Lemma canActivate_spec r (s : S) :
  wp (IdempotencyGuard.canActivate true r)
    (fun p s' => env_only s s' /\ exists key, key_accepted r key /\
       idempotencyKey p = Some key /\ requestHash p = Some (request_hash r) /\
       match stored_under key s with
       | Some k => k.(IdempotencyKey.requestHash) = request_hash r /\
                   idempotencyResponse p = Some (k.(IdempotencyKey.statusCode), k.(IdempotencyKey.response))
       | None => idempotencyResponse p = None
       end)
    (fun x s' => env_only s s' /\ refused r s x) s.
Proof.
  assert (Hbad : forall m, (forall key, ~ key_accepted r key) ->
            env_only s s /\ refused r s (BadRequestException m)).
  { intros m Hn. split; [reflexivity | right; left; eauto]. }
  unfold IdempotencyGuard.canActivate, IdempotencyGuard.too_short, IdempotencyGuard.too_long.
  cbn [negb]. cbv zeta.
  destruct (header_key r) as [key|] eqn:Hk; simpl default;
    [|wp_step; wp_step; [apply Hbad; intros key []; congruence | discriminate]].
  wp_step. wp_step.
  { apply Hbad. intros key' (Hk' & Hne & _). destruct key; [congruence | discriminate]. }
  assert (Hlen : ~ MIN_KEY_LENGTH <= Z.of_nat (String.length key) <= MAX_KEY_LENGTH ->
            forall key', ~ key_accepted r key') by (intros Hn key' (Hk' & _ & Hl); congruence).
  wp_step. wp_step; [apply Hbad, Hlen; lia|].
  wp_step. wp_step; [apply Hbad, Hlen; lia|].
  assert (Hkey : key_accepted r key).
  { split; [exact Hk|]. split; [intros ->; discriminate|].
    repeat match goal with Hb : (_ <? _) = false |- _ => apply Z.ltb_ge in Hb end. lia. }
  wp_step. unfold IdempotencyService.findByKey. wp_step.
  { split; [auto with env | left; assumption]. }
  fold (stored_under key s). destruct (stored_under key s) as [k|] eqn:Hf.
  - wp_step. wp_step.
    + split; [auto with env|]. right; right. exists key, k.
      repeat split; auto. intros Heq. fold (request_hash r) in *. rewrite Heq, String.eqb_refl in *. discriminate.
    + wp_step. split; [auto with env|]. exists key. split; [exact Hkey|]. repeat split; rewrite Hf.
      split; [|reflexivity]. apply String.eqb_eq, negb_false_iff. assumption.
  - wp_step. split; [auto with env|]. exists key. split; [exact Hkey|]. repeat split; rewrite Hf; reflexivity.
Qed.

(** An answer is on record for a key and a request. *)
Definition answered (key : string) (r : Request) (answer : Z * json) (s : S) : Prop :=
  exists k, stored_under key s = Some k /\ k.(IdempotencyKey.requestHash) = request_hash r /\
            (k.(IdempotencyKey.statusCode), k.(IdempotencyKey.response)) = answer.

(** A request whose answer is on record gets that answer and changes nothing,
    whatever its handler would do. *)
Lemma serve_answered key r answer handle (s : S) :
  header_key r = Some key -> answered key r answer s ->
  wp (serve r handle) (fun a s' => a = answer /\ env_only s s') (fun x s' => env_only s s' /\ refused r s x) s.
Proof.
  intros Hk (k & Hf & Hh & Ha). unfold serve. apply wp_bind.
  eapply wp_mono; [apply canActivate_spec | | auto].
  intros p s' (Henv & key' & (Hk' & _) & _ & _ & Hp). rewrite Hk in Hk'. injection Hk' as <-.
  rewrite Hf in Hp. destruct Hp as [_ Hp]. unfold IdempotencyInterceptor.intercept. rewrite Hp.
  wp_step. split; [exact Ha | exact Henv].
Qed.

(** Keys are the primary keys: what was written under a key is what is found. *)
Lemma find_upsert_key (k : Key) (t : list Key) :
  List.find (fun r => live r && IdempotencyService.with_key k.(IdempotencyKey.key) r) (upsert k t) = Some k.
Proof.
  assert (Hk : forall r : Key, live r && IdempotencyService.with_key k.(IdempotencyKey.key) r = same_row k r).
  { intros r. unfold IdempotencyService.with_key, same_row. simpl. apply String.eqb_sym. }
  rewrite (find_ext_in _ (same_row k)) by (intros; apply Hk).
  unfold upsert. destruct (existsb (same_row k) t) eqn:Hex.
  - induction t as [|r t IH]; [discriminate|]. simpl in *. destruct (same_row k r) eqn:Hr; simpl in *.
    + unfold same_row at 1. rewrite String.eqb_refl. reflexivity.
    + rewrite Hr. apply IH, Hex.
  - induction t as [|r t IH]; simpl in *.
    + unfold same_row. rewrite String.eqb_refl. reflexivity.
    + apply orb_false_iff in Hex as [-> Hex]. apply IH, Hex.
Qed.

Lemma stored_under_env key (s : S) e : stored_under key (set_env e s) = stored_under key s.
Proof. unfold stored_under. rewrite rows_set_env. reflexivity. Qed.

(** Recording the answer of a request that had none on record: it is there
    afterwards, or nothing was written. *)
Lemma store_spec key r body_ status (s : S) :
  key <> "" -> stored_under key s = None ->
  wp (IdempotencyService.store key (request_hash r) body_ status None)
    (fun _ s' => answered key r (status, body_) s') (fun _ s' => env_only s s') s.
Proof.
  intros Hne Hnone. unfold IdempotencyService.store. cbv zeta. wp_step. wp_step. wp_step. wp_step.
  change (List.find _ (rows s)) with (stored_under key s). rewrite Hnone.
  destruct (IdempotencyService.written body_ None) as [w|] eqn:Hw.
  - assert (w = body_) as -> by (destruct body_; simpl in Hw; congruence).
    wp_step. wp_step; [auto with env|]. wp_step.
    match goal with Hs : saved_as _ ?row |- _ => rename row into k; rename Hs into Hsaved end.
    assert (Hk : k.(IdempotencyKey.key) = key) by (apply (row_id_saved_as _ _ Hsaved); exact Hne).
    exists k. split; [|destruct Hsaved; split; reflexivity].
    unfold stored_under. rewrite rows_set_rows, <- Hk. apply find_upsert_key.
  - wp_step. wp_step; [auto with env|]. wp_step. auto with env.
Qed.

(** How a request that was answered was answered. *)
Inductive served (key : string) (r : Request) (handle : M S (Z * json)) (s : S) (answer : Z * json) (s1 : S) : Prop :=
  | replayed : answered key r answer s -> env_only s s1 -> served key r handle s answer s1
  | executed sh sh' : stored_under key s = None -> env_only s sh -> handle sh = (inr answer, sh') ->
      env_only sh' s1 \/ answered key r answer s1 -> served key r handle s answer s1.

Lemma serve_spec r handle (s : S) :
  keeps (same (rows (E:=Key))) handle ->
  wp (serve r handle) (fun answer s1 => exists key, key_accepted r key /\ served key r handle s answer s1)
     (fun _ _ => True) s.
Proof.
  intros Hkeep. unfold serve. apply wp_bind. eapply wp_mono; [apply canActivate_spec | | auto].
  intros p s' (Henv & key & Hkey & Hpk & Hph & Hp). unfold IdempotencyInterceptor.intercept.
  rewrite Hpk, Hph. destruct (stored_under key s) as [k|] eqn:Hf.
  - destruct Hp as [Hh ->]. wp_step. exists key. split; [exact Hkey|]. apply replayed; [|exact Henv].
    exists k. auto.
  - rewrite Hp. wp_step. pose proof (Hkeep s') as Hrows. unfold wp.
    destruct (handle s') as [[x|[status b]] sh'] eqn:Hrun; [exact I|]. simpl in Hrows.
    assert (Hnone : stored_under key sh' = None).
    { unfold stored_under in *. unfold same in Hrows. destruct Henv as (e & _ & ->).
      rewrite Hrows, rows_set_env. exact Hf. }
    destruct (str_truthy key && str_truthy (request_hash r)).
    + apply wp_bind, wp_attempt. destruct Hkey as (Hk & Hne & Hl).
      eapply wp_mono; [apply (store_spec key r b status sh' Hne Hnone) | |].
      * intros u s1 Ha. cbv beta in *. wp_step. exists key. split; [repeat split; tauto || auto|].
        eapply executed; eauto.
      * intros x s1 Ha. cbv beta in *. wp_step. exists key. split; [repeat split; tauto || auto|].
        eapply executed; eauto.
    + exists key. split; [exact Hkey|]. eapply executed; eauto. left. reflexivity.
Qed.

(** So the answer is on record, or the handler ran and nothing was recorded. *)
Lemma served_recorded key r handle s answer s1 :
  keeps (same (rows (E:=Key))) handle -> served key r handle s answer s1 ->
  answered key r answer s1 \/
  (exists sh sh', env_only s sh /\ handle sh = (inr answer, sh')) /\
  stored_under key s = None /\ (rows s1 : list Key) = rows s.
Proof.
  intros Hkeep [(k & Hf & Ha) (e & _ & He) | sh sh' Hnone Hsh Hh [(e & _ & He)|Ha]]; [left | right | left; exact Ha].
  - exists k. rewrite He, stored_under_env. auto.
  - split; [eauto|]. split; [exact Hnone|].
    pose proof (Hkeep sh) as Hrows. rewrite Hh in Hrows. unfold same in Hrows. simpl in Hrows.
    destruct Hsh as (e' & _ & ->). rewrite He, rows_set_env, Hrows, rows_set_env. reflexivity.
Qed.

(** C25 A request that was answered is not run again: either its answer could not
    be recorded, and then its handler ran once and the table of keys is as it
    was; or the answer is on record, and from then on a request with the same
    key gets that very answer when it asks for the same thing, whatever its
    handler would do now, and 422 when it asks for something else, and changes
    nothing either way. *)
Theorem idempotent_request_runs_once key r handle s answer s1 :
  header_key r = Some key -> keeps (same (rows (E:=Key))) handle ->
  serve r handle s = (inr answer, s1) ->
  ((exists sh sh', env_only s sh /\ handle sh = (inr answer, sh')) /\
   stored_under key s = None /\ (rows s1 : list Key) = rows s) \/
  (answered key r answer s1 /\
   forall r' handle', header_key r' = Some key ->
     match serve r' handle' s1 with
     | (inr answer', s2) => request_hash r' = request_hash r /\ answer' = answer /\ env_only s1 s2
     | (inl x, s2) =>
         env_only s1 s2 /\
         (env_fault (env_of s1) x \/
          request_hash r' <> request_hash r /\
          x = UnprocessableEntityException "Idempotency-Key already used with different request parameters")
     end).
Proof.
  intros Hk Hkeep Hrun. pose proof (wp_run_ok _ _ _ _ _ _ (serve_spec r handle s Hkeep) Hrun) as
    (key' & Hkey & Hserved).
  assert (key' = key) as -> by (destruct Hkey; congruence).
  destruct (served_recorded _ _ _ _ _ _ Hkeep Hserved) as [Ha|Hno]; [right | left; exact Hno].
  split; [exact Ha|]. intros r' handle' Hk'. destruct Ha as (k & Hf & Hh & Hans).
  pose proof (canActivate_spec r' s1) as Hspec. unfold wp in Hspec. unfold serve, bind.
  destruct (IdempotencyGuard.canActivate true r' s1) as [[x|p] s2].
  - destruct Hspec as [Henv Href]. split; [exact Henv|].
    destruct Href as [Hfault | [[Hn _] | (key' & k' & Hk2 & Hf' & Hd & ->)]]; [left; exact Hfault | |].
    + exfalso. apply (Hn key). destruct Hkey as (_ & Hne & Hl). repeat split; tauto || auto.
    + right. assert (key' = key) as -> by congruence. split; [congruence | reflexivity].
  - destruct Hspec as (Henv & key' & (Hk2 & _) & _ & _ & Hp). assert (key' = key) as -> by congruence.
    rewrite Hf in Hp. destruct Hp as [Hh' Hp]. unfold IdempotencyInterceptor.intercept. rewrite Hp.
    split; [congruence|]. split; [exact Hans | exact Henv].
Qed.

(** Two requests with one key whose guards both looked before either answer
    was recorded both run their handler. *)
Lemma concurrent_duplicates_both_run key r (s s1 s2 : S) p1 p2 :
  stored_under key s = None -> header_key r = Some key ->
  IdempotencyGuard.canActivate true r s = (inr p1, s1) ->
  IdempotencyGuard.canActivate true r s1 = (inr p2, s2) ->
  idempotencyResponse p1 = None /\ idempotencyResponse p2 = None.
Proof.
  intros Hnone Hk H1' H2'.
  pose proof (wp_run_ok _ _ _ _ _ _ (canActivate_spec r s) H1') as ((e & _ & ->) & k1 & (Hk1 & _) & _ & _ & Hp1).
  pose proof (wp_run_ok _ _ _ _ _ _ (canActivate_spec r (set_env e s)) H2') as (_ & k2 & (Hk2 & _) & _ & _ & Hp2).
  assert (k1 = key) as -> by congruence. assert (k2 = key) as -> by congruence.
  rewrite stored_under_env in Hp2. rewrite Hnone in Hp1, Hp2. auto.
Qed.
End IdempotencyLaws.

(** ** Worked example *)

Module IdempotencyStore.
Record IdempotencyStore : Type := mk {
  env : Env;
  keys : list Key;
  runs : nat
}.
#[global] Instance settable : Settable IdempotencyStore := fun r => mk r.(env) r.(keys) r.(runs).
End IdempotencyStore.

#[global] Program Instance IdempotencyStore_env : HasEnv IdempotencyStore.IdempotencyStore := {|
  env_of := IdempotencyStore.env;
  set_env e w := w <| IdempotencyStore.env := e |>
|}.
#[global] Program Instance IdempotencyStore_keys : Table IdempotencyStore.IdempotencyStore Key := {|
  rows := IdempotencyStore.keys;
  set_rows t w := w <| IdempotencyStore.keys := t |>
|}.

Definition idem_crypto : Crypto := {|
  sha256_hex p := "h" +:+ p; hmac_sha256_hex key s := key +:+ s; random_hex n s := s
|}.
Definition idem_config : ConfigService := {|
  config_number _ := None; config_string _ := None; config_bool _ := None; config_list _ := None
|}.
#[local] Existing Instances idem_crypto idem_config.

(** A handler that counts its runs. *)
Definition counting : M IdempotencyStore.IdempotencyStore (Z * json) :=
  modify (fun s => s <| IdempotencyStore.runs := Datatypes.S s.(IdempotencyStore.runs) |>) ;;;
  ret (201, JObj [("id", JStr "t1")]).
Definition idem_start : IdempotencyStore.IdempotencyStore :=
  IdempotencyStore.mk (mkEnv (fun n => 1700000000000 + Z.of_nat n) 0 (fun _ => None) 0
    (fun n => ("u"%char, string_of_N (N.of_nat n))) 0 (fun _ => num_of_Z 0) 0 []) [] 0.
Definition idem_request (amount : Z) : Request :=
  mkRequest "POST" "/transactions" (JObj [("amount", JNum (num_of_Z amount))]) (Some "0123456789abcdef").

Lemma idempotent_request_runs_once_witness :
  IdempotencyStore.runs (serve (idem_request 5) counting (serve (idem_request 5) counting idem_start).2).2 = 1%nat /\
  exists s1, answered "0123456789abcdef" (idem_request 5) (201, JObj [("id", JStr "t1")]) s1 /\
    exists s2, serve (idem_request 6) counting s1 =
      (inl (UnprocessableEntityException "Idempotency-Key already used with different request parameters"), s2).
Proof.
  split; [vm_compute; reflexivity|].
  assert (Hlen : length (IdempotencyStore.keys (serve (idem_request 5) counting idem_start).2) = 1%nat)
    by (vm_compute; reflexivity).
  assert (Hother : fst (serve (idem_request 6) counting (serve (idem_request 5) counting idem_start).2) =
    inl (UnprocessableEntityException "Idempotency-Key already used with different request parameters"))
    by (vm_compute; reflexivity).
  destruct (serve (idem_request 5) counting idem_start) as [[x|a] s1] eqn:E; [eval_result E|].
  assert (Ea : a = (201, JObj [("id", JStr "t1")])) by (eval_result E; congruence). subst a.
  assert (Hkeep : keeps (same (rows (E:=Key))) counting) by (intros s; reflexivity).
  destruct (idempotent_request_runs_once "0123456789abcdef" (idem_request 5) counting idem_start
              _ s1 eq_refl Hkeep E) as [(_ & _ & Hr)|[Ha _]].
  - exfalso. apply (f_equal length) in Hr. discriminate (eq_trans (eq_sym Hlen) Hr).
  - exists s1. split; [exact Ha|]. exists (serve (idem_request 6) counting s1).2.
    rewrite <- Hother. apply surjective_pairing.
Defined.
