(* ===== verification/RateLimits.v ===== *)
(** Rate limits: the per-user window kept in the database
    (modules/rate-limit/), the sliding window per endpoint kept in memory
    (modules/endpoint-rate-limit/), their guards, and the velocity monitor
    (transaction/velocity/velocity-monitor.service.ts). *)
From S2P Require Import Prelude JsNumber Effects RepositoryLaws JsData.
Local Open Scope Z_scope.

(** modules/rate-limit/entities/rate-limit-record.entity.ts *)
Module RateLimitRecordEntity.
Record RateLimitRecordEntity : Type := mk {
  id : string;
  userId : string;
  endpoint : string;
  requestCount : Z;
  windowStart : Z;
  createdAt : Z
}.
#[global] Instance settable : Settable RateLimitRecordEntity := fun r =>
  mk r.(id) r.(userId) r.(endpoint) r.(requestCount) r.(windowStart) r.(createdAt).
End RateLimitRecordEntity.

#[global] Program Instance RateLimitRecordEntity_row : Row RateLimitRecordEntity.RateLimitRecordEntity := {|
  row_id := RateLimitRecordEntity.id;
  set_row_id i e := e <| RateLimitRecordEntity.id := i |>;
  created t e := e <| RateLimitRecordEntity.createdAt := t |>;
  touched t e := e;
  live e := true;
  clash a b := String.eqb a.(RateLimitRecordEntity.userId) b.(RateLimitRecordEntity.userId) &&
               String.eqb a.(RateLimitRecordEntity.endpoint) b.(RateLimitRecordEntity.endpoint)
|}.

(** modules/endpoint-rate-limit/entities/endpoint-rate-limit-config.entity.ts: [endpoint] alone is unique *)
Module EndpointRateLimitConfigEntity.
Record EndpointRateLimitConfigEntity : Type := mk {
  id : string;
  endpoint : string;
  method : string;
  maxRequests : Z;
  windowMs : Z;
  isActive : bool;
  createdAt : Z;
  updatedAt : Z
}.
#[global] Instance settable : Settable EndpointRateLimitConfigEntity := fun r =>
  mk r.(id) r.(endpoint) r.(method) r.(maxRequests) r.(windowMs) r.(isActive)
     r.(createdAt) r.(updatedAt).
End EndpointRateLimitConfigEntity.

#[global] Program Instance EndpointRateLimitConfigEntity_row : Row EndpointRateLimitConfigEntity.EndpointRateLimitConfigEntity := {|
  row_id := EndpointRateLimitConfigEntity.id;
  set_row_id i e := e <| EndpointRateLimitConfigEntity.id := i |>;
  created t e := e <| EndpointRateLimitConfigEntity.createdAt := t |> <| EndpointRateLimitConfigEntity.updatedAt := t |>;
  touched t e := e <| EndpointRateLimitConfigEntity.updatedAt := t |>;
  live e := true;
  clash a b := String.eqb a.(EndpointRateLimitConfigEntity.endpoint) b.(EndpointRateLimitConfigEntity.endpoint)
|}.

Notation RateRecord := RateLimitRecordEntity.RateLimitRecordEntity.
Notation Config := EndpointRateLimitConfigEntity.EndpointRateLimitConfigEntity.

(** What the velocity monitor keeps of a transaction. *)
Record TransactionRecord : Type := mkTransactionRecord { tr_timestamp : Z; tr_amount : num }.

Module RateStore.
Record RateStore : Type := mk {
  env : Env;
  records : list RateLimitRecordEntity.RateLimitRecordEntity;
  configs : list EndpointRateLimitConfigEntity.EndpointRateLimitConfigEntity;
  slidingWindows : gmap string (list Z);
  transactionHistory : gmap string (list TransactionRecord)
}.
#[global] Instance settable : Settable RateStore := fun r =>
  mk r.(env) r.(records) r.(configs) r.(slidingWindows) r.(transactionHistory).
End RateStore.

#[global] Program Instance RateStore_env : HasEnv RateStore.RateStore := {|
  env_of := RateStore.env;
  set_env e w := w <| RateStore.env := e |>
|}.

#[global] Program Instance RateStore_records : Table RateStore.RateStore RateLimitRecordEntity.RateLimitRecordEntity := {|
  rows := RateStore.records;
  set_rows t w := w <| RateStore.records := t |>
|}.

#[global] Program Instance RateStore_configs : Table RateStore.RateStore EndpointRateLimitConfigEntity.EndpointRateLimitConfigEntity := {|
  rows := RateStore.configs;
  set_rows t w := w <| RateStore.configs := t |>
|}.

Notation Store := RateStore.RateStore.

(** ** PerUserRateLimitService *)

Inductive Category : Type := read | write.

Record PerUserRateLimitResult : Type := mkPerUser {
  pu_allowed : bool;
  pu_remaining : Z;
  pu_resetAt : Z;
  pu_limit : Z
}.

Record Usage : Type := mkUsage { u_requestCount : Z; u_limit : Z; u_resetAt : Z }.

Definition DEFAULT_LIMITS (c : Category) : Z := match c with read => 100 | write => 20 end.

Module PerUserRateLimitService.
Definition windowMs : Z := 60000.

Definition categorizeMethod (method : string) : Category :=
  if existsb (String.eqb (toUpperCase method)) ["GET"; "HEAD"; "OPTIONS"] then read else write.

Definition getLimitForEndpoint (endpoint : string) (category : Category) : Z := DEFAULT_LIMITS category.

Definition of_user (userId endpoint : string) (r : RateRecord) : bool :=
  String.eqb r.(RateLimitRecordEntity.userId) userId && String.eqb r.(RateLimitRecordEntity.endpoint) endpoint.

Definition fresh_window (limit now : Z) : PerUserRateLimitResult :=
  mkPerUser true (limit - 1) (now + windowMs) limit.

Definition check (userId endpoint method : string) : M Store PerUserRateLimitResult :=
  let category := categorizeMethod method in
  let limit := getLimitForEndpoint endpoint category in
  let* now := date_now in
  let windowStart := now - windowMs in
  let* found := findOne (of_user userId endpoint) in
  match found with
  | None =>
      save (RateLimitRecordEntity.mk "" userId endpoint 1 now 0) ;;;
      ret (fresh_window limit now)
  | Some record =>
      if record.(RateLimitRecordEntity.windowStart) <? windowStart then
        save (record <| RateLimitRecordEntity.requestCount := 1 |>
                     <| RateLimitRecordEntity.windowStart := now |>) ;;;
        ret (fresh_window limit now)
      else
        let count := record.(RateLimitRecordEntity.requestCount) in
        let allowed := count <? limit in
        (if allowed
         then update_rows (fun r => String.eqb r.(RateLimitRecordEntity.id) record.(RateLimitRecordEntity.id))
                (fun r => r <| RateLimitRecordEntity.requestCount := count + 1 |>)
         else ret tt) ;;;
        ret (mkPerUser allowed (Z.max 0 (limit - count - (if allowed then 1 else 0)))
               (record.(RateLimitRecordEntity.windowStart) + windowMs) limit)
  end.

Definition getUsage (userId endpoint : string) : M Store Usage :=
  let* found := findOne (of_user userId endpoint) in
  let limit := getLimitForEndpoint endpoint read in
  let* now := date_now in
  ret match found with
      | None => mkUsage 0 limit (now + windowMs)
      | Some record =>
          let windowExpired := record.(RateLimitRecordEntity.windowStart) <? now - windowMs in
          mkUsage (if windowExpired then 0 else record.(RateLimitRecordEntity.requestCount)) limit
            (record.(RateLimitRecordEntity.windowStart) + windowMs)
      end.
End PerUserRateLimitService.

(** A guard's effect on the response and the decision: the headers it set
    before it decided, then [true] or an exception. *)
Definition Verdict : Type := list (string * json) * (exn + bool).

Module PerUserRateLimitGuard.
Definition canActivate (userId : option string) (endpoint method : string) : M Store Verdict :=
  match userId with
  | Some userId =>
      if str_truthy userId then
        let* result := PerUserRateLimitService.check userId endpoint method in
        let headers := [("X-RateLimit-Limit", JNum (num_of_Z (pu_limit result)));
                        ("X-RateLimit-Remaining", JNum (num_of_Z (pu_remaining result)));
                        ("X-RateLimit-Reset", JNum (num_of_Z (pu_resetAt result / 1000)))] in
        if pu_allowed result then ret (headers, inr true)
        else let* now := date_now in
             ret (headers, inl (TooManyRequests "Rate limit exceeded. Please try again later."))
      else ret ([], inr true)
  | None => ret ([], inr true)
  end.
End PerUserRateLimitGuard.

Module RateLimitUsageController.
(** The answer's [data]: usage, with what is left of it. *)
Definition getUsage (userId : string) (endpoint : option string) : M Store (string * Usage * Z) :=
  let targetEndpoint := match endpoint with Some e => if str_truthy e then e else "/" | None => "/" end in
  let* usage := PerUserRateLimitService.getUsage userId targetEndpoint in
  ret (targetEndpoint, usage, Z.max 0 (u_limit usage - u_requestCount usage)).
End RateLimitUsageController.

(** ** EndpointRateLimitService *)

(** [remaining]: [None] is [Infinity]; [retryAfterMs]: [None] is [NaN]. *)
Record EndpointResult : Type := mkEndpoint {
  er_allowed : bool;
  er_remaining : option Z;
  er_retryAfterMs : option Z
}.

Record CreateEndpointRateLimitDto : Type := mkCreate {
  c_endpoint : string;
  c_method : string;
  c_maxRequests : Z;
  c_windowMs : Z;
  c_isActive : option bool
}.

Record UpdateEndpointRateLimitDto : Type := mkUpdate {
  up_endpoint : option string;
  up_method : option string;
  up_maxRequests : option Z;
  up_windowMs : option Z;
  up_isActive : option bool
}.

Module EndpointRateLimitService.
Definition is_config (endpoint method : string) (c : Config) : bool :=
  String.eqb c.(EndpointRateLimitConfigEntity.endpoint) endpoint &&
  String.eqb c.(EndpointRateLimitConfigEntity.method) (toUpperCase method) &&
  c.(EndpointRateLimitConfigEntity.isActive).

Definition window_key (endpoint method : string) : string := toUpperCase method +:+ ":" +:+ endpoint.

Definition set_window (key : string) (timestamps : list Z) (s : Store) : Store :=
  s <| RateStore.slidingWindows := <[key := timestamps]> s.(RateStore.slidingWindows) |>.

(** The entry is a shared object: the filtered list is stored even when the
    request is refused. *)
Definition checkRateLimit (endpoint method : string) : M Store EndpointResult :=
  let* found := findOne (is_config endpoint method) in
  match found with
  | None => ret (mkEndpoint true None (Some 0))
  | Some config =>
      let key := window_key endpoint method in
      let maxRequests := config.(EndpointRateLimitConfigEntity.maxRequests) in
      let windowMs := config.(EndpointRateLimitConfigEntity.windowMs) in
      let* now := date_now in
      let windowStart := now - windowMs in
      let* entry := gets (fun s => default [] (s.(RateStore.slidingWindows) !! key)) in
      let timestamps := List.filter (fun ts => windowStart <? ts) entry in
      if maxRequests <=? Z.of_nat (length timestamps) then
        modify (set_window key timestamps) ;;;
        ret (mkEndpoint false (Some 0)
               (option_map (fun oldest => Z.max (oldest + windowMs - now) 1) (hd_error timestamps)))
      else
        modify (set_window key (timestamps ++ [now])) ;;;
        ret (mkEndpoint true (Some (maxRequests - Z.of_nat (length (timestamps ++ [now])))) (Some 0))
  end.

Definition listConfigs : M Store (list Config) :=
  find_desc (fun _ => true) EndpointRateLimitConfigEntity.createdAt.

Definition createConfig (dto : CreateEndpointRateLimitDto) : M Store Config :=
  save (EndpointRateLimitConfigEntity.mk "" (c_endpoint dto) (toUpperCase (c_method dto)) (c_maxRequests dto)
          (c_windowMs dto) (default true (c_isActive dto)) 0 0).

Definition updateConfig (id : string) (dto : UpdateEndpointRateLimitDto) : M Store Config :=
  let* found := findOne (fun c => String.eqb c.(EndpointRateLimitConfigEntity.id) id) in
  match found with
  | None => throw (NotFoundException ("Rate limit config with ID " +:+ id +:+ " not found"))
  | Some c =>
      save (c <| EndpointRateLimitConfigEntity.endpoint := default c.(EndpointRateLimitConfigEntity.endpoint) (up_endpoint dto) |>
              <| EndpointRateLimitConfigEntity.method :=
                   default c.(EndpointRateLimitConfigEntity.method) (option_map toUpperCase (up_method dto)) |>
              <| EndpointRateLimitConfigEntity.maxRequests := default c.(EndpointRateLimitConfigEntity.maxRequests) (up_maxRequests dto) |>
              <| EndpointRateLimitConfigEntity.windowMs := default c.(EndpointRateLimitConfigEntity.windowMs) (up_windowMs dto) |>
              <| EndpointRateLimitConfigEntity.isActive := default c.(EndpointRateLimitConfigEntity.isActive) (up_isActive dto) |>)
  end.

Definition getDefaultConfigs : list CreateEndpointRateLimitDto :=
  [mkCreate "/api/v1/auth/login" "POST" 5 60000 None;
   mkCreate "/api/v1/auth/register" "POST" 3 300000 None;
   mkCreate "/api/v1/transactions" "POST" 10 60000 None;
   mkCreate "/api/v1/transactions" "GET" 100 60000 None;
   mkCreate "/api/v1/wallets" "GET" 100 60000 None;
   mkCreate "/api/v1/webhooks" "POST" 20 60000 None].
End EndpointRateLimitService.

Module EndpointRateLimitGuard.
Definition remaining_header (r : EndpointResult) : string * json :=
  ("X-RateLimit-Remaining", JNum (match er_remaining r with Some n => num_of_Z n | None => num_infinity end)).

(** Any failure that is not an [HttpException] lets the request pass. *)
Definition canActivate (endpoint method : string) : M Store Verdict :=
  let* checked := attempt (EndpointRateLimitService.checkRateLimit endpoint method) in
  ret match checked with
      | inl (Http status m) => ([], inl (Http status m))
      | inl _ => ([], inr true)
      | inr result =>
          if er_allowed result then ([remaining_header result], inr true)
          else
            let retryAfterSecs := match er_retryAfterMs result with
                                  | Some ms => num_of_Z (ceil_div ms 1000)
                                  | None => num_nan end in
            ([remaining_header result; ("Retry-After", JNum retryAfterSecs)],
             inl (TooManyRequests "Rate limit exceeded for this endpoint. Please try again later."))
      end.
End EndpointRateLimitGuard.

(** ** VelocityMonitorService *)

Module VelocityMonitorService.
Definition recordTransaction (userId : string) (amount : num) : M Store unit :=
  let* now := date_now in
  modify (fun s => s <| RateStore.transactionHistory :=
    <[userId := default [] (s.(RateStore.transactionHistory) !! userId) ++ [mkTransactionRecord now amount]]>
      s.(RateStore.transactionHistory) |>).

Definition getTransactionCount (userId : string) (windowMs : Z) : M Store Z :=
  let* history := gets (fun s => default [] (s.(RateStore.transactionHistory) !! userId)) in
  let* now := date_now in
  ret (Z.of_nat (length (List.filter (fun t => now - tr_timestamp t <? windowMs) history))).

Definition checkAnomalousPattern (userId : string) (windowMs : Z) : M Store bool :=
  let* history := gets (fun s => default [] (s.(RateStore.transactionHistory) !! userId)) in
  let* now := date_now in
  ret (20 <? Z.of_nat (length (List.filter (fun t => now - tr_timestamp t <? windowMs) history))).
End VelocityMonitorService.

(** ** The sliding window *)

Section SlidingWindow.
Variables (endpoint method : string).

Notation key := (EndpointRateLimitService.window_key endpoint method).

Definition window (s : Store) : list Z := default [] (s.(RateStore.slidingWindows) !! key).
Definition config_of (s : Store) : option Config :=
  List.find (fun c => live c && EndpointRateLimitService.is_config endpoint method c) s.(RateStore.configs).

Lemma window_set ts (s : Store) : window (EndpointRateLimitService.set_window key ts s) = ts.
Proof. unfold window, EndpointRateLimitService.set_window. simpl. rewrite lookup_insert_eq. reflexivity. Qed.

(** A checked request: refused with the window cut to the last [windowMs], or
    admitted and added to it. *)
Lemma checkRateLimit_spec cfg (s : Store) :
  config_of s = Some cfg ->
  let max := cfg.(EndpointRateLimitConfigEntity.maxRequests) in
  let width := cfg.(EndpointRateLimitConfigEntity.windowMs) in
  wp (EndpointRateLimitService.checkRateLimit endpoint method)
     (fun r s' => exists n, (tick (RateStore.env s) <= n < tick (RateStore.env s'))%nat /\
        env_step (RateStore.env s) (RateStore.env s') /\ s'.(RateStore.configs) = s.(RateStore.configs) /\
        let now := clock (RateStore.env s) n in
        let kept := List.filter (fun ts => now - width <? ts) (window s) in
        if er_allowed r
        then Z.of_nat (length kept) < max /\ window s' = kept ++ [now]
        else max <= Z.of_nat (length kept) /\ window s' = kept)
     (fun _ s' => env_step (RateStore.env s) (RateStore.env s') /\ s'.(RateStore.configs) = s.(RateStore.configs) /\
        window s' = window s) s.
Proof.
  intros Hcfg max width. unfold EndpointRateLimitService.checkRateLimit. wp_step. wp_step.
  { simpl. auto. }
  simpl rows. fold (config_of s). rewrite Hcfg. cbv zeta. fold max width.
  wp_step. wp_step. wp_step. wp_step.
  match goal with H1 : env_step (env_of s) ?e1, H2 : env_step ?e1 ?e2, Hn : (_ <= n < _)%nat |- _ =>
    assert (Hstep : env_step (env_of s) e2) by env_chain;
    assert (Hrange : (tick (env_of s) <= n < tick e2)%nat) by (pose proof (es_tick _ _ H1); lia);
    rewrite (es_clock _ _ H1) end.
  change (default [] _) with (window s). wp_step; wp_step; wp_step; wp_step; exists n;
    (split; [exact Hrange|]); (split; [exact Hstep|]); (split; [reflexivity|]); simpl er_allowed; cbv beta iota zeta.
  - split; [apply Z.leb_le; assumption | apply window_set].
  - split; [apply Z.leb_gt; assumption | apply window_set].
Qed.

(** What a check leaves alone, whatever the configuration. *)
Definition still (s s' : Store) : Prop :=
  env_step (RateStore.env s) (RateStore.env s') /\ s'.(RateStore.configs) = s.(RateStore.configs).
#[local] Instance still_preorder : PreOrder still.
Proof.
  split; [intros s; split; reflexivity|].
  intros s1 s2 s3 [H1 H2] [H3 H4]. split; [etransitivity; eassumption | congruence].
Qed.
#[local] Instance still_env_stable : EnvStable still.
Proof. intros s e He. split; [exact He | reflexivity]. Qed.

Lemma checkRateLimit_still : keeps still (EndpointRateLimitService.checkRateLimit endpoint method).
Proof. unfold EndpointRateLimitService.checkRateLimit. keeps_auto; split; reflexivity. Qed.

(** Anything else that happens between two requests: time passes, other
    windows move, but neither this window nor its configuration. *)
Record elsewhere (s s' : Store) : Prop := {
  el_clock : clock (RateStore.env s') = clock (RateStore.env s);
  el_tick : (tick (RateStore.env s) <= tick (RateStore.env s'))%nat;
  el_config : config_of s' = config_of s;
  el_window : window s' = window s
}.

(** When the check that ended with [r] in [s'] admitted its request. *)
Definition admission (r : exn + EndpointResult) (s' : Store) : list Z :=
  match r with
  | inr res => if er_allowed res then option_list (last (window s')) else []
  | inl _ => []
  end.

(** The requests to the endpoint since the process started, interleaved with
    anything else: the times they were admitted at, the latest first. *)
Inductive traffic : list Z -> Store -> Prop :=
  | traffic_start s : window s = [] -> traffic [] s
  | traffic_request acc s r s' :
      traffic acc s -> EndpointRateLimitService.checkRateLimit endpoint method s = (r, s') ->
      traffic (admission r s' ++ acc) s'
  | traffic_elsewhere acc s s' : traffic acc s -> elsewhere s s' -> traffic acc s'.

Definition within (t width : Z) (u : Z) : bool := (t - width <? u) && (u <=? t).
Definition later_than (c : Z) : list Z -> list Z := List.filter (fun u => c <? u).

(** The window remembers every admission since a cutoff that is behind every
    window still to be looked at; no window of the past was overfull. *)
Record remembers (width max : Z) (acc : list Z) (s : Store) : Prop := {
  rm_past : forall u n, In u acc -> (tick (RateStore.env s) <= n)%nat -> u <= clock (RateStore.env s) n;
  rm_cut : exists c, (forall n, (tick (RateStore.env s) <= n)%nat -> c <= clock (RateStore.env s) n - width) /\
    forall u, c <= u -> later_than u (window s) = later_than u (rev acc);
  rm_bound : forall t, Z.of_nat (length (List.filter (within t width) acc)) <= Z.max 0 max
}.

Lemma later_than_twice c u l : c <= u -> later_than u (later_than c l) = later_than u l.
Proof.
  intros Hcu. induction l as [|x l IH]; simpl; [reflexivity|].
  destruct (Z.ltb_spec c x); simpl; destruct (Z.ltb_spec u x); simpl; try lia; congruence.
Qed.

Lemma length_within_later t width now acc :
  now <= t -> (length (List.filter (within t width) acc) <= length (later_than (now - width) acc))%nat.
Proof.
  intros Ht. induction acc as [|x acc IH]; simpl; [lia|]. unfold within at 1.
  destruct (Z.ltb_spec (t - width) x), (Z.leb_spec x t), (Z.ltb_spec (now - width) x); simpl; lia.
Qed.

Lemma length_later_rev c acc : length (later_than c (rev acc)) = length (later_than c acc).
Proof.
  unfold later_than. induction acc as [|x acc IH]; simpl; [reflexivity|].
  rewrite List.filter_app, length_app. simpl. destruct (c <? x); simpl; lia.
Qed.

Lemma remembers_request cfg acc s r s' :
  config_of s = Some cfg -> clock_monotone (RateStore.env s) ->
  remembers cfg.(EndpointRateLimitConfigEntity.windowMs) cfg.(EndpointRateLimitConfigEntity.maxRequests) acc s ->
  EndpointRateLimitService.checkRateLimit endpoint method s = (r, s') ->
  remembers cfg.(EndpointRateLimitConfigEntity.windowMs) cfg.(EndpointRateLimitConfigEntity.maxRequests)
    (admission r s' ++ acc) s'.
Proof.
  intros Hcfg Hmono [Hpast (c & Hc & Hcut) Hbound] Hrun.
  pose proof (checkRateLimit_spec cfg s Hcfg) as Hspec. cbv zeta in Hspec. unfold wp in Hspec. rewrite Hrun in Hspec.
  set (width := EndpointRateLimitConfigEntity.windowMs cfg) in *.
  set (max := EndpointRateLimitConfigEntity.maxRequests cfg) in *.
  destruct r as [x|res].
  - destruct Hspec as (He & _ & Hw). destruct He as [Hck Htk _ _ _ _]. split; simpl.
    + intros u n Hu Hn. rewrite Hck. apply Hpast; [exact Hu | lia].
    + exists c. rewrite Hw. split; [|exact Hcut]. intros n Hn. rewrite Hck. apply Hc. lia.
    + exact Hbound.
  - destruct Hspec as (k & Hk & He & _ & Hres). destruct He as [Hck Htk _ _ _ _].
    set (now := clock (RateStore.env s) k) in *.
    assert (Hnow : forall n, (tick (RateStore.env s') <= n)%nat -> now <= clock (RateStore.env s) n)
      by (intros n Hn; apply Hmono; lia).
    assert (Hcn : c <= now - width) by (apply Hc; lia).
    change (List.filter _ (window s)) with (later_than (now - width) (window s)) in Hres.
    assert (Hkept : forall u, now - width <= u -> later_than u (later_than (now - width) (window s)) = later_than u (rev acc)).
    { intros u Hu. rewrite later_than_twice by exact Hu. apply Hcut. lia. }
    unfold admission. destruct (er_allowed res); destruct Hres as [Hlen Hw]; rewrite ?Hw.
    + rewrite last_snoc. simpl option_list. split.
      * intros u n [<-|Hu] Hn; rewrite Hck; [apply Hnow, Hn | apply Hpast; [exact Hu | lia]].
      * exists (now - width). rewrite Hck. split; [intros n Hn; specialize (Hnow n Hn); lia|].
        intros u Hu. simpl rev. rewrite ?Hw. unfold later_than at 1 3. rewrite !List.filter_app. f_equal. apply Hkept, Hu.
      * intros t. simpl. destruct (within t width now) eqn:Hin; [|apply Hbound].
        apply andb_true_iff in Hin as [_ Hle%Z.leb_le]. simpl.
        pose proof (length_within_later t width now acc Hle) as Hl.
        rewrite (Hcut (now - width) Hcn), length_later_rev in Hlen. lia.
    + simpl. split; [| |exact Hbound].
      * intros u n Hu Hn. rewrite Hck. apply Hpast; [exact Hu | lia].
      * exists (now - width). rewrite Hck, ?Hw. split; [intros n Hn; specialize (Hnow n Hn); lia | exact Hkept].
Qed.

(** C29 The sliding window holds at every instant, not only when a request is
    checked: in any interleaving of requests with anything else, no interval of
    the configured width contains more admitted requests than the
    configuration allows. *)
Theorem sliding_window_bounds_traffic cfg acc s :
  traffic acc s -> clock_monotone (RateStore.env s) -> config_of s = Some cfg ->
  forall t, Z.of_nat (length (List.filter (within t cfg.(EndpointRateLimitConfigEntity.windowMs)) acc)) <=
            Z.max 0 cfg.(EndpointRateLimitConfigEntity.maxRequests).
Proof.
  intros Htr Hmono Hcfg. apply (rm_bound _ _ acc s). revert Hmono Hcfg.
  induction Htr as [s Hw | acc s r s' _ IH Hrun | acc s s' _ IH Hel]; intros Hmono Hcfg.
  - split; [intros u n [] | | intros t; simpl; lia].
    exists (clock (RateStore.env s) (tick (RateStore.env s)) - cfg.(EndpointRateLimitConfigEntity.windowMs)).
    rewrite Hw. split; [|reflexivity]. intros n Hn. specialize (Hmono _ _ Hn). lia.
  - pose proof (checkRateLimit_still s) as [He Hcs]. rewrite Hrun in He, Hcs. simpl in He, Hcs.
    assert (Hcfg' : config_of s = Some cfg) by (unfold config_of in *; rewrite <- Hcs; exact Hcfg).
    assert (Hmono' : clock_monotone (RateStore.env s)).
    { intros n m. rewrite <- (es_clock _ _ He). apply Hmono. }
    exact (remembers_request cfg acc s r s' Hcfg' Hmono' (IH Hmono' Hcfg') Hrun).
  - destruct Hel as [Hck Htk Hcf Hw].
    destruct (IH ltac:(intros n m; rewrite <- Hck; apply Hmono) ltac:(congruence)) as [Hpast (c & Hc & Hcut) Hbound].
    split; [| |exact Hbound].
    + intros u n Hu Hn. rewrite Hck. apply Hpast; [exact Hu | lia].
    + exists c. rewrite Hw. split; [|exact Hcut]. intros n Hn. rewrite Hck. apply Hc. lia.
Qed.
End SlidingWindow.

(** ** The per-user window *)

(** However requests of both categories arrive, the counter of a window never
    passes the larger of the two limits. *)
Definition counted (s : Store) : Prop :=
  Forall (fun r => 0 <= r.(RateLimitRecordEntity.requestCount) <= 100) s.(RateStore.records).

Lemma saved_count_one (e r : RateRecord) :
  e.(RateLimitRecordEntity.requestCount) = 1 -> saved_as e r -> 0 <= r.(RateLimitRecordEntity.requestCount) <= 100.
Proof.
  intros He Hr. assert (r.(RateLimitRecordEntity.requestCount) = 1) as -> by (destruct Hr; exact He). lia.
Qed.

Lemma check_counted userId endpoint method :
  keeps (invariant counted) (PerUserRateLimitService.check userId endpoint method).
Proof.
  apply keeps_wp. intros s. unfold invariant, counted, PerUserRateLimitService.check, PerUserRateLimitService.getLimitForEndpoint.
  wp_step. wp_step. wp_step. wp_step; [auto|]. simpl rows.
  assert (Hlim : forall c, 1 <= DEFAULT_LIMITS c <= 100) by (intros []; simpl; lia).
  destruct (List.find _ _) as [r|] eqn:Hf.
  - destruct (find_live_some _ _ _ Hf) as (Hin & _ & _). wp_step.
    + wp_step. wp_step; [auto|]. wp_step. intros Hall. apply Forall_upsert; [exact Hall|].
      eapply saved_count_one; [|eassumption]; reflexivity.
    + wp_step. wp_step; wp_step.
      * auto.
      * wp_step. intros Hall. simpl. apply Forall_map. eapply Forall_impl; [exact Hall|]. intros x Hx. simpl.
        match goal with Hb : (_ <? _) = true |- _ => apply Z.ltb_lt in Hb end.
        pose proof (Hlim (PerUserRateLimitService.categorizeMethod method)).
        rewrite List.Forall_forall in Hall. specialize (Hall _ Hin).
        destruct (String.eqb _ _); simpl; [|exact Hx]. lia.
      * wp_step. auto.
  - wp_step. wp_step; [auto|]. wp_step. intros Hall. apply Forall_upsert; [exact Hall|].
    eapply saved_count_one; [|eassumption]; reflexivity.
Qed.

(** The counter of a user's window stays between zero and the larger of the
    two limits, whatever requests arrive and however they end, and a request
    that is refused found its category's limit reached. *)
Theorem per_user_counter_bounded userId endpoint method s :
  counted s ->
  match PerUserRateLimitService.check userId endpoint method s with
  | (inr r, s') => counted s' /\ pu_limit r = DEFAULT_LIMITS (PerUserRateLimitService.categorizeMethod method) /\
      0 <= pu_remaining r < pu_limit r /\
      (pu_allowed r = false -> exists rec, In rec s.(RateStore.records) /\
         PerUserRateLimitService.of_user userId endpoint rec = true /\
         pu_limit r <= rec.(RateLimitRecordEntity.requestCount))
  | (inl _, s') => counted s'
  end.
Proof.
  intros Hs. pose proof (check_counted userId endpoint method s Hs) as Hs'.
  assert (Hlim : forall c, 1 <= DEFAULT_LIMITS c <= 100) by (intros []; simpl; lia).
  specialize (Hlim (PerUserRateLimitService.categorizeMethod method)).
  cut (wp (PerUserRateLimitService.check userId endpoint method)
    (fun r _ => pu_limit r = DEFAULT_LIMITS (PerUserRateLimitService.categorizeMethod method) /\
      0 <= pu_remaining r < pu_limit r /\
      (pu_allowed r = false -> exists rec, In rec s.(RateStore.records) /\
         PerUserRateLimitService.of_user userId endpoint rec = true /\
         pu_limit r <= rec.(RateLimitRecordEntity.requestCount))) (fun _ _ => True) s).
  { unfold wp. destruct (PerUserRateLimitService.check _ _ _ s) as [[x|r] s']; auto. }
  unfold PerUserRateLimitService.check, PerUserRateLimitService.getLimitForEndpoint, PerUserRateLimitService.fresh_window.
  wp_step. wp_step. wp_step. wp_step; [auto|]. simpl rows.
  destruct (List.find _ _) as [r|] eqn:Hf.
  - destruct (find_live_some _ _ _ Hf) as (Hin & _ & Hu).
    unfold counted in Hs. rewrite List.Forall_forall in Hs. specialize (Hs _ Hin). wp_step.
    + wp_step. wp_step; [auto|]. wp_step. simpl. (split; [reflexivity|]); (split; [lia | discriminate]).
    + wp_step. destruct (r.(RateLimitRecordEntity.requestCount) <? _) eqn:Hb.
      * apply Z.ltb_lt in Hb. wp_step; [auto|]. wp_step. simpl. (split; [reflexivity|]); (split; [lia | discriminate]).
      * apply Z.ltb_ge in Hb. wp_step. wp_step. simpl. (split; [reflexivity|]); (split; [lia|]); intros _; exists r; auto.
  - wp_step. wp_step; [auto|]. wp_step. simpl. (split; [reflexivity|]); (split; [lia | discriminate]).
Qed.

(** ** Worked examples *)

Definition rate_env : Env :=
  mkEnv (fun n => 400 * Z.of_nat n) 0 (fun _ => None) 0
        (fun n => ("u"%char, string_of_N (N.of_nat n))) 0 (fun _ => num_of_Z 0) 0 [].
Definition two_per_second : Config :=
  EndpointRateLimitConfigEntity.mk "c1" "/pay" "POST" 2 1000 true 0 0.
Definition rate_start : Store := RateStore.mk rate_env [] [two_per_second] ∅ ∅.

(** Two requests pass, the third is refused, the fourth is a second after the
    first. *)
Definition pay : M Store EndpointResult := EndpointRateLimitService.checkRateLimit "/pay" "post".
Definition after_pays (n : nat) : Store := Nat.iter n (fun s => (pay s).2) rate_start.

Lemma four_pays :
  map (fun n => match (pay (after_pays n)).1 with inr r => er_allowed r | inl _ => false end) [0; 1; 2; 3]%nat =
    [true; true; false; true].
Proof. vm_compute. reflexivity. Qed.

Lemma sliding_window_bounds_traffic_witness :
  exists acc, acc = [400; 0] /\
    forall t, Z.of_nat (length (List.filter (within t 1000) acc)) <= 2.
Proof.
  assert (Htr : traffic "/pay" "post" [400; 0] (after_pays 2)).
  { apply (traffic_request "/pay" "post" [0] (after_pays 1) (pay (after_pays 1)).1 (after_pays 2));
      [|apply surjective_pairing].
    apply (traffic_request "/pay" "post" [] (after_pays 0) (pay (after_pays 0)).1 (after_pays 1));
      [|apply surjective_pairing].
    apply traffic_start. reflexivity. }
  exists [400; 0]. split; [reflexivity|].
  apply (sliding_window_bounds_traffic "/pay" "post" two_per_second [400; 0] (after_pays 2) Htr).
  - intros n m Hnm. change (400 * Z.of_nat n <= 400 * Z.of_nat m). lia.
  - vm_compute. reflexivity.
Defined.

Lemma per_user_counter_bounded_witness :
  exists r s', PerUserRateLimitService.check "ada" "/pay" "POST" rate_start = (inr r, s') /\
    pu_remaining r = 19 /\ counted s'.
Proof.
  assert (H0 : counted rate_start) by constructor.
  pose proof (per_user_counter_bounded "ada" "/pay" "POST" rate_start H0) as H.
  destruct (PerUserRateLimitService.check "ada" "/pay" "POST" rate_start) as [[x|r] s'] eqn:E; [eval_result E|].
  exists r, s'. split; [reflexivity|]. split; [|apply H]. eval_result E. subst r. reflexivity.
Defined.

(** The default configurations cannot all be stored: the one for GET
    /api/v1/transactions repeats the endpoint of the one for POST. *)
Lemma default_configs_clash :
  map (fun r => match r with inr _ => true | inl _ => false end)
    (fst (fold_left (fun '(rs, s) dto => let '(r, s') := EndpointRateLimitService.createConfig dto s in (rs ++ [r], s'))
       EndpointRateLimitService.getDefaultConfigs ([], RateStore.mk rate_env [] [] ∅ ∅))) =
  [true; true; true; false; true; true].
Proof. vm_compute. reflexivity. Qed.
