(* ===== verification/Kyc.v ===== *)
(** kyc/: submissions, their review and appeal (kyc.service.ts), the documents
    a tier accepts (kyc-document-policy.service.ts), uploaded files
    (kyc-file-validation.service.ts), reviews in bulk
    (kyc-bulk-review.service.ts) and the fraud score (fraud-detection.service.ts). *)
From S2P Require Import Prelude JsNumber Effects RepositoryLaws JsData ThirdParty WithTransaction Lifecycle.
Local Open Scope Z_scope.

Module KycDocumentStatus.
Inductive KycDocumentStatus : Type := PENDING | APPROVED | REJECTED | APPEALED.
Definition eqb (a b : KycDocumentStatus) : bool :=
  match a, b with
  | PENDING, PENDING | APPROVED, APPROVED | REJECTED, REJECTED | APPEALED, APPEALED => true
  | _, _ => false
  end.
Definition show (a : KycDocumentStatus) : string :=
  match a with
  | PENDING => "pending"
  | APPROVED => "approved"
  | REJECTED => "rejected"
  | APPEALED => "appealed"
  end.
Lemma KycDocumentStatus_eqb_eq a b : eqb a b = true <-> a = b.
Proof. destruct a, b; simpl; split; congruence. Qed.
End KycDocumentStatus.

(** kyc/kyc-document.entity.ts (the relation [user] is its id).  Migration
    AddActiveKycUniqueIndex1751210000000 makes [userId] unique among the pending
    documents. *)
Module KycDocument.
Record KycDocument : Type := mk {
  id : string;
  userId : string;
  documentType : string;
  documentNumber : string;
  documentUrl : string;
  status : KycDocumentStatus.KycDocumentStatus;
  reviewedBy : option string;
  reviewedAt : option Z;
  appealReason : option string;
  createdAt : Z
}.
#[global] Instance settable : Settable KycDocument := fun r =>
  mk r.(id) r.(userId) r.(documentType) r.(documentNumber) r.(documentUrl) r.(status)
     r.(reviewedBy) r.(reviewedAt) r.(appealReason) r.(createdAt).
End KycDocument.

#[global] Program Instance KycDocument_row : Row KycDocument.KycDocument := {|
  row_id := KycDocument.id;
  set_row_id i e := e <| KycDocument.id := i |>;
  created t e := e <| KycDocument.createdAt := t |>;
  touched t e := e;
  live e := true;
  clash a b := String.eqb a.(KycDocument.userId) b.(KycDocument.userId) &&
               KycDocumentStatus.eqb a.(KycDocument.status) KycDocumentStatus.PENDING &&
               KycDocumentStatus.eqb b.(KycDocument.status) KycDocumentStatus.PENDING
|}.

Notation Doc := KycDocument.KycDocument.

Module KycStore.
Record KycStore : Type := mk {
  env : Env;
  documents : list KycDocument.KycDocument
}.
#[global] Instance settable : Settable KycStore := fun r =>
  mk r.(env) r.(documents).
End KycStore.

#[global] Program Instance KycStore_env : HasEnv KycStore.KycStore := {|
  env_of := KycStore.env;
  set_env e w := w <| KycStore.env := e |>
|}.

#[global] Program Instance KycStore_documents : Table KycStore.KycStore KycDocument.KycDocument := {|
  rows := KycStore.documents;
  set_rows t w := w <| KycStore.documents := t |>
|}.

Notation Store := KycStore.KycStore.

(** [new URL(s).hostname]; [None]: not a URL. *)
Class UrlParser : Type := { url_host : string -> option string }.

(** The columns a body may name besides the four that its interface declares:
    nothing checks an interface at run time, and the body is copied whole (the
    stamp [createdAt] and the relation [user] are left out). *)
Record OtherColumns : Type := mkColumns {
  b_id : option string;
  b_status : option KycDocumentStatus.KycDocumentStatus;
  b_reviewedBy : option string;
  b_reviewedAt : option Z;
  b_appealReason : option string
}.
Definition no_columns : OtherColumns := mkColumns None None None None None.

Record SubmitKycDto : Type := mkSubmit {
  userId : string;
  documentType : string;
  documentNumber : string;
  documentUrl : string;
  others : OtherColumns
}.

Inductive Decision : Type := Approve | Reject.
Definition status_of (d : Decision) : KycDocumentStatus.KycDocumentStatus :=
  match d with Approve => KycDocumentStatus.APPROVED | Reject => KycDocumentStatus.REJECTED end.

(** An interface too: [r_status] is any status, not only a decision. *)
Record ReviewKycDto : Type := mkReview { reviewerId : string; r_status : KycDocumentStatus.KycDocumentStatus }.

Record Expiry : Type := mkExpiry {
  isApproved_ : bool;
  isExpired : bool;
  ex_reviewedAt : option Z;
  expiresAt : option Z
}.

(** ** KycService *)

Module KycService.
Section Service.
Context `{ConfigService} `{UrlParser} {env_storage_host : option string}.

(** [config.get('kyc.storageHost') ?? (process.env.KYC_STORAGE_HOST || '')]. *)
Definition storageHost : string :=
  match config_string "kyc.storageHost" with
  | Some h => h
  | None => default "" env_storage_host
  end.

Definition validateDocumentUrl (url allowedHost : string) : M Store unit :=
  match url_host url with
  | None => throw (BadRequestException "documentUrl must be a valid URL")
  | Some host =>
      throw_if (negb (String.eqb host allowedHost))
        (BadRequestException ("documentUrl must originate from the authorised storage domain (" +:+ allowedHost +:+ ")"))
  end.

Definition by_id (id : string) (d : Doc) : bool := String.eqb d.(KycDocument.id) id.
Definition in_status (user : string) (st : KycDocumentStatus.KycDocumentStatus) (d : Doc) : bool :=
  String.eqb d.(KycDocument.userId) user && KycDocumentStatus.eqb d.(KycDocument.status) st.

Definition already_active : exn := ConflictException "An active KYC submission already exists for this user".

(** [manager.create(KycDocument, dto)] and the row that [manager.save] makes of
    it: a body with the id of a stored document is written over it, what it does
    not name is left as it is; otherwise a new document has the defaults of the
    columns it does not name. *)
Definition merged (dto : SubmitKycDto) (row : Doc) : Doc :=
  let b := others dto in
  KycDocument.mk row.(KycDocument.id) (userId dto) (documentType dto) (documentNumber dto) (documentUrl dto)
    (default row.(KycDocument.status) (b_status b))
    (match b_reviewedBy b with Some who => Some who | None => row.(KycDocument.reviewedBy) end)
    (match b_reviewedAt b with Some t => Some t | None => row.(KycDocument.reviewedAt) end)
    (match b_appealReason b with Some x => Some x | None => row.(KycDocument.appealReason) end)
    row.(KycDocument.createdAt).

Definition blank (id : string) : Doc := KycDocument.mk id "" "" "" "" KycDocumentStatus.PENDING None None None 0.

Definition document_of (dto : SubmitKycDto) (t : list Doc) : Doc :=
  merged dto
    (match b_id (others dto) with
     | Some id => default (blank id) (List.find (by_id id) t)
     | None => blank ""
     end).

Definition submit_callback (dto : SubmitKycDto) : M Store Doc :=
  let* existing := findOne (in_status (userId dto) KycDocumentStatus.PENDING) in
  match existing with
  | Some _ => throw already_active
  | None =>
      let* t := gets KycStore.documents in
      save (document_of dto t)
  end.

Definition is_unique_violation (x : exn) : bool :=
  match x with QueryFailed code _ => String.eqb code POSTGRES_UNIQUE_VIOLATION | _ => false end.

Definition submit (dto : SubmitKycDto) : M Store Doc :=
  (if str_truthy storageHost then validateDocumentUrl (documentUrl dto) storageHost else ret tt) ;;;
  try_catch (withTransaction (rollback_table (E:=Doc)) (submit_callback dto))
    (fun err =>
       if is_unique_violation err then
         findOne (in_status (userId dto) KycDocumentStatus.PENDING) ;;; throw already_active
       else throw err).

Definition doc_json (d : Doc) : json :=
  JObj [("id", JStr d.(KycDocument.id)); ("userId", JStr d.(KycDocument.userId));
        ("documentType", JStr d.(KycDocument.documentType)); ("documentNumber", JStr d.(KycDocument.documentNumber));
        ("documentUrl", JStr d.(KycDocument.documentUrl));
        ("status", JStr (KycDocumentStatus.show d.(KycDocument.status)));
        ("reviewedBy", jopt d.(KycDocument.reviewedBy));
        ("reviewedAt", jopt (option_map toISOString d.(KycDocument.reviewedAt)));
        ("appealReason", jopt d.(KycDocument.appealReason));
        ("createdAt", JStr (toISOString d.(KycDocument.createdAt)))].

Definition review (id : string) (dto : ReviewKycDto) : M Store Doc :=
  let* found := findOne (by_id id) in
  match found with
  | None => throw (NotFoundException ("KYC document " +:+ id +:+ " not found"))
  | Some doc =>
      throw_if (negb (KycDocumentStatus.eqb doc.(KycDocument.status) KycDocumentStatus.PENDING) &&
                negb (KycDocumentStatus.eqb doc.(KycDocument.status) KycDocumentStatus.APPEALED))
        (ForbiddenException "Document has already been reviewed") ;;;
      let* now := date_now in
      let* saved := save (doc <| KycDocument.status := r_status dto |>
                              <| KycDocument.reviewedBy := Some (reviewerId dto) |>
                              <| KycDocument.reviewedAt := Some now |>) in
      emit "kyc.reviewed" (doc_json saved) ;;;
      ret saved
  end.

Definition appeal (id reason : string) : M Store Doc :=
  let* found := findOne (by_id id) in
  match found with
  | None => throw (NotFoundException ("KYC document " +:+ id +:+ " not found"))
  | Some doc =>
      throw_if (negb (KycDocumentStatus.eqb doc.(KycDocument.status) KycDocumentStatus.REJECTED))
        (ForbiddenException "Only rejected documents can be appealed") ;;;
      save (doc <| KycDocument.status := KycDocumentStatus.APPEALED |>
                <| KycDocument.appealReason := Some reason |>)
  end.

Definition expiry_of (reviewedAt validityDays : Z) : Z := reviewedAt + validityDays * 86400000.

Definition isApproved (user : string) (validityDays : Z) : M Store bool :=
  let* found := findOne (in_status user KycDocumentStatus.APPROVED) in
  match found with
  | Some doc =>
      match doc.(KycDocument.reviewedAt) with
      | Some t => let* now := date_now in ret (now <? expiry_of t validityDays)
      | None => ret false
      end
  | None => ret false
  end.

Definition checkExpiry (user : string) (validityDays : Z) : M Store Expiry :=
  let* found := findOne (in_status user KycDocumentStatus.APPROVED) in
  match found with
  | Some doc =>
      match doc.(KycDocument.reviewedAt) with
      | Some t =>
          let* now := date_now in
          let isExpired := expiry_of t validityDays <=? now in
          ret (mkExpiry (negb isExpired) isExpired (Some t) (Some (expiry_of t validityDays)))
      | None => ret (mkExpiry false false None None)
      end
  | None => ret (mkExpiry false false None None)
  end.

Definition assertApproved (user : string) : M Store unit :=
  let* approved := isApproved user 365 in
  throw_if (negb approved) (ForbiddenException "KYC verification required to perform this operation").
End Service.
End KycService.

(** ** KycBulkReviewService *)

Definition MAX_BULK_REVIEW_IDS : Z := 50.

Record BulkReviewDto : Type := mkBulk { kycIds : list string; decision : Decision; b_reviewerId : string }.
Record BulkReviewResult : Type := mkBulkResult {
  processed : Z;
  succeeded : Z;
  failed : list (string * string)
}.

Module KycBulkReviewService.
Definition review_one (dto : BulkReviewDto) (failed : list (string * string)) (id : string) :
    M Store (list (string * string)) :=
  try_catch
    (KycService.review id (mkReview (b_reviewerId dto) (status_of (decision dto))) ;;; ret failed)
    (fun error => ret (failed ++ [(id, message_of error)])).

Definition bulkReview (dto : BulkReviewDto) : M Store BulkReviewResult :=
  let ids := distinct [] (kycIds dto) in
  let n := Z.of_nat (length ids) in
  throw_if (n =? 0) (BadRequestException "kycIds must contain at least one id.") ;;;
  throw_if (MAX_BULK_REVIEW_IDS <? n)
    (BadRequestException ("A bulk review accepts at most " +:+ string_of_Z MAX_BULK_REVIEW_IDS +:+
                          " ids; received " +:+ string_of_Z n +:+ ".")) ;;;
  let* failed := fold_each ids [] (review_one dto) in
  ret (mkBulkResult n (n - Z.of_nat (length failed)) failed).
End KycBulkReviewService.

(** ** KycDocumentPolicyService *)

Definition DOCUMENT_TYPES : list string := ["passport"; "national_id"; "drivers_license"].

Definition DEFAULT_TIER_DOCUMENTS : gmap string (list string) :=
  {[ "tier_1" := ["passport"; "national_id"; "drivers_license"];
     "tier_2" := ["passport"; "national_id"];
     "tier_3" := ["passport"] ]}.

Definition LABELS (type : string) : option string :=
  if String.eqb type "passport" then Some "a passport"
  else if String.eqb type "national_id" then Some "a national ID"
  else if String.eqb type "drivers_license" then Some "a drivers license"
  else None.

(** [JSON.parse] of the configured override; it throws on text that is not JSON. *)
Class TierOverrides : Type := { parse_tiers : string -> exn + gmap string (list string) }.

Module KycDocumentPolicyService.
Section Policy.
Context `{ConfigService} `{TierOverrides}.

Definition allowedFor (tier : string) : exn + list string :=
  let overrides :=
    match config_string "KYC_TIER_DOCUMENTS" with
    | Some raw => if str_truthy raw then parse_tiers raw else inr ∅
    | None => inr ∅
    end in
  match overrides with
  | inl x => inl x
  | inr o =>
      inr match o !! toLowerCase tier with
          | Some l => l
          | None => default [] (DEFAULT_TIER_DOCUMENTS !! toLowerCase tier)
          end
  end.

Definition validate (documentType tier : string) : exn + unit :=
  let normalised := toLowerCase documentType in
  match allowedFor tier with
  | inl x => inl x
  | inr [] => inl (BadRequestException ("Unknown KYC tier '" +:+ tier +:+ "'."))
  | inr allowed =>
      if existsb (String.eqb normalised) allowed then inr tt
      else
        let accepted := join " or " (map (fun type => default type (LABELS type)) allowed) in
        inl (BadRequestException (toUpperCase tier +:+ " verification requires " +:+ accepted +:+ ". " +:+
               default documentType (LABELS normalised) +:+ " is not accepted."))
  end.
End Policy.
End KycDocumentPolicyService.

(** ** KycFileValidationService *)

Definition MAX_FILE_SIZE_BYTES : Z := 10 * 1024 * 1024.

Module KycFileValidationService.
(** A buffer is its bytes; [starts_with_bytes]: the length test and the tests of
    each byte. *)
Fixpoint starts_with_bytes (magic buf : list Z) : bool :=
  match magic, buf with
  | [], _ => true
  | m :: magic', b :: buf' => (b =? m) && starts_with_bytes magic' buf'
  | _ :: _, [] => false
  end.

Definition detectMimeType (buf : list Z) : option string :=
  if starts_with_bytes [255; 216; 255] buf then Some "image/jpeg"
  else if starts_with_bytes [137; 80; 78; 71; 13; 10; 26; 10] buf then Some "image/png"
  else if starts_with_bytes [37; 80; 68; 70] buf then Some "application/pdf"
  else None.

Definition validate (buffer : list Z) : exn + unit :=
  if MAX_FILE_SIZE_BYTES <? Z.of_nat (length buffer) then inl (Http 413 "File must not exceed 10 MB")
  else match detectMimeType buffer with
       | None => inl (Http 415 "Only JPEG, PNG, and PDF files are accepted")
       | Some _ => inr tt
       end.
End KycFileValidationService.

(** ** FraudDetectionService *)

Record FraudSignal : Type := mkSignal { signal : string; severity : string; score : num }.

Module FraudDetectionService.
Definition isBlurryOrLowQuality (url : string) : bool := false.
Definition isAltered (url : string) : bool := false.
Definition hasExpired (url type : string) : bool := false.

Definition scanDocumentForFraud (documentUrl documentType : string) : list FraudSignal :=
  (if isBlurryOrLowQuality documentUrl then [mkSignal "Low quality document" "medium" (num_of_ratio 6 10)] else []) ++
  (if isAltered documentUrl then [mkSignal "Document appears altered" "high" (num_of_ratio 85 100)] else []) ++
  (if hasExpired documentUrl documentType then [mkSignal "Document expired" "medium" (num_of_ratio 7 10)] else []).

Definition calculateRiskScore (signals : list FraudSignal) : num :=
  match signals with
  | [] => num_of_Z 0
  | _ => (fold_left (fun sum s => (sum + score s)%num) signals (num_of_Z 0) /
          num_of_Z (Z.of_nat (length signals)))%num
  end.
End FraudDetectionService.

(** ** The life of a document *)

(** A document begins pending; a decision ends a pending or appealed one, a
    rejected one may be appealed. *)
Definition submitted (d : Doc) : Prop := d.(KycDocument.status) = KycDocumentStatus.PENDING.

Inductive kyc_step : Doc -> Doc -> Prop :=
  | step_review d dec who at_ :
      d.(KycDocument.status) = KycDocumentStatus.PENDING \/ d.(KycDocument.status) = KycDocumentStatus.APPEALED ->
      kyc_step d (d <| KycDocument.status := status_of dec |> <| KycDocument.reviewedBy := Some who |>
                    <| KycDocument.reviewedAt := Some at_ |>)
  | step_appeal d reason :
      d.(KycDocument.status) = KycDocumentStatus.REJECTED ->
      kyc_step d (d <| KycDocument.status := KycDocumentStatus.APPEALED |> <| KycDocument.appealReason := Some reason |>).

Notation evolves := (evolves submitted kyc_step).

Lemma approved_final d d' : d.(KycDocument.status) = KycDocumentStatus.APPROVED -> ~ kyc_step d d'.
Proof. intros Hd Hst. inversion Hst; subst; intuition congruence. Qed.

(** What was submitted is what is decided on; a decision names its reviewer. *)
Definition kyc_sound (d0 d : Doc) : Prop :=
  d.(KycDocument.id) = d0.(KycDocument.id) /\ d.(KycDocument.userId) = d0.(KycDocument.userId) /\
  d.(KycDocument.documentUrl) = d0.(KycDocument.documentUrl).

Lemma kyc_sound_steps d0 d : rtc kyc_step d0 d -> kyc_sound d0 d.
Proof.
  intros Hst. apply (rtc_invariant kyc_step (kyc_sound d0)) with (x := d0); [|exact Hst | repeat split].
  intros x y Hxy Hx. destruct Hxy; exact Hx.
Qed.

Lemma eqb_PENDING_or_APPEALED d :
  negb (KycDocumentStatus.eqb d KycDocumentStatus.PENDING) &&
  negb (KycDocumentStatus.eqb d KycDocumentStatus.APPEALED) = false ->
  d = KycDocumentStatus.PENDING \/ d = KycDocumentStatus.APPEALED.
Proof. destruct d; simpl; intuition discriminate. Qed.

Section Lives.
Context `{ConfigService} `{UrlParser} {env_storage_host : option string}.

(** The body of a request has what its interface declares. *)
Definition only_declared (dto : SubmitKycDto) : Prop := others dto = no_columns.
Definition decision_only (dto : ReviewKycDto) : Prop := exists d, r_status dto = status_of d.

Lemma document_of_declared dto t : only_declared dto ->
  KycService.document_of dto t =
    KycDocument.mk "" (userId dto) (documentType dto) (documentNumber dto) (documentUrl dto) KycDocumentStatus.PENDING None None None 0.
Proof. unfold only_declared, KycService.document_of, KycService.merged. intros ->. reflexivity. Qed.

Lemma submit_evolves dto : only_declared dto ->
  keeps evolves (KycService.submit (env_storage_host := env_storage_host) dto).
Proof.
  intros Hd. unfold KycService.submit, KycService.validateDocumentUrl. keeps_auto.
  apply keeps_withTransaction_back; [typeclasses eauto.. | | intros; apply evolves_rollback].
  unfold KycService.submit_callback. keeps_auto. rewrite document_of_declared by exact Hd.
  apply keeps_save_new; [reflexivity|]. intros i u _. eexists. split; [|apply rtc_refl]. reflexivity.
Qed.

Lemma review_evolves id dto : decision_only dto -> keeps evolves (KycService.review id dto).
Proof.
  intros [dec Hdec]. apply keeps_wp. intros s. unfold KycService.review. rewrite Hdec. wp_step. wp_step; [evolves_leaf|].
  destruct (List.find _ _) as [d|] eqn:Hf; [|wp_step; evolves_leaf].
  wp_step. wp_step; [evolves_leaf|]. wp_step. wp_step. wp_step.
  destruct (find_live_some _ _ _ Hf) as (Hin & _).
  apply (wp_save_step submitted kyc_step d); env_norm; [exact Hin | reflexivity | | intros; evolves_leaf|].
  - intros u. apply step_review, eqb_PENDING_or_APPEALED. assumption.
  - intros u s' Hev _ _. wp_step. wp_step. wp_step. evolves_leaf.
Qed.

Lemma appeal_evolves id reason : keeps evolves (KycService.appeal id reason).
Proof.
  apply keeps_wp. intros s. unfold KycService.appeal. wp_step. wp_step; [evolves_leaf|].
  destruct (List.find _ _) as [d|] eqn:Hf; [|wp_step; evolves_leaf].
  wp_step. wp_step; [evolves_leaf|]. destruct (find_live_some _ _ _ Hf) as (Hin & _).
  apply (wp_save_step submitted kyc_step d); env_norm; [exact Hin | reflexivity | | intros; evolves_leaf | intros; evolves_leaf].
  intros u. apply step_appeal. apply KycDocumentStatus.KycDocumentStatus_eqb_eq.
  destruct (KycDocumentStatus.eqb _ _); [reflexivity | discriminate].
Qed.

Lemma bulkReview_evolves dto : keeps evolves (KycBulkReviewService.bulkReview dto).
Proof.
  unfold KycBulkReviewService.bulkReview, KycBulkReviewService.review_one. keeps_auto. apply review_evolves.
  eexists. reflexivity.
Qed.

(** The requests of the KYC controllers. *)
Inductive KycRequest : Type :=
  | RSubmit (dto : SubmitKycDto)
  | RReview (id : string) (dto : ReviewKycDto)
  | RAppeal (id reason : string)
  | RBulk (dto : BulkReviewDto).

Definition kyc_request (r : KycRequest) : M Store unit :=
  match r with
  | RSubmit dto => KycService.submit (env_storage_host := env_storage_host) dto ;;; ret tt
  | RReview id dto => KycService.review id dto ;;; ret tt
  | RAppeal id reason => KycService.appeal id reason ;;; ret tt
  | RBulk dto => KycBulkReviewService.bulkReview dto ;;; ret tt
  end.

(** A server goes on after a request that threw. *)
Definition kyc_requests (l : list KycRequest) : M Store unit :=
  for_each l (fun r => attempt (kyc_request r) ;;; ret tt).

Definition declared (r : KycRequest) : Prop :=
  match r with
  | RSubmit dto => only_declared dto
  | RReview _ dto => decision_only dto
  | RAppeal _ _ | RBulk _ => True
  end.

Lemma kyc_requests_evolve l : Forall declared l -> keeps evolves (kyc_requests l).
Proof.
  intros Hl. rewrite List.Forall_forall in Hl. unfold kyc_requests. keeps_auto. apply keeps_attempt.
  assert (Hr : declared a) by auto.
  destruct a; simpl in *; keeps_auto; auto using submit_evolves, review_evolves, appeal_evolves, bulkReview_evolves.
Qed.

(** C24 Whatever requests are served whose bodies have only what their interfaces
    declare, and however their calls fail: a document that was approved stays as
    it is; any other keeps its owner and its file and only moves along review and
    appeal; and a document that appeared since was submitted pending.  Nothing
    checks the bodies: one that names other columns decides its own review
    ([body_approves_itself]) or takes a stored document over
    ([body_takes_over_a_document]). *)
Theorem kyc_documents_follow_the_review l s :
  Forall declared l -> keys_ok s.(KycStore.documents) ->
  let s' := (kyc_requests l s).2 in
  (forall d, In d s.(KycStore.documents) -> d.(KycDocument.status) = KycDocumentStatus.APPROVED ->
             In d s'.(KycStore.documents)) /\
  (forall d, In d s.(KycStore.documents) ->
             exists d', In d' s'.(KycStore.documents) /\ rtc kyc_step d d' /\ kyc_sound d d') /\
  (forall d', In d' s'.(KycStore.documents) ->
     (exists d, In d s.(KycStore.documents) /\ rtc kyc_step d d') \/
     (exists d, submitted d /\ rtc kyc_step d d' /\ kyc_sound d d')).
Proof.
  intros Hl Hk s'. pose proof (kyc_requests_evolve l Hl s) as Hev. fold s' in Hev. split; [|split].
  - intros d Hd Ha. apply (evolves_final _ _ _ _ _ Hev Hk Hd). intros d'. apply approved_final, Ha.
  - intros d Hd. destruct (ev_kept _ _ _ _ (Hev Hk) d Hd) as (d' & Hd' & _ & Hst).
    exists d'. auto using kyc_sound_steps.
  - intros d' Hd'. destruct (ev_new _ _ _ _ (Hev Hk) d' Hd') as [(d & Hd & _ & Hst)|(d & Hd & Hst)];
      [left | right]; exists d; auto using kyc_sound_steps.
Qed.

(** ** One active submission *)

Lemma clash_sym (a b : Doc) : clash a b = clash b a.
Proof. simpl. rewrite String.eqb_sym. destruct (String.eqb _ _), (KycDocumentStatus.eqb _ _), (KycDocumentStatus.eqb _ _); reflexivity. Qed.
End Lives.

(** ** One active submission per user *)

Section Submissions.
Context `{ConfigService} `{UrlParser} {env_storage_host : option string}.

Definition pending_of (user : string) (t : list Doc) : option Doc :=
  List.find (fun d => live d && KycService.in_status user KycDocumentStatus.PENDING d) t.

(** What an ended submission has done. *)
Definition submission_ok (dto : SubmitKycDto) (before : list Doc) (d : Doc) (s' : Store) : Prop :=
  let host := KycService.storageHost (env_storage_host := env_storage_host) in
  (host = "" \/ url_host (documentUrl dto) = Some host) /\
  pending_of (userId dto) before = None /\
  saved_as (KycService.document_of dto before) d /\
  s'.(KycStore.documents) = upsert d before.

Lemma wp_submit_transaction dto s :
  wp (withTransaction (rollback_table (E:=Doc)) (KycService.submit_callback dto))
     (fun d s' => pending_of (userId dto) s.(KycStore.documents) = None /\
        saved_as (KycService.document_of dto s.(KycStore.documents)) d /\ s'.(KycStore.documents) = upsert d s.(KycStore.documents))
     (fun _ s' => s'.(KycStore.documents) = s.(KycStore.documents)) s.
Proof.
  apply wp_withTransaction; [reflexivity|]. intros e0 _. unfold KycService.submit_callback.
  wp_step. wp_step; [reflexivity|]. simpl rows. fold (pending_of (userId dto) (KycStore.documents s)).
  destruct (pending_of _ _) as [d|] eqn:Hf; [wp_step; reflexivity|]. wp_step. wp_step. wp_step; [reflexivity|].
  split; [auto | reflexivity].
Qed.

Lemma wp_submit dto s :
  wp (KycService.submit (env_storage_host := env_storage_host) dto)
     (submission_ok dto s.(KycStore.documents))
     (fun _ s' => s'.(KycStore.documents) = s.(KycStore.documents)) s.
Proof.
  unfold KycService.submit, submission_ok. cbv zeta. set (host := KycService.storageHost). apply wp_bind.
  assert (Hhost : wp (if str_truthy host then KycService.validateDocumentUrl (documentUrl dto) host else ret tt)
    (fun _ s1 => s1 = s /\ (host = "" \/ url_host (documentUrl dto) = Some host)) (fun _ s1 => s1 = s) s).
  { unfold str_truthy, KycService.validateDocumentUrl. destruct (String.eqb_spec host "") as [->|_]; simpl.
    - wp_step. auto.
    - destruct (url_host (documentUrl dto)) as [h|]; [|wp_step; reflexivity].
      wp_step; [reflexivity|]. split; [reflexivity|]. right. f_equal. apply String.eqb_eq, negb_false_iff. assumption. }
  eapply wp_mono; [exact Hhost | | intros x s1 ->; reflexivity]. intros [] s1 [-> Hok].
  apply wp_try_catch. eapply wp_mono; [apply (wp_submit_transaction dto s) | |].
  - intros d s1 (Hn & Hd & Hs1). auto.
  - intros x s1 Hs1. destruct (KycService.is_unique_violation x); wp_step; [|exact Hs1].
    wp_step; [exact Hs1 | wp_step; exact Hs1].
Qed.

(** A submission is stored only for a user without a pending one, from the
    storage host when one is configured; one that is refused or
    fails leaves the documents as they were, and until the stored one is decided
    every further submission of that user is refused. *)
Theorem one_active_submission dto s : only_declared dto ->
  match KycService.submit (env_storage_host := env_storage_host) dto s with
  | (inr d, s1) =>
      submission_ok dto s.(KycStore.documents) d s1 /\
      forall dto', userId dto' = userId dto ->
        exists x s2, KycService.submit (env_storage_host := env_storage_host) dto' s1 = (inl x, s2) /\
                     s2.(KycStore.documents) = s1.(KycStore.documents)
  | (inl _, s1) => s1.(KycStore.documents) = s.(KycStore.documents)
  end.
Proof.
  intros Hdto. pose proof (wp_submit dto s) as H1. unfold wp in H1.
  destruct (KycService.submit dto s) as [[x|d] s1]; [exact H1|]. split; [exact H1|].
  destruct H1 as (_ & Hn & Hd & Hs1). rewrite document_of_declared in Hd by exact Hdto. intros dto' Hu. pose proof (wp_submit dto' s1) as H2. unfold wp in H2.
  destruct (KycService.submit dto' s1) as [[x|d2] s2]; [eauto|]. exfalso.
  destruct H2 as (_ & Hn2 & _). unfold pending_of in Hn2. rewrite Hs1, Hu in Hn2.
  pose proof (List.find_none _ _ Hn2 d (in_upsert_self _ _)) as Hc.
  revert Hc. destruct Hd; simpl; unfold KycService.in_status; simpl; rewrite String.eqb_refl; discriminate.
Qed.
End Submissions.

(** ** Reviews in bulk *)

Section Bulk.
Variable dto : BulkReviewDto.

Definition decided (id : string) (t : list Doc) : Prop :=
  exists d, In d t /\ d.(KycDocument.id) = id /\ d.(KycDocument.status) = status_of (decision dto) /\
            d.(KycDocument.reviewedBy) = Some (b_reviewerId dto).

(** A review touches one document: a decision on another one stands. *)
Lemma review_one_spec failed id s :
  wp (KycBulkReviewService.review_one dto failed id)
    (fun failed' s' =>
       (failed' = failed /\ decided id s'.(KycStore.documents) \/
        exists m, failed' = failed ++ [(id, m)]) /\
       forall id', id' <> id -> decided id' s.(KycStore.documents) -> decided id' s'.(KycStore.documents))
    (fun _ _ => False) s.
Proof.
  unfold KycBulkReviewService.review_one, KycService.review. apply wp_try_catch.
  wp_step. wp_step. wp_step; [wp_step; eauto|].
  destruct (List.find _ _) as [d|] eqn:Hf; [|wp_step; wp_step; eauto].
  destruct (find_live_some _ _ _ Hf) as (Hin & _ & Hid). apply String.eqb_eq in Hid.
  wp_step. wp_step; [wp_step; eauto|]. wp_step. wp_step. wp_step. wp_step; [wp_step; eauto|].
  match goal with Ht : existsb _ _ = true -> exists _, ?r = _ |- _ =>
    destruct (Ht (found_row_exists _ _ _ _ Hf eq_refl)) as [u Hu]; subst r end.
  wp_step. wp_step. wp_step. wp_step. simpl. split.
  - left. split; [reflexivity|]. eexists. split; [apply in_upsert_self|]. repeat split. exact Hid.
  - intros id' Hne (d' & Hd' & Hid' & Hst). exists d'. split; [|auto].
    apply in_upsert_other; [exact Hd'|]. simpl. congruence.
Qed.

Lemma review_each_spec ids : NoDup ids -> forall failed s,
  wp (fold_each ids failed (KycBulkReviewService.review_one dto))
    (fun failed' s' =>
       exists more, failed' = failed ++ more /\ (more.*1 `sublist_of` ids) /\
       (forall id, In id ids -> In id more.*1 \/ decided id s'.(KycStore.documents)) /\
       forall id, ~ In id ids -> decided id s.(KycStore.documents) -> decided id s'.(KycStore.documents))
    (fun _ _ => False) s.
Proof.
  induction ids as [|id ids IH]; intros Hnd failed s; simpl.
  - wp_step. exists []. rewrite app_nil_r. repeat split; [constructor | intros _ [] | auto].
  - apply NoDup_cons in Hnd as [Hni Hnd]. rewrite list_elem_of_In in Hni.
    apply wp_bind. eapply wp_mono; [apply review_one_spec | | auto].
    intros failed1 s1 [Hone Hkeep1]. eapply wp_mono; [apply (IH Hnd) | | auto].
    intros failed2 s2 (more & -> & Hsub & Hall & Hkeep2).
    destruct Hone as [[-> Hdec]|[m ->]].
    + exists more. split; [reflexivity|]. split; [apply sublist_cons; exact Hsub|]. split.
      * intros id' [->|Hid']; [right; apply Hkeep2; assumption | apply Hall, Hid'].
      * intros id' Hn Hd. apply Hkeep2; [|apply Hkeep1]; tauto || (intros ->; tauto).
    + exists ((id, m) :: more). split; [rewrite <- app_assoc; reflexivity|].
      split; [simpl; apply sublist_skip; exact Hsub|]. split.
      * intros id' [->|Hid']; [left; left; reflexivity|].
        destruct (Hall id' Hid') as [Hi|Hd]; [left; right; exact Hi | right; exact Hd].
      * intros id' Hn Hd. apply Hkeep2; [|apply Hkeep1]; tauto || (intros ->; tauto).
Qed.

Lemma distinct_spec ids seen :
  NoDup (distinct seen ids) /\ (forall id, In id (distinct seen ids) <-> In id ids /\ ~ In id seen).
Proof. destruct (distinct_once ids seen) as [Hnd Hin]. split; [apply NoDup_ListNoDup, Hnd | exact Hin]. Qed.

(** A bulk review that ends accounts for every distinct id asked for, at
    least one and at most fifty: each is listed once with an error, in the order
    asked, or its document now carries the decision; a failure of one does not
    stop the rest, and the counts add up. *)
Theorem bulk_review_accounts_for_every_id s r s' :
  KycBulkReviewService.bulkReview dto s = (inr r, s') ->
  let ids := distinct [] (kycIds dto) in
  processed r = Z.of_nat (length ids) /\ 1 <= processed r <= 50 /\
  succeeded r + Z.of_nat (length (failed r)) = processed r /\ 0 <= succeeded r /\
  (failed r).*1 `sublist_of` ids /\
  (forall id, In id (kycIds dto) -> In id (failed r).*1 \/ decided id s'.(KycStore.documents)).
Proof.
  intros Hrun ids.
  assert (Hspec : wp (KycBulkReviewService.bulkReview dto)
    (fun r s' => (length ids =? 0)%nat = false /\ Z.of_nat (length ids) <= 50 /\ exists failed1,
       r = mkBulkResult (Z.of_nat (length ids)) (Z.of_nat (length ids) - Z.of_nat (length failed1)) failed1 /\
       failed1.*1 `sublist_of` ids /\
       (forall id, In id ids -> In id failed1.*1 \/ decided id s'.(KycStore.documents))) (fun _ _ => True) s).
  { unfold KycBulkReviewService.bulkReview. fold ids. cbv zeta. wp_step. wp_step; [exact I|].
    wp_step. wp_step; [exact I|]. wp_step. eapply wp_mono; [apply review_each_spec, (distinct_spec (kycIds dto) []) | | intros ? ? []].
    intros failed1 s1 (more & -> & Hsub & Hall & _). wp_step. unfold MAX_BULK_REVIEW_IDS in *. fold ids in Hsub, Hall.
    split; [apply Nat.eqb_neq; lia|]. split; [lia|]. exists more. auto. }
  destruct (wp_run_ok _ _ _ _ _ _ Hspec Hrun) as (Hpos & Hmax & failed1 & -> & Hsub & Hall). simpl.
  pose proof (sublist_length _ _ Hsub) as Hlen. rewrite length_map in Hlen. apply Nat.eqb_neq in Hpos.
  repeat split; try lia; [exact Hsub|]. intros id Hid. apply Hall, (distinct_spec (kycIds dto) []). auto.
Qed.
End Bulk.

(** ** Worked examples *)

Definition kyc_config : ConfigService := {|
  config_number _ := None; config_string k := if String.eqb k "kyc.storageHost" then Some "files.nexafx.io" else None;
  config_bool _ := None; config_list _ := None
|}.
(** Enough of a URL parser for [https://host/...]. *)
Definition kyc_urls : UrlParser := {|
  url_host s := if starts_with "https://" s
                then hd_error (split_on "/"%char (slice 8 (String.length s) s)) else None
|}.
#[local] Existing Instances kyc_config kyc_urls.
Definition kyc_env : Env :=
  mkEnv (fun n => 1700000000000 + Z.of_nat n) 0 (fun _ => None) 0
        (fun n => ("d"%char, string_of_N (N.of_nat n))) 0 (fun _ => num_of_Z 0) 0 [].
Definition passport (id user : string) (st : KycDocumentStatus.KycDocumentStatus) : Doc :=
  KycDocument.mk id user "passport" "P1" "https://files.nexafx.io/p.png" st None None None 0.
Definition kyc_store : Store := KycStore.mk kyc_env
  [passport "a" "ada" KycDocumentStatus.APPROVED; passport "b" "bob" KycDocumentStatus.PENDING].
Definition of_carol : SubmitKycDto := mkSubmit "carol" "passport" "P2" "https://files.nexafx.io/c.png" no_columns.

Lemma kyc_store_keys : keys_ok kyc_store.(KycStore.documents).
Proof. split; [apply (bool_decide_unpack _); reflexivity | repeat constructor; discriminate]. Qed.

Lemma kyc_documents_follow_the_review_witness :
  In (passport "a" "ada" KycDocumentStatus.APPROVED)
     (kyc_requests (env_storage_host := None)
        [RSubmit of_carol; RReview "b" (mkReview "carol" KycDocumentStatus.REJECTED); RAppeal "b" "a clearer scan";
         RReview "a" (mkReview "carol" KycDocumentStatus.REJECTED)]
        kyc_store).2.(KycStore.documents).
Proof.
  apply (kyc_documents_follow_the_review _ kyc_store); [|exact kyc_store_keys | left; reflexivity | reflexivity].
  repeat constructor; exists Reject; reflexivity.
Defined.

Lemma one_active_submission_witness :
  exists d s1 x s2,
    KycService.submit (env_storage_host := None) of_carol kyc_store = (inr d, s1) /\
    KycService.submit (env_storage_host := None) of_carol s1 = (inl x, s2).
Proof.
  pose proof (one_active_submission (env_storage_host := None) of_carol kyc_store eq_refl) as H.
  destruct (KycService.submit (env_storage_host := None) of_carol kyc_store) as [[x|d] s1] eqn:E; [eval_result E|].
  destruct H as [_ H]. destruct (H of_carol eq_refl) as (x & s2 & H2 & _). exists d, s1, x, s2. split; [reflexivity | exact H2].
Defined.

Lemma bulk_review_accounts_for_every_id_witness :
  exists r s', KycBulkReviewService.bulkReview (mkBulk ["b"; "a"; "b"] Approve "carol") kyc_store = (inr r, s') /\
    (In "b" (failed r).*1 \/ decided (mkBulk ["b"; "a"; "b"] Approve "carol") "b" s'.(KycStore.documents)).
Proof.
  destruct (KycBulkReviewService.bulkReview (mkBulk ["b"; "a"; "b"] Approve "carol") kyc_store) as [[x|r] s'] eqn:E;
    [eval_result E|].
  pose proof (bulk_review_accounts_for_every_id _ kyc_store r s' E) as (_ & _ & _ & _ & _ & H).
  exists r, s'. split; [reflexivity | apply H; left; reflexivity].
Defined.

(** The approved document was reported, the pending one decided. *)
Example bulk_run :
  fst (KycBulkReviewService.bulkReview (mkBulk ["b"; "a"; "b"] Approve "carol") kyc_store) =
  inr (mkBulkResult 2 1 [("a", "Document has already been reviewed")]).
Proof. vm_compute. reflexivity. Qed.

(** [isApproved] asks for one approved document, of any age: an expired approval
    found first hides a valid one. *)
Example expired_approval_hides_a_valid_one :
  let doc id t := (passport id "ada" KycDocumentStatus.APPROVED) <| KycDocument.reviewedAt := Some t |> in
  fst (KycService.isApproved "ada" 365 (KycStore.mk kyc_env [doc "old" 1600000000000; doc "new" 1690000000000])) =
  inr false.
Proof. vm_compute. reflexivity. Qed.

(** A body with a status is a document that nobody reviewed. *)
Example body_approves_itself :
  let dto := mkSubmit "carol" "passport" "P2" "https://files.nexafx.io/c.png"
    (mkColumns None (Some KycDocumentStatus.APPROVED) None (Some 1700000000000) None) in
  let s' := (KycService.submit (env_storage_host := None) dto kyc_store).2 in
  (KycService.isApproved "carol" 365 s').1 = inr true.
Proof. vm_compute. reflexivity. Qed.

(** A body with the id of Ada's approved document makes it Eve's, approved. *)
Example body_takes_over_a_document :
  let dto := mkSubmit "eve" "passport" "P9" "https://files.nexafx.io/e.png" (mkColumns (Some "a") None None None None) in
  let s' := (KycService.submit (env_storage_host := None) dto kyc_store).2 in
  map (fun d => (d.(KycDocument.id), d.(KycDocument.userId), d.(KycDocument.status))) s'.(KycStore.documents) =
    [("a", "eve", KycDocumentStatus.APPROVED); ("b", "bob", KycDocumentStatus.PENDING)].
Proof. vm_compute. reflexivity. Qed.
