(* ===== verification/Access.v ===== *)
(** Who may act: frozen accounts (modules/account-freeze/, asked by
    modules/transactions/services/transactions.service.ts), API keys and their
    guard (modules/api-keys/), plans (users/plan-upgrade.service.ts), backup
    codes (auth/2fa/backup-codes.service.ts), the biometric guard
    (auth/biometric.guard.ts) and Stellar challenges
    (auth/sep10/sep10-auth.service.ts). *)
From S2P Require Import Prelude JsNumber Effects RepositoryLaws JsData ThirdParty WithTransaction Lifecycle.
Local Open Scope Z_scope.

(** modules/account-freeze/entities/account-freeze.entity.ts *)
Module AccountFreezeEntity.
Record AccountFreezeEntity : Type := mk {
  id : string;
  userId : string;
  reason : string;
  frozenBy : string;
  unfrozenBy : option string;
  frozenAt : Z;
  unfrozenAt : option Z;
  isActive : bool;
  notes : option string;
  createdAt : Z;
  updatedAt : Z
}.
#[global] Instance settable : Settable AccountFreezeEntity := fun r =>
  mk r.(id) r.(userId) r.(reason) r.(frozenBy) r.(unfrozenBy) r.(frozenAt) r.(unfrozenAt)
     r.(isActive) r.(notes) r.(createdAt) r.(updatedAt).
End AccountFreezeEntity.

#[global] Program Instance AccountFreezeEntity_row : Row AccountFreezeEntity.AccountFreezeEntity := {|
  row_id := AccountFreezeEntity.id;
  set_row_id i e := e <| AccountFreezeEntity.id := i |>;
  created t e := e <| AccountFreezeEntity.createdAt := t |> <| AccountFreezeEntity.updatedAt := t |>;
  touched t e := e <| AccountFreezeEntity.updatedAt := t |>;
  live e := true;
  clash a b := false
|}.

(** modules/api-keys/entities/api-key.entity.ts *)
Module ApiKeyEntity.
Record ApiKeyEntity : Type := mk {
  id : string;
  userId : string;
  name : string;
  keyHash : string;
  scopes : list string;
  rateLimit : Z;
  isActive : bool;
  lastUsedAt : option Z;
  expiresAt : option Z;
  createdAt : Z;
  updatedAt : Z
}.
#[global] Instance settable : Settable ApiKeyEntity := fun r =>
  mk r.(id) r.(userId) r.(name) r.(keyHash) r.(scopes) r.(rateLimit) r.(isActive)
     r.(lastUsedAt) r.(expiresAt) r.(createdAt) r.(updatedAt).
End ApiKeyEntity.

#[global] Program Instance ApiKeyEntity_row : Row ApiKeyEntity.ApiKeyEntity := {|
  row_id := ApiKeyEntity.id;
  set_row_id i e := e <| ApiKeyEntity.id := i |>;
  created t e := e <| ApiKeyEntity.createdAt := t |> <| ApiKeyEntity.updatedAt := t |>;
  touched t e := e <| ApiKeyEntity.updatedAt := t |>;
  live e := true;
  clash a b := String.eqb a.(ApiKeyEntity.keyHash) b.(ApiKeyEntity.keyHash)
|}.

(** A Stellar challenge. *)
Record Challenge : Type := mkChallenge { nonce : string; timestamp : Z }.

Module AccessStore.
Record AccessStore : Type := mk {
  env : Env;
  freezes : list AccountFreezeEntity.AccountFreezeEntity;
  api_keys : list ApiKeyEntity.ApiKeyEntity;
  challenges : gmap string Challenge
}.
#[global] Instance settable : Settable AccessStore := fun r =>
  mk r.(env) r.(freezes) r.(api_keys) r.(challenges).
End AccessStore.

#[global] Program Instance AccessStore_env : HasEnv AccessStore.AccessStore := {|
  env_of := AccessStore.env;
  set_env e w := w <| AccessStore.env := e |>
|}.

#[global] Program Instance AccessStore_freezes : Table AccessStore.AccessStore AccountFreezeEntity.AccountFreezeEntity := {|
  rows := AccessStore.freezes;
  set_rows t w := w <| AccessStore.freezes := t |>
|}.

#[global] Program Instance AccessStore_api_keys : Table AccessStore.AccessStore ApiKeyEntity.ApiKeyEntity := {|
  rows := AccessStore.api_keys;
  set_rows t w := w <| AccessStore.api_keys := t |>
|}.

Notation Store := AccessStore.AccessStore.
Notation Freeze := AccountFreezeEntity.AccountFreezeEntity.
Notation ApiKey := ApiKeyEntity.ApiKeyEntity.

(** ** AccountFreezeService *)

Module AccountFreezeService.
Definition active_of (userId : string) (f : Freeze) : bool :=
  String.eqb f.(AccountFreezeEntity.userId) userId && f.(AccountFreezeEntity.isActive).

Definition freezeAccount (userId reason frozenBy : string) (notes : option string) : M Store Freeze :=
  let* activeFreeze := findOne (active_of userId) in
  match activeFreeze with
  | Some _ => throw (ConflictException "Account is already frozen")
  | None =>
      let* now := date_now in
      save (AccountFreezeEntity.mk "" userId reason frozenBy None now None true notes 0 0)
  end.

Definition unfreezeAccount (userId unfrozenBy : string) (notes : option string) : M Store Freeze :=
  let* activeFreeze := findOne (active_of userId) in
  match activeFreeze with
  | None => throw (NotFoundException "No active freeze found for this account")
  | Some freeze =>
      let* now := date_now in
      let freeze1 := freeze <| AccountFreezeEntity.isActive := false |>
                            <| AccountFreezeEntity.unfrozenBy := Some unfrozenBy |>
                            <| AccountFreezeEntity.unfrozenAt := Some now |> in
      save (if opt_truthy notes then freeze1 <| AccountFreezeEntity.notes := notes |> else freeze1)
  end.

Definition isAccountFrozen (userId : string) : M Store bool :=
  let* activeFreeze := findOne (active_of userId) in
  ret (match activeFreeze with Some _ => true | None => false end).

Definition getFreezeHistory (userId : string) : M Store (list Freeze) :=
  find_desc (fun f => String.eqb f.(AccountFreezeEntity.userId) userId) AccountFreezeEntity.frozenAt.

(** TransactionsService of modules/transactions. *)
Definition assertAccountNotFrozen (userId : string) : M Store unit :=
  let* frozen := isAccountFrozen userId in
  throw_if frozen (ForbiddenException "Account is frozen and cannot initiate transactions").
End AccountFreezeService.

(** ** ApiKeysService *)

Record CreateApiKeyData : Type := mkKeyData {
  k_name : string;
  k_scopes : option (list string);
  k_rateLimit : option Z;
  k_expiresAt : option string
}.

Module ApiKeysService.
Section Keys.
Context `{Crypto} `{Radix36}.

(** [Math.random().toString(36).substring(2)]. *)
Definition random36 (r : num) : string :=
  let d := toString36 r in String.substring 2 (String.length d - 2) d.

Definition generateApiKey : M Store string :=
  let* now := date_now in
  let* r := math_random in
  ret ("nxf_" +:+ sha256_hex (string_of_Z now +:+ "-" +:+ random36 r)).

Definition hashKey (key : string) : string := sha256_hex key.

(** [expiresAt ? new Date(expiresAt) : undefined]: a date that does not parse
    is refused by the database. *)
Definition expiry (data : CreateApiKeyData) : exn + option Z :=
  match k_expiresAt data with
  | Some s =>
      if str_truthy s then
        match parse_iso s with
        | Some t => inr (Some t)
        | None => inl (QueryFailed "22007" "invalid input syntax for type timestamp")
        end
      else inr None
  | None => inr None
  end.

Definition same_name (userId name : string) (k : ApiKey) : bool :=
  String.eqb k.(ApiKeyEntity.userId) userId && String.eqb k.(ApiKeyEntity.name) name &&
  k.(ApiKeyEntity.isActive).

Definition createApiKey (userId : string) (data : CreateApiKeyData) : M Store (ApiKey * string) :=
  let* existing := findOne (same_name userId (k_name data)) in
  match existing with
  | Some _ => throw (ConflictException "API key with this name already exists")
  | None =>
      let* plainKey := generateApiKey in
      let keyHash := hashKey plainKey in
      let rateLimit := match k_rateLimit data with Some n => if n =? 0 then 1000 else n | None => 1000 end in
      let* expiresAt := lift (expiry data) in
      let* saved := save (ApiKeyEntity.mk "" userId (k_name data) keyHash (default [] (k_scopes data)) rateLimit
                            true None expiresAt 0 0) in
      ret (saved, plainKey)
  end.

Definition getApiKeysByUser (userId : string) : M Store (list ApiKey) :=
  find_desc (fun k => String.eqb k.(ApiKeyEntity.userId) userId) ApiKeyEntity.createdAt.

Definition owned (id userId : string) (k : ApiKey) : bool :=
  String.eqb k.(ApiKeyEntity.id) id && String.eqb k.(ApiKeyEntity.userId) userId.

Definition revokeApiKey (id userId : string) : M Store ApiKey :=
  let* found := findOne (owned id userId) in
  match found with
  | None => throw (NotFoundException "API key not found")
  | Some apiKey => save (apiKey <| ApiKeyEntity.isActive := false |>)
  end.

Definition usable (keyHash : string) (k : ApiKey) : bool :=
  String.eqb k.(ApiKeyEntity.keyHash) keyHash && k.(ApiKeyEntity.isActive).

Definition validateApiKey (key : string) : M Store ApiKey :=
  let* found := findOne (usable (hashKey key)) in
  match found with
  | None => throw (UnauthorizedException "Invalid API key")
  | Some apiKey =>
      (match apiKey.(ApiKeyEntity.expiresAt) with
       | Some t => let* now := date_now in throw_if (t <? now) (UnauthorizedException "API key has expired")
       | None => ret tt
       end) ;;;
      let* now := date_now in
      let apiKey := apiKey <| ApiKeyEntity.lastUsedAt := Some now |> in
      save apiKey
  end.
End Keys.
End ApiKeysService.

(** The user a guarded request runs as. *)
Module ApiKeyGuard.
Section Guard.
Context `{Crypto}.

Definition canActivate (header : option string) : M Store (string * ApiKey) :=
  match header with
  | Some key =>
      if str_truthy key then
        try_catch
          (let* validKey := ApiKeysService.validateApiKey key in
           ret (validKey.(ApiKeyEntity.userId), validKey))
          (fun error =>
             match error with
             | Http 401 _ => throw error
             | _ => throw (UnauthorizedException "Invalid API key")
             end)
      else throw (UnauthorizedException "API key required")
  | None => throw (UnauthorizedException "API key required")
  end.
End Guard.
End ApiKeyGuard.

(** ** PlanUpgradeService *)

Module PlanUpgradeService.
Inductive UserPlan : Type := FREE | BASIC | PREMIUM | ENTERPRISE.

Record Benefits : Type := mkBenefits { transactionLimit : num; beneficiaries : num; apiAccess : bool }.

Definition PlanBenefits (plan : UserPlan) : Benefits :=
  match plan with
  | FREE => mkBenefits (num_of_Z 10) (num_of_Z 1) false
  | BASIC => mkBenefits (num_of_Z 100) (num_of_Z 5) true
  | PREMIUM => mkBenefits (num_of_Z 1000) (num_of_Z 20) true
  | ENTERPRISE => mkBenefits num_infinity num_infinity true
  end.

Definition getPlanBenefits (plan : UserPlan) : Benefits := PlanBenefits plan.

(** A placeholder in the source: nothing is stored. *)
Definition upgradePlan (userId : string) (newPlan : UserPlan) : M Store unit := ret tt.

(** [benefits[feature]], a value of any type: its truthiness. *)
Definition checkPlanBenefit (plan : UserPlan) (feature : string) : bool :=
  let benefits := PlanBenefits plan in
  if String.eqb feature "transactionLimit" then num_truthy (transactionLimit benefits)
  else if String.eqb feature "beneficiaries" then num_truthy (beneficiaries benefits)
  else if String.eqb feature "apiAccess" then apiAccess benefits
  else false.
End PlanUpgradeService.

(** ** BackupCodesService *)

Module BackupCodesService.
Section Codes.
Context `{Crypto}.

(** Each code is four random bytes in capital hexadecimal digits. *)
Definition one_code : M Store string :=
  let* seed := random_uuid in
  let code := toUpperCase (random_hex 4 seed) in
  ret (slice 0 4 code +:+ "-" +:+ slice 4 (String.length code) code).

Fixpoint generate (count : nat) : M Store (list string) :=
  match count with
  | O => ret []
  | S n => let* code := one_code in let* codes := generate n in ret (code :: codes)
  end.

Definition generateBackupCodes (count : option Z) : M Store (list string) :=
  generate (Z.to_nat (default 10 count)).

Definition validateBackupCode (code : string) (storedCodes : list string) : bool :=
  existsb (String.eqb (toUpperCase code)) storedCodes.

Definition removeUsedCode (code : string) (storedCodes : list string) : list string :=
  List.filter (fun c => negb (String.eqb c (toUpperCase code))) storedCodes.
End Codes.
End BackupCodesService.

(** ** BiometricGuard *)

Module BiometricGuard.
(** [verifyToken] is a stub in the source: it accepts every token. *)
Definition verifyToken (token : string) : M Store (bool * Z) :=
  let* now := date_now in ret (true, now).

Definition canActivate (header : option string) : M Store (bool * Z) :=
  if opt_truthy header then
    try_catch (verifyToken (default "" header)) (fun _ => throw (UnauthorizedException "Invalid biometric token"))
  else throw (UnauthorizedException "Biometric token required").
End BiometricGuard.

(** ** Sep10AuthService *)

Module Sep10AuthService.
Section Sep10.
Context `{Crypto}.

Definition generateChallenge (publicKey : string) : M Store string :=
  let* seed := random_uuid in
  let nonce := random_hex 32 seed in
  let* now := date_now in
  modify (fun s => s <| AccessStore.challenges :=
                          <[publicKey := mkChallenge nonce now]> s.(AccessStore.challenges) |>) ;;;
  ret nonce.

(** The signature is not compared with anything: it must not be empty. *)
Definition validateChallenge (publicKey signature : string) : M Store bool :=
  let* challenge := gets (fun s => s.(AccessStore.challenges) !! publicKey) in
  match challenge with
  | None => ret false
  | Some challenge =>
      let* now := date_now in
      if 3600000 <? now - timestamp challenge then ret false
      else
        modify (fun s => s <| AccessStore.challenges := delete publicKey s.(AccessStore.challenges) |>) ;;;
        ret (0 <? Z.of_nat (String.length signature))
  end.
End Sep10.
End Sep10AuthService.

(** ** Frozen accounts as a set

    The abstract state is who is frozen; freezing adds, unfreezing removes. *)
Definition frozen (t : list Freeze) (user : string) : bool :=
  existsb (AccountFreezeService.active_of user) t.

(** At most one freeze of a user is active. *)
Definition one_active (t : list Freeze) : Prop :=
  forall a b, In a t -> In b t -> a.(AccountFreezeEntity.isActive) = true -> b.(AccountFreezeEntity.isActive) = true ->
    a.(AccountFreezeEntity.userId) = b.(AccountFreezeEntity.userId) -> a = b.
Definition freezes_ok (t : list Freeze) : Prop := keys_ok t /\ one_active t.

Lemma active_of_true user f :
  AccountFreezeService.active_of user f = true <->
  f.(AccountFreezeEntity.userId) = user /\ f.(AccountFreezeEntity.isActive) = true.
Proof. unfold AccountFreezeService.active_of. rewrite andb_true_iff, String.eqb_eq. reflexivity. Qed.

Lemma frozen_find t user :
  frozen t user = match List.find (fun f => live f && AccountFreezeService.active_of user f) t with
                  | Some _ => true | None => false end.
Proof.
  unfold frozen. induction t as [|f t IH]; simpl; [reflexivity|].
  destruct (AccountFreezeService.active_of user f); simpl; [reflexivity | exact IH].
Qed.

Lemma frozen_true t user :
  frozen t user = true <-> exists f, In f t /\ f.(AccountFreezeEntity.userId) = user /\ f.(AccountFreezeEntity.isActive) = true.
Proof.
  unfold frozen. rewrite existsb_exists. split; intros (f & Hf & H); exists f; (split; [exact Hf|]).
  - apply active_of_true, H.
  - apply active_of_true. exact H.
Qed.

Lemma one_active_upsert t r :
  one_active t ->
  (r.(AccountFreezeEntity.isActive) = true ->
   forall f, In f t -> f.(AccountFreezeEntity.isActive) = true ->
     f.(AccountFreezeEntity.userId) <> r.(AccountFreezeEntity.userId)) ->
  one_active (upsert r t).
Proof.
  intros Ht Hr a b Ha Hb Hact Hbct Hu.
  apply in_upsert in Ha as [->|[Ha _]], Hb as [->|[Hb _]]; [reflexivity | | |].
  - exfalso. apply (Hr Hact b Hb Hbct). congruence.
  - exfalso. apply (Hr Hbct a Ha Hact). congruence.
  - apply Ht; assumption.
Qed.

Lemma freezeAccount_spec user reason by_ notes s :
  keys_ok s.(AccessStore.freezes) ->
  wp (AccountFreezeService.freezeAccount user reason by_ notes)
    (fun f s' => frozen s.(AccessStore.freezes) user = false /\
       f.(AccountFreezeEntity.userId) = user /\ f.(AccountFreezeEntity.isActive) = true /\
       row_id f <> "" /\ existsb (same_row f) s.(AccessStore.freezes) = false /\
       s'.(AccessStore.freezes) = upsert f s.(AccessStore.freezes))
    (fun _ s' => s'.(AccessStore.freezes) = s.(AccessStore.freezes)) s.
Proof.
  intros Hk. unfold AccountFreezeService.freezeAccount. wp_step. wp_step; [reflexivity|]. simpl rows.
  rewrite frozen_find. destruct (List.find _ _) as [f|]; [wp_step; reflexivity|].
  wp_step. wp_step. wp_step; [reflexivity|]. simpl rows in *.
  match goal with Hn : existsb (same_row ?e) _ = false -> _ |- _ =>
    pose proof (keyless_not_in _ e Hk eq_refl) as Hex end.
  match goal with Hn : existsb _ _ = false -> row_id _ <> "" /\ _ |- _ => destruct (Hn Hex) as [Hid Hfresh] end.
  match goal with Hs : saved_as _ ?r |- _ =>
    assert (r.(AccountFreezeEntity.userId) = user /\ r.(AccountFreezeEntity.isActive) = true) as [Hu Ha]
      by (destruct Hs; split; reflexivity) end.
  repeat split; assumption.
Qed.

Lemma unfreezeAccount_spec user by_ notes s :
  wp (AccountFreezeService.unfreezeAccount user by_ notes)
    (fun f s' => exists f0, In f0 s.(AccessStore.freezes) /\ AccountFreezeService.active_of user f0 = true /\
       row_id f = row_id f0 /\ f.(AccountFreezeEntity.isActive) = false /\
       s'.(AccessStore.freezes) = upsert f s.(AccessStore.freezes))
    (fun _ s' => s'.(AccessStore.freezes) = s.(AccessStore.freezes)) s.
Proof.
  unfold AccountFreezeService.unfreezeAccount. wp_step. wp_step; [reflexivity|]. simpl rows.
  destruct (List.find _ _) as [f|] eqn:Hf; [|wp_step; reflexivity].
  destruct (find_live_some _ _ _ Hf) as (Hin & _ & Hact). wp_step. wp_step.
  match goal with |- context [save ?e] => set (f1 := e) end.
  assert (Hid : row_id f1 = row_id f) by (unfold f1; destruct (opt_truthy notes); reflexivity).
  assert (Hoff : f1.(AccountFreezeEntity.isActive) = false) by (unfold f1; destruct (opt_truthy notes); reflexivity).
  clearbody f1. wp_step; [reflexivity|]. simpl rows in *. exists f. split; [exact Hin|]. split; [exact Hact|].
  match goal with Ht : existsb (same_row f1) _ = true -> exists _, ?r = _ |- _ =>
    destruct (Ht (found_row_exists _ _ _ _ Hf Hid)) as [u Hu]; subst r end.
  split; [exact Hid|]. split; [exact Hoff | reflexivity].
Qed.

(** The service implements a set of frozen users: freezing adds the user, who
    was not in it, unfreezing removes the user, who was; a call that throws
    leaves the set as it was; and no sequence of calls makes two freezes of one
    user active. *)
Theorem freezes_implement_a_set user who reason notes s :
  freezes_ok s.(AccessStore.freezes) ->
  match AccountFreezeService.freezeAccount user reason who notes s with
  | (inr _, s') => freezes_ok s'.(AccessStore.freezes) /\ frozen s.(AccessStore.freezes) user = false /\
      forall v, frozen s'.(AccessStore.freezes) v = String.eqb v user || frozen s.(AccessStore.freezes) v
  | (inl _, s') => s'.(AccessStore.freezes) = s.(AccessStore.freezes)
  end /\
  match AccountFreezeService.unfreezeAccount user who notes s with
  | (inr _, s') => freezes_ok s'.(AccessStore.freezes) /\ frozen s.(AccessStore.freezes) user = true /\
      forall v, frozen s'.(AccessStore.freezes) v = negb (String.eqb v user) && frozen s.(AccessStore.freezes) v
  | (inl _, s') => s'.(AccessStore.freezes) = s.(AccessStore.freezes)
  end.
Proof.
  intros [Hk Hone]. split.
  - pose proof (freezeAccount_spec user reason who notes s Hk) as H. unfold wp in H.
    destruct (AccountFreezeService.freezeAccount _ _ _ _ _) as [[x|f] s']; [exact H|].
    destruct H as (Hno & Hu & Ha & Hid & Hfresh & ->). split; [split|].
    + apply keys_ok_upsert; assumption.
    + apply one_active_upsert; [exact Hone|]. intros _ g Hg Hga Heq. rewrite Hu in Heq.
      assert (frozen s.(AccessStore.freezes) user = true) by (apply frozen_true; eauto). congruence.
    + split; [exact Hno|]. intros v. apply eq_iff_eq_true. rewrite orb_true_iff, String.eqb_eq, !frozen_true. split.
      * intros (g & Hg & Hgu & Hga). apply in_upsert in Hg as [->|[Hg _]]; [left; congruence | right; eauto].
      * intros [->|(g & Hg & Hgu & Hga)]; [exists f; auto using in_upsert_self|].
        exists g. split; [|auto]. apply in_upsert_other; [exact Hg|]. intros Heq.
        assert (existsb (same_row f) s.(AccessStore.freezes) = true); [|congruence].
        apply existsb_exists. exists g. split; [exact Hg | apply same_row_true; congruence].
  - pose proof (unfreezeAccount_spec user who notes s) as H. unfold wp in H.
    destruct (AccountFreezeService.unfreezeAccount _ _ _ _) as [[x|f] s']; [exact H|].
    destruct H as (f0 & Hin & Hact & Hid & Hoff & ->). apply active_of_true in Hact as [Hu Ha].
    assert (Hne : row_id f0 <> "") by (destruct Hk as [_ Hne]; rewrite List.Forall_forall in Hne; auto).
    split; [split|].
    + apply keys_ok_upsert; [exact Hk | congruence].
    + apply one_active_upsert; [exact Hone | congruence].
    + split; [apply frozen_true; eauto|]. intros v. apply eq_iff_eq_true.
      rewrite andb_true_iff, negb_true_iff, String.eqb_neq, !frozen_true. split.
      * intros (g & Hg & Hgu & Hga). apply in_upsert in Hg as [->|[Hg Hgid]]; [congruence|].
        split; [|eauto]. intros ->. apply Hgid. rewrite Hid.
        assert (g = f0) as -> by (apply Hone; congruence). reflexivity.
      * intros [Hv (g & Hg & Hgu & Hga)]. exists g. split; [|auto]. apply in_upsert_other; [exact Hg|].
        rewrite Hid. intros Heq. apply Hv.
        assert (g = f0) as -> by (apply (NoDup_row_id_inj s.(AccessStore.freezes)); [apply Hk | assumption ..]). congruence.
Qed.

(** ** API keys *)

(** A key may be used and may be revoked; nothing makes it active again. *)
Definition issued (k : ApiKey) : Prop := k.(ApiKeyEntity.isActive) = true.
Inductive key_step : ApiKey -> ApiKey -> Prop :=
  | step_use k at_ u : k.(ApiKeyEntity.isActive) = true ->
      key_step k (touched u (k <| ApiKeyEntity.lastUsedAt := Some at_ |>))
  | step_revoke k u : key_step k (touched u (k <| ApiKeyEntity.isActive := false |>)).

Notation evolves := (evolves (S:=Store) issued key_step).

Lemma revoked_steps k k' : rtc key_step k k' ->
  k'.(ApiKeyEntity.keyHash) = k.(ApiKeyEntity.keyHash) /\
  (k.(ApiKeyEntity.isActive) = false -> k'.(ApiKeyEntity.isActive) = false).
Proof.
  intros Hst. induction Hst as [k|k k1 k2 Hstep _ [IHh IHa]]; [auto|].
  split; [rewrite IHh; destruct Hstep; reflexivity|]. intros Hoff. apply IHa. destruct Hstep; [congruence | reflexivity].
Qed.

Section KeyLaws.
Context `{Crypto} `{Radix36}.

Inductive KeyRequest : Type :=
  | RCreate (userId : string) (data : CreateApiKeyData)
  | RRevoke (id userId : string)
  | RUse (key : string).

Definition key_request (r : KeyRequest) : M Store unit :=
  match r with
  | RCreate u data => ApiKeysService.createApiKey u data ;;; ret tt
  | RRevoke id u => ApiKeysService.revokeApiKey id u ;;; ret tt
  | RUse key => ApiKeysService.validateApiKey key ;;; ret tt
  end.
Definition key_requests (l : list KeyRequest) : M Store unit :=
  for_each l (fun r => attempt (key_request r) ;;; ret tt).

Lemma createApiKey_evolves u data : keeps evolves (ApiKeysService.createApiKey u data).
Proof.
  unfold ApiKeysService.createApiKey, ApiKeysService.generateApiKey. keeps_auto.
  apply keeps_save_new; [reflexivity|]. intros i t _. eexists. split; [|apply rtc_refl]. reflexivity.
Qed.

Lemma revokeApiKey_evolves id u : keeps evolves (ApiKeysService.revokeApiKey id u).
Proof.
  apply keeps_wp. intros s. unfold ApiKeysService.revokeApiKey. wp_step. wp_step; [evolves_leaf|].
  destruct (List.find _ _) as [k|] eqn:Hf; [|wp_step; evolves_leaf].
  destruct (find_live_some _ _ _ Hf) as (Hin & _).
  apply (wp_save_step issued key_step k); env_norm; [exact Hin | reflexivity | | intros; evolves_leaf | intros; evolves_leaf].
  intros t. apply step_revoke.
Qed.

(** What an accepted key is, and what accepting it writes. *)
Lemma validateApiKey_spec key s :
  wp (ApiKeysService.validateApiKey key)
    (fun k' s' => evolves s s' /\ exists k, In k s.(AccessStore.api_keys) /\
       ApiKeysService.usable (ApiKeysService.hashKey key) k = true /\ row_id k' = row_id k)
    (fun _ s' => evolves s s') s.
Proof.
  unfold ApiKeysService.validateApiKey. wp_step. wp_step; [evolves_leaf|].
  destruct (List.find _ _) as [k|] eqn:Hf; [|wp_step; evolves_leaf].
  destruct (find_live_some _ _ _ Hf) as (Hin & _ & Hus).
  assert (Hact : k.(ApiKeyEntity.isActive) = true) by (apply andb_prop in Hus; tauto).
  wp_step. assert (Hexp : forall s1 : Store, evolves s s1 -> rows s1 = (rows s : list ApiKey) ->
    wp (match k.(ApiKeyEntity.expiresAt) with
        | Some t => let* now := date_now in throw_if (t <? now) (UnauthorizedException "API key has expired")
        | None => ret tt end)
      (fun _ s2 => evolves s s2 /\ rows s2 = (rows s : list ApiKey)) (fun _ s2 => evolves s s2) s1).
  { intros s1 Hev Hr. destruct (k.(ApiKeyEntity.expiresAt)); wp_step; [|auto].
    wp_step. wp_step; [evolves_leaf | split; [evolves_leaf | exact Hr]]. }
  eapply wp_mono; [apply Hexp; [evolves_leaf | apply rows_set_env] | | auto].
  intros [] s1 [Hev Hr]. wp_step. wp_step.
  assert (Hex : forall s2, evolves s1 s2 -> evolves s s2) by (intros s2 Hs2; etransitivity; eassumption).
  apply (wp_save_step issued key_step k); env_norm; [rewrite Hr; exact Hin | reflexivity | | |].
  - intros t. apply step_use, Hact.
  - intros. apply Hex. evolves_leaf.
  - intros t s2 Hev2 _ _. split; [apply Hex; evolves_leaf|]. exists k. auto.
Qed.

Lemma key_requests_evolve l : keeps evolves (key_requests l).
Proof.
  unfold key_requests. keeps_auto. apply keeps_attempt. destruct a as [u data|id u|key]; simpl; keeps_auto;
    auto using createApiKey_evolves, revokeApiKey_evolves.
  intros s. pose proof (validateApiKey_spec key s) as Hv. unfold wp in Hv.
  destruct (ApiKeysService.validateApiKey key s) as [[x|k] s']; [exact Hv | apply Hv].
Qed.

Lemma key_clash_sym (a b : ApiKey) : clash a b = clash b a.
Proof. apply String.eqb_sym. Qed.

Lemma key_requests_unique l :
  keeps (invariant (fun s : Store => table_unique s.(AccessStore.api_keys))) (key_requests l).
Proof.
  unfold key_requests. keeps_auto. apply keeps_attempt.
  destruct a; simpl; unfold ApiKeysService.createApiKey, ApiKeysService.generateApiKey, ApiKeysService.revokeApiKey,
    ApiKeysService.validateApiKey; keeps_auto; refine (keeps_save_unique (S:=Store) _ key_clash_sym).
Qed.

(** A revoked key is dead: whatever requests are served after its revocation
    and however they fail, it is never accepted again. *)
Theorem revoked_key_is_never_accepted key k l s :
  keys_ok s.(AccessStore.api_keys) -> table_unique s.(AccessStore.api_keys) ->
  In k s.(AccessStore.api_keys) -> k.(ApiKeyEntity.keyHash) = ApiKeysService.hashKey key ->
  k.(ApiKeyEntity.isActive) = false ->
  forall k' s'', ApiKeysService.validateApiKey key (key_requests l s).2 <> (inr k', s'').
Proof.
  intros Hk Hu Hin Hh Hoff k' s'' Hrun. set (s' := (key_requests l s).2) in *.
  pose proof (key_requests_evolve l s Hk) as Hev. pose proof (key_requests_unique l s Hu) as Hu'. fold s' in Hev, Hu'.
  destruct (ev_kept _ _ _ _ Hev k Hin) as (k1 & Hk1 & _ & Hst). apply revoked_steps in Hst as [Hh1 Hoff1].
  destruct (wp_run_ok _ _ _ _ _ _ (validateApiKey_spec key s') Hrun) as (_ & k2 & Hk2 & Hus & _).
  apply andb_prop in Hus as [Hh2 Ha2]. apply String.eqb_eq in Hh2. specialize (Hoff1 Hoff).
  assert (k2 = k1) as ->; [|congruence]. destruct Hu' as [Hnd Hcl].
  destruct (decide (row_id k2 = row_id k1)) as [Heq|Hne]; [apply (NoDup_row_id_inj s'.(AccessStore.api_keys)); assumption|].
  exfalso. specialize (Hcl k2 k1 Hk2 Hk1 Hne). simpl in Hcl. apply String.eqb_neq in Hcl. congruence.
Qed.

(** What a creation stores. *)
Lemma createApiKey_spec user data s :
  table_unique s.(AccessStore.api_keys) ->
  wp (ApiKeysService.createApiKey user data) (fun r s' =>
      In r.1 s'.(AccessStore.api_keys) /\ r.1.(ApiKeyEntity.keyHash) = sha256_hex r.2 /\
      r.1.(ApiKeyEntity.isActive) = true /\ r.1.(ApiKeyEntity.userId) = user /\
      table_unique s'.(AccessStore.api_keys)) (fun _ _ => True) s.
Proof.
  intros Hu. unfold ApiKeysService.createApiKey, ApiKeysService.generateApiKey. wp_step. wp_step; [exact I|]. simpl rows.
  destruct (List.find _ _) as [k0|]; [wp_step; exact I|]. repeat wp_step.
  apply wp_lift; [auto|]. intros ex _. wp_step. wp_step; [exact I|]. wp_step. simpl rows in *.
  match goal with Hs : saved_as _ ?r |- _ => rename r into k1; rename Hs into Hsaved end.
  split; [apply in_upsert_self|]. split; [destruct Hsaved; reflexivity|]. split; [destruct Hsaved; reflexivity|].
  split; [destruct Hsaved; reflexivity|]. apply table_unique_upsert; [exact key_clash_sym | exact Hu | assumption].
Qed.

(** A fresh key works: the plain key of a creation that returned is accepted
    as that key, unless a call fails or its expiry has passed; the table holds
    its hash only. *)
Theorem created_key_is_accepted user data s k plain s' :
  table_unique s.(AccessStore.api_keys) ->
  ApiKeysService.createApiKey user data s = (inr (k, plain), s') ->
  In k s'.(AccessStore.api_keys) /\ k.(ApiKeyEntity.keyHash) = sha256_hex plain /\
  match ApiKeysService.validateApiKey plain s' with
  | (inr k', _) => k'.(ApiKeyEntity.id) = k.(ApiKeyEntity.id) /\ k'.(ApiKeyEntity.userId) = user
  | (inl x, _) => env_fault (env_of s') x \/ x = UnauthorizedException "API key has expired"
  end.
Proof.
  intros Hu Hrun.
  destruct (wp_run_ok _ _ _ _ _ _ (createApiKey_spec user data s Hu) Hrun) as (Hin & Hh & Hact & Hus & Hu1). simpl in *.
  split; [exact Hin|]. split; [exact Hh|].
  assert (Hf : List.find (fun e => live e && ApiKeysService.usable (sha256_hex plain) e) s'.(AccessStore.api_keys) = Some k).
  { apply find_by_id; [apply Hu1 | exact Hin | unfold ApiKeysService.usable; simpl; rewrite Hh, Hact, String.eqb_refl; reflexivity|].
    intros x Hx Hp. apply andb_prop in Hp as [_ Hp]. apply andb_prop in Hp as [Hp _]. apply String.eqb_eq in Hp.
    destruct (decide (row_id x = row_id k)) as [Heq|Hne]; [exact Heq|]. exfalso.
    pose proof (proj2 Hu1 x k Hx Hin Hne) as Hc. simpl in Hc. apply String.eqb_neq in Hc. congruence. }
  apply (wp_elim _ (fun r => match r with (inr k', _) => _ | (inl x, _) => _ end)).
  unfold ApiKeysService.validateApiKey, ApiKeysService.hashKey. wp_step. wp_step; [left; assumption|].
  simpl rows. rewrite Hf. wp_step.
  assert (Hexp : forall s1 : Store, env_step (env_of s') (env_of s1) -> rows s1 = (rows s' : list ApiKey) ->
    wp (match k.(ApiKeyEntity.expiresAt) with
        | Some t => let* now := date_now in throw_if (t <? now) (UnauthorizedException "API key has expired")
        | None => ret tt end)
      (fun _ s2 => env_step (env_of s') (env_of s2) /\ rows s2 = (rows s' : list ApiKey))
      (fun x _ => x = UnauthorizedException "API key has expired") s1).
  { intros s1 He Hr. destruct (k.(ApiKeyEntity.expiresAt)); wp_step; [|auto].
    wp_step. wp_step; [reflexivity | split; [env_chain | exact Hr]]. }
  eapply wp_mono; [apply Hexp; [env_norm; assumption | reflexivity] | | intros x s1 ->; right; reflexivity].
  intros [] s1 [He Hr]. wp_step. wp_step. wp_step.
  - left. match goal with Hx : save_failure _ ?s2 _ |- _ => eapply (save_failure_same_index k) in Hx end.
    + eapply env_step_fault; [|eassumption]. env_norm. env_chain.
    + env_norm. rewrite Hr. exact Hu1.
    + env_norm. rewrite Hr. exact Hin.
    + reflexivity.
    + intros r y Hsv. destruct Hsv; reflexivity.
  - match goal with Ht : existsb _ _ = true -> exists _, _ = _ |- _ => destruct Ht as [u Hu2] end; [|rewrite Hu2; split; [reflexivity | exact Hus]].
    rewrite Hr. exact (found_row_exists _ _ _ _ Hf eq_refl).
Qed.
End KeyLaws.

(** ** Worked examples *)

Definition access_crypto : Crypto := {|
  sha256_hex p := "h" +:+ p; hmac_sha256_hex key s := key +:+ s; random_hex n s := s
|}.
Definition access_radix : Radix36 := {| toString36 r := "0.8x" |}.
#[local] Existing Instances access_crypto access_radix.
Definition access_env : Env :=
  mkEnv (fun n => 1700000000000 + Z.of_nat n) 0 (fun _ => None) 0
        (fun n => ("u"%char, string_of_N (N.of_nat n))) 0 (fun _ => num_of_ratio 1 2) 0 [].
Definition revoked : ApiKey := ApiKeyEntity.mk "k1" "ada" "ci" "hsecret" [] 1000 false None None 0 0.
Definition ada_frozen : Freeze :=
  AccountFreezeEntity.mk "f1" "ada" "chargeback" "root" None 5 None true None 0 0.
Definition access_start : Store := AccessStore.mk access_env [ada_frozen] [revoked] ∅.

Lemma access_start_ok :
  keys_ok access_start.(AccessStore.api_keys) /\ table_unique access_start.(AccessStore.api_keys) /\
  freezes_ok access_start.(AccessStore.freezes).
Proof.
  assert (Hnd : forall i : string, NoDup [i]) by (intros i; apply NoDup_singleton).
  repeat split; try apply Hnd; try (repeat constructor; discriminate).
  - intros a b [<-|[]] [<-|[]] Hne. destruct (Hne eq_refl).
  - intros a b [<-|[]] [<-|[]] _ _ _. reflexivity.
Qed.

Lemma freezes_implement_a_set_witness :
  exists f s', AccountFreezeService.unfreezeAccount "ada" "root" None access_start = (inr f, s') /\
    frozen s'.(AccessStore.freezes) "ada" = false.
Proof.
  destruct access_start_ok as (_ & _ & Hok).
  pose proof (freezes_implement_a_set "ada" "root" "again" None access_start Hok) as [_ H].
  destruct (AccountFreezeService.unfreezeAccount "ada" "root" None access_start) as [[x|f] s'] eqn:E; [eval_result E|].
  destruct H as (_ & _ & H). exists f, s'. split; [reflexivity|]. rewrite H. reflexivity.
Defined.

Lemma revoked_key_is_never_accepted_witness :
  let refused := ApiKeysService.validateApiKey "secret"
    (key_requests [RCreate "ada" (mkKeyData "ci" None None None); RRevoke "k1" "ada"; RUse "secret"] access_start).2 in
  match refused with (inl _, _) => True | (inr _, _) => False end.
Proof.
  destruct access_start_ok as (Hk & Hu & _).
  intros refused. destruct refused as [[x|k] s] eqn:E; [exact I|].
  refine (revoked_key_is_never_accepted "secret" revoked _ access_start Hk Hu _ _ _ k s E); [left; reflexivity | reflexivity | reflexivity].
Defined.

Lemma created_key_is_accepted_witness :
  exists k plain s', ApiKeysService.createApiKey "ada" (mkKeyData "ci" None None None) access_start = (inr (k, plain), s') /\
    k.(ApiKeyEntity.keyHash) = sha256_hex plain.
Proof.
  destruct access_start_ok as (_ & Hu & _).
  destruct (ApiKeysService.createApiKey "ada" (mkKeyData "ci" None None None) access_start) as [[x|[k plain]] s'] eqn:E;
    [eval_result E|].
  exists k, plain, s'. split; [reflexivity|].
  apply (created_key_is_accepted "ada" (mkKeyData "ci" None None None) access_start k plain s' Hu E).
Defined.

(** The whole key is a digest of the clock and one [Math.random]: whoever knows
    both knows the key. *)
Example key_is_a_function_of_clock_and_random :
  fst (ApiKeysService.generateApiKey access_start) = inr "nxf_h1700000000000-8x".
Proof. vm_compute. reflexivity. Qed.

(** A challenge is answered by any signature that is not empty. *)
Example any_signature_answers :
  let s := (Sep10AuthService.generateChallenge "GABC" access_start).2 in
  fst (Sep10AuthService.validateChallenge "GABC" "x" s) = inr true.
Proof. vm_compute. reflexivity. Qed.
