(* ===== verification/RateAlerts.v ===== *)
(** rate-alerts/: the alerts kept in memory and the check of a table of rates
    against them (rate-alerts.service.ts), their entity, and the history of
    those that fired (history/rate-alert-history.service.ts). *)
From S2P Require Import Prelude JsNumber Effects RepositoryLaws JsData QueryBuilder ThirdParty.
Local Open Scope Z_scope.

Inductive Direction : Type := above | below.

(** rate-alerts/rate-alert.entity.ts *)
Module RateAlertEntity.
Record RateAlertEntity : Type := mk {
  id : string;
  userId : string;
  currencyPair : string;
  targetRate : num;
  direction : Direction;
  triggered : bool;
  createdAt : Z
}.
#[global] Instance settable : Settable RateAlertEntity := fun r =>
  mk r.(id) r.(userId) r.(currencyPair) r.(targetRate) r.(direction) r.(triggered)
     r.(createdAt).
End RateAlertEntity.

#[global] Program Instance RateAlertEntity_row : Row RateAlertEntity.RateAlertEntity := {|
  row_id := RateAlertEntity.id;
  set_row_id i e := e <| RateAlertEntity.id := i |>;
  created t e := e <| RateAlertEntity.createdAt := t |>;
  touched t e := e;
  live e := true;
  clash a b := false
|}.

(** rate-alerts/history/rate-alert-history.entity.ts *)
Module RateAlertHistory.
Record RateAlertHistory : Type := mk {
  id : string;
  alertId : string;
  userId : string;
  currencyPair : string;
  triggeredRate : num;
  targetRate : num;
  direction : string;
  createdAt : Z
}.
#[global] Instance settable : Settable RateAlertHistory := fun r =>
  mk r.(id) r.(alertId) r.(userId) r.(currencyPair) r.(triggeredRate) r.(targetRate)
     r.(direction) r.(createdAt).
End RateAlertHistory.

#[global] Program Instance RateAlertHistory_row : Row RateAlertHistory.RateAlertHistory := {|
  row_id := RateAlertHistory.id;
  set_row_id i e := e <| RateAlertHistory.id := i |>;
  created t e := e <| RateAlertHistory.createdAt := t |>;
  touched t e := e;
  live e := true;
  clash a b := false
|}.

(** An alert in memory. *)
Module RateAlert.
Record RateAlert : Type := mk {
  id : string;
  userId : string;
  currencyPair : string;
  targetRate : num;
  direction : Direction;
  triggered : bool;
  createdAt : Z
}.
#[global] Instance settable : Settable RateAlert := fun r =>
  mk r.(id) r.(userId) r.(currencyPair) r.(targetRate) r.(direction) r.(triggered)
     r.(createdAt).
End RateAlert.

Module AlertStore.
Record AlertStore : Type := mk {
  env : Env;
  history : list RateAlertHistory.RateAlertHistory;
  alerts : list RateAlert.RateAlert
}.
#[global] Instance settable : Settable AlertStore := fun r =>
  mk r.(env) r.(history) r.(alerts).
End AlertStore.

#[global] Program Instance AlertStore_env : HasEnv AlertStore.AlertStore := {|
  env_of := AlertStore.env;
  set_env e w := w <| AlertStore.env := e |>
|}.

#[global] Program Instance AlertStore_history : Table AlertStore.AlertStore RateAlertHistory.RateAlertHistory := {|
  rows := AlertStore.history;
  set_rows t w := w <| AlertStore.history := t |>
|}.

Notation Store := AlertStore.AlertStore.
Notation Alert := RateAlert.RateAlert.
Notation History := RateAlertHistory.RateAlertHistory.

Module RateAlertsService.
Section Alerts.
Context `{Radix36}.

(** [Math.random().toString(36).slice(2)]. *)
Definition fresh_id : M Store string :=
  let* r := math_random in
  let d := toString36 r in ret (slice 2 (String.length d) d).

Definition create (userId currencyPair : string) (targetRate : num) (direction : Direction) : M Store Alert :=
  let* id := fresh_id in
  let* now := date_now in
  let alert := RateAlert.mk id userId currencyPair targetRate direction false now in
  modify (fun s => s <| AlertStore.alerts := s.(AlertStore.alerts) ++ [alert] |>) ;;;
  ret alert.
End Alerts.

(** The first alert of that id. *)
Fixpoint mark (alertId : string) (l : list Alert) : list Alert :=
  match l with
  | [] => []
  | a :: l' => if String.eqb a.(RateAlert.id) alertId then a <| RateAlert.triggered := true |> :: l'
               else a :: mark alertId l'
  end.

Definition deactivate (alertId : string) : M Store unit :=
  modify (fun s => s <| AlertStore.alerts := mark alertId s.(AlertStore.alerts) |>).

Definition breached (alert : Alert) (rate : num) : bool :=
  match alert.(RateAlert.direction) with
  | above => (rate >=? alert.(RateAlert.targetRate))%num
  | below => (rate <=? alert.(RateAlert.targetRate))%num
  end.

Definition event (alert : Alert) (rate : num) : string * json :=
  ("rate-alert.triggered",
   JObj [("alertId", JStr alert.(RateAlert.id)); ("userId", JStr alert.(RateAlert.userId));
         ("currencyPair", JStr alert.(RateAlert.currencyPair)); ("rate", JNum rate)]).

(** One round of the loop: the alert as it leaves it. *)
Definition check_one (rates : gmap string num) (alert : Alert) : M Store Alert :=
  if alert.(RateAlert.triggered) then ret alert
  else
    match rates !! alert.(RateAlert.currencyPair) with
    | Some currentRate =>
        if negb (num_truthy currentRate) then ret alert
        else if breached alert currentRate then
          emit (event alert currentRate).1 (event alert currentRate).2 ;;;
          ret (alert <| RateAlert.triggered := true |>)
        else ret alert
    | None => ret alert
    end.

Fixpoint check_list (rates : gmap string num) (l : list Alert) : M Store (list Alert) :=
  match l with
  | [] => ret []
  | a :: l' => let* a' := check_one rates a in let* rest := check_list rates l' in ret (a' :: rest)
  end.

Definition checkThresholds (rates : gmap string num) : M Store unit :=
  let* alerts := gets AlertStore.alerts in
  let* alerts' := check_list rates alerts in
  modify (fun s => s <| AlertStore.alerts := alerts' |>).
End RateAlertsService.

Record RecordAlertParams : Type := mkParams {
  p_alertId : string;
  p_userId : string;
  p_currencyPair : string;
  p_triggeredRate : num;
  p_targetRate : num;
  p_direction : string
}.

Module RateAlertHistoryService.
Definition recordAlert (params : RecordAlertParams) : M Store History :=
  save (RateAlertHistory.mk "" (p_alertId params) (p_userId params) (p_currencyPair params)
          (p_triggeredRate params) (p_targetRate params) (p_direction params) 0).

Definition findByUserId (userId : string) (page limit : option Z) : M Store (list History * Z * Z * Z) :=
  let page := default 1 page in
  let limit := default 20 limit in
  let* ' (items, total) := getManyAndCount (fun h => String.eqb h.(RateAlertHistory.userId) userId)
                             RateAlertHistory.createdAt ((page - 1) * limit) limit in
  ret (items, total, page, limit).
End RateAlertHistoryService.

(** ** Which alerts fire *)

Section Firing.
Variable rates : gmap string num.

(** The rate at which an alert fires. *)
Definition fires (a : Alert) : option num :=
  if a.(RateAlert.triggered) then None
  else match rates !! a.(RateAlert.currencyPair) with
       | Some r => if num_truthy r && RateAlertsService.breached a r then Some r else None
       | None => None
       end.

Definition after_check (a : Alert) : Alert :=
  match fires a with Some _ => a <| RateAlert.triggered := true |> | None => a end.

Definition announced (l : list Alert) : list (string * json) :=
  flat_map (fun a => match fires a with Some r => [RateAlertsService.event a r] | None => [] end) l.

Lemma check_list_spec l : forall s,
  wp (RateAlertsService.check_list rates l)
    (fun l' s' => l' = map after_check l /\ s'.(AlertStore.alerts) = s.(AlertStore.alerts) /\
                  s'.(AlertStore.history) = s.(AlertStore.history) /\
                  outbox (env_of s') = outbox (env_of s) ++ announced l) (fun _ _ => False) s.
Proof.
  induction l as [|a l IH]; intros s; cbn [RateAlertsService.check_list].
  - wp_step. repeat split. symmetry. apply app_nil_r.
  - apply wp_bind.
    assert (Hone : wp (RateAlertsService.check_one rates a)
      (fun a' s' => a' = after_check a /\ s'.(AlertStore.alerts) = s.(AlertStore.alerts) /\
         s'.(AlertStore.history) = s.(AlertStore.history) /\
         outbox (env_of s') = outbox (env_of s) ++ announced [a]) (fun _ _ => False) s).
    { unfold RateAlertsService.check_one, after_check, announced, fires. simpl.
      destruct (RateAlert.triggered a); [wp_step; rewrite app_nil_r; auto|].
      destruct (rates !! _) as [r|]; [|wp_step; rewrite app_nil_r; auto].
      destruct (num_truthy r); simpl; [|wp_step; rewrite app_nil_r; auto].
      destruct (RateAlertsService.breached a r); repeat wp_step; [auto | rewrite app_nil_r; auto]. }
    eapply wp_mono; [exact Hone | | auto]. intros a' s1 (-> & Ha & Hh & Ho).
    apply wp_bind. eapply wp_mono; [apply IH | | auto]. intros l' s2 (-> & Ha2 & Hh2 & Ho2).
    wp_step. repeat split; try congruence.
    rewrite Ho2, Ho, <- app_assoc. unfold announced. simpl. rewrite app_nil_r. reflexivity.
Qed.

Lemma announced_once l : announced (map after_check l) = [].
Proof.
  unfold announced. induction l as [|a l IH]; [reflexivity|]. simpl. rewrite IH, app_nil_r.
  unfold after_check. destruct (fires a) eqn:Hf; [reflexivity | rewrite Hf; reflexivity].
Qed.

(** A check of the rates marks exactly the alerts that were not triggered and
    whose rate is known, not zero and past the target, announces each of them
    once, in order, and changes nothing else; the same rates fire nothing
    again. *)
Theorem checkThresholds_fires_exactly s :
  let s' := (RateAlertsService.checkThresholds rates s).2 in
  s'.(AlertStore.alerts) = map after_check s.(AlertStore.alerts) /\
  s'.(AlertStore.history) = s.(AlertStore.history) /\
  outbox (env_of s') = outbox (env_of s) ++ announced s.(AlertStore.alerts) /\
  announced s'.(AlertStore.alerts) = [].
Proof.
  assert (H : wp (RateAlertsService.checkThresholds rates)
    (fun _ s' => s'.(AlertStore.alerts) = map after_check s.(AlertStore.alerts) /\
       s'.(AlertStore.history) = s.(AlertStore.history) /\
       outbox (env_of s') = outbox (env_of s) ++ announced s.(AlertStore.alerts)) (fun _ _ => False) s).
  { unfold RateAlertsService.checkThresholds. wp_step. wp_step. apply wp_bind.
    eapply wp_mono; [apply check_list_spec | | auto]. intros l' s1 (-> & _ & Hh & Ho). wp_step. auto. }
  unfold wp in H. destruct (RateAlertsService.checkThresholds rates s) as [[x|u] s']; [destruct H|].
  destruct H as (Ha & Hh & Ho). simpl. rewrite Ha, announced_once. auto.
Qed.
End Firing.
