(* ===== verification/Closure.v ===== *)
(** Leaving the platform: closing an account behind password and two-factor code
    (users/account-closure.service.ts), the mail that confirms it
    (account-closure.mailer.ts), the job that purges personal data seven years
    later (account-closure.purge.job.ts) and immediate deletion
    (users/services/account-deletion.service.ts). *)
From S2P Require Import Prelude JsNumber Effects RepositoryLaws JsData ThirdParty Entities World CoreCalls WithTransaction Lifecycle Wallets RefreshTokens RateAlerts.
Local Open Scope Z_scope.

(** users/user-account.entity.ts *)
Module UserAccount.
Record UserAccount : Type := mk {
  id : string;
  email : string;
  displayName : string;
  passwordSalt : string;
  passwordHash : string;
  twoFactorSecret : string;
  isActive : bool;
  deletedAt : option Z;
  closedAt : option Z;
  piiPurgeAt : option Z;
  piiPurgedAt : option Z;
  finalEmailSentAt : option Z;
  createdAt : Z;
  updatedAt : Z
}.
#[global] Instance settable : Settable UserAccount := fun r =>
  mk r.(id) r.(email) r.(displayName) r.(passwordSalt) r.(passwordHash)
     r.(twoFactorSecret) r.(isActive) r.(deletedAt) r.(closedAt) r.(piiPurgeAt)
     r.(piiPurgedAt) r.(finalEmailSentAt) r.(createdAt) r.(updatedAt).
End UserAccount.

#[global] Program Instance UserAccount_row : Row UserAccount.UserAccount := {|
  row_id := UserAccount.id;
  set_row_id i e := e <| UserAccount.id := i |>;
  created t e := e <| UserAccount.createdAt := t |> <| UserAccount.updatedAt := t |>;
  touched t e := e <| UserAccount.updatedAt := t |>;
  live e := true;
  clash a b := String.eqb a.(UserAccount.email) b.(UserAccount.email)
|}.

Module ClosureStore.
Record ClosureStore : Type := mk {
  core_world : World;
  accounts : list UserAccount.UserAccount;
  tokens : list RefreshToken.RefreshToken;
  rate_alerts : list RateAlertEntity.RateAlertEntity
}.
#[global] Instance settable : Settable ClosureStore := fun r =>
  mk r.(core_world) r.(accounts) r.(tokens) r.(rate_alerts).
End ClosureStore.

#[global] Program Instance ClosureStore_world : HasWorld ClosureStore.ClosureStore := {|
  world_of := ClosureStore.core_world;
  set_world w s := s <| ClosureStore.core_world := w |>
|}.

#[global] Program Instance ClosureStore_accounts : Table ClosureStore.ClosureStore UserAccount.UserAccount := {|
  rows := ClosureStore.accounts;
  set_rows t w := w <| ClosureStore.accounts := t |>
|}.

#[global] Program Instance ClosureStore_tokens : Table ClosureStore.ClosureStore RefreshToken.RefreshToken := {|
  rows := ClosureStore.tokens;
  set_rows t w := w <| ClosureStore.tokens := t |>
|}.

#[global] Program Instance ClosureStore_rate_alerts : Table ClosureStore.ClosureStore RateAlertEntity.RateAlertEntity := {|
  rows := ClosureStore.rate_alerts;
  set_rows t w := w <| ClosureStore.rate_alerts := t |>
|}.

Notation Store := ClosureStore.ClosureStore.
Notation Account := UserAccount.UserAccount.

Definition TWO_FACTOR_TIME_STEP_SECONDS : Z := 30.
Definition TWO_FACTOR_DIGITS : nat := 6.
Definition PII_RETENTION_YEARS : Z := 7.

(** [pbkdf2Sync(password, salt, 120000, 64, 'sha512').toString('hex')] and
    [createHmac('sha1', Buffer.from(secret, 'hex')).update(bytes).digest()]: the
    digest's bytes. *)
Class Digests : Type := {
  pbkdf2_hex : string -> string -> string;
  hmac_sha1 : string -> list Z -> list Z
}.

Record AccountClosureResult : Type := mkClosed { deletedAt : Z; piiPurgeAt : Z }.
Record CreateAccountInput : Type := mkInput {
  i_email : string;
  i_displayName : string;
  i_password : string;
  i_twoFactorSecret : option string
}.

(** ** The two-factor code *)

Module TwoFactor.
Section Codes.
Context `{Digests}.

(** [writeBigUInt64BE]: eight bytes, the most significant first. *)
Definition counter_bytes (window : Z) : list Z :=
  map (fun k => Z.land (Z.shiftr window (8 * k)) 255) [7; 6; 5; 4; 3; 2; 1; 0].

Definition byte_at (l : list Z) (i : Z) : Z := nth (Z.to_nat i) l 0.

(** [hmac.readUInt32BE(offset)]. *)
Definition readUInt32BE (l : list Z) (offset : Z) : Z :=
  Z.lor (Z.shiftl (byte_at l offset) 24)
    (Z.lor (Z.shiftl (byte_at l (offset + 1)) 16)
       (Z.lor (Z.shiftl (byte_at l (offset + 2)) 8) (byte_at l (offset + 3)))).

Definition offset_of (hmac : list Z) : Z := Z.land (byte_at hmac (Z.of_nat (length hmac) - 1)) 15.

Definition generateTwoFactorCode (secret : string) (window : Z) : string :=
  let hmac := hmac_sha1 secret (counter_bytes window) in
  let binaryCode := Z.land (readUInt32BE hmac (offset_of hmac)) (2 ^ 31 - 1) in
  pad_start_zero TWO_FACTOR_DIGITS (string_of_Z (binaryCode mod 10 ^ Z.of_nat TWO_FACTOR_DIGITS)).

Definition is_digit (c : ascii) : bool :=
  let n := nat_of_ascii c in (48 <=? n)%nat && (n <=? 57)%nat.

(** The test [^\d{6}$]. *)
Definition six_digits (code : string) : bool :=
  Nat.eqb (String.length code) 6 && forallb is_digit (list_ascii_of_string code).

(** [Math.floor(Date.now() / 1000 / 30)]. *)
Definition window_at (now : Z) : Z :=
  match num_fraction (num_of_Z now / num_of_Z 1000 / num_of_Z TWO_FACTOR_TIME_STEP_SECONDS)%num with
  | Some (n, d) => n / Zpos d
  | None => 0
  end.

(** The clock is read only for a code of six digits. *)
Definition isTwoFactorCodeValid (secret code : string) : M Store bool :=
  let normalizedCode := trim code in
  if negb (six_digits normalizedCode) then ret false
  else
    let* now := date_now in
    let currentWindow := window_at now in
    let windowsToCheck := [currentWindow - 1; currentWindow; currentWindow + 1] in
    ret (existsb (fun window => String.eqb (generateTwoFactorCode secret window) normalizedCode) windowsToCheck).
End Codes.
End TwoFactor.

(** ** AccountClosureMailer *)

Module AccountClosureMailer.
Section Mailer.
Context `{ConfigService}.

(** Without a mail configuration nothing is sent and nothing fails. *)
Definition sendFinalConfirmation (emailAddress displayName : string) : M Store unit :=
  let configured := opt_truthy (config_string "mail.host") && opt_truthy (config_string "mail.user") &&
                    opt_truthy (config_string "mail.password") && opt_truthy (config_string "mail.from") in
  if negb configured then ret tt
  else
    db_call ;;;
    emit "mail:account-closed" (JObj [("to", JStr emailAddress); ("displayName", JStr displayName)]).
End Mailer.
End AccountClosureMailer.

(** ** AccountClosureService *)

Module AccountClosureService.
Section Closure.
Context `{ConfigService} `{Crypto} `{Digests} `{JwtService}.

Definition verifyAccessToken (token : string) : M Store JwtPayload :=
  let* now := date_now in
  match jwt_verify now token with
  | inr claims => ret claims
  | inl _ => throw (UnauthorizedException "Invalid access token")
  end.

Definition hashPassword (password salt : string) : string := pbkdf2_hex password salt.

Definition assertPassword (account : Account) (currentPassword : string) : M Store unit :=
  let nextHash := hashPassword currentPassword account.(UserAccount.passwordSalt) in
  throw_if (negb (String.eqb nextHash account.(UserAccount.passwordHash))) (UnauthorizedException "Invalid password").

Definition assertTwoFactorCode (secret code : string) : M Store unit :=
  let* valid := TwoFactor.isTwoFactorCodeValid secret code in
  throw_if (negb valid) (UnauthorizedException "Invalid two-factor code").

Definition assertZeroBalance (accountId : string) : M Store unit :=
  let* balances := core (WalletsService.getBalancesForAccount accountId) in
  let hasFunds := existsb (fun b => negb (b.(WalletBalance.balance) =? num_of_Z 0)%num) balances in
  throw_if hasFunds (UnprocessableEntityException "Account balance must be zero before closure").

Definition buildPiiPurgeDate (referenceDate : Z) : Z := add_years PII_RETENTION_YEARS referenceDate.

Definition of_id (id : string) (a : Account) : bool := String.eqb a.(UserAccount.id) id.

(** What follows the revocation of the tokens: a failure here is swallowed. *)
Definition confirm (account : Account) : M Store unit :=
  try_catch
    (AccountClosureMailer.sendFinalConfirmation account.(UserAccount.email) account.(UserAccount.displayName) ;;;
     let* sent := date_now in
     save (account <| UserAccount.finalEmailSentAt := Some sent |>) ;;;
     ret tt)
    (fun _ => ret tt).

(** The account passed every check: [const now = new Date()] and what follows. *)
Definition shut (account : Account) : M Store AccountClosureResult :=
  let* now := date_now in
  let purge := buildPiiPurgeDate now in
  let* account := save (account <| UserAccount.isActive := false |>
                                <| UserAccount.deletedAt := Some now |>
                                <| UserAccount.closedAt := Some now |>
                                <| UserAccount.piiPurgeAt := Some purge |>) in
  update_rows (fun t : RefreshToken.RefreshToken => String.eqb t.(RefreshToken.userId) account.(UserAccount.id))
    (fun t => t <| RefreshToken.revokedAt := Some now |>) ;;;
  confirm account ;;;
  ret (mkClosed now purge).

Definition closeAccount (accessToken currentPassword twoFactorCode : string) : M Store AccountClosureResult :=
  throw_if (negb (str_truthy currentPassword) || negb (str_truthy twoFactorCode))
    (UnauthorizedException "Password and 2FA confirmation are required") ;;;
  let* claims := verifyAccessToken accessToken in
  let* found := findOne (of_id (jwt_sub claims)) in
  match found with
  | None => throw (UnauthorizedException "Account not found")
  | Some account =>
      throw_if (negb account.(UserAccount.isActive)) (UnauthorizedException "Account not found") ;;;
      assertPassword account currentPassword ;;;
      assertTwoFactorCode account.(UserAccount.twoFactorSecret) twoFactorCode ;;;
      assertZeroBalance account.(UserAccount.id) ;;;
      shut account
  end.

Definition findActiveAccountById (accountId : string) : M Store (option Account) :=
  findOne (fun a => of_id accountId a && a.(UserAccount.isActive)).

Definition createAccount (input : CreateAccountInput) : M Store Account :=
  let* salt_draw := random_uuid in
  let passwordSalt := random_hex 16 salt_draw in
  let* twoFactorSecret := (match i_twoFactorSecret input with
                           | Some s => ret s
                           | None => let* draw := random_uuid in ret (random_hex 20 draw)
                           end) in
  let* id := random_uuid in
  save (UserAccount.mk id (i_email input) (i_displayName input) passwordSalt
          (hashPassword (i_password input) passwordSalt) twoFactorSecret true None None None None None 0 0).
End Closure.
End AccountClosureService.

(** ** AccountClosurePurgeJob *)

Module AccountClosurePurgeJob.
Section Purge.
Context `{Crypto}.

Definition due (now : Z) (a : Account) : bool :=
  match a.(UserAccount.piiPurgeAt) with Some t => t <=? now | None => false end &&
  match a.(UserAccount.piiPurgedAt) with Some _ => false | None => true end.

Definition purge_one (now : Z) (account : Account) : M Store unit :=
  let id := account.(UserAccount.id) in
  let* salt := random_uuid in
  let* secret := random_uuid in
  save (account <| UserAccount.email := "deleted-" +:+ id +:+ "@archived.local" |>
                <| UserAccount.displayName := "Deleted User" |>
                <| UserAccount.passwordSalt := random_hex 16 salt |>
                <| UserAccount.passwordHash := sha256_hex id |>
                <| UserAccount.twoFactorSecret := random_hex 20 secret |>
                <| UserAccount.piiPurgedAt := Some now |>) ;;;
  ret tt.

Definition purgeExpiredPersonalData : M Store unit :=
  let* now := date_now in
  let* accountsToPurge := find_all (due now) in
  for_each accountsToPurge (purge_one now).
End Purge.
End AccountClosurePurgeJob.

(** ** AccountDeletionService *)

Module AccountDeletionService.
(** What the transaction's manager writes, undone. *)
Definition rollback (s0 s : Store) : Store :=
  s <| ClosureStore.accounts := s0.(ClosureStore.accounts) |>
    <| ClosureStore.tokens := s0.(ClosureStore.tokens) |>
    <| ClosureStore.rate_alerts := s0.(ClosureStore.rate_alerts) |>
    <| ClosureStore.core_world := s.(ClosureStore.core_world)
         <| World.referrals := s0.(ClosureStore.core_world).(World.referrals) |>
         <| World.audit_logs := s0.(ClosureStore.core_world).(World.audit_logs) |> |>.

Definition deletion (userId : string) (account : Account) : M Store Z :=
  let* now := date_now in
  update_rows (fun t : RefreshToken.RefreshToken => String.eqb t.(RefreshToken.userId) userId)
    (fun t => t <| RefreshToken.revokedAt := Some now |>) ;;;
  core (delete_rows (fun r : Referral.Referral => String.eqb r.(Referral.referredId) userId)) ;;;
  core (delete_rows (fun r : Referral.Referral => String.eqb r.(Referral.referrerId) userId)) ;;;
  core (update_rows (fun l : AuditLog.AuditLog =>
                       match l.(AuditLog.userId) with Some u => String.eqb u userId | None => false end)
          (fun l => l <| AuditLog.userId := None |> <| AuditLog.reason := Some "account-deleted" |>)) ;;;
  delete_rows (fun a : RateAlertEntity.RateAlertEntity => String.eqb a.(RateAlertEntity.userId) userId) ;;;
  save (account <| UserAccount.deletedAt := Some now |> <| UserAccount.isActive := false |>) ;;;
  ret now.

(** The time of the deletion; the other fields of the answer are constants. *)
Definition deleteAccount (userId : string) : M Store Z :=
  let* found := findOne (AccountClosureService.of_id userId) in
  match found with
  | None => throw (UnauthorizedException "Account not found")
  | Some account => dataSource_transaction rollback (deletion userId account)
  end.
End AccountDeletionService.

(** ** Dynamic truncation stays inside the digest *)

(** The four bytes read from a digest of SHA-1 (twenty bytes) are inside it. *)
Lemma truncation_in_range hmac :
  length hmac = 20%nat -> 0 <= TwoFactor.offset_of hmac /\ TwoFactor.offset_of hmac + 3 < Z.of_nat (length hmac).
Proof.
  intros Hl. rewrite Hl. unfold TwoFactor.offset_of. set (b := TwoFactor.byte_at _ _).
  change 15 with (Z.ones 4). rewrite Z.land_ones by lia. change (2 ^ 4) with 16.
  pose proof (Z.mod_pos_bound b 16 eq_refl). lia.
Qed.

(** ** Closing an account *)

Section ClosureLaws.
Context `{ConfigService} `{Crypto} `{Digests} `{JwtService}.

(** A closed account: when, and when its personal data goes. *)
Definition closed_at (t : Z) (a : Account) : Prop :=
  a.(UserAccount.isActive) = false /\ a.(UserAccount.deletedAt) = Some t /\
  a.(UserAccount.closedAt) = Some t /\ a.(UserAccount.piiPurgeAt) = Some (add_years 7 t).

Definition closed_row (id : string) (t : Z) (s : Store) : Prop :=
  exists a, In a s.(ClosureStore.accounts) /\ a.(UserAccount.id) = id /\ closed_at t a.

(** Everything about an account that a closure has checked. *)
Record may_close (a : Account) (password code : string) (s : Store) : Prop := {
  mc_in : In a s.(ClosureStore.accounts);
  mc_active : a.(UserAccount.isActive) = true;
  mc_password : pbkdf2_hex password a.(UserAccount.passwordSalt) = a.(UserAccount.passwordHash);
  mc_code : exists n k, -1 <= k <= 1 /\
    TwoFactor.generateTwoFactorCode a.(UserAccount.twoFactorSecret)
      (TwoFactor.window_at (clock (env_of s) n) + k) = trim code;
  mc_zero : forall w, In w s.(ClosureStore.core_world).(World.wallet_balances) ->
    w.(WalletBalanceEntity.accountId) = a.(UserAccount.id) ->
    (w.(WalletBalanceEntity.balance) =? num_of_Z 0)%num = true
}.

Lemma assertTwoFactorCode_spec secret code (s : Store) :
  wp (AccountClosureService.assertTwoFactorCode secret code)
    (fun _ s' => env_only s s' /\ exists n k, -1 <= k <= 1 /\
       TwoFactor.generateTwoFactorCode secret (TwoFactor.window_at (clock (env_of s) n) + k) = trim code)
    (fun _ s' => env_only s s') s.
Proof.
  unfold AccountClosureService.assertTwoFactorCode, TwoFactor.isTwoFactorCodeValid. wp_step. cbv zeta.
  destruct (negb (TwoFactor.six_digits (trim code))); wp_step; [wp_step; [auto with env; reflexivity | discriminate]|].
  wp_step. wp_step. wp_step; [auto with env|]. split; [auto with env|].
  match goal with Hx : negb _ = false |- _ => apply negb_false_iff, existsb_exists in Hx as (w & Hw & Heq) end.
  apply String.eqb_eq in Heq. exists n. cbn [In] in Hw.
  destruct Hw as [<-|[<-|[<-|[]]]]; [exists (-1) | exists 0 | exists 1]; (split; [lia|]); rewrite <- Heq; f_equal; lia.
Qed.

Lemma assertZeroBalance_spec id (s : Store) :
  wp (AccountClosureService.assertZeroBalance id)
    (fun _ s' => env_only s s' /\ forall w, In w s.(ClosureStore.core_world).(World.wallet_balances) ->
       w.(WalletBalanceEntity.accountId) = id -> (w.(WalletBalanceEntity.balance) =? num_of_Z 0)%num = true)
    (fun _ s' => env_only s s') s.
Proof.
  unfold AccountClosureService.assertZeroBalance, WalletsService.getBalancesForAccount. wp_step. apply wp_core.
  wp_step. wp_step; [eexists; split; [eassumption | reflexivity]|].
  wp_step. cbv zeta. wp_step; [eexists; split; [eassumption | reflexivity]|].
  split; [eexists; split; [eassumption | reflexivity]|]. intros w Hw Hid.
  match goal with Hx : existsb _ _ = false |- _ => rename Hx into Hno end.
  destruct (w.(WalletBalanceEntity.balance) =? num_of_Z 0)%num eqn:Hz; [reflexivity|]. exfalso.
  rewrite <- not_true_iff_false in Hno. apply Hno, existsb_exists. exists (WalletsService.toWalletBalance w). split.
  - apply in_map, filter_In. split; [exact Hw|]. simpl. apply String.eqb_eq, Hid.
  - unfold WalletsService.toWalletBalance. cbn [WalletBalance.balance]. rewrite Hz. reflexivity.
Qed.

(** The confirmation never throws, and a closed account stays closed. *)
Lemma confirm_spec a t (s : Store) :
  In a s.(ClosureStore.accounts) -> closed_at t a ->
  wp (AccountClosureService.confirm a)
    (fun _ s' => closed_row a.(UserAccount.id) t s' /\ s'.(ClosureStore.tokens) = s.(ClosureStore.tokens))
    (fun _ _ => False) s.
Proof.
  intros Hin Hc. unfold AccountClosureService.confirm. apply wp_try_catch, wp_bind.
  assert (Hmail : wp (AccountClosureMailer.sendFinalConfirmation a.(UserAccount.email) a.(UserAccount.displayName))
    (fun _ s' => s'.(ClosureStore.accounts) = s.(ClosureStore.accounts) /\ s'.(ClosureStore.tokens) = s.(ClosureStore.tokens))
    (fun _ s' => s'.(ClosureStore.accounts) = s.(ClosureStore.accounts) /\ s'.(ClosureStore.tokens) = s.(ClosureStore.tokens)) s).
  { unfold AccountClosureMailer.sendFinalConfirmation. cbv zeta. destruct (negb _); wp_step; [auto|].
    wp_step; [auto|]. wp_step. auto. }
  eapply wp_mono; [exact Hmail | |].
  2: { intros x s' [Ha Ht]. wp_step. split; [|exact Ht]. exists a. rewrite Ha. auto. }
  intros [] s1 [Ha Ht]. wp_step. wp_step. wp_step. wp_step; simpl rows in *.
  - wp_step. split; [|exact Ht]. exists a. simpl. rewrite Ha. auto.
  - wp_step. split; [|exact Ht]. unfold closed_row. simpl. rewrite Ha.
    match goal with Hex : existsb _ _ = true -> exists _, ?r = _ |- _ => exists r; split; [apply in_upsert_self|]; destruct Hex as [u ->] end.
    + rewrite Ha. apply existsb_exists. exists a. split; [exact Hin | apply same_row_true; reflexivity].
    + split; [reflexivity | exact Hc].
Qed.

Notation quiet_tables := (fun s s' : Store =>
  s'.(ClosureStore.accounts) = s.(ClosureStore.accounts) /\ s'.(ClosureStore.tokens) = s.(ClosureStore.tokens)).

(** What follows the checks, from any state that is [s] with the environment
    moved on. *)
Lemma shut_spec a (s : Store) e0 :
  In a s.(ClosureStore.accounts) -> env_step (env_of s) e0 ->
  wp (AccountClosureService.shut a)
    (fun r s' => piiPurgeAt r = add_years 7 (deletedAt r) /\ closed_row a.(UserAccount.id) (deletedAt r) s' /\
       forall t, In t s'.(ClosureStore.tokens) -> t.(RefreshToken.userId) = a.(UserAccount.id) ->
         t.(RefreshToken.revokedAt) = Some (deletedAt r))
    (fun x s' => quiet_tables s s' \/
       exists t, env_fault (env_of s) x /\ closed_row a.(UserAccount.id) t s' /\
                 s'.(ClosureStore.tokens) = s.(ClosureStore.tokens)) (set_env e0 s).
Proof.
  intros Hin He0. unfold AccountClosureService.shut. wp_step. wp_step. cbv zeta.
  match goal with |- context [clock ?e ?n] => set (now := clock e n) end. wp_step.
  wp_step; simpl rows in *; [left; split; reflexivity|].
  match goal with Hex : existsb _ _ = true -> exists _, ?r = _ |- _ => destruct Hex as [u Hr]; [|subst r] end.
  { apply existsb_exists. exists a. split; [exact Hin | apply same_row_true; reflexivity]. }
  match goal with |- context [upsert ?r _] => set (a1 := r) end.
  assert (Hc : closed_at now a1) by (repeat split).
  wp_step. wp_step.
  - right. exists now. split; [eapply env_step_fault; [|eassumption]; env_chain|]. split; [|reflexivity].
    exists a1. split; [apply in_upsert_self | split; [reflexivity | exact Hc]].
  - wp_step. eapply wp_mono; [apply (confirm_spec a1 now) | | intros x s' []].
    + apply in_upsert_self.
    + exact Hc.
    + intros [] s' [Hrow Htok]. wp_step. split; [reflexivity|]. split; [exact Hrow|].
      rewrite Htok. simpl. intros t1 Ht1 Hu. apply in_map_iff in Ht1 as (t0 & <- & _).
      destruct (String.eqb_spec t0.(RefreshToken.userId) a.(UserAccount.id)); [reflexivity | congruence].
Qed.

(** An account is closed only by its owner's token, password and a code of
    the two-factor window, while it is active and every wallet of it is empty;
    then it is inactive, dated, due for purging seven years later, and all its
    refresh tokens are revoked.  A request that throws changed nothing, or the
    revocation of the tokens failed after the account was closed. *)
Theorem closeAccount_outcomes token password code (s : Store) :
  match AccountClosureService.closeAccount token password code s with
  | (inr r, s') =>
      password <> "" /\ code <> "" /\
      exists a, may_close a password code s /\ piiPurgeAt r = add_years 7 (deletedAt r) /\
        closed_row a.(UserAccount.id) (deletedAt r) s' /\
        forall t, In t s'.(ClosureStore.tokens) -> t.(RefreshToken.userId) = a.(UserAccount.id) ->
          t.(RefreshToken.revokedAt) = Some (deletedAt r)
  | (inl x, s') =>
      quiet_tables s s' \/
      exists a t, may_close a password code s /\ env_fault (env_of s) x /\
        closed_row a.(UserAccount.id) t s' /\ s'.(ClosureStore.tokens) = s.(ClosureStore.tokens)
  end.
Proof.
  apply (wp_elim _ (fun r => match r with (inr r, s') => _ | (inl x, s') => _ end)).
  unfold AccountClosureService.closeAccount, AccountClosureService.verifyAccessToken.
  wp_step. wp_step; [left; split; reflexivity|].
  match goal with Hx : _ || _ = false |- _ => apply orb_false_iff in Hx as [Hpw%negb_false_iff Hcd%negb_false_iff] end.
  apply negb_true_iff, String.eqb_neq in Hpw. apply negb_true_iff, String.eqb_neq in Hcd.
  wp_step. wp_step. wp_step. destruct (jwt_verify _ _) as [x|claims]; wp_step; [left; split; reflexivity|].
  wp_step. wp_step; [left; split; reflexivity|]. simpl rows.
  destruct (List.find _ _) as [a|] eqn:Hf; [|wp_step; left; split; reflexivity].
  destruct (find_live_some _ _ _ Hf) as (Hin & _ & _). wp_step. wp_step; [left; split; reflexivity|].
  match goal with Hx : negb _ = false |- _ => apply negb_false_iff in Hx; rename Hx into Hact end.
  wp_step. unfold AccountClosureService.assertPassword. cbv zeta. wp_step; [left; split; reflexivity|].
  match goal with Hx : negb _ = false |- _ => apply negb_false_iff, String.eqb_eq in Hx; rename Hx into Hpass end.
  apply wp_bind. eapply wp_mono; [apply assertTwoFactorCode_spec | | intros x s1 (e1 & _ & ->); left; split; reflexivity].
  intros [] s1 [(e1 & He1 & ->) Hcode]. apply wp_bind.
  eapply wp_mono; [apply assertZeroBalance_spec | | intros x s1 (e2 & _ & ->); left; split; reflexivity].
  intros [] s1 [(e2 & He2 & ->) Hzero].
  rewrite env_of_set_env in He1, Hcode, He2.
  rewrite (es_clock (env_of s)) in Hcode by env_chain.
  assert (Hmay : may_close a password code s) by (split; assumption).
  eapply wp_mono; [apply (shut_spec a s _ Hin); env_norm; env_chain | |].
  - intros r s' (Hdate & Hrow & Htok). eauto 10.
  - intros x s' [Hq|(t & Hx & Hrow & Htok)]; [left; exact Hq | right; eauto 10].
Qed.
End ClosureLaws.

(** ** Personal data *)

Section PurgeLaws.
Context `{Crypto}.

(** Nothing personal is left but the key. *)
Definition purged_at (now : Z) (a : Account) : Prop :=
  a.(UserAccount.email) = "deleted-" +:+ a.(UserAccount.id) +:+ "@archived.local" /\
  a.(UserAccount.displayName) = "Deleted User" /\ a.(UserAccount.passwordHash) = sha256_hex a.(UserAccount.id) /\
  a.(UserAccount.piiPurgedAt) = Some now.

Lemma purge_one_spec now a (s : Store) :
  In a (rows s) -> True ->
  wp (AccountClosurePurgeJob.purge_one now a)
    (fun _ s' => later s s' /\ done_row (purged_at now) (row_id a) s' /\ others_kept a s s')
    (fun x s' => later s s' /\ True) s.
Proof.
  intros Hin _. unfold AccountClosurePurgeJob.purge_one. cbv zeta. wp_step. wp_step. wp_step. wp_step. wp_step.
  wp_step; [split; [apply env_stable; env_chain | exact I]|].
  match goal with Hex : existsb _ _ = true -> exists _, ?r = _ |- _ => destruct Hex as [u Hr]; [|subst r] end.
  { apply existsb_exists. exists a. split; [exact Hin | apply same_row_true; reflexivity]. }
  wp_step. split; [|split].
  - etransitivity; [apply env_stable | apply table_stable]. env_chain.
  - eexists. env_norm. split; [apply in_upsert_self|]. repeat split.
  - intros a' Hne Ha'. env_norm. apply in_upsert_other; [exact Ha' | exact Hne].
Qed.

(** A run of the purge that returns has erased the personal data of every
    account whose retention had ended and that was not purged before, and left
    every other account as it was. *)
Theorem purge_erases_what_is_due (s s' : Store) :
  NoDup (map row_id s.(ClosureStore.accounts)) ->
  AccountClosurePurgeJob.purgeExpiredPersonalData s = (inr tt, s') ->
  let now := clock (env_of s) (tick (env_of s)) in
  (forall a, In a s.(ClosureStore.accounts) -> AccountClosurePurgeJob.due now a = true ->
     exists a', In a' s'.(ClosureStore.accounts) /\ a'.(UserAccount.id) = a.(UserAccount.id) /\ purged_at now a') /\
  (forall a, In a s.(ClosureStore.accounts) -> AccountClosurePurgeJob.due now a = false ->
     In a s'.(ClosureStore.accounts)).
Proof.
  intros Hnd Hrun now. refine (wp_run_ok _ (fun _ s' => _) (fun _ _ => True) _ _ _ _ Hrun).
  unfold AccountClosurePurgeJob.purgeExpiredPersonalData. wp_step. apply wp_date_now_exact. fold now. wp_step.
  wp_step; [exact I|]. match goal with |- wp (for_each ?l _) _ _ _ => set (l0 := l) end.
  assert (Hl : forall a, In a l0 <-> In a s.(ClosureStore.accounts) /\ AccountClosurePurgeJob.due now a = true)
    by (intros a; unfold l0; rewrite filter_In; reflexivity).
  eapply wp_mono; [apply (wp_for_each_rows later _ (fun _ => True) _ (fun _ _ => True) (purge_one_spec now)) | | auto].
  - auto.
  - apply NoDup_filter_ids, Hnd.
  - intros a Ha. apply Hl in Ha as [Ha _]. auto.
  - intros [] s2 (_ & Hall & Hkeep). split.
    + intros a Ha Hdue. destruct (Hall a (proj2 (Hl a) (conj Ha Hdue))) as (a' & Ha' & Hid & Hp). eauto.
    + intros a Ha Hdue. apply Hkeep; [exact Ha|]. intros Hi. apply in_map_iff in Hi as (b & Hid & Hb).
      apply Hl in Hb as [Hb Hbd]. assert (b = a) as -> by (apply (NoDup_row_id_inj s.(ClosureStore.accounts)); assumption).
      congruence.
Qed.
End PurgeLaws.

(** ** Worked examples *)

Definition closure_config : ConfigService := {|
  config_number _ := None; config_string _ := None; config_bool _ := None; config_list _ := None
|}.
Definition closure_crypto : Crypto := {|
  sha256_hex p := "h" +:+ p; hmac_sha256_hex key s := key +:+ s; random_hex n s := s
|}.
Definition closure_digests : Digests := {|
  pbkdf2_hex p s := p +:+ s;
  hmac_sha1 secret bytes := [0;1;2;3;4;5;6;7;8;9;10;11;12;13;14;15;16;17;18;0]
|}.
Definition closure_jwt : JwtService := {|
  jwt_verify now token := inr (mkJwt token "" "" None None);
  jwt_sign now p := jwt_sub p
|}.
#[local] Existing Instances closure_config closure_crypto closure_digests closure_jwt.

Definition ada_account : Account :=
  UserAccount.mk "ada" "ada@nexafx.io" "Ada" "salt" "secretsalt" "seed" true None None None None None 0 0.
Definition bob_account : Account :=
  UserAccount.mk "bob" "bob@nexafx.io" "Bob" "salt" "x" "seed" false (Some 1) (Some 1) (Some 2) None None 0 0.
Definition ada_token : RefreshToken.RefreshToken :=
  RefreshToken.mk "t1" "ada" "family" "hash" None None 1800000000000 None 0 None.
Definition closure_start : Store := ClosureStore.mk demo_world [ada_account; bob_account] [ada_token] [].

(** The truncated bytes 0, 1, 2, 3 are the number 66051. *)
Example code_of_the_digest : TwoFactor.generateTwoFactorCode "seed" 5 = "066051".
Proof. vm_compute. reflexivity. Qed.

Lemma closeAccount_outcomes_witness :
  exists r s', AccountClosureService.closeAccount "ada" "secret" " 066051 " closure_start = (inr r, s') /\
    exists a, may_close a "secret" " 066051 " closure_start /\ closed_row a.(UserAccount.id) (deletedAt r) s'.
Proof.
  pose proof (closeAccount_outcomes "ada" "secret" " 066051 " closure_start) as H.
  destruct (AccountClosureService.closeAccount "ada" "secret" " 066051 " closure_start) as [[x|r] s'] eqn:E; [eval_result E|].
  destruct H as (_ & _ & a & Hm & _ & Hc & _). exists r, s'. split; [reflexivity | eauto].
Defined.

Lemma purge_erases_what_is_due_witness :
  exists s' a', AccountClosurePurgeJob.purgeExpiredPersonalData closure_start = (inr tt, s') /\
    In a' s'.(ClosureStore.accounts) /\ a'.(UserAccount.id) = "bob" /\ purged_at 1700000000000 a'.
Proof.
  destruct (AccountClosurePurgeJob.purgeExpiredPersonalData closure_start) as [[x|[]] s'] eqn:E; [eval_result E|].
  assert (Hnd : NoDup (map row_id closure_start.(ClosureStore.accounts)))
    by (apply (bool_decide_unpack _); reflexivity).
  destruct (purge_erases_what_is_due closure_start s' Hnd E) as [Hp _].
  destruct (Hp bob_account (or_intror (or_introl eq_refl)) eq_refl) as (a' & Ha' & Hid & Hd).
  exists s', a'. repeat split; try assumption; apply Hd.
Defined.

(** A deleted account is never purged: [deleteAccount] sets no purge date, so
    its mail address and name stay. *)
Example deletion_keeps_personal_data :
  let s := (AccountDeletionService.deleteAccount "ada" closure_start).2 in
  match List.find (AccountClosureService.of_id "ada") s.(ClosureStore.accounts) with
  | Some a => a.(UserAccount.isActive) = false /\ a.(UserAccount.email) = "ada@nexafx.io" /\
              forall now, AccountClosurePurgeJob.due now a = false
  | None => False
  end.
Proof. vm_compute. repeat split. Qed.
