(* ===== verification/Rates.v ===== *)
(** exchange-rates/: the bounded cache in memory (cache/exchange-rates.cache.ts),
    the rates cached in the database with their history
    (exchange-rates.service.ts), the two providers (exchange-rate-failover
    .service.ts) and the candles of a price chart (rate-snapshot.util.ts). *)
From Stdlib Require Import Sorting.Sorted.
From S2P Require Import Prelude JsNumber Effects RepositoryLaws JsData QueryBuilder Lifecycle.
Local Open Scope Z_scope.

(** [cachedAt] and [recordedAt] are generated columns that the service sets. *)
(** exchange-rates/entities/exchange-rate-cache.entity.ts *)
Module ExchangeRateCacheEntity.
Record ExchangeRateCacheEntity : Type := mk {
  id : string;
  pair : string;
  rate : num;
  source : string;
  cachedAt : Z;
  expiresAt : Z
}.
#[global] Instance settable : Settable ExchangeRateCacheEntity := fun r =>
  mk r.(id) r.(pair) r.(rate) r.(source) r.(cachedAt) r.(expiresAt).
End ExchangeRateCacheEntity.

#[global] Program Instance ExchangeRateCacheEntity_row : Row ExchangeRateCacheEntity.ExchangeRateCacheEntity := {|
  row_id := ExchangeRateCacheEntity.id;
  set_row_id i e := e <| ExchangeRateCacheEntity.id := i |>;
  created t e := e;
  touched t e := e;
  live e := true;
  clash a b := false
|}.

(** exchange-rates/entities/exchange-rate-history.entity.ts *)
Module ExchangeRateHistoryEntity.
Record ExchangeRateHistoryEntity : Type := mk {
  id : string;
  pair : string;
  rate : num;
  source : string;
  recordedAt : Z
}.
#[global] Instance settable : Settable ExchangeRateHistoryEntity := fun r =>
  mk r.(id) r.(pair) r.(rate) r.(source) r.(recordedAt).
End ExchangeRateHistoryEntity.

#[global] Program Instance ExchangeRateHistoryEntity_row : Row ExchangeRateHistoryEntity.ExchangeRateHistoryEntity := {|
  row_id := ExchangeRateHistoryEntity.id;
  set_row_id i e := e <| ExchangeRateHistoryEntity.id := i |>;
  created t e := e;
  touched t e := e;
  live e := true;
  clash a b := false
|}.

Module CachedRate.
Record CachedRate : Type := mk {
  from : string;
  to : string;
  rate : num;
  cachedAt : Z
}.
#[global] Instance settable : Settable CachedRate := fun r =>
  mk r.(from) r.(to) r.(rate) r.(cachedAt).
End CachedRate.

(** A provider's answer, as the failover service keeps it. *)
Record ProviderRate : Type := mkProviderRate { pr_pair : string; pr_rate : num }.

(** [lru]: a JavaScript Map, in insertion order. *)
Module RatesStore.
Record RatesStore : Type := mk {
  env : Env;
  cached : list ExchangeRateCacheEntity.ExchangeRateCacheEntity;
  history : list ExchangeRateHistoryEntity.ExchangeRateHistoryEntity;
  lru : list (string * CachedRate.CachedRate);
  lastCachedRate : gmap string ProviderRate;
  healthy : bool
}.
#[global] Instance settable : Settable RatesStore := fun r =>
  mk r.(env) r.(cached) r.(history) r.(lru) r.(lastCachedRate) r.(healthy).
End RatesStore.

#[global] Program Instance RatesStore_env : HasEnv RatesStore.RatesStore := {|
  env_of := RatesStore.env;
  set_env e w := w <| RatesStore.env := e |>
|}.

#[global] Program Instance RatesStore_cached : Table RatesStore.RatesStore ExchangeRateCacheEntity.ExchangeRateCacheEntity := {|
  rows := RatesStore.cached;
  set_rows t w := w <| RatesStore.cached := t |>
|}.

#[global] Program Instance RatesStore_history : Table RatesStore.RatesStore ExchangeRateHistoryEntity.ExchangeRateHistoryEntity := {|
  rows := RatesStore.history;
  set_rows t w := w <| RatesStore.history := t |>
|}.

Notation Store := RatesStore.RatesStore.
Notation Cached := ExchangeRateCacheEntity.ExchangeRateCacheEntity.
Notation History := ExchangeRateHistoryEntity.ExchangeRateHistoryEntity.
Notation Entry := CachedRate.CachedRate.

(** ** A Map in insertion order *)

Section OrderedMap.
Context {V : Type}.

Definition map_delete (k : string) (l : list (string * V)) : list (string * V) :=
  List.filter (fun e => negb (String.eqb e.1 k)) l.

(** [set] of a key that is absent: it goes last. *)
Definition map_set_new (k : string) (v : V) (l : list (string * V)) : list (string * V) := l ++ [(k, v)].
End OrderedMap.

(** ** ExchangeRatesCache *)

Module ExchangeRatesCache.
Section Cache.
Variables maxSize ttlMs : Z.

Definition buildKey (from to : string) : string := toUpperCase from +:+ ":" +:+ toUpperCase to.

Definition set_lru (l : list (string * Entry)) (s : Store) : Store := s <| RatesStore.lru := l |>.

Definition get (from to : string) : M Store (option Entry) :=
  let key := buildKey from to in
  let* cache := gets RatesStore.lru in
  match map_get key cache with
  | None => ret None
  | Some entry =>
      let* now := date_now in
      if ttlMs <? now - entry.(CachedRate.cachedAt) then
        modify (set_lru (map_delete key cache)) ;;; ret None
      else
        modify (set_lru (map_set_new key entry (map_delete key cache))) ;;;
        ret (Some entry)
  end.

(** The first key in insertion order goes when the cache is full. *)
Definition evict (l : list (string * Entry)) : list (string * Entry) :=
  if maxSize <=? Z.of_nat (length l) then tl l else l.

Definition set (from to : string) (rate : num) : M Store unit :=
  let key := buildKey from to in
  let* cache := gets RatesStore.lru in
  let* now := date_now in
  modify (set_lru (map_set_new key (CachedRate.mk from to rate now) (evict (map_delete key cache)))).

Definition invalidate (from to : string) : M Store unit :=
  modify (fun s => set_lru (map_delete (buildKey from to) s.(RatesStore.lru)) s).

Definition clear : M Store unit := modify (set_lru []).

Definition size : M Store Z := gets (fun s => Z.of_nat (length s.(RatesStore.lru))).
End Cache.
End ExchangeRatesCache.

(** ** ExchangeRatesService *)

Definition SUPPORTED_PAIRS : list string := ["USD/NGN"; "USD/EUR"; "USD/GBP"; "EUR/NGN"; "GBP/NGN"].

Record QueryHistoryDto : Type := mkQueryHistory {
  h_pair : option string;
  h_from : option string;
  h_to : option string;
  h_page : option Z;
  h_limit : option Z
}.

Record Conversion : Type := mkConversion {
  cv_from : string;
  cv_to : string;
  cv_amount : num;
  cv_convertedAmount : num;
  cv_rate : num
}.

Module ExchangeRatesService.
Section Service.
Variable cacheTtlSeconds : Z.

Definition baseRates (pair : string) : option num :=
  if String.eqb pair "USD/NGN" then Some (num_of_Z 1550)
  else if String.eqb pair "USD/EUR" then Some (num_of_ratio 92 100)
  else if String.eqb pair "USD/GBP" then Some (num_of_ratio 79 100)
  else if String.eqb pair "EUR/NGN" then Some (num_of_Z 1685)
  else if String.eqb pair "GBP/NGN" then Some (num_of_Z 1962)
  else None.

(** The catch clause of the source is never reached: nothing here throws. *)
Definition fetchRateFromSource (pair : string) : M Store num :=
  let baseRate := default (num_of_Z 1) (baseRates pair) in
  let* r := math_random in
  let fluctuation := ((r - num_of_ratio 5 10) * num_of_ratio 2 100)%num in
  ret (fixed_num 8 (baseRate * (num_of_Z 1 + fluctuation))%num).

Definition of_pair (pair : string) (c : Cached) : bool := String.eqb c.(ExchangeRateCacheEntity.pair) pair.

Definition cache_pair (now expiresAt : Z) (rates : list Cached) (pair : string) : M Store (list Cached) :=
  let* rate := fetchRateFromSource pair in
  let* found := findOne (of_pair pair) in
  let cached := match found with
                | Some c => c <| ExchangeRateCacheEntity.rate := rate |>
                              <| ExchangeRateCacheEntity.source := "stellar" |>
                              <| ExchangeRateCacheEntity.cachedAt := now |>
                              <| ExchangeRateCacheEntity.expiresAt := expiresAt |>
                | None => ExchangeRateCacheEntity.mk "" pair rate "stellar" now expiresAt
                end in
  let* cached := save cached in
  save (ExchangeRateHistoryEntity.mk "" pair rate "stellar" now) ;;;
  ret (rates ++ [cached]).

Definition fetchAndCacheRates : M Store (list Cached) :=
  let* now := date_now in
  let expiresAt := now + cacheTtlSeconds * 1000 in
  fold_each SUPPORTED_PAIRS [] (cache_pair now expiresAt).

Definition fresh (now : Z) (c : Cached) : bool := now <? c.(ExchangeRateCacheEntity.expiresAt).

Definition getRates : M Store (list Cached) :=
  let* now := date_now in
  let* cached := find_all (fresh now) in
  match cached with
  | _ :: _ => ret cached
  | [] => fetchAndCacheRates
  end.

Definition getRateByPair (pair : string) : M Store (option Cached) :=
  let* now := date_now in
  let* cached := findOne (fun c => of_pair pair c && fresh now c) in
  match cached with
  | Some c => ret (Some c)
  | None =>
      let* rates := fetchAndCacheRates in
      ret (List.find (of_pair pair) rates)
  end.

Definition history_matches (dto : QueryHistoryDto) (h : History) : bool :=
  and_where (h_pair dto) str_truthy (String.eqb h.(ExchangeRateHistoryEntity.pair)) &&
  and_where (h_from dto) str_truthy
    (fun f => match parse_iso f with Some t => t <=? h.(ExchangeRateHistoryEntity.recordedAt) | None => false end) &&
  and_where (h_to dto) str_truthy
    (fun f => match parse_iso f with Some t => h.(ExchangeRateHistoryEntity.recordedAt) <=? t | None => false end).

Definition getHistory (dto : QueryHistoryDto) : M Store (list History * Z * Z * Z) :=
  let page := default 1 (h_page dto) in
  let limit := default 20 (h_limit dto) in
  let offset := (page - 1) * limit in
  let* ' (items, total) := getManyAndCount (history_matches dto) ExchangeRateHistoryEntity.recordedAt offset limit in
  ret (items, page, limit, total).

Definition calculateConversion (from to : string) (amount : num) : M Store Conversion :=
  let f := toUpperCase from in
  let t := toUpperCase to in
  let* rateObj := getRateByPair (f +:+ "/" +:+ t) in
  let direct := match rateObj with Some c => c.(ExchangeRateCacheEntity.rate) | None => num_nan end in
  let* rate :=
    (if num_truthy direct then ret direct
     else
       let* invObj := getRateByPair (t +:+ "/" +:+ f) in
       ret match invObj with
           | Some c =>
               if (c.(ExchangeRateCacheEntity.rate) >? num_of_Z 0)%num
               then fixed_num 8 (num_of_Z 1 / c.(ExchangeRateCacheEntity.rate))%num
               else num_of_Z 1
           | None => num_of_Z 1
           end) in
  ret (mkConversion f t amount (fixed_num 8 (amount * rate)%num) rate).

(** The variable is named [expired] in the source; it counts the rates that are
    not. *)
Definition refreshExpiredRates : M Store unit :=
  let* now := date_now in
  let* count := count_rows (fresh now) in
  if count =? 0 then fetchAndCacheRates ;;; ret tt else ret tt.
End Service.
End ExchangeRatesService.

(** ** ExchangeRateFailoverService *)

Module ExchangeRateFailoverService.
Definition fetchFromPrimary (pair : string) : M Store ProviderRate :=
  ret (mkProviderRate pair (num_of_ratio 123 100)).
Definition fetchFromSecondary (pair : string) : M Store ProviderRate :=
  ret (mkProviderRate pair (num_of_ratio 124 100)).

(** [redisService.setex('provider:1:healthy', 300, 'true')]. *)
Definition setex_healthy : M Store unit :=
  db_call ;;; modify (fun s => s <| RatesStore.healthy := true |>).

Definition remember (pair : string) (rate : ProviderRate) : M Store unit :=
  modify (fun s => s <| RatesStore.lastCachedRate := <[pair := rate]> s.(RatesStore.lastCachedRate) |>).

(** The rate and [stale]. *)
Definition getExchangeRate (pair : string) : M Store (ProviderRate * bool) :=
  try_catch
    (let* rate := fetchFromPrimary pair in
     setex_healthy ;;;
     remember pair rate ;;;
     ret (rate, false))
    (fun _ =>
       try_catch
         (let* rate := fetchFromSecondary pair in
          remember pair rate ;;;
          ret (rate, false))
         (fun _ =>
            let* last := gets (fun s => s.(RatesStore.lastCachedRate) !! pair) in
            match last with
            | Some rate => ret (rate, true)
            | None => throw (PlainError "All providers failed and no cache available")
            end)).
End ExchangeRateFailoverService.

(** ** Candles *)

Inductive HistoryPeriod : Type := P1h | P24h | P7d | P30d.
Record RatePoint : Type := mkPoint { p_rate : num; p_recordedAt : Z }.
Record OhlcCandle : Type := mkCandle { bucket : string; open_ : num; high : num; low : num; close : num }.

Definition HOUR_MS : Z := 3600000.
Definition PERIOD_HOURS (p : HistoryPeriod) : Z :=
  match p with P1h => 1 | P24h => 24 | P7d => 24 * 7 | P30d => 24 * 30 end.

Definition truncateToHour (at_ : Z) : Z := at_ / HOUR_MS * HOUR_MS.

Definition withinPeriod (points : list RatePoint) (period : HistoryPeriod) (now : Z) : list RatePoint :=
  let cutoff := now - PERIOD_HOURS period * HOUR_MS in
  List.filter (fun point => cutoff <=? p_recordedAt point) points.

(** [buckets.set(key, [...(buckets.get(key) ?? []), point])]. *)
Fixpoint add_point (key : string) (point : RatePoint) (buckets : list (string * list RatePoint)) :
    list (string * list RatePoint) :=
  match buckets with
  | [] => [(key, [point])]
  | (k, group) :: l => if String.eqb k key then (k, group ++ [point]) :: l else (k, group) :: add_point key point l
  end.

Definition bucket_key (point : RatePoint) : string := toISOString (truncateToHour (p_recordedAt point)).

Definition buckets_of (points : list RatePoint) : list (string * list RatePoint) :=
  fold_left (fun buckets point => add_point (bucket_key point) point buckets)
    (order_asc p_recordedAt points) [].

(** [Math.max(...rates)], [Math.min(...rates)]. *)
Definition max_of (rates : list num) : num := fold_left math_max rates (- num_infinity)%num.
Definition min_of (rates : list num) : num := fold_left math_min rates num_infinity.

Definition candle (b : string * list RatePoint) : OhlcCandle :=
  let rates := map p_rate b.2 in
  mkCandle b.1 (hd num_nan rates) (max_of rates) (min_of rates) (List.last rates num_nan).

(** [a.bucket.localeCompare(b.bucket)] on ISO dates: the order of the strings. *)
Fixpoint insert_candle (c : OhlcCandle) (l : list OhlcCandle) : list OhlcCandle :=
  match l with
  | [] => [c]
  | d :: l' => if String.leb (bucket c) (bucket d) then c :: l else d :: insert_candle c l'
  end.

Definition toOhlc (points : list RatePoint) : list OhlcCandle :=
  fold_right insert_candle [] (map candle (buckets_of points)).

(** ** The cache as a machine of commands *)

Section OrderedMapLaws.
Context {V : Type}.
Implicit Types l : list (string * V).

Lemma map_get_app k l l' :
  ~ In k (map fst l) -> map_get k (l ++ l') = map_get k l'.
Proof.
  induction l as [|[k' v] l IH]; intros Hk; [reflexivity|]. simpl in *.
  destruct (String.eqb_spec k' k) as [->|]; tauto.
Qed.

Lemma map_delete_notin k l : ~ In k (map fst l) -> map_delete k l = l.
Proof.
  induction l as [|[k' v] l IH]; intros Hk; [reflexivity|]. unfold map_delete in *. simpl in *.
  destruct (String.eqb_spec k' k) as [->|]; simpl; [tauto|]. f_equal. tauto.
Qed.

Lemma map_delete_cons_other k j v l :
  j <> k -> map_delete j ((k, v) :: l) = (k, v) :: map_delete j l.
Proof. intros H. unfold map_delete. simpl. destruct (String.eqb_spec k j); [congruence | reflexivity]. Qed.

Lemma in_map_delete k j l : In j (map fst (map_delete k l)) <-> In j (map fst l) /\ j <> k.
Proof.
  unfold map_delete. rewrite !in_map_iff. split.
  - intros ([i v] & <- & H). apply filter_In in H as [H Hb]. simpl in *.
    destruct (String.eqb_spec i k); [discriminate|]. split; [exists (i, v); auto | assumption].
  - intros (([i v] & <- & H) & Hn). exists (i, v). split; [reflexivity|]. apply filter_In. split; [assumption|].
    simpl in *. destruct (String.eqb_spec i k); [contradiction | reflexivity].
Qed.

Lemma NoDup_map_delete k l : NoDup (map fst l) -> NoDup (map fst (map_delete k l)).
Proof. intros H. unfold map_delete. apply NoDup_map_filter. exact H. Qed.

Lemma length_map_delete k l : (length (map_delete k l) <= length l)%nat.
Proof. apply List.filter_length_le. Qed.

Lemma NoDup_map_set k v l : NoDup (map fst l) -> NoDup (map fst (map_set_new k v (map_delete k l))).
Proof.
  intros H. unfold map_set_new. rewrite List.map_app. apply NoDup_app. split; [apply NoDup_map_delete, H|].
  split; [|simpl; repeat constructor; set_solver].
  intros j Hj Hk. apply list_elem_of_In, in_map_delete in Hj as [_ Hj]. simpl in Hk. set_solver.
Qed.
End OrderedMapLaws.

Section CacheMachine.
Variables maxSize ttlMs : Z.

Inductive CacheCommand :=
| CGet (from to : string)
| CSet (from to : string) (rate : num)
| CInvalidate (from to : string)
| CClear.

Definition run_command (c : CacheCommand) : M Store unit :=
  match c with
  | CGet f t => ExchangeRatesCache.get ttlMs f t ;;; ret tt
  | CSet f t r => ExchangeRatesCache.set maxSize f t r
  | CInvalidate f t => ExchangeRatesCache.invalidate f t
  | CClear => ExchangeRatesCache.clear
  end.

(** The keys a sequence of commands reads or writes. *)
Definition touched_key (c : CacheCommand) : list string :=
  match c with
  | CGet f t | CSet f t _ | CInvalidate f t => [ExchangeRatesCache.buildKey f t]
  | CClear => []
  end.

(** A command that leaves the entry of [key] in place, or only reads it. *)
Definition leaves (key : string) (c : CacheCommand) : Prop :=
  match c with
  | CGet _ _ => True
  | CSet f t _ | CInvalidate f t => ExchangeRatesCache.buildKey f t <> key
  | CClear => False
  end.

Definition keys_of (s : Store) : list string := map fst s.(RatesStore.lru).

(** Distinct keys, and no more of them than the cache may hold. *)
Definition cache_ok (s : Store) : Prop :=
  NoDup (keys_of s) /\ Z.of_nat (length (keys_of s)) <= maxSize.

Lemma NoDup_tl {A} (l : list A) : NoDup l -> NoDup (tl l).
Proof. destruct l; [auto|]. intros H. apply NoDup_cons in H. apply H. Qed.

Lemma in_evict (l : list (string * Entry)) x : In x (ExchangeRatesCache.evict maxSize l) -> In x l.
Proof. unfold ExchangeRatesCache.evict. destruct (_ <=? _); [|auto]. destruct l; simpl; auto. Qed.

Lemma NoDup_evict (l : list (string * Entry)) : NoDup (map fst l) -> NoDup (map fst (ExchangeRatesCache.evict maxSize l)).
Proof.
  intros H. unfold ExchangeRatesCache.evict. destruct (_ <=? _); [|exact H].
  destruct l; [exact H|]. apply (NoDup_tl _ H).
Qed.

Lemma evict_room (l : list (string * Entry)) : 1 <= maxSize -> Z.of_nat (length l) <= maxSize ->
  Z.of_nat (length (ExchangeRatesCache.evict maxSize l)) < maxSize.
Proof.
  intros H1 H. unfold ExchangeRatesCache.evict.
  destruct (Z.leb_spec maxSize (Z.of_nat (length l))); [|lia]. destruct l; simpl in *; lia.
Qed.

(** The keys of a map after [set] of an absent key. *)
Lemma NoDup_set_new {V} k (v : V) l : NoDup (map fst l) -> ~ In k (map fst l) -> NoDup (map fst (map_set_new k v l)).
Proof.
  intros H Hk. unfold map_set_new. rewrite List.map_app. apply NoDup_app. split; [exact H|]. split.
  - intros j Hj Hj'. simpl in Hj'. apply list_elem_of_singleton in Hj' as ->. apply Hk, list_elem_of_In, Hj.
  - apply NoDup_singleton.
Qed.

Lemma length_incl {A} (l l' : list A) : NoDup l -> incl l l' -> (length l <= length l')%nat.
Proof. intros H. apply List.NoDup_incl_length. apply NoDup_ListNoDup, H. Qed.

Lemma map_get_in {V} k (v : V) l : map_get k l = Some v -> In k (map fst l).
Proof.
  induction l as [|[j w] l IH]; [discriminate|]. simpl.
  destruct (String.eqb_spec j k) as [->|]; [auto | intros H; right; apply IH, H].
Qed.

Lemma run_command_ok c s : 1 <= maxSize -> cache_ok s -> cache_ok (run_command c s).2.
Proof.
  intros H1 Hok. pose proof Hok as [Hnd Hsz]. unfold keys_of in *. rewrite length_map in Hsz.
  assert (Hdel : forall k s', s'.(RatesStore.lru) = map_delete k s.(RatesStore.lru) -> cache_ok s').
  { intros k s' E. unfold cache_ok, keys_of. rewrite E, length_map. split; [apply NoDup_map_delete, Hnd|].
    pose proof (length_map_delete k s.(RatesStore.lru)). lia. }
  destruct c as [f t|f t r|f t|]; simpl.
  - unfold ExchangeRatesCache.get. cbv [bind gets ret]. destruct (map_get _ _) as [e|] eqn:He; [|exact Hok].
    simpl. destruct (_ <? _); simpl; [eapply Hdel; reflexivity|].
    unfold cache_ok, keys_of. simpl. split.
    + apply NoDup_set_new; [apply NoDup_map_delete, Hnd|]. rewrite in_map_delete. tauto.
    + etransitivity; [apply Nat2Z.inj_le, (length_incl _ (map fst s.(RatesStore.lru)))|].
      * apply NoDup_set_new; [apply NoDup_map_delete, Hnd|]. rewrite in_map_delete. tauto.
      * intros j Hj. unfold map_set_new in Hj. rewrite List.map_app, in_app_iff, in_map_delete in Hj.
        destruct Hj as [[Hj _]|[<-|[]]]; [exact Hj | eapply map_get_in, He].
      * rewrite length_map. exact Hsz.
  - unfold cache_ok, keys_of. simpl. set (k := ExchangeRatesCache.buildKey f t).
    pose proof (length_map_delete k s.(RatesStore.lru)) as Hd.
    pose proof (evict_room (map_delete k s.(RatesStore.lru)) H1 ltac:(lia)) as Hroom.
    split.
    + apply NoDup_set_new; [apply NoDup_evict, NoDup_map_delete, Hnd|].
      intros Hin. apply in_map_iff in Hin as (x & Hx & Hin). apply in_evict, (in_map fst) in Hin.
      rewrite Hx, in_map_delete in Hin. tauto.
    + rewrite length_map. unfold map_set_new. rewrite length_app. simpl. lia.
  - eapply Hdel. reflexivity.
  - unfold cache_ok, keys_of. simpl. split; [constructor | lia].
Qed.

(** The entry of [key] is [e], and whatever was written or read after it is a
    key of [T]. *)
Definition recent (key : string) (e : Entry) (T : list string) (s : Store) : Prop :=
  exists pre post, s.(RatesStore.lru) = pre ++ (key, e) :: post /\ incl (map fst post) T.

Lemma map_delete_app {V} k (l l' : list (string * V)) : map_delete k (l ++ l') = map_delete k l ++ map_delete k l'.
Proof. apply List.filter_app. Qed.

Lemma NoDup_middle {V} (pre : list (string * V)) key e post :
  NoDup (map fst (pre ++ (key, e) :: post)) ->
  ~ In key (map fst pre) /\ ~ In key (map fst post) /\ NoDup (map fst post).
Proof.
  rewrite List.map_app. intros H. pose proof (proj1 (NoDup_app _ _) H) as (_ & Hd & Ht).
  apply NoDup_cons in Ht as [Hk Hp].
  rewrite <- !list_elem_of_In. split; [|split; assumption].
  intros Hin. apply (Hd _ Hin). left.
Qed.

Lemma map_get_middle {V} (pre : list (string * V)) key e post :
  ~ In key (map fst pre) -> map_get key (pre ++ (key, e) :: post) = Some e.
Proof. intros H. rewrite map_get_app by exact H. simpl. rewrite String.eqb_refl. reflexivity. Qed.

Lemma recent_delete key e T s s' k :
  k <> key -> recent key e T s -> s'.(RatesStore.lru) = map_delete k s.(RatesStore.lru) -> recent key e T s'.
Proof.
  intros Hk (pre & post & Hs & Hp) Hs'. exists (map_delete k pre), (map_delete k post).
  rewrite Hs', Hs, map_delete_app, map_delete_cons_other by congruence. split; [reflexivity|].
  intros j Hj. apply in_map_delete in Hj as [Hj _]. apply Hp, Hj.
Qed.

(** Setting another key evicts [key] only once as many other keys have been
    touched as the cache holds. *)
Lemma recent_set key e T s k v s' :
  1 <= maxSize -> cache_ok s -> recent key e T s -> k <> key -> In k T -> NoDup T -> ~ In key T ->
  Z.of_nat (length T) < maxSize ->
  s'.(RatesStore.lru) = map_set_new k v (ExchangeRatesCache.evict maxSize (map_delete k s.(RatesStore.lru))) ->
  recent key e T s'.
Proof.
  intros H1 [Hnd _] (pre & post & Hs & Hp) Hk HkT HT HkeyT Hlt Hs'.
  unfold keys_of in Hnd. rewrite Hs in Hnd. destruct (NoDup_middle _ _ _ _ Hnd) as (_ & Hkp & Hndp).
  unfold recent. rewrite Hs', Hs, map_delete_app, map_delete_cons_other by congruence.
  assert (Hsz : Z.of_nat (length (map_delete k post)) < maxSize - 1).
  { assert (Hl : (S (length (map_delete k post)) <= length T)%nat); [|lia].
    rewrite <- (length_map fst). change (length (k :: map fst (map_delete k post)) <= length T)%nat. apply length_incl.
    - apply NoDup_cons. split; [|apply NoDup_map_delete, Hndp]. rewrite list_elem_of_In, in_map_delete. tauto.
    - intros j [<-|Hj]; [exact HkT|]. apply in_map_delete in Hj as [Hj _]. apply Hp, Hj. }
  assert (Hin : incl (map fst (map_delete k post ++ [(k, v)])) T).
  { intros j Hj. rewrite List.map_app, in_app_iff, in_map_delete in Hj. destruct Hj as [[Hj _]|[<-|[]]]; [apply Hp, Hj | exact HkT]. }
  unfold ExchangeRatesCache.evict, map_set_new. destruct (Z.leb_spec maxSize (Z.of_nat (length (map_delete k pre ++ (key, e) :: map_delete k post)))) as [Hfull|].
  - destruct (map_delete k pre) as [|x pre'].
    + exfalso. simpl in Hfull. lia.
    + exists pre', (map_delete k post ++ [(k, v)]). split; [|exact Hin]. simpl. rewrite <- app_assoc. reflexivity.
  - exists (map_delete k pre), (map_delete k post ++ [(k, v)]). split; [|exact Hin]. rewrite <- app_assoc. reflexivity.
Qed.

Lemma run_command_env c s : env_step (env_of s) (env_of (run_command c s).2).
Proof.
  destruct c as [f t|f t r|f t|]; simpl; try (split; simpl; auto; fail).
  unfold ExchangeRatesCache.get. cbv [bind gets ret].
  destruct (map_get _ _); [|reflexivity]. simpl. destruct (_ <? _); split; simpl; auto.
Qed.

Lemma run_command_total c s : exists s', run_command c s = (inr tt, s').
Proof.
  destruct c as [f t|f t r|f t|]; simpl; try (eexists; reflexivity).
  unfold ExchangeRatesCache.get. cbv [bind gets ret].
  destruct (map_get _ _); [|eexists; reflexivity]. simpl. destruct (_ <? _); eexists; reflexivity.
Qed.

Lemma clock_of_step (e e' : Env) : clock_monotone e -> env_step e e' ->
  clock_monotone e' /\ clock e (tick e) <= clock e' (tick e').
Proof.
  intros Hm Hs. unfold clock_monotone. rewrite (es_clock _ _ Hs). split; [exact Hm | apply Hm, (es_tick _ _ Hs)].
Qed.

(** Reading [key] itself within its time to live makes it the most recent;
    reading or writing another key costs at most one place. *)
Lemma recent_command key e T c s :
  1 <= maxSize -> cache_ok s -> recent key e T s -> leaves key c -> NoDup T -> ~ In key T ->
  Z.of_nat (length T) < maxSize -> incl (touched_key c) (key :: T) ->
  clock (env_of s) (tick (env_of s)) - e.(CachedRate.cachedAt) <= ttlMs ->
  recent key e T (run_command c s).2.
Proof.
  intros H1 Hok Hrec Hl HT HkT Hlt Hin Hage.
  assert (Hother : forall f t, In (ExchangeRatesCache.buildKey f t) (key :: T) ->
    ExchangeRatesCache.buildKey f t <> key -> In (ExchangeRatesCache.buildKey f t) T).
  { intros f t [E|E] Hne; [congruence | exact E]. }
  destruct c as [f t|f t r|f t|]; simpl in *.
  - specialize (Hother f t (Hin _ (or_introl eq_refl))). set (k := ExchangeRatesCache.buildKey f t) in *.
    unfold ExchangeRatesCache.get. fold k. cbv [bind gets ret].
    destruct (map_get k s.(RatesStore.lru)) as [e'|] eqn:He; [|exact Hrec]. simpl.
    destruct (string_dec k key) as [Ek|Hne].
    + assert (e' = e) as ->.
      { destruct Hrec as (pre & post & Hs & Hp). destruct Hok as [Hnd _]. unfold keys_of in Hnd. rewrite Hs in Hnd, He.
        rewrite Ek, map_get_middle in He by apply (NoDup_middle _ _ _ _ Hnd). congruence. }
      destruct (Z.ltb_spec ttlMs (clock s.(RatesStore.env) (tick s.(RatesStore.env)) - e.(CachedRate.cachedAt))); [lia|].
      simpl. unfold recent. simpl. rewrite Ek. exists (map_delete key s.(RatesStore.lru)), [].
      split; [reflexivity | intros j []].
    + destruct (_ <? _); simpl; [eapply recent_delete; [exact Hne | exact Hrec | reflexivity]|].
      pose proof (recent_delete key e T s (ExchangeRatesCache.set_lru (map_delete k s.(RatesStore.lru)) s) k Hne Hrec eq_refl) as (pre & post & Hs & Hp).
      exists pre, (post ++ [(k, e')]). simpl in *. unfold map_set_new. rewrite Hs, <- app_assoc. split; [reflexivity|].
      intros j Hj. rewrite List.map_app, in_app_iff in Hj. destruct Hj as [Hj|[<-|[]]]; [apply Hp, Hj | apply Hother, Hne].
  - eapply recent_set; try reflexivity; try eassumption. apply Hother; [apply Hin; left; reflexivity | exact Hl].
  - eapply recent_delete; [exact Hl | exact Hrec | reflexivity].
  - destruct Hl.
Qed.

Definition run_commands (cs : list CacheCommand) (s : Store) : Store := (for_each cs run_command s).2.

Lemma run_commands_cons c cs s : run_commands (c :: cs) s = run_commands cs (run_command c s).2.
Proof. unfold run_commands. destruct (run_command_total c s) as [s' E]. cbn [for_each]. unfold bind. rewrite E. reflexivity. Qed.

Lemma run_commands_ok cs s : 1 <= maxSize -> cache_ok s -> cache_ok (run_commands cs s).
Proof.
  intros H1. revert s. induction cs as [|c cs IH]; intros s Hok; [exact Hok|].
  rewrite run_commands_cons. apply IH, run_command_ok; assumption.
Qed.

Lemma run_commands_env cs s : env_step (env_of s) (env_of (run_commands cs s)).
Proof.
  revert s. induction cs as [|c cs IH]; intros s; [reflexivity|].
  rewrite run_commands_cons. etransitivity; [apply run_command_env | apply IH].
Qed.

Lemma recent_commands key e T cs s :
  1 <= maxSize -> cache_ok s -> recent key e T s -> Forall (leaves key) cs -> NoDup T -> ~ In key T ->
  Z.of_nat (length T) < maxSize -> incl (flat_map touched_key cs) (key :: T) ->
  clock_monotone (env_of s) ->
  clock (env_of (run_commands cs s)) (tick (env_of (run_commands cs s))) - e.(CachedRate.cachedAt) <= ttlMs ->
  recent key e T (run_commands cs s).
Proof.
  intros H1 Hok Hrec Hl HT HkT Hlt. revert s Hok Hrec.
  induction cs as [|c cs IH]; intros s Hok Hrec Hin Hm Hage; [exact Hrec|].
  apply Forall_cons in Hl as [Hc Hcs]. rewrite run_commands_cons in *.
  destruct (clock_of_step _ _ Hm (run_command_env c s)) as [Hm1 Hle1].
  destruct (clock_of_step _ _ Hm1 (run_commands_env cs _)) as [_ Hle2].
  apply IH; [exact Hcs | apply run_command_ok; assumption | | | exact Hm1 | exact Hage].
  - apply recent_command; try assumption; [|lia]. intros j Hj. apply Hin. simpl. apply in_or_app. auto.
  - intros j Hj. apply Hin. simpl. apply in_or_app. auto.
Qed.

(** The keys other than [key] that a run touches, each once. *)
Definition others (key : string) (cs : list CacheCommand) : list string :=
  nodup string_dec (List.remove string_dec key (flat_map touched_key cs)).

(** The cache of rates is a bounded least-recently-used cache: starting empty,
    after any commands it holds at most [maxSize] entries with distinct keys; and
    an entry that was set answers every later [get] within its time to live as
    long as fewer than [maxSize] other keys have been used since and nobody
    overwrote or invalidated it. *)
Theorem cache_is_bounded_lru cs0 cs from to rate s :
  1 <= maxSize -> s.(RatesStore.lru) = [] -> clock_monotone (env_of s) ->
  let key := ExchangeRatesCache.buildKey from to in
  let s0 := run_commands cs0 s in
  let now := clock (env_of s0) (tick (env_of s0)) in
  let s2 := run_commands (CSet from to rate :: cs) s0 in
  NoDup (keys_of s2) /\ Z.of_nat (length (keys_of s2)) <= maxSize /\
  (Forall (leaves key) cs -> Z.of_nat (length (others key cs)) < maxSize ->
   clock (env_of s2) (tick (env_of s2)) - now <= ttlMs ->
   (ExchangeRatesCache.get ttlMs from to s2).1 = inr (Some (CachedRate.mk from to rate now))).
Proof.
  intros H1 Hempty Hm key s0 now s2.
  assert (Hok0 : cache_ok s0).
  { apply run_commands_ok; [exact H1|]. unfold cache_ok, keys_of. rewrite Hempty. split; [constructor | simpl; lia]. }
  assert (Hok2 : cache_ok s2) by (apply run_commands_ok; assumption).
  split; [apply Hok2|]. split; [apply Hok2|]. intros Hl Hfew Hage.
  destruct (clock_of_step _ _ Hm (run_commands_env cs0 s)) as [Hm0 _].
  assert (Hrec : recent key (CachedRate.mk from to rate now) (others key cs) s2).
  { unfold s2 in *. rewrite run_commands_cons in *. apply recent_commands; try assumption.
    - apply run_command_ok; assumption.
    - eexists _, []. split; [reflexivity | intros j []].
    - apply NoDup_ListNoDup, NoDup_nodup.
    - unfold others. rewrite nodup_In. apply remove_In.
    - intros j Hj. destruct (string_dec j key) as [->|Hne]; [left; reflexivity|]. right.
      unfold others. apply nodup_In, in_in_remove; assumption. }
  destruct Hrec as (pre & post & Hs & _). destruct Hok2 as [Hnd _]. unfold keys_of in Hnd.
  unfold ExchangeRatesCache.get. fold key. cbv [bind gets ret].
  rewrite Hs in *. rewrite map_get_middle by apply (NoDup_middle _ _ _ _ Hnd). simpl.
  destruct (Z.ltb_spec ttlMs (clock (RatesStore.env s2) (tick (RatesStore.env s2)) - now)); [simpl in *; lia | reflexivity].
Qed.
End CacheMachine.

Definition rates_start : Store :=
  RatesStore.mk (mkEnv (fun n => 1000 * Z.of_nat n) 0 (fun _ => None) 0
           (fun n => ("u"%char, string_of_N (N.of_nat n))) 0 (fun _ => num_of_ratio 1 2) 0 [])
    [] [] [] ∅ false.

Lemma rates_start_monotone : clock_monotone (env_of rates_start).
Proof. intros n m H. simpl. lia. Qed.

Lemma cache_is_bounded_lru_witness :
  let s2 := run_commands 2 60000 (CSet "usd" "ngn" (num_of_Z 1550) :: [CSet "usd" "eur" (num_of_Z 1); CGet "USD" "EUR"])
              (run_commands 2 60000 [CSet "eur" "ngn" (num_of_Z 1685); CSet "gbp" "ngn" (num_of_Z 1962)] rates_start) in
  (ExchangeRatesCache.get 60000 "usd" "ngn" s2).1 = inr (Some (CachedRate.mk "usd" "ngn" (num_of_Z 1550) 2000)).
Proof.
  refine (proj2 (proj2 (cache_is_bounded_lru 2 60000 [CSet "eur" "ngn" (num_of_Z 1685); CSet "gbp" "ngn" (num_of_Z 1962)]
    [CSet "usd" "eur" (num_of_Z 1); CGet "USD" "EUR"] "usd" "ngn" (num_of_Z 1550) rates_start _ _ rates_start_monotone)) _ _ _);
    [lia | reflexivity | | vm_compute; reflexivity | vm_compute; discriminate].
  repeat constructor; vm_compute; discriminate.
Defined.

(** With no room at all the cache still keeps one entry. *)
Example cache_of_size_zero_holds_one :
  length (run_commands 0 60000 [CSet "usd" "ngn" (num_of_Z 1550)] rates_start).(RatesStore.lru) = 1%nat.
Proof. reflexivity. Qed.

(** ** Candles *)

Section CandleLaws.
Implicit Types (l : list RatePoint) (cs : list OhlcCandle) (b : list (string * list RatePoint)).

Definition in_bucket (k : string) (p : RatePoint) : bool := String.eqb (bucket_key p) k.

Lemma filter_none {A} (p : A -> bool) (l : list A) : (forall x, In x l -> p x = false) -> List.filter p l = [].
Proof.
  induction l as [|x l IH]; intros H; [reflexivity|]. simpl.
  rewrite (H x) by (left; reflexivity). apply IH. intros y Hy. apply H. right. exact Hy.
Qed.

Lemma hd_error_rev_last {A} (l : list A) d : l <> [] -> hd_error (rev l) = Some (List.last l d).
Proof.
  intros H. destruct (exists_last H) as (l' & x & ->). rewrite rev_unit, List.last_last. reflexivity.
Qed.

(** The buckets of [l]: each key once, with the points of its hour in order,
    at least one of them. *)
Definition buckets_for l b : Prop :=
  NoDup (map fst b) /\
  (forall k group, In (k, group) b -> group = List.filter (in_bucket k) l /\ group <> []) /\
  (forall p, In p l -> In (bucket_key p) (map fst b)).

Lemma in_add_point key point b k :
  In k (map fst (add_point key point b)) <-> In k (map fst b) \/ k = key.
Proof.
  induction b as [|[k' g] b IH]; simpl; [intuition congruence|].
  destruct (String.eqb_spec k' key) as [->|]; simpl; [intuition congruence | rewrite IH; tauto].
Qed.

Lemma NoDup_add_point key point b : NoDup (map fst b) -> NoDup (map fst (add_point key point b)).
Proof.
  induction b as [|[k' g] b IH]; simpl; [intros _; apply NoDup_singleton|].
  intros H. apply NoDup_cons in H as [Hk Hb].
  destruct (String.eqb_spec k' key) as [->|Hne]; simpl.
  { apply NoDup_cons. auto. }
  apply NoDup_cons. split; [|apply IH, Hb].
  rewrite list_elem_of_In in *. rewrite in_add_point. intros [H|H]; [tauto | congruence].
Qed.

Lemma add_point_group key point b k group :
  NoDup (map fst b) -> In (k, group) (add_point key point b) ->
  (k <> key /\ In (k, group) b) \/
  (k = key /\ ((~ In key (map fst b) /\ group = [point]) \/ (exists g, In (key, g) b /\ group = g ++ [point]))).
Proof.
  induction b as [|[k' g] b IH]; intros Hnd.
  - intros [E|[]]. injection E as <- <-. right. simpl. auto.
  - simpl in Hnd. apply NoDup_cons in Hnd as [Hk' Hnd]. rewrite list_elem_of_In in Hk'. simpl.
    destruct (String.eqb_spec k' key) as [->|Hne].
    + intros [E|Hin]; [injection E as <- <-; right; split; [reflexivity|]; right; eauto|].
      left. split; [|auto]. intros ->. apply Hk', in_map_iff. exists (key, group). auto.
    + intros [E|Hin]; [injection E as <- <-; left; auto|].
      destruct (IH Hnd Hin) as [[Hn Hin']|[-> [[Hn ->]|(g' & Hg & ->)]]]; [auto | |]; right; split; auto; [left | right; eauto].
      split; [|reflexivity]. intros [E|E]; tauto.
Qed.

Lemma buckets_for_add l b p : buckets_for l b -> buckets_for (l ++ [p]) (add_point (bucket_key p) p b).
Proof.
  intros (Hnd & Hg & Hall). split; [apply NoDup_add_point, Hnd|]. split.
  - intros k group Hin. rewrite List.filter_app. simpl. unfold in_bucket at 2.
    destruct (add_point_group _ _ _ _ _ Hnd Hin) as [[Hne Hin']|[-> Hcase]].
    + destruct (String.eqb_spec (bucket_key p) k); [congruence|]. rewrite app_nil_r. apply Hg, Hin'.
    + rewrite String.eqb_refl. destruct Hcase as [[Hno ->]|(g & Hin' & ->)].
      * split; [|discriminate]. rewrite (filter_none _ l); [reflexivity|].
        intros x Hx. unfold in_bucket. destruct (String.eqb_spec (bucket_key x) (bucket_key p)) as [E|]; [|reflexivity].
        exfalso. apply Hno. rewrite <- E. apply Hall, Hx.
      * destruct (Hg _ _ Hin') as [-> Hn]. split; [reflexivity|]. intros E. apply app_eq_nil in E as [_ E]. discriminate.
  - intros q Hq. apply in_add_point. apply in_app_iff in Hq as [Hq|[<-|[]]]; [left; apply Hall, Hq | right; reflexivity].
Qed.

Lemma buckets_of_spec l : buckets_for (order_asc p_recordedAt l) (buckets_of l).
Proof.
  unfold buckets_of. generalize (order_asc p_recordedAt l). intros t.
  assert (H : forall t acc b, buckets_for acc b ->
    buckets_for (acc ++ t) (fold_left (fun b p => add_point (bucket_key p) p b) t b)).
  { clear. induction t as [|p t IH]; intros acc b Hb; [rewrite app_nil_r; exact Hb|].
    simpl. replace (acc ++ p :: t) with ((acc ++ [p]) ++ t) by (rewrite <- app_assoc; reflexivity).
    apply IH, buckets_for_add, Hb. }
  apply (H t []). split; [constructor|]. split; [intros k g [] | intros p []].
Qed.

(** [Math.max] and [Math.min] of rates none of which is [NaN]. *)
Lemma fold_max_spec rates : forall acc,
  is_nan acc = false -> (forall r, In r rates -> is_nan r = false) ->
  let m := fold_left math_max rates acc in
  is_nan m = false /\ num_leb acc m = true /\ (forall r, In r rates -> num_leb r m = true) /\ (m = acc \/ In m rates).
Proof.
  induction rates as [|r rates IH]; intros acc Ha Hr; simpl.
  - auto using num_leb_refl.
  - assert (Hrn : is_nan r = false) by (apply Hr; left; reflexivity).
    assert (Hm : is_nan (math_max acc r) = false /\ num_leb acc (math_max acc r) = true /\ num_leb r (math_max acc r) = true /\
                 (math_max acc r = acc \/ math_max acc r = r)).
    { unfold math_max. rewrite Ha, Hrn. simpl. destruct (num_ltb acc r) eqn:E.
      - auto using num_leb_refl, num_ltb_leb.
      - auto 6 using num_leb_refl, num_ltb_false_leb. }
    destruct Hm as (Hmn & Hma & Hmr & Hor).
    destruct (IH (math_max acc r) Hmn) as (H1 & H2 & H3 & H4); [intros; apply Hr; right; assumption|].
    split; [exact H1|]. split; [eapply num_leb_trans; eassumption|]. split.
    + intros q [<-|Hq]; [eapply num_leb_trans; eassumption | apply H3, Hq].
    + destruct H4 as [->|H4]; [|auto]. destruct Hor as [->| ->]; auto.
Qed.

Lemma fold_min_spec rates : forall acc,
  is_nan acc = false -> (forall r, In r rates -> is_nan r = false) ->
  let m := fold_left math_min rates acc in
  is_nan m = false /\ num_leb m acc = true /\ (forall r, In r rates -> num_leb m r = true) /\ (m = acc \/ In m rates).
Proof.
  induction rates as [|r rates IH]; intros acc Ha Hr; simpl.
  - auto using num_leb_refl.
  - assert (Hrn : is_nan r = false) by (apply Hr; left; reflexivity).
    assert (Hm : is_nan (math_min acc r) = false /\ num_leb (math_min acc r) acc = true /\ num_leb (math_min acc r) r = true /\
                 (math_min acc r = acc \/ math_min acc r = r)).
    { unfold math_min. rewrite Ha, Hrn. simpl. destruct (num_ltb r acc) eqn:E.
      - auto using num_leb_refl, num_ltb_leb.
      - auto 6 using num_leb_refl, num_ltb_false_leb. }
    destruct Hm as (Hmn & Hma & Hmr & Hor).
    destruct (IH (math_min acc r) Hmn) as (H1 & H2 & H3 & H4); [intros; apply Hr; right; assumption|].
    split; [exact H1|]. split; [eapply num_leb_trans; eassumption|]. split.
    + intros q [<-|Hq]; [eapply num_leb_trans; eassumption | apply H3, Hq].
    + destruct H4 as [->|H4]; [|auto]. destruct Hor as [->| ->]; auto.
Qed.

Lemma neg_inf_least x : is_nan x = false -> num_leb x (- num_infinity)%num = true -> x = (- num_infinity)%num.
Proof. unfold num_infinity. destruct x as [[]|[]| |[] m e]; vm_compute; congruence. Qed.

Lemma inf_greatest x : is_nan x = false -> num_leb num_infinity x = true -> x = num_infinity.
Proof. unfold num_infinity. destruct x as [[]|[]| |[] m e]; vm_compute; congruence. Qed.

Lemma max_of_attained rates : rates <> [] -> (forall r, In r rates -> is_nan r = false) -> In (max_of rates) rates.
Proof.
  intros Hne Hr. destruct (fold_max_spec rates (- num_infinity)%num eq_refl Hr) as (_ & _ & Hall & [E|E]); [|exact E].
  destruct rates as [|r rates]; [congruence|]. fold (max_of (r :: rates)) in *. rewrite E.
  left. apply neg_inf_least; [apply Hr; left; reflexivity|]. rewrite <- E. apply Hall. left. reflexivity.
Qed.

Lemma min_of_attained rates : rates <> [] -> (forall r, In r rates -> is_nan r = false) -> In (min_of rates) rates.
Proof.
  intros Hne Hr. destruct (fold_min_spec rates num_infinity eq_refl Hr) as (_ & _ & Hall & [E|E]); [|exact E].
  destruct rates as [|r rates]; [congruence|]. fold (min_of (r :: rates)) in *. rewrite E.
  left. apply inf_greatest; [apply Hr; left; reflexivity|]. rewrite <- E. apply Hall. left. reflexivity.
Qed.

Lemma in_insert_candle c d cs : In c (insert_candle d cs) <-> c = d \/ In c cs.
Proof.
  induction cs as [|e cs IH]; simpl; [intuition congruence|].
  destruct (String.leb _ _); simpl; [intuition congruence | rewrite IH; intuition congruence].
Qed.

Lemma in_toOhlc c l : In c (toOhlc l) <-> exists x, In x (buckets_of l) /\ c = candle x.
Proof.
  unfold toOhlc. induction (buckets_of l) as [|b bs IH]; simpl; [firstorder|].
  rewrite in_insert_candle, IH. split.
  - intros [->|(b' & Hb & ->)]; eauto.
  - intros (b' & [<-|Hb] & ->); eauto.
Qed.

Definition bucket_le (c d : OhlcCandle) : Prop := String.leb (bucket c) (bucket d) = true.

Lemma sorted_insert_candle c cs : Sorted bucket_le cs -> Sorted bucket_le (insert_candle c cs).
Proof.
  induction cs as [|d cs IH]; intros Hs; simpl; [repeat constructor|].
  destruct (String.leb (bucket c) (bucket d)) eqn:E; [constructor; [exact Hs | constructor; exact E]|].
  inversion Hs as [|? ? Hs' Hd]; subst. constructor; [apply IH, Hs'|].
  assert (Hdc : bucket_le d c) by (unfold bucket_le; destruct (String.leb_total (bucket c) (bucket d)); congruence).
  destruct cs as [|e cs]; simpl; [constructor; exact Hdc|].
  destruct (String.leb (bucket c) (bucket e)); constructor; [exact Hdc|]. inversion Hd; assumption.
Qed.

(** A price chart has one candle for every hour with a rate and no other, in
    the order of their hours; its open and close are the first and the last rate
    of the hour, its low and high are rates of the hour that bound them all. *)
Theorem candles_summarise_their_hours l :
  (forall p, In p l -> is_nan (p_rate p) = false) ->
  Sorted bucket_le (toOhlc l) /\
  (forall p, In p l -> exists c, In c (toOhlc l) /\ bucket c = bucket_key p) /\
  (forall c, In c (toOhlc l) ->
     let group := List.filter (in_bucket (bucket c)) (order_asc p_recordedAt l) in
     group <> [] /\ hd_error (map p_rate group) = Some (open_ c) /\ hd_error (rev (map p_rate group)) = Some (close c) /\
     In (low c) (map p_rate group) /\ In (high c) (map p_rate group) /\
     (forall p, In p l -> bucket_key p = bucket c -> num_leb (low c) (p_rate p) = true /\ num_leb (p_rate p) (high c) = true)).
Proof.
  intros Hnan. destruct (buckets_of_spec l) as (_ & Hg & Hall). split; [|split].
  - unfold toOhlc. induction (map candle _); [constructor | apply sorted_insert_candle; assumption].
  - intros p Hp. assert (Hin : In (bucket_key p) (map fst (buckets_of l))) by (apply Hall, in_order_asc, Hp).
    apply in_map_iff in Hin as ([k g] & Hk & Hin). exists (candle (k, g)). split; [apply in_toOhlc; eauto | exact Hk].
  - intros c Hc group. apply in_toOhlc in Hc as ([k g] & Hin & ->). simpl in group.
    destruct (Hg _ _ Hin) as [Hgk Hne]. fold group in Hgk. subst g.
    assert (Hr : forall r, In r (map p_rate group) -> is_nan r = false).
    { intros r Hr. apply in_map_iff in Hr as (p & <- & Hp). apply Hnan. unfold group in Hp.
      apply filter_In in Hp as [Hp _]. apply in_order_asc in Hp. exact Hp. }
    assert (Hne' : map p_rate group <> []) by (destruct group; [congruence | discriminate]).
    split; [exact Hne|]. simpl. split; [destruct (map p_rate group); [congruence | reflexivity]|].
    split; [apply hd_error_rev_last, Hne'|].
    split; [apply min_of_attained; assumption|]. split; [apply max_of_attained; assumption|].
    intros p Hp Hkey. assert (Hpg : In (p_rate p) (map p_rate group)).
    { apply in_map, filter_In. split; [apply in_order_asc, Hp | unfold in_bucket; rewrite Hkey; apply String.eqb_refl]. }
    split; [apply (fold_min_spec _ num_infinity eq_refl Hr) | apply (fold_max_spec _ (- num_infinity)%num eq_refl Hr)]; exact Hpg.
Qed.
End CandleLaws.

Lemma candles_summarise_their_hours_witness :
  let points := [mkPoint (num_of_Z 12) 7200000; mkPoint (num_of_Z 10) 100; mkPoint (num_of_Z 15) 50; mkPoint (num_of_Z 11) 200] in
  Sorted bucket_le (toOhlc points) /\
  map (fun c => (open_ c, high c, low c, close c)) (toOhlc points) =
    [(num_of_Z 15, num_of_Z 15, num_of_Z 10, num_of_Z 11); (num_of_Z 12, num_of_Z 12, num_of_Z 12, num_of_Z 12)].
Proof.
  intros points. split; [|vm_compute; reflexivity].
  refine (proj1 (candles_summarise_their_hours points _)).
  intros p Hp. repeat (destruct Hp as [<-|Hp]; [reflexivity|]). destruct Hp.
Defined.

(** ** Providers and conversions *)

(** The two providers of the source always answer, so a rate is always found, and
    the rate kept from the last success is never served. *)
Lemma getExchangeRate_never_stale pair s :
  wp (ExchangeRateFailoverService.getExchangeRate pair)
    (fun r _ => r = (mkProviderRate pair (num_of_ratio 123 100), false) \/
                r = (mkProviderRate pair (num_of_ratio 124 100), false)) (fun _ _ => False) s.
Proof.
  unfold ExchangeRateFailoverService.getExchangeRate, ExchangeRateFailoverService.fetchFromPrimary,
    ExchangeRateFailoverService.fetchFromSecondary, ExchangeRateFailoverService.setex_healthy, ExchangeRateFailoverService.remember.
  repeat wp_step; auto.
Qed.

(** A pair that no table knows is converted at the rate one. *)
Example unknown_pair_converts_at_one :
  match (ExchangeRatesService.calculateConversion 60 "JPY" "USD" (num_of_Z 1000) rates_start).1 with
  | inr c => (cv_rate c, cv_convertedAmount c) = (num_of_Z 1, num_of_Z 1000)
  | inl _ => False
  end.
Proof. vm_compute. reflexivity. Qed.
