(* ===== verification/Aml.v ===== *)
(** aml/: the rules that raise alerts on a user's recent transactions and the
    fraud score (aml.service.ts), and the screenings of users and transactions
    (aml-screening.service.ts). *)
From S2P Require Import Prelude JsNumber Effects RepositoryLaws JsData ThirdParty QueryBuilder Lifecycle.
Local Open Scope Z_scope.

Module AmlRiskLevel.
Inductive AmlRiskLevel : Type := LOW | MEDIUM | HIGH | CRITICAL.
Definition eqb (a b : AmlRiskLevel) : bool :=
  match a, b with
  | LOW, LOW | MEDIUM, MEDIUM | HIGH, HIGH | CRITICAL, CRITICAL => true
  | _, _ => false
  end.
Definition show (a : AmlRiskLevel) : string :=
  match a with
  | LOW => "low"
  | MEDIUM => "medium"
  | HIGH => "high"
  | CRITICAL => "critical"
  end.
Lemma AmlRiskLevel_eqb_eq a b : eqb a b = true <-> a = b.
Proof. destruct a, b; simpl; split; congruence. Qed.
End AmlRiskLevel.

(** aml/aml-alert.entity.ts *)
Module AmlAlert.
Record AmlAlert : Type := mk {
  id : string;
  userId : string;
  ruleTriggered : string;
  riskScore : num;
  metadata : list (string * json);
  reviewedAt : option Z;
  createdAt : Z
}.
#[global] Instance settable : Settable AmlAlert := fun r =>
  mk r.(id) r.(userId) r.(ruleTriggered) r.(riskScore) r.(metadata) r.(reviewedAt)
     r.(createdAt).
End AmlAlert.

#[global] Program Instance AmlAlert_row : Row AmlAlert.AmlAlert := {|
  row_id := AmlAlert.id;
  set_row_id i e := e <| AmlAlert.id := i |>;
  created t e := e <| AmlAlert.createdAt := t |>;
  touched t e := e;
  live e := true;
  clash a b := false
|}.

(** aml/aml-screening.entity.ts *)
Module AmlScreening.
Record AmlScreening : Type := mk {
  id : string;
  userId : string;
  transactionId : option string;
  riskScore : Z;
  riskLevel : AmlRiskLevel.AmlRiskLevel;
  flags : list string;
  screenedAt : Z;
  reviewedBy : option string;
  reviewedAt : option Z;
  notes : option string
}.
#[global] Instance settable : Settable AmlScreening := fun r =>
  mk r.(id) r.(userId) r.(transactionId) r.(riskScore) r.(riskLevel) r.(flags)
     r.(screenedAt) r.(reviewedBy) r.(reviewedAt) r.(notes).
End AmlScreening.

#[global] Program Instance AmlScreening_row : Row AmlScreening.AmlScreening := {|
  row_id := AmlScreening.id;
  set_row_id i e := e <| AmlScreening.id := i |>;
  created t e := e <| AmlScreening.screenedAt := t |>;
  touched t e := e;
  live e := true;
  clash a b := false
|}.

Module AmlStore.
Record AmlStore : Type := mk {
  env : Env;
  alerts : list AmlAlert.AmlAlert;
  screenings : list AmlScreening.AmlScreening
}.
#[global] Instance settable : Settable AmlStore := fun r =>
  mk r.(env) r.(alerts) r.(screenings).
End AmlStore.

#[global] Program Instance AmlStore_env : HasEnv AmlStore.AmlStore := {|
  env_of := AmlStore.env;
  set_env e w := w <| AmlStore.env := e |>
|}.

#[global] Program Instance AmlStore_alerts : Table AmlStore.AmlStore AmlAlert.AmlAlert := {|
  rows := AmlStore.alerts;
  set_rows t w := w <| AmlStore.alerts := t |>
|}.

#[global] Program Instance AmlStore_screenings : Table AmlStore.AmlStore AmlScreening.AmlScreening := {|
  rows := AmlStore.screenings;
  set_rows t w := w <| AmlStore.screenings := t |>
|}.

Notation Store := AmlStore.AmlStore.
Notation Alert := AmlAlert.AmlAlert.
Notation Screening := AmlScreening.AmlScreening.

Module TransactionRecord.
Record TransactionRecord : Type := mk {
  userId : string;
  amount : num;
  currency : string;
  receiverId : option string;
  executedAt : Z
}.
#[global] Instance settable : Settable TransactionRecord := fun r =>
  mk r.(userId) r.(amount) r.(currency) r.(receiverId) r.(executedAt).
End TransactionRecord.

Notation Rec := TransactionRecord.TransactionRecord.

Module AmlService.
Section Rules.
Context `{ConfigService}.

Definition setting (key : string) (d : Z) : num := default (num_of_Z d) (config_number key).

(** [new Date(Date.now() - hours * 3600_000)]; [None] is an invalid date. *)
Definition cutoff_of (now : Z) (hours : num) : option Z :=
  match num_fraction (num_of_Z now - hours * num_of_Z 3600000)%num with
  | Some (n, d) => Some (Z.quot n (Zpos d))
  | None => None
  end.

(** Comparison with an invalid date is false. *)
Definition since (cutoff : option Z) (t : Rec) : bool :=
  match cutoff with Some c => c <=? t.(TransactionRecord.executedAt) | None => false end.

Definition of_user (userId : string) (t : Rec) : bool := String.eqb t.(TransactionRecord.userId) userId.

Definition alert_json (a : Alert) : json :=
  JObj [("id", JStr a.(AmlAlert.id)); ("userId", JStr a.(AmlAlert.userId));
        ("ruleTriggered", JStr a.(AmlAlert.ruleTriggered)); ("riskScore", JNum a.(AmlAlert.riskScore));
        ("metadata", JObj a.(AmlAlert.metadata)); ("createdAt", JStr (toISOString a.(AmlAlert.createdAt)))].

Definition createAlert (userId ruleTriggered : string) (riskScore : num) (metadata : list (string * json)) : M Store Alert :=
  let* saved := save (AmlAlert.mk "" userId ruleTriggered riskScore metadata None 0) in
  emit "aml.alert.created" (alert_json saved) ;;;
  ret saved.

Definition structuring_window (userId : string) (cutoff : option Z) (threshold : num) (recentTxs : list Rec) : list Rec :=
  List.filter (fun t => of_user userId t && since cutoff t && (t.(TransactionRecord.amount) <? threshold)%num) recentTxs.

Definition checkStructuring (userId : string) (recentTxs : list Rec) : M Store unit :=
  let threshold := setting "aml.structuringThreshold" 10000 in
  let windowHours := setting "aml.structuringWindowHours" 24 in
  let minCount := setting "aml.structuringMinCount" 3 in
  let riskWeight := setting "aml.riskScoreWeight" 30 in
  let* now := date_now in
  let window := structuring_window userId (cutoff_of now windowHours) threshold recentTxs in
  let total := sum_nums (map TransactionRecord.amount window) in
  let count := num_of_Z (Z.of_nat (length window)) in
  if (count >=? minCount)%num && (total >=? threshold)%num then
    createAlert userId "structuring" riskWeight
      [("txCount", JNum count); ("total", JNum total); ("threshold", JNum threshold)] ;;;
    ret tt
  else ret tt.

Definition smurfing_window (userId : string) (cutoff : option Z) (recentTxs : list Rec) : list Rec :=
  List.filter (fun t => of_user userId t && since cutoff t && opt_truthy t.(TransactionRecord.receiverId)) recentTxs.

(** [amounts.reduce((s, a) => s + a, 0) / amounts.length]. *)
Definition average (amounts : list num) : num := (sum_nums amounts / num_of_Z (Z.of_nat (length amounts)))%num.

(** [Math.max(...amounts.map(a => Math.abs(a - avg) / avg))]. *)
Definition max_deviation (amounts : list num) (avg : num) : num :=
  fold_left math_max (map (fun a => (num_abs (a - avg) / avg)%num) amounts) (- num_infinity)%num.

Definition unique_receivers (window : list Rec) : Z :=
  Z.of_nat (length (nodup string_dec (map (fun t => default "" t.(TransactionRecord.receiverId)) window))).

Definition checkSmurfing (userId : string) (recentTxs : list Rec) : M Store unit :=
  let windowHours := setting "aml.smurfingWindowHours" 1 in
  let minWallets := setting "aml.smurfingMinWallets" 3 in
  let variancePct := setting "aml.smurfingAmountVariancePct" 5 in
  let riskWeight := setting "aml.riskScoreWeight" 30 in
  let* now := date_now in
  let window := smurfing_window userId (cutoff_of now windowHours) recentTxs in
  if (num_of_Z (Z.of_nat (length window)) <? minWallets)%num then ret tt
  else
    let amounts := map TransactionRecord.amount window in
    let avg := average amounts in
    let maxDeviation := max_deviation amounts avg in
    let uniqueReceivers := num_of_Z (unique_receivers window) in
    if (uniqueReceivers >=? minWallets)%num && (maxDeviation <=? variancePct / num_of_Z 100)%num then
      createAlert userId "smurfing" riskWeight
        [("uniqueReceivers", JNum uniqueReceivers); ("avgAmount", JNum avg);
         ("variancePct", JNum (maxDeviation * num_of_Z 100)%num)] ;;;
      ret tt
    else ret tt.

Definition checkVelocityBurst (userId : string) (recentTxs : list Rec) : M Store unit :=
  let windowHours := setting "aml.velocityBurstWindowHours" 1 in
  let maxCount := setting "aml.velocityBurstMaxCount" 10 in
  let riskWeight := setting "aml.riskScoreWeight" 30 in
  let* now := date_now in
  let cutoff := cutoff_of now windowHours in
  let count := num_of_Z (Z.of_nat (length (List.filter (fun t => of_user userId t && since cutoff t) recentTxs))) in
  if (count >? maxCount)%num then
    createAlert userId "velocity-burst" riskWeight
      [("txCount", JNum count); ("windowHours", JNum windowHours); ("maxCount", JNum maxCount)] ;;;
    ret tt
  else ret tt.
End Rules.

Record FraudScore : Type := mkFraud {
  score : Z;
  riskLevel : string;
  fraud_flags : list string;
  fraud_currency : string
}.

Definition amount_flag (amount : num) : Z * list string :=
  if (amount >=? num_of_Z 10000)%num then (50, ["LARGE_AMOUNT"])
  else if (amount >=? num_of_Z 5000)%num then (25, ["MEDIUM_LARGE_AMOUNT"])
  else (0, []).

Definition age_flag (userAgeDays : num) : Z * list string :=
  if (userAgeDays <? num_of_Z 7)%num then (30, ["NEW_ACCOUNT"]) else (0, []).

Definition calculateTransactionFraudScore (amount : num) (currency : string) (userAgeDays : num) : FraudScore :=
  let '(s1, f1) := amount_flag amount in
  let '(s2, f2) := age_flag userAgeDays in
  let score := s1 + s2 in
  mkFraud score (if 60 <=? score then "HIGH" else if 30 <=? score then "MEDIUM" else "LOW") (f1 ++ f2) currency.
End AmlService.

(** ** AmlScreeningService *)

Record ScreenUserInput : Type := mkScreenUser { su_userId : string; su_fullName : option string }.
Record ScreenTransactionInput : Type := mkScreenTx {
  st_userId : string;
  st_transactionId : string;
  st_amount : num;
  st_currency : string;
  st_counterpartyName : option string
}.
Record ScreeningFilters : Type := mkFilters {
  sf_userId : option string;
  sf_riskLevel : option AmlRiskLevel.AmlRiskLevel;
  sf_page : option Z;
  sf_limit : option Z
}.
Record ScreeningPage : Type := mkPage {
  sp_items : list Screening;
  sp_page : Z;
  sp_limit : Z;
  sp_total : Z;
  sp_totalPages : Z
}.

Definition HIGH_VALUE_THRESHOLD : num := num_of_Z 10000.
Definition CRITICAL_VALUE_THRESHOLD : num := num_of_Z 50000.
Definition MOCK_SANCTIONS : list string := ["test sanctioned"; "sdn test"; "pep test"].
Definition MOCK_PEP : list string := ["minister"; "president"; "senator"; "governor"].

Module AmlScreeningService.
Definition calculateRiskLevel (score : Z) : AmlRiskLevel.AmlRiskLevel :=
  if 80 <=? score then AmlRiskLevel.CRITICAL
  else if 50 <=? score then AmlRiskLevel.HIGH
  else if 20 <=? score then AmlRiskLevel.MEDIUM
  else AmlRiskLevel.LOW.

(** A flag and its points when a name is given and contains one of [words]. *)
Definition name_flag (name : option string) (words : list string) (flag : string) (points : Z) : Z * list string :=
  match name with
  | Some n =>
      if str_truthy n && existsb (fun w => includes w (toLowerCase n)) words then (points, [flag]) else (0, [])
  | None => (0, [])
  end.

Definition value_flag (amount : num) : Z * list string :=
  if (amount >=? CRITICAL_VALUE_THRESHOLD)%num then (60, ["high_value"])
  else if (amount >=? HIGH_VALUE_THRESHOLD)%num then (30, ["high_value"])
  else (0, []).

Definition screenUser (input : ScreenUserInput) : M Store Screening :=
  let '(s1, f1) := name_flag (su_fullName input) MOCK_SANCTIONS "sanctions_match" 50 in
  let '(s2, f2) := name_flag (su_fullName input) MOCK_PEP "pep" 30 in
  let riskScore := s1 + s2 in
  save (AmlScreening.mk "" (su_userId input) None riskScore (calculateRiskLevel riskScore) (f1 ++ f2) 0 None None None).

Definition screenTransaction (input : ScreenTransactionInput) : M Store Screening :=
  let '(s1, f1) := value_flag (st_amount input) in
  let '(s2, f2) := name_flag (st_counterpartyName input) MOCK_SANCTIONS "sanctions_match" 50 in
  let riskScore := s1 + s2 in
  save (AmlScreening.mk "" (st_userId input) (Some (st_transactionId input)) riskScore (calculateRiskLevel riskScore)
          (f1 ++ f2) 0 None None None).

Definition matches (filters : ScreeningFilters) (s : Screening) : bool :=
  and_where (sf_userId filters) str_truthy (String.eqb s.(AmlScreening.userId)) &&
  and_where (sf_riskLevel filters) (fun _ => true) (AmlRiskLevel.eqb s.(AmlScreening.riskLevel)).

Definition findAll (filters : ScreeningFilters) : M Store ScreeningPage :=
  let page := Z.max 1 (default 1 (sf_page filters)) in
  let limit := Z.min (Z.max 1 (default 20 (sf_limit filters))) 100 in
  let* ' (items, total) := getManyAndCount (matches filters) AmlScreening.screenedAt ((page - 1) * limit) limit in
  ret (mkPage items page limit total (ceil_div total limit)).

Definition by_id (id : string) (s : Screening) : bool := String.eqb s.(AmlScreening.id) id.

Definition findById (id : string) : M Store Screening :=
  let* screening := findOne (by_id id) in
  match screening with
  | None => throw (NotFoundException ("AML screening " +:+ id +:+ " not found"))
  | Some screening => ret screening
  end.

Definition review (id reviewedBy notes : string) : M Store Screening :=
  let* screening := findById id in
  let* now := date_now in
  save (screening <| AmlScreening.reviewedBy := Some reviewedBy |>
                  <| AmlScreening.reviewedAt := Some now |>
                  <| AmlScreening.notes := Some notes |>).
End AmlScreeningService.

(** ** The rules *)

Section RuleLaws.
Context `{ConfigService}.

(** An alert is stored and announced. *)
Definition alerted (userId rule : string) (s s' : Store) : Prop :=
  exists a, a.(AmlAlert.userId) = userId /\ a.(AmlAlert.ruleTriggered) = rule /\
    a.(AmlAlert.riskScore) = AmlService.setting "aml.riskScoreWeight" 30 /\ a.(AmlAlert.reviewedAt) = None /\
    s'.(AmlStore.alerts) = upsert a s.(AmlStore.alerts) /\
    outbox (env_of s') = outbox (env_of s) ++ [("aml.alert.created", AmlService.alert_json a)].

Definition quiet (s s' : Store) : Prop :=
  s'.(AmlStore.alerts) = s.(AmlStore.alerts) /\ outbox (env_of s') = outbox (env_of s).

Lemma quiet_env e s : env_step (env_of s) e -> quiet s (set_env e s).
Proof. intros He. split; [reflexivity | exact (es_outbox (env_of s) e He)]. Qed.

Lemma createAlert_spec userId rule metadata s :
  wp (AmlService.createAlert userId rule (AmlService.setting "aml.riskScoreWeight" 30) metadata)
    (fun _ s' => alerted userId rule s s') (fun _ s' => quiet s s') s.
Proof.
  unfold AmlService.createAlert. wp_step. wp_step; [apply quiet_env; assumption|].
  match goal with Hr : saved_as _ ?r |- _ => rename r into row; rename Hr into Hrow end.
  wp_step. wp_step. wp_step. exists row. destruct Hrow; simpl; repeat split;
    match goal with He : env_step _ ?e |- context [outbox ?e] => rewrite (es_outbox _ _ He); reflexivity | _ => idtac end.
Qed.

(** The payments that count towards structuring: the user's, within the window
    that ends at [now], below the threshold. *)
Definition structured (userId : string) (now : Z) (txs : list Rec) : list num :=
  map TransactionRecord.amount
    (AmlService.structuring_window userId
       (AmlService.cutoff_of now (AmlService.setting "aml.structuringWindowHours" 24))
       (AmlService.setting "aml.structuringThreshold" 10000) txs).

(** A check on structuring alerts exactly when at least the configured number
    of such payments adds up to the threshold; a failed call alerts nobody. *)
Theorem structuring_outcomes userId txs s :
  let now := clock (env_of s) (tick (env_of s)) in
  let amounts := structured userId now txs in
  let fires :=
    (num_of_Z (Z.of_nat (length amounts)) >=? AmlService.setting "aml.structuringMinCount" 3)%num &&
    (sum_nums amounts >=? AmlService.setting "aml.structuringThreshold" 10000)%num in
  wp (AmlService.checkStructuring userId txs)
    (fun _ s' => if fires then alerted userId "structuring" s s' else quiet s s')
    (fun _ s' => fires = true /\ quiet s s') s.
Proof.
  intros now amounts fires. unfold AmlService.checkStructuring. wp_step. apply wp_date_now_exact.
  fold now.
  assert (Hf : (num_of_Z (Z.of_nat (length (AmlService.structuring_window userId
      (AmlService.cutoff_of now (AmlService.setting "aml.structuringWindowHours" 24))
      (AmlService.setting "aml.structuringThreshold" 10000) txs))) >=? AmlService.setting "aml.structuringMinCount" 3)%num &&
    (sum_nums amounts >=? AmlService.setting "aml.structuringThreshold" 10000)%num = fires).
  { unfold fires, amounts, structured. rewrite length_map. reflexivity. }
  cbv zeta. fold amounts. change (map TransactionRecord.amount _) with amounts. rewrite Hf.
  destruct fires.
  - wp_step. eapply wp_mono; [apply createAlert_spec | |].
    + intros a s' (r & H1 & H2 & H3 & H4 & H5 & H6). wp_step. exists r. auto 8.
    + intros x s' [H1 H2]. split; [reflexivity|]. split; [exact H1 | exact H2].
  - wp_step. apply quiet_env. apply next_tick_step.
Qed.
End RuleLaws.

(** ** Screenings *)

(** The verdict of a screening: everything but its review. *)
Definition verdict (s : Screening) : string * option string * Z * AmlRiskLevel.AmlRiskLevel * list string :=
  (s.(AmlScreening.userId), s.(AmlScreening.transactionId), s.(AmlScreening.riskScore), s.(AmlScreening.riskLevel),
   s.(AmlScreening.flags)).

(** The score, the level and the flags agree. *)
Record sound (s : Screening) : Prop := {
  so_level : s.(AmlScreening.riskLevel) = AmlScreeningService.calculateRiskLevel s.(AmlScreening.riskScore);
  so_range : 0 <= s.(AmlScreening.riskScore) <= 110;
  so_clear : s.(AmlScreening.riskScore) = 0 <-> s.(AmlScreening.flags) = [];
  so_sanctions : In "sanctions_match" s.(AmlScreening.flags) ->
    s.(AmlScreening.riskLevel) = AmlRiskLevel.HIGH \/ s.(AmlScreening.riskLevel) = AmlRiskLevel.CRITICAL;
  so_critical : s.(AmlScreening.riskLevel) = AmlRiskLevel.CRITICAL -> (2 <= length s.(AmlScreening.flags))%nat
}.

(** A review changes neither. *)
Definition reviewed (s s' : Screening) : Prop :=
  verdict s' = verdict s /\ s'.(AmlScreening.id) = s.(AmlScreening.id) /\
  s'.(AmlScreening.screenedAt) = s.(AmlScreening.screenedAt) /\ s'.(AmlScreening.reviewedAt) <> None.

Definition screened (s : Screening) : Prop := sound s /\ s.(AmlScreening.reviewedAt) = None.

Inductive ScreeningRequest :=
| QUser (input : ScreenUserInput)
| QTransaction (input : ScreenTransactionInput)
| QReview (id reviewedBy notes : string).

Definition screening_request (r : ScreeningRequest) : M Store Screening :=
  match r with
  | QUser i => AmlScreeningService.screenUser i
  | QTransaction i => AmlScreeningService.screenTransaction i
  | QReview id by_ notes => AmlScreeningService.review id by_ notes
  end.

Definition screening_requests (l : list ScreeningRequest) : M Store unit :=
  for_each l (fun r => attempt (screening_request r) ;;; ret tt).

Notation evolve := (evolves (S:=Store) screened reviewed).

Lemma name_flag_cases n w f p : AmlScreeningService.name_flag n w f p = (p, [f]) \/ AmlScreeningService.name_flag n w f p = (0, []).
Proof. unfold AmlScreeningService.name_flag. destruct n as [n|]; [|auto]. destruct (_ && _); auto. Qed.

Lemma value_flag_cases a : AmlScreeningService.value_flag a = (60, ["high_value"]) \/
  AmlScreeningService.value_flag a = (30, ["high_value"]) \/ AmlScreeningService.value_flag a = (0, []).
Proof. unfold AmlScreeningService.value_flag. destruct (_ <=? _)%num; [auto|]. destruct (_ <=? _)%num; auto. Qed.

(** Each combination of flags is a concrete screening. *)
Local Ltac screened_new :=
  apply keeps_save_new; [reflexivity|]; intros k u _; eexists; split; [|apply rtc_refl];
  split; [|reflexivity]; split; simpl;
  [reflexivity | lia | split; intros; first [lia | congruence] |
   let Hm := fresh in intros Hm; first [left; reflexivity | right; reflexivity | repeat destruct Hm as [Hm|Hm]; first [discriminate Hm | destruct Hm]] | intros; first [lia | discriminate]].

Lemma keeps_screenUser i : keeps evolve (AmlScreeningService.screenUser i).
Proof.
  unfold AmlScreeningService.screenUser.
  destruct (name_flag_cases (su_fullName i) MOCK_SANCTIONS "sanctions_match" 50) as [-> | ->],
    (name_flag_cases (su_fullName i) MOCK_PEP "pep" 30) as [-> | ->]; screened_new.
Qed.

Lemma keeps_screenTransaction i : keeps evolve (AmlScreeningService.screenTransaction i).
Proof.
  unfold AmlScreeningService.screenTransaction.
  destruct (value_flag_cases (st_amount i)) as [-> | [-> | ->]],
    (name_flag_cases (st_counterpartyName i) MOCK_SANCTIONS "sanctions_match" 50) as [-> | ->]; screened_new.
Qed.

Lemma keeps_review id by_ notes : keeps evolve (AmlScreeningService.review id by_ notes).
Proof.
  apply keeps_wp. intros s. unfold AmlScreeningService.review, AmlScreeningService.findById.
  wp_step. wp_step. wp_step; [evolves_leaf|].
  destruct (List.find _ _) as [d|] eqn:Hf; wp_step; [|evolves_leaf].
  destruct (find_live_some _ _ _ Hf) as (Hin & _ & _). wp_step. wp_step.
  apply (wp_save_step screened reviewed d); env_norm; [exact Hin | reflexivity | | intros; evolves_leaf|].
  - intros u. split; [reflexivity|]. repeat split. discriminate.
  - intros u s' Hev _ _. evolves_leaf.
Qed.

Lemma keeps_screening_requests l : keeps evolve (screening_requests l).
Proof.
  apply (keeps_for_each evolve). intros r _.
  apply keeps_bind; [typeclasses eauto | apply keeps_attempt | intros; apply keeps_ret; typeclasses eauto].
  destruct r; [apply keeps_screenUser | apply keeps_screenTransaction | apply keeps_review].
Qed.

(** Over any screenings and reviews the verdict of a screening never changes,
    none is lost, and in every one the score is between 0 and 110, the level is
    the score's, the flags are empty exactly at zero, a match with the sanctions
    list is at least high, and a critical one has two flags. *)
Theorem screenings_are_consistent l s :
  keys_ok (s.(AmlStore.screenings)) -> Forall sound s.(AmlStore.screenings) ->
  let s' := (screening_requests l s).2 in
  Forall sound s'.(AmlStore.screenings) /\
  (forall e, In e s.(AmlStore.screenings) ->
     exists e', In e' s'.(AmlStore.screenings) /\ e'.(AmlScreening.id) = e.(AmlScreening.id) /\ verdict e' = verdict e).
Proof.
  intros Hk Hs s'. pose proof (keeps_screening_requests l s Hk) as Hev. fold s' in Hev.
  assert (Hrev : forall a b, reviewed a b -> sound a -> sound b).
  { intros a b (Hv & _) [H1 H2 H3 H4 H5]. unfold verdict in Hv. injection Hv as _ _ E1 E2 E3.
    split; rewrite ?E1, ?E2, ?E3; assumption. }
  split.
  - rewrite List.Forall_forall in *. intros e' He'.
    destruct (ev_new _ _ _ _ Hev e' He') as [(e & He & _ & Hst)|(e & [He _] & Hst)];
      (eapply rtc_invariant; [exact Hrev | exact Hst|]); auto.
  - intros e He. destruct (ev_kept _ _ _ _ Hev e He) as (e' & He' & Hid & Hst).
    exists e'. split; [exact He' |]. split; [exact Hid|].
    refine (rtc_invariant reviewed (fun x => verdict x = verdict e) _ _ _ Hst eq_refl).
    intros x y (Hxy & _) Hx. congruence.
Qed.

(** ** Worked examples *)

Definition aml_env : Env :=
  mkEnv (fun n => 1700000000000 + Z.of_nat n) 0 (fun _ => None) 0
        (fun n => ("u"%char, string_of_N (N.of_nat n))) 0 (fun _ => num_of_ratio 1 2) 0 [].
Definition aml_start : Store := AmlStore.mk aml_env [] [].

Lemma screenings_are_consistent_witness :
  let s' := (screening_requests
    [QUser (mkScreenUser "u1" (Some "Senator Test Sanctioned")); QTransaction (mkScreenTx "u2" "t1" (num_of_Z 12000) "USD" None)] aml_start).2 in
  Forall sound s'.(AmlStore.screenings) /\
  map (fun e => (e.(AmlScreening.riskLevel), e.(AmlScreening.flags))) s'.(AmlStore.screenings) =
    [(AmlRiskLevel.CRITICAL, ["sanctions_match"; "pep"]); (AmlRiskLevel.MEDIUM, ["high_value"])].
Proof.
  intros s'. split; [|vm_compute; reflexivity].
  refine (proj1 (screenings_are_consistent _ aml_start _ _)); [split; constructor | constructor].
Defined.

#[local] Instance aml_config : ConfigService := {|
  config_number _ := None; config_string _ := None; config_bool _ := None; config_list _ := None
|}.

Definition payment (to : string) (amount : Z) : Rec := TransactionRecord.mk "u1" (num_of_Z amount) "USD" (Some to) 1699999999000.

(** Three payments of 4000 within the day are reported as structuring. *)
Example three_payments_are_structuring :
  map AmlAlert.ruleTriggered
    (AmlService.checkStructuring "u1" [payment "a" 4000; payment "b" 4000; payment "a" 4000] aml_start).2.(AmlStore.alerts) =
    ["structuring"].
Proof. reflexivity. Qed.

(** Payments of nothing have no deviation: [0 / 0] is not a number. *)
Example empty_payments_are_not_smurfing :
  (AmlService.checkSmurfing "u1" [payment "a" 0; payment "b" 0; payment "c" 0] aml_start).2.(AmlStore.alerts) = [].
Proof. reflexivity. Qed.
