(* ===== verification/FeeRules.v ===== *)
(** fee-tiers/fee-tiers.service.ts and modules/fee/services/fee-engine.service.ts:
    the fee of an amount, by the tier of the user's KYC level or else by a
    promotional rule or the rule of the lowest priority number.  The entity of
    the rules is not in the repository: a rule is any row with the columns the
    engine reads. *)
From S2P Require Import Prelude JsNumber Effects RepositoryLaws NumberLaws JsData.
Local Open Scope Z_scope.

Module KycFeeLevel.
Inductive KycFeeLevel : Type := basic | intermediate | advanced.
Definition eqb (a b : KycFeeLevel) : bool :=
  match a, b with
  | basic, basic | intermediate, intermediate | advanced, advanced => true
  | _, _ => false
  end.
Definition show (a : KycFeeLevel) : string :=
  match a with
  | basic => "basic"
  | intermediate => "intermediate"
  | advanced => "advanced"
  end.
Lemma KycFeeLevel_eqb_eq a b : eqb a b = true <-> a = b.
Proof. destruct a, b; simpl; split; congruence. Qed.
End KycFeeLevel.

(** fee-tiers/entities/fee-tier.entity.ts *)
Module FeeTierEntity.
Record FeeTierEntity : Type := mk {
  id : string;
  kycLevel : KycFeeLevel.KycFeeLevel;
  currency : string;
  tierMin : num;
  tierMax : num;
  percentageFee : num;
  flatFee : num;
  isActive : bool;
  createdAt : Z;
  updatedAt : Z
}.
#[global] Instance settable : Settable FeeTierEntity := fun r =>
  mk r.(id) r.(kycLevel) r.(currency) r.(tierMin) r.(tierMax) r.(percentageFee)
     r.(flatFee) r.(isActive) r.(createdAt) r.(updatedAt).
End FeeTierEntity.

#[global] Program Instance FeeTierEntity_row : Row FeeTierEntity.FeeTierEntity := {|
  row_id := FeeTierEntity.id;
  set_row_id i e := e <| FeeTierEntity.id := i |>;
  created t e := e <| FeeTierEntity.createdAt := t |> <| FeeTierEntity.updatedAt := t |>;
  touched t e := e <| FeeTierEntity.updatedAt := t |>;
  live e := true;
  clash a b := false
|}.

Notation Tier := FeeTierEntity.FeeTierEntity.

(** [Math.round(x * 1e8) / 1e8]. *)
Definition round8 (x : num) : num := (math_round (x * num_of_Z 100000000) / num_of_Z 100000000)%num.

Module FeeTiersService.
Section Service.
Context {S : Type} `{HasEnv S} `{!Table S Tier}.

(** kycLevel, currency, tierMin, ascending. *)
Definition tier_le (a b : Tier) : bool :=
  let ka := KycFeeLevel.show a.(FeeTierEntity.kycLevel) in
  let kb := KycFeeLevel.show b.(FeeTierEntity.kycLevel) in
  if String.eqb ka kb then
    if String.eqb a.(FeeTierEntity.currency) b.(FeeTierEntity.currency)
    then (a.(FeeTierEntity.tierMin) <=? b.(FeeTierEntity.tierMin))%num
    else String.leb a.(FeeTierEntity.currency) b.(FeeTierEntity.currency)
  else String.leb ka kb.

Fixpoint insert_tier (t : Tier) (l : list Tier) : list Tier :=
  match l with
  | [] => [t]
  | u :: l' => if tier_le t u then t :: l else u :: insert_tier t l'
  end.

Definition findAll : M S (list Tier) :=
  let* l := find_all FeeTierEntity.isActive in ret (fold_right insert_tier [] l).

Definition findOne (id : string) : M S Tier :=
  let* tier := Effects.findOne (fun t => String.eqb t.(FeeTierEntity.id) id) in
  match tier with
  | None => throw (NotFoundException ("Fee tier " +:+ id +:+ " not found"))
  | Some tier => ret tier
  end.

Definition active_for (kycLevel : KycFeeLevel.KycFeeLevel) (currency : string) (t : Tier) : bool :=
  KycFeeLevel.eqb t.(FeeTierEntity.kycLevel) kycLevel && String.eqb t.(FeeTierEntity.currency) currency &&
  t.(FeeTierEntity.isActive).

Definition in_tier (amount : num) (t : Tier) : bool :=
  (t.(FeeTierEntity.tierMin) <=? amount)%num && (t.(FeeTierEntity.tierMax) >=? amount)%num.

(** The amount is not part of the query. *)
Definition findByKycLevelAndAmount (kycLevel : KycFeeLevel.KycFeeLevel) (currency : string) (amount : num) :
    M S (option Tier) :=
  Effects.findOne (active_for kycLevel currency).

Definition tier_fee (tier : Tier) (amount : num) : num :=
  let feeAmount := num_of_Z 0 in
  let feeAmount := if (tier.(FeeTierEntity.percentageFee) >? num_of_Z 0)%num
                   then (feeAmount + amount * tier.(FeeTierEntity.percentageFee) / num_of_Z 100)%num else feeAmount in
  let feeAmount := if (tier.(FeeTierEntity.flatFee) >? num_of_Z 0)%num
                   then (feeAmount + tier.(FeeTierEntity.flatFee))%num else feeAmount in
  round8 feeAmount.

(** The tier, the fee and the total. *)
Definition calculateFee (kycLevel : KycFeeLevel.KycFeeLevel) (currency : string) (amount : num) :
    M S (option Tier * num * num) :=
  let* tier := Effects.findOne (fun t => active_for kycLevel currency t && in_tier amount t) in
  match tier with
  | None => ret (None, num_of_Z 0, amount)
  | Some tier =>
      let feeAmount := tier_fee tier amount in
      ret (Some tier, feeAmount, round8 (amount + feeAmount)%num)
  end.
End Service.
End FeeTiersService.

(** The columns of a fee rule that the engine reads. *)
Class FeeRule (R : Type) : Type := {
  r_id : R -> string;
  ruleType : R -> string;
  r_isActive : R -> bool;
  r_currency : R -> string;
  r_expiresAt : R -> option Z;
  minAmount : R -> option num;
  maxAmount : R -> option num;
  priority : R -> Z;
  promoCode : R -> option string;
  percentage : R -> option num;
  r_flatFee : R -> option num
}.

Record AppliedFeeSnapshot : Type := mkSnapshot {
  sn_ruleId : string;
  sn_ruleType : string;
  sn_feeAmount : num;
  sn_currency : string;
  sn_appliedAt : Z
}.

Record Simulation : Type := mkSimulation {
  si_appliedFee : option AppliedFeeSnapshot;
  si_totalAmount : num
}.

Module FeeEngineService.
Section Service.
Context {S R : Type} `{FeeRule R} `{Row R} `{HasEnv S} `{!Table S Tier} `{!Table S R}.

Definition truthy (x : option num) : option num :=
  match x with Some n => if num_truthy n then Some n else None | None => None end.

Definition calculateFee (amount : num) (rule : R) : num :=
  let fee := num_of_Z 0 in
  let fee := match truthy (percentage rule) with Some p => (fee + amount * p / num_of_Z 100)%num | None => fee end in
  let fee := match truthy (r_flatFee rule) with Some f => (fee + f)%num | None => fee end in
  round8 fee.

Definition applicable (currency : string) (amount : num) (now : Z) (r : R) : bool :=
  r_isActive r && String.eqb (r_currency r) currency &&
  match r_expiresAt r with None => true | Some t => now <? t end &&
  match minAmount r with None => true | Some m => (m <=? amount)%num end &&
  match maxAmount r with None => true | Some m => (m >=? amount)%num end.

Definition is_promo (code : string) (r : R) : bool :=
  String.eqb (ruleType r) "PROMOTIONAL" && match promoCode r with Some c => String.eqb c code | None => false end.

(** [rules.find(...)] when a code is given. *)
Definition promo_rule (code : option string) (rules : list R) : option R :=
  match code with
  | Some c => if str_truthy c then List.find (is_promo c) rules else None
  | None => None
  end.

Definition by_rule (amount : num) (currency : string) (code : option string) : M S (option AppliedFeeSnapshot) :=
  let* now := date_now in
  let* rules := find_asc (applicable currency amount now) priority in
  let applicableRule := match promo_rule code rules with Some r => Some r | None => hd_error rules end in
  match applicableRule with
  | None => ret None
  | Some rule => ret (Some (mkSnapshot (r_id rule) (ruleType rule) (calculateFee amount rule) currency now))
  end.

Definition evaluate (amount : num) (currency : string) (code : option string)
    (kycLevel : option KycFeeLevel.KycFeeLevel) : M S (option AppliedFeeSnapshot) :=
  match kycLevel with
  | Some level =>
      let* ' (tier, feeAmount, _) := FeeTiersService.calculateFee level currency amount in
      match tier with
      | Some tier =>
          let* now := date_now in
          ret (Some (mkSnapshot tier.(FeeTierEntity.id) "KYC_TIER" feeAmount currency now))
      | None => by_rule amount currency code
      end
  | None => by_rule amount currency code
  end.

Definition simulate (amount : num) (currency : string) (code : option string) : M S Simulation :=
  let* snapshot := evaluate amount currency code None in
  ret (mkSimulation snapshot
         (amount + match snapshot with Some s => sn_feeAmount s | None => num_of_Z 0 end)%num).
End Service.
End FeeEngineService.

(** ** Which fee applies *)

Section Laws.
Context {S R : Type} `{FeeRule R} `{Row R} `{HasEnv S} `{!Table S Tier} `{!Table S R}.
Implicit Types (s : S) (r : R) (t : Tier).

Lemma sorted_hd_least (k : R -> Z) l r r' : sorted_by k l -> hd_error l = Some r -> In r' l -> k r <= k r'.
Proof.
  intros Hs Hh Hin. destruct Hs as [|e t He _]; [discriminate|]. injection Hh as <-.
  destruct Hin as [<-|Hin]; [lia|]. rewrite List.Forall_forall in He. apply He, Hin.
Qed.

(** [t] is a tier of the level that the amount falls in. *)
Definition tier_for (level : option KycFeeLevel.KycFeeLevel) currency amount s t : Prop :=
  exists l, level = Some l /\ In t (rows s) /\ FeeTiersService.active_for l currency t = true /\
    FeeTiersService.in_tier amount t = true.

Definition rule_for currency amount now s r : Prop :=
  In r (rows s) /\ live r = true /\ FeeEngineService.applicable currency amount now r = true.

Definition promo_for (code : option string) r : Prop :=
  exists c, code = Some c /\ str_truthy c = true /\ FeeEngineService.is_promo c r = true.

(** The rule chosen: the first promotional rule of the code, or, when the code
    has none, a rule of the least priority. *)
Definition chosen code currency amount now s r : Prop :=
  rule_for currency amount now s r /\
  (promo_for code r \/
   (forall r', rule_for currency amount now s r' -> ~ promo_for code r') /\
   (forall r', rule_for currency amount now s r' -> priority r <= priority r')).

Definition outcome level code currency amount s (o : option AppliedFeeSnapshot) : Prop :=
  match o with
  | Some sn =>
      (exists t now, tier_for level currency amount s t /\
         sn = mkSnapshot t.(FeeTierEntity.id) "KYC_TIER" (FeeTiersService.tier_fee t amount) currency now) \/
      (exists r now, (forall t, ~ tier_for level currency amount s t) /\ chosen code currency amount now s r /\
         sn = mkSnapshot (r_id r) (ruleType r) (FeeEngineService.calculateFee amount r) currency now)
  | None =>
      (forall t, ~ tier_for level currency amount s t) /\
      exists now, forall r, ~ rule_for currency amount now s r
  end.

Lemma in_rules currency amount now s r :
  In r (order_asc priority (List.filter (fun r => live r && FeeEngineService.applicable currency amount now r) (rows s))) <->
  rule_for currency amount now s r.
Proof. rewrite in_order_asc, filter_In, andb_true_iff. reflexivity. Qed.

Lemma promo_rule_some code (l : list R) r : FeeEngineService.promo_rule code l = Some r -> In r l /\ promo_for code r.
Proof.
  destruct code as [c|]; [|discriminate]. simpl. destruct (str_truthy c) eqn:Hc; [|discriminate].
  intros Hf. apply find_some in Hf as [Hin Hp]. split; [exact Hin|]. exists c. auto.
Qed.

Lemma promo_rule_none code (l : list R) r : FeeEngineService.promo_rule code l = None -> In r l -> ~ promo_for code r.
Proof.
  intros Hf Hin (c & -> & Hc & Hp). simpl in Hf. rewrite Hc in Hf.
  apply (find_none _ _ Hf) in Hin. congruence.
Qed.

Lemma by_rule_spec level code currency amount s0 s :
  env_only s0 s -> (forall t, ~ tier_for level currency amount s0 t) ->
  wp (FeeEngineService.by_rule amount currency code)
    (fun o s' => env_only s0 s' /\ outcome level code currency amount s0 o)
    (fun x s' => env_only s0 s' /\ env_fault (env_of s0) x) s.
Proof.
  intros (e0 & He0 & ->) Hno. unfold FeeEngineService.by_rule. wp_step. wp_step.
  match goal with |- context [FeeEngineService.applicable _ _ ?n] => set (now := n) end.
  unfold find_asc. wp_step. wp_step. wp_step.
  - split; [eexists; split; [|reflexivity]; env_chain|]. eapply env_step_fault; [|eassumption]. env_chain.
  - wp_step. set (l := order_asc _ _).
    assert (Hl : forall r, In r l <-> rule_for currency amount now s0 r).
    { intros r. unfold l. apply in_rules. }
    assert (Hs : sorted_by priority l) by apply sorted_order_asc.
    destruct (FeeEngineService.promo_rule code l) as [r|] eqn:Hp.
    + apply promo_rule_some in Hp as [Hin Hpr]. wp_step. split; [eexists; split; [|reflexivity]; env_chain|].
      right. exists r, now. split; [exact Hno|]. split; [|reflexivity]. split; [apply Hl, Hin | auto].
    + destruct (hd_error l) as [r|] eqn:Hh; wp_step; (split; [eexists; split; [|reflexivity]; env_chain|]).
      * right. exists r, now. split; [exact Hno|]. split; [|reflexivity]. split; [|right; split].
        -- apply Hl. destruct l; [discriminate|]. injection Hh as ->. left. reflexivity.
        -- intros r' Hr'. apply (promo_rule_none code l r' Hp), Hl, Hr'.
        -- intros r' Hr'. eapply sorted_hd_least; [exact Hs | exact Hh | apply Hl, Hr'].
      * split; [exact Hno|]. exists now. intros r Hr. apply Hl in Hr. destruct l; [destruct Hr | discriminate].
Qed.

(** The engine charges the tier the amount falls in for the user's level, or
    else a promotional rule of the code that was given, or else an applicable
    rule of the least priority number; it finds no fee only when there is none.
    It writes nothing, and fails only with a failed call. *)
Theorem evaluate_applies_the_right_fee level code currency amount s :
  wp (FeeEngineService.evaluate amount currency code level)
    (fun o s' => env_only s s' /\ outcome level code currency amount s o)
    (fun x s' => env_only s s' /\ env_fault (env_of s) x) s.
Proof.
  unfold FeeEngineService.evaluate. destruct level as [l|].
  - unfold FeeTiersService.calculateFee. wp_step. wp_step. wp_step.
    + split; [eexists; split; [|reflexivity]; env_chain | assumption].
    + match goal with |- context [match ?f with Some _ => _ | None => _ end] => destruct f as [t|] eqn:Hf end.
      * wp_step. wp_step. wp_step. wp_step.
        destruct (find_live_some _ _ _ Hf) as (Hin & _ & Hm). apply andb_prop in Hm as [Ha Hi].
        split; [eexists; split; [|reflexivity]; env_chain|]. left. exists t. eexists. split; [|reflexivity].
        exists l. auto.
      * wp_step. apply by_rule_spec; [eexists; split; [|reflexivity]; env_chain|].
        intros t (l' & El & Hin & Ha & Hi). injection El as <-.
        assert (Hn := find_none _ _ Hf t Hin). simpl in Hn. rewrite Ha, Hi in Hn. discriminate.
  - apply by_rule_spec; [reflexivity|]. intros t (l & El & _). discriminate.
Qed.
End Laws.

(** ** Worked examples *)

Record DemoRule : Type := mkRule {
  d_id : string; d_type : string; d_priority : Z; d_promo : option string; d_percentage : option num
}.
#[local] Program Instance demo_row : Row DemoRule := {|
  row_id := d_id; set_row_id i r := mkRule i (d_type r) (d_priority r) (d_promo r) (d_percentage r);
  created t r := r; touched t r := r; live r := true; clash a b := false
|}.
#[local] Instance demo_rule : FeeRule DemoRule := {|
  r_id := d_id; ruleType := d_type; r_isActive _ := true; r_currency _ := "USD"; r_expiresAt _ := None;
  minAmount _ := None; maxAmount _ := None; priority := d_priority; promoCode := d_promo;
  percentage := d_percentage; r_flatFee _ := None
|}.

Record DemoFees : Type := mkFees { f_env : Env; f_tiers : list Tier; f_rules : list DemoRule }.
#[local] Program Instance demo_env : HasEnv DemoFees := {|
  env_of := f_env; set_env e s := mkFees e (f_tiers s) (f_rules s)
|}.
#[local] Program Instance demo_tiers : Table DemoFees Tier := {|
  rows := f_tiers; set_rows l s := mkFees (f_env s) l (f_rules s)
|}.
#[local] Program Instance demo_rules : Table DemoFees DemoRule := {|
  rows := f_rules; set_rows l s := mkFees (f_env s) (f_tiers s) l
|}.

Definition fees_env : Env :=
  mkEnv (fun n => Z.of_nat n) 0 (fun _ => None) 0
        (fun n => ("u"%char, string_of_N (N.of_nat n))) 0 (fun _ => num_of_ratio 1 2) 0 [].
Definition gold_half : DemoRule := mkRule "half" "PROMOTIONAL" 1 (Some "GOLD") (Some (num_of_ratio 1 2)).
Definition two_percent : DemoRule := mkRule "two" "PERCENTAGE" 5 None (Some (num_of_Z 2)).
Definition fees_start : DemoFees := mkFees fees_env [] [two_percent; gold_half].

Definition charged (o : (exn + option AppliedFeeSnapshot) * DemoFees) : option (string * num) :=
  match o.1 with inr (Some sn) => Some (sn_ruleId sn, sn_feeAmount sn) | _ => None end.

(** A promotional rule of a low priority number is charged to everybody, with or
    without its code. *)
Example promotion_needs_no_code :
  charged (FeeEngineService.evaluate (R:=DemoRule) (num_of_Z 100) "USD" None None fees_start) = Some ("half", num_of_ratio 1 2).
Proof. vm_compute. reflexivity. Qed.

(** The tier of [findByKycLevelAndAmount] need not contain the amount. *)
Definition basic_tier : Tier :=
  FeeTierEntity.mk "t1" KycFeeLevel.basic "USD" (num_of_Z 0) (num_of_Z 10) (num_of_Z 1) (num_of_Z 0) true 0 0.
Example tier_ignores_the_amount :
  (FeeTiersService.findByKycLevelAndAmount KycFeeLevel.basic "USD" (num_of_Z 5000) (mkFees fees_env [basic_tier] [])).1 =
    inr (Some basic_tier).
Proof. reflexivity. Qed.
