(* ===== verification/Spending.v ===== *)
(** spending/spending.service.ts: a user's categories, entries and their summary
    over a period.  A date of a DTO is the instant [new Date] reads in it. *)
From Stdlib Require Import Sorting.Sorted.
From S2P Require Import Prelude JsNumber Effects RepositoryLaws JsData QueryBuilder Lifecycle.
Local Open Scope Z_scope.

(** spending/entities/spending-category.entity.ts *)
Module SpendingCategoryEntity.
Record SpendingCategoryEntity : Type := mk {
  id : string;
  userId : string;
  name : string;
  color : string;
  icon : option string;
  createdAt : Z;
  updatedAt : Z
}.
#[global] Instance settable : Settable SpendingCategoryEntity := fun r =>
  mk r.(id) r.(userId) r.(name) r.(color) r.(icon) r.(createdAt) r.(updatedAt).
End SpendingCategoryEntity.

#[global] Program Instance SpendingCategoryEntity_row : Row SpendingCategoryEntity.SpendingCategoryEntity := {|
  row_id := SpendingCategoryEntity.id;
  set_row_id i e := e <| SpendingCategoryEntity.id := i |>;
  created t e := e <| SpendingCategoryEntity.createdAt := t |> <| SpendingCategoryEntity.updatedAt := t |>;
  touched t e := e <| SpendingCategoryEntity.updatedAt := t |>;
  live e := true;
  clash a b := false
|}.

(** [date]: the milliseconds of a valid date. *)
(** spending/entities/spending-entry.entity.ts *)
Module SpendingEntryEntity.
Record SpendingEntryEntity : Type := mk {
  id : string;
  userId : string;
  transactionId : option string;
  categoryId : option string;
  amount : num;
  description : option string;
  date : Z;
  createdAt : Z;
  updatedAt : Z
}.
#[global] Instance settable : Settable SpendingEntryEntity := fun r =>
  mk r.(id) r.(userId) r.(transactionId) r.(categoryId) r.(amount) r.(description)
     r.(date) r.(createdAt) r.(updatedAt).
End SpendingEntryEntity.

#[global] Program Instance SpendingEntryEntity_row : Row SpendingEntryEntity.SpendingEntryEntity := {|
  row_id := SpendingEntryEntity.id;
  set_row_id i e := e <| SpendingEntryEntity.id := i |>;
  created t e := e <| SpendingEntryEntity.createdAt := t |> <| SpendingEntryEntity.updatedAt := t |>;
  touched t e := e <| SpendingEntryEntity.updatedAt := t |>;
  live e := true;
  clash a b := false
|}.

Module SpendingStore.
Record SpendingStore : Type := mk {
  env : Env;
  categories : list SpendingCategoryEntity.SpendingCategoryEntity;
  entries : list SpendingEntryEntity.SpendingEntryEntity
}.
#[global] Instance settable : Settable SpendingStore := fun r =>
  mk r.(env) r.(categories) r.(entries).
End SpendingStore.

#[global] Program Instance SpendingStore_env : HasEnv SpendingStore.SpendingStore := {|
  env_of := SpendingStore.env;
  set_env e w := w <| SpendingStore.env := e |>
|}.

#[global] Program Instance SpendingStore_categories : Table SpendingStore.SpendingStore SpendingCategoryEntity.SpendingCategoryEntity := {|
  rows := SpendingStore.categories;
  set_rows t w := w <| SpendingStore.categories := t |>
|}.

#[global] Program Instance SpendingStore_entries : Table SpendingStore.SpendingStore SpendingEntryEntity.SpendingEntryEntity := {|
  rows := SpendingStore.entries;
  set_rows t w := w <| SpendingStore.entries := t |>
|}.

Notation Store := SpendingStore.SpendingStore.
Notation Category := SpendingCategoryEntity.SpendingCategoryEntity.
Notation Entry := SpendingEntryEntity.SpendingEntryEntity.

Record CreateSpendingCategoryDto : Type := mkCategory { c_name : string; c_color : option string; c_icon : option string }.
Record CreateSpendingEntryDto : Type := mkEntry {
  e_transactionId : option string;
  e_categoryId : option string;
  e_amount : num;
  e_description : option string;
  e_date : Z
}.
Inductive Period : Type := week | month | year.
Record QuerySpendingSummaryDto : Type := mkQuery {
  period : option Period;
  startDate : option Z;
  endDate : option Z
}.

Record CategoryTotal : Type := mkTotal {
  categoryId : string;
  name : string;
  color : string;
  total : num;
  count : Z
}.
Record Summary : Type := mkSummary {
  s_period : Period;
  s_startDate : Z;
  s_endDate : Z;
  totalSpent : num;
  transactionCount : Z;
  categoryBreakdown : list CategoryTotal
}.

Module SpendingService.
Definition createCategory (userId : string) (dto : CreateSpendingCategoryDto) : M Store Category :=
  save (SpendingCategoryEntity.mk "" userId (c_name dto) (default "#6B7280" (c_color dto)) (c_icon dto) 0 0).

(** Ascending by name. *)
Fixpoint insert_by_name (c : Category) (l : list Category) : list Category :=
  match l with
  | [] => [c]
  | d :: l' => if String.leb c.(SpendingCategoryEntity.name) d.(SpendingCategoryEntity.name) then c :: l
               else d :: insert_by_name c l'
  end.

Definition getCategories (userId : string) : M Store (list Category) :=
  let* l := find_all (fun c : Category => String.eqb c.(SpendingCategoryEntity.userId) userId) in
  ret (fold_right insert_by_name [] l).

Definition in_category (id : string) (e : Entry) : bool :=
  match e.(SpendingEntryEntity.categoryId) with Some c => String.eqb c id | None => false end.

(** The foreign key's [onDelete: 'SET NULL']. *)
Definition uncategorize (id : string) (s : Store) : Store :=
  s <| SpendingStore.entries :=
         map (fun e => if in_category id e then e <| SpendingEntryEntity.categoryId := None |> else e)
             s.(SpendingStore.entries) |>.

Definition deleteCategory (userId categoryId : string) : M Store unit :=
  let* category := findOne (fun c : Category => String.eqb c.(SpendingCategoryEntity.id) categoryId &&
                                                String.eqb c.(SpendingCategoryEntity.userId) userId) in
  match category with
  | None => throw (NotFoundException "Category not found")
  | Some category =>
      delete_rows (fun c : Category => String.eqb (row_id c) (row_id category)) ;;;
      modify (uncategorize (row_id category))
  end.

(** The foreign key of the entity: the category, if any, exists. *)
Definition category_exists (id : option string) (s : Store) : bool :=
  match id with
  | None => true
  | Some id => existsb (fun c => String.eqb (row_id c) id) s.(SpendingStore.categories)
  end.

Definition createEntry (userId : string) (dto : CreateSpendingEntryDto) : M Store Entry :=
  let* ok := gets (category_exists (e_categoryId dto)) in
  if ok then
    save (SpendingEntryEntity.mk "" userId (e_transactionId dto) (e_categoryId dto) (e_amount dto)
            (e_description dto) (e_date dto) 0 0)
  else db_call ;;; throw (QueryFailed "23503" "insert or update violates foreign key constraint").

(** An entry with its category, as [relations: ['category']] loads it. *)
Definition between (startDate endDate : option Z) (e : Entry) : bool :=
  match startDate with Some t => t <=? e.(SpendingEntryEntity.date) | None => true end &&
  match endDate with Some t => e.(SpendingEntryEntity.date) <=? t | None => true end.

Definition category_of (cats : list Category) (e : Entry) : option Category :=
  match e.(SpendingEntryEntity.categoryId) with
  | Some id => List.find (fun c => String.eqb (row_id c) id) cats
  | None => None
  end.

Definition getEntries (userId : string) (startDate endDate : option Z) : M Store (list (Entry * option Category)) :=
  let* l := find_desc (fun e : Entry => String.eqb e.(SpendingEntryEntity.userId) userId && between startDate endDate e)
              SpendingEntryEntity.date in
  let* cats := gets SpendingStore.categories in
  ret (map (fun e => (e, category_of cats e)) l).

(** The dates of the query, or the period that ends now. *)
Definition summary_range (query : QuerySpendingSummaryDto) : M Store (Z * Z) :=
  match startDate query, endDate query with
  | Some start, Some end_ => ret (start, end_)
  | _, _ =>
      let* end_ := date_now in
      let* start := date_now in
      ret (match default month (period query) with
           | week => add_days (-7) start
           | month => add_months (-1) start
           | year => add_years (-1) start
           end, end_)
  end.

Definition cat_id (e : Entry) : string :=
  match e.(SpendingEntryEntity.categoryId) with
  | Some c => if str_truthy c then c else "uncategorized"
  | None => "uncategorized"
  end.

Definition text_or (d : string) (s : option string) : string :=
  match s with Some t => if str_truthy t then t else d | None => d end.

(** [byCategory[catId]], created on its first entry. *)
Fixpoint add_entry (e : Entry) (c : option Category) (l : list CategoryTotal) : list CategoryTotal :=
  match l with
  | [] => [mkTotal (cat_id e) (text_or "Uncategorized" (option_map SpendingCategoryEntity.name c))
             (text_or "#6B7280" (option_map SpendingCategoryEntity.color c))
             (num_of_Z 0 + e.(SpendingEntryEntity.amount))%num 1]
  | t :: l' =>
      if String.eqb (categoryId t) (cat_id e)
      then mkTotal (categoryId t) (name t) (color t) (total t + e.(SpendingEntryEntity.amount))%num (count t + 1) :: l'
      else t :: add_entry e c l'
  end.

Definition by_category (l : list (Entry * option Category)) : list CategoryTotal :=
  fold_left (fun acc ec => add_entry ec.1 ec.2 acc) l [].

(** [.sort((a, b) => b.total - a.total)], stable. *)
Fixpoint insert_total (t : CategoryTotal) (l : list CategoryTotal) : list CategoryTotal :=
  match l with
  | [] => [t]
  | u :: l' => if (total t >=? total u)%num then t :: l else u :: insert_total t l'
  end.

Definition getSummary (userId : string) (query : QuerySpendingSummaryDto) : M Store Summary :=
  let* ' (start, end_) := summary_range query in
  let* entries := getEntries userId (Some start) (Some end_) in
  let totalSpent := fold_left (fun s ec => (s + ec.1.(SpendingEntryEntity.amount))%num) entries (num_of_Z 0) in
  ret (mkSummary (default month (period query)) start end_
         (math_round (totalSpent * num_of_Z 100000000) / num_of_Z 100000000)%num
         (Z.of_nat (length entries))
         (fold_right insert_total [] (by_category entries))).
End SpendingService.

(** ** What a summary accounts for *)

Notation totals := (list CategoryTotal).
Definition counted (l : totals) : Z := fold_right (fun t n => count t + n) 0 l.

(** The entries of a category, in the order they are summed. *)
Definition entries_of (id : string) (l : list (Entry * option Category)) : list num :=
  map (fun ec => ec.1.(SpendingEntryEntity.amount))
    (List.filter (fun ec => String.eqb (SpendingService.cat_id ec.1) id) l).

(** One total per category of [l], of the amounts and the number of its entries. *)
Record accounts_for (l : list (Entry * option Category)) (ts : totals) : Prop := {
  af_distinct : NoDup (map categoryId ts);
  af_total : forall t, In t ts ->
    total t = sum_nums (entries_of (categoryId t) l) /\
    count t = Z.of_nat (length (entries_of (categoryId t) l)) /\ 0 < count t;
  af_all : forall ec, In ec l -> In (SpendingService.cat_id ec.1) (map categoryId ts);
  af_counted : counted ts = Z.of_nat (length l)
}.

Lemma in_add_entry e c ts id :
  In id (map categoryId (SpendingService.add_entry e c ts)) <-> In id (map categoryId ts) \/ id = SpendingService.cat_id e.
Proof.
  induction ts as [|t ts IH]; simpl; [intuition congruence|].
  destruct (String.eqb_spec (categoryId t) (SpendingService.cat_id e)) as [E|]; simpl; [rewrite <- E; intuition congruence | rewrite IH; tauto].
Qed.

Lemma add_entry_cases e c ts t :
  NoDup (map categoryId ts) -> In t (SpendingService.add_entry e c ts) ->
  (In t ts /\ categoryId t <> SpendingService.cat_id e) \/
  (categoryId t = SpendingService.cat_id e /\
   ((~ In (SpendingService.cat_id e) (map categoryId ts) /\ count t = 1 /\
     total t = (num_of_Z 0 + e.(SpendingEntryEntity.amount))%num) \/
    (exists u, In u ts /\ categoryId u = SpendingService.cat_id e /\ count t = count u + 1 /\
     total t = (total u + e.(SpendingEntryEntity.amount))%num))).
Proof.
  induction ts as [|u ts IH]; intros Hnd Hin.
  - destruct Hin as [<-|[]]. right. simpl. auto.
  - simpl in Hnd. apply NoDup_cons in Hnd as [Hu Hnd]. rewrite list_elem_of_In in Hu. simpl in Hin.
    destruct (String.eqb_spec (categoryId u) (SpendingService.cat_id e)) as [E|E].
    + destruct Hin as [<-|Hin]; [right; simpl; split; [exact E|]; right; exists u; auto|].
      left. split; [right; exact Hin|]. intros E'. apply Hu, in_map_iff. exists t. split; [congruence | exact Hin].
    + destruct Hin as [<-|Hin]; [left; split; [left; reflexivity | exact E]|].
      destruct (IH Hnd Hin) as [[H1 H2]|(H1 & [(H2 & H3 & H4)|(v & H2 & H3 & H4)])].
      * left. split; [right; exact H1 | exact H2].
      * right. split; [exact H1|]. left. simpl. tauto.
      * right. split; [exact H1|]. right. exists v. simpl. tauto.
Qed.

Lemma NoDup_add_entry e c ts : NoDup (map categoryId ts) -> NoDup (map categoryId (SpendingService.add_entry e c ts)).
Proof.
  induction ts as [|t ts IH]; simpl; [intros _; apply NoDup_singleton|].
  intros H. apply NoDup_cons in H as [Ht Hs].
  destruct (String.eqb_spec (categoryId t) (SpendingService.cat_id e)) as [E|E]; simpl; apply NoDup_cons; [auto|].
  split; [|apply IH, Hs]. rewrite list_elem_of_In in *. rewrite in_add_entry. intros [H|H]; [tauto | congruence].
Qed.

Lemma counted_add_entry e c ts : counted (SpendingService.add_entry e c ts) = counted ts + 1.
Proof. induction ts as [|t ts IH]; simpl; [reflexivity|]. destruct (String.eqb _ _); simpl; [lia | rewrite IH; lia]. Qed.

Lemma entries_of_snoc id l ec :
  entries_of id (l ++ [ec]) =
  entries_of id l ++ (if String.eqb (SpendingService.cat_id ec.1) id then [ec.1.(SpendingEntryEntity.amount)] else []).
Proof. unfold entries_of. rewrite List.filter_app, List.map_app. simpl. destruct (String.eqb _ _); reflexivity. Qed.

Lemma accounts_for_add l ts ec :
  accounts_for l ts -> accounts_for (l ++ [ec]) (SpendingService.add_entry ec.1 ec.2 ts).
Proof.
  intros [Hnd Ht Hall Hc]. split.
  - apply NoDup_add_entry, Hnd.
  - intros t Hin. rewrite entries_of_snoc.
    destruct (add_entry_cases _ _ _ _ Hnd Hin) as [[Hin' Hne]|[E Hcase]].
    + destruct (String.eqb_spec (SpendingService.cat_id ec.1) (categoryId t)); [congruence|]. rewrite app_nil_r. apply Ht, Hin'.
    + rewrite E, String.eqb_refl, sum_nums_snoc, length_app, Nat2Z.inj_add. simpl.
      destruct Hcase as [(Hno & -> & ->)|(u & Hu & Eu & -> & ->)].
      * assert (He : entries_of (SpendingService.cat_id ec.1) l = []).
        { unfold entries_of. destruct (List.filter _ l) as [|x r] eqn:Hf; [reflexivity|]. exfalso.
          assert (Hx : In x (x :: r)) by (left; reflexivity). rewrite <- Hf in Hx. apply filter_In in Hx as [Hx Hb].
          apply String.eqb_eq in Hb. apply Hno. rewrite <- Hb. apply Hall, Hx. }
        rewrite He. repeat split; lia.
      * destruct (Ht u Hu) as (H1 & H2 & H3). rewrite Eu in H1, H2. rewrite H1, H2. repeat split; lia.
  - intros e He. apply in_add_entry. apply in_app_iff in He as [He|[<-|[]]]; [left; apply Hall, He | right; reflexivity].
  - rewrite counted_add_entry, length_app, Hc. simpl. lia.
Qed.

Lemma by_category_accounts l : accounts_for l (SpendingService.by_category l).
Proof.
  unfold SpendingService.by_category.
  assert (H : forall l acc ts, accounts_for acc ts ->
    accounts_for (acc ++ l) (fold_left (fun ts ec => SpendingService.add_entry ec.1 ec.2 ts) l ts)).
  { clear. induction l as [|ec l IH]; intros acc ts Ha; simpl; [rewrite app_nil_r; exact Ha|].
    replace (acc ++ ec :: l) with ((acc ++ [ec]) ++ l) by (rewrite <- app_assoc; reflexivity).
    apply IH, accounts_for_add, Ha. }
  apply (H l []). split; [constructor | intros t [] | intros ec [] | reflexivity].
Qed.

Lemma insert_total_perm t ts : Permutation (SpendingService.insert_total t ts) (t :: ts).
Proof.
  induction ts as [|u ts IH]; simpl; [reflexivity|]. destruct (_ >=? _)%num; [reflexivity|].
  rewrite IH. apply perm_swap.
Qed.

Lemma sorted_totals_perm ts : Permutation (fold_right SpendingService.insert_total [] ts) ts.
Proof. induction ts as [|t ts IH]; simpl; [reflexivity|]. rewrite insert_total_perm, IH. reflexivity. Qed.

Lemma accounts_for_perm l ts ts' : Permutation ts ts' -> accounts_for l ts -> accounts_for l ts'.
Proof.
  intros Hp [H1 H2 H3 H4]. split.
  - rewrite <- Hp. exact H1.
  - intros t Ht. apply H2. rewrite Hp. exact Ht.
  - intros ec Hec. specialize (H3 ec Hec). rewrite <- Hp. exact H3.
  - rewrite <- H4. clear -Hp. induction Hp; simpl; lia.
Qed.

Definition no_less (a b : CategoryTotal) : Prop := num_leb (total b) (total a) = true.

Lemma sorted_insert_total t ts :
  (forall u, In u (t :: ts) -> is_nan (total u) = false) -> Sorted no_less ts ->
  Sorted no_less (SpendingService.insert_total t ts).
Proof.
  induction ts as [|u ts IH]; intros Hn Hs; simpl; [repeat constructor|].
  destruct (num_leb (total u) (total t)) eqn:E; [constructor; [exact Hs | constructor; exact E]|].
  assert (Hut : no_less u t).
  { unfold no_less. apply num_ltb_leb. destruct (num_ltb (total t) (total u)) eqn:E'; [reflexivity|].
    apply num_ltb_false_leb in E'; [congruence | |]; apply Hn; simpl; auto. }
  inversion Hs as [|? ? Hs' Hd]; subst. constructor.
  - apply IH; [|exact Hs']. intros v [<-|Hv]; apply Hn; simpl; auto.
  - destruct ts as [|v ts]; simpl; [constructor; exact Hut|].
    destruct (num_leb (total v) (total t)); constructor; [exact Hut|]. inversion Hd; assumption.
Qed.

Lemma sorted_totals ts :
  (forall u, In u ts -> is_nan (total u) = false) -> Sorted no_less (fold_right SpendingService.insert_total [] ts).
Proof.
  induction ts as [|t ts IH]; intros Hn; simpl; [constructor|].
  apply sorted_insert_total; [|apply IH; intros u Hu; apply Hn; right; exact Hu].
  intros u [<-|Hu]; [apply Hn; left; reflexivity|]. apply Hn. right.
  eapply Permutation_in; [apply sorted_totals_perm | exact Hu].
Qed.

(** The entries a summary of [start] to [stop] is about, the latest first. *)
Definition summarised (userId : string) (start stop : Z) (s : Store) (l : list (Entry * option Category)) : Prop :=
  sorted_by (fun e => - e.(SpendingEntryEntity.date)) (map fst l) /\
  forall e c, In (e, c) l <->
    In e s.(SpendingStore.entries) /\ e.(SpendingEntryEntity.userId) = userId /\
    start <= e.(SpendingEntryEntity.date) <= stop /\ c = SpendingService.category_of s.(SpendingStore.categories) e.

(** A summary is of exactly the user's entries of its period: it counts each
    of them in one category, with the sum of that category's amounts, the largest
    first; it writes nothing and fails only with a failed call. *)
Theorem summary_accounts_for_every_entry userId query s :
  wp (SpendingService.getSummary userId query)
    (fun sm s' => env_only s s' /\ exists l, summarised userId (s_startDate sm) (s_endDate sm) s l /\
       transactionCount sm = Z.of_nat (length l) /\ accounts_for l (categoryBreakdown sm) /\
       ((forall t, In t (categoryBreakdown sm) -> is_nan (total t) = false) -> Sorted no_less (categoryBreakdown sm)))
    (fun x s' => env_only s s' /\ env_fault (env_of s) x) s.
Proof.
  unfold SpendingService.getSummary. wp_step.
  assert (Hrange : wp (SpendingService.summary_range query) (fun _ s1 => env_only s s1) (fun _ _ => False) s).
  { unfold SpendingService.summary_range. destruct (startDate query); [destruct (endDate query)|]; repeat wp_step;
      first [reflexivity | eexists; split; [|reflexivity]; env_chain]. }
  eapply wp_mono; [exact Hrange | | intros x s1 []]. intros [start stop] s1 (e1 & He1 & ->).
  unfold SpendingService.getEntries, find_desc. wp_step. wp_step. wp_step. wp_step.
  - split; [eexists; split; [|reflexivity]; env_chain | eapply env_step_fault; [|eassumption]; env_chain].
  - wp_step. wp_step. wp_step. wp_step. set (l0 := order_desc _ _). set (l := map _ l0).
    split; [eexists; split; [|reflexivity]; env_chain|]. exists l.
    assert (Hfst : map fst l = l0) by (unfold l; rewrite map_map; apply List.map_id).
    split; [split; [rewrite Hfst; apply sorted_order_asc|]|split; [reflexivity|split]].
    + intros e c. unfold l. rewrite in_map_iff. split.
      * intros (x & Hx & Hin). injection Hx as <- <-. unfold l0 in Hin. apply in_find_desc in Hin as (Hin & _ & Hb).
        apply andb_prop in Hb as [Hu Hb]. apply andb_prop in Hb as [Ha Hb].
        apply String.eqb_eq in Hu. apply Z.leb_le in Ha, Hb. repeat split; assumption.
      * intros (Hin & <- & [Ha Hb] & ->). exists e. split; [reflexivity|]. unfold l0. apply in_find_desc.
        split; [exact Hin|]. split; [reflexivity|]. rewrite String.eqb_refl. simpl.
        apply andb_true_intro. split; apply Z.leb_le; assumption.
    + simpl. eapply accounts_for_perm; [symmetry; apply sorted_totals_perm | apply by_category_accounts].
    + intros Hn. apply sorted_totals. intros u Hu. apply Hn.
      eapply Permutation_in; [symmetry; apply sorted_totals_perm | exact Hu].
Qed.

(** ** Worked examples *)

Definition spending_env : Env :=
  mkEnv (fun n => 1700000000000 + Z.of_nat n) 0 (fun _ => None) 0
        (fun n => ("u"%char, string_of_N (N.of_nat n))) 0 (fun _ => num_of_ratio 1 2) 0 [].
Definition private : Category := SpendingCategoryEntity.mk "c1" "eve" "Rehab" "#000000" None 0 0.
Definition spending_start : Store := SpendingStore.mk spending_env [private] [].

(** An entry can name a category of another user, whose name the summary shows. *)
Example foreign_category_is_shown :
  match (SpendingService.createEntry "ada" (mkEntry None (Some "c1") (num_of_Z 5) None 1699999999000) ;;;
         SpendingService.getSummary "ada" (mkQuery None None None)) spending_start with
  | (inr sm, _) => map name (categoryBreakdown sm) = ["Rehab"]
  | (inl _, _) => False
  end.
Proof. vm_compute. reflexivity. Qed.
