(* ===== verification/Ledger.v ===== *)
(** ledger/ledger.service.ts and reconciliation/: the ledger's entries, the
    nightly comparison of every stored balance with the transactions on record
    (ledger-verification.service.ts) and its predecessor, which only logs
    (reconciliation.service.ts). *)
From Stdlib Require Import QArith Qabs.
From S2P Require Import Prelude JsNumber Effects RepositoryLaws JsData ThirdParty Entities World Accounts CoreCalls Lifecycle.
Local Open Scope Z_scope.

Module LedgerEntryType.
Inductive LedgerEntryType : Type := CREDIT | DEBIT.
Definition eqb (a b : LedgerEntryType) : bool :=
  match a, b with
  | CREDIT, CREDIT | DEBIT, DEBIT => true
  | _, _ => false
  end.
Definition show (a : LedgerEntryType) : string :=
  match a with
  | CREDIT => "credit"
  | DEBIT => "debit"
  end.
Lemma LedgerEntryType_eqb_eq a b : eqb a b = true <-> a = b.
Proof. destruct a, b; simpl; split; congruence. Qed.
End LedgerEntryType.

(** ledger/ledger-entry.entity.ts *)
Module LedgerEntry.
Record LedgerEntry : Type := mk {
  id : string;
  userId : string;
  transactionId : option string;
  type_ : LedgerEntryType.LedgerEntryType;
  amount : num;
  currency : string;
  balanceAfter : num;
  description : option string;
  createdAt : Z
}.
#[global] Instance settable : Settable LedgerEntry := fun r =>
  mk r.(id) r.(userId) r.(transactionId) r.(type_) r.(amount) r.(currency)
     r.(balanceAfter) r.(description) r.(createdAt).
End LedgerEntry.

#[global] Program Instance LedgerEntry_row : Row LedgerEntry.LedgerEntry := {|
  row_id := LedgerEntry.id;
  set_row_id i e := e <| LedgerEntry.id := i |>;
  created t e := e <| LedgerEntry.createdAt := t |>;
  touched t e := e;
  live e := true;
  clash a b := false
|}.

Record Discrepancy : Type := mkDiscrepancy {
  d_accountId : string;
  d_currency : string;
  d_stored : string;
  d_ledger : string;
  d_diff : string
}.

(** reconciliation/ledger-verification-result.entity.ts *)
Module LedgerVerificationResult.
Record LedgerVerificationResult : Type := mk {
  id : string;
  ranAt : Z;
  totalChecked : Z;
  discrepancyCount : Z;
  discrepancies : option (list Discrepancy)
}.
#[global] Instance settable : Settable LedgerVerificationResult := fun r =>
  mk r.(id) r.(ranAt) r.(totalChecked) r.(discrepancyCount) r.(discrepancies).
End LedgerVerificationResult.

#[global] Program Instance LedgerVerificationResult_row : Row LedgerVerificationResult.LedgerVerificationResult := {|
  row_id := LedgerVerificationResult.id;
  set_row_id i e := e <| LedgerVerificationResult.id := i |>;
  created t e := e <| LedgerVerificationResult.ranAt := t |>;
  touched t e := e;
  live e := true;
  clash a b := false
|}.

Module LedgerStore.
Record LedgerStore : Type := mk {
  core_world : World;
  entries : list LedgerEntry.LedgerEntry;
  results : list LedgerVerificationResult.LedgerVerificationResult
}.
#[global] Instance settable : Settable LedgerStore := fun r =>
  mk r.(core_world) r.(entries) r.(results).
End LedgerStore.

#[global] Program Instance LedgerStore_world : HasWorld LedgerStore.LedgerStore := {|
  world_of := LedgerStore.core_world;
  set_world w s := s <| LedgerStore.core_world := w |>
|}.

#[global] Program Instance LedgerStore_entries : Table LedgerStore.LedgerStore LedgerEntry.LedgerEntry := {|
  rows := LedgerStore.entries;
  set_rows t w := w <| LedgerStore.entries := t |>
|}.

#[global] Program Instance LedgerStore_results : Table LedgerStore.LedgerStore LedgerVerificationResult.LedgerVerificationResult := {|
  rows := LedgerStore.results;
  set_rows t w := w <| LedgerStore.results := t |>
|}.

Notation Store := LedgerStore.LedgerStore.
Notation Result := LedgerVerificationResult.LedgerVerificationResult.
Notation Wallet := WalletBalanceEntity.WalletBalanceEntity.
Notation Tx := Transaction.Transaction.

(** The operations of big.js these services use besides those of [BigJs]:
    [new Big(text)] of the text of a numeric, [minus], [abs]. *)
Class BigDecimal `{BigJs} : Type := {
  big_of_numeric : Q -> Big;
  big_minus : Big -> Big -> Big;
  big_abs : Big -> Big
}.

Class BigDecimalLaws `{BigDecimal} {L : BigJsLaws _} : Prop := {
  big_of_numeric_exact : forall q, (big_q (big_of_numeric q) == q)%Q;
  big_minus_exact : forall a b, (big_q (big_minus a b) == big_q a - big_q b)%Q;
  big_abs_exact : forall a, (big_q (big_abs a) == Qabs (big_q a))%Q
}.

(** ** LedgerService *)

Record CreateLedgerEntryDto : Type := mkLedgerDto {
  l_userId : string;
  l_transactionId : option string;
  l_type : LedgerEntryType.LedgerEntryType;
  l_amount : num;
  l_currency : string;
  l_balanceAfter : num;
  l_description : option string
}.

Module LedgerService.
Definition recordEntry (dto : CreateLedgerEntryDto) : M Store LedgerEntry.LedgerEntry :=
  core (UsersService.findById (l_userId dto)) ;;;
  save (LedgerEntry.mk "" (l_userId dto) (l_transactionId dto) (l_type dto) (l_amount dto) (l_currency dto)
          (l_balanceAfter dto) (l_description dto) 0).

Definition findByUser (userId : string) : M Store (list LedgerEntry.LedgerEntry) :=
  core (UsersService.findById userId) ;;;
  find_desc (fun e : LedgerEntry.LedgerEntry => String.eqb e.(LedgerEntry.userId) userId) LedgerEntry.createdAt.

Definition findById (id : string) : M Store LedgerEntry.LedgerEntry :=
  let* entry := findOne (fun e : LedgerEntry.LedgerEntry => String.eqb e.(LedgerEntry.id) id) in
  match entry with
  | None => throw (NotFoundException ("Ledger entry " +:+ id +:+ " not found"))
  | Some entry => ret entry
  end.
End LedgerService.

(** ** What an account received *)

(** [tx.receiverId = :id AND tx.currency = :currency AND tx.status = 'completed']. *)
Definition received (accountId currency : string) (t : Tx) : bool :=
  String.eqb t.(Transaction.receiverId) accountId &&
  String.eqb t.(Transaction.currency) currency &&
  TransactionStatus.eqb t.(Transaction.status) TransactionStatus.COMPLETED.

(** [SUM(tx.amount)] of a numeric column; no rows count as zero. *)
Definition sum_amounts (l : list Tx) : Q :=
  fold_left (fun q t => (q + decimal_q t.(Transaction.amount))%Q) l 0%Q.

Section Verification.
Context `{BigDecimal}.

Definition TOLERANCE : Big := big_of_numeric (1 # 100).

(** [a.gt(b)]. *)
Definition big_gt (a b : Big) : bool := big_lt b a.

Definition ledger_balance (accountId currency : string) : M World Big :=
  let* l := find_all (received accountId currency) in ret (big_of_numeric (sum_amounts l)).

Definition difference (ledgerBalance storedBalance : Big) : Big := big_abs (big_minus ledgerBalance storedBalance).
End Verification.

Module ReconciliationService.
Section Service.
Context `{BigDecimal}.

(** The difference whose warning is logged, if any. *)
Definition reconcileAccount (accountId currency : string) : M World (option Big) :=
  let* wallet := findOne (fun w : Wallet => String.eqb w.(WalletBalanceEntity.accountId) accountId &&
                                            String.eqb w.(WalletBalanceEntity.currency) currency) in
  match wallet with
  | None => ret None
  | Some wallet =>
      let* ledgerBalance := ledger_balance accountId currency in
      let* stored := lift (new_Big wallet.(WalletBalanceEntity.balance)) in
      let diff := difference ledgerBalance stored in
      ret (if big_gt diff TOLERANCE then Some diff else None)
  end.

Definition reconcileAll : M World unit :=
  let* wallets := find_all (fun _ : Wallet => true) in
  for_each wallets (fun wallet =>
    reconcileAccount wallet.(WalletBalanceEntity.accountId) wallet.(WalletBalanceEntity.currency) ;;; ret tt).
End Service.
End ReconciliationService.

Module LedgerVerificationService.
Section Service.
Context `{BigDecimal}.

Definition discrepancy_json (d : Discrepancy) : list (string * json) :=
  [("accountId", JStr (d_accountId d)); ("currency", JStr (d_currency d)); ("stored", JStr (d_stored d));
   ("ledger", JStr (d_ledger d)); ("diff", JStr (d_diff d))].

(** One wallet of the loop: its discrepancy is put on record and kept. *)
Definition verify_wallet (discrepancies : list Discrepancy) (wallet : Wallet) : M Store (list Discrepancy) :=
  let* ledgerBalance := core (ledger_balance wallet.(WalletBalanceEntity.accountId) wallet.(WalletBalanceEntity.currency)) in
  let* storedBalance := lift (new_Big wallet.(WalletBalanceEntity.balance)) in
  let diff := difference ledgerBalance storedBalance in
  if big_gt diff TOLERANCE then
    let discrepancy := mkDiscrepancy wallet.(WalletBalanceEntity.accountId) wallet.(WalletBalanceEntity.currency)
                         (big_toFixed 8 storedBalance) (big_toFixed 8 ledgerBalance) (big_toFixed 8 diff) in
    core (AuditService.log (AuditService.mkEvent None "ledger.discrepancy" "wallet_balance" (Some wallet.(WalletBalanceEntity.id))
                              None (Some (discrepancy_json discrepancy)) None None None)) ;;;
    ret (discrepancies ++ [discrepancy])
  else ret discrepancies.

Definition verify : M Store Result :=
  let* wallets := core (find_all (fun _ : Wallet => true)) in
  let* discrepancies := fold_each wallets [] verify_wallet in
  save (LedgerVerificationResult.mk "" 0 (Z.of_nat (length wallets)) (Z.of_nat (length discrepancies))
          (match discrepancies with [] => None | _ => Some discrepancies end)).
End Service.
End LedgerVerificationService.

(** ** What the nightly verification reports *)

Section VerificationLaws.
Context `{BigDecimal} {L : BigJsLaws _} {D : BigDecimalLaws}.

(** The amount an account received, of the transactions on record. *)
Definition received_total (w : World) (wallet : Wallet) : Q :=
  sum_amounts (List.filter (fun t => live t && received wallet.(WalletBalanceEntity.accountId) wallet.(WalletBalanceEntity.currency) t)
                 w.(World.transactions)).

(** A balance is off when it is more than a cent from it. *)
Definition off (w : World) (wallet : Wallet) : bool :=
  negb (Qle_bool (Qabs (received_total w wallet - decimal_q wallet.(WalletBalanceEntity.balance))) (1 # 100)).

Lemma big_gt_tolerance b : big_gt b TOLERANCE = negb (Qle_bool (big_q b) (1 # 100)).
Proof.
  unfold big_gt, TOLERANCE. rewrite big_lt_exact. f_equal. apply eq_true_iff_eq.
  rewrite !Qle_bool_iff. rewrite big_of_numeric_exact. reflexivity.
Qed.

Lemma big_gt_off w wallet stored :
  (big_q stored == decimal_q wallet.(WalletBalanceEntity.balance))%Q ->
  big_gt (difference (big_of_numeric (received_total w wallet)) stored) TOLERANCE = off w wallet.
Proof.
  intros Hs. rewrite big_gt_tolerance. unfold off, difference. f_equal. apply eq_true_iff_eq.
  rewrite !Qle_bool_iff, big_abs_exact, big_minus_exact, big_of_numeric_exact, Hs. reflexivity.
Qed.

(** Balances and transactions are only read. *)
Definition same_books (w w' : World) : Prop :=
  w'.(World.wallet_balances) = w.(World.wallet_balances) /\ w'.(World.transactions) = w.(World.transactions).

#[local] Instance same_books_preorder : PreOrder same_books.
Proof. split; [intros w; split; reflexivity | intros w1 w2 w3 [] []; split; congruence]. Qed.

(** The audit log only grows. *)
Definition audit_grows : World -> World -> Prop :=
  evolves (S:=World) (E:=AuditLog.AuditLog) (fun _ => True) (fun _ _ => False).

Lemma audit_kept w w' a :
  audit_grows w w' -> keys_ok (w.(World.audit_logs)) -> In a w.(World.audit_logs) -> In a w'.(World.audit_logs).
Proof. intros Hg Hk Ha. exact (evolves_final _ _ w w' a Hg Hk Ha (fun _ f => f)). Qed.

Definition on_record (wallet : Wallet) (w : World) : Prop :=
  exists a, In a w.(World.audit_logs) /\ a.(AuditLog.action) = "ledger.discrepancy" /\
            a.(AuditLog.entityId) = Some wallet.(WalletBalanceEntity.id).

(** What a step of the loop does to the state. *)
Definition step_ok (s s' : Store) : Prop :=
  same_books (world_of s) (world_of s') /\ audit_grows (world_of s) (world_of s') /\
  s'.(LedgerStore.results) = s.(LedgerStore.results).

#[local] Instance step_ok_preorder : PreOrder step_ok.
Proof.
  split.
  - intros s. split; [reflexivity|]. split; [intros Hk; apply evolves_to_refl, Hk | reflexivity].
  - intros s1 s2 s3 (A & B & C) (A' & B' & C').
    split; [etransitivity; eassumption|]. split; [|congruence].
    unfold audit_grows in *. etransitivity; eassumption.
Qed.

Lemma step_ok_env e (s : Store) : env_step (env_of s) e -> step_ok s (set_env e s).
Proof. intros _. split; [split; reflexivity|]. split; [intros Hk; apply evolves_to_refl, Hk | reflexivity]. Qed.

Lemma off_same w w' wallet : same_books w w' -> off w' wallet = off w wallet.
Proof. intros [_ Ht]. unfold off, received_total. rewrite Ht. reflexivity. Qed.

Lemma log_spec ev (w : World) :
  wp (AuditService.log ev)
    (fun a w' => same_books w w' /\ audit_grows w w' /\ In a w'.(World.audit_logs) /\
                 a.(AuditLog.action) = AuditService.action ev /\ a.(AuditLog.entityId) = AuditService.entityId ev)
    (fun _ w' => same_books w w' /\ audit_grows w w') w.
Proof.
  assert (Hg : keeps audit_grows (AuditService.log ev)).
  { unfold AuditService.log. apply keeps_save_new; [reflexivity|]. intros i u _. eexists. split; [exact I | apply rtc_refl]. }
  specialize (Hg w).
  assert (Hs : wp (AuditService.log ev)
    (fun a w' => same_books w w' /\ In a w'.(World.audit_logs) /\
                 a.(AuditLog.action) = AuditService.action ev /\ a.(AuditLog.entityId) = AuditService.entityId ev)
    (fun _ w' => same_books w w') w).
  { unfold AuditService.log. wp_step; [split; reflexivity|].
    split; [split; reflexivity|]. split; [apply in_upsert_self|].
    match goal with Hr : saved_as _ _ |- _ => destruct Hr end; split; reflexivity. }
  unfold wp in *. revert Hg Hs. destruct (AuditService.log ev w) as [[x|a] w']; simpl; tauto.
Qed.

Lemma verify_wallet_spec ds wallet (s : Store) :
  is_finite wallet.(WalletBalanceEntity.balance) = true ->
  wp (LedgerVerificationService.verify_wallet ds wallet)
    (fun ds' s' => step_ok s s' /\
       if off (world_of s) wallet
       then exists d, ds' = ds ++ [d] /\ d_accountId d = wallet.(WalletBalanceEntity.accountId) /\
                      d_currency d = wallet.(WalletBalanceEntity.currency) /\ on_record wallet (world_of s')
       else ds' = ds)
    (fun _ s' => step_ok s s') s.
Proof.
  intros Hfin. destruct (new_Big_finite _ Hfin) as (stored & Hn & Hq).
  unfold LedgerVerificationService.verify_wallet. rewrite Hn. wp_step. apply wp_core.
  unfold ledger_balance. wp_step. wp_step.
  { apply step_ok_env. assumption. }
  wp_step. apply wp_bind, wp_ret. cbv zeta.
  change (sum_amounts _) with (received_total (world_of s) wallet).
  rewrite (big_gt_off (world_of s) wallet stored Hq).
  set (s1 := set_world _ s).
  assert (Hs1 : step_ok s s1) by (apply step_ok_env; assumption).
  destruct (off (world_of s) wallet) eqn:Hoff.
  - wp_step. apply wp_core. eapply wp_mono; [apply log_spec | |].
    + intros a w (Hb & Hg & Ha & Hact & Hid). wp_step.
      assert (Hs2 : step_ok s1 (set_world w s1)).
      { split; [rewrite world_of_set_world; exact Hb|]. split; [rewrite world_of_set_world; exact Hg | reflexivity]. }
      split; [etransitivity; [exact Hs1 | exact Hs2]|]. eexists. split; [reflexivity|]. split; [reflexivity|].
      split; [reflexivity|]. exists a. rewrite world_of_set_world. auto.
    + intros x w [Hb Hg]. etransitivity; [exact Hs1|].
      split; [rewrite world_of_set_world; exact Hb|]. split; [rewrite world_of_set_world; exact Hg | reflexivity].
  - wp_step. split; [exact Hs1 | reflexivity].
Qed.

Definition reported_key (d : Discrepancy) : string * string := (d_accountId d, d_currency d).
Definition wallet_key (w : Wallet) : string * string :=
  (w.(WalletBalanceEntity.accountId), w.(WalletBalanceEntity.currency)).

Lemma verify_wallets_spec l : forall ds (s : Store),
  Forall (fun w => is_finite w.(WalletBalanceEntity.balance) = true) l ->
  keys_ok ((world_of s).(World.audit_logs)) ->
  wp (fold_each l ds LedgerVerificationService.verify_wallet)
    (fun ds' s' => step_ok s s' /\ exists new, ds' = ds ++ new /\
       map reported_key new = map wallet_key (List.filter (off (world_of s)) l) /\
       forall w, In w l -> off (world_of s) w = true -> on_record w (world_of s'))
    (fun _ s' => step_ok s s') s.
Proof.
  induction l as [|w l IH]; intros ds s Hfin Hk; cbn [fold_each].
  - apply wp_ret. split; [reflexivity|]. exists []. split; [symmetry; apply app_nil_r|]. split; [reflexivity | intros w []].
  - apply List.Forall_cons_iff in Hfin as [Hw Hfin]. apply wp_bind.
    eapply wp_mono; [apply verify_wallet_spec, Hw | | auto]. intros ds1 s1 [Hs1 Hcase].
    assert (Hk1 : keys_ok ((world_of s1).(World.audit_logs))) by (apply (ev_keys _ _ _ _ (proj1 (proj2 Hs1) Hk))).
    assert (Hsame : forall w, off (world_of s1) w = off (world_of s) w) by (intros; apply off_same, Hs1).
    eapply wp_mono; [apply IH; assumption | |].
    + intros ds2 s2 (Hs2 & new & -> & Hmap & Hrec). split; [etransitivity; eassumption|].
      rewrite (List.filter_ext (off (world_of s1)) (off (world_of s)) Hsame) in Hmap.
      assert (Hrest : forall w', In w' l -> off (world_of s) w' = true -> on_record w' (world_of s2)).
      { intros w' Hin Ho. apply Hrec; [exact Hin | rewrite Hsame; exact Ho]. }
      cbn [List.filter]. destruct (off (world_of s) w) eqn:Hoff.
      * destruct Hcase as (d & -> & Hda & Hdc & Hon). exists (d :: new).
        split; [rewrite <- app_assoc; reflexivity|]. split; [change (reported_key d :: map reported_key new = wallet_key w :: map wallet_key (List.filter (off (world_of s)) l)); rewrite Hmap; unfold reported_key, wallet_key; congruence|].
        intros w' [<-|Hin] Ho; [|apply Hrest; assumption].
        destruct Hon as (a & Ha & Hact & Hid). exists a. split; [|auto].
        apply (audit_kept _ _ a (proj1 (proj2 Hs2)) Hk1 Ha).
      * subst ds1. exists new. split; [reflexivity|]. split; [exact Hmap|].
        intros w' [<-|Hin] Ho; [congruence | apply Hrest; assumption].
    + intros x s2 Hs2. etransitivity; eassumption.
Qed.

(** C39 A verification that returns checked every wallet and reports, in order,
    exactly those whose balance is more than a cent from the sum of the completed
    transactions they received; each of them is in the audit log.  Balances and
    transactions are only read, whether it returns or throws. *)
Theorem verify_reports_what_is_off (s : Store) :
  let wallets := List.filter live (world_of s).(World.wallet_balances) in
  Forall (fun w => is_finite w.(WalletBalanceEntity.balance) = true) wallets ->
  keys_ok ((world_of s).(World.audit_logs)) ->
  let reported := List.filter (off (world_of s)) wallets in
  wp LedgerVerificationService.verify
    (fun r s' => same_books (world_of s) (world_of s') /\
       r.(LedgerVerificationResult.totalChecked) = Z.of_nat (length wallets) /\
       r.(LedgerVerificationResult.discrepancyCount) = Z.of_nat (length reported) /\
       map reported_key (default [] r.(LedgerVerificationResult.discrepancies)) = map wallet_key reported /\
       (forall w, In w reported -> on_record w (world_of s')) /\ In r s'.(LedgerStore.results))
    (fun _ s' => same_books (world_of s) (world_of s')) s.
Proof.
  intros wallets Hfin Hk reported. unfold LedgerVerificationService.verify. wp_step. apply wp_core. wp_step.
  { split; reflexivity. }
  assert (Hw : List.filter (fun e : Wallet => live e && true) (rows (world_of s)) = wallets)
    by (apply List.filter_ext; intros; apply andb_true_r).
  rewrite Hw. wp_step. set (s1 := set_world _ s).
  assert (Hs1 : step_ok s s1) by (apply step_ok_env; assumption).
  eapply wp_mono; [apply (verify_wallets_spec wallets [] s1 Hfin Hk) | | intros x s2 Hs2; etransitivity; [apply Hs1 | apply Hs2]].
  intros ds s2 (Hs2 & new & -> & Hmap & Hrec). rewrite app_nil_l.
  change (map reported_key new = map wallet_key reported) in Hmap.
  assert (Hb : same_books (world_of s) (world_of s2)) by (etransitivity; [apply Hs1 | apply Hs2]).
  assert (Hlen : length new = length reported) by (rewrite <- (length_map reported_key new), Hmap; apply length_map).
  wp_step; [exact Hb|].
  split; [exact Hb|]. match goal with Hr : saved_as _ _ |- _ => destruct Hr end;
    (split; [reflexivity|]; split; [simpl; rewrite Hlen; reflexivity|];
     split; [simpl; rewrite <- Hmap; destruct new; reflexivity|];
     split; [intros w Hw'; unfold reported in Hw'; apply filter_In in Hw' as [Hin Ho]; apply Hrec; assumption | apply in_upsert_self]).
Qed.
End VerificationLaws.

(** ** Worked examples *)

#[local] Existing Instance decimal_big.
#[local] Instance exact_decimal : BigDecimal := {|
  big_of_numeric q := q : @Big decimal_big; big_minus := Qminus; big_abs := Qabs
|}.
#[local] Instance exact_decimal_laws : BigDecimalLaws.
Proof. split; reflexivity. Qed.

Definition ledger_env : Env :=
  mkEnv (fun n => 1700000000000 + Z.of_nat n) 0 (fun _ => None) 0
        (fun n => ("u"%char, string_of_N (N.of_nat n))) 0 (fun _ => num_of_ratio 1 2) 0 [].
Definition wallet_with (id account : string) (balance : Z) : Wallet :=
  WalletBalanceEntity.mk id account "USD" (num_of_Z balance) true None None 1 0 0 1.
Definition payment (id from to : string) (amount : Z) : Tx :=
  Transaction.mk id from to (num_of_Z amount) "USD" (num_of_Z 0) TransactionStatus.COMPLETED id None [] 0 (Some 0)
    None None None None None 0 None [] None None None.

(** Ada received 100 and sent 40 of them to Bob: both balances are as they should
    be. *)
Definition books : World :=
  (empty_world ledger_env) <| World.wallet_balances := [wallet_with "w1" "ada" 60; wallet_with "w2" "bob" 40] |>
                            <| World.transactions := [payment "t1" "eve" "ada" 100; payment "t2" "ada" "bob" 40] |>.
Definition ledger_start : Store := LedgerStore.mk books [] [].

Lemma verify_reports_what_is_off_witness :
  match LedgerVerificationService.verify ledger_start with
  | (inr r, _) => map reported_key (default [] r.(LedgerVerificationResult.discrepancies)) =
      map wallet_key (List.filter (off (world_of ledger_start)) (List.filter live (world_of ledger_start).(World.wallet_balances)))
  | (inl _, s') => same_books (world_of ledger_start) (world_of s')
  end.
Proof.
  assert (Hfin : Forall (fun w => is_finite w.(WalletBalanceEntity.balance) = true)
                   (List.filter live (world_of ledger_start).(World.wallet_balances))).
  { apply List.Forall_forall. intros w Hin. apply filter_In in Hin as [Hin _].
    destruct Hin as [<-|[<-|[]]]; vm_compute; reflexivity. }
  assert (Hk : keys_ok ((world_of ledger_start).(World.audit_logs))) by (split; constructor).
  pose proof (verify_reports_what_is_off ledger_start Hfin Hk) as Hw.
  destruct (LedgerVerificationService.verify ledger_start) as [[x|r] s'] eqn:E.
  - exact (wp_run_exn _ _ _ _ _ _ Hw E).
  - destruct (wp_run_ok _ _ _ _ _ _ Hw E) as (_ & _ & _ & Hrep & _). exact Hrep.
Defined.

(** What an account sent is not subtracted: whoever spent is reported. *)
Example spender_is_reported :
  off books (wallet_with "w1" "ada" 60) = true /\ off books (wallet_with "w2" "bob" 40) = false.
Proof. split; vm_compute; reflexivity. Qed.


Example verification_returns :
  match (LedgerVerificationService.verify ledger_start).1 with
  | inr r => (r.(LedgerVerificationResult.totalChecked), r.(LedgerVerificationResult.discrepancyCount)) = (2, 1)
  | inl _ => False
  end.
Proof. vm_compute. reflexivity. Qed.
