(* ===== verification/Bulk.v ===== *)
(** bulk-payments/bulk-payments.service.ts and
    modules/transactions/services/transaction-rollback.service.ts: payments to
    many recipients, processed in the background one by one, and the roll back of
    a transaction by an administrator.  Both write [TransactionEntity], the
    second entity of the table "transactions"; it has a table of its own here. *)
From S2P Require Import Prelude JsNumber Effects RepositoryLaws JsData QueryBuilder WithTransaction Lifecycle.
Local Open Scope Z_scope.

(** The type of [TransactionEntity.status]. *)
Module TxStatus.
Inductive TxStatus : Type := PENDING | SUCCESS | FAILED | CANCELLED.
Definition eqb (a b : TxStatus) : bool :=
  match a, b with
  | PENDING, PENDING | SUCCESS, SUCCESS | FAILED, FAILED | CANCELLED, CANCELLED => true
  | _, _ => false
  end.
Definition show (a : TxStatus) : string :=
  match a with
  | PENDING => "PENDING"
  | SUCCESS => "SUCCESS"
  | FAILED => "FAILED"
  | CANCELLED => "CANCELLED"
  end.
Lemma TxStatus_eqb_eq a b : eqb a b = true <-> a = b.
Proof. destruct a, b; simpl; split; congruence. Qed.
End TxStatus.

(** modules/transactions/entities/transaction.entity.ts *)
Module TransactionEntity.
Record TransactionEntity : Type := mk {
  id : string;
  externalId : option string;
  amount : num;
  currency : string;
  status : TxStatus.TxStatus;
  description : option string;
  metadata : option (list (string * json));
  payload : option (list (string * json));
  walletId : option string;
  toAddress : option string;
  fromAddress : option string;
  enrichmentMetadata : option (list (string * json));
  enrichmentUpdatedAt : option Z;
  searchVector : option string;
  categoryId : option string;
  riskScore : Z;
  isFlagged : bool;
  riskEvaluatedAt : option Z;
  requiresManualReview : bool;
  rollbackOf : option string;
  createdAt : Z;
  updatedAt : Z
}.
#[global] Instance settable : Settable TransactionEntity := fun r =>
  mk r.(id) r.(externalId) r.(amount) r.(currency) r.(status) r.(description) r.(metadata)
     r.(payload) r.(walletId) r.(toAddress) r.(fromAddress) r.(enrichmentMetadata)
     r.(enrichmentUpdatedAt) r.(searchVector) r.(categoryId) r.(riskScore) r.(isFlagged)
     r.(riskEvaluatedAt) r.(requiresManualReview) r.(rollbackOf) r.(createdAt)
     r.(updatedAt).
End TransactionEntity.

#[global] Program Instance TransactionEntity_row : Row TransactionEntity.TransactionEntity := {|
  row_id := TransactionEntity.id;
  set_row_id i e := e <| TransactionEntity.id := i |>;
  created t e := e <| TransactionEntity.createdAt := t |> <| TransactionEntity.updatedAt := t |>;
  touched t e := e <| TransactionEntity.updatedAt := t |>;
  live e := true;
  clash a b := false
|}.

(** modules/transactions/entities/transaction-rollback.entity.ts *)
Module TransactionRollbackEntity.
Record TransactionRollbackEntity : Type := mk {
  id : string;
  originalTransactionId : string;
  rollbackTransactionId : string;
  reason : option string;
  rolledBackBy : string;
  rolledBackAt : Z
}.
#[global] Instance settable : Settable TransactionRollbackEntity := fun r =>
  mk r.(id) r.(originalTransactionId) r.(rollbackTransactionId) r.(reason)
     r.(rolledBackBy) r.(rolledBackAt).
End TransactionRollbackEntity.

#[global] Program Instance TransactionRollbackEntity_row : Row TransactionRollbackEntity.TransactionRollbackEntity := {|
  row_id := TransactionRollbackEntity.id;
  set_row_id i e := e <| TransactionRollbackEntity.id := i |>;
  created t e := e <| TransactionRollbackEntity.rolledBackAt := t |>;
  touched t e := e;
  live e := true;
  clash a b := false
|}.

Module BulkPaymentItemStatus.
Inductive BulkPaymentItemStatus : Type := pending | success | failed.
Definition eqb (a b : BulkPaymentItemStatus) : bool :=
  match a, b with
  | pending, pending | success, success | failed, failed => true
  | _, _ => false
  end.
Definition show (a : BulkPaymentItemStatus) : string :=
  match a with
  | pending => "pending"
  | success => "success"
  | failed => "failed"
  end.
Lemma BulkPaymentItemStatus_eqb_eq a b : eqb a b = true <-> a = b.
Proof. destruct a, b; simpl; split; congruence. Qed.
End BulkPaymentItemStatus.

Module BulkPaymentStatus.
Inductive BulkPaymentStatus : Type := pending | processing | completed | failed | partial.
Definition eqb (a b : BulkPaymentStatus) : bool :=
  match a, b with
  | pending, pending | processing, processing | completed, completed | failed, failed | partial, partial => true
  | _, _ => false
  end.
Definition show (a : BulkPaymentStatus) : string :=
  match a with
  | pending => "pending"
  | processing => "processing"
  | completed => "completed"
  | failed => "failed"
  | partial => "partial"
  end.
Lemma BulkPaymentStatus_eqb_eq a b : eqb a b = true <-> a = b.
Proof. destruct a, b; simpl; split; congruence. Qed.
End BulkPaymentStatus.

(** bulk-payments/entities/bulk-payment-item.entity.ts *)
Module BulkPaymentItemEntity.
Record BulkPaymentItemEntity : Type := mk {
  id : string;
  bulkPaymentId : string;
  recipientAddress : string;
  amount : num;
  status : BulkPaymentItemStatus.BulkPaymentItemStatus;
  error : option string;
  transactionId : option string;
  createdAt : Z;
  updatedAt : Z
}.
#[global] Instance settable : Settable BulkPaymentItemEntity := fun r =>
  mk r.(id) r.(bulkPaymentId) r.(recipientAddress) r.(amount) r.(status) r.(error)
     r.(transactionId) r.(createdAt) r.(updatedAt).
End BulkPaymentItemEntity.

#[global] Program Instance BulkPaymentItemEntity_row : Row BulkPaymentItemEntity.BulkPaymentItemEntity := {|
  row_id := BulkPaymentItemEntity.id;
  set_row_id i e := e <| BulkPaymentItemEntity.id := i |>;
  created t e := e <| BulkPaymentItemEntity.createdAt := t |> <| BulkPaymentItemEntity.updatedAt := t |>;
  touched t e := e <| BulkPaymentItemEntity.updatedAt := t |>;
  live e := true;
  clash a b := false
|}.

(** bulk-payments/entities/bulk-payment.entity.ts *)
Module BulkPaymentEntity.
Record BulkPaymentEntity : Type := mk {
  id : string;
  userId : string;
  status : BulkPaymentStatus.BulkPaymentStatus;
  totalCount : Z;
  successCount : Z;
  failCount : Z;
  totalAmount : num;
  currency : string;
  createdAt : Z;
  updatedAt : Z;
  completedAt : option Z
}.
#[global] Instance settable : Settable BulkPaymentEntity := fun r =>
  mk r.(id) r.(userId) r.(status) r.(totalCount) r.(successCount) r.(failCount)
     r.(totalAmount) r.(currency) r.(createdAt) r.(updatedAt) r.(completedAt).
End BulkPaymentEntity.

#[global] Program Instance BulkPaymentEntity_row : Row BulkPaymentEntity.BulkPaymentEntity := {|
  row_id := BulkPaymentEntity.id;
  set_row_id i e := e <| BulkPaymentEntity.id := i |>;
  created t e := e <| BulkPaymentEntity.createdAt := t |> <| BulkPaymentEntity.updatedAt := t |>;
  touched t e := e <| BulkPaymentEntity.updatedAt := t |>;
  live e := true;
  clash a b := false
|}.

(** [background]: the bulk payments handed to [setImmediate]. *)
Module BulkStore.
Record BulkStore : Type := mk {
  env : Env;
  transactions : list TransactionEntity.TransactionEntity;
  rollbacks : list TransactionRollbackEntity.TransactionRollbackEntity;
  items : list BulkPaymentItemEntity.BulkPaymentItemEntity;
  payments : list BulkPaymentEntity.BulkPaymentEntity;
  background : list string
}.
#[global] Instance settable : Settable BulkStore := fun r =>
  mk r.(env) r.(transactions) r.(rollbacks) r.(items) r.(payments) r.(background).
End BulkStore.

#[global] Program Instance BulkStore_env : HasEnv BulkStore.BulkStore := {|
  env_of := BulkStore.env;
  set_env e w := w <| BulkStore.env := e |>
|}.

#[global] Program Instance BulkStore_transactions : Table BulkStore.BulkStore TransactionEntity.TransactionEntity := {|
  rows := BulkStore.transactions;
  set_rows t w := w <| BulkStore.transactions := t |>
|}.

#[global] Program Instance BulkStore_rollbacks : Table BulkStore.BulkStore TransactionRollbackEntity.TransactionRollbackEntity := {|
  rows := BulkStore.rollbacks;
  set_rows t w := w <| BulkStore.rollbacks := t |>
|}.

#[global] Program Instance BulkStore_items : Table BulkStore.BulkStore BulkPaymentItemEntity.BulkPaymentItemEntity := {|
  rows := BulkStore.items;
  set_rows t w := w <| BulkStore.items := t |>
|}.

#[global] Program Instance BulkStore_payments : Table BulkStore.BulkStore BulkPaymentEntity.BulkPaymentEntity := {|
  rows := BulkStore.payments;
  set_rows t w := w <| BulkStore.payments := t |>
|}.

Notation Store := BulkStore.BulkStore.
Notation TxRow := TransactionEntity.TransactionEntity.
Notation Rollback := TransactionRollbackEntity.TransactionRollbackEntity.
Notation Item := BulkPaymentItemEntity.BulkPaymentItemEntity.
Notation Payment := BulkPaymentEntity.BulkPaymentEntity.

(** [txRepo.create({...})]: the columns not named take their defaults. *)
Definition create_tx (amount : num) (currency : string) (status : TxStatus.TxStatus) (description : string)
    (metadata : option (list (string * json))) (walletId toAddress fromAddress rollbackOf : option string) : TxRow :=
  TransactionEntity.mk "" None amount currency status (Some description) metadata None walletId toAddress fromAddress
    None None None None 0 false None false rollbackOf 0 0.

(** ** TransactionRollbackService *)

Module TransactionRollbackService.
Definition by_id (id : string) (t : TxRow) : bool := String.eqb t.(TransactionEntity.id) id.
Definition of_original (id : string) (r : Rollback) : bool :=
  String.eqb r.(TransactionRollbackEntity.originalTransactionId) id.

Definition text_of (reason : option string) : string :=
  match reason with Some r => if str_truthy r then ": " +:+ r else "" | None => "" end.

Definition reverse_of (originalTx : TxRow) (transactionId : string) (reason : option string) : TxRow :=
  create_tx (- originalTx.(TransactionEntity.amount))%num originalTx.(TransactionEntity.currency) TxStatus.SUCCESS
    ("Rollback of transaction " +:+ transactionId +:+ text_of reason)
    (Some (obj_set "originalTransactionId" (JStr transactionId)
             (obj_set "rollbackReason" (match reason with Some r => JStr r | None => JUndefined end)
                (default [] originalTx.(TransactionEntity.metadata)))))
    originalTx.(TransactionEntity.walletId) originalTx.(TransactionEntity.fromAddress)
    originalTx.(TransactionEntity.toAddress) (Some transactionId).

Definition rollback (transactionId : string) (reason : option string) (adminUserId : string) :
    M Store (TxRow * TxRow * Rollback) :=
  let* originalTx := findOne (by_id transactionId) in
  match originalTx with
  | None => throw (NotFoundException ("Transaction with ID " +:+ transactionId +:+ " not found"))
  | Some originalTx =>
      throw_if (negb (TxStatus.eqb originalTx.(TransactionEntity.status) TxStatus.SUCCESS))
        (BadRequestException ("Only completed transactions can be rolled back. Current status: " +:+
                              TxStatus.show originalTx.(TransactionEntity.status))) ;;;
      let* alreadyRolledBack := findOne (of_original transactionId) in
      throw_if (match alreadyRolledBack with Some _ => true | None => false end)
        (BadRequestException ("Transaction " +:+ transactionId +:+ " has already been rolled back")) ;;;
      let* savedRollbackTx := save (reverse_of originalTx transactionId reason) in
      let* savedRollbackRecord :=
        save (TransactionRollbackEntity.mk "" transactionId savedRollbackTx.(TransactionEntity.id) reason adminUserId 0) in
      ret (originalTx, savedRollbackTx, savedRollbackRecord)
  end.
End TransactionRollbackService.

(** ** BulkPaymentsService *)

Record BulkPaymentItemDto : Type := mkItem { recipientAddress : string; i_amount : num }.
Record CreateBulkPaymentDto : Type := mkBulk { b_items : list BulkPaymentItemDto; b_currency : string }.

Module BulkPaymentsService.
Definition new_item (bulkPaymentId : string) (item : BulkPaymentItemDto) : Item :=
  BulkPaymentItemEntity.mk "" bulkPaymentId (recipientAddress item) (i_amount item) BulkPaymentItemStatus.pending None None 0 0.

(** [save(items)] of a list runs in a transaction of its own. *)
Definition save_items (l : list Item) : M Store (list Item) :=
  dataSource_transaction (rollback_table (E:=Item))
    (fold_each l [] (fun saved i => let* i' := save i in ret (saved ++ [i']))).

Definition create (userId : string) (dto : CreateBulkPaymentDto) : M Store (Payment * list Item) :=
  let totalAmount := fold_left (fun sum item => (sum + i_amount item)%num) (b_items dto) (num_of_Z 0) in
  let* saved := save (BulkPaymentEntity.mk "" userId BulkPaymentStatus.pending (Z.of_nat (length (b_items dto))) 0 0
                        totalAmount (toUpperCase (b_currency dto)) 0 0 None) in
  let* savedItems := save_items (map (new_item saved.(BulkPaymentEntity.id)) (b_items dto)) in
  modify (fun s => s <| BulkStore.background := s.(BulkStore.background) ++ [saved.(BulkPaymentEntity.id)] |>) ;;;
  ret (saved, savedItems).

Definition findAllByUser (userId : string) (page limit : option Z) : M Store (list Payment * Z) :=
  let page := default 1 page in
  let limit := default 20 limit in
  let offset := (page - 1) * limit in
  getManyAndCount (fun p : Payment => String.eqb p.(BulkPaymentEntity.userId) userId) BulkPaymentEntity.createdAt offset limit.

Definition items_of (id : string) (i : Item) : bool := String.eqb i.(BulkPaymentItemEntity.bulkPaymentId) id.

Definition findOne (id userId : string) : M Store (Payment * list Item) :=
  let* bulkPayment := Effects.findOne (fun p : Payment => String.eqb p.(BulkPaymentEntity.id) id &&
                                                          String.eqb p.(BulkPaymentEntity.userId) userId) in
  match bulkPayment with
  | None => throw (NotFoundException "Bulk payment not found")
  | Some p => let* items := gets (fun s => List.filter (items_of id) s.(BulkStore.items)) in ret (p, items)
  end.

Definition by_id (id : string) (p : Payment) : bool := String.eqb p.(BulkPaymentEntity.id) id.
Definition item_by_id (id : string) (i : Item) : bool := String.eqb i.(BulkPaymentItemEntity.id) id.

Definition update_item (id : string) (f : Item -> Item) : M Store unit := update_rows (item_by_id id) f.

Definition pay (bulkPayment : Payment) (item : Item) : M Store unit :=
  let* savedTx := save (create_tx item.(BulkPaymentItemEntity.amount) bulkPayment.(BulkPaymentEntity.currency) TxStatus.PENDING
                          ("Bulk payment " +:+ bulkPayment.(BulkPaymentEntity.id) +:+ " - item " +:+ item.(BulkPaymentItemEntity.id))
                          None None (Some item.(BulkPaymentItemEntity.recipientAddress)) None None) in
  update_item item.(BulkPaymentItemEntity.id)
    (fun i => i <| BulkPaymentItemEntity.status := BulkPaymentItemStatus.success |>
                <| BulkPaymentItemEntity.transactionId := Some savedTx.(TransactionEntity.id) |>).

Definition error_text (x : exn) : string :=
  if str_truthy (message_of x) then message_of x else "Processing failed".

(** One item of the loop, with the two counters. *)
Definition process_item (bulkPayment : Payment) (counts : Z * Z) (item : Item) : M Store (Z * Z) :=
  try_catch
    (pay bulkPayment item ;;; ret (counts.1 + 1, counts.2))
    (fun error =>
       update_item item.(BulkPaymentItemEntity.id)
         (fun i => i <| BulkPaymentItemEntity.status := BulkPaymentItemStatus.failed |>
                     <| BulkPaymentItemEntity.error := Some (error_text error) |>) ;;;
       ret (counts.1, counts.2 + 1)).

Definition final_status (successCount failCount : Z) : BulkPaymentStatus.BulkPaymentStatus :=
  if failCount =? 0 then BulkPaymentStatus.completed
  else if successCount =? 0 then BulkPaymentStatus.failed
  else BulkPaymentStatus.partial.

Definition processBulkPayment (bulkPaymentId : string) : M Store unit :=
  let* bulkPayment := Effects.findOne (by_id bulkPaymentId) in
  match bulkPayment with
  | None => ret tt
  | Some bulkPayment =>
      update_rows (by_id bulkPaymentId) (fun p : Payment => p <| BulkPaymentEntity.status := BulkPaymentStatus.processing |>) ;;;
      let* items := find_asc (items_of bulkPaymentId) BulkPaymentItemEntity.createdAt in
      let* ' (successCount, failCount) := fold_each items (0, 0) (process_item bulkPayment) in
      let finalStatus := final_status successCount failCount in
      let* now := date_now in
      update_rows (by_id bulkPaymentId)
        (fun p : Payment => p <| BulkPaymentEntity.status := finalStatus |>
                              <| BulkPaymentEntity.successCount := successCount |>
                              <| BulkPaymentEntity.failCount := failCount |>
                              <| BulkPaymentEntity.completedAt := Some now |>) ;;;
      emit "bulk-payment.completed"
        (JObj [("bulkPaymentId", JStr bulkPaymentId); ("status", JStr (BulkPaymentStatus.show finalStatus));
               ("successCount", JNum (num_of_Z successCount)); ("failCount", JNum (num_of_Z failCount))])
  end.
End BulkPaymentsService.

(** ** A bulk payment accounts for every item *)

Section Processing.
Variable payment : Payment.

(** [id] is paid: its item names a pending transaction of its amount to its
    recipient; or it failed and says why. *)
Definition settled (paid : bool) (id : string) (s : Store) : Prop :=
  exists i, In i s.(BulkStore.items) /\ row_id i = id /\
    if paid then
      i.(BulkPaymentItemEntity.status) = BulkPaymentItemStatus.success /\
      exists t, In t s.(BulkStore.transactions) /\ i.(BulkPaymentItemEntity.transactionId) = Some (row_id t) /\
        t.(TransactionEntity.amount) = i.(BulkPaymentItemEntity.amount) /\
        t.(TransactionEntity.toAddress) = Some i.(BulkPaymentItemEntity.recipientAddress) /\
        t.(TransactionEntity.currency) = payment.(BulkPaymentEntity.currency) /\
        t.(TransactionEntity.status) = TxStatus.PENDING
    else
      i.(BulkPaymentItemEntity.status) = BulkPaymentItemStatus.failed /\ i.(BulkPaymentItemEntity.error) <> None.

(** Transactions are only added. *)
Definition txs_grow : Store -> Store -> Prop :=
  evolves (S:=Store) (E:=TxRow) (fun _ => True) (fun _ _ => False).

(** A step for the item [id]: other items and the payments are left alone. *)
Record item_step (id : string) (s s' : Store) : Prop := {
  is_txs : txs_grow s s';
  is_payments : s'.(BulkStore.payments) = s.(BulkStore.payments);
  is_later : later s s';
  is_items : exists f, s'.(BulkStore.items) = map f s.(BulkStore.items) /\
    (forall i, row_id (f i) = row_id i) /\ (forall i, row_id i <> id -> f i = i)
}.

Lemma item_step_trans id s1 s2 s3 : item_step id s1 s2 -> item_step id s2 s3 -> item_step id s1 s3.
Proof.
  intros [A B C (f & F1 & F2 & F3)] [A' B' C' (g & G1 & G2 & G3)]. split.
  - unfold txs_grow in *. etransitivity; eassumption.
  - congruence.
  - etransitivity; eassumption.
  - exists (fun i => g (f i)). split; [rewrite G1, F1, map_map; reflexivity|]. split.
    + intros i. rewrite G2. apply F2.
    + intros i Hi. rewrite (F3 i Hi). apply G3, Hi.
Qed.

Lemma item_step_env id e s : env_step (env_of s) e -> item_step id s (set_env e s).
Proof.
  intros He. split; [intros Hk; apply evolves_to_refl, Hk | reflexivity | apply later_step; rewrite env_of_set_env; exact He|].
  exists (fun i => i). split; [symmetry; apply List.map_id|]. auto.
Qed.

Lemma update_item_spec id f (s : Store) :
  (forall i, row_id (f i) = row_id i) ->
  wp (BulkPaymentsService.update_item id f)
    (fun _ s' => item_step id s s' /\ env_step (env_of s) (env_of s') /\
       s'.(BulkStore.transactions) = s.(BulkStore.transactions) /\
       forall i, In i s.(BulkStore.items) -> row_id i = id -> exists u, In (touched u (f i)) s'.(BulkStore.items))
    (fun x s' => item_step id s s' /\ env_step (env_of s) (env_of s') /\ env_fault (env_of s) x /\
       s'.(BulkStore.transactions) = s.(BulkStore.transactions) /\ s'.(BulkStore.items) = s.(BulkStore.items)) s.
Proof.
  intros Hf. unfold BulkPaymentsService.update_item. wp_step.
  - split; [apply item_step_env; assumption|]. auto.
  - match goal with |- context [touched ?n _] => rename n into u end.
    split; [split|split; [|split]].
    + intros Hk. apply evolves_to_refl, Hk.
    + reflexivity.
    + apply later_step. simpl. env_chain.
    + eexists. split; [reflexivity|]. split.
      * intros i. destruct (BulkPaymentsService.item_by_id id i); [rewrite row_id_touched; apply Hf | reflexivity].
      * intros i Hi. destruct (BulkPaymentsService.item_by_id id i) eqn:E; [|reflexivity].
        exfalso. apply Hi, String.eqb_eq, E.
    + simpl. env_chain.
    + reflexivity.
    + intros i Hin Hid. exists u. simpl. apply in_map_iff. exists i. split; [|exact Hin].
      replace (BulkPaymentsService.item_by_id id i) with true; [reflexivity|].
      symmetry. apply String.eqb_eq, Hid.
Qed.

Lemma process_item_spec counts item (s : Store) :
  In item s.(BulkStore.items) -> keys_ok (s.(BulkStore.items)) -> keys_ok (s.(BulkStore.transactions)) ->
  wp (BulkPaymentsService.process_item payment counts item)
    (fun counts' s' => item_step (row_id item) s s' /\ exists paid : bool,
       counts' = (if paid then (counts.1 + 1, counts.2) else (counts.1, counts.2 + 1)) /\ settled paid (row_id item) s')
    (fun x s' => item_step (row_id item) s s' /\ env_fault (env_of s) x) s.
Proof.
  intros Hin Hki Hkt. unfold BulkPaymentsService.process_item, BulkPaymentsService.pay.
  assert (Hfail : forall e s1, item_step (row_id item) s s1 -> env_step (env_of s) (env_of s1) ->
    s1.(BulkStore.items) = s.(BulkStore.items) ->
    wp (BulkPaymentsService.update_item (row_id item)
          (fun i => i <| BulkPaymentItemEntity.status := BulkPaymentItemStatus.failed |>
                      <| BulkPaymentItemEntity.error := Some (BulkPaymentsService.error_text e) |>) ;;;
        ret (counts.1, counts.2 + 1))
      (fun counts' s' => item_step (row_id item) s s' /\ exists paid : bool,
         counts' = (if paid then (counts.1 + 1, counts.2) else (counts.1, counts.2 + 1)) /\ settled paid (row_id item) s')
      (fun x s' => item_step (row_id item) s s' /\ env_fault (env_of s) x) s1).
  { intros e s1 Hs1 He1 Hi1. apply wp_bind. eapply wp_mono; [apply update_item_spec; reflexivity | |].
    - intros _ s2 (Hs2 & _ & _ & Hupd). apply wp_ret. split; [eapply item_step_trans; eassumption|].
      exists false. split; [reflexivity|]. destruct (Hupd item) as [u Hu]; [rewrite Hi1; exact Hin | reflexivity|].
      eexists. split; [exact Hu|]. split; [reflexivity|]. split; [reflexivity | discriminate].
    - intros x s2 (Hs2 & _ & Hx & _). split; [eapply item_step_trans; eassumption|].
      eapply env_step_fault; eassumption. }
  apply wp_try_catch, wp_bind, wp_bind.
  apply wp_save.
  - intros e x He _. apply Hfail; [apply item_step_env; exact He | rewrite env_of_set_env; exact He | reflexivity].
  - intros e t He Ht _ _ Hnew.
    match type of Hnew with existsb (same_row ?e) _ = _ -> _ =>
      destruct (Hnew (keyless_not_in _ e Hkt eq_refl)) as [Htid Hfresh] end.
    match goal with |- wp _ _ _ ?st => set (s1 := st) in * end.
    assert (Hs1 : item_step (row_id item) s s1).
    { split; [|reflexivity| |].
      - intros Hk. apply evolves_to_insert; [exact Hk | exact Htid | exact Hfresh|]. exists t. split; [exact I | apply rtc_refl].
      - apply later_step. exact He.
      - exists (fun i => i). split; [symmetry; apply List.map_id | auto]. }
    assert (Hts : In t s1.(BulkStore.transactions)) by apply in_upsert_self.
    assert (Hcols : t.(TransactionEntity.amount) = item.(BulkPaymentItemEntity.amount) /\
      t.(TransactionEntity.toAddress) = Some item.(BulkPaymentItemEntity.recipientAddress) /\
      t.(TransactionEntity.currency) = payment.(BulkPaymentEntity.currency) /\ t.(TransactionEntity.status) = TxStatus.PENDING)
      by (destruct Ht; auto).
    assert (Hit1 : s1.(BulkStore.items) = s.(BulkStore.items)) by reflexivity.
    assert (He1 : env_step (env_of s) (env_of s1)) by exact He.
    clearbody s1. eapply wp_mono; [apply update_item_spec; reflexivity | |].
    + intros _ s2 (Hs2 & _ & Htx & Hupd). apply wp_ret. split; [eapply item_step_trans; eassumption|].
      exists true. split; [reflexivity|]. destruct (Hupd item) as [u Hu]; [rewrite Hit1; exact Hin | reflexivity|].
      eexists. split; [exact Hu|]. split; [reflexivity|]. split; [reflexivity|].
      exists t. rewrite Htx. simpl. tauto.
    + intros x s2 (Hs2 & He2 & _ & _ & Hit2).
      apply Hfail; [eapply item_step_trans; eassumption | etransitivity; eassumption | congruence].
Qed.

Lemma settled_later paid id id' (s s' : Store) :
  item_step id' s s' -> id <> id' -> keys_ok (s.(BulkStore.transactions)) -> settled paid id s -> settled paid id s'.
Proof.
  intros [Htx _ _ (f & Hi & _ & Hf)] Hne Hk (i & Hin & Hid & Hb). exists i. split; [|split; [exact Hid|]].
  - rewrite Hi. apply in_map_iff. exists i. split; [apply Hf; congruence | exact Hin].
  - destruct paid; [|exact Hb]. destruct Hb as (Hst & t & Ht & Hrest). split; [exact Hst|].
    exists t. split; [exact (evolves_final _ _ s s' t Htx Hk Ht (fun _ x => x)) | exact Hrest].
Qed.

(** The items an item step keeps. *)
Lemma item_step_ids id (s s' : Store) : item_step id s s' -> map row_id s'.(BulkStore.items) = map row_id s.(BulkStore.items).
Proof. intros [_ _ _ (f & -> & Hid & _)]. rewrite map_map. apply map_ext, Hid. Qed.

Lemma item_step_in id (s s' : Store) i :
  item_step id s s' -> row_id i <> id -> In i s.(BulkStore.items) -> In i s'.(BulkStore.items).
Proof. intros [_ _ _ (f & -> & _ & Hf)] Hne Hin. apply in_map_iff. exists i. auto. Qed.

Lemma keys_ok_ids {E} `{Row E} (t t' : list E) : map row_id t' = map row_id t -> keys_ok t -> keys_ok t'.
Proof.
  intros Hids [Hnd Hne]. split; [rewrite Hids; exact Hnd|]. apply List.Forall_forall. intros e He Hem.
  assert (Hin : In (row_id e) (map row_id t)) by (rewrite <- Hids; apply in_map, He).
  apply in_map_iff in Hin as (e0 & Hid & Hin). rewrite List.Forall_forall in Hne. apply (Hne e0 Hin). congruence.
Qed.

(** What a loop over [l] leaves: a verdict for every item, and two counters that
    count them. *)
Definition accounted (l : list Item) (counts counts' : Z * Z) (s' : Store) : Prop :=
  exists verdict : string -> bool,
    (forall i, In i l -> settled (verdict (row_id i)) (row_id i) s') /\
    counts'.1 = counts.1 + Z.of_nat (length (List.filter (fun i => verdict (row_id i)) l)) /\
    counts'.2 = counts.2 + Z.of_nat (length (List.filter (fun i => negb (verdict (row_id i))) l)).

Lemma process_items_spec l : forall counts (s : Store),
  NoDup (map row_id l) -> (forall i, In i l -> In i s.(BulkStore.items)) ->
  keys_ok (s.(BulkStore.items)) -> keys_ok (s.(BulkStore.transactions)) ->
  wp (fold_each l counts (BulkPaymentsService.process_item payment))
    (fun counts' s' => s'.(BulkStore.payments) = s.(BulkStore.payments) /\ later s s' /\
       (forall id paid, ~ In id (map row_id l) -> settled paid id s -> settled paid id s') /\ accounted l counts counts' s')
    (fun x s' => s'.(BulkStore.payments) = s.(BulkStore.payments) /\ later s s' /\ env_fault (env_of s) x) s.
Proof.
  induction l as [|i l IH]; intros counts s Hnd Hl Hki Hkt; cbn [fold_each].
  - apply wp_ret. split; [reflexivity|]. split; [reflexivity|]. split; [auto|]. exists (fun _ => true).
    split; [intros j []|]. simpl. split; lia.
  - apply NoDup_cons in Hnd as [Hni Hnd]. rewrite list_elem_of_In in Hni. apply wp_bind.
    eapply wp_mono; [apply (process_item_spec counts i s (Hl i (or_introl eq_refl)) Hki Hkt) | |].
    + intros c1 s1 (Hst & paid & Hc1 & Hset).
      assert (Hkt1 : keys_ok (s1.(BulkStore.transactions))) by exact (ev_keys _ _ _ _ (is_txs _ _ _ Hst Hkt)).
      eapply wp_mono; [apply (IH c1 s1 Hnd) | |].
      * intros j Hj. eapply item_step_in; [exact Hst | | apply Hl; right; exact Hj].
        intros E. apply Hni. rewrite <- E. apply in_map, Hj.
      * eapply keys_ok_ids; [eapply item_step_ids, Hst | exact Hki].
      * exact Hkt1.
      * intros c2 s2 (Hp & Hlat & Hkeep & verdict & Hv & Hn1 & Hn2).
        split; [rewrite Hp; apply (is_payments _ _ _ Hst)|]. split; [etransitivity; [apply (is_later _ _ _ Hst) | exact Hlat]|].
        split.
        { intros id p Hid Hs. simpl in Hid. apply Hkeep; [tauto|].
          eapply settled_later; [exact Hst | intros ->; tauto | exact Hkt | exact Hs]. }
        set (v' := fun id => if String.eqb id (row_id i) then paid else verdict id).
        assert (Hv' : forall j, In j l -> v' (row_id j) = verdict (row_id j)).
        { intros j Hj. unfold v'. destruct (String.eqb_spec (row_id j) (row_id i)) as [E|]; [|reflexivity].
          exfalso. apply Hni. rewrite <- E. apply in_map, Hj. }
        assert (Hvi : v' (row_id i) = paid) by (unfold v'; rewrite String.eqb_refl; reflexivity).
        exists v'. split; [|].
        { intros j [<-|Hj]; [rewrite Hvi; apply Hkeep; [exact Hni | exact Hset] | rewrite Hv' by exact Hj; apply Hv, Hj]. }
        cbn [List.filter]. rewrite Hvi.
        rewrite (filter_ext_in (fun j => v' (row_id j)) (fun j => verdict (row_id j)) l) by (intros; apply Hv'; assumption).
        rewrite (filter_ext_in (fun j => negb (v' (row_id j))) (fun j => negb (verdict (row_id j))) l) by (intros; rewrite Hv' by assumption; reflexivity).
        rewrite Hn1, Hn2, Hc1. destruct paid; simpl; split; lia.
      * intros x s2 (Hp & Hlat & Hx). split; [rewrite Hp; apply (is_payments _ _ _ Hst)|].
        split; [etransitivity; [apply (is_later _ _ _ Hst) | exact Hlat]|]. eapply later_fault; [apply (is_later _ _ _ Hst) | exact Hx].
    + intros x s1 [Hst Hx]. split; [apply (is_payments _ _ _ Hst)|]. split; [apply (is_later _ _ _ Hst) | exact Hx].
Qed.
End Processing.

Lemma filter_length_split {A} (p : A -> bool) l :
  (length (List.filter p l) + length (List.filter (fun x => negb (p x)) l) = length l)%nat.
Proof. induction l as [|x l IH]; simpl; [reflexivity|]. destruct (p x); simpl; lia. Qed.

Lemma filter_length_perm {A} (p : A -> bool) l l' :
  Permutation l l' -> length (List.filter p l) = length (List.filter p l').
Proof. intros H. induction H; simpl; repeat match goal with |- context [p ?x] => destruct (p x) end; simpl; congruence. Qed.

(** A processed bulk payment has a verdict for each of its items: paid, with a
    pending transaction of the item's amount to its recipient, or failed, with the
    reason.  Its counters count them, its status says which occurred, and it is
    dated; processing stops before that only with a failed call. *)
Theorem bulk_payment_accounts_for_every_item id payment (s : Store) :
  keys_ok (s.(BulkStore.items)) -> keys_ok (s.(BulkStore.transactions)) -> NoDup (map row_id s.(BulkStore.payments)) ->
  In payment s.(BulkStore.payments) -> row_id payment = id ->
  let l := List.filter (BulkPaymentsService.items_of id) s.(BulkStore.items) in
  wp (BulkPaymentsService.processBulkPayment id)
    (fun _ s' => exists p, In p s'.(BulkStore.payments) /\ row_id p = id /\
       accounted payment l (0, 0) (p.(BulkPaymentEntity.successCount), p.(BulkPaymentEntity.failCount)) s' /\
       p.(BulkPaymentEntity.successCount) + p.(BulkPaymentEntity.failCount) = Z.of_nat (length l) /\
       p.(BulkPaymentEntity.status) = BulkPaymentsService.final_status p.(BulkPaymentEntity.successCount) p.(BulkPaymentEntity.failCount) /\
       p.(BulkPaymentEntity.completedAt) <> None)
    (fun x _ => env_fault (env_of s) x) s.
Proof.
  intros Hki Hkt Hnp Hp Hid l. unfold BulkPaymentsService.processBulkPayment. wp_step. wp_step; [assumption|].
  destruct (List.find _ _) as [q|] eqn:Hf.
  2: { exfalso. apply (find_none _ _ Hf) in Hp. simpl in Hp. unfold BulkPaymentsService.by_id in Hp.
       change (BulkPaymentEntity.id payment) with (row_id payment) in Hp. rewrite Hid, String.eqb_refl in Hp. discriminate. }
  assert (q = payment) as ->.
  { destruct (find_live_some _ _ _ Hf) as (Hq & _ & Hqid). apply String.eqb_eq in Hqid.
    apply (NoDup_row_id_inj _ _ _ Hnp Hq Hp). rewrite Hid. exact Hqid. }
  wp_step. wp_step; [eapply env_step_fault; [|eassumption]; env_chain|].
  unfold find_asc. wp_step. wp_step. wp_step; [eapply env_step_fault; [|eassumption]; env_chain|].
  wp_step. wp_step. set (l1 := order_asc _ _).
  match goal with |- wp _ _ _ ?st => set (s1 := st) in * end.
  assert (Hl1 : Permutation l1 l) by apply order_asc_perm.
  assert (He1 : env_step (env_of s) (env_of s1)) by (unfold s1; simpl; env_chain).
  assert (Hps1 : exists u, In (touched u (payment <| BulkPaymentEntity.status := BulkPaymentStatus.processing |>)) s1.(BulkStore.payments)).
  { eexists. unfold s1. simpl. apply in_map_iff. exists payment. split; [|exact Hp].
    unfold BulkPaymentsService.by_id. change (BulkPaymentEntity.id payment) with (row_id payment).
    rewrite Hid, String.eqb_refl. reflexivity. }
  destruct Hps1 as [u1 Hps1].
  eapply wp_mono; [apply (process_items_spec payment l1 (0, 0) s1) | |].
  - rewrite Hl1. apply NoDup_filter_ids, Hki.
  - intros i Hi. assert (Hi' : In i l) by (rewrite <- Hl1; exact Hi). apply filter_In in Hi' as [Hi' _]. exact Hi'.
  - exact Hki.
  - exact Hkt.
  - intros [n1 n2] s2 (Hps & Hlat & _ & verdict & Hv & Hn1 & Hn2). simpl in Hn1, Hn2. clearbody s1.
    rewrite (filter_length_perm _ _ _ Hl1) in Hn1. rewrite (filter_length_perm _ _ _ Hl1) in Hn2.
    repeat (lazymatch goal with |- wp (update_rows _ _) _ _ _ => fail | _ => wp_step end).
    wp_step.
    { eapply env_step_fault; [exact He1|]. eapply later_fault; [exact Hlat|]. eapply env_step_fault; [|eassumption]. env_chain. }
    wp_step. eexists. split.
    { simpl. apply in_map_iff. eexists. split; [reflexivity|]. rewrite Hps. exact Hps1. }
    unfold BulkPaymentsService.by_id. simpl. change (BulkPaymentEntity.id payment) with (row_id payment).
    rewrite Hid, String.eqb_refl. simpl. split; [reflexivity|].
    split; [exists verdict; split; [|split; [exact Hn1 | exact Hn2]]|].
    { intros i Hi. apply Hv. rewrite Hl1. exact Hi. }
    split; [pose proof (filter_length_split (fun i => verdict i.(BulkPaymentItemEntity.id)) l); lia|]. split; [reflexivity | discriminate].
  - intros x s2 (_ & _ & Hx). eapply env_step_fault; [exact He1 | exact Hx].
Qed.

(** ** Rolling back *)

(** What a roll back of [original] writes, in the environment's identifiers. *)
Definition reverses (original reverse : TxRow) : Prop :=
  reverse.(TransactionEntity.amount) = (- original.(TransactionEntity.amount))%num /\
  reverse.(TransactionEntity.currency) = original.(TransactionEntity.currency) /\
  reverse.(TransactionEntity.walletId) = original.(TransactionEntity.walletId) /\
  reverse.(TransactionEntity.toAddress) = original.(TransactionEntity.fromAddress) /\
  reverse.(TransactionEntity.fromAddress) = original.(TransactionEntity.toAddress) /\
  reverse.(TransactionEntity.status) = TxStatus.SUCCESS /\
  reverse.(TransactionEntity.rollbackOf) = Some (row_id original).

(** No original has two records, and each record is of a successful transaction
    and the one that reverses it. *)
Record rollbacks_ok (txs : list TxRow) (rbs : list Rollback) : Prop := {
  rb_txs : keys_ok txs;
  rb_keys : keys_ok rbs;
  rb_once : NoDup (map TransactionRollbackEntity.originalTransactionId rbs);
  rb_reverse : forall r, In r rbs -> exists o t,
    In o txs /\ row_id o = r.(TransactionRollbackEntity.originalTransactionId) /\
    o.(TransactionEntity.status) = TxStatus.SUCCESS /\
    In t txs /\ row_id t = r.(TransactionRollbackEntity.rollbackTransactionId) /\ reverses o t
}.

Definition books_ok (s : Store) : Prop := rollbacks_ok s.(BulkStore.transactions) s.(BulkStore.rollbacks).

Lemma new_row_keys {E} `{Row E} (t : list E) r :
  keys_ok t -> row_id r <> "" -> existsb (same_row r) t = false ->
  keys_ok (upsert r t) /\ (forall e, In e t -> In e (upsert r t)).
Proof.
  intros Hk Hr Hf. split; [apply keys_ok_upsert; assumption|]. intros e He. apply in_upsert_other; [exact He|].
  intros Heq. assert (existsb (same_row r) t = true); [|congruence].
  apply existsb_exists. exists e. split; [exact He | apply same_row_true; congruence].
Qed.

(** A new row is the last. *)
Lemma upsert_fresh {E} `{Row E} (t : list E) r : existsb (same_row r) t = false -> upsert r t = t ++ [r].
Proof. intros Hf. unfold upsert. rewrite Hf. reflexivity. Qed.

Lemma reverse_of_reverses o id reason e t :
  saved_as (TransactionRollbackService.reverse_of o id reason) t -> row_id o = id -> e = t -> reverses o e.
Proof. intros Ht <- ->. destruct Ht; repeat split. Qed.

Lemma rollback_keeps_ok id reason admin : keeps (invariant books_ok) (TransactionRollbackService.rollback id reason admin).
Proof.
  apply keeps_wp. intros s. unfold invariant, TransactionRollbackService.rollback.
  wp_step. wp_step; [auto|]. destruct (List.find _ _) as [o|] eqn:Ho; [|wp_step; auto].
  destruct (find_live_some _ _ _ Ho) as (Hino & _ & Hoid). apply String.eqb_eq in Hoid.
  wp_step. apply wp_throw_if; [auto|]. intros Hsucc. apply negb_false_iff, TxStatus.TxStatus_eqb_eq in Hsucc.
  wp_step. wp_step; [auto|]. wp_step. apply wp_throw_if; [auto|]. intros Hnone.
  match type of Hnone with (match ?f with _ => _ end) = _ => destruct f as [r0|] eqn:Hr0; [discriminate|] end. clear Hnone.
  wp_step. apply wp_save; [intros; env_norm; auto|]. intros e t He Ht _ _ Hnew. env_norm.
  assert (Hgrow : books_ok s -> keys_ok (upsert t s.(BulkStore.transactions)) /\
    (forall x, In x s.(BulkStore.transactions) -> In x (upsert t s.(BulkStore.transactions)))).
  { intros [Hk _ _ _]. match type of Hnew with existsb (same_row ?x) _ = _ -> _ =>
      destruct (Hnew (keyless_not_in _ x Hk eq_refl)) as [Hid Hfresh] end. apply new_row_keys; assumption. }
  assert (Htok : books_ok s -> rollbacks_ok (upsert t s.(BulkStore.transactions)) s.(BulkStore.rollbacks)).
  { intros Hok. destruct (Hgrow Hok) as [Hk Hin]. destruct Hok as [_ H2 H3 H4]. split; [exact Hk | exact H2 | exact H3|].
    intros r Hr. destruct (H4 r Hr) as (o' & t' & A & B & C & D & F). exists o', t'. auto 8. }
  assert (Hrev : reverses o t) by (eapply reverse_of_reverses; eauto).
  wp_step. apply wp_save; [intros; apply Htok; assumption|]. intros e2 r He2 Hr _ _ Hnewr. env_norm. wp_step.
  intros Hok. destruct (Hgrow Hok) as [_ Hin]. destruct (Htok Hok) as [H1 H2 H3 H4].
  match type of Hnewr with existsb (same_row ?x) _ = _ -> _ =>
    destruct (Hnewr (keyless_not_in _ x H2 eq_refl)) as [Hrid Hrfresh] end.
  change (existsb (same_row r) s.(BulkStore.rollbacks) = false) in Hrfresh.
  unfold books_ok. simpl. change (rollbacks_ok (upsert t s.(BulkStore.transactions)) (upsert r s.(BulkStore.rollbacks))).
  assert (Hcols : r.(TransactionRollbackEntity.originalTransactionId) = id /\
    r.(TransactionRollbackEntity.rollbackTransactionId) = row_id t) by (destruct Hr; split; reflexivity).
  destruct Hcols as [Hro Hrt]. destruct (new_row_keys _ _ H2 Hrid Hrfresh) as [Hkr _]. split; [exact H1 | exact Hkr | |].
  - rewrite (upsert_fresh _ _ Hrfresh), List.map_app. apply NoDup_app. split; [exact H3|]. split; [|apply NoDup_singleton].
    intros x Hx Hx'. simpl in Hx'. apply list_elem_of_singleton in Hx' as ->. rewrite Hro in Hx.
    apply list_elem_of_In, in_map_iff in Hx as (r1 & Hr1 & Hin1). apply (find_none _ _ Hr0) in Hin1. simpl in Hin1.
    unfold TransactionRollbackService.of_original in Hin1. rewrite Hr1, String.eqb_refl in Hin1. discriminate.
  - intros r1 Hin1. apply in_upsert in Hin1 as [->|[Hin1 _]]; [|apply H4, Hin1].
    exists o, t. rewrite Hro, Hrt. split; [apply Hin, Hino|]. split; [exact Hoid|]. split; [exact Hsucc|].
    split; [apply in_upsert_self|]. split; [reflexivity | exact Hrev].
Qed.

Record RollbackRequest : Type := mkRollback { rr_id : string; rr_reason : option string; rr_admin : string }.
Definition rollback_requests (l : list RollbackRequest) : M Store unit :=
  for_each l (fun r => attempt (TransactionRollbackService.rollback (rr_id r) (rr_reason r) (rr_admin r)) ;;; ret tt).

(** Over any roll backs, whatever fails between them, no transaction has two
    roll-back records, and each record is of a successful transaction and of the
    transaction that reverses it: the opposite amount, the addresses exchanged. *)
Theorem rollbacks_reverse_once l s :
  books_ok s ->
  let s' := (rollback_requests l s).2 in
  NoDup (map TransactionRollbackEntity.originalTransactionId s'.(BulkStore.rollbacks)) /\
  forall r, In r s'.(BulkStore.rollbacks) -> exists o t,
    In o s'.(BulkStore.transactions) /\ row_id o = r.(TransactionRollbackEntity.originalTransactionId) /\
    o.(TransactionEntity.status) = TxStatus.SUCCESS /\
    In t s'.(BulkStore.transactions) /\ row_id t = r.(TransactionRollbackEntity.rollbackTransactionId) /\ reverses o t.
Proof.
  intros Hok s'. assert (Hok' : books_ok s').
  { refine (keeps_for_each (invariant books_ok) l _ _ s Hok). intros r _.
    apply keeps_bind; [typeclasses eauto | apply keeps_attempt, rollback_keeps_ok | intros; apply keeps_ret; typeclasses eauto]. }
  split; apply Hok'.
Qed.

(** ** Worked examples *)

Definition bulk_env (fault : nat -> option exn) : Env :=
  mkEnv (fun n => 1700000000000 + Z.of_nat n) 0 fault 0
        (fun n => ("u"%char, string_of_N (N.of_nat n))) 0 (fun _ => num_of_ratio 1 2) 0 [].
Definition item (id : string) (amount : Z) : Item :=
  BulkPaymentItemEntity.mk id "b1" ("to-" +:+ id) (num_of_Z amount) BulkPaymentItemStatus.pending None None 0 0.
Definition batch : Payment := BulkPaymentEntity.mk "b1" "ada" BulkPaymentStatus.pending 2 0 0 (num_of_Z 30) "USD" 0 0 None.
Definition paid_tx : TxRow :=
  (create_tx (num_of_Z 7) "USD" TxStatus.SUCCESS "" None None (Some "to") (Some "from") None) <| TransactionEntity.id := "t1" |>.
Definition bulk_start (fault : nat -> option exn) : Store :=
  BulkStore.mk (bulk_env fault) [paid_tx] [] [item "i1" 10; item "i2" 20] [batch] ["b1"].

(** The fourth call, the transaction of the first item, fails: the second is paid. *)
Definition one_fault (n : nat) (k : nat) : option exn := if Nat.eqb k n then Some (JsError "Error" "connection lost") else None.

Lemma bulk_payment_accounts_for_every_item_witness :
  match BulkPaymentsService.processBulkPayment "b1" (bulk_start (one_fault 3)) with
  | (inr _, s') => exists p, In p s'.(BulkStore.payments) /\ row_id p = "b1" /\
      p.(BulkPaymentEntity.successCount) + p.(BulkPaymentEntity.failCount) = 2
  | (inl x, _) => env_fault (env_of (bulk_start (one_fault 3))) x
  end.
Proof.
  assert (Hki : keys_ok ((bulk_start (one_fault 3)).(BulkStore.items))).
  { split; [apply NoDup_ListNoDup; repeat constructor; simpl; intuition discriminate | repeat constructor; discriminate]. }
  assert (Hkt : keys_ok ((bulk_start (one_fault 3)).(BulkStore.transactions))).
  { split; [apply NoDup_singleton | repeat constructor; discriminate]. }
  assert (Hnp : NoDup (map row_id (bulk_start (one_fault 3)).(BulkStore.payments))) by apply NoDup_singleton.
  pose proof (bulk_payment_accounts_for_every_item "b1" batch (bulk_start (one_fault 3)) Hki Hkt Hnp (or_introl eq_refl) eq_refl) as Hw.
  destruct (BulkPaymentsService.processBulkPayment "b1" (bulk_start (one_fault 3))) as [[x|u] s'] eqn:E.
  - exact (wp_run_exn _ _ _ _ _ _ Hw E).
  - destruct (wp_run_ok _ _ _ _ _ _ Hw E) as (p & Hp & Hid & _ & Hsum & _). exists p. auto.
Defined.

Example partial_batch :
  match BulkPaymentsService.processBulkPayment "b1" (bulk_start (one_fault 3)) with
  | (inr _, s') => map (fun p => (p.(BulkPaymentEntity.status), p.(BulkPaymentEntity.successCount))) s'.(BulkStore.payments) =
                   [(BulkPaymentStatus.partial, 1)]
  | (inl _, _) => False
  end.
Proof. vm_compute. reflexivity. Qed.

(** The item's own write fails after its transaction was stored: the item is
    marked failed, and its transaction stays. *)
Example failed_item_has_a_transaction :
  match BulkPaymentsService.processBulkPayment "b1" (bulk_start (one_fault 4)) with
  | (inr _, s') => (map BulkPaymentItemEntity.status s'.(BulkStore.items), length s'.(BulkStore.transactions)) =
                   ([BulkPaymentItemStatus.failed; BulkPaymentItemStatus.success], 3%nat)
  | (inl _, _) => False
  end.
Proof. vm_compute. reflexivity. Qed.

Lemma rollbacks_reverse_once_witness :
  NoDup (map TransactionRollbackEntity.originalTransactionId
    (rollback_requests [mkRollback "t1" None "root"; mkRollback "t1" None "root"] (bulk_start (fun _ => None))).2.(BulkStore.rollbacks)).
Proof.
  refine (proj1 (rollbacks_reverse_once [mkRollback "t1" None "root"; mkRollback "t1" None "root"] (bulk_start (fun _ => None)) _)).
  split; [split; [apply NoDup_singleton | repeat constructor; discriminate] | split; constructor | constructor | intros r []].
Defined.

(** When the record of a roll back is lost, the transaction is rolled back again. *)
Example lost_record_rolls_back_twice :
  map TransactionEntity.rollbackOf
    (rollback_requests [mkRollback "t1" None "root"; mkRollback "t1" None "root"] (bulk_start (one_fault 3))).2.(BulkStore.transactions) =
    [None; Some "t1"; Some "t1"].
Proof. vm_compute. reflexivity. Qed.
