(* ===== verification/Jobs.v ===== *)
(** scheduled-jobs/scheduled-jobs.service.ts, the jobs under a lock in Redis that
    fail overdue transactions and purge codes and tokens, and archival/, the
    nightly move of old rows to archive tables.  The numbers of the configuration
    are integers here. *)
From S2P Require Import Prelude JsNumber Effects RepositoryLaws JsData ThirdParty Entities World CoreCalls Lifecycle.
From S2P Require Otp PasswordReset.
Local Open Scope Z_scope.

(** [locks]: the keys of Redis with the time they expire at.  The archives hold
    rows with the time they were archived at. *)
Module JobsStore.
Record JobsStore : Type := mk {
  core_world : World;
  otps : list Otp.Otp.Otp;
  tokens : list PasswordReset.PasswordResetToken.PasswordResetToken;
  locks : gmap string Z;
  transactions_archive : list (Transaction.Transaction * Z);
  audit_logs_archive : list (AuditLog.AuditLog * Z)
}.
#[global] Instance settable : Settable JobsStore := fun r =>
  mk r.(core_world) r.(otps) r.(tokens) r.(locks) r.(transactions_archive)
     r.(audit_logs_archive).
End JobsStore.

#[global] Program Instance JobsStore_world : HasWorld JobsStore.JobsStore := {|
  world_of := JobsStore.core_world;
  set_world w s := s <| JobsStore.core_world := w |>
|}.

Notation Store := JobsStore.JobsStore.
Notation Tx := Transaction.Transaction.
Notation Token := PasswordReset.PasswordResetToken.PasswordResetToken.

#[global] Program Instance JobsStore_otps : Table Store Otp.Otp.Otp := {|
  rows := JobsStore.otps;
  set_rows t w := w <| JobsStore.otps := t |>
|}.

#[global] Program Instance JobsStore_tokens : Table Store Token := {|
  rows := JobsStore.tokens;
  set_rows t w := w <| JobsStore.tokens := t |>
|}.

(** ** Locks in Redis *)

(** [redis.set(key, '1', 'PX', ttl, 'NX')]: taken unless it is held and has not
    expired. *)
Definition redis_set_nx (key : string) (ttl : Z) : M Store bool :=
  db_call ;;;
  let* now := date_now in
  let* locks := gets JobsStore.locks in
  if match locks !! key with Some t => now <? t | None => false end then ret false
  else modify (fun s => s <| JobsStore.locks := <[key := now + ttl]> s.(JobsStore.locks) |>) ;;; ret true.

(** [redis.del(key)], whoever holds it. *)
Definition redis_del (key : string) : M Store unit :=
  db_call ;;; modify (fun s => s <| JobsStore.locks := delete key s.(JobsStore.locks) |>).

Module ScheduledJobsService.
Section Service.
Variables lockTtlMs pendingTimeoutMinutes : Z.

Definition acquireJobLock (jobName : string) : M Store bool :=
  redis_set_nx ("lock:scheduled-job:" +:+ jobName) lockTtlMs.
Definition releaseJobLock (jobName : string) : M Store unit :=
  redis_del ("lock:scheduled-job:" +:+ jobName).

Definition lock_key (tx : Tx) : string := "lock:tx-processing:" +:+ tx.(Transaction.id).

(** [status = 'pending' AND "pendingTimeoutAt" < cutoff]: false of a null. *)
Definition timed_out (cutoff : Z) (tx : Tx) : bool :=
  TransactionStatus.eqb tx.(Transaction.status) TransactionStatus.PENDING &&
  match tx.(Transaction.pendingTimeoutAt) with Some t => t <? cutoff | None => false end.

Definition fail_one (tx : Tx) : M Store unit :=
  let* acquired := redis_set_nx (lock_key tx) lockTtlMs in
  if negb acquired then ret tt
  else
    try_finally
      (core (save (tx <| Transaction.status := TransactionStatus.FAILED |>)) ;;; ret tt)
      (redis_del (lock_key tx)).

Definition reconcilePendingTransactions : M Store unit :=
  let* acquiredJobLock := acquireJobLock "reconcile-pending-txs" in
  if negb acquiredJobLock then ret tt
  else
    try_finally
      (let* now := date_now in
       let cutoff := now - pendingTimeoutMinutes * 60 * 1000 in
       let* timedOut := core (find_all (timed_out cutoff)) in
       for_each timedOut fail_one)
      (releaseJobLock "reconcile-pending-txs").

Definition purgeSensitiveAuthArtifacts : M Store unit :=
  let* now := date_now in
  let otpCutoff := now - 24 * 60 * 60 * 1000 in
  let passwordResetCutoff := now - 30 * 24 * 60 * 60 * 1000 in
  let expiredTokenCutoff := now - 7 * 24 * 60 * 60 * 1000 in
  delete_rows (fun o : Otp.Otp.Otp => o.(Otp.Otp.expiresAt) <? otpCutoff) ;;;
  delete_rows (fun t : Token => t.(PasswordReset.PasswordResetToken.createdAt) <? passwordResetCutoff) ;;;
  delete_rows (fun t : Token => t.(PasswordReset.PasswordResetToken.used) &&
                                (t.(PasswordReset.PasswordResetToken.createdAt) <? expiredTokenCutoff)) ;;;
  ret tt.
End Service.
End ScheduledJobsService.

(** ** ArchivalService *)

(** A source table and its archive. *)
Record ArchivalTarget (E : Type) : Type := mkTarget {
  source : World -> list E;
  set_source : list E -> World -> World;
  archive : Store -> list (E * Z);
  set_archive : list (E * Z) -> Store -> Store;
  dateColumn : E -> Z
}.
Arguments source {E}. Arguments set_source {E}. Arguments archive {E}. Arguments set_archive {E}. Arguments dateColumn {E}.

Definition TRANSACTIONS : ArchivalTarget Tx := {|
  source := World.transactions; set_source t w := w <| World.transactions := t |>;
  archive := JobsStore.transactions_archive; set_archive t s := s <| JobsStore.transactions_archive := t |>;
  dateColumn := Transaction.createdAt
|}.
Definition AUDIT_LOGS : ArchivalTarget AuditLog.AuditLog := {|
  source := World.audit_logs; set_source t w := w <| World.audit_logs := t |>;
  archive := JobsStore.audit_logs_archive; set_archive t s := s <| JobsStore.audit_logs_archive := t |>;
  dateColumn := AuditLog.createdAt
|}.

Module ArchivalService.
Section Service.
Context `{ConfigService}.
(** The length of the array that [dataSource.query] answers when the statement
    inserted [n] rows. *)
Variable answered : nat -> Z.

Definition int_setting (key : string) (d : Z) : Z :=
  match config_number key with
  | Some x => match num_fraction x with Some (n, e) => Z.quot n (Zpos e) | None => d end
  | None => d
  end.

Section Target.
Context {E : Type} `{Row E} (target : ArchivalTarget E).

Definition older (cutoff : Z) (e : E) : bool := dateColumn target e <? cutoff.

(** [SELECT id ... WHERE date < $1 LIMIT $2]. *)
Definition batch_ids (cutoff batchSize : Z) (t : list E) : list string :=
  map row_id (firstn (Z.to_nat batchSize) (List.filter (older cutoff) t)).

Definition in_batch (ids : list string) (e : E) : bool := existsb (String.eqb (row_id e)) ids.

(** The statement: the rows of the batch leave their table for the archive. *)
Definition move_batch (cutoff batchSize : Z) : M Store Z :=
  db_call ;;;
  let* now := date_now in
  let* t := gets (fun s => source target (world_of s)) in
  let ids := batch_ids cutoff batchSize t in
  let moved := List.filter (in_batch ids) t in
  modify (fun s =>
    set_archive target (archive target s ++ map (fun e => (e, now)) moved)
      (set_world (set_source target (List.filter (fun e => negb (in_batch ids e)) t) (world_of s)) s)) ;;;
  ret (answered (length moved)).

(** The do-while; [None] when the rounds run out. *)
Fixpoint archive_loop (rounds : nat) (cutoff batchSize archived : Z) : M Store (option Z) :=
  match rounds with
  | O => ret None
  | S rounds' =>
      let* batch := move_batch cutoff batchSize in
      if batch =? batchSize then archive_loop rounds' cutoff batchSize (archived + batch)
      else ret (Some (archived + batch))
  end.

Definition ensureArchiveTable : M Store unit := db_call.

Definition archiveTable (rounds : nat) : M Store (option Z) :=
  let thresholdMonths := int_setting "archive.thresholdMonths" 12 in
  let batchSize := int_setting "archive.batchSize" 500 in
  let* now := date_now in
  let cutoff := add_months (- thresholdMonths) now in
  ensureArchiveTable ;;;
  archive_loop rounds cutoff batchSize 0.
End Target.

(** [None] when the rounds ran out for one of the targets. *)
Definition archiveAll (rounds : nat) : M Store (option unit) :=
  if default false (config_bool "archive.enabled") then
    let* a := archiveTable TRANSACTIONS rounds in
    match a with
    | None => ret None
    | Some _ =>
        let* b := archiveTable AUDIT_LOGS rounds in
        ret (option_map (fun _ => tt) b)
    end
  else ret (Some tt).

(** archival.job.ts *)
Definition runArchival (rounds : nat) : M Store unit := attempt (archiveAll rounds) ;;; ret tt.
End Service.
End ArchivalService.

(** ** Overdue transactions *)

Section Overdue.
Variables lockTtlMs pendingTimeoutMinutes : Z.

(** The only change of a transaction: pending, with a deadline, it is failed. *)
Definition failed_by (tx tx' : Tx) : Prop :=
  tx.(Transaction.status) = TransactionStatus.PENDING /\ tx.(Transaction.pendingTimeoutAt) <> None /\
  exists u, tx' = touched u (tx <| Transaction.status := TransactionStatus.FAILED |>).

Definition txs_evolve (s s' : Store) : Prop :=
  evolves (S:=World) (E:=Tx) (fun _ => False) failed_by (world_of s) (world_of s').

#[local] Instance txs_evolve_preorder : PreOrder txs_evolve.
Proof.
  split; [intros s Hk; apply evolves_to_refl, Hk|]. intros s1 s2 s3 A B. unfold txs_evolve in *. etransitivity; eassumption.
Qed.

Lemma txs_evolve_same s s' : (world_of s').(World.transactions) = (world_of s).(World.transactions) -> txs_evolve s s'.
Proof. intros E Hk. change (evolves_to (fun _ => False) failed_by (world_of s).(World.transactions) (world_of s').(World.transactions)). rewrite E. apply evolves_to_refl, Hk. Qed.

Definition same_txs (s s' : Store) : Prop :=
  (world_of s').(World.transactions) = (world_of s).(World.transactions) /\ env_step (env_of s) (env_of s').

Lemma redis_set_nx_spec key ttl (s : Store) :
  s.(JobsStore.locks) !! key = None ->
  wp (redis_set_nx key ttl)
    (fun b s' => b = true /\ same_txs s s' /\ exists t, s'.(JobsStore.locks) = <[key := t]> s.(JobsStore.locks))
    (fun _ s' => same_txs s s') s.
Proof.
  intros Hfree. unfold redis_set_nx. wp_step. wp_step; [split; [reflexivity | simpl; assumption]|].
  wp_step. wp_step. wp_step. wp_step. simpl. rewrite Hfree. wp_step. wp_step. wp_step.
  split; [reflexivity|]. split; [split; [reflexivity | simpl; env_chain]|]. eexists. reflexivity.
Qed.

Lemma redis_del_spec key (s : Store) :
  wp (redis_del key)
    (fun _ s' => same_txs s s' /\ s'.(JobsStore.locks) = delete key s.(JobsStore.locks))
    (fun _ s' => same_txs s s') s.
Proof.
  unfold redis_del. wp_step. wp_step; [split; [reflexivity | simpl; assumption]|]. wp_step.
  split; [split; [reflexivity | simpl; assumption] | reflexivity].
Qed.

Lemma wp_try_finally {A} (m : M Store A) f Q X s :
  wp m (fun a s1 => wp f (fun _ s2 => Q a s2) X s1) (fun x s1 => wp f (fun _ s2 => X x s2) X s1) s ->
  wp (try_finally m f) Q X s.
Proof.
  unfold wp, try_finally. destruct (m s) as [[x|a] s1]; intros H; destruct (f s1) as [[y|[]] s2]; exact H.
Qed.

(** A failed transaction is stored under its key. *)
Definition is_failed (id : string) (s : Store) : Prop :=
  exists tx, In tx (world_of s).(World.transactions) /\ row_id tx = id /\ tx.(Transaction.status) = TransactionStatus.FAILED.

Lemma fail_one_spec cutoff tx (s : Store) :
  In tx (world_of s).(World.transactions) -> ScheduledJobsService.timed_out cutoff tx = true ->
  s.(JobsStore.locks) !! ScheduledJobsService.lock_key tx = None ->
  wp (ScheduledJobsService.fail_one lockTtlMs tx)
    (fun _ s' => txs_evolve s s' /\ env_step (env_of s) (env_of s') /\ is_failed (row_id tx) s' /\
       s'.(JobsStore.locks) = s.(JobsStore.locks) /\
       forall t, row_id t <> row_id tx -> In t (world_of s).(World.transactions) -> In t (world_of s').(World.transactions))
    (fun _ s' => txs_evolve s s') s.
Proof.
  intros Hin Hout Hfree. unfold ScheduledJobsService.fail_one. wp_step.
  eapply wp_mono; [apply redis_set_nx_spec, Hfree | |].
  2: { intros x s1 [Hs1 _]. apply txs_evolve_same, Hs1. }
  intros b s1 (-> & [Hs1 He1] & t & Hl1). simpl. apply wp_try_finally. wp_step. apply wp_core.
  assert (Hst : forall u, failed_by tx (touched u (tx <| Transaction.status := TransactionStatus.FAILED |>))).
  { intros u. unfold ScheduledJobsService.timed_out in Hout. apply andb_prop in Hout as [Hp Ht].
    split; [apply TransactionStatus.TransactionStatus_eqb_eq, Hp|]. split; [|eexists; reflexivity].
    destruct (Transaction.pendingTimeoutAt tx); [discriminate | discriminate Ht]. }
  apply (wp_save_step (S:=World) (fun _ => False) failed_by tx); [change (In tx (world_of s1).(World.transactions)); rewrite Hs1; exact Hin | reflexivity | exact Hst | |].
  - intros e x He _. eapply wp_mono; [apply redis_del_spec | |].
    + intros _ s2 [[Hs2 _] _]. apply txs_evolve_same. rewrite Hs2, <- Hs1. reflexivity.
    + intros y s2 [Hs2 _]. apply txs_evolve_same. rewrite Hs2, <- Hs1. reflexivity.
  - intros u w Hev Hrows Hew. wp_step. set (s2 := set_world w s1).
    assert (Hev2 : txs_evolve s s2).
    { etransitivity; [apply txs_evolve_same, Hs1|]. exact Hev. }
    eapply wp_mono; [apply redis_del_spec | |].
    + intros _ s3 [[Hs3 He3] Hl3].
      assert (Hr3 : (world_of s3).(World.transactions) = upsert (touched u (tx <| Transaction.status := TransactionStatus.FAILED |>)) (world_of s).(World.transactions)).
      { rewrite Hs3. change (rows w = upsert (touched u (tx <| Transaction.status := TransactionStatus.FAILED |>)) (world_of s).(World.transactions)).
        rewrite Hrows. change (rows (world_of s1)) with (world_of s1).(World.transactions). rewrite Hs1. reflexivity. }
      split; [etransitivity; [exact Hev2 | apply txs_evolve_same, Hs3]|].
      split; [etransitivity; [exact He1|]; etransitivity; [exact Hew | exact He3]|].
      split; [|split].
      * exists (touched u (tx <| Transaction.status := TransactionStatus.FAILED |>)). rewrite Hr3.
        split; [apply in_upsert_self | split; reflexivity].
      * rewrite Hl3. change s2.(JobsStore.locks) with s1.(JobsStore.locks). rewrite Hl1. apply delete_insert_id, Hfree.
      * intros t0 Hne Ht0. change (In t0 (world_of s3).(World.transactions)). rewrite Hr3. apply in_upsert_other; [exact Ht0 | exact Hne].
    + intros x s3 [Hs3 _]. etransitivity; [exact Hev2 | apply txs_evolve_same, Hs3].
Qed.

Lemma fail_all_spec cutoff l : forall (s : Store),
  NoDup (map row_id l) -> keys_ok ((world_of s).(World.transactions)) ->
  (forall tx, In tx l -> In tx (world_of s).(World.transactions) /\ ScheduledJobsService.timed_out cutoff tx = true /\
     s.(JobsStore.locks) !! ScheduledJobsService.lock_key tx = None) ->
  wp (for_each l (ScheduledJobsService.fail_one lockTtlMs))
    (fun _ s' => txs_evolve s s' /\ env_step (env_of s) (env_of s') /\ s'.(JobsStore.locks) = s.(JobsStore.locks) /\
       (forall tx, In tx l -> is_failed (row_id tx) s') /\
       forall t, ~ In (row_id t) (map row_id l) -> In t (world_of s).(World.transactions) -> In t (world_of s').(World.transactions))
    (fun _ s' => txs_evolve s s') s.
Proof.
  induction l as [|tx l IH]; intros s Hnd Hk Hl; cbn [for_each].
  - apply wp_ret. split; [reflexivity|]. split; [reflexivity|]. split; [reflexivity|]. split; [intros tx [] | auto].
  - apply NoDup_cons in Hnd as [Hni Hnd]. rewrite list_elem_of_In in Hni.
    destruct (Hl tx (or_introl eq_refl)) as (Hin & Hout & Hfree). apply wp_bind.
    eapply wp_mono; [apply (fail_one_spec cutoff tx s Hin Hout Hfree) | | auto].
    intros _ s1 (Hev1 & He1 & Hf1 & Hl1 & Ho1). pose proof (ev_keys _ _ _ _ (Hev1 Hk)) as Hk1.
    eapply wp_mono; [apply (IH s1 Hnd Hk1) | |].
    + intros t Ht. destruct (Hl t (or_intror Ht)) as (Hint & Houtt & Hfreet).
      split; [apply Ho1; [intros E; apply Hni; rewrite <- E; apply in_map, Ht | exact Hint]|]. rewrite Hl1. auto.
    + intros _ s2 (Hev2 & He2 & Hl2 & Hf2 & Ho2).
      split; [etransitivity; eassumption|]. split; [etransitivity; eassumption|]. split; [congruence|]. split.
      * intros t [<-|Ht]; [|apply Hf2, Ht]. destruct Hf1 as (x & Hx & Hid & Hst).
        exists x. split; [apply Ho2; [rewrite Hid; exact Hni | exact Hx] | auto].
      * intros t Ht Hint. apply Ho2; [intros Hi; apply Ht; right; exact Hi|]. apply Ho1; [|exact Hint].
        intros E. apply Ht. left. congruence.
    + intros x s2 Hev2. etransitivity; eassumption.
Qed.

(** A run of the job that gets its lock, with no transaction locked, fails
    every pending transaction whose deadline is older than the timeout, touches
    no other, and leaves every lock free; whatever it throws, a transaction only
    ever changes from pending with a deadline to failed. *)
Theorem overdue_transactions_fail (s : Store) :
  keys_ok ((world_of s).(World.transactions)) -> s.(JobsStore.locks) = ∅ ->
  wp (ScheduledJobsService.reconcilePendingTransactions lockTtlMs pendingTimeoutMinutes)
    (fun _ s' => txs_evolve s s' /\ s'.(JobsStore.locks) = ∅ /\
       exists n, (tick (env_of s) <= n)%nat /\
         let cutoff := clock (env_of s) n - pendingTimeoutMinutes * 60 * 1000 in
         forall tx, In tx (world_of s).(World.transactions) ->
           if live tx && ScheduledJobsService.timed_out cutoff tx then is_failed (row_id tx) s'
           else In tx (world_of s').(World.transactions))
    (fun _ s' => txs_evolve s s') s.
Proof.
  intros Hk Hfree. unfold ScheduledJobsService.reconcilePendingTransactions, ScheduledJobsService.acquireJobLock,
    ScheduledJobsService.releaseJobLock. wp_step.
  set (jobKey := "lock:scheduled-job:" +:+ "reconcile-pending-txs").
  eapply wp_mono; [apply (redis_set_nx_spec jobKey); rewrite Hfree; apply lookup_empty | |].
  2: { intros x s1 [Hs1 _]. apply txs_evolve_same, Hs1. }
  intros b s1 (-> & [Hs1 He1] & t & Hl1). cbn [negb]. apply wp_try_finally. wp_step. apply wp_date_now. intros n e2 He2 Hn.
  wp_step. apply wp_core. wp_step.
  { eapply wp_mono; [apply redis_del_spec | |].
    - intros _ s2 [[Hs2 _] _]. apply txs_evolve_same. rewrite Hs2, <- Hs1. reflexivity.
    - intros y s2 [Hs2 _]. apply txs_evolve_same. rewrite Hs2, <- Hs1. reflexivity. }
  set (cutoff := clock _ n - _). set (l := List.filter _ _).
  match goal with |- wp _ _ _ ?st => set (s2 := st) end.
  assert (Hs2 : (world_of s2).(World.transactions) = (world_of s).(World.transactions)) by exact Hs1.
  assert (Hl2 : s2.(JobsStore.locks) = {[jobKey := t]}) by (change s2.(JobsStore.locks) with s1.(JobsStore.locks); rewrite Hl1, Hfree; reflexivity).
  assert (He2' : env_step (env_of s) (env_of s2)).
  { etransitivity; [exact He1|]. etransitivity; [exact He2|]. assumption. }
  assert (Hl : l = List.filter (fun tx => live tx && ScheduledJobsService.timed_out cutoff tx) (world_of s).(World.transactions)).
  { unfold l. f_equal. exact Hs1. }
  assert (Hc : cutoff = clock (env_of s) n - pendingTimeoutMinutes * 60 * 1000).
  { unfold cutoff. rewrite (es_clock _ _ He1). reflexivity. }
  clearbody s2 l.
  eapply wp_mono; [apply (fail_all_spec cutoff l s2) | |].
  - rewrite Hl. apply NoDup_filter_ids, Hk.
  - rewrite Hs2. exact Hk.
  - intros tx Htx. rewrite Hl in Htx. apply filter_In in Htx as [Hin Hb]. apply andb_prop in Hb as [_ Hb].
    split; [rewrite Hs2; exact Hin|]. split; [exact Hb|]. rewrite Hl2. apply lookup_singleton_ne. discriminate.
  - intros _ s3 (Hev3 & _ & Hl3 & Hf3 & Ho3).
    assert (Hev : txs_evolve s s3) by (etransitivity; [apply txs_evolve_same, Hs2 | exact Hev3]).
    eapply wp_mono; [apply redis_del_spec | |].
    + intros _ s4 [[Hs4 _] Hl4]. split; [etransitivity; [exact Hev | apply txs_evolve_same, Hs4]|].
      split; [rewrite Hl4, Hl3, Hl2; apply delete_singleton_eq|].
      exists n. split; [pose proof (es_tick _ _ He1); lia|]. rewrite <- Hc. intros tx Htx.
      destruct (live tx && ScheduledJobsService.timed_out cutoff tx) eqn:Hb.
      * destruct (Hf3 tx) as (x & Hx & Hid & Hst); [rewrite Hl; apply filter_In; auto|].
        exists x. rewrite Hs4. auto.
      * rewrite Hs4. apply Ho3; [|rewrite Hs2; exact Htx]. intros Hi. apply in_map_iff in Hi as (y & Hid & Hy).
        rewrite Hl in Hy. apply filter_In in Hy as [Hy Hby].
        rewrite (NoDup_row_id_inj _ y tx (proj1 Hk) Hy Htx Hid) in Hby. congruence.
    + intros x s4 [Hs4 _]. etransitivity; [exact Hev | apply txs_evolve_same, Hs4].
  - intros x s3 Hev3. eapply wp_mono; [apply redis_del_spec | |].
    + intros _ s4 [[Hs4 _] _]. etransitivity; [apply txs_evolve_same, Hs2|]. etransitivity; [exact Hev3 | apply txs_evolve_same, Hs4].
    + intros y s4 [Hs4 _]. etransitivity; [apply txs_evolve_same, Hs2|]. etransitivity; [exact Hev3 | apply txs_evolve_same, Hs4].
Qed.
End Overdue.

(** ** Archiving *)

Section Archiving.
Context {E : Type} `{Row E} (target : ArchivalTarget E).
Variable answered : nat -> Z.

(** The target's accessors are those of a table and of an archive. *)
Class TargetLaws : Prop := {
  source_set : forall t w, source target (set_source target t w) = t;
  source_env : forall e w, source target (set_env e w) = source target w;
  set_source_env : forall t w, World.env (set_source target t w) = World.env w;
  archive_set : forall t s, archive target (set_archive target t s) = t;
  archive_world : forall w s, archive target (set_world w s) = archive target s;
  set_archive_world : forall t s, world_of (set_archive target t s) = world_of s
}.
Context `{TargetLaws}.

Definition rows_of (s : Store) : list E := source target (world_of s).

(** Some rows, all of them older, went from the table to the archive; the others
    kept their order. *)
Definition archived (cutoff : Z) (moved : list E) (s s' : Store) : Prop :=
  Permutation (rows_of s' ++ moved) (rows_of s) /\ sublist (rows_of s') (rows_of s) /\
  Forall (fun e => ArchivalService.older target cutoff e = true) moved /\
  map fst (archive target s') = map fst (archive target s) ++ moved.

Lemma archived_refl cutoff s s' :
  rows_of s' = rows_of s -> archive target s' = archive target s -> archived cutoff [] s s'.
Proof. intros E1 E2. unfold archived. rewrite E1, E2, !app_nil_r. split; [reflexivity|]. split; [reflexivity|]. split; [constructor | reflexivity]. Qed.

Lemma archived_trans cutoff m1 m2 s1 s2 s3 :
  archived cutoff m1 s1 s2 -> archived cutoff m2 s2 s3 -> archived cutoff (m1 ++ m2) s1 s3.
Proof.
  intros (A1 & A2 & A3 & A4) (B1 & B2 & B3 & B4). split; [|split; [|split]].
  - rewrite <- A1, <- B1, <- app_assoc. apply Permutation_app_head, Permutation_app_comm.
  - etransitivity; eassumption.
  - apply Forall_app; auto.
  - rewrite B4, A4, app_assoc. reflexivity.
Qed.

Lemma filter_split_perm {A} (p : A -> bool) l :
  Permutation (List.filter (fun x => negb (p x)) l ++ List.filter p l) l.
Proof.
  induction l as [|x l IH]; simpl; [reflexivity|]. destruct (p x); simpl.
  - rewrite <- Permutation_middle. apply perm_skip, IH.
  - apply perm_skip, IH.
Qed.

Lemma Permutation_filter_bool {A} (p : A -> bool) l l' :
  Permutation l l' -> Permutation (List.filter p l) (List.filter p l').
Proof.
  intros Hp. induction Hp as [|x l l' _ IH|x y l|l1 l2 l3 _ IH1 _ IH2]; simpl.
  - reflexivity.
  - destruct (p x); [apply perm_skip, IH | exact IH].
  - destruct (p x), (p y); [apply perm_swap | reflexivity..].
  - etransitivity; eassumption.
Qed.

Lemma filter_all {A} (p : A -> bool) l : (forall x, In x l -> p x = true) -> List.filter p l = l.
Proof.
  induction l as [|x l IH]; intros Hp; [reflexivity|]. simpl. rewrite (Hp x) by (left; reflexivity).
  f_equal. apply IH. intros y Hy. apply Hp. right. exact Hy.
Qed.

Lemma filter_sublist {A} (p : A -> bool) l : sublist (List.filter p l) l.
Proof. induction l as [|x l IH]; simpl; [constructor|]. destruct (p x); constructor; exact IH. Qed.

(** With distinct keys the batch is the first rows that are older. *)
Lemma in_batch_iff cutoff size (t : list E) e :
  NoDup (map row_id t) -> In e t ->
  ArchivalService.in_batch (ArchivalService.batch_ids target cutoff size t) e = true <->
  In e (firstn (Z.to_nat size) (List.filter (ArchivalService.older target cutoff) t)).
Proof.
  intros Hnd He. unfold ArchivalService.in_batch, ArchivalService.batch_ids. rewrite existsb_exists. split.
  - intros (i & Hi & Heq). apply in_map_iff in Hi as (x & <- & Hx). apply String.eqb_eq in Heq.
    assert (Hxt : In x t) by (apply in_firstn, filter_In in Hx; apply Hx).
    rewrite (NoDup_row_id_inj t e x Hnd He Hxt Heq). exact Hx.
  - intros Hin. exists (row_id e). split; [apply in_map, Hin | apply String.eqb_refl].
Qed.

Lemma NoDup_sublist_ids (l t : list E) : sublist l t -> NoDup (map row_id t) -> NoDup (map row_id l).
Proof.
  intros Hs. induction Hs as [|x l t Hs IH|x l t Hs IH]; [auto | |]; simpl; intros Hnd; apply NoDup_cons in Hnd as [Hx Hnd]; [|auto].
  apply NoDup_cons. split; [|auto]. rewrite list_elem_of_In in *. intros Hin. apply Hx.
  apply in_map_iff in Hin as (y & Hy & Hin). apply in_map_iff. exists y. split; [exact Hy|].
  apply list_elem_of_In. eapply sublist_subseteq; [exact Hs | apply list_elem_of_In, Hin].
Qed.

Lemma firstn_sublist {A} n (l : list A) : sublist (firstn n l) l.
Proof. revert n. induction l as [|x l IH]; intros [|n]; simpl; try constructor; auto using sublist_nil_l. Qed.

Lemma same_length_ids (l l' : list E) :
  NoDup (map row_id l) -> NoDup (map row_id l') -> (forall e, In e l <-> In e l') -> length l = length l'.
Proof.
  intros Hl Hl' Hiff. apply Permutation_length. apply NoDup_Permutation.
  - apply (NoDup_fmap_1 row_id). exact Hl.
  - apply (NoDup_fmap_1 row_id). exact Hl'.
  - intros e. rewrite !list_elem_of_In. apply Hiff.
Qed.

Lemma moved_length cutoff size (t : list E) :
  NoDup (map row_id t) ->
  length (List.filter (ArchivalService.in_batch (ArchivalService.batch_ids target cutoff size t)) t) =
  Nat.min (Z.to_nat size) (length (List.filter (ArchivalService.older target cutoff) t)).
Proof.
  intros Hnd. rewrite <- length_firstn. apply same_length_ids.
  - apply NoDup_filter_ids, Hnd.
  - eapply NoDup_sublist_ids; [|exact Hnd]. etransitivity; [apply firstn_sublist | apply filter_sublist].
  - intros e. rewrite filter_In. split.
    + intros [He Hb]. apply (in_batch_iff cutoff size t e Hnd He), Hb.
    + intros Hin. assert (He : In e t) by (apply in_firstn, filter_In in Hin; apply Hin).
      split; [exact He | apply (in_batch_iff cutoff size t e Hnd He), Hin].
Qed.

Lemma move_batch_spec cutoff size (s : Store) :
  NoDup (map row_id (rows_of s)) ->
  wp (ArchivalService.move_batch answered target cutoff size)
    (fun n s' => exists moved, archived cutoff moved s s' /\ n = answered (length moved) /\
       length moved = Nat.min (Z.to_nat size) (length (List.filter (ArchivalService.older target cutoff) (rows_of s))) /\
       env_step (env_of s) (env_of s'))
    (fun x s' => archived cutoff [] s s' /\ env_fault (env_of s) x) s.
Proof.
  intros Hnd. unfold ArchivalService.move_batch. wp_step. wp_step.
  - split; [|assumption]. apply archived_refl; [apply source_env | apply archive_world].
  - wp_step. wp_step. wp_step. wp_step. wp_step. wp_step. wp_step.
    set (t := source target _) in *.
    assert (Ht : t = rows_of s).
    { unfold t, rows_of. change (source target (world_of (set_env e'0 s)) = source target (world_of s)).
      apply source_env. }
    clearbody t. subst t. set (ids := ArchivalService.batch_ids _ _ _ _).
    set (moved := List.filter (ArchivalService.in_batch ids) (rows_of s)). exists moved.
    set (kept := List.filter (fun e => negb (ArchivalService.in_batch ids e)) (rows_of s)) in *.
    match goal with |- archived _ _ _ ?st /\ _ => set (s' := st) end.
    assert (Hrows : rows_of s' = kept) by (unfold s', rows_of; rewrite set_archive_world, world_of_set_world; apply source_set).
    assert (Harc : map fst (archive target s') = map fst (archive target s) ++ moved).
    { unfold s'. rewrite archive_set, List.map_app, map_map, List.map_id. f_equal. f_equal.
      change (archive target (set_world (set_env e'0 (world_of s)) s) = archive target s). apply archive_world. }
    assert (Henv : env_of s' = e'0).
    { change (env_of s') with (World.env (world_of s')). unfold s'.
      rewrite set_archive_world, world_of_set_world, set_source_env. reflexivity. }
    split; [|split; [reflexivity|split; [apply moved_length, Hnd | rewrite Henv; env_chain]]].
    split; [rewrite Hrows; apply filter_split_perm|]. split; [rewrite Hrows; apply filter_sublist|]. split; [|exact Harc].
    apply List.Forall_forall. intros e He. unfold moved in He. apply filter_In in He as [He Hb].
    apply (in_batch_iff cutoff size _ e Hnd He), in_firstn, filter_In in Hb. apply Hb.
Qed.

(** Rounds enough for every row of the table are enough. *)
Lemma archive_loop_spec cutoff size rounds : forall total (s : Store),
  1 <= size -> (forall n, answered n <= Z.of_nat n) -> NoDup (map row_id (rows_of s)) ->
  (length (rows_of s) < rounds)%nat ->
  wp (ArchivalService.archive_loop answered target rounds cutoff size total)
    (fun r s' => r <> None /\ exists moved, archived cutoff moved s s' /\
       ((forall n, answered n = Z.of_nat n) -> forall e, In e (rows_of s') -> ArchivalService.older target cutoff e = false) /\
       ((forall n, answered n = 0) -> length moved =
          Nat.min (Z.to_nat size) (length (List.filter (ArchivalService.older target cutoff) (rows_of s)))))
    (fun x s' => (exists moved, archived cutoff moved s s') /\ env_fault (env_of s) x) s.
Proof.
  induction rounds as [|rounds IH]; intros total s Hsize Hans Hnd Hlt; [lia|]. cbn [ArchivalService.archive_loop].
  apply wp_bind. eapply wp_mono; [apply move_batch_spec, Hnd | |].
  2: { intros x s1 [Ha Hx]. split; [eauto | exact Hx]. }
  intros n s1 (moved & Harc & -> & Hlen & He1).
  destruct (Z.eqb_spec (answered (length moved)) size) as [Heq|Hne].
  - assert (Hm : (1 <= length moved)%nat) by (specialize (Hans (length moved)); lia).
    assert (Hshort : (length (rows_of s1) < length (rows_of s))%nat).
    { destruct Harc as (Hp & _). apply Permutation_length in Hp. rewrite length_app in Hp. lia. }
    assert (Hnd1 : NoDup (map row_id (rows_of s1))) by (eapply NoDup_sublist_ids; [apply Harc | exact Hnd]).
    eapply wp_mono; [apply (IH (total + answered (length moved)) s1); [assumption | assumption | assumption | lia] | |].
    + intros r s2 (Hr & moved2 & Harc2 & Hnone & Hone). split; [exact Hr|]. exists (moved ++ moved2).
      split; [eapply archived_trans; eassumption|]. split; [exact Hnone|].
      intros Hzero. rewrite Hzero in Heq. lia.
    + intros x s2 [(moved2 & Harc2) Hx]. split; [eexists; eapply archived_trans; eassumption|].
      eapply env_step_fault; eassumption.
  - apply wp_ret. split; [discriminate|]. exists moved. split; [exact Harc|]. split; [|intros _; exact Hlen].
    intros Hfull e He. rewrite Hfull in Hne. destruct Harc as (Hp & Hsub & Hold & _).
    destruct (ArchivalService.older target cutoff e) eqn:Ho; [|reflexivity]. exfalso.
    assert (Hall : length moved = length (List.filter (ArchivalService.older target cutoff) (rows_of s))) by lia.
    assert (Hperm : Permutation (List.filter (ArchivalService.older target cutoff) (rows_of s1 ++ moved))
                      (List.filter (ArchivalService.older target cutoff) (rows_of s))) by (apply Permutation_filter_bool, Hp).
    apply Permutation_length in Hperm. rewrite List.filter_app, length_app in Hperm.
    rewrite (filter_all _ moved) in Hperm by (rewrite List.Forall_forall in Hold; exact Hold).
    assert (Hin : In e (List.filter (ArchivalService.older target cutoff) (rows_of s1))) by (apply filter_In; auto).
    destruct (List.filter (ArchivalService.older target cutoff) (rows_of s1)); [destruct Hin | simpl in Hperm; lia].
Qed.

(** C34 The archiving of a table ends, within one round per row and one more,
    whatever the driver answers up to the number of rows moved, when the batch is
    not empty.  It loses nothing and moves only rows older than so many months
    before the clock as the configuration says - that is, by at least 28 days for
    each of them - also when a call fails; it moves all of them when the driver
    answers the rows it moved, and one batch when it answers none. *)
Theorem archiving_terminates `{ConfigService} (s : Store) :
  let size := ArchivalService.int_setting "archive.batchSize" 500 in
  let months := ArchivalService.int_setting "archive.thresholdMonths" 12 in
  let now := clock (env_of s) (tick (env_of s)) in
  let cutoff := add_months (- months) now in
  let aged e := 0 <= months -> dateColumn target e < now - 28 * months * MS_PER_DAY in
  1 <= size -> (forall n, answered n <= Z.of_nat n) -> NoDup (map row_id (rows_of s)) ->
  wp (ArchivalService.archiveTable answered target (S (length (rows_of s))))
    (fun r s' => r <> None /\ exists moved, archived cutoff moved s s' /\ Forall aged moved /\
       ((forall n, answered n = Z.of_nat n) -> forall e, In e (rows_of s') -> ArchivalService.older target cutoff e = false) /\
       ((forall n, answered n = 0) -> length moved =
          Nat.min (Z.to_nat size) (length (List.filter (ArchivalService.older target cutoff) (rows_of s)))))
    (fun x s' => (exists moved, archived cutoff moved s s' /\ Forall aged moved) /\ env_fault (env_of s) x) s.
Proof.
  intros size months now cutoff aged Hsize Hans Hnd.
  assert (Haged : forall moved s s', archived cutoff moved s s' -> Forall aged moved).
  { intros moved s0 s' (_ & _ & Hold & _). eapply List.Forall_impl; [|exact Hold]. intros e He Hm.
    apply Z.ltb_lt in He. pose proof (add_months_back months now Hm). unfold cutoff in He. lia. }
  unfold ArchivalService.archiveTable, ArchivalService.ensureArchiveTable. fold size months.
  assert (Henv : forall e, rows_of (set_env e s) = rows_of s /\ archive target (set_env e s) = archive target s)
    by (intros e; split; [apply source_env | apply archive_world]).
  apply wp_bind, wp_date_now_exact. fold now cutoff. pose proof (next_tick_step (env_of s)) as Htick.
  set (e0 := next_tick (env_of s)) in *. clearbody e0. wp_step. wp_step.
  { split; [|eapply env_step_fault; eassumption]. exists []. split; [apply archived_refl; apply Henv | constructor]. }
  match goal with |- context [set_env ?e s] => set (s1 := set_env e s); destruct (Henv e) as [Hr Ha];
    assert (He1 : env_step (env_of s) (env_of s1)) by (unfold s1; env_norm; etransitivity; eassumption) end.
  fold s1 in Hr, Ha. clearbody s1.
  assert (Hnd1 : NoDup (map row_id (rows_of s1))) by (rewrite Hr; exact Hnd).
  assert (Hlt : (length (rows_of s1) < S (length (rows_of s)))%nat) by (rewrite Hr; lia).
  assert (Hback : forall moved s2, archived cutoff moved s1 s2 -> archived cutoff moved s s2)
    by (intros moved s2; exact (archived_trans cutoff [] moved s s1 s2 (archived_refl cutoff s s1 Hr Ha))).
  eapply wp_mono; [exact (archive_loop_spec cutoff size (S (length (rows_of s))) 0 s1 Hsize Hans Hnd1 Hlt) | |].
  - intros r s2 (Hn & moved & Harc & Hall & Hone). split; [exact Hn|]. exists moved. rewrite Hr in Hone. eauto 6.
  - intros x s2 [(moved & Harc) Hx]. split; [eauto|eapply env_step_fault; eassumption].
Qed.

(** A batch of no rows is an endless loop: the driver's empty answer is as long. *)
Lemma empty_batch_never_ends cutoff rounds : forall total (s : Store),
  answered 0%nat = 0 ->
  wp (ArchivalService.archive_loop answered target rounds cutoff 0 total) (fun r _ => r = None) (fun _ _ => True) s.
Proof.
  intros total s Hans. revert total s. induction rounds as [|rounds IH]; intros total s; cbn [ArchivalService.archive_loop].
  - apply wp_ret. reflexivity.
  - apply wp_bind. unfold ArchivalService.move_batch. wp_step. wp_step; [exact I|]. do 7 wp_step.
    assert (Hno : forall l : list E, List.filter (ArchivalService.in_batch (ArchivalService.batch_ids target cutoff 0 l)) l = []).
    { intros l. unfold ArchivalService.batch_ids. simpl. induction l as [|x l IHl] using rev_ind; [reflexivity|].
      rewrite List.filter_app. simpl. rewrite app_nil_r. apply IHl. }
    rewrite Hno. simpl length. rewrite Hans. apply IH.
Qed.
End Archiving.

#[export] Instance transactions_target : TargetLaws TRANSACTIONS.
Proof. split; reflexivity. Qed.
#[export] Instance audit_logs_target : TargetLaws AUDIT_LOGS.
Proof. split; reflexivity. Qed.

(** ** Worked examples *)

Definition jobs_env : Env :=
  mkEnv (fun n => 1700000000000 + Z.of_nat n) 0 (fun _ => None) 0
        (fun n => ("u"%char, string_of_N (N.of_nat n))) 0 (fun _ => num_of_ratio 1 2) 0 [].
Definition pending_tx (id : string) (deadline : option Z) : Tx :=
  Transaction.mk id "ada" "bob" (num_of_Z 5) "USD" (num_of_Z 0) TransactionStatus.PENDING id None [] 0 None
    None deadline None None None 0 None [] None None None.
Definition jobs_start : Store :=
  JobsStore.mk ((empty_world jobs_env) <| World.transactions := [pending_tx "t1" (Some 5); pending_tx "t2" None; pending_tx "t3" None] |>)
    [] [] ∅ [] [].

Lemma jobs_start_keys : keys_ok ((world_of jobs_start).(World.transactions)).
Proof. split; [apply NoDup_ListNoDup; repeat constructor; simpl; intuition discriminate | repeat constructor; discriminate]. Qed.

Lemma overdue_transactions_fail_witness :
  match ScheduledJobsService.reconcilePendingTransactions 300000 30 jobs_start with
  | (inr _, s') => s'.(JobsStore.locks) = ∅ /\ txs_evolve jobs_start s'
  | (inl _, s') => txs_evolve jobs_start s'
  end.
Proof.
  pose proof (overdue_transactions_fail 300000 30 jobs_start jobs_start_keys eq_refl) as Hw.
  destruct (ScheduledJobsService.reconcilePendingTransactions 300000 30 jobs_start) as [[x|u] s'] eqn:E.
  - exact (wp_run_exn _ _ _ _ _ _ Hw E).
  - destruct (wp_run_ok _ _ _ _ _ _ Hw E) as (Hev & Hl & _). split; assumption.
Defined.

(** A transaction without a deadline never times out; no service sets one. *)
Example no_deadline_no_timeout :
  map Transaction.status (world_of (ScheduledJobsService.reconcilePendingTransactions 300000 30 jobs_start).2).(World.transactions) =
    [TransactionStatus.FAILED; TransactionStatus.PENDING; TransactionStatus.PENDING].
Proof. vm_compute. reflexivity. Qed.

(** A run that outlives its lock frees the lock of the run that took over. *)
Example late_release_frees_another_lock :
  let taken_over := jobs_start <| JobsStore.locks := {["lock:scheduled-job:purge" := 1800000000000]} |> in
  (ScheduledJobsService.releaseJobLock "purge" taken_over).2.(JobsStore.locks) !! "lock:scheduled-job:purge" = None.
Proof. vm_compute. reflexivity. Qed.

#[local] Instance jobs_config : ConfigService := {|
  config_number k := if String.eqb k "archive.batchSize" then Some (num_of_Z 2) else None; config_string _ := None;
  config_bool _ := Some true; config_list _ := None
|}.

Lemma archiving_terminates_witness :
  match ArchivalService.archiveTable (fun n => Z.of_nat n) TRANSACTIONS 4 jobs_start with
  | (inr r, s') => r <> None /\ forall e, In e (rows_of TRANSACTIONS s') ->
      ArchivalService.older TRANSACTIONS (add_months (-12) (clock (env_of jobs_start) (tick (env_of jobs_start)))) e = false
  | (inl _, _) => True
  end.
Proof.
  assert (Hsize : 1 <= ArchivalService.int_setting "archive.batchSize" 500) by (vm_compute; discriminate).
  pose proof (archiving_terminates TRANSACTIONS (fun n => Z.of_nat n) jobs_start Hsize (fun n => Z.le_refl _) (proj1 jobs_start_keys)) as Hw.
  change (S (length (rows_of TRANSACTIONS jobs_start))) with 4%nat in Hw.
  destruct (ArchivalService.archiveTable (fun n => Z.of_nat n) TRANSACTIONS 4 jobs_start) as [[x|r] s'] eqn:E; [exact I|].
  destruct (wp_run_ok _ _ _ _ _ _ Hw E) as (Hr & moved & _ & _ & Hall & _). split; [exact Hr|]. exact (Hall (fun n => eq_refl)).
Defined.

(** An INSERT without RETURNING answers no rows: of three old rows a batch of two
    is archived, and the third waits for the next night. *)
Example one_batch_a_night :
  let after := (ArchivalService.archiveTable (fun _ => 0) TRANSACTIONS 4 jobs_start).2 in
  (length (rows_of TRANSACTIONS after), length after.(JobsStore.transactions_archive)) = (1%nat, 2%nat).
Proof. vm_compute. reflexivity. Qed.
