(* ===== verification/ModuleAuth.v ===== *)
(** modules/auth/: the sign-up, login, password reset and verification by mail
    that the application mounts (auth.service.ts, auth.controller.ts).  The
    entity of its users and the services it calls are not in the repository: a
    user is any row with the columns the service reads and writes, and the other
    services are operations that leave the table of users alone. *)
From S2P Require Import Prelude JsNumber Effects RepositoryLaws JsData ThirdParty Lifecycle.
Local Open Scope Z_scope.

(** The columns of a user that the service touches, and what it assigns. *)
Class AuthUser (U : Type) `{Row U} : Type := {
  email : U -> string;
  passwordHash : U -> string;
  status : U -> string;
  deletedAt : U -> option Z;
  emailVerifiedAt : U -> option Z;
  passwordResetTokenHash : U -> option string;
  passwordResetExpiry : U -> option Z;
  emailVerificationTokenHash : U -> option string;
  with_passwordHash : string -> U -> U;
  with_reset : string -> Z -> U -> U;
  with_emailVerifiedAt : Z -> U -> U;
  with_verification : string -> U -> U;
  signed_up : string -> string -> option string -> option string -> U
}.

(** Assigning a column changes that column. *)
Class AuthUserLaws (U : Type) `{AuthUser U} : Prop := {
  id_passwordHash : forall h u, row_id (with_passwordHash h u) = row_id u;
  email_passwordHash : forall h u, email (with_passwordHash h u) = email u;
  deletedAt_passwordHash : forall h u, deletedAt (with_passwordHash h u) = deletedAt u;
  live_passwordHash : forall h u, live (with_passwordHash h u) = live u;
  get_passwordHash : forall h u, passwordHash (with_passwordHash h u) = h;
  reset_passwordHash : forall h u, passwordResetTokenHash (with_passwordHash h u) = passwordResetTokenHash u;
  expiry_passwordHash : forall h u, passwordResetExpiry (with_passwordHash h u) = passwordResetExpiry u;
  email_touched : forall t u, email (touched t u) = email u;
  deletedAt_touched : forall t u, deletedAt (touched t u) = deletedAt u;
  live_touched : forall t u, live (touched t u) = live u;
  hash_touched : forall t u, passwordHash (touched t u) = passwordHash u;
  reset_touched : forall t u, passwordResetTokenHash (touched t u) = passwordResetTokenHash u;
  expiry_touched : forall t u, passwordResetExpiry (touched t u) = passwordResetExpiry u
}.

(** What is logged of an event: the user, the action, the reason of a failure. *)
Record AuthEvent : Type := mkAuthEvent {
  ae_userId : string;
  ae_action : string;
  ae_success : bool;
  ae_reason : option string;
  ae_timestamp : string
}.

(** The services the module calls. *)
Class AuthServices (S C : Type) : Type := {
  getActiveSecret : string -> M S string;
  adminAudit_logAuthEvent : C -> AuthEvent -> M S unit;
  applyReferralCode : string -> string -> M S unit;
  sendPasswordReset : string -> string -> M S unit;
  mail_sendEmailVerification : string -> string -> M S unit;
  jwt_sign_with : string -> string -> string -> Z -> string;
  encodeURIComponent : string -> string
}.

Module AuthService.
Section Service.
Context {S U C : Type} `{AuthUser U} `{HasEnv S} `{!Table S U} `{AuthServices S C} `{Crypto} `{ConfigService}.

Definition createUser (userData : U) : M S U := save userData.

Definition findUserByEmail (e : string) : M S (option U) := findOne (fun u => String.eqb (email u) e).

(** [{ email, deletedAt: IsNull() }]. *)
Definition active_with_email (e : string) (u : U) : bool :=
  String.eqb (email u) e && match deletedAt u with None => true | Some _ => false end.

Definition closed (u : U) : bool := String.eqb (status u) "suspended" || String.eqb (status u) "deleted".

Definition login (e hash : string) : M S (string * U) :=
  let* user := findOne (active_with_email e) in
  match user with
  | None => throw (UnauthorizedException "Invalid email or password")
  | Some user =>
      throw_if (closed user) (UnauthorizedException "Account is suspended") ;;;
      throw_if (negb (String.eqb (passwordHash user) hash)) (UnauthorizedException "Invalid email or password") ;;;
      let* secret := getActiveSecret "JWT" in
      let* now := date_now in
      ret (jwt_sign_with (row_id user) (email user) secret now, user)
  end.

Definition logAuthEvent (context : C) (action userId : string) (reason : option string) : M S unit :=
  let success := negb (opt_truthy reason) in
  let* now := date_now in
  attempt (adminAudit_logAuthEvent context (mkAuthEvent userId action success reason (toISOString now))) ;;;
  ret tt.

(** [if (auditContext) await this.logAuthEvent(...)]. *)
Definition audit_if (context : option C) (action userId : string) (reason : option string) : M S unit :=
  match context with Some c => logAuthEvent c action userId reason | None => ret tt end.

Definition update_user (id : string) (f : U -> U) : M S unit := update_rows (fun u => String.eqb (row_id u) id) f.

(** [crypto.randomBytes(32).toString('hex')]. *)
Definition random_token : M S string := let* draw := random_uuid in ret (random_hex 32 draw).

Definition base_url : string := default "http://localhost:3000" (config_string "APP_URL").

Definition sendEmailVerification (userId e : string) : M S unit :=
  let* rawToken := random_token in
  let tokenHash := sha256_hex rawToken in
  update_user userId (with_verification tokenHash) ;;;
  mail_sendEmailVerification e (base_url +:+ "/auth/verify-email?token=" +:+ rawToken +:+ "&userId=" +:+ userId).

Definition resendVerification (e : string) : M S unit :=
  let* user := findOne (active_with_email e) in
  match user with
  | None => ret tt
  | Some user =>
      match emailVerifiedAt user with
      | Some _ => ret tt
      | None => sendEmailVerification (row_id user) (email user)
      end
  end.

(** [findOne({ where, withDeleted: true })]. *)
Definition findOne_withDeleted (p : U -> bool) : M S (option U) :=
  db_call ;;; gets (fun s => List.find p (rows s)).

Definition validateUserForLogin (userId : string) (auditContext : option C) : M S U :=
  let* user := findOne_withDeleted (fun u => String.eqb (row_id u) userId) in
  match user with
  | None =>
      audit_if auditContext "LOGIN_FAILED" userId (Some "User not found") ;;;
      throw (UnauthorizedException "User not found")
  | Some user =>
      match deletedAt user with
      | Some _ =>
          audit_if auditContext "LOGIN_FAILED" (row_id user) (Some "Account has been deactivated") ;;;
          throw (UnauthorizedException "Account has been deactivated")
      | None =>
          if closed user then
            audit_if auditContext "LOGIN_FAILED" (row_id user) (Some "Account is suspended") ;;;
            throw (UnauthorizedException "Account is suspended")
          else audit_if auditContext "LOGIN" (row_id user) None ;;; ret user
      end
  end.

Definition logUserLogout (userId : string) (auditContext : option C) : M S unit :=
  audit_if auditContext "LOGOUT" userId None.

Definition verifyUserIsActive (userId : string) : M S bool :=
  let* user := findOne (fun u : U => String.eqb (row_id u) userId && match deletedAt u with None => true | Some _ => false end) in
  ret match user with Some _ => true | None => false end.

Definition linkReferralOnRegistration (newUserId : string) (referralCode : option string) : M S unit :=
  match referralCode with
  | Some code => if str_truthy code then attempt (applyReferralCode newUserId code) ;;; ret tt else ret tt
  | None => ret tt
  end.

Definition forgotPassword (e : string) (auditContext : option C) : M S unit :=
  let* user := findOne (active_with_email e) in
  match user with
  | None => ret tt
  | Some user =>
      let* rawToken := random_token in
      let tokenHash := sha256_hex rawToken in
      let* now := date_now in
      let expiry := now + 15 * 60 * 1000 in
      update_user (row_id user) (with_reset tokenHash expiry) ;;;
      audit_if auditContext "PASSWORD_RESET" (row_id user) None ;;;
      sendPasswordReset e (base_url +:+ "/auth/reset-password?token=" +:+ rawToken +:+ "&email=" +:+ encodeURIComponent e)
  end.

(** [update] leaves a column alone whose value is [undefined]: the token and its
    expiry stay. *)
Definition resetPassword (e token newPasswordHash : string) (auditContext : option C) : M S unit :=
  let* user := findOne (active_with_email e) in
  match user with
  | None => throw (BadRequestException "Invalid or expired reset token")
  | Some user =>
      match passwordResetTokenHash user, passwordResetExpiry user with
      | Some stored, Some expiry =>
          throw_if (negb (str_truthy stored)) (BadRequestException "Invalid or expired reset token") ;;;
          let* now := date_now in
          throw_if (expiry <? now) (BadRequestException "Reset token has expired") ;;;
          let tokenHash := sha256_hex token in
          throw_if (negb (String.eqb tokenHash stored)) (BadRequestException "Invalid or expired reset token") ;;;
          update_user (row_id user) (with_passwordHash newPasswordHash) ;;;
          audit_if auditContext "PASSWORD_RESET_COMPLETED" (row_id user) None
      | _, _ => throw (BadRequestException "Invalid or expired reset token")
      end
  end.

Definition verifyEmail (userId token : string) (auditContext : option C) : M S unit :=
  let* user := findOne (fun u : U => String.eqb (row_id u) userId) in
  match user with
  | None => throw (BadRequestException "Invalid verification token")
  | Some user =>
      match emailVerificationTokenHash user with
      | Some stored =>
          throw_if (negb (str_truthy stored)) (BadRequestException "Invalid verification token") ;;;
          let tokenHash := sha256_hex token in
          throw_if (negb (String.eqb tokenHash stored)) (BadRequestException "Invalid verification token") ;;;
          let* now := date_now in
          update_user userId (with_emailVerifiedAt now) ;;;
          audit_if auditContext "EMAIL_VERIFIED" userId None
      | None => throw (BadRequestException "Invalid verification token")
      end
  end.
End Service.
End AuthService.

(** ** AuthController *)

Record SignupDto : Type := mkSignup {
  su_email : string;
  su_passwordHash : string;
  su_firstName : option string;
  su_lastName : option string;
  su_referralCode : option string
}.

Module AuthController.
Section Controller.
Context {S U C : Type} `{AuthUser U} `{HasEnv S} `{!Table S U} `{AuthServices S C} `{Crypto} `{ConfigService}.

(** The user, and whether the address is verified. *)
Definition signup (dto : SignupDto) : M S (U * bool) :=
  let* existing := AuthService.findUserByEmail (su_email dto) in
  throw_if (match existing with Some u => match deletedAt u with None => true | Some _ => false end | None => false end)
    (ConflictException "User with this email already exists") ;;;
  let* user := AuthService.createUser (signed_up (su_email dto) (su_passwordHash dto) (su_firstName dto) (su_lastName dto)) in
  AuthService.linkReferralOnRegistration (row_id user) (su_referralCode dto) ;;;
  AuthService.sendEmailVerification (row_id user) (email user) ;;;
  ret (user, match emailVerifiedAt user with Some _ => true | None => false end).

(** The token, the user, whether the address is verified. *)
Definition login (e hash : string) : M S (string * U * bool) :=
  let* ' (accessToken, user) := AuthService.login e hash in
  ret (accessToken, user, match emailVerifiedAt user with Some _ => true | None => false end).

Definition forgotPassword (e : string) : M S string :=
  AuthService.forgotPassword e None ;;; ret "If that email exists, a reset link has been sent.".
End Controller.
End AuthController.


(** ** Reset tokens *)

Section ResetLaws.
Context {S U C : Type} `{HL : AuthUserLaws U} `{HasEnv S} `{!Table S U} `{AuthServices S C} `{Crypto} `{ConfigService}.

(** [u] is the user the address finds, with [token] outstanding until [expiry]. *)
Definition outstanding (e token : string) (expiry : Z) (s : S) (u : U) : Prop :=
  List.find (fun u => live u && AuthService.active_with_email e u) (rows s) = Some u /\
  passwordResetTokenHash u = Some (sha256_hex token) /\ passwordResetExpiry u = Some expiry.

(** The assignment of [update] on a row of the table. *)
Definition reset_row (hash : string) (t : Z) (u : U) : U := touched t (with_passwordHash hash u).

Lemma reset_keeps_where e hash t u :
  (live (reset_row hash t u) && AuthService.active_with_email e (reset_row hash t u)) =
  (live u && AuthService.active_with_email e u).
Proof.
  unfold reset_row, AuthService.active_with_email.
  rewrite live_touched, live_passwordHash, email_touched, email_passwordHash, deletedAt_touched, deletedAt_passwordHash.
  reflexivity.
Qed.

Lemma find_reset e id hash t l u :
  List.find (fun u => live u && AuthService.active_with_email e u) l = Some u -> row_id u = id ->
  List.find (fun u => live u && AuthService.active_with_email e u)
    (map (fun x => if String.eqb (row_id x) id then reset_row hash t x else x) l) = Some (reset_row hash t u).
Proof.
  induction l as [|x l IH]; intros Hf Hid; [discriminate|]. cbn [map List.find] in *.
  destruct (live x && AuthService.active_with_email e x) eqn:Hx.
  - injection Hf as ->. rewrite Hid, String.eqb_refl, reset_keeps_where, Hx. reflexivity.
  - destruct (String.eqb (row_id x) id); rewrite ?reset_keeps_where, Hx; apply IH; assumption.
Qed.

(** A reset with the outstanding token changes the password and leaves the token
    outstanding. *)
Lemma resetPassword_spec e token expiry hash s u :
  outstanding e token expiry s u -> str_truthy (sha256_hex token) = true ->
  (forall n, clock (env_of s) n <= expiry) ->
  wp (AuthService.resetPassword e token hash None)
    (fun _ s' => env_step (env_of s) (env_of s') /\
       exists u', outstanding e token expiry s' u' /\ row_id u' = row_id u /\ passwordHash u' = hash)
    (fun x s' => env_fault (env_of s) x) s.
Proof.
  intros (Hf & Hh & He) Htr Hclock. unfold AuthService.resetPassword. wp_step. wp_step; [assumption|].
  rewrite Hf, Hh, He. rewrite Htr. cbn [negb].
  wp_step. apply wp_throw_if; [discriminate|]. intros _. wp_step. wp_step. wp_step. apply wp_throw_if.
  - intros Hlt. apply Z.ltb_lt in Hlt. exfalso.
    match type of Hlt with _ < clock ?e0 ?n =>
      assert (E : clock e0 = clock (env_of s)) by (apply es_clock; env_chain); specialize (Hclock n); rewrite E in Hlt end.
    lia.
  - intros _. wp_step. rewrite String.eqb_refl. cbn [negb]. apply wp_throw_if; [discriminate|]. intros _.
    wp_step. unfold AuthService.update_user. wp_step; [eapply env_step_fault; [|eassumption]; env_chain|].
    unfold AuthService.audit_if. wp_step. split; [env_norm; env_chain|].
    match goal with |- context [touched ?t _] => exists (reset_row hash t u) end.
    unfold outstanding. env_norm. split; [split; [|split]|split].
    + apply (find_reset e (row_id u)); [exact Hf | reflexivity].
    + unfold reset_row. rewrite reset_touched, reset_passwordHash. exact Hh.
    + unfold reset_row. rewrite expiry_touched, expiry_passwordHash. exact He.
    + unfold reset_row. rewrite row_id_touched, id_passwordHash. reflexivity.
    + unfold reset_row. rewrite hash_touched, get_passwordHash. reflexivity.
Qed.

(** A reset token works as often as it is used until it expires: whoever has
    it sets the password again after its owner did. *)
Theorem reset_token_works_again e token expiry hash hash' (s : S) (u : U) :
  outstanding e token expiry s u -> str_truthy (sha256_hex token) = true ->
  (forall n, clock (env_of s) n <= expiry) ->
  wp (AuthService.resetPassword e token hash None ;;; AuthService.resetPassword e token hash' None)
    (fun _ s' => exists u', outstanding e token expiry s' u' /\ row_id u' = row_id u /\ passwordHash u' = hash')
    (fun x _ => env_fault (env_of s) x) s.
Proof.
  intros Ho Htr Hclock. apply wp_bind. eapply wp_mono; [apply (resetPassword_spec e token expiry hash s u Ho Htr Hclock) | | auto].
  intros _ s1 (He1 & u1 & Ho1 & Hid1 & _).
  eapply wp_mono; [apply (resetPassword_spec e token expiry hash' s1 u1 Ho1 Htr) | |].
  - intros n. rewrite (es_clock _ _ He1). apply Hclock.
  - intros _ s2 (_ & u2 & Ho2 & Hid2 & Hh). exists u2. split; [exact Ho2|]. split; [congruence | exact Hh].
  - intros x s2 Hx. eapply env_step_fault; eassumption.
Qed.
End ResetLaws.

(** ** A worked state *)

Record DemoUser : Type := mkDemoUser {
  du_id : string; du_email : string; du_hash : string; du_reset : option string; du_expiry : option Z
}.
#[local] Program Instance demo_user_row : Row DemoUser := {|
  row_id := du_id; set_row_id i u := mkDemoUser i (du_email u) (du_hash u) (du_reset u) (du_expiry u);
  created t u := u; touched t u := u; live u := true; clash a b := false
|}.
#[local] Instance demo_auth_user : AuthUser DemoUser := {|
  email := du_email; passwordHash := du_hash; status _ := "active"; deletedAt _ := None; emailVerifiedAt _ := None;
  passwordResetTokenHash := du_reset; passwordResetExpiry := du_expiry; emailVerificationTokenHash _ := None;
  with_passwordHash h u := mkDemoUser (du_id u) (du_email u) h (du_reset u) (du_expiry u);
  with_reset h t u := mkDemoUser (du_id u) (du_email u) (du_hash u) (Some h) (Some t);
  with_emailVerifiedAt t u := u; with_verification h u := u;
  signed_up e h _ _ := mkDemoUser "" e h None None
|}.
#[local] Program Instance demo_auth_laws : AuthUserLaws DemoUser.

Record DemoStore : Type := mkDemoStore { ds_env : Env; ds_users : list DemoUser }.
#[local] Program Instance demo_store_env : HasEnv DemoStore := {| env_of := ds_env; set_env e s := mkDemoStore e (ds_users s) |}.
#[local] Program Instance demo_store_users : Table DemoStore DemoUser := {|
  rows := ds_users; set_rows l s := mkDemoStore (ds_env s) l
|}.
#[local] Instance demo_services : AuthServices DemoStore unit := {|
  getActiveSecret _ := ret "secret"; adminAudit_logAuthEvent _ _ := ret tt; applyReferralCode _ _ := ret tt;
  sendPasswordReset _ _ := ret tt; mail_sendEmailVerification _ _ := ret tt;
  jwt_sign_with sub _ _ _ := sub; encodeURIComponent s := s
|}.
#[local] Instance demo_crypto : Crypto := {|
  sha256_hex s := "#" +:+ s; hmac_sha256_hex _ s := s; random_hex _ s := s
|}.
#[local] Instance demo_config : ConfigService := {|
  config_number _ := None; config_string _ := None; config_bool _ := None; config_list _ := None
|}.

Definition auth_env : Env :=
  mkEnv (fun _ => 1000) 0 (fun _ => None) 0 (fun n => ("u"%char, string_of_N (N.of_nat n))) 0
        (fun _ => num_of_ratio 1 2) 0 [].
Definition anna : DemoUser := mkDemoUser "anna" "anna@nexafx.io" "old" (Some "#t0ken") (Some 2000).
Definition auth_start : DemoStore := mkDemoStore auth_env [anna].

Lemma reset_token_works_again_witness :
  outstanding "anna@nexafx.io" "t0ken" 2000 auth_start anna /\
  wp (AuthService.resetPassword "anna@nexafx.io" "t0ken" "owner" None ;;;
      AuthService.resetPassword "anna@nexafx.io" "t0ken" "thief" None)
    (fun _ s' => exists u', outstanding "anna@nexafx.io" "t0ken" 2000 s' u' /\ row_id u' = row_id anna /\
                            passwordHash u' = "thief")
    (fun x _ => env_fault (env_of auth_start) x) auth_start.
Proof.
  split; [repeat split|].
  apply (reset_token_works_again "anna@nexafx.io" "t0ken" 2000 "owner" "thief" auth_start anna).
  - repeat split.
  - reflexivity.
  - intros n. simpl. lia.
Defined.

(** The comparison of [login] is with the hash the request carries. *)
Example login_takes_the_hash :
  (AuthService.login "anna@nexafx.io" "old" auth_start).1 = inr ("anna", anna).
Proof. vm_compute. reflexivity. Qed.
