(* ===== verification/Admin.v ===== *)
(** admin/: statistics, the overrides an administrator makes and their audit
    trail, approvals by a second administrator, spreads (admin.service.ts,
    admin-approval.entity.ts), and the files the controller serves
    (admin.controller.ts). *)
From S2P Require Import Prelude JsNumber Effects RepositoryLaws NumberLaws JsData Entities World QueryBuilder CoreCalls Lifecycle Json Accounts Kyc Support Webhooks Aml.
Local Open Scope Z_scope.

Module AdminApprovalStatus.
Inductive AdminApprovalStatus : Type := PENDING | APPROVED | REJECTED.
Definition eqb (a b : AdminApprovalStatus) : bool :=
  match a, b with
  | PENDING, PENDING | APPROVED, APPROVED | REJECTED, REJECTED => true
  | _, _ => false
  end.
Definition show (a : AdminApprovalStatus) : string :=
  match a with
  | PENDING => "pending"
  | APPROVED => "approved"
  | REJECTED => "rejected"
  end.
Lemma AdminApprovalStatus_eqb_eq a b : eqb a b = true <-> a = b.
Proof. destruct a, b; simpl; split; congruence. Qed.
End AdminApprovalStatus.

(** admin/admin-approval.entity.ts *)
Module AdminApproval.
Record AdminApproval : Type := mk {
  id : string;
  actionType : string;
  actionData : json;
  requestedBy : string;
  approvedBy : option string;
  status : AdminApprovalStatus.AdminApprovalStatus;
  createdAt : Z
}.
#[global] Instance settable : Settable AdminApproval := fun r =>
  mk r.(id) r.(actionType) r.(actionData) r.(requestedBy) r.(approvedBy) r.(status)
     r.(createdAt).
End AdminApproval.

#[global] Program Instance AdminApproval_row : Row AdminApproval.AdminApproval := {|
  row_id := AdminApproval.id;
  set_row_id i e := e <| AdminApproval.id := i |>;
  created t e := e <| AdminApproval.createdAt := t |>;
  touched t e := e;
  live e := true;
  clash a b := false
|}.

Notation Approval := AdminApproval.AdminApproval.

Module AdminStore.
Record AdminStore : Type := mk {
  core_world : World;
  approvals : list AdminApproval.AdminApproval;
  documents : list KycDocument.KycDocument;
  tickets : list SupportTicket.SupportTicket;
  endpoints : list WebhookEndpoint.WebhookEndpoint;
  alerts : list AmlAlert.AmlAlert;
  spreadsMap : list (string * num)
}.
#[global] Instance settable : Settable AdminStore := fun r =>
  mk r.(core_world) r.(approvals) r.(documents) r.(tickets) r.(endpoints) r.(alerts)
     r.(spreadsMap).
End AdminStore.

#[global] Program Instance AdminStore_world : HasWorld AdminStore.AdminStore := {|
  world_of := AdminStore.core_world;
  set_world w s := s <| AdminStore.core_world := w |>
|}.

#[global] Program Instance AdminStore_approvals : Table AdminStore.AdminStore AdminApproval.AdminApproval := {|
  rows := AdminStore.approvals;
  set_rows t w := w <| AdminStore.approvals := t |>
|}.

#[global] Program Instance AdminStore_documents : Table AdminStore.AdminStore KycDocument.KycDocument := {|
  rows := AdminStore.documents;
  set_rows t w := w <| AdminStore.documents := t |>
|}.

#[global] Program Instance AdminStore_tickets : Table AdminStore.AdminStore SupportTicket.SupportTicket := {|
  rows := AdminStore.tickets;
  set_rows t w := w <| AdminStore.tickets := t |>
|}.

#[global] Program Instance AdminStore_endpoints : Table AdminStore.AdminStore WebhookEndpoint.WebhookEndpoint := {|
  rows := AdminStore.endpoints;
  set_rows t w := w <| AdminStore.endpoints := t |>
|}.

#[global] Program Instance AdminStore_alerts : Table AdminStore.AdminStore AmlAlert.AmlAlert := {|
  rows := AdminStore.alerts;
  set_rows t w := w <| AdminStore.alerts := t |>
|}.

Notation Store := AdminStore.AdminStore.

Record AdminStats : Type := mkStats {
  users : Z;
  transactions : Z;
  kycDocuments : Z;
  pendingKyc : Z;
  supportTickets : Z;
  webhookEndpoints : Z;
  amlAlerts : Z
}.

Record TransactionFilters : Type := mkFilters {
  f_userId : option string;
  f_status : option TransactionStatus.TransactionStatus;
  f_currency : option string;
  f_startDate : option string;
  f_endDate : option string;
  f_page : option Z;
  f_limit : option Z
}.

(** ** AdminService *)

Module AdminService.
Definition getStats : M Store AdminStats :=
  let* users := core (count_rows (fun _ : User.User => true)) in
  let* transactions := core (count_rows (fun _ : Transaction.Transaction => true)) in
  let* kycDocuments := count_rows (fun _ : KycDocument.KycDocument => true) in
  let* pendingKyc := count_rows (fun d => KycDocumentStatus.eqb d.(KycDocument.status) KycDocumentStatus.PENDING) in
  let* supportTickets := count_rows (fun _ : SupportTicket.SupportTicket => true) in
  let* webhookEndpoints := count_rows (fun _ : WebhookEndpoint.WebhookEndpoint => true) in
  let* amlAlerts := count_rows (fun _ : AmlAlert.AmlAlert => true) in
  ret (mkStats users transactions kycDocuments pendingKyc supportTickets webhookEndpoints amlAlerts).

(** The report's text, its period and time, the transactions and the alerts; the
    other two figures are constants. *)
Definition generateCbnComplianceReport (period : option string) : M Store (string * string * string * Z * Z) :=
  let* totalTx := core (count_rows (fun _ : Transaction.Transaction => true)) in
  let* amlAlerts := count_rows (fun _ : AmlAlert.AmlAlert => true) in
  let* now := date_now in
  ret ("CBN_MONTHLY_COMPLIANCE_FILING", default "monthly" period, toISOString now, totalTx, amlAlerts).

(** The bounds of a date range; an unreadable date is refused by the driver. *)
Definition date_bound (s : option string) : option (option Z) :=
  match s with
  | Some s => if str_truthy s then option_map Some (parse_iso s) else Some None
  | None => Some None
  end.

Definition selects (userId : option string) (status : option TransactionStatus.TransactionStatus)
    (currency : option string) (start end_ : option Z) (tx : Transaction.Transaction) : bool :=
  and_where userId str_truthy
    (fun u => String.eqb tx.(Transaction.senderId) u || String.eqb tx.(Transaction.receiverId) u) &&
  and_where status (fun _ => true) (fun st => TransactionStatus.eqb tx.(Transaction.status) st) &&
  and_where currency str_truthy (fun c => String.eqb tx.(Transaction.currency) c) &&
  match start with Some t => t <=? tx.(Transaction.createdAt) | None => true end &&
  match end_ with Some t => tx.(Transaction.createdAt) <=? t | None => true end.

Definition findAllTransactions (filters : TransactionFilters) :
    M Store (list Transaction.Transaction * Z * Z * Z) :=
  let page := default 1 (f_page filters) in
  let limit := default 20 (f_limit filters) in
  match date_bound (f_startDate filters), date_bound (f_endDate filters) with
  | Some start, Some end_ =>
      let* ' (items, total) := core (getManyAndCount
        (selects (f_userId filters) (f_status filters) (f_currency filters) start end_)
        Transaction.createdAt ((page - 1) * limit) limit) in
      ret (items, total, page, limit)
  | _, _ => throw (JsError "RangeError" "Invalid time value")
  end.

Definition tx_snapshot (tx : Transaction.Transaction) : list (string * json) :=
  [("status", JStr (TransactionStatus.show tx.(Transaction.status)));
   ("amount", JNum tx.(Transaction.amount));
   ("currency", JStr tx.(Transaction.currency));
   ("senderId", JStr tx.(Transaction.senderId));
   ("receiverId", JStr tx.(Transaction.receiverId));
   ("reference", JStr tx.(Transaction.reference))].

Definition user_snapshot (u : User.User) : list (string * json) :=
  [("isActive", JBool u.(User.isActive));
   ("role", JStr (UserRole.show u.(User.role)));
   ("kycStatus", JStr (KycStatus.show u.(User.kycStatus)));
   ("email", JStr u.(User.email))].

(** A value out of a stored action as the database takes it: [undefined] leaves
    a column or a condition out, a value of another type is refused. *)
Inductive given (A : Type) : Type := Absent | Given (a : A) | Refused.
Arguments Absent {A}.
Arguments Given {A} a.
Arguments Refused {A}.

Definition bad_input : exn := QueryFailed "22P02" "invalid input syntax".

(** [findOne({ where: { id } })]: without the condition, the first row. *)
Definition findOne_id {S E} `{Table S E} (id : given string) : M S (option E) :=
  match id with
  | Given i => findOne (fun e => String.eqb (row_id e) i)
  | Absent => findOne (fun _ => true)
  | Refused => db_call ;;; throw bad_input
  end.

(** [e.column = v; repo.save(e)]. *)
Definition save_with {S E A} `{Table S E} (v : given A) (assign : A -> E -> E) (e : E) : M S E :=
  match v with
  | Given a => save (assign a e)
  | Absent => save e
  | Refused => db_call ;;; throw bad_input
  end.

Definition text_of (id : given string) : option string := match id with Given i => Some i | _ => None end.

(** An id as an error message shows it. *)
Definition shown (id : given string) : string := default "undefined" (text_of id).

(** The snapshot of a saved row whose column was given [undefined]. *)
Definition hide {A} (v : given A) (k : string) (o : list (string * json)) : list (string * json) :=
  match v with Given _ => o | _ => obj_set k JUndefined o end.

(** Who acts is an id or [undefined]: the routes read it off a payload that has
    none. *)
Definition overrideTransactionStatus (transactionId : given string)
    (newStatus : given TransactionStatus.TransactionStatus) (adminUserId : option string) (reason : option string) :
    M Store Transaction.Transaction :=
  let* transaction := core (findOne_id transactionId) in
  match transaction with
  | None => throw (NotFoundException ("Transaction " +:+ shown transactionId +:+ " not found"))
  | Some transaction =>
      let before := tx_snapshot transaction in
      let* updated := core (save_with newStatus (fun st t => t <| Transaction.status := st |>) transaction) in
      core (AuditService.log (AuditService.mkEvent adminUserId "admin.transaction.status_override"
        "transaction" (text_of transactionId) (Some before) (Some (hide newStatus "status" (tx_snapshot updated)))
        reason None None)) ;;;
      ret updated
  end.

Definition updateUserStatus (targetUserId : given string) (isActive : given bool) (adminUserId : option string)
    (reason : option string) : M Store User.User :=
  let* user := core (findOne_id targetUserId) in
  match user with
  | None => throw (NotFoundException ("User " +:+ shown targetUserId +:+ " not found"))
  | Some user =>
      let before := user_snapshot user in
      let* updated := core (save_with isActive (fun b u => u <| User.isActive := b |>) user) in
      core (AuditService.log (AuditService.mkEvent adminUserId
        (match isActive with Given true => "admin.user.activated" | _ => "admin.user.suspended" end) "user"
        (text_of targetUserId) (Some before) (Some (hide isActive "isActive" (user_snapshot updated))) reason None None)) ;;;
      ret updated
  end.

Definition updateUserRole (targetUserId : string) (newRole : UserRole.UserRole) (adminUserId : option string)
    (reason : option string) : M Store User.User :=
  let* user := core (findOne_id (Given targetUserId)) in
  match user with
  | None => throw (NotFoundException ("User " +:+ targetUserId +:+ " not found"))
  | Some user =>
      let before := user_snapshot user in
      let* updated := core (save (user <| User.role := newRole |>)) in
      core (AuditService.log (AuditService.mkEvent adminUserId "admin.user.role_changed" "user"
        (Some targetUserId) (Some before) (Some (user_snapshot updated)) reason None None)) ;;;
      ret updated
  end.

Definition initial_spreads : list (string * num) :=
  [("USD/NGN", num_of_ratio 15 1000); ("USD/EUR", num_of_ratio 5 1000)].

Definition getSpreads : M Store (list (string * num)) := gets AdminStore.spreadsMap.

Definition updateSpread (pair : string) (spreadPercentage : num) (adminUserId : option string) : M Store (string * num) :=
  let upperPair := toUpperCase pair in
  modify (fun s => s <| AdminStore.spreadsMap := map_set upperPair spreadPercentage s.(AdminStore.spreadsMap) |>) ;;;
  core (AuditService.log (AuditService.mkEvent adminUserId "admin.spread.update" "exchange_rate_spread" (Some upperPair)
    None (Some [("pair", JStr upperPair); ("spreadPercentage", JNum spreadPercentage)]) None None None)) ;;;
  ret (upperPair, spreadPercentage).

(** The impersonated user, the mail address, the administrator, the token. *)
Definition impersonateUser (targetUserId : string) (adminUserId : option string) :
    M Store (string * string * option string * string) :=
  let* user := core (findOne (fun u : User.User => String.eqb u.(User.id) targetUserId)) in
  match user with
  | None => throw (NotFoundException ("User " +:+ targetUserId +:+ " not found"))
  | Some user =>
      core (AuditService.log (AuditService.mkEvent adminUserId "admin.user.impersonate" "user" (Some targetUserId) None
        (Some [("impersonatedUserId", JStr targetUserId); ("impersonatedEmail", JStr user.(User.email))]) None None None)) ;;;
      ret (user.(User.id), user.(User.email), adminUserId, "impersonated-session-token-" +:+ user.(User.id))
  end.

(** [actionData] and [requestedBy] are columns that take no null; [undefined]
    is stored as the default, which they do not have. *)
Definition requestAdminApproval (actionType : string) (actionData : json) (requestedBy : option string) : M Store Approval :=
  match actionData, requestedBy with
  | JUndefined, _ | JNull, _ | _, None =>
      db_call ;;; throw (QueryFailed "23502" "null value in column violates not-null constraint")
  | _, Some requestedBy =>
      save (AdminApproval.mk "" actionType actionData requestedBy None AdminApprovalStatus.PENDING 0)
  end.

(** [data.k]: of [null] and [undefined] it throws, other values but objects
    have no such property. *)
Definition prop (k : string) (data : json) : M Store json :=
  match data with
  | JUndefined | JNull => throw (JsError "TypeError" ("Cannot read properties (reading '" +:+ k +:+ "')"))
  | JObj o => ret (default JUndefined (obj_get k o))
  | _ => ret JUndefined
  end.

Definition as_id (j : json) : given string :=
  match j with JStr s => Given s | JUndefined | JNull => Absent | _ => Refused end.

Definition as_status (j : json) : given TransactionStatus.TransactionStatus :=
  match j with
  | JStr s =>
      match List.find (fun st => String.eqb (TransactionStatus.show st) s)
              [TransactionStatus.PENDING; TransactionStatus.COMPLETED; TransactionStatus.FAILED;
               TransactionStatus.REVERSED; TransactionStatus.CANCELLED] with
      | Some st => Given st
      | None => Refused
      end
  | JUndefined => Absent
  | _ => Refused
  end.

Definition as_bool (j : json) : given bool :=
  match j with JBool b => Given b | JUndefined => Absent | _ => Refused end.

(** A text column takes any value, in its JSON spelling when it is no string. *)
Definition as_text (j : json) : option string :=
  match j with JStr s => Some s | JUndefined | JNull => None | _ => Some (stringify j) end.

(** What an approved request does. *)
Definition execute (saved : Approval) (approvedBy : option string) : M Store unit :=
  let data := saved.(AdminApproval.actionData) in
  if String.eqb saved.(AdminApproval.actionType) "override_transaction_status" then
    let* id := prop "transactionId" data in
    let* st := prop "newStatus" data in
    let* why := prop "reason" data in
    overrideTransactionStatus (as_id id) (as_status st) approvedBy (as_text why) ;;; ret tt
  else if String.eqb saved.(AdminApproval.actionType) "update_user_status" then
    let* id := prop "targetUserId" data in
    let* active := prop "isActive" data in
    let* why := prop "reason" data in
    updateUserStatus (as_id id) (as_bool active) approvedBy (as_text why) ;;; ret tt
  else ret tt.

(** [approval.status = APPROVED; approval.approvedBy = approvedBy], as the row
    is after the save, which leaves a column alone that was given [undefined]. *)
Definition decided (approvedBy : option string) (approval : Approval) : Approval :=
  let approval := approval <| AdminApproval.status := AdminApprovalStatus.APPROVED |> in
  match approvedBy with
  | Some u => approval <| AdminApproval.approvedBy := Some u |>
  | None => approval
  end.

(** [approval.requestedBy === approvedBy]: the column is a string. *)
Definition same_administrator (requestedBy : string) (approvedBy : option string) : bool :=
  match approvedBy with Some u => String.eqb requestedBy u | None => false end.

Definition approveAdminRequest (approvalId : string) (approvedBy : option string) : M Store Approval :=
  let* approval := findOne (fun a => String.eqb a.(AdminApproval.id) approvalId) in
  match approval with
  | None => throw (NotFoundException ("Approval request " +:+ approvalId +:+ " not found"))
  | Some approval =>
      throw_if (negb (AdminApprovalStatus.eqb approval.(AdminApproval.status) AdminApprovalStatus.PENDING))
        (PlainError "Approval is not pending") ;;;
      throw_if (same_administrator approval.(AdminApproval.requestedBy) approvedBy)
        (PlainError "Admin cannot approve their own request") ;;;
      let* saved := save (decided approvedBy approval) in
      execute saved approvedBy ;;;
      ret saved
  end.
End AdminService.

(** ** AdminController *)

Module AdminController.
(** [/[/\\]/.test(segment) || segment.includes('..')]. *)
Definition unsafe_segment (segment : string) : bool :=
  includes "/" segment || includes backslash segment || includes ".." segment.

Definition assertSafePathSegment {S} (segment paramName : string) : M S unit :=
  throw_if (unsafe_segment segment)
    (BadRequestException ("Invalid path segment in " +:+ paramName +:+
                          " - traversal sequences are not permitted")).

(** [normalize] of an absolute path: the segments between slashes, without the
    empty ones and dots; two dots go up. *)
Fixpoint resolve_segments (stack : list string) (l : list string) : list string :=
  match l with
  | [] => rev stack
  | x :: l' =>
      if String.eqb x "" || String.eqb x "." then resolve_segments stack l'
      else if String.eqb x ".." then resolve_segments (tl stack) l'
      else resolve_segments (x :: stack) l'
  end.
Definition normalize (path : string) : string := "/" +:+ join "/" (resolve_segments [] (split_on "/" path)).

(** [join(base, a, b, c)]; [normalize] keeps a trailing slash, which only an
    empty last segment could give and [join] leaves out. *)
Definition join_path (base : string) (segments : list string) : string :=
  normalize (join "/" (base :: List.filter (fun s => negb (String.eqb s "")) segments)).

(** The file that is sent. *)
Definition serveKycFile {S} (KYC_UPLOAD_BASE userId version filename : string) : M S string :=
  assertSafePathSegment userId "userId" ;;;
  assertSafePathSegment version "version" ;;;
  assertSafePathSegment filename "filename" ;;;
  let filePath := join_path KYC_UPLOAD_BASE [userId; version; filename] in
  let normalizedPath := normalize filePath in
  throw_if (negb (starts_with (KYC_UPLOAD_BASE +:+ "/") normalizedPath))
    (BadRequestException "Resolved path falls outside the KYC uploads directory") ;;;
  ret normalizedPath.

Definition updateTransactionStatus (id : string) (status : TransactionStatus.TransactionStatus) (reason : option string)
    (userId : option string) : M Store Transaction.Transaction :=
  AdminService.overrideTransactionStatus (AdminService.Given id) (AdminService.Given status) userId reason.
End AdminController.

(** ** A sequence of administrators' requests *)

(** The last argument is who acts. *)
Inductive AdminRequest : Type :=
  | QRequest (actionType : string) (actionData : json) (requestedBy : option string)
  | QApprove (approvalId : string) (approvedBy : option string)
  | QOverride (transactionId : string) (newStatus : TransactionStatus.TransactionStatus) (reason : option string)
      (by_ : option string)
  | QUserStatus (userId : string) (isActive : bool) (reason : option string) (by_ : option string)
  | QUserRole (userId : string) (role : UserRole.UserRole) (reason : option string) (by_ : option string)
  | QSpread (pair : string) (spread : num) (by_ : option string)
  | QImpersonate (userId : string) (by_ : option string).

Definition handle (q : AdminRequest) : M Store unit :=
  match q with
  | QRequest t d u => AdminService.requestAdminApproval t d u ;;; ret tt
  | QApprove id u => AdminService.approveAdminRequest id u ;;; ret tt
  | QOverride id st why u => AdminController.updateTransactionStatus id st why u ;;; ret tt
  | QUserStatus id b why u => AdminService.updateUserStatus (AdminService.Given id) (AdminService.Given b) u why ;;; ret tt
  | QUserRole id r why u => AdminService.updateUserRole id r u why ;;; ret tt
  | QSpread p n u => AdminService.updateSpread p n u ;;; ret tt
  | QImpersonate id u => AdminService.impersonateUser id u ;;; ret tt
  end.

Definition admin_requests (qs : list AdminRequest) : M Store unit := for_each qs (fun q => attempt (handle q) ;;; ret tt).

(** ** The life of an approval *)

Section Life.
Context (qs : list AdminRequest).

(** A pending row as one of the requests asked for it: by somebody. *)
Definition requested (a : Approval) : Prop :=
  a.(AdminApproval.status) = AdminApprovalStatus.PENDING /\ a.(AdminApproval.approvedBy) = None /\
  In (QRequest a.(AdminApproval.actionType) a.(AdminApproval.actionData) (Some a.(AdminApproval.requestedBy))) qs.

(** The one change an approval makes: one of the requests approves it, and who
    sent that is not its requester - or is not known. *)
Inductive approval_step (a : Approval) : Approval -> Prop :=
  | step_approve by_ u :
      a.(AdminApproval.status) = AdminApprovalStatus.PENDING -> In (QApprove a.(AdminApproval.id) by_) qs ->
      by_ <> Some a.(AdminApproval.requestedBy) -> approval_step a (touched u (AdminService.decided by_ a)).

Notation evolves := (Lifecycle.evolves (S:=Store) requested approval_step).

Lemma status_decided by_ a : (AdminService.decided by_ a).(AdminApproval.status) = AdminApprovalStatus.APPROVED.
Proof. destruct by_; reflexivity. Qed.

Lemma step_once a a' : rtc approval_step a a' -> a' = a \/ approval_step a a'.
Proof.
  intros Hst. destruct Hst as [|a a1 a2 H1 H2]; [left; reflexivity | right].
  destruct H2 as [|a1 a2 a3 H2 _]; [exact H1|]. destruct H1 as [by_ u _ _ _], H2 as [by2 u2 Hp _ _].
  change (touched u ?x) with x in Hp. rewrite status_decided in Hp. discriminate.
Qed.

Lemma execute_evolves a by_ : keeps evolves (AdminService.execute a by_).
Proof.
  unfold AdminService.execute, AdminService.overrideTransactionStatus, AdminService.updateUserStatus, AdminService.prop.
  keeps_auto.
Qed.

Lemma same_administrator_spec a by_ : AdminService.same_administrator a by_ = false <-> by_ <> Some a.
Proof. destruct by_ as [u|]; simpl; [rewrite String.eqb_neq; split; congruence | split; congruence]. Qed.

Lemma approve_evolves id by_ : In (QApprove id by_) qs -> keeps evolves (AdminService.approveAdminRequest id by_).
Proof.
  intros Hq. apply keeps_wp. intros s. unfold AdminService.approveAdminRequest. wp_step. wp_step; [evolves_leaf|].
  destruct (List.find _ _) as [a|] eqn:Hf; [|wp_step; evolves_leaf].
  destruct (find_live_some _ _ _ Hf) as (Hin & _ & Hid). apply String.eqb_eq in Hid. subst id.
  wp_step. wp_step; [evolves_leaf|]. wp_step. wp_step; [evolves_leaf|]. wp_step.
  apply (wp_save_step requested approval_step a); env_norm; [exact Hin | destruct by_; reflexivity | | intros; evolves_leaf|].
  - intros u. apply step_approve; [|exact Hq|].
    + match goal with Hp : negb _ = false |- _ => apply negb_false_iff, AdminApprovalStatus.AdminApprovalStatus_eqb_eq in Hp; exact Hp end.
    + apply same_administrator_spec. assumption.
  - intros u s' Hev _ _. wp_step. eapply wp_keeps; [apply execute_evolves | |].
    + intros _ s2 H2. wp_step. etransitivity; eassumption.
    + intros x s2 H2. etransitivity; eassumption.
Qed.

Lemma request_evolves t d u : In (QRequest t d u) qs -> keeps evolves (AdminService.requestAdminApproval t d u).
Proof.
  intros Hq. unfold AdminService.requestAdminApproval. destruct d, u as [u|]; keeps_auto.
  all: apply keeps_save_new; [reflexivity|]; intros i t2 _; eexists; (split; [|apply rtc_refl]);
    repeat split; exact Hq.
Qed.

Lemma handle_evolves q : In q qs -> keeps evolves (handle q).
Proof.
  intros Hq. destruct q; unfold handle, AdminController.updateTransactionStatus,
    AdminService.overrideTransactionStatus, AdminService.updateUserStatus, AdminService.updateUserRole,
    AdminService.updateSpread, AdminService.impersonateUser;
    try (apply keeps_bind; [typeclasses eauto | first [apply approve_evolves, Hq | apply request_evolves, Hq] |
      intros; apply keeps_ret; typeclasses eauto]);
    keeps_auto; try (apply evolves_same_rows; reflexivity).
Qed.

Lemma requests_evolve : keeps evolves (admin_requests qs).
Proof.
  apply (keeps_for_each evolves). intros q Hq. apply keeps_bind; [typeclasses eauto | |].
  - apply keeps_attempt, handle_evolves, Hq.
  - intros _. apply keeps_ret. typeclasses eauto.
Qed.
End Life.

(** An approved row names an administrator who did not request it, a pending
    one nobody. *)
Definition four_eyes (a : Approval) : Prop :=
  match a.(AdminApproval.status) with
  | AdminApprovalStatus.PENDING => a.(AdminApproval.approvedBy) = None
  | AdminApprovalStatus.APPROVED =>
      exists by_, a.(AdminApproval.approvedBy) = Some by_ /\ by_ <> a.(AdminApproval.requestedBy)
  | AdminApprovalStatus.REJECTED => True
  end.

(** Whoever sends an approval is known. *)
Definition identified (q : AdminRequest) : Prop := match q with QApprove _ None => False | _ => True end.

Lemma four_eyes_step qs a a' : Forall identified qs -> a' = a \/ approval_step qs a a' -> four_eyes a -> four_eyes a'.
Proof.
  intros Hi [->|[[by_|] u Hp Hq Hne]] Ha; [exact Ha | |].
  - exists by_. split; [reflexivity | intros Heq; apply Hne, f_equal, Heq].
  - rewrite List.Forall_forall in Hi. destruct (Hi _ Hq).
Qed.

(** C17 However requests are made and approved, by administrators who are known
    or by [undefined], whatever fails: every row is one there was or one of the
    requests asked for, by somebody; a row is as it was, or it was pending and
    one of the requests approved it, sent by another than its requester, whom it
    then names - or by [undefined], which passes for another and is not
    recorded; and none is lost.  When all who approve are known, every approved
    row names another administrator than its requester. *)
Theorem approvals_need_two_administrators qs (s : Store) :
  keys_ok s.(AdminStore.approvals) ->
  let s' := (admin_requests qs s).2 in
  let follows a a' := a' = a \/
    a.(AdminApproval.status) = AdminApprovalStatus.PENDING /\
    exists by_, In (QApprove a.(AdminApproval.id) by_) qs /\ by_ <> Some a.(AdminApproval.requestedBy) /\
      a' = AdminService.decided by_ a in
  (forall a, In a s.(AdminStore.approvals) -> exists a', In a' s'.(AdminStore.approvals) /\ follows a a') /\
  (forall a', In a' s'.(AdminStore.approvals) ->
     exists a, (In a s.(AdminStore.approvals) \/ requested qs a) /\ follows a a') /\
  (Forall identified qs -> Forall four_eyes s.(AdminStore.approvals) -> Forall four_eyes s'.(AdminStore.approvals)).
Proof.
  intros Hk s' follows. destruct (requests_evolve qs s Hk) as [_ Hkept Hnew]. fold s' in Hkept, Hnew.
  assert (Hf : forall a a', rtc (approval_step qs) a a' -> follows a a').
  { intros a a' Hst. destruct (step_once _ _ _ Hst) as [->|[by_ u Hp Hq Hne]]; [left; reflexivity | right].
    split; [exact Hp|]. exists by_. repeat split; assumption. }
  split; [|split].
  - intros a Ha. destruct (Hkept a Ha) as (a' & Ha' & _ & Hst). exists a'. split; [exact Ha' | apply Hf, Hst].
  - intros a' Ha'. destruct (Hnew a' Ha') as [(a & Ha & _ & Hst)|(a & Ha & Hst)]; exists a; split; auto.
  - intros Hi Hall. rewrite List.Forall_forall in *. intros a' Ha'.
    destruct (Hnew a' Ha') as [(a & Ha & _ & Hst)|(a & (Hp & Hby & _) & Hst)];
      apply (four_eyes_step qs a a'); auto using step_once; try (apply List.Forall_forall; assumption).
    unfold four_eyes. rewrite Hp. exact Hby.
Qed.

Definition admin_start : Store := AdminStore.mk demo_world [] [] [] [] [] AdminService.initial_spreads.
Definition an_override : json := JObj [("transactionId", JStr "t1"); ("newStatus", JStr "completed")].
Definition known_administrators : list AdminRequest :=
  [QRequest "override_transaction_status" an_override (Some "alice"); QApprove "u0" (Some "alice");
   QApprove "u0" (Some "bob"); QApprove "u0" (Some "carol")].

Lemma approvals_need_two_administrators_witness :
  let s' := (admin_requests known_administrators admin_start).2 in
  Forall four_eyes s'.(AdminStore.approvals) /\
  map (fun a => (a.(AdminApproval.id), a.(AdminApproval.status), a.(AdminApproval.approvedBy))) s'.(AdminStore.approvals) =
    [("u0", AdminApprovalStatus.APPROVED, Some "bob")].
Proof.
  intros s'. split; [|vm_compute; reflexivity].
  assert (Hk : keys_ok admin_start.(AdminStore.approvals)) by (split; constructor).
  refine (proj2 (proj2 (approvals_need_two_administrators known_administrators admin_start Hk)) _ _);
    repeat constructor.
Defined.

(** As the routes call it ([Routes.administrators_act_anonymously]): nobody can
    ask for an approval, and the requester approves alone. *)
Example approved_by_nobody :
  let run qs := (admin_requests qs admin_start).2.(AdminStore.approvals) in
  run [QRequest "override_transaction_status" an_override None] = [] /\
  map (fun a => (a.(AdminApproval.status), a.(AdminApproval.approvedBy)))
    (run [QRequest "override_transaction_status" an_override (Some "alice"); QApprove "u0" None]) =
    [(AdminApprovalStatus.APPROVED, None)].
Proof. vm_compute. split; reflexivity. Qed.

(** The approval of an override whose transaction does not exist is stored as
    approved although nothing was overridden. *)
Example approved_but_not_executed :
  let data := JObj [("transactionId", JStr "t1"); ("newStatus", JStr "completed")] in
  let s1 := (AdminService.requestAdminApproval "override_transaction_status" data (Some "alice") admin_start).2 in
  let r := AdminService.approveAdminRequest "u0" (Some "bob") s1 in
  r.1 = inl (NotFoundException "Transaction t1 not found") /\
  map AdminApproval.status r.2.(AdminStore.approvals) = [AdminApprovalStatus.APPROVED].
Proof. vm_compute. split; reflexivity. Qed.

(** ** What an override leaves *)

(** [a] is the row of [ev]. *)
Definition logged (ev : AuditService.AuditEvent) (a : AuditLog.AuditLog) : Prop :=
  a = AuditLog.mk a.(AuditLog.id) (AuditService.userId ev) (AuditService.action ev) (AuditService.entityType ev)
        (AuditService.entityId ev) (AuditService.before ev) (AuditService.after ev) (AuditService.reason ev)
        (AuditService.ipAddress ev) (AuditService.userAgent ev) a.(AuditLog.createdAt).

(** A call failed, or a key or an index was taken. *)
Definition write_failed (w : World) (x : exn) : Prop := env_fault (env_of w) x \/ x = unique_violation.

Lemma log_appends ev (w : World) Q X :
  keys_ok w.(World.audit_logs) ->
  (forall e x, env_step (env_of w) e -> write_failed w x -> X x (set_env e w)) ->
  (forall e a, env_step (env_of w) e -> logged ev a ->
     Q a (w <| World.env := e |> <| World.audit_logs := w.(World.audit_logs) ++ [a] |>)) ->
  wp (AuditService.log ev) Q X w.
Proof.
  intros Hk HX HQ. unfold AuditService.log. apply wp_save.
  - intros e x He [Hf|[-> _]]; apply HX; [exact He | left; exact Hf | exact He | right; reflexivity].
  - intros e r He Hr _ _ Hn. assert (Hex := keyless_not_in _ (AuditLog.mk "" (AuditService.userId ev)
      (AuditService.action ev) (AuditService.entityType ev) (AuditService.entityId ev) (AuditService.before ev)
      (AuditService.after ev) (AuditService.reason ev) (AuditService.ipAddress ev) (AuditService.userAgent ev) 0) Hk eq_refl).
    destruct (Hn Hex) as [_ Hfresh]. unfold upsert. rewrite Hfresh. apply HQ; [exact He|].
    destruct Hr; reflexivity.
Qed.

(** The audit entry of an override. *)
Definition override_event (tx updated : Transaction.Transaction) (admin : option string) (reason : option string) : AuditService.AuditEvent :=
  AuditService.mkEvent admin "admin.transaction.status_override" "transaction" (Some tx.(Transaction.id))
    (Some (AdminService.tx_snapshot tx)) (Some (AdminService.tx_snapshot updated)) reason None None.

(** An override sets the status of the named transaction and nothing else:
    no balance moves, and one audit entry is appended with the administrator,
    the reason and both snapshots.  When it fails nothing is written, unless it
    is the audit entry that could not be stored: then the status is already
    changed. *)
Theorem override_outcomes id st reason admin (s : Store) :
  keys_ok s.(AdminStore.core_world).(World.audit_logs) ->
  let txs := s.(AdminStore.core_world).(World.transactions) in
  let found tx := List.find (fun t => live t && String.eqb (row_id t) id) txs = Some tx in
  let with_tx e tx := s.(AdminStore.core_world) <| World.env := e |> <| World.transactions :=
                        upsert (tx <| Transaction.status := st |>) txs |> in
  wp (AdminController.updateTransactionStatus id st reason admin)
    (fun updated s' => exists tx e a, found tx /\ env_step (env_of s) e /\
       updated = tx <| Transaction.status := st |> /\ logged (override_event tx updated admin reason) a /\
       s' = s <| AdminStore.core_world := (with_tx e tx) <| World.audit_logs :=
                   s.(AdminStore.core_world).(World.audit_logs) ++ [a] |> |>)
    (fun x s' => (x = NotFoundException ("Transaction " +:+ id +:+ " not found") \/ write_failed (world_of s) x) /\
       (env_only s s' \/
        exists tx e, found tx /\ env_step (env_of s) e /\ s' = s <| AdminStore.core_world := with_tx e tx |>)) s.
Proof.
  intros Hk txs found with_tx. unfold AdminController.updateTransactionStatus, AdminService.overrideTransactionStatus.
  wp_step. apply wp_core. cbn [AdminService.findOne_id]. wp_step.
  { split; [right; left; assumption | left; eexists; split; [|reflexivity]; assumption]. }
  match goal with |- context [List.find ?p ?l] => destruct (List.find p l) as [tx|] eqn:Hf end; wp_step.
  2: { split; [left; reflexivity | left; eexists; split; [|reflexivity]; assumption]. }
  destruct (find_live_some _ _ _ Hf) as (Hin & _ & Hid). apply String.eqb_eq in Hid.
  assert (Hex : existsb (same_row (tx <| Transaction.status := st |>)) (rows (world_of s)) = true)
    by (apply existsb_exists; exists tx; split; [exact Hin | apply same_row_true; reflexivity]).
  apply wp_core. cbn [AdminService.save_with]. env_norm. apply wp_save; env_norm.
  - intros e x He Hfail. split; [right|left; eexists; split; [|reflexivity]; env_chain].
    destruct Hfail as [Hx|[-> _]]; [left; eapply env_step_fault; [|exact Hx]; assumption | right; reflexivity].
  - intros e r He _ _ Hu _. destruct (Hu Hex) as [t ->]. wp_step. apply wp_core. env_norm.
    apply log_appends; [exact Hk | |].
    + intros e2 x He2 Hx. split.
      * right. destruct Hx as [Hx|Hx]; [left; eapply env_step_fault; [|exact Hx]; env_chain | right; exact Hx].
      * right. exists tx, e2. split; [exact Hf|]. split; [env_chain|]. reflexivity.
    + intros e2 a He2 Ha. wp_step. exists tx, e2, a. split; [exact Hf|]. split; [env_chain|]. split; [reflexivity|].
      split; [|reflexivity]. subst id. exact Ha.
Qed.

(** ** The files the controller serves *)

(** A segment of a normal path. *)
Definition plain (x : string) : bool :=
  no_char "/" x && negb (String.eqb x "" || String.eqb x "." || String.eqb x "..").
(** A segment [normalize] keeps, when it does not go up. *)
Definition counts (x : string) : bool := negb (String.eqb x "" || String.eqb x ".").
(** One that neither holds a slash nor goes up. *)
Definition downward (x : string) : Prop := no_char "/" x = true /\ x <> "..".

Lemma resolve_down l : forall stack, Forall downward l ->
  AdminController.resolve_segments stack l = rev stack ++ List.filter counts l.
Proof.
  induction l as [|x l IH]; intros stack Hl; [rewrite app_nil_r; reflexivity|]. inversion Hl as [|? ? [_ Hx] Hl']; subst.
  cbn [AdminController.resolve_segments List.filter]. unfold counts at 1.
  destruct (String.eqb x "" || String.eqb x "."); cbn [negb]; [apply IH, Hl'|].
  rewrite (proj2 (String.eqb_neq x "..") Hx), IH by exact Hl'. simpl. rewrite <- app_assoc. reflexivity.
Qed.

Lemma plain_counts x : plain x = true -> counts x = true /\ downward x.
Proof.
  unfold plain, counts, downward. intros H. apply andb_prop in H as [Hn H]. apply negb_true_iff, orb_false_iff in H as [H H2].
  split; [rewrite H; reflexivity | split; [exact Hn | apply String.eqb_neq, H2]].
Qed.

Lemma safe_downward x : AdminController.unsafe_segment x = false -> downward x.
Proof.
  unfold AdminController.unsafe_segment. intros H. apply orb_false_iff in H as [H H2]. apply orb_false_iff in H as [H _].
  rewrite includes_char in H. apply negb_false_iff in H. split; [exact H|]. intros ->. discriminate.
Qed.

Section Files.
Context (dirs : list string) (Hdirs : Forall (fun x => plain x = true) dirs) (Hne : dirs <> []).

(** [resolve(process.cwd(), 'uploads', 'kyc')]: an absolute normal path. *)
Definition base_path : string := "/" +:+ join "/" dirs.

Lemma dirs_count : List.filter counts dirs = dirs.
Proof.
  clear Hne. induction Hdirs as [|x l Hx Hl IH]; [reflexivity|]. cbn [List.filter].
  rewrite (proj1 (plain_counts x Hx)), IH by exact Hl. reflexivity.
Qed.

Lemma dirs_downward : Forall downward dirs.
Proof. eapply Forall_impl; [exact Hdirs|]. intros x Hx. apply plain_counts, Hx. Qed.

Lemma normalize_below l : Forall downward l ->
  AdminController.normalize ("/" +:+ join "/" (dirs ++ l)) = "/" +:+ join "/" (dirs ++ List.filter counts l).
Proof.
  intros Hl. pose proof (proj2 (Forall_app downward dirs l) (conj dirs_downward Hl)) as Hall.
  unfold AdminController.normalize. change ("/" +:+ join "/" (dirs ++ l)) with (String "/" (join "/" (dirs ++ l))).
  cbn [split_on]. rewrite Ascii.eqb_refl, split_join.
  - assert (H0 : Forall downward ("" :: dirs ++ l)) by (constructor; [split; [reflexivity | discriminate] | exact Hall]).
    rewrite (resolve_down _ [] H0). cbn [rev app List.filter]. change (counts "") with false. cbv iota.
    rewrite List.filter_app, dirs_count. reflexivity.
  - intros H. apply app_eq_nil in H as [H _]. exact (Hne H).
  - eapply Forall_impl; [exact Hall|]. intros x [Hx _]. exact Hx.
Qed.

Lemma join_path_below l : Forall downward l ->
  AdminController.join_path base_path l = "/" +:+ join "/" (dirs ++ List.filter counts l).
Proof.
  intros Hl. unfold AdminController.join_path. set (l' := List.filter _ l).
  assert (Hj : join "/" (base_path :: l') = "/" +:+ join "/" (dirs ++ l')).
  { clearbody l'. unfold base_path. destruct l' as [|y l'']; [rewrite app_nil_r; reflexivity|].
    rewrite (join_app "/" dirs (y :: l'')) by (assumption || discriminate).
    change (join "/" (("/" +:+ join "/" dirs) :: y :: l'')) with (("/" +:+ join "/" dirs) +:+ "/" +:+ join "/" (y :: l'')).
    apply string_app_assoc. }
  rewrite Hj, normalize_below.
  - do 3 f_equal. unfold l'. clear. induction l as [|x l IH]; [reflexivity|]. cbn [List.filter].
    unfold counts. destruct (String.eqb x "") eqn:Hx; cbn [negb orb]; [exact IH|]. cbn [List.filter]. rewrite Hx. cbn [orb].
    destruct (negb (String.eqb x ".")); [f_equal|]; exact IH.
  - apply List.Forall_forall. intros x Hx. apply filter_In in Hx as [Hx _]. rewrite List.Forall_forall in Hl. auto.
Qed.

Lemma below_base l : String.prefix (base_path +:+ "/") ("/" +:+ join "/" (dirs ++ l)) = match l with [] => false | _ => true end.
Proof.
  destruct l as [|x l].
  - rewrite app_nil_r. fold base_path. apply not_true_is_false. intros H. apply prefix_length in H.
    rewrite string_length_app in H. simpl in H. lia.
  - rewrite join_app by (assumption || discriminate). change ("/" +:+ join "/" dirs +:+ "/" +:+ join "/" (x :: l)) with
      (base_path +:+ "/" +:+ join "/" (x :: l)). rewrite <- string_app_assoc. apply prefix_app.
Qed.

(** The controller serves exactly the paths below its directory that the
    three segments name: a segment with a slash, a backslash or two dots is
    refused, empty segments and single dots are left out, and when nothing is
    left the path is refused. *)
Theorem kyc_files_stay_below_their_directory {S} userId version filename (s : S) :
  let segments := [userId; version; filename] in
  AdminController.serveKycFile base_path userId version filename s =
    (match List.find (fun '(x, _) => AdminController.unsafe_segment x)
             [(userId, "userId"); (version, "version"); (filename, "filename")],
           List.filter counts segments with
     | Some (_, name), _ =>
         inl (BadRequestException ("Invalid path segment in " +:+ name +:+ " - traversal sequences are not permitted"))
     | None, [] => inl (BadRequestException "Resolved path falls outside the KYC uploads directory")
     | None, kept => inr (base_path +:+ "/" +:+ join "/" kept)
     end, s).
Proof.
  intros segments. unfold AdminController.serveKycFile, AdminController.assertSafePathSegment, throw_if, bind.
  cbn [List.find].
  destruct (AdminController.unsafe_segment userId) eqn:H1; [reflexivity|].
  destruct (AdminController.unsafe_segment version) eqn:H2; [reflexivity|].
  destruct (AdminController.unsafe_segment filename) eqn:H3; [reflexivity|]. cbn [ret]. fold segments.
  assert (Hl : Forall downward segments) by (repeat constructor; apply safe_downward; assumption).
  rewrite (join_path_below _ Hl), normalize_below.
  - assert (Hff : List.filter counts (List.filter counts segments) = List.filter counts segments).
    { apply List.forallb_filter_id, forallb_forall. intros x Hx. apply filter_In in Hx. apply Hx. }
    rewrite Hff. unfold starts_with. rewrite below_base. destruct (List.filter counts segments) as [|x l]; [reflexivity|].
    cbn [negb ret]. rewrite join_app by (assumption || discriminate). reflexivity.
  - apply List.Forall_forall. intros x Hx. apply filter_In in Hx as [Hx _]. rewrite List.Forall_forall in Hl. auto.
Qed.
End Files.

Lemma kyc_files_stay_below_their_directory_witness :
  AdminController.serveKycFile (base_path ["srv"; "uploads"; "kyc"]) "u1" "." "passport.png" tt =
    (inr "/srv/uploads/kyc/u1/passport.png", tt) /\
  AdminController.serveKycFile (base_path ["srv"; "uploads"; "kyc"]) "." "" "." tt =
    (inl (BadRequestException "Resolved path falls outside the KYC uploads directory"), tt).
Proof.
  split.
  - refine (kyc_files_stay_below_their_directory ["srv"; "uploads"; "kyc"] _ _ "u1" "." "passport.png" tt);
      [repeat constructor | discriminate].
  - refine (kyc_files_stay_below_their_directory ["srv"; "uploads"; "kyc"] _ _ "." "" "." tt);
      [repeat constructor | discriminate].
Defined.

Definition stuck_transfer : Transaction.Transaction :=
  Transaction.mk "t1" "alice" "bob" (num_of_Z 100) "USD" (num_of_Z 0) TransactionStatus.PENDING "REF1" None [] 0
    None None None None None None 0 None [] None None None.
Definition admin_world : Store :=
  AdminStore.mk (demo_world <| World.transactions := [stuck_transfer] |>) [] [] [] [] [] AdminService.initial_spreads.

(** One administrator alone completes a transfer that moved no money. *)
Lemma override_outcomes_witness :
  match AdminController.updateTransactionStatus "t1" TransactionStatus.COMPLETED None (Some "alice") admin_world with
  | (inr updated, s') => exists tx e a,
      List.find (fun t => live t && String.eqb (row_id t) "t1") admin_world.(AdminStore.core_world).(World.transactions) = Some tx /\
      env_step (env_of admin_world) e /\ updated = tx <| Transaction.status := TransactionStatus.COMPLETED |> /\
      logged (override_event tx updated (Some "alice") None) a /\
      s' = admin_world <| AdminStore.core_world := (admin_world.(AdminStore.core_world) <| World.env := e |>
             <| World.transactions := upsert (tx <| Transaction.status := TransactionStatus.COMPLETED |>)
                                        admin_world.(AdminStore.core_world).(World.transactions) |>)
             <| World.audit_logs := [a] |> |>
  | _ => False
  end.
Proof.
  assert (Hk : keys_ok admin_world.(AdminStore.core_world).(World.audit_logs)) by (split; constructor).
  assert (Hw := override_outcomes "t1" TransactionStatus.COMPLETED None (Some "alice") admin_world Hk).
  assert (H1 : match (AdminController.updateTransactionStatus "t1" TransactionStatus.COMPLETED None (Some "alice") admin_world).1 with
               | inr _ => True | _ => False end) by (vm_compute; exact I).
  destruct (AdminController.updateTransactionStatus "t1" TransactionStatus.COMPLETED None (Some "alice") admin_world) as [[x|u] s'] eqn:E.
  - destruct H1.
  - exact (wp_run_ok _ _ _ _ _ _ Hw E).
Defined.
