(* ===== verification/Exports.v ===== *)
(** admin/exports/ and the other exports: CSV text and a reader for it
    (csvEscape of admin-exports.processor.ts, convertToCsv of
    modules/export/services/export.service.ts), the worker that writes the
    transactions of a range in batches (admin-exports.processor.ts), the links
    to finished exports (export-storage.service.ts) and the audit log as a
    stream of JSON (audit/audit-export.service.ts). *)
From Stdlib Require Import Sorting.Sorted.
From stdpp Require Import sorting.
From S2P Require Import Prelude JsNumber Effects RepositoryLaws NumberLaws JsData Json Entities World QueryBuilder CoreCalls.
Local Open Scope Z_scope.

(** ** CSV *)

Definition newline : string := String (ascii_of_nat 10) "".
Definition dquote : ascii := ascii_of_nat 34.

(** Every double quote twice. *)
Fixpoint double_quotes (s : string) : string :=
  match s with
  | EmptyString => ""
  | String c s' => if Ascii.eqb c dquote then String c (String c (double_quotes s')) else String c (double_quotes s')
  end.

(** The text between double quotes, those inside doubled. *)
Definition in_quotes (s : string) : string := String dquote (double_quotes s +:+ String dquote "").

(** A double quote, a comma or a newline. *)
Definition csv_special (c : ascii) : bool :=
  Ascii.eqb c dquote || Ascii.eqb c "," || Ascii.eqb c (ascii_of_nat 10).
Definition needs_quotes (s : string) : bool := existsb csv_special (list_ascii_of_string s).

(** [None] is [null] or [undefined]. *)
Definition csvEscape (value : option string) : string :=
  let str := default "" value in if needs_quotes str then in_quotes str else str.

Module ExportService.
(** The cell of a row in a column. *)
Definition cell (val : option string) : string :=
  match val with
  | None => ""
  | Some str =>
      if includes "," str || includes quote str || includes newline str then in_quotes str else str
  end.

Definition convertToCsv {R} (data : list R) (columns : list (string * (R -> option string))) : string :=
  let header := join "," (map fst columns) in
  let rows := map (fun row => join "," (map (fun '(_, col) => cell (col row)) columns)) data in
  join newline (header :: rows).
End ExportService.

(** ** Stored exports *)

(** The signed token of a download and its verification at a time: [None] when
    the signature is wrong or the token has expired. *)
Class DownloadTokens : Type := {
  sign_download : Z -> string * string -> string;
  verify_download : Z -> string -> option (string * string)
}.

(** A token is good for 900 seconds; jsonwebtoken counts whole seconds. *)
Class DownloadTokenLaws `{DownloadTokens} : Prop := {
  verify_signed : forall t t' p, t' / 1000 < t / 1000 + 900 -> verify_download t' (sign_download t p) = Some p;
  verify_expired : forall t t' p, t / 1000 + 900 <= t' / 1000 -> verify_download t' (sign_download t p) = None
}.

Module ExportStore.
Record ExportStore : Type := mk {
  core_world : World;
  temporary : gmap string string;
  exports : gmap string string;
  progress : Z
}.
#[global] Instance settable : Settable ExportStore := fun r =>
  mk r.(core_world) r.(temporary) r.(exports) r.(progress).
End ExportStore.

#[global] Program Instance ExportStore_world : HasWorld ExportStore.ExportStore := {|
  world_of := ExportStore.core_world;
  set_world w s := s <| ExportStore.core_world := w |>
|}.

Notation Store := ExportStore.ExportStore.

Module ExportStorageService.
Section Service.
Context `{DownloadTokens}.
Definition DOWNLOAD_TTL_SECONDS : Z := 900.

(** [renameSync] throws when there is no such file. *)
Definition store (sourcePath jobId extension : string) : M Store (string * Z) :=
  let filename := jobId +:+ "." +:+ extension in
  let* files := gets ExportStore.temporary in
  match files !! sourcePath with
  | None => throw (JsError "Error" "ENOENT: no such file or directory")
  | Some content =>
      modify (fun s => s <| ExportStore.temporary := delete sourcePath files |>
                         <| ExportStore.exports := <[filename := content]> s.(ExportStore.exports) |>) ;;;
      let* iat := date_now in
      let token := sign_download iat (jobId, filename) in
      let* now := date_now in
      ret ("/api/v1/admin/exports/" +:+ jobId +:+ "/download?token=" +:+ token, now + DOWNLOAD_TTL_SECONDS * 1000)
  end.

(** The name of the file under the directory of exports. *)
Definition resolve (jobId token : string) : M Store string :=
  let* now := date_now in
  match verify_download now token with
  | None => throw (ForbiddenException "Download link is invalid or has expired")
  | Some (payload_jobId, filename) =>
      throw_if (negb (String.eqb payload_jobId jobId))
        (ForbiddenException "Download link is invalid or has expired") ;;;
      ret filename
  end.
End Service.
End ExportStorageService.

(** ** The worker *)

Record ExportTransactionsJobData : Type := mkJob {
  from : Z;
  to : Z;
  status : option TransactionStatus.TransactionStatus;
  currency : option string;
  requestedByEmail : string
}.

Module AdminExportsProcessor.
Section Processor.
(** How the driver spells a decimal column, and in which order the database
    comes by the rows of its [n]-th query: that order decides between rows with
    the same sort key, and nothing makes it the same for two queries. *)
Context (decimal_text : num -> string)
  (row_order : nat -> list Transaction.Transaction -> list Transaction.Transaction) `{DownloadTokens}.

Definition BATCH_SIZE : Z := 1000.
Definition CSV_HEADER : string :=
  "id,senderId,receiverId,amount,currency,fee,status,reference,receiptNumber,createdAt".

Definition matches (data : ExportTransactionsJobData) (t : Transaction.Transaction) : bool :=
  (from data <=? t.(Transaction.createdAt)) && (t.(Transaction.createdAt) <=? to data) &&
  and_where (status data) (fun _ => true) (fun st => TransactionStatus.eqb t.(Transaction.status) st) &&
  and_where (currency data) str_truthy (fun c => String.eqb t.(Transaction.currency) c).

(** [qb.orderBy('t.createdAt', 'ASC').skip(skip).take(BATCH_SIZE).getMany()]. *)
Definition next_batch (data : ExportTransactionsJobData) (skip : Z) : M Store (list Transaction.Transaction) :=
  let* n := gets (fun s => calls (env_of s)) in
  let* l := core (find_all (matches data)) in
  ret (page_of skip BATCH_SIZE (order_asc Transaction.createdAt (row_order n l))).

Definition fields (tx : Transaction.Transaction) : list (option string) :=
  [Some tx.(Transaction.id); Some tx.(Transaction.senderId); Some tx.(Transaction.receiverId);
   Some (decimal_text tx.(Transaction.amount)); Some tx.(Transaction.currency);
   Some (decimal_text tx.(Transaction.fee)); Some (TransactionStatus.show tx.(Transaction.status));
   Some tx.(Transaction.reference); tx.(Transaction.receiptNumber); Some (toISOString tx.(Transaction.createdAt))].

Definition csv_line (tx : Transaction.Transaction) : string := join "," (map csvEscape (fields tx)) +:+ newline.

Definition write (path text : string) : M Store unit :=
  modify (fun s => s <| ExportStore.temporary :=
    <[path := default "" (s.(ExportStore.temporary) !! path) +:+ text]> s.(ExportStore.temporary) |>).

(** [await job.progress(count)]: a call to Redis. *)
Definition job_progress (count : Z) : M Store unit :=
  db_call ;;; modify (fun s => s <| ExportStore.progress := count |>).

(** [for (;;) { ... }]: [None] when the fuel runs out. *)
Fixpoint batches (fuel : nat) (data : ExportTransactionsJobData) (tmpPath : string) (skip count : Z) : M Store (option Z) :=
  match fuel with
  | O => ret None
  | S n =>
      let* batch := next_batch data skip in
      if Z.of_nat (length batch) =? 0 then ret (Some count)
      else
        for_each batch (fun tx => write tmpPath (csv_line tx)) ;;;
        let count := count + Z.of_nat (length batch) in
        let skip := skip + BATCH_SIZE in
        job_progress count ;;;
        if Z.of_nat (length batch) <? BATCH_SIZE then ret (Some count) else batches n data tmpPath skip count
  end.

(** [tmpPath] is a fresh file: [createWriteStream] truncates it.  The last
    message only writes a log line. *)
Definition handle (fuel : nat) (jobId : string) (data : ExportTransactionsJobData) :
    M Store (option (string * Z * Z)) :=
  let tmpPath := "/tmp/export-" +:+ jobId +:+ ".csv" in
  modify (fun s => s <| ExportStore.temporary := <[tmpPath := ""]> s.(ExportStore.temporary) |>) ;;;
  write tmpPath (CSV_HEADER +:+ newline) ;;;
  let* count := batches fuel data tmpPath 0 0 in
  match count with
  | None => ret None
  | Some count =>
      db_call ;;;
      let* ' (downloadUrl, expiresAt) := ExportStorageService.store tmpPath jobId "csv" in
      ret (Some (downloadUrl, expiresAt, count))
  end.
End Processor.
End AdminExportsProcessor.

(** ** The audit log as a stream *)

Module AuditExportService.
Definition max_sync_ms : Z := 90 * 24 * 60 * 60 * 1000.

(** The chunks the transform passes on, [isFirst] being its variable. *)
Fixpoint json_chunks (isFirst : bool) (rows : list json) : list string :=
  match rows with
  | [] => ["]"]
  | row :: rows' => ((if isFirst then "" else ",") +:+ stringify row) :: json_chunks false rows'
  end.

Definition text (chunks : list string) : string := fold_right String.append "" chunks.

(** The body of the answer, or the status 400; a PDF is left to pdf-lib. *)
Definition streamExport (row_json : AuditLog.AuditLog -> json) (startDate endDate : Z) (format : string) :
    M Store (option string) :=
  if max_sync_ms <? endDate - startDate then ret None
  else
    let* l := core (find_asc (fun log => (startDate <=? log.(AuditLog.createdAt)) && (log.(AuditLog.createdAt) <=? endDate))
                      AuditLog.createdAt) in
    let rows := map row_json l in
    if String.eqb format "json" then ret (Some (text ("[" :: json_chunks true rows)))
    else ret (Some (text (map (fun row => stringify row +:+ newline) rows))).
End AuditExportService.

(** ** Reading CSV back *)

(** Where a reader of RFC 4180 is: at the start of a field, in a bare field, in
    quotes, behind a quote that may be the closing one. *)
Inductive Mode : Type := Start | Bare | Quoted | Closing.

Definition comma : ascii := ",".
Definition linefeed : ascii := ascii_of_nat 10.

Fixpoint read_from (m : Mode) (field : string) (row : list string) (s : string) : list (list string) :=
  match s with
  | EmptyString =>
      match m, row with
      | Start, [] => []
      | _, _ => [row ++ [field]]
      end
  | String c s' =>
      match m with
      | Quoted =>
          if Ascii.eqb c dquote then read_from Closing field row s'
          else read_from Quoted (field +:+ String c "") row s'
      | _ =>
          if Ascii.eqb c comma then read_from Start "" (row ++ [field]) s'
          else if Ascii.eqb c linefeed then (row ++ [field]) :: read_from Start "" [] s'
          else if Ascii.eqb c dquote then
            match m with
            | Start => read_from Quoted field row s'
            | Closing => read_from Quoted (field +:+ String dquote "") row s'
            | _ => read_from Bare (field +:+ String c "") row s'
            end
          else read_from Bare (field +:+ String c "") row s'
      end
  end.
Definition read_csv (s : string) : list (list string) := read_from Start "" [] s.

Definition escape (s : string) : string := if needs_quotes s then in_quotes s else s.

Lemma read_comma m f row s : m <> Quoted -> read_from m f row (String comma s) = read_from Start "" (row ++ [f]) s.
Proof. destruct m; intros; [reflexivity | reflexivity | congruence | reflexivity]. Qed.

Lemma read_linefeed m f row s : m <> Quoted -> read_from m f row (String linefeed s) = (row ++ [f]) :: read_from Start "" [] s.
Proof. destruct m; intros; [reflexivity | reflexivity | congruence | reflexivity]. Qed.

Lemma read_bare t : forall f row s, needs_quotes t = false -> read_from Bare f row (t +:+ s) = read_from Bare (f +:+ t) row s.
Proof.
  unfold needs_quotes. induction t as [|c t IH]; intros f row s Ht; [rewrite string_app_empty; reflexivity|].
  simpl in Ht. apply orb_false_iff in Ht as [Hc Ht]. unfold csv_special in Hc.
  apply orb_false_iff in Hc as [Hc Hl]. apply orb_false_iff in Hc as [Hq Hc].
  change (String c t +:+ s) with (String c (t +:+ s)). cbn [read_from].
  unfold comma, linefeed. rewrite Hc, Hl, Hq, IH by exact Ht. rewrite string_app_assoc. reflexivity.
Qed.

Lemma read_quoted t : forall f row s,
  read_from Quoted f row (double_quotes t +:+ String dquote s) = read_from Closing (f +:+ t) row s.
Proof.
  induction t as [|c t IH]; intros f row s; [rewrite string_app_empty; reflexivity|]. cbn [double_quotes].
  destruct (Ascii.eqb_spec c dquote) as [->|Hc].
  - change (String dquote (String dquote (double_quotes t)) +:+ String dquote s) with
      (String dquote (String dquote (double_quotes t +:+ String dquote s))).
    cbn [read_from]. rewrite Ascii.eqb_refl. change (Ascii.eqb dquote comma) with false. change (Ascii.eqb dquote linefeed) with false.
    cbv iota. rewrite IH, string_app_assoc. reflexivity.
  - change (String c (double_quotes t) +:+ String dquote s) with (String c (double_quotes t +:+ String dquote s)).
    cbn [read_from]. rewrite (proj2 (Ascii.eqb_neq c dquote) Hc), IH, string_app_assoc. reflexivity.
Qed.

Lemma newline_app s : newline +:+ s = String linefeed s.
Proof. reflexivity. Qed.
Lemma comma_app s t : String comma s +:+ t = String comma (s +:+ t).
Proof. reflexivity. Qed.

(** A field reads as it was. *)
Lemma read_field t row s : exists m, m <> Quoted /\ (t <> "" -> m <> Start) /\
  read_from Start "" row (escape t +:+ s) = read_from m t row s.
Proof.
  unfold escape. destruct (needs_quotes t) eqn:Ht.
  - exists Closing. split; [discriminate|]. split; [discriminate|]. unfold in_quotes.
    change (String dquote (double_quotes t +:+ String dquote "") +:+ s) with
      (String dquote ((double_quotes t +:+ String dquote "") +:+ s)). rewrite string_app_assoc.
    change (read_from Quoted "" row (double_quotes t +:+ String dquote s) = read_from Closing t row s).
    rewrite read_quoted. reflexivity.
  - destruct t as [|c t]; [exists Start; split; [discriminate|]; split; [congruence | reflexivity]|].
    exists Bare. split; [discriminate|]. split; [discriminate|].
    transitivity (read_from Bare "" row (String c t +:+ s)); [|rewrite read_bare by exact Ht; reflexivity].
    unfold needs_quotes in Ht. simpl in Ht. apply orb_false_iff in Ht as [Hc _]. unfold csv_special in Hc.
    apply orb_false_iff in Hc as [Hc _]. apply orb_false_iff in Hc as [Hq _].
    change (String c t +:+ s) with (String c (t +:+ s)). cbn [read_from]. rewrite Hq. reflexivity.
Qed.

(** The rest of a line up to its linefeed. *)
Lemma read_line l : forall row s, l <> [] ->
  read_from Start "" row (join "," (map escape l) +:+ String linefeed s) = (row ++ l) :: read_from Start "" [] s.
Proof.
  induction l as [|t l IH]; intros row s Hl; [congruence|]. destruct l as [|u l].
  - cbn [map join]. destruct (read_field t row (String linefeed s)) as (m & Hm & _ & ->). apply read_linefeed, Hm.
  - change (join "," (map escape (t :: u :: l))) with (escape t +:+ String comma (join "," (map escape (u :: l)))).
    rewrite string_app_assoc. rewrite comma_app.
    destruct (read_field t row (String comma (join "," (map escape (u :: l)) +:+ String linefeed s))) as (m & Hm & _ & ->).
    rewrite read_comma, IH by (assumption || discriminate). rewrite <- app_assoc. reflexivity.
Qed.

(** The last line may lack its linefeed when it has two fields. *)
Lemma read_last l : forall row, (2 <= length row + length l)%nat -> l <> [] ->
  read_from Start "" row (join "," (map escape l)) = [row ++ l].
Proof.
  induction l as [|t l IH]; intros row Hn Hl; [congruence|]. destruct l as [|u l].
  - cbn [map join]. destruct (read_field t row "") as (m & Hm & _ & H). rewrite string_app_empty in H. rewrite H.
    destruct row; [simpl in Hn; lia|]. destruct m; reflexivity.
  - change (join "," (map escape (t :: u :: l))) with (escape t +:+ String comma (join "," (map escape (u :: l)))).
    destruct (read_field t row (String comma (join "," (map escape (u :: l))))) as (m & Hm & _ & ->).
    rewrite read_comma, IH; [rewrite <- app_assoc; reflexivity | | discriminate | exact Hm].
    rewrite app_length. simpl in *. lia.
Qed.

Lemma read_lines (rows : list (list string)) : Forall (fun r => r <> []) rows ->
  read_csv (fold_right String.append "" (map (fun r => join "," (map escape r) +:+ newline) rows)) = rows.
Proof.
  intros Hr. unfold read_csv. induction Hr as [|r rows Hr Hrs IH]; [reflexivity|]. cbn [map fold_right].
  rewrite string_app_assoc. rewrite newline_app, read_line by exact Hr. f_equal. apply IH.
Qed.

Lemma needs_quotes_includes s : needs_quotes s = includes "," s || includes quote s || includes newline s.
Proof.
  unfold quote, newline. rewrite !includes_char. unfold needs_quotes. induction s as [|c s IH]; [reflexivity|].
  simpl. rewrite IH. unfold csv_special, dquote. 
  destruct (Ascii.eqb c (ascii_of_nat 34)), (Ascii.eqb c ","), (Ascii.eqb c (ascii_of_nat 10)),
    (no_char "," s), (no_char (ascii_of_nat 34) s), (no_char (ascii_of_nat 10) s); reflexivity.
Qed.

Lemma cell_escape v : ExportService.cell v = escape (default "" v).
Proof. destruct v as [s|]; [|reflexivity]. unfold ExportService.cell, escape. rewrite needs_quotes_includes. reflexivity. Qed.

Lemma read_joined (rows : list (list string)) : rows <> [] -> Forall (fun r => (2 <= length r)%nat) rows ->
  read_csv (join newline (map (fun r => join "," (map escape r)) rows)) = rows.
Proof.
  unfold read_csv. intros Hne Hr. induction Hr as [|r rows Hr Hrs IH]; [congruence|].
  assert (r <> []) by (intros ->; simpl in Hr; lia). destruct rows as [|r' rows].
  - apply (read_last r []); assumption.
  - set (f := fun l => join "," (map escape l)) in *.
    change (join newline (map f (r :: r' :: rows))) with (f r +:+ newline +:+ join newline (map f (r' :: rows))).
    rewrite newline_app. unfold f at 1. rewrite read_line by assumption. f_equal. apply IH. discriminate.
Qed.

(** What [convertToCsv] writes reads back as the header and the rows, commas,
    quotes and newlines in the values included. *)
Theorem csv_reads_back {R} (data : list R) columns :
  (2 <= length columns)%nat -> Forall (fun c => needs_quotes c = false) (map fst columns) ->
  read_csv (ExportService.convertToCsv data columns) =
    map fst columns :: map (fun row => map (fun '(_, col) => default "" (col row)) columns) data.
Proof.
  intros Hn Hh. unfold ExportService.convertToCsv.
  set (rows := map fst columns :: map (fun row => map (fun '(_, col) => default "" (col row)) columns) data).
  transitivity (read_csv (join newline (map (fun r => join "," (map escape r)) rows))).
  - f_equal. f_equal. unfold rows. cbn [map]. f_equal.
    + f_equal. induction Hh as [|h l Hh Hl IH]; [reflexivity|]. cbn [map]. rewrite <- IH. unfold escape. rewrite Hh. reflexivity.
    + rewrite map_map. apply map_ext. intros row. f_equal. rewrite map_map. apply map_ext. intros [k col]. apply cell_escape.
  - apply read_joined; [discriminate|]. unfold rows. constructor; [rewrite length_map; exact Hn|].
    apply List.Forall_forall. intros r Hr. apply in_map_iff in Hr as (row & <- & _). rewrite length_map. exact Hn.
Qed.

Lemma csv_reads_back_witness :
  let columns := [("id", fun r : string * option string => Some (fst r)); ("description", fun r => snd r)] in
  let note := String dquote "a" +:+ String dquote ("," +:+ newline) in
  read_csv (ExportService.convertToCsv [("1", Some note); ("2", None)] columns) = [["id"; "description"]; ["1"; note]; ["2"; ""]].
Proof.
  intros columns note.
  refine (csv_reads_back [("1", Some note); ("2", None)] columns _ _); [simpl; lia | repeat constructor].
Defined.

(** ** What the worker writes *)

(** [s'] is [s] after [t] was added to the file, with calls made and progress
    reported. *)
Definition wrote (path t : string) (s s' : Store) : Prop :=
  exists e p, env_step (env_of s) e /\
    s' = (set_env e s) <| ExportStore.temporary :=
            <[path := default "" (s.(ExportStore.temporary) !! path) +:+ t]> s.(ExportStore.temporary) |>
          <| ExportStore.progress := p |>.

Definition file (s : Store) (path : string) : string := default "" (s.(ExportStore.temporary) !! path).

Lemma wrote_file path t s s' : wrote path t s s' -> file s' path = file s path +:+ t.
Proof. intros (e & p & _ & ->). unfold file. simpl. rewrite lookup_insert_eq. reflexivity. Qed.

Lemma wrote_trans path t t' s s1 s2 : wrote path t s s1 -> wrote path t' s1 s2 -> wrote path (t +:+ t') s s2.
Proof.
  intros (e & p & He & ->) (e' & p' & He' & ->). exists e', p'. split; [env_norm; etransitivity; eassumption|].
  unfold assign. simpl. rewrite lookup_insert_eq. simpl. rewrite string_app_assoc, insert_insert_eq. reflexivity.
Qed.

Lemma wrote_env path t s e s' : env_step (env_of s) e -> wrote path t (set_env e s) s' -> wrote path t s s'.
Proof. intros He (e' & p & He' & ->). exists e', p. split; [env_norm; etransitivity; eassumption | reflexivity]. Qed.

Lemma wrote_fault path t s s' x : wrote path t s s' -> env_fault (env_of s') x -> env_fault (env_of s) x.
Proof. intros (e & p & He & ->) Hx. eapply env_step_fault; [exact He | exact Hx]. Qed.

Lemma wrote_there path t s s' : wrote path t s s' -> is_Some (s'.(ExportStore.temporary) !! path).
Proof. intros (e & p & _ & ->). simpl. rewrite lookup_insert_eq. eauto. Qed.

Lemma wrote_nothing path s e p : is_Some (s.(ExportStore.temporary) !! path) -> env_step (env_of s) e ->
  wrote path "" s ((set_env e s) <| ExportStore.progress := p |>).
Proof.
  intros [t Ht] He. exists e, p. split; [exact He|]. rewrite Ht. simpl. rewrite string_app_empty, insert_id by exact Ht.
  destruct s; reflexivity.
Qed.

(** The rows of the table do not move. *)
Lemma wrote_world path t s s' : wrote path t s s' ->
  (world_of s').(World.transactions) = (world_of s).(World.transactions).
Proof. intros (e & p & _ & ->). reflexivity. Qed.

(** What [store] leaves, and the token it signs at its first look at the clock. *)
Lemma store_link_spec `{DownloadTokens} path jobId ext text (s : Store) Q X :
  s.(ExportStore.temporary) !! path = Some text ->
  (forall e url expiresAt, env_step (env_of s) e ->
     url = "/api/v1/admin/exports/" +:+ jobId +:+ "/download?token=" +:+
           sign_download (clock (env_of s) (tick (env_of s))) (jobId, jobId +:+ "." +:+ ext) ->
     Q (url, expiresAt)
       ((set_env e s) <| ExportStore.temporary := delete path s.(ExportStore.temporary) |>
                      <| ExportStore.exports := <[jobId +:+ "." +:+ ext := text]> s.(ExportStore.exports) |>)) ->
  wp (ExportStorageService.store path jobId ext) Q X s.
Proof.
  intros Htext HQ. unfold ExportStorageService.store. apply wp_bind, wp_gets. rewrite Htext.
  apply wp_bind, wp_modify. apply wp_bind, wp_date_now_exact. apply wp_bind, wp_date_now. intros n e He _.
  apply wp_ret. refine (HQ e _ _ _ eq_refl). etransitivity; [apply next_tick_step | exact He].
Qed.

Section Worker.
Context (decimal_text : num -> string)
  (row_order : nat -> list Transaction.Transaction -> list Transaction.Transaction).
Hypothesis row_order_permutes : forall n l, Permutation (row_order n l) l.
Notation csv_line := (AdminExportsProcessor.csv_line decimal_text).

Definition lines (l : list Transaction.Transaction) : string := fold_right String.append "" (map csv_line l).

Lemma lines_app l l' : lines (l ++ l') = lines l +:+ lines l'.
Proof. unfold lines. induction l as [|t l IH]; [reflexivity|]. simpl. rewrite IH, string_app_assoc. reflexivity. Qed.

Lemma write_lines path l : forall s, l <> [] ->
  wp (for_each l (fun tx => AdminExportsProcessor.write path (csv_line tx)))
    (fun _ s' => wrote path (lines l) s s') (fun x s' => env_fault (env_of s) x) s.
Proof.
  induction l as [|t l IH]; intros s Hl; [congruence|]. cbn [for_each]. apply wp_bind. unfold AdminExportsProcessor.write at 1.
  apply wp_modify. match goal with |- wp _ _ _ ?st => set (s1 := st) end.
  assert (H1 : wrote path (csv_line t) s s1).
  { exists (env_of s), s.(ExportStore.progress). split; [reflexivity|]. unfold s1. rewrite set_env_env_of. destruct s; reflexivity. }
  destruct l as [|u l].
  - apply wp_ret. unfold lines. simpl. rewrite string_app_empty. exact H1.
  - eapply wp_mono; [apply (IH s1); discriminate | |].
    + intros [] s2 H2. exact (wrote_trans _ _ _ _ _ _ H1 H2).
    + intros x s2 Hx. exact (wrote_fault _ _ _ _ _ H1 Hx).
Qed.

Context (data : ExportTransactionsJobData).
(** The transactions that match, oldest first, and the same as the [n]-th query
    comes by them. *)
Definition matching (s : Store) : list Transaction.Transaction :=
  List.filter (fun t => live t && AdminExportsProcessor.matches data t) (world_of s).(World.transactions).
Definition selected (s : Store) : list Transaction.Transaction := order_asc Transaction.createdAt (matching s).
Definition listed (n : nat) (s : Store) : list Transaction.Transaction :=
  order_asc Transaction.createdAt (row_order n (matching s)).
Notation times := (map Transaction.createdAt).

Lemma listed_perm n s : Permutation (listed n s) (selected s).
Proof. unfold listed, selected. rewrite (order_asc_perm _ (row_order _ _)), row_order_permutes. symmetry. apply order_asc_perm. Qed.

Lemma listed_times n s : times (listed n s) = times (selected s).
Proof.
  assert (Hs : forall l, StronglySorted Z.le (times (order_asc Transaction.createdAt l))).
  { intros l. induction (sorted_order_asc Transaction.createdAt l) as [|t l' Ht _ IH]; cbn [map]; constructor; [exact IH|].
    apply List.Forall_map. exact Ht. }
  apply (StronglySorted_unique Z.le); [apply Hs | apply Hs | apply Permutation_map, listed_perm].
Qed.

Lemma listed_length n s : length (listed n s) = length (selected s).
Proof. apply Permutation_length, listed_perm. Qed.

Lemma next_batch_spec skip (s : Store) Q X :
  (forall e x, env_step (env_of s) e -> env_fault (env_of s) x -> X x (set_env e s)) ->
  (forall e n, env_step (env_of s) e -> Q (firstn 1000 (skipn (Z.to_nat skip) (listed n s))) (set_env e s)) ->
  wp (AdminExportsProcessor.next_batch row_order data skip) Q X s.
Proof.
  intros HX HQ. unfold AdminExportsProcessor.next_batch. wp_step. wp_step. wp_step. apply wp_core. wp_step; [apply HX; assumption|].
  wp_step. apply (HQ _ (calls (env_of s))). assumption.
Qed.

(** The pages from the [k]-th row on: as old as they should be, of the rows that
    match, and just these where one page holds them all. *)
Definition pages_from (k : nat) (s : Store) (l : list Transaction.Transaction) : Prop :=
  times l = skipn k (times (selected s)) /\ (forall t, In t l -> In t (selected s)) /\
  (k = 0%nat -> (length (selected s) <= 1000)%nat -> Permutation l (selected s)).

Lemma last_page k n s : (length (selected s) - k <= 1000)%nat -> pages_from k s (firstn 1000 (skipn k (listed n s))).
Proof.
  intros Hl. rewrite List.firstn_all2 by (rewrite length_skipn, listed_length; exact Hl). split; [|split].
  - now rewrite <- skipn_map, listed_times.
  - intros t Ht. apply (Permutation_in _ (listed_perm n s)). rewrite <- (firstn_skipn k). apply in_or_app. now right.
  - intros -> _. apply listed_perm.
Qed.

Lemma next_page k n s l : (1000 < length (selected s) - k)%nat \/ l = [] /\ (length (selected s) - k = 1000)%nat ->
  pages_from (k + 1000) s l -> pages_from k s (firstn 1000 (skipn k (listed n s)) ++ l).
Proof.
  intros Hk (Ht & Hin & _). split; [|split].
  - rewrite map_app, Ht, <- firstn_map, <- skipn_map, listed_times, Nat.add_comm, <- skipn_skipn. apply firstn_skipn.
  - intros t [Hx|Hx]%in_app_or; [|now apply Hin]. apply (Permutation_in _ (listed_perm n s)).
    rewrite <- (firstn_skipn k (listed n s)). apply in_or_app. right.
    rewrite <- (firstn_skipn 1000 (skipn k _)). apply in_or_app. now left.
  - intros -> Hl. destruct Hk as [Hk|[-> Hk]]; [lia|]. rewrite app_nil_r. change (skipn 0 (listed n s)) with (listed n s).
    rewrite List.firstn_all2; [apply listed_perm|]. rewrite listed_length. lia.
Qed.

(** The loop from the [k]-th row on. *)
Lemma batches_spec path fuel : forall k (s : Store),
  is_Some (s.(ExportStore.temporary) !! path) ->
  (k <= length (selected s))%nat -> (length (selected s) - k < 1000 * fuel)%nat ->
  wp (AdminExportsProcessor.batches decimal_text row_order fuel data path (Z.of_nat k) (Z.of_nat k))
    (fun r s' => r = Some (Z.of_nat (length (selected s))) /\ exists l, wrote path (lines l) s s' /\ pages_from k s l)
    (fun x s' => env_fault (env_of s) x) s.
Proof.
  induction fuel as [|fuel IH]; intros k s Hp Hk Hf; [lia|]. cbn [AdminExportsProcessor.batches].
  wp_step. apply next_batch_spec; [intros; assumption|]. intros e n He. rewrite Nat2Z.id.
  pose proof (next_page k n s) as Hnext. pose proof (last_page k n s) as Hlast.
  assert (Hlen : length (firstn 1000 (skipn k (listed n s))) = Nat.min 1000 (length (selected s) - k))
    by (rewrite length_firstn, length_skipn, listed_length; reflexivity).
  set (page := firstn 1000 _) in *.
  wp_step.
  - match goal with Hb : (_ =? 0) = true |- _ => apply Z.eqb_eq in Hb; rename Hb into Hz end. wp_step.
    split; [f_equal; lia|]. exists []. split; [exact (wrote_nothing path s e s.(ExportStore.progress) Hp He)|].
    replace (@nil Transaction.Transaction) with page by (apply List.length_zero_iff_nil; lia). apply Hlast. lia.
  - match goal with Hb : (_ =? 0) = false |- _ => apply Z.eqb_neq in Hb; rename Hb into Hz end.
    wp_step. eapply wp_mono; [apply write_lines; intros Hn; rewrite Hn in Hz; simpl in Hz; lia | |].
    2: { intros x s1 Hx. eapply env_step_fault; [exact He | rewrite env_of_set_env in Hx; exact Hx]. }
    intros [] s1 H1. apply (wrote_env _ _ _ _ _ He) in H1. unfold AdminExportsProcessor.job_progress.
    wp_step. wp_step. wp_step; [eapply wrote_fault; eassumption|]. wp_step.
    match goal with |- wp _ _ _ ?st => set (s2 := st) end.
    assert (H2 : wrote path (lines page) s s2).
    { rewrite <- (string_app_empty (lines _)). apply (wrote_trans _ _ _ _ _ _ H1).
      apply wrote_nothing; [exact (wrote_there _ _ _ _ H1) | assumption]. }
    assert (Hsel : selected s2 = selected s) by (unfold selected, matching; rewrite (wrote_world _ _ _ _ H2); reflexivity).
    rewrite Hlen. wp_step.
    + match goal with Hb : (_ <? _) = true |- _ => apply Z.ltb_lt in Hb; unfold AdminExportsProcessor.BATCH_SIZE in Hb end.
      wp_step. split; [f_equal; lia|]. exists page. split; [exact H2 | apply Hlast; lia].
    + match goal with Hb : (_ <? _) = false |- _ => apply Z.ltb_ge in Hb; unfold AdminExportsProcessor.BATCH_SIZE in Hb end.
      replace (Z.of_nat k + AdminExportsProcessor.BATCH_SIZE) with (Z.of_nat (k + 1000)) by (unfold AdminExportsProcessor.BATCH_SIZE; lia).
      replace (Z.of_nat k + Z.of_nat (Nat.min 1000 (length (selected s) - k))) with (Z.of_nat (k + 1000)) by lia.
      eapply wp_mono; [apply (IH (k + 1000)%nat s2); [exact (wrote_there _ _ _ _ H2) | rewrite Hsel; lia..] | |].
      * intros r s3 [-> (l & H3 & Hl)]. unfold pages_from in Hl. rewrite Hsel in *. split; [reflexivity|].
        exists (page ++ l). rewrite lines_app. split; [exact (wrote_trans _ _ _ _ _ _ H2 H3)|]. apply Hnext; [|exact Hl].
        destruct (decide (length (selected s) - k = 1000)%nat) as [Heq|]; [right; split; [|exact Heq] | left; lia].
        destruct Hl as (Hl & _). rewrite skipn_all2 in Hl by (rewrite length_map; lia). now apply map_eq_nil in Hl.
      * intros x s3 Hx. exact (wrote_fault _ _ _ _ _ H2 Hx).
Qed.

(** A line of the file. *)
Definition record_of (tx : Transaction.Transaction) : list string :=
  map (default "") (AdminExportsProcessor.fields decimal_text tx).

Lemma csv_line_record tx : csv_line tx = join "," (map escape (record_of tx)) +:+ newline.
Proof. unfold AdminExportsProcessor.csv_line, record_of. rewrite map_map. reflexivity. Qed.

Definition header : list string :=
  ["id"; "senderId"; "receiverId"; "amount"; "currency"; "fee"; "status"; "reference"; "receiptNumber"; "createdAt"].

Lemma read_export l :
  read_csv ((AdminExportsProcessor.CSV_HEADER +:+ newline) +:+ lines l) = header :: map record_of l.
Proof.
  transitivity (read_csv (fold_right String.append "" (map (fun r => join "," (map escape r) +:+ newline) (header :: map record_of l)))).
  - cbn [map fold_right]. unfold lines. rewrite map_map, (map_ext _ _ csv_line_record). reflexivity.
  - apply read_lines. constructor; [discriminate|]. apply List.Forall_forall. intros r Hr.
    apply in_map_iff in Hr as (tx & <- & _). discriminate.
Qed.

Context `{DownloadTokens}.

(** As the keys tell the rows apart, there is one way to list them. *)
Lemma distinct_times_unique l l' : NoDup (times l') -> times l = times l' -> (forall t, In t l -> In t l') -> l = l'.
Proof.
  intros Hnd Ht Hin. apply (list_eq_same_length _ _ (length l')); [reflexivity | rewrite <- (length_map Transaction.createdAt l), Ht; apply length_map|].
  intros i x y _ Hx Hy. assert (Hxin : In x l') by (apply Hin, list_elem_of_In; exact (list_elem_of_lookup_2 _ _ _ Hx)).
  assert (E : Transaction.createdAt x = Transaction.createdAt y).
  { apply (f_equal (fun l => l !! i)) in Ht. rewrite !list_lookup_fmap, Hx, Hy in Ht. now injection Ht. }
  apply list_elem_of_In, list_elem_of_lookup_1 in Hxin as [j Hj].
  assert (i = j) as <-; [|congruence]. apply (NoDup_lookup (times l') i j (Transaction.createdAt y)); [exact Hnd | |].
  - now rewrite list_lookup_fmap, Hy.
  - now rewrite list_lookup_fmap, Hj, <- E.
Qed.

(** C32 The export worker ends when its loop may run once more than the matching
    rows fill batches.  Unless a call fails it stores one file, and that file
    reads back as the header and as many transactions as match, each of them one
    that matches, with the very instants of these, oldest first.  The pages are
    cut by the instant alone, and two queries may list rows of one instant in
    different orders: each matching transaction is there exactly once when one
    page holds them all, or when no two are of the same instant - and then in
    that order.  The temporary file is gone and no row of the database moves. *)
Theorem export_is_complete fuel jobId (s : Store) :
  (length (selected s) < 1000 * fuel)%nat ->
  wp (AdminExportsProcessor.handle decimal_text row_order fuel jobId data)
    (fun r s' => exists l text url expiresAt,
       r = Some (url, expiresAt, Z.of_nat (length (selected s))) /\
       s'.(ExportStore.exports) = <[jobId +:+ ".csv" := text]> s.(ExportStore.exports) /\
       read_csv text = header :: map record_of l /\
       times l = times (selected s) /\ (forall t, In t l -> In t (selected s)) /\
       ((length (selected s) <= 1000)%nat -> Permutation l (selected s)) /\
       (NoDup (times (selected s)) -> l = selected s) /\
       s'.(ExportStore.temporary) !! ("/tmp/export-" +:+ jobId +:+ ".csv") = None /\
       world_of s' = set_env (env_of s') (world_of s))
    (fun x _ => env_fault (env_of s) x) s.
Proof.
  intros Hf. unfold AdminExportsProcessor.handle. set (path := "/tmp/export-" +:+ jobId +:+ ".csv").
  wp_step. wp_step. wp_step. unfold AdminExportsProcessor.write at 1. wp_step.
  match goal with |- wp _ _ _ ?st => set (s1 := st) end.
  assert (Hfile : file s1 path = AdminExportsProcessor.CSV_HEADER +:+ newline).
  { unfold file, s1. simpl. rewrite !lookup_insert_eq. reflexivity. }
  assert (Hthere : is_Some (s1.(ExportStore.temporary) !! path)) by (simpl; rewrite lookup_insert_eq; eauto).
  assert (Hw1 : world_of s1 = world_of s) by reflexivity. assert (He1 : ExportStore.exports s1 = ExportStore.exports s) by reflexivity.
  clearbody s1. assert (Hsel : selected s1 = selected s) by (unfold selected, matching; rewrite Hw1; reflexivity).
  assert (Henv : env_of s1 = env_of s) by (exact (f_equal World.env Hw1)).
  wp_step. eapply wp_mono; [apply (batches_spec path fuel 0 s1 Hthere) | |]; [lia | rewrite Hsel; lia | |].
  2: { intros x s2 Hx. rewrite <- Henv. exact Hx. }
  intros r s2 [-> (l & H2 & Hpages)]. unfold pages_from in Hpages. rewrite Hsel in *. destruct Hpages as (Ht & Hin & Hone).
  cbn [skipn] in Ht. pose proof (wrote_file _ _ _ _ H2) as Hfile2. rewrite Hfile in Hfile2.
  destruct (wrote_there _ _ _ _ H2) as [text Htext]. unfold file in Hfile2. rewrite Htext in Hfile2. simpl in Hfile2.
  wp_step. wp_step; [rewrite <- Henv; eapply wrote_fault; eassumption|].
  wp_step. eapply store_link_spec; [exact Htext|]. intros e url expiresAt He _. wp_step.
  exists l, text, url, expiresAt. split; [reflexivity|]. destruct H2 as (e2 & p2 & He2 & ->). rewrite <- He1.
  split; [reflexivity|]. split; [rewrite Hfile2; apply read_export|]. split; [exact Ht|]. split; [exact Hin|].
  split; [now apply Hone|]. split; [intros Hnd; now apply distinct_times_unique|].
  split; [simpl; apply lookup_delete_eq|]. rewrite <- Hw1. reflexivity.
Qed.
End Worker.

(** The link to an export gives its file to whoever asks with its job within
    900 seconds (counted in whole seconds) of the signing, and nothing else:
    another job or a later time is refused. *)
Theorem download_link_expires `{DownloadTokenLaws} path jobId text (s : Store) :
  s.(ExportStore.temporary) !! path = Some text ->
  wp (ExportStorageService.store path jobId "csv")
    (fun '(url, _) s1 => s1.(ExportStore.exports) !! (jobId +:+ ".csv") = Some text /\
       exists token, url = "/api/v1/admin/exports/" +:+ jobId +:+ "/download?token=" +:+ token /\
       forall asked s2,
         (ExportStorageService.resolve asked token s2).1 =
           if String.eqb jobId asked &&
              (clock (env_of s2) (tick (env_of s2)) / 1000 <? clock (env_of s) (tick (env_of s)) / 1000 + 900)
           then inr (jobId +:+ ".csv")
           else inl (ForbiddenException "Download link is invalid or has expired"))
    (fun _ _ => False) s.
Proof.
  intros Htext. eapply store_link_spec; [exact Htext|]. intros e url expiresAt He ->.
  split; [simpl; apply lookup_insert_eq|]. eexists. split; [reflexivity|]. intros asked s2.
  unfold ExportStorageService.resolve, bind, date_now. set (t := clock (env_of s2) (tick (env_of s2))).
  destruct (Z.ltb_spec (t / 1000) (clock (env_of s) (tick (env_of s)) / 1000 + 900)) as [Hlt|Hge].
  - rewrite verify_signed by exact Hlt. rewrite andb_true_r. unfold throw_if. destruct (String.eqb jobId asked); reflexivity.
  - rewrite verify_expired by exact Hge. rewrite andb_false_r. reflexivity.
Qed.

(** ** Worked examples *)

Fixpoint dots (n : nat) : string := match n with O => "" | S n => String "." (dots n) end.
Lemma length_dots n : String.length (dots n) = n.
Proof. induction n as [|n IH]; simpl; congruence. Qed.

(** Tokens as long as the number of what they carry. *)
#[local] Instance demo_tokens : DownloadTokens := {|
  sign_download t p := dots (encode_nat (t / 1000, p));
  verify_download t token :=
    match decode_nat (String.length token) with
    | Some (iat, p) => if t / 1000 <? iat + 900 then Some p else None
    | None => None
    end
|}.
#[local] Instance demo_token_laws : DownloadTokenLaws.
Proof.
  split; intros t t' p Ht; cbn [verify_download sign_download demo_tokens]; rewrite length_dots, decode_encode_nat.
  - rewrite (proj2 (Z.ltb_lt _ _) Ht). reflexivity.
  - rewrite (proj2 (Z.ltb_ge _ _) Ht). reflexivity.
Qed.

Definition exported (id : string) (at_ : Z) (tag : option string) : Transaction.Transaction :=
  Transaction.mk id "ada" "bob" (num_of_Z 5) "USD" (num_of_Z 0) TransactionStatus.COMPLETED (id +:+ ",ref") tag [] at_
    None None None None None None 0 None [] None None None.
Definition export_start : Store :=
  ExportStore.mk (demo_world <| World.transactions := [exported "t2" 20 None; exported "t1" 10 (Some "NXF-1"); exported "t3" 99 None] |>)
    {["/tmp/export-9.csv" := "old"]} ∅ 0.
Definition export_job : ExportTransactionsJobData := mkJob 0 50 None None "root@nexafx.io".

Lemma download_link_expires_witness :
  wp (ExportStorageService.store "/tmp/export-9.csv" "9" "csv")
    (fun '(url, _) s1 => s1.(ExportStore.exports) !! "9.csv" = Some "old" /\
       exists token, url = "/api/v1/admin/exports/" +:+ "9" +:+ "/download?token=" +:+ token /\
       forall asked s2,
         (ExportStorageService.resolve asked token s2).1 =
           if String.eqb "9" asked &&
              (clock (env_of s2) (tick (env_of s2)) / 1000 <? clock (env_of export_start) (tick (env_of export_start)) / 1000 + 900)
           then inr "9.csv" else inl (ForbiddenException "Download link is invalid or has expired"))
    (fun _ _ => False) export_start.
Proof. exact (download_link_expires "/tmp/export-9.csv" "9" "old" export_start eq_refl). Defined.

Definition plain_decimal (n : num) : string := num_to_string n.

(** A database that lists its rows forwards and backwards in turn. *)
Definition back_and_forth (n : nat) (l : list Transaction.Transaction) : list Transaction.Transaction :=
  if Nat.even n then l else rev l.
Lemma back_and_forth_permutes n l : Permutation (back_and_forth n l) l.
Proof. unfold back_and_forth. destruct (Nat.even n); [reflexivity | symmetry; apply Permutation_rev]. Qed.

Lemma export_is_complete_witness :
  selected export_job export_start = [exported "t1" 10 (Some "NXF-1"); exported "t2" 20 None] /\
  wp (AdminExportsProcessor.handle plain_decimal back_and_forth 1 "9" export_job)
    (fun r s' => exists text url expiresAt, r = Some (url, expiresAt, 2) /\
       s'.(ExportStore.exports) = <["9.csv" := text]> export_start.(ExportStore.exports) /\
       read_csv text = header :: map (record_of plain_decimal) (selected export_job export_start))
    (fun x _ => env_fault (env_of export_start) x) export_start.
Proof.
  split; [vm_compute; reflexivity|].
  refine (wp_mono _ _ _ _ _ _ (export_is_complete plain_decimal back_and_forth back_and_forth_permutes export_job 1 "9" export_start _) _ _);
    [vm_compute; lia | | auto].
  intros r s' (l & text & url & expiresAt & Hr & He & Ht & _ & _ & _ & Hnd & _). exists text, url, expiresAt.
  split; [exact Hr|]. split; [exact He|]. rewrite Hnd in Ht; [exact Ht | apply (bool_decide_unpack _); vm_compute; exact I].
Defined.

(** A thousand and one transactions of one instant: when the second query lists
    them the other way round, the first of them is exported twice and the last
    one never. *)
Definition one_instant : Store :=
  ExportStore.mk (demo_world <| World.transactions := map (fun i => exported (string_of_Z (Z.of_nat i)) 10 None) (seq 0 1001) |>) ∅ ∅ 0.
Example ties_are_exported_twice :
  let ids r := match r with (inr l, _) => map Transaction.id l | _ => [] end in
  let r1 := AdminExportsProcessor.next_batch back_and_forth export_job 0 one_instant in
  let r2 := AdminExportsProcessor.next_batch back_and_forth export_job 1000 r1.2 in
  hd "" (ids r1) = "0" /\ ids r2 = ["0"] /\ existsb (String.eqb "1000") (ids r1 ++ ids r2) = false.
Proof. vm_compute. repeat split. Qed.

Lemma json_chunks_text rows :
  AuditExportService.text (AuditExportService.json_chunks true rows) = join "," (map stringify rows) +:+ "]".
Proof.
  assert (Hrest : forall rows, AuditExportService.text (AuditExportService.json_chunks false rows) =
    fold_right String.append "]" (map (fun r => "," +:+ stringify r) rows)).
  { induction rows0 as [|r l IH]; [reflexivity|].
    change (("," +:+ stringify r) +:+ AuditExportService.text (AuditExportService.json_chunks false l) =
            ("," +:+ stringify r) +:+ fold_right String.append "]" (map (fun r => "," +:+ stringify r) l)).
    rewrite IH. reflexivity. }
  destruct rows as [|r rows]; [reflexivity|].
  change (stringify r +:+ AuditExportService.text (AuditExportService.json_chunks false rows) =
          join "," (map stringify (r :: rows)) +:+ "]"). rewrite Hrest. clear Hrest.
  revert r. induction rows as [|u l IH]; intros r; [reflexivity|].
  change (join "," (map stringify (r :: u :: l))) with (stringify r +:+ "," +:+ join "," (map stringify (u :: l))).
  rewrite !string_app_assoc, <- IH. cbn [map fold_right]. rewrite string_app_assoc. reflexivity.
Qed.

(** The streamed chunks are [JSON.stringify] of the rows. *)
Theorem json_stream_is_stringify rows :
  AuditExportService.text ("[" :: AuditExportService.json_chunks true rows) = stringify (JArr rows).
Proof.
  change (AuditExportService.text ("[" :: AuditExportService.json_chunks true rows)) with
    ("[" +:+ AuditExportService.text (AuditExportService.json_chunks true rows)).
  rewrite json_chunks_text. reflexivity.
Qed.
