(* ===== verification/Encryption.v ===== *)
(** common/encryption/encryption.service.ts, common/services/encryption.service.ts
    and admin/key-rotation.service.ts: texts sealed under versioned keys, and the
    job that stamps the wallets with the current version.  A [Buffer] is the
    string of its bytes; AES-256-GCM and the random bytes are parameters. *)
From S2P Require Import Prelude JsNumber Effects RepositoryLaws NumberLaws JsData ThirdParty Network Lifecycle Entities World Wallets.
Local Open Scope Z_scope.

(** ** Buffer *)

Module Buffer.
Definition byte (c : ascii) : Z := Z.of_nat (nat_of_ascii c).
Definition chr (z : Z) : ascii := ascii_of_nat (Z.to_nat z).

Definition base64_alphabet : string := "ABCDEFGHIJKLMNOPQRSTUVWXYZabcdefghijklmnopqrstuvwxyz0123456789+/".
Definition base64_char (n : Z) : ascii := default "A"%char (String.get (Z.to_nat n) base64_alphabet).

(** The [i]-th digit to base 64. *)
Definition sextet (i v : Z) : ascii := base64_char (v / 64 ^ i mod 64).

(** [toString('base64')]. *)
Fixpoint to_base64 (s : string) : string :=
  match s with
  | EmptyString => ""
  | String a EmptyString =>
      let v := byte a * 65536 in String (sextet 3 v) (String (sextet 2 v) "==")
  | String a (String b EmptyString) =>
      let v := byte a * 65536 + byte b * 256 in
      String (sextet 3 v) (String (sextet 2 v) (String (sextet 1 v) "="))
  | String a (String b (String c s')) =>
      let v := byte a * 65536 + byte b * 256 + byte c in
      String (sextet 3 v) (String (sextet 2 v) (String (sextet 1 v) (String (sextet 0 v) (to_base64 s'))))
  end.

(** The value of a character of either alphabet. *)
Definition base64_value (c : ascii) : option Z :=
  let n := byte c in
  if (65 <=? n) && (n <=? 90) then Some (n - 65)
  else if (97 <=? n) && (n <=? 122) then Some (n - 71)
  else if (48 <=? n) && (n <=? 57) then Some (n + 4)
  else if (n =? 43) || (n =? 45) then Some 62
  else if (n =? 47) || (n =? 95) then Some 63
  else None.

(** Decoding stops at [=] and skips every other character. *)
Fixpoint sextets (s : string) : list Z :=
  match s with
  | EmptyString => []
  | String c s' =>
      if Ascii.eqb c "=" then []
      else match base64_value c with Some v => v :: sextets s' | None => sextets s' end
  end.

Fixpoint of_sextets (l : list Z) : string :=
  match l with
  | a :: b :: c :: d :: l' =>
      let v := ((a * 64 + b) * 64 + c) * 64 + d in
      String (chr (v / 65536)) (String (chr (v / 256 mod 256)) (String (chr (v mod 256)) (of_sextets l')))
  | [a; b; c] =>
      let v := ((a * 64 + b) * 64 + c) * 64 in String (chr (v / 65536)) (String (chr (v / 256 mod 256)) "")
  | [a; b] => String (chr ((a * 64 + b) * 4096 / 65536)) ""
  | _ => ""
  end.

(** [Buffer.from(s, 'base64')]. *)
Definition from_base64 (s : string) : string := of_sextets (sextets s).

Definition hex_value (c : ascii) : option Z :=
  let n := byte c in
  if (48 <=? n) && (n <=? 57) then Some (n - 48)
  else if (97 <=? n) && (n <=? 102) then Some (n - 87)
  else if (65 <=? n) && (n <=? 70) then Some (n - 55)
  else None.

(** [Buffer.from(s, 'hex')]: up to the first pair that is not hexadecimal. *)
Fixpoint from_hex (s : string) : string :=
  match s with
  | String a (String b s') =>
      match hex_value a, hex_value b with
      | Some x, Some y => String (chr (x * 16 + y)) (from_hex s')
      | _, _ => ""
      end
  | _ => ""
  end.

(** [buf.subarray(a, b)]: negative bounds count from the end. *)
Definition bound (i len : Z) : Z := if i <? 0 then Z.max 0 (len + i) else Z.min i len.
Definition subarray (a b : Z) (s : string) : string :=
  let len := Z.of_nat (String.length s) in
  String.substring (Z.to_nat (bound a len)) (Z.to_nat (bound b len - bound a len)) s.
Definition subarray_from (a : Z) (s : string) : string := subarray a (Z.of_nat (String.length s)) s.
End Buffer.

(** ** What node:crypto provides *)

(** Sealing gives the ciphertext and the tag; opening fails on a wrong tag or one
    of a length GCM does not have. *)
Class Aes256Gcm : Type := {
  gcm_seal : string -> string -> string -> string * string;
  gcm_open : string -> string -> string -> string -> option string;
  random_bytes : Z -> string -> string
}.

(** What is sealed opens again; tags have 16 bytes. *)
Class Aes256GcmLaws `{Aes256Gcm} : Prop := {
  open_sealed : forall key iv text ct tag, gcm_seal key iv text = (ct, tag) -> gcm_open key iv tag ct = Some text;
  tag_length : forall key iv text, String.length (gcm_seal key iv text).2 = 16%nat;
  random_length : forall n draw, 0 <= n -> String.length (random_bytes n draw) = Z.to_nat n
}.

(** [process.env.X]. *)
Class ProcessEnv : Type := { process_env : string -> option string }.

(** A key version; [None] is NaN. *)
Definition Version : Type := option Z.

Definition version_eqb (a b : Version) : bool :=
  match a, b with Some x, Some y => x =? y | _, _ => false end.
(** The keys of a [Map], where NaN is NaN. *)
Definition same_key (a b : Version) : bool :=
  match a, b with Some x, Some y => x =? y | None, None => true | _, _ => false end.

Record EncryptedPayload : Type := mkPayload { ciphertext : string; keyVersion : Version }.

Section Node.
Context {S : Type} `{HasEnv S} `{Aes256Gcm}.

(** [createCipheriv('aes-256-gcm', key, iv)] up to [getAuthTag()]. *)
Definition seal (key iv text : string) : exn + string * string :=
  if Nat.eqb (String.length key) 32 then inr (gcm_seal key iv text)
  else inl (JsError "RangeError" "Invalid key length").

(** [createDecipheriv] up to [final()]. *)
Definition unseal (key iv tag ct : string) : exn + string :=
  if Nat.eqb (String.length key) 32 then
    match gcm_open key iv tag ct with
    | Some text => inr text
    | None => inl (PlainError "Unsupported state or unable to authenticate data")
    end
  else inl (JsError "RangeError" "Invalid key length").

Definition randomBytes (n : Z) : M S string := let* draw := random_uuid in ret (random_bytes n draw).

Definition lift {A} (r : exn + A) : M S A := match r with inr a => ret a | inl x => throw x end.
End Node.

(** ** EncryptionService (common/encryption) *)

Module EncryptionService.
Definition IV_BYTES : Z := 12.
Definition TAG_BYTES : Z := 16.

Record EncryptionService : Type := mk { keys : list (Version * string); currentVersion : Version }.

(** [keys.get(v)]. *)
Definition get_key (v : Version) (l : list (Version * string)) : option string :=
  option_map snd (List.find (fun '(k, _) => same_key k v) l).

(** [keys.set(v, key)]. *)
Fixpoint set_key (v : Version) (key : string) (l : list (Version * string)) : list (Version * string) :=
  match l with
  | [] => [(v, key)]
  | (k, x) :: l' => if same_key k v then (k, key) :: l' else (k, x) :: set_key v key l'
  end.

(** [Math.max(...)]. *)
Definition max_version (l : list Version) : Version :=
  match l with
  | [] => None
  | v :: l' => fold_left (fun a b => match a, b with Some x, Some y => Some (Z.max x y) | _, _ => None end) l' v
  end.

Section Service.
Context `{ConfigService} `{ProcessEnv} `{Aes256Gcm}.

(** The versions 2 to 10 that have a key. *)
Definition additional : list (Version * option string) :=
  flat_map (fun v => let hex := process_env ("WALLET_ENCRYPTION_KEY_V" +:+ string_of_Z v) in
                     if opt_truthy hex then [(Some v, hex)] else [])
    [2; 3; 4; 5; 6; 7; 8; 9; 10].

Definition resolveKeys : list (Version * option string) :=
  let primaryHex :=
    match config_string "wallet.encryptionKey" with
    | Some h => Some h
    | None => process_env "WALLET_ENCRYPTION_KEY"
    end in
  let primaryVersion := WebhookAddress.parseInt10 (default "1" (process_env "WALLET_ENCRYPTION_KEY_VERSION")) in
  (primaryVersion, primaryHex) :: additional.

(** The constructor: [Buffer.from(undefined, 'hex')] throws. *)
Fixpoint set_keys (l : list (Version * option string)) (keys : list (Version * string)) : exn + list (Version * string) :=
  match l with
  | [] => inr keys
  | (v, Some hex) :: l' => set_keys l' (set_key v (Buffer.from_hex hex) keys)
  | (_, None) :: _ => inl (JsError "TypeError" "The first argument must be of type string")
  end.

Definition create : exn + EncryptionService :=
  let envKeys := resolveKeys in
  match set_keys envKeys [] with
  | inr keys => inr (mk keys (max_version (map fst envKeys)))
  | inl x => inl x
  end.

Definition encrypt {S} `{HasEnv S} (svc : EncryptionService) (plaintext : string) : M S EncryptedPayload :=
  let* iv := randomBytes IV_BYTES in
  match get_key (currentVersion svc) (keys svc) with
  | None => throw (JsError "TypeError" "The key argument must be of type string")
  | Some key =>
      let* ' (encrypted, tag) := lift (seal key iv plaintext) in
      let combined := iv +:+ encrypted +:+ tag in
      ret (mkPayload (Buffer.to_base64 combined) (currentVersion svc))
  end.

Definition decrypt (svc : EncryptionService) (payload : EncryptedPayload) : exn + string :=
  match get_key (keyVersion payload) (keys svc) with
  | None => inl (PlainError ("No key available for version " +:+
                             match keyVersion payload with Some v => string_of_Z v | None => "NaN" end))
  | Some key =>
      let combined := Buffer.from_base64 (ciphertext payload) in
      let len := Z.of_nat (String.length combined) in
      let iv := Buffer.subarray 0 IV_BYTES combined in
      let tag := Buffer.subarray_from (len - TAG_BYTES) combined in
      let ciphertext := Buffer.subarray IV_BYTES (len - TAG_BYTES) combined in
      unseal key iv tag ciphertext
  end.

Definition getCurrentVersion (svc : EncryptionService) : Version := currentVersion svc.
Definition hasKey (svc : EncryptionService) (version : Version) : bool :=
  match get_key version (keys svc) with Some _ => true | None => false end.

(** [===] of two versions: NaN differs from itself. *)
Definition reencrypt {S} `{HasEnv S} (svc : EncryptionService) (payload : EncryptedPayload) : M S EncryptedPayload :=
  if version_eqb (keyVersion payload) (currentVersion svc) then ret payload
  else let* text := lift (decrypt svc payload) in encrypt svc text.
End Service.
End EncryptionService.

(** ** EncryptionService (common/services) *)

Module services_EncryptionService.
Definition IV_LENGTH : Z := 16.
Definition TAG_LENGTH : Z := 16.

Section Service.
Context `{Aes256Gcm}.

(** The constructor answers the key. *)
Definition create (key : string) : exn + string :=
  let key := Buffer.from_hex key in
  if Nat.eqb (String.length key) 32 then inr key
  else inl (PlainError "WALLET_ENCRYPTION_KEY must be a 32-byte hex string (64 hex chars)").

Definition encrypt {S} `{HasEnv S} (key plaintext : string) : M S string :=
  let* iv := randomBytes IV_LENGTH in
  let* ' (encrypted, tag) := lift (seal key iv plaintext) in
  ret (Buffer.to_base64 (iv +:+ tag +:+ encrypted)).

Definition decrypt (key ciphertext : string) : exn + string :=
  let data := Buffer.from_base64 ciphertext in
  let iv := Buffer.subarray 0 IV_LENGTH data in
  let tag := Buffer.subarray IV_LENGTH (IV_LENGTH + TAG_LENGTH) data in
  let encrypted := Buffer.subarray_from (IV_LENGTH + TAG_LENGTH) data in
  unseal key iv tag encrypted.
End Service.
End services_EncryptionService.

(** ** KeyRotationService *)

Module KeyRotationService.
Record Report : Type := mkReport { total : Z; rotated : Z; skipped : Z }.

Definition rotate_one (currentVersion : Z) (acc : Z * Z) (wallet : WalletBalanceEntity.WalletBalanceEntity) :
    M World (Z * Z) :=
  let '(rotated, skipped) := acc in
  if wallet.(WalletBalanceEntity.keyVersion) =? currentVersion then ret (rotated, skipped + 1)
  else
    save (wallet <| WalletBalanceEntity.keyVersion := currentVersion |>) ;;;
    ret (rotated + 1, skipped).

(** The version is a number that the column can hold. *)
Definition rotate (currentVersion : Z) : M World Report :=
  let* all := find_all (fun _ : WalletBalanceEntity.WalletBalanceEntity => true) in
  let* ' (rotated, skipped) := fold_each all (0, 0) (rotate_one currentVersion) in
  ret (mkReport (Z.of_nat (length all)) rotated skipped).
End KeyRotationService.

(** ** Buffers *)

Example base64_run :
  Buffer.to_base64 "Many hands" = "TWFueSBoYW5kcw==" /\ Buffer.from_base64 "TWFueSBoYW5kcw==" = "Many hands" /\
  Buffer.from_hex "4d616e9z" = "Man".
Proof. vm_compute. repeat split; reflexivity. Qed.

Lemma byte_range c : 0 <= Buffer.byte c < 256.
Proof. unfold Buffer.byte. pose proof (nat_ascii_bounded c). lia. Qed.

Lemma chr_byte c : Buffer.chr (Buffer.byte c) = c.
Proof. unfold Buffer.chr, Buffer.byte. rewrite Nat2Z.id. apply ascii_nat_embedding. Qed.

Lemma base64_digit n : 0 <= n < 64 ->
  Buffer.base64_value (Buffer.base64_char n) = Some n /\ Ascii.eqb (Buffer.base64_char n) "=" = false.
Proof.
  intros Hn. assert (H : forallb (fun n => match Buffer.base64_value (Buffer.base64_char n) with Some m => m =? n | None => false end
      && negb (Ascii.eqb (Buffer.base64_char n) "=")) (map Z.of_nat (seq 0 64)) = true) by (vm_compute; reflexivity).
  rewrite forallb_forall in H. assert (Hin : In n (map Z.of_nat (seq 0 64))) by (apply in_map_iff; exists (Z.to_nat n); split; [lia | apply in_seq; lia]).
  specialize (H n Hin).
  apply andb_prop in H as [H1 H2]. destruct (Buffer.base64_value _) as [m|]; [|discriminate].
  apply Z.eqb_eq in H1 as ->. apply negb_true_iff in H2. auto.
Qed.

Lemma sextets_sextet i v s : Buffer.sextets (String (Buffer.sextet i v) s) = v / 64 ^ i mod 64 :: Buffer.sextets s.
Proof.
  unfold Buffer.sextet. destruct (base64_digit (v / 64 ^ i mod 64)) as [Hv He]; [apply Z.mod_pos_bound; lia|].
  cbn [Buffer.sextets]. rewrite He, Hv. reflexivity.
Qed.

Lemma string_ind3 (P : string -> Prop) :
  P "" -> (forall a, P (String a "")) -> (forall a b, P (String a (String b ""))) ->
  (forall a b c s, P s -> P (String a (String b (String c s)))) -> forall s, P s.
Proof.
  intros H0 H1 H2 H3. fix IH 1. intros [|a [|b [|c s]]]; [exact H0 | apply H1 | apply H2 | apply H3, IH].
Qed.

Lemma chr_is z c : z = Buffer.byte c -> Buffer.chr z = c.
Proof. intros ->. apply chr_byte. Qed.

(** The four digits of three bytes. *)
Lemma digits_of v : 0 <= v < 16777216 -> exists q3 q2 q1 q0,
  0 <= q3 < 64 /\ 0 <= q2 < 64 /\ 0 <= q1 < 64 /\ 0 <= q0 < 64 /\ v = ((q3 * 64 + q2) * 64 + q1) * 64 + q0 /\
  v / 64 ^ 3 mod 64 = q3 /\ v / 64 ^ 2 mod 64 = q2 /\ v / 64 ^ 1 mod 64 = q1 /\ v / 64 ^ 0 mod 64 = q0.
Proof.
  intros Hv. change (64 ^ 3) with (64 * 64 * 64). change (64 ^ 2) with (64 * 64). change (64 ^ 1) with 64. change (64 ^ 0) with 1.
  rewrite <- !Z.div_div, Z.div_1_r by lia.
  exists (v / 64 / 64 / 64), (v / 64 / 64 mod 64), (v / 64 mod 64), (v mod 64).
  pose proof (Z.div_mod v 64). pose proof (Z.div_mod (v / 64) 64). pose proof (Z.div_mod (v / 64 / 64) 64).
  pose proof (Z.mod_pos_bound v 64). pose proof (Z.mod_pos_bound (v / 64) 64). pose proof (Z.mod_pos_bound (v / 64 / 64) 64).
  assert (0 <= v / 64 / 64 / 64 < 64) by (rewrite !Z.div_div by lia; split; [apply Z.div_pos | apply Z.div_lt_upper_bound]; lia).
  repeat split; try lia. apply Z.mod_small. lia.
Qed.

Lemma bytes_of a b c : 0 <= a < 256 -> 0 <= b < 256 -> 0 <= c < 256 ->
  (a * 65536 + b * 256 + c) / 65536 = a /\ (a * 65536 + b * 256 + c) / 256 mod 256 = b /\
  (a * 65536 + b * 256 + c) mod 256 = c.
Proof.
  intros. split; [|split].
  - symmetry. apply (Z.div_unique_pos _ _ _ (b * 256 + c)); lia.
  - replace ((a * 65536 + b * 256 + c) / 256) with (a * 256 + b) by (apply (Z.div_unique_pos _ _ _ c); lia).
    symmetry. apply (Z.mod_unique_pos _ _ a); lia.
  - symmetry. apply (Z.mod_unique_pos _ _ (a * 256 + b)); lia.
Qed.

Lemma from_to_base64 s : Buffer.from_base64 (Buffer.to_base64 s) = s.
Proof.
  unfold Buffer.from_base64. induction s as [|a|a b|a b c s IH] using string_ind3; [reflexivity|..];
    cbn [Buffer.to_base64]; rewrite !sextets_sextet;
    match goal with |- context [?v / 64 ^ 3] => destruct (digits_of v) as (q3 & q2 & q1 & q0 & R3 & R2 & R1 & R0 & Hv & E3 & E2 & E1 & E0) end;
    try (pose proof (byte_range a); try pose proof (byte_range b); try pose proof (byte_range c); lia);
    rewrite ?E3, ?E2, ?E1, ?E0; clear E3 E2 E1 E0; pose proof (byte_range a).
  - change (Buffer.sextets "==") with (@nil Z). cbn [Buffer.of_sextets].
    destruct (bytes_of (Buffer.byte a) 0 0) as (Ha & _ & _); [lia..|].
    rewrite (chr_is _ a); [reflexivity|]. rewrite <- Ha at 1. f_equal. lia.
  - pose proof (byte_range b). change (Buffer.sextets "=") with (@nil Z). cbn [Buffer.of_sextets].
    destruct (bytes_of (Buffer.byte a) (Buffer.byte b) 0) as (Ha & Hb & _); [lia..|].
    replace (((q3 * 64 + q2) * 64 + q1) * 64) with (Buffer.byte a * 65536 + Buffer.byte b * 256 + 0) by lia.
    rewrite (chr_is _ a Ha), (chr_is _ b Hb). reflexivity.
  - pose proof (byte_range b). pose proof (byte_range c). cbn [Buffer.of_sextets]. rewrite IH, <- Hv.
    destruct (bytes_of (Buffer.byte a) (Buffer.byte b) (Buffer.byte c)) as (Ha & Hb & Hc); [lia..|].
    rewrite (chr_is _ a Ha), (chr_is _ b Hb), (chr_is _ c Hc). reflexivity.
Qed.

Lemma substring_prefix a b : String.substring 0 (String.length a) (a +:+ b) = a.
Proof.
  induction a as [|c a IH]; [destruct b; reflexivity|].
  change (String c (String.substring 0 (String.length a) (a +:+ b)) = String c a). rewrite IH. reflexivity.
Qed.

Lemma substring_skip a b n m : String.substring (String.length a + n) m (a +:+ b) = String.substring n m b.
Proof. induction a as [|c a IH]; [reflexivity|]. exact IH. Qed.

(** The three parts of a concatenation. *)
Lemma subarray_first a b z : Z.of_nat (String.length a) = z -> Buffer.subarray 0 z (a +:+ b) = a.
Proof.
  intros Hz. unfold Buffer.subarray, Buffer.bound. rewrite string_length_app.
  rewrite (proj2 (Z.ltb_ge z 0)) by lia. change (0 <? 0) with false. cbv iota.
  replace (Z.to_nat (Z.min 0 _)) with 0%nat by lia.
  replace (Z.to_nat _) with (String.length a) by lia. apply substring_prefix.
Qed.

Lemma subarray_middle a b c x y : Z.of_nat (String.length a) = x -> x + Z.of_nat (String.length b) = y ->
  Buffer.subarray x y (a +:+ b +:+ c) = b.
Proof.
  intros Hx Hy. unfold Buffer.subarray, Buffer.bound. rewrite !string_length_app.
  rewrite (proj2 (Z.ltb_ge x 0)), (proj2 (Z.ltb_ge y 0)) by lia.
  replace (Z.to_nat (Z.min x _)) with (String.length a + 0)%nat by lia.
  rewrite substring_skip. replace (Z.to_nat _) with (String.length b) by lia. apply substring_prefix.
Qed.

Lemma subarray_last a b x : Z.of_nat (String.length a) = x -> Buffer.subarray_from x (a +:+ b) = b.
Proof.
  intros Hx. unfold Buffer.subarray_from. rewrite <- (string_app_empty b) at 2. apply subarray_middle; [exact Hx|].
  rewrite string_length_app. lia.
Qed.

(** ** Round trips *)

Section RoundTrips.
Context {S : Type} `{HasEnv S} `{Aes256GcmLaws} `{ConfigService} `{ProcessEnv}.

Lemma randomBytes_spec n (s : S) Q X :
  0 <= n -> (forall e b, env_step (env_of s) e -> Z.of_nat (String.length b) = n -> Q b (set_env e s)) ->
  wp (randomBytes n) Q X s.
Proof.
  intros Hn HQ. unfold randomBytes. wp_step. wp_step. wp_step. apply HQ; [assumption|]. rewrite random_length by exact Hn. lia.
Qed.

(** What [encrypt] answers: a payload of the current version that every service
    with that key decrypts. *)
Lemma encrypt_spec svc key text (s : S) Q X :
  EncryptionService.get_key (EncryptionService.currentVersion svc) (EncryptionService.keys svc) = Some key ->
  String.length key = 32%nat ->
  (forall e p, env_step (env_of s) e -> keyVersion p = EncryptionService.currentVersion svc ->
     (forall svc', EncryptionService.get_key (EncryptionService.currentVersion svc) (EncryptionService.keys svc') = Some key ->
                   EncryptionService.decrypt svc' p = inr text) -> Q p (set_env e s)) ->
  wp (EncryptionService.encrypt svc text) Q X s.
Proof.
  intros Hk Hlen HQ. unfold EncryptionService.encrypt. wp_step. apply randomBytes_spec; [unfold EncryptionService.IV_BYTES; lia|].
  intros e iv He Hiv. rewrite Hk. unfold seal. rewrite (proj2 (Nat.eqb_eq _ _) Hlen).
  destruct (gcm_seal key iv text) as [ct tag] eqn:Hs. pose proof (tag_length key iv text) as Ht. rewrite Hs in Ht. simpl in Ht.
  wp_step. apply wp_ret. cbv beta iota. apply wp_ret. apply HQ; [exact He | reflexivity|]. intros svc' Hk'.
  unfold EncryptionService.decrypt. cbn [keyVersion ciphertext]. rewrite Hk', from_to_base64. unfold EncryptionService.IV_BYTES, EncryptionService.TAG_BYTES in *.
  rewrite (subarray_first iv) by exact Hiv. rewrite (subarray_middle iv ct tag) by (rewrite ?string_length_app; lia).
  rewrite <- (string_app_assoc iv ct tag), (subarray_last (iv +:+ ct) tag) by (rewrite !string_length_app; lia).
  unfold unseal. rewrite (proj2 (Nat.eqb_eq _ _) Hlen), (open_sealed key iv text ct tag Hs). reflexivity.
Qed.

(** C40 A text sealed before a rotation of keys is read back after it: when the
    new service still has the old key, it decrypts the payload, and what it
    re-encrypts is of its own version and decrypts to the same text. *)
Theorem payloads_survive_key_rotation old new key key' text (s : S) :
  EncryptionService.get_key (EncryptionService.currentVersion old) (EncryptionService.keys old) = Some key ->
  EncryptionService.get_key (EncryptionService.currentVersion old) (EncryptionService.keys new) = Some key ->
  EncryptionService.get_key (EncryptionService.currentVersion new) (EncryptionService.keys new) = Some key' ->
  String.length key = 32%nat -> String.length key' = 32%nat ->
  wp (let* p := EncryptionService.encrypt old text in
      let* q := EncryptionService.reencrypt new p in ret (p, q))
    (fun '(p, q) _ => keyVersion p = EncryptionService.currentVersion old /\
                      keyVersion q = EncryptionService.currentVersion new /\
                      EncryptionService.decrypt new p = inr text /\ EncryptionService.decrypt new q = inr text)
    (fun _ _ => False) s.
Proof.
  intros Hold Hnew Hcur Hlen Hlen'. wp_step. eapply encrypt_spec; [exact Hold | exact Hlen|].
  intros e p He Hv Hdec. specialize (Hdec new Hnew). wp_step. unfold EncryptionService.reencrypt.
  destruct (version_eqb _ _) eqn:Heq.
  - wp_step. wp_step. repeat split; [exact Hv | | exact Hdec | exact Hdec].
    unfold version_eqb in Heq. destruct (keyVersion p) as [x|], (EncryptionService.currentVersion new) as [y|]; try discriminate.
    apply Z.eqb_eq in Heq. congruence.
  - wp_step. rewrite Hdec. apply wp_ret. eapply encrypt_spec; [exact Hcur | exact Hlen'|].
    intros e' q He' Hvq Hdecq. wp_step. repeat split; [exact Hv | exact Hvq | exact Hdec | exact (Hdecq new Hcur)].
Qed.

(** The service with one key. *)
Theorem sealed_text_opens key text (s : S) :
  String.length key = 32%nat ->
  wp (services_EncryptionService.encrypt key text) (fun c _ => services_EncryptionService.decrypt key c = inr text) (fun _ _ => False) s.
Proof.
  intros Hlen. unfold services_EncryptionService.encrypt. wp_step. apply randomBytes_spec; [unfold services_EncryptionService.IV_LENGTH; lia|].
  intros e iv He Hiv. unfold seal. rewrite (proj2 (Nat.eqb_eq _ _) Hlen).
  destruct (gcm_seal key iv text) as [ct tag] eqn:Hs. pose proof (tag_length key iv text) as Ht. rewrite Hs in Ht. simpl in Ht.
  wp_step. apply wp_ret. cbv beta iota. apply wp_ret. unfold services_EncryptionService.decrypt. rewrite from_to_base64.
  unfold services_EncryptionService.IV_LENGTH, services_EncryptionService.TAG_LENGTH in *.
  rewrite (subarray_first iv) by exact Hiv. rewrite (subarray_middle iv tag ct) by lia.
  rewrite <- (string_app_assoc iv tag ct), (subarray_last (iv +:+ tag) ct) by (rewrite string_length_app; lia).
  unfold unseal. rewrite (proj2 (Nat.eqb_eq _ _) Hlen), (open_sealed key iv text ct tag Hs). reflexivity.
Qed.
End RoundTrips.

(** ** The rotation job *)

Notation Wallet := WalletBalanceEntity.WalletBalanceEntity.

(** What the job makes of a wallet. *)
Definition stamped (v : Z) (w w' : Wallet) : Prop :=
  if w.(WalletBalanceEntity.keyVersion) =? v then w' = w
  else exists t, w' = touched t (w <| WalletBalanceEntity.keyVersion := v |>).

Definition outdated (v : Z) (l : list Wallet) : list Wallet :=
  List.filter (fun w => negb (w.(WalletBalanceEntity.keyVersion) =? v)) l.

Lemma stamped_id v w w' : stamped v w w' -> row_id w' = row_id w.
Proof. unfold stamped. destruct (_ =? v); [intros ->; reflexivity | intros [t ->]; reflexivity]. Qed.

Lemma upsert_middle {E} `{Row E} (d l : list E) w e :
  NoDup (map row_id (d ++ w :: l)) -> row_id e = row_id w -> upsert e (d ++ w :: l) = d ++ e :: l.
Proof.
  intros Hnd Hid. unfold upsert.
  assert (Hex : existsb (same_row e) (d ++ w :: l) = true)
    by (apply existsb_exists; exists w; split; [apply in_or_app; right; left; reflexivity | apply same_row_true, Hid]).
  rewrite Hex, map_app. simpl. rewrite (proj2 (same_row_true e w)) by exact Hid.
  rewrite map_app in Hnd. simpl in Hnd. apply NoDup_app in Hnd as (_ & Hd & Hl). apply NoDup_cons in Hl as [Hl _].
  assert (Hother : forall k, (forall x, In x k -> row_id x <> row_id w) -> map (fun r => if same_row e r then e else r) k = k).
  { intros k Hk. rewrite <- (map_id k) at 2. apply map_ext_in. intros x Hx.
    rewrite (proj2 (same_row_false e x)); [reflexivity|]. rewrite Hid. intros Heq. exact (Hk x Hx (eq_sym Heq)). }
  rewrite !Hother; [reflexivity | |].
  - intros x Hx Heq. apply Hl. rewrite <- Heq. apply list_elem_of_In, in_map, Hx.
  - intros x Hx Heq. apply (Hd (row_id x)); [apply list_elem_of_In, in_map, Hx | rewrite Heq; left].
Qed.

(** The loop over the wallets that are left. *)
Lemma rotate_loop v (l : list Wallet) : forall (d : list Wallet) r k (s : World),
  rows s = d ++ l -> table_unique (rows s : list Wallet) ->
  wp (fold_each l (r, k) (KeyRotationService.rotate_one v))
    (fun '(r', k') s' => exists l' e, Forall2 (stamped v) l l' /\ env_step (env_of s) e /\
       s' = set_rows (d ++ l') (set_env e s) /\ table_unique (d ++ l') /\
       r' = r + Z.of_nat (length (outdated v l)) /\ r' + k' = r + k + Z.of_nat (length l))
    (fun x s' => env_fault (env_of s) x /\ exists l' e, Forall2 (fun w w' => w' = w \/ stamped v w w') l l' /\
       s' = set_rows (d ++ l') (set_env e s)) s.
Proof.
  induction l as [|w l IH]; intros d r k s Hrows Hu; cbn [fold_each].
  - apply wp_ret. exists [], (env_of s). rewrite set_env_env_of, <- Hrows, set_rows_rows. split; [constructor|].
    split; [reflexivity|]. split; [reflexivity|]. split; [exact Hu|]. simpl. lia.
  - wp_step. unfold KeyRotationService.rotate_one at 1. unfold outdated. cbn [List.filter].
    destruct (w.(WalletBalanceEntity.keyVersion) =? v) eqn:Hv.
    + wp_step. eapply wp_mono; [apply (IH (d ++ [w]) r (k + 1) s); [rewrite <- app_assoc; exact Hrows | exact Hu] | |].
      * intros [r' k'] s' (l' & e & Hl & He & -> & Hu' & Hr & Hk). rewrite <- app_assoc in *. exists (w :: l'), e.
        split; [constructor; [unfold stamped; rewrite Hv; reflexivity | exact Hl]|]. split; [exact He|].
        split; [reflexivity|]. split; [exact Hu'|]. split; [exact Hr|]. cbn [length]. lia.
      * intros x s' (Hx & l' & e & Hl & ->). split; [exact Hx|]. exists (w :: l'), e. rewrite <- app_assoc. auto.
    + assert (Hin : In w (rows s)) by (rewrite Hrows; apply in_or_app; right; left; reflexivity).
      wp_step. apply wp_save.
      * intros e x He Hfail. split.
        { apply (save_failure_same_index (E:=Wallet) w (w <| WalletBalanceEntity.keyVersion := v |>) s x); [exact Hu | exact Hin | reflexivity | | exact Hfail]. intros y z Hy. destruct Hy; reflexivity. }
        exists (w :: l), e. rewrite <- Hrows. split; [|rewrite <- (rows_set_env e s), set_rows_rows; reflexivity].
        clear. induction (w :: l); constructor; auto.
      * intros e w' He _ Hviol Ht _. destruct Ht as [t ->].
        { apply existsb_exists. exists w. split; [exact Hin | apply same_row_true; reflexivity]. }
        set (w' := touched t (w <| WalletBalanceEntity.keyVersion := v |>)) in *.
        assert (Hst : stamped v w w') by (unfold stamped; rewrite Hv; eauto).
        assert (Hup : upsert w' (rows s) = d ++ w' :: l) by (rewrite Hrows; apply upsert_middle; [rewrite <- Hrows; apply Hu | reflexivity]).
        pose proof (table_unique_upsert w' _ wallet_clash_sym Hu Hviol) as Hu1. rewrite Hup in *.
        wp_step. cbn [length].
        eapply wp_mono; [apply (IH (d ++ [w']) (r + 1) k (set_rows (d ++ w' :: l) (set_env e s))); env_norm; [rewrite <- app_assoc; reflexivity | exact Hu1] | |].
        { intros [r' k'] s' (l' & e' & Hl & He' & -> & Hu' & Hr & Hk). env_norm. rewrite <- app_assoc in *. exists (w' :: l'), e'.
          split; [constructor; assumption|]. split; [etransitivity; eassumption|]. split; [|split; [exact Hu' | split]].
          - rewrite <- set_rows_set_env, set_rows_set_rows, set_env_set_env. reflexivity.
          - unfold outdated in Hr. cbn [negb length]. lia.
          - lia. }
        { intros x s' (Hx & l' & e' & Hl & ->). env_norm. split; [eapply env_step_fault; eassumption|].
          exists (w' :: l'), e'. rewrite <- app_assoc. split; [constructor; [right; exact Hst | exact Hl]|].
          rewrite <- set_rows_set_env, set_rows_set_rows, set_env_set_env. reflexivity. }
Qed.

Lemma stamped_version v w w' : stamped v w w' -> w'.(WalletBalanceEntity.keyVersion) = v.
Proof.
  unfold stamped. destruct (Z.eqb_spec w.(WalletBalanceEntity.keyVersion) v); [congruence|]. intros [t ->]. reflexivity.
Qed.

(** What is stamped stays as it is. *)
Lemma stamped_twice v l l1 l2 :
  Forall2 (stamped v) l l1 -> Forall2 (fun w w' => w' = w \/ stamped v w w') l1 l2 -> l2 = l1.
Proof.
  intros H1. revert l2. induction H1 as [|w w1 l l1 Hw Hl IH]; intros l2 H2; inversion H2 as [|? w2 ? l2' Hw2 Hl2]; subst; [reflexivity|].
  f_equal; [|apply IH, Hl2]. destruct Hw2 as [->|Hw2]; [reflexivity|]. unfold stamped in Hw2.
  rewrite (stamped_version _ _ _ Hw), Z.eqb_refl in Hw2. exact Hw2.
Qed.

Lemma outdated_stamped v l l' : Forall2 (stamped v) l l' -> outdated v l' = [].
Proof.
  induction 1 as [|w w' l l' Hw Hl IH]; [reflexivity|]. unfold outdated. cbn [List.filter].
  rewrite (stamped_version _ _ _ Hw), Z.eqb_refl. exact IH.
Qed.

Lemma rotate_spec v (s : World) :
  table_unique s.(World.wallet_balances) ->
  wp (KeyRotationService.rotate v)
    (fun r s' => exists l' e, Forall2 (stamped v) s.(World.wallet_balances) l' /\ env_step (env_of s) e /\
       s' = set_env e s <| World.wallet_balances := l' |> /\ table_unique l' /\
       KeyRotationService.rotated r = Z.of_nat (length (outdated v s.(World.wallet_balances))) /\
       KeyRotationService.rotated r + KeyRotationService.skipped r = KeyRotationService.total r /\
       KeyRotationService.total r = Z.of_nat (length s.(World.wallet_balances)))
    (fun x s' => env_fault (env_of s) x /\ exists l' e, Forall2 (fun w w' => w' = w \/ stamped v w w') s.(World.wallet_balances) l' /\
       s' = set_env e s <| World.wallet_balances := l' |>) s.
Proof.
  intros Hu. unfold KeyRotationService.rotate. wp_step. wp_step.
  { split; [assumption|]. exists s.(World.wallet_balances), e'. split; [|destruct s; reflexivity].
    clear. induction s.(World.wallet_balances); constructor; auto. }
  replace (List.filter _ (rows s)) with s.(World.wallet_balances)
    by (symmetry; apply List.forallb_filter_id, forallb_forall; reflexivity).
  wp_step. eapply wp_mono; [apply (rotate_loop v s.(World.wallet_balances) [] 0 0 (set_env e' s)); [reflexivity | exact Hu] | |].
  - intros [r k] s' (l' & e & Hl & He & -> & Hu' & Hr & Hk). wp_step. env_norm. exists l', e. split; [exact Hl|].
    split; [etransitivity; eassumption|]. split; [reflexivity|]. split; [exact Hu'|]. cbn [KeyRotationService.rotated KeyRotationService.skipped KeyRotationService.total].
    split; [exact Hr|]. split; [lia | reflexivity].
  - intros x s' (Hx & l' & e & Hl & ->). env_norm. split; [eapply env_step_fault; eassumption|]. exists l', e. split; [exact Hl | reflexivity].
Qed.

(** A rotation stamps every wallet of another version with the current one,
    reports how many those were and changes no balance and no other table; run
    again it finds nothing to do.  When a call fails, each wallet is stamped or
    as it was. *)
Theorem key_rotation_is_idempotent v (s : World) :
  table_unique s.(World.wallet_balances) ->
  wp (let* r := KeyRotationService.rotate v in let* r' := KeyRotationService.rotate v in ret (r, r'))
    (fun '(r, r') s' => exists l' e, Forall2 (stamped v) s.(World.wallet_balances) l' /\
       s' = set_env e s <| World.wallet_balances := l' |> /\
       KeyRotationService.rotated r = Z.of_nat (length (outdated v s.(World.wallet_balances))) /\
       KeyRotationService.rotated r' = 0 /\ KeyRotationService.skipped r' = KeyRotationService.total r')
    (fun x s' => env_fault (env_of s) x /\ exists l' e, Forall2 (fun w w' => w' = w \/ stamped v w w') s.(World.wallet_balances) l' /\
       s' = set_env e s <| World.wallet_balances := l' |>) s.
Proof.
  intros Hu. wp_step. eapply wp_mono; [apply (rotate_spec v s Hu) | | auto].
  intros r s1 (l1 & e1 & Hl1 & He1 & -> & Hu1 & Hr & _). wp_step.
  pose proof (outdated_stamped _ _ _ Hl1) as Hout.
  eapply wp_mono; [apply (rotate_spec v (set_env e1 s <| World.wallet_balances := l1 |>)); exact Hu1 | |].
  - intros r' s2 (l2 & e2 & Hl2 & _ & -> & _ & Hr' & Hk' & _). wp_step.
    change (KeyRotationService.rotated r' = Z.of_nat (length (outdated v l1))) in Hr'. rewrite Hout in Hr'.
    assert (l2 = l1) as -> by (apply (stamped_twice v s.(World.wallet_balances)); [exact Hl1|];
      eapply Forall2_impl; [exact Hl2 | right; assumption]).
    exists l1, e2. split; [exact Hl1|]. split; [reflexivity|]. split; [exact Hr|]. split; [exact Hr' | simpl in Hr'; lia].
  - intros x s2 (Hx & l2 & e2 & Hl2 & ->). split; [eapply env_step_fault; [exact He1 | exact Hx]|].
    rewrite (stamped_twice v _ _ _ Hl1 Hl2). exists l1, e2. split; [|reflexivity].
    eapply Forall2_impl; [exact Hl1 | right; assumption].
Qed.

(** ** Worked examples *)

#[local] Instance demo_gcm : Aes256Gcm := {|
  gcm_seal _ _ text := (text, "sixteen byte tag");
  gcm_open _ _ tag ct := if String.eqb tag "sixteen byte tag" then Some ct else None;
  random_bytes n _ := string_repeat "r" (Z.to_nat n)
|}.
Lemma string_repeat_length c n : String.length (string_repeat (String c "") n) = n.
Proof. induction n as [|n IH]; [reflexivity|]. cbn [string_repeat]. rewrite string_length_app, IH. reflexivity. Qed.
#[local] Instance demo_gcm_laws : Aes256GcmLaws.
Proof.
  split.
  - intros key iv text ct tag H. injection H as <- <-. reflexivity.
  - reflexivity.
  - intros n draw _. apply string_repeat_length.
Qed.

Definition key_one : string := "0123456789abcdef0123456789abcdef".
Definition key_two : string := "fedcba9876543210fedcba9876543210".
Definition before_rotation : EncryptionService.EncryptionService := EncryptionService.mk [(Some 1, key_one)] (Some 1).
Definition after_rotation : EncryptionService.EncryptionService :=
  EncryptionService.mk [(Some 1, key_one); (Some 2, key_two)] (Some 2).

Lemma payloads_survive_key_rotation_witness :
  wp (let* p := EncryptionService.encrypt before_rotation "secret" in
      let* q := EncryptionService.reencrypt after_rotation p in ret (p, q))
    (fun '(p, q) _ => keyVersion p = Some 1 /\ keyVersion q = Some 2 /\
       EncryptionService.decrypt after_rotation p = inr "secret" /\ EncryptionService.decrypt after_rotation q = inr "secret")
    (fun _ _ => False) demo_world.
Proof. exact (payloads_survive_key_rotation before_rotation after_rotation key_one key_two "secret" demo_world eq_refl eq_refl eq_refl eq_refl eq_refl). Defined.

Lemma key_rotation_is_idempotent_witness :
  length (outdated 2 two_wallets.(World.wallet_balances)) = 2%nat /\
  wp (let* r := KeyRotationService.rotate 2 in let* r' := KeyRotationService.rotate 2 in ret (r, r'))
    (fun '(r, r') s' => exists l' e, Forall2 (stamped 2) two_wallets.(World.wallet_balances) l' /\
       s' = set_env e two_wallets <| World.wallet_balances := l' |> /\
       KeyRotationService.rotated r = 2 /\ KeyRotationService.rotated r' = 0 /\
       KeyRotationService.skipped r' = KeyRotationService.total r')
    (fun x s' => env_fault (env_of two_wallets) x /\ exists l' e,
       Forall2 (fun w w' => w' = w \/ stamped 2 w w') two_wallets.(World.wallet_balances) l' /\
       s' = set_env e two_wallets <| World.wallet_balances := l' |>) two_wallets.
Proof. split; [vm_compute; reflexivity|]. exact (key_rotation_is_idempotent 2 two_wallets (proj1 two_wallets_ok)). Defined.

(** A primary key of a version that also has a key of its own is replaced by
    that key: what it sealed before cannot be read. *)
#[local] Instance shadow_config : ConfigService := {|
  config_number _ := None; config_string _ := Some "30303030"; config_bool _ := None; config_list _ := None
|}.
#[local] Instance shadow_env : ProcessEnv := {|
  process_env k := if String.eqb k "WALLET_ENCRYPTION_KEY_VERSION" then Some "2"
                   else if String.eqb k "WALLET_ENCRYPTION_KEY_V2" then Some "31313131" else None
|}.
Example versioned_key_replaces_the_primary :
  EncryptionService.create = inr (EncryptionService.mk [(Some 2, "1111")] (Some 2)).
Proof. vm_compute. reflexivity. Qed.
