(* ===== verification/ActivityFeed.v ===== *)
(** activity-feed/activity-feed.service.ts: the feed of a user, its pages, and
    the listeners that fill it from the events of the other services.  A listener
    runs after the request whose event it hears; the emitter swallows what it
    throws. *)
From S2P Require Import Prelude JsNumber NumberLaws Effects RepositoryLaws JsData ThirdParty Currencies Entities World CoreCalls Wallets PostingRules Accounts QueryBuilder Fees Limits Transactions TransactionLaws TransactionTheorems.
Local Open Scope Z_scope.

Module ActivityType.
Inductive ActivityType : Type := TRANSACTION | KYC | LOGIN | PROFILE_UPDATE | WALLET.
Definition eqb (a b : ActivityType) : bool :=
  match a, b with
  | TRANSACTION, TRANSACTION | KYC, KYC | LOGIN, LOGIN | PROFILE_UPDATE, PROFILE_UPDATE | WALLET, WALLET => true
  | _, _ => false
  end.
Definition show (a : ActivityType) : string :=
  match a with
  | TRANSACTION => "transaction"
  | KYC => "kyc"
  | LOGIN => "login"
  | PROFILE_UPDATE => "profile_update"
  | WALLET => "wallet"
  end.
Lemma ActivityType_eqb_eq a b : eqb a b = true <-> a = b.
Proof. destruct a, b; simpl; split; congruence. Qed.
End ActivityType.

(** activity-feed/activity-feed-item.entity.ts *)
Module ActivityFeedItem.
Record ActivityFeedItem : Type := mk {
  id : string;
  userId : string;
  type : ActivityType.ActivityType;
  title : string;
  description : string;
  metadata : option json;
  isRead : bool;
  createdAt : Z
}.
#[global] Instance settable : Settable ActivityFeedItem := fun r =>
  mk r.(id) r.(userId) r.(type) r.(title) r.(description) r.(metadata) r.(isRead)
     r.(createdAt).
End ActivityFeedItem.

#[global] Program Instance ActivityFeedItem_row : Row ActivityFeedItem.ActivityFeedItem := {|
  row_id := ActivityFeedItem.id;
  set_row_id i e := e <| ActivityFeedItem.id := i |>;
  created t e := e <| ActivityFeedItem.createdAt := t |>;
  touched t e := e;
  live e := true;
  clash a b := false
|}.

Notation Item := ActivityFeedItem.ActivityFeedItem.

Module FeedStore.
Record FeedStore : Type := mk {
  core_world : World;
  items : list ActivityFeedItem.ActivityFeedItem
}.
#[global] Instance settable : Settable FeedStore := fun r =>
  mk r.(core_world) r.(items).
End FeedStore.

#[global] Program Instance FeedStore_world : HasWorld FeedStore.FeedStore := {|
  world_of := FeedStore.core_world;
  set_world w s := s <| FeedStore.core_world := w |>
|}.

#[global] Program Instance FeedStore_items : Table FeedStore.FeedStore ActivityFeedItem.ActivityFeedItem := {|
  rows := FeedStore.items;
  set_rows t w := w <| FeedStore.items := t |>
|}.

Notation Store := FeedStore.FeedStore.

Record CreateActivityInput : Type := mkInput {
  in_userId : string;
  in_type : ActivityType.ActivityType;
  in_title : string;
  in_description : string;
  in_metadata : option json
}.

Record ActivityFeedFilters : Type := mkFilters {
  f_type : option ActivityType.ActivityType;
  f_startDate : option string;
  f_endDate : option string;
  f_page : option Z;
  f_limit : option Z
}.

Record ActivityFeedPage : Type := mkPage {
  p_items : list Item;
  p_page : Z;
  p_limit : Z;
  p_total : Z;
  p_totalPages : Z
}.

Module ActivityFeedService.
Definition DEFAULT_PAGE_SIZE : Z := 20.
Definition MAX_PAGE_SIZE : Z := 100.

Definition recordActivity (input : CreateActivityInput) : M Store Item :=
  save (ActivityFeedItem.mk "" (in_userId input) (in_type input) (in_title input) (in_description input)
          (in_metadata input) false 0).

Definition page_number (filters : ActivityFeedFilters) : Z := Z.max 1 (default 1 (f_page filters)).
Definition page_size (filters : ActivityFeedFilters) : Z :=
  Z.min (Z.max 1 (default DEFAULT_PAGE_SIZE (f_limit filters))) MAX_PAGE_SIZE.

(** [new Date(text)] as the bound of a query: an invalid date is refused. *)
Definition date_of {S} (text : option string) (otherwise : M S Z) : M S Z :=
  match text with
  | Some t =>
      if str_truthy t then
        match parse_iso t with Some ms => ret ms | None => throw (JsError "RangeError" "Invalid time value") end
      else otherwise
  | None => otherwise
  end.

(** The range of [createdAt], when there is one. *)
Definition created_between (filters : ActivityFeedFilters) : M Store (option (Z * Z)) :=
  if opt_truthy (f_startDate filters) || opt_truthy (f_endDate filters) then
    let* start := date_of (f_startDate filters) (ret 0) in
    let* end_ := date_of (f_endDate filters) date_now in
    ret (Some (start, end_))
  else ret None.

Definition where_ (userId : string) (type_ : option ActivityType.ActivityType) (range : option (Z * Z)) (i : Item) : bool :=
  String.eqb i.(ActivityFeedItem.userId) userId &&
  and_where type_ (fun _ => true) (ActivityType.eqb i.(ActivityFeedItem.type)) &&
  match range with
  | Some (start, end_) => (start <=? i.(ActivityFeedItem.createdAt)) && (i.(ActivityFeedItem.createdAt) <=? end_)
  | None => true
  end.

(** [Math.ceil(total / limit)]. *)
Definition ceil_div (a b : Z) : Z := - ((- a) / b).

Definition findAll (userId : string) (filters : ActivityFeedFilters) : M Store ActivityFeedPage :=
  let page := page_number filters in
  let limit := page_size filters in
  let* range := created_between filters in
  let* ' (items, total) := getManyAndCount (where_ userId (f_type filters) range) ActivityFeedItem.createdAt
                             ((page - 1) * limit) limit in
  ret (mkPage items page limit total (ceil_div total limit)).

Definition markAsRead (userId id : string) : M Store Item :=
  let* item := findOne (fun i => String.eqb i.(ActivityFeedItem.id) id && String.eqb i.(ActivityFeedItem.userId) userId) in
  match item with
  | None => throw (NotFoundException ("Activity item " +:+ id +:+ " not found"))
  | Some item => save (item <| ActivityFeedItem.isRead := true |>)
  end.

Definition markAllAsRead (userId : string) : M Store unit :=
  update_rows (fun i => String.eqb i.(ActivityFeedItem.userId) userId && negb i.(ActivityFeedItem.isRead))
    (fun i => i <| ActivityFeedItem.isRead := true |>).

(** ** Listeners *)

(** [payload.k], and its spelling in a template. *)
Definition field (k : string) (payload : json) : json :=
  match payload with JObj o => default JUndefined (obj_get k o) | _ => JUndefined end.
Definition text_of (j : json) : string :=
  match j with
  | JStr s => s
  | JNum n => num_to_string n
  | JBool b => if b then "true" else "false"
  | JNull => "null"
  | JUndefined => "undefined"
  | JArr _ | JObj _ => "[object Object]"
  end.
Definition text_field (k : string) (payload : json) : string := text_of (field k payload).

Definition handleTransactionCompleted (payload : json) : M Store unit :=
  recordActivity (mkInput (text_field "senderId" payload) ActivityType.TRANSACTION "Transaction Completed"
    ("Transfer of " +:+ text_field "amount" payload +:+ " " +:+ text_field "currency" payload +:+ " completed")
    (Some (JObj [("transactionId", field "transactionId" payload); ("counterpartyId", field "receiverId" payload);
                 ("amount", field "amount" payload); ("currency", field "currency" payload);
                 ("reference", field "reference" payload)]))) ;;; ret tt.

Definition handleDepositCompleted (payload : json) : M Store unit :=
  recordActivity (mkInput (text_field "userId" payload) ActivityType.WALLET "Deposit Completed"
    "A deposit has been credited to your wallet" (Some (JObj [("transactionId", field "transactionId" payload)]))) ;;; ret tt.

Definition handleWithdrawalCompleted (payload : json) : M Store unit :=
  recordActivity (mkInput (text_field "userId" payload) ActivityType.WALLET "Withdrawal Completed"
    "A withdrawal has been processed from your wallet" (Some (JObj [("transactionId", field "transactionId" payload)]))) ;;; ret tt.

Definition handleKycSubmitted (payload : json) : M Store unit :=
  recordActivity (mkInput (text_field "userId" payload) ActivityType.KYC "KYC Submitted"
    "Your identity verification documents have been submitted" (Some (JObj [("documentType", field "documentType" payload)]))) ;;; ret tt.

Definition handleLogin (payload : json) : M Store unit :=
  recordActivity (mkInput (text_field "userId" payload) ActivityType.LOGIN "Login"
    "Successful login to your account" (Some (JObj [("ipAddress", field "ipAddress" payload)]))) ;;; ret tt.

Definition handleProfileUpdated (payload : json) : M Store unit :=
  recordActivity (mkInput (text_field "userId" payload) ActivityType.PROFILE_UPDATE "Profile Updated"
    "Your profile information has been updated" (Some (JObj [("fields", field "fields" payload)]))) ;;; ret tt.

(** [@OnEvent(name)]. *)
Definition listener (name : string) : option (json -> M Store unit) :=
  option_map snd (List.find (fun '(n, _) => String.eqb n name)
    [("transactions.completed", handleTransactionCompleted);
     ("transactions.deposit.completed", handleDepositCompleted);
     ("transactions.withdrawal.completed", handleWithdrawalCompleted);
     ("kyc.submitted", handleKycSubmitted);
     ("auth.login", handleLogin);
     ("user.profile_updated", handleProfileUpdated)]).

Definition hear (event : string * json) : M Store unit :=
  match listener event.1 with
  | Some handler => attempt (handler event.2) ;;; ret tt
  | None => ret tt
  end.
End ActivityFeedService.

(** A request to a core service, then the listeners of what it emitted. *)
Definition with_feed {A} (request : M World A) : M Store (exn + A) :=
  let* before := gets (fun s => length (outbox (env_of s))) in
  let* r := attempt (core request) in
  let* emitted := gets (fun s => skipn before (outbox (env_of s))) in
  for_each emitted ActivityFeedService.hear ;;;
  ret r.

(** ** Pages *)

Lemma pages_concat {A} (k : nat) : forall (n : nat) (l : list A), (0 < k)%nat -> (length l <= n * k)%nat ->
  concat (map (fun i => firstn k (skipn (i * k) l)) (seq 0 n)) = l.
Proof.
  induction n as [|n IH]; intros l Hk Hl; [destruct l; [reflexivity | simpl in Hl; lia]|].
  cbn [seq map concat]. rewrite <- seq_shift, map_map. cbn [Nat.mul]. change (skipn 0 l) with l.
  transitivity (firstn k l ++ skipn k l); [f_equal | apply firstn_skipn].
  etransitivity; [|apply (IH (skipn k l) Hk); rewrite length_skipn; lia].
  f_equal. apply map_ext. intros i. rewrite drop_drop. reflexivity.
Qed.

Lemma ceil_div_spec a b : 0 <= a -> 0 < b -> 0 <= ActivityFeedService.ceil_div a b /\ a <= ActivityFeedService.ceil_div a b * b.
Proof.
  intros Ha Hb. unfold ActivityFeedService.ceil_div. pose proof (Z.div_mod (- a) b). pose proof (Z.mod_pos_bound (- a) b).
  split; [|nia]. assert (- a / b <= 0) by (apply Z.div_le_upper_bound; lia). lia.
Qed.

(** The request for another page. *)
Definition with_page (p : Z) (f : ActivityFeedFilters) : ActivityFeedFilters :=
  mkFilters (f_type f) (f_startDate f) (f_endDate f) (Some p) (f_limit f).

(** The range of [createdAt] at a time, when the dates can be read. *)
Definition range_at (now : Z) (f : ActivityFeedFilters) : option (option (Z * Z)) :=
  let bound d otherwise := if opt_truthy d then parse_iso (default "" d) else Some otherwise in
  if opt_truthy (f_startDate f) || opt_truthy (f_endDate f) then
    match bound (f_startDate f) 0, bound (f_endDate f) now with
    | Some a, Some b => Some (Some (a, b))
    | _, _ => None
    end
  else Some None.

Lemma date_of_spec {S} (d : option string) (m : M S Z) (otherwise : Z) (P : Z -> S -> Prop) X s v :
  (if opt_truthy d then parse_iso (default "" d) else Some otherwise) = Some v ->
  P v s -> (opt_truthy d = false -> wp m P X s) -> wp (ActivityFeedService.date_of d m) P X s.
Proof.
  intros Hv HP Hm. unfold ActivityFeedService.date_of. destruct d as [t|]; [|apply Hm; reflexivity].
  simpl in *. destruct (str_truthy t) eqn:Ht; [|apply Hm; reflexivity]. rewrite Hv. apply wp_ret, HP.
Qed.

Lemma created_between_spec f range (s : Store) :
  range_at (clock (env_of s) (tick (env_of s))) f = Some range ->
  wp (ActivityFeedService.created_between f)
    (fun r s1 => r = range /\ exists e, env_step (env_of s) e /\ s1 = set_env e s) (fun _ _ => False) s.
Proof.
  intros Hr. unfold ActivityFeedService.created_between, range_at in *.
  assert (Hsame : exists e, env_step (env_of s) e /\ s = set_env e s)
    by (exists (env_of s); split; [reflexivity | symmetry; apply set_env_env_of]).
  destruct (_ || _); [|wp_step; injection Hr as <-; auto].
  destruct (if opt_truthy (f_startDate f) then _ else _) as [a|] eqn:Ha; [|discriminate].
  destruct (if opt_truthy (f_endDate f) then _ else _) as [b|] eqn:Hb; [|discriminate]. injection Hr as <-.
  wp_step. apply (date_of_spec _ _ _ (fun v s1 => wp _ _ _ s1) _ _ _ Ha).
  - wp_step. apply (date_of_spec _ _ _ (fun v s1 => wp _ _ _ s1) _ _ _ Hb); [wp_step; auto|].
    intros Ht. rewrite Ht in Hb. injection Hb as <-. apply wp_date_now_exact. wp_step. split; [reflexivity|].
    eexists. split; [apply next_tick_step | reflexivity].
  - intros Ht. rewrite Ht in Ha. injection Ha as <-. wp_step.
    wp_step. apply (date_of_spec _ _ _ (fun v s1 => wp _ _ _ s1) _ _ _ Hb); [wp_step; auto|].
    intros Ht'. rewrite Ht' in Hb. injection Hb as <-. apply wp_date_now_exact. wp_step. split; [reflexivity|].
    eexists. split; [apply next_tick_step | reflexivity].
Qed.

(** What [findAll] answers for a page. *)
Lemma findAll_spec userId f range (s : Store) :
  range_at (clock (env_of s) (tick (env_of s))) f = Some range ->
  let all := order_desc ActivityFeedItem.createdAt
               (List.filter (fun i => live i && ActivityFeedService.where_ userId (f_type f) range i) s.(FeedStore.items)) in
  let limit := ActivityFeedService.page_size f in
  wp (ActivityFeedService.findAll userId f)
    (fun pg s' => s'.(FeedStore.items) = s.(FeedStore.items) /\
       pg = mkPage (page_of ((ActivityFeedService.page_number f - 1) * limit) limit all)
              (ActivityFeedService.page_number f) limit (Z.of_nat (length all))
              (ActivityFeedService.ceil_div (Z.of_nat (length all)) limit))
    (fun x s' => env_fault (env_of s) x) s.
Proof.
  intros Hr all limit. unfold ActivityFeedService.findAll. wp_step.
  eapply wp_mono; [apply (created_between_spec f range s Hr) | | intros x s1 []].
  intros r s1 (-> & e & He & ->). assert (Hp : 1 <= ActivityFeedService.page_number f) by (unfold ActivityFeedService.page_number; lia).
  assert (Hl : 1 <= limit) by (unfold limit, ActivityFeedService.page_size, ActivityFeedService.MAX_PAGE_SIZE; lia).
  wp_step. unfold getManyAndCount, find_desc. wp_step. wp_step. wp_step; [eapply env_step_fault; [exact He | assumption]|].
  wp_step. fold limit. rewrite (proj2 (Z.ltb_ge _ 0)) by nia. rewrite (proj2 (Z.ltb_ge limit 0)) by lia. cbn [orb].
  wp_step. cbv iota. wp_step. split; [reflexivity|]. reflexivity.
Qed.

(** ** Requests and their listeners *)

(** The item of a completed transfer. *)
Definition transfer_item (tx : Transaction.Transaction) : Item :=
  ActivityFeedItem.mk "" tx.(Transaction.senderId) ActivityType.TRANSACTION "Transaction Completed"
    ("Transfer of " +:+ num_to_string tx.(Transaction.amount) +:+ " " +:+ tx.(Transaction.currency) +:+ " completed")
    (Some (JObj [("transactionId", JStr tx.(Transaction.id)); ("counterpartyId", JStr tx.(Transaction.receiverId));
                 ("amount", JNum tx.(Transaction.amount)); ("currency", JStr tx.(Transaction.currency));
                 ("reference", JStr tx.(Transaction.reference))])) false 0.

Definition one_item_more (i : Item) (before after : list Item) : Prop :=
  exists k t, after = before ++ [created t (set_row_id k i)].

Lemma hear_transfer tx (s : Store) :
  reliable (env_of s) -> free_ids Item s ->
  wp (ActivityFeedService.hear (completed_event tx))
    (fun _ s' => one_item_more (transfer_item tx) s.(FeedStore.items) s'.(FeedStore.items)) (fun _ _ => False) s.
Proof.
  intros Hr Hf. unfold ActivityFeedService.hear. cbn [ActivityFeedService.listener completed_event fst snd].
  apply wp_bind, wp_attempt. apply wp_bind. unfold ActivityFeedService.recordActivity.
  eapply wp_mono; [apply (wp_save_generated _ (fun _ s' => one_item_more (transfer_item tx) s.(FeedStore.items) s'.(FeedStore.items)));
    [reflexivity | reflexivity | exact Hr | exact Hf |] | | intros x s1 []].
  - intros e' k t He. exists k, t. reflexivity.
  - intros r s1 Hs. do 2 apply wp_ret. exact Hs.
Qed.

(** The state after the request of [with_feed], before its listeners. *)
Lemma wp_with_feed {A} (request : M World A) Q (s : Store) r w :
  request (world_of s) = (r, w) ->
  wp (for_each (skipn (length (outbox (World.env (world_of s)))) (outbox (World.env w))) ActivityFeedService.hear)
     (fun _ s' => Q r s') (fun _ _ => False) (set_world w s) ->
  wp (with_feed request) Q (fun _ _ => False) s.
Proof.
  intros E Hw. unfold with_feed. apply wp_bind, wp_gets. apply wp_bind, wp_attempt. unfold wp at 1, core. rewrite E.
  destruct r as [x|a]; apply wp_bind, wp_gets, wp_bind; (eapply wp_mono; [exact Hw | intros [] s' Hs; apply wp_ret; exact Hs | auto]).
Qed.

(** ** Properties *)

(** The pages of a feed are its items: page after page of one filter, read
    from one state, gives the user's matching items newest first, each once, no
    page longer than the limit, and every page states how many there are. *)
Theorem pages_cover_the_feed userId f range (s : Store) :
  reliable (env_of s) -> range_at (clock (env_of s) (tick (env_of s))) f = Some range ->
  let all := order_desc ActivityFeedItem.createdAt
               (List.filter (fun i => live i && ActivityFeedService.where_ userId (f_type f) range i) s.(FeedStore.items)) in
  let answer p := (ActivityFeedService.findAll userId (with_page p f) s).1 in
  exists n, concat (map (fun i => match answer (Z.of_nat i) with inr pg => p_items pg | inl _ => [] end) (seq 1 n)) = all /\
    forall p, 1 <= p -> exists pg, answer p = inr pg /\ p_totalPages pg = Z.of_nat n /\
      p_total pg = Z.of_nat (length all) /\ Z.of_nat (length (p_items pg)) <= ActivityFeedService.page_size f <= 100.
Proof.
  intros Hrel Hr all answer. set (limit := ActivityFeedService.page_size f).
  assert (Hl : 1 <= limit <= 100) by (unfold limit, ActivityFeedService.page_size, ActivityFeedService.MAX_PAGE_SIZE; lia).
  assert (Hans : forall p, 1 <= p -> answer p = inr (mkPage (page_of ((p - 1) * limit) limit all) p limit
                   (Z.of_nat (length all)) (ActivityFeedService.ceil_div (Z.of_nat (length all)) limit))).
  { intros p Hp. pose proof (findAll_spec userId (with_page p f) range s Hr) as Hw. unfold answer, wp in *.
    destruct (ActivityFeedService.findAll userId (with_page p f) s) as [[x|pg] s'].
    - exfalso. exact (reliable_no_fault _ _ Hrel Hw).
    - destruct Hw as [_ ->]. assert (Hn : ActivityFeedService.page_number (with_page p f) = p)
        by (apply Z.max_r; exact Hp).
      rewrite Hn. reflexivity. }
  destruct (ceil_div_spec (Z.of_nat (length all)) limit) as [Hc1 Hc2]; [lia..|].
  exists (Z.to_nat (ActivityFeedService.ceil_div (Z.of_nat (length all)) limit)). split.
  - rewrite <- (pages_concat (Z.to_nat limit) (Z.to_nat (ActivityFeedService.ceil_div (Z.of_nat (length all)) limit)) all) at 2;
      [|lia | rewrite <- Z2Nat.inj_mul by lia; lia].
    f_equal. rewrite <- seq_shift, map_map. apply map_ext. intros i. rewrite Hans by lia. cbn [p_items]. unfold page_of. cbv zeta.
    rewrite (proj2 (Z.eqb_neq limit 0)) by lia. do 2 f_equal. rewrite Z2Nat.inj_mul by lia. f_equal. lia.
  - intros p Hp. eexists. split; [apply Hans, Hp|]. cbn [p_totalPages p_total p_items]. split; [lia|]. split; [reflexivity|].
    split; [apply length_page_of; lia | lia].
Qed.

Section Requests.
Context `{W : WalletsApi} `{CS : ConfigService} `{RP : RateProviders} `{LC : LimitConstants}
  `{SS : Horizon} `{RX : Radix36}.

(** C14 A transfer and the feed compose: when the request is answered and the
    database keeps answering, either the transfer settled and the feed has gained
    exactly one item, its sender's, which names the transaction, or nothing was
    announced and the feed is as it was; a refused request leaves it alone too. *)
Theorem transfers_reach_the_feed dto (s : Store) r w :
  wallets_ok (world_of s).(World.wallet_balances) ->
  TransactionsService.transfer dto (world_of s) = (r, w) ->
  reliable (World.env w) -> free_ids Item (set_world w s) ->
  let items' := (with_feed (TransactionsService.transfer dto) s).2.(FeedStore.items) in
  match r with
  | inr tx =>
      (tx.(Transaction.status) = TransactionStatus.COMPLETED /\ In tx w.(World.transactions) /\
       one_item_more (transfer_item tx) s.(FeedStore.items) items') \/
      (unsettled dto (world_of s) tx w /\ items' = s.(FeedStore.items))
  | inl _ => items' = s.(FeedStore.items)
  end.
Proof.
  intros Hok E Hr Hf items'. pose proof (transfer_spec dto (world_of s) Hok) as Hspec. unfold wp in Hspec. rewrite E in Hspec.
  assert (Hquiet : events w = events (world_of s) -> items' = s.(FeedStore.items)).
  { intros Hev. assert (Hw : wp (with_feed (TransactionsService.transfer dto)) (fun _ s' => s'.(FeedStore.items) = s.(FeedStore.items))
              (fun _ _ => False) s).
    { apply (wp_with_feed _ _ _ _ _ E). change (outbox (World.env w) = outbox (World.env (world_of s))) in Hev.
      rewrite Hev, List.skipn_all. apply wp_ret. reflexivity. }
    unfold wp in Hw. subst items'. destruct (with_feed _ s) as [[x|y] s']; [contradiction | exact Hw]. }
  destruct r as [x|tx]; [apply Hquiet; exact (proj2 Hspec)|].
  destruct Hspec as (_ & _ & _ & [(Hst & Hin & _ & Hev)|Hun]); [left|right; split; [exact Hun | apply Hquiet, Hun]].
  split; [exact Hst|]. split; [exact Hin|].
  assert (Hw : wp (with_feed (TransactionsService.transfer dto))
            (fun _ s' => one_item_more (transfer_item tx) s.(FeedStore.items) s'.(FeedStore.items)) (fun _ _ => False) s).
  { apply (wp_with_feed _ _ _ _ _ E). change (outbox (World.env w) = outbox (World.env (world_of s)) ++ [completed_event tx]) in Hev.
    rewrite Hev, List.skipn_app, List.skipn_all, Nat.sub_diag. cbn [List.skipn app for_each].
    apply wp_bind. eapply wp_mono; [apply (hear_transfer tx (set_world w s)); [|exact Hf] | | auto].
    { cbn [env_of HasWorld_env]. rewrite world_of_set_world. exact Hr. }
    intros [] s1 Hs1. apply wp_ret. exact Hs1. }
  unfold wp in Hw. subst items'. destruct (with_feed _ s) as [[x|y] s']; [contradiction | exact Hw].
Qed.
End Requests.

(** ** Witnesses *)

Definition read_item (id userId : string) (at_ : Z) : Item :=
  ActivityFeedItem.mk id userId ActivityType.LOGIN "Login" "Successful login to your account" None false at_.
Definition demo_feed : Store :=
  FeedStore.mk demo_world [read_item "i1" "alice" 10; read_item "i2" "alice" 30; read_item "i3" "bob" 20; read_item "i4" "alice" 20].
Definition two_a_page : ActivityFeedFilters := mkFilters None None None None (Some 2).

Lemma pages_cover_the_feed_witness :
  exists n, concat (map (fun i => match (ActivityFeedService.findAll "alice" (with_page (Z.of_nat i) two_a_page) demo_feed).1 with
                                  | inr pg => p_items pg
                                  | inl _ => [] end) (seq 1 n)) =
            [read_item "i2" "alice" 30; read_item "i4" "alice" 20; read_item "i1" "alice" 10].
Proof.
  destruct (pages_cover_the_feed "alice" two_a_page None demo_feed (fun n _ => eq_refl) eq_refl) as (n & H & _).
  exists n. etransitivity; [exact H | vm_compute; reflexivity].
Defined.

#[local] Existing Instances decimal_big demo_config no_rates default_limits all_funded.

Definition trading_feed : Store := FeedStore.mk (trading_world demo_env) [].

Lemma transfers_reach_the_feed_witness :
  exists i, (with_feed (TransactionsService.transfer (pay_bob (num_of_Z 30))) trading_feed).2.(FeedStore.items) = [i] /\
    i.(ActivityFeedItem.title) = "Transaction Completed".
Proof.
  destruct (TransactionsService.transfer (pay_bob (num_of_Z 30)) (world_of trading_feed)) as [r w] eqn:E.
  assert (Hc : fault (World.env w) = fun _ => None)
    by (pose proof (f_equal (fun p => fault (World.env p.2)) E) as H; cbn [snd] in H; rewrite <- H; vm_compute; reflexivity).
  assert (Hev : length (events w) = S (length (events (world_of trading_feed))))
    by (pose proof (f_equal (fun p => length (events p.2)) E) as H; cbn [snd] in H; rewrite <- H; vm_compute; reflexivity).
  assert (Hok : match r with inr _ => True | _ => False end)
    by (pose proof (f_equal (fun p => match p.1 with inr _ => true | inl _ => false end) E) as H; cbn [fst] in H;
        vm_compute in H; destruct r; [discriminate | exact I]).
  assert (Hr : reliable (World.env w)) by (intros n _; rewrite Hc; reflexivity).
  pose proof (transfers_reach_the_feed (pay_bob (num_of_Z 30)) trading_feed r w (trading_ok _) E Hr (List.Forall_nil _)) as H.
  destruct r as [x|tx]; [contradiction|].
  destruct H as [(_ & _ & k & t & H)|[[H _] _]]; [|exfalso; rewrite H in Hev; exact (n_Sn _ Hev)].
  eexists. split; [exact H | reflexivity].
Defined.
