(* ===== verification/Config.v ===== *)
(** config/env.validation.ts: the schema of the environment, as the calls of zod
    that build it, and the validation at start-up.  What zod answers is a
    parameter with the documented behaviour of each of its combinators. *)
From S2P Require Import Prelude JsNumber Effects JsData Network.
Local Open Scope Z_scope.

(** ** Schemas *)

Inductive string_check : Type :=
  | z_min_length (n : nat) (message : option string)
  | z_length (n : nat) (message : option string)
  | z_regex (pattern : string -> bool) (message : option string)
  | z_email (message : option string)
  | z_url (message : option string).

Inductive number_check : Type :=
  | z_min (n : num)
  | z_max (n : num)
  | z_int
  | z_positive
  | z_nonnegative.

(** The functions handed to [transform]: [Number] and [(val) => val === 'true']. *)
Inductive transformation : Type := Number | is_true.

Inductive schema : Type :=
  | z_string (checks : list string_check)
  | z_number (checks : list number_check)
  | z_enum (values : list string)
  | z_transform (f : transformation) (inner : schema)
  | z_pipe (outer inner : schema)
  | z_default (v : json) (inner : schema)
  | z_optional (inner : schema).

Notation "s |> f" := (f s) (at level 50, left associativity, only parsing).
Definition shape : Type := list (string * schema).

Definition apply_to (f : transformation) (v : json) : json :=
  match f, v with
  | Number, JStr s => JNum (js_number s)
  | Number, _ => JNum num_nan
  | is_true, JStr s => JBool (String.eqb s "true")
  | is_true, _ => JBool false
  end.

(** [z.infer]. *)
Inductive ty : Type :=
  | T_string
  | T_number
  | T_boolean
  | T_literals (values : list string)
  | T_optional (t : ty).

(** The type without [undefined]. *)
Fixpoint no_undefined (t : ty) : ty :=
  match t with T_optional t => no_undefined t | _ => t end.

Fixpoint infer (s : schema) : ty :=
  match s with
  | z_string _ => T_string
  | z_number _ => T_number
  | z_enum values => T_literals values
  | z_transform Number _ => T_number
  | z_transform is_true _ => T_boolean
  | z_pipe outer _ => infer outer
  | z_default _ inner => no_undefined (infer inner)
  | z_optional inner => T_optional (infer inner)
  end.

Fixpoint has_type (t : ty) (v : json) : bool :=
  match t, v with
  | T_string, JStr _ | T_number, JNum _ | T_boolean, JBool _ => true
  | T_literals values, JStr s => existsb (String.eqb s) values
  | T_optional _, JUndefined => true
  | T_optional t, _ => has_type t v
  | _, _ => false
  end.

(** Hexadecimal digits only: [/^[0-9a-fA-F]+$/], and 64 of them. *)
Definition is_hex_digit (c : ascii) : bool := digit_value c <? 16.
Fixpoint all_hex (s : string) : bool :=
  match s with EmptyString => true | String c s' => is_hex_digit c && all_hex s' end.
Definition hexStringRegex (s : string) : bool := str_truthy s && all_hex s.
Definition hex64 (s : string) : bool := all_hex s && Nat.eqb (String.length s) 64.

(** ** zod *)

Record issue : Type := mkIssue { issue_path : list string; issue_message : string }.

(** What zod decides: an e-mail address, an absolute URL, and parsing. *)
Class Zod : Type := {
  valid_email : string -> bool;
  valid_url : string -> bool;
  parse : schema -> json -> list issue + json;
  parse_object : shape -> list (string * json) -> list issue + list (string * json)
}.

Definition var (k : string) (o : list (string * json)) : json := default JUndefined (obj_get k o).

Section Checks.
Context `{Z : Zod}.

Definition string_passes (s : string) (c : string_check) : bool :=
  match c with
  | z_min_length n _ => Nat.leb n (String.length s)
  | z_length n _ => Nat.eqb (String.length s) n
  | z_regex pattern _ => pattern s
  | z_email _ => valid_email s
  | z_url _ => valid_url s
  end.

Definition check_message (c : string_check) : option string :=
  match c with z_min_length _ m | z_length _ m | z_regex _ m | z_email m | z_url m => m end.

Definition number_passes (n : num) (c : number_check) : bool :=
  match c with
  | z_min m => num_leb m n
  | z_max m => num_leb n m
  | z_int => match integer_of n with Some i => Z.abs i <=? 2 ^ 53 - 1 | None => false end
  | z_positive => num_ltb (num_of_Z 0) n
  | z_nonnegative => num_leb (num_of_Z 0) n
  end.

(** The documented behaviour of the combinators (zod 4). *)
Record ZodLaws : Prop := {
  string_law : forall checks x v,
    parse (z_string checks) x = inr v <-> exists s, x = JStr s /\ v = x /\ forallb (string_passes s) checks = true;
  string_message_law : forall checks s c m iss, In c checks -> string_passes s c = false -> check_message c = Some m ->
    parse (z_string checks) (JStr s) = inl iss -> In (mkIssue [] m) iss;
  number_law : forall checks x v,
    parse (z_number checks) x = inr v <->
    exists n, x = JNum n /\ v = x /\ is_finite n = true /\ forallb (number_passes n) checks = true;
  enum_law : forall values x v,
    parse (z_enum values) x = inr v <-> exists s, x = JStr s /\ v = x /\ existsb (String.eqb s) values = true;
  transform_law : forall f s x,
    parse (z_transform f s) x = match parse s x with inr v => inr (apply_to f v) | inl iss => inl iss end;
  pipe_law : forall outer s x,
    parse (z_pipe outer s) x = match parse s x with inr v => parse outer v | inl iss => inl iss end;
  default_law : forall d s x,
    parse (z_default d s) x = match x with JUndefined => inr d | _ => parse s x end;
  optional_law : forall s x,
    parse (z_optional s) x = match x with JUndefined => inr JUndefined | _ => parse s x end;
  issues_law : forall s x iss, parse s x = inl iss -> iss <> [];
  (** An object is accepted when each of its variables is; otherwise the
      variables' issues are collected, each behind the name of its variable. *)
  object_accepts_law : forall sh o, List.NoDup (map fst sh) -> (forall k s, In (k, s) sh -> exists v, parse s (var k o) = inr v) ->
    exists r, parse_object sh o = inr r /\
      (forall k s, In (k, s) sh -> parse s (var k o) = inr (var k r)) /\
      (forall k, In k (map fst r) -> In k (map fst sh));
  object_refuses_law : forall sh o k s iss, In (k, s) sh -> parse s (var k o) = inl iss ->
    parse_object sh o =
      inl (concat (map (fun '(k, s) => match parse s (var k o) with
                                       | inl iss => map (fun i => mkIssue (k :: issue_path i) (issue_message i)) iss
                                       | inr _ => []
                                       end) sh))
}.
End Checks.

(** ** The environment *)

(** An object literal: a key written twice has its first place and its last
    value. *)
Fixpoint shape_set (k : string) (s : schema) (sh : shape) : shape :=
  match sh with
  | [] => [(k, s)]
  | (k', s') :: sh' => if String.eqb k k' then (k, s) :: sh' else (k', s') :: shape_set k s sh'
  end.
Definition literal (entries : shape) : shape := fold_left (fun acc '(k, s) => shape_set k s acc) entries [].

Definition app_schema : shape :=
  [("NODE_ENV", z_enum ["development"; "production"; "test"] |> z_default (JStr "development"));
   ("PORT", z_string [] |> z_transform Number |> z_pipe (z_number [z_min (num_of_Z 1); z_max (num_of_Z 65535)]) |> z_default (JNum (num_of_Z 3000)));
   ("LOG_LEVEL", z_enum ["fatal"; "error"; "warn"; "info"; "debug"; "trace"] |> z_default (JStr "info"));
   ("SWAGGER_ENABLED", z_string [] |> z_transform is_true |> z_default (JBool false));
   ("BODY_LIMIT_JSON", z_string [] |> z_transform Number |> z_pipe (z_number [z_min (num_of_Z 1); z_max (num_of_Z 100)]) |> z_default (JNum (num_of_Z 10)));
   ("BODY_LIMIT_URLENCODED", z_string [] |> z_transform Number |> z_pipe (z_number [z_min (num_of_Z 1); z_max (num_of_Z 100)]) |> z_default (JNum (num_of_Z 10)))].

Definition database_schema : shape :=
  [("DB_HOST", z_string [z_min_length 1 (Some "DB_HOST is required")]);
   ("DB_PORT", z_string [] |> z_transform Number |> z_pipe (z_number [z_min (num_of_Z 1); z_max (num_of_Z 65535)]));
   ("DB_USER", z_string [z_min_length 1 (Some "DB_USER is required")]);
   ("DB_PASSWORD", z_string [z_min_length 1 (Some "DB_PASSWORD is required")]);
   ("DB_NAME", z_string [z_min_length 1 (Some "DB_NAME is required")]);
   ("DB_SSL", z_string [] |> z_transform is_true |> z_default (JBool false))].

Definition token_schema : shape :=
  [("JWT_SECRET", z_string [z_min_length 32 (Some "JWT_SECRET must be at least 32 characters for security")]);
   ("JWT_EXPIRY", z_string [] |> z_transform Number |> z_pipe (z_number [z_positive]) |> z_default (JNum (num_of_Z 3600)));
   ("SLOW_QUERY_THRESHOLD_MS", z_string [] |> z_transform Number |> z_pipe (z_number [z_positive]) |> z_default (JNum (num_of_Z 1000)));
   ("REFRESH_TOKEN_SECRET", z_string [z_min_length 32 (Some "REFRESH_TOKEN_SECRET must be at least 32 characters for security")]);
   ("REFRESH_TOKEN_EXPIRY", z_string [] |> z_transform Number |> z_pipe (z_number [z_positive]) |> z_default (JNum (num_of_Z 604800)));
   ("OTP_SECRET", z_string [z_min_length 32 (Some "OTP_SECRET must be at least 32 characters for security")]);
   ("OTP_EXPIRY", z_string [] |> z_transform Number |> z_pipe (z_number [z_positive]) |> z_default (JNum (num_of_Z 300)))].

Definition mail_schema : shape :=
  [("MAIL_HOST", z_string [z_min_length 1 (Some "MAIL_HOST is required")]);
   ("MAIL_PORT", z_string [] |> z_transform Number |> z_pipe (z_number [z_min (num_of_Z 1); z_max (num_of_Z 65535)]));
   ("MAIL_USER", z_string [z_email (Some "MAIL_USER must be a valid email")]);
   ("MAIL_PASSWORD", z_string [z_min_length 1 (Some "MAIL_PASSWORD is required")]);
   ("MAIL_FROM", z_string [z_email (Some "MAIL_FROM must be a valid email")]);
   ("MAIL_SECURE", z_string [] |> z_transform is_true |> z_default (JBool false))].

Definition redis_schema : shape :=
  [("REDIS_HOST", z_string [] |> z_optional |> z_default (JStr "localhost"));
   ("REDIS_PORT", z_string [] |> z_transform Number |> z_pipe (z_number [z_min (num_of_Z 1); z_max (num_of_Z 65535)]) |> z_default (JNum (num_of_Z 6379)));
   ("REDIS_PASSWORD", z_string [] |> z_optional);
   ("RATE_LIMIT_WINDOW_MS", z_string [] |> z_transform Number |> z_pipe (z_number [z_positive]) |> z_default (JNum (num_of_Z 60000)));
   ("RATE_LIMIT_MAX_REQUESTS", z_string [] |> z_transform Number |> z_pipe (z_number [z_positive]) |> z_default (JNum (num_of_Z 100)))].

Definition archive_schema : shape :=
  [("IDEMPOTENCY_TTL_HOURS", z_string [] |> z_transform Number |> z_pipe (z_number [z_int; z_positive]) |> z_default (JNum (num_of_Z 24)));
   ("IDEMPOTENCY_CLEANUP_CRON", z_string [z_min_length 1 None] |> z_default (JStr "0 0 * * *"));
   ("ARCHIVE_ENABLED", z_string [] |> z_transform is_true |> z_default (JBool true));
   ("ARCHIVE_THRESHOLD_MONTHS", z_string [] |> z_transform Number |> z_pipe (z_number [z_int; z_min (num_of_Z 1); z_max (num_of_Z 120)]) |> z_default (JNum (num_of_Z 12)));
   ("ARCHIVE_BATCH_SIZE", z_string [] |> z_transform Number |> z_pipe (z_number [z_int; z_min (num_of_Z 10); z_max (num_of_Z 5000)]) |> z_default (JNum (num_of_Z 500)));
   ("ARCHIVE_CRON", z_string [z_min_length 1 None] |> z_default (JStr "0 3 * * *"))].

Definition cache_schema : shape :=
  [("SUPPORTED_CURRENCIES", z_string [z_min_length 1 None] |> z_default (JStr "USD,EUR,GBP,NGN"));
   ("CACHE_EXCHANGE_RATE_TTL_SECONDS", z_string [] |> z_transform Number |> z_pipe (z_number [z_int; z_positive]) |> z_default (JNum (num_of_Z 60)));
   ("CACHE_SUPPORTED_CURRENCIES_TTL_SECONDS", z_string [] |> z_transform Number |> z_pipe (z_number [z_int; z_positive]) |> z_default (JNum (num_of_Z 86400)));
   ("CACHE_ADMIN_STATS_TTL_SECONDS", z_string [] |> z_transform Number |> z_pipe (z_number [z_int; z_positive]) |> z_default (JNum (num_of_Z 60)));
   ("WALLET_BALANCE_CACHE_TTL_SECONDS", z_string [] |> z_transform Number |> z_pipe (z_number [z_min (num_of_Z 1); z_max (num_of_Z 3600)]) |> z_default (JNum (num_of_Z 30)))].

Definition security_schema : shape :=
  [("ADMIN_ALLOWED_IPS", z_string [] |> z_optional |> z_default (JStr ""));
   ("WEBHOOK_MAX_ATTEMPTS", z_string [] |> z_transform Number |> z_pipe (z_number [z_int; z_positive]) |> z_default (JNum (num_of_Z 5)));
   ("WEBHOOK_BACKOFF_DELAY_MS", z_string [] |> z_transform Number |> z_pipe (z_number [z_int; z_positive]) |> z_default (JNum (num_of_Z 1000)));
   ("WEBHOOK_REPLAY_WINDOW_HOURS", z_string [] |> z_transform Number |> z_pipe (z_number [z_int; z_positive]) |> z_default (JNum (num_of_Z 24)));
   ("TERMS_CURRENT_VERSION", z_string [z_min_length 1 None] |> z_default (JStr "1.0"));
   ("BLOCKED_COUNTRIES", z_string [] |> z_optional |> z_default (JStr ""))].

Definition external_schema : shape :=
  [("EXTERNAL_API_KEY", z_string [] |> z_optional);
   ("EXTERNAL_API_URL", z_string [] |> z_optional);
   ("EXTERNAL_API_TIMEOUT", z_string [] |> z_transform Number |> z_pipe (z_number [z_positive]) |> z_default (JNum (num_of_Z 30000)));
   ("FCM_SERVER_KEY", z_string [] |> z_optional);
   ("APNS_KEY_ID", z_string [] |> z_optional);
   ("APNS_TEAM_ID", z_string [] |> z_optional);
   ("APNS_BUNDLE_ID", z_string [] |> z_optional);
   ("APNS_PRIVATE_KEY", z_string [] |> z_optional)].

Definition referral_schema : shape :=
  [("REFERRAL_REWARD_AMOUNT", z_string [] |> z_transform Number |> z_pipe (z_number [z_nonnegative]) |> z_default (JNum (num_of_Z 10)));
   ("REFERRAL_MAX_REFERRALS", z_string [] |> z_transform Number |> z_pipe (z_number [z_int; z_nonnegative]) |> z_default (JNum (num_of_Z 100)));
   ("REFERRAL_PROGRAM_ACTIVE", z_string [] |> z_transform is_true |> z_default (JBool true));
   ("ADMIN_ALERT_EMAIL", z_string [z_email (Some "ADMIN_ALERT_EMAIL must be a valid email")] |> z_optional);
   ("ADMIN_ALERT_SLACK_WEBHOOK_URL", z_string [z_url (Some "ADMIN_ALERT_SLACK_WEBHOOK_URL must be a valid URL")] |> z_optional);
   ("ADMIN_ALERT_RATE_LIMIT_MINUTES", z_string [] |> z_transform Number |> z_pipe (z_number [z_int; z_positive]) |> z_default (JNum (num_of_Z 15)))].

Definition aml_schema : shape :=
  [("AML_STRUCTURING_THRESHOLD", z_string [] |> z_transform Number |> z_pipe (z_number [z_nonnegative]) |> z_default (JNum (num_of_Z 10000)));
   ("AML_STRUCTURING_WINDOW_HOURS", z_string [] |> z_transform Number |> z_pipe (z_number [z_int; z_nonnegative]) |> z_default (JNum (num_of_Z 24)));
   ("AML_STRUCTURING_MIN_COUNT", z_string [] |> z_transform Number |> z_pipe (z_number [z_int; z_nonnegative]) |> z_default (JNum (num_of_Z 3)));
   ("AML_SMURFING_WINDOW_HOURS", z_string [] |> z_transform Number |> z_pipe (z_number [z_int; z_nonnegative]) |> z_default (JNum (num_of_Z 1)));
   ("AML_SMURFING_MIN_WALLETS", z_string [] |> z_transform Number |> z_pipe (z_number [z_int; z_nonnegative]) |> z_default (JNum (num_of_Z 3)));
   ("AML_SMURFING_VARIANCE_PCT", z_string [] |> z_transform Number |> z_pipe (z_number [z_nonnegative]) |> z_default (JNum (num_of_Z 5)));
   ("AML_VELOCITY_WINDOW_HOURS", z_string [] |> z_transform Number |> z_pipe (z_number [z_int; z_nonnegative]) |> z_default (JNum (num_of_Z 1)));
   ("AML_VELOCITY_MAX_COUNT", z_string [] |> z_transform Number |> z_pipe (z_number [z_int; z_nonnegative]) |> z_default (JNum (num_of_Z 10)));
   ("AML_RISK_SCORE_WEIGHT", z_string [] |> z_transform Number |> z_pipe (z_number [z_int; z_nonnegative]) |> z_default (JNum (num_of_Z 30)))].

Definition fx_schema : shape :=
  [("FX_REVERSAL_WINDOW_MINUTES", z_string [] |> z_transform Number |> z_pipe (z_number [z_int; z_nonnegative]) |> z_default (JNum (num_of_Z 5)));
   ("OPEN_EXCHANGE_RATES_API_KEY", z_string [] |> z_optional);
   ("EXCHANGE_RATE_HOST_API_KEY", z_string [] |> z_optional);
   ("WALLET_ENCRYPTION_KEY", z_string [z_length 64 (Some "WALLET_ENCRYPTION_KEY must be exactly 64 hex characters"); z_regex hex64 (Some "WALLET_ENCRYPTION_KEY must be a valid 64-character hex string")]);
   ("SWAP_SLIPPAGE_PERCENT", z_string [] |> z_transform Number |> z_pipe (z_number [z_positive; z_max (num_of_ratio 100 1000)]) |> z_default (JNum (num_of_ratio 5 1000)));
   ("SWAP_PREVIEW_CACHE_TTL_SECONDS", z_string [] |> z_transform Number |> z_pipe (z_number [z_int; z_positive]) |> z_default (JNum (num_of_Z 30)))].

Definition jobs_schema : shape :=
  [("PENDING_TX_TIMEOUT_MINUTES", z_string [] |> z_transform Number |> z_pipe (z_number [z_int; z_positive]) |> z_default (JNum (num_of_Z 30)));
   ("KYC_STORAGE_HOST", z_string [] |> z_optional);
   ("STELLAR_ASSET_ISSUERS", z_string [] |> z_optional);
   ("THROTTLE_AUTH_LIMIT", z_string [] |> z_transform Number |> z_pipe (z_number [z_int; z_positive]) |> z_default (JNum (num_of_Z 5)));
   ("STELLAR_HOT_WALLET_SECRET", z_string [z_min_length 1 (Some "STELLAR_HOT_WALLET_SECRET is required")]);
   ("WALLET_BALANCE_CACHE_TTL_SECONDS", z_string [] |> z_transform Number |> z_pipe (z_number [z_int; z_positive]) |> z_default (JNum (num_of_Z 30)))].

Definition envSchema : shape :=
  literal (app_schema ++ database_schema ++ token_schema ++ mail_schema ++ redis_schema ++ archive_schema ++
           cache_schema ++ security_schema ++ external_schema ++ referral_schema ++ aml_schema ++ fx_schema ++ jobs_schema).

Section Validation.
Context `{Z : Zod}.

Definition line_break : string := String (ascii_of_nat 10) "".
Definition issue_line (i : issue) : string := join "." (issue_path i) +:+ ": " +:+ issue_message i.

Definition validateEnv (config : list (string * json)) : exn + list (string * json) :=
  match parse_object envSchema config with
  | inr env => inr env
  | inl issues =>
      inl (PlainError ("Environment validation failed:" +:+ line_break +:+ join line_break (map issue_line issues)))
  end.

Definition validateWalletEncryptionKey (key : string) : bool :=
  hexStringRegex key && Nat.eqb (String.length key) 64.
End Validation.

(** ** What a schema lets through *)

Section Typing.
Context `{Z : Zod}.

(** The constraints a schema puts on its result. *)
Fixpoint conforms (s : schema) (v : json) : bool :=
  match s with
  | z_string checks => match v with JStr t => forallb (string_passes t) checks | _ => false end
  | z_number checks => match v with JNum n => is_finite n && forallb (number_passes n) checks | _ => false end
  | z_enum values => has_type (T_literals values) v
  | z_transform f _ => has_type (match f with Number => T_number | is_true => T_boolean end) v
  | z_pipe outer _ => conforms outer v
  | z_default _ inner => conforms inner v
  | z_optional inner => match v with JUndefined => true | _ => conforms inner v end
  end.

(** Every default is a value its schema lets through. *)
Fixpoint defaults_ok (s : schema) : bool :=
  match s with
  | z_default d inner => conforms inner d && has_type (no_undefined (infer inner)) d && defaults_ok inner
  | z_transform _ inner | z_optional inner => defaults_ok inner
  | z_pipe outer inner => defaults_ok outer && defaults_ok inner
  | _ => true
  end.

(** A variable that has to be there. *)
Fixpoint required (s : schema) : bool :=
  match s with
  | z_string _ | z_number _ | z_enum _ => true
  | z_transform _ inner | z_pipe _ inner => required inner
  | z_default _ _ | z_optional _ => false
  end.

Lemma defined_not_undefined t v : has_type (no_undefined t) v = true -> v <> JUndefined.
Proof. induction t as [| | | |t IH]; intros H Hv; try (rewrite Hv in H; discriminate). exact (IH H Hv). Qed.

Lemma has_type_optional t v : has_type t v = true -> has_type (T_optional t) v = true.
Proof. destruct v; auto. Qed.

Lemma no_undefined_idem t : no_undefined (no_undefined t) = no_undefined t.
Proof. induction t; auto. Qed.

(** Types are sound: what a schema lets through has its type and keeps its
    constraints, and is defined when the input is. *)
Lemma parse_typed (L : ZodLaws) s : forall x v, defaults_ok s = true -> parse s x = inr v ->
  conforms s v = true /\ has_type (infer s) v = true /\ (x <> JUndefined -> has_type (no_undefined (infer s)) v = true).
Proof.
  induction s as [cs|cs|vs|f s IH|o IHo s IH|d s IH|s IH]; intros x v Hd H; cbn [infer conforms no_undefined defaults_ok] in *.
  - apply (string_law L) in H as (t & -> & -> & H). auto.
  - apply (number_law L) in H as (n & -> & -> & Hf & H). rewrite Hf. auto.
  - apply (enum_law L) in H as (t & -> & -> & H). auto.
  - rewrite (transform_law L) in H. destruct (parse s x) as [|w]; [discriminate|]. injection H as <-.
    destruct f, w; auto.
  - rewrite (pipe_law L) in H. apply andb_prop in Hd as [Hdo Hd]. destruct (parse s x) as [|w] eqn:E; [discriminate|].
    destruct (IHo w v Hdo H) as (H1 & H2 & H3). split; [exact H1|]. split; [exact H2|]. intros Hx. apply H3.
    eapply defined_not_undefined, (IH x w Hd E), Hx.
  - rewrite (default_law L) in H. apply andb_prop in Hd as [[Hc Ht]%andb_prop Hd]. rewrite no_undefined_idem.
    assert (Hcase : x = JUndefined \/ x <> JUndefined) by (destruct x; [left; reflexivity | right; discriminate ..]).
    destruct Hcase as [->|Hx]; [injection H as <-; auto|].
    assert (H' : parse s x = inr v) by (destruct x; [congruence | exact H ..]).
    destruct (IH x v Hd H') as (H1 & _ & H3). specialize (H3 Hx). auto.
  - rewrite (optional_law L) in H.
    assert (Hcase : x = JUndefined \/ x <> JUndefined) by (destruct x; [left; reflexivity | right; discriminate ..]).
    destruct Hcase as [->|Hx]; [injection H as <-; split; [reflexivity | split; [reflexivity | congruence]]|].
    assert (H' : parse s x = inr v) by (destruct x; [congruence | exact H ..]).
    destruct (IH x v Hd H') as (H1 & H2 & H3). specialize (H3 Hx). split; [destruct v; auto|].
    split; [apply has_type_optional, H2 | auto].
Qed.

(** A variable that has to be there is refused when it is not. *)
Lemma required_refused (L : ZodLaws) s : required s = true -> exists iss, parse s JUndefined = inl iss.
Proof.
  intros Hr. destruct (parse s JUndefined) as [iss|v] eqn:E; [eauto|]. exfalso. revert v E.
  induction s as [cs|cs|vs|f s IH|o _ s IH|d s _|s _]; intros v E; try discriminate.
  - apply (string_law L) in E as (t & H & _). discriminate.
  - apply (number_law L) in E as (n & H & _). discriminate.
  - apply (enum_law L) in E as (t & H & _). discriminate.
  - rewrite (transform_law L) in E. destruct (parse s JUndefined) as [|w]; [discriminate | exact (IH Hr w eq_refl)].
  - rewrite (pipe_law L) in E. destruct (parse s JUndefined) as [|w]; [discriminate | exact (IH Hr w eq_refl)].
Qed.
End Typing.

(** ** The validation at start-up *)

Lemma schema_defaults `{Z : Zod} : forallb (fun kv => defaults_ok kv.2) envSchema = true.
Proof. vm_compute. reflexivity. Qed.

Lemma in_shape_set k k' s sh : In k' (map fst (shape_set k s sh)) -> k' = k \/ In k' (map fst sh).
Proof.
  induction sh as [|[k0 s0] sh IH]; cbn [shape_set map]; [intros [<-|[]]; auto|].
  destruct (String.eqb_spec k k0) as [->|]; intros [<-|H]; auto; [right; right; exact H | right; left; reflexivity|].
  destruct (IH H) as [->|H']; [left; reflexivity | right; right; exact H'].
Qed.

Lemma NoDup_shape_set k s sh : List.NoDup (map fst sh) -> List.NoDup (map fst (shape_set k s sh)).
Proof.
  induction sh as [|[k0 s0] sh IH]; cbn [shape_set map]; intros H; [repeat constructor; intros []|].
  inversion_clear H as [|? ? Hn Hnd]. destruct (String.eqb_spec k k0) as [->|Hne]; cbn [map fst]; constructor; auto.
  intros [->|H]%in_shape_set; [congruence | exact (Hn H)].
Qed.

(** An object has each of its keys once. *)
Lemma NoDup_literal entries : List.NoDup (map fst (literal entries)).
Proof.
  unfold literal. assert (H : List.NoDup (map fst ([] : shape))) by constructor. revert H. generalize ([] : shape).
  induction entries as [|[k s] entries IH]; intros acc H; [exact H|]. apply IH, NoDup_shape_set, H.
Qed.

Section Startup.
Context `{Z : Zod}.

Lemma validateEnv_accepts (L : ZodLaws) config :
  (forall k s, In (k, s) envSchema -> exists v, parse s (var k config) = inr v) ->
  exists env, validateEnv config = inr env /\
    (forall k s, In (k, s) envSchema -> parse s (var k config) = inr (var k env)) /\
    (forall k, In k (map fst env) -> In k (map fst envSchema)).
Proof.
  intros H. destruct (object_accepts_law L envSchema config (NoDup_literal _) H) as (r & E & Hr & Hk). exists r. unfold validateEnv. rewrite E. auto.
Qed.

(** The lines of one variable are in the message. *)
Lemma validateEnv_refuses (L : ZodLaws) config k s iss :
  In (k, s) envSchema -> parse s (var k config) = inl iss ->
  exists msg, validateEnv config = inl (PlainError msg) /\
    forall i, In i iss -> includes (join "." (k :: issue_path i) +:+ ": " +:+ issue_message i) msg = true.
Proof.
  intros Hin Hp. unfold validateEnv. rewrite (object_refuses_law L _ _ _ _ _ Hin Hp). eexists. split; [reflexivity|].
  intros i Hi. do 2 apply includes_after. apply includes_join, in_map_iff.
  exists (mkIssue (k :: issue_path i) (issue_message i)). split; [reflexivity|].
  apply in_concat. eexists. split; [apply in_map_iff; exists (k, s); split; [reflexivity | exact Hin]|].
  rewrite Hp. apply in_map_iff. eauto.
Qed.

Lemma all_or_refused (sh : shape) config :
  (forall k s, In (k, s) sh -> exists v, parse s (var k config) = inr v) \/
  (exists k s iss, In (k, s) sh /\ parse s (var k config) = inl iss).
Proof.
  induction sh as [|[k s] sh [IH|(k' & s' & iss & Hin & E)]]; [left; intros ? ? []| |right; exists k', s', iss; split; [right|]; auto].
  destruct (parse s (var k config)) as [iss|v] eqn:E; [right; exists k, s, iss; split; [left; reflexivity | exact E]|left].
  intros k' s' [[= <- <-]|Hin]; eauto.
Qed.

(** C16 The validated environment is typed: when the validation lets the
    environment through, every variable of the schema has its inferred type in
    the result and keeps the constraints the schema puts on it, and the result
    has no other variable. *)
Theorem validated_environment_is_typed (L : ZodLaws) config env :
  validateEnv config = inr env ->
  (forall k s, In (k, s) envSchema -> has_type (infer s) (var k env) = true /\ conforms s (var k env) = true) /\
  (forall k, In k (map fst env) -> In k (map fst envSchema)).
Proof.
  intros E. destruct (all_or_refused envSchema config) as [H|(k & s & iss & Hin & Hp)].
  - destruct (validateEnv_accepts L config H) as (env' & E' & Hv & Hk). rewrite E in E'. injection E' as <-.
    split; [|exact Hk]. intros k s Hin. pose proof (proj1 (forallb_forall _ _) schema_defaults _ Hin) as Hd.
    destruct (parse_typed L s _ _ Hd (Hv k s Hin)) as (H1 & H2 & _). auto.
  - destruct (validateEnv_refuses L config k s iss Hin Hp) as (msg & E' & _). rewrite E in E'. discriminate.
Qed.

(** The validation fails fast and says why: it accepts an environment exactly
    when the schema accepts each of its variables, and otherwise it throws one
    error whose message has a line for every issue of every refused variable; a
    variable that has to be there and is not is one of them. *)
Theorem validation_names_what_it_refuses (L : ZodLaws) config :
  ((exists env, validateEnv config = inr env) <->
   (forall k s, In (k, s) envSchema -> exists v, parse s (var k config) = inr v)) /\
  (forall x, validateEnv config = inl x -> exists msg, x = PlainError msg /\
     forall k s iss i, In (k, s) envSchema -> parse s (var k config) = inl iss -> In i iss ->
       includes (join "." (k :: issue_path i) +:+ ": " +:+ issue_message i) msg = true) /\
  (forall k s, In (k, s) envSchema -> required s = true -> var k config = JUndefined ->
     exists msg, validateEnv config = inl (PlainError msg) /\ includes k msg = true).
Proof.
  split; [split|split].
  - intros [env E] k s Hin. destruct (parse s (var k config)) as [iss|v] eqn:Hp; [|eauto].
    destruct (validateEnv_refuses L config k s iss Hin Hp) as (msg & E' & _). rewrite E in E'. discriminate.
  - intros H. destruct (validateEnv_accepts L config H) as (env & E & _). eauto.
  - intros x E. destruct (all_or_refused envSchema config) as [H|(k & s & iss & Hin & Hp)].
    + destruct (validateEnv_accepts L config H) as (env & E' & _). rewrite E in E'. discriminate.
    + destruct (validateEnv_refuses L config k s iss Hin Hp) as (msg & E' & _). rewrite E in E'. injection E' as ->.
      exists msg. split; [reflexivity|]. intros k' s' iss' i Hin' Hp' Hi.
      destruct (validateEnv_refuses L config k' s' iss' Hin' Hp') as (msg' & E' & Hm). rewrite E in E'. injection E' as <-. auto.
  - intros k s Hin Hr Hv. destruct (required_refused L s Hr) as [iss Hp]. pose proof (issues_law L _ _ _ Hp) as Hne.
    rewrite <- Hv in Hp. destruct (validateEnv_refuses L config k s iss Hin Hp) as (msg & E & Hm). exists msg. split; [exact E|].
    destruct iss as [|i iss]; [congruence|]. specialize (Hm i (or_introl eq_refl)).
    eapply includes_trans; [|exact Hm]. destruct (issue_path i); [|cbn [join]; rewrite string_app_assoc];
      apply (includes_app "").
Qed.
End Startup.

(** ** Worked examples *)

(** A parser with the behaviour the laws state: its addresses have an at sign
    and its URLs a scheme. *)
Section Reader.
Let email (s : string) : bool := includes "@" s.
Let url (s : string) : bool := includes "://" s.
Let passes (s : string) (c : string_check) : bool :=
  match c with
  | z_min_length n _ => Nat.leb n (String.length s)
  | z_length n _ => Nat.eqb (String.length s) n
  | z_regex pattern _ => pattern s
  | z_email _ => email s
  | z_url _ => url s
  end.

Definition reject (message : string) : list issue + json := inl [mkIssue [] message].

Fixpoint read (s : schema) (x : json) : list issue + json :=
  match s with
  | z_string checks =>
      match x with
      | JStr t =>
          match List.filter (fun c => negb (passes t c)) checks with
          | [] => inr x
          | failed => inl (map (fun c => mkIssue [] (default "Invalid input" (check_message c))) failed)
          end
      | _ => reject "Invalid input: expected string"
      end
  | z_number checks =>
      match x with
      | JNum n => if is_finite n && forallb (number_passes n) checks then inr x else reject "Invalid input: expected number"
      | _ => reject "Invalid input: expected number"
      end
  | z_enum values =>
      match x with
      | JStr t => if existsb (String.eqb t) values then inr x else reject "Invalid option"
      | _ => reject "Invalid option"
      end
  | z_transform f inner => match read inner x with inr v => inr (apply_to f v) | inl iss => inl iss end
  | z_pipe outer inner => match read inner x with inr v => read outer v | inl iss => inl iss end
  | z_default d inner => match x with JUndefined => inr d | _ => read inner x end
  | z_optional inner => match x with JUndefined => inr JUndefined | _ => read inner x end
  end.

Definition read_object (sh : shape) (o : list (string * json)) : list issue + list (string * json) :=
  match concat (map (fun '(k, s) => match read s (var k o) with
                                    | inl iss => map (fun i => mkIssue (k :: issue_path i) (issue_message i)) iss
                                    | inr _ => []
                                    end) sh) with
  | [] => inr (map (fun '(k, s) => (k, match read s (var k o) with inr v => v | inl _ => JUndefined end)) sh)
  | issues => inl issues
  end.

Definition reader : Zod := {| valid_email := email; valid_url := url; parse := read; parse_object := read_object |}.
End Reader.
#[local] Existing Instance reader.

Lemma read_issues s : forall x iss, read s x = inl iss -> iss <> [].
Proof.
  induction s as [cs|cs|vs|f s IH|o IHo s IH|d s IH|s IH]; intros x iss E; cbn [read] in E.
  - destruct x; try (injection E as <-; discriminate). destruct (List.filter _ cs); [discriminate|]. injection E as <-. discriminate.
  - destruct x; try (injection E as <-; discriminate). destruct (_ && _); [discriminate|]. injection E as <-. discriminate.
  - destruct x; try (injection E as <-; discriminate). destruct (existsb _ _); [discriminate|]. injection E as <-. discriminate.
  - destruct (read s x) eqn:H; [|discriminate]. injection E as <-. eauto.
  - destruct (read s x) eqn:H; [injection E as <-|]; eauto.
  - destruct x; try discriminate; eauto.
  - destruct x; try discriminate; eauto.
Qed.

Lemma no_failed_check {A} (p : A -> bool) l : List.filter (fun a => negb (p a)) l = [] <-> forallb p l = true.
Proof.
  induction l as [|a l IH]; [split; reflexivity|]. cbn [List.filter forallb]. destruct (p a); cbn [negb andb]; [exact IH|].
  split; discriminate.
Qed.

Lemma obj_get_map (f : string * schema -> json) k sh s :
  List.NoDup (map fst sh) -> In (k, s) sh -> obj_get k (map (fun ks => (ks.1, f ks)) sh) = Some (f (k, s)).
Proof.
  induction sh as [|[k' s'] sh IH]; intros Hnd Hin; [destruct Hin|]. cbn [map obj_get fst] in *. inversion_clear Hnd as [|? ? Hn Hnd'].
  destruct Hin as [[= -> ->]|Hin]; [rewrite String.eqb_refl; reflexivity|].
  destruct (String.eqb_spec k k') as [->|]; [|apply IH; assumption].
  exfalso. apply (in_map fst) in Hin. exact (Hn Hin).
Qed.

Lemma reader_laws : ZodLaws.
Proof.
  split.
  - intros cs x v. cbn [parse reader read]. split.
    + destruct x as [| | | |s| |]; try discriminate. destruct (List.filter _ cs) eqn:E; [|discriminate]. intros [= <-].
      apply no_failed_check in E. eauto.
    + intros (s & -> & -> & H). apply no_failed_check in H.
      match goal with |- context [List.filter ?p cs] => change p with (fun c => negb (string_passes s c)) end. rewrite H. reflexivity.
  - intros cs s c m iss Hin Hp Hm. cbn [parse reader read].
    destruct (List.filter _ cs) as [|d ds] eqn:E; [discriminate|]. intros [= <-].
    assert (Hf : In c (d :: ds)) by (rewrite <- E; apply filter_In; split; [exact Hin | exact (f_equal negb Hp)]).
    apply (in_map (fun c => mkIssue [] (default "Invalid input" (check_message c)))) in Hf. rewrite Hm in Hf. exact Hf.
  - intros cs x v. cbn [parse reader read]. split.
    + destruct x as [| | |n| | |]; try discriminate. destruct (_ && _) eqn:E; [|discriminate]. intros [= <-].
      apply andb_prop in E as [? ?]. eauto 6.
    + intros (n & -> & -> & H1 & H2). rewrite H1, H2. reflexivity.
  - intros vs x v. cbn [parse reader read]. split.
    + destruct x as [| | | |s| |]; try discriminate. destruct (existsb _ vs) eqn:E; [|discriminate]. intros [= <-]. eauto.
    + intros (s & -> & -> & H). rewrite H. reflexivity.
  - reflexivity.
  - reflexivity.
  - intros d s x. destruct x; reflexivity.
  - intros s x. destruct x; reflexivity.
  - exact read_issues.
  - intros sh o Hnd H. cbn [parse_object parse reader] in *. unfold read_object.
    replace (concat _) with (@nil issue).
    + eexists. split; [reflexivity|]. split.
      * intros k s Hin. unfold var at 2. rewrite (map_ext _ (fun ks => (ks.1, match read ks.2 (var ks.1 o) with inr v => v | inl _ => JUndefined end)))
          by (intros []; reflexivity).
        rewrite (obj_get_map _ _ _ _ Hnd Hin). cbn [fst snd default]. destruct (H k s Hin) as [v ->]. reflexivity.
      * intros k. rewrite map_map. intros (ks & <- & Hin)%in_map_iff. destruct ks. apply in_map_iff. eexists. split; [|exact Hin]. reflexivity.
    + symmetry. apply concat_nil_Forall. apply List.Forall_forall. intros l (ks & <- & Hin)%in_map_iff. destruct ks as [k s].
      destruct (H k s Hin) as [v ->]. reflexivity.
  - intros sh o k s iss Hin Hp. cbn [parse_object parse reader] in *. unfold read_object.
    destruct (concat _) as [|i l] eqn:E; [exfalso | reflexivity]. apply (proj1 (concat_nil_Forall _)) in E.
    rewrite List.Forall_forall in E. assert (Hk : map (fun i => mkIssue (k :: issue_path i) (issue_message i)) iss = []).
    { apply E, in_map_iff. exists (k, s). rewrite Hp. split; [reflexivity | exact Hin]. }
    apply map_eq_nil in Hk. exact (read_issues s _ _ Hp Hk).
Qed.

Definition letters (c : ascii) (n : nat) : string := string_repeat (String c "") n.

(** The smallest environment the schema lets through. *)
Definition minimal_env : list (string * json) :=
  map (fun kv => (kv.1, JStr kv.2))
    [("DB_HOST", "localhost"); ("DB_PORT", "5432"); ("DB_USER", "postgres"); ("DB_PASSWORD", "secret"); ("DB_NAME", "nexafx");
     ("JWT_SECRET", letters "a" 32); ("REFRESH_TOKEN_SECRET", letters "b" 32); ("OTP_SECRET", letters "c" 32);
     ("MAIL_HOST", "smtp.example.com"); ("MAIL_PORT", "587"); ("MAIL_USER", "sender@example.com"); ("MAIL_PASSWORD", "mailpass");
     ("MAIL_FROM", "noreply@example.com"); ("WALLET_ENCRYPTION_KEY", letters "f" 64); ("STELLAR_HOT_WALLET_SECRET", "S1")].

Example required_variables :
  map fst (List.filter (fun kv => required kv.2) envSchema) = map fst minimal_env.
Proof. vm_compute. reflexivity. Qed.

(** The lifetime of cached balances is declared twice: the bound of an hour is
    lost. *)
Example balance_cache_lifetime_unbounded :
  match validateEnv (("WALLET_BALANCE_CACHE_TTL_SECONDS", JStr "86400") :: minimal_env) with
  | inr env => var "WALLET_BALANCE_CACHE_TTL_SECONDS" env = JNum (num_of_Z 86400)
  | inl _ => False
  end.
Proof. vm_compute. reflexivity. Qed.

(** An empty threshold is zero, and a switch spelled with a capital is off. *)
Example empty_and_capitals :
  match validateEnv (("AML_STRUCTURING_THRESHOLD", JStr "") :: ("ARCHIVE_ENABLED", JStr "TRUE") :: minimal_env) with
  | inr env => var "AML_STRUCTURING_THRESHOLD" env = JNum (num_of_Z 0) /\ var "ARCHIVE_ENABLED" env = JBool false
  | inl _ => False
  end.
Proof. vm_compute. split; reflexivity. Qed.

Definition port_schema : schema :=
  z_string [] |> z_transform Number |> z_pipe (z_number [z_min (num_of_Z 1); z_max (num_of_Z 65535)]) |> z_default (JNum (num_of_Z 3000)).

Lemma validated_environment_is_typed_witness :
  match validateEnv minimal_env with
  | inr env => exists n, var "PORT" env = JNum n /\ num_leb (num_of_Z 1) n = true /\ num_leb n (num_of_Z 65535) = true
  | inl _ => False
  end.
Proof.
  destruct (validateEnv minimal_env) as [x|env] eqn:E.
  - pose proof (f_equal (fun r => match r with inl _ => false | inr _ => true end) E) as H. vm_compute in H. discriminate.
  - destruct (validated_environment_is_typed reader_laws minimal_env env E) as [H _].
    destruct (H "PORT" port_schema) as [_ Hc]; [right; left; reflexivity|]. cbn [conforms port_schema] in Hc. revert Hc. generalize (var "PORT" env). intros [] Hc; try discriminate.
    apply andb_prop in Hc as [_ Hc]. cbn [forallb number_passes] in Hc. apply andb_prop in Hc as [H1 Hc].
    apply andb_prop in Hc as [H2 _]. eauto.
Defined.

Lemma validation_names_what_it_refuses_witness :
  exists msg, validateEnv (List.tl minimal_env) = inl (PlainError msg) /\ includes "DB_HOST" msg = true.
Proof.
  destruct (validation_names_what_it_refuses reader_laws (List.tl minimal_env)) as (_ & _ & H).
  apply (H "DB_HOST" (z_string [z_min_length 1 (Some "DB_HOST is required")])); [|reflexivity..].
  do 6 right. left. reflexivity.
Defined.
