(* ===== verification/Configuration.v ===== *)
(** config/configuration.ts: the groups of settings the services read, made of the
    variables of the environment, and how they agree with the schema that
    validated it ([Config]).  The source is one brace short after its group
    scheduledJobs; it is read as its indentation shows. *)
From S2P Require Import Prelude JsNumber Effects JsData Json Network Config.
Local Open Scope Z_scope.

(** ** Settings *)

(** How a setting is made of the environment. *)
Inductive setting : Type :=
  | Given (var : string)                          (* process.env.VAR *)
  | OrNull (var : string)                         (* process.env.VAR ?? null *)
  | OrText (var fallback : string)                (* process.env.VAR || '...' *)
  | IsTrue (var fallback : string)                (* (process.env.VAR || '...') === 'true' *)
  | Int (var fallback : string)                   (* parseInt(process.env.VAR || '...', 10) *)
  | Float (var fallback : string)                 (* parseFloat(process.env.VAR || '...') *)
  | Megabytes (var fallback : string)             (* the same in bytes *)
  | Texts (var fallback : string) (upper : bool)  (* split, trimmed, without empty ones *)
  | Is (var fallback text : string)               (* nodeEnv === '...' *)
  | DatabaseUrl.

Definition or_text (var fallback : string) (env : list (string * json)) : string :=
  match Config.var var env with JStr s => if str_truthy s then s else fallback | _ => fallback end.

(** A variable in a template. *)
Definition written (var : string) (env : list (string * json)) : string :=
  match Config.var var env with JStr s => s | _ => "undefined" end.

Definition value (s : setting) (env : list (string * json)) : json :=
  match s with
  | Given v => Config.var v env
  | OrNull v => match Config.var v env with JUndefined => JNull | j => j end
  | OrText v d => JStr (or_text v d env)
  | IsTrue v d => JBool (String.eqb (or_text v d env) "true")
  | Int v d => JNum (parseInt (or_text v d env))
  | Float v d => JNum (parseFloat (or_text v d env))
  | Megabytes v d => JNum (parseInt (or_text v d env) * num_of_Z 1024 * num_of_Z 1024)%num
  | Texts v d upper =>
      JArr (map JStr (List.filter str_truthy
        (map (fun s => if upper then toUpperCase (trim s) else trim s) (split_on "," (or_text v d env)))))
  | Is v d t => JBool (String.eqb (or_text v d env) t)
  | DatabaseUrl =>
      JStr ("postgresql://" +:+ written "DB_USER" env +:+ ":" +:+ written "DB_PASSWORD" env +:+ "@" +:+ written "DB_HOST" env +:+
            ":" +:+ num_to_string (parseInt (or_text "DB_PORT" "5432" env)) +:+ "/" +:+ written "DB_NAME" env)
  end.

Inductive member : Type :=
  | Leaf (s : setting)
  | Group (l : list (string * setting)).

Definition app : list (string * setting) :=
  [("nodeEnv", OrText "NODE_ENV" "development"); ("port", Int "PORT" "3000"); ("swaggerEnabled", IsTrue "SWAGGER_ENABLED" "");
   ("isProduction", Is "NODE_ENV" "development" "production"); ("isDevelopment", Is "NODE_ENV" "development" "development");
   ("isTest", Is "NODE_ENV" "development" "test")].
Definition limits : list (string * setting) :=
  [("json", Megabytes "BODY_LIMIT_JSON" "10"); ("urlencoded", Megabytes "BODY_LIMIT_URLENCODED" "10")].
Definition database : list (string * setting) :=
  [("host", Given "DB_HOST"); ("port", Int "DB_PORT" "5432"); ("username", Given "DB_USER"); ("password", Given "DB_PASSWORD");
   ("database", Given "DB_NAME"); ("ssl", IsTrue "DB_SSL" ""); ("url", DatabaseUrl)].
Definition jwt : list (string * setting) := [("secret", OrText "JWT_SECRET" ""); ("expiry", Int "JWT_EXPIRY" "3600")].
Definition refreshToken : list (string * setting) :=
  [("secret", OrText "REFRESH_TOKEN_SECRET" ""); ("expiry", Int "REFRESH_TOKEN_EXPIRY" "604800")].
Definition otp : list (string * setting) := [("secret", OrText "OTP_SECRET" ""); ("expiry", Int "OTP_EXPIRY" "300")].
Definition wallet : list (string * setting) := [("encryptionKey", Given "WALLET_ENCRYPTION_KEY")].
Definition externalApi : list (string * setting) :=
  [("key", OrText "EXTERNAL_API_KEY" ""); ("url", OrText "EXTERNAL_API_URL" ""); ("timeout", Int "EXTERNAL_API_TIMEOUT" "30000")].
Definition mail : list (string * setting) :=
  [("host", OrText "MAIL_HOST" ""); ("port", Int "MAIL_PORT" "587"); ("user", OrText "MAIL_USER" "");
   ("password", OrText "MAIL_PASSWORD" ""); ("from", OrText "MAIL_FROM" ""); ("secure", IsTrue "MAIL_SECURE" "")].
Definition redis : list (string * setting) :=
  [("host", OrText "REDIS_HOST" "localhost"); ("port", Int "REDIS_PORT" "6379"); ("password", Given "REDIS_PASSWORD")].
Definition rateLimit : list (string * setting) :=
  [("windowMs", Int "RATE_LIMIT_WINDOW_MS" "60000"); ("maxRequests", Int "RATE_LIMIT_MAX_REQUESTS" "100")].
Definition idempotency : list (string * setting) :=
  [("ttlHours", Int "IDEMPOTENCY_TTL_HOURS" "24"); ("cleanupCron", OrText "IDEMPOTENCY_CLEANUP_CRON" "0 0 * * *")].
Definition archive : list (string * setting) :=
  [("enabled", IsTrue "ARCHIVE_ENABLED" "true"); ("thresholdMonths", Int "ARCHIVE_THRESHOLD_MONTHS" "12");
   ("batchSize", Int "ARCHIVE_BATCH_SIZE" "500"); ("cron", OrText "ARCHIVE_CRON" "0 3 * * *")].
Definition cache : list (string * setting) :=
  [("exchangeRateTtlSeconds", Int "CACHE_EXCHANGE_RATE_TTL_SECONDS" "60");
   ("supportedCurrenciesTtlSeconds", Int "CACHE_SUPPORTED_CURRENCIES_TTL_SECONDS" "86400");
   ("adminStatsTtlSeconds", Int "CACHE_ADMIN_STATS_TTL_SECONDS" "60");
   ("defaultTtlSeconds", Int "CACHE_EXCHANGE_RATE_TTL_SECONDS" "60")].
Definition currencies : list (string * setting) := [("supported", Texts "SUPPORTED_CURRENCIES" "USD,EUR,GBP,NGN" true)].
Definition security : list (string * setting) := [("adminAllowedIps", Texts "ADMIN_ALLOWED_IPS" "" false)].
Definition webhooks : list (string * setting) :=
  [("maxAttempts", Int "WEBHOOK_MAX_ATTEMPTS" "5"); ("backoffDelayMs", Int "WEBHOOK_BACKOFF_DELAY_MS" "1000");
   ("replayWindowHours", Int "WEBHOOK_REPLAY_WINDOW_HOURS" "24")].
Definition terms : list (string * setting) := [("currentVersion", OrText "TERMS_CURRENT_VERSION" "1.0")].
Definition compliance : list (string * setting) := [("blockedCountries", Texts "BLOCKED_COUNTRIES" "" true)].
Definition push : list (string * setting) :=
  [("fcmServerKey", OrText "FCM_SERVER_KEY" ""); ("apnsKeyId", OrText "APNS_KEY_ID" ""); ("apnsTeamId", OrText "APNS_TEAM_ID" "");
   ("apnsBundleId", OrText "APNS_BUNDLE_ID" ""); ("apnsPrivateKey", OrText "APNS_PRIVATE_KEY" "")].
Definition referral : list (string * setting) :=
  [("rewardAmount", Float "REFERRAL_REWARD_AMOUNT" "10"); ("maxReferrals", Int "REFERRAL_MAX_REFERRALS" "100");
   ("programActive", IsTrue "REFERRAL_PROGRAM_ACTIVE" "true")].
Definition aml : list (string * setting) :=
  [("structuringThreshold", Float "AML_STRUCTURING_THRESHOLD" "10000"); ("structuringWindowHours", Int "AML_STRUCTURING_WINDOW_HOURS" "24");
   ("structuringMinCount", Int "AML_STRUCTURING_MIN_COUNT" "3"); ("smurfingWindowHours", Int "AML_SMURFING_WINDOW_HOURS" "1");
   ("smurfingMinWallets", Int "AML_SMURFING_MIN_WALLETS" "3"); ("smurfingAmountVariancePct", Float "AML_SMURFING_VARIANCE_PCT" "5");
   ("velocityBurstWindowHours", Int "AML_VELOCITY_WINDOW_HOURS" "1"); ("velocityBurstMaxCount", Int "AML_VELOCITY_MAX_COUNT" "10");
   ("riskScoreWeight", Int "AML_RISK_SCORE_WEIGHT" "30")].
Definition fx : list (string * setting) :=
  [("reversalWindowMinutes", Int "FX_REVERSAL_WINDOW_MINUTES" "5"); ("openExchangeRatesApiKey", OrText "OPEN_EXCHANGE_RATES_API_KEY" "");
   ("exchangeRateHostApiKey", OrText "EXCHANGE_RATE_HOST_API_KEY" "")].
Definition swap : list (string * setting) :=
  [("slippagePercent", Float "SWAP_SLIPPAGE_PERCENT" "0.005"); ("previewCacheTtlSeconds", Int "SWAP_PREVIEW_CACHE_TTL_SECONDS" "30")].
Definition scheduledJobs : list (string * setting) := [("pendingTxTimeoutMinutes", Int "PENDING_TX_TIMEOUT_MINUTES" "30")].
Definition throttleAuth : list (string * setting) := [("limit", Int "THROTTLE_AUTH_LIMIT" "5")].
Definition stellar : list (string * setting) := [("hotWalletSecret", OrNull "STELLAR_HOT_WALLET_SECRET")].

Definition settings : list (string * member) :=
  [("app", Group app); ("limits", Group limits); ("database", Group database); ("jwt", Group jwt);
   ("slowQueryThresholdMs", Leaf (Int "SLOW_QUERY_THRESHOLD_MS" "1000")); ("refreshToken", Group refreshToken); ("otp", Group otp);
   ("wallet", Group wallet); ("externalApi", Group externalApi); ("mail", Group mail); ("redis", Group redis);
   ("rateLimit", Group rateLimit); ("idempotency", Group idempotency); ("archive", Group archive); ("cache", Group cache);
   ("currencies", Group currencies); ("security", Group security); ("webhooks", Group webhooks); ("terms", Group terms);
   ("compliance", Group compliance); ("push", Group push); ("referral", Group referral); ("aml", Group aml); ("fx", Group fx);
   ("swap", Group swap); ("scheduledJobs", Group scheduledJobs); ("throttleAuth", Group throttleAuth); ("stellar", Group stellar)].

(** The factory. *)
Definition configuration (env : list (string * json)) : json :=
  JObj (map (fun '(k, m) => (k, match m with
    | Leaf s => value s env
    | Group l => JObj (map (fun '(k, s) => (k, value s env)) l)
    end)) settings).

(** [ConfigService.get] of a dotted path. *)
Definition get (path : string) (env : list (string * json)) : json :=
  fold_left (fun j k => match j with JObj o => default JUndefined (obj_get k o) | _ => JUndefined end)
    (split_on "." path) (configuration env).

(** Every setting under its path. *)
Definition entries : list (string * setting) :=
  flat_map (fun '(k, m) => match m with Leaf s => [(k, s)] | Group l => map (fun '(k', s) => (k +:+ "." +:+ k', s)) l end) settings.

(** ** Plain numbers *)

(** Digits; digits with a fraction. *)
Definition digits (s : string) : bool := match span is_decimal s with (String _ _, "") => true | _ => false end.
Definition decimal (s : string) : bool :=
  match span is_decimal s with
  | (String _ _, "") => true
  | (String _ _, String "." r) => String.eqb (span is_decimal r).2 ""
  | _ => false
  end.

Definition unspaced (c : ascii) : bool := negb (is_space c).

Lemma decimal_unspaced c : is_decimal c = true -> unspaced c = true.
Proof.
  unfold is_decimal, unspaced, is_space. intros [H1 H2]%andb_true_iff. apply Nat.leb_le in H1, H2.
  apply negb_true_iff, orb_false_iff. split; [apply orb_false_iff; split|]; [apply andb_false_iff; right; apply Nat.leb_gt | apply Nat.eqb_neq ..]; lia.
Qed.

Lemma trim_unspaced s : all_chars unspaced s = true -> trim s = s.
Proof.
  intros Hs. assert (Hl : forall t, all_chars unspaced t = true -> trim_start t = t).
  { intros [|c t] Ht; [reflexivity|]. apply andb_true_iff in Ht as [Hc _]. cbn [trim_start]. apply negb_true_iff in Hc. now rewrite Hc. }
  unfold trim. rewrite (Hl s Hs), Hl by now apply all_chars_rev. apply rev_string_involutive.
Qed.

Lemma span_decimal s : all_chars is_decimal (span is_decimal s).1 = true /\ s = (span is_decimal s).1 +:+ (span is_decimal s).2.
Proof.
  induction s as [|c s [IH1 IH2]]; [split; reflexivity|]. cbn [span]. destruct (is_decimal c) eqn:Hc; [|split; reflexivity].
  destruct (span is_decimal s) as [l r]. cbn [fst snd] in *. split; [cbn [all_chars]; now rewrite Hc|]. change (String c s = String c (l +:+ r)). now f_equal.
Qed.

(** [Number] of a decimal is its literal. *)
Lemma decimal_number s : decimal s = true -> trim_start s = s /\ signed s = (fun n => n, s) /\ js_number s = unsigned_literal s.
Proof.
  intros Hd. assert (Hu : all_chars unspaced s = true).
  { unfold decimal in Hd. destruct (span_decimal s) as [H1 H2]. destruct (span is_decimal s) as [ip r]. cbn [fst snd] in *. subst s.
    rewrite all_chars_app, (all_chars_impl _ _ _ decimal_unspaced H1). destruct ip as [|c ip]; [discriminate|].
    destruct r as [|a r]; [reflexivity|]. destruct a as [[] [] [] [] [] [] [] []]; try discriminate. cbn [all_chars andb].
    destruct (span_decimal r) as [H3 H4]. apply String.eqb_eq in Hd. rewrite Hd in H4. rewrite H4, all_chars_app, (all_chars_impl _ _ _ decimal_unspaced H3). reflexivity. }
  assert (Hs : trim_start s = s /\ trim s = s).
  { split; [|now apply trim_unspaced]. destruct s as [|c s]; [reflexivity|]. apply andb_true_iff in Hu as [Hc _]. cbn [trim_start].
    apply negb_true_iff in Hc. now rewrite Hc. }
  split; [exact (proj1 Hs)|]. destruct Hs as [_ Ht]. unfold js_number. rewrite Ht. clear Ht Hu.
  destruct s as [|c s]; [discriminate|]. unfold decimal in Hd. cbn [span] in Hd.
  destruct (is_decimal c) eqn:Hc; [|discriminate].
  assert (Hsig : signed (String c s) = (fun n => n, String c s) /\
    match c with "-"%char => false | "+"%char => false | _ => true end = true).
  { destruct c as [[] [] [] [] [] [] [] []]; try discriminate Hc; split; reflexivity. }
  split; [exact (proj1 Hsig)|]. destruct (Ascii.eqb_spec c "0") as [->|Hz].
  - destruct s as [|a s]; [reflexivity|].
    assert (Ha : Ascii.eqb (lower_ascii a) "x" = false /\ Ascii.eqb (lower_ascii a) "o" = false /\ Ascii.eqb (lower_ascii a) "b" = false).
    { cbn [span] in Hd. destruct (is_decimal a) eqn:Ea.
      - destruct a as [[] [] [] [] [] [] [] []]; try discriminate Ea; repeat split; reflexivity.
      - destruct a as [[] [] [] [] [] [] [] []]; try discriminate Hd; repeat split; reflexivity. }
    destruct Ha as (-> & -> & ->). reflexivity.
  - destruct c as [[] [] [] [] [] [] [] []]; try discriminate Hc; try reflexivity. congruence.
Qed.

Lemma parseFloat_decimal s : decimal s = true -> parseFloat s = js_number s.
Proof.
  intros Hd. destruct (decimal_number s Hd) as (Ht & Hs & ->). unfold parseFloat. rewrite Ht, Hs.
  unfold unsigned_literal. unfold decimal in Hd. destruct (span is_decimal s) as [ip r] eqn:Es.
  assert (Hi : starts_with "Infinity" s = false /\ String.eqb s "Infinity" = false).
  { destruct s as [|c s]; [injection Es as <- <-; discriminate|]. cbn [span] in Es. destruct (is_decimal c) eqn:Hc; [|injection Es as <- <-; discriminate].
    destruct c as [[] [] [] [] [] [] [] []]; try discriminate Hc; split; reflexivity. }
  destruct Hi as [-> ->]. destruct ip as [|c ip]; [discriminate|].
  destruct r as [|a r].
  - cbn [exponent_part leading_exponent]. change (String c ip +:+ "") with (String c (ip +:+ "")). now destruct (digits_value 10 0 _).
  - destruct a as [[] [] [] [] [] [] [] []]; try discriminate Hd. apply String.eqb_eq in Hd. destruct (span is_decimal r) as [fp r']. cbn [snd] in Hd. subst r'.
    cbn [exponent_part leading_exponent]. change (String c ip +:+ fp) with (String c (ip +:+ fp)). now destruct (digits_value 10 0 _).
Qed.

Lemma parseInt_digits s : digits s = true -> parseInt s = js_number s.
Proof.
  intros Hd. assert (Hdec : decimal s = true) by (unfold digits, decimal in *; now destruct (span is_decimal s) as [[] []]).
  destruct (decimal_number s Hdec) as (Ht & Hs & ->). unfold parseInt. rewrite Ht, Hs. unfold unsigned_literal, digits in *.
  destruct (span is_decimal s) as [ip r] eqn:Es. destruct ip as [|c ip]; [discriminate|]. destruct r; [|discriminate].
  replace (String.eqb s "Infinity") with false.
  - cbn [fst exponent_part]. assert (Ha : forall t, t +:+ "" = t) by (induction t as [|a t IH]; [reflexivity|]; change (String a t +:+ "") with (String a (t +:+ "")); now f_equal).
    rewrite Ha. cbn [String.length]. destruct (digits_value 10 0 _); [|reflexivity]. now rewrite Z.sub_0_r.
  - symmetry. destruct s as [|a s]; [discriminate|]. cbn [span] in Es. destruct (is_decimal a) eqn:Hc; [|discriminate].
    destruct a as [[] [] [] [] [] [] [] []]; try discriminate Hc; reflexivity.
Qed.

(** ** The configuration and the validated environment *)

#[local] Instance num_eq_dec : EqDecision num.
Proof. unfold num. solve_decision. Defined.

(** The variable of a setting that is a variable of its own. *)
Definition reads (s : setting) : option string :=
  match s with Given v | OrText v _ | IsTrue v _ | Int v _ | Float v _ => Some v | _ => None end.

(** Written as the setting reads it: whole numbers in digits, others in decimals,
    texts not empty. *)
Definition plain (s : setting) (t : string) : bool :=
  match s with Int _ _ => digits t | Float _ _ => decimal t | _ => str_truthy t end.

Definition a_number (sch : schema) : bool :=
  match sch with z_pipe (z_number _) (z_transform Number (z_string [])) => true | _ => false end.
Definition a_text (sch : schema) : bool :=
  match sch with z_string _ | z_enum _ | z_optional (z_string _) => true | _ => false end.

(** The schema of the variable lets through what the setting makes of it, and has
    the same fallback. *)
Definition matches (s : setting) (sch : schema) : bool :=
  match s, sch with
  | Int _ d, z_default (JNum n) inner => a_number inner && bool_decide (parseInt d = n)
  | Float _ d, z_default (JNum n) inner => a_number inner && bool_decide (parseFloat d = n)
  | Int _ _, _ | Float _ _, _ => a_number sch
  | IsTrue _ d, z_default (JBool b) (z_transform is_true (z_string [])) => Bool.eqb (String.eqb d "true") b
  | OrText _ d, z_default (JStr t) inner => a_text inner && String.eqb d t
  | OrText _ d, z_optional (z_string _) => String.eqb d ""
  | OrText _ _, z_string _ => true
  | Given _, _ => a_text sch
  | _, _ => false
  end.

Section Agreement.
Context `{Z : Zod} (L : ZodLaws).

Lemma number_read sch t v : a_number sch = true -> parse sch (JStr t) = inr v -> v = JNum (js_number t).
Proof.
  destruct sch as [| | | |outer inner| |]; try discriminate. destruct outer; try discriminate. destruct inner as [| | |f inner| | |]; try discriminate.
  destruct f; [|discriminate]. destruct inner as [l| | | | | |]; try discriminate. destruct l; [|discriminate]. intros _.
  rewrite (pipe_law L), (transform_law L). destruct (parse (z_string []) (JStr t)) as [|w] eqn:E; [discriminate|].
  apply (string_law L) in E as (s & Es & -> & _). injection Es as <-. intros Hn. now apply (number_law L) in Hn as (n & _ & -> & _).
Qed.
Lemma text_read sch t v : a_text sch = true -> parse sch (JStr t) = inr v -> v = JStr t.
Proof.
  destruct sch as [| |vs| | | |inner]; try discriminate; intros Ht.
  - now intros (s & _ & -> & _)%(string_law L).
  - now intros (s & _ & -> & _)%(enum_law L).
  - rewrite (optional_law L). destruct inner; try discriminate Ht. now intros (s & _ & -> & _)%(string_law L).
Qed.
(** What no value makes of each form. *)
Lemma absent_read sch v : parse sch JUndefined = inr v ->
  match sch with
  | z_default d _ => v = d
  | z_optional _ => v = JUndefined
  | z_string _ | z_enum _ => False
  | _ => a_number sch = false
  end.
Proof.
  destruct sch as [| | | |outer inner| |]; intros Hp.
  - now apply (string_law L) in Hp as (s & Es & _).
  - reflexivity.
  - now apply (enum_law L) in Hp as (s & Es & _).
  - reflexivity.
  - destruct outer; try reflexivity. destruct inner as [| | |f inner| | |]; try reflexivity. destruct f; [|reflexivity].
    destruct inner as [l| | | | | |]; try reflexivity. destruct l; [|reflexivity]. exfalso.
    rewrite (pipe_law L), (transform_law L) in Hp. destruct (parse (z_string []) JUndefined) as [|w] eqn:E; [discriminate|].
    now apply (string_law L) in E as (s & Es & _).
  - rewrite (default_law L) in Hp. congruence.
  - rewrite (optional_law L) in Hp. congruence.
Qed.
Lemma default_given d inner t v : parse (z_default d inner) (JStr t) = inr v -> parse inner (JStr t) = inr v.
Proof. now rewrite (default_law L). Qed.

(** A setting is what the validation made of its variable, when that is written
    plainly or not at all. *)
Lemma setting_absent s sch k env v :
  reads s = Some k -> matches s sch = true -> parse sch JUndefined = inr v -> Config.var k env = JUndefined ->
  value s env = v \/ (v = JUndefined /\ value s env = JStr "").
Proof.
  intros Hk Hm Hp E. apply absent_read in Hp. unfold value, or_text.
  destruct s as [k0| |k0 d|k0 d|k0 d|k0 d| | | |]; try discriminate Hk; injection Hk as ->; cbn [matches] in Hm; rewrite E.
  - destruct sch; try discriminate Hm; try contradiction. left. now rewrite Hp.
  - destruct sch as [| | | | |dv inner|inner]; try discriminate Hm; try contradiction.
    + destruct dv; try discriminate Hm. apply andb_true_iff in Hm as [_ Hm]. apply String.eqb_eq in Hm as ->. now left.
    + destruct inner; try discriminate Hm. apply String.eqb_eq in Hm as ->. now right.
  - destruct sch as [| | | | |dv inner|]; try discriminate Hm. destruct dv; try discriminate Hm.
    destruct inner as [| | |f inner| | |]; try discriminate Hm. destruct f; [discriminate|]. destruct inner as [l| | | | | |]; try discriminate Hm.
    destruct l; [|discriminate]. apply Bool.eqb_prop in Hm as ->. now left.
  - destruct sch as [| | | | |dv inner|]; try discriminate Hm; try congruence.
    destruct dv; try discriminate Hm. apply andb_true_iff in Hm as [_ Hm]. apply bool_decide_eq_true in Hm as ->. now left.
  - destruct sch as [| | | | |dv inner|]; try discriminate Hm; try congruence.
    destruct dv; try discriminate Hm. apply andb_true_iff in Hm as [_ Hm]. apply bool_decide_eq_true in Hm as ->. now left.
Qed.

Lemma setting_given s sch k env v t :
  reads s = Some k -> matches s sch = true -> parse sch (JStr t) = inr v -> Config.var k env = JStr t -> plain s t = true ->
  value s env = v.
Proof.
  intros Hk Hm Hp E Ht. unfold value, or_text.
  destruct s as [k0| |k0 d|k0 d|k0 d|k0 d| | | |]; try discriminate Hk; injection Hk as ->; cbn [matches plain] in *; rewrite E.
  - symmetry. now apply text_read in Hp.
  - rewrite Ht. symmetry. destruct sch as [| | | | |dv inner|inner]; try discriminate Hm.
    + now apply text_read in Hp.
    + destruct dv; try discriminate Hm. apply andb_true_iff in Hm as [Hm _]. apply default_given in Hp. now apply text_read in Hp.
    + destruct inner; try discriminate Hm. now apply text_read in Hp.
  - rewrite Ht. destruct sch as [| | | | |dv inner|]; try discriminate Hm. destruct dv; try discriminate Hm.
    destruct inner as [| | |f inner| | |]; try discriminate Hm. destruct f; [discriminate|]. destruct inner as [l| | | | | |]; try discriminate Hm.
    destruct l; [|discriminate]. apply default_given in Hp. rewrite (transform_law L) in Hp.
    destruct (parse (z_string []) (JStr t)) as [|w] eqn:Ew; [discriminate|]. apply (string_law L) in Ew as (s & Es & -> & _). now injection Hp as <-.
  - assert (Hn : exists inner, a_number inner = true /\ parse inner (JStr t) = inr v).
    { destruct sch as [| | | | |dv inner|]; try discriminate Hm; eauto. destruct dv; try discriminate Hm.
      apply andb_true_iff in Hm as [Hm _]. apply default_given in Hp. eauto. }
    destruct Hn as (inner & Hi & Hn). rewrite (number_read _ _ _ Hi Hn).
    replace (str_truthy t) with true by (destruct t; [discriminate Ht|reflexivity]). now rewrite parseInt_digits.
  - assert (Hn : exists inner, a_number inner = true /\ parse inner (JStr t) = inr v).
    { destruct sch as [| | | | |dv inner|]; try discriminate Hm; eauto. destruct dv; try discriminate Hm.
      apply andb_true_iff in Hm as [Hm _]. apply default_given in Hp. eauto. }
    destruct Hn as (inner & Hi & Hn). rewrite (number_read _ _ _ Hi Hn).
    replace (str_truthy t) with true by (destruct t; [discriminate Ht|reflexivity]). now rewrite parseFloat_decimal.
Qed.

(** Every setting that reads a variable has its place in the schema. *)
Definition schema_of (k : string) : option schema := option_map snd (List.find (fun e => String.eqb e.1 k) envSchema).
Lemma settings_match path s k : In (path, s) entries -> reads s = Some k ->
  exists sch, In (k, sch) envSchema /\ matches s sch = true.
Proof.
  assert (H : forallb (fun e => match reads e.2 with
    | Some k => match schema_of k with Some sch => matches e.2 sch | None => false end | None => true end) entries = true)
    by now vm_compute.
  rewrite forallb_forall in H. intros Hin Hk. specialize (H _ Hin). cbn [snd] in H. rewrite Hk in H. unfold schema_of in H.
  destruct (List.find _ envSchema) as [[k' sch]|] eqn:Ef; [|discriminate]. apply List.find_some in Ef as [Hs Ek].
  apply String.eqb_eq in Ek. cbn [fst] in Ek. subst k'. eauto.
Qed.

(** What a path gets is its setting. *)
Lemma get_entry path s env : In (path, s) entries -> get path env = value s env.
Proof.
  intros Hin. unfold entries, settings in Hin. vm_compute in Hin.
  repeat (destruct Hin as [[= <- <-]|Hin]; [reflexivity|]). contradiction.
Qed.

(** C18 The configuration the services read agrees with the validation of the
    environment, which it does not use: where a variable is absent, or written
    as a text that is not empty, a whole number in digits or another in decimals,
    the setting is the value that was validated, with the same fallback; only a
    text that is optional is empty where validation leaves it undefined. *)
Theorem configuration_agrees_with_the_schema env env' path s k :
  validateEnv env = inr env' -> In (path, s) entries -> reads s = Some k ->
  (Config.var k env = JUndefined \/ exists t, Config.var k env = JStr t /\ plain s t = true) ->
  get path env = Config.var k env' \/ (Config.var k env' = JUndefined /\ get path env = JStr "").
Proof.
  intros Hv Hin Hk Hvar. rewrite (get_entry _ _ env Hin). destruct (settings_match _ _ _ Hin Hk) as (sch & Hs & Hm).
  assert (Hp : parse sch (Config.var k env) = inr (Config.var k env')).
  { destruct (all_or_refused envSchema env) as [H|(k' & s' & iss & Hin' & E)].
    - destruct (validateEnv_accepts L env H) as (r & E & Hr & _). rewrite Hv in E. injection E as <-. now apply Hr.
    - destruct (validateEnv_refuses L env k' s' iss Hin' E) as (msg & E' & _). rewrite Hv in E'. discriminate. }
  destruct Hvar as [E|(t & E & Ht)]; rewrite E in Hp.
  - exact (setting_absent _ _ _ _ _ Hk Hm Hp E).
  - left. exact (setting_given _ _ _ _ _ _ Hk Hm Hp E Ht).
Qed.
End Agreement.

(** ** The services *)

(** The files that get a path, and the paths. *)
Definition paths_read : list (string * list string) :=
  [("main.ts", ["app.port"; "limits.json"; "limits.urlencoded"; "app.nodeEnv"; "app.swaggerEnabled"]);
   ("aml/aml.service.ts",
     ["aml.riskScoreWeight"; "aml.smurfingAmountVariancePct"; "aml.smurfingMinWallets"; "aml.smurfingWindowHours"; "aml.structuringMinCount";
      "aml.structuringThreshold"; "aml.structuringWindowHours"; "aml.velocityBurstMaxCount"; "aml.velocityBurstWindowHours"]);
   ("archival/archival.job.ts", ["archive.cron"]);
   ("archival/archival.service.ts", ["archive.batchSize"; "archive.enabled"; "archive.thresholdMonths"]);
   ("auth/auth.module.ts", ["jwt.expiry"; "jwt.secret"]); ("auth/jwt-auth.guard.ts", ["jwt.secret"]);
   ("auth/password-policy.service.ts", ["passwordPolicy"]);
   ("common/encryption/encryption.service.ts", ["wallet.encryptionKey"]);
   ("common/guards/ip-allowlist.guard.ts", ["security.adminAllowedIps"]);
   ("common/middleware/geo-restriction.middleware.ts", ["compliance.blockedCountries"]);
   ("currencies/currencies.service.ts", ["currencies.supported"]);
   ("fx/exchange-rate.service.ts", ["cache.exchangeRateTtlSeconds"; "fx.exchangeRateHostApiKey"; "fx.openExchangeRatesApiKey"]);
   ("fx/fx.service.ts", ["fx.reversalWindowMinutes"]);
   ("idempotency/idempotency.service.ts", ["idempotency.ttlHours"]);
   ("kyc/kyc.service.ts", ["kyc.storageHost"]);
   ("modules/admin/controllers/system-admin.controller.ts", ["app.env"]);
   ("notifications/push/push.service.ts", ["push.apnsBundleId"; "push.fcmServerKey"]);
   ("otp/otp.service.ts",
     ["mail.from"; "mail.host"; "mail.password"; "mail.port"; "mail.secure"; "mail.user"; "otp.expiry"; "otp.secret"]);
   ("referral/referral.service.ts", ["referral.maxReferrals"; "referral.programActive"; "referral.rewardAmount"]);
   ("scheduled-jobs/scheduled-jobs.service.ts", ["scheduledJobs.lockTtlMs"; "scheduledJobs.pendingTxTimeoutMinutes"]);
   ("terms/terms-acceptance.service.ts", ["terms.currentVersion"]);
   ("tokens/refresh-tokens.service.ts", ["refreshToken.expiry"; "refreshToken.secret"]);
   ("users/account-closure.service.ts", ["jwt.secret"])].

Definition configured (path : string) : bool := existsb (fun e => String.eqb e.1 path) entries.

(** Four paths are not configured: what is got of them is undefined, whatever the
    environment, and each service falls back. *)
Theorem paths_got_are_configured env file paths path :
  In (file, paths) paths_read -> In path paths ->
  (exists s, In (path, s) entries /\ get path env = value s env) \/
  (In path ["passwordPolicy"; "kyc.storageHost"; "app.env"; "scheduledJobs.lockTtlMs"] /\ get path env = JUndefined).
Proof.
  intros Hf Hp. assert (Hin : In path (flat_map snd paths_read)) by (apply in_flat_map; now exists (file, paths)).
  destruct (configured path) eqn:Hc.
  - left. apply existsb_exists in Hc as ([p s] & Hin' & E). apply String.eqb_eq in E. cbn [fst] in E. subst p. exists s.
    split; [assumption|now apply get_entry].
  - right. assert (Hl : In path (List.filter (fun p => negb (configured p)) (flat_map snd paths_read))) by (apply filter_In; now rewrite Hc).
    vm_compute in Hl. split; [cbn; tauto|]. repeat (destruct Hl as [<-|Hl]; [reflexivity|]). contradiction.
Qed.

(** main.ts: the port the server listens on. *)
Definition bootstrap_port (env : list (string * json)) : exn + num :=
  match get "app.port" env with
  | JNum n =>
      if num_eqb n (num_of_Z 0) || is_nan n then inl (PlainError ("Invalid PORT: " +:+ num_to_string n)) else inr n
  | _ => inl (PlainError "Invalid PORT: undefined")
  end.

(** ** At work *)

Definition with_var (k t : string) : list (string * json) := (k, JStr t) :: minimal_env.
Definition is_valid (env : list (string * json)) : bool := match validateEnv (Z := reader) env with inr _ => true | inl _ => false end.

(** What is validated is what [Number] reads, what is configured what parseInt
    reads: a port of 1e3 is port 1, one of 0x50 no port, and tokens that should
    live for half a second are dead when they are made. *)
Example validated_is_not_configured :
  is_valid (with_var "PORT" "1e3") = true /\ bootstrap_port (with_var "PORT" "1e3") = inr (num_of_decimal 1 0) /\
  is_valid (with_var "PORT" "0x50") = true /\ bootstrap_port (with_var "PORT" "0x50") = inl (PlainError "Invalid PORT: 0") /\
  is_valid (with_var "JWT_EXPIRY" "0.5") = true /\ get "jwt.expiry" (with_var "JWT_EXPIRY" "0.5") = JNum (num_of_decimal 0 0).
Proof. vm_compute. repeat split. Qed.

(** An empty variable is a zero to the validation and the fallback to the
    configuration. *)
Example empty_threshold_is_not_zero :
  match validateEnv (Z := reader) (with_var "AML_STRUCTURING_THRESHOLD" "") with
  | inr env => Config.var "AML_STRUCTURING_THRESHOLD" env = JNum (num_of_Z 0)
  | inl _ => False
  end /\ get "aml.structuringThreshold" (with_var "AML_STRUCTURING_THRESHOLD" "") = JNum (num_of_decimal 10000 0).
Proof. vm_compute. split; reflexivity. Qed.

Lemma configuration_agrees_with_the_schema_witness :
  exists env', validateEnv (Z := reader) (with_var "SWAP_SLIPPAGE_PERCENT" "0.02") = inr env' /\
    get "swap.slippagePercent" (with_var "SWAP_SLIPPAGE_PERCENT" "0.02") = Config.var "SWAP_SLIPPAGE_PERCENT" env'.
Proof.
  destruct (validateEnv (Z := reader) (with_var "SWAP_SLIPPAGE_PERCENT" "0.02")) as [x|env'] eqn:E.
  - pose proof (f_equal (fun r => match r with inl _ => false | inr _ => true end) E) as H. vm_compute in H. discriminate.
  - exists env'. split; [reflexivity|].
    destruct (configuration_agrees_with_the_schema (Z := reader) reader_laws _ env' "swap.slippagePercent"
      (Float "SWAP_SLIPPAGE_PERCENT" "0.005") "SWAP_SLIPPAGE_PERCENT" E) as [H|[_ H]].
    + apply (nth_error_In _ 74). reflexivity.
    + reflexivity.
    + right. exists "0.02". split; reflexivity.
    + exact H.
    + vm_compute in H. discriminate.
Defined.
