(* ===== verification/Statements.v ===== *)
(** statements/: the statement of an account over a period
    (statements.service.ts), its queue's worker (statements.processor.ts) and the
    route (statements.controller.ts).  The date of a line is kept as the instant
    its ISO string spells: the strings compare as the instants do. *)
From S2P Require Import Prelude JsNumber Effects RepositoryLaws JsData ThirdParty Entities World Accounts.
Local Open Scope Z_scope.

(** ** Data *)

Module LineSource.
Inductive LineSource : Type := transaction | fx.
End LineSource.

Module StatementLine.
Record StatementLine : Type := mk {
  date : Z;
  description : string;
  amount : num;
  reference : string;
  source : LineSource.LineSource
}.
End StatementLine.
Notation Line := StatementLine.StatementLine.

Module StatementView.
Record StatementView : Type := mk {
  userId : string;
  email : string;
  firstName : string;
  lastName : string;
  currency : string;
  from : string;
  to : string;
  openingBalance : num;
  closingBalance : num;
  lines : list Line;
  generatedAt : string
}.
End StatementView.

Record StatementRequest : Type := mkStatementRequest {
  r_userId : string;
  r_currency : string;
  r_from : string;
  r_to : string;
  r_format : option string
}.

(** What the service answers: the job it queued, the document that
    [PdfService] makes of a statement, or the statement. *)
Inductive StatementAnswer : Type :=
  | Queued (jobId : string)
  | Document (statement : StatementView.StatementView)
  | Statement (statement : StatementView.StatementView).

(** The optional queue: [add('generate', request)] and the job's id. *)
Class StatementsQueue : Type := { statementsQueue : option (StatementRequest -> M World string) }.

(** ** The service *)

Module StatementsService.
Section Service.
Context `{Q : StatementsQueue}.

Definition ASYNC_RANGE_DAYS : Z := 31.

(** [Math.ceil((to - from) / 86400000)]; [None] for NaN. *)
Definition dateDiffInDays (from to : string) : option Z :=
  match parse_iso to, parse_iso from with
  | Some b, Some a => Some (ceil_div (b - a) 86400000)
  | _, _ => None
  end.

Definition tx_amount (userId : string) (tx : Transaction.Transaction) : num :=
  if String.eqb tx.(Transaction.senderId) userId then (- tx.(Transaction.amount))%num else tx.(Transaction.amount).

Definition mine (userId currency : string) (tx : Transaction.Transaction) : bool :=
  (String.eqb tx.(Transaction.senderId) userId && String.eqb tx.(Transaction.currency) currency) ||
  (String.eqb tx.(Transaction.receiverId) userId && String.eqb tx.(Transaction.currency) currency).

Definition tx_line (userId : string) (tx : Transaction.Transaction) : Line :=
  StatementLine.mk tx.(Transaction.createdAt)
    (if String.eqb tx.(Transaction.senderId) userId then "Transfer to " +:+ tx.(Transaction.receiverId)
     else "Transfer from " +:+ tx.(Transaction.senderId))
    (tx_amount userId tx) tx.(Transaction.reference) LineSource.transaction.

Definition trade_lines (currency : string) (trade : FxTrade.FxTrade) : list Line :=
  let description := "FX trade: " +:+ trade.(FxTrade.fromCurrency) +:+ " -> " +:+ trade.(FxTrade.toCurrency) in
  (if String.eqb trade.(FxTrade.fromCurrency) currency
   then [StatementLine.mk trade.(FxTrade.executedAt) description (- trade.(FxTrade.fromAmount))%num trade.(FxTrade.id) LineSource.fx]
   else []) ++
  (if String.eqb trade.(FxTrade.toCurrency) currency
   then [StatementLine.mk trade.(FxTrade.executedAt) description trade.(FxTrade.toAmount) trade.(FxTrade.id) LineSource.fx]
   else []).

(** [a <= b] and [a < b] of dates: false when one is invalid. *)
Definition date_le (a b : option Z) : bool := match a, b with Some a, Some b => a <=? b | _, _ => false end.
Definition date_lt (a b : option Z) : bool := match a, b with Some a, Some b => a <? b | _, _ => false end.

Definition collectStatementLines (userId currency : string) (fromDate toDate : option Z) : M World (list Line) :=
  let* txs := find_asc (mine userId currency) Transaction.createdAt in
  let* fxTrades := find_asc (fun t => String.eqb t.(FxTrade.userId) userId) FxTrade.executedAt in
  let lines := List.filter (fun l => date_le fromDate (Some l.(StatementLine.date)) && date_le (Some l.(StatementLine.date)) toDate)
                 (map (tx_line userId) txs ++ flat_map (trade_lines currency) fxTrades) in
  ret (order_asc StatementLine.date lines).

(** The entries of a balance are the lines without a description. *)
Definition entry (l : Line) : Line :=
  StatementLine.mk l.(StatementLine.date) "" l.(StatementLine.amount) l.(StatementLine.reference) l.(StatementLine.source).

(** [reduce((sum, entry) => sum + entry.amount, 0)]. *)
Definition sum_amounts (l : list Line) : num :=
  fold_left (fun sum e => (sum + e.(StatementLine.amount))%num) l (num_of_Z 0).

Definition calculateBalanceBefore (userId currency : string) (before : option Z) : M World num :=
  let* txs := find_asc (mine userId currency) Transaction.createdAt in
  let* fxTrades := find_asc (fun t => String.eqb t.(FxTrade.userId) userId) FxTrade.executedAt in
  let entries := map (fun tx => entry (tx_line userId tx)) txs ++ flat_map (fun t => map entry (trade_lines currency t)) fxTrades in
  ret (sum_amounts (List.filter (fun e => date_lt (Some e.(StatementLine.date)) before) entries)).

(** [date.toISOString()]: an invalid date is refused. *)
Definition iso_of (d : option Z) : M World string :=
  match d with Some ms => ret (toISOString ms) | None => throw (JsError "RangeError" "Invalid time value") end.

Definition buildStatement (request : StatementRequest) : M World StatementView.StatementView :=
  let* user := UsersService.findById (r_userId request) in
  let fromDate := parse_iso (r_from request) in
  let toDate := parse_iso (r_to request) in
  let* lines := collectStatementLines (r_userId request) (r_currency request) fromDate toDate in
  let* openingBalance := calculateBalanceBefore (r_userId request) (r_currency request) fromDate in
  let closingBalance := (openingBalance + sum_amounts lines)%num in
  let* from := iso_of fromDate in
  let* to := iso_of toDate in
  let* now := date_now in
  ret (StatementView.mk user.(User.id) user.(User.email) user.(User.firstName) user.(User.lastName)
         (toUpperCase (r_currency request)) from to openingBalance closingBalance lines (toISOString now)).

Definition generateStatement (request : StatementRequest) : M World StatementAnswer :=
  if match dateDiffInDays (r_from request) (r_to request) with Some d => d >? ASYNC_RANGE_DAYS | None => false end then
    let* job := match statementsQueue with Some add => add request | None => ret "statement-queued" end in
    ret (Queued job)
  else
    let* statement := buildStatement request in
    ret (if opt_eqb String.eqb (r_format request) (Some "pdf") then Document statement else Statement statement).

(** The mail service only logs the message. *)
Definition sendStatementNotification (_request : StatementRequest) (statement : StatementView.StatementView) : M World unit :=
  ret tt.
End Service.
End StatementsService.

Definition StatementsProcessor_handleGenerate (data : StatementRequest) : M World unit :=
  let* statement := StatementsService.buildStatement data in
  StatementsService.sendStatementNotification data statement.

(** The route: the user of the token. *)
Definition StatementsController_getStatement `{StatementsQueue} (sub id : option string) (currency from to : string)
    (format : option string) : M World StatementAnswer :=
  let userId := match sub with Some u => u | None => default "" id end in
  StatementsService.generateStatement (mkStatementRequest userId currency from to format).

(** ** What a statement says *)

(** What moved on an account: a line for each transaction of the user in the
    currency, and for each side of a trade in it. *)
Definition movements (userId currency : string) (s : World) : list Line :=
  map (StatementsService.tx_line userId)
    (List.filter (fun t => live t && StatementsService.mine userId currency t) s.(World.transactions)) ++
  flat_map (StatementsService.trade_lines currency)
    (List.filter (fun t => live t && String.eqb t.(FxTrade.userId) userId) s.(World.fx_trades)).

Definition before (t : Z) (l : Line) : bool := l.(StatementLine.date) <? t.
Definition within (a b : Z) (l : Line) : bool := (a <=? l.(StatementLine.date)) && (l.(StatementLine.date) <=? b).

(** [balance] is a sum of the amounts of [l], in some order. *)
Definition adds_up (balance : num) (l : list Line) : Prop :=
  exists l', Permutation l' l /\ balance = StatementsService.sum_amounts l'.

Lemma Permutation_filter {A} (p : A -> bool) l l' : Permutation l l' -> Permutation (List.filter p l) (List.filter p l').
Proof.
  induction 1 as [|x l l' _ IH|x y l|l l' l'' _ IH1 _ IH2]; cbn [List.filter].
  - constructor.
  - destruct (p x); [constructor|]; exact IH.
  - destruct (p x), (p y); try reflexivity. constructor.
  - etransitivity; eassumption.
Qed.

Lemma movements_ordered userId currency s :
  Permutation
    (map (StatementsService.tx_line userId)
       (order_asc Transaction.createdAt (List.filter (fun t => live t && StatementsService.mine userId currency t) s.(World.transactions))) ++
     flat_map (StatementsService.trade_lines currency)
       (order_asc FxTrade.executedAt (List.filter (fun t => live t && String.eqb t.(FxTrade.userId) userId) s.(World.fx_trades))))
    (movements userId currency s).
Proof. apply Permutation_app; [apply Permutation_map | apply Permutation_flat_map]; apply order_asc_perm. Qed.

Lemma sum_entries l : StatementsService.sum_amounts (map StatementsService.entry l) = StatementsService.sum_amounts l.
Proof.
  unfold StatementsService.sum_amounts. generalize (num_of_Z 0). induction l as [|x l IH]; intros z; [reflexivity|]. apply IH.
Qed.

Lemma filter_entries p l :
  (forall x, p (StatementsService.entry x) = p x) -> List.filter p (map StatementsService.entry l) = map StatementsService.entry (List.filter p l).
Proof.
  intros Hp. induction l as [|x l IH]; [reflexivity|]. cbn [map List.filter]. rewrite Hp, IH. destruct (p x); reflexivity.
Qed.

Lemma collect_spec userId currency a b (s : World) :
  wp (StatementsService.collectStatementLines userId currency (Some a) (Some b))
    (fun l s' => env_only s s' /\ sorted_by StatementLine.date l /\ Permutation l (List.filter (within a b) (movements userId currency s)))
    (fun x s' => env_only s s' /\ env_fault (env_of s) x) s.
Proof.
  unfold StatementsService.collectStatementLines.
  wp_step. unfold find_asc. wp_step. wp_step; [split; [eexists; split; [eassumption | reflexivity] | assumption]|].
  wp_step. wp_step. wp_step. wp_step. { split; [eexists; split; [|reflexivity]; env_chain | eapply env_step_fault; eassumption]. }
  wp_step. wp_step. split; [eexists; split; [|reflexivity]; env_chain|]. split; [apply sorted_order_asc|].
  etransitivity; [apply order_asc_perm|]. apply (Permutation_filter (within a b)), movements_ordered.
Qed.

Lemma map_of_flat_map {A B C} (f : B -> C) (g : A -> list B) l : map f (flat_map g l) = flat_map (fun x => map f (g x)) l.
Proof. induction l as [|x l IH]; [reflexivity|]. cbn [flat_map]. rewrite map_app, IH. reflexivity. Qed.

Lemma balance_before_spec userId currency a (s : World) :
  wp (StatementsService.calculateBalanceBefore userId currency (Some a))
    (fun n s' => env_only s s' /\ adds_up n (List.filter (before a) (movements userId currency s)))
    (fun x s' => env_only s s' /\ env_fault (env_of s) x) s.
Proof.
  unfold StatementsService.calculateBalanceBefore.
  wp_step. unfold find_asc. wp_step. wp_step; [split; [eexists; split; [eassumption | reflexivity] | assumption]|].
  wp_step. wp_step. wp_step. wp_step. { split; [eexists; split; [|reflexivity]; env_chain | eapply env_step_fault; eassumption]. }
  wp_step. wp_step. split; [eexists; split; [|reflexivity]; env_chain|].
  eexists. split; [apply (Permutation_filter (before a)), movements_ordered|].
  rewrite <- map_map, <- map_of_flat_map, <- map_app, filter_entries by reflexivity. apply sum_entries.
Qed.

(** A statement of the period from [a] to [b] on the movements [l]. *)
Definition states (l : list Line) (a b : Z) (st : StatementView.StatementView) : Prop :=
  sorted_by StatementLine.date st.(StatementView.lines) /\
  Permutation st.(StatementView.lines) (List.filter (within a b) l) /\
  adds_up st.(StatementView.openingBalance) (List.filter (before a) l) /\
  st.(StatementView.closingBalance) =
    (st.(StatementView.openingBalance) + StatementsService.sum_amounts st.(StatementView.lines))%num.

Lemma buildStatement_spec request a b u (s : World) :
  List.find (fun e => live e && UsersService.by_id (r_userId request) e) s.(World.users) = Some u ->
  parse_iso (r_from request) = Some a -> parse_iso (r_to request) = Some b ->
  wp (StatementsService.buildStatement request)
    (fun st s' => env_only s s' /\ st.(StatementView.userId) = u.(User.id) /\
       states (movements (r_userId request) (r_currency request) s) a b st)
    (fun x s' => env_only s s' /\ env_fault (env_of s) x) s.
Proof.
  intros Hu Ha Hb. unfold StatementsService.buildStatement, UsersService.findById. wp_step. wp_step.
  wp_step; [split; [eexists; split; [eassumption | reflexivity] | assumption]|].
  change (rows s) with (World.users s). rewrite Hu. wp_step. rewrite Ha, Hb. wp_step.
  eapply wp_mono; [apply collect_spec | | intros x s' [(ex & Hex & ->) Hx]].
  2: { split; [eexists; split; [|reflexivity]; env_chain | eapply env_step_fault; eassumption]. }
  intros l s1 ((e1 & He1 & ->) & Hs & Hl). wp_step.
  eapply wp_mono; [apply balance_before_spec | | intros x s' [(ex & Hex & ->) Hx]].
  2: { split; [eexists; split; [|reflexivity]; env_chain | eapply env_step_fault; [|eassumption]; env_chain]. }
  intros n s2 ((e2 & He2 & ->) & Hn). cbn [StatementsService.iso_of]. do 2 (wp_step; wp_step). wp_step. wp_step. wp_step.
  split; [eexists; split; [|reflexivity]; env_chain|]. split; [reflexivity|]. split; [exact Hs|]. split; [exact Hl|].
  split; [exact Hn | reflexivity].
Qed.

Lemma before_split a b l : a <= b + 1 ->
  Permutation (List.filter (before (b + 1)) l) (List.filter (before a) l ++ List.filter (within a b) l).
Proof.
  intros Hab. induction l as [|x l IH]; [constructor|]. cbn [List.filter]. unfold before, within in *.
  destruct (Z.ltb_spec (StatementLine.date x) (b + 1)), (Z.ltb_spec (StatementLine.date x) a),
    (Z.leb_spec a (StatementLine.date x)), (Z.leb_spec (StatementLine.date x) b); try lia; cbn [andb app]; auto.
  apply Permutation_cons_app, IH.
Qed.

(** C31 Statements are right and chain: a statement that can be read lists exactly
    the movements of its period, in order, its closing balance is the opening
    balance plus its lines, and the opening balance adds up what moved before; a
    statement that begins a millisecond after another ends opens on what the
    other closed on: the same movements, each counted once.  Reading changes
    nothing. *)
Theorem statements_chain request request' a b b' u (s : World) :
  reliable (env_of s) -> r_userId request' = r_userId request -> r_currency request' = r_currency request ->
  List.find (fun e => live e && UsersService.by_id (r_userId request) e) s.(World.users) = Some u ->
  parse_iso (r_from request) = Some a -> parse_iso (r_to request) = Some b -> a <= b + 1 ->
  parse_iso (r_from request') = Some (b + 1) -> parse_iso (r_to request') = Some b' ->
  exists st st' s1 s2,
    StatementsService.buildStatement request s = (inr st, s1) /\ env_only s s1 /\
    StatementsService.buildStatement request' s1 = (inr st', s2) /\ env_only s1 s2 /\
    let l := movements (r_userId request) (r_currency request) s in
    states l a b st /\ states l (b + 1) b' st' /\
    adds_up st'.(StatementView.openingBalance) (List.filter (before a) l ++ st.(StatementView.lines)).
Proof.
  intros Hr Hid Hcur Hu Ha Hb Hab Ha' Hb'.
  pose proof (buildStatement_spec request a b u s Hu Ha Hb) as H1. unfold wp in H1.
  destruct (StatementsService.buildStatement request s) as [[x|st] s1]; [exfalso; exact (reliable_no_fault _ _ Hr (proj2 H1))|].
  destruct H1 as (Hs1 & _ & Hst). pose proof Hs1 as (e1 & He1 & E1).
  assert (Hu' : List.find (fun e => live e && UsersService.by_id (r_userId request') e) s1.(World.users) = Some u)
    by (rewrite Hid, E1; exact Hu).
  assert (Hr1 : reliable (env_of s1)) by (rewrite E1; exact (env_step_reliable _ _ He1 Hr)).
  pose proof (buildStatement_spec request' (b + 1) b' u s1 Hu' Ha' Hb') as H2. unfold wp in H2.
  destruct (StatementsService.buildStatement request' s1) as [[x|st'] s2] eqn:E2; [exfalso; exact (reliable_no_fault _ _ Hr1 (proj2 H2))|].
  destruct H2 as (Hs2 & _ & Hst'). rewrite Hid, Hcur in Hst'.
  assert (Hm : movements (r_userId request) (r_currency request) s1 = movements (r_userId request) (r_currency request) s)
    by (rewrite E1; reflexivity).
  rewrite Hm in Hst'. exists st, st', s1, s2. split; [reflexivity|]. split; [exact Hs1|]. split; [exact E2|]. split; [exact Hs2|].
  cbv zeta. split; [exact Hst|]. split; [exact Hst'|].
  destruct Hst as (_ & Hl & _), Hst' as (_ & _ & (l' & Hp & Hn) & _). exists l'. split; [|exact Hn].
  etransitivity; [exact Hp|]. etransitivity; [apply (before_split a b); exact Hab|]. apply Permutation_app_head. symmetry. exact Hl.
Qed.

(** ** Worked examples *)

Definition ada : User.User :=
  User.mk "ada" "ada@nexafx.example" "hash" "Ada" "Lovelace" UserRole.USER true KycStatus.APPROVED true "en" None false 0 None 0 0.

Definition moved (id sender receiver : string) (amount : num) (status : TransactionStatus.TransactionStatus) (at_ : Z) : Transaction.Transaction :=
  Transaction.mk id sender receiver amount "USD" (num_of_Z 0) status "ref" None [] at_ None None None None None None 0 None [] None None None.

Definition january (d : Z) : Z := 1767225600000 + (d - 1) * 86400000.

Definition statement_world (txs : list Transaction.Transaction) : World :=
  demo_world <| World.users := [ada] |> <| World.transactions := txs |>.

Definition statement_of (from to : string) : StatementRequest := mkStatementRequest "ada" "USD" from to None.

Definition closing_of (txs : list Transaction.Transaction) : string :=
  match StatementsService.buildStatement (statement_of "2026-01-01" "2026-01-31") (statement_world txs) with
  | (inr st, _) => num_to_string st.(StatementView.closingBalance)
  | (inl x, _) => message_of x
  end.

(** A deposit has its owner on both sides: it is listed as money that left. *)
Example deposit_is_a_debit :
  closing_of [moved "d1" "ada" "ada" (num_of_Z 50) TransactionStatus.COMPLETED (january 5)] = "-50".
Proof. vm_compute. reflexivity. Qed.

(** A transfer that failed counts like one that was made. *)
Example failed_transfer_counts :
  closing_of [moved "t1" "bob" "ada" (num_of_Z 50) TransactionStatus.FAILED (january 5)] = "50".
Proof. vm_compute. reflexivity. Qed.

(** A period that ends on a date leaves that day out. *)
Example last_day_is_left_out :
  closing_of [moved "t1" "bob" "ada" (num_of_Z 50) TransactionStatus.COMPLETED (january 31 + 1)] = "0".
Proof. vm_compute. reflexivity. Qed.

(** The sums are rounded at each addition: statements that chain can differ by
    a fraction of a cent. *)
Example chained_balances_are_rounded :
  let txs := [moved "t1" "bob" "ada" (num_of_ratio 1 10) TransactionStatus.COMPLETED (january 2);
              moved "t2" "bob" "ada" (num_of_ratio 2 10) TransactionStatus.COMPLETED (january 5);
              moved "t3" "bob" "ada" (num_of_ratio 3 10) TransactionStatus.COMPLETED (january 6)] in
  let w := statement_world txs in
  match StatementsService.buildStatement (statement_of "2026-01-04" "2026-01-31") w,
        StatementsService.buildStatement (statement_of "2026-01-31T00:00:00.001Z" "2026-02-28") w with
  | (inr st, _), (inr st', _) =>
      num_to_string st.(StatementView.closingBalance) = "0.6" /\ num_to_string st'.(StatementView.openingBalance) = "0.6000000000000001"
  | _, _ => False
  end.
Proof. vm_compute. split; reflexivity. Qed.

(** ** Witness *)

Lemma statements_chain_witness :
  exists st st' s1 s2,
    StatementsService.buildStatement (statement_of "2026-01-01" "2026-01-31")
      (statement_world [moved "t1" "bob" "ada" (num_of_Z 50) TransactionStatus.COMPLETED (january 5)]) = (inr st, s1) /\
    StatementsService.buildStatement (statement_of "2026-01-31T00:00:00.001Z" "2026-02-28") s1 = (inr st', s2).
Proof.
  destruct (statements_chain (statement_of "2026-01-01" "2026-01-31") (statement_of "2026-01-31T00:00:00.001Z" "2026-02-28")
              (january 1) (january 31) (january 59) ada
              (statement_world [moved "t1" "bob" "ada" (num_of_Z 50) TransactionStatus.COMPLETED (january 5)]))
    as (st & st' & s1 & s2 & H1 & _ & H2 & _ & _); try reflexivity; [intros n _; reflexivity | vm_compute; discriminate |].
  exists st, st', s1, s2. split; [exact H1 | exact H2].
Defined.
