(* ===== verification/Notifications.v ===== *)
(** Preferences (notification-preferences/), push tokens and their messages
    (notifications/push/push.service.ts), alerts to the administrators
    (admin/admin-alert.service.ts) and the workers of the three queues
    (mail/mail.processor.ts, notification/notification.processor.ts,
    transaction/transaction.processor.ts). *)
From S2P Require Import Prelude JsNumber Effects RepositoryLaws JsData ThirdParty Entities World Transactions.
Local Open Scope Z_scope.

Module NotificationChannel.
Inductive NotificationChannel : Type := EMAIL | PUSH | IN_APP | SMS.
Definition eqb (a b : NotificationChannel) : bool :=
  match a, b with
  | EMAIL, EMAIL | PUSH, PUSH | IN_APP, IN_APP | SMS, SMS => true
  | _, _ => false
  end.
Definition show (a : NotificationChannel) : string :=
  match a with
  | EMAIL => "email"
  | PUSH => "push"
  | IN_APP => "in_app"
  | SMS => "sms"
  end.
Lemma NotificationChannel_eqb_eq a b : eqb a b = true <-> a = b.
Proof. destruct a, b; simpl; split; congruence. Qed.
End NotificationChannel.

Module NotificationEventType.
Inductive NotificationEventType : Type := TRANSACTION | SECURITY | KYC | PROMOTIONAL | SYSTEM.
Definition eqb (a b : NotificationEventType) : bool :=
  match a, b with
  | TRANSACTION, TRANSACTION | SECURITY, SECURITY | KYC, KYC | PROMOTIONAL, PROMOTIONAL | SYSTEM, SYSTEM => true
  | _, _ => false
  end.
Definition show (a : NotificationEventType) : string :=
  match a with
  | TRANSACTION => "transaction"
  | SECURITY => "security"
  | KYC => "kyc"
  | PROMOTIONAL => "promotional"
  | SYSTEM => "system"
  end.
Lemma NotificationEventType_eqb_eq a b : eqb a b = true <-> a = b.
Proof. destruct a, b; simpl; split; congruence. Qed.
End NotificationEventType.

Module DevicePlatform.
Inductive DevicePlatform : Type := IOS | ANDROID | WEB.
Definition eqb (a b : DevicePlatform) : bool :=
  match a, b with
  | IOS, IOS | ANDROID, ANDROID | WEB, WEB => true
  | _, _ => false
  end.
Definition show (a : DevicePlatform) : string :=
  match a with
  | IOS => "ios"
  | ANDROID => "android"
  | WEB => "web"
  end.
Lemma DevicePlatform_eqb_eq a b : eqb a b = true <-> a = b.
Proof. destruct a, b; simpl; split; congruence. Qed.
End DevicePlatform.

(** notification-preferences/notification-preference.entity.ts, unique in user, channel and event *)
Module NotificationPreference.
Record NotificationPreference : Type := mk {
  id : string;
  userId : string;
  channel : NotificationChannel.NotificationChannel;
  eventType : NotificationEventType.NotificationEventType;
  isEnabled : bool;
  createdAt : Z;
  updatedAt : Z
}.
#[global] Instance settable : Settable NotificationPreference := fun r =>
  mk r.(id) r.(userId) r.(channel) r.(eventType) r.(isEnabled) r.(createdAt)
     r.(updatedAt).
End NotificationPreference.

#[global] Program Instance NotificationPreference_row : Row NotificationPreference.NotificationPreference := {|
  row_id := NotificationPreference.id;
  set_row_id i e := e <| NotificationPreference.id := i |>;
  created t e := e <| NotificationPreference.createdAt := t |> <| NotificationPreference.updatedAt := t |>;
  touched t e := e <| NotificationPreference.updatedAt := t |>;
  live e := true;
  clash a b := String.eqb a.(NotificationPreference.userId) b.(NotificationPreference.userId) && NotificationChannel.eqb a.(NotificationPreference.channel) b.(NotificationPreference.channel) && NotificationEventType.eqb a.(NotificationPreference.eventType) b.(NotificationPreference.eventType)
|}.

(** notifications/device-token.entity.ts, unique in its token *)
Module DeviceToken.
Record DeviceToken : Type := mk {
  id : string;
  userId : string;
  token : string;
  platform : DevicePlatform.DevicePlatform;
  createdAt : Z;
  lastUsedAt : option Z
}.
#[global] Instance settable : Settable DeviceToken := fun r =>
  mk r.(id) r.(userId) r.(token) r.(platform) r.(createdAt) r.(lastUsedAt).
End DeviceToken.

#[global] Program Instance DeviceToken_row : Row DeviceToken.DeviceToken := {|
  row_id := DeviceToken.id;
  set_row_id i e := e <| DeviceToken.id := i |>;
  created t e := e <| DeviceToken.createdAt := t |>;
  touched t e := e;
  live e := true;
  clash a b := String.eqb a.(DeviceToken.token) b.(DeviceToken.token)
|}.

Notation Preference := NotificationPreference.NotificationPreference.
Notation Device := DeviceToken.DeviceToken.

Record AdminAlertPayload : Type := mkAlert {
  al_type : string;
  al_severity : string;
  al_title : string;
  al_message : string;
  al_metadata : option (list (string * json))
}.

(** [cache]: the keys of the cache manager with the time they expire at;
    [alertHistory]: the alerts broadcast, with their identifiers and times. *)
Module NotificationStore.
Record NotificationStore : Type := mk {
  env : Env;
  preferences : list NotificationPreference.NotificationPreference;
  devices : list DeviceToken.DeviceToken;
  cache : list (string * Z);
  alertHistory : list (string * AdminAlertPayload * Z)
}.
#[global] Instance settable : Settable NotificationStore := fun r =>
  mk r.(env) r.(preferences) r.(devices) r.(cache) r.(alertHistory).
End NotificationStore.

#[global] Program Instance NotificationStore_env : HasEnv NotificationStore.NotificationStore := {|
  env_of := NotificationStore.env;
  set_env e w := w <| NotificationStore.env := e |>
|}.

#[global] Program Instance NotificationStore_preferences : Table NotificationStore.NotificationStore NotificationPreference.NotificationPreference := {|
  rows := NotificationStore.preferences;
  set_rows t w := w <| NotificationStore.preferences := t |>
|}.

#[global] Program Instance NotificationStore_devices : Table NotificationStore.NotificationStore DeviceToken.DeviceToken := {|
  rows := NotificationStore.devices;
  set_rows t w := w <| NotificationStore.devices := t |>
|}.

Notation Store := NotificationStore.NotificationStore.

(** ** Preferences *)

Record UpdatePreferenceDto : Type := mkPreferenceDto {
  p_channel : NotificationChannel.NotificationChannel;
  p_eventType : NotificationEventType.NotificationEventType;
  p_isEnabled : bool
}.

Module NotificationPreferencesService.
Definition is_preference (userId : string) (channel : NotificationChannel.NotificationChannel)
    (eventType : NotificationEventType.NotificationEventType) (p : Preference) : bool :=
  String.eqb p.(NotificationPreference.userId) userId &&
  NotificationChannel.eqb p.(NotificationPreference.channel) channel &&
  NotificationEventType.eqb p.(NotificationPreference.eventType) eventType.

Definition getPreferences (userId : string) : M Store (list Preference) :=
  find_all (fun p => String.eqb p.(NotificationPreference.userId) userId).

Definition getPreference (userId : string) (channel : NotificationChannel.NotificationChannel)
    (eventType : NotificationEventType.NotificationEventType) : M Store (option Preference) :=
  findOne (is_preference userId channel eventType).

Definition updatePreference (userId : string) (dto : UpdatePreferenceDto) : M Store Preference :=
  let* pref := findOne (is_preference userId (p_channel dto) (p_eventType dto)) in
  match pref with
  | Some pref => save (pref <| NotificationPreference.isEnabled := p_isEnabled dto |>)
  | None => save (NotificationPreference.mk "" userId (p_channel dto) (p_eventType dto) (p_isEnabled dto) 0 0)
  end.

Fixpoint updatePreferences (userId : string) (dtos : list UpdatePreferenceDto) : M Store (list Preference) :=
  match dtos with
  | [] => ret []
  | dto :: dtos =>
      let* pref := updatePreference userId dto in
      let* results := updatePreferences userId dtos in
      ret (pref :: results)
  end.

Definition shouldNotify (userId : string) (channel : NotificationChannel.NotificationChannel)
    (eventType : NotificationEventType.NotificationEventType) : M Store bool :=
  let* pref := findOne (is_preference userId channel eventType) in
  ret match pref with None => true | Some pref => pref.(NotificationPreference.isEnabled) end.
End NotificationPreferencesService.

(** ** Push messages *)

Record PushPayload : Type := mkPush {
  push_title : string;
  push_body : string;
  push_data : option (list (string * json))
}.

(** How the n-th POST to FCM fails: its message, and the errors of its answer,
    at the top and of the first result. *)
Record FcmError : Type := mkFcmError {
  fcm_message : string;
  fcm_error : option string;
  fcm_first_result : option string
}.
Class Fcm : Type := { fcm_post : nat -> string -> PushPayload -> option FcmError }.

Module PushNotificationService.
Section Service.
Context `{Fcm}.

Definition MAX_TOKENS_PER_USER : Z := 20.

(** Ascending in [lastUsedAt]: a null is last. *)
Definition by_last_use (l : list Device) : list Device :=
  order_asc (fun d => default 0 d.(DeviceToken.lastUsedAt))
    (List.filter (fun d => match d.(DeviceToken.lastUsedAt) with Some _ => true | None => false end) l) ++
  List.filter (fun d => match d.(DeviceToken.lastUsedAt) with Some _ => false | None => true end) l.

Definition registerToken (userId token : string) (platform : DevicePlatform.DevicePlatform) : M Store Device :=
  let* existing := findOne (fun d => String.eqb d.(DeviceToken.token) token) in
  match existing with
  | Some existing =>
      let* now := date_now in
      save (existing <| DeviceToken.userId := userId |> <| DeviceToken.lastUsedAt := Some now |>)
  | None =>
      let* userTokens := find_all (fun d => String.eqb d.(DeviceToken.userId) userId) in
      let userTokens := by_last_use userTokens in
      (match userTokens with
       | oldest :: _ =>
           if MAX_TOKENS_PER_USER <=? Z.of_nat (length userTokens)
           then delete_rows (fun d : Device => String.eqb d.(DeviceToken.id) oldest.(DeviceToken.id)) ;;; ret tt
           else ret tt
       | [] => ret tt
       end) ;;;
      save (DeviceToken.mk "" userId token platform 0 None)
  end.

Definition deregisterToken (token : string) : M Store unit :=
  delete_rows (fun d : Device => String.eqb d.(DeviceToken.token) token) ;;; ret tt.

(** The POST: [None] when it went through. *)
Definition sendFcm (token : string) (payload : PushPayload) : M Store (option FcmError) :=
  let* n := gets (fun s => calls (NotificationStore.env s)) in
  let* reached := attempt db_call in
  ret match reached with
      | inl x => Some (mkFcmError (message_of x) None None)
      | inr _ => fcm_post n token payload
      end.

(** It only logs. *)
Definition sendApns (token : string) (payload : PushPayload) : M Store (option FcmError) := ret None.

Definition not_registered (err : FcmError) : bool :=
  opt_eqb String.eqb (fcm_error err) (Some "NotRegistered") || opt_eqb String.eqb (fcm_first_result err) (Some "NotRegistered").

Definition send (dt : Device) (payload : PushPayload) : M Store unit :=
  let* outcome := attempt
    (let* err := (if DevicePlatform.eqb dt.(DeviceToken.platform) DevicePlatform.IOS
                  then sendApns dt.(DeviceToken.token) payload
                  else sendFcm dt.(DeviceToken.token) payload) in
     match err with
     | Some err => ret (Some err)
     | None =>
         let* now := date_now in
         save (dt <| DeviceToken.lastUsedAt := Some now |>) ;;;
         ret None
     end) in
  match outcome with
  | inr None => ret tt
  | inr (Some err) =>
      if not_registered err
      then delete_rows (fun d : Device => String.eqb d.(DeviceToken.token) dt.(DeviceToken.token)) ;;; ret tt
      else ret tt
  | inl _ => ret tt
  end.

(** [Promise.all]: every message is sent; the first failure is the answer's. *)
Fixpoint all_sent (tokens : list Device) (payload : PushPayload) : M Store (option exn) :=
  match tokens with
  | [] => ret None
  | dt :: tokens =>
      let* r := attempt (send dt payload) in
      let* rest := all_sent tokens payload in
      ret match r with inl x => Some x | inr _ => rest end
  end.

Definition sendToUser (userId : string) (payload : PushPayload) : M Store unit :=
  let* tokens := find_all (fun d => String.eqb d.(DeviceToken.userId) userId) in
  let* failure := all_sent tokens payload in
  match failure with Some x => throw x | None => ret tt end.
End Service.
End PushNotificationService.

(** ** Alerts to the administrators *)

Module AdminAlertService.
Section Service.
Context `{ConfigService} `{Radix36}.
(** [process.env.NODE_ENV === 'test'] and [process.env.MAIL_FROM]. *)
Variables (node_env_test : bool) (MAIL_FROM : option string).

Definition alertEmail : option string := config_string "ADMIN_ALERT_EMAIL".
Definition slackWebhookUrl : option string := config_string "ADMIN_ALERT_SLACK_WEBHOOK_URL".
(** The schema of the environment makes it a whole number of minutes. *)
Definition rateLimitMinutes : Z :=
  match config_number "ADMIN_ALERT_RATE_LIMIT_MINUTES" with
  | Some n => match num_fraction n with Some (a, d) => a / Zpos d | None => 0 end
  | None => 15
  end.

Definition cache_key (eventType : string) : string := "admin:alert:ratelimit:" +:+ eventType.
Definition cached (key : string) (now : Z) (cache : list (string * Z)) : bool :=
  existsb (fun '(k, expires) => String.eqb k key && (now <? expires)) cache.

Definition isRateLimited (eventType : string) : M Store bool :=
  let key := cache_key eventType in
  db_call ;;;
  let* now := date_now in
  let* exists_ := gets (fun s => cached key now s.(NotificationStore.cache)) in
  if exists_ then ret true
  else
    db_call ;;;
    let* now := date_now in
    modify (fun s => s <| NotificationStore.cache :=
      (key, now + rateLimitMinutes * 60000) ::
      List.filter (fun '(k, _) => negb (String.eqb k key)) s.(NotificationStore.cache) |>) ;;;
    ret false.

(** mail/mail.service.ts: it swallows what the transport throws; the outbox has
    the parts its HTML is made of. *)
Definition sendAdminAlert (to subject body : string) (metadata : option (list (string * json))) : M Store unit :=
  if node_env_test then ret tt
  else
    attempt
      (db_call ;;;
       emit "mail.sendMail" (JObj [("from", jopt MAIL_FROM); ("to", JStr to); ("subject", JStr subject);
         ("body", JStr body); ("metadata", match metadata with Some m => JObj m | None => JUndefined end)])) ;;;
    ret tt.

Definition slack_text (payload : AdminAlertPayload) : string :=
  "*[" +:+ toUpperCase (al_severity payload) +:+ "]* " +:+ al_title payload +:+ String (ascii_of_nat 10) "" +:+ al_message payload.

Definition sendAlert (payload : AdminAlertPayload) : M Store unit :=
  let* limited := isRateLimited (al_type payload) in
  if limited then ret tt
  else
    (match alertEmail with
     | Some email =>
         if str_truthy email
         then attempt (sendAdminAlert email ("[" +:+ toUpperCase (al_severity payload) +:+ "] " +:+ al_title payload)
                         (al_message payload) (al_metadata payload)) ;;; ret tt
         else ret tt
     | None => ret tt
     end) ;;;
    match slackWebhookUrl with
    | Some url =>
        if str_truthy url
        then attempt (db_call ;;; emit "slack.post" (JObj [("url", JStr url); ("text", JStr (slack_text payload))])) ;;; ret tt
        else ret tt
    | None => ret tt
    end.

(** The four listeners. *)
Definition listens (event : string) : bool :=
  existsb (String.eqb event)
    ["admin.alert.high-value-transaction"; "admin.alert.aml-flag"; "admin.alert.kyc-failed"; "admin.alert.account-lockout"].

Definition broadcastAlert (payload : AdminAlertPayload) : M Store (string * AdminAlertPayload * Z) :=
  let* now := date_now in
  let* r := math_random in
  let* timestamp := date_now in
  let alert := ("alt_" +:+ string_of_Z now +:+ "_" +:+ slice 2 7 (toString36 r), payload, timestamp) in
  modify (fun s => s <| NotificationStore.alertHistory := s.(NotificationStore.alertHistory) ++ [alert] |>) ;;;
  sendAlert payload ;;;
  ret alert.

Definition getRecentAlerts : M Store (list (string * AdminAlertPayload * Z)) :=
  gets (fun s => skipn (length s.(NotificationStore.alertHistory) - 50) s.(NotificationStore.alertHistory)).
End Service.
End AdminAlertService.

(** ** The workers of the queues *)

(** A job that has failed is dead when its attempts are spent. *)
Definition isDeadLetter (attempts : option Z) (attemptsMade : Z) : bool := default 1 attempts <=? attemptsMade.

(** What [handleSendEmail], [handleDispatch] and [handleProcess] ask of the data
    of a job; beyond that they log. *)
Definition handleSendEmail (to subject : option string) : exn + unit :=
  if opt_truthy to && opt_truthy subject then inr tt
  else inl (PlainError "Missing required email fields: to, subject").

Definition handleDispatch (userId title body : option string) : exn + unit :=
  if opt_truthy userId && opt_truthy title && opt_truthy body then inr tt
  else inl (PlainError "Missing required notification fields: userId, title, body").

Definition handleProcess (transactionId type_ : option string) (amount : option num) (currency : option string) : exn + unit :=
  if opt_truthy transactionId && opt_truthy type_ && (match amount with Some _ => true | None => false end) && opt_truthy currency
  then inr tt
  else inl (PlainError "Missing required transaction fields: transactionId, type, amount, currency").

(** ** Preferences are a map *)

Module NC := NotificationChannel.
Module NE := NotificationEventType.

(** Whether a user is to be notified. *)
Definition enabled (s : Store) (u : string) (c : NC.NotificationChannel) (e : NE.NotificationEventType) : bool :=
  match List.find (fun p => live p && NotificationPreferencesService.is_preference u c e p) s.(NotificationStore.preferences) with
  | Some p => p.(NotificationPreference.isEnabled)
  | None => true
  end.

Definition preferences : Type := string -> NC.NotificationChannel -> NE.NotificationEventType -> bool.

Definition set_preference (user : string) (f : preferences) (dto : UpdatePreferenceDto) : preferences := fun u c e =>
  if String.eqb user u && NC.eqb (p_channel dto) c && NE.eqb (p_eventType dto) e then p_isEnabled dto else f u c e.

Definition agrees (s : Store) (f : preferences) : Prop := forall u c e, enabled s u c e = f u c e.

Definition preferences_ok (s : Store) : Prop :=
  table_unique s.(NotificationStore.preferences) /\ List.Forall (fun p => row_id p <> "") s.(NotificationStore.preferences).

Lemma is_preference_iff u c e (p : Preference) :
  NotificationPreferencesService.is_preference u c e p = true <->
  p.(NotificationPreference.userId) = u /\ p.(NotificationPreference.channel) = c /\ p.(NotificationPreference.eventType) = e.
Proof.
  unfold NotificationPreferencesService.is_preference. rewrite !andb_true_iff, String.eqb_eq, NC.NotificationChannel_eqb_eq,
    NE.NotificationEventType_eqb_eq. tauto.
Qed.

(** Two rows of one key are one row. *)
Lemma preferences_key (t : list Preference) a b : table_unique t -> In a t -> In b t ->
  a.(NotificationPreference.userId) = b.(NotificationPreference.userId) ->
  a.(NotificationPreference.channel) = b.(NotificationPreference.channel) ->
  a.(NotificationPreference.eventType) = b.(NotificationPreference.eventType) -> row_id a = row_id b.
Proof.
  intros [_ Hcl] Ha Hb Hu Hc He. destruct (String.eqb_spec (row_id a) (row_id b)) as [E|Hne]; [exact E|]. exfalso.
  specialize (Hcl a b Ha Hb Hne). cbn [clash NotificationPreference_row] in Hcl.
  rewrite Hu, Hc, He, String.eqb_refl, (proj2 (NC.NotificationChannel_eqb_eq _ _) eq_refl),
    (proj2 (NE.NotificationEventType_eqb_eq _ _) eq_refl) in Hcl. discriminate.
Qed.

Lemma preference_clash_sym (a b : Preference) : clash a b = clash b a.
Proof.
  apply Bool.eq_iff_eq_true. cbn [clash NotificationPreference_row].
  rewrite !andb_true_iff, !String.eqb_eq, !NC.NotificationChannel_eqb_eq, !NE.NotificationEventType_eqb_eq. intuition congruence.
Qed.

(** Saving a row under a key that no other row has. *)
Lemma enabled_upsert (r : Preference) (s s' : Store) :
  preferences_ok s -> row_id r <> "" -> s'.(NotificationStore.preferences) = upsert r s.(NotificationStore.preferences) ->
  violates r s.(NotificationStore.preferences) = false ->
  (forall x, In x s.(NotificationStore.preferences) -> row_id x = row_id r ->
     NotificationPreferencesService.is_preference r.(NotificationPreference.userId) r.(NotificationPreference.channel)
       r.(NotificationPreference.eventType) x = true) ->
  preferences_ok s' /\
  forall u c e, enabled s' u c e =
    if NotificationPreferencesService.is_preference u c e r then r.(NotificationPreference.isEnabled) else enabled s u c e.
Proof.
  intros [Hok Hne] Hr0 Hs Hv Hid. assert (Hok' : table_unique s'.(NotificationStore.preferences)).
  { rewrite Hs. apply table_unique_upsert; [exact preference_clash_sym | exact Hok | exact Hv]. }
  split; [split; [exact Hok' | rewrite Hs; apply Forall_upsert; assumption]|]. intros u c e. unfold enabled. rewrite Hs. cbn [live NotificationPreference_row andb].
  destruct (NotificationPreferencesService.is_preference u c e r) eqn:Hr.
  - rewrite find_upsert_id; [reflexivity | apply Hok | exact Hr |].
    intros x Hx Hp. apply is_preference_iff in Hr as (Hu & Hc & He), Hp as (Hu' & Hc' & He').
    rewrite Hs in Hok'.
    destruct (String.eqb_spec (row_id x) (row_id r)) as [E|Hx']; [exact E|].
    eapply (preferences_key _ x r Hok'); [apply in_upsert_other; assumption | apply in_upsert_self | congruence ..].
  - rewrite find_upsert_other; [reflexivity | exact Hr |]. intros x Hx Hi. specialize (Hid x Hx Hi).
    apply not_true_iff_false. intros Hp. apply is_preference_iff in Hp as (Hu & Hc & He), Hid as (Hu' & Hc' & He').
    apply not_true_iff_false in Hr. apply Hr, is_preference_iff. split; [congruence|]. split; congruence.
Qed.

Lemma updatePreference_spec user dto f (s : Store) :
  preferences_ok s -> agrees s f ->
  wp (NotificationPreferencesService.updatePreference user dto)
    (fun _ s' => preferences_ok s' /\ agrees s' (set_preference user f dto))
    (fun _ s' => preferences_ok s' /\ agrees s' f) s.
Proof.
  intros Hok Hf. unfold NotificationPreferencesService.updatePreference. wp_step. wp_step; [split; assumption|].
  assert (Hpost : forall r env1, violates r s.(NotificationStore.preferences) = false -> row_id r <> "" ->
    NotificationPreferencesService.is_preference user (p_channel dto) (p_eventType dto) r = true ->
    r.(NotificationPreference.isEnabled) = p_isEnabled dto ->
    (forall x, In x s.(NotificationStore.preferences) -> row_id x = row_id r ->
       NotificationPreferencesService.is_preference user (p_channel dto) (p_eventType dto) x = true) ->
    let s' := set_rows (upsert r s.(NotificationStore.preferences)) (set_env env1 s) in
    preferences_ok s' /\ agrees s' (set_preference user f dto)).
  { intros r env1 Hv Hne Hr Hen Hx s'. apply is_preference_iff in Hr as (Hu & Hc & He).
    destruct (enabled_upsert r s s' Hok Hne eq_refl Hv) as [Hok' Hs']; [rewrite Hu, Hc, He; exact Hx|].
    split; [exact Hok'|]. intros u c e. rewrite Hs'. unfold set_preference, NotificationPreferencesService.is_preference. rewrite <- (Hf u c e).
    rewrite Hu, Hc, He, Hen. reflexivity. }
  destruct (List.find _ _) as [pref|] eqn:Hfind.
  - apply find_live_some in Hfind as (Hin & _ & Hp). cbn beta iota. wp_step; [split; assumption|].
    assert (Hex : existsb (same_row (pref <| NotificationPreference.isEnabled := p_isEnabled dto |>)) s.(NotificationStore.preferences) = true)
      by (apply existsb_exists; exists pref; split; [exact Hin | apply String.eqb_refl]).
    match goal with H : existsb _ _ = true -> exists t, _ = touched t _ |- _ => destruct (H Hex) as [t ->] end.
    apply Hpost; [assumption | | exact Hp | reflexivity |].
    + destruct Hok as [_ Hne]. rewrite List.Forall_forall in Hne. exact (Hne pref Hin).
    + intros x Hx Hid. rewrite (NoDup_row_id_inj _ x pref (proj1 (proj1 Hok)) Hx Hin Hid). exact Hp.
  - cbn beta iota. wp_step; [split; assumption|].
    assert (Hex : existsb (same_row (NotificationPreference.mk "" user (p_channel dto) (p_eventType dto) (p_isEnabled dto) 0 0))
                    s.(NotificationStore.preferences) = false).
    { apply not_true_iff_false. intros (x & Hx & Hid)%existsb_exists. destruct Hok as [_ Hne]. rewrite List.Forall_forall in Hne.
      apply (Hne x Hx). apply same_row_true in Hid. symmetry. exact Hid. }
    match goal with H : existsb _ _ = false -> _ |- _ => destruct (H Hex) as [Hne Hnew] end.
    match goal with H : saved_as _ ?r |- _ => destruct H end; [exfalso; apply Hne; reflexivity|].
    apply Hpost; [assumption | exact Hne | | reflexivity |].
    + apply is_preference_iff. split; [reflexivity | split; reflexivity].
    + intros x Hx Hid. exfalso. apply not_true_iff_false in Hnew. apply Hnew, existsb_exists. exists x. split; [exact Hx|].
      apply same_row_true. symmetry. exact Hid.
Qed.

(** Preferences are a map: updating a list of them, in order, sets the map
    from channel and event to whether the user is notified, which is on where
    nothing was set; when a call fails, the updates before it hold and the others
    do not; and [shouldNotify] reads the map. *)
Theorem preferences_are_a_map user dtos f (s : Store) :
  preferences_ok s -> agrees s f ->
  wp (NotificationPreferencesService.updatePreferences user dtos)
    (fun _ s' => preferences_ok s' /\ agrees s' (fold_left (set_preference user) dtos f))
    (fun _ s' => preferences_ok s' /\ exists done rest, dtos = done ++ rest /\ rest <> [] /\
                   agrees s' (fold_left (set_preference user) done f)) s /\
  forall u c e, wp (NotificationPreferencesService.shouldNotify u c e)
    (fun b s' => b = f u c e /\ env_only s s') (fun x s' => env_only s s' /\ env_fault (env_of s) x) s.
Proof.
  intros Hok Hf. split.
  - revert f s Hok Hf. induction dtos as [|dto dtos IH]; intros f s Hok Hf; cbn [NotificationPreferencesService.updatePreferences].
    + apply wp_ret. split; assumption.
    + apply wp_bind. eapply wp_mono; [apply (updatePreference_spec user dto f s Hok Hf) | |].
      * intros pref s1 [Hok1 Hf1]. apply wp_bind. eapply wp_mono; [apply (IH _ s1 Hok1 Hf1) | |].
        -- intros l s2 H2. apply wp_ret. exact H2.
        -- intros x s2 (H2 & done & rest & E & Hr & Ha). split; [exact H2|]. exists (dto :: done), rest. rewrite E. auto.
      * intros x s1 [Hok1 Hf1]. split; [exact Hok1|]. exists [], (dto :: dtos). split; [reflexivity|]. split; [discriminate | exact Hf1].
  - intros u c e. unfold NotificationPreferencesService.shouldNotify. wp_step.
    wp_step; [split; [eexists; split; [eassumption | reflexivity] | assumption]|].
    wp_step. split; [rewrite <- Hf; reflexivity | eexists; split; [eassumption | reflexivity]].
Qed.

(** ** Device tokens *)

Definition devices_ok (s : Store) : Prop :=
  table_unique s.(NotificationStore.devices) /\ List.Forall (fun d => row_id d <> "") s.(NotificationStore.devices).

Definition devices_of (u : string) (s : Store) : list Device :=
  List.filter (fun d => String.eqb d.(DeviceToken.userId) u) s.(NotificationStore.devices).

(** Rows kept, up to the one evicted to make room. *)
Definition room_made (u : string) (s s' : Store) : Prop := forall d, In d s.(NotificationStore.devices) ->
  In d s'.(NotificationStore.devices) \/
  (d.(DeviceToken.userId) = u /\ PushNotificationService.MAX_TOKENS_PER_USER <= Z.of_nat (length (devices_of u s))).

Lemma in_by_last_use d l : In d (PushNotificationService.by_last_use l) <-> In d l.
Proof.
  unfold PushNotificationService.by_last_use. rewrite in_app_iff, in_order_asc, !filter_In.
  destruct (DeviceToken.lastUsedAt d); intuition congruence.
Qed.

Lemma length_by_last_use l : length (PushNotificationService.by_last_use l) = length l.
Proof.
  unfold PushNotificationService.by_last_use. rewrite length_app, length_order_asc.
  induction l as [|d l IH]; [reflexivity|]. cbn [List.filter]. destruct (DeviceToken.lastUsedAt d); cbn [length]; lia.
Qed.

Lemma devices_ok_upsert (r : Device) (s s' : Store) :
  devices_ok s -> row_id r <> "" -> s'.(NotificationStore.devices) = upsert r s.(NotificationStore.devices) ->
  violates r s.(NotificationStore.devices) = false -> devices_ok s'.
Proof.
  intros [Hok Hne] Hr Hs Hv. split; rewrite Hs; [|apply Forall_upsert; assumption].
  apply table_unique_upsert; [|assumption..]. intros a b. cbn [clash DeviceToken_row]. apply String.eqb_sym.
Qed.

Lemma devices_ok_filter p (s s' : Store) :
  devices_ok s -> s'.(NotificationStore.devices) = List.filter p s.(NotificationStore.devices) -> devices_ok s'.
Proof.
  intros [[Hnd Hcl] Hne] Hs. rewrite List.Forall_forall in Hne. split; [split|]; rewrite Hs.
  - apply NoDup_map_filter, Hnd.
  - intros a b [Ha _]%filter_In [Hb _]%filter_In. auto.
  - apply List.Forall_forall. intros d [Hd _]%filter_In. auto.
Qed.

(** The row of a token is the only one with it. *)
Lemma device_token_inj (s : Store) a b : devices_ok s -> In a s.(NotificationStore.devices) -> In b s.(NotificationStore.devices) ->
  a.(DeviceToken.token) = b.(DeviceToken.token) -> a = b.
Proof.
  intros [[Hnd Hcl] _] Ha Hb E. apply (NoDup_row_id_inj _ _ _ Hnd Ha Hb).
  destruct (String.eqb_spec (row_id a) (row_id b)) as [|Hne]; [assumption|]. exfalso.
  specialize (Hcl a b Ha Hb Hne). cbn [clash DeviceToken_row] in Hcl. rewrite E, String.eqb_refl in Hcl. discriminate.
Qed.

Lemma no_row_with (s : Store) (e : Device) : devices_ok s -> row_id e = "" -> existsb (same_row e) s.(NotificationStore.devices) = false.
Proof.
  intros [_ Hne] He. apply not_true_iff_false. intros (x & Hx & Hid)%existsb_exists. rewrite List.Forall_forall in Hne.
  apply (Hne x Hx). apply same_row_true in Hid. congruence.
Qed.

(** Saving the row of a new token. *)
Lemma new_device_spec u t p (s : Store) :
  devices_ok s ->
  wp (save (DeviceToken.mk "" u t p 0 None))
    (fun r s' => devices_ok s' /\ r.(DeviceToken.userId) = u /\ r.(DeviceToken.token) = t /\
       s'.(NotificationStore.devices) = s.(NotificationStore.devices) ++ [r])
    (fun _ s' => s'.(NotificationStore.devices) = s.(NotificationStore.devices)) s.
Proof.
  intros Hok. apply wp_save; [intros; reflexivity|]. intros e' r He Hr Hv _ Hnew.
  destruct (Hnew (no_row_with s (DeviceToken.mk "" u t p 0 None) Hok eq_refl)) as [Hne Hex].
  split; [eapply (devices_ok_upsert r s); [exact Hok | exact Hne | reflexivity | exact Hv]|].
  destruct Hr; (split; [reflexivity|]; split; [reflexivity|]); cbn [set_rows NotificationStore_devices];
    unfold upsert; rewrite Hex; reflexivity.
Qed.

(** Making room: at most the user's least recently used row goes. *)
Lemma filter_out_length {A} (p q : A -> bool) l a :
  In a l -> p a = true -> q a = false -> (length (List.filter p (List.filter q l)) < length (List.filter p l))%nat.
Proof.
  intros Hin Hp Hq. induction l as [|x l IH]; [destruct Hin|]. cbn [List.filter].
  assert (Hle : (length (List.filter p (List.filter q l)) <= length (List.filter p l))%nat).
  { clear. induction l as [|x l IH]; [reflexivity|]. cbn [List.filter]. destruct (q x); cbn [List.filter]; destruct (p x); cbn [length]; lia. }
  destruct Hin as [->|Hin].
  - rewrite Hq, Hp. cbn [length]. lia.
  - specialize (IH Hin). destruct (q x); cbn [List.filter]; destruct (p x); cbn [length]; lia.
Qed.

(** What a registration leaves. *)
Definition registered (u t : string) (s : Store) (r : Device) (s' : Store) : Prop :=
  devices_ok s' /\ In r s'.(NotificationStore.devices) /\ r.(DeviceToken.userId) = u /\ r.(DeviceToken.token) = t /\
  (forall d, In d s'.(NotificationStore.devices) -> d.(DeviceToken.token) = t -> d = r) /\
  (forall d, In d s.(NotificationStore.devices) -> d.(DeviceToken.token) <> t -> In d s'.(NotificationStore.devices) \/
     (d.(DeviceToken.userId) = u /\ PushNotificationService.MAX_TOKENS_PER_USER <= Z.of_nat (length (devices_of u s)))) /\
  ((forall d, In d s.(NotificationStore.devices) -> d.(DeviceToken.token) <> t) ->
     Z.of_nat (length (devices_of u s')) <= Z.max PushNotificationService.MAX_TOKENS_PER_USER (Z.of_nat (length (devices_of u s)))).

Lemma known_device_spec u t d0 now (s : Store) :
  devices_ok s -> In d0 s.(NotificationStore.devices) -> d0.(DeviceToken.token) = t ->
  wp (save (d0 <| DeviceToken.userId := u |> <| DeviceToken.lastUsedAt := Some now |>))
    (registered u t s) (fun _ s' => s'.(NotificationStore.devices) = s.(NotificationStore.devices)) s.
Proof.
  intros Hok Hin Ht. apply wp_save; [intros; reflexivity|]. intros e1 r He Hr Hv Hup _.
  destruct Hup as [t0 ->]; [apply existsb_exists; exists d0; split; [exact Hin | apply String.eqb_refl]|].
  set (r := touched t0 _) in *. assert (Hid : row_id r = row_id d0) by reflexivity.
  set (s' := set_rows _ _). assert (Hok' : devices_ok s').
  { eapply (devices_ok_upsert r s); [exact Hok | | reflexivity | exact Hv].
    destruct Hok as [_ Hne]. rewrite List.Forall_forall in Hne. rewrite Hid. exact (Hne d0 Hin). }
  assert (Hin' : In r s'.(NotificationStore.devices)) by apply in_upsert_self.
  split; [exact Hok'|]. split; [exact Hin'|]. split; [reflexivity|]. split; [exact Ht|]. split; [|split].
  - intros d Hd Hdt. apply (device_token_inj _ _ _ Hok' Hd Hin'). rewrite Hdt. symmetry. exact Ht.
  - intros d Hd Hdt. left. apply in_upsert_other; [exact Hd|]. rewrite Hid. intros E.
    apply Hdt. rewrite (NoDup_row_id_inj _ d d0 (proj1 (proj1 Hok)) Hd Hin E). exact Ht.
  - intros Hno. exfalso. exact (Hno d0 Hin Ht).
Qed.

Lemma room_made_same u (s s' : Store) : s'.(NotificationStore.devices) = s.(NotificationStore.devices) -> room_made u s s'.
Proof. intros E d Hd. left. rewrite E. exact Hd. Qed.

Lemma devices_ok_same (s s' : Store) : devices_ok s -> s'.(NotificationStore.devices) = s.(NotificationStore.devices) -> devices_ok s'.
Proof. intros [H1 H2] E. split; rewrite E; assumption. Qed.

Lemma make_room_spec u (l : list Device) (s : Store) :
  devices_ok s -> l = PushNotificationService.by_last_use (List.filter (fun d => live d && String.eqb d.(DeviceToken.userId) u) s.(NotificationStore.devices)) ->
  wp (match l with
      | oldest :: _ =>
          if PushNotificationService.MAX_TOKENS_PER_USER <=? Z.of_nat (length l)
          then delete_rows (fun d : Device => String.eqb d.(DeviceToken.id) oldest.(DeviceToken.id)) ;;; ret tt
          else ret tt
      | [] => ret tt
      end)
    (fun _ s' => devices_ok s' /\ room_made u s s' /\
       (forall d, In d s'.(NotificationStore.devices) -> In d s.(NotificationStore.devices)) /\
       Z.of_nat (length (devices_of u s')) + 1 <= Z.max PushNotificationService.MAX_TOKENS_PER_USER (Z.of_nat (length (devices_of u s))))
    (fun _ s' => s'.(NotificationStore.devices) = s.(NotificationStore.devices)) s.
Proof.
  intros Hok Hl. assert (Hlen : length l = length (devices_of u s)) by (rewrite Hl; apply length_by_last_use).
  assert (Hstay : Z.of_nat (length l) < PushNotificationService.MAX_TOKENS_PER_USER -> devices_ok s /\ room_made u s s /\
    (forall d, In d s.(NotificationStore.devices) -> In d s.(NotificationStore.devices)) /\
    Z.of_nat (length (devices_of u s)) + 1 <= Z.max PushNotificationService.MAX_TOKENS_PER_USER (Z.of_nat (length (devices_of u s)))).
  { intros Hlt. split; [exact Hok|]. split; [apply room_made_same; reflexivity|]. split; [auto|]. rewrite <- Hlen. lia. }
  destruct l as [|oldest l']; [apply wp_ret, Hstay; reflexivity|].
  destruct (Z.leb_spec PushNotificationService.MAX_TOKENS_PER_USER (Z.of_nat (length (oldest :: l')))) as [Hge|Hlt]; [|apply wp_ret, Hstay, Hlt].
  assert (Ho : In oldest s.(NotificationStore.devices) /\ oldest.(DeviceToken.userId) = u).
  { assert (Hin : In oldest (oldest :: l')) by (left; reflexivity). rewrite Hl, in_by_last_use in Hin.
    apply filter_In in Hin as [Hin Hu]. apply String.eqb_eq in Hu. auto. }
  destruct Ho as [Ho Hu]. wp_step. wp_step; [reflexivity|]. wp_step.
  match goal with |- devices_ok ?st /\ _ => set (s' := st) end.
  split; [eapply (devices_ok_filter _ s); [exact Hok | reflexivity]|]. split; [|split].
  - intros d Hd. destruct (String.eqb_spec (DeviceToken.id d) (DeviceToken.id oldest)) as [E|Hne].
    + right. rewrite (NoDup_row_id_inj _ d oldest (proj1 (proj1 Hok)) Hd Ho E). split; [exact Hu | rewrite <- Hlen; exact Hge].
    + left. apply filter_In. split; [exact Hd|]. apply String.eqb_neq in Hne. rewrite Hne. reflexivity.
  - intros d [Hd _]%filter_In. exact Hd.
  - assert (Hlt : (length (devices_of u s') < length (devices_of u s))%nat).
    { apply (filter_out_length _ _ _ oldest); [exact Ho | rewrite Hu; apply String.eqb_refl | cbv beta; rewrite String.eqb_refl; reflexivity]. }
    lia.
Qed.

(** A device belongs to who registered it last: after a registration the token
    has one row, the caller's; every other row is kept, except one of the
    caller's own when he had twenty; and a token that is new does not take a user
    beyond twenty.  A failed registration loses no row but that one. *)
Theorem token_has_its_last_registrant u t p (s : Store) :
  devices_ok s ->
  wp (PushNotificationService.registerToken u t p) (registered u t s) (fun _ s' => devices_ok s' /\ room_made u s s') s.
Proof.
  intros Hok. unfold PushNotificationService.registerToken. wp_step.
  wp_step; [split; [exact Hok | apply room_made_same; reflexivity]|].
  destruct (List.find _ _) as [d0|] eqn:Hfind.
  - apply find_live_some in Hfind as (Hin & _ & Ht). apply String.eqb_eq in Ht. cbn beta iota. wp_step. wp_step.
    eapply wp_mono; [apply (known_device_spec u t d0); [exact Hok | exact Hin | exact Ht] | auto |].
    intros x s1 E. split; [apply (devices_ok_same s); assumption | apply room_made_same, E].
  - cbn beta iota. wp_step. wp_step; [split; [exact Hok | apply room_made_same; reflexivity]|]. cbv zeta. wp_step.
    eapply wp_mono; [apply (make_room_spec u); [exact Hok | reflexivity] | |
      intros x s1 E; split; [apply (devices_ok_same s); assumption | apply room_made_same, E]].
    intros [] s1 (Hok1 & Hroom & Hsub & Hcount).
    eapply wp_mono; [apply (new_device_spec u t p s1 Hok1) | |
      intros x s2 E; split; [apply (devices_ok_same s1); assumption | intros d Hd; rewrite E; exact (Hroom d Hd)]].
    intros r s2 (Hok2 & Hu & Ht & E). split; [exact Hok2|]. assert (Hin : In r s2.(NotificationStore.devices)) by (rewrite E; apply in_or_app; right; left; reflexivity).
    split; [exact Hin|]. split; [exact Hu|]. split; [exact Ht|]. split; [|split].
    + intros d Hd Hdt. apply (device_token_inj _ _ _ Hok2 Hd Hin). congruence.
    + intros d Hd _. destruct (Hroom d Hd) as [H1|H1]; [left; rewrite E; apply in_or_app; left; exact H1 | right; exact H1].
    + intros _. unfold devices_of at 1. rewrite E, List.filter_app, length_app. cbn [List.filter]. rewrite Hu, String.eqb_refl. cbn [length].
      rewrite Nat2Z.inj_add. exact Hcount.
Qed.

(** ** Alerts *)

Section Alerts.
Context `{CS : ConfigService} `{RX : Radix36}.
Variables (node_env_test : bool) (MAIL_FROM : option string).
Local Notation window := (AdminAlertService.rateLimitMinutes * 60000).
Local Notation sendAlert := (AdminAlertService.sendAlert node_env_test MAIL_FROM).

(** Every reading of the clock from [e] on is in the window that begins at
    [t0]. *)
Definition readings_within (t0 : Z) (e : Env) : Prop :=
  forall n, (tick e <= n)%nat -> t0 <= clock e n < t0 + window.

Definition sent (s : Store) : nat := length (outbox (env_of s)).

(** An alert of type [ty] has gone out (or its key was set) in this window. *)
Definition muted (ty : string) (t0 : Z) (s : Store) : Prop :=
  exists expires, In (AdminAlertService.cache_key ty, expires) s.(NotificationStore.cache) /\ t0 + window <= expires.

Lemma readings_later t0 e e' : clock e' = clock e -> (tick e <= tick e')%nat -> readings_within t0 e -> readings_within t0 e'.
Proof. intros Hc Ht H n Hn. rewrite Hc. apply H. lia. Qed.

Lemma muted_cached ty t0 now s : muted ty t0 s -> now < t0 + window ->
  AdminAlertService.cached (AdminAlertService.cache_key ty) now s.(NotificationStore.cache) = true.
Proof.
  intros (ex & Hin & Hex) Hnow. apply existsb_exists. exists (AdminAlertService.cache_key ty, ex). split; [exact Hin|].
  rewrite String.eqb_refl. apply Z.ltb_lt. lia.
Qed.

(** Before an alert has gone out, and after. *)
Definition quiet_or_muted (ty : string) (t0 : Z) (n : nat) (s : Store) : Prop :=
  readings_within t0 (env_of s) /\ (sent s = n \/ (muted ty t0 s /\ (sent s <= n + 2)%nat)).

Lemma quiet_or_muted_env ty t0 n s e : env_step (env_of s) e -> quiet_or_muted ty t0 n s -> quiet_or_muted ty t0 n (set_env e s).
Proof.
  intros He [Hr H]. split.
  - apply (readings_later t0 (env_of s)); [exact (es_clock _ _ He) | exact (es_tick _ _ He) | exact Hr].
  - unfold sent in *. rewrite env_of_set_env, (es_outbox _ _ He). exact H.
Qed.

Lemma isRateLimited_spec ty t0 n (s : Store) :
  quiet_or_muted ty t0 n s ->
  wp (AdminAlertService.isRateLimited ty)
    (fun limited s' => if limited then quiet_or_muted ty t0 n s'
                       else readings_within t0 (env_of s') /\ muted ty t0 s' /\ sent s' = n)
    (fun _ s' => quiet_or_muted ty t0 n s') s.
Proof.
  intros Hq. unfold AdminAlertService.isRateLimited. cbv zeta.
  wp_step. wp_step; [apply quiet_or_muted_env; assumption|]. wp_step. apply wp_date_now_exact. env_norm.
  assert (H1 : quiet_or_muted ty t0 n (set_env (next_tick e') s))
    by (apply quiet_or_muted_env; [etransitivity; [eassumption | apply next_tick_step] | exact Hq]).
  assert (Hnow : clock e' (tick e') < t0 + window).
  { assert (Hr : readings_within t0 e') by (apply (quiet_or_muted_env ty t0 n s e'); assumption). apply (Hr (tick e')). lia. }
  wp_step. wp_step. destruct (AdminAlertService.cached _ _ _) eqn:Hcached; [wp_step; exact H1|].
  assert (Hsent : sent s = n).
  { destruct Hq as [_ [E|[Hm _]]]; [exact E|]. exfalso.
    pose proof (muted_cached ty t0 _ s Hm Hnow) as Hc. exact (eq_true_false_abs _ Hc Hcached). }
  wp_step.
  wp_step; [apply quiet_or_muted_env; [etransitivity; [eassumption | etransitivity; [apply next_tick_step | assumption]] | exact Hq]|].
  wp_step. apply wp_date_now_exact. env_norm. wp_step. wp_step. wp_step.
  match goal with H : env_step (next_tick e') ?e |- _ => rename H into H2; rename e into e2 end.
  assert (H3 : readings_within t0 e2).
  { apply (readings_later t0 (next_tick e')); [exact (es_clock _ _ H2) | exact (es_tick _ _ H2) | exact (proj1 H1)]. }
  split; [|split].
  - apply (readings_later t0 e2); [reflexivity | simpl; lia | exact H3].
  - eexists. split; [left; reflexivity|]. specialize (H3 (tick e2) (Nat.le_refl _)). lia.
  - unfold sent. change (length (outbox e2) = n). rewrite (es_outbox _ _ H2).
    match goal with H : env_step (env_of s) e' |- _ => pose proof (es_outbox _ _ H) as Ho end.
    unfold sent in Hsent. rewrite <- Hsent. f_equal. exact Ho.
Qed.

(** A message at most: what comes after the key was set. *)
Lemma muted_env ty t0 s e : muted ty t0 s -> muted ty t0 (set_env e s).
Proof. exact id. Qed.

Definition sent_at_most (k : nat) (ty : string) (t0 : Z) (n : nat) (s : Store) : Prop :=
  readings_within t0 (env_of s) /\ muted ty t0 s /\ (sent s <= n + k)%nat.

Lemma message_spec k ty t0 n name payload (s : Store) :
  sent_at_most k ty t0 n s ->
  wp (db_call ;;; emit name payload) (fun _ => sent_at_most (S k) ty t0 n) (fun _ => sent_at_most (S k) ty t0 n) s.
Proof.
  intros (Hr & Hm & Hs). assert (He : forall e, env_step (env_of s) e ->
    readings_within t0 e /\ length (outbox e) = sent s).
  { intros e H. split; [|unfold sent; rewrite (es_outbox _ _ H); reflexivity].
    apply (readings_later t0 (env_of s)); [exact (es_clock _ _ H) | exact (es_tick _ _ H) | exact Hr]. }
  wp_step. wp_step.
  - destruct (He _ ltac:(eassumption)) as [Hr' Ho]. split; [exact Hr'|]. split; [exact Hm|]. unfold sent. change (length (outbox e') <= n + S k)%nat. lia.
  - apply wp_emit. destruct (He _ ltac:(eassumption)) as [Hr' Ho]. split; [exact Hr'|]. split; [exact Hm|].
    unfold sent. change (length (outbox e' ++ [(name, payload)]) <= n + S k)%nat. rewrite length_app. cbn [length]. lia.
Qed.

Lemma sent_at_most_mono k k' ty t0 n s : (k <= k')%nat -> sent_at_most k ty t0 n s -> sent_at_most k' ty t0 n s.
Proof. intros Hk (Hr & Hm & Hs). split; [exact Hr|]. split; [exact Hm | lia]. Qed.

Lemma sendAlert_spec payload t0 n (s : Store) :
  quiet_or_muted (al_type payload) t0 n s ->
  wp (sendAlert payload) (fun _ => quiet_or_muted (al_type payload) t0 n) (fun _ => quiet_or_muted (al_type payload) t0 n) s.
Proof.
  intros Hq. unfold AdminAlertService.sendAlert. wp_step.
  eapply wp_mono; [apply (isRateLimited_spec _ t0 n s Hq) | | auto].
  intros [] s1 H1; [wp_step; exact H1|]. destruct H1 as (Hr & Hm & Hs).
  assert (H1 : sent_at_most 0 (al_type payload) t0 n s1) by (split; [exact Hr | split; [exact Hm | lia]]).
  assert (Hdone : forall s', sent_at_most 2 (al_type payload) t0 n s' -> quiet_or_muted (al_type payload) t0 n s')
    by (intros s' (Hr' & Hm' & Hs'); split; [exact Hr' | right; auto]).
  wp_step. eapply wp_mono with (Q := fun _ => sent_at_most 1 (al_type payload) t0 n) (X := fun _ _ => False); [| |intros x s' []].
  - destruct AdminAlertService.alertEmail as [email|]; [|wp_step; eapply sent_at_most_mono; [|exact H1]; lia].
    destruct (str_truthy email); [|wp_step; eapply sent_at_most_mono; [|exact H1]; lia].
    apply wp_bind, wp_attempt. unfold AdminAlertService.sendAdminAlert.
    destruct node_env_test; [do 2 apply wp_ret; eapply sent_at_most_mono; [|exact H1]; lia|].
    apply wp_bind, wp_attempt. eapply wp_mono; [apply (message_spec 0); exact H1 | |]; intros; do 2 apply wp_ret; assumption.
  - intros [] s2 H2. destruct AdminAlertService.slackWebhookUrl as [url|]; [|wp_step; eapply Hdone, sent_at_most_mono; [|exact H2]; lia].
    destruct (str_truthy url); [|wp_step; eapply Hdone, sent_at_most_mono; [|exact H2]; lia].
    apply wp_bind, wp_attempt. eapply wp_mono; [apply (message_spec 1); exact H2 | |]; intros; apply wp_ret, Hdone; assumption.
Qed.

(** Administrators are not flooded: however many alerts of one type are
    raised within the window that begins at the first reading of the clock, at
    most one mail and one message to Slack go out. *)
Theorem alerts_are_rate_limited ty payloads t0 (s : Store) :
  readings_within t0 (env_of s) -> List.Forall (fun p => al_type p = ty) payloads ->
  wp (for_each payloads (fun p => attempt (sendAlert p) ;;; ret tt))
    (fun _ s' => (length (outbox (env_of s')) <= length (outbox (env_of s)) + 2)%nat) (fun _ _ => False) s.
Proof.
  intros Hr Hty. assert (Hgoal : forall s0, quiet_or_muted ty t0 (sent s) s0 ->
    wp (for_each payloads (fun p => attempt (sendAlert p) ;;; ret tt)) (fun _ => quiet_or_muted ty t0 (sent s)) (fun _ _ => False) s0).
  { generalize (sent s) as n. intros n. clear Hr s. induction Hty as [|p l Hp _ IH]; intros s0 Hq; cbn [for_each]; [apply wp_ret; exact Hq|].
    apply wp_bind, wp_bind, wp_attempt. subst ty.
    eapply wp_mono; [apply (sendAlert_spec p t0 n s0 Hq) | |]; intros ? s1 H1; apply wp_ret, IH, H1. }
  eapply wp_mono; [apply Hgoal; split; [exact Hr | left; reflexivity] | | auto].
  intros [] s1 [_ [E|[_ E]]]; unfold sent in E; lia.
Qed.
End Alerts.

(** ** Worked examples *)

Definition empty_notifications (e : Env) : Store := NotificationStore.mk e [] [] [] [].

Definition no_alerts_config : ConfigService := {|
  config_number _ := None;
  config_string k := if String.eqb k "ADMIN_ALERT_EMAIL" then Some "ops@nexafx.example" else None;
  config_bool _ := None; config_list _ := None
|}.

(** A device that changes hands does not count against its new owner's limit:
    bob has twenty devices and registers the one alice had. *)
Definition device (n : nat) (user : string) : Device :=
  let s := string_of_Z (Z.of_nat n) in DeviceToken.mk ("d" +:+ s) user ("t" +:+ s) DevicePlatform.ANDROID 1 None.
Example a_device_taken_over_is_the_twenty_first :
  let s := NotificationStore.mk demo_env [] (device 0 "alice" :: map (fun n => device n "bob") (seq 1 20)) [] [] in
  length (devices_of "bob" (PushNotificationService.registerToken "bob" "t0" DevicePlatform.ANDROID s).2) = 21%nat.
Proof. vm_compute. reflexivity. Qed.

(** A device that was never used is kept, the one used last goes. *)
Example the_used_device_is_evicted :
  let used := (device 1 "bob") <| DeviceToken.lastUsedAt := Some 1700000000000 |> in
  let s := NotificationStore.mk demo_env [] (used :: map (fun n => device n "bob") (seq 2 19)) [] [] in
  existsb (fun d => String.eqb d.(DeviceToken.id) "d1")
    (PushNotificationService.registerToken "bob" "new" DevicePlatform.ANDROID s).2.(NotificationStore.devices) = false.
Proof. vm_compute. reflexivity. Qed.

Lemma preferences_are_a_map_witness :
  wp (NotificationPreferencesService.updatePreferences "ada"
        [mkPreferenceDto NC.EMAIL NE.PROMOTIONAL false; mkPreferenceDto NC.EMAIL NE.SECURITY true])
    (fun _ s' => enabled s' "ada" NC.EMAIL NE.PROMOTIONAL = false /\ enabled s' "ada" NC.SMS NE.PROMOTIONAL = true)
    (fun _ _ => True) (empty_notifications demo_env).
Proof.
  eapply wp_mono; [apply (preferences_are_a_map "ada" _ (fun _ _ _ => true) (empty_notifications demo_env)) | |].
  - split; [split; [constructor | intros a b []] | constructor].
  - intros u c e. reflexivity.
  - intros l s' [_ H]. split; rewrite H; reflexivity.
  - auto.
Defined.

Lemma token_has_its_last_registrant_witness :
  wp (PushNotificationService.registerToken "bob" "tok" DevicePlatform.ANDROID)
    (fun r _ => r.(DeviceToken.userId) = "bob") (fun _ _ => True)
    (NotificationStore.mk demo_env [] [DeviceToken.mk "d1" "alice" "tok" DevicePlatform.IOS 1 None] [] []).
Proof.
  eapply wp_mono; [apply token_has_its_last_registrant | |].
  - split; [split; [apply NoDup_singleton | intros a b [<-|[]] [<-|[]] Hne; congruence] | constructor; [discriminate | constructor]].
  - intros r s' (_ & _ & H & _). exact H.
  - auto.
Defined.

Definition alert (title : string) : AdminAlertPayload := mkAlert "account-lockout" "high" title "Account locked" None.

Lemma alerts_are_rate_limited_witness :
  wp (for_each [alert "one"; alert "two"; alert "three"]
        (fun p => attempt (AdminAlertService.sendAlert (H:=no_alerts_config) false None p) ;;; ret tt))
    (fun _ s' => (length (outbox (env_of s')) <= 2)%nat) (fun _ _ => False)
    (empty_notifications (mkEnv (fun _ => 5) 0 (fun _ => None) 0 (uuid demo_env) 0 (rnd demo_env) 0 [])).
Proof.
  apply (alerts_are_rate_limited (CS:=no_alerts_config) false None "account-lockout" [alert "one"; alert "two"; alert "three"] 5).
  - intros n _. split; [apply Z.le_refl | reflexivity].
  - repeat constructor.
Defined.
