(* ===== verification/Mail.v ===== *)
(** mail/: the templates and their cache, the sanitizing of what users wrote
    (common/decorators/sanitize.decorator.ts), and the mails MailService renders
    and sends.  Handlebars is a parameter with the documented behaviour of its
    expressions. *)
From S2P Require Import Prelude JsNumber NumberLaws Effects RepositoryLaws JsData Json ThirdParty.
Local Open Scope Z_scope.

(** ** Sanitizing *)

(** The first pattern: an opening script tag, in any case, through the first
    closing one, if there is one. *)
Definition word_char (c : ascii) : bool :=
  let n := nat_of_ascii c in
  ((48 <=? n) && (n <=? 57) || (65 <=? n) && (n <=? 90) || (97 <=? n) && (n <=? 122) || (n =? 95))%nat.
Definition word_follows (s : string) : bool := match s with String c _ => word_char c | EmptyString => false end.
Definition script_length (s : string) : option nat :=
  let l := toLowerCase s in
  if starts_with "<script" l && negb (word_follows (String.substring 7 1 s)) then
    option_map (fun i => i + 9)%nat (String.index 0 "</script>" l)
  else None.

(** Each leftmost match of a pattern, of the length it has there, is replaced;
    [skip] characters belong to the last one. *)
Fixpoint replace_matches (len : string -> option nat) (by_ : string) (skip : nat) (s : string) : string :=
  match s with
  | EmptyString => ""
  | String c r =>
      match skip with
      | S k => replace_matches len by_ k r
      | O => match len s with
             | Some (S n) => by_ +:+ replace_matches len by_ n r
             | _ => String c (replace_matches len by_ 0 r)
             end
      end
  end.

(** The second, a whole tag: what was read since an angle bracket is kept if none closes it. *)
Fixpoint remove_tags (pending : option string) (s : string) : string :=
  match s, pending with
  | EmptyString, None => ""
  | EmptyString, Some p => p
  | String c r, Some p => if Ascii.eqb c ">" then remove_tags None r else remove_tags (Some (p +:+ String c "")) r
  | String c r, None => if Ascii.eqb c "<" then remove_tags (Some "<") r else String c (remove_tags None r)
  end.

(** The third, a space that does not break. *)
Definition nbsp_length (s : string) : option nat := if starts_with "&nbsp;" (toLowerCase s) then Some 6%nat else None.

Definition sanitizeText (value : string) : string :=
  trim (replace_matches nbsp_length " " 0 (remove_tags None (replace_matches script_length "" 0 value))).

(** The transformation of a decorated property. *)
Definition Sanitize (value : json) : json := match value with JStr s => JStr (sanitizeText s) | v => v end.

(** ** Templates *)

Inductive piece : Type :=
  | Text (s : string)
  | Escaped (k : string)
  | Raw (k : string).

(** A tilde stands for the double quote. *)
Definition html (s : string) : string := map_string (fun c => if Ascii.eqb c "~" then ascii_of_nat 34 else c) s.

Definition braces (n : nat) (c : string) : string := string_repeat c n.
Definition source_of (ps : list piece) : string :=
  String.concat "" (map (fun p => match p with
    | Text s => s
    | Escaped k => braces 2 "{" +:+ k +:+ braces 2 "}"
    | Raw k => braces 3 "{" +:+ k +:+ braces 3 "}"
    end) ps).

Definition base : list piece :=
  [Text (html "<!DOCTYPE html>
<html>
  <head>
    <meta charset=~UTF-8~ />
    <title>");
   Escaped "title";
   Text (html "</title>
  </head>
  <body style=~margin:0;padding:0;background:#f5f7fb;font-family:Arial,sans-serif;color:#202124;~>
    <table width=~100%~ cellpadding=~0~ cellspacing=~0~ role=~presentation~>
      <tr>
        <td align=~center~ style=~padding:24px 0;~>
          <table width=~600~ cellpadding=~0~ cellspacing=~0~ role=~presentation~ style=~background:#ffffff;border-radius:12px;overflow:hidden;box-shadow:0 0 20px rgba(0,0,0,0.08);~>
            <tr>
              <td style=~background:#0b5fff;color:#ffffff;padding:24px;text-align:center;~>
                <h1 style=~margin:0;font-size:24px;letter-spacing:0.5px;~>NexaFx</h1>
                <p style=~margin:8px 0 0;font-size:14px;opacity:0.88;~>Secure financial services</p>
              </td>
            </tr>
            <tr>
              <td style=~padding:24px;~>
                ");
   Raw "body";
   Text (html "
              </td>
            </tr>
            <tr>
              <td style=~background:#f4f7fb;color:#6f7380;padding:16px;text-align:center;font-size:12px;~>
                &copy; ");
   Escaped "year";
   Text (html " NexaFx. All rights reserved.
              </td>
            </tr>
          </table>
        </td>
      </tr>
    </table>
  </body>
</html>
")].
Definition email_verification_en : list piece :=
  [Text (html "<h2 style=~margin-top:0;color:#0b5fff;~>Verify your email address</h2>
<p style=~margin:0 0 16px;line-height:1.6;~>Hi ");
   Escaped "fullName";
   Text (html ",</p>
<p style=~margin:0 0 16px;line-height:1.6;~>Use the verification code below to confirm your NexaFx account. This code expires in ");
   Escaped "expiresMinutes";
   Text (html " minutes.</p>
<div style=~display:inline-block;padding:16px 20px;background:#f4f7fb;border-radius:8px;font-size:20px;font-weight:700;color:#0b5fff;~>");
   Escaped "verificationCode";
   Text (html "</div>
<p style=~margin:24px 0 0;line-height:1.6;~>If you did not request this code, please ignore this message.</p>
")].
Definition email_verification_fr : list piece :=
  [Text (html "<h2 style=~margin-top:0;color:#0b5fff;~>Vérifiez votre adresse e-mail</h2>
<p style=~margin:0 0 16px;line-height:1.6;~>Bonjour ");
   Escaped "fullName";
   Text (html ",</p>
<p style=~margin:0 0 16px;line-height:1.6;~>Utilisez le code de vérification ci-dessous pour confirmer votre compte NexaFx. Ce code expire dans ");
   Escaped "expiresMinutes";
   Text (html " minutes.</p>
<div style=~display:inline-block;padding:16px 20px;background:#f4f7fb;border-radius:8px;font-size:20px;font-weight:700;color:#0b5fff;~>");
   Escaped "verificationCode";
   Text (html "</div>
<p style=~margin:24px 0 0;line-height:1.6;~>Si vous n'avez pas demandé ce code, veuillez ignorer ce message.</p>
")].
Definition password_reset : list piece :=
  [Text (html "<h2 style=~margin-top:0;color:#0b5fff;~>Password reset request</h2>
<p style=~margin:0 0 16px;line-height:1.6;~>Hi ");
   Escaped "fullName";
   Text (html ",</p>
<p style=~margin:0 0 16px;line-height:1.6;~>Click the button below to reset your NexaFx password. The link will remain valid for a limited time.</p>
<p style=~margin:0 0 24px;~><a href=~");
   Escaped "resetUrl";
   Text (html "~ style=~display:inline-block;padding:12px 20px;background:#0b5fff;color:#ffffff;border-radius:8px;text-decoration:none;~>Reset password</a></p>
<p style=~margin:0;line-height:1.6;~>If you did not request a password reset, you can safely ignore this email.</p>
")].
Definition transaction_confirmation : list piece :=
  [Text (html "<h2 style=~margin-top:0;color:#0b5fff;~>Transaction confirmed</h2>
<p style=~margin:0 0 16px;line-height:1.6;~>Hi ");
   Escaped "fullName";
   Text (html ",</p>
<p style=~margin:0 0 16px;line-height:1.6;~>Your transaction has been processed successfully.</p>
<table width=~100%~ cellpadding=~0~ cellspacing=~0~ role=~presentation~ style=~border-collapse:collapse;margin-bottom:16px;~>
  <tr>
    <td style=~padding:8px 0;font-weight:700;~>Transaction ID</td>
    <td style=~padding:8px 0;text-align:right;~>");
   Escaped "transactionId";
   Text (html "</td>
  </tr>
  <tr>
    <td style=~padding:8px 0;font-weight:700;~>Date</td>
    <td style=~padding:8px 0;text-align:right;~>");
   Escaped "date";
   Text (html "</td>
  </tr>
  <tr>
    <td style=~padding:8px 0;font-weight:700;~>Amount</td>
    <td style=~padding:8px 0;text-align:right;~>");
   Escaped "amount";
   Text (html "</td>
  </tr>
  <tr>
    <td style=~padding:8px 0;font-weight:700;~>Status</td>
    <td style=~padding:8px 0;text-align:right;~>");
   Escaped "status";
   Text (html "</td>
  </tr>
</table>
<p style=~margin:0 0 16px;line-height:1.6;~>Details: ");
   Escaped "description";
   Text (html "</p>
<p style=~margin:0;line-height:1.6;~>Thank you for using NexaFx.</p>
")].
Definition welcome : list piece :=
  [Text (html "<h2 style=~margin-top:0;color:#0b5fff;~>Welcome to NexaFx</h2>
<p style=~margin:0 0 16px;line-height:1.6;~>Hi ");
   Escaped "fullName";
   Text (html ",</p>
<p style=~margin:0 0 16px;line-height:1.6;~>Your NexaFx account is ready. Start managing your transactions, balances, and insights from a single secure dashboard.</p>
<p style=~margin:0;line-height:1.6;~>If you need anything, our team is available around the clock.</p>
")].

(** The directory templates. *)
Definition templates : list (string * list piece) :=
  [("base.hbs", base);
   ("email-verification.en.hbs", email_verification_en);
   ("email-verification.fr.hbs", email_verification_fr);
   ("password-reset.hbs", password_reset);
   ("transaction-confirmation.hbs", transaction_confirmation);
   ("welcome.hbs", welcome)].

(** ** Handlebars *)

Class Handlebars : Type := {
  TemplateDelegate : Type;
  compile : string -> TemplateDelegate;
  run : TemplateDelegate -> list (string * json) -> string;
  escapeExpression : string -> string
}.

Definition written (v : json) : string :=
  match v with JStr s => s | JNum n => num_to_string n | _ => "" end.
Definition printable (v : json) : bool := match v with JStr _ | JNum _ | JUndefined => true | _ => false end.
Definition member (k : string) (context : list (string * json)) : json := default JUndefined (obj_get k context).

Definition readable (p : piece) : bool :=
  match p with
  | Text s => no_char "{" s
  | Escaped k | Raw k => str_truthy k && no_char "{" k && no_char "}" k
  end.
(** No character opens or closes a tag or an attribute. *)
Definition harmless (c : ascii) : bool :=
  negb (existsb (Ascii.eqb c) ["<"%char; ">"%char; ascii_of_nat 34; "'"%char; "`"%char]).
Section Shown.
Context `{Handlebars}.
Definition shown (context : list (string * json)) (p : piece) : string :=
  match p with
  | Text s => s
  | Escaped k => escapeExpression (written (member k context))
  | Raw k => written (member k context)
  end.
End Shown.

(** What the documentation says of expressions without helpers: two braces
    escape, three do not. *)
Class HandlebarsLaws `{Handlebars} : Prop := {
  run_law ps context : forallb readable ps = true -> forallb (fun kv => printable kv.2) context = true ->
    run (compile (source_of ps)) context = String.concat "" (map (shown context) ps);
  escape_law s : all_chars harmless (escapeExpression s) = true
}.

(** ** MailService *)

Module MailStore.
Record MailStore `{Handlebars} : Type := mk {
  env : Env;
  cache : list (string * TemplateDelegate)
}.
Definition set_cache `{Handlebars} (c : list (string * TemplateDelegate)) (s : MailStore) : MailStore :=
  mk _ (env s) c.
End MailStore.
Notation Store := MailStore.MailStore.

#[export] Program Instance mail_env `{Handlebars} : HasEnv Store := {|
  env_of := MailStore.env;
  set_env e s := MailStore.mk _ e (MailStore.cache s)
|}.
Solve All Obligations with (intros; repeat match goal with s : Store |- _ => destruct s end; reflexivity).

Record EmailVerificationTemplateDto : Type := mkEmailVerification { ev_fullName : string; verificationCode : string; expiresMinutes : option num }.
Record PasswordResetTemplateDto : Type := mkPasswordReset { pr_fullName : string; resetUrl : string }.
Record TransactionConfirmationTemplateDto : Type := mkTransactionConfirmation {
  tc_fullName : string; description : string; amount : string; status : string; transactionId : string; date : string
}.
Record WelcomeTemplateDto : Type := mkWelcome { w_fullName : string }.
Record AdminAlertEmail : Type := mkAdminAlert { aa_to : string; subject : string; body : string; metadata : option json }.

Module MailService.
Definition DEFAULT_LANGUAGE : string := "en".

Section Service.
Context `{HB : Handlebars}.

(** A language is a name without separators of paths. *)
Definition existsSync (name : string) : bool := existsb (fun e => String.eqb e.1 name) templates.
Definition readFileSync (name : string) : M Store string :=
  match map_get name templates with
  | Some ps => ret (source_of ps)
  | None => throw (PlainError ("ENOENT: no such file or directory, open '" +:+ name +:+ "'"))
  end.

Definition cached (key : string) (load : M Store TemplateDelegate) : M Store TemplateDelegate :=
  let* found := gets (fun s => map_get key s.(MailStore.cache)) in
  match found with
  | Some template => ret template
  | None =>
      let* template := load in
      modify (fun s => MailStore.set_cache (map_set key template s.(MailStore.cache)) s) ;;;
      ret template
  end.

Definition compileTemplate (name : string) : M Store TemplateDelegate :=
  let* source := readFileSync (name +:+ ".hbs") in
  ret (compile source).

Definition getTemplate (name : string) : M Store TemplateDelegate := cached name (compileTemplate name).

Definition localized_file (name language : string) : string :=
  let localizedPath := name +:+ "." +:+ language +:+ ".hbs" in
  if existsSync localizedPath then localizedPath else name +:+ "." +:+ DEFAULT_LANGUAGE +:+ ".hbs".

(** The localized template, or the English one. *)
Definition getLocalizedTemplate (name language : string) : M Store TemplateDelegate :=
  cached (name +:+ "." +:+ language)
    (let* source := readFileSync (localized_file name language) in
     ret (compile source)).

Definition fill_base (title body : string) : M Store string :=
  let* baseTemplate := getTemplate "base" in
  let* now := date_now in
  ret (run baseTemplate [("title", JStr title); ("year", JNum (num_of_Z (getFullYear now))); ("body", JStr body)]).

(** Every caller's context has a title. *)
Definition render (templateName title : string) (context : list (string * json)) : M Store string :=
  let* bodyTemplate := getTemplate templateName in
  let* baseTemplate := getTemplate "base" in
  let body := run bodyTemplate (("title", JStr title) :: context) in
  let* now := date_now in
  ret (run baseTemplate [("title", JStr title); ("year", JNum (num_of_Z (getFullYear now))); ("body", JStr body)]).

Definition renderEmailVerification (payload : EmailVerificationTemplateDto) (language : string) : M Store string :=
  let* template := getLocalizedTemplate "email-verification" language in
  let body := run template
    [("fullName", Sanitize (JStr (ev_fullName payload))); ("verificationCode", Sanitize (JStr (verificationCode payload)));
     ("expiresMinutes", JNum (default (num_of_Z 10) (expiresMinutes payload)))] in
  fill_base "Verify your NexaFx account" body.

Definition renderPasswordReset (payload : PasswordResetTemplateDto) : M Store string :=
  render "password-reset" "Reset your NexaFx password"
    [("fullName", Sanitize (JStr (pr_fullName payload))); ("resetUrl", Sanitize (JStr (resetUrl payload)))].

Definition renderTransactionConfirmation (payload : TransactionConfirmationTemplateDto) : M Store string :=
  render "transaction-confirmation" "Transaction confirmed"
    [("fullName", Sanitize (JStr (tc_fullName payload))); ("description", Sanitize (JStr (description payload)));
     ("amount", JStr (amount payload)); ("status", JStr (status payload)); ("transactionId", JStr (transactionId payload));
     ("date", JStr (date payload))].

Definition renderWelcome (payload : WelcomeTemplateDto) : M Store string :=
  render "welcome" "Welcome to NexaFx" [("fullName", Sanitize (JStr (w_fullName payload)))].
End Service.

(** ** Mails written in the code *)

Section Sending.
Context `{HB : Handlebars} (node_env_test : bool) (MAIL_FROM : option string).

(** The transport's failures are logged. *)
Definition send (to subject html : string) : M Store unit :=
  if node_env_test then ret tt
  else
    attempt
      (db_call ;;;
       emit "mail.sendMail" (JObj [("from", jopt MAIL_FROM); ("to", JStr to); ("subject", JStr subject); ("html", JStr html)])) ;;;
    ret tt.

Definition sendVerificationOtp (email otp : string) : M Store unit :=
  send email "Verify your NexaFx email"
    ("<p>Your verification code is: <strong>" +:+ otp +:+ "</strong></p><p>This code expires in 5 minutes.</p>").

(** [JSON.stringify(value, null, 2)]. *)
Fixpoint pretty (pad : string) (j : json) : string :=
  let nl := String (ascii_of_nat 10) "" in
  let inner := pad +:+ "  " in
  match j with
  | JArr [] => "[]"
  | JArr l => "[" +:+ nl +:+ join ("," +:+ nl) (map (fun x => inner +:+ pretty inner x) l) +:+ nl +:+ pad +:+ "]"
  | JObj o =>
      match flat_map (fun '(k, v) =>
              match v with JUndefined => [] | _ => [inner +:+ json_quoted k +:+ ": " +:+ pretty inner v] end) o with
      | [] => "{}"
      | ms => "{" +:+ nl +:+ join ("," +:+ nl) ms +:+ nl +:+ pad +:+ "}"
      end
  | _ => stringify j
  end.

Definition alert_html (payload : AdminAlertEmail) : string :=
  "<h2>" +:+ subject payload +:+ "</h2><p>" +:+ body payload +:+ "</p>" +:+
  match metadata payload with Some m => "<pre>" +:+ pretty "" m +:+ "</pre>" | None => "" end.

Definition sendAdminAlert (payload : AdminAlertEmail) : M Store unit := send (aa_to payload) (subject payload) (alert_html payload).
End Sending.
End MailService.

(** ** What is sanitized *)

(** No angle bracket is closed after it was opened. *)
Fixpoint no_tag (s : string) : bool :=
  match s with EmptyString => true | String c r => (negb (Ascii.eqb c "<") || no_char ">" r) && no_tag r end.

Lemma no_close_no_tag s : no_char ">" s = true -> no_tag s = true.
Proof.
  induction s as [|c s IH]; [reflexivity|]. cbn [no_char no_tag]. intros [_ Hs]%andb_true_iff. now rewrite Hs, IH, orb_true_r.
Qed.

Lemma no_char_append c s t : no_char c (s +:+ t) = no_char c s && no_char c t.
Proof.
  induction s as [|a s IH]; [reflexivity|]. change (String a s +:+ t) with (String a (s +:+ t)). cbn [no_char]. now rewrite IH, andb_assoc.
Qed.

Lemma no_tag_append s t : no_tag (s +:+ t) = true -> no_tag s = true /\ no_tag t = true.
Proof.
  induction s as [|a s IH]; [now split|]. change (String a s +:+ t) with (String a (s +:+ t)). cbn [no_tag].
  intros [Ha Hs]%andb_true_iff. destruct (IH Hs) as [H1 H2]. split; [|exact H2]. rewrite H1, andb_true_r.
  rewrite no_char_append in Ha. apply orb_true_iff in Ha as [Ha|Ha]; [now rewrite Ha|]. apply andb_true_iff in Ha as [Ha _]. now rewrite Ha, orb_true_r.
Qed.

Lemma remove_tags_no_tag s : no_tag (remove_tags None s) = true /\
  forall p, no_char ">" p = true -> no_tag (remove_tags (Some p) s) = true.
Proof.
  induction s as [|c s [IH1 IH2]]; cbn [remove_tags]; [split; [reflexivity|]; intros p; apply no_close_no_tag|]. split.
  - destruct (Ascii.eqb c "<") eqn:Hc; [now apply IH2|]. cbn [no_tag]. now rewrite Hc, IH1.
  - intros p Hp. destruct (Ascii.eqb c ">") eqn:Hc; [exact IH1|]. apply IH2. rewrite no_char_append, Hp. cbn [no_char]. now rewrite Hc.
Qed.

(** Matches that are replaced by a space bring no angle bracket. *)
Lemma replace_no_close len s : forall skip, no_char ">" s = true -> no_char ">" (replace_matches len " " skip s) = true.
Proof.
  induction s as [|c s IH]; intros skip Hs; [reflexivity|]. cbn [no_char replace_matches] in *. apply andb_true_iff in Hs as [Hc Hs].
  destruct skip as [|k]; [|now apply IH]. destruct (len _) as [[|n]|]; [| |]; cbn [no_char]; rewrite ?Hc; now apply IH.
Qed.
Lemma replace_no_tag len s : forall skip, no_tag s = true -> no_tag (replace_matches len " " skip s) = true.
Proof.
  induction s as [|c s IH]; intros skip Hs; [reflexivity|]. cbn [no_tag replace_matches] in *. apply andb_true_iff in Hs as [Hc Hs].
  assert (Hkeep : no_tag (String c (replace_matches len " " 0 s)) = true).
  { cbn [no_tag]. rewrite (IH 0%nat Hs), andb_true_r. apply orb_true_iff in Hc as [Hc|Hc]; [now rewrite Hc|].
    now rewrite (replace_no_close _ _ 0%nat Hc), orb_true_r. }
  destruct skip as [|k]; [|now apply IH]. destruct (len _) as [[|n]|]; [exact Hkeep| |exact Hkeep].
  change (" " +:+ replace_matches len " " n s) with (String " " (replace_matches len " " n s)). cbn [no_tag]. now rewrite IH.
Qed.

Lemma trim_within s : exists p q, s = p +:+ trim s +:+ q.
Proof.
  unfold trim. destruct (trim_start_suffix s) as [p Hp]. set (t := trim_start s) in *. clearbody t.
  destruct (trim_start_suffix (rev_string t "")) as [q Hq]. exists p, (rev_string q "").
  apply (f_equal (fun x => rev_string x "")) in Hq. rewrite rev_string_involutive, rev_string_app in Hq.
  rewrite Hp. f_equal. exact Hq.
Qed.

(** Whatever was written, no tag is left of it. *)
Theorem sanitized_text_has_no_tag s : no_tag (sanitizeText s) = true.
Proof.
  unfold sanitizeText. set (t := replace_matches nbsp_length _ _ _).
  assert (Ht : no_tag t = true) by (apply replace_no_tag, remove_tags_no_tag).
  destruct (trim_within t) as (p & q & E). rewrite E in Ht. apply no_tag_append in Ht as [_ Ht]. now apply no_tag_append in Ht as [Ht _].
Qed.

(** ** What is rendered *)

Inductive mail : Type :=
  | Verification (payload : EmailVerificationTemplateDto) (language : string)
  | Reset (payload : PasswordResetTemplateDto)
  | Confirmation (payload : TransactionConfirmationTemplateDto)
  | Welcome (payload : WelcomeTemplateDto).

(** Text of a template, or a value put in it. *)
Inductive part : Type := Markup (s : string) | Value (s : string).
Definition part_text (p : part) : string := match p with Markup s | Value s => s end.
Definition markup (l : list part) : list string := flat_map (fun p => match p with Markup s => [s] | Value _ => [] end) l.
Definition values (l : list part) : list string := flat_map (fun p => match p with Markup _ => [] | Value s => [s] end) l.

(** The texts of a page: the base's, with those of its body in their place. *)
Definition texts (ps : list piece) : list string := flat_map (fun p => match p with Text s => [s] | _ => [] end) ps.
Definition frame (ps : list piece) : list string :=
  flat_map (fun p => match p with Text s => [s] | Escaped _ => [] | Raw _ => texts ps end) base.

Section Rendering.
Context `{HB : Handlebars} `{!HandlebarsLaws}.
Import MailService.

Definition render_mail (m : mail) : M Store string :=
  match m with
  | Verification p language => renderEmailVerification p language
  | Reset p => renderPasswordReset p
  | Confirmation p => renderTransactionConfirmation p
  | Welcome p => renderWelcome p
  end.

(** The file a key of the cache stands for. *)
Fixpoint after_prefix (p s : string) : option string :=
  match p, s with
  | EmptyString, _ => Some s
  | String a p, String b s => if Ascii.eqb a b then after_prefix p s else None
  | String _ _, EmptyString => None
  end.
Definition file_of_key (key : string) : string :=
  match after_prefix "email-verification." key with
  | Some language => localized_file "email-verification" language
  | None => key +:+ ".hbs"
  end.
Definition key_of (m : mail) : string :=
  match m with
  | Verification _ language => "email-verification." +:+ language
  | Reset _ => "password-reset"
  | Confirmation _ => "transaction-confirmation"
  | Welcome _ => "welcome"
  end.
Definition template_of (key : string) : option (list piece) := map_get (file_of_key key) templates.

(** The cache holds what its files compile to. *)
Definition cache_ok (s : Store) : Prop :=
  forall key t, map_get key s.(MailStore.cache) = Some t -> exists ps, template_of key = Some ps /\ t = compile (source_of ps).

Lemma cached_spec key load ps Q X s :
  cache_ok s -> template_of key = Some ps -> (forall s, load s = (inr (compile (source_of ps)), s)) ->
  (forall s', cache_ok s' -> Q (compile (source_of ps)) s') ->
  wp (cached key load) Q X s.
Proof.
  intros Hok Hps Hl HQ. unfold cached. wp_step. wp_step. destruct (map_get key s.(MailStore.cache)) as [t|] eqn:Ec.
  - wp_step. destruct (Hok key t Ec) as (ps' & E & ->). rewrite Hps in E. injection E as <-. now apply HQ.
  - wp_step. unfold wp at 1. rewrite Hl. wp_step. wp_step. wp_step. apply HQ. intros k t. cbn [MailStore.set_cache MailStore.cache].
    destruct (string_dec key k) as [<-|Hne]; [rewrite map_get_set; intros [= <-]; eauto|]. rewrite map_get_set_ne by assumption. apply Hok.
Qed.

Lemma getTemplate_spec name ps Q X s :
  cache_ok s -> after_prefix "email-verification." name = None -> map_get (name +:+ ".hbs") templates = Some ps ->
  (forall s', cache_ok s' -> Q (compile (source_of ps)) s') -> wp (getTemplate name) Q X s.
Proof.
  intros Hok Hn Hps HQ. apply (cached_spec _ _ ps); [assumption| |intros s1|exact HQ].
  - unfold template_of, file_of_key. now rewrite Hn.
  - unfold compileTemplate, readFileSync, bind, ret. now rewrite Hps.
Qed.

Lemma localized_exists language : exists ps, map_get (localized_file "email-verification" language) templates = Some ps.
Proof.
  unfold localized_file. destruct (existsSync _) eqn:He; [|eexists; reflexivity].
  unfold existsSync in He. generalize dependent ("email-verification" +:+ "." +:+ language +:+ ".hbs"). intros f He.
  assert (Hl : forall l, existsb (fun e : string * list piece => String.eqb e.1 f) l = true -> exists ps, map_get f l = Some ps).
  { induction l as [|[k v] l IH]; [discriminate|]. cbn [existsb map_get fst]. destruct (String.eqb k f); [eauto|exact IH]. }
  now apply Hl.
Qed.

Definition context_of (m : mail) : list (string * json) :=
  match m with
  | Verification p _ =>
      [("fullName", Sanitize (JStr (ev_fullName p))); ("verificationCode", Sanitize (JStr (verificationCode p)));
       ("expiresMinutes", JNum (default (num_of_Z 10) (expiresMinutes p)))]
  | Reset p =>
      [("title", JStr "Reset your NexaFx password"); ("fullName", Sanitize (JStr (pr_fullName p))); ("resetUrl", Sanitize (JStr (resetUrl p)))]
  | Confirmation p =>
      [("title", JStr "Transaction confirmed"); ("fullName", Sanitize (JStr (tc_fullName p))); ("description", Sanitize (JStr (description p)));
       ("amount", JStr (amount p)); ("status", JStr (status p)); ("transactionId", JStr (transactionId p)); ("date", JStr (date p))]
  | Welcome p => [("title", JStr "Welcome to NexaFx"); ("fullName", Sanitize (JStr (w_fullName p)))]
  end.
Definition title_of (m : mail) : string :=
  match m with
  | Verification _ _ => "Verify your NexaFx account" | Reset _ => "Reset your NexaFx password"
  | Confirmation _ => "Transaction confirmed" | Welcome _ => "Welcome to NexaFx"
  end.

(** The page, from the files alone. *)
Definition page (m : mail) (ps : list piece) (year : Z) : string :=
  run (compile (source_of base))
    [("title", JStr (title_of m)); ("year", JNum (num_of_Z year)); ("body", JStr (run (compile (source_of ps)) (context_of m)))].

Lemma render_mail_spec m s :
  cache_ok s ->
  wp (render_mail m) (fun html s' => cache_ok s' /\ exists ps year, template_of (key_of m) = Some ps /\ html = page m ps year)
    (fun _ _ => False) s.
Proof.
  intros Hok. destruct m as [p language|p|p|p]; cbn [render_mail key_of].
  - destruct (localized_exists language) as [ps Hps]. unfold renderEmailVerification. wp_step.
    assert (Hk : template_of ("email-verification" +:+ "." +:+ language) = Some ps) by exact Hps.
    apply (cached_spec _ _ ps); [exact Hok|exact Hk| |].
    { intros s1. unfold readFileSync, bind, ret. now rewrite Hps. }
    intros s1 Hok1. unfold fill_base. wp_step. apply (getTemplate_spec _ base); [exact Hok1|reflexivity..|]. intros s2 Hok2.
    wp_step. wp_step. wp_step. split; [exact Hok2|]. eexists ps, _. split; [exact Hps|reflexivity].
  - unfold renderPasswordReset, render. wp_step. apply (getTemplate_spec _ password_reset); [exact Hok|reflexivity..|]. intros s1 Hok1.
    wp_step. apply (getTemplate_spec _ base); [exact Hok1|reflexivity..|]. intros s2 Hok2.
    wp_step. wp_step. wp_step. split; [exact Hok2|]. eexists _, _. split; [reflexivity|reflexivity].
  - unfold renderTransactionConfirmation, render. wp_step. apply (getTemplate_spec _ transaction_confirmation); [exact Hok|reflexivity..|].
    intros s1 Hok1. wp_step. apply (getTemplate_spec _ base); [exact Hok1|reflexivity..|]. intros s2 Hok2.
    wp_step. wp_step. wp_step. split; [exact Hok2|]. eexists _, _. split; [reflexivity|reflexivity].
  - unfold renderWelcome, render. wp_step. apply (getTemplate_spec _ welcome); [exact Hok|reflexivity..|]. intros s1 Hok1.
    wp_step. apply (getTemplate_spec _ base); [exact Hok1|reflexivity..|]. intros s2 Hok2.
    wp_step. wp_step. wp_step. split; [exact Hok2|]. eexists _, _. split; [reflexivity|reflexivity].
Qed.

Notation cat := (String.concat "").
Lemma cat_cons x l : cat (x :: l) = x +:+ cat l.
Proof.
  destruct l as [|y l]; [|reflexivity]. cbn [String.concat]. induction x as [|c x IH]; [reflexivity|].
  change (String c x +:+ "") with (String c (x +:+ "")). now f_equal.
Qed.
Lemma cat_app l l' : cat (l ++ l') = cat l +:+ cat l'.
Proof.
  induction l as [|x l IH]; [reflexivity|]. change ((x :: l) ++ l') with (x :: (l ++ l')). now rewrite !cat_cons, IH, string_app_assoc.
Qed.

(** The parts of a page. *)
Definition body_parts (context : list (string * json)) (ps : list piece) : list part :=
  map (fun p => match p with Text s => Markup s | p => Value (shown context p) end) ps.
Definition page_parts (outer inner : list (string * json)) (ps : list piece) : list part :=
  flat_map (fun p => match p with Text s => [Markup s] | Escaped _ => [Value (shown outer p)] | Raw _ => body_parts inner ps end) base.

Definition escaping (ps : list piece) : bool := forallb (fun p => match p with Raw _ => false | _ => true end) ps.

(** The body of every mail is of a template that only escapes. *)
Lemma bodies_escape m ps : template_of (key_of m) = Some ps -> escaping ps = true /\ forallb readable ps = true.
Proof.
  unfold template_of. intros Hin%map_get_found.
  assert (Hb : file_of_key (key_of m) <> "base.hbs").
  { destruct m as [p language|p|p|p]; cbn [key_of]; try discriminate.
    change (localized_file "email-verification" language <> "base.hbs"). unfold localized_file. destruct (existsSync _); discriminate. }
  unfold templates in Hin. repeat (destruct Hin as [[= E <-]|Hin]; [first [now destruct Hb | split; vm_compute; reflexivity]|]). contradiction.
Qed.

Lemma body_parts_values context ps : escaping ps = true -> Forall (fun v => all_chars harmless v = true) (values (body_parts context ps)).
Proof.
  induction ps as [|p ps IH]; [constructor|]. cbn [escaping forallb]. intros [Hp Hps]%andb_true_iff.
  destruct p as [s|k|k]; cbn [body_parts map values flat_map app]; [apply IH, Hps| |discriminate].
  constructor; [apply escape_law | apply IH, Hps].
Qed.
Lemma body_parts_markup context ps : markup (body_parts context ps) = texts ps.
Proof. unfold markup, body_parts, texts. induction ps as [|[s|k|k] ps IH]; [reflexivity|exact (f_equal (cons s) IH)|exact IH..]. Qed.
Lemma body_parts_text context ps : map part_text (body_parts context ps) = map (shown context) ps.
Proof. unfold body_parts. rewrite map_map. apply map_ext. now intros [s|k|k]. Qed.

Lemma context_printable m : forallb (fun kv => printable kv.2) (context_of m) = true.
Proof. now destruct m. Qed.

(** C21 Each of the four mails made of templates - the welcome, the verification
    of an address, the reset of a password, the confirmation of a transaction -
    is rendered, whatever the user wrote and whichever of the templates the cache
    already holds as the service compiled them: its markup is the text of the
    base and of its template, no value put between has a character that opens or
    closes a tag or an attribute, and the cache again holds what the service
    compiled.  The other mails of the service are not made so
    ([alerts_are_not_escaped]). *)
Theorem mails_carry_no_markup m s :
  cache_ok s ->
  exists html s' ps parts, render_mail m s = (inr html, s') /\ cache_ok s' /\ template_of (key_of m) = Some ps /\
    html = String.concat "" (map part_text parts) /\ markup parts = frame ps /\
    Forall (fun v => all_chars harmless v = true) (values parts).
Proof.
  intros Hok. pose proof (render_mail_spec m s Hok) as Hm. unfold wp in Hm. destruct (render_mail m s) as [[x|html] s']; [contradiction|].
  destruct Hm as (Hok' & ps & year & Hps & ->). destruct (bodies_escape m ps Hps) as [He Hr].
  set (outer := [("title", JStr (title_of m)); ("year", JNum (num_of_Z year)); ("body", JStr (run (compile (source_of ps)) (context_of m)))]).
  exists (page m ps year), s', ps, (page_parts outer (context_of m) ps). repeat (split; [reflexivity||assumption|]). split; [|split].
  - unfold page. fold outer. rewrite run_law; [|vm_compute; reflexivity|reflexivity].
    unfold page_parts, base. cbn [flat_map map app part_text]. rewrite map_app, !cat_cons, !cat_app, body_parts_text. cbn [map part_text shown].
    replace (written (member "body" outer)) with (cat (map (shown (context_of m)) ps)); [now rewrite !cat_cons|].
    unfold outer. cbn [member obj_get]. cbn. rewrite run_law; [reflexivity|exact Hr|apply context_printable].
  - unfold page_parts, frame, base, markup. cbn [flat_map app]. rewrite flat_map_app. fold (markup (body_parts (context_of m) ps)).
    now rewrite body_parts_markup.
  - unfold page_parts, base, values. cbn [flat_map app]. rewrite flat_map_app. fold (values (body_parts (context_of m) ps)).
    repeat (constructor; [apply escape_law|]). apply Forall_app. split; [now apply body_parts_values|]. cbn [flat_map app].
    repeat (constructor; [apply escape_law|]). constructor.
Qed.
End Rendering.

(** ** At work *)

(** An interpreter of expressions, by the braces it has read. *)
Section Interpreter.
Inductive reading : Type := InText | One | Two | Key (raw : bool) (k : string) | Closing (raw : bool) (k : string) (left : nat).

Definition entity (c : ascii) : string :=
  if Ascii.eqb c "&" then "&amp;" else if Ascii.eqb c "<" then "&lt;" else if Ascii.eqb c ">" then "&gt;"
  else if Ascii.eqb c (ascii_of_nat 34) then "&quot;" else if Ascii.eqb c "'" then "&#x27;"
  else if Ascii.eqb c "`" then "&#x60;" else if Ascii.eqb c "=" then "&#x3D;" else String c "".
Fixpoint escape (s : string) : string := match s with EmptyString => "" | String c s => entity c +:+ escape s end.

Definition put (raw : bool) (k : string) (context : list (string * json)) : string :=
  if raw then written (member k context) else escape (written (member k context)).

Fixpoint interpret (context : list (string * json)) (st : reading) (s : string) : string :=
  match s with
  | EmptyString => ""
  | String c r =>
      match st with
      | InText => if Ascii.eqb c "{" then interpret context One r else String c (interpret context InText r)
      | One => interpret context Two r
      | Two => if Ascii.eqb c "{" then interpret context (Key true "") r else interpret context (Key false (String c "")) r
      | Key raw k => if Ascii.eqb c "}" then interpret context (Closing raw k (if raw then 1 else 0)) r
                     else interpret context (Key raw (k +:+ String c "")) r
      | Closing raw k (S n) => interpret context (Closing raw k n) r
      | Closing raw k O => put raw k context +:+ interpret context InText r
      end
  end.

Definition interpreter : Handlebars :=
  {| TemplateDelegate := string; compile s := s; run t context := interpret context InText t; escapeExpression := escape |}.

Lemma escape_harmless s : all_chars harmless (escape s) = true.
Proof.
  induction s as [|c s IH]; [reflexivity|]. cbn [escape]. rewrite all_chars_app, IH, andb_true_r.
  destruct c as [[] [] [] [] [] [] [] []]; reflexivity.
Qed.

Lemma interpret_text context s r : no_char "{" s = true -> interpret context InText (s +:+ r) = s +:+ interpret context InText r.
Proof.
  induction s as [|c s IH]; [reflexivity|]. cbn [no_char]. intros [Hc Hs]%andb_true_iff. apply negb_true_iff in Hc.
  change (String c s +:+ r) with (String c (s +:+ r)). cbn [interpret]. rewrite Hc, IH by assumption. reflexivity.
Qed.
Lemma interpret_key context raw k0 k r : no_char "}" k = true ->
  interpret context (Key raw k0) (k +:+ String "}" r) = interpret context (Closing raw (k0 +:+ k) (if raw then 1 else 0)) r.
Proof.
  revert k0. induction k as [|c k IH]; intros k0.
  - intros _. change ("" +:+ String "}" r) with (String "}" r). cbn [interpret]. change (Ascii.eqb "}" "}") with true. cbv iota.
    f_equal. f_equal. symmetry. induction k0 as [|a k0 IH]; [reflexivity|]. exact (f_equal (String a) IH).
  - cbn [no_char]. intros [Hc Hk]%andb_true_iff. apply negb_true_iff in Hc. change (String c k +:+ String "}" r) with (String c (k +:+ String "}" r)).
    cbn [interpret]. rewrite Hc, IH by assumption. f_equal. f_equal. rewrite string_app_assoc. reflexivity.
Qed.

Lemma interpret_piece context p r : readable p = true ->
  interpret context InText (source_of [p] +:+ r) = shown (H := interpreter) context p +:+ interpret context InText r.
Proof.
  destruct p as [s|k|k]; cbn [readable]; intros Hp.
  - now apply interpret_text.
  - apply andb_true_iff in Hp as [Hp Hc]. apply andb_true_iff in Hp as [Hne Ho]. destruct k as [|c k]; [discriminate|].
    cbn [no_char] in Ho, Hc. apply andb_true_iff in Ho as [Ho _], Hc as [Hc Hk]. apply negb_true_iff in Ho, Hc.
    change (source_of [Escaped (String c k)]) with ("{{" +:+ (String c k +:+ "}}")). rewrite !string_app_assoc.
    change ("{{" +:+ (String c k +:+ ("}}" +:+ r))) with (String "{" (String "{" (String c (k +:+ String "}" (String "}" r))))).
    cbn [interpret]. change (Ascii.eqb "{" "{") with true. cbv iota. rewrite Ho, interpret_key by assumption. reflexivity.
  - apply andb_true_iff in Hp as [Hp Hc]. apply andb_true_iff in Hp as [Hne Ho].
    change (source_of [Raw k]) with ("{{{" +:+ (k +:+ "}}}")). rewrite !string_app_assoc.
    change ("{{{" +:+ (k +:+ ("}}}" +:+ r))) with (String "{" (String "{" (String "{" (k +:+ String "}" (String "}" (String "}" r)))))).
    cbn [interpret]. change (Ascii.eqb "{" "{") with true. cbv iota. rewrite interpret_key by assumption. reflexivity.
Qed.

Lemma source_cons p ps : source_of (p :: ps) = source_of [p] +:+ source_of ps.
Proof. unfold source_of. cbn [map]. apply cat_cons. Qed.

Lemma interpreter_laws : HandlebarsLaws (H := interpreter).
Proof.
  split; [|exact escape_harmless]. intros ps context Hr _. cbn [run compile interpreter].
  induction ps as [|p ps IH]; [reflexivity|]. cbn [forallb] in Hr. apply andb_true_iff in Hr as [Hp Hps].
  rewrite source_cons, interpret_piece by assumption. cbn [map]. now rewrite cat_cons, IH.
Qed.
End Interpreter.
#[local] Existing Instances interpreter interpreter_laws.

Definition empty_store : Store :=
  MailStore.mk _ (mkEnv (fun n => Z.of_nat n) 0 (fun _ => None) 0 (fun _ => ("u"%char, "")) 0 (fun _ => num_of_Z 0) 0 []) [].

(** A name with a script and an attribute in it. *)
Definition mallory : WelcomeTemplateDto := mkWelcome ("<script>steal()</script><b>Mallory</b> " +:+ String (ascii_of_nat 34) " onload=x").

Lemma mails_carry_no_markup_witness :
  exists html s' ps parts, render_mail (Welcome mallory) empty_store = (inr html, s') /\
    html = String.concat "" (map part_text parts) /\ markup parts = frame ps /\
    includes "Hi Mallory &quot; onload&#x3D;x," html = true.
Proof.
  destruct (mails_carry_no_markup (Welcome mallory) empty_store) as (html & s' & ps & parts & E & _ & _ & Hh & Hm & _);
    [intros k t Hk; discriminate Hk|].
  exists html, s', ps, parts. split; [exact E|]. split; [exact Hh|]. split; [exact Hm|].
  pose proof (f_equal (fun r => match r.1 with inr h => includes "Hi Mallory &quot; onload&#x3D;x," h | inl _ => false end) E) as Hi.
  cbv beta in Hi. cbn [fst] in Hi. rewrite <- Hi. vm_compute. reflexivity.
Defined.

(** A language without a template is written to in English. *)
Example unknown_language :
  MailService.localized_file "email-verification" "fr" = "email-verification.fr.hbs" /\
  MailService.localized_file "email-verification" "de" = "email-verification.en.hbs".
Proof. split; reflexivity. Qed.

(** The mails written in the code escape nothing. *)
Example alerts_are_not_escaped :
  MailService.alert_html (mkAdminAlert "admin@nexafx.io" "Ticket" "<img src=x onerror=steal()>" None) =
    "<h2>Ticket</h2><p><img src=x onerror=steal()></p>".
Proof. reflexivity. Qed.
