(* ===== verification/Directory.v ===== *)
(** Who is paid: the federation addresses of Stellar
    (modules/stellar-federation/) and the saved beneficiaries
    (beneficiaries/beneficiaries.service.ts). *)
From S2P Require Import Prelude JsNumber NumberLaws Effects RepositoryLaws JsData.
Local Open Scope Z_scope.

(** modules/stellar-federation/entities/federation-address.entity.ts *)
Module FederationAddressEntity.
Record FederationAddressEntity : Type := mk {
  id : string;
  userId : string;
  domain : string;
  stellarAddress : string;
  memo : option string;
  memoType : option string;
  isActive : bool;
  createdAt : Z;
  updatedAt : Z
}.
#[global] Instance settable : Settable FederationAddressEntity := fun r =>
  mk r.(id) r.(userId) r.(domain) r.(stellarAddress) r.(memo) r.(memoType) r.(isActive)
     r.(createdAt) r.(updatedAt).
End FederationAddressEntity.

#[global] Program Instance FederationAddressEntity_row : Row FederationAddressEntity.FederationAddressEntity := {|
  row_id := FederationAddressEntity.id;
  set_row_id i e := e <| FederationAddressEntity.id := i |>;
  created t e := e <| FederationAddressEntity.createdAt := t |> <| FederationAddressEntity.updatedAt := t |>;
  touched t e := e <| FederationAddressEntity.updatedAt := t |>;
  live e := true;
  clash a b := false
|}.

(** beneficiaries/beneficiary.entity.ts, unique in user and address *)
Module Beneficiary.
Record Beneficiary : Type := mk {
  id : string;
  userId : string;
  alias : string;
  address : string;
  currency : string;
  network : option string;
  isVerified : bool;
  lastUsedAt : option Z;
  createdAt : Z;
  updatedAt : Z
}.
#[global] Instance settable : Settable Beneficiary := fun r =>
  mk r.(id) r.(userId) r.(alias) r.(address) r.(currency) r.(network) r.(isVerified)
     r.(lastUsedAt) r.(createdAt) r.(updatedAt).
End Beneficiary.

#[global] Program Instance Beneficiary_row : Row Beneficiary.Beneficiary := {|
  row_id := Beneficiary.id;
  set_row_id i e := e <| Beneficiary.id := i |>;
  created t e := e <| Beneficiary.createdAt := t |> <| Beneficiary.updatedAt := t |>;
  touched t e := e <| Beneficiary.updatedAt := t |>;
  live e := true;
  clash a b := String.eqb a.(Beneficiary.userId) b.(Beneficiary.userId) && String.eqb a.(Beneficiary.address) b.(Beneficiary.address)
|}.

Notation Address := FederationAddressEntity.FederationAddressEntity.
Notation Payee := Beneficiary.Beneficiary.

Module DirectoryStore.
Record DirectoryStore : Type := mk {
  env : Env;
  addresses : list FederationAddressEntity.FederationAddressEntity;
  beneficiaries : list Beneficiary.Beneficiary
}.
#[global] Instance settable : Settable DirectoryStore := fun r =>
  mk r.(env) r.(addresses) r.(beneficiaries).
End DirectoryStore.

#[global] Program Instance DirectoryStore_env : HasEnv DirectoryStore.DirectoryStore := {|
  env_of := DirectoryStore.env;
  set_env e w := w <| DirectoryStore.env := e |>
|}.

#[global] Program Instance DirectoryStore_addresses : Table DirectoryStore.DirectoryStore FederationAddressEntity.FederationAddressEntity := {|
  rows := DirectoryStore.addresses;
  set_rows t w := w <| DirectoryStore.addresses := t |>
|}.

#[global] Program Instance DirectoryStore_beneficiaries : Table DirectoryStore.DirectoryStore Beneficiary.Beneficiary := {|
  rows := DirectoryStore.beneficiaries;
  set_rows t w := w <| DirectoryStore.beneficiaries := t |>
|}.

Notation Store := DirectoryStore.DirectoryStore.

(** ** Federation addresses *)

Record CreateFederationAddress : Type := mkFederation {
  fed_name : string;
  fed_domain : string;
  fed_stellarAddress : string;
  fed_memo : option string;
  fed_memoType : option string
}.

Module StellarFederationService.
Definition is_address (domain stellarAddress : string) (a : Address) : bool :=
  String.eqb a.(FederationAddressEntity.domain) domain &&
  String.eqb a.(FederationAddressEntity.stellarAddress) stellarAddress &&
  a.(FederationAddressEntity.isActive).

(** The name is not stored. *)
Definition createAddress (userId : string) (data : CreateFederationAddress) : M Store Address :=
  let* existing := findOne (is_address (fed_domain data) (fed_stellarAddress data)) in
  throw_if (match existing with Some _ => true | None => false end)
    (ConflictException "Federation address already exists for this domain and stellar address") ;;;
  save (FederationAddressEntity.mk "" userId (fed_domain data) (fed_stellarAddress data) (fed_memo data) (fed_memoType data) true 0 0).

(** [query.indexOf('*')] and the two [substring]s around it. *)
Definition resolveAddress (query : string) : M Store Address :=
  match split_at_char "*" query with
  | (_, None) => throw (NotFoundException "Invalid federation address format. Expected user*domain.com")
  | (name, Some domain) =>
      let* address := findOne (is_address domain name) in
      match address with
      | None => throw (NotFoundException "Federation address not found")
      | Some address => ret address
      end
  end.

Definition getAddressesByUser (userId : string) : M Store (list Address) :=
  find_desc (fun a => String.eqb a.(FederationAddressEntity.userId) userId) FederationAddressEntity.createdAt.

Definition deleteAddress (id userId : string) : M Store unit :=
  let* address := findOne (fun a => String.eqb a.(FederationAddressEntity.id) id && String.eqb a.(FederationAddressEntity.userId) userId) in
  match address with
  | None => throw (NotFoundException "Federation address not found")
  | Some address => save (address <| FederationAddressEntity.isActive := false |>) ;;; ret tt
  end.
End StellarFederationService.

(** The routes: [req.user?.id || req.user?.sub], and the public answer. *)
Module FederationController.
Definition user_of (id sub : option string) : option string := if opt_truthy id then id else sub.

Definition resolve (q : string) : M Store json :=
  let* result := StellarFederationService.resolveAddress q in
  let or_default d o := if opt_truthy o then default "" o else d in
  ret (JObj [("success", JBool true);
             ("data", JObj [("stellar_address", JStr result.(FederationAddressEntity.stellarAddress));
                            ("memo", JStr (or_default "" result.(FederationAddressEntity.memo)));
                            ("memo_type", JStr (or_default "text" result.(FederationAddressEntity.memoType)))])]).
End FederationController.

(** ** Beneficiaries *)

Record CreateBeneficiaryDto : Type := mkBeneficiary {
  b_userId : string;
  b_alias : string;
  b_address : string;
  b_currency : string;
  b_network : option string
}.

(** [Partial<CreateBeneficiaryDto>]. *)
Record UpdateBeneficiaryDto : Type := mkBeneficiaryUpdate {
  u_userId : option string;
  u_alias : option string;
  u_address : option string;
  u_currency : option string;
  u_network : option string
}.

Module BeneficiariesService.
Definition create (dto : CreateBeneficiaryDto) : M Store Payee :=
  save (Beneficiary.mk "" (b_userId dto) (b_alias dto) (b_address dto) (b_currency dto) (b_network dto) false None 0 0).

Definition owned (id userId : string) (b : Payee) : bool :=
  String.eqb b.(Beneficiary.id) id && String.eqb b.(Beneficiary.userId) userId.

(** [order: { lastUsedAt: 'DESC', createdAt: 'DESC' }]: nulls come first in a
    descending order. *)
Definition findAll (userId : string) : M Store (list Payee) :=
  let* l := find_desc (fun b => String.eqb b.(Beneficiary.userId) userId) Beneficiary.createdAt in
  let never := List.filter (fun b => match b.(Beneficiary.lastUsedAt) with None => true | Some _ => false end) l in
  let used := List.filter (fun b => match b.(Beneficiary.lastUsedAt) with None => false | Some _ => true end) l in
  ret (never ++ order_asc (fun b => - default 0 b.(Beneficiary.lastUsedAt)) used).

Definition findById (id userId : string) : M Store Payee :=
  let* beneficiary := findOne (owned id userId) in
  match beneficiary with
  | None => throw (NotFoundException "Beneficiary not found")
  | Some b => ret b
  end.

(** [Object.assign(beneficiary, dto)]: the fields that are there. *)
Definition assign_dto (dto : UpdateBeneficiaryDto) (b : Payee) : Payee :=
  b <| Beneficiary.userId := default b.(Beneficiary.userId) (u_userId dto) |>
    <| Beneficiary.alias := default b.(Beneficiary.alias) (u_alias dto) |>
    <| Beneficiary.address := default b.(Beneficiary.address) (u_address dto) |>
    <| Beneficiary.currency := default b.(Beneficiary.currency) (u_currency dto) |>
    <| Beneficiary.network := match u_network dto with Some n => Some n | None => b.(Beneficiary.network) end |>.

Definition update (id userId : string) (dto : UpdateBeneficiaryDto) : M Store Payee :=
  let* beneficiary := findById id userId in
  save (assign_dto dto beneficiary).

Definition remove (id userId : string) : M Store unit :=
  let* affected := delete_rows (owned id userId) in
  throw_if (affected =? 0) (NotFoundException "Beneficiary not found").

Definition updateLastUsed (id userId : string) : M Store unit :=
  let* now := date_now in
  update_rows (owned id userId) (fun b => b <| Beneficiary.lastUsedAt := Some now |>).

Definition findByAddressAndCurrency (userId address currency : string) : M Store (option Payee) :=
  findOne (fun b => String.eqb b.(Beneficiary.userId) userId && String.eqb b.(Beneficiary.address) address &&
                    String.eqb b.(Beneficiary.currency) currency).
End BeneficiariesService.

(** ** The directory is a map *)

Definition is_address := StellarFederationService.is_address.

(** What a domain and a Stellar address resolve to. *)
Definition resolves (s : Store) (domain address : string) : option Address :=
  List.find (fun a => live a && is_address domain address a) s.(DirectoryStore.addresses).

(** Rows have keys of their own, and at most one is active for a domain and an
    address. *)
Record directory_ok (s : Store) : Prop := {
  ids_unique : NoDup (map row_id s.(DirectoryStore.addresses));
  ids_given : forall a, In a s.(DirectoryStore.addresses) -> row_id a <> "";
  one_active : forall d n a b, In a s.(DirectoryStore.addresses) -> In b s.(DirectoryStore.addresses) ->
    is_address d n a = true -> is_address d n b = true -> a = b
}.

Lemma resolves_iff s d n a : directory_ok s ->
  resolves s d n = Some a <-> In a s.(DirectoryStore.addresses) /\ is_address d n a = true.
Proof.
  intros Hok. unfold resolves. split.
  - intros H. apply find_live_some in H. tauto.
  - intros [Hin Ha]. destruct (List.find _ _) as [b|] eqn:Hf.
    + apply find_live_some in Hf as (Hb & _ & Hb'). f_equal. exact (one_active s Hok d n b a Hb Hin Hb' Ha).
    + exfalso. pose proof (List.find_none _ _ Hf a Hin) as Hn. cbn beta in Hn. cbn [live FederationAddressEntity_row andb] in Hn. congruence.
Qed.

Lemma is_address_key d n a : is_address d n a = true ->
  a.(FederationAddressEntity.domain) = d /\ a.(FederationAddressEntity.stellarAddress) = n /\ a.(FederationAddressEntity.isActive) = true.
Proof. unfold is_address, StellarFederationService.is_address. rewrite !andb_true_iff, !String.eqb_eq. tauto. Qed.

Lemma option_ext {A} (x y : option A) : (forall a, x = Some a <-> y = Some a) -> x = y.
Proof.
  intros H. destruct x as [a|]; [symmetry; apply H; reflexivity|]. destruct y as [b|]; [|reflexivity].
  exact (proj2 (H b) eq_refl).
Qed.

(** Storing a row, new or known, that no other active row contradicts. *)
Lemma store_address (r : Address) (s s' : Store) :
  directory_ok s -> row_id r <> "" -> s'.(DirectoryStore.addresses) = upsert r s.(DirectoryStore.addresses) ->
  (forall d n a, In a s.(DirectoryStore.addresses) -> is_address d n a = true -> is_address d n r = true -> row_id a = row_id r) ->
  directory_ok s' /\
  forall d n, resolves s' d n =
    if is_address d n r then Some r
    else match resolves s d n with Some a => if String.eqb (row_id a) (row_id r) then None else Some a | None => None end.
Proof.
  intros Hok Hr Hs Hone. assert (Hok' : directory_ok s').
  { split; rewrite ?Hs.
    - apply NoDup_upsert, Hok.
    - intros a [->|[Ha _]]%in_upsert; [exact Hr | apply (ids_given s Hok), Ha].
    - intros d n a b [->|[Ha Hai]]%in_upsert [->|[Hb Hbi]]%in_upsert H1 H2; [reflexivity| | |].
      + exfalso. apply Hbi. exact (Hone d n b Hb H2 H1).
      + exfalso. apply Hai. exact (Hone d n a Ha H1 H2).
      + exact (one_active s Hok d n a b Ha Hb H1 H2). }
  split; [exact Hok'|]. intros d n. apply option_ext. intros a. rewrite (resolves_iff s' d n a Hok'), Hs.
  destruct (is_address d n r) eqn:Hd.
  - split; [|intros [= <-]; split; [apply in_upsert_self | exact Hd]].
    intros [[->|[Ha Hai]]%in_upsert Had]; [reflexivity|]. exfalso. exact (Hai (Hone d n a Ha Had Hd)).
  - split.
    + intros [[->|[Ha Hai]]%in_upsert Had]; [congruence|]. rewrite (proj2 (resolves_iff s d n a Hok)) by auto.
      apply String.eqb_neq in Hai. rewrite Hai. reflexivity.
    + intros H. destruct (resolves s d n) as [b|] eqn:Hb; [|discriminate]. apply (resolves_iff s d n b Hok) in Hb as [Hb1 Hb2].
      destruct (String.eqb_spec (row_id b) (row_id r)) as [|Hne]; [discriminate|]. injection H as <-.
      split; [apply in_upsert_other; assumption | exact Hb2].
Qed.

Lemma directory_ok_same (s s' : Store) : directory_ok s -> s'.(DirectoryStore.addresses) = s.(DirectoryStore.addresses) ->
  directory_ok s' /\ forall d n, resolves s' d n = resolves s d n.
Proof.
  intros [H1 H2 H3] E. split; [split; rewrite ?E; assumption | intros d n; unfold resolves; rewrite E; reflexivity].
Qed.

Lemma directory_ok_env (s : Store) e : directory_ok s -> directory_ok (set_env e s) /\ forall d n, resolves (set_env e s) d n = resolves s d n.
Proof. intros H. apply directory_ok_same; [exact H | reflexivity]. Qed.

(** The other entries are as they were. *)
Definition others_as_before (d n : string) (s s' : Store) : Prop :=
  forall d' n', (d', n') <> (d, n) -> resolves s' d' n' = resolves s d' n'.

Lemma save_new_address u data (s : Store) :
  directory_ok s -> resolves s (fed_domain data) (fed_stellarAddress data) = None ->
  wp (save (FederationAddressEntity.mk "" u (fed_domain data) (fed_stellarAddress data) (fed_memo data) (fed_memoType data) true 0 0))
    (fun r s' => directory_ok s' /\ resolves s' (fed_domain data) (fed_stellarAddress data) = Some r /\
       r.(FederationAddressEntity.userId) = u /\ others_as_before (fed_domain data) (fed_stellarAddress data) s s')
    (fun _ s' => s'.(DirectoryStore.addresses) = s.(DirectoryStore.addresses)) s.
Proof.
  intros Hok Hnone. apply wp_save; [intros; reflexivity|]. intros e' r He Hr _ _ Hnew.
  set (row := FederationAddressEntity.mk _ _ _ _ _ _ _ _ _) in *.
  assert (Hex : existsb (same_row row) s.(DirectoryStore.addresses) = false).
  { apply not_true_iff_false. intros (x & Hx & Hid)%existsb_exists. apply (ids_given s Hok x Hx). apply same_row_true in Hid. symmetry. exact Hid. }
  destruct (Hnew Hex) as [Hne Hnr]. assert (Hkey : forall d n, is_address d n r = String.eqb (fed_domain data) d && String.eqb (fed_stellarAddress data) n).
  { intros d n. destruct Hr; unfold is_address, StellarFederationService.is_address; cbn; rewrite andb_true_r; reflexivity. }
  match goal with |- directory_ok ?st /\ _ => set (s' := st) end.
  destruct (store_address r s s' Hok Hne) as [Hok' Hres]; [reflexivity | |].
  { intros d n a Ha Had Hrd. exfalso. rewrite Hkey in Hrd. apply andb_prop in Hrd as [Hd Hn]. apply String.eqb_eq in Hd, Hn. subst d n.
    rewrite (proj2 (resolves_iff s _ _ a Hok) (conj Ha Had)) in Hnone. discriminate. }
  split; [exact Hok'|]. split; [rewrite Hres, Hkey, !String.eqb_refl; reflexivity|]. split; [destruct Hr; reflexivity|].
  intros d n Hdn. rewrite Hres, Hkey. destruct (String.eqb_spec (fed_domain data) d), (String.eqb_spec (fed_stellarAddress data) n);
    cbn [andb]; try congruence.
  all: destruct (resolves s d n) as [b|] eqn:Hb; [|reflexivity]; apply (resolves_iff s d n b Hok) in Hb as [Hb _];
    destruct (String.eqb_spec (row_id b) (row_id r)) as [E|]; [|reflexivity]; exfalso;
    apply not_true_iff_false in Hnr; apply Hnr, existsb_exists; exists b; (split; [exact Hb | apply same_row_true; symmetry; exact E]).
Qed.

(** The federation directory is a map from a domain and an address: creating
    an entry sets it when there is none and is refused with a conflict otherwise;
    its owner's deletion removes it; every other entry stays; and the query
    [address*domain] answers the entry or, where there is none, that it was not
    found. *)
Theorem federation_directory_is_a_map u data (s : Store) :
  directory_ok s -> reliable (env_of s) ->
  let domain := fed_domain data in let address := fed_stellarAddress data in
  wp (StellarFederationService.createAddress u data)
    (fun r s' => directory_ok s' /\ resolves s domain address = None /\ resolves s' domain address = Some r /\
       r.(FederationAddressEntity.userId) = u /\ others_as_before domain address s s')
    (fun x s' => directory_ok s' /\ (forall d n, resolves s' d n = resolves s d n) /\
       (resolves s domain address <> None -> exists m, x = ConflictException m)) s /\
  (forall id, wp (StellarFederationService.deleteAddress id u)
    (fun _ s' => directory_ok s' /\ (exists a, In a s.(DirectoryStore.addresses) /\ row_id a = id /\ a.(FederationAddressEntity.userId) = u) /\
       forall d n, resolves s' d n = match resolves s d n with Some a => if String.eqb (row_id a) id then None else Some a | None => None end)
    (fun _ s' => directory_ok s' /\ forall d n, resolves s' d n = resolves s d n) s) /\
  (no_char "*" address = true ->
   wp (StellarFederationService.resolveAddress (address +:+ "*" +:+ domain))
    (fun r s' => env_only s s' /\ resolves s domain address = Some r)
    (fun x s' => env_only s s' /\ resolves s domain address = None /\ x = NotFoundException "Federation address not found") s).
Proof.
  intros Hok Hr domain address. split; [|split].
  - unfold StellarFederationService.createAddress. wp_step. wp_step; [exfalso; eapply reliable_no_fault; eassumption|].
    wp_step. change (List.find _ (rows s)) with (resolves s domain address).
    destruct (resolves s domain address) as [a|] eqn:Hres.
    + apply wp_throw_if; intros Hc; [|discriminate]. destruct (directory_ok_env s e' Hok) as [Ha Hb]. split; [exact Ha|]. split; [exact Hb | eauto].
    + apply wp_throw_if; intros Hc; [discriminate Hc|]. change (resolves (set_env e' s) (fed_domain data) (fed_stellarAddress data) = None) in Hres.
      destruct (directory_ok_env s e' Hok) as [H1 H2].
      eapply wp_mono; [apply (save_new_address u data _ H1 Hres) | |].
      * intros r s' (Ha & Hb & Hu & Hd). split; [exact Ha|]. split; [reflexivity|]. auto.
      * intros x s' E. destruct (directory_ok_same s s' Hok E) as [Ha Hb]. split; [exact Ha|]. split; [exact Hb | congruence].
  - intros id. unfold StellarFederationService.deleteAddress. wp_step. wp_step; [exfalso; eapply reliable_no_fault; eassumption|].
    destruct (List.find _ _) as [a|] eqn:Hf; cbn beta iota;
      [|wp_step; destruct (directory_ok_env s e' Hok) as [H1 H2]; split; assumption].
    apply find_live_some in Hf as (Hin & _ & [Hid%String.eqb_eq Hu%String.eqb_eq]%andb_prop).
    wp_step. wp_step; [destruct (directory_ok_env s e'0 Hok) as [Ha Hb]; split; assumption|].
    wp_step. match goal with H : existsb _ _ = true -> exists t, _ = touched t _ |- _ => destruct H as [t ->] end.
    { apply existsb_exists. exists a. split; [exact Hin | apply String.eqb_refl]. }
    match goal with |- directory_ok ?st /\ _ => set (s' := st) end. set (r := touched t _) in *.
    assert (Hoff : forall d n, is_address d n r = false) by (intros d n; unfold is_address, StellarFederationService.is_address; cbn; apply andb_false_r).
    destruct (store_address r s s' Hok) as [Hok' Hres]; [exact (ids_given s Hok a Hin) | reflexivity | intros; congruence|].
    split; [exact Hok'|]. split; [exists a; auto|]. intros d n. rewrite Hres, Hoff. change (row_id r) with (row_id a).
    change (row_id a) with a.(FederationAddressEntity.id). rewrite Hid. reflexivity.
  - intros Hn. unfold StellarFederationService.resolveAddress. change (address +:+ "*" +:+ domain) with (address +:+ String "*" domain).
    rewrite split_at_char_app by exact Hn. wp_step. wp_step; [exfalso; eapply reliable_no_fault; eassumption|].
    change (List.find _ (rows s)) with (resolves s domain address).
    destruct (resolves s domain address) as [a|]; cbn beta iota; wp_step; (split; [eexists; split; [eassumption | reflexivity]|]); auto.
Qed.

(** ** Worked examples *)

Definition demo_environment : Env :=
  mkEnv (fun n => 1700000000000 + Z.of_nat n) 0 (fun _ => None) 0
        (fun n => ("u"%char, string_of_N (N.of_nat n))) 0 (fun _ => num_of_Z 0) 0 [].

(** A beneficiary can be handed to another user: the fields of an update are
    assigned as they come, the owner among them. *)
Definition saved_payee : Payee := Beneficiary.mk "b1" "alice" "rent" "GA1" "USD" None false None 0 0.
Example update_can_change_the_owner :
  let s := DirectoryStore.mk demo_environment [] [saved_payee] in
  map Beneficiary.userId
    (BeneficiariesService.update "b1" "alice" (mkBeneficiaryUpdate (Some "bob") None None None None) s).2.(DirectoryStore.beneficiaries) = ["bob"].
Proof. vm_compute. reflexivity. Qed.

(** The name of an entry is dropped: it resolves by its Stellar address only. *)
Example names_do_not_resolve :
  let s := DirectoryStore.mk demo_environment [] [] in
  let s' := (StellarFederationService.createAddress "alice" (mkFederation "alice" "nexafx.io" "GALICE" None None) s).2 in
  (match (StellarFederationService.resolveAddress "alice*nexafx.io" s').1 with inl x => message_of x | inr a => a.(FederationAddressEntity.stellarAddress) end,
   match (StellarFederationService.resolveAddress "GALICE*nexafx.io" s').1 with inl x => message_of x | inr a => a.(FederationAddressEntity.stellarAddress) end) =
  ("Federation address not found", "GALICE").
Proof. vm_compute. reflexivity. Qed.

Lemma federation_directory_is_a_map_witness :
  wp (StellarFederationService.createAddress "alice" (mkFederation "alice" "nexafx.io" "GALICE" None None))
    (fun r s' => resolves s' "nexafx.io" "GALICE" = Some r) (fun _ _ => True) (DirectoryStore.mk demo_environment [] []).
Proof.
  eapply wp_mono; [apply federation_directory_is_a_map | |].
  - split; [constructor | intros a [] | intros d n a b []].
  - intros n _. reflexivity.
  - intros r s' (_ & _ & H & _). exact H.
  - auto.
Defined.
