(* ===== verification/Reports.v ===== *)
(** Reports: what the administrators read (admin/reports/reports.service.ts), fee
    reports (modules/fee-reports/), scheduled reports (scheduled-reports/), the
    rebalancing and snapshots of a portfolio (portfolio/portfolio.service.ts) and
    the history of wallets (modules/wallet-history/).  The groups of a query come
    in an order of their own; here it is that of first occurrence. *)
From Stdlib Require Import QArith.
From S2P Require Import Prelude JsNumber Effects RepositoryLaws JsData Json ThirdParty Entities World CoreCalls QueryBuilder Network Bulk.
Local Open Scope Z_scope.

(** modules/fee-reports/entities/fee-report.entity.ts *)
Module FeeReportEntity.
Record FeeReportEntity : Type := mk {
  id : string;
  userId : string;
  period : string;
  startDate : Z;
  endDate : Z;
  totalFees : num;
  feeBreakdown : list (string * num);
  generatedAt : Z;
  createdAt : Z
}.
#[global] Instance settable : Settable FeeReportEntity := fun r =>
  mk r.(id) r.(userId) r.(period) r.(startDate) r.(endDate) r.(totalFees) r.(feeBreakdown)
     r.(generatedAt) r.(createdAt).
End FeeReportEntity.

#[global] Program Instance FeeReportEntity_row : Row FeeReportEntity.FeeReportEntity := {|
  row_id := FeeReportEntity.id;
  set_row_id i e := e <| FeeReportEntity.id := i |>;
  created t e := e <| FeeReportEntity.createdAt := t |>;
  touched t e := e;
  live e := true;
  clash a b := false
|}.

Module ReportType.
Inductive ReportType : Type := TRANSACTION_SUMMARY | FEE_SUMMARY | PORTFOLIO.
Definition eqb (a b : ReportType) : bool :=
  match a, b with
  | TRANSACTION_SUMMARY, TRANSACTION_SUMMARY | FEE_SUMMARY, FEE_SUMMARY | PORTFOLIO, PORTFOLIO => true
  | _, _ => false
  end.
Definition show (a : ReportType) : string :=
  match a with
  | TRANSACTION_SUMMARY => "transaction_summary"
  | FEE_SUMMARY => "fee_summary"
  | PORTFOLIO => "portfolio"
  end.
Lemma ReportType_eqb_eq a b : eqb a b = true <-> a = b.
Proof. destruct a, b; simpl; split; congruence. Qed.
End ReportType.

Module ReportFrequency.
Inductive ReportFrequency : Type := DAILY | WEEKLY | MONTHLY.
Definition eqb (a b : ReportFrequency) : bool :=
  match a, b with
  | DAILY, DAILY | WEEKLY, WEEKLY | MONTHLY, MONTHLY => true
  | _, _ => false
  end.
Definition show (a : ReportFrequency) : string :=
  match a with
  | DAILY => "daily"
  | WEEKLY => "weekly"
  | MONTHLY => "monthly"
  end.
Lemma ReportFrequency_eqb_eq a b : eqb a b = true <-> a = b.
Proof. destruct a, b; simpl; split; congruence. Qed.
End ReportFrequency.

(** scheduled-reports/entities/scheduled-report.entity.ts *)
Module ScheduledReport.
Record ScheduledReport : Type := mk {
  id : string;
  userId : string;
  reportType : ReportType.ReportType;
  frequency : ReportFrequency.ReportFrequency;
  nextRunAt : Z;
  lastRunAt : option Z;
  isActive : bool;
  createdAt : Z
}.
#[global] Instance settable : Settable ScheduledReport := fun r =>
  mk r.(id) r.(userId) r.(reportType) r.(frequency) r.(nextRunAt) r.(lastRunAt)
     r.(isActive) r.(createdAt).
End ScheduledReport.

#[global] Program Instance ScheduledReport_row : Row ScheduledReport.ScheduledReport := {|
  row_id := ScheduledReport.id;
  set_row_id i e := e <| ScheduledReport.id := i |>;
  created t e := e <| ScheduledReport.createdAt := t |>;
  touched t e := e;
  live e := true;
  clash a b := false
|}.

(** portfolio/entities/portfolio-snapshot.entity.ts *)
Module PortfolioSnapshot.
Record PortfolioSnapshot : Type := mk {
  id : string;
  userId : string;
  holdings : list (string * num);
  totalValueUsd : num;
  snapshotDate : Z;
  createdAt : Z
}.
#[global] Instance settable : Settable PortfolioSnapshot := fun r =>
  mk r.(id) r.(userId) r.(holdings) r.(totalValueUsd) r.(snapshotDate) r.(createdAt).
End PortfolioSnapshot.

#[global] Program Instance PortfolioSnapshot_row : Row PortfolioSnapshot.PortfolioSnapshot := {|
  row_id := PortfolioSnapshot.id;
  set_row_id i e := e <| PortfolioSnapshot.id := i |>;
  created t e := e <| PortfolioSnapshot.createdAt := t |>;
  touched t e := e;
  live e := true;
  clash a b := false
|}.

(** modules/wallet-history/entities/wallet-balance-snapshot.entity.ts *)
Module WalletBalanceSnapshotEntity.
Record WalletBalanceSnapshotEntity : Type := mk {
  id : string;
  userId : string;
  balances : list (string * num);
  totalValueUsd : num;
  snapshotDate : Z;
  createdAt : Z
}.
#[global] Instance settable : Settable WalletBalanceSnapshotEntity := fun r =>
  mk r.(id) r.(userId) r.(balances) r.(totalValueUsd) r.(snapshotDate) r.(createdAt).
End WalletBalanceSnapshotEntity.

#[global] Program Instance WalletBalanceSnapshotEntity_row : Row WalletBalanceSnapshotEntity.WalletBalanceSnapshotEntity := {|
  row_id := WalletBalanceSnapshotEntity.id;
  set_row_id i e := e <| WalletBalanceSnapshotEntity.id := i |>;
  created t e := e <| WalletBalanceSnapshotEntity.createdAt := t |>;
  touched t e := e;
  live e := true;
  clash a b := false
|}.

Notation Tx := Transaction.Transaction.
Notation Entry := TransactionEntity.TransactionEntity.

Module ReportStore.
Record ReportStore : Type := mk {
  core_world : World;
  fee_reports : list FeeReportEntity.FeeReportEntity;
  scheduled_reports : list ScheduledReport.ScheduledReport;
  portfolio_snapshots : list PortfolioSnapshot.PortfolioSnapshot;
  wallet_snapshots : list WalletBalanceSnapshotEntity.WalletBalanceSnapshotEntity;
  entries : list TransactionEntity.TransactionEntity
}.
#[global] Instance settable : Settable ReportStore := fun r =>
  mk r.(core_world) r.(fee_reports) r.(scheduled_reports) r.(portfolio_snapshots)
     r.(wallet_snapshots) r.(entries).
End ReportStore.

#[global] Program Instance ReportStore_world : HasWorld ReportStore.ReportStore := {|
  world_of := ReportStore.core_world;
  set_world w s := s <| ReportStore.core_world := w |>
|}.

#[global] Program Instance ReportStore_fee_reports : Table ReportStore.ReportStore FeeReportEntity.FeeReportEntity := {|
  rows := ReportStore.fee_reports;
  set_rows t w := w <| ReportStore.fee_reports := t |>
|}.

#[global] Program Instance ReportStore_scheduled_reports : Table ReportStore.ReportStore ScheduledReport.ScheduledReport := {|
  rows := ReportStore.scheduled_reports;
  set_rows t w := w <| ReportStore.scheduled_reports := t |>
|}.

#[global] Program Instance ReportStore_portfolio_snapshots : Table ReportStore.ReportStore PortfolioSnapshot.PortfolioSnapshot := {|
  rows := ReportStore.portfolio_snapshots;
  set_rows t w := w <| ReportStore.portfolio_snapshots := t |>
|}.

#[global] Program Instance ReportStore_wallet_snapshots : Table ReportStore.ReportStore WalletBalanceSnapshotEntity.WalletBalanceSnapshotEntity := {|
  rows := ReportStore.wallet_snapshots;
  set_rows t w := w <| ReportStore.wallet_snapshots := t |>
|}.

#[global] Program Instance ReportStore_entries : Table ReportStore.ReportStore TransactionEntity.TransactionEntity := {|
  rows := ReportStore.entries;
  set_rows t w := w <| ReportStore.entries := t |>
|}.

Notation Store := ReportStore.ReportStore.

(** ** Groups and sums *)

(** [GROUP BY]: the keys of the rows, each once, with their rows. *)
Section Groups.
Context {E K : Type} (eq_key : forall a b : K, {a = b} + {a <> b}) (key : E -> K).
Definition rows_of_key (l : list E) (k : K) : list E := List.filter (fun e => if eq_key (key e) k then true else false) l.
Definition group_by (l : list E) : list (K * list E) :=
  map (fun k => (k, rows_of_key l k)) (List.nodup eq_key (map key l)).
End Groups.

(** [COALESCE(SUM(column), 0)] of a numeric column, read by [parseFloat]. *)
Definition sum_column (f : Tx -> num) (l : list Tx) : Q := fold_left (fun q t => (q + decimal_q (f t))%Q) l 0%Q.
Definition parse_numeric (q : Q) : num := num_of_ratio (Qnum q) (Qden q).

(** ** The administrators' reports *)

Record RevenueReport : Type := mkRevenue { rv_totalFees : num; rv_currency : string; rv_from : Z; rv_to : Z }.

Record VolumeReport : Type := mkVolume {
  vo_currency : string;
  vo_status : TransactionStatus.TransactionStatus;
  vo_count : Z;
  vo_totalAmount : num
}.

Record UserGrowthReport : Type := mkGrowth { gr_week : string; gr_registrations : Z }.

Module ReportsService.
Definition during (from to createdAt : Z) : bool := (from <=? createdAt) && (createdAt <=? to).

Definition earns (from to : Z) (currency : string) (t : Tx) : bool :=
  String.eqb t.(Transaction.currency) currency && during from to t.(Transaction.createdAt) &&
  TransactionStatus.eqb t.(Transaction.status) TransactionStatus.COMPLETED.

Definition revenueReport (from to : Z) (currency : string) : M World RevenueReport :=
  let* l := find_all (earns from to currency) in
  ret (mkRevenue (parse_numeric (sum_column Transaction.fee l)) currency from to).

Definition status_dec (a b : TransactionStatus.TransactionStatus) : {a = b} + {a <> b}.
Proof. decide equality. Defined.

Definition group_key_dec (a b : string * TransactionStatus.TransactionStatus) : {a = b} + {a <> b}.
Proof. decide equality; [apply status_dec | apply string_dec]. Defined.

Definition group_key (t : Tx) : string * TransactionStatus.TransactionStatus := (t.(Transaction.currency), t.(Transaction.status)).

Definition counts (from to : Z) (currency : option string) (status : option TransactionStatus.TransactionStatus) (t : Tx) : bool :=
  during from to t.(Transaction.createdAt) &&
  and_where currency str_truthy (String.eqb t.(Transaction.currency)) &&
  and_where status (fun _ => true) (TransactionStatus.eqb t.(Transaction.status)).

Definition volume_row (g : (string * TransactionStatus.TransactionStatus) * list Tx) : VolumeReport :=
  mkVolume g.1.1 g.1.2 (Z.of_nat (length g.2)) (parse_numeric (sum_column Transaction.amount g.2)).

Definition transactionVolume (from to : Z) (currency : option string) (status : option TransactionStatus.TransactionStatus) :
    M World (list VolumeReport) :=
  let* l := find_all (counts from to currency status) in
  ret (map volume_row (group_by group_key_dec group_key l)).

(** [DATE_TRUNC('week', t)]: the Monday before, at midnight; 1 January 1970 was
    a Thursday. *)
Definition week_of (ms : Z) : Z :=
  let days := ms / MS_PER_DAY in (days - (days + 3) mod 7) * MS_PER_DAY.

(** The groups of the weeks, in their order. *)
Definition userGrowth (from to : Z) : M World (list UserGrowthReport) :=
  let* l := find_all (fun u => during from to u.(User.createdAt)) in
  let weeks := order_asc fst (group_by Z.eq_dec (fun u => week_of u.(User.createdAt)) l) in
  ret (map (fun g => mkGrowth (iso_day g.1) (Z.of_nat (length g.2))) weeks).
End ReportsService.

(** ** Fee reports *)

Record GenerateFeeReportDto : Type := mkGenerate {
  g_period : string;
  g_startDate : option string;
  g_endDate : option string
}.

Record ListFeeReportsDto : Type := mkList {
  l_period : option string;
  l_page : option Z;
  l_limit : option Z
}.

(** [record[k] = (record[k] ?? 0) + n]. *)
Fixpoint add_to (k : string) (n : num) (record : list (string * num)) : list (string * num) :=
  match record with
  | [] => [(k, (num_of_Z 0 + n)%num)]
  | (k', m) :: record => if String.eqb k k' then (k', (m + n)%num) :: record else (k', m) :: add_to k n record
  end.
Definition get_of (k : string) (record : list (string * num)) : option num :=
  option_map snd (List.find (fun '(k', _) => String.eqb k' k) record).

(** [Number(value)]; objects and arrays are not numbers here. *)
Definition json_number (j : json) : num :=
  match j with
  | JNum n => n
  | JStr s => js_number s
  | JBool b => num_of_Z (if b then 1 else 0)
  | JNull => num_of_Z 0
  | _ => num_nan
  end.

Module FeeReportsService.
Definition findAll (userId : string) (dto : ListFeeReportsDto) : M Store (list FeeReportEntity.FeeReportEntity * Z * Z * Z) :=
  let page := default 1 (l_page dto) in
  let limit := default 20 (l_limit dto) in
  let* ' (data, total) := getManyAndCount (fun r => String.eqb r.(FeeReportEntity.userId) userId &&
                             and_where (l_period dto) str_truthy (String.eqb r.(FeeReportEntity.period)))
                             FeeReportEntity.generatedAt ((page - 1) * limit) limit in
  ret (data, total, page, limit).

(** [new Date(text)]: an invalid date is refused by the query. *)
Definition date_of (text : option string) (otherwise : M Store Z) : M Store Z :=
  match text with
  | Some t =>
      if str_truthy t then
        match parse_iso t with Some ms => ret ms | None => throw (JsError "RangeError" "Invalid time value") end
      else otherwise
  | None => otherwise
  end.

Definition resolveDateRange (period : string) (startStr endStr : option string) : M Store (Z * Z) :=
  let* endDate := date_of endStr date_now in
  let* startDate := date_of startStr
    (ret (if String.eqb period "daily" then add_days (-1) endDate
          else if String.eqb period "weekly" then add_days (-7) endDate
          else if String.eqb period "monthly" then add_months (-1) endDate
          else endDate)) in
  ret (startDate, endDate).

Definition fee_of (tx : Entry) : option num :=
  let fee := match tx.(TransactionEntity.metadata) with Some m => default JUndefined (obj_get "fee" m) | None => JUndefined end in
  if json_truthy fee && str_truthy tx.(TransactionEntity.currency) then Some (json_number fee) else None.

Definition fee_step (acc : num * list (string * num)) (tx : Entry) : num * list (string * num) :=
  match fee_of tx with
  | Some fee => ((acc.1 + fee)%num, add_to tx.(TransactionEntity.currency) fee acc.2)
  | None => acc
  end.

(** The transactions of the period are everybody's. *)
Definition generate (userId : string) (dto : GenerateFeeReportDto) : M Store FeeReportEntity.FeeReportEntity :=
  let* ' (startDate, endDate) := resolveDateRange (g_period dto) (g_startDate dto) (g_endDate dto) in
  let* transactions := find_asc (fun t => (startDate <=? t.(TransactionEntity.createdAt)) && (t.(TransactionEntity.createdAt) <=? endDate))
                         TransactionEntity.createdAt in
  let '(totalFees, feeBreakdown) := fold_left fee_step transactions (num_of_Z 0, []) in
  let* now := date_now in
  save (FeeReportEntity.mk "" userId (g_period dto) startDate endDate totalFees feeBreakdown now 0).
End FeeReportsService.

(** ** Scheduled reports *)

Module ScheduledReportsService.
Definition computeNextRun (frequency : ReportFrequency.ReportFrequency) (now : Z) : Z :=
  match frequency with
  | ReportFrequency.DAILY => add_days 1 now
  | ReportFrequency.WEEKLY => add_days 7 now
  | ReportFrequency.MONTHLY => add_months 1 now
  end.

Definition create (userId : string) (reportType : ReportType.ReportType) (frequency : ReportFrequency.ReportFrequency) :
    M Store ScheduledReport.ScheduledReport :=
  let* now := date_now in
  save (ScheduledReport.mk "" userId reportType frequency (computeNextRun frequency now) None true 0).

Definition findByUserId (userId : string) : M Store (list ScheduledReport.ScheduledReport) :=
  find_desc (fun r => String.eqb r.(ScheduledReport.userId) userId) ScheduledReport.createdAt.

Definition deactivate (id : string) : M Store ScheduledReport.ScheduledReport :=
  let* report := findOne (fun r => String.eqb r.(ScheduledReport.id) id) in
  match report with
  | None => throw (NotFoundException ("Scheduled report " +:+ id +:+ " not found"))
  | Some report => save (report <| ScheduledReport.isActive := false |>)
  end.

Definition generateReport (_reportType : ReportType.ReportType) : M Store json :=
  let* now := date_now in ret (JObj [("generatedAt", JStr (toISOString now)); ("data", JObj [])]).
End ScheduledReportsService.

(** ** Portfolio *)

Inductive Action : Type := buy | sell | hold.

Record RebalancingSuggestion : Type := mkSuggestion {
  sg_currency : string;
  sg_currentAmount : num;
  sg_targetAmount : num;
  sg_action : Action;
  sg_difference : num
}.

Module PortfolioService.
Definition cent : num := num_of_ratio 1 100.

Definition suggest (holdings targetAllocations : list (string * num)) (totalValueUsd : num) (currency : string) : RebalancingSuggestion :=
  let currentAmount := default (num_of_Z 0) (get_of currency holdings) in
  let targetPct := default (num_of_Z 0) (get_of currency targetAllocations) in
  let targetAmount := (totalValueUsd * targetPct)%num in
  let difference := (targetAmount - currentAmount)%num in
  let action := if (difference >? cent)%num then buy else if (difference <? - cent)%num then sell else hold in
  mkSuggestion currency currentAmount targetAmount action difference.

Definition computeRebalancing (holdings targetAllocations : list (string * num)) (totalValueUsd : num) : list RebalancingSuggestion :=
  map (suggest holdings targetAllocations totalValueUsd) (distinct [] (map fst holdings ++ map fst targetAllocations)).

Definition createSnapshot (userId : string) (holdings : list (string * num)) (totalValueUsd : num) : M Store PortfolioSnapshot.PortfolioSnapshot :=
  let* now := date_now in
  save (PortfolioSnapshot.mk "" userId holdings totalValueUsd now 0).

Definition getHistory (userId : string) : M Store (list PortfolioSnapshot.PortfolioSnapshot) :=
  find_desc (fun p => String.eqb p.(PortfolioSnapshot.userId) userId) PortfolioSnapshot.snapshotDate.
End PortfolioService.

(** ** The history of wallets *)

Record QueryWalletHistoryDto : Type := mkHistory {
  h_startDate : option string;
  h_endDate : option string;
  h_currency : option string;
  h_page : option Z;
  h_limit : option Z
}.

Module WalletHistoryService.
Section Service.
(** The active wallets of a user, with their currencies: the entity of the
    wallets is not in the repository. *)
Context (activeWallets : string -> M Store (list (string * string))).

Definition isCredit (tx : Entry) : bool :=
  match tx.(TransactionEntity.metadata) with
  | Some m => match obj_get "type" m with Some (JStr t) => String.eqb t "CREDIT" | _ => false end
  | None => false
  end || match tx.(TransactionEntity.fromAddress) with None => true | Some _ => false end.

Definition balance_step (balance : num) (tx : Entry) : num :=
  if TxStatus.eqb tx.(TransactionEntity.status) TxStatus.SUCCESS
  then (balance + if isCredit tx then tx.(TransactionEntity.amount) else - tx.(TransactionEntity.amount))%num
  else balance.

Fixpoint add_wallets (wallets : list (string * string)) (balances : list (string * num)) (totalValueUsd : num) :
    M Store (list (string * num) * num) :=
  match wallets with
  | [] => ret (balances, totalValueUsd)
  | (id, currency) :: wallets =>
      let* transactions := find_all (fun t => opt_eqb String.eqb t.(TransactionEntity.walletId) (Some id)) in
      let balance := fold_left balance_step transactions (num_of_Z 0) in
      add_wallets wallets (add_to currency balance balances)
        (if String.eqb currency "USD" then totalValueUsd + balance else totalValueUsd)%num
  end.

Definition recordSnapshot (userId : string) : M Store WalletBalanceSnapshotEntity.WalletBalanceSnapshotEntity :=
  let* wallets := activeWallets userId in
  let* ' (balances, totalValueUsd) := add_wallets wallets [] (num_of_Z 0) in
  let* now := date_now in
  save (WalletBalanceSnapshotEntity.mk "" userId balances totalValueUsd now 0).

Definition in_range (startDate endDate : option Z) (d : Z) : bool :=
  match startDate with Some a => a <=? d | None => true end && match endDate with Some b => d <=? b | None => true end.

Definition opt_date (text : option string) : M Store (option Z) :=
  match text with
  | Some t =>
      if str_truthy t then
        match parse_iso t with Some ms => ret (Some ms) | None => throw (JsError "RangeError" "Invalid time value") end
      else ret None
  | None => ret None
  end.

Definition getHistory (userId : string) (dto : QueryWalletHistoryDto) :
    M Store (list WalletBalanceSnapshotEntity.WalletBalanceSnapshotEntity * Z * Z * Z) :=
  let page := default 1 (h_page dto) in
  let limit := default 20 (h_limit dto) in
  let* startDate := opt_date (h_startDate dto) in
  let* endDate := opt_date (h_endDate dto) in
  let* ' (data, total) := getManyAndCount
    (fun s => String.eqb s.(WalletBalanceSnapshotEntity.userId) userId && in_range startDate endDate s.(WalletBalanceSnapshotEntity.snapshotDate))
    WalletBalanceSnapshotEntity.snapshotDate ((page - 1) * limit) limit in
  ret (match h_currency dto with
       | Some currency =>
           if str_truthy currency
           then map (fun s => s <| WalletBalanceSnapshotEntity.balances :=
                       [(currency, default (num_of_Z 0) (get_of currency s.(WalletBalanceSnapshotEntity.balances)))] |>) data
           else data
       | None => data
       end, total, page, limit).
End Service.
End WalletHistoryService.

(** ** Groups *)

Section GroupLaws.
Context {E K : Type} (eq_key : forall a b : K, {a = b} + {a <> b}) (key : E -> K).
Notation krows := (rows_of_key eq_key key).
Notation kgroups := (group_by eq_key key).

Lemma rows_of_key_in l k e : In e (krows l k) <-> In e l /\ key e = k.
Proof. unfold rows_of_key. rewrite filter_In. destruct (eq_key (key e) k); intuition congruence. Qed.

Lemma group_by_keys l : map fst (kgroups l) = List.nodup eq_key (map key l).
Proof. unfold group_by. rewrite map_map. apply map_id. Qed.

(** Splitting off the rows of one key. *)
Lemma rows_of_key_split l k :
  Permutation l (krows l k ++ List.filter (fun e => if eq_key (key e) k then false else true) l).
Proof.
  induction l as [|e l IH]; [constructor|]. unfold rows_of_key in *. cbn [List.filter].
  destruct (eq_key (key e) k); [constructor; exact IH | apply Permutation_cons_app, IH].
Qed.

Lemma rows_of_other_key l k k' : k <> k' ->
  krows (List.filter (fun e => if eq_key (key e) k then false else true) l) k' = krows l k'.
Proof.
  intros Hk. unfold rows_of_key. induction l as [|e l IH]; [reflexivity|]. cbn [List.filter].
  destruct (eq_key (key e) k) as [E1|E1]; cbn [List.filter]; destruct (eq_key (key e) k') as [E2|E2]; try (exfalso; congruence);
    rewrite IH; reflexivity.
Qed.

(** The groups of keys that cover a list make it up. *)
Lemma groups_make_up ks : List.NoDup ks -> forall l, (forall e, In e l -> In (key e) ks) ->
  Permutation (concat (map (krows l) ks)) l.
Proof.
  induction 1 as [|k ks Hk Hnd IH]; intros l Hl.
  - destruct l as [|e l]; [constructor | destruct (Hl e (or_introl eq_refl))].
  - cbn [map concat]. etransitivity; [|symmetry; apply (rows_of_key_split l k)]. apply Permutation_app_head.
    rewrite (map_ext_in _ (krows (List.filter (fun e => if eq_key (key e) k then false else true) l)))
      by (intros k' Hk'; symmetry; apply rows_of_other_key; congruence).
    apply IH. intros e [He Hn]%filter_In. destruct (eq_key (key e) k) as [|Hne]; [discriminate|].
    destruct (Hl e He) as [|]; [congruence | assumption].
Qed.

Lemma group_by_make_up l : Permutation (concat (map snd (kgroups l))) l.
Proof.
  unfold group_by. rewrite map_map. apply (groups_make_up _ (List.NoDup_nodup eq_key _)).
  intros e He. apply List.nodup_In, in_map, He.
Qed.

Lemma group_by_in l g : In g (kgroups l) -> g.2 = krows l g.1 /\ g.2 <> [].
Proof.
  unfold group_by. rewrite in_map_iff. intros (k & <- & Hk). split; [reflexivity|].
  apply List.nodup_In, in_map_iff in Hk as (e & He & Hin). intros E0.
  assert (Hr : In e (krows l k)) by (apply rows_of_key_in; auto). cbn [snd] in E0. rewrite E0 in Hr. destruct Hr.
Qed.
End GroupLaws.

Lemma length_concat_sum {A} (l : list (list A)) : Z.of_nat (length (concat l)) = fold_right Z.add 0 (map (fun g => Z.of_nat (length g)) l).
Proof. induction l as [|g l IH]; [reflexivity|]. cbn [concat map fold_right]. rewrite length_app. lia. Qed.

(** ** The administrators' reports *)

Definition total_of (l : list Z) : Z := fold_right Z.add 0 l.

Definition counted (from to : Z) (currency : option string) (status : option TransactionStatus.TransactionStatus) (s : World) : list Tx :=
  List.filter (fun t => live t && ReportsService.counts from to currency status t) s.(World.transactions).
Definition joined (from to : Z) (s : World) : list User.User :=
  List.filter (fun u => live u && ReportsService.during from to u.(User.createdAt)) s.(World.users).

(** The rows of a volume report: one for each currency and status that occurs,
    with the number and the sum of its transactions. *)
Definition volume_of (l : list Tx) (v : VolumeReport) : Prop :=
  let group := rows_of_key ReportsService.group_key_dec ReportsService.group_key l (vo_currency v, vo_status v) in
  group <> [] /\ vo_count v = Z.of_nat (length group) /\ vo_totalAmount v = parse_numeric (sum_column Transaction.amount group).

Lemma transactionVolume_spec from to currency status (s : World) :
  wp (ReportsService.transactionVolume from to currency status)
    (fun r s' => env_only s s' /\ let l := counted from to currency status s in
       List.NoDup (map (fun v => (vo_currency v, vo_status v)) r) /\ List.Forall (volume_of l) r /\
       (forall t, In t l -> In (ReportsService.group_key t) (map (fun v => (vo_currency v, vo_status v)) r)) /\
       total_of (map vo_count r) = Z.of_nat (length l))
    (fun x s' => env_only s s' /\ env_fault (env_of s) x) s.
Proof.
  unfold ReportsService.transactionVolume. wp_step. wp_step; [split; [eexists; split; [eassumption | reflexivity] | assumption]|].
  wp_step. split; [eexists; split; [eassumption | reflexivity]|]. cbv zeta.
  change (List.filter _ (rows s)) with (counted from to currency status s). set (l := counted from to currency status s).
  assert (Hkeys : map (fun v => (vo_currency v, vo_status v)) (map ReportsService.volume_row (group_by ReportsService.group_key_dec ReportsService.group_key l))
                  = List.nodup ReportsService.group_key_dec (map ReportsService.group_key l)).
  { rewrite map_map, <- group_by_keys. apply map_ext. intros [[c st] g]. reflexivity. }
  rewrite Hkeys. split; [apply List.NoDup_nodup|]. split; [|split].
  - apply List.Forall_forall. intros v (g & <- & Hg)%in_map_iff. apply group_by_in in Hg as [Hg Hne]. destruct g as [[c st] g].
    cbn [fst snd] in Hg. subst g. split; [exact Hne | split; reflexivity].
  - intros t Ht. apply List.nodup_In, in_map, Ht.
  - rewrite <- (Permutation_length (group_by_make_up ReportsService.group_key_dec ReportsService.group_key l)), length_concat_sum, !map_map.
    reflexivity.
Qed.

(** A week begins on a Monday at midnight and has seven days. *)
Lemma week_of_spec ms :
  ReportsService.week_of ms <= ms < ReportsService.week_of ms + 7 * MS_PER_DAY /\
  exists d, ReportsService.week_of ms = d * MS_PER_DAY /\ (d + 3) mod 7 = 0.
Proof.
  unfold ReportsService.week_of. cbv zeta. assert (Hp : 0 < MS_PER_DAY) by reflexivity.
  pose proof (Z.div_mod ms MS_PER_DAY ltac:(lia)) as Hd. pose proof (Z.mod_pos_bound ms MS_PER_DAY Hp).
  pose proof (Z.mod_pos_bound (ms / MS_PER_DAY + 3) 7 ltac:(lia)). split; [nia|].
  eexists. split; [reflexivity|]. set (q := ms / MS_PER_DAY) in *.
  pose proof (Z.div_mod (q + 3) 7 ltac:(lia)). replace (q - (q + 3) mod 7 + 3) with (0 + (q + 3) / 7 * 7) by lia.
  rewrite Z_mod_plus_full. reflexivity.
Qed.

Lemma sorted_by_map {A} (k : A -> Z) l : sorted_by k l -> sorted_by id (map k l).
Proof.
  induction 1 as [|e l Hl _ IH]; cbn [map]; constructor; [|exact IH].
  apply List.Forall_forall. intros z (x & <- & Hx)%in_map_iff. rewrite List.Forall_forall in Hl. exact (Hl x Hx).
Qed.

Lemma total_perm {A} (f : A -> Z) l l' : Permutation l l' -> total_of (map f l) = total_of (map f l').
Proof. unfold total_of. induction 1; cbn [map fold_right]; lia. Qed.

(** The rows of a growth report: one for each week in which somebody joined. *)
Definition growth_of (l : list User.User) (weeks : list Z) : list UserGrowthReport :=
  map (fun w => mkGrowth (iso_day w) (Z.of_nat (length (rows_of_key Z.eq_dec (fun u => ReportsService.week_of u.(User.createdAt)) l w)))) weeks.

Lemma userGrowth_spec from to (s : World) :
  wp (ReportsService.userGrowth from to)
    (fun r s' => env_only s s' /\ let l := joined from to s in
       exists weeks, sorted_by id weeks /\ List.NoDup weeks /\ r = growth_of l weeks /\
         (forall w, In w weeks <-> exists u, In u l /\ ReportsService.week_of u.(User.createdAt) = w) /\
         total_of (map gr_registrations r) = Z.of_nat (length l))
    (fun x s' => env_only s s' /\ env_fault (env_of s) x) s.
Proof.
  unfold ReportsService.userGrowth. wp_step. wp_step; [split; [eexists; split; [eassumption | reflexivity] | assumption]|].
  wp_step. split; [eexists; split; [eassumption | reflexivity]|]. cbv zeta.
  change (List.filter _ (rows s)) with (joined from to s). set (l := joined from to s). set (key := fun u => ReportsService.week_of u.(User.createdAt)).
  set (gs := order_asc fst (group_by Z.eq_dec key l)).
  assert (Hperm : Permutation gs (group_by Z.eq_dec key l)) by apply order_asc_perm.
  exists (map fst gs). split; [|split; [|split; [|split]]].
  - apply sorted_by_map, sorted_order_asc.
  - eapply Permutation_NoDup; [symmetry; apply Permutation_map; exact Hperm|]. rewrite group_by_keys. apply List.NoDup_nodup.
  - unfold growth_of. rewrite map_map. apply map_ext_in. intros g Hg. apply (Permutation_in _ Hperm), group_by_in in Hg as [-> _]. reflexivity.
  - intros w. assert (Hw : In w (map fst gs) <-> In w (map fst (group_by Z.eq_dec key l)))
      by (split; apply Permutation_in; [|symmetry]; apply Permutation_map; exact Hperm).
    rewrite Hw, group_by_keys, List.nodup_In, in_map_iff. split; intros (u & H1 & H2); eauto.
  - rewrite map_map. cbn [gr_registrations]. etransitivity; [apply (total_perm (fun g => Z.of_nat (length g.2))), Hperm|].
    rewrite <- (Permutation_length (group_by_make_up Z.eq_dec key l)), length_concat_sum, !map_map. reflexivity.
Qed.

(** The administrators' reports account for every row: the volumes of a period
    have one row for each currency and status, with the number and the sum of its
    transactions, the weeks of growth are Mondays in their order, with the users
    who joined in each, and in both the counts add up to the rows of the period. *)
Theorem reports_account_for_every_row from to currency status (s : World) :
  wp (ReportsService.transactionVolume from to currency status)
    (fun r s' => env_only s s' /\ let l := counted from to currency status s in
       List.NoDup (map (fun v => (vo_currency v, vo_status v)) r) /\ List.Forall (volume_of l) r /\
       (forall t, In t l -> In (ReportsService.group_key t) (map (fun v => (vo_currency v, vo_status v)) r)) /\
       total_of (map vo_count r) = Z.of_nat (length l))
    (fun x s' => env_only s s' /\ env_fault (env_of s) x) s /\
  wp (ReportsService.userGrowth from to)
    (fun r s' => env_only s s' /\ let l := joined from to s in
       exists weeks, sorted_by id weeks /\ List.NoDup weeks /\ r = growth_of l weeks /\
         (forall w, In w weeks -> exists d, w = d * MS_PER_DAY /\ (d + 3) mod 7 = 0) /\
         (forall u, In u l -> exists w, In w weeks /\ w <= u.(User.createdAt) < w + 7 * MS_PER_DAY) /\
         total_of (map gr_registrations r) = Z.of_nat (length l))
    (fun x s' => env_only s s' /\ env_fault (env_of s) x) s.
Proof.
  split; [apply transactionVolume_spec|]. eapply wp_mono; [apply userGrowth_spec | | auto].
  intros r s' (Hs & weeks & H1 & H2 & H3 & H4 & H5). split; [exact Hs|]. exists weeks. repeat (split; [assumption|]).
  split; [|split; [|exact H5]].
  - intros w Hw. apply H4 in Hw as (u & _ & <-). apply week_of_spec.
  - intros u Hu. exists (ReportsService.week_of u.(User.createdAt)). split; [apply H4; eauto | apply week_of_spec].
Qed.

(** ** Fee reports *)

Lemma get_of_add_to k k' n r :
  get_of k (add_to k' n r) = if String.eqb k k' then Some (default (num_of_Z 0) (get_of k r) + n)%num else get_of k r.
Proof.
  unfold get_of. induction r as [|[k0 m] r IH]; cbn [add_to List.find].
  - rewrite (String.eqb_sym k' k). destruct (String.eqb k k'); reflexivity.
  - destruct (String.eqb_spec k' k0) as [->|Hk]; cbn [List.find].
    + rewrite (String.eqb_sym k k0). destruct (String.eqb k0 k); reflexivity.
    + destruct (String.eqb_spec k0 k) as [->|Hk0]; [|exact IH].
      destruct (String.eqb_spec k k') as [->|]; [congruence | reflexivity].
Qed.

(** The fees of transactions, and those of a currency, in order. *)
Definition fees_of (l : list Entry) : list num :=
  flat_map (fun t => match FeeReportsService.fee_of t with Some fee => [fee] | None => [] end) l.
Definition fees_in (currency : string) (l : list Entry) : list num :=
  fees_of (List.filter (fun t => String.eqb t.(TransactionEntity.currency) currency) l).

Lemma fees_in_cons c t l : fees_in c (t :: l) =
  if String.eqb t.(TransactionEntity.currency) c
  then match FeeReportsService.fee_of t with Some fee => [fee] | None => [] end ++ fees_in c l else fees_in c l.
Proof. unfold fees_in, fees_of. cbn [List.filter]. destruct (String.eqb _ c); reflexivity. Qed.

Lemma fee_steps_from l : forall acc total breakdown,
  fold_left FeeReportsService.fee_step l acc = (total, breakdown) ->
  total = fold_left num_add (fees_of l) acc.1 /\
  forall c, get_of c breakdown =
    match fees_in c l with [] => get_of c acc.2 | fees => Some (fold_left num_add fees (default (num_of_Z 0) (get_of c acc.2))) end.
Proof.
  induction l as [|t l IH]; intros acc total breakdown E; cbn [fold_left] in E.
  - subst acc. split; [reflexivity | intros c; reflexivity].
  - destruct (IH _ _ _ E) as [H1 H2]. unfold FeeReportsService.fee_step in H1, H2. split.
    + rewrite H1. cbn [fees_of flat_map]. destruct (FeeReportsService.fee_of t); reflexivity.
    + intros c. rewrite H2, fees_in_cons. destruct (FeeReportsService.fee_of t) as [fee|] eqn:Ef; cbn [fst snd].
      * rewrite get_of_add_to, (String.eqb_sym c). destruct (String.eqb_spec (TransactionEntity.currency t) c) as [Ec|]; [|reflexivity].
        cbn [app fold_left default]. destruct (fees_in c l); reflexivity.
      * destruct (String.eqb (TransactionEntity.currency t) c); reflexivity.
Qed.

Lemma fee_steps l total breakdown :
  fold_left FeeReportsService.fee_step l (num_of_Z 0, []) = (total, breakdown) ->
  total = sum_nums (fees_of l) /\
  forall c, get_of c breakdown = match fees_in c l with [] => None | fees => Some (sum_nums fees) end.
Proof. intros H. exact (fee_steps_from l _ _ _ H). Qed.

Lemma date_of_env text otherwise (s : Store) :
  (forall s', wp otherwise (fun _ => env_only s') (fun _ => env_only s') s') ->
  wp (FeeReportsService.date_of text otherwise) (fun _ => env_only s) (fun _ => env_only s) s.
Proof.
  intros Ho. unfold FeeReportsService.date_of. assert (Hs : env_only s s) by (eexists; split; [reflexivity | symmetry; apply set_env_env_of]).
  destruct text as [t|]; [|apply Ho]. destruct (str_truthy t); [|apply Ho]. destruct (parse_iso t); [apply wp_ret | apply wp_throw]; exact Hs.
Qed.

Lemma resolveDateRange_spec period a b (s : Store) :
  wp (FeeReportsService.resolveDateRange period a b) (fun _ => env_only s) (fun _ => env_only s) s.
Proof.
  unfold FeeReportsService.resolveDateRange. wp_step. eapply wp_mono; [apply date_of_env | | auto].
  { intros s'. apply wp_date_now. intros n e He _. eexists. split; [exact He | reflexivity]. }
  intros d s1 H1. cbv beta in H1. wp_step. eapply wp_mono; [apply date_of_env | |].
  { intros s'. apply wp_ret. eexists. split; [reflexivity | symmetry; apply set_env_env_of]. }
  - intros d' s2 H2. wp_step. destruct H1 as (e1 & He1 & ->), H2 as (e2 & He2 & ->). eexists. split; [|env_norm; reflexivity]. env_norm. env_chain.
  - intros x s2 H2. destruct H1 as (e1 & He1 & ->), H2 as (e2 & He2 & ->). eexists. split; [|env_norm; reflexivity]. env_norm. env_chain.
Qed.

(** A fee report adds up: its total is the sum of the fees of every
    transaction of its period, oldest first, and each currency of its breakdown
    has the sum of the fees in that currency and no other has an entry. *)
Theorem fee_report_adds_up u dto (s : Store) :
  wp (FeeReportsService.generate u dto)
    (fun r s' =>
       let l := order_asc TransactionEntity.createdAt
                  (List.filter (fun t => live t && ((r.(FeeReportEntity.startDate) <=? t.(TransactionEntity.createdAt)) &&
                                                    (t.(TransactionEntity.createdAt) <=? r.(FeeReportEntity.endDate)))) s.(ReportStore.entries)) in
       In r s'.(ReportStore.fee_reports) /\ r.(FeeReportEntity.userId) = u /\
       r.(FeeReportEntity.totalFees) = sum_nums (fees_of l) /\
       forall c, get_of c r.(FeeReportEntity.feeBreakdown) =
         match fees_in c l with [] => None | fees => Some (sum_nums fees) end)
    (fun _ s' => s'.(ReportStore.fee_reports) = s.(ReportStore.fee_reports)) s.
Proof.
  unfold FeeReportsService.generate. wp_step. eapply wp_mono; [apply resolveDateRange_spec | |].
  2: { intros x s1 (e1 & He1 & ->). reflexivity. }
  intros [a b] s1 (e1 & He1 & ->). wp_step. unfold find_asc. wp_step. wp_step; [reflexivity|]. wp_step.
  destruct (fold_left _ _ _) as [total breakdown] eqn:Efold.
  apply fee_steps in Efold as [Htotal Hbreak]. wp_step. wp_step. wp_step; [reflexivity|].
  match goal with H : saved_as _ ?r |- _ => assert (Hr : r.(FeeReportEntity.userId) = u /\ r.(FeeReportEntity.startDate) = a /\
     r.(FeeReportEntity.endDate) = b /\ r.(FeeReportEntity.totalFees) = total /\ r.(FeeReportEntity.feeBreakdown) = breakdown)
     by (destruct H; auto) end.
  destruct Hr as (-> & -> & -> & -> & ->). split; [apply in_upsert_self|]. split; [reflexivity|]. split; [exact Htotal | exact Hbreak].
Qed.

(** ** Rebalancing *)

(** Rebalancing suggests one action for each currency that is held or aimed
    at, and a move of more than a cent is never suggested as a hold. *)
Theorem rebalancing_covers_every_currency holdings targets total :
  let l := PortfolioService.computeRebalancing holdings targets total in
  List.NoDup (map sg_currency l) /\
  (forall c, In c (map sg_currency l) <-> In c (map fst holdings) \/ In c (map fst targets)) /\
  List.Forall (fun g =>
    sg_difference g = (total * default (num_of_Z 0) (get_of (sg_currency g) targets) -
                       default (num_of_Z 0) (get_of (sg_currency g) holdings))%num /\
    (sg_action g = buy <-> num_ltb PortfolioService.cent (sg_difference g) = true) /\
    (sg_action g = hold -> num_ltb PortfolioService.cent (sg_difference g) = false /\
                           num_ltb (sg_difference g) (- PortfolioService.cent)%num = false)) l.
Proof.
  cbv zeta. unfold PortfolioService.computeRebalancing.
  destruct (distinct_once (map fst holdings ++ map fst targets) []) as [Hnd Hin]. split; [|split].
  - rewrite map_map. cbn [sg_currency PortfolioService.suggest]. rewrite map_id. exact Hnd.
  - intros c. rewrite map_map. cbn [sg_currency PortfolioService.suggest]. rewrite map_id, Hin, in_app_iff. cbn [In]. tauto.
  - apply List.Forall_forall. intros g (c & <- & _)%in_map_iff. split; [reflexivity|].
    unfold PortfolioService.suggest. cbn [sg_action sg_difference].
    destruct (num_ltb PortfolioService.cent _) eqn:Hb; [split; [tauto | discriminate]|].
    destruct (num_ltb _ (- PortfolioService.cent)%num) eqn:Hs; split; try tauto; try discriminate; split; discriminate.
Qed.

(** ** Worked examples *)

Definition fee_paid (id user : string) (fee : Z) (at_ : Z) : Entry :=
  TransactionEntity.mk id None (num_of_Z 10) "USD" TxStatus.SUCCESS None
    (Some [("userId", JStr user); ("fee", JNum (num_of_Z fee))]) None None None None None None None None 0 false None false None at_ at_.

(** The report of alice has the fees of bob. *)
Example fee_report_counts_everybody :
  let s := ReportStore.mk demo_world [] [] [] [] [fee_paid "t1" "alice" 1 1699999999000; fee_paid "t2" "bob" 5 1699999999500] in
  match FeeReportsService.generate "alice" (mkGenerate "daily" None None) s with
  | (inr r, _) => num_to_string r.(FeeReportEntity.totalFees) = "6"
  | _ => False
  end.
Proof. vm_compute. reflexivity. Qed.

(** 31 January and a month is 3 March. *)
Example monthly_report_skips_february :
  toISOString (ScheduledReportsService.computeNextRun ReportFrequency.MONTHLY 1769817600000) = "2026-03-03T00:00:00.000Z".
Proof. vm_compute. reflexivity. Qed.

Example weeks_begin_on_monday : iso_day (ReportsService.week_of 1767225600000) = "2025-12-29".
Proof. vm_compute. reflexivity. Qed.
