(* ===== verification/KycTiers.v ===== *)
(** modules/kyc-tiers/: requests to climb the ladder of verification tiers, and
    their review.  The entity of its users is not in the repository: a user is
    any row with a [metadata] column. *)
From S2P Require Import Prelude JsNumber Effects RepositoryLaws JsData Json QueryBuilder.
Local Open Scope Z_scope.

Module KycTierUpgradeStatus.
Inductive KycTierUpgradeStatus : Type := pending | approved | rejected.
Definition eqb (a b : KycTierUpgradeStatus) : bool :=
  match a, b with
  | pending, pending | approved, approved | rejected, rejected => true
  | _, _ => false
  end.
Definition show (a : KycTierUpgradeStatus) : string :=
  match a with
  | pending => "pending"
  | approved => "approved"
  | rejected => "rejected"
  end.
Lemma KycTierUpgradeStatus_eqb_eq a b : eqb a b = true <-> a = b.
Proof. destruct a, b; simpl; split; congruence. Qed.
End KycTierUpgradeStatus.

(** modules/kyc-tiers/entities/kyc-tier-upgrade.entity.ts *)
Module KycTierUpgradeEntity.
Record KycTierUpgradeEntity : Type := mk {
  id : string;
  userId : string;
  currentTier : string;
  requestedTier : string;
  documents : list (string * json);
  status : KycTierUpgradeStatus.KycTierUpgradeStatus;
  reviewedBy : option string;
  reviewedAt : option Z;
  createdAt : Z;
  updatedAt : Z
}.
#[global] Instance settable : Settable KycTierUpgradeEntity := fun r =>
  mk r.(id) r.(userId) r.(currentTier) r.(requestedTier) r.(documents) r.(status)
     r.(reviewedBy) r.(reviewedAt) r.(createdAt) r.(updatedAt).
End KycTierUpgradeEntity.

#[global] Program Instance KycTierUpgradeEntity_row : Row KycTierUpgradeEntity.KycTierUpgradeEntity := {|
  row_id := KycTierUpgradeEntity.id;
  set_row_id i e := e <| KycTierUpgradeEntity.id := i |>;
  created t e := e <| KycTierUpgradeEntity.createdAt := t |> <| KycTierUpgradeEntity.updatedAt := t |>;
  touched t e := e <| KycTierUpgradeEntity.updatedAt := t |>;
  live e := true;
  clash a b := false
|}.

Notation Upgrade := KycTierUpgradeEntity.KycTierUpgradeEntity.
Notation Status := KycTierUpgradeStatus.KycTierUpgradeStatus.

(** What the service reads and writes of a user: an object or null. *)
Class TierUser (U : Type) `{Row U} : Type := {
  metadata : U -> option (list (string * json));
  with_metadata : list (string * json) -> U -> U
}.

Class TierUserLaws (U : Type) `{TierUser U} : Prop := {
  id_metadata : forall m u, row_id (with_metadata m u) = row_id u;
  get_metadata : forall m u, metadata (with_metadata m u) = Some m;
  metadata_touched : forall t u, metadata (touched t u) = metadata u
}.

(** The two tables the service is given. *)
Module TierStore.
Section Users.
Context {U : Type}.
Record TierStore : Type := mk {
  env : Env;
  upgrades : list Upgrade;
  users : list U
}.
End Users.
Arguments TierStore U : clear implicits.
End TierStore.

#[global] Program Instance TierStore_env {U} : HasEnv (TierStore.TierStore U) := {|
  env_of := TierStore.env;
  set_env e w := TierStore.mk e (TierStore.upgrades w) (TierStore.users w)
|}.

#[global] Program Instance TierStore_upgrades {U} : Table (TierStore.TierStore U) Upgrade := {|
  rows := TierStore.upgrades;
  set_rows t w := TierStore.mk (TierStore.env w) t (TierStore.users w)
|}.

#[global] Program Instance TierStore_users {U} `{Row U} : Table (TierStore.TierStore U) U := {|
  rows := TierStore.users;
  set_rows t w := TierStore.mk (TierStore.env w) (TierStore.upgrades w) t
|}.

Record RequestKycTierUpgradeDto : Type := mkRequest {
  requestedTier : string;
  documents : option (list (string * json))
}.
Record ListKycTierUpgradesDto : Type := mkList {
  l_status : option string;
  l_page : option Z;
  l_limit : option Z
}.

Definition TIER_LEVELS (tier : string) : option Z :=
  if String.eqb tier "NONE" then Some 0
  else if String.eqb tier "BASIC" then Some 1
  else if String.eqb tier "ADVANCED" then Some 2
  else if String.eqb tier "VERIFIED" then Some 3
  else None.

Module KycTiersService.
Section Service.
Context {U : Type} `{TierUser U}.
Notation S := (TierStore.TierStore U).

(** [(user.metadata?.kycTier as string) ?? 'NONE']. *)
Definition kycTier (user : U) : json :=
  match obj_get "kycTier" (default [] (metadata user)) with
  | None | Some JUndefined | Some JNull => JStr "NONE"
  | Some v => v
  end.

Definition is_pending (u : Upgrade) : bool :=
  KycTierUpgradeStatus.eqb u.(KycTierUpgradeEntity.status) KycTierUpgradeStatus.pending.
Definition pending_of (userId : string) (u : Upgrade) : bool :=
  String.eqb u.(KycTierUpgradeEntity.userId) userId && is_pending u.

Definition requestUpgrade (userId : string) (dto : RequestKycTierUpgradeDto) : M S Upgrade :=
  let* user := findOne (fun u : U => String.eqb (row_id u) userId) in
  match user with
  | None => throw (NotFoundException "User not found")
  | Some user =>
      match kycTier user with
      | JStr currentTier =>
          let currentLevel := default 0 (TIER_LEVELS (toUpperCase currentTier)) in
          match TIER_LEVELS (toUpperCase (requestedTier dto)) with
          | None => throw (BadRequestException ("Invalid tier: " +:+ requestedTier dto))
          | Some requestedLevel =>
              throw_if (requestedLevel <=? currentLevel)
                (BadRequestException "Requested tier must be higher than current tier") ;;;
              let* pending := findOne (pending_of userId) in
              throw_if (match pending with Some _ => true | None => false end)
                (BadRequestException "You already have a pending tier upgrade request") ;;;
              save (KycTierUpgradeEntity.mk "" userId currentTier (toUpperCase (requestedTier dto))
                      (default [] (documents dto)) KycTierUpgradeStatus.pending None None 0 0)
          end
      | _ => throw (JsError "TypeError" "currentTier.toUpperCase is not a function")
      end
  end.

Definition getStatus (userId : string) : M S (option Upgrade) :=
  findOne_desc (fun u => String.eqb u.(KycTierUpgradeEntity.userId) userId) KycTierUpgradeEntity.createdAt.

Definition listed (dto : ListKycTierUpgradesDto) (u : Upgrade) : bool :=
  and_where (l_status dto) str_truthy (String.eqb (KycTierUpgradeStatus.show u.(KycTierUpgradeEntity.status))).

Definition listUpgrades (dto : ListKycTierUpgradesDto) : M S (list Upgrade * Z * Z * Z) :=
  let page := default 1 (l_page dto) in
  let limit := default 20 (l_limit dto) in
  let* ' (data, total) := getManyAndCount (listed dto) KycTierUpgradeEntity.createdAt ((page - 1) * limit) limit in
  ret (data, total, page, limit).

(** The request an administrator decides on. *)
Definition reviewed (id verb : string) : M S Upgrade :=
  let* upgrade := findOne (fun u : Upgrade => String.eqb u.(KycTierUpgradeEntity.id) id) in
  match upgrade with
  | None => throw (NotFoundException "KYC tier upgrade request not found")
  | Some upgrade =>
      throw_if (negb (is_pending upgrade)) (BadRequestException ("Only pending requests can be " +:+ verb)) ;;;
      ret upgrade
  end.

(** [upgrade.status = ...; upgrade.reviewedBy = adminId; upgrade.reviewedAt = new Date()]:
    an undefined [adminId] leaves the column. *)
Definition stamped (st : Status) (adminId : option string) (now : Z) (upgrade : Upgrade) : Upgrade :=
  let upgrade1 := upgrade <| KycTierUpgradeEntity.status := st |> <| KycTierUpgradeEntity.reviewedAt := Some now |> in
  match adminId with
  | Some a => upgrade1 <| KycTierUpgradeEntity.reviewedBy := Some a |>
  | None => upgrade1
  end.

(** The request is stored before the user it is about. *)
Definition approve (id : string) (adminId : option string) : M S Upgrade :=
  let* upgrade := reviewed id "approved" in
  let* now := date_now in
  let* saved := save (stamped KycTierUpgradeStatus.approved adminId now upgrade) in
  let* user := findOne (fun u : U => String.eqb (row_id u) upgrade.(KycTierUpgradeEntity.userId)) in
  match user with
  | None => ret saved
  | Some user =>
      save (with_metadata (obj_set "kycTier" (JStr upgrade.(KycTierUpgradeEntity.requestedTier))
                             (default [] (metadata user))) user) ;;;
      ret saved
  end.

Definition reject (id : string) (adminId reason : option string) : M S Upgrade :=
  let* upgrade := reviewed id "rejected" in
  let* now := date_now in
  let rejected := stamped KycTierUpgradeStatus.rejected adminId now upgrade in
  save (rejected <| KycTierUpgradeEntity.documents :=
          obj_set "rejectionReason" (jopt reason) upgrade.(KycTierUpgradeEntity.documents) |>).
End Service.
End KycTiersService.

(** ** Tiers only climb *)

(** What a client or an administrator may ask of the service. *)
Inductive TierOp : Type :=
  | RequestUpgrade (userId : string) (dto : RequestKycTierUpgradeDto)
  | GetStatus (userId : string)
  | ListUpgrades (dto : ListKycTierUpgradesDto)
  | Approve (id : string) (adminId : option string)
  | Reject (id : string) (adminId reason : option string).

Section Climbing.
Context {U : Type} `{HL : TierUserLaws U}.
Notation S := (TierStore.TierStore U).

Definition tier_op (op : TierOp) : M S unit :=
  match op with
  | RequestUpgrade u dto => KycTiersService.requestUpgrade u dto ;;; ret tt
  | GetStatus u => KycTiersService.getStatus u ;;; ret tt
  | ListUpgrades dto => KycTiersService.listUpgrades dto ;;; ret tt
  | Approve id a => KycTiersService.approve id a ;;; ret tt
  | Reject id a r => KycTiersService.reject id a r ;;; ret tt
  end.

(** Requests one after the other, each answered with a value or an error. *)
Definition tier_ops (ops : list TierOp) : M S unit := for_each ops (fun op => attempt (tier_op op) ;;; ret tt).

Definition tier_rank (tier : string) : Z := default 0 (TIER_LEVELS (toUpperCase tier)).
Definition tier_level (u : U) : Z :=
  match KycTiersService.kycTier u with JStr t => tier_rank t | _ => 0 end.

(** The requests and the users agree: keys are distinct, whatever was asked is
    on the ladder above what the user had, nobody has two requests pending, and
    a pending request records the tier its user still has. *)
Record on_ladder (us : list Upgrade) (t : list U) : Prop := {
  ol_keys : NoDup (map row_id us);
  ol_named : Forall (fun p : Upgrade => row_id p <> "") us;
  ol_users : NoDup (map row_id t);
  ol_higher : forall p, In p us ->
    tier_rank p.(KycTierUpgradeEntity.currentTier) < tier_rank p.(KycTierUpgradeEntity.requestedTier);
  ol_one : forall p q, In p us -> In q us -> KycTiersService.is_pending p = true -> KycTiersService.is_pending q = true ->
    p.(KycTierUpgradeEntity.userId) = q.(KycTierUpgradeEntity.userId) -> row_id p = row_id q;
  ol_recorded : forall p u, In p us -> In u t -> KycTiersService.is_pending p = true ->
    row_id u = p.(KycTierUpgradeEntity.userId) -> KycTiersService.kycTier u = JStr p.(KycTierUpgradeEntity.currentTier)
}.

Definition ladder (s : S) : Prop := on_ladder (TierStore.upgrades s) (TierStore.users s).

Definition climbs (s s' : S) : Prop :=
  ladder s -> ladder s' /\
  forall u, In u (TierStore.users s) ->
    exists u', In u' (TierStore.users s') /\ row_id u' = row_id u /\ tier_level u <= tier_level u'.

#[local] Instance climbs_preorder : PreOrder climbs.
Proof.
  split; [intros s Hs; split; [exact Hs | intros u Hu; exists u; repeat split; [exact Hu | lia]]|].
  intros s1 s2 s3 H12 H23 H1. destruct (H12 H1) as [H2 U12], (H23 H2) as [H3 U23]. split; [exact H3|].
  intros u Hu. destruct (U12 u Hu) as (u2 & Hu2 & I2 & L2), (U23 u2 Hu2) as (u3 & Hu3 & I3 & L3).
  exists u3. repeat split; [exact Hu3 | congruence | lia].
Qed.
#[local] Instance climbs_env : EnvStable climbs.
Proof. intros s e _ Hs. split; [exact Hs | intros u Hu; exists u; repeat split; [exact Hu | lia]]. Qed.

(** A step that leaves the users alone. *)
Lemma climbs_upgrades s e us :
  (ladder s -> on_ladder us (TierStore.users s)) -> climbs s (TierStore.mk e us (TierStore.users s)).
Proof. intros Hl Hs. split; [exact (Hl Hs) | intros u Hu; exists u; repeat split; [exact Hu | lia]]. Qed.

Lemma on_ladder_asked us t (r : Upgrade) u :
  on_ladder us t -> existsb (same_row r) us = false -> row_id r <> "" -> In u t ->
  row_id u = r.(KycTierUpgradeEntity.userId) -> KycTiersService.kycTier u = JStr r.(KycTierUpgradeEntity.currentTier) ->
  tier_rank r.(KycTierUpgradeEntity.currentTier) < tier_rank r.(KycTierUpgradeEntity.requestedTier) ->
  (forall p, In p us -> KycTiersService.is_pending p = true ->
     p.(KycTierUpgradeEntity.userId) <> r.(KycTierUpgradeEntity.userId)) ->
  on_ladder (upsert r us) t.
Proof.
  intros [Hk Hn Hu Hh Ho Hr] Hnew Hne Hin Hid Ht Hup Hnone. split; auto using NoDup_upsert, Forall_upsert.
  - intros p [->|[Hp _]]%in_upsert; auto.
  - intros p q [->|[Hp _]]%in_upsert [->|[Hq _]]%in_upsert Pp Pq E; auto; exfalso.
    + exact (Hnone q Hq Pq (eq_sym E)).
    + exact (Hnone p Hp Pp E).
  - intros p v [->|[Hp _]]%in_upsert Hv Pp E; [|eauto].
    rewrite (NoDup_row_id_inj t v u Hu Hv Hin) by congruence. exact Ht.
Qed.

Lemma on_ladder_decided us t (p r : Upgrade) :
  on_ladder us t -> In p us -> KycTiersService.is_pending r = false -> row_id r = row_id p ->
  r.(KycTierUpgradeEntity.currentTier) = p.(KycTierUpgradeEntity.currentTier) ->
  r.(KycTierUpgradeEntity.requestedTier) = p.(KycTierUpgradeEntity.requestedTier) ->
  on_ladder (upsert r us) t.
Proof.
  intros [Hk Hn Hu Hh Ho Hr] Hp Hd Hid Hc Hq. split; auto using NoDup_upsert.
  - apply Forall_upsert; [exact Hn|]. rewrite Hid. rewrite List.Forall_forall in Hn. auto.
  - intros q [->|[Hin _]]%in_upsert; [rewrite Hc, Hq; auto | auto].
  - intros x y [->|[Hx _]]%in_upsert [->|[Hy _]]%in_upsert Px Py; try congruence; auto.
  - intros x v [->|[Hx _]]%in_upsert Hv Px; [congruence | eauto].
Qed.

Lemma on_ladder_granted us t (u' : U) :
  on_ladder us t ->
  (forall p, In p us -> KycTiersService.is_pending p = true -> p.(KycTierUpgradeEntity.userId) <> row_id u') ->
  on_ladder us (upsert u' t).
Proof.
  intros [Hk Hn Hu Hh Ho Hr] Hnone. split; auto using NoDup_upsert.
  intros p v Hp [->|[Hv _]]%in_upsert Pp E; [exfalso; exact (Hnone p Hp Pp (eq_sym E)) | eauto].
Qed.

(** Saving a user found in the table under a tier that is not lower. *)
Lemma climbs_user s e (u u' : U) :
  (ladder s -> forall p, In p (TierStore.upgrades s) -> KycTiersService.is_pending p = true ->
     p.(KycTierUpgradeEntity.userId) <> row_id u') ->
  In u (TierStore.users s) -> row_id u' = row_id u -> (ladder s -> tier_level u <= tier_level u') ->
  climbs s (TierStore.mk e (TierStore.upgrades s) (upsert u' (TierStore.users s))).
Proof.
  intros Hnone Hin Hid Hle Hs. split; [apply on_ladder_granted; auto|]. intros v Hv.
  destruct (String.eqb_spec (row_id v) (row_id u')) as [E|E].
  - exists u'. split; [apply in_upsert_self|]. split; [congruence|].
    rewrite (NoDup_row_id_inj (TierStore.users s) v u (ol_users _ _ Hs)) by (auto; congruence). auto.
  - exists v. split; [apply in_upsert_other; auto|]. split; [reflexivity | lia].
Qed.

Lemma kycTier_granted t m u : KycTiersService.kycTier (with_metadata (obj_set "kycTier" (JStr t) m) u) = JStr t.
Proof.
  unfold KycTiersService.kycTier. rewrite get_metadata.
  cbv beta iota delta [default from_option id]. rewrite obj_get_set. reflexivity.
Qed.

Lemma kycTier_touched t u : KycTiersService.kycTier (touched t u) = KycTiersService.kycTier u.
Proof. unfold KycTiersService.kycTier. rewrite metadata_touched. reflexivity. Qed.

Lemma climbs_of_wp {A} (m : M S A) :
  (forall s, ladder s -> wp m (fun _ s' => climbs s s') (fun _ s' => climbs s s') s) -> keeps climbs m.
Proof. intros Hm s Hs. exact (wp_elim m (fun p => climbs s p.2) s (Hm s Hs) Hs). Qed.

Lemma climbs_same s s' :
  TierStore.upgrades s' = TierStore.upgrades s -> TierStore.users s' = TierStore.users s -> climbs s s'.
Proof.
  intros Hu Ht Hs. unfold ladder. rewrite Hu, Ht. split; [exact Hs|].
  intros u Hin. exists u. repeat split; [exact Hin | lia].
Qed.

Lemma requestUpgrade_climbs userId dto : keeps climbs (KycTiersService.requestUpgrade userId dto).
Proof.
  apply climbs_of_wp. intros s Hs. unfold KycTiersService.requestUpgrade.
  wp_step. wp_step; [apply climbs_same; reflexivity|].
  destruct (List.find _ _) as [u|] eqn:Hf; [|wp_step; apply climbs_same; reflexivity].
  apply find_live_some in Hf as (Hin & _ & Hid%String.eqb_eq).
  destruct (KycTiersService.kycTier u) as [| | | |t| |] eqn:Ht; try (wp_step; apply climbs_same; reflexivity).
  cbv zeta. destruct (TIER_LEVELS (toUpperCase (requestedTier dto))) as [l|] eqn:Hl; [|wp_step; apply climbs_same; reflexivity].
  wp_step. wp_step; [apply climbs_same; reflexivity|]. match goal with Hb : (_ <=? _) = false |- _ => rename Hb into Hup; apply Z.leb_gt in Hup end.
  wp_step. wp_step; [apply climbs_same; reflexivity|]. wp_step. wp_step; [apply climbs_same; reflexivity|].
  wp_step; [apply climbs_same; reflexivity|].
  match goal with Hp : match ?f with _ => _ end = false |- _ => destruct f eqn:Hnone; [discriminate Hp|] end.
  match goal with Hsv : saved_as ?r0 ?r |- _ => rename Hsv into Hr; rename r into req end.
  match goal with Hi : _ -> _ <> "" /\ _ |- _ => rename Hi into Hins end.
  assert (Hno : existsb (same_row (KycTierUpgradeEntity.mk "" userId t (toUpperCase (requestedTier dto))
                  (default [] (documents dto)) KycTierUpgradeStatus.pending None None 0 0)) (rows s) = false).
  { apply not_true_iff_false. intros (p & Hp & Hpe%String.eqb_eq)%existsb_exists.
    pose proof (ol_named _ _ Hs) as Hne. rewrite List.Forall_forall in Hne. exact (Hne p Hp (eq_sym Hpe)). }
  destruct (Hins Hno) as [Hne Hnew]. match goal with |- climbs s (set_rows _ (set_env ?e _)) =>
    change (climbs s (TierStore.mk e (upsert req (TierStore.upgrades s)) (TierStore.users s))) end.
  apply climbs_upgrades. intros Hol.
  apply (on_ladder_asked _ _ req u Hol Hnew Hne Hin).
  - destruct Hr; exact Hid.
  - destruct Hr; exact Ht.
  - unfold tier_rank. destruct Hr; cbn; rewrite toUpperCase_idem, Hl; exact Hup.
  - intros p Hp Pp E. pose proof (List.find_none _ _ Hnone p Hp) as Hnp. cbn in Hnp.
    unfold KycTiersService.pending_of in Hnp. rewrite Pp, E in Hnp. destruct Hr; cbn in Hnp; rewrite String.eqb_refl in Hnp; discriminate.
Qed.

(** The request under review is pending, and what is stored in its place is not. *)
Lemma reviewed_spec id verb (s : S) :
  wp (KycTiersService.reviewed id verb)
     (fun p s' => exists e, s' = set_env e s /\ In p (TierStore.upgrades s) /\ KycTiersService.is_pending p = true)
     (fun _ s' => exists e, s' = set_env e s) s.
Proof.
  unfold KycTiersService.reviewed. wp_step. wp_step; [eexists; reflexivity|].
  destruct (List.find _ _) as [p|] eqn:Hf; [|wp_step; eexists; reflexivity].
  apply find_live_some in Hf as (Hin & _). wp_step. wp_step; [eexists; reflexivity|]. wp_step.
  eexists. split; [reflexivity|]. split; [exact Hin|]. apply negb_false_iff. assumption.
Qed.

Lemma on_ladder_stamped us t (p r r' : Upgrade) st adminId now :
  on_ladder us t -> In p us -> st <> KycTierUpgradeStatus.pending ->
  (exists d, r = (KycTiersService.stamped st adminId now p) <| KycTierUpgradeEntity.documents := d |>) ->
  (exists t', r' = touched t' r) -> on_ladder (upsert r' us) t.
Proof.
  intros Hol Hp Hst [d ->] [t' ->]. apply (on_ladder_decided us t p); [exact Hol | exact Hp | ..];
    destruct adminId, st; try reflexivity; congruence.
Qed.

Lemma reject_climbs id adminId reason : keeps climbs (KycTiersService.reject id adminId reason).
Proof.
  apply climbs_of_wp. intros s Hs. unfold KycTiersService.reject. wp_step.
  eapply wp_mono; [apply reviewed_spec | cbv beta | cbv beta; intros x s' [e ->]; apply climbs_same; reflexivity].
  intros p s' (e & -> & Hin & Hp). wp_step. wp_step. cbv zeta. apply wp_save_existing.
  - apply existsb_exists. exists p. split; [exact Hin|]. apply same_row_true. destruct adminId; reflexivity.
  - reflexivity.
  - intros. apply climbs_same; reflexivity.
  - intros e2 t _. match goal with |- climbs s (set_rows (upsert ?r _) (set_env ?e _)) =>
      change (climbs s (TierStore.mk e (upsert r (TierStore.upgrades s)) (TierStore.users s))) end.
    apply climbs_upgrades. intros Hol. eapply (on_ladder_stamped _ _ p _ _ _ adminId);
      [exact Hol | exact Hin | | eexists; reflexivity | eexists; reflexivity]. discriminate.
Qed.

(** Once the request is decided its user has none pending. *)
Lemma decided_none us t (p r : Upgrade) :
  on_ladder us t -> In p us -> KycTiersService.is_pending p = true ->
  KycTiersService.is_pending r = false -> row_id r = row_id p ->
  forall q, In q (upsert r us) -> KycTiersService.is_pending q = true ->
  q.(KycTierUpgradeEntity.userId) <> p.(KycTierUpgradeEntity.userId).
Proof.
  intros Hol Hin Hp Hr Hid q [->|[Hq Hne]]%in_upsert Pq E; [congruence|].
  apply Hne. rewrite Hid. exact (ol_one _ _ Hol q p Hq Hin Pq Hp E).
Qed.

Lemma approve_climbs id adminId : keeps climbs (KycTiersService.approve id adminId).
Proof.
  apply climbs_of_wp. intros s Hs. unfold KycTiersService.approve. wp_step.
  eapply wp_mono; [apply reviewed_spec | cbv beta | cbv beta; intros x s' [e ->]; apply climbs_same; reflexivity].
  intros p s' (e & -> & Hin & Hp). wp_step. wp_step. wp_step. apply wp_save_existing.
  - apply existsb_exists. exists p. split; [exact Hin|]. apply same_row_true. destruct adminId; reflexivity.
  - reflexivity.
  - intros. apply climbs_same; reflexivity.
  - intros e2 t _.
    match goal with |- wp _ _ _ (set_rows (upsert ?r0 _) (set_env ?e0 _)) =>
      set (r := r0); change (rows (set_env _ _)) with (TierStore.upgrades s);
      set (s1 := TierStore.mk e0 (upsert r (TierStore.upgrades s)) (TierStore.users s)) end.
    assert (Hr : KycTiersService.is_pending r = false /\ row_id r = row_id p) by (unfold r; destruct adminId; split; reflexivity).
    assert (Hs1 : climbs s s1).
    { apply climbs_upgrades. intros Hol. unfold r. apply (on_ladder_decided _ _ p); destruct adminId; auto. }
    destruct Hr as [Hr Hrid].
    assert (Hend : forall s2, TierStore.upgrades s2 = TierStore.upgrades s1 -> TierStore.users s2 = TierStore.users s1 -> climbs s s2).
    { intros s2 E1 E2. transitivity s1; [exact Hs1 | apply climbs_same; assumption]. }
    wp_step. wp_step; [apply Hend; reflexivity|].
    destruct (List.find _ _) as [u|] eqn:Hf; [|wp_step; apply Hend; reflexivity].
    apply find_live_some in Hf as (Hu & _ & Hid%String.eqb_eq).
    assert (Hu' : In u (TierStore.users s)) by exact Hu.
    wp_step. apply wp_save; [intros; apply Hend; reflexivity|].
    intros e3 u' _ _ _ Ht _. wp_step.
    destruct Ht as [t' ->].
    { apply existsb_exists. exists u. split; [exact Hu|]. apply same_row_true, id_metadata. }
    match goal with |- climbs s (set_rows (upsert ?v _) _) =>
      change (climbs s (TierStore.mk e3 (TierStore.upgrades s1) (upsert v (TierStore.users s1)))) end.
    transitivity s1; [exact Hs1|]. apply (climbs_user s1 e3 u).
    + intros _ q Hq Pq. rewrite row_id_touched, id_metadata, Hid.
      exact (decided_none _ _ p r Hs Hin Hp Hr Hrid q Hq Pq).
    + exact Hu'.
    + rewrite row_id_touched. apply id_metadata.
    + intros _. unfold tier_level. rewrite kycTier_touched, kycTier_granted.
      rewrite (ol_recorded _ _ Hs p u Hin Hu' Hp Hid). pose proof (ol_higher _ _ Hs p Hin). lia.
Qed.

Lemma tier_op_climbs op : keeps climbs (tier_op op).
Proof.
  destruct op as [u dto|u|dto|id a|id a r]; simpl; apply keeps_bind;
    auto using requestUpgrade_climbs, approve_climbs, reject_climbs, keeps_ret with typeclass_instances.
  - apply keeps_findOne_desc; typeclasses eauto.
  - unfold KycTiersService.listUpgrades, getManyAndCount. keeps_auto.
Qed.

(** An approval that is answered has given the user the tier they asked for. *)
Theorem approve_grants id adminId (s : S) :
  NoDup (map row_id (TierStore.users s)) ->
  wp (KycTiersService.approve id adminId)
     (fun p s' => p.(KycTierUpgradeEntity.status) = KycTierUpgradeStatus.approved /\
        forall u, In u (TierStore.users s) -> live u = true -> row_id u = p.(KycTierUpgradeEntity.userId) ->
        exists u', In u' (TierStore.users s') /\ row_id u' = row_id u /\
                   KycTiersService.kycTier u' = JStr p.(KycTierUpgradeEntity.requestedTier))
     (fun _ _ => True) s.
Proof.
  intros Hnd. unfold KycTiersService.approve. wp_step.
  eapply wp_mono; [apply reviewed_spec | cbv beta | auto]. intros p s' (e & -> & Hin & _).
  wp_step. wp_step. wp_step. apply wp_save_existing; [|reflexivity|auto|].
  { apply existsb_exists. exists p. split; [exact Hin|]. apply same_row_true. destruct adminId; reflexivity. }
  intros e2 t _. wp_step. wp_step; [exact I|]. destruct (List.find _ _) as [u|] eqn:Hf.
  - apply find_live_some in Hf as (Hu & _ & Hid%String.eqb_eq).
    assert (Hu' : In u (TierStore.users s)) by exact Hu.
    wp_step. apply wp_save; [auto|]. intros e3 u' _ _ _ Ht _. wp_step. split; [destruct adminId; reflexivity|].
    intros v Hv _ Ev. destruct Ht as [t' ->].
    { apply existsb_exists. exists u. split; [exact Hu|]. apply same_row_true, id_metadata. }
    exists (touched t' (with_metadata (obj_set "kycTier" (JStr p.(KycTierUpgradeEntity.requestedTier)) (default [] (metadata u))) u)).
    split; [apply in_upsert_self|]. rewrite row_id_touched, id_metadata, kycTier_touched, kycTier_granted.
    split; [|destruct adminId; reflexivity]. rewrite Hid, Ev. destruct adminId; reflexivity.
  - wp_step. split; [destruct adminId; reflexivity|]. intros v Hv Hl Ev. exfalso.
    pose proof (List.find_none _ _ Hf v Hv) as Hn. cbn beta in Hn. rewrite Hl, Ev in Hn.
    destruct adminId; simpl in Hn; rewrite String.eqb_refl in Hn; discriminate.
Qed.

(** C26 Whatever is asked of the service, in whatever order and however its
    calls fail, nobody's tier goes down; what was asked stays above what the user
    had, nobody has two requests pending, and a pending request records the tier
    its user still has.  (An approval that fails half-way leaves the request
    approved and the user where they were.) *)
Theorem tiers_only_climb (ops : list TierOp) (s : S) :
  ladder s ->
  let s' := (tier_ops ops s).2 in
  ladder s' /\
  forall u, In u (TierStore.users s) ->
    exists u', In u' (TierStore.users s') /\ row_id u' = row_id u /\ tier_level u <= tier_level u'.
Proof.
  intros Hs. refine (keeps_for_each climbs ops _ _ s Hs). intros op _.
  apply keeps_bind; [typeclasses eauto | apply keeps_attempt, tier_op_climbs | intros _; apply keeps_ret; typeclasses eauto].
Qed.
End Climbing.

(** ** A worked state *)

Record DemoUser : Type := mkDemoUser { du_id : string; du_meta : option (list (string * json)) }.
#[local] Program Instance demo_user_row : Row DemoUser := {|
  row_id := du_id; set_row_id i u := mkDemoUser i (du_meta u);
  created t u := u; touched t u := u; live u := true; clash a b := false
|}.
#[local] Instance demo_tier_user : TierUser DemoUser := {|
  metadata := du_meta; with_metadata m u := mkDemoUser (du_id u) (Some m)
|}.
#[local] Program Instance demo_tier_laws : TierUserLaws DemoUser.

(** The [n]-th call fails. *)
Definition tier_env (n : nat) : Env :=
  mkEnv (fun _ => 1000) 0 (fun k => if Nat.eqb k n then Some (PlainError "connection lost") else None) 0
        (fun n => ("k"%char, string_of_N (N.of_nat n))) 0 (fun _ => num_of_ratio 1 2) 0 [].
Definition tier_start (n : nat) : TierStore.TierStore DemoUser :=
  TierStore.mk (tier_env n) [] [mkDemoUser "ana" None].
Definition climb_once : list TierOp :=
  [RequestUpgrade "ana" (mkRequest "basic" None); RequestUpgrade "ana" (mkRequest "VERIFIED" None);
   Approve "k0" (Some "admin"); RequestUpgrade "ana" (mkRequest "Basic" None)].

Lemma tier_start_ladder n : ladder (tier_start n).
Proof. split; simpl; [apply NoDup_nil; exact I | constructor | apply NoDup_singleton | easy..]. Qed.

Lemma tiers_only_climb_witness :
  let s' := (tier_ops climb_once (tier_start 99)).2 in
  map (fun u => KycTiersService.kycTier u) (TierStore.users s') = [JStr "BASIC"] /\
  length (TierStore.upgrades s') = 1%nat /\
  (ladder s' /\
   forall u, In u (TierStore.users (tier_start 99)) ->
     exists u', In u' (TierStore.users s') /\ row_id u' = row_id u /\ tier_level u <= tier_level u').
Proof.
  split; [vm_compute; reflexivity|]. split; [vm_compute; reflexivity|].
  apply (tiers_only_climb climb_once (tier_start 99)). apply tier_start_ladder.
Defined.

(** An approval whose second write fails: the request is approved, the user has
    the tier they had, and the request can no longer be reviewed. *)
Example half_approved :
  let s' := (tier_ops [RequestUpgrade "ana" (mkRequest "BASIC" None); Approve "k0" None; Approve "k0" None] (tier_start 6)).2 in
  map (fun p => p.(KycTierUpgradeEntity.status)) (TierStore.upgrades s') = [KycTierUpgradeStatus.approved] /\
  map (fun u => KycTiersService.kycTier u) (TierStore.users s') = [JStr "NONE"].
Proof. vm_compute. auto. Qed.
