(* ===== verification/Subscriptions.v ===== *)
(** modules/webhooks/: subscriptions to the platform's events, and the delivery
    of an event to each of them.  The catalogue of events, the signature, the
    fields of an update and the axios call are not in the repository: each is a
    parameter. *)
From S2P Require Import Prelude JsNumber Effects RepositoryLaws JsData Json ThirdParty.
Local Open Scope Z_scope.

Module WebhookStatus.
Inductive WebhookStatus : Type := active | disabled.
Definition eqb (a b : WebhookStatus) : bool :=
  match a, b with
  | active, active | disabled, disabled => true
  | _, _ => false
  end.
Definition show (a : WebhookStatus) : string :=
  match a with
  | active => "active"
  | disabled => "disabled"
  end.
Lemma WebhookStatus_eqb_eq a b : eqb a b = true <-> a = b.
Proof. destruct a, b; simpl; split; congruence. Qed.
End WebhookStatus.

Module WebhookDeliveryStatus.
Inductive WebhookDeliveryStatus : Type := pending | delivered | failed | success.
Definition eqb (a b : WebhookDeliveryStatus) : bool :=
  match a, b with
  | pending, pending | delivered, delivered | failed, failed | success, success => true
  | _, _ => false
  end.
Definition show (a : WebhookDeliveryStatus) : string :=
  match a with
  | pending => "pending"
  | delivered => "delivered"
  | failed => "failed"
  | success => "success"
  end.
Lemma SubscriptionDeliveryStatus_eqb_eq a b : eqb a b = true <-> a = b.
Proof. destruct a, b; simpl; split; congruence. Qed.
End WebhookDeliveryStatus.

(** modules/webhooks/entities/webhook-subscription.entity.ts *)
Module WebhookSubscriptionEntity.
Record WebhookSubscriptionEntity : Type := mk {
  id : string;
  userId : option string;
  url : string;
  events : list string;
  secret : string;
  isActive : bool;
  status : WebhookStatus.WebhookStatus;
  createdAt : Z;
  updatedAt : Z
}.
#[global] Instance settable : Settable WebhookSubscriptionEntity := fun r =>
  mk r.(id) r.(userId) r.(url) r.(events) r.(secret) r.(isActive) r.(status) r.(createdAt)
     r.(updatedAt).
End WebhookSubscriptionEntity.

#[global] Program Instance WebhookSubscriptionEntity_row : Row WebhookSubscriptionEntity.WebhookSubscriptionEntity := {|
  row_id := WebhookSubscriptionEntity.id;
  set_row_id i e := e <| WebhookSubscriptionEntity.id := i |>;
  created t e := e <| WebhookSubscriptionEntity.createdAt := t |> <| WebhookSubscriptionEntity.updatedAt := t |>;
  touched t e := e <| WebhookSubscriptionEntity.updatedAt := t |>;
  live e := true;
  clash a b := String.eqb a.(WebhookSubscriptionEntity.url) b.(WebhookSubscriptionEntity.url)
|}.

(** modules/webhooks/entities/webhook-delivery.entity.ts *)
Module WebhookDeliveryEntity.
Record WebhookDeliveryEntity : Type := mk {
  id : string;
  subscriptionId : string;
  eventName : string;
  payload : list (string * json);
  signature : option string;
  status : WebhookDeliveryStatus.WebhookDeliveryStatus;
  attempts : Z;
  lastHttpStatus : option Z;
  lastError : option string;
  lastAttemptAt : option Z;
  nextRetryAt : option Z;
  createdAt : Z;
  updatedAt : Z
}.
#[global] Instance settable : Settable WebhookDeliveryEntity := fun r =>
  mk r.(id) r.(subscriptionId) r.(eventName) r.(payload) r.(signature) r.(status)
     r.(attempts) r.(lastHttpStatus) r.(lastError) r.(lastAttemptAt) r.(nextRetryAt)
     r.(createdAt) r.(updatedAt).
End WebhookDeliveryEntity.

#[global] Program Instance WebhookDeliveryEntity_row : Row WebhookDeliveryEntity.WebhookDeliveryEntity := {|
  row_id := WebhookDeliveryEntity.id;
  set_row_id i e := e <| WebhookDeliveryEntity.id := i |>;
  created t e := e <| WebhookDeliveryEntity.createdAt := t |> <| WebhookDeliveryEntity.updatedAt := t |>;
  touched t e := e <| WebhookDeliveryEntity.updatedAt := t |>;
  live e := true;
  clash a b := false
|}.

Module SubscriptionStore.
Record SubscriptionStore : Type := mk {
  env : Env;
  subscriptions : list WebhookSubscriptionEntity.WebhookSubscriptionEntity;
  deliveries : list WebhookDeliveryEntity.WebhookDeliveryEntity
}.
#[global] Instance settable : Settable SubscriptionStore := fun r =>
  mk r.(env) r.(subscriptions) r.(deliveries).
End SubscriptionStore.

#[global] Program Instance SubscriptionStore_env : HasEnv SubscriptionStore.SubscriptionStore := {|
  env_of := SubscriptionStore.env;
  set_env e w := w <| SubscriptionStore.env := e |>
|}.

#[global] Program Instance SubscriptionStore_subscriptions : Table SubscriptionStore.SubscriptionStore WebhookSubscriptionEntity.WebhookSubscriptionEntity := {|
  rows := SubscriptionStore.subscriptions;
  set_rows t w := w <| SubscriptionStore.subscriptions := t |>
|}.

#[global] Program Instance SubscriptionStore_deliveries : Table SubscriptionStore.SubscriptionStore WebhookDeliveryEntity.WebhookDeliveryEntity := {|
  rows := SubscriptionStore.deliveries;
  set_rows t w := w <| SubscriptionStore.deliveries := t |>
|}.

Notation Store := SubscriptionStore.SubscriptionStore.
Notation Subscription := WebhookSubscriptionEntity.WebhookSubscriptionEntity.
Notation Delivery := WebhookDeliveryEntity.WebhookDeliveryEntity.

(** What the module imports from files the repository does not have, and the
    answer of the [n]-th POST: a status code, or the status of the response (if
    there was one) and a message. *)
Class WebhookPlatform (D : Type) : Type := {
  WEBHOOK_EVENT_NAMES : list string;
  signWebhookPayload : string -> string -> string -> string;
  axios_post : nat -> string -> json -> list (string * string) -> (option Z * string) + Z;
  dto_events : D -> option (list string);
  dto_assign : D -> Subscription -> Subscription
}.

(** An update keeps the key and the generated columns. *)
Class WebhookPlatformLaws (D : Type) `{WebhookPlatform D} : Prop := {
  id_dto_assign : forall d e, row_id (dto_assign d e) = row_id e
}.

Record CreateWebhookDto : Type := mkCreate {
  c_url : string;
  c_events : list string
}.

(** What a client sees of a subscription. *)
Record SubscriptionView : Type := mkView {
  v_id : string;
  v_url : string;
  v_events : list string;
  v_status : WebhookStatus.WebhookStatus;
  v_isActive : bool;
  v_createdAt : Z
}.

Definition view (s : Subscription) : SubscriptionView :=
  mkView s.(WebhookSubscriptionEntity.id) s.(WebhookSubscriptionEntity.url) s.(WebhookSubscriptionEntity.events)
         s.(WebhookSubscriptionEntity.status) s.(WebhookSubscriptionEntity.isActive) s.(WebhookSubscriptionEntity.createdAt).

Module WebhooksService.
Section Service.
Context {D : Type} `{WebhookPlatform D} `{Crypto}.

Definition supported (event : string) : bool := existsb (String.eqb event) WEBHOOK_EVENT_NAMES.

Definition normalizeEvents (events : list string) : exn + list string :=
  let normalizedEvents := distinct [] (map trim events) in
  let unsupportedEvents := List.filter (fun event => negb (supported event)) normalizedEvents in
  match unsupportedEvents with
  | [] => inr normalizedEvents
  | _ => inl (BadRequestException ("Unsupported webhook events: " +:+ join ", " unsupportedEvents))
  end.

(** The view, and the secret, which is shown this once. *)
Definition create (dto : CreateWebhookDto) (userId : option string) : M Store (SubscriptionView * string) :=
  let* draw := random_uuid in
  let secret := random_hex 32 draw in
  let* events := lift (normalizeEvents (c_events dto)) in
  let* saved := save (WebhookSubscriptionEntity.mk "" userId (c_url dto) events secret true WebhookStatus.active 0 0) in
  ret (view saved, secret).

Definition of_user (userId : option string) (s : Subscription) : bool :=
  match userId with
  | Some u => if str_truthy u then match s.(WebhookSubscriptionEntity.userId) with Some v => String.eqb v u | None => false end else true
  | None => true
  end.

Definition list_ (userId : option string) : M Store (list SubscriptionView) :=
  let* subs := find_desc (of_user userId) WebhookSubscriptionEntity.createdAt in
  ret (map view subs).

Definition by_id (id : string) (s : Subscription) : bool := String.eqb s.(WebhookSubscriptionEntity.id) id.

Definition toggle (id : string) : M Store SubscriptionView :=
  let* sub := findOne (by_id id) in
  match sub with
  | None => throw (NotFoundException ("Webhook subscription with ID " +:+ id +:+ " not found"))
  | Some sub =>
      let isActive := negb sub.(WebhookSubscriptionEntity.isActive) in
      let* updated := save (sub <| WebhookSubscriptionEntity.isActive := isActive |>
                                <| WebhookSubscriptionEntity.status :=
                                     if isActive then WebhookStatus.active else WebhookStatus.disabled |>) in
      ret (view updated)
  end.

(** [repo.update({ id }, update)] of a column with a unique index. *)
Definition update_unique (id : string) (f : Subscription -> Subscription) : M Store unit :=
  let* t := gets (fun s => List.filter (by_id id) s.(SubscriptionStore.subscriptions)) in
  let* all := gets SubscriptionStore.subscriptions in
  if existsb (fun e => violates (f e) all) t then db_call ;;; throw unique_violation
  else update_rows (by_id id) f.

Definition update (id : string) (dto : D) : M Store (option SubscriptionView) :=
  let* normalized := match dto_events dto with
                     | Some events => let* l := lift (normalizeEvents events) in ret (Some l)
                     | None => ret None
                     end in
  update_unique id (fun e => match normalized with
                             | Some l => (dto_assign dto e) <| WebhookSubscriptionEntity.events := l |>
                             | None => dto_assign dto e
                             end) ;;;
  let* updated := findOne (by_id id) in
  ret (option_map view updated).

Definition listens (eventName : string) (s : Subscription) : bool :=
  WebhookStatus.eqb s.(WebhookSubscriptionEntity.status) WebhookStatus.active &&
  s.(WebhookSubscriptionEntity.isActive) &&
  existsb (String.eqb eventName) s.(WebhookSubscriptionEntity.events).

Definition getActiveSubscriptionsForEvent (eventName : string) : M Store (list Subscription) :=
  find_all (listens eventName).

Definition getSecretByDeliveryId (deliveryId : string) : M Store (option string) :=
  let* delivery := findOne (fun d : Delivery => String.eqb d.(WebhookDeliveryEntity.id) deliveryId) in
  match delivery with
  | None => ret None
  | Some d =>
      let* subscription := findOne (by_id d.(WebhookDeliveryEntity.subscriptionId)) in
      ret (option_map WebhookSubscriptionEntity.secret subscription)
  end.
End Service.
End WebhooksService.

Module WebhookDispatcherService.
Section Service.
Context {D : Type} `{WebhookPlatform D}.

Definition headers (eventName timestamp signature deliveryId : string) : list (string * string) :=
  [("Content-Type", "application/json"); ("x-nexafx-event", eventName); ("x-nexafx-timestamp", timestamp);
   ("x-nexafx-signature", signature); ("x-nexafx-delivery-id", deliveryId)].

(** The request that goes out. *)
Definition http_post (url : string) (payload : list (string * json)) (hs : list (string * string)) : string * json :=
  ("http.post", JObj [("url", JStr url); ("headers", JObj (map (fun '(k, v) => (k, JStr v)) hs)); ("body", JObj payload)]).

(** What is sent is recorded before it is known how it ends. *)
Definition post (url : string) (payload : list (string * json)) (hs : list (string * string)) :
    M Store ((option Z * string) + Z) :=
  emit (http_post url payload hs).1 (http_post url payload hs).2 ;;;
  let* n := gets (fun s => calls (SubscriptionStore.env s)) in
  let* reached := attempt db_call in
  ret match reached with
      | inl x => inl (None, message_of x)
      | inr _ => axios_post n url (JObj payload) hs
      end.

Definition is_delivery (id : string) (d : Delivery) : bool := String.eqb d.(WebhookDeliveryEntity.id) id.

(** An undefined status leaves the column. *)
Definition set_http_status (st : option Z) (d : Delivery) : Delivery :=
  match st with Some _ => d <| WebhookDeliveryEntity.lastHttpStatus := st |> | None => d end.

(** The POST and the update of the [try] block: how they failed, if they did. *)
Definition try_delivery (subscription : Subscription) (eventName timestamp signature : string)
    (payload : list (string * json)) (delivery : Delivery) : M Store ((option Z * string) + unit) :=
  let* res := post subscription.(WebhookSubscriptionEntity.url) payload
                (headers eventName timestamp signature delivery.(WebhookDeliveryEntity.id)) in
  match res with
  | inl err => ret (inl err)
  | inr status =>
      let* now := date_now in
      let* updated := attempt (update_rows (is_delivery delivery.(WebhookDeliveryEntity.id)) (fun d => d
        <| WebhookDeliveryEntity.status := WebhookDeliveryStatus.delivered |>
        <| WebhookDeliveryEntity.attempts := delivery.(WebhookDeliveryEntity.attempts) + 1 |>
        <| WebhookDeliveryEntity.lastHttpStatus := Some status |>
        <| WebhookDeliveryEntity.lastAttemptAt := Some now |>)) in
      ret match updated with inl x => inl (None, message_of x) | inr _ => inr tt end
  end.

Definition failure_notice (subscription : Subscription) (eventName deliveryId : string) (status : option Z) (message : string) :
    string * json :=
  ("notification:webhook.failed",
   JObj [("recipientId", JStr subscription.(WebhookSubscriptionEntity.id));
         ("webhookUrl", JStr subscription.(WebhookSubscriptionEntity.url)); ("eventName", JStr eventName);
         ("error", JStr message); ("httpStatus", match status with Some n => JNum (num_of_Z n) | None => JUndefined end);
         ("deliveryId", JStr deliveryId)]).

(** The catch clause; the notification may itself throw. *)
Definition delivery_failed (subscription : Subscription) (eventName : string) (delivery : Delivery)
    (status : option Z) (message : string) : M Store unit :=
  let attempts := delivery.(WebhookDeliveryEntity.attempts) + 1 in
  let* now := date_now in
  let nextRetryAt := now + 60000 * attempts in
  let* now' := date_now in
  update_rows (is_delivery delivery.(WebhookDeliveryEntity.id)) (fun d => set_http_status status (d
    <| WebhookDeliveryEntity.status := WebhookDeliveryStatus.failed |>
    <| WebhookDeliveryEntity.attempts := attempts |>
    <| WebhookDeliveryEntity.lastError := Some message |>
    <| WebhookDeliveryEntity.nextRetryAt := Some nextRetryAt |>
    <| WebhookDeliveryEntity.lastAttemptAt := Some now' |>)) ;;;
  db_call ;;;
  let notice := failure_notice subscription eventName delivery.(WebhookDeliveryEntity.id) status message in
  emit notice.1 notice.2.

Definition sendToSubscription (subscription : Subscription) (eventName : string) (payload : list (string * json)) : M Store unit :=
  let rawBody := stringify (JObj payload) in
  let* now := date_now in
  let timestamp := string_of_Z (now / 1000) in
  let signature := signWebhookPayload subscription.(WebhookSubscriptionEntity.secret) timestamp rawBody in
  let* attemptedAt := date_now in
  let* delivery := save (WebhookDeliveryEntity.mk "" subscription.(WebhookSubscriptionEntity.id) eventName payload (Some signature)
                           WebhookDeliveryStatus.pending 0 None None (Some attemptedAt) None 0 0) in
  let* ended := try_delivery subscription eventName timestamp signature payload delivery in
  match ended with
  | inr _ => ret tt
  | inl (status, message) => delivery_failed subscription eventName delivery status message
  end.

(** How many subscriptions it was sent to. *)
Definition dispatch (eventName : string) (payload : list (string * json)) : M Store Z :=
  let* subs := WebhooksService.getActiveSubscriptionsForEvent eventName in
  for_each subs (fun sub => sendToSubscription sub eventName payload) ;;;
  ret (Z.of_nat (length subs)).
End Service.
End WebhookDispatcherService.

(** ** What is subscribed to *)

Section Subscribing.
Context {D : Type} `{HL : WebhookPlatformLaws D} `{Crypto}.

(** The events of a subscription are those asked for, trimmed, each once, and
    all in the catalogue; anything else is refused by name. *)
Theorem normalizeEvents_spec events :
  match WebhooksService.normalizeEvents events with
  | inr l => List.NoDup l /\ (forall e, In e l <-> In e (map trim events)) /\ Forall (fun e => In e WEBHOOK_EVENT_NAMES) l
  | inl x => exists e, In e (map trim events) /\ ~ In e WEBHOOK_EVENT_NAMES
  end.
Proof.
  unfold WebhooksService.normalizeEvents. cbv zeta.
  destruct (distinct_once (map trim events) []) as [Hnd Hin].
  assert (Hsup : forall e, WebhooksService.supported e = true <-> In e WEBHOOK_EVENT_NAMES).
  { intros e. unfold WebhooksService.supported. rewrite existsb_exists. split.
    - intros (y & Hy & <-%String.eqb_eq). exact Hy.
    - intros He. exists e. rewrite String.eqb_refl. auto. }
  destruct (List.filter _ _) as [|e l] eqn:Hf.
  - split; [exact Hnd|]. split; [intros e; rewrite Hin; cbn [In]; tauto|].
    rewrite List.Forall_forall. intros e He. apply Hsup. destruct (WebhooksService.supported e) eqn:Hs; [reflexivity|].
    exfalso. assert (In e []); [|contradiction]. rewrite <- Hf. apply filter_In. rewrite Hs. auto.
  - assert (He : In e (e :: l)) by (left; reflexivity). rewrite <- Hf in He. apply filter_In in He as [He Hs].
    exists e. split; [apply Hin in He; tauto|]. rewrite <- Hsup. destruct (WebhooksService.supported e); [discriminate Hs | discriminate].
Qed.
End Subscribing.

(** ** Every subscriber is sent to *)

Section Dispatching.
Context {D : Type} `{WebhookPlatform D}.
Import WebhookDeliveryEntity.

(** The row of a delivery to [sub], and what went out for it: the request that was
    made, once and no other, is signed with the secret of the subscription, the
    row says how it was answered, and a failure is told once. *)
Definition settled (event : string) (body : list (string * json)) (sub : Subscription) (d : Delivery)
    (sent : list (string * json)) : Prop :=
  d.(subscriptionId) = sub.(WebhookSubscriptionEntity.id) /\ d.(eventName) = event /\ d.(payload) = body /\ d.(attempts) = 1 /\
  exists now n,
    let timestamp := string_of_Z (now / 1000) in
    let sig := signWebhookPayload sub.(WebhookSubscriptionEntity.secret) timestamp (stringify (JObj body)) in
    let hs := WebhookDispatcherService.headers event timestamp sig d.(id) in
    let url := sub.(WebhookSubscriptionEntity.url) in
    d.(signature) = Some sig /\
    match axios_post n url (JObj body) hs with
    | inr code =>
        d.(status) = WebhookDeliveryStatus.delivered /\ d.(lastHttpStatus) = Some code /\ d.(nextRetryAt) = None /\
        sent = [WebhookDispatcherService.http_post url body hs]
    | inl (code, message) =>
        d.(status) = WebhookDeliveryStatus.failed /\ d.(lastHttpStatus) = code /\ d.(lastError) = Some message /\
        (exists t, d.(nextRetryAt) = Some (t + 60000)) /\
        sent = [WebhookDispatcherService.http_post url body hs;
                WebhookDispatcherService.failure_notice sub event d.(id) code message]
    end.

(** [s'] is [s] with the rows [rs] appended and [sent] gone out, and room for more. *)
Definition appended (s : Store) (rs : list Delivery) (sent : list (string * json)) (s' : Store) : Prop :=
  s'.(SubscriptionStore.deliveries) = s.(SubscriptionStore.deliveries) ++ rs /\
  s'.(SubscriptionStore.subscriptions) = s.(SubscriptionStore.subscriptions) /\
  outbox (env_of s') = outbox (env_of s) ++ sent /\
  reliable (env_of s') /\ future_ids Delivery s'.

Lemma reliable_emit ev e : reliable e -> reliable (add_event ev e).
Proof. intros Hr. exact Hr. Qed.

Lemma post_spec url body hs (s : Store) Q X :
  reliable (env_of s) -> future_ids Delivery s ->
  (forall e n, reliable e -> uuid e = uuid (env_of s) -> (uuids (env_of s) <= uuids e)%nat ->
     outbox e = outbox (env_of s) ++ [WebhookDispatcherService.http_post url body hs] ->
     Q (axios_post n url (JObj body) hs) (set_env e s)) ->
  wp (WebhookDispatcherService.post url body hs) Q X s.
Proof.
  intros Hr Hf HQ. unfold WebhookDispatcherService.post. wp_step. wp_step. wp_step. wp_step. wp_step.
  apply wp_attempt, wp_db_call; intros e'; env_norm.
  - intros x _ Hx. exfalso. exact (reliable_no_fault _ _ (reliable_emit _ _ Hr) Hx).
  - intros He. wp_step. apply HQ; [exact (env_step_reliable _ _ He Hr) | apply (es_uuid _ _ He) | apply (es_uuids _ _ He) |].
    exact (es_outbox _ _ He).
Qed.

(** The update that closes a delivery: only the new row is its. *)
Lemma wp_close_delivery (r : Delivery) f e0 e (s : Store) Q X :
  reliable e0 -> env_step e0 e -> future_ids Delivery s ->
  (forall x, row_id (f x) = row_id x) ->
  forall old, rows s = old ++ [r] -> ~ In (row_id r) (map row_id old) ->
  uuid e0 = uuid (env_of s) -> (uuids (env_of s) <= uuids e0)%nat ->
  (forall e' t, reliable e' -> outbox e' = outbox e0 ->
     let s' := set_rows (old ++ [touched t (f r)]) (set_env e' s) in future_ids Delivery s' -> Q tt s') ->
  wp (update_rows (WebhookDispatcherService.is_delivery (row_id r)) f) Q X (set_env e s).
Proof.
  intros Hr0 He0 Hf Hid old Hrows Hnew Hu Hn HQ. pose proof (env_step_reliable _ _ He0 Hr0) as Hr. apply wp_update_rows; env_norm.
  - intros e' x _ Hx. exfalso. exact (reliable_no_fault _ _ Hr Hx).
  - intros e' t He. rewrite Hrows. rewrite (update_appended _ (fun x => touched t (f x)) old r);
      [| apply String.eqb_refl | intros x Hx; apply String.eqb_eq, Hx | exact Hnew].
    pose proof (es_trans _ _ _ He0 He) as He'. apply HQ; [exact (env_step_reliable _ _ He Hr) | etransitivity; [apply (es_outbox _ _ He) | apply (es_outbox _ _ He0)] |].
    apply future_ids_rows.
    + apply future_ids_set_env; [rewrite (es_uuid _ _ He'); exact Hu | pose proof (es_uuids _ _ He'); lia | exact Hf].
    + rewrite rows_set_env, Hrows, !map_app. cbn [map]. rewrite row_id_touched, Hid. reflexivity.
Qed.

Lemma sendToSubscription_spec sub event body (s : Store) :
  reliable (env_of s) -> future_ids Delivery s ->
  wp (WebhookDispatcherService.sendToSubscription sub event body)
     (fun _ s' => exists d sent, settled event body sub d sent /\ appended s [d] sent s') (fun _ _ => False) s.
Proof.
  intros Hr Hf. unfold WebhookDispatcherService.sendToSubscription. cbv zeta. wp_step. wp_step. wp_step. wp_step.
  wp_step. apply wp_save_future; [reflexivity | reflexivity | eauto with env | apply future_ids_env; [env_chain | exact Hf] |].
  cbv zeta. intros e1 i t He1. env_norm. set (r := created _ _). set (s1 := set_rows _ _). intros Hnew Hf1.
  assert (Hr1 : reliable (env_of s1)) by (unfold s1; rewrite env_of_set_rows, env_of_set_env; eauto with env).
  wp_step. unfold WebhookDispatcherService.try_delivery. wp_step.
  apply post_spec; [exact Hr1 | exact Hf1|]. intros e2 k Hr2 Hu2 Hn2 Ho2.
  assert (Hout : outbox (env_of s1) = outbox (env_of s)) by (unfold s1; rewrite env_of_set_rows, env_of_set_env; apply es_outbox; env_chain).
  rewrite Hout in Ho2.
  assert (Hdone : forall d e st sent, st = set_rows (rows s ++ [d]) (set_env e s1) -> reliable e -> future_ids Delivery st ->
    outbox e = outbox (env_of s) ++ sent -> settled event body sub d sent ->
    exists d0 sent0, settled event body sub d0 sent0 /\ appended s [d0] sent0 st).
  { intros d e st sent -> Hre Hfe Ho Hd. exists d, sent. split; [exact Hd|]. split; [reflexivity|]. split; [reflexivity|].
    split; [exact Ho|]. split; [exact Hre | exact Hfe]. }
  destruct (axios_post _ _ _ _) as [[code message]|code] eqn:Hpost.
  - wp_step. cbv iota. unfold WebhookDispatcherService.delivery_failed. cbv zeta. wp_step. wp_step. wp_step. wp_step. wp_step.
    apply (wp_close_delivery r _ e2 _ s1) with (old := rows s);
      [exact Hr2 | env_chain | exact Hf1 | intros x; destruct code; reflexivity | reflexivity | exact Hnew | exact Hu2 | exact Hn2 |].
    intros e5 t5 Hr5 Ho5 s5 Hf5. wp_step. apply wp_db_call; intros e6; env_norm.
    { intros x _ Hx. exact (reliable_no_fault _ _ Hr5 Hx). }
    intros He6. change (env_step e5 e6) in He6. wp_step.
    match goal with |- context [add_event ?ev _] => pose (final := add_event ev e6) end.
    match goal with s5 := set_rows (_ ++ [?d]) _ |- _ =>
      eapply (Hdone d final); [reflexivity | exact (env_step_reliable _ _ He6 Hr5) | | |] end.
    { apply (future_ids_set_env s5 final); [apply (es_uuid _ _ He6) | apply (es_uuids _ _ He6) | exact Hf5]. }
    { unfold final. cbn [outbox add_event]. rewrite (es_outbox _ _ He6), Ho5, Ho2, <- app_assoc. reflexivity. }
    repeat split; try (destruct code; reflexivity). eexists _, k. cbv zeta. split; [destruct code; reflexivity|].
    match goal with |- context [id ?x] => replace (id x) with (id r) by (destruct code; reflexivity) end.
    rewrite Hpost. repeat split; try (destruct code; reflexivity). eexists. destruct code; reflexivity.
  - wp_step. wp_step. wp_step. apply wp_attempt.
    apply (wp_close_delivery r _ e2 _ s1) with (old := rows s);
      [exact Hr2 | env_chain | exact Hf1 | reflexivity | reflexivity | exact Hnew | exact Hu2 | exact Hn2 |].
    intros e5 t5 Hr5 Ho5 s5 Hf5. wp_step. cbv iota. wp_step.
    eapply Hdone; [reflexivity | exact Hr5 | exact Hf5 | rewrite Ho5; exact Ho2 |].
    repeat split. eexists _, k. cbv zeta. split; [reflexivity|]. change (id (touched t5 _)) with (id r).
    rewrite Hpost. repeat split.
Qed.

(** The deliveries of several subscriptions, one after the other. *)
Inductive in_turn (event : string) (body : list (string * json)) :
    list Subscription -> list Delivery -> list (string * json) -> Prop :=
  | turn_none : in_turn event body [] [] []
  | turn_next sub subs d ds sent rest :
      settled event body sub d sent -> in_turn event body subs ds rest ->
      in_turn event body (sub :: subs) (d :: ds) (sent ++ rest).

Lemma send_all_spec subs event body : forall s : Store,
  reliable (env_of s) -> future_ids Delivery s ->
  wp (for_each subs (fun sub => WebhookDispatcherService.sendToSubscription sub event body))
     (fun _ s' => exists ds sent, in_turn event body subs ds sent /\ appended s ds sent s') (fun _ _ => False) s.
Proof.
  induction subs as [|sub subs IH]; intros s Hr Hf; cbn [for_each].
  - wp_step. exists [], []. split; [constructor|]. split; [symmetry; apply app_nil_r|]. split; [reflexivity|].
    split; [symmetry; apply app_nil_r|]. split; [exact Hr | exact Hf].
  - wp_step. eapply wp_mono; [apply sendToSubscription_spec; assumption | | auto].
    intros _ s1 (d & sent & Hd & Hrows & Hsubs & Ho & Hr1 & Hf1).
    eapply wp_mono; [apply (IH s1 Hr1 Hf1) | | auto]. intros _ s2 (ds & rest & Hds & Hrows2 & Hsubs2 & Ho2 & Hr2 & Hf2).
    exists (d :: ds), (sent ++ rest). split; [constructor; assumption|].
    split; [rewrite Hrows2, Hrows, <- app_assoc; reflexivity|]. split; [congruence|].
    split; [rewrite Ho2, Ho, <- app_assoc; reflexivity|]. split; [exact Hr2 | exact Hf2].
Qed.

(** C37 When every call of the database and of the notifications answers, an
    event makes one request to each active subscription that lists it, one after
    the other, whatever the receivers answer, and nothing else goes out but
    one notice of each that failed.  Each has one new delivery, signed with its
    own secret like its request, that is delivered with the status of the answer
    or failed with its error and the time of a retry a minute later. *)
Theorem dispatch_reaches_every_subscriber event body (s : Store) :
  reliable (env_of s) -> future_ids Delivery s ->
  wp (WebhookDispatcherService.dispatch event body)
     (fun n s' =>
        let subs := List.filter (WebhooksService.listens event) s.(SubscriptionStore.subscriptions) in
        n = Z.of_nat (length subs) /\
        exists ds sent, in_turn event body subs ds sent /\
          s'.(SubscriptionStore.deliveries) = s.(SubscriptionStore.deliveries) ++ ds /\
          outbox (env_of s') = outbox (env_of s) ++ sent /\
          s'.(SubscriptionStore.subscriptions) = s.(SubscriptionStore.subscriptions))
     (fun _ _ => False) s.
Proof.
  intros Hr Hf. unfold WebhookDispatcherService.dispatch, WebhooksService.getActiveSubscriptionsForEvent.
  wp_step. apply wp_find_all; [intros e' x _ Hx; exact (reliable_no_fault _ _ Hr Hx)|]. intros e' He. wp_step.
  eapply wp_mono; [apply send_all_spec | | auto].
  - env_norm. eauto with env.
  - apply future_ids_env; assumption.
  - intros _ s1 (ds & sent & Hds & Hrows & Hsubs & Ho & _ & _). wp_step. split; [reflexivity|]. exists ds, sent.
    change (outbox (env_of s1) = outbox e' ++ sent) in Ho. rewrite (es_outbox _ _ He) in Ho. repeat split; assumption.
Qed.
End Dispatching.

(** ** A worked state *)

Record DemoUpdate : Type := mkDemoUpdate { up_events : option (list string); up_secret : option string }.
#[local] Instance demo_platform : WebhookPlatform DemoUpdate := {|
  WEBHOOK_EVENT_NAMES := ["transaction.completed"; "kyc.approved"];
  signWebhookPayload k t b := k +:+ "." +:+ t +:+ "." +:+ b;
  axios_post _ u _ _ := if String.eqb u "https://down.example" then inl (Some 500, "Request failed with status code 500") else inr 200;
  dto_events := up_events;
  dto_assign d e := match up_secret d with Some k => e <| WebhookSubscriptionEntity.secret := k |> | None => e end
|}.
#[local] Instance demo_platform_laws : WebhookPlatformLaws DemoUpdate.
Proof. split. intros [l [k|]] e; reflexivity. Qed.

Definition hook (id url : string) (active : bool) : Subscription :=
  WebhookSubscriptionEntity.mk id (Some "ana") url ["kyc.approved"] ("secret-" +:+ id) active
    (if active then WebhookStatus.active else WebhookStatus.disabled) 0 0.
Fixpoint strokes (n : nat) : string := match n with O => "" | Datatypes.S n => String "1" (strokes n) end.
Lemma strokes_inj n : forall m, strokes n = strokes m -> n = m.
Proof. induction n as [|n IH]; intros [|m] E; try discriminate; [reflexivity|]. injection E as E. f_equal. apply IH, E. Qed.

(** The [n]-th call fails. *)
Definition hook_env (n : nat) : Env :=
  mkEnv (fun _ => 90500) 0 (fun k => if Nat.eqb k n then Some (PlainError "connection lost") else None) 0
        (fun n => ("d"%char, strokes n)) 0 (fun _ => num_of_ratio 1 2) 0 [].
Definition hook_start (n : nat) : Store :=
  SubscriptionStore.mk (hook_env n) [hook "h1" "https://down.example" true; hook "h2" "https://off.example" false;
                                     hook "h3" "https://up.example" true] [].

Lemma hook_ids n : future_ids Delivery (hook_start n).
Proof. split; [intros i j E; injection E as E; apply strokes_inj, E | constructor]. Qed.

(** With no call failing (the hundredth is never made). *)
Definition calm : Store := (hook_start 100) <| SubscriptionStore.env := mkEnv (fun _ => 90500) 0 (fun _ => None) 0
  (fun n => ("d"%char, strokes n)) 0 (fun _ => num_of_ratio 1 2) 0 [] |>.

Lemma dispatch_reaches_every_subscriber_witness :
  let event := "kyc.approved" in
  let body := [("userId", JStr "ana")] in
  let subs := [hook "h1" "https://down.example" true; hook "h3" "https://up.example" true] in
  map fst (outbox (env_of (WebhookDispatcherService.dispatch event body calm).2)) =
    ["http.post"; "notification:webhook.failed"; "http.post"] /\
  wp (WebhookDispatcherService.dispatch event body)
     (fun n s' => n = 2 /\ exists ds sent, in_turn event body subs ds sent /\
        s'.(SubscriptionStore.deliveries) = ds /\ outbox (env_of s') = sent)
     (fun _ _ => False) calm.
Proof.
  split; [vm_compute; reflexivity|].
  refine (wp_mono _ _ _ _ _ _ (dispatch_reaches_every_subscriber "kyc.approved" [("userId", JStr "ana")] calm _ (hook_ids 100)) _ _);
    [intros n _; reflexivity | | auto].
  intros n s' (Hn & ds & sent & Ht & Hd & Ho & _). split; [exact Hn|]. exists ds, sent. split; [exact Ht|]. split; [exact Hd | exact Ho].
Defined.

(** The notification of a failed delivery is awaited in the loop: when it
    throws, the subscribers that follow are not sent to. *)
Example failed_notification_strands_the_rest :
  let run := WebhookDispatcherService.dispatch "kyc.approved" [] (hook_start 4) in
  run.1 = inl (PlainError "connection lost") /\
  map WebhookDeliveryEntity.subscriptionId (SubscriptionStore.deliveries run.2) = ["h1"].
Proof. vm_compute. auto. Qed.

(** A delivery that arrived is recorded as failed when the update that says so
    fails. *)
Example delivered_but_recorded_failed :
  let run := WebhookDispatcherService.dispatch "kyc.approved" []
               ((hook_start 3) <| SubscriptionStore.subscriptions := [hook "h3" "https://up.example" true] |>) in
  run.1 = inr 1 /\
  map (fun d => (d.(WebhookDeliveryEntity.status), d.(WebhookDeliveryEntity.lastError))) (SubscriptionStore.deliveries run.2) =
    [(WebhookDeliveryStatus.failed, Some "connection lost")].
Proof. vm_compute. auto. Qed.

(** An unknown subscription is updated to nothing, without an error. *)
Example update_of_nothing :
  (WebhooksService.update "h9" (mkDemoUpdate None (Some "mine")) calm).1 = inr None.
Proof. vm_compute. reflexivity. Qed.
