(* ===== verification/Schema.v ===== *)
(** The database as the migrations see it: types, tables, indexes and sequences,
    the statements that create, alter and drop them (PostgreSQL, with its error
    codes), and the runner of migrations.  Every statement keeps the schema
    consistent, and what a migration created its reversal removes. *)
From S2P Require Import Prelude JsNumber Effects.
Local Open Scope Z_scope.

(** ** Schemas *)

Inductive pg_type : Type :=
  | uuid | text | boolean | timestamp | integer | jsonb
  | varchar (length : option Z)
  | numeric (precision scale : Z)
  | enum (name : string).

Record column : Type := mkColumn {
  col_name : string;
  col_type : pg_type;
  col_not_null : bool;
  col_default : option string
}.
Definition required (n : string) (t : pg_type) : column := mkColumn n t true None.
Definition defaulted (n : string) (t : pg_type) (d : string) : column := mkColumn n t true (Some d).
Definition nullable (n : string) (t : pg_type) : column := mkColumn n t false None.

Inductive key_kind : Type := PrimaryKey | Unique.
Record constraint : Type := mkConstraint {
  con_name : string;
  con_kind : key_kind;
  con_columns : list string
}.
Record table : Type := mkTable {
  tab_name : string;
  tab_columns : list column;
  tab_constraints : list constraint
}.
(** [WHERE column condition] of a partial index. *)
Record index : Type := mkIndex {
  ix_name : string;
  ix_table : string;
  ix_unique : bool;
  ix_columns : list string;
  ix_where : option (string * string)
}.

Record Schema : Type := mkSchema {
  enums : list (string * list string);
  tables : list table;
  indexes : list index;
  sequences : list string
}.
Definition empty_schema : Schema := mkSchema [] [] [] [].

Definition mem (n : string) (l : list string) : bool := existsb (String.eqb n) l.
Definition named {A} (f : A -> string) (n : string) (l : list A) : option A := List.find (fun a => String.eqb (f a) n) l.
Definition without {A} (f : A -> string) (n : string) (l : list A) : list A :=
  List.filter (fun a => negb (String.eqb (f a) n)) l.

Definition columns_of (t : table) : list string := map col_name (tab_columns t).
Definition constraints_of (t : table) : list string := map con_name (tab_constraints t).
(** Tables, indexes (those of keys too) and sequences share one name space;
    tables and types another. *)
Definition relations (s : Schema) : list string :=
  map tab_name (tables s) ++ flat_map constraints_of (tables s) ++ map ix_name (indexes s) ++ sequences s.
Definition type_names (s : Schema) : list string := map fst (enums s) ++ map tab_name (tables s).

Definition index_uses (i : index) : list string :=
  ix_columns i ++ match ix_where i with Some (c, _) => [c] | None => [] end.

(** ** Statements *)

Inductive statement : Type :=
  | CreateType (name : string) (labels : list string)
  | CreateTable (if_not_exists : bool) (t : table)
  | CreateIndex (if_not_exists : bool) (i : index)
  | CreateSequence (if_not_exists : bool) (name : string)
  | AddColumn (tab : string) (if_not_exists : bool) (c : column)
  | AlterColumnType (tab col : string) (t : pg_type)
  | DropColumn (tab : string) (if_exists : bool) (col : string)
  | DropIndex (if_exists : bool) (name : string)
  | DropTable (if_exists : bool) (name : string)
  | DropType (if_exists : bool) (name : string)
  | DropSequence (if_exists : bool) (name : string).

Definition pg (code message : string) : exn := QueryFailed code message.
Definition duplicate_relation (n : string) : exn := pg "42P07" ("relation " +:+ n +:+ " already exists").
Definition duplicate_object (n : string) : exn := pg "42710" ("type " +:+ n +:+ " already exists").
Definition duplicate_column (n : string) : exn := pg "42701" ("column " +:+ n +:+ " already exists").
Definition undefined_table (n : string) : exn := pg "42P01" ("relation " +:+ n +:+ " does not exist").
Definition undefined_column (n : string) : exn := pg "42703" ("column " +:+ n +:+ " does not exist").
Definition undefined_object (n : string) : exn := pg "42704" (n +:+ " does not exist").
Definition wrong_object (n : string) : exn := pg "42809" (n +:+ " is of another kind").
Definition still_needed (n : string) : exn := pg "2BP01" ("cannot drop " +:+ n +:+ " because other objects depend on it").

Definition type_known (s : Schema) (t : pg_type) : bool :=
  match t with enum n => mem n (map fst (enums s)) | _ => true end.
Definition uses_type (n : string) (t : table) : bool :=
  existsb (fun c => match col_type c with enum m => String.eqb m n | _ => false end) (tab_columns t).

Fixpoint nodup (l : list string) : bool :=
  match l with [] => true | x :: l => negb (mem x l) && nodup l end.

Definition with_tables (s : Schema) (l : list table) : Schema := mkSchema (enums s) l (indexes s) (sequences s).
Definition with_indexes (s : Schema) (l : list index) : Schema := mkSchema (enums s) (tables s) l (sequences s).
Definition alter (n : string) (f : table -> table) (s : Schema) : Schema :=
  with_tables s (map (fun t => if String.eqb (tab_name t) n then f t else t) (tables s)).

Definition add_column (c : column) (t : table) : table :=
  mkTable (tab_name t) (tab_columns t ++ [c]) (tab_constraints t).
Definition retype (col : string) (ty : pg_type) (t : table) : table :=
  mkTable (tab_name t)
    (map (fun c => if String.eqb (col_name c) col then mkColumn (col_name c) ty (col_not_null c) (col_default c) else c) (tab_columns t))
    (tab_constraints t).
(** A column goes with the keys it is part of. *)
Definition drop_column (col : string) (t : table) : table :=
  mkTable (tab_name t) (without col_name col (tab_columns t))
    (List.filter (fun k => negb (mem col (con_columns k))) (tab_constraints t)).

(** What a new table needs: names that are free, columns told apart, types that
    exist, keys on its own columns. *)
Definition check_table (s : Schema) (t : table) : exn + unit :=
  if mem (tab_name t) (type_names s) then inl (duplicate_object (tab_name t))
  else if negb (nodup (columns_of t)) then inl (duplicate_column (tab_name t))
  else if negb (forallb (fun c => type_known s (col_type c)) (tab_columns t)) then inl (undefined_object (tab_name t))
  else if negb (forallb (fun k => forallb (fun c => mem c (columns_of t)) (con_columns k)) (tab_constraints t))
  then inl (undefined_column (tab_name t))
  else if negb (nodup (tab_name t :: constraints_of t)) || existsb (fun k => mem k (relations s)) (constraints_of t)
  then inl (duplicate_relation (tab_name t))
  else inr tt.

Definition exec (d : statement) (s : Schema) : exn + Schema :=
  match d with
  | CreateType n labels =>
      if mem n (type_names s) then inl (duplicate_object n)
      else inr (mkSchema (enums s ++ [(n, labels)]) (tables s) (indexes s) (sequences s))
  | CreateTable ine t =>
      if mem (tab_name t) (relations s) then if ine then inr s else inl (duplicate_relation (tab_name t))
      else match check_table s t with inl x => inl x | inr _ => inr (with_tables s (tables s ++ [t])) end
  | CreateIndex ine i =>
      match named tab_name (ix_table i) (tables s) with
      | None => inl (undefined_table (ix_table i))
      | Some t =>
          if mem (ix_name i) (relations s) then if ine then inr s else inl (duplicate_relation (ix_name i))
          else if negb (forallb (fun c => mem c (columns_of t)) (index_uses i)) then inl (undefined_column (ix_name i))
          else inr (with_indexes s (indexes s ++ [i]))
      end
  | CreateSequence ine n =>
      if mem n (relations s) then if ine then inr s else inl (duplicate_relation n)
      else inr (mkSchema (enums s) (tables s) (indexes s) (sequences s ++ [n]))
  | AddColumn n ine c =>
      match named tab_name n (tables s) with
      | None => inl (undefined_table n)
      | Some t =>
          if mem (col_name c) (columns_of t) then if ine then inr s else inl (duplicate_column (col_name c))
          else if negb (type_known s (col_type c)) then inl (undefined_object (col_name c))
          else inr (alter n (add_column c) s)
      end
  | AlterColumnType n col ty =>
      match named tab_name n (tables s) with
      | None => inl (undefined_table n)
      | Some t =>
          if negb (mem col (columns_of t)) then inl (undefined_column col)
          else if negb (type_known s ty) then inl (undefined_object col)
          else inr (alter n (retype col ty) s)
      end
  | DropColumn n ie col =>
      match named tab_name n (tables s) with
      | None => inl (undefined_table n)
      | Some t =>
          if mem col (columns_of t)
          then inr (with_indexes (alter n (drop_column col) s)
                      (List.filter (fun i => negb (String.eqb (ix_table i) n && mem col (index_uses i))) (indexes s)))
          else if ie then inr s else inl (undefined_column col)
      end
  | DropIndex ie n =>
      if mem n (map ix_name (indexes s)) then inr (with_indexes s (without ix_name n (indexes s)))
      else if mem n (flat_map constraints_of (tables s)) then inl (still_needed n)
      else if mem n (relations s) then inl (wrong_object n)
      else if ie then inr s else inl (undefined_object n)
  | DropTable ie n =>
      if mem n (map tab_name (tables s))
      then inr (with_indexes (with_tables s (without tab_name n (tables s))) (without ix_table n (indexes s)))
      else if mem n (relations s) then inl (wrong_object n)
      else if ie then inr s else inl (undefined_table n)
  | DropType ie n =>
      if mem n (map fst (enums s))
      then if existsb (uses_type n) (tables s) then inl (still_needed n)
           else inr (mkSchema (without fst n (enums s)) (tables s) (indexes s) (sequences s))
      else if mem n (type_names s) then inl (wrong_object n)
      else if ie then inr s else inl (undefined_object n)
  | DropSequence ie n =>
      if mem n (sequences s) then inr (mkSchema (enums s) (tables s) (indexes s) (without (fun m => m) n (sequences s)))
      else if mem n (relations s) then inl (wrong_object n)
      else if ie then inr s else inl (undefined_table n)
  end.

(** One after the other, up to the first that fails. *)
Fixpoint exec_all (l : list statement) (s : Schema) : exn + Schema :=
  match l with
  | [] => inr s
  | d :: l => match exec d s with inl x => inl x | inr s' => exec_all l s' end
  end.

(** ** Migrations *)

Record migration : Type := mkMigration {
  mig_name : string;
  mig_timestamp : Z;
  up : list statement;
  down : list statement
}.
(** A database: its schema, and the migrations recorded as executed, in the
    order they were. *)
Record database : Type := mkDatabase {
  schema : Schema;
  executed : list migration
}.
Definition empty_database : database := mkDatabase empty_schema [].

Fixpoint insert_migration (m : migration) (l : list migration) : list migration :=
  match l with
  | [] => [m]
  | m' :: l' => if mig_timestamp m <? mig_timestamp m' then m :: l else m' :: insert_migration m l'
  end.
Definition by_timestamp (l : list migration) : list migration := fold_left (fun acc m => insert_migration m acc) l [].

Definition pending (all : list migration) (db : database) : list migration :=
  by_timestamp (List.filter (fun m => negb (mem (mig_name m) (map mig_name (executed db)))) all).

(** [typeorm migration:run]: what is pending, oldest first, in one transaction. *)
Fixpoint run_up (l : list migration) (db : database) : exn + database :=
  match l with
  | [] => inr db
  | m :: l => match exec_all (up m) (schema db) with
              | inl x => inl x
              | inr s => run_up l (mkDatabase s (executed db ++ [m]))
              end
  end.
Definition migration_run (all : list migration) (db : database) : (exn + unit) * database :=
  match run_up (pending all db) db with inl x => (inl x, db) | inr db' => (inr tt, db') end.

(** [typeorm migration:revert]: the last one executed, in a transaction. *)
Definition migration_revert (db : database) : (exn + unit) * database :=
  match rev (executed db) with
  | [] => (inr tt, db)
  | m :: l => match exec_all (down m) (schema db) with
              | inl x => (inl x, db)
              | inr s => (inr tt, mkDatabase s (rev l))
              end
  end.

(** ** Names *)

Lemma mem_In n l : mem n l = true <-> In n l.
Proof.
  unfold mem. rewrite existsb_exists. split; [intros (x & Hx & <-%String.eqb_eq); exact Hx|].
  intros Hn. exists n. rewrite String.eqb_refl. auto.
Qed.
Lemma mem_not_In n l : mem n l = false <-> ~ In n l.
Proof. rewrite <- mem_In, not_true_iff_false. reflexivity. Qed.

Lemma nodup_NoDup l : nodup l = true <-> NoDup l.
Proof.
  induction l as [|x l IH]; cbn [nodup]; [split; [constructor | reflexivity]|].
  rewrite andb_true_iff, negb_true_iff, mem_not_In, IH, NoDup_cons, list_elem_of_In. reflexivity.
Qed.

Lemma NoDup_sub (l l' : list string) : l ⊆+ l' -> NoDup l' -> NoDup l.
Proof.
  intros (k & Hk)%submseteq_Permutation Hnd. rewrite Hk in Hnd. apply NoDup_app in Hnd. tauto.
Qed.

Lemma NoDup_new (n : string) l l' : l ≡ₚ n :: l' -> ~ In n l' -> NoDup l' -> NoDup l.
Proof. intros -> Hn Hnd. apply NoDup_cons. rewrite list_elem_of_In. auto. Qed.

Section Named.
Context {A : Type} (f : A -> string).

Lemma named_some n l a : named f n l = Some a -> In a l /\ f a = n.
Proof. intros [Hin He%String.eqb_eq]%List.find_some. auto. Qed.

Lemma filter_sub p (l : list A) : map f (List.filter p l) ⊆+ map f l.
Proof. induction l as [|a l IH]; cbn; [constructor|]. destruct (p a); cbn; [apply submseteq_skip, IH | apply submseteq_cons, IH]. Qed.

Lemma flat_filter_sub (g : A -> list string) p (l : list A) : flat_map g (List.filter p l) ⊆+ flat_map g l.
Proof.
  induction l as [|a l IH]; cbn; [constructor|].
  destruct (p a); cbn; [apply submseteq_app; [reflexivity | exact IH] | apply submseteq_inserts_l, IH].
Qed.

Lemma in_without n a l : In a (without f n l) <-> In a l /\ f a <> n.
Proof. unfold without. rewrite filter_In, negb_true_iff, String.eqb_neq. reflexivity. Qed.

(** What was appended under a new name is what removing the name takes away. *)
Lemma without_fresh n l : ~ In n (map f l) -> without f n l = l.
Proof.
  induction l as [|a l IH]; cbn; [reflexivity|]. intros Hn.
  destruct (String.eqb_spec (f a) n) as [E|E]; [exfalso; apply Hn; left; exact E|].
  cbn. f_equal. apply IH. tauto.
Qed.
Lemma without_last a l : ~ In (f a) (map f l) -> without f (f a) (l ++ [a]) = l.
Proof.
  intros Hn. unfold without. rewrite List.filter_app. fold (without f (f a) l). rewrite (without_fresh _ _ Hn).
  cbn. rewrite String.eqb_refl. apply app_nil_r.
Qed.
End Named.

Lemma flat_map_sub {A} (g h : A -> list string) (l : list A) : (forall a, h a ⊆+ g a) -> flat_map h l ⊆+ flat_map g l.
Proof. intros Hs. induction l as [|a l IH]; cbn; [constructor | apply submseteq_app; auto]. Qed.

Lemma flat_map_map {A B} (g : B -> list string) (h : A -> B) l : flat_map g (map h l) = flat_map (fun a => g (h a)) l.
Proof. induction l; cbn; congruence. Qed.

(** ** Consistency *)

Definition type_exists (en : list (string * list string)) (t : pg_type) : Prop :=
  match t with enum n => In n (map fst en) | _ => True end.

Record table_ok (en : list (string * list string)) (t : table) : Prop := {
  to_columns : NoDup (columns_of t);
  to_types : forall c, In c (tab_columns t) -> type_exists en (col_type c);
  to_keys : forall k c, In k (tab_constraints t) -> In c (con_columns k) -> In c (columns_of t)
}.

Definition index_ok (s : Schema) (i : index) : Prop :=
  exists t, In t (tables s) /\ tab_name t = ix_table i /\ forall c, In c (index_uses i) -> In c (columns_of t).

(** No two relations and no two types share a name; the columns of a table are
    told apart and their types exist; keys and indexes are on columns that
    exist. *)
Record schema_ok (s : Schema) : Prop := {
  so_relations : NoDup (relations s);
  so_types : NoDup (type_names s);
  so_tables : forall t, In t (tables s) -> table_ok (enums s) t;
  so_indexes : forall i, In i (indexes s) -> index_ok s i
}.

Lemma type_known_exists s t : type_known s t = true <-> type_exists (enums s) t.
Proof. destruct t; cbn; try (split; auto; fail). apply mem_In. Qed.

Lemma table_ok_types en en' t :
  (forall n, uses_type n t = true -> In n (map fst en) -> In n (map fst en')) ->
  table_ok en t -> table_ok en' t.
Proof.
  intros He [Hc Ht Hk]. split; [exact Hc | | exact Hk]. intros c Hin. pose proof (Ht c Hin) as Hc0.
  destruct (col_type c) as [| | | | | | | |n] eqn:E; cbn in *; auto. apply He; [|exact Hc0].
  apply existsb_exists. exists c. split; [exact Hin|]. rewrite E. apply String.eqb_refl.
Qed.

Lemma index_ok_tables s s' i :
  (forall t, In t (tables s) -> tab_name t = ix_table i -> exists t', In t' (tables s') /\ tab_name t' = tab_name t /\
     forall c, In c (index_uses i) -> In c (columns_of t) -> In c (columns_of t')) ->
  index_ok s i -> index_ok s' i.
Proof.
  intros Hs (t & Ht & Hn & Hc). destruct (Hs t Ht Hn) as (t' & Ht' & Hn' & Hc'). exists t'.
  split; [exact Ht'|]. split; [congruence | auto].
Qed.

Lemma named_unique s n t t' :
  schema_ok s -> named tab_name n (tables s) = Some t -> In t' (tables s) -> tab_name t' = n -> t' = t.
Proof.
  intros Hs [Hin Hn]%named_some Hin' Hn'. pose proof (so_relations _ Hs) as Hnd. unfold relations in Hnd.
  apply NoDup_app in Hnd as [Hnd _]. revert Hin Hin' Hnd. generalize (tables s). intros l.
  induction l as [|u l IH]; [contradiction|]. cbn. rewrite NoDup_cons, list_elem_of_In.
  intros [->|Hin] [->|Hin'] [Hu Hnd]; auto; exfalso; apply Hu; rewrite Hn || rewrite Hn'.
  - rewrite <- Hn'. apply in_map, Hin'.
  - rewrite <- Hn. apply in_map, Hin.
Qed.

(** Altering a table that keeps its name, and its keys or fewer. *)
Lemma alter_relations n f s :
  (forall t, tab_name (f t) = tab_name t) -> (forall t, constraints_of (f t) ⊆+ constraints_of t) ->
  relations (alter n f s) ⊆+ relations s /\ type_names (alter n f s) = type_names s.
Proof.
  intros Hn Hk. unfold relations, type_names, alter. cbn.
  assert (E : map tab_name (map (fun t => if String.eqb (tab_name t) n then f t else t) (tables s)) = map tab_name (tables s)).
  { rewrite map_map. apply map_ext. intros t. destruct (String.eqb _ _); [apply Hn | reflexivity]. }
  rewrite E. split; [|reflexivity]. apply submseteq_skips_l, submseteq_skips_r. rewrite flat_map_map.
  apply flat_map_sub. intros t. destruct (String.eqb _ _); [apply Hk | reflexivity].
Qed.

Lemma in_alter n f s t : In t (tables (alter n f s)) ->
  exists u, In u (tables s) /\ ((tab_name u = n /\ t = f u) \/ (tab_name u <> n /\ t = u)).
Proof.
  unfold alter. cbn. intros (u & <- & Hu)%in_map_iff. exists u. split; [exact Hu|].
  destruct (String.eqb_spec (tab_name u) n); auto.
Qed.

Lemma alter_ok s n f t (p : index -> bool) :
  schema_ok s -> named tab_name n (tables s) = Some t ->
  (forall t, tab_name (f t) = tab_name t) -> (forall t, constraints_of (f t) ⊆+ constraints_of t) ->
  table_ok (enums s) (f t) ->
  (forall i c, In i (indexes s) -> p i = true -> ix_table i = n -> In c (index_uses i) ->
     In c (columns_of t) -> In c (columns_of (f t))) ->
  schema_ok (with_indexes (alter n f s) (List.filter p (indexes s))).
Proof.
  intros Hs Ht Hname Hkeys Hok Hix. destruct (alter_relations n f s Hname Hkeys) as [Hrel Htyp].
  split.
  - eapply NoDup_sub; [|exact (so_relations _ Hs)]. etransitivity; [|exact Hrel].
    unfold relations. cbn. do 2 apply submseteq_skips_l. apply submseteq_skips_r, filter_sub.
  - change (NoDup (type_names (alter n f s))). rewrite Htyp. apply (so_types _ Hs).
  - intros u Hu. apply in_alter in Hu as (v & Hv & [[Hvn ->]|[_ ->]]); [|exact (so_tables _ Hs v Hv)].
    rewrite (named_unique s n t v Hs Ht Hv Hvn). exact Hok.
  - intros i [Hi Hp]%filter_In. refine (index_ok_tables s _ i _ (so_indexes _ Hs i Hi)).
    intros v Hv Hvi. exists (if String.eqb (tab_name v) n then f v else v). split; [|split].
    + cbn. apply in_map_iff. eauto.
    + destruct (String.eqb _ _); [apply Hname | reflexivity].
    + intros c Hc Hcv. destruct (String.eqb_spec (tab_name v) n) as [E|E]; [|exact Hcv].
      pose proof (named_unique s n t v Hs Ht Hv E) as ->. apply (Hix i c Hi Hp); [congruence | exact Hc | exact Hcv].
Qed.

Lemma alter_ok_all s n f t :
  schema_ok s -> named tab_name n (tables s) = Some t ->
  (forall t, tab_name (f t) = tab_name t) -> (forall t, constraints_of (f t) ⊆+ constraints_of t) ->
  table_ok (enums s) (f t) -> (forall c, In c (columns_of t) -> In c (columns_of (f t))) ->
  schema_ok (alter n f s).
Proof.
  intros Hs Ht Hn Hk Hok Hc. pose proof (alter_ok s n f t (fun _ => true) Hs Ht Hn Hk Hok) as H.
  assert (E : List.filter (fun _ => true) (indexes s) = indexes s) by (clear; induction (indexes s) as [|i l IH]; [reflexivity | exact (f_equal (cons i) IH)]).
  rewrite E in H. apply H. auto.
Qed.

Lemma add_column_table_ok en c t :
  table_ok en t -> ~ In (col_name c) (columns_of t) -> type_exists en (col_type c) -> table_ok en (add_column c t).
Proof.
  intros [Hc Ht Hk] Hn Hty. split.
  - unfold columns_of, add_column. cbn. rewrite map_app. cbn. apply (NoDup_new (col_name c) _ (columns_of t)); [|exact Hn | exact Hc].
    unfold columns_of. rewrite Permutation_app_comm. reflexivity.
  - cbn. intros d [Hd|[<-|[]]]%in_app_or; auto.
  - cbn. intros k d Hk1 Hd. unfold columns_of, add_column. cbn. rewrite map_app. apply in_or_app. left. exact (Hk k d Hk1 Hd).
Qed.

Lemma columns_retype col ty t : columns_of (retype col ty t) = columns_of t.
Proof. unfold columns_of, retype. cbn. rewrite map_map. apply map_ext. intros c. destruct (String.eqb _ _); reflexivity. Qed.

Lemma retype_table_ok en col ty t : table_ok en t -> type_exists en ty -> table_ok en (retype col ty t).
Proof.
  intros [Hc Ht Hk] Hty. split.
  - rewrite columns_retype. exact Hc.
  - cbn. intros d (c & <- & Hd)%in_map_iff. destruct (String.eqb _ _); cbn; auto.
  - intros k d Hk1 Hd. rewrite columns_retype. exact (Hk k d Hk1 Hd).
Qed.

Lemma in_columns_drop col t c : In c (columns_of t) -> c <> col -> In c (columns_of (drop_column col t)).
Proof.
  unfold columns_of, drop_column. cbn. intros (d & <- & Hd)%in_map_iff Hn. apply in_map, in_without. auto.
Qed.

Lemma drop_column_table_ok en col t : table_ok en t -> table_ok en (drop_column col t).
Proof.
  intros [Hc Ht Hk]. split.
  - apply (NoDup_sub _ (columns_of t)); [apply filter_sub | exact Hc].
  - cbn. intros d [Hd _]%in_without. auto.
  - cbn. intros k d [Hk1 Hm%negb_true_iff]%filter_In Hd. apply in_columns_drop; [exact (Hk k d Hk1 Hd)|].
    intros ->. apply mem_not_In in Hm. contradiction.
Qed.

Lemma constraints_drop_column col t : constraints_of (drop_column col t) ⊆+ constraints_of t.
Proof. apply filter_sub. Qed.

(** Statements that make something. *)
Lemma create_table_ok s t :
  schema_ok s -> ~ In (tab_name t) (relations s) -> check_table s t = inr tt -> schema_ok (with_tables s (tables s ++ [t])).
Proof.
  intros Hs Hfree. unfold check_table.
  destruct (mem (tab_name t) (type_names s)) eqn:E1; [discriminate|].
  destruct (nodup (columns_of t)) eqn:E2; [|discriminate].
  destruct (forallb (fun c => type_known s (col_type c)) (tab_columns t)) eqn:E3; [|discriminate].
  destruct (forallb (fun k => forallb (fun c => mem c (columns_of t)) (con_columns k)) (tab_constraints t)) eqn:E4; [|discriminate].
  destruct (nodup (tab_name t :: constraints_of t)) eqn:E5; [|discriminate].
  destruct (existsb (fun k => mem k (relations s)) (constraints_of t)) eqn:E6; [discriminate|]. intros _.
  apply mem_not_In in E1. apply nodup_NoDup in E2, E5. split.
  - assert (P : relations (with_tables s (tables s ++ [t])) ≡ₚ (tab_name t :: constraints_of t) ++ relations s).
    { unfold relations. cbn. rewrite map_app, flat_map_app. cbn. rewrite app_nil_r. solve_Permutation. }
    rewrite P. apply NoDup_app. split; [exact E5|]. split; [|exact (so_relations _ Hs)].
    intros n Hn Hr. apply list_elem_of_In in Hn, Hr. destruct Hn as [<-|Hn]; [contradiction|].
    apply not_true_iff_false in E6. apply E6, existsb_exists. exists n. split; [exact Hn | apply mem_In, Hr].
  - apply (NoDup_new (tab_name t) _ (type_names s)); [|exact E1 | exact (so_types _ Hs)].
    unfold type_names. cbn. rewrite map_app. cbn. solve_Permutation.
  - cbn. intros u [Hu|[<-|[]]]%in_app_or.
    + exact (so_tables _ Hs u Hu).
    + split; [exact E2 | |].
      * intros c Hc. rewrite forallb_forall in E3. apply (type_known_exists s), E3, Hc.
      * intros k c Hk Hc. rewrite forallb_forall in E4. specialize (E4 k Hk). cbn beta in E4.
        rewrite forallb_forall in E4. apply mem_In, E4, Hc.
  - intros i Hi. refine (index_ok_tables s _ i _ (so_indexes _ Hs i Hi)).
    intros u Hu _. exists u. split; [cbn; apply in_or_app; left; exact Hu | auto].
Qed.

Ltac exec_cases E := repeat match type of E with
  | (if ?b then _ else _) = inr _ => destruct b eqn:?
  | match ?x with _ => _ end = inr _ => destruct x eqn:?
  end; try discriminate E; try (injection E as <-).

Lemma drop_table_ok s n :
  schema_ok s -> schema_ok (with_indexes (with_tables s (without tab_name n (tables s))) (without ix_table n (indexes s))).
Proof.
  intros Hs. split.
  - eapply NoDup_sub; [|exact (so_relations _ Hs)]. unfold relations. cbn.
    repeat apply submseteq_app; first [apply filter_sub | apply flat_filter_sub | reflexivity].
  - eapply NoDup_sub; [|exact (so_types _ Hs)]. unfold type_names. cbn. apply submseteq_skips_l, filter_sub.
  - cbn. intros t [Ht _]%in_without. exact (so_tables _ Hs t Ht).
  - cbn. intros i [Hi Hn]%in_without. refine (index_ok_tables s _ i _ (so_indexes _ Hs i Hi)).
    intros t Ht Hti. exists t. split; [apply in_without; split; [exact Ht | congruence] | auto].
Qed.

Lemma drop_type_ok s n :
  schema_ok s -> existsb (uses_type n) (tables s) = false ->
  schema_ok (mkSchema (without fst n (enums s)) (tables s) (indexes s) (sequences s)).
Proof.
  intros Hs Hu. split.
  - exact (so_relations _ Hs).
  - eapply NoDup_sub; [|exact (so_types _ Hs)]. unfold type_names. cbn. apply submseteq_skips_r, filter_sub.
  - cbn. intros t Ht. apply (table_ok_types (enums s)); [|exact (so_tables _ Hs t Ht)].
    intros m Hm (x & <- & Hx)%in_map_iff. apply in_map, in_without. split; [exact Hx|].
    intros E. apply not_true_iff_false in Hu. apply Hu, existsb_exists. exists t. rewrite <- E. auto.
  - exact (so_indexes _ Hs).
Qed.

(** Dropping an index or a sequence leaves fewer names, and nothing else. *)
Lemma drop_names_ok s ix sq :
  schema_ok s -> map ix_name ix ⊆+ map ix_name (indexes s) -> sq ⊆+ sequences s -> (forall i, In i ix -> In i (indexes s)) ->
  schema_ok (mkSchema (enums s) (tables s) ix sq).
Proof.
  intros Hs Hi Hq Hin. split; [|exact (so_types _ Hs) | exact (so_tables _ Hs) | intros i H; exact (so_indexes _ Hs i (Hin i H))].
  eapply NoDup_sub; [|exact (so_relations _ Hs)]. unfold relations. cbn.
  do 2 apply submseteq_skips_l. apply submseteq_app; assumption.
Qed.

Lemma sub_self {A} (l : list A) : l ⊆+ l.
Proof. reflexivity. Qed.

(** A statement that succeeds leaves a consistent schema consistent. *)
Lemma statements_keep_ok d s s' :
  schema_ok s -> exec d s = inr s' -> schema_ok s'.
Proof.
  intros Hs E. destruct d as [n l|ine t|ine i|ine n|n ine c|n col ty|n ie col|ie n|ie n|ie n|ie n]; cbn [exec] in E;
    exec_cases E; try exact Hs.
  - split; [exact (so_relations _ Hs) | | |exact (so_indexes _ Hs)].
    + apply (NoDup_new n _ (type_names s)); [|apply mem_not_In; assumption | exact (so_types _ Hs)].
      unfold type_names. cbn. rewrite map_app. cbn. solve_Permutation.
    + cbn. intros t Ht. apply (table_ok_types (enums s)); [|exact (so_tables _ Hs t Ht)].
      intros m _ (x & <- & Hx)%in_map_iff. apply in_map, in_or_app. auto.
  - match goal with u : unit |- _ => destruct u end. apply create_table_ok; [exact Hs | apply mem_not_In; assumption | assumption].
  - match goal with Hn : named _ _ _ = Some ?u |- _ => pose proof (named_some _ _ _ _ Hn) as [Hin Hn']; rename u into t end.
    match goal with Hb : negb _ = false |- _ => apply negb_false_iff in Hb; rewrite forallb_forall in Hb; rename Hb into Hcols end.
    split; [| exact (so_types _ Hs) | exact (so_tables _ Hs) |].
    + apply (NoDup_new (ix_name i) _ (relations s)); [|apply mem_not_In; assumption | exact (so_relations _ Hs)].
      unfold relations. cbn. rewrite map_app. cbn. solve_Permutation.
    + cbn. intros j [Hj|[<-|[]]]%in_app_or; [exact (so_indexes _ Hs j Hj)|].
      exists t. split; [exact Hin|]. split; [exact Hn' | intros c Hc; apply mem_In, Hcols, Hc].
  - split; [|exact (so_types _ Hs) | exact (so_tables _ Hs) | exact (so_indexes _ Hs)].
    apply (NoDup_new n _ (relations s)); [|apply mem_not_In; assumption | exact (so_relations _ Hs)].
    unfold relations. cbn. solve_Permutation.
  - match goal with Hn : named _ _ _ = Some ?u |- _ => pose proof (named_some _ _ _ _ Hn) as [Hin Hn']; rename u into t end.
    match goal with Hb : negb _ = false |- _ => apply negb_false_iff, type_known_exists in Hb; rename Hb into Hty end.
    eapply alter_ok_all; [exact Hs | eassumption | reflexivity | intros u; apply sub_self | |].
    + apply add_column_table_ok; [exact (so_tables _ Hs t Hin) | apply mem_not_In; assumption | exact Hty].
    + intros c' Hc'. unfold columns_of, add_column. cbn. rewrite map_app. apply in_or_app. auto.
  - match goal with Hn : named _ _ _ = Some ?u |- _ => pose proof (named_some _ _ _ _ Hn) as [Hin Hn']; rename u into t end.
    match goal with Hb : negb (type_known _ _) = false |- _ => apply negb_false_iff, type_known_exists in Hb; rename Hb into Hty end.
    eapply alter_ok_all; [exact Hs | eassumption | reflexivity | intros u; apply sub_self | |].
    + apply retype_table_ok; [exact (so_tables _ Hs t Hin) | exact Hty].
    + intros c' Hc'. rewrite columns_retype. exact Hc'.
  - match goal with Hn : named _ _ _ = Some ?u |- _ => pose proof (named_some _ _ _ _ Hn) as [Hin Hn']; rename u into t end.
    eapply alter_ok; [exact Hs | eassumption | reflexivity | intros u; apply constraints_drop_column | |].
    + apply drop_column_table_ok, (so_tables _ Hs t Hin).
    + intros i c _ Hp Hi Hc Hct. apply in_columns_drop; [exact Hct|]. intros ->.
      rewrite Hi, String.eqb_refl in Hp. apply mem_In in Hc. rewrite Hc in Hp. discriminate.
  - apply drop_names_ok; [exact Hs | apply filter_sub | apply sub_self | intros i [Hi _]%in_without; exact Hi].
  - apply drop_table_ok, Hs.
  - apply drop_type_ok; assumption.
  - apply drop_names_ok; [exact Hs | apply sub_self | | auto].
    pose proof (filter_sub (fun m : string => m) (fun m => negb (String.eqb m n)) (sequences s)) as H.
    rewrite !map_id in H. exact H.
Qed.

(** ** Going back *)

(** [u] is the statement that removes what [d] makes. *)
Definition undoes (d u : statement) : bool :=
  match d, u with
  | CreateType n _, DropType _ m => String.eqb n m
  | CreateTable _ t, DropTable _ m => String.eqb (tab_name t) m
  | CreateIndex _ i, DropIndex _ m => String.eqb (ix_name i) m
  | CreateSequence _ n, DropSequence _ m => String.eqb n m
  | AddColumn t _ c, DropColumn t' _ c' => String.eqb t t' && String.eqb (col_name c) c'
  | _, _ => false
  end.

(** [d] makes something in [s]: it is not the IF NOT EXISTS of something there. *)
Definition absent (d : statement) (s : Schema) : bool :=
  match d with
  | CreateTable _ t => negb (mem (tab_name t) (relations s))
  | CreateIndex _ i => negb (mem (ix_name i) (relations s))
  | CreateSequence _ n => negb (mem n (relations s))
  | AddColumn n _ c =>
      match named tab_name n (tables s) with Some t => negb (mem (col_name c) (columns_of t)) | None => true end
  | _ => true
  end.

Lemma mem_last n (l : list string) : mem n (l ++ [n]) = true.
Proof. apply mem_In, in_or_app. right. left. reflexivity. Qed.

Lemma named_alter n f s t :
  (forall t, tab_name (f t) = tab_name t) -> named tab_name n (tables s) = Some t ->
  named tab_name n (tables (alter n f s)) = Some (f t).
Proof.
  intros Hf. unfold named, alter. cbn. induction (tables s) as [|u l IH]; cbn; [discriminate|].
  destruct (String.eqb (tab_name u) n) eqn:E; cbn; [rewrite Hf, E; congruence | rewrite E; exact IH].
Qed.

Lemma no_index_on s n col t i :
  schema_ok s -> named tab_name n (tables s) = Some t -> ~ In col (columns_of t) -> In i (indexes s) ->
  String.eqb (ix_table i) n && mem col (index_uses i) = false.
Proof.
  intros Hs Ht Hc Hi. apply not_true_iff_false. rewrite andb_true_iff, String.eqb_eq, mem_In. intros [E Hu].
  destruct (so_indexes _ Hs i Hi) as (v & Hv & Hvn & Hcols).
  rewrite (named_unique s n t v Hs Ht Hv) in Hcols by congruence. auto.
Qed.

Lemma drop_add_column c t :
  ~ In (col_name c) (columns_of t) ->
  (forall k d, In k (tab_constraints t) -> In d (con_columns k) -> In d (columns_of t)) ->
  drop_column (col_name c) (add_column c t) = t.
Proof.
  intros Hn Hk. unfold drop_column, add_column. cbn [tab_name tab_columns tab_constraints].
  rewrite (without_last col_name c) by exact Hn.
  assert (E : List.filter (fun k => negb (mem (col_name c) (con_columns k))) (tab_constraints t) = tab_constraints t).
  { revert Hk. generalize (tab_constraints t). intros l Hk.
    induction l as [|k l IH]; cbn; [reflexivity|].
    assert (Hm : mem (col_name c) (con_columns k) = false).
    { apply mem_not_In. intros Hin. apply Hn, (Hk k); [left; reflexivity | exact Hin]. }
    rewrite Hm. cbn. f_equal. apply IH. intros k' d Hk' Hd. apply (Hk k'); [right; exact Hk' | exact Hd]. }
  rewrite E. destruct t. reflexivity.
Qed.

Lemma undo_add_column n ie c s t :
  schema_ok s -> named tab_name n (tables s) = Some t -> ~ In (col_name c) (columns_of t) ->
  exec (DropColumn n ie (col_name c)) (alter n (add_column c) s) = inr s.
Proof.
  intros Hs Ht Hc. pose proof (named_some _ _ _ _ Ht) as [Hin Hn]. cbn [exec].
  rewrite (named_alter n (add_column c) s t) by (reflexivity || exact Ht).
  unfold columns_of at 1, add_column at 1. cbn [tab_columns]. rewrite map_app. cbn [map]. rewrite mem_last. f_equal.
  unfold alter, with_indexes, with_tables. cbn. destruct s as [en ts ixs sq] eqn:Es. cbn in *. f_equal.
  - rewrite map_map. rewrite <- (map_id ts) at 2. apply map_ext_in. intros u Hu.
    destruct (String.eqb_spec (tab_name u) n) as [E|E]; cbn.
    + rewrite E, String.eqb_refl. rewrite (named_unique _ n t u Hs Ht Hu E).
      apply drop_add_column; [exact Hc | apply (to_keys _ _ (so_tables _ Hs t Hin))].
    + apply String.eqb_neq in E. rewrite E. reflexivity.
  - assert (Hall : forall i, In i ixs -> String.eqb (ix_table i) n && mem (col_name c) (index_uses i) = false)
      by (intros i; apply (no_index_on _ n _ t i Hs Ht Hc)).
    clear - Hall. induction ixs as [|i l IH]; cbn; [reflexivity|].
    rewrite (Hall i) by (left; reflexivity). cbn. f_equal. apply IH. intros j Hj. apply Hall. right. exact Hj.
Qed.

Lemma undo_create_table t ie s :
  schema_ok s -> ~ In (tab_name t) (relations s) ->
  exec (DropTable ie (tab_name t)) (with_tables s (tables s ++ [t])) = inr s.
Proof.
  intros Hs Hn. assert (Ht : ~ In (tab_name t) (map tab_name (tables s))).
  { intros Hin. apply Hn. unfold relations. apply in_or_app. auto. }
  cbn [exec]. unfold with_tables at 1. cbn [tables]. rewrite map_app. cbn [map]. rewrite mem_last. f_equal.
  unfold with_indexes, with_tables. cbn [enums tables indexes sequences]. rewrite (without_last tab_name t) by exact Ht.
  rewrite without_fresh; [destruct s; reflexivity|].
  intros (i & Ei & Hi)%in_map_iff. destruct (so_indexes _ Hs i Hi) as (u & Hu & Hun & _).
  apply Ht. rewrite <- Ei, <- Hun. apply in_map, Hu.
Qed.

Lemma undo_create_type n labels ie s :
  schema_ok s -> ~ In n (type_names s) ->
  exec (DropType ie n) (mkSchema (enums s ++ [(n, labels)]) (tables s) (indexes s) (sequences s)) = inr s.
Proof.
  intros Hs Hn. assert (He : ~ In n (map fst (enums s))) by (intros Hin; apply Hn; unfold type_names; apply in_or_app; auto).
  cbn [exec enums tables]. rewrite map_app. cbn [map fst]. rewrite mem_last.
  assert (Hu : existsb (uses_type n) (tables s) = false).
  { apply not_true_iff_false. intros (t & Ht & (c & Hc & Huse)%existsb_exists)%existsb_exists.
    pose proof (to_types _ _ (so_tables _ Hs t Ht) c Hc) as Hex. destruct (col_type c); try discriminate.
    apply String.eqb_eq in Huse as ->. contradiction. }
  rewrite Hu. cbn [indexes sequences]. rewrite (without_last fst (n, labels)) by exact He. destruct s; reflexivity.
Qed.

Lemma undo_exec d u s s' :
  schema_ok s -> undoes d u = true -> absent d s = true -> exec d s = inr s' -> exec u s' = inr s.
Proof.
  intros Hs Hu Ha E. destruct d as [n l|ine t|ine i|ine n|n ine c|n col ty|n ie col|ie n|ie n|ie n|ie n], u; try discriminate Hu;
    cbn [undoes absent exec] in *; try (apply String.eqb_eq in Hu as <-).
  - exec_cases E. apply undo_create_type; [exact Hs | apply mem_not_In; assumption].
  - apply negb_true_iff in Ha. rewrite Ha in E. exec_cases E.
    apply undo_create_table; [exact Hs | apply mem_not_In; assumption].
  - apply negb_true_iff in Ha. rewrite Ha in E. exec_cases E.
    unfold with_indexes. cbn [indexes]. rewrite map_app. cbn [map]. rewrite mem_last, (without_last ix_name i).
    + destruct s; reflexivity.
    + apply mem_not_In in Ha. intros Hin. apply Ha. unfold relations. apply in_or_app. right. apply in_or_app. right. apply in_or_app. auto.
  - apply negb_true_iff in Ha. rewrite Ha in E. exec_cases E. cbn [sequences]. rewrite mem_last.
    pose proof (without_last (fun m : string => m) n (sequences s)) as Hw. cbn beta in Hw.
    rewrite Hw; [destruct s; reflexivity|]. apply mem_not_In in Ha. rewrite map_id. intros Hin. apply Ha. unfold relations. do 3 (apply in_or_app; right). exact Hin.
  - apply andb_prop in Hu as [->%String.eqb_eq <-%String.eqb_eq].
    destruct (named _ _ _) as [t|] eqn:Ht; [|discriminate]. apply negb_true_iff in Ha. rewrite Ha in E. exec_cases E.
    apply (undo_add_column _ _ c s t); [exact Hs | exact Ht | apply mem_not_In, Ha].
Qed.

(** Every statement of [l], in turn, makes something. *)
Fixpoint all_absent (l : list statement) (s : Schema) : bool :=
  match l with
  | [] => true
  | d :: l => absent d s && match exec d s with inl _ => false | inr s' => all_absent l s' end
  end.

Lemma exec_all_app l l' s : exec_all (l ++ l') s = match exec_all l s with inl x => inl x | inr s' => exec_all l' s' end.
Proof. revert s. induction l as [|d l IH]; intros s; cbn; [reflexivity|]. destruct (exec d s); [reflexivity | apply IH]. Qed.

Definition reversal (m : migration) : bool :=
  (length (up m) =? length (down m))%nat && forallb (fun '(d, u) => undoes d u) (zip (up m) (rev (down m))).

Lemma undo_all us ds s s' :
  schema_ok s -> length us = length ds -> forallb (fun '(d, u) => undoes d u) (zip us ds) = true ->
  all_absent us s = true -> exec_all us s = inr s' -> exec_all (rev ds) s' = inr s.
Proof.
  revert ds s s'. induction us as [|d us IH]; intros [|u ds] s s' Hs Hl Hz Ha E; try discriminate Hl.
  - cbn in *. congruence.
  - cbn in Hz, Ha, E. apply andb_prop in Hz as [Hu Hz]. apply andb_prop in Ha as [Had Ha]. injection Hl as Hl.
    destruct (exec d s) as [x|s1] eqn:E1; [discriminate|]. cbn [rev]. rewrite exec_all_app.
    rewrite (IH ds s1 s' (statements_keep_ok d s s1 Hs E1) Hl Hz Ha E). cbn. rewrite (undo_exec d u s s1 Hs Hu Had E1). reflexivity.
Qed.

(** A migration whose [down] is the reversal of its [up] restores the schema it
    was run on, as long as nothing it makes was there before. *)
Lemma reversal_restores m s s' :
  schema_ok s -> reversal m = true -> all_absent (up m) s = true -> exec_all (up m) s = inr s' -> exec_all (down m) s' = inr s.
Proof.
  intros Hs [Hl%Nat.eqb_eq Hz]%andb_prop Ha E. rewrite <- (rev_involutive (down m)).
  apply (undo_all (up m) _ s s' Hs); [rewrite length_rev; exact Hl | exact Hz | exact Ha | exact E].
Qed.

(** ** Runs of the commands *)

Inductive command : Type := Run | Revert.
Definition command_step (all : list migration) (db : database) (c : command) : database :=
  match c with Run => (migration_run all db).2 | Revert => (migration_revert db).2 end.

Lemma exec_all_ok l : forall s s', schema_ok s -> exec_all l s = inr s' -> schema_ok s'.
Proof.
  induction l as [|d l IH]; intros s s' Hs E; cbn in E; [congruence|].
  destruct (exec d s) as [x|s1] eqn:E1; [discriminate|]. apply (IH s1 s'); [exact (statements_keep_ok d s s1 Hs E1) | exact E].
Qed.

Lemma run_up_ok l : forall db db', schema_ok (schema db) -> run_up l db = inr db' -> schema_ok (schema db').
Proof.
  induction l as [|m l IH]; intros db db' Hs E; cbn in E; [congruence|].
  destruct (exec_all (up m) (schema db)) as [x|s] eqn:E1; [discriminate|].
  apply (IH (mkDatabase s (executed db ++ [m])) db'); [exact (exec_all_ok _ _ s Hs E1) | exact E].
Qed.

(** A command that fails changes nothing. *)
Lemma failed_command all db x :
  ((migration_run all db).1 = inl x -> (migration_run all db).2 = db) /\
  ((migration_revert db).1 = inl x -> (migration_revert db).2 = db).
Proof.
  unfold migration_run, migration_revert. split.
  - destruct (run_up _ _); cbn; [reflexivity | discriminate].
  - destruct (rev (executed db)) as [|m l]; [reflexivity|]. destruct (exec_all _ _); cbn; [reflexivity | discriminate].
Qed.

(** Whatever migrations there are, and in whatever order they are run and
    reverted, the schema stays consistent. *)
Lemma commands_keep_the_schema_consistent (all : list migration) (cmds : list command) (db : database) :
  schema_ok (schema db) -> schema_ok (schema (fold_left (command_step all) cmds db)).
Proof.
  revert db. induction cmds as [|c cmds IH]; intros db Hs; [exact Hs|].
  cbn [fold_left]. apply IH. destruct c; cbn [command_step]; unfold migration_run, migration_revert.
  - destruct (run_up _ _) as [x|db'] eqn:E; [exact Hs | exact (run_up_ok _ _ _ Hs E)].
  - destruct (rev (executed db)) as [|m l]; [exact Hs|].
    destruct (exec_all (down m) (schema db)) as [x|s] eqn:E; [exact Hs | exact (exec_all_ok _ _ _ Hs E)].
Qed.

Lemma empty_ok : schema_ok empty_schema.
Proof. split; [constructor | constructor | easy | easy]. Qed.

(** A migration that fails half-way: what ran before it is undone too. *)
Example failed_run_changes_nothing :
  let m := mkMigration "M1" 1 [CreateTable false (mkTable "t" [required "id" uuid] [mkConstraint "PK_t" PrimaryKey ["id"]])]
                              [DropTable true "t"] in
  let bad := mkMigration "M2" 2 [CreateSequence false "PK_t"] [] in
  migration_run [bad; m] empty_database = (inl (duplicate_relation "PK_t"), empty_database).
Proof. reflexivity. Qed.
