(* ===== verification/Migrations.v ===== *)
(** database/: the migrations, statement by statement, and what they make of an
    empty database; the tables and columns the entities expect of it.  The SQL
    text of each query is read as the statement it is; casts of the data
    ([USING]) are not modelled. *)
From S2P Require Import Prelude JsNumber Effects Schema.
Local Open Scope Z_scope.

(** database/migrations/InitialSchema1699000000000.ts, a definition per section. *)
Module InitialSchema.
Definition types : list statement :=
  [CreateType "transactions_status_enum" ["pending"; "completed"; "failed"; "reversed"];
   CreateType "kyc_documents_status_enum" ["pending"; "approved"; "rejected"];
   CreateType "otps_purpose_enum" ["email-verify"; "2fa"; "password-reset"];
   CreateType "ledger_entries_type_enum" ["credit"; "debit"];
   CreateType "device_tokens_platform_enum" ["ios"; "android"; "web"];
   CreateType "organisations_kyc_status_enum" ["pending"; "verified"; "rejected"];
   CreateType "organisation_members_role_enum" ["owner"; "admin"; "member"];
   CreateType "support_tickets_category_enum" ["transaction"; "kyc"; "account"; "other"];
   CreateType "support_tickets_status_enum" ["open"; "in-progress"; "resolved"; "closed"];
   CreateType "webhook_deliveries_status_enum" ["pending"; "delivered"; "failed"; "expired"]].

Definition users : list statement :=
  [CreateTable false (mkTable "users"
    [defaulted "id" uuid "gen_random_uuid()";
     required "email" (varchar None);
     required "passwordHash" (varchar None);
     required "firstName" (varchar None);
     required "lastName" (varchar None);
     defaulted "role" (varchar None) "'user'";
     defaulted "isEmailVerified" boolean "false";
     defaulted "kycStatus" (varchar None) "'pending'";
     defaulted "isActive" boolean "true";
     defaulted "createdAt" timestamp "now()";
     defaulted "updatedAt" timestamp "now()"]
    [mkConstraint "PK_users" PrimaryKey ["id"]]);
   CreateIndex false (mkIndex "UQ_users_email" "users" true ["email"] None)].

Definition user_accounts : list statement :=
  [CreateTable false (mkTable "user_accounts"
    [required "id" uuid;
     required "email" text;
     required "displayName" text;
     required "passwordSalt" text;
     required "passwordHash" text;
     required "twoFactorSecret" text;
     defaulted "isActive" boolean "true";
     nullable "deletedAt" timestamp;
     nullable "closedAt" timestamp;
     nullable "piiPurgeAt" timestamp;
     nullable "piiPurgedAt" timestamp;
     nullable "finalEmailSentAt" timestamp;
     defaulted "createdAt" timestamp "now()";
     defaulted "updatedAt" timestamp "now()"]
    [mkConstraint "PK_user_accounts" PrimaryKey ["id"]]);
   CreateIndex false (mkIndex "UQ_user_accounts_email" "user_accounts" true ["email"] None);
   CreateIndex false (mkIndex "IDX_user_accounts_deletedAt" "user_accounts" false ["deletedAt"] None);
   CreateIndex false (mkIndex "IDX_user_accounts_piiPurgeAt" "user_accounts" false ["piiPurgeAt"] None)].

Definition wallet_balances : list statement :=
  [CreateTable false (mkTable "wallet_balances"
    [defaulted "id" uuid "gen_random_uuid()";
     required "accountId" (varchar (Some 36));
     required "currency" (varchar (Some 3));
     defaulted "balance" (numeric 20 2) "0";
     defaulted "createdAt" timestamp "now()";
     defaulted "updatedAt" timestamp "now()";
     defaulted "version" integer "0"]
    [mkConstraint "PK_wallet_balances" PrimaryKey ["id"]]);
   CreateIndex false (mkIndex "UQ_wallet_balances_accountId_currency" "wallet_balances" true ["accountId"; "currency"] None)].

Definition transactions : list statement :=
  [CreateTable false (mkTable "transactions"
    [defaulted "id" uuid "gen_random_uuid()";
     required "senderId" uuid;
     required "receiverId" uuid;
     required "amount" (numeric 18 8);
     required "currency" (varchar (Some 10));
     defaulted "fee" (numeric 18 8) "0";
     defaulted "status" (enum "transactions_status_enum") "'pending'";
     required "reference" (varchar None);
     nullable "metadata" jsonb;
     defaulted "createdAt" timestamp "now()";
     nullable "completedAt" timestamp;
     nullable "reversedAt" timestamp;
     nullable "reversedBy" uuid;
     nullable "reversalReason" text;
     nullable "reversalTransactionId" uuid;
     defaulted "retryCount" integer "0";
     nullable "txHash" (varchar (Some 128));
     nullable "deletedAt" timestamp]
    [mkConstraint "PK_transactions" PrimaryKey ["id"];
     mkConstraint "UQ_transactions_reference" Unique ["reference"]]);
   CreateIndex false (mkIndex "IDX_transactions_senderId_createdAt" "transactions" false ["senderId"; "createdAt"] None);
   CreateIndex false (mkIndex "IDX_transactions_status_createdAt" "transactions" false ["status"; "createdAt"] None);
   CreateIndex false (mkIndex "IDX_transactions_currency_createdAt" "transactions" false ["currency"; "createdAt"] None);
   CreateIndex false (mkIndex "IDX_transactions_senderId" "transactions" false ["senderId"] None);
   CreateIndex false (mkIndex "IDX_transactions_receiverId" "transactions" false ["receiverId"] None);
   CreateIndex false (mkIndex "IDX_transactions_createdAt" "transactions" false ["createdAt"] None)].

Definition refresh_tokens : list statement :=
  [CreateTable false (mkTable "refresh_tokens"
    [required "id" uuid;
     required "userId" text;
     required "familyId" uuid;
     required "tokenHash" text;
     nullable "parentTokenId" uuid;
     nullable "replacedByTokenId" uuid;
     required "expiresAt" timestamp;
     nullable "revokedAt" timestamp;
     defaulted "createdAt" timestamp "now()";
     nullable "lastUsedAt" timestamp]
    [mkConstraint "PK_refresh_tokens" PrimaryKey ["id"]]);
   CreateIndex false (mkIndex "UQ_refresh_tokens_tokenHash" "refresh_tokens" true ["tokenHash"] None);
   CreateIndex false (mkIndex "IDX_refresh_tokens_userId" "refresh_tokens" false ["userId"] None);
   CreateIndex false (mkIndex "IDX_refresh_tokens_familyId" "refresh_tokens" false ["familyId"] None);
   CreateIndex false (mkIndex "IDX_refresh_tokens_expiresAt" "refresh_tokens" false ["expiresAt"] None)].

Definition password_reset_tokens : list statement :=
  [CreateTable false (mkTable "password_reset_tokens"
    [defaulted "id" uuid "gen_random_uuid()";
     required "userId" (varchar None);
     required "tokenHash" (varchar None);
     defaulted "attempts" integer "0";
     required "expiresAt" timestamp;
     defaulted "used" boolean "false";
     defaulted "createdAt" timestamp "now()"]
    [mkConstraint "PK_password_reset_tokens" PrimaryKey ["id"]]);
   CreateIndex false (mkIndex "IDX_password_reset_tokens_userId" "password_reset_tokens" false ["userId"] None)].

Definition idempotency_keys : list statement :=
  [CreateTable false (mkTable "idempotency_keys"
    [required "key" text;
     required "requestHash" text;
     required "response" jsonb;
     required "statusCode" integer;
     defaulted "createdAt" timestamp "now()";
     nullable "expiresAt" timestamp]
    [mkConstraint "PK_idempotency_keys" PrimaryKey ["key"]]);
   CreateIndex false (mkIndex "IDX_idempotency_keys_createdAt" "idempotency_keys" false ["createdAt"] None);
   CreateIndex false (mkIndex "IDX_idempotency_keys_expiresAt" "idempotency_keys" false ["expiresAt"] None)].

Definition kyc_documents : list statement :=
  [CreateTable false (mkTable "kyc_documents"
    [defaulted "id" uuid "gen_random_uuid()";
     required "userId" uuid;
     required "documentType" (varchar None);
     required "documentNumber" (varchar None);
     required "documentUrl" (varchar None);
     defaulted "status" (enum "kyc_documents_status_enum") "'pending'";
     nullable "reviewedBy" uuid;
     nullable "reviewedAt" timestamp;
     defaulted "createdAt" timestamp "now()"]
    [mkConstraint "PK_kyc_documents" PrimaryKey ["id"]]);
   CreateIndex false (mkIndex "IDX_kyc_documents_userId" "kyc_documents" false ["userId"] None);
   CreateIndex false (mkIndex "IDX_kyc_documents_status" "kyc_documents" false ["status"] None)].

Definition otps : list statement :=
  [CreateTable false (mkTable "otps"
    [defaulted "id" uuid "gen_random_uuid()";
     required "userId" uuid;
     required "codeHash" (varchar None);
     required "purpose" (enum "otps_purpose_enum");
     defaulted "attempts" integer "0";
     required "expiresAt" timestamp;
     nullable "usedAt" timestamp;
     defaulted "createdAt" timestamp "now()"]
    [mkConstraint "PK_otps" PrimaryKey ["id"]]);
   CreateIndex false (mkIndex "IDX_otps_userId_purpose" "otps" false ["userId"; "purpose"] None);
   CreateIndex false (mkIndex "IDX_otps_expiresAt" "otps" false ["expiresAt"] None)].

Definition activity_events : list statement :=
  [CreateTable false (mkTable "activity_events"
    [defaulted "id" uuid "gen_random_uuid()";
     required "userId" (varchar None);
     required "type" (varchar None);
     required "description" text;
     nullable "ipAddress" (varchar None);
     nullable "deviceInfo" (varchar None);
     defaulted "securityEvent" boolean "false";
     nullable "metadata" jsonb;
     defaulted "createdAt" timestamp "now()"]
    [mkConstraint "PK_activity_events" PrimaryKey ["id"]]);
   CreateIndex false (mkIndex "IDX_activity_events_userId_createdAt" "activity_events" false ["userId"; "createdAt"] None);
   CreateIndex false (mkIndex "IDX_activity_events_type" "activity_events" false ["type"] None)].

Definition aml_alerts : list statement :=
  [CreateTable false (mkTable "aml_alerts"
    [defaulted "id" uuid "gen_random_uuid()";
     required "userId" uuid;
     required "ruleTriggered" (varchar None);
     required "riskScore" integer;
     nullable "metadata" jsonb;
     nullable "reviewedAt" timestamp;
     defaulted "createdAt" timestamp "now()"]
    [mkConstraint "PK_aml_alerts" PrimaryKey ["id"]]);
   CreateIndex false (mkIndex "IDX_aml_alerts_userId" "aml_alerts" false ["userId"] None);
   CreateIndex false (mkIndex "IDX_aml_alerts_ruleTriggered" "aml_alerts" false ["ruleTriggered"] None);
   CreateIndex false (mkIndex "IDX_aml_alerts_createdAt" "aml_alerts" false ["createdAt"] None)].

Definition audit_logs : list statement :=
  [CreateTable false (mkTable "audit_logs"
    [defaulted "id" uuid "gen_random_uuid()";
     nullable "userId" uuid;
     required "action" (varchar None);
     required "entityType" (varchar None);
     nullable "entityId" (varchar None);
     nullable "before" text;
     nullable "after" text;
     nullable "ipAddress" (varchar None);
     nullable "userAgent" (varchar None);
     defaulted "createdAt" timestamp "now()"]
    [mkConstraint "PK_audit_logs" PrimaryKey ["id"]]);
   CreateIndex false (mkIndex "IDX_audit_logs_userId" "audit_logs" false ["userId"] None);
   CreateIndex false (mkIndex "IDX_audit_logs_entityType_entityId" "audit_logs" false ["entityType"; "entityId"] None);
   CreateIndex false (mkIndex "IDX_audit_logs_createdAt" "audit_logs" false ["createdAt"] None)].

Definition fx_trades : list statement :=
  [CreateTable false (mkTable "fx_trades"
    [defaulted "id" uuid "gen_random_uuid()";
     required "userId" uuid;
     required "fromCurrency" (varchar (Some 10));
     required "toCurrency" (varchar (Some 10));
     required "fromAmount" (numeric 18 8);
     required "toAmount" (numeric 18 8);
     required "rate" (numeric 18 8);
     defaulted "executedAt" timestamp "now()";
     nullable "reversedAt" timestamp;
     nullable "deletedAt" timestamp]
    [mkConstraint "PK_fx_trades" PrimaryKey ["id"]]);
   CreateIndex false (mkIndex "IDX_fx_trades_userId" "fx_trades" false ["userId"] None);
   CreateIndex false (mkIndex "IDX_fx_trades_executedAt" "fx_trades" false ["executedAt"] None)].

Definition ledger_entries : list statement :=
  [CreateTable false (mkTable "ledger_entries"
    [defaulted "id" uuid "gen_random_uuid()";
     required "userId" uuid;
     nullable "transactionId" uuid;
     required "type" (enum "ledger_entries_type_enum");
     required "amount" (numeric 18 8);
     required "currency" (varchar (Some 10));
     required "balanceAfter" (numeric 18 8);
     nullable "description" text;
     defaulted "createdAt" timestamp "now()"]
    [mkConstraint "PK_ledger_entries" PrimaryKey ["id"]]);
   CreateIndex false (mkIndex "IDX_ledger_entries_userId_createdAt" "ledger_entries" false ["userId"; "createdAt"] None);
   CreateIndex false (mkIndex "IDX_ledger_entries_userId" "ledger_entries" false ["userId"] None);
   CreateIndex false (mkIndex "IDX_ledger_entries_transactionId" "ledger_entries" false ["transactionId"] None)].

Definition device_tokens : list statement :=
  [CreateTable false (mkTable "device_tokens"
    [defaulted "id" uuid "gen_random_uuid()";
     required "userId" uuid;
     required "token" (varchar None);
     required "platform" (enum "device_tokens_platform_enum");
     defaulted "createdAt" timestamp "now()";
     nullable "lastUsedAt" timestamp]
    [mkConstraint "PK_device_tokens" PrimaryKey ["id"];
     mkConstraint "UQ_device_tokens_token" Unique ["token"]]);
   CreateIndex false (mkIndex "IDX_device_tokens_userId" "device_tokens" false ["userId"] None)].

Definition organisations : list statement :=
  [CreateTable false (mkTable "organisations"
    [defaulted "id" uuid "gen_random_uuid()";
     required "name" (varchar (Some 255));
     nullable "registrationNumber" (varchar (Some 100));
     required "country" (varchar (Some 100));
     defaulted "kycStatus" (enum "organisations_kyc_status_enum") "'pending'";
     required "ownerId" uuid;
     defaulted "createdAt" timestamp "now()"]
    [mkConstraint "PK_organisations" PrimaryKey ["id"]]);
   CreateIndex false (mkIndex "IDX_organisations_ownerId" "organisations" false ["ownerId"] None)].

Definition organisation_members : list statement :=
  [CreateTable false (mkTable "organisation_members"
    [defaulted "id" uuid "gen_random_uuid()";
     required "organisationId" uuid;
     required "userId" uuid;
     defaulted "role" (enum "organisation_members_role_enum") "'member'";
     nullable "permissions" text;
     defaulted "joinedAt" timestamp "now()"]
    [mkConstraint "PK_organisation_members" PrimaryKey ["id"];
     mkConstraint "UQ_organisation_members_org_user" Unique ["organisationId"; "userId"]]);
   CreateIndex false (mkIndex "IDX_organisation_members_organisationId" "organisation_members" false ["organisationId"] None)].

Definition ledger_verification_results : list statement :=
  [CreateTable false (mkTable "ledger_verification_results"
    [defaulted "id" uuid "gen_random_uuid()";
     defaulted "ranAt" timestamp "now()";
     defaulted "totalChecked" integer "0";
     defaulted "discrepancyCount" integer "0";
     nullable "discrepancies" jsonb]
    [mkConstraint "PK_ledger_verification_results" PrimaryKey ["id"]]);
   CreateIndex false (mkIndex "IDX_ledger_verification_results_ranAt" "ledger_verification_results" false ["ranAt"] None)].

Definition referrals : list statement :=
  [CreateTable false (mkTable "referrals"
    [defaulted "id" uuid "gen_random_uuid()";
     required "referrerId" uuid;
     required "refereeId" uuid;
     required "code" (varchar None);
     defaulted "rewardPaid" boolean "false";
     defaulted "createdAt" timestamp "now()";
     nullable "deletedAt" timestamp]
    [mkConstraint "PK_referrals" PrimaryKey ["id"];
     mkConstraint "UQ_referrals_refereeId" Unique ["refereeId"];
     mkConstraint "UQ_referrals_code" Unique ["code"]]);
   CreateIndex false (mkIndex "IDX_referrals_referrerId" "referrals" false ["referrerId"] None)].

Definition support_tickets : list statement :=
  [CreateTable false (mkTable "support_tickets"
    [defaulted "id" uuid "gen_random_uuid()";
     required "userId" (varchar None);
     required "subject" (varchar None);
     required "description" text;
     required "category" (enum "support_tickets_category_enum");
     defaulted "status" (enum "support_tickets_status_enum") "'open'";
     nullable "relatedEntityType" (varchar None);
     nullable "relatedEntityId" (varchar None);
     nullable "updatedBy" (varchar None);
     nullable "resolvedAt" timestamp;
     defaulted "createdAt" timestamp "now()";
     defaulted "updatedAt" timestamp "now()"]
    [mkConstraint "PK_support_tickets" PrimaryKey ["id"]]);
   CreateIndex false (mkIndex "IDX_support_tickets_userId" "support_tickets" false ["userId"] None)].

Definition terms_acceptances : list statement :=
  [CreateTable false (mkTable "terms_acceptances"
    [defaulted "id" uuid "gen_random_uuid()";
     required "userId" uuid;
     required "version" (varchar None);
     defaulted "acceptedAt" timestamp "now()";
     nullable "ipAddress" (varchar None);
     nullable "userAgent" (varchar None)]
    [mkConstraint "PK_terms_acceptances" PrimaryKey ["id"];
     mkConstraint "UQ_terms_acceptances_userId_version" Unique ["userId"; "version"]])].

Definition webhook_endpoints : list statement :=
  [CreateTable false (mkTable "webhook_endpoints"
    [defaulted "id" uuid "gen_random_uuid()";
     required "ownerId" (varchar None);
     required "url" (varchar None);
     required "secret" (varchar None);
     required "events" text;
     defaulted "isActive" boolean "true";
     defaulted "createdAt" timestamp "now()";
     defaulted "updatedAt" timestamp "now()"]
    [mkConstraint "PK_webhook_endpoints" PrimaryKey ["id"]]);
   CreateIndex false (mkIndex "IDX_webhook_endpoints_ownerId" "webhook_endpoints" false ["ownerId"] None)].

Definition webhook_deliveries : list statement :=
  [CreateTable false (mkTable "webhook_deliveries"
    [defaulted "id" uuid "gen_random_uuid()";
     required "endpointId" (varchar None);
     required "eventName" (varchar None);
     required "requestBody" jsonb;
     defaulted "attemptCount" integer "0";
     nullable "responseCode" integer;
     nullable "errorMessage" text;
     defaulted "status" (enum "webhook_deliveries_status_enum") "'pending'";
     nullable "deliveredAt" timestamp;
     nullable "lastAttemptAt" timestamp;
     defaulted "createdAt" timestamp "now()";
     defaulted "updatedAt" timestamp "now()"]
    [mkConstraint "PK_webhook_deliveries" PrimaryKey ["id"]]);
   CreateIndex false (mkIndex "IDX_webhook_deliveries_endpointId" "webhook_deliveries" false ["endpointId"] None);
   CreateIndex false (mkIndex "IDX_webhook_deliveries_eventName" "webhook_deliveries" false ["eventName"] None)].

Definition up : list statement :=
  types ++ users ++ user_accounts ++ wallet_balances ++ transactions ++ refresh_tokens ++ password_reset_tokens ++ idempotency_keys ++ kyc_documents ++ otps ++ activity_events ++ aml_alerts ++ audit_logs ++ fx_trades ++ ledger_entries ++ device_tokens ++ organisations ++ organisation_members ++ ledger_verification_results ++ referrals ++ support_tickets ++ terms_acceptances ++ webhook_endpoints ++ webhook_deliveries.

Definition down_indexes : list statement := map (DropIndex true)
  ["IDX_webhook_deliveries_eventName";
   "IDX_webhook_deliveries_endpointId";
   "IDX_webhook_endpoints_ownerId";
   "UQ_terms_acceptances_userId_version";
   "IDX_support_tickets_userId";
   "IDX_referrals_referrerId";
   "IDX_ledger_verification_results_ranAt";
   "IDX_organisation_members_organisationId";
   "IDX_organisations_ownerId";
   "IDX_device_tokens_userId";
   "IDX_ledger_entries_transactionId";
   "IDX_ledger_entries_userId";
   "IDX_ledger_entries_userId_createdAt";
   "IDX_fx_trades_executedAt";
   "IDX_fx_trades_userId";
   "IDX_audit_logs_createdAt";
   "IDX_audit_logs_entityType_entityId";
   "IDX_audit_logs_userId";
   "IDX_aml_alerts_createdAt";
   "IDX_aml_alerts_ruleTriggered";
   "IDX_aml_alerts_userId";
   "IDX_activity_events_type";
   "IDX_activity_events_userId_createdAt";
   "IDX_otps_expiresAt";
   "IDX_otps_userId_purpose";
   "IDX_kyc_documents_status";
   "IDX_kyc_documents_userId";
   "IDX_idempotency_keys_expiresAt";
   "IDX_idempotency_keys_createdAt";
   "IDX_password_reset_tokens_userId";
   "UQ_refresh_tokens_tokenHash";
   "IDX_refresh_tokens_expiresAt";
   "IDX_refresh_tokens_familyId";
   "IDX_refresh_tokens_userId";
   "IDX_transactions_createdAt";
   "IDX_transactions_receiverId";
   "IDX_transactions_senderId";
   "IDX_transactions_currency_createdAt";
   "IDX_transactions_status_createdAt";
   "IDX_transactions_senderId_createdAt";
   "UQ_wallet_balances_accountId_currency";
   "IDX_user_accounts_piiPurgeAt";
   "IDX_user_accounts_deletedAt";
   "UQ_user_accounts_email";
   "UQ_users_email"].

Definition down_tables : list statement := map (DropTable true)
  ["webhook_deliveries";
   "webhook_endpoints";
   "terms_acceptances";
   "support_tickets";
   "referrals";
   "ledger_verification_results";
   "organisation_members";
   "organisations";
   "device_tokens";
   "ledger_entries";
   "fx_trades";
   "audit_logs";
   "aml_alerts";
   "activity_events";
   "otps";
   "kyc_documents";
   "idempotency_keys";
   "password_reset_tokens";
   "refresh_tokens";
   "transactions";
   "wallet_balances";
   "user_accounts";
   "users"].

Definition down_types : list statement := map (DropType true)
  ["webhook_deliveries_status_enum";
   "support_tickets_status_enum";
   "support_tickets_category_enum";
   "organisation_members_role_enum";
   "organisations_kyc_status_enum";
   "device_tokens_platform_enum";
   "ledger_entries_type_enum";
   "otps_purpose_enum";
   "kyc_documents_status_enum";
   "transactions_status_enum"].

Definition down : list statement := down_indexes ++ down_tables ++ down_types.

Definition migration : migration := mkMigration "InitialSchema1699000000000" 1699000000000 up down.
End InitialSchema.

(** database/migrations/AlterIdempotencyKeyLength1748880000000.ts *)
Definition AlterIdempotencyKeyLength : migration := mkMigration "AlterIdempotencyKeyLength1748880000000" 1748880000000
  [AlterColumnType "idempotency_keys" "key" (varchar (Some 255))]
  [AlterColumnType "idempotency_keys" "key" text].

(** database/migrations/AddRetryCountToTransactions1750870000000.ts *)
Definition AddRetryCountToTransactions : migration := mkMigration "AddRetryCountToTransactions1750870000000" 1750870000000
  [AddColumn "transactions" true (defaulted "retryCount" integer "0")]
  [DropColumn "transactions" true "retryCount"].

(** database/migrations/AddTxHashAndLedgerVerification1751000000000.ts *)
Definition AddTxHashAndLedgerVerification : migration := mkMigration "AddTxHashAndLedgerVerification1751000000000" 1751000000000
  [AlterColumnType "transactions" "amount" (numeric 20 8);
   AlterColumnType "transactions" "fee" (numeric 20 8);
   AddColumn "transactions" true (nullable "txHash" (varchar (Some 128)));
   CreateTable true (mkTable "ledger_verification_results"
    [defaulted "id" uuid "gen_random_uuid()";
     defaulted "ranAt" timestamp "now()";
     defaulted "totalChecked" integer "0";
     defaulted "discrepancyCount" integer "0";
     nullable "discrepancies" jsonb]
    [mkConstraint "PK_ledger_verification_results" PrimaryKey ["id"]]);
   CreateIndex true (mkIndex "IDX_ledger_verification_ranAt" "ledger_verification_results" false ["ranAt"] None)]
  [DropIndex true "IDX_ledger_verification_ranAt";
   DropTable true "ledger_verification_results";
   DropColumn "transactions" true "txHash";
   AlterColumnType "transactions" "fee" (numeric 18 8);
   AlterColumnType "transactions" "amount" (numeric 18 8)].

(** database/migrations/AddIsPrimaryToWallets1751000000001.ts *)
Definition AddIsPrimaryToWallets : migration := mkMigration "AddIsPrimaryToWallets1751000000001" 1751000000001
  [AddColumn "wallet_balances" false (defaulted "is_primary" boolean "false")]
  [DropColumn "wallet_balances" false "is_primary"].

(** database/migrations/AddReceiptNumberToTransactions1751200000000.ts *)
Definition AddReceiptNumberToTransactions : migration := mkMigration "AddReceiptNumberToTransactions1751200000000" 1751200000000
  [CreateSequence true "transaction_receipt_seq";
   AddColumn "transactions" true (nullable "receiptNumber" (varchar (Some 32)));
   CreateIndex true (mkIndex "IDX_transactions_receiptNumber" "transactions" true ["receiptNumber"] (Some ("receiptNumber", "IS NOT NULL")))]
  [DropIndex true "IDX_transactions_receiptNumber";
   DropColumn "transactions" true "receiptNumber";
   DropSequence true "transaction_receipt_seq"].

(** database/migrations/AddActiveKycUniqueIndex1751210000000.ts *)
Definition AddActiveKycUniqueIndex : migration := mkMigration "AddActiveKycUniqueIndex1751210000000" 1751210000000
  [CreateIndex false (mkIndex "IDX_kyc_documents_active_user" "kyc_documents" true ["userId"] (Some ("status", "= 'pending'")))]
  [DropIndex false "IDX_kyc_documents_active_user"].

(** database/migrations/AddKeyVersionToWalletBalances1751210000000.ts *)
Definition AddKeyVersionToWalletBalances : migration := mkMigration "AddKeyVersionToWalletBalances1751210000000" 1751210000000
  [AddColumn "wallet_balances" true (defaulted "keyVersion" integer "1")]
  [DropColumn "wallet_balances" true "keyVersion"].

(** database/migrations/AddPreferredLanguageToUsers1751220000000.ts *)
Definition AddPreferredLanguageToUsers : migration := mkMigration "AddPreferredLanguageToUsers1751220000000" 1751220000000
  [AddColumn "users" false (defaulted "preferredLanguage" (varchar (Some 2)) "'en'")]
  [DropColumn "users" false "preferredLanguage"].

(** database/migrations/AddCurrencyPairsAndFeeRecords1751300000000.ts *)
Definition AddCurrencyPairsAndFeeRecords : migration := mkMigration "AddCurrencyPairsAndFeeRecords1751300000000" 1751300000000
  [CreateTable false (mkTable "currency_pairs"
    [defaulted "id" uuid "gen_random_uuid()";
     required "fromCurrency" (varchar (Some 10));
     required "toCurrency" (varchar (Some 10));
     defaulted "spreadPercent" (numeric 5 4) "0.0050";
     defaulted "isActive" boolean "true";
     defaulted "createdAt" timestamp "now()";
     defaulted "updatedAt" timestamp "now()"]
    [mkConstraint "PK_currency_pairs" PrimaryKey ["id"];
     mkConstraint "UQ_currency_pairs_from_to" Unique ["fromCurrency"; "toCurrency"]]);
   CreateIndex false (mkIndex "IDX_currency_pairs_isActive" "currency_pairs" false ["isActive"] None);
   CreateTable false (mkTable "fee_records"
    [defaulted "id" uuid "gen_random_uuid()";
     required "transactionId" uuid;
     required "userId" uuid;
     required "transactionType" (varchar (Some 20));
     required "amount" (numeric 18 8);
     required "feeAmount" (numeric 18 8);
     required "currency" (varchar (Some 10));
     nullable "reason" (varchar (Some 50));
     defaulted "createdAt" timestamp "now()"]
    [mkConstraint "PK_fee_records" PrimaryKey ["id"]]);
   CreateIndex false (mkIndex "IDX_fee_records_transactionId" "fee_records" false ["transactionId"] None);
   CreateIndex false (mkIndex "IDX_fee_records_userId" "fee_records" false ["userId"] None)]
  [DropIndex true "IDX_fee_records_userId";
   DropIndex true "IDX_fee_records_transactionId";
   DropTable true "fee_records";
   DropIndex true "IDX_currency_pairs_isActive";
   DropTable true "currency_pairs"].

(** What data-source.ts finds, in the order of the directory. *)
Definition all_migrations : list migration :=
  [AddActiveKycUniqueIndex;
   AddCurrencyPairsAndFeeRecords;
   AddIsPrimaryToWallets;
   AddKeyVersionToWalletBalances;
   AddPreferredLanguageToUsers;
   AddReceiptNumberToTransactions;
   AddRetryCountToTransactions;
   AddTxHashAndLedgerVerification;
   AlterIdempotencyKeyLength;
   InitialSchema.migration].

(** The entities that data-source.ts finds: the class, its table, its columns. *)
Definition declared_entities : list (string * string * list string) :=
  [("ActivityFeedItem", "activity_feed_items",
    ["id"; "userId"; "type"; "title"; "description"; "metadata"; "isRead"; "createdAt"]);
   ("AdminApproval", "admin_approvals",
    ["id"; "actionType"; "actionData"; "requestedBy"; "approvedBy"; "status"; "createdAt"]);
   ("AdminIpAllowlist", "admin_ip_allowlists",
    ["id"; "adminUserId"; "ipCidr"; "label"; "addedAt"]);
   ("AdminMessage", "admin_messages",
    ["id"; "adminId"; "targetType"; "targetUserId"; "targetSegment"; "title"; "body"; "priority"; "scheduledAt"; "createdAt"; "sentAt"]);
   ("AmlAlert", "aml_alerts",
    ["id"; "userId"; "ruleTriggered"; "riskScore"; "metadata"; "reviewedAt"; "createdAt"]);
   ("AmlScreening", "aml_screenings",
    ["id"; "userId"; "transactionId"; "riskScore"; "riskLevel"; "flags"; "screenedAt"; "reviewedBy"; "reviewedAt"; "notes"]);
   ("AuditLog", "audit_logs",
    ["id"; "userId"; "action"; "entityType"; "entityId"; "before"; "after"; "reason"; "ipAddress"; "userAgent"; "createdAt"]);
   ("LoginHistory", "login_history",
    ["id"; "userId"; "ipAddress"; "country"; "userAgent"; "success"; "createdAt"]);
   ("PasswordResetToken", "password_reset_tokens",
    ["id"; "userId"; "tokenHash"; "attempts"; "expiresAt"; "used"; "createdAt"]);
   ("RefreshToken", "refresh_tokens",
    ["id"; "userId"; "familyId"; "tokenHash"; "parentTokenId"; "replacedByTokenId"; "expiresAt"; "revokedAt"; "createdAt"; "lastUsedAt"]);
   ("Beneficiary", "beneficiaries",
    ["id"; "userId"; "alias"; "address"; "currency"; "network"; "isVerified"; "lastUsedAt"; "createdAt"; "updatedAt"]);
   ("BulkPaymentItemEntity", "bulk_payment_items",
    ["id"; "bulkPaymentId"; "recipientAddress"; "amount"; "status"; "error"; "transactionId"; "createdAt"; "updatedAt"]);
   ("BulkPaymentEntity", "bulk_payments",
    ["id"; "userId"; "status"; "totalCount"; "successCount"; "failCount"; "totalAmount"; "currency"; "createdAt"; "updatedAt"; "completedAt"]);
   ("CurrencyPair", "currency_pairs",
    ["id"; "fromCurrency"; "toCurrency"; "spreadPercent"; "isActive"; "updatedAt"]);
   ("Dispute", "disputes",
    ["id"; "transactionId"; "userId"; "reason"; "status"; "resolution"; "createdAt"; "updatedAt"; "resolvedAt"]);
   ("DisputeMessageEntity", "dispute_messages",
    ["id"; "disputeId"; "senderId"; "senderRole"; "message"; "createdAt"]);
   ("DisputeEntity", "disputes",
    ["id"; "userId"; "transactionId"; "reason"; "description"; "status"; "assignedTo"; "escalationLevel"; "createdAt"; "updatedAt"; "resolvedAt"]);
   ("ExchangeRateCacheEntity", "exchange_rate_cache",
    ["id"; "pair"; "rate"; "source"; "cachedAt"; "expiresAt"]);
   ("ExchangeRateHistoryEntity", "exchange_rate_history",
    ["id"; "pair"; "rate"; "source"; "recordedAt"]);
   ("FeeTierEntity", "fee_tiers",
    ["id"; "kycLevel"; "currency"; "tierMin"; "tierMax"; "percentageFee"; "flatFee"; "isActive"; "createdAt"; "updatedAt"]);
   ("FeeRecord", "fee_records",
    ["id"; "transactionId"; "userId"; "transactionType"; "amount"; "feeAmount"; "currency"; "reason"; "createdAt"]);
   ("CurrencyPair", "currency_pairs",
    ["id"; "fromCurrency"; "toCurrency"; "spreadPercent"; "isActive"; "createdAt"; "updatedAt"]);
   ("CurrencyPair", "currency_pairs",
    ["id"; "fromCurrency"; "toCurrency"; "spreadPercent"; "isActive"; "createdAt"; "updatedAt"]);
   ("FxTrade", "fx_trades",
    ["id"; "userId"; "fromCurrency"; "toCurrency"; "fromAmount"; "toAmount"; "rate"; "executedAt"; "reversedAt"; "deletedAt"]);
   ("IdempotencyKey", "idempotency_keys",
    ["key"; "requestHash"; "response"; "statusCode"; "createdAt"; "expiresAt"]);
   ("KycDocument", "kyc_documents",
    ["id"; "userId"; "documentType"; "documentNumber"; "documentUrl"; "status"; "reviewedBy"; "reviewedAt"; "appealReason"; "createdAt"]);
   ("LedgerEntry", "ledger_entries",
    ["id"; "userId"; "transactionId"; "type"; "amount"; "currency"; "balanceAfter"; "description"; "createdAt"]);
   ("AccountFreezeEntity", "account_freezes",
    ["id"; "userId"; "reason"; "frozenBy"; "unfrozenBy"; "frozenAt"; "unfrozenAt"; "isActive"; "notes"; "createdAt"; "updatedAt"]);
   ("ApiKeyEntity", "api_keys",
    ["id"; "userId"; "name"; "keyHash"; "scopes"; "rateLimit"; "isActive"; "lastUsedAt"; "expiresAt"; "createdAt"; "updatedAt"]);
   ("EndpointRateLimitConfigEntity", "endpoint_rate_limit_configs",
    ["id"; "endpoint"; "method"; "maxRequests"; "windowMs"; "isActive"; "createdAt"; "updatedAt"]);
   ("FeeAuditLogEntity", "fee_audit_logs",
    ["id"; "transactionId"; "userId"; "feeAmount"; "feeCurrency"; "feeType"; "calculatedAmount"; "appliedTier"; "createdAt"]);
   ("FeeReportEntity", "fee_reports",
    ["id"; "userId"; "period"; "startDate"; "endDate"; "totalFees"; "feeBreakdown"; "generatedAt"; "createdAt"]);
   ("KycTierUpgradeEntity", "kyc_tier_upgrades",
    ["id"; "userId"; "currentTier"; "requestedTier"; "documents"; "status"; "reviewedBy"; "reviewedAt"; "createdAt"; "updatedAt"]);
   ("RateLimitRecordEntity", "rate_limit_records",
    ["id"; "userId"; "endpoint"; "requestCount"; "windowStart"; "createdAt"]);
   ("FederationAddressEntity", "federation_addresses",
    ["id"; "userId"; "domain"; "stellarAddress"; "memo"; "memoType"; "isActive"; "createdAt"; "updatedAt"]);
   ("SupportTicketEntity", "support_tickets",
    ["id"; "userId"; "subject"; "description"; "status"; "priority"; "assignedTo"; "resolvedAt"; "createdAt"; "updatedAt"]);
   ("TicketMessageEntity", "ticket_messages",
    ["id"; "ticketId"; "senderId"; "message"; "createdAt"]);
   ("TransactionRollbackEntity", "transaction_rollbacks",
    ["id"; "originalTransactionId"; "rollbackTransactionId"; "reason"; "rolledBackBy"; "rolledBackAt"]);
   ("TransactionEntity", "transactions",
    ["id"; "externalId"; "amount"; "currency"; "status"; "description"; "metadata"; "payload"; "walletId"; "toAddress"; "fromAddress"; "enrichmentMetadata"; "enrichmentUpdatedAt"; "searchVector"; "categoryId"; "riskScore"; "isFlagged"; "riskEvaluatedAt"; "requiresManualReview"; "rollbackOf"; "createdAt"; "updatedAt"]);
   ("UserDeactivationEntity", "user_deactivations",
    ["id"; "userId"; "reason"; "deactivatedBy"; "reactivatedBy"; "deactivatedAt"; "reactivatedAt"; "isActive"; "createdAt"]);
   ("WalletBalanceSnapshotEntity", "wallet_balance_snapshots",
    ["id"; "userId"; "balances"; "totalValueUsd"; "snapshotDate"; "createdAt"]);
   ("WebhookDeliveryEntity", "webhook_deliveries",
    ["id"; "subscriptionId"; "eventName"; "payload"; "signature"; "status"; "attempts"; "lastHttpStatus"; "lastError"; "lastAttemptAt"; "nextRetryAt"; "createdAt"; "updatedAt"]);
   ("WebhookSubscriptionEntity", "webhook_subscriptions",
    ["id"; "userId"; "url"; "events"; "secret"; "isActive"; "status"; "createdAt"; "updatedAt"]);
   ("NotificationPreference", "notification_preferences",
    ["id"; "userId"; "channel"; "eventType"; "isEnabled"; "createdAt"; "updatedAt"]);
   ("DeviceToken", "device_tokens",
    ["id"; "userId"; "token"; "platform"; "createdAt"; "lastUsedAt"]);
   ("OrganisationMember", "organisation_members",
    ["id"; "organisationId"; "userId"; "role"; "permissions"; "joinedAt"]);
   ("Organisation", "organisations",
    ["id"; "name"; "registrationNumber"; "country"; "kycStatus"; "ownerId"; "createdAt"]);
   ("Otp", "otps",
    ["id"; "userId"; "codeHash"; "purpose"; "attempts"; "expiresAt"; "usedAt"; "createdAt"]);
   ("PortfolioSnapshot", "portfolio_snapshots",
    ["id"; "userId"; "holdings"; "totalValueUsd"; "snapshotDate"; "createdAt"]);
   ("RateAlertHistory", "rate_alert_history",
    ["id"; "alertId"; "userId"; "currencyPair"; "triggeredRate"; "targetRate"; "direction"; "createdAt"]);
   ("RateAlertEntity", "rate_alerts",
    ["id"; "userId"; "currencyPair"; "targetRate"; "direction"; "triggered"; "createdAt"]);
   ("LedgerVerificationResult", "ledger_verification_results",
    ["id"; "ranAt"; "totalChecked"; "discrepancyCount"; "discrepancies"]);
   ("ReferralReward", "referral_rewards",
    ["id"; "referralId"; "rewardType"; "amount"; "currency"; "status"; "createdAt"; "paidAt"]);
   ("Referral", "referrals",
    ["id"; "referrerId"; "referredId"; "referralCode"; "status"; "createdAt"; "qualifiedAt"; "rewardedAt"; "deletedAt"]);
   ("ScheduledReport", "scheduled_reports",
    ["id"; "userId"; "reportType"; "frequency"; "nextRunAt"; "lastRunAt"; "isActive"; "createdAt"]);
   ("SpendingCategoryEntity", "spending_categories",
    ["id"; "userId"; "name"; "color"; "icon"; "createdAt"; "updatedAt"]);
   ("SpendingEntryEntity", "spending_entries",
    ["id"; "userId"; "transactionId"; "categoryId"; "amount"; "description"; "date"; "createdAt"; "updatedAt"]);
   ("SupportTicket", "support_tickets",
    ["id"; "userId"; "subject"; "description"; "category"; "status"; "relatedEntityType"; "relatedEntityId"; "updatedBy"; "resolvedAt"; "createdAt"; "updatedAt"]);
   ("TermsAcceptance", "terms_acceptances",
    ["id"; "userId"; "version"; "acceptedAt"; "ipAddress"; "userAgent"]);
   ("Transaction", "transactions",
    ["id"; "senderId"; "receiverId"; "amount"; "currency"; "fee"; "status"; "reference"; "receiptNumber"; "metadata"; "createdAt"; "completedAt"; "reversedAt"; "pendingTimeoutAt"; "reversedBy"; "reversalReason"; "reversalTransactionId"; "retryCount"; "txHash"; "retryHashes"; "tag"; "tags"; "deletedAt"]);
   ("UserAccount", "user_accounts",
    ["id"; "email"; "displayName"; "passwordSalt"; "passwordHash"; "twoFactorSecret"; "isActive"; "deletedAt"; "closedAt"; "piiPurgeAt"; "piiPurgedAt"; "finalEmailSentAt"; "createdAt"; "updatedAt"]);
   ("User", "users",
    ["id"; "email"; "passwordHash"; "firstName"; "lastName"; "role"; "isEmailVerified"; "kycStatus"; "isActive"; "preferredLanguage"; "passwordChangedAt"; "require2fa"; "failedLoginAttempts"; "lockedUntil"; "createdAt"; "updatedAt"]);
   ("WalletBalanceEntity", "wallet_balances",
    ["id"; "accountId"; "currency"; "balance"; "isPrimary"; "label"; "color"; "keyVersion"; "createdAt"; "updatedAt"; "version"]);
   ("WebhookDelivery", "webhook_deliveries",
    ["id"; "endpointId"; "eventName"; "requestBody"; "attemptCount"; "responseCode"; "retryCount"; "maxRetries"; "errorMessage"; "status"; "deliveredAt"; "lastAttemptAt"; "nextRetryAt"; "attempts"; "createdAt"; "updatedAt"]);
   ("WebhookEndpoint", "webhook_endpoints",
    ["id"; "ownerId"; "url"; "secret"; "events"; "isActive"; "createdAt"; "updatedAt"])].

(** ** What the entities ask of the tables *)

Definition entity_gaps (s : Schema) (e : string * string * list string) : list (string * string * list string) :=
  let '(class, tab, cols) := e in
  match named tab_name tab (tables s) with
  | None => []
  | Some t => match List.filter (fun c => negb (mem c (columns_of t))) cols with
              | [] => []
              | l => [(class, tab, l)]
              end
  end.
(** Columns of entities that their table does not have. *)
Definition missing_columns (s : Schema) : list (string * string * list string) := flat_map (entity_gaps s) declared_entities.
(** Entities whose table does not exist. *)
Definition missing_tables (s : Schema) : list string :=
  map (fun '(_, tab, _) => tab)
    (List.filter (fun '(_, tab, _) => match named tab_name tab (tables s) with None => true | Some _ => false end) declared_entities).
(** Columns that must be given and that the entity does not have: no row of it
    can be inserted. *)
Definition unfilled (s : Schema) : list (string * list string) :=
  flat_map (fun '(class, tab, cols) =>
    match named tab_name tab (tables s) with
    | None => []
    | Some t =>
        match List.filter (fun c => negb (mem (col_name c) cols) && col_not_null c &&
                                    match col_default c with None => true | Some _ => false end) (tab_columns t) with
        | [] => []
        | l => [(class, map col_name l)]
        end
    end) declared_entities.

Definition migrated : database := (migration_run all_migrations empty_database).2.

(** ** Theorems *)

(** Run on an empty database, the migrations succeed, in the order of their
    timestamps, leave nothing pending and a consistent schema, in which the
    wallets have both the columns of the first migration and those added since. *)
Theorem migrations_apply :
  (migration_run all_migrations empty_database).1 = inr tt /\
  map mig_timestamp (executed migrated) =
    [1699000000000; 1748880000000; 1750870000000; 1751000000000; 1751000000001; 1751200000000; 1751210000000;
     1751210000000; 1751220000000; 1751300000000] /\
  pending all_migrations migrated = [] /\
  schema_ok (schema migrated) /\
  option_map columns_of (named tab_name "wallet_balances" (tables (schema migrated))) =
    Some ["id"; "accountId"; "currency"; "balance"; "createdAt"; "updatedAt"; "version"; "is_primary"; "keyVersion"].
Proof.
  split; [vm_compute; reflexivity|]. split; [vm_compute; reflexivity|]. split; [vm_compute; reflexivity|].
  split; [|vm_compute; reflexivity].
  unfold migrated, migration_run. destruct (run_up _ _) as [x|db] eqn:E; [exact empty_ok | exact (run_up_ok _ empty_database db empty_ok E)].
Qed.

(** The migrations whose [down] takes back, statement by statement, what their
    [up] made. *)
Definition reversible_migrations : list migration :=
  [AddRetryCountToTransactions; AddIsPrimaryToWallets; AddReceiptNumberToTransactions; AddActiveKycUniqueIndex;
   AddKeyVersionToWalletBalances; AddPreferredLanguageToUsers; AddCurrencyPairsAndFeeRecords].

(** C33 Reverting one of these migrations gives back exactly the database it was
    run on, whatever that was, if nothing the migration makes was there. *)
Theorem reverted_migration_restores m db s :
  In m reversible_migrations -> schema_ok (schema db) -> all_absent (up m) (schema db) = true ->
  exec_all (up m) (schema db) = inr s ->
  migration_revert (mkDatabase s (executed db ++ [m])) = (inr tt, db).
Proof.
  intros Hm Hs Ha E. assert (Hr : reversal m = true).
  { assert (Hall : forallb reversal reversible_migrations = true) by reflexivity.
    rewrite forallb_forall in Hall. exact (Hall m Hm). }
  unfold migration_revert. cbn [executed schema]. rewrite rev_app_distr. cbn [rev app].
  rewrite (reversal_restores m _ _ Hs Hr Ha E), rev_involutive. destruct db; reflexivity.
Qed.

Lemma drop_index_keeps n s s' : exec (DropIndex true n) s = inr s' -> tables s' = tables s.
Proof. cbn [exec]. intros E. exec_cases E; reflexivity. Qed.

Lemma drop_index_of_key n s : schema_ok s -> In n (flat_map constraints_of (tables s)) -> exec (DropIndex true n) s = inl (still_needed n).
Proof.
  intros Hs Hn. cbn [exec]. assert (Hi : mem n (map ix_name (indexes s)) = false).
  { apply mem_not_In. intros Hin. pose proof (so_relations _ Hs) as Hnd. unfold relations in Hnd.
    apply NoDup_app in Hnd as (_ & _ & Hnd). apply NoDup_app in Hnd as (_ & Hd & _). apply (Hd n).
    - apply list_elem_of_In, Hn.
    - apply list_elem_of_In, in_or_app. auto. }
  rewrite Hi. apply mem_In in Hn. rewrite Hn. reflexivity.
Qed.

(** A list of DROP INDEX IF EXISTS in which there is the index of a key. *)
Lemma drop_indexes_fail l n : forall s, schema_ok s -> In n (flat_map constraints_of (tables s)) -> In n l ->
  exists x, exec_all (map (DropIndex true) l) s = inl x.
Proof.
  induction l as [|i l IH]; intros s Hs Hn Hin; [contradiction|]. cbn [map exec_all].
  destruct Hin as [->|Hin]; [rewrite (drop_index_of_key n s Hs Hn); eauto|].
  destruct (exec (DropIndex true i) s) as [x|s'] eqn:E; [eauto|].
  apply IH; [exact (statements_keep_ok _ _ _ Hs E) | rewrite (drop_index_keeps _ _ _ E); exact Hn | exact Hin].
Qed.

(** C38 The first migration cannot be reverted: its [down] drops the index of a
    UNIQUE constraint as if it were an index of its own, which PostgreSQL
    refuses.  In any consistent database that has the table of accepted terms
    with its key, the command fails and changes nothing. *)
Theorem initial_schema_cannot_be_reverted db before :
  executed db = before ++ [InitialSchema.migration] -> schema_ok (schema db) ->
  In "UQ_terms_acceptances_userId_version" (flat_map constraints_of (tables (schema db))) ->
  exists x, migration_revert db = (inl x, db).
Proof.
  intros He Hs Hn. unfold migration_revert. rewrite He, rev_app_distr. cbn [rev app].
  destruct (drop_indexes_fail (map (fun d => match d with DropIndex _ n => n | _ => "" end) InitialSchema.down_indexes)
              _ _ Hs Hn) as [x Hx]; [vm_compute; tauto|].
  exists x. cbn [down InitialSchema.migration]. unfold InitialSchema.down. rewrite exec_all_app.
  replace InitialSchema.down_indexes with
    (map (DropIndex true) (map (fun d => match d with DropIndex _ n => n | _ => "" end) InitialSchema.down_indexes)) by reflexivity.
  rewrite Hx. reflexivity.
Qed.

Definition initial_database : database := (migration_run [InitialSchema.migration] empty_database).2.

Lemma initial_database_ok : schema_ok (schema initial_database).
Proof.
  unfold initial_database, migration_run.
  destruct (run_up _ _) as [x|db] eqn:E; [exact empty_ok | exact (run_up_ok _ empty_database db empty_ok E)].
Qed.

Lemma initial_schema_cannot_be_reverted_witness :
  (migration_revert initial_database).1 = inl (still_needed "UQ_terms_acceptances_userId_version") /\
  exists x, migration_revert initial_database = (inl x, initial_database).
Proof.
  split; [vm_compute; reflexivity|]. apply (initial_schema_cannot_be_reverted initial_database []).
  - vm_compute. reflexivity.
  - exact initial_database_ok.
  - apply mem_In. vm_compute. reflexivity.
Defined.

Lemma reverted_migration_restores_witness :
  exists s, exec_all (up AddCurrencyPairsAndFeeRecords) (schema initial_database) = inr s /\
            length (tables s) = (2 + length (tables (schema initial_database)))%nat /\
            migration_revert (mkDatabase s (executed initial_database ++ [AddCurrencyPairsAndFeeRecords])) = (inr tt, initial_database).
Proof.
  destruct (exec_all (up AddCurrencyPairsAndFeeRecords) (schema initial_database)) as [x|s] eqn:E.
  { pose proof (f_equal (fun r : exn + Schema => match r with inl _ => true | inr _ => false end) E) as H.
    vm_compute in H. discriminate H. }
  exists s. split; [reflexivity|]. split.
  - pose proof (f_equal (fun r : exn + Schema => match r with inl _ => O | inr t => length (tables t) end) E) as H.
    cbn beta iota in H. rewrite <- H. vm_compute. reflexivity.
  - apply (reverted_migration_restores AddCurrencyPairsAndFeeRecords initial_database s).
    + vm_compute. tauto.
    + exact initial_database_ok.
    + vm_compute. reflexivity.
    + exact E.
Defined.

Fixpoint reverts (n : nat) (db : database) : database :=
  match n with O => db | Datatypes.S n => reverts n (migration_revert db).2 end.

(** Seven reverts undo the migrations up to the one that adds the hash of a
    transaction, which on a new database added nothing: it takes away a column
    and a table of the first migration. *)
Example reverting_the_hash_migration_loses_columns :
  let db := reverts 7 migrated in
  map mig_name (executed db) =
    ["InitialSchema1699000000000"; "AlterIdempotencyKeyLength1748880000000"; "AddRetryCountToTransactions1750870000000"] /\
  option_map (fun t => mem "txHash" (columns_of t)) (named tab_name "transactions" (tables (schema initial_database))) = Some true /\
  option_map (fun t => mem "txHash" (columns_of t)) (named tab_name "transactions" (tables (schema db))) = Some false /\
  mem "ledger_verification_results" (map tab_name (tables (schema initial_database))) = true /\
  mem "ledger_verification_results" (map tab_name (tables (schema db))) = false.
Proof. vm_compute. repeat split. Qed.

(** However often one reverts, the first migration stays. *)
Example history_stops_at_the_first_migration :
  map mig_name (executed (reverts 20 migrated)) = ["InitialSchema1699000000000"].
Proof. vm_compute. reflexivity. Qed.

(** With synchronize off, these columns are asked for by every query of
    their entity and no migration creates them: users and wallets are among the
    entities that cannot be read. *)
Theorem entities_ask_for_missing_columns :
  missing_columns (schema migrated) =
    [("AuditLog", "audit_logs", ["reason"]);
     ("KycDocument", "kyc_documents", ["appealReason"]);
     ("SupportTicketEntity", "support_tickets", ["priority"; "assignedTo"]);
     ("TransactionEntity", "transactions",
       ["externalId"; "description"; "payload"; "walletId"; "toAddress"; "fromAddress"; "enrichmentMetadata";
        "enrichmentUpdatedAt"; "searchVector"; "categoryId"; "riskScore"; "isFlagged"; "riskEvaluatedAt";
        "requiresManualReview"; "rollbackOf"; "updatedAt"]);
     ("WebhookDeliveryEntity", "webhook_deliveries",
       ["subscriptionId"; "payload"; "signature"; "attempts"; "lastHttpStatus"; "lastError"; "nextRetryAt"]);
     ("Referral", "referrals", ["referredId"; "referralCode"; "status"; "qualifiedAt"; "rewardedAt"]);
     ("Transaction", "transactions", ["pendingTimeoutAt"; "retryHashes"; "tag"; "tags"]);
     ("User", "users", ["passwordChangedAt"; "require2fa"; "failedLoginAttempts"; "lockedUntil"]);
     ("WalletBalanceEntity", "wallet_balances", ["isPrimary"; "label"; "color"]);
     ("WebhookDelivery", "webhook_deliveries", ["retryCount"; "maxRetries"; "nextRetryAt"; "attempts"])] /\
  length (missing_tables (schema migrated)) = 36%nat.
Proof. split; vm_compute; reflexivity. Qed.

(** And no row of these entities can be inserted: their table has columns that
    must be given and that they do not have. *)
Example rows_that_cannot_be_inserted :
  unfilled (schema migrated) =
    [("SupportTicketEntity", ["category"]); ("TransactionEntity", ["senderId"; "receiverId"; "reference"]);
     ("WebhookDeliveryEntity", ["endpointId"; "requestBody"]); ("Referral", ["refereeId"; "code"])].
Proof. vm_compute. reflexivity. Qed.

(** ** Every history of the schema

    The two commands lead from the empty database to finitely many databases:
    the empty one, and those one comes to by reverting from one of three complete
    runs. *)

#[export] Instance pg_type_eq_dec : EqDecision pg_type.
Proof. solve_decision. Defined.
#[export] Instance column_eq_dec : EqDecision column.
Proof. solve_decision. Defined.
#[export] Instance key_kind_eq_dec : EqDecision key_kind.
Proof. solve_decision. Defined.
#[export] Instance constraint_eq_dec : EqDecision constraint.
Proof. solve_decision. Defined.
#[export] Instance table_eq_dec : EqDecision table.
Proof. solve_decision. Defined.
#[export] Instance index_eq_dec : EqDecision index.
Proof. solve_decision. Defined.
#[export] Instance Schema_eq_dec : EqDecision Schema.
Proof. solve_decision. Defined.
#[export] Instance statement_eq_dec : EqDecision statement.
Proof. solve_decision. Defined.
#[export] Instance migration_eq_dec : EqDecision migration.
Proof. solve_decision. Defined.
#[export] Instance database_eq_dec : EqDecision database.
Proof. solve_decision. Defined.

Definition revert_of (db : database) : database := (migration_revert db).2.
Definition run_of (db : database) : database := (migration_run all_migrations db).2.

(** [db] and what [n] reverts make of it. *)
Fixpoint reverted (n : nat) (db : database) : list database :=
  db :: match n with O => [] | Datatypes.S n => reverted n (revert_of db) end.
(** The complete runs: the first, the one after the hash migration was reverted,
    and the one after the retry counter was. *)
Definition complete : list database := [migrated; run_of (reverts 7 migrated); run_of (reverts 9 migrated)].
Definition histories : list database := empty_database :: flat_map (reverted 9) complete.

Lemma reverted_step n : forall db x, In x (reverted n db) -> revert_of (reverts n db) = reverts n db -> In (revert_of x) (reverted n db).
Proof.
  induction n as [|n IH]; intros db x Hx Hlast; cbn [reverted] in *.
  - destruct Hx as [<-|[]]. cbn [reverts] in Hlast. left. symmetry. exact Hlast.
  - destruct Hx as [<-|Hx]; [right; destruct n; left; reflexivity | right; exact (IH _ x Hx Hlast)].
Qed.

(** Running from [db] succeeds and ends in one of the complete runs. *)
Definition completes (db : database) : bool :=
  match migration_run all_migrations db with
  | (inr _, db') => existsb (fun c => bool_decide (db' = c)) complete
  | _ => false
  end.

(** Every table of [s] is in [s'], with its columns and its keys. *)
Definition covered (s s' : Schema) : bool :=
  forallb (fun t => match named tab_name (tab_name t) (tables s') with
                    | None => false
                    | Some t' => forallb (fun c => mem c (columns_of t')) (columns_of t) &&
                                 forallb (fun k => mem k (constraints_of t')) (constraints_of t)
                    end) (tables s).

Lemma histories_complete : forallb completes histories = true.
Proof. vm_compute. reflexivity. Qed.

Lemma complete_covers :
  forallb (fun c => covered (schema migrated) (schema c) && match pending all_migrations c with [] => true | _ => false end) complete = true.
Proof. vm_compute. reflexivity. Qed.

Lemma reverts_end :
  forallb (fun c => match migration_revert (reverts 9 c) with (inl _, _) => true | _ => false end) complete = true.
Proof. vm_compute. reflexivity. Qed.

Lemma completes_run db : completes db = true ->
  (migration_run all_migrations db).1 = inr tt /\ In (run_of db) complete.
Proof.
  unfold completes, run_of. destruct (migration_run all_migrations db) as [[x|[]] db']; [discriminate|].
  intros (c & Hc & E%bool_decide_eq_true)%existsb_exists. split; [reflexivity|]. cbn [snd]. rewrite E. exact Hc.
Qed.

Lemma reverted_in n db : In db (reverted n db).
Proof. destruct n; left; reflexivity. Qed.

Lemma histories_closed db c : In db histories -> In (command_step all_migrations db c) histories.
Proof.
  intros Hdb. pose proof histories_complete as Hall. rewrite forallb_forall in Hall.
  destruct c; cbn [command_step].
  - destruct (completes_run db (Hall db Hdb)) as [_ Hin]. right. apply in_flat_map.
    exists (run_of db). split; [exact Hin | apply reverted_in].
  - destruct Hdb as [<-|Hdb]; [left; reflexivity|]. right. apply in_flat_map in Hdb as (c & Hc & Hdb).
    apply in_flat_map. exists c. split; [exact Hc|]. apply (reverted_step 9 c db Hdb).
    pose proof reverts_end as Hend. rewrite forallb_forall in Hend. specialize (Hend c Hc).
    unfold revert_of. destruct (migration_revert (reverts 9 c)) as [[x|u] db'] eqn:E; [|discriminate Hend].
    exact (eq_trans (eq_sym (f_equal snd E)) (proj2 (failed_command all_migrations (reverts 9 c) x) (f_equal fst E))).
Qed.

(** C19 However the two commands were mixed on a database that began empty, the
    schema is consistent, running the migrations again succeeds and leaves
    nothing pending, and every table, column and key of the first complete run is
    there again. *)
Theorem every_history_can_be_completed (cmds : list command) :
  let db := fold_left (command_step all_migrations) cmds empty_database in
  let db' := (migration_run all_migrations db).2 in
  schema_ok (schema db) /\
  (migration_run all_migrations db).1 = inr tt /\ pending all_migrations db' = [] /\
  covered (schema migrated) (schema db') = true.
Proof.
  cbv zeta. set (db := fold_left _ cmds _). split.
  { apply (commands_keep_the_schema_consistent all_migrations cmds empty_database), empty_ok. }
  assert (Hdb : In db histories).
  { unfold db. assert (H : In empty_database histories) by (left; reflexivity). revert H. generalize empty_database.
    induction cmds as [|c l IH]; intros d Hd; [exact Hd|]. cbn [fold_left]. apply IH, histories_closed, Hd. }
  pose proof histories_complete as Hall. rewrite forallb_forall in Hall.
  destruct (completes_run db (Hall db Hdb)) as [Hok Hin]. split; [exact Hok|].
  pose proof complete_covers as Hc. rewrite forallb_forall in Hc. specialize (Hc _ Hin). cbn beta in Hc.
  apply andb_prop in Hc as [Hcov Hp]. unfold run_of in Hcov, Hp.
  destruct (pending all_migrations _); [split; [reflexivity | exact Hcov] | discriminate].
Qed.
