(* ===== verification/Seed.v ===== *)
(** database/seeds/seed.ts: the rows every environment starts with.  One
    transaction that creates three tables when they are missing and inserts into
    these and into the currency pairs of the migrations. *)
From S2P Require Import Prelude JsNumber Effects JsData Schema Migrations.
Local Open Scope Z_scope.

Record Currency : Type := mkCurrency { code : string; name : string; symbol : string }.
Definition CURRENCIES : list Currency :=
  [mkCurrency "USD" "US Dollar" "$"; mkCurrency "EUR" "Euro" "€"; mkCurrency "GBP" "British Pound" "£";
   mkCurrency "NGN" "Nigerian Naira" "₦"; mkCurrency "XLM" "Stellar Lumens" "XLM"; mkCurrency "USDC" "USD Coin" "USDC"].

(** [fromCurrency, toCurrency, spreadPercent] *)
Definition CURRENCY_PAIRS : list (string * string * num) :=
  let per_mille n := num_of_ratio n 1000 in
  [("XLM", "USDC", per_mille 5); ("XLM", "USD", per_mille 5); ("USD", "NGN", per_mille 5); ("USDC", "NGN", per_mille 5);
   ("EUR", "USD", per_mille 3); ("GBP", "USD", per_mille 3); ("USD", "EUR", per_mille 3); ("USD", "GBP", per_mille 3);
   ("USDC", "USD", per_mille 2); ("USD", "USDC", per_mille 2)].

Definition ROLES : list string := ["admin"; "user"; "compliance"].

Definition defaults : list (string * string) :=
  [("maintenance_mode", "false"); ("max_daily_transfer_usd", "50000");
   ("supported_currencies", join "," (map code CURRENCIES))].

(** A row of currency_pairs. *)
Record PairRow : Type := mkPairRow {
  fromCurrency : string;
  toCurrency : string;
  spreadPercent : num;
  isActive : bool;
  updatedAt : Z
}.

(** The tables the seed writes: the schema, and their rows. *)
Record SeedTables : Type := mkSeedTables {
  catalog : Schema;
  currencies : list Currency;
  roles : list string;
  system_config : list (string * string);
  currency_pairs : list PairRow
}.

Definition seed_tables : list statement :=
  [CreateTable true (mkTable "currencies"
     [required "code" (varchar (Some 10)); required "name" (varchar (Some 100)); required "symbol" (varchar (Some 10));
      defaulted "createdAt" timestamp "NOW()"] [mkConstraint "currencies_pkey" PrimaryKey ["code"]]);
   CreateTable true (mkTable "roles"
     [required "name" (varchar (Some 50)); defaulted "createdAt" timestamp "NOW()"] [mkConstraint "roles_pkey" PrimaryKey ["name"]]);
   CreateTable true (mkTable "system_config"
     [required "key" (varchar (Some 100)); required "value" text; defaulted "updatedAt" timestamp "NOW()"]
     [mkConstraint "system_config_pkey" PrimaryKey ["key"]])].

(** [INSERT ... ON CONFLICT (key) DO NOTHING]. *)
Definition insert_new {A} (key : A -> string) (t : list A) (a : A) : list A :=
  if mem (key a) (map key t) then t else t ++ [a].

Definition is_pair (f t : string) (r : PairRow) : bool := String.eqb (fromCurrency r) f && String.eqb (toCurrency r) t.

(** [INSERT ... ON CONFLICT ("fromCurrency", "toCurrency") DO UPDATE]; NOW() is
    the start of the transaction. *)
Definition upsert_pair (now : Z) (t : list PairRow) (p : string * string * num) : list PairRow :=
  let '(f, g, spread) := p in
  if existsb (is_pair f g) t
  then map (fun r => if is_pair f g r then mkPairRow f g spread true now else r) t
  else t ++ [mkPairRow f g spread true now].

(** The table of the pairs is that of the migrations; without it the transaction
    is rolled back. *)
Definition seed (now : Z) (d : SeedTables) : (exn + unit) * SeedTables :=
  match exec_all seed_tables (catalog d) with
  | inl x => (inl x, d)
  | inr s =>
      match named tab_name "currency_pairs" (tables s) with
      | None => (inl (undefined_table "currency_pairs"), d)
      | Some _ =>
          (inr tt, mkSeedTables s
             (fold_left (insert_new code) CURRENCIES (currencies d))
             (fold_left (insert_new (fun r => r)) ROLES (roles d))
             (fold_left (insert_new fst) defaults (system_config d))
             (fold_left (upsert_pair now) CURRENCY_PAIRS (currency_pairs d)))
      end
  end.

(** ** Seeding again *)

Section InsertNew.
Context {A : Type} (key : A -> string).

Lemma insert_new_keeps t a x : In x t -> In x (insert_new key t a).
Proof. unfold insert_new. destruct (mem _ _); [auto | intros H; apply in_or_app; auto]. Qed.

Lemma insert_new_has t a : In (key a) (map key (insert_new key t a)).
Proof.
  unfold insert_new. destruct (mem _ _) eqn:E; [apply mem_In, E|]. rewrite map_app. apply in_or_app. right. left. reflexivity.
Qed.

Lemma inserts_keep l : forall t x, In x t -> In x (fold_left (insert_new key) l t).
Proof. induction l as [|a l IH]; intros t x Hx; cbn [fold_left]; [exact Hx | apply IH, insert_new_keeps, Hx]. Qed.

Lemma inserts_have l : forall t a, In a l -> In (key a) (map key (fold_left (insert_new key) l t)).
Proof.
  induction l as [|b l IH]; intros t a Ha; [contradiction|]. cbn [fold_left]. destruct Ha as [->|Ha]; [|apply IH, Ha].
  pose proof (insert_new_has t a) as (x & Hx & Hin)%in_map_iff. rewrite <- Hx. apply in_map, inserts_keep, Hin.
Qed.

Lemma inserts_nothing l : forall t, (forall a, In a l -> In (key a) (map key t)) -> fold_left (insert_new key) l t = t.
Proof.
  induction l as [|a l IH]; intros t Hl; [reflexivity|]. cbn [fold_left].
  assert (E : insert_new key t a = t) by (unfold insert_new; rewrite (proj2 (mem_In _ _) (Hl a (or_introl eq_refl))); reflexivity).
  rewrite E. apply IH. intros b Hb. apply Hl. right. exact Hb.
Qed.

Lemma inserts_twice l t : fold_left (insert_new key) l (fold_left (insert_new key) l t) = fold_left (insert_new key) l t.
Proof. apply inserts_nothing. intros a Ha. apply inserts_have, Ha. Qed.
End InsertNew.

(** What a pair is quoted with. *)
Definition quoted (r : PairRow) : string * string * num * bool := (fromCurrency r, toCurrency r, spreadPercent r, isActive r).

(** The pair is in the table, and every row of it has this spread and is active. *)
Definition holds_pair (p : string * string * num) (t : list PairRow) : Prop :=
  let '(f, g, spread) := p in
  existsb (is_pair f g) t = true /\ forall r, In r t -> is_pair f g r = true -> quoted r = (f, g, spread, true).

Lemma is_pair_mk f g f' g' sp n : is_pair f g (mkPairRow f' g' sp true n) = String.eqb f' f && String.eqb g' g.
Proof. reflexivity. Qed.

Lemma is_pair_true f g r : is_pair f g r = true <-> fromCurrency r = f /\ toCurrency r = g.
Proof. unfold is_pair. rewrite andb_true_iff, !String.eqb_eq. reflexivity. Qed.

Lemma in_upsert_pair now t f g sp r :
  In r (upsert_pair now t (f, g, sp)) -> r = mkPairRow f g sp true now \/ (In r t /\ is_pair f g r = false).
Proof.
  cbn. destruct (existsb (is_pair f g) t) eqn:E.
  - intros (q & Hq & Hin)%in_map_iff. destruct (is_pair f g q) eqn:Hp; [auto | subst; auto].
  - intros [Hin|[<-|[]]]%in_app_or; [right; split; [exact Hin|] | auto].
    apply not_true_iff_false. intros Hp. apply not_true_iff_false in E. apply E, existsb_exists. eauto.
Qed.

Lemma upsert_pair_in now t f g sp : In (mkPairRow f g sp true now) (upsert_pair now t (f, g, sp)).
Proof.
  cbn. destruct (existsb (is_pair f g) t) eqn:E; [|apply in_or_app; right; left; reflexivity].
  apply existsb_exists in E as (q & Hq & Hp). apply in_map_iff. exists q. rewrite Hp. auto.
Qed.

Lemma upsert_pair_other now t f g sp r : In r t -> is_pair f g r = false -> In r (upsert_pair now t (f, g, sp)).
Proof.
  intros Hr Hp. cbn. destruct (existsb _ t); [|apply in_or_app; auto].
  apply in_map_iff. exists r. rewrite Hp. auto.
Qed.

Lemma holds_own now t p : holds_pair p (upsert_pair now t p).
Proof.
  destruct p as [[f g] sp]. split.
  - apply existsb_exists. eexists. split; [apply upsert_pair_in | apply is_pair_true; auto].
  - intros r [->|[_ Hf]]%in_upsert_pair Hp; [reflexivity | congruence].
Qed.

Lemma holds_other now t p q : p.1 <> q.1 -> holds_pair p t -> holds_pair p (upsert_pair now t q).
Proof.
  destruct p as [[f g] sp], q as [[f' g'] sp']. cbn [fst]. intros Hne [Hex Hall]. split.
  - apply existsb_exists in Hex as (r & Hr & Hp). apply existsb_exists. exists r. split; [|exact Hp].
    apply upsert_pair_other; [exact Hr|]. apply not_true_iff_false. intros [E1 E2]%is_pair_true.
    apply is_pair_true in Hp as [E3 E4]. congruence.
  - intros r [->|[Hr _]]%in_upsert_pair Hp; [|exact (Hall r Hr Hp)].
    apply is_pair_true in Hp as [E1 E2]. cbn in E1, E2. congruence.
Qed.

Lemma upserts_hold now l : NoDup (map fst l) -> forall t p, In p l \/ (holds_pair p t /\ ~ In p.1 (map fst l)) ->
  holds_pair p (fold_left (upsert_pair now) l t).
Proof.
  induction l as [|q l IH]; intros Hnd t p Hp; [destruct Hp as [[]|[Hp _]]; exact Hp|]. cbn [fold_left].
  cbn [map] in Hnd. apply NoDup_cons in Hnd as [Hq Hnd]. rewrite list_elem_of_In in Hq. apply (IH Hnd).
  destruct Hp as [[->|Hp]|[Hp Hn]].
  - right. split; [apply holds_own | exact Hq].
  - left. exact Hp.
  - cbn [map In] in Hn. right. split; [apply holds_other; [intros E; apply Hn; left; congruence | exact Hp] | tauto].
Qed.

Lemma upserts_quote_the_same now l : forall t, (forall p, In p l -> holds_pair p t) ->
  map quoted (fold_left (upsert_pair now) l t) = map quoted t.
Proof.
  induction l as [|q l IH]; intros t Hl; [reflexivity|]. cbn [fold_left].
  assert (Eq : map quoted (upsert_pair now t q) = map quoted t).
  { destruct q as [[f g] sp]. destruct (Hl _ (or_introl eq_refl)) as [Hex Hall]. cbn. rewrite Hex, map_map.
    apply map_ext_in. intros r Hr. destruct (is_pair f g r) eqn:Hp; [symmetry; exact (Hall r Hr Hp) | reflexivity]. }
  rewrite IH; [exact Eq|]. intros p Hp. pose proof (Hl p (or_intror Hp)) as H. destruct p as [[f g] sp]. cbn [holds_pair] in *.
  assert (Hq : forall r, In r (upsert_pair now t q) -> exists r0, In r0 t /\ quoted r0 = quoted r).
  { intros r Hr. apply (in_map quoted) in Hr. rewrite Eq in Hr. apply in_map_iff in Hr as (r0 & E0 & H0). eauto. }
  assert (Hi : forall r r0, quoted r = quoted r0 -> is_pair f g r = is_pair f g r0) by (intros r r0 E; injection E as E1 E2 _ _; unfold is_pair; congruence).
  destruct H as [Hex Hall]. split.
  - apply existsb_exists in Hex as (r & Hr & Hpr). apply (in_map quoted) in Hr. rewrite <- Eq in Hr.
    apply in_map_iff in Hr as (r1 & E1 & H1). apply existsb_exists. exists r1. rewrite (Hi r1 r E1). auto.
  - intros r Hr Hpr. destruct (Hq r Hr) as (r0 & H0 & E0). rewrite <- E0. apply Hall; [exact H0 | rewrite (Hi r0 r E0); exact Hpr].
Qed.

Lemma create_if_missing t s s' : exec (CreateTable true t) s = inr s' ->
  In (tab_name t) (relations s') /\ forall n, In n (relations s) -> In n (relations s').
Proof.
  cbn [exec]. destruct (mem (tab_name t) (relations s)) eqn:E.
  - intros [= <-]. split; [apply mem_In, E | auto].
  - destruct (check_table s t); [discriminate|]. intros [= <-]. unfold relations. cbn. rewrite map_app, flat_map_app.
    split; [apply in_or_app; left; apply in_or_app; right; left; reflexivity|].
    intros n. rewrite !in_app_iff. tauto.
Qed.

Lemma create_all_twice l : forall s s', exec_all (map (CreateTable true) l) s = inr s' ->
  (forall n, In n (relations s) -> In n (relations s')) /\ (forall t, In t l -> In (tab_name t) (relations s')).
Proof.
  induction l as [|t l IH]; intros s s' E.
  - cbn in E. injection E as <-. split; [auto | contradiction].
  - cbn [map exec_all] in E. destruct (exec (CreateTable true t) s) as [x|s1] eqn:E1; [discriminate|].
    destruct (create_if_missing t s s1 E1) as [Ht Hm], (IH s1 s' E) as [Hm' Hl]. split; [auto|].
    intros u [<-|Hu]; auto.
Qed.

Lemma create_all_nothing l : forall s, (forall t, In t l -> In (tab_name t) (relations s)) ->
  exec_all (map (CreateTable true) l) s = inr s.
Proof.
  induction l as [|t l IH]; intros s Hl; [reflexivity|]. cbn [map exec_all exec].
  rewrite (proj2 (mem_In _ _) (Hl t (or_introl eq_refl))). apply IH. intros u Hu. apply Hl. right. exact Hu.
Qed.

Lemma seed_tables_twice s s' : exec_all seed_tables s = inr s' -> exec_all seed_tables s' = inr s'.
Proof.
  change seed_tables with (map (CreateTable true)
    (flat_map (fun d => match d with CreateTable _ t => [t] | _ => [] end) seed_tables)).
  intros E. apply create_all_nothing. exact (proj2 (create_all_twice _ s s' E)).
Qed.

(** Seeding a database that was seeded changes nothing but the time stamps
    of the currency pairs: every currency, role and default is there, what was
    there before is kept, and every pair of the seed has the seed's spread and is
    active, whatever an administrator had made of it. *)
Theorem seed_is_idempotent now now' d :
  (seed now d).1 = inr tt ->
  let d1 := (seed now d).2 in
  let d2 := (seed now' d1).2 in
  (seed now' d1).1 = inr tt /\
  (catalog d2 = catalog d1 /\ currencies d2 = currencies d1 /\ roles d2 = roles d1 /\
   system_config d2 = system_config d1 /\ map quoted (currency_pairs d2) = map quoted (currency_pairs d1)) /\
  (forall c, In c (currencies d) -> In c (currencies d1)) /\
  (forall c, In c CURRENCIES -> In (code c) (map code (currencies d1))) /\
  (forall p, In p CURRENCY_PAIRS -> holds_pair p (currency_pairs d1)).
Proof.
  unfold seed at 1. destruct (exec_all seed_tables (catalog d)) as [x|s] eqn:E; [discriminate|].
  destruct (named tab_name "currency_pairs" (tables s)) as [t|] eqn:Et; [|discriminate]. intros _. cbv zeta.
  assert (Hpairs : forall p, In p CURRENCY_PAIRS -> holds_pair p (fold_left (upsert_pair now) CURRENCY_PAIRS (currency_pairs d))).
  { intros p Hp. apply upserts_hold; [|auto]. cbv [CURRENCY_PAIRS map fst]. repeat (apply NoDup_cons; split; [rewrite list_elem_of_In; cbn; intuition discriminate|]). constructor. }
  unfold seed. rewrite E, Et. cbn [snd catalog]. rewrite (seed_tables_twice _ _ E), Et. cbn [fst snd catalog currencies roles system_config currency_pairs].
  split; [reflexivity|]. split; [|split; [|split]].
  - split; [reflexivity|]. rewrite !inserts_twice. repeat split. apply upserts_quote_the_same, Hpairs.
  - intros c Hc. apply inserts_keep, Hc.
  - intros c Hc. apply inserts_have, Hc.
  - exact Hpairs.
Qed.

(** ** A worked state: the database of the migrations, with a spread that was
    changed *)

Definition seed_start : SeedTables :=
  mkSeedTables (schema migrated) [mkCurrency "USD" "Dollar" "$"] [] [] [mkPairRow "USD" "EUR" (num_of_ratio 1 100) false 7].

Lemma seed_is_idempotent_witness :
  (seed 1000 seed_start).1 = inr tt /\
  length (currency_pairs (seed 1000 seed_start).2) = 10%nat /\
  let d1 := (seed 1000 seed_start).2 in
  let d2 := (seed 2000 d1).2 in
  (seed 2000 d1).1 = inr tt /\
  (catalog d2 = catalog d1 /\ currencies d2 = currencies d1 /\ roles d2 = roles d1 /\
   system_config d2 = system_config d1 /\ map quoted (currency_pairs d2) = map quoted (currency_pairs d1)) /\
  (forall c, In c (currencies seed_start) -> In c (currencies d1)) /\
  (forall c, In c CURRENCIES -> In (code c) (map code (currencies d1))) /\
  (forall p, In p CURRENCY_PAIRS -> holds_pair p (currency_pairs d1)).
Proof.
  split; [vm_compute; reflexivity|]. split; [vm_compute; reflexivity|].
  apply (seed_is_idempotent 1000 2000 seed_start). vm_compute. reflexivity.
Defined.

(** Without the migrations the seed fails and writes nothing. *)
Example seed_needs_the_migrations :
  seed 1000 (mkSeedTables empty_schema [] [] [] []) =
  (inl (undefined_table "currency_pairs"), mkSeedTables empty_schema [] [] [] []).
Proof. vm_compute. reflexivity. Qed.

(** A spread an administrator set, and a pair that was switched off, are reset. *)
Example seeding_resets_spreads :
  map quoted (List.filter (is_pair "USD" "EUR") (currency_pairs (seed 1000 seed_start).2)) =
    [("USD", "EUR", num_of_ratio 3 1000, true)].
Proof. vm_compute. reflexivity. Qed.
