(* ===== verification/Dto.v ===== *)
(** The classes of the request bodies and queries, with the decorators of
    class-validator and class-transformer on their properties, and the validation
    main.ts sets up for every parameter of every handler: conversion to an
    instance, refusal of properties that are not declared, the checks of each
    property.  What the library's checks accept is a parameter, with what its
    documentation says of them; the checks of common/validators/ are defined. *)
From S2P Require Import Prelude JsNumber Effects JsData Json Network.
Local Open Scope Z_scope.

Inductive check : Type :=
  | IsString | IsInt | IsNumber | IsBoolean | IsObject | IsArray | IsNotEmpty
  | IsEmail | IsUUID | IsUrl | IsDateString | IsISO8601
  | Min (n : num) | Max (n : num)
  | MinLength (n : nat) | MaxLength (n : nat) | Length (lo hi : nat)
  | IsIn (values : list string) | IsEnum (values : list string)
  | Matches (pattern : string)
  | IsNotZero
  | Each (c : check).

(** The type a property is declared with. *)
Inductive declared : Type :=
  | TString | TNumber | TBoolean | TRecord
  | TLiterals (values : list string)
  | TArray (t : declared).

(** [@Type]: none, [() => Number], or the instances of a class. *)
Inductive dto : Type :=
  | mkDto (file name : string) (properties : list property)
with property : Type :=
  | mkProperty (name : string) (type : declared) (decorated optional : bool) (initial : option json)
      (convert : conversion) (nested : bool) (checks : list check)
with conversion : Type := AsGiven | ToNumber | ToInstances (d : dto).

Definition d_file (d : dto) : string := let 'mkDto f _ _ := d in f.
Definition d_name (d : dto) : string := let 'mkDto _ n _ := d in n.
Definition d_properties (d : dto) : list property := let 'mkDto _ _ l := d in l.
Definition p_name (p : property) : string := let 'mkProperty n _ _ _ _ _ _ _ := p in n.
Definition p_declared (p : property) : declared := let 'mkProperty _ t _ _ _ _ _ _ := p in t.
Definition p_decorated (p : property) : bool := let 'mkProperty _ _ b _ _ _ _ _ := p in b.
Definition p_optional (p : property) : bool := let 'mkProperty _ _ _ b _ _ _ _ := p in b.
Definition p_initial (p : property) : option json := let 'mkProperty _ _ _ _ v _ _ _ := p in v.
Definition p_convert (p : property) : conversion := let 'mkProperty _ _ _ _ _ c _ _ := p in c.
Definition p_nested (p : property) : bool := let 'mkProperty _ _ _ _ _ _ b _ := p in b.
Definition p_checks (p : property) : list check := let 'mkProperty _ _ _ _ _ _ _ l := p in l.

(** ** The classes *)

(** admin/dto/admin-transactions-query.dto.ts *)
Definition AdminTransactionsQueryDto : dto := mkDto "admin/dto/admin-transactions-query.dto" "AdminTransactionsQueryDto"
  [mkProperty "userId" TString true true None AsGiven false [IsString];
   mkProperty "status" TString true true None AsGiven false [IsIn ["pending"; "completed"; "failed"; "reversed"]];
   mkProperty "currency" TString true true None AsGiven false [IsString];
   mkProperty "startDate" TString true true None AsGiven false [IsString];
   mkProperty "endDate" TString true true None AsGiven false [IsString];
   mkProperty "page" TNumber true true (Some (JNum (num_of_Z 1))) ToNumber false [IsInt; Min (num_of_Z 1)];
   mkProperty "limit" TNumber true true (Some (JNum (num_of_Z 20))) ToNumber false [IsInt; Min (num_of_Z 1); Max (num_of_Z 100)]].

(** admin/dto/export-transactions.dto.ts *)
Definition AdminExportTransactionsDto : dto := mkDto "admin/dto/export-transactions.dto" "ExportTransactionsDto"
  [mkProperty "from" TString true false None AsGiven false [IsDateString];
   mkProperty "to" TString true false None AsGiven false [IsDateString];
   mkProperty "format" (TLiterals ["csv"]) true false None AsGiven false [IsIn ["csv"]];
   mkProperty "status" (TLiterals ["pending"; "completed"; "failed"; "reversed"; "cancelled"]) true true None AsGiven false [IsEnum ["pending"; "completed"; "failed"; "reversed"; "cancelled"]];
   mkProperty "currency" TString true true None AsGiven false [IsString]].

(** admin/dto/pagination.dto.ts *)
Definition PaginationDto : dto := mkDto "admin/dto/pagination.dto" "PaginationDto"
  [mkProperty "page" TNumber true true (Some (JNum (num_of_Z 1))) ToNumber false [IsInt; Min (num_of_Z 1)];
   mkProperty "limit" TNumber true true (Some (JNum (num_of_Z 20))) ToNumber false [IsInt; Min (num_of_Z 1); Max (num_of_Z 100)];
   mkProperty "sortBy" TString true true None AsGiven false [IsString];
   mkProperty "sortOrder" (TLiterals ["ASC"; "DESC"]) true true (Some (JStr "ASC")) AsGiven false [IsIn ["ASC"; "DESC"]]].

(** admin/dto/update-transaction-status.dto.ts *)
Definition UpdateTransactionStatusDto : dto := mkDto "admin/dto/update-transaction-status.dto" "UpdateTransactionStatusDto"
  [mkProperty "status" (TLiterals ["pending"; "completed"; "failed"; "reversed"; "cancelled"]) true false None AsGiven false [IsEnum ["pending"; "completed"; "failed"; "reversed"; "cancelled"]];
   mkProperty "reason" TString true true None AsGiven false [IsString; MaxLength 500]].

(** admin/dto/update-user-role.dto.ts *)
Definition UpdateUserRoleDto : dto := mkDto "admin/dto/update-user-role.dto" "UpdateUserRoleDto"
  [mkProperty "role" (TLiterals ["admin"; "user"; "compliance"]) true false None AsGiven false [IsEnum ["admin"; "user"; "compliance"]];
   mkProperty "reason" TString true true None AsGiven false [IsString; MaxLength 500]].

(** admin/dto/update-user-status.dto.ts *)
Definition UpdateUserStatusDto : dto := mkDto "admin/dto/update-user-status.dto" "UpdateUserStatusDto"
  [mkProperty "isActive" TBoolean true false None AsGiven false [IsBoolean];
   mkProperty "reason" TString true true None AsGiven false [IsString; MaxLength 500]].

(** auth/dto/forgot-password.dto.ts *)
Definition AuthForgotPasswordDto : dto := mkDto "auth/dto/forgot-password.dto" "ForgotPasswordDto"
  [mkProperty "email" TString true false None AsGiven false [IsEmail]].

(** auth/dto/login.dto.ts *)
Definition AuthLoginDto : dto := mkDto "auth/dto/login.dto" "LoginDto"
  [mkProperty "email" TString true false None AsGiven false [IsEmail];
   mkProperty "password" TString true false None AsGiven false [IsString; MinLength 8];
   mkProperty "totpCode" TString true true None AsGiven false [IsString]].

(** auth/dto/register.dto.ts *)
Definition RegisterDto : dto := mkDto "auth/dto/register.dto" "RegisterDto"
  [mkProperty "email" TString true false None AsGiven false [IsEmail];
   mkProperty "password" TString true false None AsGiven false [IsString; MinLength 8];
   mkProperty "firstName" TString true false None AsGiven false [IsString];
   mkProperty "lastName" TString true false None AsGiven false [IsString]].

(** auth/dto/reset-password.dto.ts *)
Definition AuthResetPasswordDto : dto := mkDto "auth/dto/reset-password.dto" "ResetPasswordDto"
  [mkProperty "token" TString true false None AsGiven false [IsString];
   mkProperty "newPassword" TString true false None AsGiven false [IsString; MinLength 8]].

(** bulk-payments/dto/create-bulk-payment.dto.ts *)
Definition BulkPaymentItemDto : dto := mkDto "bulk-payments/dto/create-bulk-payment.dto" "BulkPaymentItemDto"
  [mkProperty "recipientAddress" TString true false None AsGiven false [IsString];
   mkProperty "amount" TNumber true false None AsGiven false [IsNumber]].

(** bulk-payments/dto/create-bulk-payment.dto.ts *)
Definition CreateBulkPaymentDto : dto := mkDto "bulk-payments/dto/create-bulk-payment.dto" "CreateBulkPaymentDto"
  [mkProperty "items" (TArray TRecord) true false None (ToInstances BulkPaymentItemDto) true [IsArray];
   mkProperty "currency" TString true false None AsGiven false [IsString]].

(** currencies/dto/upsert-currency-pair.dto.ts *)
Definition CurrenciesUpsertCurrencyPairDto : dto := mkDto "currencies/dto/upsert-currency-pair.dto" "UpsertCurrencyPairDto"
  [mkProperty "fromCurrency" TString true false None AsGiven false [IsString; IsNotEmpty];
   mkProperty "toCurrency" TString true false None AsGiven false [IsString; IsNotEmpty];
   mkProperty "spreadPercent" TNumber true false None AsGiven false [IsNumber; Min (num_of_Z 0); Max (num_of_Z 5)];
   mkProperty "isActive" TBoolean true true None AsGiven false [IsBoolean]].

(** disputes/disputes.controller.ts *)
Definition OpenDisputeBody : dto := mkDto "disputes/disputes.controller" "OpenDisputeBody"
  [mkProperty "transactionId" TString true false None AsGiven false [IsUUID];
   mkProperty "reason" TString true false None AsGiven false [IsString; IsNotEmpty]].

(** disputes/disputes.controller.ts *)
Definition ResolveDisputeBody : dto := mkDto "disputes/disputes.controller" "ResolveDisputeBody"
  [mkProperty "status" (TLiterals ["resolved"; "rejected"]) true false None AsGiven false [IsEnum ["resolved"; "rejected"]];
   mkProperty "resolution" TString true false None AsGiven false [IsString; IsNotEmpty]].

(** disputes/dto/dispute.dto.ts *)
Definition FileDisputeDto : dto := mkDto "disputes/dto/dispute.dto" "FileDisputeDto"
  [mkProperty "transactionId" TString true false None AsGiven false [IsUUID];
   mkProperty "reason" TString true false None AsGiven false [IsString];
   mkProperty "description" TString true true None AsGiven false [IsString]].

(** disputes/dto/dispute.dto.ts *)
Definition DisputeMessageDto : dto := mkDto "disputes/dto/dispute.dto" "DisputeMessageDto"
  [mkProperty "message" TString true false None AsGiven false [IsString]].

(** disputes/dto/dispute.dto.ts *)
Definition EscalateDisputeDto : dto := mkDto "disputes/dto/dispute.dto" "EscalateDisputeDto"
  [mkProperty "assignTo" TString true true None AsGiven false [IsUUID]].

(** documents/dto/statement-query.dto.ts *)
Definition StatementQueryDto : dto := mkDto "documents/dto/statement-query.dto" "StatementQueryDto"
  [mkProperty "from" TString true true None AsGiven false [IsISO8601];
   mkProperty "to" TString true true None AsGiven false [IsISO8601]].

(** dtos/create-cat.dto.ts *)
Definition CreateCatDto : dto := mkDto "dtos/create-cat.dto" "CreateCatDto"
  [mkProperty "name" TString true false None AsGiven false [IsString; IsNotEmpty];
   mkProperty "breed" TString true false None AsGiven false [IsString; IsNotEmpty];
   mkProperty "age" TNumber true false None AsGiven false [IsNotEmpty]].

(** exchange-rates/dto/query-exchange-rate-history.dto.ts *)
Definition QueryExchangeRateHistoryDto : dto := mkDto "exchange-rates/dto/query-exchange-rate-history.dto" "QueryExchangeRateHistoryDto"
  [mkProperty "pair" TString true true None AsGiven false [IsString];
   mkProperty "from" TString true true None AsGiven false [IsString];
   mkProperty "to" TString true true None AsGiven false [IsString];
   mkProperty "page" TNumber true true None AsGiven false [];
   mkProperty "limit" TNumber true true None AsGiven false []].

(** fx/dto/upsert-currency-pair.dto.ts *)
Definition FxUpsertCurrencyPairDto : dto := mkDto "fx/dto/upsert-currency-pair.dto" "UpsertCurrencyPairDto"
  [mkProperty "fromCurrency" TString true false None AsGiven false [IsString];
   mkProperty "toCurrency" TString true false None AsGiven false [IsString];
   mkProperty "spreadPercent" TNumber true false None AsGiven false [IsNumber; Min (num_of_Z 0); Max (num_of_Z 5)];
   mkProperty "isActive" TBoolean true true None AsGiven false [IsBoolean]].

(** kyc/dto/kyc-submission.dto.ts *)
Definition KycSubmissionDto : dto := mkDto "kyc/dto/kyc-submission.dto" "KycSubmissionDto"
  [mkProperty "documentFrontUrl" TString true false None AsGiven false [IsString; IsNotEmpty; IsUrl];
   mkProperty "documentBackUrl" TString true false None AsGiven false [IsString; IsNotEmpty; IsUrl];
   mkProperty "documentType" TString true false None AsGiven false [IsString; IsNotEmpty]].

(** modules/account-freeze/dto/freeze-account.dto.ts *)
Definition FreezeAccountDto : dto := mkDto "modules/account-freeze/dto/freeze-account.dto" "FreezeAccountDto"
  [mkProperty "userId" TString true false None AsGiven false [IsUUID];
   mkProperty "reason" TString true false None AsGiven false [IsString; MinLength 1];
   mkProperty "notes" TString true true None AsGiven false [IsString]].

(** modules/account-freeze/dto/unfreeze-account.dto.ts *)
Definition UnfreezeAccountDto : dto := mkDto "modules/account-freeze/dto/unfreeze-account.dto" "UnfreezeAccountDto"
  [mkProperty "notes" TString true true None AsGiven false [IsString]].

(** modules/admin/controllers/system-admin.controller.ts *)
Definition FundWalletDto : dto := mkDto "modules/admin/controllers/system-admin.controller" "FundWalletDto"
  [mkProperty "address" TString false false None AsGiven false []].

(** modules/api-keys/dto/create-api-key.dto.ts *)
Definition CreateApiKeyDto : dto := mkDto "modules/api-keys/dto/create-api-key.dto" "CreateApiKeyDto"
  [mkProperty "name" TString true false None AsGiven false [IsString; MinLength 1];
   mkProperty "scopes" (TArray TString) true true None AsGiven false [IsArray; Each IsString];
   mkProperty "rateLimit" TNumber true true None AsGiven false [IsInt; Min (num_of_Z 1)];
   mkProperty "expiresAt" TString true true None AsGiven false [IsDateString]].

(** modules/auth/auth.controller.ts *)
Definition SignupDto : dto := mkDto "modules/auth/auth.controller" "SignupDto"
  [mkProperty "email" TString true false None AsGiven false [IsEmail];
   mkProperty "passwordHash" TString true false None AsGiven false [IsString; MinLength 8];
   mkProperty "firstName" TString true true None AsGiven false [IsString];
   mkProperty "lastName" TString true true None AsGiven false [IsString];
   mkProperty "referralCode" TString true true None AsGiven false [IsString]].

(** modules/auth/auth.controller.ts *)
Definition ModulesAuthLoginDto : dto := mkDto "modules/auth/auth.controller" "LoginDto"
  [mkProperty "email" TString true false None AsGiven false [IsEmail];
   mkProperty "passwordHash" TString true false None AsGiven false [IsString]].

(** modules/auth/auth.controller.ts *)
Definition ModulesAuthForgotPasswordDto : dto := mkDto "modules/auth/auth.controller" "ForgotPasswordDto"
  [mkProperty "email" TString true false None AsGiven false [IsEmail]].

(** modules/auth/auth.controller.ts *)
Definition ModulesAuthResetPasswordDto : dto := mkDto "modules/auth/auth.controller" "ResetPasswordDto"
  [mkProperty "email" TString true false None AsGiven false [IsEmail];
   mkProperty "token" TString true false None AsGiven false [IsString];
   mkProperty "newPasswordHash" TString true false None AsGiven false [IsString; MinLength 8]].

(** modules/auth/auth.controller.ts *)
Definition VerifyEmailDto : dto := mkDto "modules/auth/auth.controller" "VerifyEmailDto"
  [mkProperty "userId" TString true false None AsGiven false [IsString];
   mkProperty "token" TString true false None AsGiven false [IsString]].

(** modules/auth/auth.controller.ts *)
Definition ResendVerificationDto : dto := mkDto "modules/auth/auth.controller" "ResendVerificationDto"
  [mkProperty "email" TString true false None AsGiven false [IsEmail]].

(** modules/endpoint-rate-limit/dto/endpoint-rate-limit.dto.ts *)
Definition CreateEndpointRateLimitDto : dto := mkDto "modules/endpoint-rate-limit/dto/endpoint-rate-limit.dto" "CreateEndpointRateLimitDto"
  [mkProperty "endpoint" TString true false None AsGiven false [IsString];
   mkProperty "method" TString true false None AsGiven false [IsString; IsIn ["GET"; "POST"; "PUT"; "PATCH"; "DELETE"]];
   mkProperty "maxRequests" TNumber true false None AsGiven false [IsNumber];
   mkProperty "windowMs" TNumber true false None AsGiven false [IsNumber];
   mkProperty "isActive" TBoolean true true None AsGiven false [IsBoolean]].

(** modules/endpoint-rate-limit/dto/endpoint-rate-limit.dto.ts *)
Definition UpdateEndpointRateLimitDto : dto := mkDto "modules/endpoint-rate-limit/dto/endpoint-rate-limit.dto" "UpdateEndpointRateLimitDto"
  [mkProperty "endpoint" TString true true None AsGiven false [IsString];
   mkProperty "method" TString true true None AsGiven false [IsString; IsIn ["GET"; "POST"; "PUT"; "PATCH"; "DELETE"]];
   mkProperty "maxRequests" TNumber true true None AsGiven false [IsNumber];
   mkProperty "windowMs" TNumber true true None AsGiven false [IsNumber];
   mkProperty "isActive" TBoolean true true None AsGiven false [IsBoolean]].

(** modules/export/dto/export.dto.ts *)
Definition ModulesExportExportTransactionsDto : dto := mkDto "modules/export/dto/export.dto" "ExportTransactionsDto"
  [mkProperty "format" (TLiterals ["csv"; "json"]) true true (Some (JStr "json")) AsGiven false [IsIn ["csv"; "json"]];
   mkProperty "from" TString true true None AsGiven false [IsDateString];
   mkProperty "to" TString true true None AsGiven false [IsDateString]].

(** modules/export/dto/export.dto.ts *)
Definition ExportBalancesDto : dto := mkDto "modules/export/dto/export.dto" "ExportBalancesDto"
  [mkProperty "format" (TLiterals ["csv"; "json"]) true true (Some (JStr "json")) AsGiven false [IsIn ["csv"; "json"]]].

(** modules/fee-audit/dto/fee-audit.dto.ts *)
Definition ListFeeAuditDto : dto := mkDto "modules/fee-audit/dto/fee-audit.dto" "ListFeeAuditDto"
  [mkProperty "userId" TString true true None AsGiven false [IsString];
   mkProperty "transactionId" TString true true None AsGiven false [IsString];
   mkProperty "feeType" TString true true None AsGiven false [IsString];
   mkProperty "page" TNumber true true None AsGiven false [IsNumber];
   mkProperty "limit" TNumber true true None AsGiven false [IsNumber]].

(** modules/fee-reports/dto/generate-fee-report.dto.ts *)
Definition GenerateFeeReportDto : dto := mkDto "modules/fee-reports/dto/generate-fee-report.dto" "GenerateFeeReportDto"
  [mkProperty "period" (TLiterals ["daily"; "weekly"; "monthly"]) true false None AsGiven false [IsEnum ["daily"; "weekly"; "monthly"]];
   mkProperty "startDate" TString true true None AsGiven false [IsDateString];
   mkProperty "endDate" TString true true None AsGiven false [IsDateString]].

(** modules/fee-reports/dto/list-fee-reports.dto.ts *)
Definition ListFeeReportsDto : dto := mkDto "modules/fee-reports/dto/list-fee-reports.dto" "ListFeeReportsDto"
  [mkProperty "period" (TLiterals ["daily"; "weekly"; "monthly"]) true true None AsGiven false [IsEnum ["daily"; "weekly"; "monthly"]];
   mkProperty "page" TNumber true true (Some (JNum (num_of_Z 1))) ToNumber false [IsInt; Min (num_of_Z 1)];
   mkProperty "limit" TNumber true true (Some (JNum (num_of_Z 20))) ToNumber false [IsInt; Min (num_of_Z 1); Max (num_of_Z 100)]].

(** modules/kyc-tiers/dto/list-kyc-tier-upgrades.dto.ts *)
Definition ListKycTierUpgradesDto : dto := mkDto "modules/kyc-tiers/dto/list-kyc-tier-upgrades.dto" "ListKycTierUpgradesDto"
  [mkProperty "status" (TLiterals ["pending"; "approved"; "rejected"]) true true None AsGiven false [IsEnum ["pending"; "approved"; "rejected"]];
   mkProperty "page" TNumber true true (Some (JNum (num_of_Z 1))) ToNumber false [IsInt; Min (num_of_Z 1)];
   mkProperty "limit" TNumber true true (Some (JNum (num_of_Z 20))) ToNumber false [IsInt; Min (num_of_Z 1); Max (num_of_Z 100)]].

(** modules/kyc-tiers/dto/request-kyc-tier-upgrade.dto.ts *)
Definition RequestKycTierUpgradeDto : dto := mkDto "modules/kyc-tiers/dto/request-kyc-tier-upgrade.dto" "RequestKycTierUpgradeDto"
  [mkProperty "requestedTier" TString true false None AsGiven false [IsString];
   mkProperty "documents" TRecord true true None AsGiven false [IsObject]].

(** modules/kyc-tiers/dto/review-kyc-tier-upgrade.dto.ts *)
Definition ReviewKycTierUpgradeDto : dto := mkDto "modules/kyc-tiers/dto/review-kyc-tier-upgrade.dto" "ReviewKycTierUpgradeDto"
  [mkProperty "reason" TString true true None AsGiven false [IsString]].

(** modules/stellar-federation/dto/create-federation-address.dto.ts *)
Definition CreateFederationAddressDto : dto := mkDto "modules/stellar-federation/dto/create-federation-address.dto" "CreateFederationAddressDto"
  [mkProperty "name" TString true false None AsGiven false [IsString; MinLength 1; Matches "^[a-zA-Z0-9._-]+$"];
   mkProperty "domain" TString true false None AsGiven false [IsString; MinLength 1];
   mkProperty "stellarAddress" TString true false None AsGiven false [IsString; MinLength 1];
   mkProperty "memo" TString true true None AsGiven false [IsString];
   mkProperty "memoType" TString true true None AsGiven false [IsString]].

(** modules/stellar-federation/dto/resolve-federation.dto.ts *)
Definition ResolveFederationDto : dto := mkDto "modules/stellar-federation/dto/resolve-federation.dto" "ResolveFederationDto"
  [mkProperty "q" TString true false None AsGiven false [IsString; MinLength 1]].

(** modules/support-tickets/dto/assign-ticket.dto.ts *)
Definition AssignTicketDto : dto := mkDto "modules/support-tickets/dto/assign-ticket.dto" "AssignTicketDto"
  [mkProperty "assignedTo" TString true false None AsGiven false [IsUUID];
   mkProperty "status" TString true true None AsGiven false []].

(** modules/support-tickets/dto/create-support-ticket.dto.ts *)
Definition CreateSupportTicketDto : dto := mkDto "modules/support-tickets/dto/create-support-ticket.dto" "CreateSupportTicketDto"
  [mkProperty "subject" TString true false None AsGiven false [IsString; MaxLength 255];
   mkProperty "description" TString true false None AsGiven false [IsString];
   mkProperty "priority" (TLiterals ["low"; "medium"; "high"; "urgent"]) true true None AsGiven false [IsEnum ["low"; "medium"; "high"; "urgent"]]].

(** modules/support-tickets/dto/create-ticket-message.dto.ts *)
Definition CreateTicketMessageDto : dto := mkDto "modules/support-tickets/dto/create-ticket-message.dto" "CreateTicketMessageDto"
  [mkProperty "message" TString true false None AsGiven false [IsString; MinLength 1]].

(** modules/support-tickets/dto/list-support-tickets.dto.ts *)
Definition ListSupportTicketsDto : dto := mkDto "modules/support-tickets/dto/list-support-tickets.dto" "ListSupportTicketsDto"
  [mkProperty "status" (TLiterals ["open"; "in_progress"; "waiting_customer"; "resolved"; "closed"]) true true None AsGiven false [IsEnum ["open"; "in_progress"; "waiting_customer"; "resolved"; "closed"]];
   mkProperty "assignedTo" TString true true None AsGiven false [IsString];
   mkProperty "page" TNumber true true (Some (JNum (num_of_Z 1))) ToNumber false [IsInt; Min (num_of_Z 1)];
   mkProperty "limit" TNumber true true (Some (JNum (num_of_Z 20))) ToNumber false [IsInt; Min (num_of_Z 1); Max (num_of_Z 100)]].

(** modules/transactions/dto/fee-preview.dto.ts *)
Definition FeePreviewDto : dto := mkDto "modules/transactions/dto/fee-preview.dto" "FeePreviewDto"
  [mkProperty "amount" TNumber true false None AsGiven false [IsNumber; Min (num_of_Z 0)];
   mkProperty "currency" TString true false None AsGiven false [IsString; Length 3  3];
   mkProperty "type" (TLiterals ["deposit"; "withdrawal"; "swap"]) true false None AsGiven false [IsEnum ["deposit"; "withdrawal"; "swap"]]].

(** modules/transactions/dto/rollback-transaction.dto.ts *)
Definition RollbackTransactionDto : dto := mkDto "modules/transactions/dto/rollback-transaction.dto" "RollbackTransactionDto"
  [mkProperty "reason" TString true true None AsGiven false [IsString]].

(** modules/user-deactivation/dto/user-deactivation.dto.ts *)
Definition DeactivateUserDto : dto := mkDto "modules/user-deactivation/dto/user-deactivation.dto" "DeactivateUserDto"
  [mkProperty "reason" TString true true None AsGiven false [IsString]].

(** modules/wallet-history/dto/query-wallet-history.dto.ts *)
Definition QueryWalletHistoryDto : dto := mkDto "modules/wallet-history/dto/query-wallet-history.dto" "QueryWalletHistoryDto"
  [mkProperty "startDate" TString true true None AsGiven false [IsDateString];
   mkProperty "endDate" TString true true None AsGiven false [IsDateString];
   mkProperty "currency" TString true true None AsGiven false [IsString];
   mkProperty "page" TNumber true true (Some (JNum (num_of_Z 1))) ToNumber false [IsInt; Min (num_of_Z 1)];
   mkProperty "limit" TNumber true true (Some (JNum (num_of_Z 20))) ToNumber false [IsInt; Min (num_of_Z 1); Max (num_of_Z 100)]].

(** modules/wallets/controllers/withdrawal.controller.ts *)
Definition WithdrawalDto : dto := mkDto "modules/wallets/controllers/withdrawal.controller" "WithdrawalDto"
  [mkProperty "amount" TNumber true false None AsGiven false [IsNumber; Min (num_of_decimal 1 (-2))];
   mkProperty "currency" TString true false None AsGiven false [IsString];
   mkProperty "beneficiaryId" TString true false None AsGiven false [IsUUID]].

(** spending/dto/create-spending-category.dto.ts *)
Definition CreateSpendingCategoryDto : dto := mkDto "spending/dto/create-spending-category.dto" "CreateSpendingCategoryDto"
  [mkProperty "name" TString true false None AsGiven false [IsString; MaxLength 100];
   mkProperty "color" TString true true None AsGiven false [IsString; MaxLength 7];
   mkProperty "icon" TString true true None AsGiven false [IsString; MaxLength 50]].

(** spending/dto/create-spending-entry.dto.ts *)
Definition CreateSpendingEntryDto : dto := mkDto "spending/dto/create-spending-entry.dto" "CreateSpendingEntryDto"
  [mkProperty "transactionId" TString true true None AsGiven false [IsUUID];
   mkProperty "categoryId" TString true true None AsGiven false [IsUUID];
   mkProperty "amount" TNumber true false None AsGiven false [IsNumber];
   mkProperty "description" TString true true None AsGiven false [IsString; MaxLength 255];
   mkProperty "date" TString true false None AsGiven false [IsDateString]].

(** spending/dto/query-spending-summary.dto.ts *)
Definition QuerySpendingSummaryDto : dto := mkDto "spending/dto/query-spending-summary.dto" "QuerySpendingSummaryDto"
  [mkProperty "period" (TLiterals ["week"; "month"; "year"]) true true (Some (JStr "month")) AsGiven false [IsIn ["week"; "month"; "year"]];
   mkProperty "startDate" TString true true None AsGiven false [IsDateString];
   mkProperty "endDate" TString true true None AsGiven false [IsDateString]].

(** wallet/dto/adjust-balance.dto.ts *)
Definition AdjustBalanceDto : dto := mkDto "wallet/dto/adjust-balance.dto" "AdjustBalanceDto"
  [mkProperty "accountId" TString true false None AsGiven false [IsUUID];
   mkProperty "currency" TString true false None AsGiven false [IsString; Length 3  3; Matches "^[A-Z]{3}$"];
   mkProperty "delta" TNumber true false None AsGiven false [IsNumber; IsNotZero]].

(** All of them. *)
Definition dtos : list dto :=
  [AdminTransactionsQueryDto; AdminExportTransactionsDto; PaginationDto; UpdateTransactionStatusDto; UpdateUserRoleDto; UpdateUserStatusDto; AuthForgotPasswordDto; AuthLoginDto; RegisterDto; AuthResetPasswordDto; BulkPaymentItemDto; CreateBulkPaymentDto; CurrenciesUpsertCurrencyPairDto; OpenDisputeBody; ResolveDisputeBody; FileDisputeDto; DisputeMessageDto; EscalateDisputeDto; StatementQueryDto; CreateCatDto; QueryExchangeRateHistoryDto; FxUpsertCurrencyPairDto; KycSubmissionDto; FreezeAccountDto; UnfreezeAccountDto; FundWalletDto; CreateApiKeyDto; SignupDto; ModulesAuthLoginDto; ModulesAuthForgotPasswordDto; ModulesAuthResetPasswordDto; VerifyEmailDto; ResendVerificationDto; CreateEndpointRateLimitDto; UpdateEndpointRateLimitDto; ModulesExportExportTransactionsDto; ExportBalancesDto; ListFeeAuditDto; GenerateFeeReportDto; ListFeeReportsDto; ListKycTierUpgradesDto; RequestKycTierUpgradeDto; ReviewKycTierUpgradeDto; CreateFederationAddressDto; ResolveFederationDto; AssignTicketDto; CreateSupportTicketDto; CreateTicketMessageDto; ListSupportTicketsDto; FeePreviewDto; RollbackTransactionDto; DeactivateUserDto; QueryWalletHistoryDto; WithdrawalDto; CreateSpendingCategoryDto; CreateSpendingEntryDto; QuerySpendingSummaryDto; AdjustBalanceDto].

(** ** The checks *)

(** What class-validator's own checks accept, the message of a refusal that names
    the properties refused, what becomes of a body that is not an object, and
    ParseUUIDPipe's test. *)
Class ClassValidator : Type := {
  satisfies : check -> json -> bool;
  validation_message : list string -> string;
  other_body : json -> exn + json;
  is_uuid : string -> bool
}.

Definition is_string (v : json) : Prop := exists s, v = JStr s.
Definition in_literals (l : list string) (v : json) : Prop := exists s, v = JStr s /\ In s l.
Definition is_integral (v : json) : Prop := exists z, v = JNum z /\ integer_of z <> None.
Definition is_number (v : json) : Prop := exists n, v = JNum n /\ is_finite n = true.

(** What the documentation of class-validator says of its checks. *)
Class ClassValidatorLaws `{ClassValidator} : Prop := {
  law_string c v : satisfies c v = true ->
    match c with IsString | IsEmail | IsUUID | IsUrl | IsDateString | IsISO8601 | MinLength _ | MaxLength _ | Matches _ => is_string v | _ => True end;
  law_length lo hi v : satisfies (Length lo hi) v = true -> exists s, v = JStr s /\ (lo <= String.length s <= hi)%nat;
  law_int v : satisfies IsInt v = true -> is_integral v;
  law_number v : satisfies IsNumber v = true -> is_number v;
  law_boolean v : satisfies IsBoolean v = true -> exists b, v = JBool b;
  law_object v : satisfies IsObject v = true -> exists o, v = JObj o;
  law_array v : satisfies IsArray v = true -> exists l, v = JArr l;
  law_in l v : satisfies (IsIn l) v = true \/ satisfies (IsEnum l) v = true -> in_literals l v;
  law_min n v : satisfies (Min n) v = true -> exists x, v = JNum x /\ num_leb n x = true;
  law_max n v : satisfies (Max n) v = true -> exists x, v = JNum x /\ num_leb x n = true
}.

(** common/validators/is-not-zero.decorator.ts *)
Definition IsNotZero_validate (value : json) : bool :=
  match value with JNum n => negb (num_eqb n (num_of_Z 0)) | _ => false end.

(** common/validators/is-different-from.validator.ts: a value of the object and
    the one it is compared with; two objects are never the same. *)
Definition IsDifferentFrom_validate (value related : json) : bool :=
  match value, related with
  | JStr a, JStr b => negb (String.eqb a b)
  | JNum a, JNum b => negb (num_eqb a b)
  | JBool a, JBool b => negb (Bool.eqb a b)
  | JNull, JNull | JUndefined, JUndefined => false
  | _, _ => true
  end.

(** [Number(value)] and [+value]. *)
Definition number_of (v : json) : num :=
  let of_primitive v :=
    match v with
    | JStr s => js_number s
    | JNum n => n
    | JBool b => num_of_Z (if b then 1 else 0)
    | JNull => num_of_Z 0
    | _ => num_nan
    end in
  match v with
  | JArr [] => num_of_Z 0
  | JArr [(JStr _ | JNum _) as x] => of_primitive x
  | JArr [JNull] | JArr [JUndefined] => num_of_Z 0
  | _ => of_primitive v
  end.

(** ** plainToInstance *)

Definition to_number (v : json) : json := if nullish v then v else JNum (number_of v).

(** A conversion goes into arrays, however deep. *)
Fixpoint deep (f : json -> json) (v : json) : json :=
  match v with JArr l => JArr (map (deep f) l) | _ => f v end.

(** Keys the conversion passes over. *)
Definition skipped (k : string) : bool := String.eqb k "__proto__" || String.eqb k "constructor".

(** The initialisers of the class, then every property that was given. *)
Fixpoint instantiate (d : dto) (fields : list (string * json)) : list (string * json) :=
  let 'mkDto _ _ ps := d in
  let initials := flat_map (fun p => match p_initial p with Some v => [(p_name p, v)] | None => [] end) ps in
  let fix convert (ps : list property) (k : string) (v : json) : json :=
    match ps with
    | [] => v
    | mkProperty n _ _ _ _ c _ _ :: ps =>
        if String.eqb n k then
          match c with
          | AsGiven => v
          | ToNumber => deep to_number v
          | ToInstances d' => deep (fun x => match x with JObj o => JObj (instantiate d' o) | _ => x end) v
          end
        else convert ps k v
    end in
  fold_left (fun o '(k, v) => if skipped k then o else obj_set k (convert ps k v) o) fields initials.

(** ** ValidationPipe *)

Section Pipe.
Context `{ClassValidator}.

(** A check of each element is one of the value itself where it is no array. *)
Fixpoint holds (c : check) (v : json) : bool :=
  match c with
  | IsNotZero => IsNotZero_validate v
  | Each c => match v with JArr l => forallb (holds c) l | _ => holds c v end
  | _ => satisfies c v
  end.

Definition value_of (k : string) (o : list (string * json)) : json := default JUndefined (obj_get k o).

(** What [@ValidateNested] accepts, given its verdict on an object: nothing at
    all, an accepted object, or an array of what it accepts, however deep. *)
Fixpoint nested (ok : list (string * json) -> bool) (v : json) : bool :=
  match v with
  | JUndefined | JNull => true
  | JObj o => ok o
  | JArr l => forallb (nested ok) l
  | _ => false
  end.

(** The properties of an instance that are refused: those that no decorator
    declares, then those that fail a check. *)
Fixpoint errors (d : dto) (o : list (string * json)) : list string :=
  let 'mkDto _ _ ps := d in
  let fix allowed (ps : list property) (k : string) : bool :=
    match ps with
    | [] => false
    | mkProperty n _ deco _ _ _ _ _ :: ps => (deco && String.eqb n k) || allowed ps k
    end in
  let fix refused (ps : list property) : list string :=
    match ps with
    | [] => []
    | mkProperty n _ _ opt _ c nest cs :: ps =>
        let v := value_of n o in
        let nested_ok :=
          match c with
          | ToInstances d' => nested (fun o' => match errors d' o' with [] => true | _ => false end) v
          | _ => true
          end in
        (if opt && nullish v then []
         else if forallb (fun c => holds c v) cs && (negb nest || nested_ok) then [] else [n]) ++ refused ps
    end in
  List.filter (fun k => negb (allowed ps k)) (map fst o) ++ refused ps.

(** whitelist, forbidNonWhitelisted and transform. *)
Definition validate (d : dto) (fields : list (string * json)) : list string + list (string * json) :=
  let o := instantiate d fields in
  match errors d o with [] => inr o | es => inl es end.
End Pipe.

(** The type of a handler's parameter: a primitive, one that a ParseUUIDPipe
    checks, a class of this file, a type that leaves no class at run time, or a
    class of a file the repository does not have; or a parameter that no pipe
    sees. *)
Inductive param_type : Type :=
  | PString | PNumber | PBoolean | PUuid
  | Dto (file name : string)
  | NotAClass (name : string)
  | Elsewhere (file : string)
  | NotPiped.

Definition find_dto (file name : string) : option dto :=
  List.find (fun d => String.eqb (d_file d) file && String.eqb (d_name d) name) dtos.

Section Transform.
Context `{ClassValidator}.

(** [keyed] is false for a whole body or query; [piped] when the parameter comes
    from the path or the query. *)
Definition transform (t : param_type) (from_url keyed : bool) (v : json) : exn + json :=
  match t with
  | PUuid => match v with JStr s => if is_uuid s then inr v else inl (BadRequestException "Validation failed (uuid is expected)")
                        | _ => inl (BadRequestException "Validation failed (uuid is expected)") end
  | Dto file name =>
      match find_dto file name with
      | None => inr v
      | Some d =>
          match (if nullish v then JObj [] else v) with
          | JObj fields => match validate d fields with inl es => inl (BadRequestException (validation_message es)) | inr o => inr (JObj o) end
          | v => other_body v
          end
      end
  | _ =>
      if from_url && keyed then
        match t, v with
        | _, JUndefined => inr v
        | PNumber, _ => inr (JNum (number_of v))
        | PBoolean, JBool true => inr (JBool true)
        | PBoolean, JStr s => inr (JBool (String.eqb s "true"))
        | PBoolean, _ => inr (JBool false)
        | _, _ => inr v
        end
      else inr v
  end.
End Transform.

(** ** What validation assures *)

Section Assured.
Context `{CV : ClassValidator} `{!ClassValidatorLaws}.

Fixpoint has_type (t : declared) (v : json) : Prop :=
  match t with
  | TString => is_string v
  | TNumber => exists n, v = JNum n
  | TBoolean => exists b, v = JBool b
  | TRecord => exists o, v = JObj o
  | TLiterals l => in_literals l v
  | TArray t => exists l, v = JArr l /\ Forall (has_type t) l
  end.

(** The checks that make sure of a type. *)
Definition assures (t : declared) (c : check) : bool :=
  match t, c with
  | TString, (IsString | IsEmail | IsUUID | IsUrl | IsDateString | IsISO8601 | MinLength _ | MaxLength _ | Matches _ | Length _ _ | IsIn _ | IsEnum _) => true
  | TNumber, (IsInt | IsNumber | Min _ | Max _ | IsNotZero) => true
  | TBoolean, IsBoolean => true
  | TRecord, IsObject => true
  | TLiterals l, (IsIn l' | IsEnum l') => forallb (fun s => existsb (String.eqb s) l) l'
  | _, _ => false
  end.
Definition is_IsArray (c : check) : bool := match c with IsArray => true | _ => false end.
Fixpoint sound_for (t : declared) (cs : list check) : bool :=
  match t with
  | TArray t => existsb is_IsArray cs && sound_for t (flat_map (fun c => match c with Each c => [c] | _ => [] end) cs)
  | t => existsb (assures t) cs
  end.

(** A property whose checks make sure of its declared type. *)
Definition sound (p : property) : bool := sound_for (p_declared p) (p_checks p).

Lemma assures_spec t c v : assures t c = true -> holds c v = true -> has_type t v.
Proof.
  intros Ha Hc. destruct t, c; try discriminate Ha; cbn [holds] in Hc; cbn [has_type];
    try exact (law_string _ _ Hc);
    try (destruct (law_int _ Hc) as (z & -> & _); eauto; fail);
    try (destruct (law_number _ Hc) as (z & -> & _); eauto; fail);
    try (destruct (law_min _ _ Hc) as (z & -> & _); eauto; fail);
    try (destruct (law_max _ _ Hc) as (z & -> & _); eauto; fail);
    try (destruct (law_length _ _ _ Hc) as (z & -> & _); unfold is_string; eauto; fail);
    try exact (law_boolean _ Hc); try exact (law_object _ Hc).
  1,2: destruct (law_in values v) as (s & -> & _); [auto|now exists s].
  - destruct v; try discriminate Hc. eauto.
  - destruct (law_in values0 v) as (s & -> & Hin); [auto|]. exists s. split; [reflexivity|].
    cbn [assures] in Ha. rewrite forallb_forall in Ha. specialize (Ha _ Hin). apply existsb_exists in Ha as (x & Hx & E). apply String.eqb_eq in E. now subst.
  - destruct (law_in values0 v) as (s & -> & Hin); [auto|]. exists s. split; [reflexivity|].
    cbn [assures] in Ha. rewrite forallb_forall in Ha. specialize (Ha _ Hin). apply existsb_exists in Ha as (x & Hx & E). apply String.eqb_eq in E. now subst.
Qed.

Lemma sound_for_spec t : forall cs v, sound_for t cs = true -> Forall (fun c => holds c v = true) cs -> has_type t v.
Proof.
  induction t as [| | | |l|t IH]; intros cs v Ha Hc; rewrite List.Forall_forall in Hc.
  1-5: apply existsb_exists in Ha as (c & Hin & Ha); apply (assures_spec _ c); auto.
  cbn [sound_for] in Ha. apply andb_true_iff in Ha as [Harr Ha]. apply existsb_exists in Harr as (c & Hin & Ec).
  destruct c; try discriminate Ec. destruct (law_array _ (Hc _ Hin)) as (l & ->). exists l. split; [reflexivity|].
  apply List.Forall_forall. intros x Hx. eapply IH; [exact Ha|]. apply List.Forall_forall. intros c Hcin.
  apply in_flat_map in Hcin as (c' & Hin' & Hcc). destruct c' as [| | | | | | | | | | | | | | | | | | | | |c'];
    try contradiction. destruct Hcc as [<-|[]]. specialize (Hc _ Hin'). cbn [holds] in Hc. rewrite forallb_forall in Hc. auto.
Qed.
End Assured.

Section Validated.
Context `{CV : ClassValidator} `{!ClassValidatorLaws}.

(** Whether a name is one of a decorated property. *)
Definition declared_in (d : dto) (k : string) : bool :=
  existsb (fun p => p_decorated p && String.eqb (p_name p) k) (d_properties d).

Lemma filter_nil_false {A} (f : A -> bool) l a : List.filter f l = [] -> In a l -> f a = false.
Proof.
  intros E Ha. destruct (f a) eqn:Ef; [|reflexivity]. assert (Hin : In a (List.filter f l)) by (now apply filter_In).
  rewrite E in Hin. contradiction.
Qed.

Lemma errors_nil d o : errors d o = [] ->
  (forall k, In k (map fst o) -> declared_in d k = true) /\
  (forall p, In p (d_properties d) ->
    (p_optional p = true /\ nullish (value_of (p_name p) o) = true) \/
    (Forall (fun c => holds c (value_of (p_name p) o) = true) (p_checks p) /\
     (p_nested p = true -> forall d', p_convert p = ToInstances d' ->
       nested (fun o' => match errors d' o' with [] => true | _ => false end) (value_of (p_name p) o) = true))).
Proof.
  destruct d as [f n ps]. cbn [errors]. intros E. apply app_eq_nil in E as [Ek Er]. split.
  - intros k Hk. pose proof (filter_nil_false _ _ _ Ek Hk) as Hg. cbv beta in Hg. unfold declared_in. cbn [d_properties].
    apply negb_false_iff in Hg. clear -Hg. induction ps as [|[n t deco opt i c b cs] ps IH]; [discriminate|].
    cbn [existsb p_decorated p_name]. apply orb_true_iff in Hg as [Hg|Hg]; [now rewrite Hg|]. rewrite IH by assumption. apply orb_true_r.
  - clear Ek. induction ps as [|[n' t deco opt i c b cs] ps IH]; intros p Hp; [contradiction|].
    apply app_eq_nil in Er as [E1 E2]. destruct Hp as [<-|Hp]; [|now apply IH]. clear IH E2. cbn [p_optional p_name p_checks p_nested p_convert].
    destruct (opt && nullish (value_of n' o)) eqn:Eo; [left; now apply andb_true_iff in Eo|]. right.
    destruct (forallb (fun c => holds c (value_of n' o)) cs) eqn:Ec; cbn [andb] in E1; [|discriminate].
    split; [apply List.Forall_forall; now rewrite forallb_forall in Ec|]. intros -> d' ->. cbn [negb orb] in E1.
    now destruct (nested _ _).
Qed.

(** The properties of the repository's classes whose checks do not make sure of
    their declared type. *)
Definition unsound_properties : list (string * string) :=
  flat_map (fun d => map (fun p => (d_name d, p_name p)) (List.filter (fun p => negb (sound p)) (d_properties d))) dtos.

Lemma unsound_properties_are : unsound_properties =
  [("CreateBulkPaymentDto", "items"); ("CreateCatDto", "age"); ("QueryExchangeRateHistoryDto", "page");
   ("QueryExchangeRateHistoryDto", "limit"); ("FundWalletDto", "address"); ("AssignTicketDto", "status")].
Proof. now vm_compute. Qed.

Lemma unsound_listed d p : In d dtos -> In p (d_properties d) -> sound p = false -> In (d_name d, p_name p) unsound_properties.
Proof.
  intros Hd Hp Hs. apply in_flat_map. exists d. split; [assumption|]. apply in_map_iff. exists p. split; [reflexivity|].
  apply filter_In. split; [assumption|]. now rewrite Hs.
Qed.

(** An instance of a class that validation lets through. *)
Definition accepted (d : dto) (o : list (string * json)) : bool := match errors d o with [] => true | _ => false end.

(** C15 A body or query that the validation of one of the repository's classes
    lets through has no property the class does not decorate, and every property
    it declares has a value of its declared type or is optional and absent, but
    for six that are listed.  A nested array - the payments of a bulk payment,
    the first of the six - holds accepted instances of its class, next to which
    null and further such arrays pass. *)
Theorem validated_bodies_are_typed d fields o :
  validate d fields = inr o ->
  (forall k, In k (map fst o) -> declared_in d k = true) /\
  (forall p, In p (d_properties d) ->
    (In d dtos ->
      has_type (p_declared p) (value_of (p_name p) o) \/
      (p_optional p = true /\ nullish (value_of (p_name p) o) = true) \/
      In (d_name d, p_name p)
        [("CreateBulkPaymentDto", "items"); ("CreateCatDto", "age"); ("QueryExchangeRateHistoryDto", "page");
         ("QueryExchangeRateHistoryDto", "limit"); ("FundWalletDto", "address"); ("AssignTicketDto", "status")]) /\
    (forall d', p_nested p = true -> p_convert p = ToInstances d' -> nested (accepted d') (value_of (p_name p) o) = true)).
Proof.
  unfold validate. destruct (errors d (instantiate d fields)) eqn:E; [|discriminate]. intros [= <-].
  destruct (errors_nil _ _ E) as [Hk Hp]. split; [exact Hk|]. intros p Hin. split.
  - intros Hd. destruct (sound p) eqn:Hs; [|do 2 right; rewrite <- unsound_properties_are; now apply unsound_listed].
    destruct (Hp p Hin) as [Ho|[Hc _]]; [now right; left | left; exact (sound_for_spec _ _ _ Hs Hc)].
  - intros d' Hn Ec. destruct (Hp p Hin) as [[_ Ho]|[_ Hnest]]; [|exact (Hnest Hn d' Ec)].
    unfold nullish in Ho. destruct (value_of (p_name p) (instantiate d fields)); try discriminate Ho; reflexivity.
Qed.

Lemma converted_checks d p : In d dtos -> In p (d_properties d) -> p_convert p = ToNumber ->
  p_optional p = true /\ In IsInt (p_checks p) /\ In (Min (num_of_Z 1)) (p_checks p) /\
  (p_name p = "page" \/ (p_name p = "limit" /\ In (Max (num_of_Z 100)) (p_checks p))).
Proof.
  intros Hd Hp Hc. unfold dtos in Hd. cbn [In] in Hd.
  repeat (destruct Hd as [<-|Hd];
    [cbn [d_properties In] in Hp; repeat (destruct Hp as [<-|Hp]; [first [discriminate Hc | cbn; tauto]|]); contradiction|]).
  contradiction.
Qed.

(** A page of a validated query is a whole number from 1, and a limit one from
    1 to 100, wherever a class converts them to numbers. *)
Theorem pages_are_bounded d p fields o :
  In d dtos -> In p (d_properties d) -> p_convert p = ToNumber -> validate d fields = inr o ->
  nullish (value_of (p_name p) o) = true \/
  exists n z, value_of (p_name p) o = JNum n /\ integer_of n = Some z /\ num_leb (num_of_Z 1) n = true /\
    (p_name p = "limit" -> num_leb n (num_of_Z 100) = true).
Proof.
  intros Hd Hp Hc. unfold validate. destruct (errors d (instantiate d fields)) eqn:E; [|discriminate]. intros [= <-].
  destruct (proj2 (errors_nil _ _ E) p Hp) as [[_ Hn]|[Hch _]]; [now left|right].
  destruct (converted_checks d p Hd Hp Hc) as (_ & Hint & Hmin & Hmax). rewrite List.Forall_forall in Hch.
  destruct (law_int _ (Hch _ Hint)) as (n & En & Hz). destruct (law_min _ _ (Hch _ Hmin)) as (n' & En' & H1).
  rewrite En in En'. injection En' as <-. destruct (integer_of n) as [z|] eqn:Ez; [|congruence].
  exists n, z. split; [assumption|]. split; [assumption|]. split; [assumption|]. intros Hl.
  destruct Hmax as [Hpage|[_ Hmax]]; [congruence|]. destruct (law_max _ _ (Hch _ Hmax)) as (n' & En' & H2). rewrite En in En'. now injection En' as <-.
Qed.
End Validated.

(** ** At work *)

Definition json_string (f : string -> bool) (v : json) : bool := match v with JStr s => f s | _ => false end.
Definition json_number (f : num -> bool) (v : json) : bool := match v with JNum n => f n | _ => false end.
(** An instance, with simple tests of addresses and dates. *)
Definition documented : ClassValidator := {|
  satisfies c v := match c with
    | IsString => json_string (fun _ => true) v
    | IsInt => json_number (fun n => match integer_of n with Some _ => true | None => false end) v
    | IsNumber => json_number is_finite v
    | IsBoolean => match v with JBool _ => true | _ => false end
    | IsObject => match v with JObj _ => true | _ => false end
    | IsArray => match v with JArr _ => true | _ => false end
    | IsNotEmpty => negb (nullish v) && negb (match v with JStr s => String.eqb s "" | _ => false end)
    | IsEmail => json_string (includes "@") v
    | IsUUID => json_string (fun s => String.length s =? 36)%nat v
    | IsUrl => json_string (includes "://") v
    | IsDateString | IsISO8601 => json_string (fun s => match parse_iso s with Some _ => true | None => false end) v
    | Min a => json_number (fun n => num_leb a n) v
    | Max a => json_number (fun n => num_leb n a) v
    | MinLength n => json_string (fun s => n <=? String.length s)%nat v
    | MaxLength n => json_string (fun s => String.length s <=? n)%nat v
    | Length a b => json_string (fun s => (a <=? String.length s) && (String.length s <=? b))%nat v
    | IsIn l | IsEnum l => json_string (fun s => existsb (String.eqb s) l) v
    | Matches _ => json_string (fun s => String.eqb s (toUpperCase s)) v
    | IsNotZero | Each _ => true
    end;
  validation_message es := join ", " es;
  other_body v := inr v;
  is_uuid s := (String.length s =? 36)%nat
|}.
#[local] Existing Instance documented.

Lemma documented_laws : ClassValidatorLaws.
Proof.
  split.
  - intros c v Hc. destruct c; trivial; destruct v; try discriminate Hc; now eexists.
  - intros lo hi v Hc. destruct v; try discriminate Hc. apply andb_true_iff in Hc as [Ha Hb].
    apply Nat.leb_le in Ha, Hb. eexists. split; [reflexivity|]. lia.
  - intros v Hc. destruct v as [| | |n| | |]; try discriminate Hc. exists n. split; [reflexivity|].
    cbn in Hc. intros E. now rewrite E in Hc.
  - intros v Hc. destruct v; try discriminate Hc. now eexists.
  - intros v Hc. destruct v; try discriminate Hc. now eexists.
  - intros v Hc. destruct v; try discriminate Hc. now eexists.
  - intros v Hc. destruct v; try discriminate Hc. now eexists.
  - intros l v [Hc|Hc]; (destruct v; try discriminate Hc); apply existsb_exists in Hc as (x & Hx & E);
      apply String.eqb_eq in E as ->; now eexists.
  - intros n v Hc. destruct v; try discriminate Hc. now eexists.
  - intros n v Hc. destruct v; try discriminate Hc. now eexists.
Qed.

Definition fifty_less : list (string * json) :=
  [("accountId", JStr "0b5e8c1a-3d0f-4f5e-9c55-1a7c1e0f0001"); ("currency", JStr "USD"); ("delta", JNum (num_of_Z (-50)))].
Lemma validated_bodies_are_typed_witness :
  validate AdjustBalanceDto fifty_less = inr fifty_less /\ declared_in AdjustBalanceDto "delta" = true.
Proof.
  assert (E : validate AdjustBalanceDto fifty_less = inr fifty_less) by (vm_compute; reflexivity).
  split; [exact E|].
  exact (proj1 (validated_bodies_are_typed (H := documented_laws) _ _ _ E) "delta" (or_intror (or_intror (or_introl eq_refl)))).
Defined.

Lemma pages_are_bounded_witness :
  exists o, validate ListFeeReportsDto [("limit", JStr "50")] = inr o /\ num_leb (num_of_Z 50) (num_of_Z 100) = true.
Proof.
  eexists. split; [vm_compute; reflexivity|].
  destruct (pages_are_bounded (H := documented_laws) ListFeeReportsDto
    (mkProperty "limit" TNumber true true (Some (JNum (num_of_Z 20))) ToNumber false [IsInt; Min (num_of_Z 1); Max (num_of_Z 100)])
    [("limit", JStr "50")] [("page", JNum (num_of_Z 1)); ("limit", JNum (num_of_Z 50))]) as [Hn|(n & z & En & _ & _ & Hl)].
  - apply (nth_error_In _ 39). reflexivity.
  - right. right. now left.
  - reflexivity.
  - vm_compute. reflexivity.
  - discriminate Hn.
  - vm_compute in En. injection En as <-. now apply Hl.
Defined.

(** Properties that are not declared are refused, and zero. *)
Example undeclared_is_refused :
  validate AdjustBalanceDto (fifty_less ++ [("role", JStr "admin")]) = inl ["role"] /\
  validate AdjustBalanceDto (obj_set "delta" (JNum (num_of_Z 0)) fifty_less) = inl ["delta"].
Proof. split; now vm_compute. Qed.

(** A query's values are texts, and the fee audit does not convert them: every
    page that is asked for is refused. *)
Example fee_audit_has_one_page : validate ListFeeAuditDto [("page", JStr "2")] = inl ["page"].
Proof. now vm_compute. Qed.

(** A class without decorators refuses every property: no wallet is funded. *)
Example no_address_is_funded : validate FundWalletDto [("address", JStr "GADA")] = inl ["address"].
Proof. now vm_compute. Qed.

(** Null and a list among the payments pass. *)
Example null_is_a_bulk_payment :
  let item := JObj [("recipientAddress", JStr "GBOB"); ("amount", JNum (num_of_Z 5))] in
  let body := [("items", JArr [JNull; JArr [item]]); ("currency", JStr "USD")] in
  validate CreateBulkPaymentDto body = inr body /\
  validate CreateBulkPaymentDto [("items", JArr [JArr [JStr "GBOB"]]); ("currency", JStr "USD")] = inl ["items"].
Proof. split; now vm_compute. Qed.

(** Negative payments are numbers. *)
Example negative_bulk_payment_is_valid :
  let body := [("items", JArr [JObj [("recipientAddress", JStr "GBOB"); ("amount", JNum (num_of_Z (-5)))]]); ("currency", JStr "USD")] in
  validate CreateBulkPaymentDto body = inr body.
Proof. now vm_compute. Qed.
