(* ===== verification/Routes.v ===== *)
(** The HTTP surface: the routes of the controllers with their guards, the
    parameters their handlers are given and the service calls they make, or their
    statements where they are more than one call; which
    route a request is dispatched to, the guards it must pass, and the call that
    is made of it.  The global prefix is main.ts's, the global guards and the
    modules are app.module.ts's. *)
From S2P Require Import Prelude JsNumber Effects RepositoryLaws JsData Json ThirdParty Guards Network Dto.
Local Open Scope Z_scope.

Inductive verb : Type := Get | Post | Put | Patch | Delete.
Definition verb_eqb (a b : verb) : bool :=
  match a, b with Get, Get | Post, Post | Put, Put | Patch, Patch | Delete, Delete => true | _, _ => false end.

(** The guards of the repository, and those it imports from packages or from
    files it does not have. *)
Inductive guard : Type :=
  | JwtAuthGuard
  | AdminRoleGuard
  | IpAllowlistGuard
  | External (file : string).

(** Where the value of a parameter of a handler comes from, and the type that
    decides what the pipes make of it. *)
Inductive source : Type := Body | Query | Param | Request | Response | Ip | Headers | CurrentUser | File.
Record param : Type := mkParam {
  param_source : source;
  param_key : option string;
  param_id : string;
  param_ty : param_type
}.

(** The expressions handlers hand to services; [Computed] is anything else. *)
Inductive expr : Type :=
  | Var (x : string)
  | Dot (e : expr) (field : string)
  | OptDot (e : expr) (field : string)
  | Coalesce (a b : expr)
  | Or (a b : expr)
  | Lit (s : string)
  | Bool (b : bool)
  | Undefined
  | Null
  | Num (z : Z)
  | Not (e : expr)
  | And (a b : expr)
  | Differs (e : expr) (s : string)
  | Cond (c a b : expr)
  | ParseInt (e : expr)
  | ParseFloat (e : expr)
  | Template (l : list expr)
  | Array (l : list expr)
  | Object (fields : list field_expr)
  | Computed (text : string)
with field_expr : Type :=
  | Prop_ (name : string) (e : expr)
  | Spread (e : expr).

(** The statements of a handler: a constant, an awaited call with the constant its
    result is bound to, a test that throws, and the answer. *)
Inductive statement : Type :=
  | Let (x : string) (e : expr)
  | Call (x : option string) (service method : string) (args : list expr)
  | ThrowIf (e : expr) (x : exn)
  | Return (e : expr).

(** What a handler does: the constants it binds and the call whose result it
    returns; statements; or a body that is not of these forms. *)
Inductive action : Type :=
  | Delegates (consts : list (string * expr)) (service method : string) (args : list expr)
  | Follows (body : list statement)
  | Handles.

Record route : Type := mkRoute {
  r_verb : verb;
  r_path : string;
  r_handler : string;
  r_public : bool;
  r_status : Z;
  r_guards : list guard;
  r_params : list param;
  r_action : action
}.
Record controller : Type := mkController {
  c_name : string;
  c_base : string;
  c_guards : list guard;
  c_routes : list route
}.

(** ** The controllers *)

(** activity-feed/activity-feed.controller.ts *)
Module ActivityFeedController.
Definition findAll : route := mkRoute Get "" "findAll" false 200
  []
  [mkParam Request None "req" NotPiped; mkParam Query (Some "type") "type" PString; mkParam Query (Some "startDate") "startDate" PString; mkParam Query (Some "endDate") "endDate" PString; mkParam Query (Some "page") "page" PString; mkParam Query (Some "limit") "limit" PString]
  (Delegates [("userId", Coalesce (OptDot (Dot (Var "req") "user") "sub") (Lit "")); ("filters", Object [Prop_ "type" (Var "type"); Prop_ "startDate" (Var "startDate"); Prop_ "endDate" (Var "endDate"); Prop_ "page" (Cond (Var "page") (ParseInt (Var "page")) (Undefined)); Prop_ "limit" (Cond (Var "limit") (ParseInt (Var "limit")) (Undefined))])] "activityFeedService" "findAll"
    [Var "userId"; Var "filters"]).
Definition markAsRead : route := mkRoute Patch ":id/read" "markAsRead" false 200
  []
  [mkParam Request None "req" NotPiped; mkParam Param (Some "id") "id" PString]
  (Delegates [("userId", Coalesce (OptDot (Dot (Var "req") "user") "sub") (Lit ""))] "activityFeedService" "markAsRead"
    [Var "userId"; Var "id"]).
Definition markAllAsRead : route := mkRoute Patch "read-all" "markAllAsRead" false 200
  []
  [mkParam Request None "req" NotPiped]
  (Follows
    [Let "userId" (Coalesce (OptDot (Dot (Var "req") "user") "sub") (Lit ""));
     Call None "activityFeedService" "markAllAsRead" [Var "userId"];
     Return (Object [Prop_ "message" (Lit "All activities marked as read")])]).
Definition controller : controller := mkController "ActivityFeedController" "api/v1/activity-feed" []
  [findAll; markAsRead; markAllAsRead].
End ActivityFeedController.

(** admin/admin.controller.ts *)
Module AdminController.
Definition getStats : route := mkRoute Get "stats" "getStats" false 200
  [JwtAuthGuard; AdminRoleGuard; IpAllowlistGuard]
  []
  (Delegates [] "adminService" "getStats"
    []).
Definition generateCbnComplianceReport : route := mkRoute Get "reports/cbn-compliance" "generateCbnComplianceReport" false 200
  [JwtAuthGuard; AdminRoleGuard; IpAllowlistGuard]
  [mkParam Query (Some "period") "period" PString]
  (Delegates [] "adminService" "generateCbnComplianceReport"
    [Var "period"]).
Definition searchPlatform : route := mkRoute Get "search" "searchPlatform" false 200
  [JwtAuthGuard; AdminRoleGuard; IpAllowlistGuard]
  [mkParam Query (Some "q") "query" PString]
  (Delegates [] "adminService" "searchPlatform"
    [Coalesce (Var "query") (Lit "")]).
Definition findAllTransactions : route := mkRoute Get "transactions" "findAllTransactions" false 200
  [JwtAuthGuard; AdminRoleGuard; IpAllowlistGuard]
  [mkParam Query None "query" (Dto "admin/dto/admin-transactions-query.dto" "AdminTransactionsQueryDto")]
  (Delegates [] "adminService" "findAllTransactions"
    [Object [Prop_ "userId" (Dot (Var "query") "userId"); Prop_ "status" (Dot (Var "query") "status"); Prop_ "currency" (Dot (Var "query") "currency"); Prop_ "startDate" (Dot (Var "query") "startDate"); Prop_ "endDate" (Dot (Var "query") "endDate"); Prop_ "page" (Dot (Var "query") "page"); Prop_ "limit" (Dot (Var "query") "limit")]]).
Definition overrideTransactionStatus : route := mkRoute Patch "transactions/:id/status" "overrideTransactionStatus" false 200
  [JwtAuthGuard; AdminRoleGuard; IpAllowlistGuard]
  [mkParam Param (Some "id") "id" PString; mkParam Body None "dto" (Dto "admin/dto/update-transaction-status.dto" "UpdateTransactionStatusDto"); mkParam Request None "req" NotPiped]
  (Delegates [] "adminService" "overrideTransactionStatus"
    [Var "id"; Dot (Var "dto") "status"; Dot (Dot (Var "req") "user") "id"; Dot (Var "dto") "reason"]).
Definition updateUserStatus : route := mkRoute Patch "users/:id/status" "updateUserStatus" false 200
  [JwtAuthGuard; AdminRoleGuard; IpAllowlistGuard]
  [mkParam Param (Some "id") "id" PString; mkParam Body None "dto" (Dto "admin/dto/update-user-status.dto" "UpdateUserStatusDto"); mkParam Request None "req" NotPiped]
  (Delegates [] "adminService" "updateUserStatus"
    [Var "id"; Dot (Var "dto") "isActive"; Dot (Dot (Var "req") "user") "id"; Dot (Var "dto") "reason"]).
Definition updateUserRole : route := mkRoute Patch "users/:id/role" "updateUserRole" false 200
  [JwtAuthGuard; AdminRoleGuard; IpAllowlistGuard]
  [mkParam Param (Some "id") "id" PString; mkParam Body None "dto" (Dto "admin/dto/update-user-role.dto" "UpdateUserRoleDto"); mkParam Request None "req" NotPiped]
  (Delegates [] "adminService" "updateUserRole"
    [Var "id"; Dot (Var "dto") "role"; Dot (Dot (Var "req") "user") "id"; Dot (Var "dto") "reason"]).
Definition impersonateUser : route := mkRoute Post "users/:id/impersonate" "impersonateUser" false 201
  [JwtAuthGuard; AdminRoleGuard; IpAllowlistGuard]
  [mkParam Param (Some "id") "id" PString; mkParam Request None "req" NotPiped]
  (Delegates [] "adminService" "impersonateUser"
    [Var "id"; Dot (Dot (Var "req") "user") "id"]).
Definition serveKycFile : route := mkRoute Get "kyc/:userId/:version/:filename" "serveKycFile" false 200
  [JwtAuthGuard; AdminRoleGuard; IpAllowlistGuard]
  [mkParam Param (Some "userId") "userId" PString; mkParam Param (Some "version") "version" PString; mkParam Param (Some "filename") "filename" PString; mkParam Response None "res" NotPiped]
  Handles.
Definition getSpreads : route := mkRoute Get "spreads" "getSpreads" false 200
  [JwtAuthGuard; AdminRoleGuard; IpAllowlistGuard]
  []
  (Delegates [] "adminService" "getSpreads"
    []).
Definition updateSpread : route := mkRoute Patch "spreads" "updateSpread" false 200
  [JwtAuthGuard; AdminRoleGuard; IpAllowlistGuard]
  [mkParam Body (Some "pair") "pair" PString; mkParam Body (Some "spreadPercentage") "spreadPercentage" PNumber; mkParam Request None "req" NotPiped]
  (Delegates [] "adminService" "updateSpread"
    [Var "pair"; Var "spreadPercentage"; Dot (Dot (Var "req") "user") "id"]).
Definition requestApproval : route := mkRoute Post "approvals/request" "requestApproval" false 201
  [JwtAuthGuard; AdminRoleGuard; IpAllowlistGuard]
  [mkParam Body None "dto" (NotAClass "inline"); mkParam Request None "req" NotPiped]
  (Delegates [] "adminService" "requestAdminApproval"
    [Dot (Var "dto") "actionType"; Dot (Var "dto") "actionData"; Dot (Dot (Var "req") "user") "id"]).
Definition approveRequest : route := mkRoute Post "approvals/:id/approve" "approveRequest" false 201
  [JwtAuthGuard; AdminRoleGuard; IpAllowlistGuard]
  [mkParam Param (Some "id") "id" PString; mkParam Request None "req" NotPiped]
  (Delegates [] "adminService" "approveAdminRequest"
    [Var "id"; Dot (Dot (Var "req") "user") "id"]).
Definition controller : controller := mkController "AdminController" "api/v1/admin" []
  [getStats; generateCbnComplianceReport; searchPlatform; findAllTransactions; overrideTransactionStatus; updateUserStatus; updateUserRole; impersonateUser; serveKycFile; getSpreads; updateSpread; requestApproval; approveRequest].
End AdminController.

(** admin/exports/admin-exports.controller.ts *)
Module AdminExportsController.
Definition createExport : route := mkRoute Post "transactions" "createExport" false 201
  []
  [mkParam Body None "dto" (Dto "admin/dto/export-transactions.dto" "ExportTransactionsDto"); mkParam Request None "req" NotPiped]
  Handles.
Definition getStatus : route := mkRoute Get ":jobId" "getStatus" false 200
  []
  [mkParam Param (Some "jobId") "jobId" PString]
  Handles.
Definition download : route := mkRoute Get ":jobId/download" "download" false 200
  []
  [mkParam Param (Some "jobId") "jobId" PString; mkParam Query (Some "token") "token" PString; mkParam Response None "res" NotPiped]
  Handles.
Definition controller : controller := mkController "AdminExportsController" "api/v1/admin/exports" [JwtAuthGuard; AdminRoleGuard; IpAllowlistGuard]
  [createExport; getStatus; download].
End AdminExportsController.

(** aml/aml.controller.ts *)
Module AmlController.
Definition screenUser : route := mkRoute Post "aml/screen/user" "screenUser" false 201
  [JwtAuthGuard]
  [mkParam Body None "input" (NotAClass "ScreenUserInput")]
  (Delegates [] "screeningService" "screenUser"
    [Var "input"]).
Definition screenTransaction : route := mkRoute Post "aml/screen/transaction" "screenTransaction" false 201
  [JwtAuthGuard]
  [mkParam Body None "input" (NotAClass "ScreenTransactionInput")]
  (Delegates [] "screeningService" "screenTransaction"
    [Var "input"]).
Definition findAll : route := mkRoute Get "admin/aml" "findAll" false 200
  [JwtAuthGuard; AdminRoleGuard]
  [mkParam Query (Some "userId") "userId" PString; mkParam Query (Some "riskLevel") "riskLevel" PString; mkParam Query (Some "page") "page" PString; mkParam Query (Some "limit") "limit" PString]
  (Delegates [("filters", Object [Prop_ "userId" (Var "userId"); Prop_ "riskLevel" (Var "riskLevel"); Prop_ "page" (Cond (Var "page") (ParseInt (Var "page")) (Undefined)); Prop_ "limit" (Cond (Var "limit") (ParseInt (Var "limit")) (Undefined))])] "screeningService" "findAll"
    [Var "filters"]).
Definition findById : route := mkRoute Get "admin/aml/:id" "findById" false 200
  [JwtAuthGuard; AdminRoleGuard]
  [mkParam Param (Some "id") "id" PString]
  (Delegates [] "screeningService" "findById"
    [Var "id"]).
Definition review : route := mkRoute Patch "admin/aml/:id/review" "review" false 200
  [JwtAuthGuard; AdminRoleGuard]
  [mkParam Param (Some "id") "id" PString; mkParam Body None "body" (NotAClass "inline"); mkParam Request None "req" NotPiped]
  (Delegates [("reviewedBy", Coalesce (OptDot (Dot (Var "req") "user") "sub") (Lit ""))] "screeningService" "review"
    [Var "id"; Var "reviewedBy"; Dot (Var "body") "notes"]).
Definition controller : controller := mkController "AmlController" "api/v1" []
  [screenUser; screenTransaction; findAll; findById; review].
End AmlController.

(** app.controller.ts *)
Module AppController.
Definition getHello : route := mkRoute Get "" "getHello" true 200
  []
  []
  (Delegates [] "appService" "getHello"
    []).
Definition createCat : route := mkRoute Post "cats" "createCat" false 201
  []
  [mkParam Body None "createCatDto" (Dto "dtos/create-cat.dto" "CreateCatDto")]
  (Follows
    [Return (Lit "This action adds a new cat")]).
Definition controller : controller := mkController "AppController" "" []
  [getHello; createCat].
End AppController.

(** auth/auth.controller.ts *)
Module AuthController.
Definition register : route := mkRoute Post "register" "register" true 201
  []
  [mkParam Body None "dto" (Dto "auth/dto/register.dto" "RegisterDto"); mkParam Ip None "ip" NotPiped; mkParam Headers (Some "user-agent") "userAgent" NotPiped]
  (Delegates [] "authService" "register"
    [Var "dto"; Object [Prop_ "ip" (Var "ip"); Prop_ "userAgent" (Var "userAgent")]]).
Definition login : route := mkRoute Post "login" "login" true 200
  []
  [mkParam Body None "dto" (Dto "auth/dto/login.dto" "LoginDto"); mkParam Ip None "ip" NotPiped; mkParam Headers (Some "user-agent") "userAgent" NotPiped]
  (Delegates [] "authService" "login"
    [Var "dto"; Object [Prop_ "ip" (Var "ip"); Prop_ "userAgent" (Var "userAgent")]]).
Definition refresh : route := mkRoute Post "refresh" "refresh" true 200
  []
  [mkParam Body (Some "refreshToken") "refreshToken" PString]
  (Delegates [] "authService" "rotateRefreshToken"
    [Var "refreshToken"]).
Definition controller : controller := mkController "AuthController" "auth" []
  [register; login; refresh].
End AuthController.

(** bulk-payments/bulk-payments.controller.ts *)
Module BulkPaymentsController.
Definition create : route := mkRoute Post "" "create" false 201
  []
  [mkParam Request None "req" NotPiped; mkParam Body None "dto" (Dto "bulk-payments/dto/create-bulk-payment.dto" "CreateBulkPaymentDto")]
  (Delegates [("userId", OptDot (Dot (Var "req") "user") "id")] "bulkPaymentsService" "create"
    [Var "userId"; Var "dto"]).
Definition findAll : route := mkRoute Get "" "findAll" false 200
  []
  [mkParam Request None "req" NotPiped; mkParam Query (Some "page") "page" PNumber; mkParam Query (Some "limit") "limit" PNumber]
  (Delegates [("userId", OptDot (Dot (Var "req") "user") "id")] "bulkPaymentsService" "findAllByUser"
    [Var "userId"; Var "page"; Var "limit"]).
Definition findOne : route := mkRoute Get ":id" "findOne" false 200
  []
  [mkParam Param (Some "id") "id" PString; mkParam Request None "req" NotPiped]
  (Delegates [("userId", OptDot (Dot (Var "req") "user") "id")] "bulkPaymentsService" "findOne"
    [Var "id"; Var "userId"]).
Definition controller : controller := mkController "BulkPaymentsController" "api/v1/bulk-payments" [External "modules/auth/guards/jwt.guard"]
  [create; findAll; findOne].
End BulkPaymentsController.

(** currencies/currencies.controller.ts *)
Module CurrenciesController.
Definition getSupportedCurrencies : route := mkRoute Get "" "getSupportedCurrencies" false 200
  []
  []
  (Delegates [] "currenciesService" "listSupportedCurrencies"
    []).
Definition convertAssetIssuer : route := mkRoute Post "convert-issuer" "convertAssetIssuer" false 201
  []
  [mkParam Body None "body" (NotAClass "inline")]
  (Delegates [] "currenciesService" "convertAssetIssuer"
    [Dot (Var "body") "code"; Dot (Var "body") "fromIssuer"; Dot (Var "body") "toIssuer"; Dot (Var "body") "amount"]).
Definition controller : controller := mkController "CurrenciesController" "currencies" []
  [getSupportedCurrencies; convertAssetIssuer].
End CurrenciesController.

(** disputes/disputes.controller.ts *)
Module DisputesController.
Definition fileDispute : route := mkRoute Post "disputes" "fileDispute" false 201
  []
  [mkParam Request None "req" NotPiped; mkParam Body None "dto" (Dto "disputes/dto/dispute.dto" "FileDisputeDto")]
  (Delegates [("userId", OptDot (Dot (Var "req") "user") "id")] "disputesService" "fileDispute"
    [Var "userId"; Var "dto"]).
Definition findAll : route := mkRoute Get "disputes" "findAll" false 200
  []
  [mkParam Request None "req" NotPiped; mkParam Query (Some "page") "page" PNumber; mkParam Query (Some "limit") "limit" PNumber]
  (Delegates [("userId", OptDot (Dot (Var "req") "user") "id")] "disputesService" "findAllByUser"
    [Var "userId"; Var "page"; Var "limit"]).
Definition findOne : route := mkRoute Get "disputes/:id" "findOne" false 200
  []
  [mkParam Param (Some "id") "id" PString; mkParam Request None "req" NotPiped]
  (Delegates [("userId", OptDot (Dot (Var "req") "user") "id")] "disputesService" "findOne"
    [Var "id"; Var "userId"]).
Definition escalate : route := mkRoute Post "disputes/:id/escalate" "escalate" false 201
  []
  [mkParam Param (Some "id") "id" PString; mkParam Request None "req" NotPiped; mkParam Body None "dto" (Dto "disputes/dto/dispute.dto" "EscalateDisputeDto")]
  (Delegates [("userId", OptDot (Dot (Var "req") "user") "id")] "disputesService" "escalate"
    [Var "id"; Var "userId"; Var "dto"]).
Definition addMessage : route := mkRoute Post "disputes/:id/messages" "addMessage" false 201
  []
  [mkParam Param (Some "id") "id" PString; mkParam Request None "req" NotPiped; mkParam Body None "dto" (Dto "disputes/dto/dispute.dto" "DisputeMessageDto")]
  (Delegates [("userId", OptDot (Dot (Var "req") "user") "id")] "disputesService" "addMessage"
    [Var "id"; Var "userId"; Lit "user"; Var "dto"]).
Definition resolve : route := mkRoute Post "disputes/:id/resolve" "resolve" false 201
  []
  [mkParam Param (Some "id") "id" PString; mkParam Request None "req" NotPiped]
  (Delegates [("userId", OptDot (Dot (Var "req") "user") "id")] "disputesService" "resolve"
    [Var "id"; Var "userId"]).
Definition reject : route := mkRoute Post "disputes/:id/reject" "reject" false 201
  []
  [mkParam Param (Some "id") "id" PString; mkParam Request None "req" NotPiped]
  (Delegates [("userId", OptDot (Dot (Var "req") "user") "id")] "disputesService" "reject"
    [Var "id"; Var "userId"]).
Definition resolveDispute : route := mkRoute Patch "admin/disputes/:id" "resolveDispute" false 200
  [AdminRoleGuard]
  [mkParam Param (Some "id") "id" PString; mkParam Body None "body" (Dto "disputes/disputes.controller" "ResolveDisputeBody")]
  (Delegates [] "disputesService" "resolveDispute"
    [Var "id"; Var "body"]).
Definition controller : controller := mkController "DisputesController" "api/v1" [External "modules/auth/guards/jwt.guard"]
  [fileDispute; findAll; findOne; escalate; addMessage; resolve; reject; resolveDispute].
End DisputesController.

(** documents/documents.controller.ts *)
Module DocumentsController.
Definition downloadStatement : route := mkRoute Get "statements/:userId" "downloadStatement" false 200
  []
  [mkParam Param (Some "userId") "userId" PString; mkParam Query None "query" (Dto "documents/dto/statement-query.dto" "StatementQueryDto"); mkParam Response None "res" NotPiped]
  Handles.
Definition downloadReceipt : route := mkRoute Get "transactions/:id/receipt" "downloadReceipt" false 200
  []
  [mkParam Param (Some "id") "id" PString; mkParam Response None "res" NotPiped]
  Handles.
Definition controller : controller := mkController "DocumentsController" "" []
  [downloadStatement; downloadReceipt].
End DocumentsController.

(** exchange-rates/exchange-rates.controller.ts *)
Module ExchangeRatesController.
Definition getRates : route := mkRoute Get "" "getRates" false 200
  []
  []
  (Follows
    [Call (Some "rates") "exchangeRatesService" "getRates" [];
     Return (Object [Prop_ "success" (Bool true); Prop_ "data" (Var "rates")])]).
Definition getPublicRates : route := mkRoute Get "public" "getPublicRates" false 200
  []
  []
  (Follows
    [Call (Some "rates") "exchangeRatesService" "getRates" [];
     Return (Object [Prop_ "success" (Bool true); Prop_ "data" (Var "rates")])]).
Definition getRateByPair : route := mkRoute Get ":pair" "getRateByPair" false 200
  []
  [mkParam Param (Some "pair") "pair" PString]
  (Follows
    [Call (Some "rate") "exchangeRatesService" "getRateByPair" [Var "pair"];
     Return (Object [Prop_ "success" (Bool true); Prop_ "data" (Var "rate")])]).
Definition calculate : route := mkRoute Get "calculate" "calculate" false 200
  []
  [mkParam Query (Some "from") "from" PString; mkParam Query (Some "to") "to" PString; mkParam Query (Some "amount") "amount" PString]
  (Follows
    [Call (Some "result") "exchangeRatesService" "calculateConversion" [Or (Var "from") (Lit "USD"); Or (Var "to") (Lit "NGN"); ParseFloat (Or (Var "amount") (Lit "1"))];
     Return (Object [Prop_ "success" (Bool true); Prop_ "data" (Var "result")])]).
Definition getHistory : route := mkRoute Get "history" "getHistory" false 200
  []
  [mkParam Query None "query" (Dto "exchange-rates/dto/query-exchange-rate-history.dto" "QueryExchangeRateHistoryDto")]
  (Delegates [] "exchangeRatesService" "getHistory"
    [Var "query"]).
Definition controller : controller := mkController "ExchangeRatesController" "api/v1/exchange-rates" []
  [getRates; getPublicRates; getRateByPair; calculate; getHistory].
End ExchangeRatesController.

(** fee-tiers/fee-tiers.controller.ts *)
Module FeeTiersController.
Definition findAll : route := mkRoute Get "" "findAll" false 200
  []
  []
  (Delegates [] "feeTiersService" "findAll"
    []).
Definition findOne : route := mkRoute Get ":id" "findOne" false 200
  []
  [mkParam Param (Some "id") "id" PUuid]
  (Delegates [] "feeTiersService" "findOne"
    [Var "id"]).
Definition controller : controller := mkController "FeeTiersController" "fee-tiers" [External "modules/auth/guards/jwt.guard"]
  [findAll; findOne].
End FeeTiersController.

(** fees/fees.controller.ts *)
Module FeesController.
Definition previewFee : route := mkRoute Get "preview" "previewFee" false 200
  []
  [mkParam Query (Some "type") "type" PString; mkParam Query (Some "amount") "amount" PString; mkParam Query (Some "currency") "currency" PString]
  (Delegates [] "feesService" "previewFee"
    [Or (Var "type") (Lit "deposit"); ParseFloat (Or (Var "amount") (Lit "0")); Var "currency"]).
Definition controller : controller := mkController "FeesController" "api/v1/fees" []
  [previewFee].
End FeesController.

(** fx/fx.controller.ts *)
Module FxController.
Definition getRates : route := mkRoute Get "rates" "getRates" false 200
  []
  [mkParam Query (Some "base") "base" PString; mkParam Query (Some "target") "target" PString]
  (Delegates [] "fxService" "getRates"
    [Var "base"; Var "target"]).
Definition executeTrade : route := mkRoute Post "trades" "executeTrade" false 201
  []
  [mkParam Body None "dto" (NotAClass "ExecuteTradeDto")]
  (Delegates [] "fxService" "executeTrade"
    [Var "dto"]).
Definition reverseTrade : route := mkRoute Post "trades/:id/reverse" "reverseTrade" false 201
  []
  [mkParam Param (Some "id") "id" PString]
  (Delegates [] "fxService" "reverseTrade"
    [Var "id"]).
Definition getVolume : route := mkRoute Get "volume" "getVolume" false 200
  []
  [mkParam Query (Some "base") "base" PString; mkParam Query (Some "target") "target" PString]
  (Delegates [] "fxService" "getVolume"
    [Var "base"; Var "target"]).
Definition controller : controller := mkController "FxController" "api/v1/fx" []
  [getRates; executeTrade; reverseTrade; getVolume].
End FxController.

(** health/health.controller.ts *)
Module HealthController.
Definition check : route := mkRoute Get "" "check" false 200
  []
  []
  (Delegates [] "health" "check"
    []).
Definition controller : controller := mkController "HealthController" "health" []
  [check].
End HealthController.

(** kyc/kyc.controller.ts *)
Module KycController.
Definition submit : route := mkRoute Post "submit" "submit" false 201
  []
  [mkParam Body None "dto" (NotAClass "SubmitKycDto")]
  (Delegates [] "kycService" "submit"
    [Var "dto"]).
Definition appeal : route := mkRoute Post ":id/appeal" "appeal" false 201
  []
  [mkParam Param (Some "id") "id" PString; mkParam Body (Some "reason") "reason" PString]
  (Delegates [] "kycService" "appeal"
    [Var "id"; Var "reason"]).
Definition review : route := mkRoute Patch ":id/review" "review" false 200
  [JwtAuthGuard; AdminRoleGuard; IpAllowlistGuard]
  [mkParam Param (Some "id") "id" PString; mkParam Body None "dto" (NotAClass "ReviewKycDto")]
  (Delegates [] "kycService" "review"
    [Var "id"; Var "dto"]).
Definition checkExpiry : route := mkRoute Get ":userId/expiry-status" "checkExpiry" false 200
  []
  [mkParam Param (Some "userId") "userId" PString]
  (Delegates [] "kycService" "checkExpiry"
    [Var "userId"]).
Definition controller : controller := mkController "KycController" "api/v1/kyc" []
  [submit; appeal; review; checkExpiry].
End KycController.

(** metrics/metrics.controller.ts *)
Module MetricsController.
Definition getMetrics : route := mkRoute Get "" "getMetrics" true 200
  [IpAllowlistGuard]
  [mkParam Response None "res" NotPiped]
  Handles.
Definition controller : controller := mkController "MetricsController" "metrics" []
  [getMetrics].
End MetricsController.

(** modules/account-freeze/controllers/account-freeze.controller.ts *)
Module AccountFreezeController.
Definition freeze : route := mkRoute Post "" "freeze" false 201
  []
  [mkParam Body None "dto" (Dto "modules/account-freeze/dto/freeze-account.dto" "FreezeAccountDto"); mkParam Request None "req" NotPiped]
  (Follows
    [Let "adminId" (Or (Or (OptDot (Dot (Var "req") "user") "id") (OptDot (Dot (Var "req") "user") "sub")) (Lit "system"));
     Call (Some "freeze") "freezeService" "freezeAccount" [Dot (Var "dto") "userId"; Dot (Var "dto") "reason"; Var "adminId"; Dot (Var "dto") "notes"];
     Return (Object [Prop_ "success" (Bool true); Prop_ "data" (Var "freeze")])]).
Definition unfreeze : route := mkRoute Post ":userId/unfreeze" "unfreeze" false 201
  []
  [mkParam Param (Some "userId") "userId" PUuid; mkParam Body None "dto" (Dto "modules/account-freeze/dto/unfreeze-account.dto" "UnfreezeAccountDto"); mkParam Request None "req" NotPiped]
  (Follows
    [Let "adminId" (Or (Or (OptDot (Dot (Var "req") "user") "id") (OptDot (Dot (Var "req") "user") "sub")) (Lit "system"));
     Call (Some "freeze") "freezeService" "unfreezeAccount" [Var "userId"; Var "adminId"; Dot (Var "dto") "notes"];
     Return (Object [Prop_ "success" (Bool true); Prop_ "data" (Var "freeze")])]).
Definition history : route := mkRoute Get ":userId/history" "history" false 200
  []
  [mkParam Param (Some "userId") "userId" PUuid]
  (Follows
    [Call (Some "history") "freezeService" "getFreezeHistory" [Var "userId"];
     Return (Object [Prop_ "success" (Bool true); Prop_ "data" (Var "history")])]).
Definition controller : controller := mkController "AccountFreezeController" "api/v1/admin/account-freeze" [External "modules/auth/guards/jwt.guard"; External "modules/auth/guards/admin.guard"]
  [freeze; unfreeze; history].
End AccountFreezeController.

(** modules/admin/controllers/aml-alerts.controller.ts *)
Module AmlAlertsController.
Definition getAmlAlerts : route := mkRoute Get "" "getAmlAlerts" false 200
  []
  [mkParam Query (Some "page") "page" PString; mkParam Query (Some "limit") "limit" PString; mkParam Query (Some "status") "status" PString]
  (Follows
    [Let "page" (Coalesce (Var "page") (Lit "1"));
     Let "limit" (Coalesce (Var "limit") (Lit "20"));
     Return (Object [Prop_ "data" (Array []); Prop_ "total" (Num 0); Prop_ "page" (ParseInt (Var "page")); Prop_ "limit" (ParseInt (Var "limit"))])]).
Definition controller : controller := mkController "AmlAlertsController" "admin/aml-alerts" [External "modules/auth/guards/admin.guard"]
  [getAmlAlerts].
End AmlAlertsController.

(** modules/admin/controllers/system-admin.controller.ts *)
Module SystemAdminController.
Definition rotateEncryptionKey : route := mkRoute Post "system/rotate-encryption-key" "rotateEncryptionKey" false 200
  [External "modules/auth/jwt-auth.guard"; External "modules/common/guards/admin-role.guard"; External "modules/common/guards/ip-allowlist.guard"]
  []
  (Follows
    [Call (Some "result") "keyRotation" "rotate" [];
     Return (Object [Prop_ "message" (Lit "Key rotation complete"); Spread (Var "result")])]).
Definition fundWallet : route := mkRoute Post "dev/fund-wallet" "fundWallet" false 200
  [External "modules/auth/jwt-auth.guard"; External "modules/common/guards/admin-role.guard"]
  [mkParam Body None "dto" (Dto "modules/admin/controllers/system-admin.controller" "FundWalletDto")]
  Handles.
Definition controller : controller := mkController "SystemAdminController" "api/v1/admin" []
  [rotateEncryptionKey; fundWallet].
End SystemAdminController.

(** modules/api-keys/controllers/api-keys.controller.ts *)
Module ApiKeysController.
Definition create : route := mkRoute Post "" "create" false 201
  []
  [mkParam Body None "dto" (Dto "modules/api-keys/dto/create-api-key.dto" "CreateApiKeyDto"); mkParam Request None "req" NotPiped]
  (Follows
    [Let "userId" (Or (OptDot (Dot (Var "req") "user") "id") (OptDot (Dot (Var "req") "user") "sub"));
     Call (Some "result") "apiKeysService" "createApiKey" [Var "userId"; Object [Prop_ "name" (Dot (Var "dto") "name"); Prop_ "scopes" (Dot (Var "dto") "scopes"); Prop_ "rateLimit" (Dot (Var "dto") "rateLimit"); Prop_ "expiresAt" (Dot (Var "dto") "expiresAt")]];
     Let "apiKey" (Dot (Var "result") "apiKey");
     Let "plainKey" (Dot (Var "result") "plainKey");
     Return (Object [Prop_ "success" (Bool true); Prop_ "data" (Object [Spread (Var "apiKey"); Prop_ "key" (Var "plainKey")]); Prop_ "message" (Lit "Store this key securely. It will not be shown again.")])]).
Definition list_ : route := mkRoute Get "" "list" false 200
  []
  [mkParam Request None "req" NotPiped]
  (Follows
    [Let "userId" (Or (OptDot (Dot (Var "req") "user") "id") (OptDot (Dot (Var "req") "user") "sub"));
     Call (Some "keys") "apiKeysService" "getApiKeysByUser" [Var "userId"];
     Return (Object [Prop_ "success" (Bool true); Prop_ "data" (Var "keys")])]).
Definition revoke : route := mkRoute Patch ":id/revoke" "revoke" false 200
  []
  [mkParam Param (Some "id") "id" PUuid; mkParam Request None "req" NotPiped]
  (Follows
    [Let "userId" (Or (OptDot (Dot (Var "req") "user") "id") (OptDot (Dot (Var "req") "user") "sub"));
     Call (Some "key") "apiKeysService" "revokeApiKey" [Var "id"; Var "userId"];
     Return (Object [Prop_ "success" (Bool true); Prop_ "data" (Var "key")])]).
Definition controller : controller := mkController "ApiKeysController" "api/v1/api-keys" [External "modules/auth/guards/jwt.guard"]
  [create; list_; revoke].
End ApiKeysController.

(** modules/auth/auth.controller.ts *)
Module ModulesAuthController.
Definition signup : route := mkRoute Post "signup" "signup" false 201
  [External "idempotency/idempotency.guard"]
  [mkParam Body None "dto" (Dto "modules/auth/auth.controller" "SignupDto")]
  (Follows
    [Call (Some "existing") "authService" "findUserByEmail" [Dot (Var "dto") "email"];
     ThrowIf (And (Var "existing") (Not (Dot (Var "existing") "deletedAt"))) (ConflictException "User with this email already exists");
     Call (Some "user") "authService" "createUser" [Object [Prop_ "email" (Dot (Var "dto") "email"); Prop_ "passwordHash" (Dot (Var "dto") "passwordHash"); Prop_ "firstName" (Dot (Var "dto") "firstName"); Prop_ "lastName" (Dot (Var "dto") "lastName")]];
     Call None "authService" "linkReferralOnRegistration" [Dot (Var "user") "id"; Dot (Var "dto") "referralCode"];
     Call None "authService" "sendEmailVerification" [Dot (Var "user") "id"; Dot (Var "user") "email"];
     Let "isEmailVerified" (Not (Not (Dot (Var "user") "emailVerifiedAt")));
     Return (Object [Prop_ "message" (Lit "Account created successfully."); Prop_ "user" (Object [Prop_ "id" (Dot (Var "user") "id"); Prop_ "email" (Dot (Var "user") "email"); Prop_ "firstName" (Dot (Var "user") "firstName"); Prop_ "lastName" (Dot (Var "user") "lastName"); Prop_ "isEmailVerified" (Var "isEmailVerified")])])]).
Definition login : route := mkRoute Post "login" "login" false 201
  []
  [mkParam Body None "dto" (Dto "modules/auth/auth.controller" "LoginDto")]
  (Follows
    [Call (Some "result") "authService" "login" [Dot (Var "dto") "email"; Dot (Var "dto") "passwordHash"];
     Let "isEmailVerified" (Not (Not (Dot (Dot (Var "result") "user") "emailVerifiedAt")));
     Return (Object [Prop_ "accessToken" (Dot (Var "result") "accessToken"); Prop_ "user" (Object [Prop_ "id" (Dot (Dot (Var "result") "user") "id"); Prop_ "email" (Dot (Dot (Var "result") "user") "email"); Prop_ "firstName" (Dot (Dot (Var "result") "user") "firstName"); Prop_ "lastName" (Dot (Dot (Var "result") "user") "lastName"); Prop_ "isEmailVerified" (Var "isEmailVerified")]); Spread (Cond (Var "isEmailVerified") (Object []) (Object [Prop_ "requiresEmailVerification" (Bool true)]))])]).
Definition forgotPassword : route := mkRoute Post "forgot-password" "forgotPassword" false 201
  []
  [mkParam Body None "dto" (Dto "modules/auth/auth.controller" "ForgotPasswordDto")]
  (Follows
    [Call None "authService" "forgotPassword" [Dot (Var "dto") "email"];
     Return (Object [Prop_ "message" (Lit "If that email exists, a reset link has been sent.")])]).
Definition resetPassword : route := mkRoute Post "reset-password" "resetPassword" false 201
  []
  [mkParam Body None "dto" (Dto "modules/auth/auth.controller" "ResetPasswordDto")]
  (Follows
    [Call None "authService" "resetPassword" [Dot (Var "dto") "email"; Dot (Var "dto") "token"; Dot (Var "dto") "newPasswordHash"];
     Return (Object [Prop_ "message" (Lit "Password reset successfully.")])]).
Definition verifyEmail : route := mkRoute Post "verify-email" "verifyEmail" false 201
  []
  [mkParam Body None "dto" (Dto "modules/auth/auth.controller" "VerifyEmailDto")]
  (Follows
    [Call None "authService" "verifyEmail" [Dot (Var "dto") "userId"; Dot (Var "dto") "token"];
     Return (Object [Prop_ "message" (Lit "Email verified successfully.")])]).
Definition resendVerification : route := mkRoute Post "resend-verification" "resendVerification" false 201
  []
  [mkParam Body None "dto" (Dto "modules/auth/auth.controller" "ResendVerificationDto")]
  (Follows
    [Call None "authService" "resendVerification" [Dot (Var "dto") "email"];
     Return (Object [Prop_ "message" (Lit "If that email exists, a verification link has been sent.")])]).
Definition controller : controller := mkController "AuthController" "auth" []
  [signup; login; forgotPassword; resetPassword; verifyEmail; resendVerification].
End ModulesAuthController.

(** modules/auth/sessions/sessions.controller.ts *)
Module SessionsController.
Definition listSessions : route := mkRoute Get "" "listSessions" false 200
  []
  [mkParam Request None "req" NotPiped]
  (Follows
    [Return (Object [Prop_ "message" (Lit "Active sessions listing — integrate with SessionsService.findActive()"); Prop_ "userId" (Dot (Dot (Var "req") "user") "sub"); Prop_ "sessions" (Array [])])]).
Definition revokeSession : route := mkRoute Delete ":id" "revokeSession" false 204
  []
  [mkParam Param (Some "id") "id" PString; mkParam Request None "req" NotPiped]
  (Follows
    [Return (Object [Prop_ "message" (Template [Lit "Session "; Var "id"; Lit " revoked for user "; Dot (Dot (Var "req") "user") "sub"])])]).
Definition revokeAllSessions : route := mkRoute Delete "" "revokeAllSessions" false 204
  []
  [mkParam Request None "req" NotPiped]
  (Follows
    [Return (Object [Prop_ "message" (Template [Lit "All sessions revoked for user "; Dot (Dot (Var "req") "user") "sub"])])]).
Definition controller : controller := mkController "SessionsController" "api/v1/auth/sessions" [External "modules/auth/guards/jwt-auth.guard"]
  [listSessions; revokeSession; revokeAllSessions].
End SessionsController.

(** modules/endpoint-rate-limit/controllers/endpoint-rate-limit.controller.ts *)
Module EndpointRateLimitController.
Definition list_ : route := mkRoute Get "" "list" false 200
  []
  []
  (Delegates [] "service" "listConfigs"
    []).
Definition create : route := mkRoute Post "" "create" false 201
  []
  [mkParam Body None "dto" (Dto "modules/endpoint-rate-limit/dto/endpoint-rate-limit.dto" "CreateEndpointRateLimitDto")]
  (Delegates [] "service" "createConfig"
    [Var "dto"]).
Definition update : route := mkRoute Patch ":id" "update" false 200
  []
  [mkParam Param (Some "id") "id" PString; mkParam Body None "dto" (Dto "modules/endpoint-rate-limit/dto/endpoint-rate-limit.dto" "UpdateEndpointRateLimitDto")]
  (Delegates [] "service" "updateConfig"
    [Var "id"; Var "dto"]).
Definition getDefaults : route := mkRoute Get "defaults" "getDefaults" false 200
  []
  []
  (Delegates [] "service" "getDefaultConfigs"
    []).
Definition controller : controller := mkController "EndpointRateLimitController" "admin/rate-limits/endpoint" [External "modules/auth/guards/admin.guard"]
  [list_; create; update; getDefaults].
End EndpointRateLimitController.

(** modules/export/controllers/export.controller.ts *)
Module ExportController.
Definition exportTransactions : route := mkRoute Get "transactions" "exportTransactions" false 200
  []
  [mkParam Query None "dto" (Dto "modules/export/dto/export.dto" "ExportTransactionsDto"); mkParam Request None "req" NotPiped; mkParam Response None "res" NotPiped]
  Handles.
Definition exportBalances : route := mkRoute Get "balances" "exportBalances" false 200
  []
  [mkParam Query None "dto" (Dto "modules/export/dto/export.dto" "ExportBalancesDto"); mkParam Request None "req" NotPiped; mkParam Response None "res" NotPiped]
  Handles.
Definition controller : controller := mkController "ExportController" "api/v1/export" [External "modules/auth/guards/jwt.guard"]
  [exportTransactions; exportBalances].
End ExportController.

(** modules/fee-audit/controllers/fee-audit.controller.ts *)
Module FeeAuditController.
Definition list_ : route := mkRoute Get "" "list" false 200
  []
  [mkParam Query None "query" (Dto "modules/fee-audit/dto/fee-audit.dto" "ListFeeAuditDto")]
  (Delegates [] "service" "queryAuditTrail"
    [Object [Prop_ "userId" (Dot (Var "query") "userId"); Prop_ "transactionId" (Dot (Var "query") "transactionId"); Prop_ "feeType" (Dot (Var "query") "feeType"); Prop_ "page" (Dot (Var "query") "page"); Prop_ "limit" (Dot (Var "query") "limit")]]).
Definition controller : controller := mkController "FeeAuditController" "admin/fee-audit" [External "modules/auth/guards/jwt.guard"; External "modules/auth/guards/admin.guard"]
  [list_].
End FeeAuditController.

(** modules/fee-reports/controllers/fee-reports.controller.ts *)
Module FeeReportsController.
Definition findAll : route := mkRoute Get "" "findAll" false 200
  []
  [mkParam Request None "req" NotPiped; mkParam Query None "dto" (Dto "modules/fee-reports/dto/list-fee-reports.dto" "ListFeeReportsDto")]
  (Delegates [("userId", Coalesce (OptDot (Dot (Var "req") "user") "id") (OptDot (Dot (Var "req") "user") "sub"))] "feeReportsService" "findAll"
    [Var "userId"; Var "dto"]).
Definition generate : route := mkRoute Post "generate" "generate" false 201
  []
  [mkParam Request None "req" NotPiped; mkParam Body None "dto" (Dto "modules/fee-reports/dto/generate-fee-report.dto" "GenerateFeeReportDto")]
  (Delegates [("userId", Coalesce (OptDot (Dot (Var "req") "user") "id") (OptDot (Dot (Var "req") "user") "sub"))] "feeReportsService" "generate"
    [Var "userId"; Var "dto"]).
Definition controller : controller := mkController "FeeReportsController" "fee-reports" [External "modules/auth/guards/jwt.guard"]
  [findAll; generate].
End FeeReportsController.

(** modules/fx/fx-preview.controller.ts *)
Module FxPreviewController.
Definition getPreview : route := mkRoute Get "preview" "getPreview" false 200
  []
  [mkParam Query (Some "from") "from" PString; mkParam Query (Some "to") "to" PString; mkParam Query (Some "amount") "amount" PString]
  Handles.
Definition controller : controller := mkController "FxPreviewController" "api/v1/fx" [External "modules/auth/guards/jwt-auth.guard"]
  [getPreview].
End FxPreviewController.

(** modules/kyc-tiers/controllers/kyc-tiers-admin.controller.ts *)
Module KycTiersAdminController.
Definition list_ : route := mkRoute Get "" "list" false 200
  []
  [mkParam Query None "dto" (Dto "modules/kyc-tiers/dto/list-kyc-tier-upgrades.dto" "ListKycTierUpgradesDto")]
  (Delegates [] "kycTiersService" "listUpgrades"
    [Var "dto"]).
Definition approve : route := mkRoute Patch ":id/approve" "approve" false 200
  []
  [mkParam Param (Some "id") "id" PString; mkParam Query (Some "adminId") "adminId" PString]
  (Delegates [] "kycTiersService" "approve"
    [Var "id"; Var "adminId"]).
Definition reject : route := mkRoute Patch ":id/reject" "reject" false 200
  []
  [mkParam Param (Some "id") "id" PString; mkParam Query (Some "adminId") "adminId" PString; mkParam Body None "dto" (Dto "modules/kyc-tiers/dto/review-kyc-tier-upgrade.dto" "ReviewKycTierUpgradeDto")]
  (Delegates [] "kycTiersService" "reject"
    [Var "id"; Var "adminId"; Dot (Var "dto") "reason"]).
Definition controller : controller := mkController "KycTiersAdminController" "admin/kyc-tiers" [External "modules/auth/guards/jwt.guard"; External "modules/auth/guards/admin.guard"]
  [list_; approve; reject].
End KycTiersAdminController.

(** modules/kyc-tiers/controllers/kyc-tiers.controller.ts *)
Module KycTiersController.
Definition requestUpgrade : route := mkRoute Post "upgrade" "requestUpgrade" false 201
  []
  [mkParam Request None "req" NotPiped; mkParam Body None "dto" (Dto "modules/kyc-tiers/dto/request-kyc-tier-upgrade.dto" "RequestKycTierUpgradeDto")]
  (Delegates [("userId", Coalesce (OptDot (Dot (Var "req") "user") "id") (OptDot (Dot (Var "req") "user") "sub"))] "kycTiersService" "requestUpgrade"
    [Var "userId"; Var "dto"]).
Definition getStatus : route := mkRoute Get "upgrade/status" "getStatus" false 200
  []
  [mkParam Request None "req" NotPiped]
  (Delegates [("userId", Coalesce (OptDot (Dot (Var "req") "user") "id") (OptDot (Dot (Var "req") "user") "sub"))] "kycTiersService" "getStatus"
    [Var "userId"]).
Definition controller : controller := mkController "KycTiersController" "kyc-tiers" [External "modules/auth/guards/jwt.guard"]
  [requestUpgrade; getStatus].
End KycTiersController.

(** modules/rate-limit/controllers/rate-limit-usage.controller.ts *)
Module RateLimitUsageController.
Definition getUsage : route := mkRoute Get "" "getUsage" false 200
  []
  [mkParam Request None "req" NotPiped; mkParam Query (Some "endpoint") "endpoint" PString]
  Handles.
Definition controller : controller := mkController "RateLimitUsageController" "rate-limits" [External "modules/auth/guards/jwt.guard"]
  [getUsage].
End RateLimitUsageController.

(** modules/stellar-federation/controllers/federation.controller.ts *)
Module FederationController.
Definition resolve : route := mkRoute Get "resolve" "resolve" false 200
  []
  [mkParam Query (Some "q") "q" PString]
  (Follows
    [Call (Some "result") "federationService" "resolveAddress" [Var "q"];
     Return (Object [Prop_ "success" (Bool true); Prop_ "data" (Object [Prop_ "stellar_address" (Dot (Var "result") "stellarAddress"); Prop_ "memo" (Or (Dot (Var "result") "memo") (Lit "")); Prop_ "memo_type" (Or (Dot (Var "result") "memoType") (Lit "text"))])])]).
Definition create : route := mkRoute Post "" "create" false 201
  [External "modules/auth/guards/jwt.guard"]
  [mkParam Body None "dto" (Dto "modules/stellar-federation/dto/create-federation-address.dto" "CreateFederationAddressDto"); mkParam Request None "req" NotPiped]
  (Follows
    [Let "userId" (Or (OptDot (Dot (Var "req") "user") "id") (OptDot (Dot (Var "req") "user") "sub"));
     Call (Some "address") "federationService" "createAddress" [Var "userId"; Object [Prop_ "name" (Dot (Var "dto") "name"); Prop_ "domain" (Dot (Var "dto") "domain"); Prop_ "stellarAddress" (Dot (Var "dto") "stellarAddress"); Prop_ "memo" (Dot (Var "dto") "memo"); Prop_ "memoType" (Dot (Var "dto") "memoType")]];
     Return (Object [Prop_ "success" (Bool true); Prop_ "data" (Var "address")])]).
Definition list_ : route := mkRoute Get "" "list" false 200
  [External "modules/auth/guards/jwt.guard"]
  [mkParam Request None "req" NotPiped]
  (Follows
    [Let "userId" (Or (OptDot (Dot (Var "req") "user") "id") (OptDot (Dot (Var "req") "user") "sub"));
     Call (Some "addresses") "federationService" "getAddressesByUser" [Var "userId"];
     Return (Object [Prop_ "success" (Bool true); Prop_ "data" (Var "addresses")])]).
Definition delete : route := mkRoute Delete ":id" "delete" false 200
  [External "modules/auth/guards/jwt.guard"]
  [mkParam Param (Some "id") "id" PUuid; mkParam Request None "req" NotPiped]
  (Follows
    [Let "userId" (Or (OptDot (Dot (Var "req") "user") "id") (OptDot (Dot (Var "req") "user") "sub"));
     Call None "federationService" "deleteAddress" [Var "id"; Var "userId"];
     Return (Object [Prop_ "success" (Bool true); Prop_ "message" (Lit "Federation address deleted")])]).
Definition controller : controller := mkController "FederationController" "api/v1/federation" []
  [resolve; create; list_; delete].
End FederationController.

(** modules/support-tickets/controllers/support-tickets.controller.ts *)
Module ModulesSupportTicketsController.
Definition create : route := mkRoute Post "" "create" false 201
  []
  [mkParam Request None "req" NotPiped; mkParam Body None "dto" (Dto "modules/support-tickets/dto/create-support-ticket.dto" "CreateSupportTicketDto")]
  (Delegates [("userId", Coalesce (OptDot (Dot (Var "req") "user") "id") (OptDot (Dot (Var "req") "user") "sub"))] "supportTicketsService" "create"
    [Var "userId"; Var "dto"]).
Definition findAll : route := mkRoute Get "" "findAll" false 200
  []
  [mkParam Request None "req" NotPiped; mkParam Query None "dto" (Dto "modules/support-tickets/dto/list-support-tickets.dto" "ListSupportTicketsDto")]
  (Delegates [("userId", Coalesce (OptDot (Dot (Var "req") "user") "id") (OptDot (Dot (Var "req") "user") "sub"))] "supportTicketsService" "findAll"
    [Var "userId"; Var "dto"]).
Definition findOne : route := mkRoute Get ":id" "findOne" false 200
  []
  [mkParam Param (Some "id") "id" PString; mkParam Request None "req" NotPiped]
  (Delegates [("userId", Coalesce (OptDot (Dot (Var "req") "user") "id") (OptDot (Dot (Var "req") "user") "sub"))] "supportTicketsService" "findOne"
    [Var "id"; Var "userId"]).
Definition assign : route := mkRoute Patch ":id/assign" "assign" false 200
  []
  [mkParam Param (Some "id") "id" PString; mkParam Body None "dto" (Dto "modules/support-tickets/dto/assign-ticket.dto" "AssignTicketDto")]
  (Delegates [] "supportTicketsService" "assign"
    [Var "id"; Dot (Var "dto") "assignedTo"; Dot (Var "dto") "status"]).
Definition addMessage : route := mkRoute Post ":id/messages" "addMessage" false 201
  []
  [mkParam Param (Some "id") "id" PString; mkParam Request None "req" NotPiped; mkParam Body None "dto" (Dto "modules/support-tickets/dto/create-ticket-message.dto" "CreateTicketMessageDto")]
  (Delegates [("userId", Coalesce (OptDot (Dot (Var "req") "user") "id") (OptDot (Dot (Var "req") "user") "sub"))] "supportTicketsService" "addMessage"
    [Var "id"; Var "userId"; Dot (Var "dto") "message"]).
Definition getMessages : route := mkRoute Get ":id/messages" "getMessages" false 200
  []
  [mkParam Param (Some "id") "id" PString]
  (Delegates [] "supportTicketsService" "getMessages"
    [Var "id"]).
Definition controller : controller := mkController "SupportTicketsController" "support-tickets" [External "modules/auth/guards/jwt.guard"]
  [create; findAll; findOne; assign; addMessage; getMessages].
End ModulesSupportTicketsController.

(** modules/transactions/contorllers/admin-transactions.controller.ts *)
Module AdminTransactionsController.
Definition replayTransaction : route := mkRoute Post ":id/replay" "replayTransaction" false 201
  []
  [mkParam Param (Some "id") "id" PUuid; mkParam Body None "body" (Elsewhere "modules/transactions/dto/replay-transaction.dto")]
  (Delegates [] "replayService" "replay"
    [Var "id"; Var "body"]).
Definition rollbackTransaction : route := mkRoute Post ":id/rollback" "rollbackTransaction" false 201
  []
  [mkParam Param (Some "id") "id" PUuid; mkParam Body None "body" (Dto "modules/transactions/dto/rollback-transaction.dto" "RollbackTransactionDto"); mkParam Request None "req" NotPiped]
  (Delegates [("adminUserId", Or (OptDot (Dot (Var "req") "user") "id") (OptDot (Dot (Var "req") "user") "sub"))] "rollbackService" "rollback"
    [Var "id"; Var "body"; Var "adminUserId"]).
Definition controller : controller := mkController "AdminTransactionsController" "admin/transactions" [External "modules/auth/guards/admin.guard"]
  [replayTransaction; rollbackTransaction].
End AdminTransactionsController.

(** modules/transactions/contorllers/transactions.controller.ts *)
Module ModulesTransactionsController.
Definition search : route := mkRoute Get "search" "search" false 200
  []
  [mkParam Query None "query" (Elsewhere "modules/transactions/dto/search-transactions.dto"); mkParam Request None "req" NotPiped]
  (Delegates [("userId", OptDot (Dot (Var "req") "user") "id")] "txService" "search"
    [Var "query"; Var "userId"]).
Definition feePreview : route := mkRoute Post "fee-preview" "feePreview" false 201
  []
  [mkParam Body None "dto" (Dto "modules/transactions/dto/fee-preview.dto" "FeePreviewDto"); mkParam Request None "req" NotPiped]
  Handles.
Definition getEnrichment : route := mkRoute Get ":id/enrichment" "getEnrichment" false 200
  []
  [mkParam Param (Some "id") "id" PString]
  (Follows
    [Call (Some "enrichment") "enrichmentService" "getEnrichment" [Var "id"];
     Return (Object [Prop_ "success" (Bool true); Prop_ "data" (Var "enrichment")])]).
Definition controller : controller := mkController "TransactionsController" "transactions" [External "modules/auth/guards/jwt.guard"]
  [search; feePreview; getEnrichment].
End ModulesTransactionsController.

(** modules/user-deactivation/controllers/user-deactivation.controller.ts *)
Module UserDeactivationController.
Definition deactivate : route := mkRoute Post "deactivate" "deactivate" false 200
  []
  [mkParam Param (Some "id") "id" PString; mkParam Body None "dto" (Dto "modules/user-deactivation/dto/user-deactivation.dto" "DeactivateUserDto")]
  (Delegates [("adminId", Lit "system")] "service" "deactivate"
    [Var "id"; Var "dto"; Var "adminId"]).
Definition reactivate : route := mkRoute Post "reactivate" "reactivate" false 200
  []
  [mkParam Param (Some "id") "id" PString]
  (Delegates [("adminId", Lit "system")] "service" "reactivate"
    [Var "id"; Var "adminId"]).
Definition getHistory : route := mkRoute Get "deactivation-history" "getHistory" false 200
  []
  [mkParam Param (Some "id") "id" PString]
  (Delegates [] "service" "getHistory"
    [Var "id"]).
Definition controller : controller := mkController "UserDeactivationController" "admin/users/:id" [External "modules/auth/guards/jwt.guard"; External "modules/auth/guards/admin.guard"]
  [deactivate; reactivate; getHistory].
End UserDeactivationController.

(** modules/wallet-history/controllers/wallet-history.controller.ts *)
Module WalletHistoryController.
Definition getHistory : route := mkRoute Get "" "getHistory" false 200
  []
  [mkParam Request None "req" NotPiped; mkParam Query None "dto" (Dto "modules/wallet-history/dto/query-wallet-history.dto" "QueryWalletHistoryDto")]
  (Delegates [("userId", Coalesce (OptDot (Dot (Var "req") "user") "id") (OptDot (Dot (Var "req") "user") "sub"))] "walletHistoryService" "getHistory"
    [Var "userId"; Var "dto"]).
Definition recordSnapshot : route := mkRoute Post "snapshot" "recordSnapshot" false 201
  []
  [mkParam Request None "req" NotPiped]
  (Delegates [("userId", Coalesce (OptDot (Dot (Var "req") "user") "id") (OptDot (Dot (Var "req") "user") "sub"))] "walletHistoryService" "recordSnapshot"
    [Var "userId"]).
Definition controller : controller := mkController "WalletHistoryController" "wallet/history" [External "modules/auth/guards/jwt.guard"]
  [getHistory; recordSnapshot].
End WalletHistoryController.

(** modules/wallets/controllers/withdrawal.controller.ts *)
Module WithdrawalController.
Definition initiateWithdrawal : route := mkRoute Post "" "initiateWithdrawal" false 201
  []
  [mkParam Body None "dto" (Dto "modules/wallets/controllers/withdrawal.controller" "WithdrawalDto"); mkParam Request None "req" NotPiped]
  Handles.
Definition controller : controller := mkController "WithdrawalController" "api/v1/withdrawals" [External "modules/auth/guards/jwt-auth.guard"]
  [initiateWithdrawal].
End WithdrawalController.

(** modules/webhooks/webhooks.controller.ts *)
Module ModulesWebhooksController.
Definition create : route := mkRoute Post "" "create" false 201
  []
  [mkParam Body None "dto" (Elsewhere "modules/webhooks/dto/create-webhook.dto"); mkParam Request None "req" NotPiped]
  (Delegates [("userId", Or (OptDot (Dot (Var "req") "user") "id") (OptDot (Dot (Var "req") "user") "sub"))] "service" "create"
    [Var "dto"; Var "userId"]).
Definition list_ : route := mkRoute Get "" "list" false 200
  []
  [mkParam Request None "req" NotPiped]
  (Delegates [("userId", Or (OptDot (Dot (Var "req") "user") "id") (OptDot (Dot (Var "req") "user") "sub"))] "service" "list"
    [Var "userId"]).
Definition toggle : route := mkRoute Patch ":id/toggle" "toggle" false 200
  []
  [mkParam Param (Some "id") "id" PString]
  (Delegates [] "service" "toggle"
    [Var "id"]).
Definition update : route := mkRoute Patch ":id" "update" false 200
  []
  [mkParam Param (Some "id") "id" PString; mkParam Body None "dto" (Elsewhere "modules/webhooks/dto/update-webhook.dto")]
  (Delegates [] "service" "update"
    [Var "id"; Var "dto"]).
Definition sendSandboxEvent : route := mkRoute Post "sandbox/:eventType" "sendSandboxEvent" false 201
  []
  [mkParam Param (Some "eventType") "eventType" PString]
  (Delegates [] "sandboxService" "sendTestEvent"
    [Var "eventType"]).
Definition controller : controller := mkController "WebhooksController" "webhooks" [External "modules/auth/guards/jwt.guard"]
  [create; list_; toggle; update; sendSandboxEvent].
End ModulesWebhooksController.

(** notification-preferences/notification-preferences.controller.ts *)
Module NotificationPreferencesController.
Definition getPreferences : route := mkRoute Get "" "getPreferences" false 200
  []
  [mkParam Request None "req" NotPiped]
  (Delegates [("userId", Coalesce (OptDot (Dot (Var "req") "user") "sub") (Lit ""))] "preferencesService" "getPreferences"
    [Var "userId"]).
Definition updatePreferences : route := mkRoute Put "" "updatePreferences" false 200
  []
  [mkParam Request None "req" NotPiped; mkParam Body None "body" (NotAClass "inline")]
  (Delegates [("userId", Coalesce (OptDot (Dot (Var "req") "user") "sub") (Lit ""))] "preferencesService" "updatePreferences"
    [Var "userId"; Dot (Var "body") "preferences"]).
Definition patchPreferences : route := mkRoute Patch "" "patchPreferences" false 200
  []
  [mkParam Request None "req" NotPiped; mkParam Body None "body" (NotAClass "inline")]
  (Delegates [("userId", Coalesce (OptDot (Dot (Var "req") "user") "sub") (Lit ""))] "preferencesService" "updatePreferences"
    [Var "userId"; Dot (Var "body") "preferences"]).
Definition controller : controller := mkController "NotificationPreferencesController" "api/v1/notification-preferences" []
  [getPreferences; updatePreferences; patchPreferences].
End NotificationPreferencesController.

(** notifications/devices.controller.ts *)
Module DevicesController.
Definition register : route := mkRoute Post "register" "register" false 201
  []
  [mkParam Body None "dto" (NotAClass "RegisterDeviceDto")]
  (Delegates [] "pushService" "registerToken"
    [Dot (Var "dto") "userId"; Dot (Var "dto") "token"; Dot (Var "dto") "platform"]).
Definition deregister : route := mkRoute Delete ":token" "deregister" false 204
  []
  [mkParam Param (Some "token") "token" PString]
  (Delegates [] "pushService" "deregisterToken"
    [Var "token"]).
Definition controller : controller := mkController "DevicesController" "api/v1/devices" []
  [register; deregister].
End DevicesController.

(** payments/payments.controller.ts *)
Module PaymentsController.
Definition handleWebhook : route := mkRoute Post "webhook" "handleWebhook" false 201
  []
  [mkParam Body None "body" (NotAClass "inline"); mkParam Headers (Some "x-provider-signature") "signature" NotPiped; mkParam Request None "req" NotPiped]
  Handles.
Definition createInvoice : route := mkRoute Post "invoices" "createInvoice" false 201
  []
  [mkParam Body None "dto" (NotAClass "inline")]
  (Delegates [] "paymentProviderService" "createInvoice"
    [Var "dto"]).
Definition getInvoice : route := mkRoute Get "invoices/:id" "getInvoice" false 200
  []
  [mkParam Param (Some "id") "id" PString]
  (Delegates [] "paymentProviderService" "getInvoice"
    [Var "id"]).
Definition scheduleRecurringPayment : route := mkRoute Post "recurring" "scheduleRecurringPayment" false 201
  []
  [mkParam Body None "dto" (NotAClass "inline")]
  (Delegates [] "paymentProviderService" "scheduleRecurringPayment"
    [Var "dto"]).
Definition getRecurringPayments : route := mkRoute Get "recurring" "getRecurringPayments" false 200
  []
  [mkParam Query (Some "userId") "userId" PString]
  (Delegates [] "paymentProviderService" "getRecurringPayments"
    [Var "userId"]).
Definition processMerchantPayment : route := mkRoute Post "merchant/process" "processMerchantPayment" false 201
  []
  [mkParam Body None "dto" (NotAClass "inline")]
  (Delegates [] "paymentProviderService" "processMerchantPayment"
    [Var "dto"]).
Definition controller : controller := mkController "PaymentsController" "api/v1/payments" []
  [handleWebhook; createInvoice; getInvoice; scheduleRecurringPayment; getRecurringPayments; processMerchantPayment].
End PaymentsController.

(** portfolio/portfolio.controller.ts *)
Module PortfolioController.
Definition rebalance : route := mkRoute Post "rebalance" "rebalance" false 201
  []
  [mkParam Body None "dto" (NotAClass "inline"); mkParam Request None "request" NotPiped]
  (Delegates [] "portfolioService" "computeRebalancing"
    [Object [Spread (Var "dto"); Prop_ "userId" (Coalesce (OptDot (Dot (Var "request") "user") "sub") (Lit ""))]]).
Definition getHistory : route := mkRoute Get "rebalance" "getHistory" false 200
  []
  [mkParam Request None "request" NotPiped]
  (Delegates [] "portfolioService" "getHistory"
    [Coalesce (OptDot (Dot (Var "request") "user") "sub") (Lit "")]).
Definition controller : controller := mkController "PortfolioController" "api/v1/portfolio" [JwtAuthGuard]
  [rebalance; getHistory].
End PortfolioController.

(** queues/queue-monitor.controller.ts *)
Module QueueMonitorController.
Definition getAll : route := mkRoute Get "" "getAll" false 200
  []
  []
  Handles.
Definition getFailed : route := mkRoute Get ":name/failed" "getFailed" false 200
  []
  [mkParam Param (Some "name") "name" PString]
  Handles.
Definition controller : controller := mkController "QueueMonitorController" "queues" []
  [getAll; getFailed].
End QueueMonitorController.

(** rate-alerts/history/rate-alert-history.controller.ts *)
Module RateAlertHistoryController.
Definition findAll : route := mkRoute Get "" "findAll" false 200
  []
  [mkParam Request None "request" NotPiped; mkParam Query (Some "page") "page" PString; mkParam Query (Some "limit") "limit" PString]
  (Delegates [("userId", Coalesce (OptDot (Dot (Var "request") "user") "sub") (Lit ""))] "historyService" "findByUserId"
    [Var "userId"; Cond (Var "page") (ParseInt (Var "page")) (Undefined); Cond (Var "limit") (ParseInt (Var "limit")) (Undefined)]).
Definition controller : controller := mkController "RateAlertHistoryController" "api/v1/rate-alerts/history" [JwtAuthGuard]
  [findAll].
End RateAlertHistoryController.

(** referral/referral.controller.ts *)
Module ReferralController.
Definition generateCode : route := mkRoute Post "generate" "generateCode" false 201
  []
  [mkParam Request None "req" NotPiped]
  (Delegates [("userId", Coalesce (OptDot (Dot (Var "req") "user") "sub") (Lit ""))] "referralService" "generateCode"
    [Var "userId"]).
Definition getStats : route := mkRoute Get "stats" "getStats" false 200
  []
  [mkParam Request None "req" NotPiped]
  (Delegates [("userId", Coalesce (OptDot (Dot (Var "req") "user") "sub") (Lit ""))] "referralService" "getStats"
    [Var "userId"]).
Definition findAll : route := mkRoute Get "" "findAll" false 200
  []
  [mkParam Request None "req" NotPiped]
  (Delegates [("userId", Coalesce (OptDot (Dot (Var "req") "user") "sub") (Lit ""))] "referralService" "findByReferrer"
    [Var "userId"]).
Definition controller : controller := mkController "ReferralController" "api/v1/referrals" []
  [generateCode; getStats; findAll].
End ReferralController.

(** reports/fee-revenue.controller.ts *)
Module FeeRevenueController.
Definition getFeeRevenue : route := mkRoute Get "fee-revenue" "getFeeRevenue" false 200
  []
  [mkParam Query None "query" (NotAClass "FeeRevenueQuery")]
  Handles.
Definition controller : controller := mkController "FeeRevenueController" "admin/reports" []
  [getFeeRevenue].
End FeeRevenueController.

(** scheduled-reports/scheduled-reports.controller.ts *)
Module ScheduledReportsController.
Definition create : route := mkRoute Post "" "create" false 201
  []
  [mkParam Body None "dto" (NotAClass "inline"); mkParam Request None "request" NotPiped]
  (Delegates [] "reportsService" "create"
    [Object [Spread (Var "dto"); Prop_ "userId" (Coalesce (OptDot (Dot (Var "request") "user") "sub") (Lit ""))]]).
Definition findAll : route := mkRoute Get "" "findAll" false 200
  []
  [mkParam Request None "request" NotPiped]
  (Delegates [] "reportsService" "findByUserId"
    [Coalesce (OptDot (Dot (Var "request") "user") "sub") (Lit "")]).
Definition deactivate : route := mkRoute Patch ":id/deactivate" "deactivate" false 200
  []
  [mkParam Param (Some "id") "id" PString]
  (Delegates [] "reportsService" "deactivate"
    [Var "id"]).
Definition controller : controller := mkController "ScheduledReportsController" "api/v1/scheduled-reports" [JwtAuthGuard]
  [create; findAll; deactivate].
End ScheduledReportsController.

(** spending/spending.controller.ts *)
Module SpendingController.
Definition getSummary : route := mkRoute Get "summary" "getSummary" false 200
  []
  [mkParam Request None "req" NotPiped; mkParam Query None "query" (Dto "spending/dto/query-spending-summary.dto" "QuerySpendingSummaryDto")]
  (Delegates [] "spendingService" "getSummary"
    [Or (OptDot (Dot (Var "req") "user") "id") (OptDot (Dot (Var "req") "user") "sub"); Var "query"]).
Definition getCategories : route := mkRoute Get "categories" "getCategories" false 200
  []
  [mkParam Request None "req" NotPiped]
  (Delegates [] "spendingService" "getCategories"
    [Or (OptDot (Dot (Var "req") "user") "id") (OptDot (Dot (Var "req") "user") "sub")]).
Definition createCategory : route := mkRoute Post "categories" "createCategory" false 201
  []
  [mkParam Request None "req" NotPiped; mkParam Body None "dto" (Dto "spending/dto/create-spending-category.dto" "CreateSpendingCategoryDto")]
  (Delegates [] "spendingService" "createCategory"
    [Or (OptDot (Dot (Var "req") "user") "id") (OptDot (Dot (Var "req") "user") "sub"); Var "dto"]).
Definition deleteCategory : route := mkRoute Delete "categories/:id" "deleteCategory" false 200
  []
  [mkParam Request None "req" NotPiped; mkParam Param (Some "id") "id" PUuid]
  (Follows
    [Call None "spendingService" "deleteCategory" [Or (OptDot (Dot (Var "req") "user") "id") (OptDot (Dot (Var "req") "user") "sub"); Var "id"];
     Return (Object [Prop_ "message" (Lit "Category deleted successfully.")])]).
Definition createEntry : route := mkRoute Post "entries" "createEntry" false 201
  []
  [mkParam Request None "req" NotPiped; mkParam Body None "dto" (Dto "spending/dto/create-spending-entry.dto" "CreateSpendingEntryDto")]
  (Delegates [] "spendingService" "createEntry"
    [Or (OptDot (Dot (Var "req") "user") "id") (OptDot (Dot (Var "req") "user") "sub"); Var "dto"]).
Definition getEntries : route := mkRoute Get "entries" "getEntries" false 200
  []
  [mkParam Request None "req" NotPiped; mkParam Query (Some "startDate") "startDate" PString; mkParam Query (Some "endDate") "endDate" PString]
  (Delegates [] "spendingService" "getEntries"
    [Or (OptDot (Dot (Var "req") "user") "id") (OptDot (Dot (Var "req") "user") "sub"); Cond (Var "startDate") (Computed "new Date(startDate)") (Undefined); Cond (Var "endDate") (Computed "new Date(endDate)") (Undefined)]).
Definition controller : controller := mkController "SpendingController" "spending" [External "modules/auth/guards/jwt.guard"]
  [getSummary; getCategories; createCategory; deleteCategory; createEntry; getEntries].
End SpendingController.

(** statements/statements.controller.ts *)
Module StatementsController.
Definition getStatement : route := mkRoute Get "" "getStatement" false 200
  [JwtAuthGuard]
  [mkParam Request None "request" NotPiped; mkParam Query (Some "currency") "currency" PString; mkParam Query (Some "from") "from" PString; mkParam Query (Some "to") "to" PString; mkParam Query (Some "format") "format" (NotAClass "inline"); mkParam Response None "response" NotPiped]
  Handles.
Definition controller : controller := mkController "StatementsController" "api/v1/statements" []
  [getStatement].
End StatementsController.

(** support/support-tickets.controller.ts *)
Module SupportTicketsController.
Definition create : route := mkRoute Post "" "create" false 201
  [JwtAuthGuard]
  [mkParam Body None "body" (NotAClass "inline"); mkParam Request None "request" NotPiped]
  (Delegates [] "supportTicketsService" "createTicket"
    [Object [Prop_ "userId" (Coalesce (OptDot (Dot (Var "request") "user") "sub") (Lit "")); Prop_ "subject" (Dot (Var "body") "subject"); Prop_ "description" (Dot (Var "body") "description"); Prop_ "category" (Dot (Var "body") "category"); Prop_ "relatedEntityType" (Dot (Var "body") "relatedEntityType"); Prop_ "relatedEntityId" (Dot (Var "body") "relatedEntityId")]]).
Definition list_ : route := mkRoute Get "" "list" false 200
  [JwtAuthGuard]
  [mkParam Request None "request" NotPiped]
  (Delegates [] "supportTicketsService" "listTickets"
    [Coalesce (OptDot (Dot (Var "request") "user") "sub") (Lit ""); Not (Differs (OptDot (Dot (Var "request") "user") "role") "admin")]).
Definition update : route := mkRoute Patch ":id" "update" false 200
  [JwtAuthGuard; AdminRoleGuard; IpAllowlistGuard]
  [mkParam Param (Some "id") "id" PString; mkParam Body None "body" (NotAClass "inline"); mkParam Request None "request" NotPiped]
  (Delegates [] "supportTicketsService" "updateTicket"
    [Var "id"; Object [Prop_ "status" (Dot (Var "body") "status"); Prop_ "adminId" (Coalesce (OptDot (Dot (Var "request") "user") "sub") (Lit ""))]]).
Definition controller : controller := mkController "SupportTicketsController" "api/v1/support/tickets" []
  [create; list_; update].
End SupportTicketsController.

(** terms/terms.controller.ts *)
Module TermsController.
Definition accept : route := mkRoute Post "accept" "accept" false 201
  [JwtAuthGuard]
  [mkParam Request None "request" NotPiped; mkParam Body None "body" (NotAClass "inline")]
  (Follows
    [Let "userId" (Coalesce (OptDot (Dot (Var "request") "user") "sub") (OptDot (Dot (Var "request") "user") "id"));
     ThrowIf (Not (Var "userId")) (UnauthorizedException "Authenticated user is required");
     Call (Some "result") "termsService" "accept" [Object [Prop_ "userId" (Var "userId"); Prop_ "version" (Dot (Var "body") "version"); Prop_ "ipAddress" (Coalesce (Dot (Var "request") "ip") (Null)); Prop_ "userAgent" (Coalesce (OptDot (Dot (Var "request") "headers") "user-agent") (Null))]];
     Return (Var "result")]).
Definition controller : controller := mkController "TermsController" "api/v1/terms" []
  [accept].
End TermsController.

(** transactions/transactions.controller.ts *)
Module TransactionsController.
Definition transfer : route := mkRoute Post "transfer" "transfer" false 201
  []
  [mkParam Body None "dto" (NotAClass "TransferDto")]
  (Delegates [] "txService" "transfer"
    [Var "dto"]).
Definition deposit : route := mkRoute Post "deposit" "deposit" false 201
  [External "idempotency/idempotency.guard"]
  [mkParam Body None "dto" (NotAClass "DepositDto"); mkParam CurrentUser (Some "sub") "userId" NotPiped; mkParam Ip None "ip" NotPiped; mkParam Headers (Some "user-agent") "userAgent" NotPiped]
  (Delegates [] "txService" "createDeposit"
    [Object [Spread (Var "dto"); Prop_ "userId" (Var "userId"); Prop_ "ipAddress" (Var "ip"); Prop_ "userAgent" (Var "userAgent")]]).
Definition withdrawal : route := mkRoute Post "withdrawal" "withdrawal" false 201
  [External "idempotency/idempotency.guard"]
  [mkParam Body None "dto" (NotAClass "WithdrawalDto"); mkParam CurrentUser (Some "sub") "userId" NotPiped]
  (Delegates [] "txService" "createWithdrawal"
    [Object [Spread (Var "dto"); Prop_ "userId" (Var "userId")]]).
Definition swap : route := mkRoute Post "swap" "swap" false 201
  [External "idempotency/idempotency.guard"]
  [mkParam Body None "dto" (NotAClass "SwapDto"); mkParam CurrentUser (Some "sub") "userId" NotPiped; mkParam Ip None "ip" NotPiped; mkParam Headers (Some "user-agent") "userAgent" NotPiped]
  (Delegates [] "txService" "createSwap"
    [Object [Spread (Var "dto"); Prop_ "userId" (Var "userId"); Prop_ "ipAddress" (Var "ip"); Prop_ "userAgent" (Var "userAgent")]]).
Definition swapPreview : route := mkRoute Get "swap/preview" "swapPreview" false 200
  []
  [mkParam Query (Some "userId") "userId" PString; mkParam Query (Some "fromAmount") "fromAmount" PString; mkParam Query (Some "fromCurrency") "fromCurrency" PString; mkParam Query (Some "toCurrency") "toCurrency" PString]
  (Delegates [] "txService" "getSwapPreview"
    [Object [Prop_ "userId" (Var "userId"); Prop_ "fromAmount" (ParseFloat (Coalesce (Var "fromAmount") (Lit "0"))); Prop_ "fromCurrency" (Var "fromCurrency"); Prop_ "toCurrency" (Var "toCurrency")]]).
Definition findAll : route := mkRoute Get "" "findAll" false 200
  []
  [mkParam Query (Some "userId") "userId" PString; mkParam Query (Some "status") "status" PString; mkParam Query (Some "currency") "currency" PString; mkParam Query (Some "receiptNumber") "receiptNumber" PString; mkParam Query (Some "startDate") "startDate" PString; mkParam Query (Some "endDate") "endDate" PString; mkParam Query (Some "type") "type" PString; mkParam Query (Some "page") "page" PString; mkParam Query (Some "limit") "limit" PString]
  (Delegates [("filters", Object [Prop_ "userId" (Var "userId"); Prop_ "status" (Var "status"); Prop_ "currency" (Var "currency"); Prop_ "receiptNumber" (Var "receiptNumber"); Prop_ "startDate" (Var "startDate"); Prop_ "endDate" (Var "endDate"); Prop_ "type" (Var "type"); Prop_ "page" (Cond (Var "page") (ParseInt (Var "page")) (Undefined)); Prop_ "limit" (Cond (Var "limit") (ParseInt (Var "limit")) (Undefined))])] "txService" "findHistory"
    [Var "filters"]).
Definition getComments : route := mkRoute Get ":id/comments" "getComments" false 200
  []
  [mkParam Param (Some "id") "id" PString]
  (Delegates [] "txService" "getComments"
    [Var "id"]).
Definition createInternalTransfer : route := mkRoute Post "internal-transfer" "createInternalTransfer" false 201
  []
  [mkParam Body None "dto" (NotAClass "inline")]
  (Delegates [] "txService" "createInternalTransfer"
    [Var "dto"]).
Definition simulateTransaction : route := mkRoute Post "simulate" "simulateTransaction" false 201
  []
  [mkParam Body None "dto" (NotAClass "inline")]
  (Delegates [] "txService" "simulateTransaction"
    [Var "dto"]).
Definition subscribeToTransactionStatus : route := mkRoute Get ":id/status/stream" "subscribeToTransactionStatus" false 200
  []
  [mkParam Param (Some "id") "id" PString]
  Handles.
Definition findOne : route := mkRoute Get ":id" "findOne" false 200
  []
  [mkParam Param (Some "id") "id" PString]
  (Delegates [] "txService" "findById"
    [Var "id"]).
Definition updateTags : route := mkRoute Patch ":id/tags" "updateTags" false 200
  []
  [mkParam Param (Some "id") "id" PString; mkParam Body None "body" (NotAClass "inline"); mkParam Request None "request" NotPiped]
  (Delegates [] "txService" "updateTags"
    [Var "id"; Coalesce (OptDot (Dot (Var "request") "user") "sub") (Lit ""); Dot (Var "body") "tag"; Dot (Var "body") "tags"]).
Definition cancel : route := mkRoute Post ":id/cancel" "cancel" false 200
  []
  [mkParam Param (Some "id") "id" PString]
  (Delegates [] "txService" "cancelTransaction"
    [Var "id"]).
Definition reverse : route := mkRoute Post ":id/reverse" "reverse" false 201
  [JwtAuthGuard; AdminRoleGuard; IpAllowlistGuard]
  [mkParam Param (Some "id") "id" PString; mkParam Body None "body" (NotAClass "ReverseTransactionDto"); mkParam CurrentUser (Some "sub") "userId" NotPiped]
  (Delegates [] "txService" "reverseTransaction"
    [Var "id"; Object [Prop_ "reversedBy" (Coalesce (Var "userId") (Lit "")); Prop_ "reason" (Dot (Var "body") "reason")]]).
Definition addComment : route := mkRoute Post ":id/comments" "addComment" false 201
  []
  [mkParam Param (Some "id") "id" PString; mkParam Body None "body" (NotAClass "inline")]
  (Delegates [] "txService" "addComment"
    [Var "id"; Dot (Var "body") "authorId"; Dot (Var "body") "text"]).
Definition controller : controller := mkController "TransactionsController" "api/v1/transactions" []
  [transfer; deposit; withdrawal; swap; swapPreview; findAll; getComments; createInternalTransfer; simulateTransaction; subscribeToTransactionStatus; findOne; updateTags; cancel; reverse; addComment].
End TransactionsController.

(** users/account-closure.controller.ts *)
Module AccountClosureController.
Definition closeAccount : route := mkRoute Post "close-account" "closeAccount" false 201
  []
  [mkParam Headers (Some "authorization") "authorization" NotPiped; mkParam Body (Some "currentPassword") "currentPassword" PString; mkParam Body (Some "twoFactorCode") "twoFactorCode" PString]
  Handles.
Definition exportData : route := mkRoute Get "export-data" "exportData" false 200
  []
  [mkParam Headers (Some "x-user-id") "userId" NotPiped]
  Handles.
Definition controller : controller := mkController "AccountClosureController" "users/me" []
  [closeAccount; exportData].
End AccountClosureController.

(** wallet/wallets.controller.ts *)
Module WalletsController.
Definition getBalances : route := mkRoute Get ":accountId" "getBalances" false 200
  []
  [mkParam Param (Some "accountId") "accountId" PString]
  (Delegates [] "walletsService" "getBalancesForAccount"
    [Var "accountId"]).
Definition adjustBalance : route := mkRoute Post "adjust-balance" "adjustBalance" false 201
  []
  [mkParam Body None "dto" (Dto "wallet/dto/adjust-balance.dto" "AdjustBalanceDto")]
  (Delegates [] "walletsService" "adjustBalance"
    [Dot (Var "dto") "accountId"; Dot (Var "dto") "currency"; Dot (Var "dto") "delta"]).
Definition setAutoSweepConfig : route := mkRoute Post "auto-sweep/config" "setAutoSweepConfig" false 201
  []
  [mkParam Body None "body" (NotAClass "inline")]
  (Delegates [] "walletsService" "setAutoSweepConfig"
    [Dot (Var "body") "userId"; Dot (Var "body") "threshold"; Dot (Var "body") "coldStorageAddress"]).
Definition processAutoSweep : route := mkRoute Post "auto-sweep/process" "processAutoSweep" false 201
  []
  [mkParam Body None "body" (NotAClass "inline")]
  (Delegates [] "walletsService" "processAutoSweep"
    [Dot (Var "body") "userId"; Dot (Var "body") "currency"]).
Definition updateCustomization : route := mkRoute Post ":accountId/:currency/customize" "updateCustomization" false 201
  []
  [mkParam Param (Some "accountId") "accountId" PString; mkParam Param (Some "currency") "currency" PString; mkParam Body None "body" (NotAClass "inline")]
  (Delegates [] "walletsService" "updateCustomization"
    [Var "accountId"; Var "currency"; Dot (Var "body") "label"; Dot (Var "body") "color"]).
Definition controller : controller := mkController "WalletsController" "wallets" []
  [getBalances; adjustBalance; setAutoSweepConfig; processAutoSweep; updateCustomization].
End WalletsController.

(** webhooks/webhooks.controller.ts *)
Module WebhooksController.
Definition create : route := mkRoute Post "endpoints" "create" false 201
  [JwtAuthGuard]
  [mkParam Body None "body" (NotAClass "inline"); mkParam Request None "request" NotPiped]
  (Delegates [] "webhooksService" "createEndpoint"
    [Object [Prop_ "ownerId" (Coalesce (OptDot (Dot (Var "request") "user") "sub") (Lit "")); Prop_ "url" (Dot (Var "body") "url"); Prop_ "secret" (Dot (Var "body") "secret"); Prop_ "events" (Dot (Var "body") "events")]]).
Definition list_ : route := mkRoute Get "endpoints" "list" false 200
  [JwtAuthGuard]
  [mkParam Request None "request" NotPiped]
  (Delegates [] "webhooksService" "listEndpoints"
    [Coalesce (OptDot (Dot (Var "request") "user") "sub") (Lit "")]).
Definition listDeliveries : route := mkRoute Get "endpoints/:id/deliveries" "listDeliveries" false 200
  [JwtAuthGuard]
  [mkParam Param (Some "id") "endpointId" PString; mkParam Request None "request" NotPiped]
  (Delegates [] "webhooksService" "listDeliveries"
    [Coalesce (OptDot (Dot (Var "request") "user") "sub") (Lit ""); Var "endpointId"]).
Definition retryDelivery : route := mkRoute Post "deliveries/:id/retry" "retryDelivery" false 201
  [JwtAuthGuard]
  [mkParam Param (Some "id") "deliveryId" PString]
  (Delegates [] "webhookRetryJob" "manualRetry"
    [Var "deliveryId"]).
Definition controller : controller := mkController "WebhooksController" "api/v1/webhooks" []
  [create; list_; listDeliveries; retryDelivery].
End WebhooksController.

(** Every controller of the repository. *)
Definition controllers : list controller :=
  [ActivityFeedController.controller;
   AdminController.controller;
   AdminExportsController.controller;
   AmlController.controller;
   AppController.controller;
   AuthController.controller;
   BulkPaymentsController.controller;
   CurrenciesController.controller;
   DisputesController.controller;
   DocumentsController.controller;
   ExchangeRatesController.controller;
   FeeTiersController.controller;
   FeesController.controller;
   FxController.controller;
   HealthController.controller;
   KycController.controller;
   MetricsController.controller;
   AccountFreezeController.controller;
   AmlAlertsController.controller;
   SystemAdminController.controller;
   ApiKeysController.controller;
   ModulesAuthController.controller;
   SessionsController.controller;
   EndpointRateLimitController.controller;
   ExportController.controller;
   FeeAuditController.controller;
   FeeReportsController.controller;
   FxPreviewController.controller;
   KycTiersAdminController.controller;
   KycTiersController.controller;
   RateLimitUsageController.controller;
   FederationController.controller;
   ModulesSupportTicketsController.controller;
   AdminTransactionsController.controller;
   ModulesTransactionsController.controller;
   UserDeactivationController.controller;
   WalletHistoryController.controller;
   WithdrawalController.controller;
   ModulesWebhooksController.controller;
   NotificationPreferencesController.controller;
   DevicesController.controller;
   PaymentsController.controller;
   PortfolioController.controller;
   QueueMonitorController.controller;
   RateAlertHistoryController.controller;
   ReferralController.controller;
   FeeRevenueController.controller;
   ScheduledReportsController.controller;
   SpendingController.controller;
   StatementsController.controller;
   SupportTicketsController.controller;
   TermsController.controller;
   TransactionsController.controller;
   AccountClosureController.controller;
   WalletsController.controller;
   WebhooksController.controller].

(** Those of the modules that app.module.ts imports and the repository has, in
    the order they are registered. *)
Definition application : list controller :=
  [AppController.controller;
   HealthController.controller;
   SpendingController.controller;
   FeeTiersController.controller;
   WalletsController.controller;
   ExchangeRatesController.controller;
   BulkPaymentsController.controller;
   DisputesController.controller;
   TransactionsController.controller;
   AuthController.controller;
   TermsController.controller;
   UserDeactivationController.controller;
   FxController.controller;
   FeesController.controller;
   FeeAuditController.controller;
   CurrenciesController.controller;
   ModulesAuthController.controller;
   RateAlertHistoryController.controller;
   ScheduledReportsController.controller;
   PortfolioController.controller;
   AccountFreezeController.controller;
   FederationController.controller;
   ApiKeysController.controller;
   ExportController.controller;
   AdminTransactionsController.controller;
   ModulesTransactionsController.controller;
   MetricsController.controller;
   EndpointRateLimitController.controller;
   ActivityFeedController.controller;
   NotificationPreferencesController.controller;
   ReferralController.controller;
   AmlController.controller;
   RateLimitUsageController.controller;
   ModulesSupportTicketsController.controller;
   FeeReportsController.controller;
   WalletHistoryController.controller;
   KycTiersController.controller;
   KycTiersAdminController.controller].
(** ** Requests *)

Record HttpRequest : Type := mkHttp {
  h_verb : verb;
  h_path : list string;          (* the segments of the path, decoded *)
  h_authorization : Header;
  h_headers : list (string * json);
  h_query : list (string * json);
  h_body : json;
  h_ip : option string
}.

(** app.setGlobalPrefix('api/v1') *)
Definition global_prefix : string := "api/v1".

Definition segments (path : string) : list string := List.filter str_truthy (split_on "/" path).
(** The whole pattern of a route; a segment that begins with a colon matches any
    segment. *)
Definition pattern (c : controller) (r : route) : list string :=
  segments global_prefix ++ segments (c_base c) ++ segments (r_path r).

Definition param_name (s : string) : option string :=
  match s with String ":" n => Some n | _ => None end.

(** Routing does not tell cases apart. *)
Definition same_segment (s x : string) : bool := String.eqb (toLowerCase s) (toLowerCase x).

Fixpoint match_path (p path : list string) : option (list (string * string)) :=
  match p, path with
  | [], [] => Some []
  | s :: p, x :: path =>
      match param_name s with
      | Some n => option_map (cons (n, x)) (match_path p path)
      | None => if same_segment s x then match_path p path else None
      end
  | _, _ => None
  end.

Definition table_of (cs : list controller) : list (controller * route) :=
  flat_map (fun c => map (pair c) (c_routes c)) cs.

Definition matches (v : verb) (path : list string) (cr : controller * route) : bool :=
  verb_eqb v (r_verb cr.2) && match match_path (pattern cr.1 cr.2) path with Some _ => true | None => false end.

(** The first route that matches, in the order of registration. *)
Definition dispatch (cs : list controller) (v : verb) (path : list string) : option (controller * route) :=
  List.find (matches v path) (table_of cs).

(** ** Guards *)

(** app.module.ts: the APP_GUARD providers, in order. *)
Definition global_guards : list guard := [JwtAuthGuard; External "@nestjs/throttler"].

(** The guards that are not in the repository, and the configured addresses. *)
Class AppGuards (S : Type) : Type := {
  external_guard : string -> HttpRequest -> option JwtPayload -> M S unit;
  admin_allowed_ips : option (list string)
}.

Section Serve.
Context {S : Type} `{HasEnv S} `{JwtService} `{AppGuards S} `{ClassValidator}.

(** A guard that lets the request pass leaves the user it found, if it looks for
    one. *)
Definition run_guard (g : guard) (public : bool) (req : HttpRequest) (user : option JwtPayload) : M S (option JwtPayload) :=
  match g with
  | JwtAuthGuard =>
      let* found := Guards.JwtAuthGuard.canActivate public (h_authorization req) in
      ret (match found with Some p => Some p | None => user end)
  | AdminRoleGuard => Guards.AdminRoleGuard.canActivate (option_map jwt_role user) ;;; ret user
  | IpAllowlistGuard => Network.IpAllowlistGuard.canActivate admin_allowed_ips (h_ip req) ;;; ret user
  | External f => external_guard f req user ;;; ret user
  end.

(** Global guards, then the controller's, then the handler's. *)
Definition guards_of (c : controller) (r : route) : list guard := global_guards ++ c_guards c ++ r_guards r.

Definition run_guards (l : list guard) (public : bool) (req : HttpRequest) : M S (option JwtPayload) :=
  fold_each l None (fun user g => run_guard g public req user).

(** ** Handlers *)

Definition payload_json (p : JwtPayload) : json :=
  JObj ([("sub", JStr (jwt_sub p)); ("email", JStr (jwt_email p)); ("role", JStr (jwt_role p))] ++
        match jwt_type p with Some t => [("type", JStr t)] | None => [] end ++
        match jwt_expiresIn p with Some t => [("expiresIn", JStr t)] | None => [] end).
Definition user_json (user : option JwtPayload) : json :=
  match user with Some p => payload_json p | None => JUndefined end.
Definition field (k : string) (j : json) : json :=
  match j with JObj o => default JUndefined (obj_get k o) | _ => JUndefined end.
Definition keyed (k : option string) (j : json) : json := match k with Some k => field k j | None => j end.

Definition param_value (req : HttpRequest) (user : option JwtPayload) (params : list (string * string)) (p : param) : json :=
  match param_source p with
  | Body => keyed (param_key p) (h_body req)
  | Query => keyed (param_key p) (JObj (h_query req))
  | Param => keyed (param_key p) (JObj (map (fun '(k, v) => (k, JStr v)) params))
  | Headers => keyed (param_key p) (JObj (h_headers req))
  | CurrentUser => keyed (param_key p) (user_json user)
  | Ip => jopt (h_ip req)
  | Request => JObj [("user", user_json user); ("headers", JObj (h_headers req)); ("ip", jopt (h_ip req))]
  | Response | File => JUndefined
  end.

(** What the pipes make of it. *)
Definition piped_value (req : HttpRequest) (user : option JwtPayload) (params : list (string * string)) (p : param) : exn + json :=
  transform (param_ty p)
    (match param_source p with Query | Param => true | _ => false end)
    (match param_key p with Some _ => true | None => false end)
    (param_value req user params p).

(** The values of all parameters, or the first refusal. *)
Fixpoint piped (l : list param) (req : HttpRequest) (user : option JwtPayload) (params : list (string * string)) : exn + list (string * json) :=
  match l with
  | [] => inr []
  | p :: l =>
      match piped_value req user params p with
      | inl x => inl x
      | inr v => match piped l req user params with inl x => inl x | inr o => inr ((param_id p, v) :: o) end
      end
  end.

(** [String(value)] of the values of a request. *)
Definition as_text (j : json) : string :=
  match j with
  | JStr s => s
  | JNum n => num_to_string n
  | JBool b => if b then "true" else "false"
  | JNull => "null"
  | JUndefined => "undefined"
  | JArr _ | JObj _ => stringify j
  end.

(** The value of an expression: [None] when it throws, or is not one of the
    forms above. *)
Fixpoint eval (env : list (string * json)) (e : expr) : option json :=
  match e with
  | Var x => obj_get x env
  | Dot a f => match eval env a with Some j => if nullish j then None else Some (field f j) | None => None end
  | OptDot a f => match eval env a with Some j => if nullish j then Some JUndefined else Some (field f j) | None => None end
  | Coalesce a b => match eval env a with Some j => if nullish j then eval env b else Some j | None => None end
  | Or a b => match eval env a with Some j => if json_truthy j then Some j else eval env b | None => None end
  | Lit s => Some (JStr s)
  | Bool b => Some (JBool b)
  | Undefined => Some JUndefined
  | Null => Some JNull
  | Num z => Some (JNum (num_of_Z z))
  | Not a => option_map (fun j => JBool (negb (json_truthy j))) (eval env a)
  | And a b => match eval env a with Some j => if json_truthy j then eval env b else Some j | None => None end
  | Differs a s => option_map (fun j => JBool (negb (match j with JStr t => String.eqb t s | _ => false end))) (eval env a)
  | Cond c a b => match eval env c with Some j => if json_truthy j then eval env a else eval env b | None => None end
  | ParseInt a => option_map (fun j => JNum (parseInt (as_text j))) (eval env a)
  | ParseFloat a => option_map (fun j => JNum (parseFloat (as_text j))) (eval env a)
  | Template l =>
      option_map JStr (fold_left (fun acc a =>
        match acc, eval env a with Some s, Some j => Some (s +:+ as_text j) | _, _ => None end) l (Some ""))
  | Array l =>
      option_map JArr (fold_left (fun acc a =>
        match acc, eval env a with Some r, Some j => Some (r ++ [j]) | _, _ => None end) l (Some []))
  | Object fs =>
      option_map JObj (fold_left (fun acc f =>
        match acc with
        | None => None
        | Some o =>
            match f with
            | Prop_ n a => match eval env a with Some v => Some (obj_set n v o) | None => None end
            | Spread a => match eval env a with Some (JObj more) => Some (obj_spread o more) | Some _ => Some o | None => None end
            end
        end) fs (Some []))
  | Computed _ => None
  end.

Fixpoint bind_consts (env : list (string * json)) (l : list (string * expr)) : list (string * json) :=
  match l with
  | [] => env
  | (x, e) :: l => bind_consts (match eval env e with Some v => obj_set x v env | None => env end) l
  end.

(** What is made of a request that passed the guards: the call of a service, each
    argument with its value where it is one of the forms above, statements with
    the values of the parameters, or a handler with a body of its own. *)
Inductive served : Type :=
  | Calls (service method : string) (args : list (option json))
  | Executes (body : list statement) (values : list (string * json))
  | Runs (controller_name handler : string).

Definition act (c : controller) (r : route) (values : list (string * json)) : served :=
  match r_action r with
  | Handles => Runs (c_name c) (r_handler r)
  | Follows body => Executes body values
  | Delegates consts svc m args => Calls svc m (map (eval (bind_consts values consts)) args)
  end.

(** Guards, then pipes, then the handler. *)
Definition serve (cs : list controller) (req : HttpRequest) : M S (controller * route * served) :=
  match dispatch cs (h_verb req) (h_path req) with
  | None => throw (NotFoundException "Cannot find the route")
  | Some (c, r) =>
      let* user := run_guards (guards_of c r) (r_public r) req in
      match piped (r_params r) req user (default [] (match_path (pattern c r) (h_path req))) with
      | inl x => throw x
      | inr values => ret (c, r, act c r values)
      end
  end.

(** ** The statements of a handler *)

(** The services, by the field that holds each and the method: the other files
    model them, here they answer what they answer. *)
Context (services : string -> string -> list json -> M S json).

(** The value of an expression, or what its evaluation throws. *)
Definition evaluate (env : list (string * json)) (e : expr) : M S json :=
  match eval env e with Some v => ret v | None => throw (PlainError "TypeError") end.

Fixpoint execute (body : list statement) (env : list (string * json)) : M S json :=
  match body with
  | [] => ret JUndefined
  | Let x e :: body => let* v := evaluate env e in execute body (obj_set x v env)
  | Call x service method args :: body =>
      let* values := fold_each args [] (fun acc e => let* v := evaluate env e in ret (acc ++ [v])) in
      let* result := services service method values in
      execute body (match x with Some x => obj_set x result env | None => env end)
  | ThrowIf e x :: body => let* v := evaluate env e in if json_truthy v then throw x else execute body env
  | Return e :: _ => evaluate env e
  end.
End Serve.

(** ** Which route answers *)

(** Whatever [q] matches, [p] matches. *)
Fixpoint covers (p q : list string) : bool :=
  match p, q with
  | [], [] => true
  | s :: p, t :: q =>
      match param_name s with
      | Some _ => true
      | None => match param_name t with Some _ => false | None => same_segment s t end
      end && covers p q
  | _, _ => false
  end.

Definition shadows (e cr : controller * route) : bool :=
  verb_eqb (r_verb e.2) (r_verb cr.2) && covers (pattern e.1 e.2) (pattern cr.1 cr.2).

(** The routes that no earlier one shadows, and those that one does. *)
Fixpoint unshadowed (seen l : list (controller * route)) : list (controller * route) :=
  match l with
  | [] => []
  | cr :: l => (if existsb (fun e => shadows e cr) seen then [] else [cr]) ++ unshadowed (cr :: seen) l
  end.
Fixpoint shadowed (seen l : list (controller * route)) : list (controller * route) :=
  match l with
  | [] => []
  | cr :: l => (if existsb (fun e => shadows e cr) seen then [cr] else []) ++ shadowed (cr :: seen) l
  end.

Lemma verb_eqb_eq a b : verb_eqb a b = true <-> a = b.
Proof. destruct a, b; cbn; split; congruence. Qed.

Lemma covers_match p q path : covers p q = true -> match_path q path <> None -> match_path p path <> None.
Proof.
  revert q path. induction p as [|s p IH]; intros [|t q] [|x path]; cbn; try congruence.
  intros Hc Hm. apply andb_true_iff in Hc as [Hc Hpq]. specialize (IH q path Hpq).
  assert (Hq : match_path q path <> None).
  { destruct (param_name t), (same_segment t x), (match_path q path); cbn in Hm; congruence. }
  specialize (IH Hq). destruct (match_path p path) as [m|]; [clear IH|congruence].
  destruct (param_name s); [cbn; congruence|]. destruct (param_name t); [congruence|].
  destruct (same_segment t x) eqn:E; [|congruence].
  unfold same_segment in *. apply String.eqb_eq in Hc, E. rewrite Hc, E, String.eqb_refl. congruence.
Qed.

Lemma shadows_matches e cr v path : shadows e cr = true -> matches v path cr = true -> matches v path e = true.
Proof.
  unfold shadows, matches. intros H1 H2. apply andb_true_iff in H1 as [Hv Hc], H2 as [Hv' Hm].
  apply verb_eqb_eq in Hv, Hv'. rewrite Hv'. subst. rewrite <- Hv.
  replace (verb_eqb (r_verb e.2) (r_verb e.2)) with true by (symmetry; now apply verb_eqb_eq).
  pose proof (covers_match _ _ path Hc) as H. cbn [andb].
  destruct (match_path (pattern cr.1 cr.2) path); [|congruence].
  destruct (match_path (pattern e.1 e.2) path); [reflexivity|]. now exfalso; apply H.
Qed.

Lemma dispatch_unshadowed v path l seen cr :
  List.find (matches v path) l = Some cr -> (forall e, In e seen -> matches v path e = false) ->
  In cr (unshadowed seen l).
Proof.
  revert seen. induction l as [|c l IH]; intros seen Hf Hs; cbn [List.find unshadowed] in *; [congruence|].
  apply in_app_iff. destruct (matches v path c) eqn:Hm.
  - left. injection Hf as <-. destruct (existsb _ seen) eqn:He; [|now left].
    apply existsb_exists in He as (e & Hin & He). specialize (Hs e Hin).
    rewrite (shadows_matches _ _ _ _ He Hm) in Hs. discriminate.
  - right. apply IH; [assumption|]. intros e [<-|Hin]; auto.
Qed.

(** A path that a pattern matches. *)
Definition sample (p : list string) : list string := map (fun s => default s (option_map (fun _ => "-") (param_name s))) p.

(** Each unshadowed route answers the sample of its own pattern. *)
Fixpoint samples_reach (seen l : list (controller * route)) : bool :=
  match l with
  | [] => true
  | cr :: l =>
      (existsb (fun e => shadows e cr) seen ||
       (matches (r_verb cr.2) (sample (pattern cr.1 cr.2)) cr &&
        negb (existsb (matches (r_verb cr.2) (sample (pattern cr.1 cr.2))) seen))) &&
      samples_reach (cr :: seen) l
  end.

Lemma samples_reach_find l seen cr :
  samples_reach seen l = true -> In cr (unshadowed seen l) ->
  exists path, existsb (matches (r_verb cr.2) path) seen = false /\ List.find (matches (r_verb cr.2) path) l = Some cr.
Proof.
  revert seen. induction l as [|c l IH]; intros seen Hs Hin; cbn [samples_reach unshadowed List.find] in *; [contradiction|].
  apply andb_true_iff in Hs as [Hc Hl]. apply in_app_iff in Hin as [Hin|Hin].
  - destruct (existsb _ seen); [contradiction|]. destruct Hin as [->|[]]. cbn [orb] in Hc.
    apply andb_true_iff in Hc as [Hm Hn]. apply negb_true_iff in Hn. eexists. split; [eassumption|]. now rewrite Hm.
  - destruct (IH _ Hl Hin) as (path & Hn & Hf). cbn [existsb] in Hn. apply orb_false_iff in Hn as [Hc' Hn].
    exists path. now rewrite Hc'.
Qed.

Lemma application_samples_reach : samples_reach [] (table_of application) = true.
Proof. now vm_compute. Qed.

Definition route_name (cr : controller * route) : verb * string * string :=
  (r_verb cr.2, String.concat "/" (pattern cr.1 cr.2), c_name cr.1 +:+ "." +:+ r_handler cr.2).

(** C27 Every route of the application but three answers some request, and no
    request is dispatched to these three: an earlier route with a parameter in
    their place, or of the same path, matches all that they match. *)
Theorem three_routes_are_unreachable :
  (forall cr, In cr (unshadowed [] (table_of application)) <-> exists v path, dispatch application v path = Some cr) /\
  map route_name (shadowed [] (table_of application)) =
    [(Get, "api/v1/api/v1/exchange-rates/calculate", "ExchangeRatesController.calculate");
     (Get, "api/v1/api/v1/exchange-rates/history", "ExchangeRatesController.getHistory");
     (Post, "api/v1/auth/login", "AuthController.login")].
Proof.
  split; [|now vm_compute]. intros cr. split.
  - intros Hin. destruct (samples_reach_find _ _ _ application_samples_reach Hin) as (path & _ & Hf).
    now exists (r_verb cr.2), path.
  - intros (v & path & Hd). now apply (dispatch_unshadowed v path).
Qed.

(** ** What the guards let through *)

(** A session of [p]: the request carries a token that verifies as [p] at some
    instant. *)
Definition session `{JwtService} (req : HttpRequest) (p : JwtPayload) : Prop :=
  exists now token, Guards.JwtAuthGuard.token_of (h_authorization req) = Some token /\ jwt_verify now token = inr p.

Definition allowlisted (allowed : option (list string)) (ip : option string) : Prop :=
  let l := List.filter str_truthy (map trim (default [] allowed)) in
  l = [] \/ exists a, ip = Some a /\ existsb (Network.IpAllowlistGuard.cidrContainsIp (Network.IpAllowlistGuard.normalizeIp a)) l = true.

(** What each guard makes sure of, and the user it leaves. *)
Section Passed.
Context {S : Type} `{HasEnv S} `{JwtService} `{AppGuards S} `{ClassValidator}.

Definition user_known (req : HttpRequest) (user : option JwtPayload) : Prop := forall p, user = Some p -> session req p.

Definition assures (public : bool) (req : HttpRequest) (g : guard) : Prop :=
  match g with
  | JwtAuthGuard => public = true \/ exists p, session req p
  | AdminRoleGuard => exists p, session req p /\ jwt_role p = "admin"
  | IpAllowlistGuard => allowlisted admin_allowed_ips (h_ip req)
  | External f => exists user s s', external_guard f req user s = (inr tt, s')
  end.

Lemma run_guard_passed g public req user s :
  user_known req user ->
  wp (run_guard g public req user) (fun user' _ => user_known req user' /\ assures public req g) (fun _ _ => True) s.
Proof.
  intros Hu. destruct g as [| | |f]; cbn [run_guard assures].
  - unfold Guards.JwtAuthGuard.canActivate. destruct public; [repeat wp_step; auto|].
    destruct (Guards.JwtAuthGuard.token_of _) as [token|] eqn:Ht; [|repeat wp_step; auto].
    repeat wp_step; auto.
    split; [intros p [= <-]|right; eexists]; (eexists _, token; split; [exact Ht|eassumption]).
  - unfold Guards.AdminRoleGuard.canActivate. destruct user as [p|]; cbn [option_map]; repeat wp_step; auto.
    + split; [assumption|]. exists p. split; [now apply Hu|]. apply String.eqb_eq. now apply negb_false_iff.
    + discriminate.
  - unfold Network.IpAllowlistGuard.canActivate, allowlisted. destruct (List.filter _ _) as [|a l] eqn:El; repeat wp_step; auto.
    split; [assumption|]. right. destruct (h_ip req) as [ip|]; [|discriminate].
    exists ip. split; [reflexivity|]. destruct (str_truthy ip); [|discriminate].
    match goal with Hx : _ || _ = false |- _ => apply orb_false_iff in Hx as [_ Hx]; now apply negb_false_iff in Hx end.
  - apply wp_bind. unfold wp. destruct (external_guard f req user s) as [[x|[]] s'] eqn:E; [trivial|]. cbn. eauto 6.
Qed.

Lemma run_guards_passed l public req user s :
  user_known req user ->
  wp (fold_each l user (fun user g => run_guard g public req user))
    (fun user' _ => user_known req user' /\ forall g, In g l -> assures public req g) (fun _ _ => True) s.
Proof.
  revert user s. induction l as [|g l IH]; intros user s Hu; cbn [fold_each].
  { apply wp_ret. split; [assumption|]. intros ? []. }
  apply wp_bind. eapply wp_mono; [now apply run_guard_passed | |trivial].
  cbv beta. intros user' s' [Hu' Hg]. eapply wp_mono; [now apply IH| |trivial].
  cbv beta. intros user'' _ [Hu'' Hl]. split; [assumption|]. intros g' [<-|Hin]; auto.
Qed.

(** C11 A request is only answered by a route when every one of its guards let it
    pass: a route that is not public to a token that verifies, one guarded for
    administrators to an administrator's, one guarded by addresses to a listed
    address; and the call is made with the arguments its handler takes from the
    request and the user of such a token. *)
Theorem answered_requests_passed_their_guards cs req s c r a s' :
  serve cs req s = (inr (c, r, a), s') ->
  dispatch cs (h_verb req) (h_path req) = Some (c, r) /\
  (r_public r = true \/ exists p, session req p) /\
  (forall g, In g (guards_of c r) -> assures (r_public r) req g) /\
  (exists user values, user_known req user /\
    piped (r_params r) req user (default [] (match_path (pattern c r) (h_path req))) = inr values /\
    a = act c r values).
Proof.
  unfold serve. destruct (dispatch _ _ _) as [[c' r']|]; [|discriminate].
  intros Hrun. revert Hrun. unfold bind, run_guards, ret.
  pose proof (run_guards_passed (guards_of c' r') (r_public r') req None s ltac:(unfold user_known; discriminate)) as Hp.
  unfold wp in Hp. destruct (fold_each _ _ _ s) as [[x|user] s1]; [discriminate|]. destruct Hp as [Hu Hg].
  destruct (piped _ req user _) as [x|values] eqn:Ev; [discriminate|].
  intros [= <- <- <- <-]. split; [reflexivity|]. split; [|split; [assumption|now exists user, values]].
  apply (Hg JwtAuthGuard). now left.
Qed.
End Passed.

(** ** Routes that look at nobody *)

Definition looks_at_the_caller (p : param) : bool :=
  match param_source p with Request | CurrentUser => true | _ => false end.

(** A route of another verb than GET that asks for no more than a session and
    does not look at whose it is. *)
Definition unattended (cr : controller * route) : bool :=
  negb (verb_eqb (r_verb cr.2) Get) && negb (r_public cr.2) &&
  match c_guards cr.1 ++ r_guards cr.2 with [] => true | _ => false end &&
  negb (existsb looks_at_the_caller (r_params cr.2)).

Lemma piped_unattended `{ClassValidator} l req u params :
  existsb looks_at_the_caller l = false -> piped l req u params = piped l req None params.
Proof.
  induction l as [|p l IH]; intros Hl; [reflexivity|]. cbn [existsb] in Hl. apply orb_false_iff in Hl as [Hp Hl].
  cbn [piped]. rewrite (IH Hl). unfold piped_value.
  replace (param_value req u params p) with (param_value req None params p); [reflexivity|].
  unfold param_value. unfold looks_at_the_caller in Hp. destruct (param_source p); congruence.
Qed.

(** Those that some request reaches. *)
Definition unattended_routes : list (controller * route) := List.filter unattended (unshadowed [] (table_of application)).

(** Their names. *)
Definition taken_at_their_word : list (verb * string * string) :=
    [(Post, "api/v1/cats", "AppController.createCat");
     (Post, "api/v1/wallets/adjust-balance", "WalletsController.adjustBalance");
     (Post, "api/v1/wallets/auto-sweep/config", "WalletsController.setAutoSweepConfig");
     (Post, "api/v1/wallets/auto-sweep/process", "WalletsController.processAutoSweep");
     (Post, "api/v1/wallets/:accountId/:currency/customize", "WalletsController.updateCustomization");
     (Post, "api/v1/api/v1/transactions/transfer", "TransactionsController.transfer");
     (Post, "api/v1/api/v1/transactions/internal-transfer", "TransactionsController.createInternalTransfer");
     (Post, "api/v1/api/v1/transactions/simulate", "TransactionsController.simulateTransaction");
     (Post, "api/v1/api/v1/transactions/:id/cancel", "TransactionsController.cancel");
     (Post, "api/v1/api/v1/transactions/:id/comments", "TransactionsController.addComment");
     (Post, "api/v1/api/v1/fx/trades", "FxController.executeTrade");
     (Post, "api/v1/api/v1/fx/trades/:id/reverse", "FxController.reverseTrade");
     (Post, "api/v1/currencies/convert-issuer", "CurrenciesController.convertAssetIssuer");
     (Post, "api/v1/auth/forgot-password", "AuthController.forgotPassword");
     (Post, "api/v1/auth/reset-password", "AuthController.resetPassword");
     (Post, "api/v1/auth/verify-email", "AuthController.verifyEmail");
     (Post, "api/v1/auth/resend-verification", "AuthController.resendVerification")].

Lemma unattended_names : map route_name unattended_routes = taken_at_their_word.
Proof. now vm_compute. Qed.

Section Unattended.
Context {S : Type} `{HasEnv S} `{JwtService} `{AppGuards S} `{ClassValidator}.

(** C28 Seventeen of the application's routes, which answer POST, ask for no more
    than a token that verifies and do not look at whose it is.  When a request
    is dispatched to one of them with a token that verifies at the instant the
    guard reads the clock, and the throttler lets it pass, the call is made that
    the request says - with the arguments it would have without a user. *)
Theorem unattended_routes_serve_any_session cr req token p s s' :
  In cr unattended_routes ->
  dispatch application (h_verb req) (h_path req) = Some cr ->
  Guards.JwtAuthGuard.token_of (h_authorization req) = Some token -> token <> "" ->
  jwt_verify (clock (env_of s) (tick (env_of s))) token = inr p ->
  external_guard "@nestjs/throttler" req (Some p) (set_env (next_tick (env_of s)) s) = (inr tt, s') ->
  serve application req s =
    match piped (r_params cr.2) req None (default [] (match_path (pattern cr.1 cr.2) (h_path req))) with
    | inl x => (inl x, s')
    | inr values => (inr (cr.1, cr.2, act cr.1 cr.2 values), s')
    end /\
  r_public cr.2 = false /\ In (route_name cr) taken_at_their_word /\ map route_name unattended_routes = taken_at_their_word.
Proof.
  intros Hin Hd Ht Hne Hv Hth.
  assert (Hnames : In (route_name cr) taken_at_their_word) by (rewrite <- unattended_names; now apply in_map).
  apply filter_In in Hin as [_ Hu]. destruct cr as [c r]. unfold unattended in Hu. cbn [fst snd] in *.
  apply andb_true_iff in Hu as [Hu Hl]. apply andb_true_iff in Hu as [Hu Hg]. apply andb_true_iff in Hu as [_ Hpub].
  apply negb_true_iff in Hl, Hpub. split; [|auto using unattended_names].
  assert (Hgs : guards_of c r = global_guards).
  { unfold guards_of. destruct (c_guards c ++ r_guards r); [now rewrite app_nil_r|discriminate]. }
  unfold serve. rewrite Hd, Hgs, Hpub. unfold run_guards, global_guards. cbn [fold_each run_guard].
  unfold Guards.JwtAuthGuard.canActivate. rewrite Ht.
  replace (str_truthy token) with true by (destruct token; [congruence|reflexivity]).
  unfold bind, date_now, ret. rewrite Hv, Hth, (piped_unattended _ _ (Some p) _ Hl). now destruct (piped _ _ _ _).
Qed.
End Unattended.


(** ** The identity of administrators *)

(** The handlers of the administrators' controller that say who acts. *)
Definition signed_handlers : list route :=
  [AdminController.overrideTransactionStatus; AdminController.updateUserStatus; AdminController.updateUserRole;
   AdminController.impersonateUser; AdminController.updateSpread; AdminController.requestApproval;
   AdminController.approveRequest].
Definition caller_id : expr := Dot (Dot (Var "req") "user") "id".
Definition arguments (r : route) : list expr := match r_action r with Delegates _ _ _ args => args | Follows _ | Handles => [] end.

(** The value of a parameter is what the pipes made of it. *)
Lemma piped_lookup `{ClassValidator} l req u params values q v :
  piped l req u params = inr values -> In q l -> NoDup (map param_id l) -> piped_value req u params q = inr v ->
  obj_get (param_id q) values = Some v.
Proof.
  revert values. induction l as [|p l IH]; intros values Hv Hin Hnd Hq; [contradiction|]. cbn [piped] in Hv.
  destruct (piped_value req u params p) as [x|w] eqn:Ep; [discriminate|]. destruct (piped l req u params) as [x|o] eqn:El; [discriminate|].
  injection Hv as <-. cbn [map] in Hnd. apply NoDup_cons in Hnd as [Hn Hnd]. cbn [obj_get].
  destruct Hin as [->|Hin]; [rewrite String.eqb_refl; congruence|].
  destruct (String.eqb_spec (param_id q) (param_id p)) as [E|]; [|now apply IH].
  exfalso. apply Hn, list_elem_of_In. rewrite <- E. now apply in_map.
Qed.

(** The user their guard leaves has no id, so that each of them hands undefined
    for who acts: the audit trail does not say who, and the two parties of an
    approval are the same. *)
Theorem administrators_act_anonymously `{ClassValidator} r c req (p : JwtPayload) params values :
  In r signed_handlers -> piped (r_params r) req (Some p) params = inr values ->
  In caller_id (arguments r) /\
  exists svc m args, act c r values = Calls svc m args /\
    Forall2 (fun e v => e = caller_id -> v = Some JUndefined) (arguments r) args.
Proof.
  intros Hin Hv.
  assert (Hreq : obj_get "req" values = Some (param_value req (Some p) params (mkParam Request None "req" NotPiped))).
  { apply (piped_lookup (r_params r) req (Some p) params values (mkParam Request None "req" NotPiped)); [assumption|..|reflexivity];
      repeat (destruct Hin as [<-|Hin]; [first [cbn; tauto | apply (bool_decide_unpack _); vm_compute; exact I]|]); contradiction. }
  assert (He : eval values caller_id = Some JUndefined).
  { cbn [eval caller_id]. rewrite Hreq. destruct p as [sub email role [ty|] [ex|]]; reflexivity. }
  clear Hv Hreq. repeat (destruct Hin as [<-|Hin]); [.. | contradiction];
  (split; [cbn; tauto|]); do 3 eexists; (split; [reflexivity|]);
  cbn [arguments r_action map bind_consts AdminController.overrideTransactionStatus AdminController.updateUserStatus AdminController.updateUserRole
    AdminController.impersonateUser AdminController.updateSpread AdminController.requestApproval AdminController.approveRequest];
  repeat constructor; intros E; try (discriminate E); exact He.
Qed.

(** ** Handlers in statements *)

(** Whose request it is, as many handlers ask: the payload has no id. *)
Definition id_or_sub : expr := Or (OptDot (Dot (Var "req") "user") "id") (OptDot (Dot (Var "req") "user") "sub").
Definition asks_who (r : route) : bool :=
  match r_action r with
  | Follows (Let x e :: Call _ _ _ _ :: _) =>
      String.eqb x "userId" && match e with
        | Or (OptDot (Dot (Var a) b) c) (OptDot (Dot (Var a') b') c') =>
            String.eqb a "req" && String.eqb b "user" && String.eqb c "id" && String.eqb a' "req" && String.eqb b' "user" && String.eqb c' "sub"
        | _ => false
        end
  | _ => false
  end.

Lemma asks_who_inv r : asks_who r = true ->
  exists x svc m args body, r_action r = Follows (Let "userId" id_or_sub :: Call x svc m args :: body).
Proof.
  unfold asks_who. destruct (r_action r) as [|[|[y e| | |] [|[|x svc m args| |] body]]|]; try discriminate.
  intros [Hy He]%andb_true_iff. apply String.eqb_eq in Hy as ->.
  destruct e; try discriminate. destruct e1; try discriminate. destruct e1; try discriminate. destruct e1; try discriminate.
  destruct e2; try discriminate. destruct e2; try discriminate. destruct e2; try discriminate.
  repeat (apply andb_true_iff in He as [He ?]). repeat match goal with Hx : String.eqb _ _ = true |- _ => apply String.eqb_eq in Hx as -> end.
  now do 5 eexists.
Qed.

(** Those of the application: the keys of its clients and the addresses of its
    federation. *)
Lemma identified_handlers :
  map route_name (List.filter (fun cr => asks_who cr.2) (table_of application)) =
    [(Post, "api/v1/api/v1/federation", "FederationController.create");
     (Get, "api/v1/api/v1/federation", "FederationController.list");
     (Delete, "api/v1/api/v1/federation/:id", "FederationController.delete");
     (Post, "api/v1/api/v1/api-keys", "ApiKeysController.create");
     (Get, "api/v1/api/v1/api-keys", "ApiKeysController.list");
     (Patch, "api/v1/api/v1/api-keys/:id/revoke", "ApiKeysController.revoke")].
Proof. now vm_compute. Qed.

Definition request_param : param := mkParam Request None "req" NotPiped.
Definition hands_who (r : route) : bool :=
  existsb (fun p => match p with mkParam Request None n NotPiped => String.eqb n "req" | _ => false end) (r_params r) &&
  bool_decide (NoDup (map param_id (r_params r))) &&
  match r_action r with
  | Follows (_ :: Call _ _ _ args :: _) => existsb (fun e => match e with Var x => String.eqb x "userId" | _ => false end) args
  | _ => false
  end.

(** The session's user reads as its subject. *)
Lemma id_or_sub_is_the_subject `{ClassValidator} r req p params values :
  hands_who r = true -> piped (r_params r) req (Some p) params = inr values -> jwt_sub p <> "" ->
  eval values id_or_sub = Some (JStr (jwt_sub p)).
Proof.
  unfold hands_who. intros [[Hreq Hnd]%andb_true_iff _]%andb_true_iff Hv Hne.
  apply existsb_exists in Hreq as ([[] [] n []] & Hin & En); try discriminate. apply String.eqb_eq in En as ->.
  apply bool_decide_eq_true in Hnd. pose proof (piped_lookup _ _ _ _ _ _ _ Hv Hin Hnd eq_refl) as Hl. cbn [param_id] in Hl.
  cbn [eval id_or_sub]. rewrite Hl. destruct p as [[|c sub] email role [ty|] [ex|]]; [now destruct Hne..| | | |]; reflexivity.
Qed.

(** Each of them hands its service the subject of the session whose request it
    is, whatever the body says. *)
Theorem identified_handlers_act_for_the_caller `{ClassValidator} cr req p params values :
  In cr (List.filter (fun cr => asks_who cr.2) (table_of application)) ->
  piped (r_params cr.2) req (Some p) params = inr values -> jwt_sub p <> "" ->
  exists x svc m args body, r_action cr.2 = Follows (Let "userId" id_or_sub :: Call x svc m args :: body) /\
    In (Var "userId") args /\
    forall S (services : string -> string -> list json -> M S json) s,
      execute services (Let "userId" id_or_sub :: Call x svc m args :: body) values s =
      execute services (Call x svc m args :: body) (obj_set "userId" (JStr (jwt_sub p)) values) s.
Proof.
  intros Hin Hv Hne.
  assert (Hall : forallb (fun cr => hands_who cr.2) (List.filter (fun cr => asks_who cr.2) (table_of application)) = true) by now vm_compute.
  rewrite forallb_forall in Hall. pose proof (Hall _ Hin) as Hh. apply filter_In in Hin as [_ Ha].
  destruct (asks_who_inv _ Ha) as (x & svc & m & args & body & E). exists x, svc, m, args, body. split; [exact E|]. split.
  - unfold hands_who in Hh. rewrite E in Hh. apply andb_true_iff in Hh as [_ Hh]. apply existsb_exists in Hh as ([y| | | | | | | | | | | | | | | | | | |] & Hy & Ey); try discriminate.
    now apply String.eqb_eq in Ey as ->.
  - intros S services s. cbn [execute]. unfold bind at 1, evaluate at 1.
    now rewrite (id_or_sub_is_the_subject _ _ _ _ _ Hh Hv Hne).
Qed.

(** ** At work *)

#[local] Existing Instance documented.
Definition ada : JwtPayload := mkJwt "ada" "ada@nexafx.io" "user" None None.
Definition demo_jwt : JwtService :=
  {| jwt_verify := fun _ t => if String.eqb t "ada's" then inr ada
                              else inl (PlainError "invalid signature");
     jwt_sign := fun _ _ => "" |}.
Definition demo_guards : AppGuards Env := {| external_guard := fun _ _ _ => ret tt; admin_allowed_ips := Some ["10.0.0.0/8"] |}.
#[local] Program Instance env_itself : HasEnv Env := {| env_of := fun e => e; set_env := fun e _ => e |}.
Definition surface_env : Env := mkEnv (fun n => Z.of_nat n) 0 (fun _ => None) 0 (fun _ => ("u"%char, "")) 0 (fun _ => num_of_Z 0) 0 [].
#[local] Existing Instances demo_jwt demo_guards.

Definition bob : string := "0b5e8c1a-3d0f-4f5e-9c55-1a7c1e0f0001".
Definition adjusting : HttpRequest :=
  mkHttp Post ["api"; "v1"; "wallets"; "adjust-balance"] (OneHeader "Bearer ada's") [] []
    (JObj fifty_less) (Some "203.0.113.9").

(** Ada takes fifty dollars from Bob's account. *)
Lemma unattended_routes_serve_any_session_witness :
  exists s', serve application adjusting surface_env =
    (inr (WalletsController.controller, WalletsController.adjustBalance,
          Calls "walletsService" "adjustBalance" [Some (JStr bob); Some (JStr "USD"); Some (JNum (num_of_Z (-50)))]), s').
Proof.
  destruct (unattended_routes_serve_any_session (WalletsController.controller, WalletsController.adjustBalance)
    adjusting "ada's" ada surface_env (next_tick surface_env)) as [E _].
  - apply (nth_error_In _ 1). vm_compute. reflexivity.
  - vm_compute. reflexivity.
  - vm_compute. reflexivity.
  - discriminate.
  - vm_compute. reflexivity.
  - reflexivity.
  - exists (next_tick surface_env). rewrite E. vm_compute. reflexivity.
Defined.

Lemma answered_requests_passed_their_guards_witness :
  Guards.JwtAuthGuard.token_of (h_authorization adjusting) = Some "ada's" /\ exists p, session adjusting p.
Proof.
  split; [vm_compute; reflexivity|].
  destruct (answered_requests_passed_their_guards application adjusting surface_env WalletsController.controller
    WalletsController.adjustBalance
    (Calls "walletsService" "adjustBalance" [Some (JStr bob); Some (JStr "USD"); Some (JNum (num_of_Z (-50)))])
    (next_tick surface_env)) as (_ & [E|E] & _); [vm_compute; reflexivity|discriminate|exact E].
Defined.

(** A forgotten password cannot be asked for without a token. *)
Example forgot_password_needs_a_token :
  (serve application (mkHttp Post ["api"; "v1"; "auth"; "forgot-password"] NoHeader [] [] (JObj [("email", JStr "ada@nexafx.io")]) None)
    surface_env).1 = inl (UnauthorizedException "Missing bearer token").
Proof. now vm_compute. Qed.

(** The paths the controllers mean are not the paths they answer. *)
Example doubled_prefix :
  dispatch application Get ["api"; "v1"; "fx"; "trades"] = None /\
  option_map route_name (dispatch application Post ["api"; "v1"; "api"; "v1"; "fx"; "trades"]) =
    Some (Post, "api/v1/api/v1/fx/trades", "FxController.executeTrade").
Proof. split; now vm_compute. Qed.

(** The administrators' controllers are mounted by no module of the application. *)
Example admin_controllers_are_not_mounted :
  existsb (fun c => String.eqb (c_name c) "AdminController") application = false /\
  existsb (fun c => String.eqb (c_name c) "AdminController") controllers = true.
Proof. now vm_compute. Qed.

(** Revoking sessions answers that they are revoked and asks no service for it. *)
Example sessions_are_not_revoked services :
  let values := [("id", JStr "s1"); ("req", JObj [("user", user_json (Some ada))])] in
  match r_action SessionsController.revokeSession with
  | Follows body => execute services body values surface_env =
      (inr (JObj [("message", JStr "Session s1 revoked for user ada")]), surface_env)
  | _ => False
  end.
Proof. now vm_compute. Qed.

(** A client's name for its key is not what decides whose key it is. *)
Lemma identified_handlers_act_for_the_caller_witness : exists body services,
  r_action ApiKeysController.list_ = Follows body /\
  execute services body [("req", JObj [("user", user_json (Some ada))])] surface_env =
    (inr (JObj [("success", JBool true); ("data", JArr [JStr "ada"])]), surface_env).
Proof.
  destruct (identified_handlers_act_for_the_caller (ApiKeysController.controller, ApiKeysController.list_) adjusting ada []
    [("req", JObj [("user", user_json (Some ada)); ("headers", JObj []); ("ip", JStr "203.0.113.9")])])
    as (x & svc & m & args & body & E & _ & Ex).
  - apply (nth_error_In _ 4). now vm_compute.
  - now vm_compute.
  - discriminate.
  - exists (Let "userId" id_or_sub :: Call x svc m args :: body), (fun _ _ args => ret (JArr args)). split; [exact E|].
    cbn [snd] in E. injection E as <- <- <- <- <-. now vm_compute.
Defined.
