(* ===== verification/Metrics.v ===== *)
(** metrics/metrics.service.ts and metrics/metrics.interceptor.ts: the counters
    and histograms of HTTP requests, the text they are exposed as, and what the
    interceptor records of a request. *)
From Stdlib Require Import DecimalString.
From S2P Require Import Prelude JsNumber NumberLaws Effects JsData Json.
Local Open Scope Z_scope.

Definition Labels : Type := list (string * string).
Record Counter : Type := mkCounter { value : Z; c_labels : Labels }.
Record Histogram : Type := mkHistogram {
  sum : num;
  count : Z;
  buckets : list (num * Z);          (* in the order of latencyBuckets *)
  h_labels : Labels
}.
Record MetricsState : Type := mkMetrics {
  httpRequestCounters : list (string * Counter);
  httpLatencyHistograms : list (string * Histogram);
  stellarSuccessTotal : Z;
  stellarFailureTotal : Z;
  activeWsConnections : Z;
  bullQueueDepths : list (string * Z)
}.
Definition initial : MetricsState := mkMetrics [] [] 0 0 0 [].

Module MetricsService.
(** 0.005, 0.01, 0.025, 0.05, 0.1, 0.25, 0.5, 1, 2.5, 5, 10. *)
Definition latencyBuckets : list num :=
  [num_of_decimal 5 (-3); num_of_decimal 1 (-2); num_of_decimal 25 (-3); num_of_decimal 5 (-2); num_of_decimal 1 (-1);
   num_of_decimal 25 (-2); num_of_decimal 5 (-1); num_of_Z 1; num_of_decimal 25 (-1); num_of_Z 5; num_of_Z 10].

(** A Map whose keys are numbers. *)
Fixpoint bucket_get (b : num) (l : list (num * Z)) : option Z :=
  match l with
  | [] => None
  | (b', n) :: l' => if num_eqb b' b then Some n else bucket_get b l'
  end.
Fixpoint bucket_set (b : num) (n : Z) (l : list (num * Z)) : list (num * Z) :=
  match l with
  | [] => [(b, n)]
  | (b', n') :: l' => if num_eqb b' b then (b', n) :: l' else (b', n') :: bucket_set b n l'
  end.

Definition labelKey (method route : string) (statusCode : Z) : string :=
  method +:+ "|" +:+ route +:+ "|" +:+ string_of_Z statusCode.
Definition latencyKey (method route : string) : string := method +:+ "|" +:+ route.

Definition count_request (method route : string) (statusCode : Z) (l : list (string * Counter)) : list (string * Counter) :=
  let k := labelKey method route statusCode in
  match map_get k l with
  | Some existing => map_set k (mkCounter (value existing + 1) (c_labels existing)) l
  | None => map_set k (mkCounter 1 [("method", method); ("route", route); ("status_code", string_of_Z statusCode)]) l
  end.

Definition fill_buckets (durationSeconds : num) (bs : list num) (l : list (num * Z)) : list (num * Z) :=
  fold_left (fun l b => if (durationSeconds <=? b)%num then bucket_set b (default 0 (bucket_get b l) + 1) l else l) bs l.

Definition time_request (method route : string) (durationMs : num) (l : list (string * Histogram)) : list (string * Histogram) :=
  let k := latencyKey method route in
  let durationSeconds := (durationMs / num_of_Z 1000)%num in
  let hist := match map_get k l with
              | Some h => h
              | None => mkHistogram (num_of_Z 0) 0 (map (fun b => (b, 0)) latencyBuckets) [("method", method); ("route", route)]
              end in
  map_set k (mkHistogram (sum hist + durationSeconds)%num (count hist + 1)
               (fill_buckets durationSeconds latencyBuckets (buckets hist)) (h_labels hist)) l.

Definition recordHttpRequest (method route : string) (statusCode : Z) (durationMs : num) (s : MetricsState) : MetricsState :=
  mkMetrics (count_request method route statusCode (httpRequestCounters s))
            (time_request method route durationMs (httpLatencyHistograms s))
            (stellarSuccessTotal s) (stellarFailureTotal s) (activeWsConnections s) (bullQueueDepths s).

Definition incrementStellarSuccess (s : MetricsState) : MetricsState :=
  mkMetrics (httpRequestCounters s) (httpLatencyHistograms s) (stellarSuccessTotal s + 1) (stellarFailureTotal s)
            (activeWsConnections s) (bullQueueDepths s).
Definition incrementStellarFailure (s : MetricsState) : MetricsState :=
  mkMetrics (httpRequestCounters s) (httpLatencyHistograms s) (stellarSuccessTotal s) (stellarFailureTotal s + 1)
            (activeWsConnections s) (bullQueueDepths s).
Definition setActiveWsConnections (n : Z) (s : MetricsState) : MetricsState :=
  mkMetrics (httpRequestCounters s) (httpLatencyHistograms s) (stellarSuccessTotal s) (stellarFailureTotal s)
            n (bullQueueDepths s).
Definition setBullQueueDepth (queue : string) (depth : Z) (s : MetricsState) : MetricsState :=
  mkMetrics (httpRequestCounters s) (httpLatencyHistograms s) (stellarSuccessTotal s) (stellarFailureTotal s)
            (activeWsConnections s) (map_set queue depth (bullQueueDepths s)).

(** ** The text *)

Definition quoted (s : string) : string := quote +:+ s +:+ quote.
Definition formatLabels (labels : Labels) : string :=
  join "," (map (fun '(k, v) => k +:+ "=" +:+ quoted v) labels).

Definition counter_line (labels : Labels) (n : Z) : string :=
  "http_requests_total{" +:+ formatLabels labels +:+ "} " +:+ string_of_Z n.
Definition bucket_line (l le : string) (n : Z) : string :=
  "http_request_duration_seconds_bucket{" +:+ l +:+ ",le=" +:+ quoted le +:+ "} " +:+ string_of_Z n.
Definition sum_line (l : string) (x : num) : string :=
  "http_request_duration_seconds_sum{" +:+ l +:+ "} " +:+ num_to_string x.
Definition count_line (l : string) (n : Z) : string :=
  "http_request_duration_seconds_count{" +:+ l +:+ "} " +:+ string_of_Z n.

Definition histogram_lines (h : Histogram) : list string :=
  let l := formatLabels (h_labels h) in
  map (fun '(le, n) => bucket_line l (num_to_string le) n) (buckets h) ++
  [bucket_line l "+Inf" (count h); sum_line l (sum h); count_line l (count h)].

Definition lines (s : MetricsState) : list string :=
  ["# HELP http_requests_total Total number of HTTP requests"; "# TYPE http_requests_total counter"] ++
  map (fun '(_, c) => counter_line (c_labels c) (value c)) (httpRequestCounters s) ++
  ["# HELP http_request_duration_seconds HTTP request latency histogram"; "# TYPE http_request_duration_seconds histogram"] ++
  flat_map (fun '(_, h) => histogram_lines h) (httpLatencyHistograms s) ++
  ["# HELP stellar_submission_total Stellar transaction submissions"; "# TYPE stellar_submission_total counter";
   "stellar_submission_total{result=" +:+ quoted "success" +:+ "} " +:+ string_of_Z (stellarSuccessTotal s);
   "stellar_submission_total{result=" +:+ quoted "failure" +:+ "} " +:+ string_of_Z (stellarFailureTotal s);
   "# HELP websocket_connections_active Active WebSocket connections"; "# TYPE websocket_connections_active gauge";
   "websocket_connections_active " +:+ string_of_Z (activeWsConnections s);
   "# HELP bull_queue_depth Bull queue waiting job count"; "# TYPE bull_queue_depth gauge"] ++
  map (fun '(q, d) => "bull_queue_depth{queue=" +:+ quoted q +:+ "} " +:+ string_of_Z d) (bullQueueDepths s).

Definition newline : string := String (ascii_of_nat 10) "".
Definition exposition (s : MetricsState) : string := join newline (lines s) +:+ newline.
End MetricsService.

(** ** MetricsInterceptor *)

Module MetricsInterceptor.
(** What it records of a request: [statusCode] is the response's when the handler
    has answered or thrown, set by the framework to the route's own before the
    handler runs, and 200 before that. *)
Definition route_label (route_path path : option string) : string := default "unknown" (match route_path with Some p => Some p | None => path end).
Definition recorded_status (failed : bool) (statusCode : Z) : Z :=
  if failed then (if statusCode =? 0 then 500 else statusCode) else statusCode.
Definition intercept (method : string) (route_path path : option string) (failed : bool) (statusCode start now : Z) (s : MetricsState) : MetricsState :=
  MetricsService.recordHttpRequest method (route_label route_path path) (recorded_status failed statusCode) (num_of_Z (now - start)) s.
End MetricsInterceptor.

(** ** Keys *)

Lemma app_char_inj c a b x y :
  no_char c a = true -> no_char c b = true -> a +:+ String c x = b +:+ String c y -> a = b /\ x = y.
Proof.
  revert b. induction a as [|d a IH]; intros [|e b] Ha Hb E; cbn in *.
  - now injection E.
  - injection E as -> _. now rewrite Ascii.eqb_refl in Hb.
  - injection E as -> _. now rewrite Ascii.eqb_refl in Ha.
  - injection E as -> E. apply andb_true_iff in Ha as [_ Ha], Hb as [_ Hb]. destruct (IH b Ha Hb E) as [-> ->]. now split.
Qed.

Lemma app_char_inj_last c a b x y :
  no_char c x = true -> no_char c y = true -> a +:+ String c x = b +:+ String c y -> a = b /\ x = y.
Proof.
  intros Hx Hy. assert (Hno : forall p z, no_char c (p +:+ String c z) = false).
  { intros p z. rewrite no_char_app. cbn. rewrite Ascii.eqb_refl. now rewrite andb_comm. }
  revert b. induction a as [|d a IH]; intros [|e b] E; cbn in *.
  - now injection E.
  - injection E as _ E. rewrite E in Hx. change (no_char c (b +:+ String c y) = true) in Hx. now rewrite Hno in Hx.
  - injection E as _ E. rewrite <- E in Hy. change (no_char c (a +:+ String c x) = true) in Hy. now rewrite Hno in Hy.
  - injection E as -> E. destruct (IH b E) as [-> ->]. now split.
Qed.

Lemma no_bar_status z : 0 <= z -> no_char "|" (string_of_Z z) = true.
Proof.
  intros Hz. rewrite string_of_Z_nonneg by assumption. unfold string_of_N.
  assert (Hu : forall u, no_char "|" (NilEmpty.string_of_uint u) = true) by (intros u; induction u; simpl; auto).
  destruct (N.to_uint _); [reflexivity|apply Hu..].
Qed.

Lemma status_inj z z' : 0 <= z -> 0 <= z' -> string_of_Z z = string_of_Z z' -> z = z'.
Proof. intros Hz Hz' E. pose proof (parse_digits_string_of_Z z Hz) as H. rewrite E, parse_digits_string_of_Z in H by assumption. now injection H. Qed.

(** A method has no bar in it, and a status is a natural number. *)
Definition method_ok (m : string) : Prop := no_char "|" m = true.

Lemma latencyKey_inj m r m' r' : method_ok m -> method_ok m' ->
  MetricsService.latencyKey m r = MetricsService.latencyKey m' r' -> m = m' /\ r = r'.
Proof. intros Hm Hm' E. exact (app_char_inj "|" m m' r r' Hm Hm' E). Qed.

Lemma labelKey_inj m r st m' r' st' : method_ok m -> method_ok m' -> 0 <= st -> 0 <= st' ->
  MetricsService.labelKey m r st = MetricsService.labelKey m' r' st' -> m = m' /\ r = r' /\ st = st'.
Proof.
  intros Hm Hm' Hs Hs' E.
  destruct (app_char_inj "|" m m' (r +:+ "|" +:+ string_of_Z st) (r' +:+ "|" +:+ string_of_Z st') Hm Hm' E) as [-> E'].
  destruct (app_char_inj_last "|" r r' _ _ (no_bar_status _ Hs) (no_bar_status _ Hs') E') as [-> E''].
  auto using status_inj.
Qed.

(** ** Buckets *)

Definition distinct_buckets (bs : list num) : Prop := ForallOrdPairs (fun a b => num_eqb a b = false) bs.

Lemma bucket_get_skip pre b rest : (forall e, In e pre -> num_eqb e.1 b = false) ->
  MetricsService.bucket_get b (pre ++ rest) = MetricsService.bucket_get b rest.
Proof.
  induction pre as [|[b' n] pre IH]; intros Hp; [reflexivity|]. cbn [app MetricsService.bucket_get].
  pose proof (Hp (b', n) (or_introl eq_refl)) as Hb. cbn [fst] in Hb. rewrite Hb. apply IH. intros e He. apply Hp. now right.
Qed.
Lemma bucket_set_skip pre b n rest : (forall e, In e pre -> num_eqb e.1 b = false) ->
  MetricsService.bucket_set b n (pre ++ rest) = pre ++ MetricsService.bucket_set b n rest.
Proof.
  induction pre as [|[b' n'] pre IH]; intros Hp; [reflexivity|]. cbn [app MetricsService.bucket_set].
  pose proof (Hp (b', n') (or_introl eq_refl)) as Hb. cbn [fst] in Hb. rewrite Hb, IH; [reflexivity|]. intros e He. apply Hp. now right.
Qed.

Lemma fill_buckets_from d (f : num -> Z) bs : distinct_buckets bs -> Forall (fun b => num_eqb b b = true) bs ->
  forall pre, (forall e b, In e pre -> In b bs -> num_eqb e.1 b = false) ->
  MetricsService.fill_buckets d bs (pre ++ map (fun b => (b, f b)) bs) =
  pre ++ map (fun b => (b, f b + if (d <=? b)%num then 1 else 0)) bs.
Proof.
  intros Hd Hr. induction bs as [|b bs IH]; intros pre Hpre; [reflexivity|].
  inversion Hd as [|? ? Hb Hd']; inversion Hr as [|? ? Hbb Hr']; subst. unfold MetricsService.fill_buckets. cbn [fold_left map].
  assert (Hskip : forall e, In e pre -> num_eqb e.1 b = false) by (intros e He; apply Hpre; [assumption|now left]).
  set (v := f b + if (d <=? b)%num then 1 else 0).
  assert (Hstep : (if (d <=? b)%num
     then MetricsService.bucket_set b (default 0 (MetricsService.bucket_get b (pre ++ (b, f b) :: map (fun b => (b, f b)) bs)) + 1)
            (pre ++ (b, f b) :: map (fun b => (b, f b)) bs)
     else pre ++ (b, f b) :: map (fun b => (b, f b)) bs) = (pre ++ [(b, v)]) ++ map (fun b => (b, f b)) bs).
  { unfold v. rewrite <- app_assoc. cbn [app]. destruct (d <=? b)%num; [|now rewrite Z.add_0_r].
    rewrite bucket_set_skip, bucket_get_skip by assumption.
    cbn [MetricsService.bucket_get MetricsService.bucket_set]. now rewrite Hbb. }
  rewrite Hstep. unfold MetricsService.fill_buckets in IH. rewrite IH; auto.
  - now rewrite <- app_assoc.
  - intros e c He Hc. apply in_app_iff in He as [He|[<-|[]]]; [apply Hpre; [assumption|now right]|].
    cbn [fst]. rewrite List.Forall_forall in Hb. now apply Hb.
Qed.

Lemma latencyBuckets_distinct : distinct_buckets MetricsService.latencyBuckets.
Proof. unfold distinct_buckets, MetricsService.latencyBuckets. repeat constructor; now vm_compute. Qed.
Lemma latencyBuckets_refl : Forall (fun b => num_eqb b b = true) MetricsService.latencyBuckets.
Proof. repeat constructor; now vm_compute. Qed.

Lemma fill_latencyBuckets d f :
  MetricsService.fill_buckets d MetricsService.latencyBuckets (map (fun b => (b, f b)) MetricsService.latencyBuckets) =
  map (fun b => (b, f b + if (d <=? b)%num then 1 else 0)) MetricsService.latencyBuckets.
Proof. apply (fill_buckets_from d f _ latencyBuckets_distinct latencyBuckets_refl []). intros e b []. Qed.

(** ** What has been recorded *)

Record Request : Type := mkRequest { q_method : string; q_route : string; q_status : Z; q_duration : num }.
Definition request_ok (q : Request) : Prop := method_ok (q_method q) /\ 0 <= q_status q.

Definition record (s : MetricsState) (q : Request) : MetricsState :=
  MetricsService.recordHttpRequest (q_method q) (q_route q) (q_status q) (q_duration q) s.
Definition recorded (h : list Request) : MetricsState := fold_left record h initial.

Definition of_route (m r : string) (q : Request) : bool := String.eqb (q_method q) m && String.eqb (q_route q) r.
Definition seconds (q : Request) : num := (q_duration q / num_of_Z 1000)%num.

(** The reference: counts over the requests themselves. *)
Definition number (p : Request -> bool) (h : list Request) : Z := Z.of_nat (length (List.filter p h)).
Definition with_status (m r : string) (st : Z) (h : list Request) : Z := number (fun q => of_route m r q && (q_status q =? st)) h.
Definition within (m r : string) (b : num) (h : list Request) : Z := number (fun q => of_route m r q && (seconds q <=? b)%num) h.
Definition total_seconds (m r : string) (h : list Request) : num :=
  fold_left (fun x q => (x + seconds q)%num) (List.filter (of_route m r) h) (num_of_Z 0).

Lemma number_snoc p h q : number p (h ++ [q]) = number p h + (if p q then 1 else 0).
Proof. unfold number. rewrite List.filter_app, length_app, Nat2Z.inj_add. f_equal. cbn. now destruct (p q). Qed.

Definition counter_of (m r : string) (st : Z) (h : list Request) : option Counter :=
  if with_status m r st h =? 0 then None
  else Some (mkCounter (with_status m r st h) [("method", m); ("route", r); ("status_code", string_of_Z st)]).
Definition histogram_of (m r : string) (h : list Request) : option Histogram :=
  if number (of_route m r) h =? 0 then None
  else Some (mkHistogram (total_seconds m r h) (number (of_route m r) h)
               (map (fun b => (b, within m r b h)) MetricsService.latencyBuckets) [("method", m); ("route", r)]).

Lemma recorded_snoc h q : recorded (h ++ [q]) = record (recorded h) q.
Proof. unfold recorded. now rewrite fold_left_app. Qed.

Lemma number_nonneg p h : 0 <= number p h.
Proof. unfold number. lia. Qed.

Lemma number_zero_not p h : (number p h =? 0) = true -> List.filter p h = [].
Proof. unfold number. intros E. apply Z.eqb_eq in E. destruct (List.filter p h); [reflexivity|cbn [length] in E; lia]. Qed.

Lemma filter_andb_comm_nil {A} (p r : A -> bool) h : List.filter p h = [] -> List.filter (fun q => p q && r q) h = [].
Proof.
  induction h as [|q h IH]; cbn; [reflexivity|]. destruct (p q); [discriminate|]. exact IH.
Qed.

Lemma of_route_self q : of_route (q_method q) (q_route q) q = true.
Proof. unfold of_route. now rewrite !String.eqb_refl. Qed.


Lemma counters_recorded h m r st : Forall request_ok h -> method_ok m -> 0 <= st ->
  map_get (MetricsService.labelKey m r st) (httpRequestCounters (recorded h)) = counter_of m r st h.
Proof.
  intros Hh Hm Hs. induction h as [|q h IH] using rev_ind; [reflexivity|].
  apply List.Forall_app in Hh as [Hh Hq]. specialize (IH Hh). apply List.Forall_inv in Hq as [Hqm Hqs].
  rewrite recorded_snoc. unfold record, MetricsService.recordHttpRequest. cbn [httpRequestCounters]. unfold MetricsService.count_request.
  set (l := httpRequestCounters (recorded h)) in *. set (p := fun q => of_route m r q && (q_status q =? st)).
  assert (Hsnoc : with_status m r st (h ++ [q]) = with_status m r st h + if p q then 1 else 0) by apply number_snoc.
  destruct (p q) eqn:Ep.
  - unfold p, of_route in Ep. apply andb_true_iff in Ep as [Ep Est]. apply andb_true_iff in Ep as [Em Er].
    apply String.eqb_eq in Em, Er. apply Z.eqb_eq in Est. rewrite Em, Er, Est, IH. unfold counter_of. rewrite Hsnoc.
    pose proof (number_nonneg p h) as Hn. change (number p h) with (with_status m r st h) in Hn.
    destruct (Z.eqb_spec (with_status m r st h + 1) 0); [lia|].
    destruct (Z.eqb_spec (with_status m r st h) 0) as [E0|]; cbv iota beta; rewrite map_get_set; [now rewrite E0|reflexivity].
  - assert (Hne : MetricsService.labelKey (q_method q) (q_route q) (q_status q) <> MetricsService.labelKey m r st).
    { intros E. apply labelKey_inj in E as (E1 & E2 & E3); auto. unfold p in Ep. rewrite <- E1, <- E2, <- E3, of_route_self, Z.eqb_refl in Ep. discriminate. }
    unfold counter_of. rewrite Hsnoc, Z.add_0_r. change (map_get (MetricsService.labelKey m r st) l = counter_of m r st h) in IH.
    destruct (map_get (MetricsService.labelKey (q_method q) (q_route q) (q_status q)) l);
      (rewrite map_get_set_ne by assumption; exact IH).
Qed.

Lemma histograms_recorded h m r : Forall request_ok h -> method_ok m ->
  map_get (MetricsService.latencyKey m r) (httpLatencyHistograms (recorded h)) = histogram_of m r h.
Proof.
  intros Hh Hm. induction h as [|q h IH] using rev_ind; [reflexivity|].
  apply List.Forall_app in Hh as [Hh Hq]. specialize (IH Hh). apply List.Forall_inv in Hq as [Hqm Hqs].
  rewrite recorded_snoc. unfold record, MetricsService.recordHttpRequest. cbn [httpLatencyHistograms]. unfold MetricsService.time_request.
  set (l := httpLatencyHistograms (recorded h)) in *. change (q_duration q / num_of_Z 1000)%num with (seconds q).
  pose proof (number_nonneg (of_route m r) h) as Hn.
  assert (Hsnoc : number (of_route m r) (h ++ [q]) = number (of_route m r) h + if of_route m r q then 1 else 0) by apply number_snoc.
  assert (Htotal : total_seconds m r (h ++ [q]) = if of_route m r q then (total_seconds m r h + seconds q)%num else total_seconds m r h).
  { unfold total_seconds. rewrite List.filter_app, fold_left_app. cbn. now destruct (of_route m r q). }
  assert (Hwithin : forall b, within m r b (h ++ [q]) = within m r b h + if of_route m r q && (seconds q <=? b)%num then 1 else 0)
    by (intros b; apply number_snoc).
  destruct (of_route m r q) eqn:Ep.
  - unfold of_route in Ep. apply andb_true_iff in Ep as [Em Er]. apply String.eqb_eq in Em, Er. rewrite Em, Er, map_get_set, IH.
    unfold histogram_of. rewrite Hsnoc, Htotal. destruct (Z.eqb_spec (number (of_route m r) h + 1) 0); [lia|].
    destruct (Z.eqb_spec (number (of_route m r) h) 0) as [E0|]; cbv iota beta; cbn [sum count buckets h_labels].
    + assert (Hnone : List.filter (of_route m r) h = []) by (apply number_zero_not; now apply Z.eqb_eq).
      assert (Hz : forall b, within m r b h = 0).
      { intros b. unfold within, number. rewrite filter_andb_comm_nil by exact Hnone. reflexivity. }
      rewrite E0. unfold total_seconds. rewrite Hnone. cbn [fold_left]. f_equal. f_equal.
      rewrite (fill_latencyBuckets (seconds q) (fun _ => 0)). apply map_ext. intros b. now rewrite Hwithin, Hz.
    + f_equal. f_equal. rewrite (fill_latencyBuckets (seconds q) (fun b => within m r b h)). apply map_ext. intros b. now rewrite Hwithin.
  - assert (Hne : MetricsService.latencyKey (q_method q) (q_route q) <> MetricsService.latencyKey m r).
    { intros E. apply latencyKey_inj in E as (E1 & E2); auto. rewrite <- E1, <- E2, of_route_self in Ep. discriminate. }
    rewrite map_get_set_ne, IH by assumption. unfold histogram_of. rewrite Hsnoc, Htotal, Z.add_0_r.
    destruct (_ =? 0); [reflexivity|]. do 2 f_equal. apply map_ext. intros b. now rewrite Hwithin, Z.add_0_r.
Qed.

Lemma counter_exposed k c s : map_get k (httpRequestCounters s) = Some c ->
  In (MetricsService.counter_line (c_labels c) (value c)) (MetricsService.lines s).
Proof.
  intros H. unfold MetricsService.lines. rewrite !in_app_iff. right. left.
  apply in_map_iff. exists (k, c). split; [reflexivity|]. exact (map_get_found _ _ _ H).
Qed.

Lemma histogram_exposed k h s x : map_get k (httpLatencyHistograms s) = Some h ->
  In x (MetricsService.histogram_lines h) -> In x (MetricsService.lines s).
Proof.
  intros H Hx. unfold MetricsService.lines. rewrite !in_app_iff. do 3 right. left.
  apply in_flat_map. exists (k, h). split; [exact (map_get_found _ _ _ H)|exact Hx].
Qed.

(** C30 The exposed text summarises the requests recorded: for every request there
    are the lines of its route, with how many requests there were with its
    method, route and status, how many took at most each of the eleven bounds,
    how many there were in all, and the sum of their durations. *)
Theorem exposition_summarises_requests h q :
  Forall request_ok h -> In q h ->
  let m := q_method q in
  let r := q_route q in
  let l := MetricsService.formatLabels [("method", m); ("route", r)] in
  let text := MetricsService.lines (recorded h) in
  In (MetricsService.counter_line [("method", m); ("route", r); ("status_code", string_of_Z (q_status q))]
        (with_status m r (q_status q) h)) text /\
  (forall b, In b MetricsService.latencyBuckets -> In (MetricsService.bucket_line l (num_to_string b) (within m r b h)) text) /\
  In (MetricsService.bucket_line l "+Inf" (number (of_route m r) h)) text /\
  In (MetricsService.count_line l (number (of_route m r) h)) text /\
  In (MetricsService.sum_line l (total_seconds m r h)) text.
Proof.
  intros Hh Hq m r l text. assert (Hok : request_ok q) by (rewrite List.Forall_forall in Hh; now apply Hh). destruct Hok as [Hm Hs].
  assert (Hpos : forall p, p q = true -> number p h <> 0).
  { intros p Hp. unfold number. assert (Hin : In q (List.filter p h)) by (now apply filter_In).
    destruct (List.filter p h); [contradiction|]. cbn [length]. lia. }
  pose proof (counters_recorded h m r (q_status q) Hh Hm Hs) as Hc. pose proof (histograms_recorded h m r Hh Hm) as Ht.
  unfold counter_of, histogram_of in *.
  assert (Hc0 : with_status m r (q_status q) h <> 0) by (apply (Hpos (fun q0 => of_route m r q0 && (q_status q0 =? q_status q))); cbv beta; unfold m, r; now rewrite of_route_self, Z.eqb_refl).
  assert (Ht0 : number (of_route m r) h <> 0) by (apply Hpos, of_route_self).
  rewrite (proj2 (Z.eqb_neq _ _) Hc0) in Hc. rewrite (proj2 (Z.eqb_neq _ _) Ht0) in Ht.
  split; [exact (counter_exposed _ _ _ Hc)|].
  pose proof (fun x => histogram_exposed _ _ _ x Ht) as Hx. unfold MetricsService.histogram_lines in Hx.
  cbn [h_labels buckets count sum] in Hx. split; [|split; [|split]].
  - intros b Hb. apply Hx, in_app_iff. left. rewrite List.map_map. apply in_map_iff. now exists b.
  - apply Hx, in_app_iff. right. now left.
  - apply Hx, in_app_iff. right. do 2 right. now left.
  - apply Hx, in_app_iff. right. right. now left.
Qed.

(** ** At work *)

Definition two_logins : list Request :=
  [mkRequest "POST" "/api/v1/auth/login" 200 (num_of_Z 40); mkRequest "POST" "/api/v1/auth/login" 200 (num_of_Z 700)].
Lemma exposition_summarises_requests_witness :
  In (MetricsService.counter_line [("method", "POST"); ("route", "/api/v1/auth/login"); ("status_code", "200")] 2)
     (MetricsService.lines (recorded two_logins)) /\
  In (MetricsService.bucket_line (MetricsService.formatLabels [("method", "POST"); ("route", "/api/v1/auth/login")]) "0.05" 1)
     (MetricsService.lines (recorded two_logins)).
Proof.
  destruct (exposition_summarises_requests two_logins (mkRequest "POST" "/api/v1/auth/login" 200 (num_of_Z 40))) as (Hc & Hb & _).
  - repeat constructor; cbn; lia.
  - now left.
  - split; [exact Hc|].
    replace (MetricsService.bucket_line _ "0.05" 1)
      with (MetricsService.bucket_line (MetricsService.formatLabels [("method", "POST"); ("route", "/api/v1/auth/login")])
              (num_to_string (num_of_decimal 5 (-2))) (within "POST" "/api/v1/auth/login" (num_of_decimal 5 (-2)) two_logins))
      by (vm_compute; reflexivity).
    apply Hb. do 3 right. now left.
Defined.

(** A request whose handler throws is counted under the status of its route, not
    under the one it is answered with, which the exception filter sets later. *)
Example failures_are_counted_as_successes :
  MetricsInterceptor.intercept "POST" (Some "/api/v1/auth/login") None true 200 0 5 initial =
  MetricsInterceptor.intercept "POST" (Some "/api/v1/auth/login") None false 200 0 5 initial.
Proof. reflexivity. Qed.
