(* ===== verification/BalanceCache.v ===== *)
(** users/users.service.ts, getWalletBalances and
    invalidateWalletBalanceCache: a cache of balances in front of a loader, with
    the fetches in flight shared by the callers that miss it.  The service
    suspends at each await, so a run is a sequence of events: a call, the cache's
    answer, the resumption after it, the loader's and the cache's completions, an
    invalidation, and the expiry of an entry. *)
From S2P Require Import Prelude JsNumber Effects.
From stdpp Require Import gmap.
Local Open Scope nat_scope.

(** The balances a loader answers. *)
Definition Balances : Type := list (string * num).

Definition getCacheKey (userId : string) : string := "wallet-balances:" +:+ userId.

(** A fetch: [loader] is awaited, then [cacheManager.set], which takes effect
    before it is answered; then it has settled. *)
Inductive Fetch : Type :=
  | Loading
  | Setting (balances : Balances)
  | Written (balances : Balances)
  | Settled (result : exn + Balances).

(** A call of getWalletBalances: [cacheManager.get] is awaited, it has been
    answered, a fetch is awaited, or the call has returned. *)
Inductive Caller : Type :=
  | Reading
  | Read (cached : option Balances)
  | Awaiting (fetch : nat)
  | Returned (result : exn + Balances).

Record State : Type := mkState {
  cache : gmap string Balances;
  pendingFetches : gmap string nat;
  fetches : list (string * Fetch);     (* in the order they were started *)
  callers : list (string * Caller);
  loaded : list (string * Balances)    (* what loaders have answered, for whom *)
}.
Definition start : State := mkState ∅ ∅ [] [] [].

Inductive event : Type :=
  | Call (userId : string)
  | CacheAnswers (caller : nat)
  | CacheFails (caller : nat) (x : exn)
  | Resume (caller : nat)
  | LoaderAnswers (fetch : nat) (balances : Balances)
  | LoaderFails (fetch : nat) (x : exn)
  | CacheWrites (fetch : nat)
  | SetFails (fetch : nat) (x : exn)
  | SetAnswers (fetch : nat)
  | Settle (caller : nat)
  | Invalidate (userId : string)
  | Expire (userId : string).

Definition with_caller (c : nat) (u : string) (w : Caller) (s : State) : State :=
  mkState (cache s) (pendingFetches s) (fetches s) (<[c := (u, w)]> (callers s)) (loaded s).
Definition with_fetch (f : nat) (u : string) (w : Fetch) (s : State) : State :=
  mkState (cache s) (pendingFetches s) (<[f := (u, w)]> (fetches s)) (callers s) (loaded s).
Definition with_cache (m : gmap string Balances) (s : State) : State :=
  mkState m (pendingFetches s) (fetches s) (callers s) (loaded s).

(** The [finally] of a fetch. *)
Definition settle_fetch (f : nat) (u : string) (r : exn + Balances) (s : State) : State :=
  let s := with_fetch f u (Settled r) s in
  mkState (cache s) (delete u (pendingFetches s)) (fetches s) (callers s) (loaded s).

(** After the cache has answered: what was found, the fetch in flight, or a new
    one. *)
Definition resume (c : nat) (u : string) (cached : option Balances) (s : State) : State :=
  match cached with
  | Some b => with_caller c u (Returned (inr b)) s
  | None =>
      match pendingFetches s !! u with
      | Some f => with_caller c u (Awaiting f) s
      | None =>
          let f := length (fetches s) in
          with_caller c u (Awaiting f)
            (mkState (cache s) (<[u := f]> (pendingFetches s)) (fetches s ++ [(u, Loading)]) (callers s) (loaded s))
      end
  end.

(** One event; [None] when it cannot happen. *)
Definition step (e : event) (s : State) : option State :=
  match e with
  | Call u => Some (mkState (cache s) (pendingFetches s) (fetches s) (callers s ++ [(u, Reading)]) (loaded s))
  | CacheAnswers c =>
      match callers s !! c with
      | Some (u, Reading) => Some (with_caller c u (Read (cache s !! getCacheKey u)) s)
      | _ => None
      end
  | CacheFails c x =>
      match callers s !! c with
      | Some (u, Reading) => Some (with_caller c u (Returned (inl x)) s)
      | _ => None
      end
  | Resume c =>
      match callers s !! c with
      | Some (u, Read cached) => Some (resume c u cached s)
      | _ => None
      end
  | LoaderAnswers f b =>
      match fetches s !! f with
      | Some (u, Loading) =>
          let s := with_fetch f u (Setting b) s in
          Some (mkState (cache s) (pendingFetches s) (fetches s) (callers s) ((u, b) :: loaded s))
      | _ => None
      end
  | LoaderFails f x =>
      match fetches s !! f with
      | Some (u, Loading) => Some (settle_fetch f u (inl x) s)
      | _ => None
      end
  | CacheWrites f =>
      match fetches s !! f with
      | Some (u, Setting b) => Some (with_fetch f u (Written b) (with_cache (<[getCacheKey u := b]> (cache s)) s))
      | _ => None
      end
  | SetFails f x =>
      match fetches s !! f with
      | Some (u, (Setting _ | Written _)) => Some (settle_fetch f u (inl x) s)
      | _ => None
      end
  | SetAnswers f =>
      match fetches s !! f with
      | Some (u, Written b) => Some (settle_fetch f u (inr b) s)
      | _ => None
      end
  | Settle c =>
      match callers s !! c with
      | Some (u, Awaiting f) =>
          match fetches s !! f with
          | Some (_, Settled r) => Some (with_caller c u (Returned r) s)
          | _ => None
          end
      | _ => None
      end
  | Invalidate u | Expire u => Some (with_cache (delete (getCacheKey u) (cache s)) s)
  end.

Fixpoint exec (es : list event) (s : State) : option State :=
  match es with
  | [] => Some s
  | e :: es => match step e s with Some s' => exec es s' | None => None end
  end.

Definition reachable (s : State) : Prop := exists es, exec es start = Some s.

(** ** The invariant *)

Definition live (w : Fetch) : Prop := match w with Settled _ => False | _ => True end.

(** Balances found anywhere come from a loader of the same user. *)
Definition caller_ok (s : State) (u : string) (w : Caller) : Prop :=
  match w with
  | Read (Some b) | Returned (inr b) => In (u, b) (loaded s)
  | Awaiting f => exists w, fetches s !! f = Some (u, w)
  | _ => True
  end.
Definition fetch_ok (s : State) (u : string) (w : Fetch) : Prop :=
  match w with
  | Setting b | Written b | Settled (inr b) => In (u, b) (loaded s)
  | _ => True
  end.

(** The fetches that have not settled are those that are shared, one for each
    user. *)
Record Inv (s : State) : Prop := {
  inv_pending : forall u f, pendingFetches s !! u = Some f -> exists w, fetches s !! f = Some (u, w) /\ live w;
  inv_live : forall f u w, fetches s !! f = Some (u, w) -> live w -> pendingFetches s !! u = Some f;
  inv_callers : forall c u w, callers s !! c = Some (u, w) -> caller_ok s u w;
  inv_fetches : forall f u w, fetches s !! f = Some (u, w) -> fetch_ok s u w;
  inv_cache : forall u b, cache s !! getCacheKey u = Some b -> In (u, b) (loaded s)
}.

Lemma getCacheKey_inj u v : getCacheKey u = getCacheKey v -> u = v.
Proof. unfold getCacheKey. intros E. now injection E. Qed.

Lemma Inv_start : Inv start.
Proof. split; cbn; intros; try (rewrite lookup_empty in *; discriminate); now rewrite lookup_nil in *. Qed.

Lemma Inv_caller c u w s : Inv s -> caller_ok s u w -> Inv (with_caller c u w s).
Proof.
  intros [Hp Hl Hc Hf Hca] Hw. split; cbn; auto. intros c' u' w' H.
  apply list_lookup_insert_Some in H as [(-> & [= -> ->] & _)|(_ & H)]; [exact Hw|exact (Hc _ _ _ H)].
Qed.

Lemma Inv_call u s : Inv s ->
  Inv (mkState (cache s) (pendingFetches s) (fetches s) (callers s ++ [(u, Reading)]) (loaded s)).
Proof.
  intros [Hp Hl Hc Hf Hca]. split; cbn; auto. intros c' u' w' H.
  apply lookup_app_Some in H as [H|[_ H]]; [exact (Hc _ _ _ H)|].
  apply list_lookup_singleton_Some in H as [_ [= <- <-]]. exact I.
Qed.

Lemma Inv_cache_set m s : Inv s -> (forall u b, m !! getCacheKey u = Some b -> In (u, b) (loaded s)) -> Inv (with_cache m s).
Proof. intros [Hp Hl Hc Hf Hca] Hm. split; cbn; auto. Qed.

(** A fetch in flight goes on. *)
Lemma Inv_fetch f u w w' s : Inv s -> fetches s !! f = Some (u, w) -> live w -> live w' -> fetch_ok s u w' ->
  Inv (with_fetch f u w' s).
Proof.
  intros [Hp Hl Hc Hf Hca] Hw Hlw Hlw' Hok. pose proof (lookup_lt_Some _ _ _ Hw) as Hlt. split; cbn; auto.
  - intros u' f' H. destruct (Hp _ _ H) as (w0 & H0 & Hl0). destruct (decide (f' = f)) as [->|Hne].
    + rewrite Hw in H0. injection H0 as <- <-. exists w'. now rewrite list_lookup_insert_eq.
    + exists w0. now rewrite list_lookup_insert_ne.
  - intros f' u' w0 H Hl0. apply list_lookup_insert_Some in H as [(-> & [= <- <-] & _)|(_ & H)]; [exact (Hl _ _ _ Hw Hlw)|exact (Hl _ _ _ H Hl0)].
  - intros c u' k H. specialize (Hc _ _ _ H). destruct k as [| |g|]; try exact Hc. destruct Hc as (w0 & H0). cbn.
    destruct (decide (g = f)) as [->|Hne].
    + rewrite Hw in H0. injection H0 as <- <-. exists w'. now rewrite list_lookup_insert_eq.
    + exists w0. now rewrite list_lookup_insert_ne.
  - intros f' u' w0 H. apply list_lookup_insert_Some in H as [(-> & [= <- <-] & _)|(_ & H)]; [exact Hok|exact (Hf _ _ _ H)].
Qed.

(** A fetch settles. *)
Lemma Inv_settle f u w r s : Inv s -> fetches s !! f = Some (u, w) -> live w -> fetch_ok s u (Settled r) ->
  Inv (settle_fetch f u r s).
Proof.
  intros [Hp Hl Hc Hf Hca] Hw Hlw Hok. pose proof (lookup_lt_Some _ _ _ Hw) as Hlt. split; cbn; auto.
  - intros u' f' H. apply lookup_delete_Some in H as [Hne H]. destruct (Hp _ _ H) as (w0 & H0 & Hl0).
    exists w0. rewrite list_lookup_insert_ne; [easy|]. intros ->. congruence.
  - intros f' u' w0 H Hl0. apply list_lookup_insert_Some in H as [(-> & [= <- <-] & _)|(Hne & H)]; [contradiction|].
    rewrite lookup_delete_ne; [exact (Hl _ _ _ H Hl0)|]. intros ->.
    pose proof (Hl _ _ _ H Hl0). pose proof (Hl _ _ _ Hw Hlw). congruence.
  - intros c u' k H. specialize (Hc _ _ _ H). destruct k as [| |g|]; try exact Hc. destruct Hc as (w0 & H0). cbn.
    destruct (decide (g = f)) as [->|Hne].
    + rewrite Hw in H0. injection H0 as <- <-. eexists. now rewrite list_lookup_insert_eq.
    + exists w0. now rewrite list_lookup_insert_ne.
  - intros f' u' w0 H. apply list_lookup_insert_Some in H as [(-> & [= <- <-] & _)|(_ & H)]; [exact Hok|exact (Hf _ _ _ H)].
Qed.

(** A caller that finds none starts one. *)
Lemma Inv_start_fetch u s : Inv s -> pendingFetches s !! u = None ->
  Inv (mkState (cache s) (<[u := length (fetches s)]> (pendingFetches s)) (fetches s ++ [(u, Loading)]) (callers s) (loaded s)).
Proof.
  intros [Hp Hl Hc Hf Hca] Hn. split; cbn; auto.
  - intros u' f H. apply lookup_insert_Some in H as [[<- <-]|[Hne H]].
    + exists Loading. rewrite lookup_app_r by lia. now rewrite Nat.sub_diag.
    + destruct (Hp _ _ H) as (w & Hw & Hlw). exists w. split; [|assumption]. now apply lookup_app_l_Some.
  - intros f u' w H Hlw. apply lookup_app_Some in H as [H|[Hle H]].
    + pose proof (Hl _ _ _ H Hlw). rewrite lookup_insert_ne; [assumption|]. intros ->. congruence.
    + apply list_lookup_singleton_Some in H as [E [= <- <-]]. rewrite lookup_insert_eq. f_equal. lia.
  - intros c u' k H. specialize (Hc _ _ _ H). destruct k as [| |g|]; try exact Hc. destruct Hc as (w0 & H0).
    exists w0. now apply lookup_app_l_Some.
  - intros f u' w H. apply lookup_app_Some in H as [H|[_ H]]; [exact (Hf _ _ _ H)|].
    now apply list_lookup_singleton_Some in H as [_ [= <- <-]].
Qed.

Lemma Inv_loaded u b s : Inv s ->
  Inv (mkState (cache s) (pendingFetches s) (fetches s) (callers s) ((u, b) :: loaded s)).
Proof.
  intros [Hp Hl Hc Hf Hca]. split; cbn; auto.
  - intros c u' k H. specialize (Hc _ _ _ H). destruct k as [|[]| |[]]; cbn in *; auto.
  - intros f u' w H. specialize (Hf _ _ _ H). destruct w as [| | |[]]; cbn in *; auto.
Qed.

Lemma Inv_step e s s' : Inv s -> step e s = Some s' -> Inv s'.
Proof.
  intros Hi. pose proof Hi as [Hp Hl Hc Hf Hca]. destruct e; cbn [step].
  - intros [= <-]. now apply Inv_call.
  - destruct (callers s !! caller) as [[u []]|] eqn:E; try discriminate. intros [= <-]. apply Inv_caller; [assumption|].
    cbn. destruct (cache s !! getCacheKey u) eqn:Ec; [now apply Hca|exact I].
  - destruct (callers s !! caller) as [[u []]|] eqn:E; try discriminate. intros [= <-]. now apply Inv_caller.
  - destruct (callers s !! caller) as [[u []]|] eqn:E; try discriminate. intros [= <-]. pose proof (Hc _ _ _ E) as Hok.
    unfold resume. destruct cached as [b|]; [now apply Inv_caller|].
    destruct (pendingFetches s !! u) as [f|] eqn:Ef.
    + apply Inv_caller; [assumption|]. destruct (Hp _ _ Ef) as (w & Hw & _). now exists w.
    + apply Inv_caller; [now apply Inv_start_fetch|]. exists Loading. cbn. rewrite lookup_app_r by lia. now rewrite Nat.sub_diag.
  - destruct (fetches s !! fetch) as [[u []]|] eqn:E; try discriminate. intros [= <-].
    apply (Inv_fetch fetch u Loading (Setting balances) _ (Inv_loaded u balances s Hi) E I I). now left.
  - destruct (fetches s !! fetch) as [[u []]|] eqn:E; try discriminate. intros [= <-]. now apply (Inv_settle fetch u Loading).
  - destruct (fetches s !! fetch) as [[u []]|] eqn:E; try discriminate. intros [= <-]. pose proof (Hf _ _ _ E) as Hb. cbn in Hb.
    apply (Inv_fetch fetch u (Setting balances)); auto; try exact I. apply Inv_cache_set; [assumption|].
    intros u' b H. apply lookup_insert_Some in H as [[Ek ->]|[_ H]]; [|now apply Hca]. apply getCacheKey_inj in Ek. now subst.
  - destruct (fetches s !! fetch) as [[u []]|] eqn:E; try discriminate; intros [= <-]; eapply Inv_settle; eauto; exact I.
  - destruct (fetches s !! fetch) as [[u []]|] eqn:E; try discriminate; intros [= <-]. pose proof (Hf _ _ _ E).
    eapply Inv_settle; eauto; exact I.
  - destruct (callers s !! caller) as [[u []]|] eqn:E; try discriminate. destruct (fetches s !! fetch) as [[u' []]|] eqn:Ef; try discriminate.
    intros [= <-]. apply Inv_caller; [assumption|]. destruct (Hc _ _ _ E) as (w & Hw). rewrite Ef in Hw. injection Hw as -> <-.
    pose proof (Hf _ _ _ Ef) as Hb. now destruct result.
  - intros [= <-]. apply Inv_cache_set; [assumption|]. intros u b H. apply lookup_delete_Some in H as [_ H]. now apply Hca.
  - intros [= <-]. apply Inv_cache_set; [assumption|]. intros u b H. apply lookup_delete_Some in H as [_ H]. now apply Hca.
Qed.

Lemma Inv_reachable s : reachable s -> Inv s.
Proof.
  intros [es He]. enough (H : forall es s0, Inv s0 -> exec es s0 = Some s -> Inv s) by exact (H es start Inv_start He).
  clear es He. induction es as [|e es IH]; intros s0 Hi; cbn; [now intros [= <-]|].
  destruct (step e s0) as [s1|] eqn:E; [|discriminate]. apply IH. exact (Inv_step _ _ _ Hi E).
Qed.

(** ** Every call can be answered *)

Lemma exec_app es es' s s' s'' : exec es s = Some s' -> exec es' s' = Some s'' -> exec (es ++ es') s = Some s''.
Proof.
  revert s. induction es as [|e es IH]; intros s H1 H2; cbn in *; [now injection H1 as ->|].
  destruct (step e s) as [s1|]; [|discriminate]. now apply IH.
Qed.

Definition answered (c : nat) (u : string) (s : State) : Prop := exists r, callers s !! c = Some (u, Returned r).
Definition can_be_answered (c : nat) (u : string) (s : State) : Prop :=
  exists es s', exec es s = Some s' /\ answered c u s'.

Lemma can_after e s s' c u : step e s = Some s' -> can_be_answered c u s' -> can_be_answered c u s.
Proof. intros He (es & s'' & H & Ha). exists (e :: es), s''. split; [cbn; now rewrite He|assumption]. Qed.

Lemma caller_set c u u' w w' s : callers s !! c = Some (u', w') -> callers (with_caller c u w s) !! c = Some (u, w).
Proof. intros H. cbn. apply list_lookup_insert_eq. now apply lookup_lt_Some in H. Qed.

Lemma settled_answers s c u f v r :
  callers s !! c = Some (u, Awaiting f) -> fetches s !! f = Some (v, Settled r) -> can_be_answered c u s.
Proof.
  intros Hc Hf. exists [Settle c], (with_caller c u (Returned r) s). split; [cbn; now rewrite Hc, Hf|].
  exists r. exact (caller_set _ _ _ _ _ _ Hc).
Qed.

(** The awaited fetch is followed to its end. *)
Lemma awaiting_answers s c u f v w :
  callers s !! c = Some (u, Awaiting f) -> fetches s !! f = Some (v, w) -> can_be_answered c u s.
Proof.
  assert (Hset : forall s v' w w', fetches s !! f = Some (v', w) -> fetches (with_fetch f v' w' s) !! f = Some (v', w')).
  { intros s0 v' w0 w' H. cbn. apply list_lookup_insert_eq. now apply lookup_lt_Some in H. }
  assert (Hwritten : forall s b, callers s !! c = Some (u, Awaiting f) -> fetches s !! f = Some (v, Written b) -> can_be_answered c u s).
  { intros s0 b Hc Hf. eapply (can_after (SetAnswers f)); [cbn; now rewrite Hf|].
    eapply settled_answers; [exact Hc|exact (Hset _ _ _ _ Hf)]. }
  assert (Hsetting : forall s b, callers s !! c = Some (u, Awaiting f) -> fetches s !! f = Some (v, Setting b) -> can_be_answered c u s).
  { intros s0 b Hc Hf. eapply (can_after (CacheWrites f)); [cbn; now rewrite Hf|].
    eapply Hwritten; [exact Hc|exact (Hset (with_cache _ s0) _ _ _ Hf)]. }
  intros Hc Hf. destruct w; [|now apply (Hsetting s balances)|now apply (Hwritten s balances)|exact (settled_answers _ _ _ _ _ _ Hc Hf)].
  eapply (can_after (LoaderAnswers f [])); [cbn; now rewrite Hf|].
  eapply Hsetting; [exact Hc|exact (Hset _ _ _ _ Hf)].
Qed.

Lemma reading_answers s c u w : Inv s -> callers s !! c = Some (u, w) -> can_be_answered c u s.
Proof.
  assert (Hread : forall s cached, Inv s -> callers s !! c = Some (u, Read cached) -> can_be_answered c u s).
  { intros s0 cached Hi Hc. eapply (can_after (Resume c)); [cbn; now rewrite Hc|]. unfold resume. destruct cached as [b|].
    - exists [], (with_caller c u (Returned (inr b)) s0). split; [reflexivity|]. eexists. exact (caller_set _ _ _ _ _ _ Hc).
    - destruct (pendingFetches s0 !! u) as [f|] eqn:Ef.
      + destruct (inv_pending _ Hi _ _ Ef) as (w0 & Hw & _). eapply awaiting_answers; [exact (caller_set _ _ _ _ _ _ Hc)|exact Hw].
      + apply (awaiting_answers _ c u (length (fetches s0)) u Loading); cbn.
        * apply list_lookup_insert_eq. now apply lookup_lt_Some in Hc.
        * rewrite lookup_app_r by lia. now rewrite Nat.sub_diag. }
  intros Hi Hc. destruct w as [|cached|f|r].
  - assert (Hs : step (CacheAnswers c) s = Some (with_caller c u (Read (cache s !! getCacheKey u)) s)) by (cbn; now rewrite Hc).
    eapply can_after; [exact Hs|]. eapply Hread; [exact (Inv_step _ _ _ Hi Hs)|exact (caller_set _ _ _ _ _ _ Hc)].
  - now apply (Hread s cached).
  - destruct (inv_callers _ Hi _ _ _ Hc) as (w & Hw). exact (awaiting_answers _ _ _ _ _ _ Hc Hw).
  - exists [], s. split; [reflexivity|]. now exists r.
Qed.

(** C13 However calls, answers of the cache and of the loader, failures,
    invalidations and expiries interleave: there is never more than one fetch in
    flight for a user, a call returns only balances that a loader answered for
    its own user, and no call is left waiting: from every reachable state some
    continuation answers it. *)
Theorem balance_reads_share_one_fetch s :
  reachable s ->
  (forall f g u w w', fetches s !! f = Some (u, w) -> fetches s !! g = Some (u, w') -> live w -> live w' -> f = g) /\
  (forall c u b, callers s !! c = Some (u, Returned (inr b)) -> In (u, b) (loaded s)) /\
  (forall c u w, callers s !! c = Some (u, w) -> can_be_answered c u s).
Proof.
  intros Hr. pose proof (Inv_reachable _ Hr) as Hi. split; [|split].
  - intros f g u w w' Hf Hg Hw Hw'. pose proof (inv_live _ Hi _ _ _ Hf Hw). pose proof (inv_live _ Hi _ _ _ Hg Hw'). congruence.
  - intros c u b Hc. exact (inv_callers _ Hi _ _ _ Hc).
  - intros c u w Hc. now apply (reading_answers s c u w).
Qed.

(** ** At work *)

Definition before : Balances := [("USD", num_of_Z 100)].
Definition after : Balances := [("USD", num_of_Z 40)].

(** Two callers, one fetch, the same balances. *)
Definition two_readers : list event :=
  [Call "ada"; Call "ada"; CacheAnswers 0; CacheAnswers 1; Resume 0; Resume 1; LoaderAnswers 0 before;
   CacheWrites 0; SetAnswers 0; Settle 0; Settle 1].
Lemma balance_reads_share_one_fetch_witness :
  exists s, exec two_readers start = Some s /\ length (fetches s) = 1 /\
    callers s !! 1 = Some ("ada", Returned (inr before)) /\ In ("ada", before) (loaded s).
Proof.
  eexists. split; [vm_compute; reflexivity|]. split; [reflexivity|]. split; [reflexivity|].
  eapply (proj1 (proj2 (balance_reads_share_one_fetch _ (ex_intro _ two_readers eq_refl))) 1). reflexivity.
Defined.

(** An invalidation does not reach a fetch in flight: balances loaded before a
    transfer are cached after it has invalidated them, and a call that begins
    later is answered with them. *)
Example invalidated_balances_come_back :
  exists s, exec [Call "ada"; CacheAnswers 0; Resume 0; LoaderAnswers 0 before; Invalidate "ada"; CacheWrites 0;
                  SetAnswers 0; Settle 0; Call "ada"; CacheAnswers 1; Resume 1] start = Some s /\
    callers s !! 1 = Some ("ada", Returned (inr before)).
Proof. eexists. split; vm_compute; reflexivity. Qed.

(** A loader that fails fails every call that shares it, and the next one tries
    again. *)
Example failures_are_not_kept :
  exists s, exec [Call "ada"; Call "ada"; CacheAnswers 0; CacheAnswers 1; Resume 0; Resume 1; LoaderFails 0 (PlainError "down");
                  Settle 0; Settle 1; Call "ada"; CacheAnswers 2; Resume 2; LoaderAnswers 1 after] start = Some s /\
    callers s !! 0 = Some ("ada", Returned (inl (PlainError "down"))) /\
    callers s !! 1 = Some ("ada", Returned (inl (PlainError "down"))) /\
    fetches s !! 1 = Some ("ada", Setting after).
Proof. eexists. split; [vm_compute; reflexivity|]. repeat split. Qed.
