(* ===== verification/Streams.v ===== *)
(** rates/rates.gateway.ts and transactions/transactions.gateway.ts: the buffer
    of rate updates with its replay after a reconnection, the rates a client is
    told when it connects, and the broadcast of the transactions' events. *)
From S2P Require Import Prelude JsNumber Effects JsData.
Local Open Scope Z_scope.

(** Who an emission goes to, its name and its payload. *)
Inductive audience : Type := Everyone | Client (id : string).
Record emission : Type := mkEmission { to : audience; name : string; payload : json }.

(** ** RatesGateway *)

Module RatesGateway.
Record BufferedEvent : Type := mkEvent { timestamp : Z; currencyPair : string; rate : num }.
Record State : Type := mkState {
  eventBuffer : list BufferedEvent;
  currentRates : list (string * num)
}.
Definition initial : State := mkState [] [].
Definition maxBufferSize : nat := 1000.
Definition DEFAULT_REPLAY_WINDOW_MS : Z := 5 * 60 * 1000.

Definition event_json (e : BufferedEvent) : json :=
  JObj [("currencyPair", JStr (currencyPair e)); ("rate", JNum (rate e)); ("timestamp", JNum (num_of_Z (timestamp e)))].

Definition handleConnection (now : Z) (client : string) (s : State) : emission :=
  mkEmission (Client client) "rates.current"
    (JArr (map (fun '(p, r) => event_json (mkEvent now p r)) (currentRates s))).

(** [lastReceivedAt || 0]; instants are whole milliseconds. *)
Definition missed (window : option Z) (lastReceivedAt : option Z) (now : Z) (s : State) : list BufferedEvent :=
  let since := Z.max (now - default DEFAULT_REPLAY_WINDOW_MS window) (default 0 lastReceivedAt) in
  List.filter (fun e => since <? timestamp e) (eventBuffer s).

Definition handleReplay (window : option Z) (now : Z) (client : string) (lastReceivedAt : option Z) (s : State) : option emission :=
  match missed window lastReceivedAt now s with
  | [] => None
  | l => Some (mkEmission (Client client) "rates.replay" (JArr (map event_json l)))
  end.

(** [slice(-n)] *)
Definition last_n {A} (n : nat) (l : list A) : list A := skipn (length l - n) l.

Definition broadcastRateUpdate (now : Z) (pair : string) (r : num) (s : State) : State * emission :=
  let event := mkEvent now pair r in
  let buffer := eventBuffer s ++ [event] in
  let buffer := if Nat.ltb maxBufferSize (length buffer) then last_n maxBufferSize buffer else buffer in
  (mkState buffer (map_set pair r (currentRates s)), mkEmission Everyone "rates.updated" (event_json event)).
End RatesGateway.

(** ** TransactionsGateway *)

Module TransactionsGateway.
(** The events it listens to and the status it tells of each. *)
Definition LISTENERS : list (string * string) :=
  [("transactions.completed", "completed"); ("transactions.deposit.completed", "completed");
   ("transactions.withdrawal.completed", "completed"); ("transactions.swap.completed", "completed");
   ("transactions.swap.failed", "failed"); ("transactions.reversed", "reversed")].

Definition handle (event : string * json) : list emission :=
  match map_get event.1 LISTENERS, event.2 with
  | Some status, JObj payload => [mkEmission Everyone "transaction.status" (JObj (obj_set "status" (JStr status) payload))]
  | Some status, _ => [mkEmission Everyone "transaction.status" (JObj [("status", JStr status)])]
  | None, _ => []
  end.
Definition broadcastTransactionStatus (payload : json) : emission := mkEmission Everyone "transaction.status" payload.
End TransactionsGateway.

(** ** The rates a client has seen *)

Notation BufferedEvent := RatesGateway.BufferedEvent.
Notation timestamp := RatesGateway.timestamp.

(** The updates broadcast so far, oldest first. *)
Definition broadcast (s : RatesGateway.State) (e : BufferedEvent) : RatesGateway.State :=
  (RatesGateway.broadcastRateUpdate (timestamp e) (RatesGateway.currencyPair e) (RatesGateway.rate e) s).1.
Definition after (h : list BufferedEvent) : RatesGateway.State := fold_left broadcast h RatesGateway.initial.

Lemma last_n_short {A} n (l : list A) : (length l <= n)%nat -> RatesGateway.last_n n l = l.
Proof. intros H. unfold RatesGateway.last_n. now replace (length l - n)%nat with 0%nat by lia. Qed.

Lemma last_n_snoc {A} n (l : list A) a : (0 < n)%nat ->
  RatesGateway.last_n n (RatesGateway.last_n n l ++ [a]) = RatesGateway.last_n n (l ++ [a]).
Proof.
  intros Hn. destruct (Nat.le_gt_cases (length l) n) as [Hle|Hgt]; [now rewrite (last_n_short n l Hle)|].
  unfold RatesGateway.last_n. rewrite !length_app, length_skipn. cbn [length].
  replace (length l - (length l - n) + 1 - n)%nat with 1%nat by lia.
  replace (length l + 1 - n)%nat with (S (length l - n)) by lia.
  rewrite (skipn_app 1), (skipn_app (S (length l - n))), skipn_skipn, length_skipn.
  replace (1 - (length l - (length l - n)))%nat with 0%nat by lia.
  now replace (S (length l - n) - length l)%nat with 0%nat by lia.
Qed.

Lemma after_snoc h e : after (h ++ [e]) = broadcast (after h) e.
Proof. unfold after. now rewrite fold_left_app. Qed.

Lemma buffer_after h : RatesGateway.eventBuffer (after h) = RatesGateway.last_n RatesGateway.maxBufferSize h.
Proof.
  induction h as [|e h IH] using rev_ind; [reflexivity|]. rewrite after_snoc. unfold broadcast, RatesGateway.broadcastRateUpdate.
  cbn [fst RatesGateway.eventBuffer]. rewrite IH. replace (RatesGateway.mkEvent _ _ _) with e by now destruct e.
  destruct (Nat.ltb_spec RatesGateway.maxBufferSize (length (RatesGateway.last_n RatesGateway.maxBufferSize h ++ [e]))) as [Hlt|Hle].
  - apply last_n_snoc. unfold RatesGateway.maxBufferSize. lia.
  - rewrite <- last_n_snoc by (unfold RatesGateway.maxBufferSize; lia). symmetry. now apply last_n_short.
Qed.

(** The last rate of a pair. *)
Definition last_rate (pair : string) (h : list BufferedEvent) : option num :=
  fold_left (fun r e => if String.eqb (RatesGateway.currencyPair e) pair then Some (RatesGateway.rate e) else r) h None.

Lemma rates_after h pair : map_get pair (RatesGateway.currentRates (after h)) = last_rate pair h.
Proof.
  induction h as [|e h IH] using rev_ind; [reflexivity|]. rewrite after_snoc. unfold last_rate in *. rewrite fold_left_app.
  cbn [fold_left broadcast RatesGateway.broadcastRateUpdate fst]. unfold broadcast, RatesGateway.broadcastRateUpdate. cbn [fst RatesGateway.currentRates].
  destruct (String.eqb_spec (RatesGateway.currencyPair e) pair) as [->|Hne]; [apply map_get_set|].
  now rewrite map_get_set_ne.
Qed.

Lemma filter_after_prefix t (seen unseen : list BufferedEvent) :
  Forall (fun e => timestamp e <= t) seen -> Forall (fun e => t < timestamp e) unseen ->
  List.filter (fun e => t <? timestamp e) (seen ++ unseen) = unseen.
Proof.
  intros Hs Hu. rewrite List.filter_app.
  replace (List.filter _ seen) with (@nil BufferedEvent); [|symmetry].
  - cbn [app]. induction Hu as [|e u He Hu IH]; [reflexivity|]. cbn. rewrite (proj2 (Z.ltb_lt _ _) He). now rewrite IH.
  - induction Hs as [|e u He Hs IH]; [reflexivity|]. cbn. now rewrite (proj2 (Z.ltb_ge _ _) He).
Qed.

(** What a client is sent for the updates [l]. *)
Definition replayed (client : string) (l : list BufferedEvent) : option emission :=
  if (length l =? 0)%nat then None else Some (mkEmission (Client client) "rates.replay" (JArr (map RatesGateway.event_json l))).

(** C36 After any broadcasts the gateway holds the last thousand, and the last
    rate of every pair.  A client that comes back is replayed, in their order,
    exactly those of the last thousand that are strictly later than the last it
    received and inside the window.  So it is replayed all it missed when these
    are at most a thousand, each inside the window and each strictly later than
    all it received; one of the same millisecond is lost. *)
Theorem replay_fills_the_gap window seen unseen lastReceivedAt now client :
  0 <= lastReceivedAt ->
  let h := seen ++ unseen in
  let s := after h in
  let since := now - default RatesGateway.DEFAULT_REPLAY_WINDOW_MS window in
  RatesGateway.handleReplay window now client (Some lastReceivedAt) s =
    replayed client (List.filter (fun e => (since <? timestamp e) && (lastReceivedAt <? timestamp e)) (skipn (length h - 1000) h)) /\
  (Forall (fun e => timestamp e <= lastReceivedAt) seen ->
   Forall (fun e => lastReceivedAt < timestamp e /\ since < timestamp e) unseen -> (length unseen <= 1000)%nat ->
   RatesGateway.handleReplay window now client (Some lastReceivedAt) s = replayed client unseen) /\
  RatesGateway.eventBuffer s = skipn (length h - 1000) h /\
  (forall pair, map_get pair (RatesGateway.currentRates s) = last_rate pair h).
Proof.
  intros H0 h s since. assert (Hbuf : RatesGateway.eventBuffer s = skipn (length h - 1000) h) by apply buffer_after.
  assert (Hrep : RatesGateway.handleReplay window now client (Some lastReceivedAt) s =
    replayed client (List.filter (fun e => Z.max since lastReceivedAt <? timestamp e) (skipn (length h - 1000) h))).
  { unfold RatesGateway.handleReplay, RatesGateway.missed, replayed. rewrite Hbuf. cbn [default]. fold since. now destruct (List.filter _ _). }
  split; [|split; [|split; [exact Hbuf | apply rates_after]]].
  - rewrite Hrep. f_equal. apply List.filter_ext. intros e.
    destruct (Z.ltb_spec since (timestamp e)), (Z.ltb_spec lastReceivedAt (timestamp e)), (Z.ltb_spec (Z.max since lastReceivedAt) (timestamp e));
      cbn; lia || reflexivity.
  - intros Hs Hu Hlen. rewrite Hrep. f_equal. unfold h. rewrite skipn_app, length_app.
    replace (length seen + length unseen - 1000 - length seen)%nat with 0%nat by lia. apply filter_after_prefix.
    + apply Forall_drop. eapply Forall_impl; [exact Hs|]. intros e He. cbv beta in He. lia.
    + eapply Forall_impl; [exact Hu|]. intros e He. cbv beta in He. lia.
Qed.

Definition update (t : Z) (pair : string) (r : Z) : BufferedEvent := RatesGateway.mkEvent t pair (num_of_Z r).
Lemma replay_fills_the_gap_witness :
  let seen := [update 1000 "USD/NGN" 1500; update 5000 "USD/NGN" 1510] in
  RatesGateway.handleReplay None 9000 "c1" (Some 5000) (after (seen ++ [update 7000 "EUR/USD" 1])) =
  Some (mkEmission (Client "c1") "rates.replay" (JArr [RatesGateway.event_json (update 7000 "EUR/USD" 1)])).
Proof.
  intros seen. refine (proj1 (proj2 (replay_fills_the_gap None seen [update 7000 "EUR/USD" 1] 5000 9000 "c1" _)) _ _ _);
    [lia | repeat constructor; cbn; lia | repeat constructor; cbn; lia | cbn; lia].
Defined.

(** Of two updates in the same millisecond, a client that received the first and
    lost the connection never receives the second. *)
Example same_millisecond_is_not_replayed :
  RatesGateway.handleReplay None 9000 "c1" (Some 5000) (after [update 5000 "USD/NGN" 1500; update 5000 "EUR/USD" 1]) = None.
Proof. now vm_compute. Qed.

(** ** Who hears of a transaction *)

(** The status of every transaction is sent to every client that is connected,
    with the parties and the amount: the gateway asks nobody who they are. *)
Theorem transactions_are_told_to_everyone event e :
  In e (TransactionsGateway.handle event) -> to e = Everyone /\ name e = "transaction.status".
Proof.
  unfold TransactionsGateway.handle. destruct (map_get _ _) as [st|]; [|intros []].
  destruct event.2; intros [<-|[]]; now split.
Qed.
Example transfer_is_told_to_everyone :
  TransactionsGateway.handle ("transactions.completed",
    JObj [("transactionId", JStr "t1"); ("senderId", JStr "ada"); ("receiverId", JStr "bob"); ("amount", JNum (num_of_Z 250))]) =
  [mkEmission Everyone "transaction.status"
    (JObj [("transactionId", JStr "t1"); ("senderId", JStr "ada"); ("receiverId", JStr "bob"); ("amount", JNum (num_of_Z 250));
           ("status", JStr "completed")])].
Proof. reflexivity. Qed.
