(* ===== verification/Payments.v ===== *)
(** payments/payment-provider.service.ts with the webhook of
    payments.controller.ts: deposits, the provider's signed notifications,
    invoices and recurring payments in memory; and the parts of
    stellar/stellar.service.ts that decide: the network at start-up, memos,
    receipts and cross-border payments. *)
From S2P Require Import Prelude JsNumber Effects RepositoryLaws ThirdParty JsData Json.
Local Open Scope Z_scope.

(** The service's two Maps. *)
Module PaymentStore.
Record PaymentStore : Type := mk {
  env : Env;
  invoices : list (string * json);
  recurringPayments : list (string * list json)
}.
#[global] Instance settable : Settable PaymentStore := fun r =>
  mk r.(env) r.(invoices) r.(recurringPayments).
End PaymentStore.

#[global] Program Instance PaymentStore_env : HasEnv PaymentStore.PaymentStore := {|
  env_of := PaymentStore.env;
  set_env e w := w <| PaymentStore.env := e |>
|}.

Notation Store := PaymentStore.PaymentStore.

(** ** PaymentProviderService *)

Module PaymentProviderService.
Section Provider.
Context `{ConfigService} `{Crypto} `{Radix36}.

Definition initiateDeposit (userId : string) (amount : num) (currency : string) : M Store (string * string) :=
  let* now := date_now in
  let reference := "dep_" +:+ string_of_Z now +:+ "_" +:+ slice 0 8 userId in
  let baseUrl := default "" (config_string "PROVIDER_API_URL") in
  ret (reference, baseUrl +:+ "/pay?ref=" +:+ reference).

Definition secret : string := default "secret" (config_string "PROVIDER_WEBHOOK_SECRET").

Definition verifyWebhook (payload signature : string) : bool :=
  String.eqb (hmac_sha256_hex secret payload) signature.

(** [`${prefix}_${Date.now()}_${Math.random().toString(36).substring(2, 7)}`] *)
Definition fresh_id (prefix : string) : M Store string :=
  let* now := date_now in
  let* r := math_random in
  ret (prefix +:+ "_" +:+ string_of_Z now +:+ "_" +:+ slice 2 7 (toString36 r)).

(** [{ id, ...dto, status: 'UNPAID', createdAt }] *)
Definition createInvoice (dto : list (string * json)) : M Store (list (string * json)) :=
  let* id := fresh_id "inv" in
  let* now := date_now in
  let invoice := obj_set "createdAt" (JStr (toISOString now)) (obj_set "status" (JStr "UNPAID") (obj_spread [("id", JStr id)] dto)) in
  modify (fun s => s <| PaymentStore.invoices := map_set id (JObj invoice) s.(PaymentStore.invoices) |>) ;;;
  ret invoice.

Definition getInvoice (id : string) : M Store json :=
  gets (fun s => default JNull (map_get id s.(PaymentStore.invoices))).

Definition field (k : string) (dto : list (string * json)) : json := default JUndefined (obj_get k dto).

Definition scheduleRecurringPayment (userId : string) (dto : list (string * json)) : M Store (list (string * json)) :=
  let* id := fresh_id "rec" in
  let* now := date_now in
  let schedule := obj_set "createdAt" (JStr (toISOString now)) (obj_set "active" (JBool true) (obj_spread [("id", JStr id)] dto)) in
  modify (fun s =>
    let userSchedules := default [] (map_get userId s.(PaymentStore.recurringPayments)) in
    s <| PaymentStore.recurringPayments := map_set userId (userSchedules ++ [JObj schedule]) s.(PaymentStore.recurringPayments) |>) ;;;
  ret schedule.

Definition getRecurringPayments (userId : string) : M Store (list json) :=
  gets (fun s => default [] (map_get userId s.(PaymentStore.recurringPayments))).

(** [{ transactionId, status: 'COMPLETED', ...dto, processedAt }] *)
Definition processMerchantPayment (dto : list (string * json)) : M Store (list (string * json)) :=
  let* id := fresh_id "tx_merch" in
  let* now := date_now in
  ret (obj_set "processedAt" (JStr (toISOString now))
         (obj_spread [("transactionId", JStr id); ("status", JStr "COMPLETED")] dto)).

(** PaymentsController.handleWebhook: [processDeposit] only logs. *)
Definition handleWebhook (rawBody : option string) (body : json) (signature : option string) : json :=
  let raw := default (stringify body) rawBody in
  if verifyWebhook raw (default "" signature) then JObj [("received", JBool true)]
  else JObj [("received", JBool false); ("reason", JStr "invalid signature")].
End Provider.
End PaymentProviderService.

(** ** StellarService *)

(** Whether Horizon answers the probe at start-up: unit or the message of the
    error. *)
Class HorizonProbe : Type := { horizon_probe : string -> string + unit }.

Module StellarService.
Section Stellar.
Context `{ConfigService} `{HorizonProbe} {S : Type} `{HasEnv S}.

Definition horizonUrl : string := default "https://horizon-testnet.stellar.org" (config_string "STELLAR_HORIZON_URL").
Definition network : string := toUpperCase (default "TESTNET" (config_string "STELLAR_NETWORK")).

Definition checkHorizonHealth : M S unit :=
  match horizon_probe horizonUrl with
  | inr _ => ret tt
  | inl m =>
      throw_if (String.eqb network "PUBLIC")
        (PlainError ("[STARTUP BLOCKED] Stellar Horizon unreachable at " +:+ horizonUrl +:+ ": " +:+ m))
  end.

Definition onModuleInit : M S unit :=
  throw_if (String.eqb network "PUBLIC" && negb (match config_string "NODE_ENV" with Some e => String.eqb e "production" | None => false end))
    (PlainError "[STARTUP BLOCKED] STELLAR_NETWORK=PUBLIC is only allowed in production environments.") ;;;
  checkHorizonHealth.
End Stellar.

Record Memo : Type := mkMemo { m_type : string; m_value : string; m_valid : bool }.

Definition is_digits (s : string) : bool :=
  str_truthy s && forallb (fun c => (48 <=? Z.of_nat (nat_of_ascii c)) && (Z.of_nat (nat_of_ascii c) <=? 57)) (list_ascii_of_string s).

(** The type is one of text, id and hash. *)
Definition validateAndFormatMemo (memoType memoValue : string) : exn + Memo :=
  if negb (str_truthy memoType) || negb (str_truthy memoValue) then inr (mkMemo memoType memoValue false)
  else if String.eqb memoType "text" && (28 <? String.length memoValue)%nat then
    inl (PlainError "Stellar text memo cannot exceed 28 bytes")
  else if String.eqb memoType "id" && negb (is_digits memoValue) then
    inl (PlainError "Stellar ID memo must be a valid numeric ID")
  else inr (mkMemo memoType memoValue true).

Section Receipts.
Context {S : Type} `{HasEnv S}.

Definition mintReceiptNft (transactionId : string) (metadata : json) : M S json :=
  let* now := date_now in
  let* later := date_now in
  ret (JObj [("transactionId", JStr transactionId);
             ("nftId", JStr ("NFT-REC-" +:+ transactionId +:+ "-" +:+ slice_last 6 (string_of_Z now)));
             ("stellarAssetCode", JStr ("REC" +:+ toUpperCase (slice 0 4 transactionId)));
             ("issuer", JStr "G-STELLAR-RECEIPT-ISSUER"); ("metadata", metadata);
             ("mintedAt", JStr (toISOString later))]).

Definition executeSep31Payment (amount assetCode senderId receiverId anchorDomain : string) : M S json :=
  let* now := date_now in
  ret (JObj [("status", JStr "pending_receiver"); ("transactionId", JStr ("SEP31-" +:+ string_of_Z now));
             ("anchorDomain", JStr anchorDomain); ("amount", JStr amount); ("assetCode", JStr assetCode);
             ("senderId", JStr senderId); ("receiverId", JStr receiverId)]).
End Receipts.
End StellarService.

(** ** What is kept *)

Section Kept.
Context `{ConfigService} `{Crypto} `{Radix36}.

Definition invoices_of (s : Store) : list (string * json) := s.(PaymentStore.invoices).
Definition schedules_of (u : string) (s : Store) : list json := default [] (map_get u s.(PaymentStore.recurringPayments)).

(** An invoice is found under the identifier it was given, unpaid whatever the
    request says, and the invoices under other identifiers stay; its own [id] is
    that identifier unless the request brought one. *)
Theorem createInvoice_spec dto s :
  wp (PaymentProviderService.createInvoice dto)
    (fun invoice s' => exists id,
      map_get id (invoices_of s') = Some (JObj invoice) /\
      (forall j, j <> id -> map_get j (invoices_of s') = map_get j (invoices_of s)) /\
      obj_get "status" invoice = Some (JStr "UNPAID") /\
      (obj_get "id" dto = None -> obj_get "id" invoice = Some (JStr id)))
    (fun _ _ => False) s.
Proof.
  unfold PaymentProviderService.createInvoice, PaymentProviderService.fresh_id. repeat wp_step.
  eexists. split; [apply map_get_set|]. split; [intros j Hj; apply map_get_set_ne; congruence|]. split.
  - rewrite obj_get_set_ne by discriminate. apply obj_get_set.
  - intros Hid. rewrite !obj_get_set_ne by discriminate. now rewrite obj_get_spread_old.
Qed.

(** A recurring payment is added at the end of those of the user the request
    names, active whatever it says, and those of other users stay. *)
Theorem scheduleRecurringPayment_spec u dto s :
  wp (PaymentProviderService.scheduleRecurringPayment u dto)
    (fun schedule s' =>
      schedules_of u s' = schedules_of u s ++ [JObj schedule] /\
      (forall v, v <> u -> schedules_of v s' = schedules_of v s) /\
      obj_get "active" schedule = Some (JBool true))
    (fun _ _ => False) s.
Proof.
  unfold PaymentProviderService.scheduleRecurringPayment, PaymentProviderService.fresh_id, schedules_of. repeat wp_step.
  split; [|split].
  - cbn. now rewrite map_get_set.
  - intros v Hv. cbn. now rewrite map_get_set_ne by congruence.
  - rewrite obj_get_set_ne by discriminate. apply obj_get_set.
Qed.

(** A notification is taken for the provider's exactly when it carries the digest
    of its body under the secret. *)
Theorem notifications_need_the_secret raw body signature :
  PaymentProviderService.handleWebhook raw body signature = JObj [("received", JBool true)] <->
  hmac_sha256_hex PaymentProviderService.secret (default (stringify body) raw) = default "" signature.
Proof.
  unfold PaymentProviderService.handleWebhook, PaymentProviderService.verifyWebhook.
  destruct (String.eqb_spec (hmac_sha256_hex PaymentProviderService.secret (default (stringify body) raw)) (default "" signature)); split; congruence.
Qed.
End Kept.

(** ** Start-up and memos *)

Section Startup.
Context `{ConfigService} `{HorizonProbe} {S : Type} `{HasEnv S}.

(** The service starts on the public network only in production and when Horizon
    answers; on any other network it always starts. *)
Theorem public_network_starts_only_in_production (s : S) :
  (StellarService.onModuleInit s).1 = inr tt <->
  (StellarService.network = "PUBLIC" ->
   config_string "NODE_ENV" = Some "production" /\ horizon_probe StellarService.horizonUrl = inr tt).
Proof.
  unfold StellarService.onModuleInit, StellarService.checkHorizonHealth, throw_if, bind, ret, throw.
  destruct (String.eqb_spec StellarService.network "PUBLIC") as [Hp|Hp]; cbn [andb].
  - destruct (config_string "NODE_ENV") as [e|]; [destruct (String.eqb_spec e "production") as [->|Hne]|]; cbn;
      try (split; [discriminate|intros Hx; destruct (Hx Hp); congruence]).
    destruct (horizon_probe StellarService.horizonUrl) as [m|[]]; cbn; split; auto; try discriminate.
    intros Hx. destruct (Hx Hp). congruence.
  - split; [congruence|]. intros _. now destruct (horizon_probe _).
Qed.
End Startup.

(** A memo is accepted exactly when it has a type and a value, a text of at most
    28 characters, and an identifier of digits only. *)
Theorem accepted_memos t v :
  StellarService.validateAndFormatMemo t v = inr (StellarService.mkMemo t v true) <->
  t <> "" /\ v <> "" /\ (t = "text" -> (String.length v <= 28)%nat) /\ (t = "id" -> StellarService.is_digits v = true).
Proof.
  unfold StellarService.validateAndFormatMemo, str_truthy.
  destruct (String.eqb_spec t "") as [->|Ht]; cbn [negb orb]; [split; [discriminate|tauto]|].
  destruct (String.eqb_spec v "") as [->|Hv]; cbn [negb]; [split; [discriminate|tauto]|].
  destruct (String.eqb_spec t "text") as [->|Ht']; cbn [andb].
  - destruct (Nat.ltb_spec 28 (String.length v)) as [Hlt|Hle]; cbn.
    + split; [discriminate|]. intros (_ & _ & Hx & _). specialize (Hx eq_refl). lia.
    + split; [intros _; repeat split; auto; discriminate|reflexivity].
  - destruct (String.eqb_spec t "id") as [->|Ht'']; cbn [andb].
    + destruct (StellarService.is_digits v); cbn [negb]; split; try discriminate; try tauto; intros (_ & _ & _ & Hx); now specialize (Hx eq_refl).
    + split; [intros _; repeat split; auto; congruence|reflexivity].
Qed.

(** ** At work *)

Definition plain_crypto : Crypto := {| sha256_hex := fun s => s; hmac_sha256_hex := fun k s => k +:+ ":" +:+ s; random_hex := fun _ s => s |}.
Definition no_config : ConfigService := {| config_number := fun _ => None; config_string := fun _ => None; config_bool := fun _ => None; config_list := fun _ => None |}.

(** Without a configured secret, anyone can sign. *)
Example unconfigured_secret_is_known :
  PaymentProviderService.handleWebhook (H := no_config) (H0 := plain_crypto) None (JObj [("amount", JStr "9")])
    (Some ("secret:" +:+ stringify (JObj [("amount", JStr "9")]))) = JObj [("received", JBool true)].
Proof. now vm_compute. Qed.

(** main.ts keeps no raw body, so that what is verified is the parsed body
    written again: a body with a space in it is never the one that was signed. *)
Example signed_bytes_are_not_verified :
  let sent := "{" +:+ json_quoted "amount" +:+ ": 9}" in
  PaymentProviderService.handleWebhook (H := no_config) (H0 := plain_crypto) None (JObj [("amount", JNum (num_of_Z 9))])
    (Some ("secret:" +:+ sent)) = JObj [("received", JBool false); ("reason", JStr "invalid signature")].
Proof. now vm_compute. Qed.
