(* ===== verification/Edge.v ===== *)
(** What surrounds the routes: common/filters/global-exception.filter.ts, which
    answers every exception, common/middleware/geo-restriction.middleware.ts,
    common/guards/swagger.guard.ts, common/feature-flags/feature-flags.service.ts
    and blockchain/blockchain.service.ts behind its circuit breaker. *)
From S2P Require Import Prelude JsNumber Effects RepositoryLaws ThirdParty JsData Json Routes.
Local Open Scope Z_scope.

(** The part of a request these read; a header may be absent. *)
Record Incoming : Type := mkIncoming {
  i_method : string;
  i_url : string;
  i_ip : option string;
  i_headers : list (string * json);
  i_body : json;
  i_user : json
}.

(** ** GlobalExceptionFilter *)

Module GlobalExceptionFilter.
Definition SENSITIVE_FIELDS : list string := ["password"; "otp"; "totpCode"; "secretKey"].
Definition sensitive (k : string) : bool := existsb (String.eqb k) SENSITIVE_FIELDS.

Definition maskBody (body : json) : json :=
  match body with
  | JObj fields => JObj (map (fun '(k, v) => (k, if sensitive k then JStr "[REDACTED]" else v)) fields)
  | _ => body
  end.

Definition prop (k : string) (j : json) : json :=
  match j with JObj o => default JUndefined (obj_get k o) | _ => JUndefined end.
Definition or_undefined (j : json) : json := match j with JNull => JUndefined | _ => j end.

(** An HttpException with its message; any other exception is internal, and its
    own message is only logged. *)
Definition status_and_message (exception : exn) : Z * string :=
  match exception with
  | Http status message => (status, message)
  | _ => (500, "Internal server error")
  end.

Record Answer : Type := mkAnswer {
  a_status : Z;
  a_body : json;
  a_logged : json;                 (* the payload of the log, at error from 500 on *)
  a_unexpected : option string     (* the message of an exception that is not HTTP's *)
}.

Definition catch (exception : exn) (request : Incoming) (now : Z) : Answer :=
  let '(status, message) := status_and_message exception in
  mkAnswer status
    (JObj [("statusCode", JNum (num_of_Z status)); ("message", JStr (if str_truthy message then message else "Error"));
           ("timestamp", JStr (toISOString now)); ("path", JStr (i_url request))])
    (JObj [("method", JStr (i_method request)); ("path", JStr (i_url request)); ("body", maskBody (i_body request));
           ("error", JStr message);
           ("correlationId", or_undefined (prop "x-correlation-id" (JObj (i_headers request))));
           ("userId", or_undefined (prop "id" (i_user request)))])
    (match exception with Http _ _ => None | _ => Some (message_of exception) end).
End GlobalExceptionFilter.

(** ** GeoRestrictionMiddleware *)

Module GeoRestrictionMiddleware.
Section Geo.
Context `{ConfigService}.

(** [String(a ?? b ?? '').toUpperCase()] of headers that hold one value. *)
Definition countryCode (headers : list (string * json)) : string :=
  let get k := default JUndefined (obj_get k headers) in
  let v := if nullish (get "cf-ipcountry") then get "x-country-code" else get "cf-ipcountry" in
  toUpperCase (match v with JStr s => s | _ => "" end).

(** [None] when the request goes on; otherwise the answer, and the entry handed
    to the audit log without waiting for it. *)
Definition use (request : Incoming) : option (Z * json * json) :=
  let blockedCountries := default [] (config_list "compliance.blockedCountries") in
  let code := countryCode (i_headers request) in
  if str_truthy code && existsb (String.eqb code) blockedCountries then
    Some (451, JObj [("message", JStr "Unavailable For Legal Reasons"); ("countryCode", JStr code)],
          JObj [("action", JStr "geo.blocked"); ("entityType", JStr "request"); ("entityId", JStr (i_url request));
                ("ipAddress", jopt (i_ip request));
                ("after", JObj [("countryCode", JStr code); ("path", JStr (i_url request)); ("method", JStr (i_method request))])])
  else None.
End Geo.
End GeoRestrictionMiddleware.

(** ** Flags *)

Module SwaggerGuard.
Definition canActivate (NODE_ENV SWAGGER_ENABLED : option string) : bool :=
  negb (match NODE_ENV with Some e => String.eqb e "production" | None => false end) ||
  match SWAGGER_ENABLED with Some e => String.eqb e "true" | None => false end.
End SwaggerGuard.

Module FeatureFlagsService.
Section Flags.
Context `{ConfigService}.

Definition under (c : ascii) : ascii := if Ascii.eqb c "-" then "_"%char else c.
Definition key (feature : string) : string := "FEATURE_" +:+ map_string under (toUpperCase feature).
Definition isEnabled (feature : string) : bool :=
  match config_string (key feature) with Some v => String.eqb v "true" | None => false end.
Definition features : list string := ["fx-trading"; "referrals"; "blockchain"; "two-fa"; "push-notifications"].
Definition getAll : list (string * bool) := map (fun f => (f, isEnabled f)) features.
End Flags.
End FeatureFlagsService.

(** ** BlockchainService *)

(** What the circuit breaker answers to the n-th call, or that it is open; and
    BigInt of a text of hexadecimal digits. *)
Class Rpc : Type := {
  rpc_opened : nat -> bool;
  rpc_fire : nat -> string -> list string -> exn + json;
  big_int : string -> option Z;
  required_confirmations : Z
}.

Module BlockchainService.
Section Chain.
Context `{Rpc} {S : Type} `{HasEnv S}.

Definition rpc (method : string) (params : list string) : M S json := fun s =>
  let n := calls (env_of s) in
  let s' := set_env (next_call (env_of s)) s in
  if rpc_opened n then (inl (ServiceUnavailableException "Blockchain service temporarily unavailable"), s')
  else (rpc_fire n method params, s').

Definition to_big_int (j : json) : M S Z :=
  match j with
  | JStr s => match big_int s with Some z => ret z | None => throw (JsError "SyntaxError" "Cannot convert to a BigInt") end
  | _ => throw (JsError "TypeError" "Cannot convert to a BigInt")
  end.

(** [(BigInt(hex) / BigInt(1e18)).toString()] *)
Definition getBalance (address : string) : M S string :=
  let* hex := rpc "eth_getBalance" [address; "latest"] in
  let* wei := to_big_int hex in
  ret (string_of_Z (Z.quot wei (10 ^ 18))).

Definition watchTransaction (txHash : string) : M S bool :=
  let* receipt := rpc "eth_getTransactionReceipt" [txHash] in
  if negb (json_truthy receipt) then ret false
  else
    let* latest := rpc "eth_blockNumber" [] in
    let* l := to_big_int latest in
    let* b := to_big_int (GlobalExceptionFilter.prop "blockNumber" receipt) in
    ret (required_confirmations <=? l - b).

(** [/^0x[0-9a-fA-F]{40}$/] *)
Definition is_hex (c : ascii) : bool :=
  let n := nat_of_ascii c in
  (Nat.leb 48 n && Nat.leb n 57) || (Nat.leb 65 n && Nat.leb n 70) || (Nat.leb 97 n && Nat.leb n 102).
Definition validateAddress (address : string) : bool :=
  match address with
  | String "0" (String "x" digits) => Nat.eqb (String.length digits) 40 && forallb is_hex (list_ascii_of_string digits)
  | _ => false
  end.
End Chain.
End BlockchainService.

(** ** What leaves the application *)

Definition internal (x : exn) : Prop := match x with Http _ _ => False | _ => True end.

(** What is answered to an exception that is not HTTP's does not depend on it:
    500, a fixed message, the path and the time.  An HttpException is answered
    with its status and message.  In the log, the top-level fields of the body
    that are sensitive are redacted, every other one is as it came, and none
    comes or goes. *)
Theorem answers_hide_internals request now :
  (forall x y, internal x -> internal y ->
    GlobalExceptionFilter.a_status (GlobalExceptionFilter.catch x request now) = 500 /\
    GlobalExceptionFilter.a_body (GlobalExceptionFilter.catch x request now) =
    GlobalExceptionFilter.a_body (GlobalExceptionFilter.catch y request now)) /\
  (forall status m, m <> "" ->
    let a := GlobalExceptionFilter.catch (Http status m) request now in
    GlobalExceptionFilter.a_status a = status /\ GlobalExceptionFilter.prop "message" (GlobalExceptionFilter.a_body a) = JStr m) /\
  (forall fields k, exists masked, GlobalExceptionFilter.maskBody (JObj fields) = JObj masked /\
    map fst masked = map fst fields /\
    obj_get k masked = (if GlobalExceptionFilter.sensitive k then option_map (fun _ => JStr "[REDACTED]") (obj_get k fields) else obj_get k fields)).
Proof.
  split; [|split].
  - intros x y Hx Hy. destruct x; [contradiction|..]; (destruct y; [contradiction|..]); now split.
  - intros status m Hm. split; [reflexivity|]. unfold GlobalExceptionFilter.catch. cbn.
    unfold str_truthy. destruct (String.eqb_spec m ""); [congruence|reflexivity].
  - intros fields k. eexists. split; [reflexivity|]. split.
    + rewrite List.map_map. apply map_ext. now intros [].
    + induction fields as [|[k' v] fields IH]; cbn [map obj_get]; [now destruct (GlobalExceptionFilter.sensitive k)|].
      destruct (String.eqb_spec k k') as [<-|Hne]; [now destruct (GlobalExceptionFilter.sensitive k)|exact IH].
Qed.
Lemma answers_hide_internals_witness :
  internal (QueryFailed "42703" "column does not exist") /\
  GlobalExceptionFilter.a_status (GlobalExceptionFilter.catch (QueryFailed "42703" "column does not exist")
    (mkIncoming "GET" "/api/v1/wallets/ada" None [] JUndefined JUndefined) 0) = 500.
Proof.
  split; [exact I|].
  exact (proj1 (proj1 (answers_hide_internals (mkIncoming "GET" "/api/v1/wallets/ada" None [] JUndefined JUndefined) 0)
    (QueryFailed "42703" "column does not exist") (PlainError "x") I I)).
Defined.

(** Secrets below the top level are logged as they are. *)
Example nested_secret_is_logged :
  GlobalExceptionFilter.maskBody (JObj [("user", JObj [("password", JStr "hunter2")]); ("otp", JStr "123456")]) =
  JObj [("user", JObj [("password", JStr "hunter2")]); ("otp", JStr "[REDACTED]")].
Proof. reflexivity. Qed.

(** The log reads the id of the user, which a token's payload does not have. *)
Theorem refused_requests_are_logged_without_user x method url ip headers body (p : JwtPayload) now :
  GlobalExceptionFilter.prop "userId" (GlobalExceptionFilter.a_logged
    (GlobalExceptionFilter.catch x (mkIncoming method url ip headers body (Routes.payload_json p)) now)) = JUndefined.
Proof. destruct x, p as [sub email role [ty|] [ex|]]; reflexivity. Qed.

Section Geo.
Context `{ConfigService}.

(** A request is turned away exactly when it names a country and that country,
    in capitals, is one of the configured ones. *)
Theorem geo_turns_away_blocked_countries request :
  GeoRestrictionMiddleware.use request <> None <->
  GeoRestrictionMiddleware.countryCode (i_headers request) <> "" /\
  In (GeoRestrictionMiddleware.countryCode (i_headers request)) (default [] (config_list "compliance.blockedCountries")).
Proof.
  unfold GeoRestrictionMiddleware.use, str_truthy. set (code := GeoRestrictionMiddleware.countryCode _).
  destruct (String.eqb_spec code "") as [->|Hne]; cbn [negb andb]; [tauto|].
  destruct (existsb (String.eqb code) _) eqn:E.
  - apply existsb_exists in E as (c & Hin & Heq). apply String.eqb_eq in Heq as ->. split; [tauto|discriminate].
  - split; [tauto|]. intros [_ Hin]. exfalso. assert (Hx : existsb (String.eqb code) (default [] (config_list "compliance.blockedCountries")) = true).
    { apply existsb_exists. exists code. split; [assumption|apply String.eqb_refl]. }
    congruence.
Qed.
End Geo.

(** The whole units of a balance: less than one is none. *)
Section Chain.
#[local] Instance half_an_ether : Rpc :=
  {| rpc_opened := fun _ => false; rpc_fire := fun _ _ _ => inr (JStr "0x6f05b59d3b20000");
     big_int := fun _ => Some 500000000000000000; required_confirmations := 12 |}.
#[local] Program Instance chain_env : HasEnv Env := {| env_of := fun e => e; set_env := fun e _ => e |}.
Example half_an_ether_is_nothing s : (BlockchainService.getBalance "0x0" s).1 = inr "0".
Proof. reflexivity. Qed.
End Chain.
