(* ===== verification/Api.v ===== *)
(** The money routes from end to end: a request to WalletsController or
    TransactionsController, through the guards and the validation of its body,
    to the services that change the tables of wallets and transactions. *)
From S2P Require Import Prelude JsNumber NumberLaws Effects RepositoryLaws JsData Json ThirdParty Currencies Entities World CoreCalls Wallets PostingRules Accounts QueryBuilder Fees Limits Guards Network Transactions TransactionLaws TransactionTheorems Dto Routes.
Local Open Scope Z_scope.

(** ** The types of the services' arguments *)

Definition as_string (j : json) : option string := match j with JStr s => Some s | _ => None end.
Definition as_number (j : json) : option num := match j with JNum n => Some n | _ => None end.
Definition as_fields (j : json) : option (list (string * json)) := match j with JObj o => Some o | _ => None end.
(** An optional property: absent, or of its type. *)
Definition optional {A} (f : json -> option A) (j : json) : option (option A) :=
  match j with JUndefined => Some None | _ => option_map Some (f j) end.
Fixpoint all_strings (l : list json) : option (list string) :=
  match l with
  | [] => Some []
  | j :: l => match as_string j, all_strings l with Some s, Some r => Some (s :: r) | _, _ => None end
  end.
Definition as_strings (j : json) : option (list string) := match j with JArr l => all_strings l | _ => None end.
Definition string_at (k : string) (o : list (string * json)) : option string := as_string (value_of k o).
Definition number_at (k : string) (o : list (string * json)) : option num := as_number (value_of k o).
Definition metadata_at (o : list (string * json)) : option (list (string * json)) :=
  option_map (default []) (optional as_fields (value_of "metadata" o)).

(** No property but these: the transfer's row is a copy of the whole body. *)
Definition only (ks : list string) (o : list (string * json)) : option unit :=
  if forallb (fun '(k, _) => existsb (String.eqb k) ks) o then Some tt else None.

Definition to_TransferDto (j : json) : option TransferDto :=
  o ← as_fields j; _ ← only ["senderId"; "receiverId"; "amount"; "currency"; "reference"; "metadata"] o; s ← string_at "senderId" o; r ← string_at "receiverId" o; a ← number_at "amount" o;
  c ← string_at "currency" o; ref ← string_at "reference" o; m ← metadata_at o; Some (mkTransfer s r a c ref m).
Definition to_DepositDto (j : json) : option DepositDto :=
  o ← as_fields j; u ← string_at "userId" o; a ← number_at "amount" o;
  c ← string_at "currency" o; ref ← string_at "reference" o; m ← metadata_at o; Some (mkDeposit u a c ref m).
Definition to_WithdrawalDto (j : json) : option Transactions.WithdrawalDto :=
  o ← as_fields j; u ← string_at "userId" o; a ← number_at "amount" o; c ← string_at "currency" o;
  ref ← string_at "reference" o; d ← string_at "destinationAddress" o; m ← metadata_at o; Some (mkWithdrawal u a c ref d m).
Definition to_SwapDto (j : json) : option SwapDto :=
  o ← as_fields j; u ← string_at "userId" o; a ← number_at "fromAmount" o; c ← string_at "fromCurrency" o;
  b ← number_at "toAmount" o; d ← string_at "toCurrency" o; ref ← string_at "reference" o; m ← metadata_at o;
  Some (mkSwap u a c b d ref m).
Definition to_SimulateDto (j : json) : option SimulateDto :=
  o ← as_fields j; t ← string_at "type" o; a ← number_at "amount" o; c ← string_at "fromCurrency" o;
  d ← optional as_string (value_of "toCurrency" o); Some (mkSimulate t a c d).
Definition to_ReverseTransactionInput (j : json) : option ReverseTransactionInput :=
  o ← as_fields j; b ← string_at "reversedBy" o; r ← string_at "reason" o; Some (mkReverse b r).

(** ** The calls of the two controllers *)

Section Perform.
Context `{BL : BigJsLaws} `{CS : ConfigService} `{RP : RateProviders} `{LC : LimitConstants}
  `{SS : Horizon} `{RX : Radix36}.

Definition done {A} (m : M World A) : option (M World unit) := Some (m ;;; ret tt).

(** The methods of a service, each taking the arguments of its types. *)
Notation methods := (list (string * (list json -> option (M World unit)))).

Definition walletsService : methods :=
  [("getBalancesForAccount", fun args => match args with
      | [a] => a ← as_string a; done (WalletsService.getBalancesForAccount a) | _ => None end);
   ("adjustBalance", fun args => match args with
      | [a; c; d] => a ← as_string a; c ← as_string c; d ← as_number d; done (WalletsService.adjustBalance a c d)
      | _ => None end);
   ("setAutoSweepConfig", fun args => match args with
      | [u; t; a] => u ← as_string u; t ← as_number t; a ← as_string a; done (WalletsService.setAutoSweepConfig u t a)
      | _ => None end);
   ("processAutoSweep", fun args => match args with
      | [u; c] => u ← as_string u; c ← as_string c; done (WalletsService.processAutoSweep u c) | _ => None end);
   ("updateCustomization", fun args => match args with
      | [a; c; l; k] => a ← as_string a; c ← as_string c; l ← optional as_string l; k ← optional as_string k;
          done (WalletsService.updateCustomization a c l k)
      | _ => None end)].

Definition txService : methods :=
  [("transfer", fun args => match args with
      | [dto] => dto ← to_TransferDto dto; done (TransactionsService.transfer dto) | _ => None end);
   ("createDeposit", fun args => match args with
      | [dto] => dto ← to_DepositDto dto; done (TransactionsService.createDeposit dto) | _ => None end);
   ("createWithdrawal", fun args => match args with
      | [dto] => dto ← to_WithdrawalDto dto; done (TransactionsService.createWithdrawal dto) | _ => None end);
   ("createSwap", fun args => match args with
      | [dto] => dto ← to_SwapDto dto; done (TransactionsService.createSwap dto) | _ => None end);
   ("createInternalTransfer", fun args => match args with
      | [dto] => o ← as_fields dto; s ← string_at "senderId" o; e ← string_at "recipientEmail" o;
          a ← number_at "amount" o; c ← string_at "currency" o; done (TransactionsService.createInternalTransfer s e a c)
      | _ => None end);
   ("simulateTransaction", fun args => match args with
      | [dto] => dto ← to_SimulateDto dto; done (TransactionsService.simulateTransaction dto) | _ => None end);
   ("findById", fun args => match args with
      | [id] => id ← as_string id; done (TransactionsService.findById id) | _ => None end);
   ("updateTags", fun args => match args with
      | [id; u; t; ts] => id ← as_string id; u ← as_string u; t ← optional as_string t; ts ← optional as_strings ts;
          done (TransactionsService.updateTags id u t ts)
      | _ => None end);
   ("cancelTransaction", fun args => match args with
      | [id] => id ← as_string id; done (TransactionsService.cancelTransaction id) | _ => None end);
   ("reverseTransaction", fun args => match args with
      | [id; input] => id ← as_string id; input ← to_ReverseTransactionInput input;
          done (TransactionsService.reverseTransaction id input)
      | _ => None end);
   ("addComment", fun args => match args with
      | [id; a; t] => id ← as_string id; a ← as_string a; t ← as_string t; done (TransactionsService.addComment id a t)
      | _ => None end);
   ("getComments", fun args => match args with
      | [id] => id ← as_string id; done (TransactionsService.getComments id) | _ => None end)].

(** The fields the two controllers hold their services in. *)
Definition services : list (string * methods) := [("walletsService", walletsService); ("txService", txService)].

Definition named {A} (k : string) (l : list (string * A)) : option A :=
  option_map snd (List.find (fun e => String.eqb e.1 k) l).

Fixpoint all_values (l : list (option json)) : option (list json) :=
  match l with
  | [] => Some []
  | Some j :: l => option_map (cons j) (all_values l)
  | None :: _ => None
  end.

(** [None] for the calls of other services, for handlers that are not one call
    (neither controller moves money in one), and for arguments that are not of
    the types the method declares, which nothing refuses where the body's type is
    an interface: what JavaScript makes of those is not described here. *)
Definition perform (call : served) : option (M World unit) :=
  match call with
  | Calls service method args =>
      args ← all_values args; ms ← named service services; m ← named method ms; m args
  | Executes _ _ | Runs _ _ => None
  end.

(** The call was made and returned; or it is one of those, and still to be made:
    the state is the one it begins in. *)
Inductive answer : Type := Done | Pending (call : served).

Context `{JwtService} `{AppGuards World} `{ClassValidator}.

(** A request that carries no idempotency key, or one that was not seen. *)
Definition respond (req : HttpRequest) : M World answer :=
  let* ' (_, call) := serve application req in
  match perform call with
  | Some m => m ;;; ret Done
  | None => ret (Pending call)
  end.
End Perform.

(** ** The wallets stay well formed *)

Section Keeps.
Context `{BL : BigJsLaws} `{CS : ConfigService} `{RP : RateProviders} `{LC : LimitConstants}
  `{SS : Horizon} `{RX : Radix36}.
Notation kept := (keeps (invariant wallets_inv)).

Lemma quiet_kept {A} (m : M World A) : keeps quiet m -> kept m.
Proof. apply keeps_weaken. intros s s' [E _]. unfold invariant, wallets_inv. now rewrite E. Qed.
Lemma env_kept {A} (m : M World A) : keeps env_only m -> kept m.
Proof. intros Hm. apply quiet_kept. eapply keeps_weaken; [|exact Hm]. apply env_only_quiet. Qed.
Lemma adjust_kept a c d : kept (adjustBalance a c d).
Proof. exact (adjust_keeps_ok (WalletsApi := WalletsService_api) a c d). Qed.
Lemma get_kept a c : kept (getBalance a c).
Proof. apply env_kept, getBalance_frame. Qed.
Lemma terms_kept u : kept (TermsAcceptanceService.ensureAccepted u).
Proof. apply env_kept, ensureAccepted_frame. Qed.
Lemma find_tx_kept id : kept (TransactionsService.findById id).
Proof. apply env_kept, findById_frame. Qed.
Lemma find_user_kept id : kept (UsersService.findById id).
Proof. apply env_kept, findUser_frame. Qed.
Hint Resolve adjust_kept get_kept terms_kept find_tx_kept find_user_kept : keeps.

Ltac kept_auto :=
  keeps_state;
  repeat first [exact (fun Hok => Hok) | exact (fun _ _ Hok => Hok) | progress (apply keeps_attempt; keeps_state)].

Lemma toUsd_kept a c : kept (TransactionLimitService.toUsd a c).
Proof. apply quiet_kept. eapply keeps_weaken; [apply rate_frame_quiet|]. apply toUsd_frame. Qed.
Hint Resolve toUsd_kept : keeps.
Lemma check_kept u a c : kept (TransactionLimitService.check u a c).
Proof.
  unfold TransactionLimitService.check, TransactionLimitService.dateKey, TransactionLimitService.monthKey. kept_auto.
Qed.
Lemma fee_kept a : kept (FeesService.calculateFee a).
Proof. unfold FeesService.calculateFee, FeeAuditService.recordFeeCalculation. kept_auto. Qed.
Lemma receipt_kept tx : kept (TransactionsService.generateReceiptNumber tx).
Proof. unfold TransactionsService.generateReceiptNumber, TransactionsService.nextval. kept_auto. Qed.
Lemma funded_kept a : kept (TransactionsService.accountExists a).
Proof. unfold TransactionsService.accountExists. kept_auto. Qed.
Lemma cache_kept u : kept (UsersService.invalidateWalletBalanceCache u).
Proof. unfold UsersService.invalidateWalletBalanceCache. kept_auto. Qed.
Hint Resolve check_kept fee_kept receipt_kept funded_kept cache_kept : keeps.

Lemma transfer_kept dto : kept (TransactionsService.transfer dto).
Proof.
  intros s Hok. pose proof (transfer_spec dto s Hok) as Hspec. unfold wp in Hspec.
  destruct (TransactionsService.transfer dto s) as [[x|tx] s']; cbn [snd].
  - destruct Hspec as [E _]. unfold wallets_inv. now rewrite E.
  - exact (proj1 Hspec).
Qed.
Lemma withdrawal_kept dto : kept (TransactionsService.createWithdrawal dto).
Proof.
  unfold TransactionsService.createWithdrawal, TransactionsService.withdrawal_submit, TransactionsService.withdrawal_refund.
  kept_auto.
Qed.
Lemma swap_loop_kept dto fee n : forall k tx err, kept (TransactionsService.swap_loop dto fee n k tx err).
Proof.
  induction n as [|n IH]; intros k tx err; cbn [TransactionsService.swap_loop];
    unfold TransactionsService.swap_attempt, FeesService.recordFee; kept_auto.
Qed.
Hint Resolve swap_loop_kept transfer_kept : keeps.
Lemma swap_kept dto : kept (TransactionsService.createSwap dto).
Proof. unfold TransactionsService.createSwap, TransactionsService.swap_debit, TransactionsService.swap_finish. kept_auto. Qed.
Lemma deposit_kept dto : kept (TransactionsService.createDeposit dto).
Proof. unfold TransactionsService.createDeposit. kept_auto. Qed.
Lemma reverse_kept id input : kept (TransactionsService.reverseTransaction id input).
Proof.
  unfold TransactionsService.reverseTransaction, TransactionsService.reverse_callback,
    TransactionsService.sendTransactionReversalNotice. kept_auto.
Qed.
Lemma internal_transfer_kept u e a c : kept (TransactionsService.createInternalTransfer u e a c).
Proof. unfold TransactionsService.createInternalTransfer, UsersService.findByEmail. kept_auto. Qed.
Lemma simulate_kept dto : kept (TransactionsService.simulateTransaction dto).
Proof. unfold TransactionsService.simulateTransaction. kept_auto. Qed.
Lemma tags_kept id u t ts : kept (TransactionsService.updateTags id u t ts).
Proof. unfold TransactionsService.updateTags. kept_auto. Qed.
Lemma cancel_kept id : kept (TransactionsService.cancelTransaction id).
Proof. unfold TransactionsService.cancelTransaction. kept_auto. Qed.
Lemma comment_kept id a t : kept (TransactionsService.addComment id a t).
Proof. unfold TransactionsService.addComment. kept_auto. Qed.
Lemma comments_kept id : kept (TransactionsService.getComments id).
Proof. unfold TransactionsService.getComments. kept_auto. Qed.
Lemma balances_kept a : kept (WalletsService.getBalancesForAccount a).
Proof. unfold WalletsService.getBalancesForAccount. kept_auto. Qed.
Lemma sweep_config_kept u t a : kept (WalletsService.setAutoSweepConfig u t a).
Proof. unfold WalletsService.setAutoSweepConfig. kept_auto. Qed.
Lemma posting_kept a c d : kept (WalletsService.adjustBalance a c d).
Proof. exact (adjust_kept a c d). Qed.
Hint Resolve posting_kept withdrawal_kept swap_kept deposit_kept reverse_kept internal_transfer_kept simulate_kept tags_kept
  cancel_kept comment_kept comments_kept balances_kept sweep_config_kept processAutoSweep_keeps_ok
  updateCustomization_keeps_ok : keeps.

Lemma done_kept {A} (m : M World A) op : kept m -> done m = Some op -> kept op.
Proof. intros Hm [= <-]. kept_auto. Qed.

Lemma named_in {A} k (l : list (string * A)) a : named k l = Some a -> In (k, a) l.
Proof.
  unfold named. destruct (List.find _ l) as [[k' a']|] eqn:E; [|discriminate]. intros [= <-].
  apply List.find_some in E as [Hin Hk]. apply String.eqb_eq in Hk. cbn in Hk. now subst.
Qed.

Lemma services_kept n ms k m args op :
  In (n, ms) services -> In (k, m) ms -> m args = Some op -> kept op.
Proof.
  intros Hs Hm. repeat (destruct Hs as [[= <- <-]|Hs]; [|]); try contradiction;
  (repeat (destruct Hm as [[= <- <-]|Hm]; [|])); try contradiction;
  intros E; repeat (destruct args as [|? args]; try discriminate E); try discriminate E;
  repeat match type of E with context [mbind ?f ?o] => destruct o; cbn [mbind option_bind] in E; [|discriminate E] end;
  (eapply done_kept; [|exact E]); eauto with keeps.
Qed.

Lemma perform_kept call op : perform call = Some op -> kept op.
Proof.
  destruct call as [svc m args| |]; [|discriminate..]. cbn [perform]. destruct (all_values args) as [l|]; [|discriminate].
  cbn [mbind option_bind]. destruct (named svc services) as [ms|] eqn:Es; [|discriminate]. cbn [mbind option_bind].
  destruct (named m ms) as [h|] eqn:Em; [|discriminate]. cbn [mbind option_bind].
  eapply services_kept; eauto using named_in.
Qed.
End Keeps.

(** ** Requests *)

Section Requests.
Context `{BL : BigJsLaws} `{CS : ConfigService} `{RP : RateProviders} `{LC : LimitConstants}
  `{SS : Horizon} `{RX : Radix36}.
Context `{!JwtService} `{!AppGuards World} `{!ClassValidator} `{!ClassValidatorLaws}.
(** The guards of packages, the throttler among them, keep what they need
    elsewhere. *)
Hypothesis external_guards : forall file req user, keeps env_only (external_guard file req user).

Lemma guards_kept l public req : keeps env_only (run_guards l public req).
Proof.
  unfold run_guards. keeps_auto. destruct a as [| | |f]; cbn [run_guard].
  - unfold Guards.JwtAuthGuard.canActivate. keeps_auto.
  - unfold Guards.AdminRoleGuard.canActivate. keeps_auto.
  - unfold Network.IpAllowlistGuard.canActivate. keeps_auto.
  - keeps_auto.
Qed.

(** What a request that passed its guards and pipes was given to do. *)
Lemma serve_grants req s :
  wp (serve application req)
    (fun '(c, r, call) s' => env_only s s' /\ dispatch application (h_verb req) (h_path req) = Some (c, r) /\
       (r_public r = true \/ exists p, session req p) /\
       exists user values, piped (r_params r) req user (default [] (match_path (pattern c r) (h_path req))) = inr values /\
         call = act c r values)
    (fun _ s' => env_only s s') s.
Proof.
  unfold serve. destruct (dispatch _ _ _) as [[c r]|] eqn:Ed; [|apply wp_throw; reflexivity].
  apply wp_bind. pose proof (guards_kept (guards_of c r) (r_public r) req s) as Hk.
  pose proof (run_guards_passed (guards_of c r) (r_public r) req None s ltac:(unfold user_known; discriminate)) as Hp.
  unfold wp, run_guards in *. destruct (fold_each _ _ _ s) as [[x|user] s1]; [exact Hk|]. cbn [snd] in Hk.
  destruct (piped _ _ _ _) as [x|values] eqn:Ev; [exact Hk|]. cbn.
  split; [exact Hk|]. split; [reflexivity|]. split; [exact (proj2 Hp JwtAuthGuard (or_introl eq_refl))|eauto].
Qed.

(** A request is refused before its call, or ends as its call does. *)
Lemma respond_cases req s :
  (exists x s', respond req s = (inl x, s') /\ env_only s s') \/
  exists c r user values s1, env_only s s1 /\
    dispatch application (h_verb req) (h_path req) = Some (c, r) /\ (r_public r = true \/ exists p, session req p) /\
    piped (r_params r) req user (default [] (match_path (pattern c r) (h_path req))) = inr values /\
    match perform (act c r values) with
    | None => respond req s = (inr (Pending (act c r values)), s1)
    | Some op => respond req s = (match (op s1).1 with inl x => inl x | inr _ => inr Done end, (op s1).2)
    end.
Proof.
  pose proof (serve_grants req s) as Hs. unfold wp in Hs. unfold respond, bind.
  destruct (serve application req s) as [[x|[[c r] call]] s1]; [left; eauto|right].
  destruct Hs as (Hk & Hd & Hp & user & values & Hv & ->). exists c, r, user, values, s1. repeat (split; [assumption|]).
  destruct (perform (act c r values)) as [op|]; [|reflexivity]. now destruct (op s1) as [[x|[]] s2].
Qed.

(** No public route reaches the two services. *)
Definition reaches_the_money (cr : controller * route) : bool :=
  match r_action cr.2 with
  | Delegates _ svc _ _ => existsb (fun e => String.eqb e.1 svc) services
  | Follows _ | Handles => false
  end.
Lemma money_is_not_public cr : In cr (table_of application) -> r_public cr.2 = true -> reaches_the_money cr = false.
Proof.
  assert (Hall : forallb (fun cr => negb (r_public cr.2 && reaches_the_money cr)) (table_of application) = true) by now vm_compute.
  rewrite forallb_forall in Hall. intros Hin Hp. specialize (Hall cr Hin). rewrite Hp in Hall. now apply negb_true_iff.
Qed.
Lemma perform_reaches c r values op : perform (act c r values) = Some op -> reaches_the_money (c, r) = true.
Proof.
  unfold act, reaches_the_money. cbn [snd]. destruct (r_action r) as [consts svc m args|body|]; [|discriminate..]. cbn [perform].
  destruct (all_values _) as [l|]; [|discriminate]. cbn [mbind option_bind].
  unfold named. destruct (List.find _ services) as [e|] eqn:Ef; [|discriminate]. intros _.
  apply existsb_exists. exists e. now apply List.find_some in Ef.
Qed.

(** A request that was answered or refused, by this program's guards, pipes and
    methods: not one that got as far as a call of the other sort. *)
Definition ended (a : exn + answer) : Prop := match a with inr (Pending _) => False | _ => True end.

(** The requests that come, and whatever else leaves the wallets alone. *)
Inductive api_step : World -> World -> Prop :=
  | step_request req s : ended (respond req s).1 -> api_step s (respond req s).2
  | step_elsewhere s s' : s'.(World.wallet_balances) = s.(World.wallet_balances) -> api_step s s'.

Lemma money_needs_a_session req s c r call s' :
  serve application req s = (inr (c, r, call), s') -> reaches_the_money (c, r) = true -> exists p, session req p.
Proof.
  intros E Hm. pose proof (serve_grants req s) as Hs. unfold wp in Hs. rewrite E in Hs.
  destruct Hs as (_ & Hd & [Hp|Hp] & _); [|exact Hp]. apply List.find_some in Hd as [Hin _].
  rewrite (money_is_not_public (c, r) Hin Hp) in Hm. discriminate.
Qed.

(** C5 Whatever requests come whose arguments have the types the two services
    declare, in whatever order and however each ends, the table of wallets stays
    well formed.  A request that changes a balance carries a token that verifies;
    and so does every request that gets as far as a call of the two services at
    all, its arguments of whatever types. *)
Theorem requests_keep_the_wallets :
  (forall s s', rtc api_step s s' -> wallets_ok s.(World.wallet_balances) -> wallets_ok s'.(World.wallet_balances)) /\
  (forall req s, (respond req s).2.(World.wallet_balances) <> s.(World.wallet_balances) -> exists p, session req p) /\
  (forall req s c r call s', serve application req s = (inr (c, r, call), s') -> reaches_the_money (c, r) = true ->
     s'.(World.wallet_balances) = s.(World.wallet_balances) /\ exists p, session req p).
Proof.
  split; [|split].
  - induction 1 as [s|s1 s2 s3 Hstep _ IH]; [auto|]. intros Hok. apply IH. clear IH.
    destruct Hstep as [req s _|s s' ->]; [|exact Hok].
    destruct (respond_cases req s) as [(x & s' & E & He)|(c & r & user & values & s1 & He & _ & _ & _ & E)].
    + rewrite E. cbn [snd]. now rewrite (env_only_keeps_wallets _ _ He).
    + destruct (perform _) as [op|] eqn:Ep; rewrite E; cbn [snd].
      * apply (perform_kept _ _ Ep s1). unfold wallets_inv. now rewrite (env_only_keeps_wallets _ _ He).
      * now rewrite (env_only_keeps_wallets _ _ He).
  - intros req s Hne. destruct (respond_cases req s) as [(x & s' & E & He)|(c & r & user & values & s1 & He & Hd & Hp & _ & E)].
    + rewrite E in Hne. cbn [snd] in Hne. now rewrite (env_only_keeps_wallets _ _ He) in Hne.
    + destruct (perform _) as [op|] eqn:Ep; [|rewrite E in Hne; cbn [snd] in Hne; now rewrite (env_only_keeps_wallets _ _ He) in Hne].
      destruct Hp as [Hp|Hp]; [|exact Hp]. apply perform_reaches in Ep.
      rewrite (money_is_not_public (c, r)) in Ep; [discriminate| |exact Hp]. unfold dispatch in Hd. now apply List.find_some in Hd.
  - intros req s c r call s' E Hm. split; [|exact (money_needs_a_session _ _ _ _ _ _ E Hm)].
    pose proof (serve_grants req s) as Hs. unfold wp in Hs. rewrite E in Hs.
    exact (env_only_keeps_wallets _ _ (proj1 Hs)).
Qed.

(** A validated body of an adjustment. *)
Lemma adjustment_typed fields o : validate AdjustBalanceDto fields = inr o ->
  exists a c d, value_of "accountId" o = JStr a /\ value_of "currency" o = JStr c /\ value_of "delta" o = JNum d /\
    String.length c = 3%nat /\ is_finite d = true /\ (d =? num_of_Z 0)%num = false.
Proof.
  unfold validate. generalize (instantiate AdjustBalanceDto fields). intros o'.
  destruct (errors AdjustBalanceDto o') eqn:E; [|discriminate]. intros [= ->]. pose proof (proj2 (errors_nil _ _ E)) as Hp.
  destruct (Hp _ (or_introl eq_refl)) as [[? _]|[Ha _]]; [discriminate|].
  destruct (Hp _ (or_intror (or_introl eq_refl))) as [[? _]|[Hc _]]; [discriminate|].
  destruct (Hp _ (or_intror (or_intror (or_introl eq_refl)))) as [[? _]|[Hd _]]; [discriminate|].
  cbn [p_checks p_name] in Ha, Hc, Hd. inversion Ha as [|? ? Ha1]; inversion Hc as [|? ? _ Hc2]; inversion Hc2 as [|? ? Hc3];
    inversion Hd as [|? ? Hd1 Hd2]; inversion Hd2 as [|? ? Hd3]; subst.
  destruct (law_string _ _ Ha1) as [a Ea]. destruct (law_length _ _ _ Hc3) as (c & Ec & Hl).
  destruct (law_number _ Hd1) as (d & Ed & Hf). exists a, c, d. repeat (split; [assumption|]). split; [lia|]. split; [exact Hf|].
  cbn [holds] in Hd3. rewrite Ed in Hd3. now apply negb_true_iff.
Qed.

(** C3 An adjustment of a balance over HTTP: one that is refused, for its
    token, its body or its account's funds, changes no table; one that is
    answered had a token that verifies and a body with an account, a currency of
    three letters and a finite delta other than zero, and posted exactly that
    delta to exactly that account. *)
Theorem adjustments_post_what_was_validated req fields s :
  dispatch application (h_verb req) (h_path req) = Some (WalletsController.controller, WalletsController.adjustBalance) ->
  h_body req = JObj fields -> wallets_ok s.(World.wallet_balances) ->
  match respond req s with
  | (inl _, s') => env_only s s'
  | (inr a, s') => a = Done /\ (exists p, session req p) /\ exists o accountId currency delta,
      validate AdjustBalanceDto fields = inr o /\
      value_of "accountId" o = JStr accountId /\ value_of "currency" o = JStr currency /\ value_of "delta" o = JNum delta /\
      String.length currency = 3%nat /\ is_finite delta = true /\ (delta =? num_of_Z 0)%num = false /\
      posted accountId (normalizeCurrencyCode currency) delta s.(World.wallet_balances) s'.(World.wallet_balances)
  end.
Proof.
  intros Hd Hb Hok. destruct (respond_cases req s) as [(x & s' & E & He)|(c & r & user & values & s1 & He & Hd' & Hp & Hv & E)].
  { rewrite E. exact He. }
  rewrite Hd in Hd'. injection Hd' as <- <-.
  cbn [r_params WalletsController.adjustBalance piped] in Hv. unfold piped_value, param_value in Hv.
  cbn [param_source param_key param_ty keyed transform] in Hv. rewrite Hb in Hv.
  replace (find_dto "wallet/dto/adjust-balance.dto" "AdjustBalanceDto") with (Some AdjustBalanceDto) in Hv by now vm_compute.
  cbn [nullish] in Hv. destruct (validate AdjustBalanceDto fields) as [es|o] eqn:Eo; [discriminate|]. injection Hv as <-.
  destruct (adjustment_typed _ _ Eo) as (a & c & d & Ea & Ec & Ed & Hl & Hf & Hz).
  assert (Ep : perform (act WalletsController.controller WalletsController.adjustBalance [("dto", JObj o)]) =
               Some (WalletsService.adjustBalance a c d ;;; ret tt)).
  { unfold act. cbn [r_action WalletsController.adjustBalance bind_consts map eval obj_get String.eqb Ascii.eqb Bool.eqb nullish field].
    fold (value_of "accountId" o) (value_of "currency" o) (value_of "delta" o). rewrite Ea, Ec, Ed. reflexivity. }
  cbn [param_id] in E. rewrite Ep in E. rewrite E. clear E. unfold bind, ret.
  destruct (WalletsService.adjustBalance a c d s1) as [[x|b] s2] eqn:Er; cbn [fst snd].
  { etransitivity; [exact He|]. exact (adjust_throws (WalletsApi := WalletsService_api) _ _ _ _ _ _ Er). }
  split; [reflexivity|]. split; [destruct Hp as [Hp|Hp]; [discriminate|exact Hp]|]. exists o, a, c, d. repeat (split; [assumption||reflexivity|]).
  rewrite <- (env_only_keeps_wallets _ _ He) in Hok |- *.
  destruct (adjust_posts (WalletsApi := WalletsService_api) _ _ _ _ _ _ Hok Er) as (_ & _ & Hpost). now rewrite Hz in Hpost.
Qed.
End Requests.

(** ** At work *)

#[local] Existing Instances decimal_big demo_config no_rates default_limits all_funded demo_jwt documented documented_laws.
#[local] Instance open_guards : AppGuards World :=
  {| external_guard := fun _ _ _ => ret tt; admin_allowed_ips := Some ["10.0.0.0/8"] |}.
Lemma open_guards_kept : forall file req user, keeps env_only (external_guard file req user : M World unit).
Proof. intros file req user s. reflexivity. Defined.

#[local] Instance some_digits : Radix36 := {| toString36 _ := "0.4fzyo82mvyr" |}.

(** Bob has 100.00 USD, under an account whose identifier is a UUID. *)
Definition bobs_world : World :=
  demo_world <| World.wallet_balances := [demo_wallet "w1" bob "USD" (num_of_Z 100)] |>.
Lemma bobs_world_ok : wallets_ok bobs_world.(World.wallet_balances).
Proof.
  split; [split|].
  - apply (bool_decide_unpack _). reflexivity.
  - simpl. intros a b [<-|[]] [<-|[]] Hne; exfalso; apply Hne; reflexivity.
  - constructor; [|constructor]. split; [discriminate | split; [simpl; tauto | reflexivity]].
Defined.

(** Ada's token takes fifty dollars from Bob. *)
Lemma adjustments_post_what_was_validated_witness :
  exists s', respond adjusting bobs_world = (inr Done, s') /\ wallets_ok s'.(World.wallet_balances).
Proof.
  destruct (respond adjusting bobs_world) as [[x|[|call]] s'] eqn:E.
  - pose proof (f_equal (fun r => match r.1 with inl _ => true | inr _ => false end) E) as Hb. vm_compute in Hb. discriminate.
  - exists s'. split; [reflexivity|].
    pose proof (adjustments_post_what_was_validated open_guards_kept adjusting fifty_less bobs_world
      ltac:(vm_compute; reflexivity) eq_refl bobs_world_ok) as Hp.
    rewrite E in Hp. destruct Hp as (_ & _ & o & a & c & d & _ & _ & _ & _ & _ & _ & _ & Hpost). exact (posted_ok _ _ _ _ _ Hpost).
  - pose proof (f_equal (fun r => match r.1 with inr (Pending _) => true | _ => false end) E) as Hb. vm_compute in Hb. discriminate.
Defined.

Definition posting (path : list string) (body : list (string * json)) : HttpRequest :=
  mkHttp Post path (OneHeader "Bearer ada's") [] [] (JObj body) (Some "203.0.113.9").
Definition transferring (body : list (string * json)) : HttpRequest :=
  posting ["api"; "v1"; "api"; "v1"; "transactions"; "transfer"] body.
Definition thirty_for_bob : list (string * json) :=
  [("senderId", JStr "alice"); ("receiverId", JStr "bob"); ("amount", JNum (num_of_Z 30)); ("currency", JStr "USD");
   ("reference", JStr "thanks")].

(** Also of a body with an amount that is no number: it gets to the service,
    with a session. *)
Lemma requests_keep_the_wallets_witness :
  wallets_ok (respond adjusting bobs_world).2.(World.wallet_balances) /\ (exists p, session adjusting p) /\
  let ill_typed := transferring (obj_set "amount" (JStr "30") thirty_for_bob) in
  (exists call, (respond ill_typed bobs_world).1 = inr (Pending call)) /\ exists p, session ill_typed p.
Proof.
  destruct (requests_keep_the_wallets open_guards_kept) as (Hok & Hs & Hr). split; [|split; [|split]].
  - apply (Hok bobs_world); [|exact bobs_world_ok]. apply rtc_once. constructor. vm_compute. exact I.
  - apply (Hs adjusting bobs_world). intros E.
    apply (f_equal (fun l => num_to_string (balance_in l bob "USD"))) in E. vm_compute in E. discriminate.
  - eexists. vm_compute. reflexivity.
  - destruct (serve application (transferring (obj_set "amount" (JStr "30") thirty_for_bob)) bobs_world)
      as [[x|[[c r] call]] s'] eqn:E.
    + pose proof (f_equal (fun r => match r.1 with inl _ => true | inr _ => false end) E) as Hb. vm_compute in Hb. discriminate.
    + refine (proj2 (Hr _ _ _ _ _ _ E _)).
      pose proof (f_equal (fun r => match r.1 with inl _ => false | inr (c, r, _) => reaches_the_money (c, r) end) E) as Hb.
      cbn [fst] in Hb. rewrite <- Hb. vm_compute. reflexivity.
Defined.

(** Her token sends Alice's money to Bob: the body is not validated, since its
    class is an interface, and nobody asks whose account it is. *)
Example anyone_spends_alices_money :
  let r := respond (transferring thirty_for_bob) (trading_world demo_env) in
  result_of r = "ok" /\ printed_balance r.2 "alice" "USD" = "70" /\ printed_balance r.2 "bob" "USD" = "30".
Proof. vm_compute. repeat split. Qed.

(** A refused body leaves the account as it was. *)
Example zero_is_refused :
  let r := respond (posting ["api"; "v1"; "wallets"; "adjust-balance"] (obj_set "delta" (JNum (num_of_Z 0)) fifty_less)) bobs_world in
  result_of r = "delta" /\ printed_balance r.2 bob "USD" = "100".
Proof. vm_compute. repeat split. Qed.
