(* ===== verification/Handlers.v ===== *)
(** Handlers that are more than a call of a service: the cooldown of new
    beneficiaries (modules/wallets/controllers/withdrawal.controller.ts), quotes
    of exchange rates (modules/fx/fx-preview.controller.ts), the bearer token of
    a closure (users/account-closure.controller.ts), Friendbot
    (modules/admin/controllers/system-admin.controller.ts), the preview of a fee
    (modules/transactions/contorllers/transactions.controller.ts), and the exports
    (modules/export/, admin/exports/admin-exports.controller.ts), and three services
    that have little behind them: soroban/soroban-contract.service.ts,
    transaction/batch-processor.service.ts and
    admin/admin-ip-allowlist.middleware.ts. *)
From S2P Require Import Prelude JsNumber NumberLaws Effects RepositoryLaws JsData Json ThirdParty Exports FeeRules Closure Network Dto Configuration.
Local Open Scope Z_scope.

(** What the process keeps: the withdrawals' and the quotes' Maps. *)
Record Quote : Type := mkQuote { q_rate : num; q_expiresAt : Z }.
Module HandlerStore.
Record HandlerStore : Type := mk {
  env : Env;
  beneficiaryCooldowns : list (string * Z);
  quoteCache : list (string * Quote)
}.
#[global] Instance settable : Settable HandlerStore := fun r =>
  mk r.(env) r.(beneficiaryCooldowns) r.(quoteCache).
End HandlerStore.
#[local] Notation Store := HandlerStore.HandlerStore.

#[global] Program Instance HandlerStore_env : HasEnv Store := {|
  env_of := HandlerStore.env;
  set_env e w := w <| HandlerStore.env := e |>
|}.

(** ** Withdrawals to new beneficiaries *)

Module WithdrawalController.
Record WithdrawalDto : Type := mkDto { amount : num; currency : string; beneficiaryId : string }.
Record Withdrawal : Type := mkAnswer {
  transactionId : string;
  userId : string;
  w_amount : num;
  w_currency : string;
  w_beneficiaryId : string;
  createdAt : Z
}.

Definition BENEFICIARY_COOLDOWN_MS : Z := 24 * 60 * 60 * 1000.
Definition cooling : exn :=
  ForbiddenException "New beneficiary requires a 24-hour cooldown before first transfer use".
Definition cooldownKey (userId beneficiaryId : string) : string := userId +:+ ":" +:+ beneficiaryId.

(** A time of zero is no time. *)
Definition firstSeenAt (key : string) (s : Store) : option Z :=
  match map_get key s.(HandlerStore.beneficiaryCooldowns) with
  | Some t => if t =? 0 then None else Some t
  | None => None
  end.

Definition initiateWithdrawal (userId : string) (dto : WithdrawalDto) : M Store Withdrawal :=
  let key := cooldownKey userId (beneficiaryId dto) in
  let* first := gets (firstSeenAt key) in
  let* now := date_now in
  match first with
  | None =>
      modify (fun s => s <| HandlerStore.beneficiaryCooldowns := map_set key now s.(HandlerStore.beneficiaryCooldowns) |>) ;;;
      throw cooling
  | Some t =>
      throw_if (now - t <? BENEFICIARY_COOLDOWN_MS) cooling ;;;
      let* drawn := date_now in
      let* written := date_now in
      ret (mkAnswer ("txn_" +:+ string_of_Z drawn) userId (amount dto) (currency dto) (beneficiaryId dto) written)
  end.
End WithdrawalController.
Import WithdrawalController.

(** ** Quotes *)

Module FxPreviewController.
Record FxPreviewResponse : Type := mkPreview {
  fromCurrency : string;
  toCurrency : string;
  fromAmount : num;
  toAmount : num;
  rate : num;
  fee : num;
  quoteId : string;
  expiresAt : Z
}.

Definition same_currency (a b : option string) : bool :=
  match a, b with Some a, Some b => String.eqb a b | None, None => true | _, _ => false end.

Section Previews.
Context `{Radix36}.

Definition getPreview (from to amount : option string) : M Store FxPreviewResponse :=
  let fromAmount := parseFloat (default "0" amount) in
  let* rate := (if same_currency from to then ret (num_of_Z 1)
                else let* r := math_random in
                     ret (fixed_num 6 (num_of_ratio 85 100 + r * num_of_ratio 3 10)%num)) in
  let fee := fixed_num 8 (fromAmount * num_of_ratio 5 1000)%num in
  let toAmount := fixed_num 8 ((fromAmount - fee) * rate)%num in
  let* now := date_now in
  let* draw := math_random in
  let quoteId := "q_" +:+ string_of_Z now +:+ "_" +:+ slice 2 8 (toString36 draw) in
  let* now' := date_now in
  let expiresAt := now' + 30000 in
  modify (fun s => s <| HandlerStore.quoteCache := map_set quoteId (mkQuote rate expiresAt) s.(HandlerStore.quoteCache) |>) ;;;
  ret (mkPreview (default "" from) (default "" to) fromAmount toAmount rate fee quoteId expiresAt).
End Previews.
End FxPreviewController.

(** ** Closing an account *)

Module AccountClosureController.
Definition missing : exn := BadRequestException "Bearer access token is required".

Definition extractBearerToken (authorization : option string) : exn + string :=
  match authorization with
  | Some a =>
      if starts_with "Bearer " a then
        let token := trim (slice 7 (String.length a) a) in
        if str_truthy token then inr token else inl missing
      else inl missing
  | None => inl missing
  end.

Section Closing.
Context `{Digests} `{JwtService} `{ConfigService}.
Definition closeAccount (authorization : option string) (currentPassword twoFactorCode : string) : M Closure.Store AccountClosureResult :=
  let* accessToken := lift (extractBearerToken authorization) in
  AccountClosureService.closeAccount accessToken currentPassword twoFactorCode.
End Closing.

Record DataExport : Type := mkExport { exportId : string; requestedAt : Z; e_expiresAt : Z; sections : list string }.
Definition exportData (userId : option string) : M Store DataExport :=
  let* now := date_now in
  let* requested := date_now in
  let* now' := date_now in
  ret (mkExport ("exp_" +:+ string_of_Z now +:+ "_" +:+ match userId with Some u => slice 0 6 u | None => "usr" end)
         requested (now' + 48 * 3600000)
         ["profile"; "wallets"; "transactions"; "notification_preferences"; "audit_logs"]).
End AccountClosureController.

(** ** Friendbot *)

Module SystemAdminController.
Definition is_unreserved (c : ascii) : bool :=
  let n := Z.of_nat (nat_of_ascii c) in
  ((48 <=? n) && (n <=? 57)) || ((65 <=? n) && (n <=? 90)) || ((97 <=? n) && (n <=? 122)) ||
  existsb (Ascii.eqb c) ["-"; "_"; "."; "!"; "~"; "*"; "'"; "("; ")"]%char.
Definition hex_digit (n : nat) : ascii := default "0"%char (String.get n "0123456789ABCDEF").
(** The bytes of a string are those of its UTF-8. *)
Fixpoint encodeURIComponent (s : string) : string :=
  match s with
  | "" => ""
  | String c s =>
      (if is_unreserved c then String c "" else
         String "%" (String (hex_digit (nat_of_ascii c / 16)) (String (hex_digit (nat_of_ascii c mod 16)) ""))) +:+
      encodeURIComponent s
  end.

(** Friendbot's answer to the n-th request: the hash, if it has one. *)
Class Friendbot : Type := { friendbot : nat -> string -> option string }.

Record Funded : Type := mkFunded { f_address : string; f_hash : option string }.
Section Fund.
Context `{ConfigService} `{Friendbot} {S : Type} `{HasEnv S} (process_env : string -> option string).

Definition network : option string :=
  match config_string "STELLAR_NETWORK" with Some n => Some n | None => process_env "STELLAR_NETWORK" end.
Definition nodeEnv : option string :=
  match config_string "app.env" with Some e => Some e | None => process_env "NODE_ENV" end.
Definition available : bool :=
  match network with Some n => String.eqb (toUpperCase n) "TESTNET" | None => false end &&
  negb match nodeEnv with Some e => String.eqb e "production" | None => false end.

Definition friendbot_url (address : string) : string :=
  "https://friendbot.stellar.org?addr=" +:+ encodeURIComponent address.

Definition fundWallet (address : string) : M S Funded :=
  throw_if (negb available)
    (ForbiddenException "Friendbot is only available on STELLAR_NETWORK=TESTNET in non-production environments") ;;;
  let* n := gets (fun s => calls (env_of s)) in
  db_call ;;;
  ret (mkFunded address (friendbot n (friendbot_url address))).
End Fund.
End SystemAdminController.

(** ** The preview of a fee *)

Module FeePreviewController.
Record FeePreview : Type := mkFeePreview {
  p_amount : num;
  p_currency : string;
  p_type : string;
  estimatedFee : option AppliedFeeSnapshot;  (* without one: a fee of zero of the rule NONE *)
  totalAmount : num
}.
Section Fees.
Context {S R : Type} `{FeeRule R} `{Row R} `{HasEnv S} `{!Table S Tier} `{!Table S R}.

Definition feePreview (amount : num) (currency type : string) : M S FeePreview :=
  let* snapshot := FeeEngineService.evaluate amount currency None None in
  ret (mkFeePreview amount currency type snapshot
         (amount + match snapshot with Some s => sn_feeAmount s | None => num_of_Z 0 end)%num).
End Fees.
End FeePreviewController.

(** ** Contracts *)

Module SorobanContractService.
(** [success: true] comes with an empty result and a hash that is a constant. *)
Inductive Invocation : Type := Invoked (txHash : string) | NotInvoked.
Definition isValidContractId (contractId : string) : bool :=
  starts_with "C" contractId && (String.length contractId =? 56)%nat.
Section Invoke.
Context `{ConfigService}.
Definition invokeContract (contractId : string) : Invocation :=
  if opt_truthy (config_string "STELLAR_SOROBAN_RPC_URL") && isValidContractId contractId
  then Invoked "tx_hash_placeholder" else NotInvoked.
End Invoke.
End SorobanContractService.

(** ** Batches *)

Module BatchProcessorService.
Record BatchTransactionItem : Type := mkItem { recipientAddress : string; b_amount : string; memoId : option string }.
Record BatchProcessingResult : Type := mkResult {
  batchId : string;
  totalItems : Z;
  successCount : Z;
  failureCount : Z;
  transactionHashes : list string
}.
Section Batch.
Context {S : Type} `{HasEnv S}.

Definition submitSingleTransaction (from : string) (item : BatchTransactionItem) : M S string := ret "tx_hash_placeholder".

(** Each item is submitted; one that throws is counted. *)
Definition process_item (submit : BatchTransactionItem -> M S string) (acc : list string * Z * Z) (item : BatchTransactionItem) :
    M S (list string * Z * Z) :=
  let '(results, successes, failures) := acc in
  let* submitted := attempt (submit item) in
  ret (match submitted with
       | inr txHash => (results ++ [txHash], successes + 1, failures)
       | inl _ => (results, successes, failures + 1)
       end).

Definition processBatch (items : list BatchTransactionItem) (sourceAddress : string) : M S BatchProcessingResult :=
  let* now := date_now in
  let* ' (results, successes, failures) := fold_each items ([], 0, 0) (process_item (submitSingleTransaction sourceAddress)) in
  ret (mkResult ("batch_" +:+ string_of_Z now) (Z.of_nat (length items)) successes failures results).
End Batch.
End BatchProcessorService.

(** ** The addresses of an administrator *)

(** admin/admin-ip-allowlist.entity.ts *)
Module AdminIpAllowlist.
Record AdminIpAllowlist : Type := mk {
  id : string;
  adminUserId : string;
  ipCidr : string;
  label : option string;
  addedAt : Z
}.
#[global] Instance settable : Settable AdminIpAllowlist := fun r =>
  mk r.(id) r.(adminUserId) r.(ipCidr) r.(label) r.(addedAt).
End AdminIpAllowlist.

#[global] Program Instance AdminIpAllowlist_row : Row AdminIpAllowlist.AdminIpAllowlist := {|
  row_id := AdminIpAllowlist.id;
  set_row_id i e := e <| AdminIpAllowlist.id := i |>;
  created t e := e <| AdminIpAllowlist.addedAt := t |>;
  touched t e := e;
  live e := true;
  clash a b := false
|}.

Module AdminIpAllowlistMiddleware.
Section Middleware.
Context {S : Type} `{HasEnv S} `{!Table S AdminIpAllowlist.AdminIpAllowlist} (process_env : string -> option string).

Definition isIpInCidr (ip cidr : string) : bool := true.

Definition validateAdminIp (adminUserId requestIp : string) : M S bool :=
  if match process_env "ADMIN_IP_ALLOWLIST_BYPASS" with Some v => String.eqb v "true" | None => false end then ret true
  else
    let* allowlist := find_all (fun e => String.eqb e.(AdminIpAllowlist.adminUserId) adminUserId) in
    match allowlist with
    | [] => ret true
    | _ =>
        if existsb (fun e => isIpInCidr requestIp e.(AdminIpAllowlist.ipCidr)) allowlist then ret true
        else throw (ForbiddenException "Admin IP not in allowlist")
    end.
End Middleware.
End AdminIpAllowlistMiddleware.

(** ** Exports *)

Module ExportController.
(** The search of transactions and the wallets of a user, whose rows are objects,
    and [String(value)] of a column's value. *)
Class ExportSources (S : Type) : Type := {
  search : list (string * json) -> string -> M S (list json);
  getWalletsByUser : string -> M S (list json);
  text_of : json -> string
}.

Definition field (k : string) (row : json) : json :=
  match row with JObj o => default JUndefined (obj_get k o) | _ => JUndefined end.
Definition transaction_columns : list string := ["id"; "amount"; "currency"; "status"; "description"; "createdAt"].
Definition wallet_columns : list string :=
  ["id"; "name"; "type"; "status"; "availableBalance"; "escrowBalance"; "publicKey"; "createdAt"].

(** What is sent: a file, or JSON. *)
Inductive Sent : Type := File (filename text : string) | Json (body : json).

Section Exporting.
Context {S : Type} `{ExportSources S}.

(** [null] and [undefined] have no text. *)
Definition cell_text (j : json) : option string := if nullish j then None else Some (text_of j).
Definition columns (l : list string) : list (string * (json -> option string)) :=
  map (fun k => (k, fun row => cell_text (field k row))) l.
Definition answer (data : list json) : json := JObj [("success", JBool true); ("data", JArr data)].

Definition exportTransactions (userId : string) (format : option string) (from to : json) : M S Sent :=
  let* data := search [("page", JNum (num_of_Z 1)); ("limit", JNum (num_of_Z 10000)); ("from", from); ("to", to)] userId in
  ret (match format with
       | Some "csv" => File "transactions.csv" (ExportService.convertToCsv data (columns transaction_columns))
       | _ => Json (answer data)
       end).

Definition picked (w : json) : json := JObj (map (fun k => (k, field k w)) wallet_columns).
Definition exportBalances (userId : string) (format : option string) : M S Sent :=
  let* wallets := getWalletsByUser userId in
  let data := map picked wallets in
  ret (match format with
       | Some "csv" => File "balances.csv" (ExportService.convertToCsv data (columns wallet_columns))
       | _ => Json (answer data)
       end).
End Exporting.
End ExportController.

Module AdminExportsController.
(** Bull's queue: the id of the job it makes, a job's data and state. *)
Record Job : Type := mkJob { state : string; returnvalue : option (string * Z) }.
Class ExportsQueue (S : Type) : Type := {
  add : list (string * json) -> M S string;
  getJob : string -> M S (option Job)
}.
Record Status : Type := mkStatus { s_jobId : string; s_status : string; downloadUrl : option string; s_expiresAt : option Z }.

Section Controller.
Context {S : Type} (exportsQueue : option (ExportsQueue S)).

Definition createExport (dto : list (string * json)) (email : json) : M S (string * string) :=
  throw_if (negb match obj_get "format" dto with Some (JStr f) => String.eqb f "csv" | _ => false end)
    (BadRequestException "Only the csv format is currently supported") ;;;
  let* jobId := (match exportsQueue with
                 | Some Q => @add S Q (obj_set "requestedByEmail" email dto)
                 | None => ret "export-queued"
                 end) in
  ret (jobId, "queued").

Definition getStatus (jobId : string) : M S Status :=
  let* job := (match exportsQueue with Some Q => @getJob S Q jobId | None => ret None end) in
  match job with
  | None => throw (NotFoundException "Export job not found")
  | Some job =>
      let result := if String.eqb (state job) "completed" then returnvalue job else None in
      ret (mkStatus jobId (state job) (option_map fst result) (option_map snd result))
  end.

End Controller.

(** [res.download(filePath)] of what the storage resolves. *)
Definition download `{DownloadTokens} (jobId token : string) : M Exports.Store string :=
  ExportStorageService.resolve jobId token.
End AdminExportsController.

(** ** Health *)

Module HealthService.
Definition check {S} `{HasEnv S} : M S (string * string) :=
  let* asked := attempt db_call in
  ret (match asked with inr _ => ("healthy", "connected") | inl _ => ("unhealthy", "disconnected") end).
End HealthService.

(** ** What they promise *)

Section Cooldown.
Notation Request := (string * WithdrawalDto)%type.

Definition now_of (s : Store) : Z := clock (env_of s) (tick (env_of s)).
(** The requests, one after the other, and when each came. *)
Definition after (l : list Request) (s : Store) : Store := fold_left (fun s '(u, d) => (initiateWithdrawal u d s).2) l s.
Fixpoint trace (l : list Request) (s : Store) : list (string * string * Z) :=
  match l with
  | [] => []
  | (u, d) :: l => (u, beneficiaryId d, now_of s) :: trace l (initiateWithdrawal u d s).2
  end.
Definition first_request (u b : string) (t : list (string * string * Z)) : option Z :=
  option_map snd (List.find (fun '(u', b', t) => String.eqb u' u && String.eqb b' b && negb (t =? 0)) t).

Definition uncoloned (c : ascii) : bool := negb (Ascii.eqb c ":").
(** An identifier without a colon ends where the last colon is. *)
Lemma cooldownKey_inj u u' b b' : all_chars uncoloned b = true -> all_chars uncoloned b' = true ->
  cooldownKey u b = cooldownKey u' b' -> u = u' /\ b = b'.
Proof.
  unfold cooldownKey. intros Hb Hb'. revert u'. induction u as [|c u IH]; intros [|c' u'] E.
  - now injection E.
  - injection E as <- E. change (b = u' +:+ ":" +:+ b') in E. subst b.
    rewrite !all_chars_app in Hb. apply andb_true_iff in Hb as [_ Hb]. discriminate.
  - injection E as -> E. change (u +:+ ":" +:+ b = b') in E. subst b'.
    rewrite !all_chars_app in Hb'. apply andb_true_iff in Hb' as [_ Hb']. discriminate.
  - change (String c (u +:+ ":" +:+ b) = String c' (u' +:+ ":" +:+ b')) in E. injection E as <- E.
    destruct (IH _ E) as [-> ->]. now split.
Qed.

(** What a request does to the times. *)
Lemma firstSeenAt_step u d k s :
  firstSeenAt k (initiateWithdrawal u d s).2 =
  match firstSeenAt k s with
  | Some t => Some t
  | None => if String.eqb (cooldownKey u (beneficiaryId d)) k && negb (now_of s =? 0) then Some (now_of s) else None
  end.
Proof.
  unfold initiateWithdrawal, bind, gets, date_now, modify, throw, throw_if.
  destruct (firstSeenAt (cooldownKey u (beneficiaryId d)) s) as [t|] eqn:E.
  - assert (Hsame : firstSeenAt k s = match firstSeenAt k s with Some t => Some t | None =>
        if String.eqb (cooldownKey u (beneficiaryId d)) k && negb (now_of s =? 0) then Some (now_of s) else None end).
    { destruct (firstSeenAt k s) eqn:Ek; [reflexivity|]. destruct (String.eqb_spec (cooldownKey u (beneficiaryId d)) k); [congruence|reflexivity]. }
    destruct (_ <? _); exact Hsame.
  - cbn [snd]. unfold firstSeenAt in *. cbn. destruct (String.eqb_spec (cooldownKey u (beneficiaryId d)) k) as [<-|Hne].
    + rewrite map_get_set, E. change (clock (HandlerStore.env s) (tick (HandlerStore.env s))) with (now_of s). now destruct (now_of s =? 0).
    + rewrite map_get_set_ne by assumption. destruct (match map_get k _ with Some t => _ | None => _ end); reflexivity.
Qed.

Lemma firstSeenAt_after l u b s :
  Forall (fun r => all_chars uncoloned (beneficiaryId r.2) = true) l -> all_chars uncoloned b = true ->
  firstSeenAt (cooldownKey u b) (after l s) =
  match firstSeenAt (cooldownKey u b) s with Some t => Some t | None => first_request u b (trace l s) end.
Proof.
  intros Hl Hb. revert s. induction Hl as [|[u' d] l Hd Hl IH]; intros s; [change (after [] s) with s; now destruct (firstSeenAt _ s)|].
  cbn [after fold_left trace]. fold (after l (initiateWithdrawal u' d s).2). rewrite IH, firstSeenAt_step.
  destruct (firstSeenAt _ s); [reflexivity|]. unfold first_request at 2. cbn [List.find snd] in *.
  destruct (String.eqb_spec (cooldownKey u' (beneficiaryId d)) (cooldownKey u b)) as [E|Hne].
  - destruct (cooldownKey_inj _ _ _ _ Hd Hb E) as [-> ->]. rewrite !String.eqb_refl. cbn [andb].
    now destruct (now_of s =? 0).
  - cbn [andb]. destruct (String.eqb_spec u' u) as [->|]; [|reflexivity].
    destruct (String.eqb_spec (beneficiaryId d) b); [congruence|reflexivity].
Qed.

(** A withdrawal is answered exactly when its user first asked for its
    beneficiary a day or more before, whatever withdrawals were asked for in
    between: the first request, which is always refused, is what starts the day,
    and no other user's or beneficiary's request does. *)
Theorem cooldown_runs_from_the_first_request l u d s :
  s.(HandlerStore.beneficiaryCooldowns) = [] ->
  Forall (fun r => all_chars uncoloned (beneficiaryId r.2) = true) l -> all_chars uncoloned (beneficiaryId d) = true ->
  let s' := after l s in
  match first_request u (beneficiaryId d) (trace l s), (initiateWithdrawal u d s').1 with
  | Some t, inr w => t + BENEFICIARY_COOLDOWN_MS <= now_of s' /\ userId w = u /\ w_beneficiaryId w = beneficiaryId d /\ w_amount w = amount d
  | Some t, inl x => now_of s' < t + BENEFICIARY_COOLDOWN_MS /\ x = cooling
  | None, r => r = inl cooling
  end.
Proof.
  intros Hs Hl Hb. cbv zeta. pose proof (firstSeenAt_after l u (beneficiaryId d) s Hl Hb) as E.
  assert (E0 : firstSeenAt (cooldownKey u (beneficiaryId d)) s = None) by (unfold firstSeenAt; now rewrite Hs). rewrite E0 in E.
  unfold initiateWithdrawal, bind, gets, date_now, modify, throw, throw_if. cbv beta iota. rewrite E.
  destruct (first_request _ _ _) as [t|]; [|reflexivity]. fold (now_of (after l s)).
  destruct (Z.ltb_spec (now_of (after l s) - t) BENEFICIARY_COOLDOWN_MS); cbn [fst]; repeat split; lia.
Qed.
End Cooldown.

Lemma substring_all s : String.substring 0 (String.length s) s = s.
Proof. induction s as [|c s IH]; [reflexivity|]. cbn. now rewrite IH. Qed.

Section Closures.
Context `{Digests} `{JwtService} `{ConfigService}.

(** An account is closed with the token of the header, and without one nothing
    is done. *)
Theorem closures_take_a_bearer_token token password code s :
  token <> "" -> all_chars unspaced token = true ->
  AccountClosureController.closeAccount (Some ("Bearer " +:+ token)) password code s = AccountClosureService.closeAccount token password code s.
Proof.
  intros Hne Hu. unfold AccountClosureController.closeAccount, AccountClosureController.extractBearerToken.
  replace (slice 7 (String.length ("Bearer " +:+ token)) ("Bearer " +:+ token)) with token.
  - rewrite trim_unspaced by assumption. destruct token as [|c token]; [now destruct Hne|reflexivity].
  - unfold slice. change (String.length ("Bearer " +:+ token) - 7)%nat with (String.length token - 0)%nat. rewrite Nat.sub_0_r.
    symmetry. exact (substring_all token).
Qed.
End Closures.

Section Funding.
Import SystemAdminController.
Context `{ConfigService} `{Friendbot} {S : Type} `{HasEnv S} (process_env : string -> option string).

(** Friendbot is asked only on the test network and outside production; elsewhere
    nothing happens at all. *)
Theorem friendbot_is_for_testnet address s :
  match fundWallet process_env address s with
  | (inr _, _) => available process_env = true
  | (inl x, s') => available process_env = false /\ s' = s \/ available process_env = true /\ env_fault (env_of s) x
  end.
Proof.
  unfold fundWallet, throw_if. destruct (available process_env); cbn [negb]; [|left; now split].
  unfold bind at 1. cbn. unfold bind, gets, db_call. destruct (fault (env_of s) (calls (env_of s))) as [x|] eqn:E; [|reflexivity].
  right. split; [reflexivity|]. now exists (calls (env_of s)).
Qed.

(** An address adds no parameter to the request. *)
Definition encoded_char (c : ascii) : bool := is_unreserved c || Ascii.eqb c "%".
Lemma encoded_address s : all_chars encoded_char (encodeURIComponent s) = true.
Proof.
  induction s as [|c s IH]; [reflexivity|]. cbn [encodeURIComponent]. rewrite all_chars_app, IH, andb_true_r.
  destruct (is_unreserved c) eqn:E; cbn [all_chars]; unfold encoded_char at 1; [now rewrite E|].
  destruct c as [[] [] [] [] [] [] [] []]; reflexivity.
Qed.
End Funding.

Section Previews.
Context {S R : Type} `{FeeRule R} `{Row R} `{HasEnv S} `{!Table S Tier} `{!Table S R}.
Import FeePreviewController.

(** The preview of a fee is the engine's simulation without a promotion. *)
Theorem preview_is_the_simulation amount currency type s :
  match feePreview amount currency type s, FeeEngineService.simulate amount currency None s with
  | (inr p, s'), (inr m, s'') => s' = s'' /\ estimatedFee p = si_appliedFee m /\ totalAmount p = si_totalAmount m
  | (inl x, s'), (inl x', s'') => s' = s'' /\ x = x'
  | _, _ => False
  end.
Proof.
  unfold feePreview, FeeEngineService.simulate, bind. destruct (FeeEngineService.evaluate _ _ _ _ s) as [[x|o] s']; now repeat split.
Qed.
End Previews.

Section Batches.
Import BatchProcessorService.
Context {S : Type} `{HasEnv S}.

Lemma processed (submit : BatchTransactionItem -> M S string) items results successes failures (s : S) :
  exists hashes n s', fold_each items (results, successes, failures) (process_item submit) s =
    (inr (results ++ hashes, successes + Z.of_nat (length hashes), failures + n), s') /\
    0 <= n /\ Z.of_nat (length hashes) + n = Z.of_nat (length items).
Proof.
  revert results successes failures s. induction items as [|i items IH]; intros results successes failures s.
  - exists [], 0, s. rewrite app_nil_r, !Z.add_0_r. now repeat split.
  - cbn [fold_each]. unfold bind, process_item at 1, attempt. unfold bind. destruct (submit i s) as [[x|h] s1]; unfold ret.
    + destruct (IH results successes (failures + 1) s1) as (hs & n & s2 & E & Hn & Hl). exists hs, (n + 1), s2.
      rewrite E. replace (failures + (n + 1)) with (failures + 1 + n) by lia. split; [reflexivity|]. cbn [length]. lia.
    + destruct (IH (results ++ [h]) (successes + 1) failures s1) as (hs & n & s2 & E & Hn & Hl). exists (h :: hs), n, s2.
      rewrite E, <- app_assoc. cbn [length app]. replace (successes + Z.of_nat (Datatypes.S (length hs))) with (successes + 1 + Z.of_nat (length hs)) by lia.
      split; [reflexivity|]. lia.
Qed.

(** Every item of a batch is counted once, as a success with its hash or as a
    failure; the service's own submission never fails. *)
Theorem batches_count_every_item items source (s : S) :
  exists r s', processBatch items source s = (inr r, s') /\
    totalItems r = Z.of_nat (length items) /\ successCount r + failureCount r = totalItems r /\
    successCount r = Z.of_nat (length (transactionHashes r)) /\ 0 <= failureCount r.
Proof.
  unfold processBatch, bind at 1, date_now. unfold bind.
  match goal with |- context [fold_each items _ (process_item ?f) ?s1] => destruct (processed f items [] 0 0 s1) as (hs & n & s2 & E & Hn & Hl) end.
  rewrite E. do 2 eexists. split; [reflexivity|]. cbn [totalItems successCount failureCount transactionHashes].
  change ([] ++ hs) with hs. lia.
Qed.
End Batches.

Section Addresses.
Import AdminIpAllowlistMiddleware.
Context {S : Type} `{HasEnv S} `{!Table S AdminIpAllowlist.AdminIpAllowlist} (process_env : string -> option string).

(** No address is refused: what is listed makes no difference. *)
Theorem every_address_is_allowed adminUserId requestIp (s : S) :
  wp (validateAdminIp process_env adminUserId requestIp) (fun b s' => b = true /\ env_only s s')
     (fun x s' => env_only s s' /\ env_fault (env_of s) x) s.
Proof.
  unfold validateAdminIp. destruct (match process_env _ with Some v => _ | None => _ end).
  { split; [reflexivity|]. reflexivity. }
  apply wp_bind, wp_find_all; cbv beta.
  - intros e' x He Hx. split; [|exact Hx]. now apply env_only_set.
  - intros e' He. destruct (List.filter _ _) as [|e l]; apply wp_ret; (split; [reflexivity|]); now apply env_only_set.
Qed.
End Addresses.

Section Downloads.
Import ExportController.
Context {S : Type} `{ExportSources S}.

(** A column of a row as a cell of the file. *)
Definition cell_of (k : string) (row : json) : string :=
  default "" (cell_text (field k row)).

Lemma file_reads_back (data : list json) l :
  (2 <= length l)%nat -> Forall (fun k => needs_quotes k = false) l ->
  read_csv (ExportService.convertToCsv data (columns l)) = l :: map (fun row => map (fun k => cell_of k row) l) data.
Proof.
  intros Hn Hl. assert (E : map fst (columns l) = l) by (unfold columns; rewrite map_map; apply map_id).
  rewrite csv_reads_back; [|unfold columns; now rewrite length_map|now rewrite E].
  rewrite E. f_equal. apply map_ext. intros row. unfold columns. rewrite map_map. reflexivity.
Qed.

(** The file of the transactions reads back as what the search found, each row
    with its six columns, whatever the texts in it; without one it is the rows
    themselves. *)
Theorem exported_transactions_read_back userId format from to s s' sent :
  exportTransactions userId format from to s = (inr sent, s') ->
  exists data, search [("page", JNum (num_of_Z 1)); ("limit", JNum (num_of_Z 10000)); ("from", from); ("to", to)] userId s = (inr data, s') /\
    match sent with
    | File _ text => format = Some "csv" /\ read_csv text = transaction_columns :: map (fun row => map (fun k => cell_of k row) transaction_columns) data
    | Json body => format <> Some "csv" /\ body = JObj [("success", JBool true); ("data", JArr data)]
    end.
Proof.
  unfold exportTransactions, bind. destruct (search _ userId s) as [[x|data] s1]; [discriminate|]. intros [= <- <-].
  exists data. split; [reflexivity|]. destruct (decide (format = Some "csv")) as [->|Hf].
  - split; [reflexivity|]. apply (file_reads_back data transaction_columns); [simpl; lia | repeat constructor].
  - destruct format as [f|]; [|now split]. destruct (String.eqb_spec f "csv") as [->|Hne]; [congruence|].
    repeat (destruct f as [|[[] [] [] [] [] [] [] []] f]; try (now split)).
Qed.

(** The wallets' file has eight columns; none of a wallet's other fields leaves. *)
Theorem exported_balances_read_back userId s s' sent :
  exportBalances userId (Some "csv") s = (inr sent, s') ->
  exists wallets text, getWalletsByUser userId s = (inr wallets, s') /\ sent = File "balances.csv" text /\
    read_csv text = wallet_columns :: map (fun w => map (fun k => cell_of k (picked w)) wallet_columns) wallets.
Proof.
  unfold exportBalances, bind. destruct (getWalletsByUser userId s) as [[x|ws] s1]; [discriminate|]. intros [= <- <-].
  exists ws. eexists. split; [reflexivity|]. split; [reflexivity|].
  etransitivity; [apply (file_reads_back (map picked ws) wallet_columns); [simpl; lia | repeat constructor]|]. now rewrite map_map.
Qed.
End Downloads.

(** ** At work *)

Definition day_by_day : Env :=
  mkEnv (fun n => 1700000000000 + Z.of_nat n * 86400000) 0 (fun _ => None) 0 (fun _ => ("u"%char, "")) 0 (fun _ => num_of_ratio 1 2) 0 [].
Definition morning : Store := HandlerStore.mk day_by_day [] [].
Definition to_bob : WithdrawalDto := mkDto (num_of_Z 25) "USD" "bob".

Lemma one_uncoloned : Forall (fun r => all_chars uncoloned (beneficiaryId r.2) = true) [("ada", to_bob)].
Proof. repeat constructor. Defined.

(** The clock moves a day at each reading: the second request is answered. *)
Lemma cooldown_runs_from_the_first_request_witness :
  (initiateWithdrawal "ada" to_bob morning).1 = inl cooling /\
  match (initiateWithdrawal "ada" to_bob (after [("ada", to_bob)] morning)).1 with inr w => w_amount w = num_of_Z 25 | inl _ => False end /\
  (initiateWithdrawal "eve" to_bob (after [("ada", to_bob)] morning)).1 = inl cooling.
Proof.
  pose proof (cooldown_runs_from_the_first_request [("ada", to_bob)] "ada" to_bob morning eq_refl
    one_uncoloned eq_refl) as Ha.
  pose proof (cooldown_runs_from_the_first_request [("ada", to_bob)] "eve" to_bob morning eq_refl
    one_uncoloned eq_refl) as He.
  split; [reflexivity|]. split; [|exact He].
  cbv zeta in Ha. replace (first_request _ _ _) with (Some 1700000000000) in Ha by reflexivity.
  destruct (initiateWithdrawal _ _ _).1 as [x|w] eqn:E; [|tauto].
  pose proof (f_equal (fun r => match r with inl _ => true | inr _ => false end) E) as Hc. vm_compute in Hc. discriminate.
Defined.

(** The day begins again when the process does: the times are in its memory. *)
Example restarts_forget : (initiateWithdrawal "ada" to_bob ((after [("ada", to_bob)] morning) <| HandlerStore.beneficiaryCooldowns := [] |>)).1 = inl cooling.
Proof. reflexivity. Qed.

(** A quote that is half way between the least and the greatest. *)
Example a_quote :
  let '(r, s) := FxPreviewController.getPreview (H := {| toString36 _ := "0.i0000000" |}) (Some "USD") (Some "EUR") (Some "100") morning in
  match r with
  | inr p => (FxPreviewController.rate p, FxPreviewController.fee p, FxPreviewController.toAmount p) =
      (num_of_Z 1, num_of_ratio 1 2, num_of_ratio 199 2) /\
      map fst s.(HandlerStore.quoteCache) = [FxPreviewController.quoteId p] /\ FxPreviewController.quoteId p = "q_1700000000000_i00000"
  | inl _ => False
  end.
Proof. now vm_compute. Qed.

Example an_address_is_one_parameter :
  SystemAdminController.encodeURIComponent "GA&amount=1 #" = "GA%26amount%3D1%20%23".
Proof. reflexivity. Qed.

(** No contract is called, and its result is a success. *)
Example contracts_are_not_invoked :
  SorobanContractService.invokeContract (H := {| config_number _ := None; config_string _ := Some "https://soroban"; config_bool _ := None; config_list _ := None |})
    ("C" +:+ String.concat "" (repeat "A" 55)) = SorobanContractService.Invoked "tx_hash_placeholder".
Proof. reflexivity. Qed.
